(* ===== verification/_CoqProject ===== *)
-Q . S2P
Prelude.v
Patterns.v
CanonicalRows.v
AppendLog.v
RecordStores.v
Bytes.v
Json.v
JsonText.v
Regex.v
CanonicalJson.v
JsonSnapshot.v
ProtocolTypes.v
Envelope.v
ArtifactStore.v
JobQueue.v
Retention.v
Timestamps.v
Base64Url.v
Transparency.v
ReviewChain.v
Schema.v
Registry.v
Values.v
ClaimSafety.v
TypeGenerator.v
TypeSoundness.v
GeneratedTypes.v
TextDecoder.v
SubmissionFixtures.v
ReviewEventLog.v
Signing.v
Release.v
SubmittedArtifacts.v
Receipts.v
Intake.v
IntakeReceipt.v
StaticPackage.v
CustomerFindings.v
Worker.v
WorkerSamples.v
EventIdentity.v
ReviewSemantics.v
SubmissionEvents.v
Classification.v
ReviewLog.v
Lifecycle.v
Totp.v
Recognisers.v
Sessions.v
Identity.v
