(* ===== verification/Prelude.v ===== *)
(** CodeAttest: a verification library for the evidence store, the protocol
    package and the identity store of the repository.

    The program takes signed evidence of a code review, keeps it in append-only
    stores, and lets a verifier check what was kept. Its parts and the files that
    model them (paths are under src/):

    - packages/protocol-ts/src/canonical-identity.ts, json-snapshot.ts:
      [Json] is JSON data, the RFC 8785 canonical text, JSON.stringify and
      JSON.parse; [JsonText] the text lemmas; [CanonicalJson] the UTF-8 bytes,
      SHA-256 identities, identities with excluded fields, canonical rows;
      [JsonSnapshot] the bounded copy of untrusted data.
    - packages/protocol-ts/src/validation.ts and generated/protocol-v0-schemas.ts:
      [Schema] is the validator, [Registry] every schema of the registry,
      [Timestamps] the UTC timestamps (and the control plane's parser of them).
    - packages/protocol-ts/src/claim-safety.ts and generated/claim-safety-policy.ts:
      [Regex] is the regular expressions of the language (parser, matcher and what it
      is to match), [ClaimSafety] the screens of customer-visible text, [Recognisers]
      that the hand-written recognisers of [Patterns] are the patterns they stand for.
    - scripts/lib/protocol-types-generator.mjs and generated/protocol-v0.ts:
      [TypeGenerator] turns a schema into a type and gives types a meaning,
      [TypeSoundness] relates the validator to that meaning, [GeneratedTypes] is the
      generated file, proved to be what the generator writes for the registry.
    - packages/protocol-ts/src/submitted-artifact-semantics.ts and
      vendor-receipt-verification.ts, verified-submission-chain.ts:
      [SubmittedArtifacts] and [Receipts].
    - packages/protocol-ts/src/epic-5-semantics.ts: [StaticPackage] the checks of a static
      bundle's manifest and portal, and the rules of scripts/lib/protocol-utils.mjs that
      they were taken from. packages/protocol-ts/src/customer-facing-finding-semantics.ts:
      [CustomerFindings] the rules of a finding record shown to customers.
    - packages/signing/src and protocol-ts/src/identity-signing.ts: [Base64Url],
      [Signing] the key directory, signed envelopes and their verifier, [Release]
      runner releases and key custody.
    - services/worker/src/index.ts: [Worker] turns a received submission's scanner
      findings into review finding drafts; [WorkerSamples] runs it on a submission that
      intake accepted and gave a receipt.
    - services/intake/src/index.ts: [Intake] decides whether a submission may get a
      receipt, [IntakeReceipt] prepares and completes the receipt and writes the
      outcome; [TextDecoder] is the platform's UTF-8 decoder, [SubmissionFixtures]
      a complete submission built from protocol/fixtures.
    - packages/protocol-ts/src/review-event-log.ts, transparency-verify.ts and
      packages/evidence-store/src/transparency/: [ReviewEventLog] the check of a
      stored log, [Transparency] Merkle checkpoints and inclusion proofs,
      [ReviewChain] the chain head of a review and the publication of checkpoints.
    - packages/evidence-store/src: [AppendLog] the event logs, [RecordStores] the
      classification, retention, gate and readiness records, [Envelope] the
      envelope encryption, [ArtifactStore] the artifact bytes and their deletion
      evidence, [JobQueue] the job queue, [Retention] the expiry of retained
      artifacts. Each store has a memory and a Postgres adapter; both are modelled
      and proved to agree.
    - packages/identity-store/src: [Sessions] the web sessions, [Identity] the
      submission credentials, login throttle, accounts, TOTP steps and grants, [Totp]
      the codes, secret hashing and session tokens.
    - apps/control-plane/src/index.ts: [EventIdentity] reads an event's typed
      references and idempotency key, [ReviewSemantics] is the rules an event obeys
      by itself and its identity, [ReviewLog] the append of a review event, the
      replay of a stored log and the customer's view of it, [SubmissionEvents] the rules,
      event and notice of a submission's outcome, [Classification] the rules and event of
      a reviewer's classification, [Lifecycle] the evidence
      lifecycle log, retention opt-in, scoped access and minimization.
    - [Prelude] (this file) holds JavaScript Maps, strict equality, calls that
      throw, stable sorting and shared list lemmas; [Patterns] the regular
      expressions of the protocol; [CanonicalRows] the interface between a record
      type and its stored text; [Bytes] hexadecimal text and the hash interface;
      [ProtocolTypes] the record types of the stores; [Values] the readings of JSON
      values that the checks share, and what is true of them.

    How state corresponds to the code. A memory adapter's Map is an
    insertion-ordered association list ([JsMap]); a Postgres table is the list of
    its rows, with its constraints (primary and foreign keys, CHECKs) as boolean checks
    that reject an insert, and a statement is one step on it. A handler is a function from the state to its
    answer and the next state; a call that may throw returns [throws]. Where the
    order of statements matters ([AppendLog.PostgresLog]) a call is a program
    counter and calls interleave statement by statement.

    Interfaces. [CanonicalRows], [Sha256], [Aes256Gcm], [LifecycleLog], [JobQueue],
    [PurgeableArtifacts], [TextScreens] (the protocol's phrase screens), [UnicodeText]
    (case mapping and normal forms), [NodeCrypto], [NodeDigests] and [GcmBytes] (the
    platform's cryptography) and [Canonicalize] (the package canonicalize, which writes
    the protocol's text wherever the protocol has one, and whose text determines a value
    among JSON data; with an undefined member it does not) are type classes: the clients are
    proved against them, the adapters are instances ([ClaimSafety] implements
    [TextScreens]), and so are, for runs on samples, small stand-ins. Date.parse,
    localeCompare and the conversion of text to an integer are parameters.

    What the theorems show. Logs are append-only, keep strictly increasing
    sequence numbers, and treat an idempotency key as a name for one body; under
    concurrent calls of the Postgres log, whatever its lock does, what is stored stays
    and every answer had its reason in a table the call read. Memory and Postgres adapters answer
    alike over every run that satisfies the stated preconditions: what the columns of a
    table admit, and rows whose digests are apart where the events are. Canonical text determines the value up to key order, and
    identities bind every field they cover. Inclusion proofs are sound and
    complete, chain heads bind the events. Reads of artifacts are logged before
    bytes are returned. A claimed job is nobody else's until it is completed, failed or
    released as stale. The retention drain terminates when every job is due, and does not
    purge twice; of the jobs it completes, the bytes that were asked for are gone, or the
    store answered not_verified for them, or the job is reported as refused. It does not
    terminate when a job is not yet due. Validation terminates on the whole registry, and an
    closed object schema accepts exactly what its keywords say. Sessions end when they
    are revoked, expire or idle; throttle, credentials and TOTP steps are as their
    comments promise. A signature is verified only under a key in force. A submission
    found eligible for a receipt is one bound object with every byte accounted for; its
    receipt is prepared from nothing else, an honest signature completes it, and only a
    verified receipt of the same submission makes an outcome "received"; every outcome
    intake builds keeps the control plane's rules, and the events recorded of outcomes and
    of classifications name what they record. A draft set is
    normalized only from a received and verified submission whose scan covered it, its
    drafts partition the candidates by file, in an order that does not depend on the
    order of the candidates, and a draft claims shipped
    evidence only where the bundle shipped it. An accepted static bundle covers exactly the
    references it declares; the script's rules accept no manifest that the port refuses,
    and the port accepts some that the script refuses. A clean finding record shows an
    outcome exactly when its flag, references and section agree. Every pattern
    of the registry is read and answered exactly, and what the validator accepts has the
    generated type. Theorems named after a defect state where the code does not
    do what its comments say.

    Bounds and fuel. Integers of JavaScript are [Z] with the safe-integer checks
    the code makes; numbers that are not integers are not represented. The
    encoder's fuel is the depth limit 64 of the code. [Schema.validateSchemaValue]
    takes fuel for the chains of $ref; ten is enough for every schema of the
    registry, and more fuel never changes an answer. Merkle verification has fuel
    54, more than the 53 halvings a safe integer allows. The retention drain takes
    fuel and is proved to finish with one more than the number of jobs.

    Collision resistance is never assumed globally: theorems that need it name the
    finite list of inputs that must not collide ([Bytes.collision_free]), or the events
    of a run whose digests must be apart ([CanonicalRows.digests_identify]).

    Not modelled: HTTP, rendering, process start-up and database connections
    (input and output); the Rust runner; the scripts other than the type generator and
    the rules above; proxies, accessors and cyclic JavaScript objects. Of the control
    plane, the builders of guidance, validation, verification, attestation and pilot
    artifacts and their workflow projections are left out: they are a layer over the event
    log modelled here. Left out too is the writer of the static bundle. *)
From Stdlib Require Export ZArith Lia Ascii String Sorting.Sorted.
From stdpp Require Export base gmap sets strings option sorting list.

(** * JavaScript values shared by the components *)

#[global] Arguments String.append : simpl nomatch.

Declare Scope js_scope.
Delimit Scope js_scope with js.
(* JavaScript's strict equality on primitive values. *)
Notation "a === b" := (bool_decide (a = b)) (at level 70, no associativity) : js_scope.
Notation "a !== b" := (negb (bool_decide (a = b))) (at level 70, no associativity) : js_scope.
Open Scope js_scope.

(** A call that may throw. *)
Inductive throws (A : Type) : Type :=
  | Ret (a : A)
  | Throw (message : string).
Arguments Ret {A} a.
Arguments Throw {A} message.

#[export] Instance throws_ret : MRet throws := λ A a, Ret a.
#[export] Instance throws_bind : MBind throws := λ A B f m,
  match m with Ret a => f a | Throw e => Throw e end.
#[export] Instance throws_eq_dec `{EqDecision A} : EqDecision (throws A).
Proof. solve_decision. Defined.

Lemma Ret_inj {A} (x y : A) : Ret x = Ret y → x = y.
Proof. by intros [= ->]. Qed.
Lemma bind_Ret {A B} (m : throws A) (f : A → throws B) w : (m ≫= f) = Ret w ↔ ∃ v, m = Ret v ∧ f v = Ret w.
Proof. destruct m as [v|msg]; split; [by exists v|by intros (? & [= ->] & ?)|done|by intros (? & ? & _)]. Qed.

(** [Number.MAX_SAFE_INTEGER] and [Number.isSafeInteger] on integers. *)
Definition MAX_SAFE_INTEGER : Z := 9007199254740991.
Definition isSafeInteger (n : Z) : bool :=
  ((- MAX_SAFE_INTEGER <=? n) && (n <=? MAX_SAFE_INTEGER))%Z.

(** * Tactics *)

(* Split every match and decision of the goal and close the contradictory cases. *)
Ltac js_cases :=
  repeat first [ progress simplify_eq/= | case_bool_decide | case_decide | case_match ].

Ltac bool_simpl :=
  repeat match goal with
  | H : (_ && _)%bool = true |- _ => apply andb_prop in H as [? ?]
  | H : (_ || _)%bool = false |- _ => apply orb_false_elim in H as [? ?]
  | H : negb _ = true |- _ => apply negb_true_iff in H
  | H : negb _ = false |- _ => apply negb_false_iff in H
  | H : bool_decide _ = true |- _ => apply bool_decide_eq_true in H
  | H : bool_decide _ = false |- _ => apply bool_decide_eq_false in H
  end.

Create HintDb js discriminated.


(** * JavaScript [Map]: insertion-ordered association *)

Module JsMap.
Section jsmap.
Context {K V : Type} `{EqDecision K}.
Implicit Types (k : K) (v : V) (m : list (K * V)).

Fixpoint get k m : option V :=
    match m with
    | [] => None
    | (k', v) :: m' => if decide (k = k') then Some v else get k m'
    end.

Definition has k m : bool := bool_decide (is_Some (get k m)).

  (* [Map.prototype.set] keeps the position of a key that is present. *)
Fixpoint set k v m : list (K * V) :=
    match m with
    | [] => [(k, v)]
    | (k', v') :: m' => if decide (k = k') then (k', v) :: m' else (k', v') :: set k v m'
    end.

Fixpoint delete k m : list (K * V) :=
    match m with
    | [] => []
    | (k', v') :: m' => if decide (k = k') then delete k m' else (k', v') :: delete k m'
    end.

Definition keys m : list K := m.*1.
Definition values m : list V := m.*2.

Lemma get_set k k' v m : get k' (set k v m) = if decide (k = k') then Some v else get k' m.
Proof. induction m as [|[k0 v0] m IH]; js_cases; congruence. Qed.
Lemma get_set_eq k v m : get k (set k v m) = Some v.
Proof. rewrite get_set. by rewrite decide_True. Qed.
Lemma get_set_ne k k' v m : k ≠ k' → get k' (set k v m) = get k' m.
Proof. intros. rewrite get_set. by rewrite decide_False. Qed.

Lemma get_delete k k' m : get k' (delete k m) = if decide (k = k') then None else get k' m.
Proof. induction m as [|[k0 v0] m IH]; js_cases; congruence. Qed.
Lemma get_delete_eq k m : get k (delete k m) = None.
Proof. rewrite get_delete. by rewrite decide_True. Qed.
Lemma get_delete_ne k k' m : k ≠ k' → get k' (delete k m) = get k' m.
Proof. intros. rewrite get_delete. by rewrite decide_False. Qed.

Lemma has_true k m : has k m = true ↔ is_Some (get k m).
Proof. unfold has. by rewrite bool_decide_eq_true. Qed.
Lemma has_false k m : has k m = false ↔ get k m = None.
Proof. unfold has. rewrite bool_decide_eq_false. by rewrite <- eq_None_not_Some. Qed.

Lemma keys_cons k v m : keys ((k, v) :: m) = k :: keys m.
Proof. done. Qed.
Lemma get_None k m : get k m = None ↔ k ∉ keys m.
Proof.
    induction m as [|[k0 v0] m IH]; [set_solver|].
    rewrite keys_cons, not_elem_of_cons, <- IH. simpl. case_decide; [|tauto]. split; [done|tauto].
Qed.

Lemma set_fresh k v m : get k m = None → set k v m = m ++ [(k, v)].
Proof.
    induction m as [|[k0 v0] m IH]; [done|]. simpl. case_decide; [done|].
    intros. by rewrite IH.
Qed.
Lemma keys_set k v m : keys (set k v m) = if decide (k ∈ keys m) then keys m else keys m ++ [k].
Proof.
    induction m as [|[k0 v0] m IH]; [done|].
    simpl. destruct (decide (k = k0)) as [->|Hne].
    - rewrite decide_True; [done | apply list_elem_of_here].
    - change (keys ((k0, v0) :: set k v m)) with (k0 :: keys (set k v m)). rewrite IH.
      change (keys ((k0, v0) :: m)) with (k0 :: keys m).
      destruct (decide (k ∈ keys m)) as [H|H].
      + rewrite decide_True; [done | by apply list_elem_of_further].
      + rewrite decide_False; [done | by intros [->|?]%elem_of_cons].
Qed.
Lemma NoDup_keys_set k v m : NoDup (keys m) → NoDup (keys (set k v m)).
Proof.
    rewrite keys_set. destruct (decide _) as [H|H]; [done|].
    intros Hm. apply NoDup_app. split; [done|split; [|apply NoDup_singleton]].
    by intros x Hx ->%list_elem_of_singleton.
Qed.

Lemma elem_of_keys_delete x k m : x ∈ keys (delete k m) → x ∈ keys m.
Proof.
    induction m as [|[k0 v0] m IH]; [done|]. rewrite keys_cons. simpl.
    case_decide; rewrite ?keys_cons, ?elem_of_cons; tauto.
Qed.
Lemma NoDup_keys_delete k m : NoDup (keys m) → NoDup (keys (delete k m)).
Proof.
    induction m as [|[k0 v0] m IH]; [done|].
    rewrite keys_cons, NoDup_cons; intros [??]. simpl. case_decide; [by apply IH|].
    rewrite keys_cons, NoDup_cons. split; [|by apply IH]. by intros ?%elem_of_keys_delete.
Qed.
Lemma get_in k v m : get k m = Some v → (k, v) ∈ m.
Proof.
  induction m as [|[k' w] m IH]; [done|]. simpl. case_decide as E; [intros [= ->]; subst; left|intros Hg; right; by apply IH].
Qed.
Lemma elem_of_get k v m : NoDup (keys m) → (k, v) ∈ m ↔ get k m = Some v.
Proof.
    induction m as [|[k0 v0] m IH]; [set_solver|].
    rewrite keys_cons, NoDup_cons; intros [Hk0 Hnd]. rewrite elem_of_cons. simpl.
    destruct (decide (k = k0)) as [->|Hne].
    - split; [intros [[=]|Hin]; [by subst|]|intros [=]; subst; auto].
      destruct Hk0. unfold keys. apply list_elem_of_fmap. by exists (k0, v).
    - rewrite <- IH by done. split; [intros [[=]|]; done|auto].
Qed.
End jsmap.
End JsMap.
Create Rewrite HintDb jsmap.
#[export] Hint Rewrite @JsMap.get_set_eq @JsMap.get_delete_eq : jsmap.
#[export] Hint Rewrite @JsMap.get_set_ne @JsMap.get_delete_ne using done : jsmap.
#[export] Hint Resolve JsMap.NoDup_keys_set JsMap.NoDup_keys_delete : js.

(** * Boolean searches over arrays *)

Section find_lemmas.
Context {A : Type}.
Implicit Types (p : A → bool) (l : list A).

Lemma find_Some_elem p l x : List.find p l = Some x → x ∈ l ∧ p x = true.
Proof. intros [??]%List.find_some. by rewrite list_elem_of_In. Qed.
Lemma find_None_forall p l : List.find p l = None ↔ ∀ x, x ∈ l → p x = false.
Proof.
    split.
    - intros Hf x Hx%list_elem_of_In. by eapply List.find_none.
    - intros H. induction l as [|a l IH]; [done|]. simpl. rewrite (H a) by set_solver.
      apply IH. set_solver.
Qed.
Lemma find_app p l1 l2 :
    List.find p (l1 ++ l2) = match List.find p l1 with Some x => Some x | None => List.find p l2 end.
Proof. induction l1 as [|a l1 IH]; [done|]. simpl. by destruct (p a). Qed.
Lemma existsb_elem p l : existsb p l = true ↔ ∃ x, x ∈ l ∧ p x = true.
Proof. rewrite List.existsb_exists. by setoid_rewrite list_elem_of_In. Qed.
Lemma existsb_false p l : existsb p l = false ↔ ∀ x, x ∈ l → p x = false.
Proof.
    rewrite <- not_true_iff_false, existsb_elem. split.
    - intros H x Hx. destruct (p x) eqn:E; [|done]. destruct H; eauto.
    - intros H (x & Hx & E). rewrite H in E; done.
Qed.
Lemma forallb_elem p l : forallb p l = true ↔ ∀ x, x ∈ l → p x = true.
Proof. rewrite List.forallb_forall. by setoid_rewrite list_elem_of_In. Qed.
Lemma forallb_false p l : forallb p l = false → ∃ x, x ∈ l ∧ p x = false.
Proof.
  induction l as [|x l IH]; [done|]. simpl. destruct (p x) eqn:Hx; [|exists x; split; [apply list_elem_of_here|done]].
  intros (y & Hy & ?)%IH. exists y. split; [by apply list_elem_of_further|done].
Qed.
End find_lemmas.

(* Two elements of a list that a function without repetitions on it does not tell apart. *)
Lemma distinct_by {A B} (f : A → B) l x y : NoDup (List.map f l) → x ∈ l → y ∈ l → f x = f y → x = y.
Proof.
  induction l as [|a l IH]; [set_solver|]. cbn [List.map]. rewrite NoDup_cons, !elem_of_cons. intros [Ha Hnd].
  assert (∀ z, z ∈ l → f z ≠ f a) as Hz. { intros z Hz E0. apply Ha. rewrite <- E0. by apply list_elem_of_In, in_map, list_elem_of_In. }
  intros [->|Hx] [->|Hy] E0; [done| | |by apply IH]; exfalso; [by apply (Hz y)|by apply (Hz x)].
Qed.
(* A test of finitely many integers, by evaluation. *)
Lemma forall_range (p : Z → bool) (lo len n : Z) :
  forallb p (seqZ lo len) = true → (lo ≤ n < lo + len)%Z → p n = true.
Proof. intros Hp Hn. apply (proj1 (forallb_elem _ _) Hp). by apply elem_of_seqZ. Qed.
Lemma forallb_map {A B} (p : B → bool) (f : A → B) l : forallb p (List.map f l) = forallb (λ x, p (f x)) l.
Proof. induction l as [|x l IH]; [done|]. simpl. by rewrite IH. Qed.
Lemma forallb_pointwise {A} (p q : A → bool) l : (∀ x, p x = q x) → forallb p l = forallb q l.
Proof. intros Hpq. induction l as [|x l IH]; [done|]. simpl. by rewrite Hpq, IH. Qed.

(** * The order of JavaScript's relational operators on strings *)

Definition str_ltb (a b : string) : bool :=
  match String.compare a b with Lt => true | _ => false end.
Definition str_leb (a b : string) : bool := negb (str_ltb b a).

Lemma string_compare_refl a : String.compare a a = Eq.
Proof.
  induction a as [|c a IH]; [done|]. simpl. unfold Ascii.compare. by rewrite N.compare_refl.
Qed.
Lemma str_ltb_irrefl a : str_ltb a a = false.
Proof. unfold str_ltb. by rewrite string_compare_refl. Qed.
Lemma str_ltb_cons c d a b :
  str_ltb (String c a) (String d b) =
    ((N_of_ascii c <? N_of_ascii d)%N || ((N_of_ascii c =? N_of_ascii d)%N && str_ltb a b))%bool.
Proof.
  unfold str_ltb. simpl. unfold Ascii.compare.
  destruct (N.compare_spec (N_of_ascii c) (N_of_ascii d)) as [E|E|E].
  - rewrite E, N.ltb_irrefl, N.eqb_refl. done.
  - by rewrite (proj2 (N.ltb_lt _ _)) by lia.
  - rewrite (proj2 (N.ltb_ge _ _)), (proj2 (N.eqb_neq _ _)) by lia. done.
Qed.
Lemma str_ltb_trans a b c : str_ltb a b = true → str_ltb b c = true → str_ltb a c = true.
Proof.
  revert b c; induction a as [|x a IH]; intros [|y b] [|z c]; try done.
  rewrite !str_ltb_cons, !orb_true_iff, !andb_true_iff, !N.ltb_lt, !N.eqb_eq.
  intros [?|[??]] [?|[??]]; [left; lia..|]. right; split; [lia|eauto].
Qed.
Lemma str_ltb_total a b : str_ltb a b = true ∨ a = b ∨ str_ltb b a = true.
Proof.
  unfold str_ltb. rewrite (String.compare_antisym b a). destruct (String.compare a b) eqn:E; simpl; auto.
  right; left. by apply String.compare_eq_iff.
Qed.
Lemma str_ltb_asym a b : str_ltb a b = true → str_ltb b a = false.
Proof.
  intros H. apply not_true_iff_false. intros H'.
  pose proof (str_ltb_trans _ _ _ H H') as T. by rewrite str_ltb_irrefl in T.
Qed.

(** * [Array.prototype.sort]: stable, by a comparator *)

Section sort.
Context {A : Type} (cmp : A → A → Z).

Fixpoint insertBy (x : A) (l : list A) : list A :=
    match l with
    | [] => [x]
    | y :: l' => if (cmp x y <=? 0)%Z then x :: y :: l' else y :: insertBy x l'
    end.
Fixpoint sortBy (l : list A) : list A :=
    match l with [] => [] | x :: l' => insertBy x (sortBy l') end.

Lemma insertBy_perm x l : insertBy x l ≡ₚ x :: l.
Proof. induction l as [|y l IH]; simpl; [done|]. case_match; [done|]. rewrite IH. apply Permutation_swap. Qed.
Lemma sortBy_perm l : sortBy l ≡ₚ l.
Proof. induction l as [|x l IH]; simpl; [done|]. by rewrite insertBy_perm, IH. Qed.
Lemma elem_of_sortBy x l : x ∈ sortBy l ↔ x ∈ l.
Proof. by rewrite sortBy_perm. Qed.
Lemma length_sortBy l : length (sortBy l) = length l.
Proof. by rewrite sortBy_perm. Qed.

Definition cmp_le (x y : A) : Prop := (cmp x y ≤ 0)%Z.
Hypothesis cmp_total : ∀ x y, (cmp x y ≤ 0)%Z ∨ (cmp y x ≤ 0)%Z.
Hypothesis cmp_trans : ∀ x y z, (cmp x y ≤ 0)%Z → (cmp y z ≤ 0)%Z → (cmp x z ≤ 0)%Z.

Lemma insertBy_sorted x l : StronglySorted cmp_le l → StronglySorted cmp_le (insertBy x l).
Proof.
    induction 1 as [|y l Hl IH Hy]; simpl; [by repeat constructor|].
    destruct (Z.leb_spec (cmp x y) 0) as [Hxy|Hxy].
    - constructor; [by constructor|]. constructor; [done|].
      eapply Forall_impl; [exact Hy|]. intros z. by apply cmp_trans.
    - constructor; [done|]. rewrite insertBy_perm. constructor; [|done].
      unfold cmp_le. destruct (cmp_total x y); [lia|done].
Qed.
Lemma sortBy_sorted l : StronglySorted cmp_le (sortBy l).
Proof. induction l as [|x l IH]; simpl; [constructor|]. by apply insertBy_sorted. Qed.
End sort.

Lemma insertBy_id {A} (cmp : A → A → Z) x l :
  (∀ y, y ∈ l → (cmp x y ≤ 0)%Z) → insertBy cmp x l = x :: l.
Proof.
  destruct l as [|y l]; [done|]. intros H. simpl.
  by rewrite (proj2 (Z.leb_le _ _)) by (apply H; set_solver).
Qed.
Lemma sortBy_id {A} (cmp : A → A → Z) l : StronglySorted (cmp_le cmp) l → sortBy cmp l = l.
Proof.
  induction 1 as [|x l Hl IH Hx]; [done|]. simpl. rewrite IH. apply insertBy_id.
  intros y Hy. by apply (proj1 (Forall_forall _ _) Hx).
Qed.

(** Sorting by a numeric key that does not repeat. *)
Section sort_key.
Context {A : Type} (f : A → Z).
Local Open Scope Z_scope.

Lemma strictly_sorted_sorted l :
    StronglySorted (λ a b, f a < f b) l → StronglySorted (cmp_le (λ a b, f a - f b)) l.
Proof.
    induction 1 as [|x l Hl IH Hx]; constructor; [done|].
    eapply Forall_impl; [exact Hx|]. unfold cmp_le. intros; simpl in *; lia.
Qed.
Lemma strictly_sorted_inj l x y :
    StronglySorted (λ a b, f a < f b) l → x ∈ l → y ∈ l → f x = f y → x = y.
Proof.
    induction 1 as [|z l Hl IH Hz]; [set_solver|].
    rewrite Forall_forall in Hz. rewrite !elem_of_cons.
    intros [->|Hx] [->|Hy] E; [done| | |auto].
    - specialize (Hz y Hy). simpl in Hz. lia.
    - specialize (Hz x Hx). simpl in Hz. lia.
Qed.
Lemma sortBy_key_unique l l' :
    l ≡ₚ l' → StronglySorted (λ a b, f a < f b) l → sortBy (λ a b, f a - f b) l' = l.
Proof.
    intros Hp Hl. symmetry. eapply StronglySorted_unique_strong;
      [|by apply strictly_sorted_sorted|apply sortBy_sorted; lia|by rewrite sortBy_perm].
    intros x y Hx Hy. rewrite elem_of_sortBy, <- Hp in Hy. unfold cmp_le. intros.
    eapply strictly_sorted_inj; eauto. lia.
Qed.
Lemma sortBy_key_strict l :
    NoDup (f <$> l) → StronglySorted (λ a b, f a < f b) (sortBy (λ a b, f a - f b) l).
Proof.
    intros Hnd. assert (NoDup (f <$> sortBy (λ a b, f a - f b) l)) as Hnd' by (by rewrite sortBy_perm).
    assert (StronglySorted (cmp_le (λ a b, f a - f b)) (sortBy (λ a b, f a - f b) l)) as Hs
      by (apply sortBy_sorted; lia).
    revert Hnd'. induction Hs as [|x l' Hl IH Hx]; [constructor|].
    rewrite fmap_cons, NoDup_cons. intros [Hni Hnd']. constructor; [by apply IH|].
    rewrite Forall_forall in Hx |- *. intros y Hy. specialize (Hx y Hy). unfold cmp_le in Hx.
    assert (f x ≠ f y); [|lia]. intros E. apply Hni. rewrite E. by apply list_elem_of_fmap_2.
Qed.
End sort_key.

(** Rows with a unique key, as a map and as a table. *)
Section keyed.
Context {A : Type} (key : A → string).
Lemma get_keyed k (rows : list A) :
  JsMap.get k (List.map (λ x, (key x, x)) rows) = List.find (λ x, key x === k) rows.
Proof.
  induction rows as [|x rows IH]; [done|]. cbn [List.map JsMap.get List.find]. case_decide.
  - by rewrite bool_decide_true.
  - rewrite bool_decide_false by congruence. exact IH.
Qed.
Lemma find_keyed_None k (rows : list A) : List.find (λ x, key x === k) rows = None → k ∉ List.map key rows.
Proof.
  intros Hf (x & <- & Hin)%list_elem_of_In%in_map_iff. by apply (find_none _ _ Hf), bool_decide_eq_false in Hin.
Qed.
Lemma head_filter_keyed k (rows : list A) (p : A → bool) : NoDup (List.map key rows) →
  head (List.filter (λ x, (key x === k) && p x)%bool rows) =
  match List.find (λ x, key x === k) rows with Some x => if p x then Some x else None | None => None end.
Proof.
  induction rows as [|x rows IH]; [done|]. cbn [List.map List.filter List.find]. intros [Hx Hnd]%NoDup_cons.
  case_bool_decide as E0; cbn [andb]; [|by apply IH]. destruct (p x); [done|]. rewrite IH by done.
  destruct (List.find _ rows) as [x'|] eqn:Hf; [|done]. exfalso. apply find_some in Hf as [Hin E1%bool_decide_eq_true].
  apply Hx. rewrite E0, <- E1. apply list_elem_of_In. by apply in_map.
Qed.
End keyed.
