(* ===== verification/Patterns.v ===== *)
(** The regular expressions the sources test identifiers with, as executable
    boolean functions and small deterministic parsers, and decimal numerals.
    In every pattern the delimiter [:] lies outside the character classes, so
    splitting at the first colon is what the regular expression engine does. *)
From S2P Require Import Prelude.
From Stdlib Require Import DecimalString DecimalN.

Local Open Scope string_scope.

(** * Character classes *)

Definition in_class (lo hi c : ascii) : bool :=
  (Ascii.leb lo c && Ascii.leb c hi)%bool.
Definition is_lower : ascii → bool := in_class "a" "z".
Definition is_upper : ascii → bool := in_class "A" "Z".
Definition is_digit : ascii → bool := in_class "0" "9".
(* [a-z0-9_-] *)
Definition is_slug_char (c : ascii) : bool :=
  (is_lower c || is_digit c || Ascii.eqb c "_" || Ascii.eqb c "-")%bool.
(* [a-f0-9] *)
Definition is_hex_char (c : ascii) : bool := (in_class "a" "f" c || is_digit c)%bool.

Lemma in_class_spec lo hi c :
  in_class lo hi c = true ↔ (N_of_ascii lo ≤ N_of_ascii c ≤ N_of_ascii hi)%N.
Proof.
  unfold in_class, Ascii.leb, Ascii.compare. rewrite andb_true_iff.
  destruct (N.compare_spec (N_of_ascii lo) (N_of_ascii c)), (N.compare_spec (N_of_ascii c) (N_of_ascii hi)); split; (lia || intuition (done || lia)).
Qed.

Fixpoint all_chars (p : ascii → bool) (s : string) : bool :=
  match s with
  | EmptyString => true
  | String c s' => (p c && all_chars p s')%bool
  end.

(* [a-z0-9][a-z0-9_-]{2,63} *)
Definition isSlug (s : string) : bool :=
  match s with
  | EmptyString => false
  | String c r => ((is_lower c || is_digit c) && all_chars is_slug_char r
                   && (2 <=? String.length r)%nat && (String.length r <=? 63)%nat)%bool
  end.

(* [a-f0-9]{64} *)
Definition SHA256_HEX_PATTERN (s : string) : bool :=
  (all_chars is_hex_char s && (String.length s =? 64)%nat)%bool.

(** * Literals and fields *)

(** [strip p s] matches the literal [p] at the start of [s]. *)
Fixpoint strip (p s : string) : option string :=
  match p, s with
  | EmptyString, _ => Some s
  | String c p', String d s' => if Ascii.eqb c d then strip p' s' else None
  | String _ _, EmptyString => None
  end.

(** [field s] is the text up to the first colon and what follows the colon. *)
Fixpoint field (s : string) : string * option string :=
  match s with
  | EmptyString => ("", None)
  | String c s' =>
      if Ascii.eqb c ":" then ("", Some s')
      else let '(a, r) := field s' in (String c a, r)
  end.

Lemma length_append a b : String.length (a +:+ b) = (String.length a + String.length b)%nat.
Proof. induction a as [|c a IH]; [done|]. simpl. by rewrite IH. Qed.
Definition startsWith (p s : string) : bool := bool_decide (is_Some (strip p s)).

(* s.slice(n) and s.slice(m, n) for 0 <= m <= n *)
Fixpoint str_drop (n : nat) (s : string) : string :=
  match n, s with
  | S n', String _ s' => str_drop n' s'
  | _, _ => s
  end.
Fixpoint str_take (n : nat) (s : string) : string :=
  match n, s with
  | S n', String c s' => String c (str_take n' s')
  | _, _ => EmptyString
  end.
Definition slice (m n : nat) (s : string) : string := str_take (n - m) (str_drop m s).
Definition endsWith (p s : string) : bool :=
  ((String.length p <=? String.length s)%nat && bool_decide (str_drop (String.length s - String.length p) s = p))%bool.

(* ^review:[a-z0-9][a-z0-9_-]{2,63}$ *)
Definition REVIEW_ID_PATTERN (s : string) : bool :=
  match strip "review:" s with Some r => isSlug r | None => false end.
(* ^sha256:[a-f0-9]{64}$ *)
Definition SHA256_ID_PATTERN (s : string) : bool :=
  match strip "sha256:" s with Some r => SHA256_HEX_PATTERN r | None => false end.

(** * Decimal numerals *)

(** [Number(decimal)] on a string of decimal digits. *)
Definition number_of_digits (s : string) : option Z :=
  match NilEmpty.uint_of_string s with
  | Some u => Some (Z.of_N (N.of_uint u))
  | None => None
  end.

(** [String(n)] for a non-negative integer. *)
Definition string_of_number (n : Z) : string := NilEmpty.string_of_uint (N.to_uint (Z.to_N n)).

(* [1-9][0-9]* *)
Definition is_positive_decimal (s : string) : bool :=
  match s with
  | EmptyString => false
  | String c r => (in_class "1" "9" c && all_chars is_digit r)%bool
  end.

(** * Lemmas *)

Lemma strip_app p s : strip p (p ++ s) = Some s.
Proof. induction p as [|c p IH]; [by destruct s|]. simpl. by rewrite Ascii.eqb_refl. Qed.
Lemma strip_Some p s r : strip p s = Some r → s = p ++ r.
Proof.
  revert s; induction p as [|c p IH]; intros s; [by intros [= ->]|].
  destruct s as [|d s]; [done|]. simpl. destruct (Ascii.eqb_spec c d) as [->|]; [|done].
  intros ?. simpl. f_equal. by apply IH.
Qed.

Lemma all_chars_app p s t : all_chars p (s ++ t) = (all_chars p s && all_chars p t)%bool.
Proof. induction s as [|c s IH]; [done|]. simpl. by rewrite IH, andb_assoc. Qed.
Lemma all_chars_impl (p q : ascii → bool) s :
  (∀ c, p c = true → q c = true) → all_chars p s = true → all_chars q s = true.
Proof. intros Hpq. induction s as [|c s IH]; [done|]. simpl. intros; bool_simpl. by rewrite Hpq, IH. Qed.

Definition no_colon (s : string) : bool := all_chars (λ c, negb (Ascii.eqb c ":")) s.

Lemma field_colon s r : no_colon s = true → field (s ++ String ":" r) = (s, Some r).
Proof.
  unfold no_colon. induction s as [|c s IH]; [done|]. simpl. intros H; bool_simpl.
  rewrite H. by rewrite IH.
Qed.
Lemma field_end s : no_colon s = true → field s = (s, None).
Proof.
  unfold no_colon. induction s as [|c s IH]; [done|]. simpl. intros H; bool_simpl.
  rewrite H. by rewrite IH.
Qed.
Lemma field_Some s a r : field s = (a, Some r) → s = a ++ String ":" r ∧ no_colon a = true.
Proof.
  revert a; induction s as [|c s IH]; intros a; [done|]. simpl.
  destruct (Ascii.eqb_spec c ":") as [->|Hc]; [by intros [= <- ->]|].
  destruct (field s) as [a' r'] eqn:E. intros [= <- ->].
  destruct (IH a' eq_refl) as [-> Ha]. split; [done|]. unfold no_colon in *. simpl.
  rewrite Ha, andb_true_r. by destruct (Ascii.eqb_spec c ":").
Qed.
Lemma field_None s a : field s = (a, None) → a = s ∧ no_colon s = true.
Proof.
  revert a; induction s as [|c s IH]; intros a; [by intros [= <-]|]. simpl.
  destruct (Ascii.eqb_spec c ":") as [->|Hc]; [done|].
  destruct (field s) as [a' r'] eqn:E. intros [= <- ->].
  destruct (IH a' eq_refl) as [-> Ha]. split; [done|]. unfold no_colon in *. simpl.
  rewrite Ha, andb_true_r. by destruct (Ascii.eqb_spec c ":").
Qed.

Lemma slug_char_no_colon c : is_slug_char c = true → negb (Ascii.eqb c ":") = true.
Proof. destruct (Ascii.eqb_spec c ":") as [->|]; [by vm_compute|done]. Qed.
Lemma isSlug_no_colon s : isSlug s = true → no_colon s = true.
Proof.
  destruct s as [|c s]; [done|]. unfold isSlug, no_colon. intros; bool_simpl. simpl.
  rewrite (all_chars_impl _ _ _ slug_char_no_colon) by done. rewrite andb_true_r.
  apply slug_char_no_colon. unfold is_slug_char. by rewrite H.
Qed.
Lemma hex_char_no_colon c : is_hex_char c = true → negb (Ascii.eqb c ":") = true.
Proof. destruct (Ascii.eqb_spec c ":") as [->|]; [by vm_compute|done]. Qed.
Lemma SHA256_HEX_no_colon s : SHA256_HEX_PATTERN s = true → no_colon s = true.
Proof.
  unfold SHA256_HEX_PATTERN. intros; bool_simpl.
  by eapply all_chars_impl; [apply hex_char_no_colon|].
Qed.

Lemma number_of_string_of_number n : (0 ≤ n)%Z → number_of_digits (string_of_number n) = Some n.
Proof.
  intros Hn. unfold number_of_digits, string_of_number.
  rewrite NilEmpty.usu, DecimalN.Unsigned.of_to. f_equal. lia.
Qed.
Lemma string_of_number_inj n m :
  (0 ≤ n)%Z → (0 ≤ m)%Z → string_of_number n = string_of_number m → n = m.
Proof.
  intros Hn Hm E. apply (f_equal number_of_digits) in E.
  rewrite !number_of_string_of_number in E by done. congruence.
Qed.

Definition uint_digits (s : string) : bool := all_chars is_digit s.
Lemma uint_string_digits u : uint_digits (NilEmpty.string_of_uint u) = true.
Proof. induction u; simpl; done. Qed.
Lemma string_of_number_positive n : (0 < n)%Z → is_positive_decimal (string_of_number n) = true.
Proof.
  intros Hn. unfold string_of_number. remember (N.to_uint (Z.to_N n)) as u eqn:Eu.
  assert (N.of_uint u = Z.to_N n) as E by (rewrite Eu; apply DecimalN.Unsigned.of_to).
  assert (Decimal.unorm u = u) as Eq.
  { rewrite Eu at 1. rewrite <- DecimalN.Unsigned.to_of, DecimalN.Unsigned.of_to. by rewrite Eu. }
  destruct u as [|u|u|u|u|u|u|u|u|u|u]; simpl; rewrite ?uint_string_digits; try done.
  exfalso. unfold Decimal.unorm in Eq. simpl in Eq.
  destruct (Decimal.nzhead u) eqn:En; simplify_eq; [change (0%N = Z.to_N n) in E; lia|].
  by eapply DecimalFacts.nzhead_nonzero.
Qed.
