(* ===== verification/CanonicalRows.v ===== *)
(** The interface through which every store sees a protocol artifact
    (packages/evidence-store/src/canonical-row.ts): its canonical body and the
    digest of that body. The stores are proved against this class. *)
From Stdlib Require Import DecimalString.
From S2P Require Import Prelude Patterns.

Record CanonicalRow := { row_body : list Z; row_digest : string }.

#[export] Instance CanonicalRow_eq_dec : EqDecision CanonicalRow.
Proof. solve_decision. Defined.

(* toCanonicalRow may throw on data outside RFC 8785; reading a stored body back
   gives the artifact, and the digest is a function of the body. *)
Class CanonicalRows (E : Type) := {
  toCanonicalRow : E → throws CanonicalRow;
  fromCanonicalRow : list Z → throws E;
  row_roundtrip e row : toCanonicalRow e = Ret row → fromCanonicalRow (row_body row) = Ret e;
  row_digest_fun e1 e2 r1 r2 :
    toCanonicalRow e1 = Ret r1 → toCanonicalRow e2 = Ret r2 →
    row_body r1 = row_body r2 → row_digest r1 = row_digest r2
}.

(** Reading a list of stored bodies back. *)
Fixpoint read_all {E} `{CanonicalRows E} (bodies : list (list Z)) : throws (list E) :=
  match bodies with
  | [] => Ret []
  | b :: bs => e ← fromCanonicalRow b; es ← read_all bs; Ret (e :: es)
  end.

Lemma read_all_app {E} `{CanonicalRows E} bodies1 bodies2 (es1 es2 : list E) :
  read_all bodies1 = Ret es1 → read_all bodies2 = Ret es2 →
  read_all (bodies1 ++ bodies2) = Ret (es1 ++ es2).
Proof.
  revert es1; induction bodies1 as [|b bodies1 IH]; intros es1; simpl; [by intros [= <-]|].
  destruct (fromCanonicalRow b) as [e|]; [|done]. simpl.
  destruct (read_all bodies1) as [es|]; [|done]. simpl. intros [= <-] H2. by rewrite (IH es).
Qed.

(** No two of the artifacts [known] have one digest. The hash has collisions, so
    this is asked of the finitely many artifacts of a run and never of all. *)
Definition digests_identify {E} `{CanonicalRows E} (known : list E) : Prop :=
  ∀ e1 e2 r1 r2, e1 ∈ known → e2 ∈ known →
    toCanonicalRow e1 = Ret r1 → toCanonicalRow e2 = Ret r2 →
    row_digest r1 = row_digest r2 → e1 = e2.

Lemma row_body_inj {E} `{CanonicalRows E} (e1 e2 : E) r1 r2 :
  toCanonicalRow e1 = Ret r1 → toCanonicalRow e2 = Ret r2 → row_body r1 = row_body r2 → e1 = e2.
Proof. intros H1%row_roundtrip H2%row_roundtrip Hb. rewrite Hb in H1. congruence. Qed.

(** * A tabulated instance

    The canonical rows of a finite list of artifacts: the body is the position in
    the list, the digest its zero-padded numeral. Used to run the stores. *)
Module Tabulated.
Section tabulated.
Context {E : Type} `{EqDecision E} (known : list E).

Fixpoint zeros (n : nat) : string :=
  match n with O => "" | S n' => String "0" (zeros n') end.
Definition padded (n : Z) : string :=
  let s := string_of_number n in zeros (64 - String.length s) +:+ s.
Definition row_at (i : nat) : CanonicalRow :=
  {| row_body := [Z.of_nat i]; row_digest := "sha256:" +:+ padded (Z.of_nat i) |}.
Definition index_of (e : E) : option nat := fst <$> list_find (eq e) known.
Definition to_row (e : E) : throws CanonicalRow :=
  match index_of e with Some i => Ret (row_at i) | None => Throw "TypeError" end.
Definition from_row (b : list Z) : throws E :=
  match b with
  | [i] => match known !! Z.to_nat i with Some e => Ret e | None => Throw "SyntaxError" end
  | _ => Throw "SyntaxError"
  end.

Lemma index_of_Some e i : index_of e = Some i → known !! i = Some e.
Proof.
  unfold index_of. destruct (list_find (eq e) known) as [[j e']|] eqn:Hf; [|done].
  apply list_find_Some in Hf as (Hi & <- & _). by intros [= ->].
Qed.
Lemma zeros_value n s : number_of_digits (zeros n +:+ s) = number_of_digits s.
Proof.
  induction n as [|n IH]; [done|]. unfold number_of_digits in *. simpl.
  rewrite <- IH. by destruct (NilEmpty.uint_of_string (zeros n +:+ s)).
Qed.
Lemma padded_inj n m : (0 ≤ n)%Z → (0 ≤ m)%Z → padded n = padded m → n = m.
Proof.
  intros Hn Hm E0%(f_equal number_of_digits). unfold padded in E0.
  rewrite !zeros_value, !number_of_string_of_number in E0 by done. congruence.
Qed.

Definition rows : CanonicalRows E.
Proof.
  refine {| toCanonicalRow := to_row; fromCanonicalRow := from_row |}.
  - intros e row. unfold to_row. destruct (index_of e) as [i|] eqn:Hi; [|done].
    apply index_of_Some in Hi. intros [= <-]. unfold from_row. simpl. by rewrite Nat2Z.id, Hi.
  - intros a b r1 r2. unfold to_row. destruct (index_of a), (index_of b); try done.
    intros [= <-] [= <-]. simpl. intros [= Heq]. by apply Nat2Z.inj in Heq as ->.
Defined.
Lemma tabulated_identify l : @digests_identify E rows l.
Proof.
  intros a b r1 r2 _ _. simpl. unfold to_row.
  destruct (index_of a) as [i|] eqn:Ha, (index_of b) as [j|] eqn:Hb; try done.
  apply index_of_Some in Ha, Hb. intros [= <-] [= <-]. simpl. intros [= Hd].
  apply padded_inj in Hd; [|lia..]. apply Nat2Z.inj in Hd as ->. congruence.
Qed.
End tabulated.
End Tabulated.
