(* ===== verification/AppendLog.v ===== *)
(** The append-only event logs of packages/evidence-store: the contract of one
    review's log, the in-memory log, the Postgres log as a transition system of
    single SQL statements, and the correspondence of the two adapters. *)
From S2P Require Import Prelude Patterns CanonicalRows.

Local Open Scope Z_scope.

(** * Events and outcomes *)

(* The part of a protocol event the log reads (MinimalEvent). *)
Class LogEvent (E : Type) := {
  event_timestamp : E → string;
  idempotency_key : E → string;
  sequence_number : E → Z
}.

Inductive AppendRejectionReason :=
  | idempotency_key_body_conflict
  | sequence_number_not_monotonic
  | schema_invalid
  | storage_unavailable.

Inductive AppendOutcome (E : Type) :=
  | appended (event : E)
  | idempotent_noop (event : E)
  | rejected (reason : AppendRejectionReason).
Arguments appended {E} event.
Arguments idempotent_noop {E} event.
Arguments rejected {E} reason.

#[export] Instance AppendRejectionReason_eq_dec : EqDecision AppendRejectionReason.
Proof. solve_decision. Defined.
#[export] Instance AppendOutcome_eq_dec `{EqDecision E} : EqDecision (AppendOutcome E).
Proof. solve_decision. Defined.

(** * What both adapters promise for one review's log (Architecture Rule 9) *)

Module LogSpec.
Section log_spec.
Context {E : Type} `{LogEvent E}.

  (* [events] is the review's log in append order. *)
Inductive append (events : list E) (event : E) : AppendOutcome E → list E → Prop :=
    | append_replay :
        event ∈ events → append events event (idempotent_noop event) events
    | append_rewrite prior :
        prior ∈ events → idempotency_key prior = idempotency_key event → prior ≠ event →
        append events event (rejected idempotency_key_body_conflict) events
    | append_stale prior :
        (∀ x, x ∈ events → idempotency_key x ≠ idempotency_key event) →
        prior ∈ events → sequence_number event ≤ sequence_number prior →
        append events event (rejected sequence_number_not_monotonic) events
    | append_new :
        (∀ x, x ∈ events → idempotency_key x ≠ idempotency_key event) →
        (∀ x, x ∈ events → sequence_number x < sequence_number event) →
        append events event (appended event) (events ++ [event]).

Definition log_ok (events : list E) : Prop :=
    StronglySorted (λ a b, sequence_number a < sequence_number b) events ∧
    NoDup (idempotency_key <$> events).




Lemma append_known known events event o l :
    append events event o l → event ∈ known → events ⊆ known → l ⊆ known.
Proof. destruct 1; set_solver. Qed.

Lemma append_prefix events event o l : append events event o l → events `prefix_of` l.
Proof. destruct 1; [done..|by apply prefix_app_r]. Qed.
End log_spec.
End LogSpec.

(** * The in-memory log (memory/append-only-log.ts) *)

Module MemoryLog.
Section memory_log.
Context {E : Type} `{LogEvent E} `{CanonicalRows E}.

Record StoredEntry := {
    digest : string;
    idempotencyKey : string;
    sequenceNumber : Z;
    body : list Z
  }.
  (* logs : Map<string, StoredEntry[]> *)
Abbreviation logs_t := (list (string * list StoredEntry)).

Definition entries_of (logs : logs_t) (reviewId : string) : list StoredEntry :=
    default [] (JsMap.get reviewId logs).

Definition loadLog (logs : logs_t) (reviewId : string) : throws (list E) :=
    read_all (body <$> entries_of logs reviewId).

Definition loadEventsByTimestampRange (localeCompare : string → string → Z)
      (logs : logs_t) (startInclusive endExclusive : string) : throws (list E) :=
    events ← read_all (body <$> mjoin (JsMap.values logs));
    Ret (sortBy (λ l r, localeCompare (event_timestamp l) (event_timestamp r))
      (List.filter (λ e, str_leb startInclusive (event_timestamp e)
                         && str_ltb (event_timestamp e) endExclusive)%bool events)).

Definition append (logs : logs_t) (reviewId : string) (event : E)
      : throws (AppendOutcome E) * logs_t :=
    let entries := entries_of logs reviewId in
    match toCanonicalRow event with
    | Throw e => (Throw e, logs)
    | Ret row =>
      match List.find (λ entry, idempotencyKey entry === idempotency_key event) entries with
      | Some existing =>
          if digest existing === row_digest row
          then (e ← fromCanonicalRow (body existing); Ret (idempotent_noop e), logs)
          else (Ret (rejected idempotency_key_body_conflict), logs)
      | None =>
          if existsb (λ entry, sequence_number event <=? sequenceNumber entry) entries
          then (Ret (rejected sequence_number_not_monotonic), logs)
          else
            let entry := {| digest := row_digest row; idempotencyKey := idempotency_key event;
                            sequenceNumber := sequence_number event; body := row_body row |} in
            (e ← fromCanonicalRow (row_body row); Ret (appended e),
             JsMap.set reviewId (entries ++ [entry]) logs)
      end
    end.

  (** The representation invariant of one review's entries: each entry stores the
      canonical row of an event under that event's key and number, numbers
      strictly increase and keys do not repeat. *)
Definition entry_stores (entry : StoredEntry) (e : E) : Prop :=
    toCanonicalRow e = Ret {| row_body := body entry; row_digest := digest entry |} ∧
    idempotencyKey entry = idempotency_key e ∧ sequenceNumber entry = sequence_number e.
Definition entries_ok (entries : list StoredEntry) (events : list E) : Prop :=
    Forall2 entry_stores entries events ∧
    StronglySorted (λ a b, sequenceNumber a < sequenceNumber b) entries ∧
    NoDup (idempotencyKey <$> entries).
  (* The events stored are among [known]. *)
Definition logs_ok (known : list E) (logs : logs_t) : Prop :=
    NoDup (JsMap.keys logs) ∧
    ∀ reviewId, ∃ events, entries_ok (entries_of logs reviewId) events ∧ events ⊆ known.

Lemma read_all_entries entries events :
    Forall2 entry_stores entries events → read_all (body <$> entries) = Ret events.
Proof.
    induction 1 as [|entry e entries events (He & _ & _) _ IH]; [done|].
    apply row_roundtrip in He. csimpl in *. by rewrite He, IH.
Qed.
Lemma loadLog_entries logs reviewId events :
    entries_ok (entries_of logs reviewId) events → loadLog logs reviewId = Ret events.
Proof. intros (Hs & _). by apply read_all_entries. Qed.

Lemma entries_of_set logs r r' es :
    entries_of (JsMap.set r es logs) r' = if decide (r = r') then es else entries_of logs r'.
Proof. unfold entries_of. rewrite JsMap.get_set. by case_decide. Qed.

Lemma entries_ok_snoc entries events entry e :
    entries_ok entries events → entry_stores entry e →
    (∀ x, x ∈ entries → sequenceNumber x < sequenceNumber entry) →
    (∀ x, x ∈ entries → idempotencyKey x ≠ idempotencyKey entry) →
    entries_ok (entries ++ [entry]) (events ++ [e]).
Proof.
    intros (Hst & Hsort & Hnd) He Hseq Hkey. split_and!.
    - apply Forall2_app; [done|]. by constructor.
    - clear Hst Hnd Hkey. induction Hsort as [|x entries Hs IH Hx]; simpl; [by repeat constructor|].
      constructor; [apply IH; set_solver|]. apply Forall_app. split; [done|].
      constructor; [apply Hseq; set_solver | done].
    - rewrite fmap_app. apply NoDup_app. split; [done|]. split; [|apply NoDup_singleton].
      intros k (x & -> & Hx)%list_elem_of_fmap Hk%list_elem_of_singleton. by apply (Hkey x).
Qed.

Lemma entries_ok_log_ok entries events : entries_ok entries events → LogSpec.log_ok events.
Proof.
    intros (Hst & Hsort & Hnd). split.
    - clear Hnd. induction Hst as [|entry e entries events He Hes IH]; [constructor|].
      apply StronglySorted_inv in Hsort as [Hsort Hx]. constructor; [by apply IH|].
      destruct He as (_ & _ & He). apply Forall_forall. intros y [j Hj]%list_elem_of_lookup.
      destruct (Forall2_lookup_r _ _ _ _ _ Hes Hj) as (entry' & Hj' & _ & _ & He').
      rewrite <- He, <- He'. apply (proj1 (Forall_forall _ _) Hx). eauto using list_elem_of_lookup_2.
    - replace (idempotency_key <$> events) with (idempotencyKey <$> entries); [done|].
      clear Hsort Hnd. induction Hst as [|entry e entries events He Hes IH]; [done|].
      rewrite !fmap_cons, IH. f_equal. apply He.
Qed.

Lemma entries_stores_l entries events entry :
    entries_ok entries events → entry ∈ entries → ∃ e, e ∈ events ∧ entry_stores entry e.
Proof.
    intros (Hst & _) [i Hi]%list_elem_of_lookup.
    destruct (Forall2_lookup_l _ _ _ _ _ Hst Hi) as (e & He & ?). eauto using list_elem_of_lookup_2.
Qed.
Lemma entries_stores_r entries events e :
    entries_ok entries events → e ∈ events → ∃ entry, entry ∈ entries ∧ entry_stores entry e.
Proof.
    intros (Hst & _) [i Hi]%list_elem_of_lookup.
    destruct (Forall2_lookup_r _ _ _ _ _ Hst Hi) as (entry & He & ?). eauto using list_elem_of_lookup_2.
Qed.

Lemma memory_append_simulates known (Hdig : digests_identify known) logs reviewId events event row :
    event ∈ known → events ⊆ known →
    entries_ok (entries_of logs reviewId) events → toCanonicalRow event = Ret row →
    ∃ outcome events' logs',
      append logs reviewId event = (Ret outcome, logs') ∧
      LogSpec.append events event outcome events' ∧
      entries_ok (entries_of logs' reviewId) events' ∧
      (∀ r, r ≠ reviewId → entries_of logs' r = entries_of logs r) ∧
      (NoDup (JsMap.keys logs) → NoDup (JsMap.keys logs')).
Proof.
    intros Hev Hsub Hok Hrow. unfold append. rewrite Hrow.
    destruct (List.find _ _) as [existing|] eqn:Hfind.
    - apply find_Some_elem in Hfind as [Hin Hkey]. bool_simpl.
      destruct (entries_stores_l _ _ _ Hok Hin) as (prior & Hprior & Hst & Hk & Hs).
      case_bool_decide as Hd.
      + assert (prior = event) as -> by (eapply Hdig; eauto using elem_of_weaken).
        apply row_roundtrip in Hst. simpl in Hst. rewrite Hst.
        eexists _, _, _. split_and!; eauto using LogSpec.append.
      + eexists _, _, _. split_and!; [done| |done..].
        apply LogSpec.append_rewrite with prior; [done|congruence|]. intros ->.
        rewrite Hrow in Hst. by simplify_eq.
    - rewrite find_None_forall in Hfind.
      assert (∀ x, x ∈ events → idempotency_key x ≠ idempotency_key event) as Hfresh.
      { intros x Hx Heq. destruct (entries_stores_r _ _ _ Hok Hx) as (entry & He & _ & Hk & _).
        specialize (Hfind _ He). bool_simpl. congruence. }
      destruct (existsb _ _) eqn:Hex.
      + apply existsb_elem in Hex as (entry & He & Hle%Z.leb_le).
        destruct (entries_stores_l _ _ _ Hok He) as (prior & Hprior & _ & _ & Hs).
        eexists _, _, _. split_and!; [done| |done..].
        apply LogSpec.append_stale with prior; [done..|]. lia.
      + rewrite existsb_false in Hex. rewrite (row_roundtrip _ _ Hrow). simpl.
        eexists _, _, _. split_and!; [done| | |..].
        * apply LogSpec.append_new; [done|]. intros x Hx.
          destruct (entries_stores_r _ _ _ Hok Hx) as (entry & He & _ & _ & Hs).
          specialize (Hex _ He). apply Z.leb_gt in Hex. lia.
        * rewrite entries_of_set, decide_True by done. apply entries_ok_snoc; [done|..].
          -- split_and!; [|done..]. rewrite Hrow. by destruct row.
          -- intros x Hx. specialize (Hex _ Hx). by apply Z.leb_gt in Hex.
          -- intros x Hx Heq. specialize (Hfind _ Hx). by bool_simpl.
        * intros r Hr. by rewrite entries_of_set, decide_False.
        * apply JsMap.NoDup_keys_set.
Qed.

Lemma read_values known logs :
    logs_ok known logs →
    ∃ all, read_all (body <$> mjoin (JsMap.values logs)) = Ret all ∧
    ∀ e, e ∈ all ↔ ∃ r l, r ∈ JsMap.keys logs ∧ loadLog logs r = Ret l ∧ e ∈ l.
Proof.
    intros [Hnd Hall]. induction logs as [|[r entries] logs IH].
    { exists []. split; [done|]. intros e. split; [set_solver|]. intros (r & l & Hr & _). set_solver. }
    rewrite JsMap.keys_cons, NoDup_cons in Hnd. destruct Hnd as [Hr Hnd].
    assert (∀ r', r' ∈ JsMap.keys logs → entries_of ((r, entries) :: logs) r' = entries_of logs r') as Htail.
    { intros r' Hr'. unfold entries_of. simpl. rewrite decide_False; [done|]. by intros ->. }
    destruct IH as (all & Hread & Hmem); [done| |].
    { intros r'. destruct (decide (r' ∈ JsMap.keys logs)) as [Hin|Hni].
      - rewrite <- Htail by done. apply Hall.
      - exists []. unfold entries_of. rewrite (proj2 (JsMap.get_None _ _) Hni).
        split; [by repeat constructor|set_solver]. }
    destruct (Hall r) as (ev & Hev & _). pose proof (loadLog_entries _ _ _ Hev) as Hload.
    unfold loadLog, entries_of in Hload. simpl in Hload. rewrite decide_True in Hload by done. simpl in Hload.
    exists (ev ++ all). split.
    { change (JsMap.values ((r, entries) :: logs)) with (entries :: JsMap.values logs).
      simpl. rewrite fmap_app. by apply read_all_app. }
    intros e. rewrite elem_of_app, Hmem. split.
    + intros [He|(r' & l & Hin & Hl & He)].
      * exists r, ev. rewrite JsMap.keys_cons, elem_of_cons. split; [tauto|]. split; [|done].
        unfold loadLog, entries_of. simpl. by rewrite decide_True.
      * exists r', l. rewrite JsMap.keys_cons, elem_of_cons. split; [tauto|]. split; [|done].
        unfold loadLog. by rewrite Htail.
    + intros (r' & l & Hin & Hl & He). rewrite JsMap.keys_cons in Hin. apply elem_of_cons in Hin as [->|Hin].
      * left. unfold loadLog, entries_of in Hl. simpl in Hl. rewrite decide_True in Hl by done.
        simpl in Hl. rewrite Hload in Hl. by simplify_eq.
      * right. exists r', l. split; [done|]. unfold loadLog in *. by rewrite Htail in Hl.
Qed.

  (** The deployment-wide range read returns exactly the stored events whose
      timestamp lies in the half-open interval, ordered by the collation. *)
Theorem range_read_exact known (localeCompare : string → string → Z) logs startInclusive endExclusive :
    logs_ok known logs →
    (∀ x y, localeCompare x y ≤ 0 ∨ localeCompare y x ≤ 0) →
    (∀ x y z, localeCompare x y ≤ 0 → localeCompare y z ≤ 0 → localeCompare x z ≤ 0) →
    ∃ events, loadEventsByTimestampRange localeCompare logs startInclusive endExclusive = Ret events ∧
      StronglySorted (λ a b, localeCompare (event_timestamp a) (event_timestamp b) ≤ 0) events ∧
      ∀ e, e ∈ events ↔
        str_leb startInclusive (event_timestamp e) = true ∧
        str_ltb (event_timestamp e) endExclusive = true ∧
        ∃ r l, r ∈ JsMap.keys logs ∧ loadLog logs r = Ret l ∧ e ∈ l.
Proof.
    intros Hok Htot Htrans.
    destruct (read_values known logs Hok) as (all & Hread & Hmem).
    unfold loadEventsByTimestampRange. rewrite Hread. simpl. eexists. split; [done|]. split.
    - apply (sortBy_sorted (λ l r, localeCompare (event_timestamp l) (event_timestamp r))); eauto.
    - intros e. rewrite elem_of_sortBy, list_elem_of_In, List.filter_In, <- list_elem_of_In, Hmem, andb_true_iff. tauto.
Qed.

  (* One call of [append] on some review, with one of the events [known]. *)
Inductive log_step (known : list E) : logs_t → logs_t → Prop :=
    | log_append logs reviewId event result logs' :
        event ∈ known → append logs reviewId event = (result, logs') → log_step known logs logs'.

Lemma log_step_ok known (Hdig : digests_identify known) logs logs' :
    logs_ok known logs → log_step known logs logs' →
    logs_ok known logs' ∧ ∀ r, ∃ ev ev', entries_ok (entries_of logs r) ev ∧
      entries_ok (entries_of logs' r) ev' ∧ ev' ⊆ known ∧ ev `prefix_of` ev'.
Proof.
    intros [Hnd Hall] Hstep. inversion Hstep as [? reviewId event result ? Hin Happ]; subst.
    destruct (toCanonicalRow event) as [row|err] eqn:Hrow.
    - destruct (Hall reviewId) as (events & Hev & Hsub).
      destruct (memory_append_simulates known Hdig _ _ _ _ _ Hin Hsub Hev Hrow)
        as (o & events' & logs'' & Happ' & Hspec & Hev' & Hframe & Hnd').
      rewrite Happ in Happ'. simplify_eq.
      assert (∀ r, ∃ ev ev', entries_ok (entries_of logs r) ev ∧
        entries_ok (entries_of logs'' r) ev' ∧ ev' ⊆ known ∧ ev `prefix_of` ev') as Hpre.
      { intros r. destruct (decide (r = reviewId)) as [->|Hr].
        - exists events, events'. split_and!;
            [done|done|by eapply LogSpec.append_known|by eapply LogSpec.append_prefix].
        - destruct (Hall r) as (ev & Hr' & ?). exists ev, ev. by rewrite Hframe by done. }
      split; [|done]. split; [by apply Hnd'|]. intros r. destruct (Hpre r) as (? & ? & _ & ? & ? & _). eauto.
    - unfold append in Happ. rewrite Hrow in Happ. simplify_eq. split; [done|].
      intros r. destruct (Hall r) as (ev & ? & ?). by exists ev, ev.
Qed.

  (** The in-memory adapter is append-only (Architecture Rule 9): whatever calls
      are made with events whose digests are apart, every review's log reads back as
      an extension of what it read back before, strictly ordered and without a
      repeated idempotency key. *)
Theorem memory_log_append_only known (Hdig : digests_identify known) logs logs' reviewId :
    logs_ok known logs → rtc (log_step known) logs logs' →
    ∃ events events', loadLog logs reviewId = Ret events ∧ loadLog logs' reviewId = Ret events' ∧
      events `prefix_of` events' ∧ LogSpec.log_ok events'.
Proof.
    intros Hok Hrtc. revert Hok. induction Hrtc as [logs|logs1 logs2 logs3 Hstep _ IH]; intros Hok.
    - destruct Hok as [_ Hall]. destruct (Hall reviewId) as (ev & Hev & _). exists ev, ev.
      split_and!; eauto using loadLog_entries, entries_ok_log_ok.
    - destruct (log_step_ok known Hdig _ _ Hok Hstep) as [Hok2 Hpre].
      destruct (IH Hok2) as (e2 & e3 & H2 & H3 & ? & ?).
      destruct (Hpre reviewId) as (e1 & e2' & Hev1 & Hev2 & _ & ?).
      apply loadLog_entries in Hev1, Hev2. rewrite H2 in Hev2. simplify_eq.
      exists e1, e3. split_and!; [done..| by etrans|done].
Qed.
End memory_log.
Arguments StoredEntry : clear implicits.
End MemoryLog.

(** * The Postgres log (postgres/append-only-log.ts)

    The adapter is given a connection pool (host main.ts), so each [sql.query] is
    its own transaction: the advisory lock taken by the first statement is
    released when that statement ends. A call is therefore four atomic steps, and
    the steps of concurrent calls interleave. *)

Module PostgresLog.
Section postgres_log.
Context {E : Type} `{LogEvent E} `{CanonicalRows E}.

Record Row := {
    review_id : string;
    row_sequence_number : Z;
    row_idempotency_key : string;
    digest : string;
    body : list Z
  }.
Abbreviation table_t := (list Row).

Definition rows_of (table : table_t) (reviewId : string) : list Row :=
    List.filter (λ r, review_id r === reviewId) table.

  (* SELECT body ... WHERE review_id = $1 ORDER BY sequence_number ASC *)
Definition loadLog (table : table_t) (reviewId : string) : throws (list E) :=
    read_all (body <$> sortBy (λ a b, row_sequence_number a - row_sequence_number b)
                              (rows_of table reviewId)).

  (* SELECT body, digest ... WHERE review_id = $1 AND idempotency_key = $2 *)
Definition select_key (table : table_t) (reviewId key : string) : option Row :=
    List.find (λ r, row_idempotency_key r === key) (rows_of table reviewId).

  (* SELECT max(sequence_number) ... WHERE review_id = $1 *)
Definition select_max (table : table_t) (reviewId : string) : option Z :=
    match rows_of table reviewId with
    | [] => None
    | r :: rs => Some (fold_right (λ r m, Z.max (row_sequence_number r) m) (row_sequence_number r) rs)
    end.

  (* The column types and constraints of the table (infra/migrations). *)
Definition constraints_hold (table : table_t) (row : Row) : bool :=
    (REVIEW_ID_PATTERN (review_id row)
     && (0 <=? row_sequence_number row) && (row_sequence_number row <=? 2147483647)
     && (0 <? String.length (row_idempotency_key row))%nat
     && SHA256_ID_PATTERN (digest row)
     && negb (existsb (λ r, row_sequence_number r =? row_sequence_number row) (rows_of table (review_id row)))
     && negb (existsb (λ r, row_idempotency_key r === row_idempotency_key row) (rows_of table (review_id row))))%bool.

Definition insert_row (table : table_t) (row : Row) : throws table_t :=
    if constraints_hold table row then Ret (table ++ [row]) else Throw "constraint violation".

  (** The statement a call is about to run, or its result. *)
Inductive pc :=
    | AtLock | AtKeyQuery | AtMaxQuery | AtInsert
    | Finished (result : throws (AppendOutcome E)).

Record call := { call_review : string; call_event : E; call_row : CanonicalRow; call_pc : pc }.

Definition goto (c : call) (p : pc) : call :=
    {| call_review := call_review c; call_event := call_event c; call_row := call_row c; call_pc := p |}.

  (* toCanonicalRow runs before the first query. *)
Definition start (reviewId : string) (event : E) : throws call :=
    row ← toCanonicalRow event;
    Ret {| call_review := reviewId; call_event := event; call_row := row; call_pc := AtLock |}.

Definition event_row (c : call) : Row :=
    {| review_id := call_review c;
       row_sequence_number := sequence_number (call_event c);
       row_idempotency_key := idempotency_key (call_event c);
       digest := row_digest (call_row c);
       body := row_body (call_row c) |}.

  (** One statement of [append]. *)
Definition step (table : table_t) (c : call) : table_t * call :=
    match call_pc c with
    | AtLock => (table, goto c AtKeyQuery)
    | AtKeyQuery =>
        match select_key table (call_review c) (idempotency_key (call_event c)) with
        | Some priorRow =>
            if digest priorRow === row_digest (call_row c)
            then (table, goto c (Finished (e ← fromCanonicalRow (body priorRow); Ret (idempotent_noop e))))
            else (table, goto c (Finished (Ret (rejected idempotency_key_body_conflict))))
        | None => (table, goto c AtMaxQuery)
        end
    | AtMaxQuery =>
        match select_max table (call_review c) with
        | Some currentHighest =>
            if sequence_number (call_event c) <=? currentHighest
            then (table, goto c (Finished (Ret (rejected sequence_number_not_monotonic))))
            else (table, goto c AtInsert)
        | None => (table, goto c AtInsert)
        end
    | AtInsert =>
        match insert_row table (event_row c) with
        | Ret table' => (table', goto c (Finished (e ← fromCanonicalRow (row_body (call_row c)); Ret (appended e))))
        | Throw err => (table, goto c (Finished (Throw err)))
        end
    | Finished _ => (table, c)
    end.

  (** A call that runs with no other call in between. *)
Definition append (table : table_t) (reviewId : string) (event : E)
      : throws (AppendOutcome E) * table_t :=
    match start reviewId event with
    | Throw err => (Throw err, table)
    | Ret c0 =>
        let '(t1, c1) := step table c0 in
        let '(t2, c2) := step t1 c1 in
        let '(t3, c3) := step t2 c2 in
        let '(t4, c4) := step t3 c3 in
        (match call_pc c4 with Finished r => r | _ => Throw "unfinished" end, t4)
    end.

  (** Concurrent calls: any one of them runs its next statement. *)
Inductive system_step : table_t * list call → table_t * list call → Prop :=
    | system_call table calls i c table' c' :
        calls !! i = Some c → step table c = (table', c') →
        system_step (table, calls) (table', <[i := c']> calls).

  (* PRIMARY KEY (review_id, sequence_number), UNIQUE (review_id, idempotency_key), and
     rows that hold the canonical row of the event they were written for. *)
Definition row_stores (r : Row) (e : E) : Prop :=
    toCanonicalRow e = Ret {| row_body := body r; row_digest := digest r |} ∧
    row_idempotency_key r = idempotency_key e ∧ row_sequence_number r = sequence_number e.
Definition table_ok (table : table_t) : Prop :=
    NoDup ((λ r, (review_id r, row_sequence_number r)) <$> table) ∧
    NoDup ((λ r, (review_id r, row_idempotency_key r)) <$> table) ∧
    ∀ r, r ∈ table → ∃ e, row_stores r e.
Definition call_ok (c : call) : Prop := toCanonicalRow (call_event c) = Ret (call_row c).

  (* The table holds, for a review, the log [events]. *)
Definition represents (table : table_t) (reviewId : string) (events : list E) : Prop :=
    LogSpec.log_ok events ∧
    ∃ rows, rows ≡ₚ rows_of table reviewId ∧ Forall2 row_stores rows events.

Lemma elem_of_rows_of t r x : x ∈ rows_of t r ↔ x ∈ t ∧ review_id x = r.
Proof. unfold rows_of. rewrite !list_elem_of_In, List.filter_In, bool_decide_eq_true. done. Qed.

Lemma select_max_ge t r x m :
    select_max t r = Some m → x ∈ rows_of t r → row_sequence_number x ≤ m.
Proof.
    unfold select_max. destruct (rows_of t r) as [|y l]; [done|]. intros [= <-].
    assert (row_sequence_number y ≤ fold_right (λ r m, Z.max (row_sequence_number r) m) (row_sequence_number y) l ∧
      ∀ z, z ∈ l → row_sequence_number z ≤ fold_right (λ r m, Z.max (row_sequence_number r) m) (row_sequence_number y) l)
      as [Hy Hl].
    { induction l as [|z l [IH1 IH2]]; simpl; [split; [lia|set_solver]|].
      split; [lia|]. intros w [->|Hw]%elem_of_cons; [lia|]. specialize (IH2 w Hw). lia. }
    intros [->|Hx]%elem_of_cons; auto.
Qed.
Lemma select_max_elem t r m :
    select_max t r = Some m → ∃ x, x ∈ rows_of t r ∧ row_sequence_number x = m.
Proof.
    unfold select_max. destruct (rows_of t r) as [|y l]; [done|]. intros [= <-].
    induction l as [|z l (x & Hx & IH)]; simpl; [exists y; set_solver|].
    rewrite <- IH. destruct (Z.max_spec (row_sequence_number z) (row_sequence_number x)) as [[_ ->]|[_ ->]].
    - exists x. rewrite !elem_of_cons in *. tauto.
    - exists z. rewrite !elem_of_cons. tauto.
Qed.
Lemma select_max_None t r : select_max t r = None → rows_of t r = [].
Proof. unfold select_max. by destruct (rows_of t r). Qed.


Lemma rows_strict rows events :
    Forall2 row_stores rows events →
    StronglySorted (λ a b, sequence_number a < sequence_number b) events →
    StronglySorted (λ a b, row_sequence_number a < row_sequence_number b) rows.
Proof.
    induction 1 as [|x e rows events Hx Hst IH]; [constructor|].
    intros [Hs Hf]%StronglySorted_inv. constructor; [by apply IH|].
    apply Forall_forall. intros y [i Hi]%list_elem_of_lookup.
    destruct (Forall2_lookup_l _ _ _ _ _ Hst Hi) as (e' & He' & _ & _ & ->).
    destruct Hx as (_ & _ & ->). apply (proj1 (Forall_forall _ _) Hf).
    eauto using list_elem_of_lookup_2.
Qed.
Lemma read_all_rows rows events : Forall2 row_stores rows events → read_all (body <$> rows) = Ret events.
Proof.
    induction 1 as [|x e rows events (Hx & _) _ IH]; [done|].
    apply row_roundtrip in Hx. csimpl in *. by rewrite Hx, IH.
Qed.
Lemma loadLog_represents t r events : represents t r events → loadLog t r = Ret events.
Proof.
    intros ((Hsort & _) & rows & Hp & Hst). unfold loadLog.
    rewrite (sortBy_key_unique row_sequence_number rows); [by apply read_all_rows|done|].
    by eapply rows_strict.
Qed.





  (** ** Concurrent calls *)

Lemma rows_of_NoDup {B} (f : Row → B) t r :
    NoDup ((λ x, (review_id x, f x)) <$> t) → NoDup (f <$> rows_of t r).
Proof.
    unfold rows_of. induction t as [|x t IH]; [intros; constructor|].
    rewrite fmap_cons, NoDup_cons. intros [Hx Hnd]. simpl. case_bool_decide as Hr; [|tauto].
    rewrite fmap_cons, NoDup_cons. split; [|tauto]. intros (y & Hy & Hin)%list_elem_of_fmap.
    apply Hx. apply list_elem_of_fmap. exists y. rewrite list_elem_of_In, List.filter_In in Hin.
    destruct Hin as [Hin ?%bool_decide_eq_true]. split; [by f_equal; congruence|by apply list_elem_of_In].
Qed.
Lemma table_ok_represents t r : table_ok t → ∃ events, represents t r events.
Proof.
    intros (Hseq & Hkey & Hst).
    set (rows := sortBy (λ a b, row_sequence_number a - row_sequence_number b) (rows_of t r)).
    assert (rows ≡ₚ rows_of t r) as Hp by apply sortBy_perm.
    assert (∃ events, Forall2 row_stores rows events) as [events Hev].
    { assert (∀ x, x ∈ rows → ∃ e, row_stores x e) as Hall.
      { intros x. rewrite Hp, elem_of_rows_of. intros [Hx _]. by apply Hst. }
      clearbody rows. clear Hp. induction rows as [|x rows IH]; [by exists []|].
      destruct (Hall x) as [e He]; [set_solver|]. destruct IH as [es Hes]; [set_solver|].
      exists (e :: es). by constructor. }
    assert (∀ {B} (f : Row → B), NoDup ((λ x, (review_id x, f x)) <$> t) → NoDup (f <$> rows_of t r)) as Hnd
      by (intros; by apply rows_of_NoDup).
    exists events. split; [|by exists rows]. split.
    - assert (StronglySorted (λ a b, row_sequence_number a < row_sequence_number b) rows) as Hs
        by (by apply sortBy_key_strict, Hnd).
      clear Hp Hnd. induction Hev as [|x e rows' events Hx Hev IH]; [constructor|].
      apply StronglySorted_inv in Hs as [Hs Hf]. constructor; [by apply IH|].
      apply Forall_forall. intros y [i Hi]%list_elem_of_lookup.
      destruct (Forall2_lookup_r _ _ _ _ _ Hev Hi) as (x' & Hx' & _ & _ & <-).
      destruct Hx as (_ & _ & <-). apply (proj1 (Forall_forall _ _) Hf). eauto using list_elem_of_lookup_2.
    - replace (idempotency_key <$> events) with (row_idempotency_key <$> rows).
      + rewrite Hp. by apply Hnd.
      + clear Hp. induction Hev as [|x e rows' events (_ & Hk & _) _ IH]; [done|].
        by rewrite !fmap_cons, IH, Hk.
Qed.

Lemma insert_table_ok t row e :
    table_ok t → constraints_hold t row = true → row_stores row e → table_ok (t ++ [row]).
Proof.
    intros (Hseq & Hkey & Hst) Hc Hrow. unfold constraints_hold in Hc. bool_simpl.
    assert (∀ {B} (f : Row → B), (∀ x, x ∈ rows_of t (review_id row) → f x ≠ f row) →
      NoDup ((λ x, (review_id x, f x)) <$> t) → NoDup ((λ x, (review_id x, f x)) <$> t ++ [row])) as Hnd.
    { intros B f Hf Hn. rewrite fmap_app. apply NoDup_app. split; [done|]. split; [|apply NoDup_singleton].
      intros k (x & -> & Hx)%list_elem_of_fmap Hk%list_elem_of_singleton. injection Hk as Hr Hfx.
      apply (Hf x); [by apply elem_of_rows_of|done]. }
    rewrite existsb_false in *. split_and!.
    - apply Hnd; [|done]. intros x Hx. apply Z.eqb_neq. auto.
    - apply Hnd; [|done]. intros x Hx. eapply bool_decide_eq_false. auto.
    - intros x [Hx| ->%list_elem_of_singleton]%elem_of_app; eauto.
Qed.

Lemma step_ok t c t' c' :
    table_ok t → call_ok c → step t c = (t', c') → table_ok t' ∧ call_ok c' ∧ t `prefix_of` t'.
Proof.
    intros Ht Hc. unfold step. destruct (call_pc c).
    - by intros; simplify_eq.
    - destruct (select_key _ _ _); [case_bool_decide|]; by intros; simplify_eq.
    - destruct (select_max _ _); [destruct (_ <=? _)|]; by intros; simplify_eq.
    - unfold insert_row. destruct (constraints_hold t (event_row c)) eqn:Hh; intros; simplify_eq; [|done].
      split_and!; [|done|by apply prefix_app_r].
      apply insert_table_ok with (call_event c); [done..|]. split; [|done]. simpl.
      unfold call_ok in Hc. rewrite Hc. by destruct (call_row c).
    - by intros; simplify_eq.
Qed.

Lemma system_steps_ok s s' :
    rtc system_step s s' → table_ok s.1 → Forall call_ok s.2 →
    table_ok s'.1 ∧ Forall call_ok s'.2 ∧ s.1 `prefix_of` s'.1.
Proof.
    induction 1 as [s|s1 s2 s3 Hstep _ IH]; [done|]. intros Ht Hcs.
    inversion Hstep as [t calls i c t' c' Hi Hst]; subst; simpl in *.
    destruct (step_ok _ _ _ _ Ht (Forall_lookup_1 _ _ _ _ Hcs Hi) Hst) as (? & ? & ?).
    destruct IH as (? & ? & ?); [done|by apply Forall_insert|].
    split_and!; [done..|by etrans].
Qed.

  (** ** What the answer of a call says

      [before] is the table when the call was issued, [after] the table when it
      answered: every guard of [append] leaves a fact about one of them. *)
Definition key_fresh (before : table_t) (c : call) : Prop :=
    ∀ x, x ∈ rows_of before (call_review c) → row_idempotency_key x ≠ idempotency_key (call_event c).
Definition above_all (before : table_t) (c : call) : Prop :=
    ∀ x, x ∈ rows_of before (call_review c) → row_sequence_number x < sequence_number (call_event c).

Inductive answered (before after : table_t) (c : call) : throws (AppendOutcome E) → Prop :=
    | answered_noop x e :
        x ∈ rows_of after (call_review c) → row_stores x e →
        row_idempotency_key x = idempotency_key (call_event c) → digest x = row_digest (call_row c) →
        answered before after c (Ret (idempotent_noop e))
    | answered_conflict x :
        x ∈ rows_of after (call_review c) →
        row_idempotency_key x = idempotency_key (call_event c) → digest x ≠ row_digest (call_row c) →
        answered before after c (Ret (rejected idempotency_key_body_conflict))
    | answered_stale x :
        key_fresh before c →
        x ∈ rows_of after (call_review c) → sequence_number (call_event c) ≤ row_sequence_number x →
        answered before after c (Ret (rejected sequence_number_not_monotonic))
    | answered_appended :
        key_fresh before c → above_all before c → event_row c ∈ after →
        answered before after c (Ret (appended (call_event c)))
    | answered_refused err :
        key_fresh before c → above_all before c → constraints_hold after (event_row c) = false →
        answered before after c (Throw err).

  (* The facts a call has gathered by the time it stands at its next statement. *)
Definition gathered (before after : table_t) (c : call) : Prop :=
    match call_pc c with
    | AtLock | AtKeyQuery => True
    | AtMaxQuery => key_fresh before c
    | AtInsert => key_fresh before c ∧ above_all before c
    | Finished result => answered before after c result
    end.

Lemma rows_of_mono t t' r x : t `prefix_of` t' → x ∈ rows_of t r → x ∈ rows_of t' r.
Proof. intros [l ->]. rewrite !elem_of_rows_of, elem_of_app. tauto. Qed.
Lemma constraints_mono t t' row : t `prefix_of` t' → constraints_hold t row = false → constraints_hold t' row = false.
Proof.
    intros Hp Hf. destruct (constraints_hold t' row) eqn:Ht; [|done]. rewrite <- Hf. symmetry.
    unfold constraints_hold in *. bool_simpl. rewrite existsb_false in *.
    repeat (apply andb_true_intro; split); try done;
      apply negb_true_iff, existsb_false; intros x Hx; eauto using rows_of_mono.
Qed.
Lemma answered_mono before t t' c r : t `prefix_of` t' → answered before t c r → answered before t' c r.
Proof.
    intros Hp [x e Hx|x Hx|x Hf Hx|Hf Ha Hin|err Hf Ha Hc].
    - eapply answered_noop; eauto using rows_of_mono.
    - eapply answered_conflict; eauto using rows_of_mono.
    - eapply answered_stale; eauto using rows_of_mono.
    - apply answered_appended; [done..|]. destruct Hp as [l ->]. apply elem_of_app. by left.
    - apply answered_refused; eauto using constraints_mono.
Qed.
Lemma gathered_mono before t t' c : t `prefix_of` t' → gathered before t c → gathered before t' c.
Proof. unfold gathered. destruct (call_pc c); eauto using answered_mono. Qed.

Lemma step_gathered before t c t' c' :
    table_ok t → call_ok c → before `prefix_of` t → gathered before t c → step t c = (t', c') →
    gathered before t' c' ∧ call_review c' = call_review c ∧ call_event c' = call_event c ∧ call_row c' = call_row c.
Proof.
    intros (_ & _ & Hst) Hc Hp Hg. unfold step, gathered in *. destruct (call_pc c) eqn:Hpc; [by intros; simplify_eq|..|].
    - destruct (select_key _ _ _) as [x|] eqn:Hk; unfold select_key in Hk.
      + apply find_Some_elem in Hk as [Hx Hk]. bool_simpl.
        destruct (Hst x) as [e He]; [by apply elem_of_rows_of in Hx as [? _]|].
        case_bool_decide; intros; simplify_eq; (split; [|done]); simpl.
        * destruct He as (He & ?). rewrite (row_roundtrip _ _ He : fromCanonicalRow (body x) = Ret e).
          by apply (answered_noop _ _ _ x).
        * by apply (answered_conflict _ _ _ x).
      + intros; simplify_eq. split; [|done]. intros x Hx. rewrite find_None_forall in Hk.
        specialize (Hk x (rows_of_mono _ _ _ _ Hp Hx)). by bool_simpl.
    - destruct (select_max t (call_review c)) as [m|] eqn:Hm; [destruct (_ <=? m) eqn:Hle|];
        intros; simplify_eq; (split; [|done]); simpl.
      + apply Z.leb_le in Hle. destruct (select_max_elem _ _ _ Hm) as (x & Hx & <-). by apply (answered_stale _ _ _ x).
      + apply Z.leb_gt in Hle. split; [done|]. intros x Hx.
        pose proof (select_max_ge _ _ x _ Hm (rows_of_mono _ _ _ _ Hp Hx)). simpl in *. lia.
      + split; [done|]. intros x Hx. pose proof (rows_of_mono _ _ _ _ Hp Hx) as Hx'. simpl in Hx'.
        rewrite (select_max_None _ _ Hm) in Hx'. by apply not_elem_of_nil in Hx'.
    - destruct Hg as [Hf Ha]. unfold insert_row. destruct (constraints_hold t (event_row c)) eqn:Hh;
        intros; simplify_eq; (split; [|done]); simpl.
      + rewrite (row_roundtrip _ _ Hc). apply answered_appended; [done..|]. apply elem_of_app. right. by apply list_elem_of_singleton.
      + by apply answered_refused.
    - intros; simplify_eq. by rewrite Hpc.
Qed.

Lemma system_steps_gathered before s s' i c0 c :
    rtc system_step s s' → table_ok s.1 → Forall call_ok s.2 → before `prefix_of` s.1 →
    s.2 !! i = Some c → gathered before s.1 c →
    call_review c = call_review c0 → call_event c = call_event c0 → call_row c = call_row c0 →
    ∃ c', s'.2 !! i = Some c' ∧ gathered before s'.1 c' ∧
      call_review c' = call_review c0 ∧ call_event c' = call_event c0 ∧ call_row c' = call_row c0.
Proof.
    intros Hrtc. revert c. induction Hrtc as [s|s1 s2 s3 Hstep _ IH]; intros c Ht Hcs Hp Hi Hg Hr He Hw; [eauto 10|].
    inversion Hstep as [t calls k ck t' ck' Hk Hst]; subst; simpl in *.
    pose proof (Forall_lookup_1 _ _ _ _ Hcs Hk) as Hok.
    destruct (step_ok _ _ _ _ Ht Hok Hst) as (Ht' & Hok' & Hpre).
    destruct (decide (k = i)) as [->|Hki].
    - assert (ck = c) as -> by congruence.
      destruct (step_gathered before _ _ _ _ Ht Hok Hp Hg Hst) as (Hg' & Hr' & He' & Hw').
      apply (IH ck'); [done|by apply Forall_insert|by etrans| |done|congruence..].
      apply list_lookup_insert_eq. by eapply lookup_lt_Some.
    - apply (IH c); [done|by apply Forall_insert|by etrans| |by eapply gathered_mono|done..].
      by rewrite list_lookup_insert_ne.
Qed.

  (** C2. Whatever the interleaving of concurrent calls, no stored row is changed or
      removed, every review's log reads back in strictly increasing order without a
      repeated idempotency key, and a call that had not run a statement at the start
      answers as [answered] says: it answers appended only when at the start no row of
      its review had its key and every row a smaller number, and its own row is in the
      table; it answers with the stored event only for a row of its key and digest,
      and a conflict only for a row of its key with another digest; it reports a stale
      number only when a row has that number or a greater one; and the database
      refuses its row only when, its key fresh and its number above all rows at the
      start, the columns or the unique constraints do not admit the row now. *)
Theorem postgres_log_concurrent_safety t calls t' calls' :
    table_ok t → Forall call_ok calls → rtc system_step (t, calls) (t', calls') →
    t `prefix_of` t' ∧
    (∀ reviewId, ∃ events, loadLog t' reviewId = Ret events ∧ LogSpec.log_ok events) ∧
    ∀ i c c' result, calls !! i = Some c → call_pc c = AtLock →
      calls' !! i = Some c' → call_pc c' = Finished result → answered t t' c result.
Proof.
    intros Ht Hcs Hrtc. destruct (system_steps_ok _ _ Hrtc Ht Hcs) as (Ht' & _ & Hpre).
    split_and!; [done| |].
    - intros reviewId. destruct (table_ok_represents t' reviewId Ht') as [events Hrep].
      exists events. split; [by apply loadLog_represents|apply Hrep].
    - intros i c c' result Hi Hpc Hi' Hpc'.
      destruct (system_steps_gathered t _ _ i c c Hrtc Ht Hcs) as (c1 & Hc1 & Hg & Hr & He & Hw); try done.
      { unfold gathered. by rewrite Hpc. }
      simpl in *. rewrite Hi' in Hc1. injection Hc1 as <-. unfold gathered in Hg. rewrite Hpc' in Hg.
      assert (∀ x y, call_review x = call_review y → call_event x = call_event y → call_row x = call_row y →
        ∀ r, answered t t' x r → answered t t' y r) as Hsame.
      { clear. intros [r1 e1 w1 p1] [r2 e2 w2 p2] ? ? ? r Ha. simpl in *. subst.
        destruct Ha as [x e|x|x|Hf Ha Hin|]; [eapply (answered_noop _ _ _ x)|eapply (answered_conflict _ _ _ x)|
          eapply (answered_stale _ _ _ x)|exact (answered_appended t t' (Build_call r2 e2 w2 p2) Hf Ha Hin)|eapply answered_refused]; done. }
      by apply (Hsame c' c).
Qed.

  (** Runs the calls in the order a schedule of call indices gives. *)
Fixpoint run_schedule (schedule : list nat) (s : table_t * list call) : table_t * list call :=
    match schedule with
    | [] => s
    | i :: schedule' =>
        match s.2 !! i with
        | Some c => let '(t', c') := step s.1 c in run_schedule schedule' (t', <[i := c']> s.2)
        | None => run_schedule schedule' s
        end
    end.
Lemma run_schedule_steps schedule s : rtc system_step s (run_schedule schedule s).
Proof.
    revert s; induction schedule as [|i schedule IH]; intros [t calls]; [done|]. simpl.
    destruct (calls !! i) as [c|] eqn:Hi; [|apply IH].
    destruct (step t c) as [t' c'] eqn:Hst. eapply rtc_l; [by econstructor|apply IH].
Qed.
End postgres_log.
Arguments Row : clear implicits.
Arguments call E : clear implicits.
Arguments pc E : clear implicits.
End PostgresLog.

(** * Both adapters run the same contract *)

Section adapters_agree.
Context {E : Type} `{LogEvent E} `{CanonicalRows E}.

  (* A sequence of calls, one after the other. *)
Definition run_calls {S} (append : S → string → E → throws (AppendOutcome E) * S) :
      S → list (string * E) → list (throws (AppendOutcome E)) * S :=
    fix run s ops :=
      match ops with
      | [] => ([], s)
      | (reviewId, event) :: ops' =>
          let '(o, s1) := append s reviewId event in
          let '(os, s2) := run s1 ops' in (o :: os, s2)
      end.





End adapters_agree.

(** * Sample events

    A finite set of events whose canonical rows are tabulated, to run the
    adapters on. *)

Module Samples.
Record event := { ts : string; key : string; seq : Z }.
#[export] Instance event_eq_dec : EqDecision event.
Proof. solve_decision. Defined.
#[export] Instance event_log_event : LogEvent event :=
    {| event_timestamp := ts; idempotency_key := key; sequence_number := seq |}.

Definition e1 := {| ts := "2026-01-10T00:00:00Z"; key := "k1"; seq := 1 |}.
Definition e1' := {| ts := "2026-01-11T00:00:00Z"; key := "k1"; seq := 1 |}.
Definition e2 := {| ts := "2026-01-12T00:00:00Z"; key := "k2"; seq := 2 |}.
Definition e3 := {| ts := "2026-02-01T00:00:00+00:00"; key := "k3"; seq := 3 |}.
Definition known : list event := [e1; e1'; e2; e3].

#[export] Instance event_rows : CanonicalRows event := Tabulated.rows known.
Lemma samples_identify l : digests_identify (E := event) l.
Proof. apply Tabulated.tabulated_identify. Qed.
End Samples.

Module SampleRuns.
Import Samples.
Definition review := "review:abc".
Definition collate (x y : string) : Z := if str_ltb x y then -1 else if str_ltb y x then 1 else 0.

Lemma collate_le x y : collate x y ≤ 0 ↔ str_ltb y x = false.
Proof.
    unfold collate. destruct (str_ltb x y) eqn:E1.
    - rewrite (str_ltb_asym _ _ E1). split; [done|lia].
    - destruct (str_ltb y x); split; (done || lia).
Qed.

Definition started (e : event) (r : CanonicalRow) : PostgresLog.call event :=
    {| PostgresLog.call_review := review; PostgresLog.call_event := e;
       PostgresLog.call_row := r; PostgresLog.call_pc := PostgresLog.AtLock |}.
Definition concurrent : list PostgresLog.Row * list (PostgresLog.call event) :=
    PostgresLog.run_schedule [0; 0; 0; 1; 1; 1; 1; 0]%nat ([], [started e1 (Tabulated.row_at 0); started e2 (Tabulated.row_at 2)]).

  (** The advisory lock does not outlive its own statement, so two concurrent
      calls may both pass their checks on the empty table: the event numbered 1
      is appended after the event numbered 2, and both calls report success. *)
Theorem postgres_interleaving_not_monotonic :
    ∃ c1 c2 t calls, PostgresLog.start review e1 = Ret c1 ∧ PostgresLog.start review e2 = Ret c2 ∧
      rtc PostgresLog.system_step ([], [c1; c2]) (t, calls) ∧
      PostgresLog.call_pc <$> calls =
        [PostgresLog.Finished (Ret (appended e1)); PostgresLog.Finished (Ret (appended e2))] ∧
      PostgresLog.row_sequence_number <$> t = [2; 1].
Proof.
    exists (started e1 (Tabulated.row_at 0)), (started e2 (Tabulated.row_at 2)), concurrent.1, concurrent.2.
    split; [done|]. split; [done|]. split; [|by vm_compute].
    rewrite <- surjective_pairing. apply PostgresLog.run_schedule_steps.
Qed.

Definition calls : list (string * event) :=
    [(review, e1); (review, e1'); (review, e1); (review, e2); ("review:xyz", e3); (review, e3)].
Definition memory : list (string * list MemoryLog.StoredEntry) := (run_calls MemoryLog.append [] calls).2.

Lemma memory_reached : rtc (MemoryLog.log_step known) [] memory.
Proof.
    assert (Forall (λ c : string * event, c.2 ∈ known) calls) as Hc
      by (eapply (bool_decide_unpack _); vm_compute; reflexivity).
    unfold memory. revert Hc. generalize calls. generalize ([] : list (string * list MemoryLog.StoredEntry)).
    intros l cs Hc. revert l. induction Hc as [|[r e] cs He Hc IH]; intros l; [done|]. simpl.
    destruct (MemoryLog.append l r e) as [o l1] eqn:E. specialize (IH l1).
    destruct (run_calls _ _ _). simpl in *. eapply rtc_l; [by econstructor|done].
Qed.
Lemma empty_logs_ok : MemoryLog.logs_ok known [].
Proof. split; [constructor|]. intros r. exists []. split; [by repeat constructor|set_solver]. Qed.
Lemma memory_ok : MemoryLog.logs_ok known memory.
Proof.
    assert (∀ l l', rtc (MemoryLog.log_step known) l l' → MemoryLog.logs_ok known l → MemoryLog.logs_ok known l') as H.
    { induction 1 as [|l1 l2 l3 Hs _ IH]; [done|]. intros Hl. apply IH.
      by apply (MemoryLog.log_step_ok known (samples_identify known) _ _ Hl) in Hs as [? _]. }
    apply (H [] memory); [apply memory_reached|apply empty_logs_ok].
Qed.

Lemma memory_log_append_only_witness :
    ∃ events events', MemoryLog.loadLog [] review = Ret events ∧ MemoryLog.loadLog memory review = Ret events' ∧
      events `prefix_of` events' ∧ LogSpec.log_ok events'.
Proof.
    apply (MemoryLog.memory_log_append_only known (samples_identify known) [] memory review);
      [apply empty_logs_ok|apply memory_reached].
Defined.

Lemma range_read_exact_witness :
    ∃ events, MemoryLog.loadEventsByTimestampRange collate memory
        "2026-01-01T00:00:00.000Z" "2026-02-01T00:00:00.000Z" = Ret events ∧
      StronglySorted (λ a b, collate (event_timestamp a) (event_timestamp b) ≤ 0) events ∧
      ∀ e, e ∈ events ↔
        str_leb "2026-01-01T00:00:00.000Z" (event_timestamp e) = true ∧
        str_ltb (event_timestamp e) "2026-02-01T00:00:00.000Z" = true ∧
        ∃ r l, r ∈ JsMap.keys memory ∧ MemoryLog.loadLog memory r = Ret l ∧ e ∈ l.
Proof.
    apply (MemoryLog.range_read_exact known collate); [apply memory_ok|..].
    - intros x y. rewrite !collate_le. destruct (str_ltb_total x y) as [H|[->|H]].
      + left. by apply str_ltb_asym.
      + left. apply str_ltb_irrefl.
      + right. by apply str_ltb_asym.
    - intros x y z. rewrite !collate_le. intros H1 H2. apply not_true_iff_false. intros H3.
      destruct (str_ltb_total x y) as [H|[->|H]]; [|congruence..].
      pose proof (str_ltb_trans _ _ _ H3 H). congruence.
Defined.

  (** The in-memory range compares the timestamps as text: an event at the first
      instant of February, written with the offset [+00:00], is counted in
      January and not in February. *)
Theorem range_read_offset_spelling :
    let in_range a b := match MemoryLog.loadEventsByTimestampRange (E := event) collate memory a b with
                        | Ret l => bool_decide (e3 ∈ l) | Throw _ => false end in
    in_range "2026-01-01T00:00:00.000Z" "2026-02-01T00:00:00.000Z" = true ∧
    in_range "2026-02-01T00:00:00.000Z" "2026-03-01T00:00:00.000Z" = false.
Proof. by vm_compute. Qed.


Lemma postgres_log_concurrent_safety_witness :
    PostgresLog.answered [] concurrent.1 (started e1 (Tabulated.row_at 0)) (Ret (appended e1)).
Proof.
    destruct (PostgresLog.postgres_log_concurrent_safety [] [started e1 (Tabulated.row_at 0); started e2 (Tabulated.row_at 2)]
      concurrent.1 concurrent.2) as (_ & _ & Hanswers).
    - repeat split; try constructor. by intros r ?%not_elem_of_nil.
    - repeat constructor.
    - rewrite <- surjective_pairing. apply PostgresLog.run_schedule_steps.
    - eapply (Hanswers 0%nat); [reflexivity|reflexivity|vm_compute; reflexivity|reflexivity].
Defined.
End SampleRuns.
