(* ===== verification/RecordStores.v ===== *)
(** The keyed record stores of packages/evidence-store: stored-object
    classifications, retention records, readiness evidence and decisions, and
    the versioned environment gate, in memory and in Postgres. *)
From S2P Require Import Prelude Patterns CanonicalRows.

Local Open Scope Z_scope.

(* A table of canonical bodies under a text primary key, or the Map of the
   in-memory adapter: both list their rows in insertion order. *)
Abbreviation rows_t := (list (string * list Z)).

Inductive RecordOutcome := recorded | already_present.
Inductive IdentityRecordOutcome := id_recorded | id_already_present | id_body_conflict.
Inductive VersionOutcome := version_recorded | version_conflict.

#[export] Instance RecordOutcome_eq_dec : EqDecision RecordOutcome.
Proof. solve_decision. Defined.
#[export] Instance IdentityRecordOutcome_eq_dec : EqDecision IdentityRecordOutcome.
Proof. solve_decision. Defined.
#[export] Instance VersionOutcome_eq_dec : EqDecision VersionOutcome.
Proof. solve_decision. Defined.

(** * SQL statements on a table of rows *)

Module SqlRows.
Section sql.
Context {K : Type} `{EqDecision K}.
(* INSERT ... ON CONFLICT (key) DO NOTHING RETURNING key: the rows returned. *)
Definition insert_on_conflict (table : list (K * list Z)) (k : K) (body : list Z)
    : list K * list (K * list Z) :=
  if existsb (λ r : K * list Z, r.1 === k) table then ([], table) else ([k], table ++ [(k, body)]).
(* SELECT body ... WHERE key = $1 *)
Definition select_body (table : list (K * list Z)) (k : K) : list (list Z) :=
  snd <$> List.filter (λ r : K * list Z, r.1 === k) table.

Lemma existsb_has (table : list (K * list Z)) k : existsb (λ r : K * list Z, r.1 === k) table = JsMap.has k table.
Proof.
  induction table as [|[k' b] table IH]; [done|]. unfold JsMap.has in *. simpl. rewrite IH.
  destruct (decide (k = k')) as [->|Hne]; [by rewrite bool_decide_true by done|].
  by rewrite bool_decide_false by done.
Qed.
Lemma insert_spec table k body :
  insert_on_conflict table k body =
    if JsMap.has k table then ([], table) else ([k], JsMap.set k body table).
Proof.
  unfold insert_on_conflict. rewrite existsb_has. destruct (JsMap.has k table) eqn:E0; [done|].
  apply JsMap.has_false in E0. by rewrite JsMap.set_fresh.
Qed.
Lemma select_head table k :
  NoDup (JsMap.keys table) → head (select_body table k) = JsMap.get k table.
Proof.
  unfold select_body. induction table as [|[k' b] table IH]; [done|].
  rewrite JsMap.keys_cons, NoDup_cons. intros [_ Hnd]. simpl.
  destruct (decide (k = k')) as [->|Hne]; [by rewrite bool_decide_true|].
  rewrite bool_decide_false by done. by apply IH.
Qed.
End sql.
End SqlRows.

(** * Stores that keep the first record under an identity *)

Section keyed_store.
Context {A : Type} `{CanonicalRows A} (idOf : A → string).

(* createMemoryClassificationStore / createMemoryRetentionRecordStore *)
Definition memory_record (rows : rows_t) (record : A) : throws RecordOutcome * rows_t :=
  if JsMap.has (idOf record) rows then (Ret already_present, rows)
  else match toCanonicalRow record with
       | Throw e => (Throw e, rows)
       | Ret row => (Ret recorded, JsMap.set (idOf record) (row_body row) rows)
       end.
Definition memory_find (rows : rows_t) (id : string) : throws (option A) :=
  match JsMap.get id rows with
  | None => Ret None
  | Some body => a ← fromCanonicalRow body; Ret (Some a)
  end.

(* createPostgresClassificationStore / createPostgresRetentionRecordStore *)
Definition postgres_record (table : rows_t) (record : A) : throws RecordOutcome * rows_t :=
  match toCanonicalRow record with
  | Throw e => (Throw e, table)
  | Ret row =>
      let '(returned, table') := SqlRows.insert_on_conflict table (idOf record) (row_body row) in
      (Ret (if (0 <? length returned)%nat then recorded else already_present), table')
  end.
Definition postgres_find (table : rows_t) (id : string) : throws (option A) :=
  match head (SqlRows.select_body table id) with
  | None => Ret None
  | Some body => a ← fromCanonicalRow body; Ret (Some a)
  end.

(* createMemoryIdentityStore *)
Definition memory_identity_record (rows : rows_t) (record : A) : throws IdentityRecordOutcome * rows_t :=
  match toCanonicalRow record with
  | Throw e => (Throw e, rows)
  | Ret row =>
      match JsMap.get (idOf record) rows with
      | None => (Ret id_recorded, JsMap.set (idOf record) (row_body row) rows)
      | Some existing => (Ret (if existing === row_body row then id_already_present else id_body_conflict), rows)
      end
  end.

(* recordCanonical *)
Definition postgres_identity_record (table : rows_t) (record : A) : throws IdentityRecordOutcome * rows_t :=
  match toCanonicalRow record with
  | Throw e => (Throw e, table)
  | Ret row =>
      let '(inserted, table') := SqlRows.insert_on_conflict table (idOf record) (row_body row) in
      if (0 <? length inserted)%nat then (Ret id_recorded, table')
      else (Ret (if head (SqlRows.select_body table' (idOf record)) === Some (row_body row)
                 then id_already_present else id_body_conflict), table')
  end.

(** A store holds, under each identity, the body of a record of that identity. *)
Definition rows_ok (rows : rows_t) : Prop :=
  NoDup (JsMap.keys rows) ∧
  ∀ id body, JsMap.get id rows = Some body →
    ∃ a row, idOf a = id ∧ toCanonicalRow a = Ret row ∧ row_body row = body.

Lemma memory_find_spec rows id :
  rows_ok rows → ∃ o, memory_find rows id = Ret o ∧ (o = None ↔ JsMap.get id rows = None) ∧
    ∀ a, o = Some a → idOf a = id.
Proof.
  intros [_ Hok]. unfold memory_find. destruct (JsMap.get id rows) as [body|] eqn:Hg.
  - destruct (Hok _ _ Hg) as (a & row & Hid & Hrow & <-). rewrite (row_roundtrip _ _ Hrow). simpl.
    exists (Some a). split_and!; [done|done|]. by intros ? [= <-].
  - by exists None.
Qed.

Lemma identity_record_ok rows record o rows' :
  rows_ok rows → memory_identity_record rows record = (o, rows') → rows_ok rows'.
Proof.
  intros [Hnd Hok]. unfold memory_identity_record.
  destruct (toCanonicalRow record) as [row|] eqn:Hrow; [|by intros [= <- <-]].
  destruct (JsMap.get (idOf record) rows) as [b|] eqn:Hg; intros [= <- <-]; [done|].
  split; [by apply JsMap.NoDup_keys_set|]. intros id body. rewrite JsMap.get_set.
  case_decide as E0; [|apply Hok]. intros [= <-]. by exists record, row.
Qed.

(** First write wins: once a record is stored under an identity, every later
    read under that identity returns that record whatever is written since; an
    identical write is acknowledged and a different one is refused. *)
Theorem identity_store_first_write_wins rows rows1 a o :
  rows_ok rows → JsMap.get (idOf a) rows = None →
  memory_identity_record rows a = (Ret o, rows1) →
  o = id_recorded ∧ rows_ok rows1 ∧ memory_find rows1 (idOf a) = Ret (Some a) ∧
  ∀ b o' rows2, idOf b = idOf a → memory_identity_record rows1 b = (Ret o', rows2) →
    rows2 = rows1 ∧ (o' = id_already_present ∧ b = a ∨ o' = id_body_conflict ∧ b ≠ a).
Proof.
  intros Hok Hnone Hrec. pose proof (identity_record_ok _ _ _ _ Hok Hrec) as Hok1.
  unfold memory_identity_record in Hrec.
  destruct (toCanonicalRow a) as [row|] eqn:Hrow; [|done]. rewrite Hnone in Hrec.
  injection Hrec as <- <-. split; [done|]. split; [done|]. split.
  { unfold memory_find. rewrite JsMap.get_set_eq, (row_roundtrip _ _ Hrow). done. }
  intros b o' rows2 Hid. unfold memory_identity_record. rewrite Hid.
  destruct (toCanonicalRow b) as [row'|] eqn:Hrow'; [|done]. rewrite JsMap.get_set_eq.
  case_bool_decide as Hb; intros [= <- <-]; split; try done.
  - left. split; [done|]. eapply row_body_inj; eauto.
  - right. split; [done|]. intros ->. congruence.
Qed.

(** On canonicalizable records the two adapters of a keyed store are the same
    function of outcome and table, for both kinds of store. *)
Theorem keyed_adapters_agree rows record row :
  NoDup (JsMap.keys rows) → toCanonicalRow record = Ret row →
  memory_record rows record = postgres_record rows record ∧
  memory_identity_record rows record = postgres_identity_record rows record ∧
  ∀ id, memory_find rows id = postgres_find rows id.
Proof.
  intros Hnd Hrow.
  assert (∀ id, memory_find rows id = postgres_find rows id) as Hfind.
  { intros id. unfold memory_find, postgres_find. by rewrite SqlRows.select_head. }
  split; [|split; [|done]].
  - unfold memory_record, postgres_record. rewrite Hrow, SqlRows.insert_spec.
    by destruct (JsMap.has _ _).
  - unfold memory_identity_record, postgres_identity_record. rewrite Hrow, SqlRows.insert_spec.
    destruct (JsMap.get (idOf record) rows) as [b|] eqn:Hg.
    + rewrite (proj2 (JsMap.has_true _ _)) by eauto. simpl. rewrite SqlRows.select_head, Hg by done.
      f_equal. f_equal. case_bool_decide; case_bool_decide; congruence.
    + by rewrite (proj2 (JsMap.has_false _ _)).
Qed.
End keyed_store.

(** * Due retention records *)

Class RetentionRecord (A : Type) := {
  retention_record_id : A → string;
  end_timestamp : A → string;
  retained_artifact_refs : A → list string
}.

Section retention.
Context {A : Type} `{CanonicalRows A} `{RetentionRecord A}.

(* createMemoryRetentionRecordStore.listDue *)
Definition memory_listDue (rows : rows_t) (now : string) : throws (list A) :=
  records ← read_all (JsMap.values rows);
  Ret (List.filter (λ r, str_leb (end_timestamp r) now) records).

(* createPostgresRetentionRecordStore.listDue: the predicate compares the text of
   end_timestamp; rows come back ordered by identity. *)
Definition postgres_listDue (collate : string → string → Z) (table : rows_t) (now : string) : throws (list A) :=
  records ← read_all (JsMap.values (sortBy (λ a b, collate a.1 b.1) table));
  Ret (List.filter (λ r, str_leb (end_timestamp r) now) records).
End retention.

(** * The environment gate: versioned and append-only *)

Section gate.
Context {G : Type} `{CanonicalRows G}.
Abbreviation versions_t := (list (Z * list Z)).

(* createMemoryEnvironmentGateStore.loadCurrent *)
Definition highest_version (versions : versions_t) : option Z :=
  fold_left (λ highest version,
    match highest with
    | None => Some version
    | Some h => if h <? version then Some version else highest
    end) (JsMap.keys versions) None.
Definition memory_loadCurrent (versions : versions_t) : throws (option (Z * G)) :=
  match highest_version versions with
  | None => Ret None
  | Some highest =>
      match JsMap.get highest versions with
      | None => Ret None
      | Some body => gate ← fromCanonicalRow body; Ret (Some (highest, gate))
      end
  end.
Definition memory_recordVersion (versions : versions_t) (version : Z) (gate : G)
    : throws VersionOutcome * versions_t :=
  if JsMap.has version versions then (Ret version_conflict, versions)
  else match toCanonicalRow gate with
       | Throw e => (Throw e, versions)
       | Ret row => (Ret version_recorded, JsMap.set version (row_body row) versions)
       end.

(* createPostgresEnvironmentGateStore: version integer PRIMARY KEY CHECK (version >= 1) *)
Definition postgres_loadCurrent (table : versions_t) : throws (option (Z * G)) :=
  match sortBy (λ a b, b.1 - a.1) table with
  | [] => Ret None
  | (version, body) :: _ => gate ← fromCanonicalRow body; Ret (Some (version, gate))
  end.
Definition postgres_recordVersion (table : versions_t) (version : Z) (gate : G)
    : throws VersionOutcome * versions_t :=
  match toCanonicalRow gate with
  | Throw e => (Throw e, table)
  | Ret row =>
      if ((1 <=? version) && (version <=? 2147483647))%bool then
        let '(returned, table') := SqlRows.insert_on_conflict table version (row_body row) in
        (Ret (if (0 <? length returned)%nat then version_recorded else version_conflict), table')
      else (Throw "constraint violation", table)
  end.

Definition versions_ok (versions : versions_t) : Prop :=
  NoDup (JsMap.keys versions) ∧
  ∀ v body, JsMap.get v versions = Some body → ∃ g row, toCanonicalRow (E := G) g = Ret row ∧ row_body row = body.

Lemma highest_fold l h :
  fold_left (λ highest version,
    match highest with
    | None => Some version
    | Some h => if h <? version then Some version else highest
    end) l (Some h) = Some (fold_left Z.max l h).
Proof.
  revert h; induction l as [|x l IH]; intros h; [done|]. simpl.
  destruct (Z.ltb_spec h x); rewrite IH; do 2 f_equal; lia.
Qed.
Lemma fold_max_spec l h : (fold_left Z.max l h = h ∨ fold_left Z.max l h ∈ l) ∧ h ≤ fold_left Z.max l h ∧
  ∀ x, x ∈ l → x ≤ fold_left Z.max l h.
Proof.
  revert h; induction l as [|y l IH]; intros h; simpl; [split; [auto|split; [lia|set_solver]]|].
  destruct (IH (Z.max h y)) as (Hin & Hle & Hall). split; [|split; [lia|]].
  - destruct Hin as [->|Hin]; [|right; by apply elem_of_cons; right].
    destruct (Z.max_spec h y) as [[_ ->]|[_ ->]]; [right; by apply elem_of_cons; left|by left].
  - intros x [->|Hx]%elem_of_cons; [lia|auto].
Qed.
Lemma highest_version_spec versions :
  match highest_version versions with
  | None => versions = []
  | Some h => h ∈ JsMap.keys versions ∧ ∀ v, v ∈ JsMap.keys versions → v ≤ h
  end.
Proof.
  unfold highest_version. destruct versions as [|[v b] versions]; [done|].
  rewrite JsMap.keys_cons. simpl. rewrite highest_fold.
  destruct (fold_max_spec (JsMap.keys versions) v) as (Hin & Hle & Hall). split.
  - apply elem_of_cons. by destruct Hin; [left|right].
  - intros x [->|Hx]%elem_of_cons; auto.
Qed.

Lemma memory_recordVersion_ok versions v g o versions' :
  versions_ok versions → memory_recordVersion versions v g = (o, versions') → versions_ok versions'.
Proof.
  intros [Hnd Hok]. unfold memory_recordVersion. destruct (JsMap.has v versions); [by intros [= <- <-]|].
  destruct (toCanonicalRow g) as [row|] eqn:Hrow; intros [= <- <-]; [|done].
  split; [by apply JsMap.NoDup_keys_set|]. intros v' body. rewrite JsMap.get_set.
  case_decide; [intros [= <-]; by exists g, row|apply Hok].
Qed.

(** The gate in force is the recorded one of the highest version, a recorded
    version is never rewritten, and raising the version takes effect at once. *)
Theorem gate_current_is_highest versions v g row :
  versions_ok versions → toCanonicalRow g = Ret row → (∀ v', v' ∈ JsMap.keys versions → v' < v) →
  let versions' := (memory_recordVersion versions v g).2 in
  (memory_recordVersion versions v g).1 = Ret version_recorded ∧
  memory_loadCurrent versions' = Ret (Some (v, g)) ∧
  (∀ v', v' ≠ v → JsMap.get v' versions' = JsMap.get v' versions) ∧
  (∀ g' o versions'', memory_recordVersion versions' v g' = (o, versions'') →
     o = Ret version_conflict ∧ versions'' = versions').
Proof.
  intros Hok Hrow Hlt.
  assert (JsMap.get v versions = None) as Hv.
  { apply JsMap.get_None. intros Hin. specialize (Hlt v Hin). lia. }
  assert (memory_recordVersion versions v g = (Ret version_recorded, JsMap.set v (row_body row) versions)) as ->.
  { unfold memory_recordVersion. by rewrite (proj2 (JsMap.has_false _ _) Hv), Hrow. }
  simpl. split; [done|]. split; [|split].
  - unfold memory_loadCurrent. pose proof (highest_version_spec (JsMap.set v (row_body row) versions)) as Hh.
    destruct (highest_version _) as [h|].
    + destruct Hh as [Hin Hmax]. rewrite JsMap.set_fresh in Hin, Hmax by done.
      assert (∀ x, x ∈ JsMap.keys (versions ++ [(v, row_body row)]) ↔ x ∈ JsMap.keys versions ∨ x = v) as Hkeys.
      { intros x. unfold JsMap.keys. rewrite fmap_app, elem_of_app. simpl. by rewrite list_elem_of_singleton. }
      assert (h = v) as ->.
      { apply Hkeys in Hin as [Hin|]; [|done]. specialize (Hlt h Hin).
        pose proof (Hmax v (proj2 (Hkeys v) (or_intror eq_refl))). lia. }
      by rewrite JsMap.get_set_eq, (row_roundtrip _ _ Hrow).
    + rewrite JsMap.set_fresh in Hh by done. by destruct versions.
  - intros v' Hne. by rewrite JsMap.get_set_ne.
  - intros g' o versions''. unfold memory_recordVersion.
    rewrite (proj2 (JsMap.has_true _ _)) by (rewrite JsMap.get_set_eq; eauto). by intros [= <- <-].
Qed.
End gate.

(** * The stores on sample artifacts *)

Module RecordSamples.
Record Doc := { doc_id : string; doc_end : string; doc_text : string }.
#[export] Instance Doc_eq_dec : EqDecision Doc.
Proof. solve_decision. Defined.
Definition a1 := {| doc_id := "r1"; doc_end := "2026-01-01T00:00:00Z"; doc_text := "one" |}.
Definition a2 := {| doc_id := "r1"; doc_end := "2026-01-01T00:00:00Z"; doc_text := "two" |}.
Definition a3 := {| doc_id := "r2"; doc_end := "2026-01-01T00:00:00.5Z"; doc_text := "three" |}.
#[export] Instance doc_rows : CanonicalRows Doc := Tabulated.rows [a1; a2; a3].
#[export] Instance doc_retention : RetentionRecord Doc :=
  {| retention_record_id := doc_id; end_timestamp := doc_end; retained_artifact_refs := λ _, [] |}.

Lemma empty_ok : rows_ok doc_id [].
Proof. split; [constructor|done]. Defined.

Lemma identity_store_first_write_wins_witness :
  memory_identity_record doc_id [("r1", [0])] a2 = (Ret id_body_conflict, [("r1", [0])]) ∧
  memory_find [("r1", [0])] "r1" = Ret (Some a1).
Proof.
  destruct (identity_store_first_write_wins doc_id [] [("r1", [0])] a1 id_recorded) as (_ & _ & Hf & _);
    [exact empty_ok|reflexivity|reflexivity|].
  split; [reflexivity|exact Hf].
Defined.

Lemma keyed_adapters_agree_witness :
  memory_record doc_id [("r1", [0])] a3 = postgres_record doc_id [("r1", [0])] a3.
Proof.
  eapply (keyed_adapters_agree doc_id [("r1", [0])] a3); [|reflexivity].
  apply NoDup_singleton.
Defined.

Lemma gate_current_is_highest_witness :
  memory_loadCurrent (memory_recordVersion [(1, [0])] 2 a2).2 = Ret (Some (2, a2)).
Proof.
  refine (proj1 (proj2 (gate_current_is_highest [(1, [0])] 2 a2 (Tabulated.row_at 1) _ eq_refl _))).
  - split; [apply NoDup_singleton|]. intros v body. simpl. case_decide; [|done]. intros [= <-].
    exists a1, (Tabulated.row_at 0). split; reflexivity.
  - intros v' Hv'. change (v' ∈ [1]) in Hv'. apply list_elem_of_singleton in Hv'. lia.
Defined.

(** The in-memory and the Postgres due lists compare the text of the instants:
    a record whose end is the very instant asked about is listed or not
    depending on how that instant is spelled. *)
Lemma due_list_compares_text :
  memory_listDue [("r2", [2])] "2026-01-01T00:00:00.500Z" = Ret (A := list Doc) [] ∧
  memory_listDue [("r2", [2])] "2026-01-01T00:00:00.5Z" = Ret [a3].
Proof. split; reflexivity. Qed.
End RecordSamples.
