(* ===== verification/Bytes.v ===== *)
(** Bytes as integers from 0 to 255, [Buffer.toString("hex")] and
    [Buffer.from(_, "hex")], and the interface of SHA-256. *)
From S2P Require Import Prelude Patterns.

Local Open Scope Z_scope.

Abbreviation bytes := (list Z).
Definition is_byte (b : Z) : bool := ((0 <=? b) && (b <? 256))%bool.
Definition bytes_ok (b : bytes) : bool := forallb is_byte b.

(** * Hexadecimal text *)

Definition hex_char (n : Z) : ascii := ascii_of_N (Z.to_N (if n <? 10 then 48 + n else 87 + n)).
Fixpoint hex_string (b : bytes) : string :=
  match b with
  | [] => ""
  | x :: b' => String (hex_char (x / 16)) (String (hex_char (x mod 16)) (hex_string b'))
  end.

Definition hex_char_value (c : ascii) : option Z :=
  let n := Z.of_N (N_of_ascii c) in
  if ((48 <=? n) && (n <=? 57))%bool then Some (n - 48)
  else if ((97 <=? n) && (n <=? 102))%bool then Some (n - 87)
  else if ((65 <=? n) && (n <=? 70))%bool then Some (n - 55)
  else None.
(* Decoding stops at the first pair that is not hexadecimal. *)
Fixpoint from_hex (s : string) : bytes :=
  match s with
  | String a (String b s') =>
      match hex_char_value a, hex_char_value b with
      | Some x, Some y => 16 * x + y :: from_hex s'
      | _, _ => []
      end
  | _ => []
  end.

Lemma hex_char_value_char n : 0 ≤ n < 16 → hex_char_value (hex_char n) = Some n.
Proof.
  intros Hn. pose proof (forall_range (λ n, hex_char_value (hex_char n) === Some n) 0 16 n eq_refl Hn) as Hd.
  by apply bool_decide_eq_true in Hd.
Qed.
Lemma hex_char_class n : 0 ≤ n < 16 → is_hex_char (hex_char n) = true.
Proof.
  intros Hn. by apply (forall_range (λ n, is_hex_char (hex_char n)) 0 16).
Qed.
Lemma is_byte_true b : is_byte b = true ↔ 0 ≤ b < 256.
Proof. unfold is_byte. rewrite andb_true_iff, Z.leb_le, Z.ltb_lt. done. Qed.

Lemma from_hex_string b : bytes_ok b = true → from_hex (hex_string b) = b.
Proof.
  induction b as [|x b IH]; [done|]. simpl. rewrite andb_true_iff, is_byte_true. intros [Hx Hb].
  rewrite !hex_char_value_char by (Z.to_euclidean_division_equations; lia).
  rewrite IH by done. f_equal. Z.to_euclidean_division_equations; lia.
Qed.
Lemma hex_string_inj a b : bytes_ok a = true → bytes_ok b = true → hex_string a = hex_string b → a = b.
Proof. intros Ha Hb E0. by rewrite <- (from_hex_string a), <- (from_hex_string b), E0. Qed.
Lemma length_hex_string b : String.length (hex_string b) = (2 * length b)%nat.
Proof. induction b as [|x b IH]; [done|]. simpl. rewrite IH. lia. Qed.
Lemma hex_string_chars b : bytes_ok b = true → all_chars is_hex_char (hex_string b) = true.
Proof.
  induction b as [|x b IH]; [done|]. simpl. rewrite andb_true_iff, is_byte_true. intros [Hx Hb].
  rewrite !hex_char_class by (Z.to_euclidean_division_equations; lia). by rewrite IH.
Qed.

Lemma bytes_ok_app a b : bytes_ok (a ++ b) = (bytes_ok a && bytes_ok b)%bool.
Proof. apply forallb_app. Qed.

(* writeBigUInt64BE: the eight bytes of a 64-bit integer, the most significant first. *)
Definition be64 (n : Z) : bytes := List.map (λ i : nat, n / 256 ^ Z.of_nat i mod 256) [7; 6; 5; 4; 3; 2; 1; 0]%nat.
Lemma length_be64 n : length (be64 n) = 8%nat.
Proof. apply length_map. Qed.

(* The value of a lowercase hexadecimal digit, and its digit again. *)
Lemma hex_char_range c :
  is_hex_char c = true → (97 ≤ Z.of_N (N_of_ascii c) ≤ 102) ∨ (48 ≤ Z.of_N (N_of_ascii c) ≤ 57).
Proof.
  unfold is_hex_char. intros [Hc%in_class_spec|Hc%in_class_spec]%orb_prop.
  - change (N_of_ascii "a") with 97%N in Hc. change (N_of_ascii "f") with 102%N in Hc. lia.
  - change (N_of_ascii "0") with 48%N in Hc. change (N_of_ascii "9") with 57%N in Hc. lia.
Qed.
Lemma hex_char_has_value c :
  is_hex_char c = true → ∃ x, hex_char_value c = Some x ∧ hex_char x = c ∧ 0 ≤ x < 16.
Proof.
  intros Hc%hex_char_range. unfold hex_char_value, hex_char.
  destruct Hc as [Hc|Hc].
  - exists (Z.of_N (N_of_ascii c) - 87). rewrite (proj2 (Z.leb_gt _ 57)), andb_false_r by lia.
    rewrite (proj2 (Z.leb_le 97 _)), (proj2 (Z.leb_le _ 102)) by lia. split; [done|]. split; [|lia].
    rewrite (proj2 (Z.ltb_ge _ 10)) by lia. rewrite Zplus_minus, N2Z.id. apply ascii_N_embedding.
  - exists (Z.of_N (N_of_ascii c) - 48). rewrite (proj2 (Z.leb_le 48 _)), (proj2 (Z.leb_le _ 57)) by lia.
    split; [done|]. split; [|lia].
    rewrite (proj2 (Z.ltb_lt _ 10)) by lia. rewrite Zplus_minus, N2Z.id. apply ascii_N_embedding.
Qed.
Lemma hex_string_from s n :
  all_chars is_hex_char s = true → String.length s = (2 * n)%nat →
  hex_string (from_hex s) = s ∧ bytes_ok (from_hex s) = true ∧ length (from_hex s) = n.
Proof.
  revert s; induction n as [|n IH]; intros s Hs Hlen; [by destruct s|].
  destruct s as [|a [|b s]]; [simpl in Hlen; lia..|]. simpl in Hs, Hlen.
  apply andb_true_iff in Hs as [Ha [Hb Hs]%andb_true_iff].
  destruct (hex_char_has_value a Ha) as (x & Hx & Ex & Rx), (hex_char_has_value b Hb) as (y & Hy & Ey & Ry).
  destruct (IH s Hs) as (E1 & E2 & E3); [lia|]. simpl. rewrite Hx, Hy. simpl.
  assert ((16 * x + y) / 16 = x ∧ (16 * x + y) mod 16 = y) as [-> ->]
    by (Z.to_euclidean_division_equations; lia).
  split_and!; [congruence| |congruence]. rewrite E2, andb_true_r. apply is_byte_true. lia.
Qed.
Lemma sha256_hex_roundtrip s :
  SHA256_HEX_PATTERN s = true →
  hex_string (from_hex s) = s ∧ bytes_ok (from_hex s) = true ∧ length (from_hex s) = 32%nat.
Proof. unfold SHA256_HEX_PATTERN. intros [Hc Hl%Nat.eqb_eq]%andb_prop. by apply hex_string_from. Qed.

(** * SHA-256

    node:crypto's hash is a parameter: a function from byte strings to 32 bytes.
    A result that rests on collision resistance names the inputs that have to be
    free of collisions. *)
Class Sha256 := {
  sha256 : bytes → bytes;
  sha256_bytes b : bytes_ok (sha256 b) = true;
  sha256_length b : length (sha256 b) = 32%nat
}.

Definition collision_free `{Sha256} (inputs : list bytes) : Prop :=
  ∀ a b, a ∈ inputs → b ∈ inputs → sha256 a = sha256 b → a = b.

Section sha256.
Context `{Sha256}.
Definition sha256_hex (b : bytes) : string := hex_string (sha256 b).
Lemma sha256_hex_pattern b : SHA256_HEX_PATTERN (sha256_hex b) = true.
Proof.
  unfold SHA256_HEX_PATTERN, sha256_hex. rewrite hex_string_chars by apply sha256_bytes.
  by rewrite length_hex_string, sha256_length.
Qed.
Lemma sha256_hex_inj a b : sha256_hex a = sha256_hex b → sha256 a = sha256 b.
Proof. apply hex_string_inj; apply sha256_bytes. Qed.
Lemma collision_free_sub inputs inputs' : inputs ⊆ inputs' → collision_free inputs' → collision_free inputs.
Proof. intros Hsub Hcf a b Ha Hb. apply Hcf; by apply Hsub. Qed.

Definition collision_free_dec (inputs : list bytes) : bool :=
  forallb (λ a, forallb (λ b, implb (sha256 a === sha256 b) (a === b)) inputs) inputs.
Lemma collision_free_dec_sound inputs : collision_free_dec inputs = true → collision_free inputs.
Proof.
  unfold collision_free_dec. intros Hf a b Ha Hb E0. rewrite forallb_forall in Hf.
  specialize (Hf a (proj1 (list_elem_of_In _ _) Ha)). rewrite forallb_forall in Hf.
  specialize (Hf b (proj1 (list_elem_of_In _ _) Hb)). rewrite E0 in Hf. rewrite bool_decide_true in Hf by done.
  by apply bool_decide_eq_true in Hf.
Qed.
End sha256.

(** A checksum that stands in for the hash when definitions are run: the first
    32 bytes of a padded sum. *)
Module SampleHash.
Definition wrap (x : Z) : Z := if x <? 65521 then x else x - 65521.
Definition checksum (b : bytes) : Z :=
  let '(s, t) := fold_left (λ '(s, t) x, let s' := wrap (s + x + 1) in (s', wrap (t + s'))) b (1, 0) in t * 65536 + s.
Fixpoint digits256 (n : nat) (x : Z) : bytes :=
  match n with O => [] | S n' => x mod 256 :: digits256 n' (x / 256) end.
Lemma digits256_ok n x : bytes_ok (digits256 n x) = true ∧ length (digits256 n x) = n.
Proof.
  revert x; induction n as [|n IH]; intros x; [done|]. simpl. destruct (IH (x / 256)) as [-> ->].
  split; [|done]. rewrite andb_true_r. apply is_byte_true. apply Z.mod_pos_bound. lia.
Qed.
#[export] Instance hash : Sha256 :=
  {| sha256 b := digits256 32 (checksum b);
     sha256_bytes b := proj1 (digits256_ok 32 (checksum b));
     sha256_length b := proj2 (digits256_ok 32 (checksum b)) |}.
End SampleHash.
