(* ===== verification/Json.v ===== *)
(** JSON data and its RFC 8785 canonical text
    (packages/protocol-ts/src/canonical-identity.ts,
    packages/evidence-store/src/canonical-row.ts). JavaScript strings are lists of
    UTF-16 code units; numbers are the integers and the non-finite values. *)
From S2P Require Import Prelude Patterns CanonicalRows.

Local Open Scope Z_scope.

Abbreviation jsstr := (list Z).

(** * Values *)

(* JForeign: undefined, symbols and bigints. Functions and exotic objects are not
   represented. *)
#[warnings="-register-all"]
Inductive json :=
  | JNull
  | JBool (b : bool)
  | JString (s : jsstr)
  | JNumber (n : Z)
  | JNonFinite
  | JForeign
  | JArray (elements : list json)
  | JObject (fields : list (jsstr * json)).

Section json_induction.
Variable P : json → Prop.
Hypothesis Pnull : P JNull.
Hypothesis Pbool : ∀ b, P (JBool b).
Hypothesis Pstring : ∀ s, P (JString s).
Hypothesis Pnumber : ∀ n, P (JNumber n).
Hypothesis Pnonfinite : P JNonFinite.
Hypothesis Pforeign : P JForeign.
Hypothesis Parray : ∀ l, Forall P l → P (JArray l).
Hypothesis Pobject : ∀ fs, Forall (λ kv, P kv.2) fs → P (JObject fs).
Fixpoint json_nested_ind (v : json) : P v :=
  match v with
  | JNull => Pnull
  | JBool b => Pbool b
  | JString s => Pstring s
  | JNumber n => Pnumber n
  | JNonFinite => Pnonfinite
  | JForeign => Pforeign
  | JArray l => Parray l ((fix go l : Forall P l :=
      match l with [] => List.Forall_nil _ | x :: l => List.Forall_cons _ _ _ (json_nested_ind x) (go l) end) l)
  | JObject fs => Pobject fs ((fix go fs : Forall (λ kv, P kv.2) fs :=
      match fs with [] => List.Forall_nil _ | kv :: fs => List.Forall_cons _ _ _ (json_nested_ind kv.2) (go fs) end) fs)
  end.
End json_induction.

Fixpoint json_eqb (v w : json) : bool :=
  match v, w with
  | JNull, JNull | JNonFinite, JNonFinite | JForeign, JForeign => true
  | JBool a, JBool b => a === b
  | JString a, JString b => a === b
  | JNumber a, JNumber b => a === b
  | JArray a, JArray b =>
      (fix go (a b : list json) : bool :=
        match a, b with
        | [], [] => true
        | x :: a', y :: b' => (json_eqb x y && go a' b')%bool
        | _, _ => false
        end) a b
  | JObject a, JObject b =>
      (fix go (a b : list (jsstr * json)) : bool :=
        match a, b with
        | [], [] => true
        | x :: a', y :: b' => ((x.1 === y.1) && json_eqb x.2 y.2 && go a' b')%bool
        | _, _ => false
        end) a b
  | _, _ => false
  end.
Lemma json_eqb_eq v w : json_eqb v w = true ↔ v = w.
Proof.
  revert w; induction v as [|a|a|a| | |l IH|fs IH] using json_nested_ind;
    intros w; destruct w as [|b|b|b| | |l'|fs'];
    simpl; try (split; congruence); try (rewrite bool_decide_eq_true; split; congruence).
  - assert ((fix go (a b : list json) : bool := match a, b with
      | [], [] => true | x :: a', y :: b' => (json_eqb x y && go a' b')%bool | _, _ => false end) l l' = true
      ↔ l = l') as ->; [|split; congruence].
    revert l'; induction IH as [|x l Hx _ IH]; intros [|y l']; try (split; congruence).
    rewrite andb_true_iff, Hx, IH. split; [by intros [-> ->]|by intros [= -> ->]].
  - assert ((fix go (a b : list (jsstr * json)) : bool := match a, b with
      | [], [] => true | x :: a', y :: b' => ((x.1 === y.1) && json_eqb x.2 y.2 && go a' b')%bool | _, _ => false end) fs fs' = true
      ↔ fs = fs') as ->; [|split; congruence].
    revert fs'; induction IH as [|[k x] fs Hx _ IH]; intros [|[k' y] fs']; try (split; congruence).
    simpl in *. rewrite !andb_true_iff, Hx, IH, bool_decide_eq_true.
    split; [by intros [[-> ->] ->]|by intros [= -> -> ->]].
Qed.
#[export] Instance json_eq_dec : EqDecision json.
Proof.
  intros v w. destruct (json_eqb v w) eqn:E0; [left|right]; [by apply json_eqb_eq|].
  intros E1%json_eqb_eq. congruence.
Defined.

(** * Code units *)

(* An ASCII literal of the sources as a JavaScript string. *)
Fixpoint js (s : string) : jsstr :=
  match s with EmptyString => [] | String c s' => Z.of_N (N_of_ascii c) :: js s' end.
Fixpoint ascii_text (s : jsstr) : string :=
  match s with [] => EmptyString | c :: s' => String (ascii_of_N (Z.to_N c)) (ascii_text s') end.

(* A JavaScript string as a [string]; None when it holds a unit outside Latin-1. *)
Definition latin_text (s : jsstr) : option string :=
  if forallb (λ c, (0 <=? c) && (c <? 256))%bool s then Some (ascii_text s) else None.

Definition is_high_surrogate (c : Z) : bool := ((0xd800 <=? c) && (c <=? 0xdbff))%bool.
Definition is_low_surrogate (c : Z) : bool := ((0xdc00 <=? c) && (c <=? 0xdfff))%bool.

Fixpoint hasUnpairedSurrogate (s : jsstr) : bool :=
  match s with
  | [] => false
  | c :: s' =>
      if is_high_surrogate c then
        match s' with
        | d :: s'' => if is_low_surrogate d then hasUnpairedSurrogate s'' else true
        | [] => true
        end
      else is_low_surrogate c || hasUnpairedSurrogate s'
  end.

(* The order of Array.prototype.sort on strings: by code unit. *)
Fixpoint units_ltb (a b : jsstr) : bool :=
  match a, b with
  | _, [] => false
  | [], _ :: _ => true
  | x :: a', y :: b' => (x <? y) || ((x =? y) && units_ltb a' b')
  end.
Definition units_cmp (a b : jsstr) : Z :=
  if units_ltb a b then -1 else if units_ltb b a then 1 else 0.

Definition sort_fields {V} (fields : list (jsstr * V)) : list (jsstr * V) :=
  sortBy (λ a b, units_cmp a.1 b.1) fields.

(** * JSON.stringify on primitive values *)

Definition hex_digit (n : Z) : Z := if n <? 10 then 48 + n else 87 + n.
Definition hex4 (c : Z) : jsstr :=
  [hex_digit (c / 4096); hex_digit (c / 256 mod 16); hex_digit (c / 16 mod 16); hex_digit (c mod 16)].
Definition unicode_escape (c : Z) : jsstr := 92 :: 117 :: hex4 c.

Definition escape_unit (c : Z) : jsstr :=
  if c =? 34 then [92; 34] else if c =? 92 then [92; 92]
  else if c =? 8 then [92; 98] else if c =? 9 then [92; 116] else if c =? 10 then [92; 110]
  else if c =? 12 then [92; 102] else if c =? 13 then [92; 114]
  else if c <? 32 then unicode_escape c else [c].

Fixpoint escape (s : jsstr) : jsstr :=
  match s with
  | [] => []
  | c :: s' =>
      if is_high_surrogate c then
        match s' with
        | d :: s'' => if is_low_surrogate d then c :: d :: escape s'' else unicode_escape c ++ escape s'
        | [] => unicode_escape c
        end
      else if is_low_surrogate c then unicode_escape c ++ escape s'
      else escape_unit c ++ escape s'
  end.
Definition quote (s : jsstr) : jsstr := 34 :: escape s ++ [34].
Definition number_text (n : Z) : jsstr :=
  if n <? 0 then 45 :: js (string_of_number (- n)) else js (string_of_number n).

Fixpoint join_comma (parts : list jsstr) : jsstr :=
  match parts with
  | [] => []
  | [p] => p
  | p :: parts' => p ++ 44 :: join_comma parts'
  end.

(** * JSON.stringify on data *)

(* Fields holding undefined are left out; elsewhere undefined and the non-finite
   numbers are written null. *)
Fixpoint JSON_stringify (v : json) : jsstr :=
  match v with
  | JNull | JNonFinite | JForeign => js "null"
  | JBool b => if b then js "true" else js "false"
  | JString s => quote s
  | JNumber n => number_text n
  | JArray l => 91 :: join_comma (List.map JSON_stringify l) ++ [93]
  | JObject fs =>
      123 :: join_comma (List.flat_map (λ kv, match kv.2 with
                                              | JForeign => []
                                              | _ => [quote kv.1 ++ 58 :: JSON_stringify kv.2]
                                              end) fs) ++ [125]
  end.

(** * canonicalizeProtocolJson *)

Definition MAX_DEPTH : nat := 64.
Definition MAX_NODES : Z := 20000.

(* The calls of [encode] on the elements of an array or object, left to right,
   with the node counter they share. *)
Fixpoint encode_all {A} (f : Z → A → throws (jsstr * Z)) (nodes : Z) (l : list A)
    : throws (list jsstr * Z) :=
  match l with
  | [] => Ret ([], nodes)
  | x :: l' =>
      p ← f nodes x;
      q ← encode_all f p.2 l';
      Ret (p.1 :: q.1, q.2)
  end.

(* [room] is the number of levels left: 65 at depth 0. *)
Fixpoint encode (room : nat) (nodes : Z) (current : json) : throws (jsstr * Z) :=
  let nodes := nodes + 1 in
  match room with
  | O => Throw "RFC 8785 input exceeds the supported JSON shape limits."
  | S room' =>
    if MAX_NODES <? nodes then Throw "RFC 8785 input exceeds the supported JSON shape limits."
    else match current with
    | JNull => Ret (js "null", nodes)
    | JBool b => Ret (if b then js "true" else js "false", nodes)
    | JString s =>
        if hasUnpairedSurrogate s then Throw "RFC 8785 input contains an unpaired surrogate."
        else Ret (quote s, nodes)
    | JNumber n =>
        if MAX_SAFE_INTEGER <? Z.abs n then Throw "RFC 8785 input contains an unsafe number."
        else Ret (number_text n, nodes)
    | JNonFinite => Throw "RFC 8785 input contains an unsafe number."
    | JForeign => Throw "RFC 8785 input contains an unsupported JSON value type."
    | JArray l =>
        p ← encode_all (encode room') nodes l;
        Ret (91 :: join_comma p.1 ++ [93], p.2)
    | JObject fields =>
        p ← encode_all (λ n (kv : jsstr * json),
               k ← encode room' n (JString kv.1);
               v ← encode room' k.2 kv.2;
               Ret (k.1 ++ 58 :: v.1, v.2)) nodes (sort_fields fields);
        Ret (123 :: join_comma p.1 ++ [125], p.2)
    end
  end.

Definition canonicalizeProtocolJson (value : json) : throws jsstr :=
  p ← encode (S MAX_DEPTH) 0 value; Ret p.1.

(** * JSON.parse, on texts whose numbers are integers *)

Definition is_ws (c : Z) : bool := (c =? 32) || (c =? 9) || (c =? 10) || (c =? 13).
Fixpoint skip_ws (s : jsstr) : jsstr :=
  match s with [] => [] | c :: s' => if is_ws c then skip_ws s' else s end.

Definition hex_value (c : Z) : option Z :=
  if ((48 <=? c) && (c <=? 57))%bool then Some (c - 48)
  else if ((97 <=? c) && (c <=? 102))%bool then Some (c - 87)
  else if ((65 <=? c) && (c <=? 70))%bool then Some (c - 55)
  else None.
Definition unescape (c : Z) : option Z :=
  if (c =? 34) || (c =? 92) || (c =? 47) then Some c
  else if c =? 98 then Some 8 else if c =? 116 then Some 9 else if c =? 110 then Some 10
  else if c =? 102 then Some 12 else if c =? 114 then Some 13 else None.

Definition cons_unit (c : Z) (r : option (jsstr * jsstr)) : option (jsstr * jsstr) :=
  match r with Some (s, rest) => Some (c :: s, rest) | None => None end.
(* The characters of a string literal after its opening quote. *)
Fixpoint parse_string (s : jsstr) : option (jsstr * jsstr) :=
  match s with
  | [] => None
  | c :: s1 =>
      if c =? 34 then Some ([], s1)
      else if c =? 92 then
        match s1 with
        | [] => None
        | e :: s2 =>
            if e =? 117 then
              match s2 with
              | a :: b :: x :: y :: s3 =>
                  match hex_value a, hex_value b, hex_value x, hex_value y with
                  | Some a, Some b, Some x, Some y => cons_unit (4096 * a + 256 * b + 16 * x + y) (parse_string s3)
                  | _, _, _, _ => None
                  end
              | _ => None
              end
            else match unescape e with Some u => cons_unit u (parse_string s2) | None => None end
        end
      else if c <? 32 then None else cons_unit c (parse_string s1)
  end.

Definition is_digit_unit (c : Z) : bool := ((48 <=? c) && (c <=? 57))%bool.
Fixpoint span_digits (s : jsstr) : jsstr * jsstr :=
  match s with
  | c :: s' => if is_digit_unit c then let '(a, b) := span_digits s' in (c :: a, b) else ([], s)
  | [] => ([], [])
  end.
(* An integer literal without superfluous leading zeros; a fraction or an exponent is refused. *)
Definition parse_digits (s : jsstr) : option (Z * jsstr) :=
  let '(ds, rest) := span_digits s in
  let leading_zero := match ds with c :: _ :: _ => c =? 48 | _ => false end in
  let continues := match rest with c :: _ => (c =? 46) || (c =? 101) || (c =? 69) | [] => false end in
  if (bool_decide (ds = []) || leading_zero || continues)%bool then None
  else n ← number_of_digits (ascii_text ds); Some (n, rest).
Definition parse_number (s : jsstr) : option (json * jsstr) :=
  match s with
  | [] => None
  | c :: s' =>
      if c =? 45 then p ← parse_digits s'; Some (JNumber (- p.1), p.2)
      else p ← parse_digits s; Some (JNumber p.1, p.2)
  end.

Fixpoint strip_units (p s : jsstr) : option jsstr :=
  match p, s with
  | [], _ => Some s
  | c :: p', d :: s' => if c =? d then strip_units p' s' else None
  | _ :: _, [] => None
  end.

Section parse_containers.
Variable value : jsstr → option (json * jsstr).
Fixpoint parse_elements (fuel : nat) (s : jsstr) : option (list json * jsstr) :=
  match fuel with
  | O => None
  | S fuel' =>
      p ← value s;
      match skip_ws p.2 with
      | 44 :: r => q ← parse_elements fuel' r; Some (p.1 :: q.1, q.2)
      | 93 :: r => Some ([p.1], r)
      | _ => None
      end
  end.
(* A repeated key keeps its place and takes the later value. *)
Fixpoint parse_members (fuel : nat) (acc : list (jsstr * json)) (s : jsstr)
    : option (list (jsstr * json) * jsstr) :=
  match fuel with
  | O => None
  | S fuel' =>
      match skip_ws s with
      | 34 :: s1 =>
          k ← parse_string s1;
          match skip_ws k.2 with
          | 58 :: s2 =>
              v ← value s2;
              let acc' := JsMap.set k.1 v.1 acc in
              match skip_ws v.2 with
              | 44 :: r => parse_members fuel' acc' r
              | 125 :: r => Some (acc', r)
              | _ => None
              end
          | _ => None
          end
      | _ => None
      end
  end.
End parse_containers.

Fixpoint parse_value (fuel : nat) (s : jsstr) : option (json * jsstr) :=
  match fuel with
  | O => None
  | S fuel' =>
      match skip_ws s with
      | [] => None
      | c :: s1 =>
          if c =? 123 then
            match skip_ws s1 with
            | 125 :: r => Some (JObject [], r)
            | _ => p ← parse_members (parse_value fuel') fuel' [] s1; Some (JObject p.1, p.2)
            end
          else if c =? 91 then
            match skip_ws s1 with
            | 93 :: r => Some (JArray [], r)
            | _ => p ← parse_elements (parse_value fuel') fuel' s1; Some (JArray p.1, p.2)
            end
          else if c =? 34 then p ← parse_string s1; Some (JString p.1, p.2)
          else match strip_units (js "null") (c :: s1) with
          | Some r => Some (JNull, r)
          | None => match strip_units (js "true") (c :: s1) with
          | Some r => Some (JBool true, r)
          | None => match strip_units (js "false") (c :: s1) with
          | Some r => Some (JBool false, r)
          | None => parse_number (c :: s1)
          end end end
      end
  end.

Definition JSON_parse (s : jsstr) : throws json :=
  match parse_value (S (length s)) s with
  | Some (v, r) => match skip_ws r with [] => Ret v | _ => Throw "SyntaxError" end
  | None => Throw "SyntaxError"
  end.

(** * Well-formed values and their normal form *)

(* Objects have distinct keys; code units are numbers from 0 to 65535. *)
Definition units_ok (s : jsstr) : bool := forallb (λ c, (0 <=? c) && (c <? 65536))%bool s.
Fixpoint wf_json (v : json) : bool :=
  match v with
  | JString s => units_ok s
  | JArray l => forallb wf_json l
  | JObject fs => (bool_decide (NoDup fs.*1) && forallb (λ kv, units_ok kv.1 && wf_json kv.2) fs)%bool
  | _ => true
  end.
(* Values JSON text can hold. *)
Fixpoint is_data (v : json) : bool :=
  match v with
  | JNonFinite | JForeign => false
  | JArray l => forallb is_data l
  | JObject fs => forallb (λ kv, is_data kv.2) fs
  | _ => true
  end.
(* Every object's keys in code-unit order. *)
Fixpoint norm (v : json) : json :=
  match v with
  | JArray l => JArray (List.map norm l)
  | JObject fs => JObject (sort_fields (List.map (λ kv, (kv.1, norm kv.2)) fs))
  | _ => v
  end.
