(* ===== verification/JsonText.v ===== *)
(** JSON.parse inverts the canonical text: the lemmas on each lexical class,
    and the induction over the depth of the value. *)
From S2P Require Import Prelude Patterns Json.

Local Open Scope Z_scope.

(** * Case analysis on code units *)

Ltac units_lia := unfold is_high_surrogate, is_low_surrogate in *;
  repeat match goal with
  | H : (_ && _)%bool = true |- _ => apply andb_true_iff in H as [? ?]
  | H : (_ && _)%bool = false |- _ => apply andb_false_iff in H
  | H : (_ || _)%bool = false |- _ => apply orb_false_iff in H as [? ?]
  | H : (_ <=? _) = true |- _ => apply Z.leb_le in H
  | H : (_ <? _) = true |- _ => apply Z.ltb_lt in H
  | H : (_ =? _) = true |- _ => apply Z.eqb_eq in H
  | H : (_ <=? _) = false |- _ => apply Z.leb_gt in H
  | H : (_ <? _) = false |- _ => apply Z.ltb_ge in H
  | H : (_ =? _) = false |- _ => apply Z.eqb_neq in H
  | H : _ ∨ _ |- _ => destruct H
  end; try lia.

Lemma strings_by_pairs (P : jsstr → Prop) :
  P [] → (∀ c, P [c]) → (∀ c d s, P s → P (d :: s) → P (c :: d :: s)) → ∀ s, P s.
Proof.
  intros Hnil Hone Htwo s.
  assert (P s ∧ ∀ c, P (c :: s)) as [? _]; [|done].
  induction s as [|d s [IH1 IH2]]; [done|]. split; [apply IH2|]. intros c. by apply Htwo.
Qed.

(** * Escapes *)

Lemma hex_value_digit n : 0 ≤ n < 16 → hex_value (hex_digit n) = Some n.
Proof.
  intros Hn. pose proof (forall_range (λ n, hex_value (hex_digit n) === Some n) 0 16 n eq_refl Hn) as Hd.
  by apply bool_decide_eq_true in Hd.
Qed.

Lemma parse_unicode_escape c rest :
  0 ≤ c < 65536 → parse_string (unicode_escape c ++ rest) = cons_unit c (parse_string rest).
Proof.
  intros Hc. unfold unicode_escape, hex4. cbn [app parse_string].
  rewrite !hex_value_digit by (Z.to_euclidean_division_equations; lia). simpl. f_equal.
  Z.to_euclidean_division_equations; lia.
Qed.

Lemma parse_plain_unit c rest :
  32 ≤ c → c ≠ 34 → c ≠ 92 → parse_string (c :: rest) = cons_unit c (parse_string rest).
Proof.
  intros H1 H2 H3. simpl. rewrite (proj2 (Z.eqb_neq c 34)), (proj2 (Z.eqb_neq c 92)) by done.
  by rewrite (proj2 (Z.ltb_ge c 32)).
Qed.

Lemma parse_escape_unit c rest :
  0 ≤ c < 65536 → parse_string (escape_unit c ++ rest) = cons_unit c (parse_string rest).
Proof.
  intros Hc. unfold escape_unit.
  repeat match goal with |- context [if ?c =? ?n then _ else _] =>
    destruct (Z.eqb_spec c n) as [->|?]; [reflexivity|] end.
  destruct (Z.ltb_spec c 32); [by apply parse_unicode_escape|].
  by apply parse_plain_unit.
Qed.

Lemma cons_unit_Some c s rest r :
  r = Some (s, rest) → cons_unit c r = Some (c :: s, rest).
Proof. by intros ->. Qed.

(** A quoted string is read back, whatever surrogates it holds. *)
Lemma parse_string_escape s rest :
  units_ok s = true → parse_string (escape s ++ 34 :: rest) = Some (s, rest).
Proof.
  revert s. apply (strings_by_pairs (λ s, units_ok s = true → parse_string (escape s ++ 34 :: rest) = Some (s, rest))).
  - done.
  - intros c Hc. assert (0 ≤ c < 65536) as Hr by (simpl in Hc; units_lia).
    cbn [escape]. destruct (is_high_surrogate c); [|destruct (is_low_surrogate c)]; rewrite ?app_nil_r, <- ?app_assoc.
    + by rewrite parse_unicode_escape.
    + by rewrite parse_unicode_escape.
    + by rewrite parse_escape_unit.
  - intros c d s IHs IHds Hok.
    assert (0 ≤ c < 65536 ∧ 0 ≤ d < 65536 ∧ units_ok s = true ∧ units_ok (d :: s) = true) as (Hc & Hd & Hs & Hds).
    { simpl in Hok |- *. destruct (units_ok s); simpl in *; units_lia. }
    remember (d :: s) as t eqn:Et. cbn [escape]. rewrite Et.
    destruct (is_high_surrogate c) eqn:Eh; [destruct (is_low_surrogate d) eqn:El|destruct (is_low_surrogate c) eqn:El].
    + cbn [app]. rewrite !parse_plain_unit by units_lia. by rewrite IHs.
    + rewrite <- Et, <- app_assoc, parse_unicode_escape by done. rewrite IHds; done.
    + rewrite <- Et, <- app_assoc, parse_unicode_escape by done. rewrite IHds; done.
    + rewrite <- Et, <- app_assoc, parse_escape_unit by done. rewrite IHds; done.
Qed.

(** * Numbers *)

(* What may follow a value inside a container or at the end of the text. *)
Definition ends_value (rest : jsstr) : Prop :=
  match rest with [] => True | c :: _ => c = 44 ∨ c = 93 ∨ c = 125 end.

Lemma ascii_text_js s : ascii_text (js s) = s.
Proof. induction s as [|c s IH]; [done|]. simpl. by rewrite IH, N2Z.id, ascii_N_embedding. Qed.
Lemma js_app a b : js (a +:+ b) = js a ++ js b.
Proof. induction a as [|x a IH]; [done|]. cbn. by f_equal. Qed.
Lemma js_inj s t : js s = js t → s = t.
Proof. intros E0. by rewrite <- (ascii_text_js s), <- (ascii_text_js t), E0. Qed.
Lemma latin_text_js s : latin_text (js s) = Some s.
Proof.
  unfold latin_text. assert (forallb (λ c, (0 <=? c) && (c <? 256))%bool (js s) = true) as ->; [|by rewrite ascii_text_js].
  induction s as [|c s IH]; [done|]. simpl. rewrite IH, andb_true_r. pose proof (N_ascii_bounded c).
  apply andb_true_iff. rewrite Z.leb_le, Z.ltb_lt. lia.
Qed.
Lemma digit_unit c : is_digit c = true → is_digit_unit (Z.of_N (N_of_ascii c)) = true.
Proof.
  intros Hc%in_class_spec. change (N_of_ascii "0") with 48%N in Hc. change (N_of_ascii "9") with 57%N in Hc.
  unfold is_digit_unit. rewrite (proj2 (Z.leb_le _ _)), (proj2 (Z.leb_le _ _)) by lia. done.
Qed.
Lemma span_digits_js s rest :
  uint_digits s = true → (match rest with [] => True | c :: _ => is_digit_unit c = false end) →
  span_digits (js s ++ rest) = (js s, rest).
Proof.
  intros Hs Hr. induction s as [|c s IH].
  - simpl. destruct rest as [|c rest]; [done|]. simpl. by rewrite Hr.
  - unfold uint_digits in *. simpl in *. apply andb_true_iff in Hs as [Hc Hs].
    assert (is_digit_unit (Z.of_N (N_of_ascii c)) = true) as ->; [|by rewrite IH].
    by apply digit_unit.
Qed.
Lemma string_of_number_digits n : uint_digits (string_of_number n) = true.
Proof. apply uint_string_digits. Qed.

Lemma parse_digits_text n rest :
  0 ≤ n → ends_value rest → parse_digits (js (string_of_number n) ++ rest) = Some (n, rest).
Proof.
  intros Hn Hrest. unfold parse_digits. rewrite span_digits_js.
  2:{ apply string_of_number_digits. }
  2:{ destruct rest as [|c rest]; [done|]. destruct Hrest as [->|[->| ->]]; done. }
  assert (number_of_digits (ascii_text (js (string_of_number n))) = Some n) as Hnum
    by (by rewrite ascii_text_js, number_of_string_of_number).
  assert (∃ c ds, js (string_of_number n) = c :: ds ∧ (c = 48 → ds = [])) as (c & ds & Eds & Hz).
  { destruct (decide (n = 0)) as [->|]; [by exists 48, []|].
    assert (is_positive_decimal (string_of_number n) = true) as Hp by (apply string_of_number_positive; lia).
    destruct (string_of_number n) as [|a r]; [done|].
    exists (Z.of_N (N_of_ascii a)), (js r). split; [done|].
    simpl in Hp. apply andb_true_iff in Hp as [Hp%in_class_spec _].
    change (N_of_ascii "1") with 49%N in Hp. lia. }
  rewrite Hnum, Eds, bool_decide_false by done. cbn [orb].
  assert (match c :: ds with c :: _ :: _ => c =? 48 | _ => false end = false) as ->.
  { destruct ds as [|d ds]; [done|]. apply Z.eqb_neq. intros Hc. by specialize (Hz Hc). }
  destruct rest as [|r rest]; [done|]. by destruct Hrest as [->|[->| ->]].
Qed.

Lemma parse_number_text n rest :
  ends_value rest → parse_number (number_text n ++ rest) = Some (JNumber n, rest).
Proof.
  intros Hrest. unfold number_text, parse_number. destruct (Z.ltb_spec n 0) as [Hn|Hn].
  - simpl. rewrite parse_digits_text by (done || lia). simpl. by rewrite Z.opp_involutive.
  - pose proof (parse_digits_text n rest Hn Hrest) as Hp.
    destruct (js (string_of_number n) ++ rest) as [|c s] eqn:Es; [done|].
    destruct (Z.eqb_spec c 45) as [->|]; [done|]. by rewrite Hp.
Qed.

(** * Arrays and objects *)

Definition starts_value (s : jsstr) : bool :=
  match s with [] => false | c :: _ => negb (is_ws c) && negb (c =? 93) && negb (c =? 125) end.

Lemma skip_ws_start s rest : starts_value s = true → skip_ws (s ++ rest) = s ++ rest.
Proof. destruct s as [|c s]; [done|]. simpl. by destruct (is_ws c). Qed.
Lemma length_join_comma ss s :
  s ∈ ss → (length s ≤ length (join_comma ss))%nat.
Proof.
  induction ss as [|t ss IH]; [by intros ?%not_elem_of_nil|]. intros [->|Hs]%elem_of_cons.
  - destruct ss; simpl; rewrite ?length_app; lia.
  - destruct ss as [|u ss]; [by apply not_elem_of_nil in Hs|].
    specialize (IH Hs). simpl in *. rewrite length_app. simpl. lia.
Qed.
Lemma length_join_count ss :
  Forall (λ s, starts_value s = true) ss → (length ss ≤ length (join_comma ss))%nat.
Proof.
  induction 1 as [|s ss Hs _ IH]; [done|].
  assert (1 ≤ length s)%nat by (destruct s; [done|simpl; lia]).
  destruct ss as [|u ss]; simpl in *; rewrite ?length_app; simpl; lia.
Qed.

Section containers.
Variable pv : jsstr → option (json * jsstr).
(* [pv] reads the value [x] off its text [s]. *)
Definition reads (x : json) (s : jsstr) : Prop :=
  starts_value s = true ∧ ∀ rest, ends_value rest → pv (s ++ rest) = Some (x, rest).

Lemma parse_elements_join fuel xs ss rest :
  Forall2 reads xs ss → ss ≠ [] → (length ss ≤ fuel)%nat →
  parse_elements pv fuel (join_comma ss ++ 93 :: rest) = Some (xs, rest).
Proof.
  intros Hall. revert fuel. induction Hall as [|x s xs ss [Hs Hx] Hall IH]; [done|].
  intros fuel _ Hfuel. destruct fuel as [|fuel]; [simpl in Hfuel; lia|].
  destruct ss as [|s' ss].
  - inversion Hall; subst. simpl. rewrite Hx by (simpl; auto). done.
  - change (join_comma (s :: s' :: ss)) with (s ++ 44 :: join_comma (s' :: ss)).
    rewrite <- app_assoc. cbn [parse_elements]. rewrite Hx by (simpl; auto).
    cbn [mbind option_bind fst snd skip_ws is_ws orb Z.eqb].
    rewrite <- app_comm_cons. simpl skip_ws. cbv iota.
    rewrite IH by (done || (simpl in *; lia)). done.
Qed.

Definition reads_member (kv : jsstr * json) (s : jsstr) : Prop :=
  ∃ vs, s = quote kv.1 ++ 58 :: vs ∧ units_ok kv.1 = true ∧ reads kv.2 vs.

Lemma parse_members_join fuel acc xs ss rest :
  Forall2 reads_member xs ss → ss ≠ [] → (length ss ≤ fuel)%nat → NoDup (acc ++ xs).*1 →
  parse_members pv fuel acc (join_comma ss ++ 125 :: rest) = Some (acc ++ xs, rest).
Proof.
  intros Hall. revert fuel acc. induction Hall as [|[k x] s xs ss (vs & -> & Hk & Hs & Hx) Hall IH]; [done|].
  intros fuel acc _ Hfuel Hnd. destruct fuel as [|fuel]; [simpl in Hfuel; lia|].
  assert (JsMap.set k x acc = acc ++ [(k, x)]) as Hset.
  { apply JsMap.set_fresh. rewrite JsMap.get_None. unfold JsMap.keys. intros Hin.
    rewrite fmap_app in Hnd. apply NoDup_app in Hnd as (_ & Hd & _).
    apply (Hd k Hin). simpl. apply list_elem_of_here. }
  simpl in Hk, Hs, Hx. cbn [fst] in *.
  assert (∀ tail, parse_string ((escape k ++ [34]) ++ tail) = Some (k, tail)) as Hkey
    by (intros; rewrite <- app_assoc; by apply parse_string_escape).
  destruct ss as [|s' ss].
  - inversion Hall; subst. unfold quote. simpl. rewrite <- app_assoc, Hkey. simpl.
    rewrite Hx by (simpl; auto). simpl. by rewrite Hset.
  - change (join_comma (?a :: s' :: ss)) with (a ++ 44 :: join_comma (s' :: ss)).
    unfold quote. cbn [join_comma]. fold join_comma. rewrite <- !app_assoc. simpl.
    rewrite Hkey. simpl. rewrite Hx by (simpl; auto). simpl. rewrite Hset.
    change (match ss with [] => s' | _ :: _ => s' ++ 44 :: join_comma ss end) with (join_comma (s' :: ss)).
    rewrite (IH fuel (acc ++ [(k, x)])); [by rewrite <- app_assoc|done|simpl in *; lia|by rewrite <- app_assoc].
Qed.
End containers.

(** * The canonical text of a value *)

Lemma encode_all_Forall2 {A} (f : Z → A → throws (jsstr * Z)) nodes l ss nodes' :
  encode_all f nodes l = Ret (ss, nodes') →
  Forall2 (λ x s, ∃ n1 n2, f n1 x = Ret (s, n2)) l ss.
Proof.
  revert nodes ss nodes'; induction l as [|x l IH]; intros nodes ss nodes'; simpl; [by intros [= <- <-]|].
  destruct (f nodes x) as [[s n1]|] eqn:Hf; [|done]. simpl.
  destruct (encode_all f n1 l) as [[ss' n2]|] eqn:Hrec; [|done]. simpl. intros [= <- <-].
  constructor; [eauto|]. by eapply IH.
Qed.

Lemma units_cmp_refl a : units_cmp a a = 0.
Proof.
  unfold units_cmp. assert (units_ltb a a = false) as ->; [|done].
  induction a as [|x a IH]; [done|]. simpl. by rewrite IH, Z.ltb_irrefl, andb_false_r.
Qed.

Lemma insertBy_map {A B} (cmp : A → A → Z) (cmp' : B → B → Z) (g : A → B) x l :
  (∀ a b, cmp' (g a) (g b) = cmp a b) →
  insertBy cmp' (g x) (List.map g l) = List.map g (insertBy cmp x l).
Proof. intros Hg. induction l as [|y l IH]; [done|]. simpl. rewrite Hg, IH. by destruct (_ <=? _). Qed.
Lemma sortBy_map {A B} (cmp : A → A → Z) (cmp' : B → B → Z) (g : A → B) l :
  (∀ a b, cmp' (g a) (g b) = cmp a b) → sortBy cmp' (List.map g l) = List.map g (sortBy cmp l).
Proof. intros Hg. induction l as [|x l IH]; [done|]. simpl. rewrite IH. by apply insertBy_map. Qed.
Lemma sort_fields_map {V W} (g : V → W) (fs : list (jsstr * V)) :
  sort_fields (List.map (λ kv, (kv.1, g kv.2)) fs) = List.map (λ kv, (kv.1, g kv.2)) (sort_fields fs).
Proof. unfold sort_fields. by apply sortBy_map. Qed.
Lemma sort_fields_perm {V} (fs : list (jsstr * V)) : sort_fields fs ≡ₚ fs.
Proof. apply sortBy_perm. Qed.

(* The first unit of a number: a minus sign or a digit. *)
Lemma number_text_start n :
  ∃ c s, number_text n = c :: s ∧ (c = 45 ∨ is_digit_unit c = true).
Proof.
  unfold number_text. destruct (Z.ltb_spec n 0) as [Hn|Hn]; [eauto|].
  pose proof (string_of_number_digits n) as Hd.
  destruct (string_of_number n) as [|a r] eqn:E0.
  - exfalso. destruct (decide (n = 0)) as [->|]; [done|].
    pose proof (string_of_number_positive n) as Hp. rewrite E0 in Hp. discriminate Hp. lia.
  - exists (Z.of_N (N_of_ascii a)), (js r). split; [done|right].
    unfold uint_digits in Hd. simpl in Hd. apply andb_true_iff in Hd as [Hd _]. by apply digit_unit.
Qed.
Lemma number_text_starts n : starts_value (number_text n) = true.
Proof.
  destruct (number_text_start n) as (c & s & -> & Hc). unfold starts_value, is_ws.
  destruct Hc as [->|Hc]; [done|]. unfold is_digit_unit in Hc.
  assert (48 ≤ c ≤ 57) by units_lia.
  repeat (rewrite (proj2 (Z.eqb_neq c _)) by lia). done.
Qed.

Lemma encode_starts room nodes v s nodes' : encode room nodes v = Ret (s, nodes') → starts_value s = true.
Proof.
  destruct room as [|room]; [done|]. cbn [encode]. destruct (MAX_NODES <? nodes + 1); [done|].
  destruct v as [|b|t|n| | |l|fs]; try done.
  - by intros [= <- _].
  - by destruct b; intros [= <- _].
  - destruct (hasUnpairedSurrogate t); [done|]. by intros [= <- _].
  - destruct (MAX_SAFE_INTEGER <? Z.abs n); [done|]. intros [= <- _]. apply number_text_starts.
  - destruct (encode_all _ _ _) as [p|]; [|done]. by intros [= <- _].
  - destruct (encode_all _ _ _) as [p|]; [|done]. by intros [= <- _].
Qed.

Lemma parse_value_number fuel n rest :
  ends_value rest → parse_value (S fuel) (number_text n ++ rest) = Some (JNumber n, rest).
Proof.
  intros Hrest. cbn [parse_value]. rewrite skip_ws_start by apply number_text_starts.
  destruct (number_text_start n) as (c & s & E0 & Hc).
  assert ((c =? 123) = false ∧ (c =? 91) = false ∧ (c =? 34) = false ∧ (110 =? c) = false ∧
    (116 =? c) = false ∧ (102 =? c) = false) as (H1 & H2 & H3 & H4 & H5 & H6).
  { unfold is_digit_unit in Hc. assert (45 ≤ c ≤ 57) by (destruct Hc; units_lia).
    split_and!; apply Z.eqb_neq; lia. }
  pose proof (parse_number_text n rest Hrest) as Hp. rewrite E0 in Hp |- *.
  cbn [app]. rewrite H1, H2, H3. change (js "null") with [110; 117; 108; 108].
  change (js "true") with [116; 114; 117; 101]. change (js "false") with [102; 97; 108; 115; 101].
  cbn [strip_units]. by rewrite H4, H5, H6.
Qed.

Lemma join_starts ss : ss ≠ [] → Forall (λ s, starts_value s = true) ss → starts_value (join_comma ss) = true.
Proof.
  intros Hne Hall. destruct Hall as [|s ss Hs _]; [done|]. destruct ss; [done|]. by destruct s.
Qed.
Lemma skip_bracket {A} (t : jsstr) (f : jsstr → A) (d : A) :
  starts_value t = true → match t with 93 :: r => f r | _ => d end = d.
Proof.
  destruct t as [|c t]; [done|]. unfold starts_value. destruct (Z.eqb_spec c 93) as [|Hc]; [by rewrite andb_false_r|].
  intros _. destruct c as [|c|c]; try done. repeat (destruct c as [c|c|]; try done).
Qed.
Lemma skip_brace {A} (t : jsstr) (f : jsstr → A) (d : A) :
  starts_value t = true → match t with 125 :: r => f r | _ => d end = d.
Proof.
  destruct t as [|c t]; [done|]. unfold starts_value. destruct (Z.eqb_spec c 125) as [|Hc]; [by rewrite andb_false_r|].
  intros _. destruct c as [|c|c]; try done. repeat (destruct c as [c|c|]; try done).
Qed.
Lemma starts_value_app s rest : starts_value s = true → starts_value (s ++ rest) = true.
Proof. by destruct s. Qed.
Lemma Forall2_map_elem {A B C} (P : A → B → Prop) (Q : C → B → Prop) (g : A → C) l k :
  Forall2 P l k → (∀ x y, x ∈ l → y ∈ k → P x y → Q (g x) y) → Forall2 Q (List.map g l) k.
Proof.
  induction 1 as [|x y l k Hxy _ IH]; [constructor|]. intros HPQ. simpl. constructor.
  - apply HPQ; [apply list_elem_of_here..|done].
  - apply IH. intros x' y' Hx Hy. apply HPQ; by apply list_elem_of_further.
Qed.

Lemma parse_array fuel xs ss rest :
  Forall2 (reads (parse_value fuel)) xs ss → ss ≠ [] → (length (join_comma ss) ≤ fuel)%nat →
  parse_value (S fuel) ((91 :: join_comma ss ++ [93]) ++ rest) = Some (JArray xs, rest).
Proof.
  intros Hreads Hne Hfuel.
  assert (Forall (λ s, starts_value s = true) ss) as Hss.
  { clear -Hreads. induction Hreads as [|x s xs ss [Hs _] _ IH]; by constructor. }
  pose proof (join_starts ss Hne Hss) as Hj.
  simpl. rewrite <- app_assoc. simpl. rewrite skip_ws_start by done. rewrite skip_bracket by by apply starts_value_app.
  rewrite (parse_elements_join _ fuel xs ss rest) by (done || (pose proof (length_join_count ss Hss); lia)). done.
Qed.
Lemma parse_object fuel xs ss rest :
  Forall2 (reads_member (parse_value fuel)) xs ss → ss ≠ [] → NoDup xs.*1 → (length (join_comma ss) ≤ fuel)%nat →
  parse_value (S fuel) ((123 :: join_comma ss ++ [125]) ++ rest) = Some (JObject xs, rest).
Proof.
  intros Hreads Hne Hnd Hfuel.
  assert (Forall (λ s, starts_value s = true) ss) as Hss.
  { clear -Hreads. induction Hreads as [|x s xs ss (vs & -> & _ & _) _ IH]; by constructor. }
  pose proof (join_starts ss Hne Hss) as Hj.
  simpl. rewrite <- app_assoc. simpl. rewrite skip_ws_start by done. rewrite skip_brace by by apply starts_value_app.
  rewrite (parse_members_join _ fuel [] xs ss rest) by (done || (pose proof (length_join_count ss Hss); lia)). done.
Qed.

(* An object member is its quoted key, a colon and its value. *)
Definition encode_member (room : nat) (n : Z) (kv : jsstr * json) : throws (jsstr * Z) :=
  k ← encode room n (JString kv.1);
  v ← encode room k.2 kv.2;
  Ret (k.1 ++ 58 :: v.1, v.2).
Lemma encode_member_Ret room n kv s n' :
  encode_member room n kv = Ret (s, n') →
  ∃ vs n1 n2, s = quote kv.1 ++ 58 :: vs ∧ hasUnpairedSurrogate kv.1 = false ∧ encode room n1 kv.2 = Ret (vs, n2).
Proof.
  unfold encode_member. destruct room as [|room]; [done|]. cbn [encode].
  destruct (MAX_NODES <? n + 1); [done|]. destruct (hasUnpairedSurrogate kv.1); [done|]. cbn [mbind throws_bind fst snd].
  change (encode (S room)) with (encode (S room)).
  destruct (encode (S room) (n + 1) kv.2) as [[vs n2]|] eqn:Hv.
  - cbn [encode] in Hv. rewrite Hv. intros [= <- <-]. exists vs, (n + 1), n2. done.
  - cbn [encode] in Hv. by rewrite Hv.
Qed.

(** JSON.parse reads the canonical text back as the normal form of the value. *)
Lemma parse_encode room : ∀ nodes v s nodes' fuel rest,
  wf_json v = true → encode room nodes v = Ret (s, nodes') →
  (length s ≤ fuel)%nat → ends_value rest → parse_value fuel (s ++ rest) = Some (norm v, rest).
Proof.
  induction room as [|room IH]; [done|]. intros nodes v s nodes' fuel rest Hwf Henc Hfuel Hrest.
  pose proof (encode_starts _ _ _ _ _ Henc) as Hstart.
  destruct fuel as [|fuel]; [destruct s; [done|simpl in Hfuel; lia]|].
  cbn [encode] in Henc. destruct (MAX_NODES <? nodes + 1); [done|].
  destruct v as [|b|t|n| | |l|fs]; try done.
  - by injection Henc as <- _.
  - by destruct b; injection Henc as <- _.
  - destruct (hasUnpairedSurrogate t); [done|]. injection Henc as <- _.
    unfold quote. simpl. rewrite <- app_assoc. simpl. rewrite parse_string_escape by done. done.
  - destruct (MAX_SAFE_INTEGER <? Z.abs n); [done|]. injection Henc as <- _. by apply parse_value_number.
  - destruct (encode_all _ _ _) as [[ss n1]|] eqn:Hall; [|done]. injection Henc as <- _.
    destruct l as [|x l]; [by injection Hall as <- _|].
    simpl in Hfuel. rewrite length_app in Hfuel. simpl in Hfuel.
    apply encode_all_Forall2 in Hall. cbn [norm]. apply parse_array; [|by intros ->; inversion Hall|lia].
    eapply Forall2_map_elem; [exact Hall|]. intros y s Hy Hs (n2 & n3 & Hy'). split; [by eapply encode_starts|].
    intros rest' Hrest'. eapply IH; [|exact Hy'| |done].
    + cbn [wf_json] in Hwf. by apply (proj1 (forallb_elem _ _)) with (x := y) in Hwf.
    + pose proof (length_join_comma _ _ Hs). lia.
  - change (λ n kv, k ← encode room n (JString kv.1); v ← encode room k.2 kv.2; Ret (k.1 ++ 58 :: v.1, v.2))
      with (encode_member room) in Henc.
    destruct (encode_all _ _ _) as [[ss n1]|] eqn:Hall; [|done]. injection Henc as <- _.
    cbn [wf_json] in Hwf. apply andb_true_iff in Hwf as [Hnd%bool_decide_eq_true Hwf].
    cbn [norm]. rewrite sort_fields_map.
    destruct (sort_fields fs) as [|x l] eqn:Hfs; [by injection Hall as <- _|]. rewrite <- Hfs in Hall |- *.
    simpl in Hfuel. rewrite length_app in Hfuel. simpl in Hfuel.
    apply encode_all_Forall2 in Hall. apply parse_object.
    + eapply Forall2_map_elem; [exact Hall|]. intros y s Hy Hs (n2 & n3 & Hy').
      apply encode_member_Ret in Hy' as (vs & n4 & n5 & -> & _ & Hv).
      rewrite sort_fields_perm in Hy. apply (proj1 (forallb_elem _ _)) with (x := y) in Hwf; [|done].
      apply andb_true_iff in Hwf as [Hk Hwf]. exists vs. split_and!; [done..|]. split; [by eapply encode_starts|].
      intros rest' Hrest'. eapply IH; [done|exact Hv| |done].
      pose proof (length_join_comma _ _ Hs) as Hlen. rewrite length_app in Hlen. simpl in Hlen. lia.
    + intros ->. rewrite Hfs in Hall. inversion Hall.
    + assert ((List.map (λ kv : jsstr * json, (kv.1, norm kv.2)) (sort_fields fs)).*1 = (sort_fields fs).*1) as ->.
      { clear. induction (sort_fields fs) as [|y l IH]; [done|]. simpl. f_equal. apply IH. }
      by rewrite sort_fields_perm.
    + lia.
Qed.

(** * JSON.parse inverts JSON.stringify *)

Lemma stringify_starts v : starts_value (JSON_stringify v) = true.
Proof. destruct v as [|[]|s|n| | |l|fs]; try done. apply number_text_starts. Qed.

Lemma stringify_members fs :
  forallb (λ kv : jsstr * json, is_data kv.2) fs = true →
  List.flat_map (λ kv, match kv.2 with JForeign => [] | _ => [quote kv.1 ++ 58 :: JSON_stringify kv.2] end) fs =
  List.map (λ kv, quote kv.1 ++ 58 :: JSON_stringify kv.2) fs.
Proof.
  induction fs as [|[k v] fs IH]; [done|]. simpl. intros [Hv Hfs]%andb_prop.
  specialize (IH Hfs). by destruct v; try done; simpl; f_equal.
Qed.
Lemma starts_fuel s fuel : starts_value s = true → (length s ≤ fuel)%nat → ∃ fuel', fuel = S fuel'.
Proof. destruct s; [done|]. destruct fuel; simpl; [lia|eauto]. Qed.

Lemma Forall2_map_r {A B} (P : A → B → Prop) (g : A → B) l : (∀ x, x ∈ l → P x (g x)) → Forall2 P l (List.map g l).
Proof.
  induction l as [|x l IH]; intros HP; simpl; constructor; [apply HP, list_elem_of_here|].
  apply IH. intros. by apply HP, list_elem_of_further.
Qed.
Lemma parse_stringify_value v : ∀ fuel rest,
  wf_json v = true → is_data v = true → (length (JSON_stringify v) ≤ fuel)%nat → ends_value rest →
  parse_value fuel (JSON_stringify v ++ rest) = Some (v, rest).
Proof.
  induction v as [|b|s|n| | |l IH|fs IH] using json_nested_ind; intros fuel rest Hwf Hd Hfuel Hrest; try done;
    destruct (starts_fuel _ _ (stringify_starts _) Hfuel) as [fuel' ->].
  - done.
  - by destruct b.
  - cbn [JSON_stringify]. unfold quote. simpl. rewrite <- app_assoc. simpl. by rewrite parse_string_escape.
  - by apply parse_value_number.
  - destruct l as [|x l]; [done|]. cbn [JSON_stringify wf_json is_data] in *.
    cbn [length] in Hfuel. rewrite length_app in Hfuel. cbn [length] in Hfuel. rewrite forallb_elem in Hwf, Hd. rewrite Forall_forall in IH.
    apply parse_array; [|done|lia]. apply Forall2_map_r. intros y Hy. split; [apply stringify_starts|].
    intros rest' Hrest'. apply IH; [done|by apply Hwf|by apply Hd| |done].
    assert (JSON_stringify y ∈ List.map JSON_stringify (x :: l)) as Hin.
    { apply list_elem_of_In, in_map. by apply list_elem_of_In. }
    pose proof (length_join_comma _ _ Hin). lia.
  - destruct fs as [|x fs]; [done|]. cbn [JSON_stringify wf_json is_data] in *. rewrite stringify_members in * by done.
    apply andb_prop in Hwf as [Hnd%bool_decide_eq_true Hwf].
    cbn [length] in Hfuel. rewrite length_app in Hfuel. cbn [length] in Hfuel. rewrite forallb_elem in Hwf, Hd. rewrite Forall_forall in IH.
    apply parse_object; [|done|done|lia]. apply Forall2_map_r. intros y Hy.
    specialize (Hwf y Hy). apply andb_prop in Hwf as [Hk Hwf]. exists (JSON_stringify y.2). split_and!; [done..|].
    split; [apply stringify_starts|]. intros rest' Hrest'. apply IH; [done..|by apply Hd| |done].
    assert (quote y.1 ++ 58 :: JSON_stringify y.2 ∈ List.map (λ kv, quote kv.1 ++ 58 :: JSON_stringify kv.2) (x :: fs)) as Hin.
    { apply list_elem_of_In. apply (in_map (λ kv, quote kv.1 ++ 58 :: JSON_stringify kv.2)). by apply list_elem_of_In. }
    pose proof (length_join_comma _ _ Hin) as Hlen. rewrite length_app in Hlen. cbn [length] in Hlen. lia.
Qed.

Lemma parse_stringify v :
  wf_json v = true → is_data v = true → JSON_parse (JSON_stringify v) = Ret v.
Proof.
  intros Hwf Hd. unfold JSON_parse.
  pose proof (parse_stringify_value v (S (length (JSON_stringify v))) [] Hwf Hd) as Hp. rewrite app_nil_r in Hp.
  by rewrite Hp by (done || lia).
Qed.
