(* ===== verification/Regex.v ===== *)
(** Regular expressions of the language, as far as the program writes them: their
    text is parsed to a tree, and a backtracking matcher runs the tree over the
    characters of a text. [denotes] says declaratively what a tree matches; the
    matcher finds a match exactly when there is one. *)

From Stdlib Require Import String.
From S2P Require Import Prelude Json JsonText.

Local Open Scope Z_scope.

Module Regexp.

(** * Characters and trees *)

Record charset := { negated : bool; ranges : list (Z * Z) }.
Inductive regex :=
| Empty
| Char (set : charset)
| Seq (first second : regex)
| Alt (left right : regex)
| Repeat (least : nat) (more : option nat) (greedy : bool) (body : regex) (* at most more beyond the least *)
| Group (index : nat) (body : regex)
| LineStart
| LineEnd
| Boundary
| Ahead (wanted : bool) (body : regex)
| NotBehind (set : charset).
Record flags := { ignoreCase : bool; multiline : bool; unicode : bool }.

Definition digit_ranges : list (Z * Z) := [(48, 57)].
Definition word_ranges : list (Z * Z) := [(48, 57); (65, 90); (95, 95); (97, 122)].
Definition space_ranges : list (Z * Z) :=
  [(9, 13); (32, 32); (160, 160); (5760, 5760); (8192, 8202); (8232, 8233); (8239, 8239); (8287, 8287); (12288, 12288); (65279, 65279)].
Definition line_terminators : list (Z * Z) := [(10, 10); (13, 13); (8232, 8233)].
Definition in_ranges (l : list (Z * Z)) (c : Z) : bool := existsb (λ r, (r.1 <=? c) && (c <=? r.2))%bool l.

(* The characters that the flag i does not tell from c, for sets of ASCII characters:
   with the flag u, long s and the Kelvin sign fold to letters too. *)
Definition variants (f : flags) (c : Z) : list Z :=
  if negb (ignoreCase f) then [c]
  else if ((65 <=? c) && (c <=? 90))%bool then [c; c + 32]
  else if ((97 <=? c) && (c <=? 122))%bool then [c; c - 32]
  else if (unicode f && (c =? 383))%bool then [c; 83; 115]
  else if (unicode f && (c =? 8490))%bool then [c; 75; 107]
  else [c].
Definition in_set (f : flags) (set : charset) (c : Z) : bool :=
  xorb (negated set) (existsb (in_ranges (ranges set)) (variants f c)).
Definition is_word (f : flags) (c : Z) : bool := existsb (in_ranges word_ranges) (variants f c).

(** * The matcher *)

(* A position of the text: the characters before it, last first, and those after it. *)
Abbreviation position := (list Z * list Z)%type.
Record state := { place : position; captures : list (nat * list Z) }.

Definition at_line_start (f : flags) (x : position) : bool :=
  match x.1 with [] => true | c :: _ => (multiline f && in_ranges line_terminators c)%bool end.
Definition at_line_end (f : flags) (x : position) : bool :=
  match x.2 with [] => true | c :: _ => (multiline f && in_ranges line_terminators c)%bool end.
Definition word_side (f : flags) (s : list Z) : bool := match s with [] => false | c :: _ => is_word f c end.
Definition at_boundary (f : flags) (x : position) : bool := xorb (word_side f x.1) (word_side f x.2).
Definition head_in (f : flags) (set : charset) (s : list Z) : bool := match s with [] => false | c :: _ => in_set f set c end.
Definition same_place (x y : state) : bool := Nat.eqb (length (place x).2) (length (place y).2).
(* What was read between two positions of one text. *)
Definition between (x y : position) : list Z := take (length x.2 - length y.2) x.2.
Definition pred_most (more : option nat) : option nat := option_map pred more.
Definition or_else {A} (a b : option A) : option A := match a with Some _ => a | None => b end.

Definition matcher := state → (state → option state) → option state.
Section matcher.
Variable f : flags.

(* The loop of a quantifier; an iteration beyond the least that reads nothing fails. *)
Fixpoint repeat (m : matcher) (fuel least : nat) (more : option nat) (greedy : bool) (x : state) (k : state → option state) : option state :=
  match fuel, least, more with
  | 0%nat, _, _ => None
  | S fuel', S least', _ => m x (λ y, repeat m fuel' least' more greedy y k)
  | S _, 0%nat, Some 0%nat => k x
  | S fuel', 0%nat, _ =>
      let again := m x (λ y, if same_place x y then None else repeat m fuel' 0 (pred_most more) greedy y k) in
      if greedy then or_else again (k x) else or_else (k x) again
  end.
Definition guard_at (b : bool) (x : state) (k : state → option state) : option state := if b then k x else None.
Fixpoint run (r : regex) : matcher := λ x k,
  match r with
  | Empty => k x
  | Char set =>
      match (place x).2 with
      | c :: post => guard_at (in_set f set c) {| place := (c :: (place x).1, post); captures := captures x |} k
      | [] => None
      end
  | Seq a b => run a x (λ y, run b y k)
  | Alt a b => or_else (run a x k) (run b x k)
  | Repeat least more greedy a => repeat (run a) (S (least + length (place x).2)) least more greedy x k
  | Group i a => run a x (λ y, k {| place := place y; captures := (i, between (place x) (place y)) :: captures y |})
  | LineStart => guard_at (at_line_start f (place x)) x k
  | LineEnd => guard_at (at_line_end f (place x)) x k
  | Boundary => guard_at (at_boundary f (place x)) x k
  | Ahead wanted a =>
      match run a x Some, wanted with
      | Some y, true => k {| place := place x; captures := captures y |}
      | None, false => k x
      | _, _ => None
      end
  | NotBehind set => guard_at (negb (head_in f set (place x).1)) x k
  end.

(** ** Searching a text *)

(* The text before the match, the match, the place after it, and the groups. *)
Record found := { skipped : list Z; matched : list Z; after_match : position; groups : list (nat * list Z) }.
Fixpoint exec_from (r : regex) (pre post : list Z) : option found :=
  match run r {| place := (pre, post); captures := [] |} Some with
  | Some y => Some {| skipped := []; matched := between (pre, post) (place y); after_match := place y; groups := captures y |}
  | None =>
      match post with
      | [] => None
      | c :: post' =>
          m ← exec_from r (c :: pre) post';
          Some {| skipped := c :: skipped m; matched := matched m; after_match := after_match m; groups := groups m |}
      end
  end.
Definition exec (r : regex) (s : list Z) : option found := exec_from r [] s.
Definition test (r : regex) (s : list Z) : bool := bool_decide (is_Some (exec r s)).
Definition group (m : found) (i : nat) : option (list Z) :=
  snd <$> List.find (λ g, Nat.eqb g.1 i) (groups m).

(* Where the next search of a regular expression with the flag g starts. *)
Definition next_start (m : found) : option (list Z * position) :=
  match matched m, after_match m with
  | [], (pre, c :: post) => Some ([c], (c :: pre, post))
  | [], (_, []) => None
  | _, x => Some ([], x)
  end.
(* text.replace(r, replacement) with the flag g *)
Fixpoint replace_from (fuel : nat) (r : regex) (replacement : found → list Z) (x : position) : list Z :=
  match fuel with
  | 0%nat => x.2
  | S fuel' =>
      match exec_from r x.1 x.2 with
      | None => x.2
      | Some m =>
          skipped m ++ replacement m
            ++ match next_start m with Some (passed, y) => passed ++ replace_from fuel' r replacement y | None => [] end
      end
  end.
Definition replace_all (r : regex) (replacement : found → list Z) (s : list Z) : list Z :=
  replace_from (S (S (length s))) r replacement ([], s).
(* text.split(r), for an r that does not match the empty text *)
Fixpoint split_from (fuel : nat) (r : regex) (x : position) : list (list Z) :=
  match fuel with
  | 0%nat => [x.2]
  | S fuel' =>
      match exec_from r x.1 x.2 with
      | None => [x.2]
      | Some m => skipped m :: split_from fuel' r (after_match m)
      end
  end.
Definition split_by (r : regex) (s : list Z) : list (list Z) := split_from (S (length s)) r ([], s).
End matcher.

(** * The text of a pattern *)

Definition single (c : Z) : regex := Char {| negated := false; ranges := [(c, c)] |}.
Definition class (l : list (Z * Z)) : regex := Char {| negated := false; ranges := l |}.
Definition other_than (l : list (Z * Z)) : regex := Char {| negated := true; ranges := l |}.
Definition seq (a b : regex) : regex := match b with Empty => a | _ => Seq a b end.
Definition class_escape (c : Z) : option (list (Z * Z)) :=
  if c =? 100 then Some digit_ranges else if c =? 119 then Some word_ranges else if c =? 115 then Some space_ranges else None.
(* The characters of a class up to the closing bracket. *)
Fixpoint class_items (fuel : nat) (s : jsstr) : option (list (Z * Z) * jsstr) :=
  match fuel with
  | 0%nat => None
  | S fuel' =>
      let item c s' := '(l, s'') ← class_items fuel' s'; Some ((c, c) :: l, s'') in
      match s with
      | 93 :: s' => Some ([], s')
      | 92 :: c :: s' =>
          match class_escape c with
          | Some l => '(l', s'') ← class_items fuel' s'; Some (l ++ l', s'')
          | None => item c s'
          end
      | lo :: 45 :: hi :: s' =>
          if hi =? 93 then item lo (45 :: hi :: s') else '(l, s'') ← class_items fuel' s'; Some ((lo, hi) :: l, s'')
      | c :: s' => item c s'
      | [] => None
      end
  end.
Fixpoint number_prefix (acc : option nat) (s : jsstr) : option nat * jsstr :=
  match s with
  | c :: s' => if ((48 <=? c) && (c <=? 57))%bool then number_prefix (Some (10 * default 0%nat acc + Z.to_nat (c - 48))%nat) s' else (acc, s)
  | [] => (acc, s)
  end.
(* The least and how many more: {n}, {n,} and {n,m}. *)
Definition bounds (s : jsstr) : option (nat * option nat * jsstr) :=
  match number_prefix None s with
  | (Some n, 125 :: s') => Some (n, Some 0%nat, s')
  | (Some n, 44 :: s') =>
      match number_prefix None s' with
      | (None, 125 :: s'') => Some (n, None, s'')
      | (Some m, 125 :: s'') => if (n <=? m)%nat then Some (n, Some (m - n)%nat, s'') else None
      | _ => None
      end
  | _ => None
  end.
Definition quantifier (s : jsstr) : option (option (nat * option nat) * jsstr) :=
  match s with
  | 42 :: s' => Some (Some (0%nat, None), s')
  | 43 :: s' => Some (Some (1%nat, None), s')
  | 63 :: s' => Some (Some (0%nat, Some 1%nat), s')
  | 123 :: s' => '(least, more, s'') ← bounds s'; Some (Some (least, more), s'')
  | _ => Some (None, s)
  end.
Definition quantified (a : regex) (s : jsstr) : option (regex * jsstr) :=
  '(q, s') ← quantifier s;
  Some match q, s' with
       | None, _ => (a, s')
       | Some (least, more), 63 :: s'' => (Repeat least more false a, s'')
       | Some (least, more), _ => (Repeat least more true a, s')
       end.
Definition escaped (c : Z) : regex :=
  if c =? 98 then Boundary else match class_escape c with Some l => class l | None => single c end.
(* A group in a quantified atom would have its capture reset by every iteration; the
   program writes none, and its text is not accepted here. *)
Fixpoint parse_alternatives (fuel i : nat) (s : jsstr) : option (regex * nat * jsstr) :=
  match fuel with
  | 0%nat => None
  | S fuel' =>
      '(a, i', s') ← parse_terms fuel' i s;
      match s' with
      | 124 :: s'' => '(b, i'', rest) ← parse_alternatives fuel' i' s''; Some (Alt a b, i'', rest)
      | _ => Some (a, i', s')
      end
  end
with parse_terms (fuel i : nat) (s : jsstr) : option (regex * nat * jsstr) :=
  match fuel with
  | 0%nat => None
  | S fuel' =>
      match s with
      | [] | 41 :: _ | 124 :: _ => Some (Empty, i, s)
      | _ =>
          '(a, i', s') ← parse_atom fuel' i s;
          '(a', s'') ← quantified a s';
          if (negb (Nat.eqb i i') && negb (Nat.eqb (length s') (length s'')))%bool then None
          else '(b, i'', rest) ← parse_terms fuel' i' s''; Some (seq a' b, i'', rest)
      end
  end
with parse_atom (fuel i : nat) (s : jsstr) : option (regex * nat * jsstr) :=
  match fuel with
  | 0%nat => None
  | S fuel' =>
      let close j (wrap : regex → regex) s' :=
        '(a, i', rest) ← parse_alternatives fuel' j s';
        match rest with 41 :: rest' => Some (wrap a, i', rest') | _ => None end in
      match s with
      | 94 :: s' => Some (LineStart, i, s')
      | 36 :: s' => Some (LineEnd, i, s')
      | 46 :: s' => Some (other_than line_terminators, i, s')
      | 92 :: c :: s' => Some (escaped c, i, s')
      | 91 :: 94 :: s' => '(l, rest) ← class_items fuel' s'; Some (other_than l, i, rest)
      | 91 :: s' => '(l, rest) ← class_items fuel' s'; Some (class l, i, rest)
      | 40 :: 63 :: 58 :: s' => close i (λ a, a) s'
      | 40 :: 63 :: 61 :: s' => close i (Ahead true) s'
      | 40 :: 63 :: 33 :: s' => close i (Ahead false) s'
      | 40 :: 63 :: 60 :: 33 :: s' =>
          '(a, i', rest) ← parse_alternatives fuel' i s';
          match a, rest with Char set, 41 :: rest' => Some (NotBehind set, i', rest') | _, _ => None end
      | 40 :: 63 :: _ => None
      | 40 :: s' => close (S i) (Group i) s'
      | (42 | 43 | 63 | 123 | 125 | 93) :: _ => None
      | c :: s' => Some (single c, i, s')
      | [] => None
      end
  end.
Definition parse (s : jsstr) : option regex :=
  '(r, _, rest) ← parse_alternatives (2 * length s + 16) 1 s;
  match rest with [] => Some r | _ => None end.
Definition nothing : regex := class [].
(* The expression written with this text. *)
Definition re (s : string) : regex := default nothing (parse (js s)).

(** * What an expression matches *)

(* Reading forward: w is read between the two positions. *)
Definition reads (x y : position) (w : list Z) : Prop := x.2 = w ++ y.2 ∧ y.1 = rev w ++ x.1.
Definition allows (more : option nat) (n : nat) : Prop := match more with Some m => (n ≤ m)%nat | None => True end.
Section denotes.
Variable f : flags.
Fixpoint denotes (r : regex) (x y : position) : Prop :=
  match r with
  | Empty => y = x
  | Char set => ∃ c, in_set f set c = true ∧ reads x y [c]
  | Seq a b => ∃ z, denotes a x z ∧ denotes b z y
  | Alt a b => denotes a x y ∨ denotes b x y
  | Repeat least more _ a => ∃ n, allows more n ∧ nsteps (denotes a) (least + n) x y
  | Group _ a => denotes a x y
  | LineStart => y = x ∧ at_line_start f x = true
  | LineEnd => y = x ∧ at_line_end f x = true
  | Boundary => y = x ∧ at_boundary f x = true
  | Ahead wanted a => y = x ∧ if wanted then ∃ z, denotes a x z else ∀ z, ¬ denotes a x z
  | NotBehind set => y = x ∧ head_in f set x.1 = false
  end.

Lemma reads_nil x y : reads x y [] ↔ y = x.
Proof. unfold reads. destruct x, y; simpl. intuition congruence. Qed.
Lemma reads_app x y z v w : reads x y v → reads y z w → reads x z (v ++ w).
Proof.
  unfold reads. destruct x as [p1 s1], y as [p2 s2], z as [p3 s3]; cbn. intros [-> ->] [-> ->].
  by rewrite rev_app_distr, <- !app_assoc.
Qed.
Lemma reads_cons x y c w : reads x y (c :: w) ↔ ∃ z, reads x z [c] ∧ reads z y w.
Proof.
  split.
  - destruct x as [p1 s1], y as [p2 s2]. unfold reads; cbn. intros [-> ->]. exists (c :: p1, w ++ s2). cbn.
    by rewrite <- app_assoc.
  - intros (z & H1 & H2). by apply (reads_app x z y [c] w).
Qed.
Lemma reads_length x y w : reads x y w → length x.2 = (length w + length y.2)%nat.
Proof. intros [-> _]. by rewrite length_app. Qed.
Lemma reads_same x y w : reads x y w → length x.2 = length y.2 → y = x.
Proof. intros H E. apply reads_nil. rewrite (reads_length _ _ _ H) in E. by destruct w; [|simpl in E; lia]. Qed.

Lemma nsteps_reads (R : position → position → Prop) n x y :
  (∀ x y, R x y → ∃ w, reads x y w) → nsteps R n x y → ∃ w, reads x y w.
Proof.
  intros HR. induction 1 as [x|n x z y H1 _ [w Hw]]; [exists []; by apply reads_nil|].
  destruct (HR _ _ H1) as [v Hv]. exists (v ++ w). by apply (reads_app x z y).
Qed.
Lemma denotes_reads r x y : denotes r x y → ∃ w, reads x y w.
Proof.
  revert x y. induction r as [|set|a IHa b IHb|a IHa b IHb|least more g a IHa|i a IHa| | | |wanted a IHa|set]; intros x y; cbn;
    try (intros H; exists []; apply reads_nil; naive_solver).
  - intros (c & _ & H). by exists [c].
  - intros (z & [v Hv]%IHa & [w Hw]%IHb). exists (v ++ w). by apply (reads_app x z y).
  - intros [H|H]; auto.
  - intros (n & _ & H). by apply (nsteps_reads (denotes a) (least + n)).
  - apply IHa.
Qed.
Lemma between_reads x y w : reads x y w → between x y = w.
Proof.
  intros H. unfold between. rewrite (reads_length _ _ _ H). destruct H as [-> _].
  rewrite Nat.add_sub. by apply take_app_length.
Qed.

(** * The matcher finds what is denoted *)

(* A continuation that succeeds by the position alone, where the matcher calls it. *)
Definition exact (m : matcher) (R : position → position → Prop) : Prop :=
  ∀ x k P, (∀ y, R (place x) (place y) → is_Some (k y) ↔ P (place y)) → is_Some (m x k) ↔ ∃ y, R (place x) y ∧ P y.

Lemma or_else_some {A} (a b : option A) : is_Some (or_else a b) ↔ is_Some a ∨ is_Some b.
Proof. destruct a; cbn; split; [by left|by eauto|by right|]. by intros [[]|]. Qed.
Lemma guard_at_some b x k : is_Some (guard_at b x k) ↔ b = true ∧ is_Some (k x).
Proof. destruct b; cbn; split; [done|by intros []|by intros []|by intros []]. Qed.

Lemma allows_le more n n' : (n ≤ n')%nat → allows more n' → allows more n.
Proof. destruct more; cbn; lia. Qed.
Lemma allows_S more n : allows more (S n) → more ≠ Some 0%nat ∧ allows (pred_most more) n.
Proof. destruct more as [[|m]|]; cbn; intros; split; try done; lia. Qed.
Lemma allows_pred more n : more ≠ Some 0%nat → allows (pred_most more) n → allows more (S n).
Proof. destruct more as [[|m]|]; cbn; intros; try done; lia. Qed.

Section repeat.
Context (m : matcher) (R : position → position → Prop).
Hypothesis m_exact : exact m R.
Hypothesis R_reads : ∀ x y, R x y → ∃ w, reads x y w.

Lemma repeat_more fuel more greedy x k : more ≠ Some 0%nat →
  is_Some (repeat m (S fuel) 0 more greedy x k) ↔
  is_Some (m x (λ y, if same_place x y then None else repeat m fuel 0 (pred_most more) greedy y k)) ∨ is_Some (k x).
Proof. intros Hm. destruct more as [[|n]|]; [done| |]; cbn [repeat]; destruct greedy; rewrite or_else_some; tauto. Qed.
(* Iterations that read nothing can be left out. *)
Lemma drop_empty x y n : nsteps R n x y →
  y = x ∨ ∃ z n', (n' < n)%nat ∧ R x z ∧ length z.2 ≠ length x.2 ∧ nsteps R n' z y.
Proof.
  induction 1 as [x|n x z y H1 H2 IH]; [by left|]. destruct (R_reads _ _ H1) as [w Hw].
  destruct (decide (length z.2 = length x.2)) as [E|E].
  - assert (z = x) as -> by (by apply (reads_same x z w)). destruct IH as [->|(z' & n' & ? & ?)]; [by left|].
    right. exists z', n'. split; [lia|done].
  - right. exists z, n. split; [lia|done].
Qed.
Lemma repeat_none fuel more greedy : ∀ x k P, (length (place x).2 < fuel)%nat →
  (∀ y n, allows more n → nsteps R n (place x) (place y) → is_Some (k y) ↔ P (place y)) →
  is_Some (repeat m fuel 0 more greedy x k) ↔ ∃ y, (∃ n, allows more n ∧ nsteps R n (place x) y) ∧ P y.
Proof.
  revert more. induction fuel as [|fuel IH]; intros more x k P Hfuel Hk; [lia|].
  assert (allows more 0%nat) as H0 by (destruct more; cbn; lia).
  assert (is_Some (k x) ↔ P (place x)) as Hkx by (by apply (Hk x 0%nat); [|constructor]).
  destruct (decide (more = Some 0%nat)) as [->|Hm].
  { cbn [repeat]. rewrite Hkx. split.
    - intros HP. exists (place x). split; [|done]. exists 0%nat. by split; [|constructor].
    - intros (y & (n & Hn & H) & HP). cbn in Hn. assert (n = 0%nat) as -> by lia. by inversion H; subst. }
  rewrite (repeat_more _ _ _ _ _ Hm), Hkx.
  rewrite (m_exact _ _ (λ z, length z.2 ≠ length (place x).2 ∧ ∃ y, (∃ n, allows (pred_most more) n ∧ nsteps R n z y) ∧ P y)).
  - split.
    + intros [(z & Rz & _ & y & (n & Hn & H) & HP)|HP].
      * exists y. split; [|done]. exists (S n). split; [by apply allows_pred|by econstructor].
      * exists (place x). split; [|done]. exists 0%nat. by split; [|constructor].
    + intros (y & (n & Hn & H) & HP). destruct (drop_empty _ _ _ H) as [->|(z & n' & Hlt & Rz & Hz & H')]; [by right|].
      left. exists z. split; [done|]. split; [done|]. exists y. split; [|done]. exists n'. split; [|done].
      apply (allows_S more n'). by apply (allows_le _ _ n).
  - intros z Rz. destruct (R_reads _ _ Rz) as [w Hw]. pose proof (reads_length _ _ _ Hw) as Hlen.
    destruct (same_place x z) eqn:E.
    + apply Nat.eqb_eq in E. split; [by intros [? ?]|]. by intros [? _].
    + apply Nat.eqb_neq in E. rewrite (IH _ z k P); [|lia|].
      * split; [|tauto]. intros H. by split; [congruence|].
      * intros y n Hn H. apply (Hk y (S n)); [by apply allows_pred|by econstructor].
Qed.
Lemma repeat_exact least more greedy : ∀ fuel x k P, (least + length (place x).2 < fuel)%nat →
  (∀ y n, allows more n → nsteps R (least + n) (place x) (place y) → is_Some (k y) ↔ P (place y)) →
  is_Some (repeat m fuel least more greedy x k) ↔ ∃ y, (∃ n, allows more n ∧ nsteps R (least + n) (place x) y) ∧ P y.
Proof.
  induction least as [|least IH]; intros fuel x k P Hfuel Hk; [by apply repeat_none|].
  destruct fuel as [|fuel]; [lia|]. cbn [repeat].
  rewrite (m_exact _ _ (λ z, ∃ y, (∃ n, allows more n ∧ nsteps R (least + n) z y) ∧ P y)).
  - split.
    + intros (z & Rz & y & (n & Hn & H) & HP). exists y. split; [|done]. exists n. split; [done|]. cbn. by econstructor.
    + intros (y & (n & Hn & H) & HP). cbn in H. inversion H as [|? ? z ? Rz H']; subst. exists z. split; [done|].
      exists y. split; [|done]. by exists n.
  - intros z Rz. destruct (R_reads _ _ Rz) as [w Hw]. pose proof (reads_length _ _ _ Hw) as Hlen.
    apply IH; [lia|]. intros y n Hn H. apply (Hk y n Hn). cbn. by econstructor.
Qed.
End repeat.

Lemma guard_exact b x k P : (b = true → is_Some (k x) ↔ P (place x)) →
  is_Some (guard_at b x k) ↔ ∃ y, (y = place x ∧ b = true) ∧ P y.
Proof.
  intros Hk. rewrite guard_at_some. split.
  - intros [E H]. exists (place x). split; [done|]. by apply Hk.
  - intros (y & [-> E] & HP). split; [done|]. by apply Hk.
Qed.
Lemma run_exact r : exact (run f r) (denotes r).
Proof.
  induction r as [|set|a IHa b IHb|a IHa b IHb|least more g a IHa|i a IHa| | | |wanted a IHa|set]; intros x k P Hk; cbn [run denotes].
  - rewrite (Hk x) by done. split; [intros HP; by exists (place x)|]. by intros (y & -> & HP).
  - destruct x as [[pre post] caps]; cbn in *. destruct post as [|c post]; cbn.
    + split; [by intros []|]. intros (y & (c & _ & [E _]) & _). done.
    + rewrite guard_at_some. split.
      * intros [Hc HP]. exists (c :: pre, post). assert (denotes (Char set) (pre, c :: post) (c :: pre, post)) as D by (by exists c).
        split; [done|]. by apply (Hk {| place := (c :: pre, post); captures := caps |}).
      * intros ([pre' post'] & (d & Hd & [E1 E2]) & HP). cbn in E1, E2. simplify_eq. split; [done|].
        apply (Hk {| place := (d :: pre, post'); captures := caps |}); [|done]. cbn. by exists d.
  - rewrite (IHa _ _ (λ z, ∃ y, denotes b z y ∧ P y)).
    + split; [intros (z & Hz & y & Hy & HP)|intros (y & (z & Hz & Hy) & HP)]; eauto.
    + intros z Hz. apply IHb. intros y Hy. apply Hk. by exists (place z).
  - rewrite or_else_some, (IHa _ _ P), (IHb _ _ P) by (intros y Hy; apply Hk; cbn; tauto). naive_solver.
  - apply repeat_exact; [done|by apply denotes_reads|lia|]. intros y n Hn H. apply Hk. by exists n.
  - apply (IHa _ _ P). intros y Hy.
    by apply (Hk {| place := place y; captures := (i, between (place x) (place y)) :: captures y |}).
  - apply guard_exact. intros E. by apply Hk.
  - apply guard_exact. intros E. by apply Hk.
  - apply guard_exact. intros E. by apply Hk.
  - pose proof (IHa x Some (λ _, True) (λ y _, conj (λ _, I) (λ _, ex_intro _ y eq_refl))) as Ha.
    assert (∀ z, denotes (Ahead wanted a) (place x) (place z) → is_Some (k z) ↔ P (place z)) as Hk' by done. cbn [denotes] in Hk'.
    destruct wanted, (run f a x Some) as [z|].
    + destruct Ha as [(y & Hy & _) _]; [done|].
      transitivity (P (place x)); [by apply (Hk' {| place := place x; captures := captures z |}); eauto|].
      split; [intros HP; exists (place x); eauto|]. by intros (? & [-> _] & HP).
    + split; [by intros []|]. intros (? & [_ (y & Hy)] & _). destruct Ha as [_ Ha]. by destruct Ha; eauto.
    + split; [by intros []|]. intros (? & [_ Hno] & _). destruct Ha as [(y & Hy & _) _]; [done|]. by destruct (Hno y).
    + assert (∀ y, ¬ denotes a (place x) y) as Hno by (intros y Hy; destruct Ha as [_ Ha]; by destruct Ha; eauto).
      rewrite (Hk' x) by done. split; [intros HP; exists (place x); eauto|]. by intros (? & [-> _] & HP).
  - rewrite guard_exact with (P := P); [|by intros; apply Hk; cbn; destruct (head_in f set _)].
    split; intros (y & [-> E] & HP); exists (place x); (split; [|done]); (split; [done|]); by destruct (head_in f set _).
Qed.

(* The answer is the continuation's at a position that is denoted. *)
Definition answers (m : matcher) (R : position → position → Prop) : Prop :=
  ∀ x k z, m x k = Some z → ∃ y, R (place x) (place y) ∧ k y = Some z.
Lemma or_else_eq {A} (a b : option A) z : or_else a b = Some z → a = Some z ∨ b = Some z.
Proof. destruct a; cbn; auto. Qed.
Lemma guard_at_eq b x k z : guard_at b x k = Some z → b = true ∧ k x = Some z.
Proof. by destruct b. Qed.
Lemma repeat_answers m R fuel least more greedy : answers m R →
  answers (repeat m fuel least more greedy) (λ x y, ∃ n, allows more n ∧ nsteps R (least + n) x y).
Proof.
  intros Hm. revert least more. induction fuel as [|fuel IH]; intros least more x k z; [by destruct least, more|].
  assert (∀ more, allows more 0%nat) as H0 by (intros []; cbn; lia).
  destruct least as [|least]; cbn [repeat].
  - destruct (decide (more = Some 0%nat)) as [->|Hmore].
    { intros Hk. exists x. split; [|done]. exists 0%nat. split; [done|constructor]. }
    assert (∀ A (a b : A), match more with Some 0%nat => a | _ => b end = b) as E by (by destruct more as [[|?]|]). rewrite E.
    intros H. apply proj1 with (B := True). split; [|done].
    assert (m x (λ y, if same_place x y then None else repeat m fuel 0 (pred_most more) greedy y k) = Some z ∨ k x = Some z) as [Ha|Hk].
    { destruct greedy; apply or_else_eq in H; tauto. }
    + destruct (Hm _ _ _ Ha) as (y & Hy & Hrest). case_match; [done|].
      destruct (IH _ _ _ _ _ Hrest) as (y' & (n & Hn & Hs) & Hk). exists y'. split; [|done]. exists (S n).
      split; [by apply allows_pred|by econstructor].
    + exists x. split; [|done]. exists 0%nat. split; [done|constructor].
  - intros H. destruct (Hm _ _ _ H) as (y & Hy & Hrest).
    destruct (IH _ _ _ _ _ Hrest) as (y' & (n & Hn & Hs) & Hk). exists y'. split; [|done]. exists n. split; [done|].
    cbn. by econstructor.
Qed.
Lemma run_answers r : answers (run f r) (denotes r).
Proof.
  induction r as [|set|a IHa b IHb|a IHa b IHb|least more g a IHa|i a IHa| | | |wanted a IHa|set]; intros x k z; cbn [run denotes];
    try (intros [E Hk]%guard_at_eq; exists x; split; [split; [done|]|done]; by try destruct (head_in _ _ _)).
  - intros Hk. by exists x.
  - destruct (place x) as [pre [|c post]] eqn:Hp; cbn; [done|]. intros [E Hk]%guard_at_eq. eexists; split; [|exact Hk].
    cbn. by exists c.
  - intros (y & Hy & (y' & Hy' & Hk)%IHb)%IHa. exists y'. split; [by exists (place y)|done].
  - intros [(y & Hy & Hk)%IHa|(y & Hy & Hk)%IHb]%or_else_eq; exists y; auto.
  - by apply repeat_answers.
  - intros (y & Hy & Hk)%IHa. by eexists; split; [|exact Hk].
  - destruct (run f a x Some) as [y|] eqn:E, wanted; intros Hk; try done.
    + destruct (IHa _ _ _ E) as (y' & Hy & _). eexists; split; [|exact Hk]. by split; [|exists (place y')].
    + exists x. split; [|done]. split; [done|]. intros q Hq.
      destruct (run_exact a x Some (λ _, True)) as [_ Hex]; [by split|]. rewrite E in Hex. by destruct Hex as [? ?]; eauto.
Qed.

(** ** Searches *)

(* A match of r in a text: what is before it, the match, what is after it. *)
Definition matches_at (r : regex) (pre a w b : list Z) : Prop := denotes r (rev a ++ pre, w ++ b) (rev (a ++ w) ++ pre, b).
Lemma matches_at_cons r pre c a w b : matches_at r pre (c :: a) w b ↔ matches_at r (c :: pre) a w b.
Proof. unfold matches_at. cbn [app rev]. by rewrite <- !app_assoc. Qed.
Lemma denotes_here r pre post : (∃ y, denotes r (pre, post) y) ↔ ∃ w b, post = w ++ b ∧ matches_at r pre [] w b.
Proof.
  split.
  - intros ([p q] & H). destruct (denotes_reads _ _ _ H) as [w [E1 E2]]. cbn in E1, E2. subst. by exists w, q.
  - intros (w & b & -> & H). by exists (rev w ++ pre, b).
Qed.
Lemma run_some r x : is_Some (run f r x Some) ↔ ∃ y, denotes r (place x) y.
Proof. rewrite (run_exact r x Some (λ _, True)) by done. naive_solver. Qed.
Lemma run_none r pre post : run f r {| place := (pre, post); captures := [] |} Some = None ↔ ∀ w b, post = w ++ b → ¬ matches_at r pre [] w b.
Proof.
  rewrite eq_None_not_Some, run_some. cbn [place]. rewrite denotes_here. naive_solver.
Qed.
Lemma exec_from_none r pre post : exec_from f r pre post = None ↔ ∀ a w b, post = a ++ w ++ b → ¬ matches_at r pre a w b.
Proof.
  revert pre. induction post as [|c post IH]; intros pre; cbn [exec_from]; pose proof (run_none r pre) as Hr;
    [specialize (Hr [])|specialize (Hr (c :: post))];
    (destruct (run f r _ Some) as [y|] eqn:E; [split; [done|]; intros Hno; by destruct Hr as [_ Hr]; discriminate Hr; intros w b; apply (Hno [])|]).
  - split; [|done]. intros _ a w b Ew Hm. apply symmetry, app_eq_nil in Ew as [-> Ew]. by apply (proj1 Hr eq_refl w b).
  - destruct (exec_from f r (c :: pre) post) as [m|] eqn:Em; cbn.
    + split; [done|]. intros Hno. assert (exec_from f r (c :: pre) post = None) as En; [|congruence]. apply IH.
      intros a w b -> Hm. apply (Hno (c :: a) w b); [done|]. by apply matches_at_cons.
    + split; [|done]. intros _ [|d a] w b Ew Hm; [by apply (proj1 Hr eq_refl w b)|].
      cbn in Ew. simplify_eq. apply matches_at_cons in Hm. by apply (proj1 (IH _) Em a w b).
Qed.
Lemma exec_from_some r pre post m : exec_from f r pre post = Some m →
  post = skipped m ++ matched m ++ (after_match m).2 ∧ (after_match m).1 = rev (skipped m ++ matched m) ++ pre ∧
  matches_at r pre (skipped m) (matched m) (after_match m).2.
Proof.
  revert pre m. induction post as [|c post IH]; intros pre m; cbn [exec_from];
    (destruct (run f r _ Some) as [y|] eqn:E;
      [intros [= <-]; destruct (run_answers _ _ _ _ E) as (y' & Hy & [= ->]); cbn [place] in Hy;
       destruct (denotes_reads _ _ _ Hy) as [w Hw]; cbn [skipped matched after_match]; rewrite (between_reads _ _ _ Hw);
       destruct y as [[p q] caps]; cbn in *; destruct Hw as [E1 E2]; cbn in E1, E2; subst p; unfold matches_at; cbn; by rewrite <- ?E1|]).
  - done.
  - destruct (exec_from f r (c :: pre) post) as [m'|] eqn:Em; cbn; [|done]. intros [= <-]. cbn.
    destruct (IH _ _ Em) as (E1 & E2 & Hm). split_and!; [by rewrite <- E1| |by apply matches_at_cons].
    rewrite E2. by rewrite <- app_assoc.
Qed.
(* No match starts before the one found. *)
Lemma exec_from_leftmost r pre post m a w b :
  exec_from f r pre post = Some m → post = a ++ w ++ b → matches_at r pre a w b → (length (skipped m) ≤ length a)%nat.
Proof.
  revert pre post m. induction a as [|c a IH]; intros pre post m Em -> Hm; cbn [app exec_from] in Em.
  - destruct (proj2 (run_some r {| place := (pre, w ++ b); captures := [] |})) as [y Hy]; [apply denotes_here; by exists w, b|].
    assert (∀ m, exec_from f r pre (w ++ b) = Some m → skipped m = []) as Hs.
    { intros m' Hm'. destruct (w ++ b); cbn [exec_from] in Hm'; rewrite Hy in Hm'; by injection Hm' as <-. }
    by rewrite (Hs m Em).
  - cbn [exec_from] in Em. case_match; [injection Em as <-; cbn; lia|].
    destruct (exec_from f r (c :: pre) (a ++ w ++ b)) as [m'|] eqn:Em'; cbn in Em; [|done]. injection Em as <-. cbn.
    apply le_n_S, (IH _ _ _ Em'); [done|]. by apply matches_at_cons.
Qed.

(* r matches somewhere in s *)
Definition occurs (r : regex) (s : list Z) : Prop := ∃ a w b, s = a ++ w ++ b ∧ matches_at r [] a w b.

(** The test of a regular expression answers whether some part of the text is matched by
    it: the backtracking search neither misses a match nor invents one. *)
Theorem test_exact r s : test f r s = true ↔ occurs r s.
Proof.
  unfold test, exec, occurs. rewrite bool_decide_eq_true. split.
  - intros [m Hm]. destruct (exec_from_some _ _ _ _ Hm) as (E & _ & H). by exists (skipped m), (matched m), (after_match m).2.
  - intros (a & w & b & E & H). destruct (exec_from f r [] s) eqn:En; [by eexists|]. by destruct (proj1 (exec_from_none _ _ _) En a w b E).
Qed.
End denotes.

(** * Characters of a text *)

(* With the flag u a surrogate pair is one character. *)
Fixpoint code_points (s : jsstr) : list Z :=
  match s with
  | [] => []
  | c :: s' =>
      match s' with
      | d :: s'' =>
          if (is_high_surrogate c && is_low_surrogate d)%bool then (65536 + (c - 0xd800) * 1024 + (d - 0xdc00)) :: code_points s''
          else c :: code_points s'
      | [] => [c]
      end
  end.
Definition point_units (c : Z) : jsstr :=
  if c <? 65536 then [c] else [0xd800 + (c - 65536) / 1024; 0xdc00 + (c - 65536) mod 1024].
Definition to_units (l : list Z) : jsstr := List.flat_map point_units l.

Definition flags_none : flags := {| ignoreCase := false; multiline := false; unicode := false |}.
Definition flags_u : flags := {| ignoreCase := false; multiline := false; unicode := true |}.
Definition flags_iu : flags := {| ignoreCase := true; multiline := false; unicode := true |}.
Definition flags_mu : flags := {| ignoreCase := false; multiline := true; unicode := true |}.
Definition test_flags (f : flags) (r : regex) (s : jsstr) : bool := test f r (code_points s).
Definition test_u : regex → jsstr → bool := test_flags flags_u.
Definition replace_u (r : regex) (replacement : found → list Z) (s : jsstr) : jsstr := to_units (replace_all flags_u r replacement (code_points s)).
Definition split_u (r : regex) (s : jsstr) : list jsstr := List.map to_units (split_by flags_u r (code_points s)).

Lemma point_units_pair c d : is_high_surrogate c = true → is_low_surrogate d = true →
  point_units (65536 + (c - 0xd800) * 1024 + (d - 0xdc00)) = [c; d].
Proof.
  unfold is_high_surrogate, is_low_surrogate, point_units. intros Hc Hd.
  assert (0xd800 ≤ c ≤ 0xdbff ∧ 0xdc00 ≤ d ≤ 0xdfff) as [Bc Bd] by lia.
  destruct (Z.ltb_spec (65536 + (c - 0xd800) * 1024 + (d - 0xdc00)) 65536); [lia|].
  f_equal; [|f_equal]; Z.to_euclidean_division_equations; lia.
Qed.
Lemma code_points_pair c d s : code_points (c :: d :: s) =
  if (is_high_surrogate c && is_low_surrogate d)%bool then (65536 + (c - 0xd800) * 1024 + (d - 0xdc00)) :: code_points s
  else c :: code_points (d :: s).
Proof. reflexivity. Qed.
Lemma to_units_cons c l : to_units (c :: l) = point_units c ++ to_units l.
Proof. reflexivity. Qed.
Lemma point_units_one c : (c <? 65536) = true → point_units c = [c].
Proof. unfold point_units. by intros ->. Qed.
Lemma to_units_code_points s : forallb (λ c, c <? 65536) s = true → to_units (code_points s) = s.
Proof.
  revert s. apply (strings_by_pairs (λ s, forallb (λ c, c <? 65536) s = true → to_units (code_points s) = s)); [done| |].
  - intros c [H _]%andb_prop. change (code_points [c]) with [c]. by rewrite to_units_cons, point_units_one.
  - intros c d s IHs IHds [Hc H]%andb_prop. rewrite code_points_pair. destruct (is_high_surrogate c && is_low_surrogate d)%bool eqn:E.
    + apply andb_prop in E as [E1 E2]. apply andb_prop in H as [_ H]. by rewrite to_units_cons, point_units_pair, IHs.
    + by rewrite to_units_cons, point_units_one, IHds.
Qed.
(* A text without surrogates is its characters. *)
Lemma code_points_plain s : forallb (λ c, negb (is_high_surrogate c)) s = true → code_points s = s.
Proof.
  induction s as [|c s IH]; [done|]. cbn [forallb]. intros [Hc H]%andb_prop. apply negb_true_iff in Hc.
  destruct s as [|d s]; [done|]. rewrite code_points_pair, Hc. cbn [andb]. by rewrite IH.
Qed.
Lemma js_plain s : forallb (λ c, negb (is_high_surrogate c)) (js s) = true.
Proof.
  induction s as [|a s IH]; [done|]. cbn [js forallb]. rewrite IH, andb_true_r. destruct a as [[] [] [] [] [] [] [] []]; reflexivity.
Qed.
Lemma code_points_js s : code_points (js s) = js s.
Proof. apply code_points_plain, js_plain. Qed.

(** * Accepting a text from a position *)

Section accepts.
Variable f : flags.
Definition accepts (r : regex) (x : position) : Prop := ∃ y, denotes f r x y.
Fixpoint literal (p : list Z) (r : regex) : regex := match p with [] => r | c :: p' => seq (single c) (literal p' r) end.

Lemma denotes_seq a b x y : denotes f (seq a b) x y ↔ ∃ z, denotes f a x z ∧ denotes f b z y.
Proof.
  destruct b; try done. cbn [seq denotes]. split; [intros H; by exists y|]. by intros (z & H & ->).
Qed.
Lemma accepts_seq a b x : accepts (seq a b) x ↔ ∃ y, denotes f a x y ∧ accepts b y.
Proof.
  unfold accepts. split.
  - intros (y & (z & H1 & H2)%denotes_seq). eauto.
  - intros (z & H1 & y & H2). exists y. apply denotes_seq. eauto.
Qed.
Lemma reads_cons_inv pre c s y d : reads (pre, c :: s) y [d] ↔ d = c ∧ y = (c :: pre, s).
Proof. unfold reads. destruct y; cbn. split; [intros [[= -> ->] ->]; done|]. by intros [-> [= -> ->]]. Qed.
Lemma accepts_char set r pre s :
  accepts (seq (Char set) r) (pre, s) ↔ match s with c :: s' => in_set f set c = true ∧ accepts r (c :: pre, s') | [] => False end.
Proof.
  rewrite accepts_seq. destruct s as [|c s]; cbn [denotes].
  - split; [|done]. by intros (y & (c & _ & [E _]) & _).
  - setoid_rewrite reads_cons_inv. split.
    + by intros (y & (d & Hd & -> & ->) & H).
    + intros [Hc H]. exists (c :: pre, s). split; [|done]. by exists c.
Qed.
Lemma in_single c d : ignoreCase f = false → in_set f {| negated := false; ranges := [(c, c)] |} d = (c =? d).
Proof.
  intros E. unfold in_set, variants. rewrite E. cbn. rewrite !orb_false_r. destruct (Z.eqb_spec c d) as [->|N].
  - by rewrite Z.leb_refl.
  - apply andb_false_iff. rewrite !Z.leb_gt. lia.
Qed.
Lemma accepts_literal p r pre s : ignoreCase f = false →
  accepts (literal p r) (pre, s) ↔ ∃ s', s = p ++ s' ∧ accepts r (rev p ++ pre, s').
Proof.
  intros E. revert pre s. induction p as [|c p IH]; intros pre s; cbn [literal].
  - split; [intros H; by exists s|]. by intros (s' & -> & H).
  - unfold single. rewrite accepts_char. destruct s as [|d s].
    + split; [done|]. by intros (s' & ? & _).
    + rewrite in_single, Z.eqb_eq, IH by done. cbn [rev app]. split.
      * intros [-> (s' & -> & H)]. exists s'. split; [done|]. by rewrite <- app_assoc.
      * intros (s' & [= -> ->] & H). split; [done|]. exists s'. split; [done|]. by rewrite <- app_assoc in H.
Qed.
(* A run of characters of one set. *)
Lemma nsteps_chars set n pre s y :
  nsteps (denotes f (Char set)) n (pre, s) y ↔
  ∃ w s', s = w ++ s' ∧ length w = n ∧ forallb (in_set f set) w = true ∧ y = (rev w ++ pre, s').
Proof.
  revert pre s. induction n as [|n IH]; intros pre s.
  - split.
    + intros H. inversion H; subst. by exists [], s.
    + intros ([|] & s' & -> & ? & _ & ->); [constructor|done].
  - split.
    + intros H. inversion H as [|? ? z ? (c & Hc & E1 & E2) Hrest]; subst. destruct z as [p q]. cbn in E1, E2. subst.
      apply IH in Hrest as (w & s' & -> & <- & Hw & ->). exists (c :: w), s'. cbn. rewrite Hc, Hw, <- app_assoc. done.
    + intros ([|c w] & s' & -> & [= <-] & [Hc Hw]%andb_prop & ->); apply nsteps_l with (c :: pre, w ++ s').
      * by exists c.
      * apply IH. exists w, s'. cbn [rev]. by rewrite <- app_assoc.
Qed.
(* ... up to the end of the text. *)
Lemma accepts_run_to_end set least more g pre s : multiline f = false →
  accepts (seq (Repeat least more g (Char set)) LineEnd) (pre, s) ↔
  forallb (in_set f set) s = true ∧ (least ≤ length s)%nat ∧ allows more (length s - least).
Proof.
  intros Em. rewrite accepts_seq. cbn [denotes]. unfold accepts. cbn [denotes]. split.
  - intros (y & (n & Hn & (w & s' & -> & Hlen & Hw & ->)%nsteps_chars) & z & -> & He). unfold at_line_end in He. cbn in He.
    destruct s' as [|c s']; [|by rewrite Em in He]. rewrite app_nil_r. split; [done|]. rewrite Hlen. split; [lia|].
    by replace (least + n - least)%nat with n by lia.
  - intros (Hw & Hl & Hm). exists (rev s ++ pre, []). split; [|by eexists].
    exists (length s - least)%nat. split; [done|]. apply nsteps_chars. exists s, []. rewrite app_nil_r. split_and!; try done. lia.
Qed.
(* ... up to what follows the run. *)
Lemma accepts_run set g r pre s :
  accepts (seq (Repeat 1 None g (Char set)) r) (pre, s) ↔
  ∃ w s', s = w ++ s' ∧ w ≠ [] ∧ forallb (in_set f set) w = true ∧ accepts r (rev w ++ pre, s').
Proof.
  rewrite accepts_seq. cbn [denotes]. split.
  - intros (y & (n & _ & (w & s' & -> & Hlen & Hw & ->)%nsteps_chars) & H). exists w, s'. split_and!; try done. by destruct w.
  - intros (w & s' & -> & Hne & Hw & H). exists (rev w ++ pre, s'). split; [|done]. exists (length w - 1)%nat. split; [done|].
    apply nsteps_chars. exists w, s'. split_and!; try done. destruct w; [done|cbn; lia].
Qed.
Lemma accepts_empty x : accepts Empty x.
Proof. by exists x. Qed.
Lemma accepts_alt a b x : accepts (Alt a b) x ↔ accepts a x ∨ accepts b x.
Proof. unfold accepts. cbn. naive_solver. Qed.
Lemma test_accepts r s : test f r s = true ↔ ∃ a b, s = a ++ b ∧ accepts r (rev a, b).
Proof.
  rewrite test_exact. unfold occurs, matches_at. setoid_rewrite app_nil_r. split.
  - intros (a & w & b & -> & H). exists a, (w ++ b). split; [done|]. by eexists.
  - intros (a & b & -> & y & Hy). destruct (denotes_reads _ _ _ _ Hy) as [w [E1 E2]]. destruct y as [p q]. cbn in E1, E2. subst.
    exists a, w, q. split; [done|]. by rewrite rev_app_distr.
Qed.
(* An expression that begins with ^ is tried at the start only. *)
Lemma test_anchored r s : multiline f = false → test f (Seq LineStart r) s = true ↔ accepts r ([], s).
Proof.
  intros Em. rewrite test_exact. unfold occurs, matches_at. split.
  - intros (a & w & b & -> & z & [-> Hs] & H). unfold at_line_start in Hs. rewrite app_nil_r in Hs, H. cbn [fst] in Hs.
    destruct (rev a) as [|c l] eqn:Ea; [|by rewrite Em in Hs]. apply (f_equal (@rev Z)) in Ea. rewrite rev_involutive in Ea. subst a.
    by eexists.
  - intros (y & Hy). destruct (denotes_reads _ _ _ _ Hy) as [w [E1 E2]]. destruct y as [p q]. cbn in E1, E2. subst p.
    exists [], w, q. split; [done|]. cbn [rev app]. rewrite <- E1. by exists ([], s).
Qed.
End accepts.

(** * Escaped text *)

Definition special_characters : list Z := [46; 42; 43; 63; 94; 36; 123; 125; 40; 41; 124; 91; 93; 92].
Definition special (c : Z) : bool := bool_decide (c ∈ special_characters).
Definition escape_points (p : list Z) : list Z := List.flat_map (λ c, if special c then [92; c] else [c]) p.

Lemma parse_atom_plain n i c s : special c = false → parse_atom (S n) i (c :: s) = Some (single c, i, s).
Proof.
  intros Hc. destruct c as [|p|p]; [reflexivity| |reflexivity].
  do 7 (destruct p as [p|p|]; try reflexivity; try discriminate Hc).
Qed.
Lemma parse_atom_escaped n i c s : special c = true → parse_atom (S n) i (92 :: c :: s) = Some (single c, i, s).
Proof.
  unfold special. rewrite bool_decide_eq_true. unfold special_characters. rewrite !elem_of_cons.
  intros H. repeat (destruct H as [->|H]; [reflexivity|]). by apply elem_of_nil in H.
Qed.
Definition quantifier_start (s : jsstr) : bool := match s with (42 | 43 | 63 | 123) :: _ => true | _ => false end.
Lemma quantified_none a s : quantifier_start s = false → quantified a s = Some (a, s).
Proof.
  destruct s as [|c s]; [done|]. intros Hc. unfold quantified. assert (quantifier (c :: s) = Some (None, c :: s)) as ->; [|done].
  destruct c as [|p|p]; [reflexivity| |reflexivity]. do 7 (destruct p as [p|p|]; try reflexivity; try discriminate Hc).
Qed.
Lemma escape_starts p rest : quantifier_start rest = false → quantifier_start (escape_points p ++ rest) = false.
Proof.
  destruct p as [|c p]; [done|]. intros _. cbn. destruct (special c) eqn:Hc; [done|]. cbn.
  destruct c as [|q|q]; [reflexivity| |reflexivity]. do 7 (destruct q as [q|q|]; try reflexivity; try discriminate Hc).
Qed.
Lemma parse_terms_cons n i c s : special c = false ∨ c = 92 →
  parse_terms (S n) i (c :: s) =
  '(a, i', s') ← parse_atom n i (c :: s);
  '(a', s'') ← quantified a s';
  if (negb (Nat.eqb i i') && negb (Nat.eqb (length s') (length s'')))%bool then None
  else '(b, i'', rest) ← parse_terms n i' s''; Some (seq a' b, i'', rest).
Proof.
  intros [Hc| ->]; [|reflexivity].
  destruct c as [|p|p]; [reflexivity| |reflexivity]. do 7 (destruct p as [p|p|]; try reflexivity; try discriminate Hc).
Qed.
(* An escaped text is read as itself. *)
Lemma parse_terms_escaped p n i rest r j rest' : quantifier_start rest = false →
  parse_terms (S n) i rest = Some (r, j, rest') → parse_terms (length p + S n) i (escape_points p ++ rest) = Some (literal p r, j, rest').
Proof.
  intros Hq Hrest. induction p as [|c p IH]; [done|].
  change (escape_points (c :: p)) with ((if special c then [92; c] else [c]) ++ escape_points p). rewrite <- app_assoc. cbn [length Nat.add].
  assert (parse_atom (length p + S n) i ((if special c then [92; c] else [c]) ++ escape_points p ++ rest)
          = Some (single c, i, escape_points p ++ rest)) as Ha.
  { rewrite Nat.add_succ_r. destruct (special c) eqn:Hc; [by apply parse_atom_escaped|by apply parse_atom_plain]. }
  destruct (special c) eqn:Hc; cbn [app] in *; (rewrite parse_terms_cons by auto); rewrite Ha; cbn [mbind option_bind];
    rewrite quantified_none by (by apply escape_starts); cbn [mbind option_bind]; rewrite Nat.eqb_refl; cbn [andb negb];
    by rewrite IH.
Qed.

Lemma parse_escaped p : parse (escape_points p) = Some (literal p Empty).
Proof.
  unfold parse. assert (length p ≤ length (escape_points p))%nat as Hlen.
  { induction p as [|c p IH]; [done|]. cbn. destruct (special c); cbn; unfold escape_points in IH; lia. }
  replace (2 * length (escape_points p) + 16)%nat
    with (S (length p + S (2 * length (escape_points p) + 14 - length p)))%nat by lia.
  cbn [parse_alternatives]. rewrite <- (app_nil_r (escape_points p)) at 2.
  by rewrite (parse_terms_escaped p _ 1 [] Empty 1 []).
Qed.

(** ** Replacing single characters *)

Section replace_chars.
Context (f : flags) (set : charset).
Lemma exec_from_char s pre :
  (forallb (λ c, negb (in_set f set c)) s = true ∧ exec_from f (Char set) pre s = None) ∨
  ∃ a c b, s = a ++ c :: b ∧ forallb (λ c, negb (in_set f set c)) a = true ∧ in_set f set c = true ∧
    exec_from f (Char set) pre s = Some {| skipped := a; matched := [c]; after_match := (c :: rev a ++ pre, b); groups := [] |}.
Proof.
  revert pre. induction s as [|c s IH]; intros pre; [by left|]. cbn [exec_from run place snd fst forallb]. unfold guard_at.
  destruct (in_set f set c) eqn:Hc.
  - right. exists [], c, s. split_and!; try done. cbn. unfold between. cbn. by replace (S (length s) - length s)%nat with 1%nat by lia.
  - cbn [negb andb]. destruct (IH (c :: pre)) as [[Ha ->]|(a & d & b & -> & Ha & Hd & ->)]; [by left|].
    right. exists (c :: a), d, b. cbn [forallb]. rewrite Hc, Ha. split_and!; try done. cbn. by rewrite <- app_assoc.
Qed.
Lemma flat_map_skip {A} (p : A → bool) (g : A → list A) a :
  forallb (λ c, negb (p c)) a = true → List.flat_map (λ c, if p c then g c else [c]) a = a.
Proof.
  induction a as [|c a IH]; [done|]. cbn. intros [Hc Ha]%andb_prop. apply negb_true_iff in Hc. by rewrite Hc, IH.
Qed.
Lemma replace_from_chars replacement g : (∀ m c, matched m = [c] → replacement m = g c) → ∀ fuel s pre, (length s < fuel)%nat →
  replace_from f fuel (Char set) replacement (pre, s) = List.flat_map (λ c, if in_set f set c then g c else [c]) s.
Proof.
  intros Hg fuel. induction fuel as [|fuel IH]; intros s pre Hfuel; [lia|]. cbn [replace_from fst snd].
  destruct (exec_from_char s pre) as [[Ha ->]|(a & c & b & -> & Ha & Hc & ->)]; [by rewrite flat_map_skip|].
  cbn [skipped next_start matched after_match]. rewrite (Hg _ c) by done. cbn [app].
  rewrite flat_map_app, (flat_map_skip _ _ a) by done. cbn [List.flat_map]. rewrite Hc, IH; [done|].
  rewrite length_app in Hfuel. cbn in Hfuel. lia.
Qed.
Lemma replace_chars replacement g s : (∀ m c, matched m = [c] → replacement m = g c) →
  replace_all f (Char set) replacement s = List.flat_map (λ c, if in_set f set c then g c else [c]) s.
Proof. intros Hg. apply replace_from_chars; [done|lia]. Qed.
End replace_chars.
End Regexp.
