(* ===== verification/CanonicalJson.v ===== *)
(** The identities of protocol artifacts: what the canonical text of a value
    determines, its UTF-8 bytes, its SHA-256 identity, the identity with
    excluded fields, and the canonical rows of the evidence store. *)
From S2P Require Import Prelude Patterns Bytes CanonicalRows Json JsonText.

Local Open Scope Z_scope.

(** * The order of keys *)

Lemma units_ltb_trans a b c : units_ltb a b = true → units_ltb b c = true → units_ltb a c = true.
Proof.
  revert b c; induction a as [|x a IH]; intros [|y b] [|z c]; try done. simpl.
  rewrite !orb_true_iff, !andb_true_iff, !Z.ltb_lt, !Z.eqb_eq.
  intros [?|[??]] [?|[??]]; [left; lia..|]. right; split; [lia|eauto].
Qed.
Lemma units_ltb_irrefl a : units_ltb a a = false.
Proof. induction a as [|x a IH]; [done|]. simpl. by rewrite IH, Z.ltb_irrefl, andb_false_r. Qed.
Lemma units_ltb_total a b : units_ltb a b = true ∨ a = b ∨ units_ltb b a = true.
Proof.
  revert b; induction a as [|x a IH]; intros [|y b]; simpl; auto.
  destruct (Z.ltb_spec x y); [by left|]. destruct (Z.ltb_spec y x); [by right; right|].
  assert (x = y) as -> by lia. rewrite Z.eqb_refl. simpl.
  destruct (IH b) as [?|[->|?]]; auto.
Qed.
Lemma units_ltb_asym a b : units_ltb a b = true → units_ltb b a = false.
Proof.
  intros H. apply not_true_iff_false. intros H'. pose proof (units_ltb_trans _ _ _ H H') as T.
  by rewrite units_ltb_irrefl in T.
Qed.
Lemma units_cmp_le a b : units_cmp a b ≤ 0 ↔ units_ltb b a = false.
Proof.
  unfold units_cmp. destruct (units_ltb a b) eqn:E0; [rewrite (units_ltb_asym a b E0); split; [done|lia]|].
  destruct (units_ltb b a); split; (done || lia).
Qed.
Lemma units_cmp_total a b : units_cmp a b ≤ 0 ∨ units_cmp b a ≤ 0.
Proof.
  rewrite !units_cmp_le. destruct (units_ltb b a) eqn:E0; [|by left]. right. by apply units_ltb_asym.
Qed.
Lemma units_cmp_trans a b c : units_cmp a b ≤ 0 → units_cmp b c ≤ 0 → units_cmp a c ≤ 0.
Proof.
  rewrite !units_cmp_le. intros Hba Hcb. apply not_true_iff_false. intros Hca.
  destruct (units_ltb_total a b) as [Hab|[->|Hab]]; [|congruence|congruence].
  pose proof (units_ltb_trans _ _ _ Hca Hab). congruence.
Qed.
Lemma units_cmp_antisym a b : units_cmp a b ≤ 0 → units_cmp b a ≤ 0 → a = b.
Proof. rewrite !units_cmp_le. intros. destruct (units_ltb_total a b) as [?|[?|?]]; congruence. Qed.

Section sort_fields.
Context {V : Type}.
Implicit Types fs : list (jsstr * V).
Definition fields_sorted fs : Prop := StronglySorted (cmp_le (λ a b : jsstr * V, units_cmp a.1 b.1)) fs.
Lemma sort_fields_sorted fs : fields_sorted (sort_fields fs).
Proof.
  apply sortBy_sorted; [intros; apply units_cmp_total|]. intros a b c. apply units_cmp_trans.
Qed.
Lemma sort_fields_idemp fs : sort_fields (sort_fields fs) = sort_fields fs.
Proof. apply sortBy_id, sort_fields_sorted. Qed.
Lemma sort_fields_Permutation fs fs' :
  NoDup fs.*1 → fs ≡ₚ fs' → sort_fields fs = sort_fields fs'.
Proof.
  intros Hnd Hp. eapply StronglySorted_unique_strong; [|apply sort_fields_sorted..|by rewrite !sort_fields_perm].
  intros [k v] [k' v'] Hx Hy Hle Hge. rewrite sort_fields_perm in Hx, Hy. rewrite <- Hp in Hy.
  assert (k = k') as -> by (by apply units_cmp_antisym). f_equal.
  apply (JsMap.elem_of_get k' v fs Hnd) in Hx. apply (JsMap.elem_of_get k' v' fs Hnd) in Hy. congruence.
Qed.
End sort_fields.

(** * The canonical text determines the data *)

Lemma encode_all_map {A B} (f : Z → B → throws (jsstr * Z)) (g : A → B) nodes l :
  encode_all f nodes (List.map g l) = encode_all (λ n x, f n (g x)) nodes l.
Proof.
  revert nodes; induction l as [|x l IH]; intros nodes; [done|]. simpl.
  destruct (f nodes (g x)) as [p|]; [|done]. simpl. by rewrite IH.
Qed.
Lemma encode_all_ext {A} (f g : Z → A → throws (jsstr * Z)) nodes l :
  (∀ n x, f n x = g n x) → encode_all f nodes l = encode_all g nodes l.
Proof.
  intros Hfg. revert nodes; induction l as [|x l IH]; intros nodes; [done|]. simpl. rewrite Hfg.
  destruct (g nodes x) as [p|]; [|done]. simpl. by rewrite IH.
Qed.

(** The encoder gives a value and its normal form the same text and node count. *)
Lemma encode_norm room nodes v : encode room nodes (norm v) = encode room nodes v.
Proof.
  revert nodes v; induction room as [|room IH]; intros nodes v; [done|]. cbn [encode].
  destruct (MAX_NODES <? nodes + 1); [done|]. destruct v as [|b|t|n| | |l|fs]; try done; cbn [norm].
  - rewrite encode_all_map. erewrite encode_all_ext; [done|]. intros; apply IH.
  - rewrite sort_fields_idemp, sort_fields_map, encode_all_map.
    erewrite encode_all_ext; [done|]. intros n kv. cbn [fst snd].
    destruct (encode room n (JString kv.1)) as [k|]; [|done]. simpl. by rewrite IH.
Qed.
Lemma canonicalize_norm v : canonicalizeProtocolJson (norm v) = canonicalizeProtocolJson v.
Proof. unfold canonicalizeProtocolJson. by rewrite encode_norm. Qed.

Lemma parse_canonical v s :
  wf_json v = true → canonicalizeProtocolJson v = Ret s → JSON_parse s = Ret (norm v).
Proof.
  intros Hwf. unfold canonicalizeProtocolJson. destruct (encode (S MAX_DEPTH) 0 v) as [[t n]|] eqn:He; [|done].
  intros [= <-]. unfold JSON_parse. cbn [fst].
  pose proof (parse_encode _ _ _ _ _ (S (length t)) [] Hwf He) as Hp. rewrite app_nil_r in Hp.
  by rewrite Hp by (done || lia).
Qed.

Lemma canonical_inj v1 v2 s :
  wf_json v1 = true → wf_json v2 = true →
  canonicalizeProtocolJson v1 = Ret s → canonicalizeProtocolJson v2 = Ret s → norm v1 = norm v2.
Proof. intros W1 W2 H1%parse_canonical H2%parse_canonical; [congruence|done..]. Qed.

(* The same data up to the order in which object keys were written. *)
Definition same_data (v w : json) : Prop := norm v = norm w.
#[export] Instance same_data_equivalence : Equivalence same_data.
Proof. split; [done|by intros v w|intros u v w E1 E2; unfold same_data in *; congruence]. Qed.
#[export] Instance canonicalize_proper : Proper (same_data ==> eq) canonicalizeProtocolJson.
Proof. intros v w E0. by rewrite <- canonicalize_norm, E0, canonicalize_norm. Qed.

(** C3. Two values have the same canonical text exactly when they are the same data
    up to the order in which object keys were written; and that text is read back
    as the value in key order. *)
Theorem canonical_text_identifies v1 v2 s :
  wf_json v1 = true → wf_json v2 = true → canonicalizeProtocolJson v1 = Ret s →
  (canonicalizeProtocolJson v2 = Ret s ↔ same_data v1 v2) ∧
  JSON_parse s = Ret (norm v1) ∧ canonicalizeProtocolJson (norm v1) = Ret s.
Proof.
  intros W1 W2 H1. split_and!.
  - split; [by apply canonical_inj|]. intros E0. by rewrite <- E0.
  - by apply parse_canonical.
  - by rewrite canonicalize_norm.
Qed.

Lemma encode_sort_eq room nodes fs fs' :
  sort_fields fs = sort_fields fs' → encode room nodes (JObject fs) = encode room nodes (JObject fs').
Proof. destruct room as [|room]; [done|]. intros E0. cbn [encode]. by rewrite E0. Qed.

(** Writing the keys of an object in another order does not change its canonical text. *)
Theorem canonical_ignores_key_order fs fs' :
  wf_json (JObject fs) = true → fs ≡ₚ fs' →
  canonicalizeProtocolJson (JObject fs) = canonicalizeProtocolJson (JObject fs').
Proof.
  simpl. intros [Hnd%bool_decide_eq_true _]%andb_prop Hp. unfold canonicalizeProtocolJson.
  f_equal. by apply encode_sort_eq, sort_fields_Permutation.
Qed.

(** * UTF-8 *)

(* The UTF-8 bytes of a string; a surrogate outside a pair becomes U+FFFD. *)
Definition unit_bytes (c : Z) : bytes :=
  if c <? 128 then [c]
  else if c <? 2048 then [192 + c / 64; 128 + c mod 64]
  else [224 + c / 4096; 128 + c / 64 mod 64; 128 + c mod 64].
Definition pair_bytes (c d : Z) : bytes :=
  let p := 65536 + (c - 0xd800) * 1024 + (d - 0xdc00) in
  [240 + p / 262144; 128 + p / 4096 mod 64; 128 + p / 64 mod 64; 128 + p mod 64].
Definition replacement_bytes : bytes := [239; 191; 189].
Fixpoint utf8 (s : jsstr) : bytes :=
  match s with
  | [] => []
  | c :: s' =>
      if is_high_surrogate c then
        match s' with
        | d :: s'' => if is_low_surrogate d then pair_bytes c d ++ utf8 s'' else replacement_bytes ++ utf8 s'
        | [] => replacement_bytes
        end
      else if is_low_surrogate c then replacement_bytes ++ utf8 s'
      else unit_bytes c ++ utf8 s'
  end.

Fixpoint utf8_units (b : bytes) : jsstr :=
  match b with
  | [] => []
  | x :: b1 =>
      if x <? 128 then x :: utf8_units b1
      else match b1 with
      | [] => []
      | y :: b2 =>
          if x <? 224 then (x - 192) * 64 + (y - 128) :: utf8_units b2
          else match b2 with
          | [] => []
          | z :: b3 =>
              if x <? 240 then (x - 224) * 4096 + (y - 128) * 64 + (z - 128) :: utf8_units b3
              else match b3 with
              | [] => []
              | w :: b4 =>
                  let p := (x - 240) * 262144 + (y - 128) * 4096 + (z - 128) * 64 + (w - 128) - 65536 in
                  0xd800 + p / 1024 :: 0xdc00 + p mod 1024 :: utf8_units b4
              end
          end
      end
  end.

Definition text_ok (s : jsstr) : bool := (units_ok s && negb (hasUnpairedSurrogate s))%bool.

Lemma text_ok_cons_pair c d s :
  is_high_surrogate c = true → is_low_surrogate d = true → text_ok (c :: d :: s) = true → text_ok s = true.
Proof.
  intros Hc Hd. unfold text_ok. simpl. rewrite Hc, Hd, !andb_true_iff. tauto.
Qed.
Lemma text_ok_cons_unit c s :
  is_high_surrogate c = false → text_ok (c :: s) = true →
  0 ≤ c < 65536 ∧ is_low_surrogate c = false ∧ text_ok s = true.
Proof.
  intros Hc. unfold text_ok. simpl. rewrite Hc. intros [[Hr Hs]%andb_prop Hp%negb_true_iff]%andb_prop.
  apply orb_false_iff in Hp as [-> ->]. rewrite Hs. split; [units_lia|done].
Qed.
Lemma text_ok_cons_high c s :
  is_high_surrogate c = true → text_ok (c :: s) = true → ∃ d s', s = d :: s' ∧ is_low_surrogate d = true.
Proof.
  intros Hc. unfold text_ok. simpl. rewrite Hc. intros [_ Hp%negb_true_iff]%andb_prop.
  destruct s as [|d s]; [done|]. exists d, s. by destruct (is_low_surrogate d).
Qed.

Lemma utf8_units_unit c rest :
  0 ≤ c < 65536 → utf8_units (unit_bytes c ++ rest) = c :: utf8_units rest.
Proof.
  intros Hc. unfold unit_bytes. destruct (Z.ltb_spec c 128) as [H1|H1].
  { simpl. by rewrite (proj2 (Z.ltb_lt c 128)). }
  destruct (Z.ltb_spec c 2048) as [H2|H2]; cbn [app utf8_units].
  - rewrite (proj2 (Z.ltb_ge _ 128)), (proj2 (Z.ltb_lt _ 224)) by (Z.to_euclidean_division_equations; lia).
    f_equal. Z.to_euclidean_division_equations; lia.
  - rewrite (proj2 (Z.ltb_ge _ 128)), (proj2 (Z.ltb_ge _ 224)), (proj2 (Z.ltb_lt _ 240))
      by (Z.to_euclidean_division_equations; lia).
    f_equal. Z.to_euclidean_division_equations; lia.
Qed.
Lemma base64_digits p : 0 ≤ p →
  p / 262144 * 262144 + p / 4096 mod 64 * 4096 + p / 64 mod 64 * 64 + p mod 64 = p.
Proof. intros. Z.to_euclidean_division_equations; lia. Qed.
Lemma utf8_units_pair c d rest :
  is_high_surrogate c = true → is_low_surrogate d = true →
  utf8_units (pair_bytes c d ++ rest) = c :: d :: utf8_units rest.
Proof.
  intros Hc Hd. unfold pair_bytes. assert (0xd800 ≤ c ≤ 0xdbff) as Rc by units_lia.
  assert (0xdc00 ≤ d ≤ 0xdfff) as Rd by units_lia.
  remember (65536 + (c - 55296) * 1024 + (d - 56320)) as p eqn:Ep.
  assert (65536 ≤ p < 1114112) as Rp by lia. pose proof (base64_digits p ltac:(lia)) as Hp.
  cbn [app utf8_units].
  rewrite (proj2 (Z.ltb_ge _ 128)), (proj2 (Z.ltb_ge _ 224)), (proj2 (Z.ltb_ge _ 240))
    by (Z.to_euclidean_division_equations; lia).
  replace ((240 + p / 262144 - 240) * 262144 + (128 + p / 4096 mod 64 - 128) * 4096
    + (128 + p / 64 mod 64 - 128) * 64 + (128 + p mod 64 - 128) - 65536) with (p - 65536) by lia.
  f_equal; [|f_equal]; Z.to_euclidean_division_equations; lia.
Qed.

Lemma utf8_units_utf8 s : text_ok s = true → utf8_units (utf8 s) = s.
Proof.
  revert s. apply (strings_by_pairs (λ s, text_ok s = true → utf8_units (utf8 s) = s)).
  - done.
  - intros c Hok. cbn [utf8]. destruct (is_high_surrogate c) eqn:Hc.
    { by destruct (text_ok_cons_high c [] Hc Hok) as (? & ? & ? & _). }
    destruct (text_ok_cons_unit c [] Hc Hok) as (Hr & -> & _). by rewrite utf8_units_unit.
  - intros c d s IHs IHds Hok. remember (d :: s) as t eqn:Et. cbn [utf8].
    destruct (is_high_surrogate c) eqn:Hc.
    + destruct (text_ok_cons_high c t Hc Hok) as (d' & s' & E0 & Hd). rewrite Et in E0 |- *.
      injection E0 as <- <-. rewrite Hd, utf8_units_pair by done. rewrite IHs; [done|].
      subst t. by eapply text_ok_cons_pair.
    + destruct (text_ok_cons_unit c t Hc Hok) as (Hr & -> & Ht). by rewrite utf8_units_unit, IHds.
Qed.
Lemma utf8_inj s t : text_ok s = true → text_ok t = true → utf8 s = utf8 t → s = t.
Proof. intros Hs Ht E0. by rewrite <- (utf8_units_utf8 s), <- (utf8_units_utf8 t), E0. Qed.

(** * The canonical text is a text: its surrogates are paired *)

Lemma text_ok_pair c d s :
  is_high_surrogate c = true → is_low_surrogate d = true → text_ok (c :: d :: s) = text_ok s.
Proof.
  intros Hc Hd. unfold text_ok. simpl. rewrite Hc, Hd.
  assert ((0 <=? c) = true ∧ (c <? 65536) = true ∧ (0 <=? d) = true ∧ (d <? 65536) = true) as (-> & -> & -> & ->);
    [|done]. units_lia.
Qed.
Lemma text_ok_unit c s :
  0 ≤ c < 65536 → is_high_surrogate c = false → is_low_surrogate c = false → text_ok (c :: s) = text_ok s.
Proof.
  intros Hr Hc Hl. unfold text_ok. simpl. rewrite Hc, Hl.
  by rewrite (proj2 (Z.leb_le 0 c)), (proj2 (Z.ltb_lt c 65536)) by lia.
Qed.
Lemma text_ok_app a b : text_ok a = true → text_ok b = true → text_ok (a ++ b) = true.
Proof.
  intros Ha Hb. revert a Ha. apply (strings_by_pairs (λ a, text_ok a = true → text_ok (a ++ b) = true)).
  - done.
  - intros c Hc. destruct (is_high_surrogate c) eqn:Eh.
    { by destruct (text_ok_cons_high c [] Eh Hc) as (? & ? & ? & _). }
    destruct (text_ok_cons_unit c [] Eh Hc) as (Hr & El & _). simpl. by rewrite text_ok_unit.
  - intros c d a IHa IHda Hok. destruct (is_high_surrogate c) eqn:Eh.
    + destruct (text_ok_cons_high c (d :: a) Eh Hok) as (d' & s' & [= <- <-] & El).
      simpl. rewrite text_ok_pair in Hok |- * by done. by apply IHa.
    + destruct (text_ok_cons_unit c (d :: a) Eh Hok) as (Hr & El & Hda).
      simpl. rewrite text_ok_unit by done. by apply IHda.
Qed.
Lemma text_ok_low s : forallb (λ c, (0 <=? c) && (c <? 0xd800))%bool s = true → text_ok s = true.
Proof.
  induction s as [|c s IH]; [done|]. simpl. intros [Hc Hs]%andb_prop.
  assert (0 ≤ c < 0xd800) as Hr by units_lia.
  rewrite text_ok_unit; [by apply IH|lia|unfold is_high_surrogate|unfold is_low_surrogate];
    rewrite (proj2 (Z.leb_gt _ c)) by lia; done.
Qed.
Lemma text_ok_js s : text_ok (js s) = true.
Proof.
  apply text_ok_low. induction s as [|c s IH]; [done|]. simpl. rewrite IH, andb_true_r.
  pose proof (N_ascii_bounded c). apply andb_true_iff. rewrite Z.leb_le, Z.ltb_lt. lia.
Qed.
Lemma text_ok_escape_unit c :
  0 ≤ c < 65536 → is_high_surrogate c = false → is_low_surrogate c = false → text_ok (escape_unit c) = true.
Proof.
  intros Hr Hh Hl. unfold escape_unit.
  repeat match goal with |- context [if ?c =? ?n then _ else _] => destruct (Z.eqb_spec c n); [done|] end.
  destruct (Z.ltb_spec c 32).
  - apply (forall_range (λ c, text_ok (unicode_escape c)) 0 32); [by vm_compute|lia].
  - by rewrite text_ok_unit.
Qed.
Lemma text_ok_escape s : text_ok s = true → text_ok (escape s) = true.
Proof.
  revert s. apply (strings_by_pairs (λ s, text_ok s = true → text_ok (escape s) = true)).
  - done.
  - intros c Hok. destruct (is_high_surrogate c) eqn:Hc.
    { by destruct (text_ok_cons_high c [] Hc Hok) as (? & ? & ? & _). }
    destruct (text_ok_cons_unit c [] Hc Hok) as (Hr & Hl & _). cbn [escape]. rewrite Hc, Hl, app_nil_r.
    by apply text_ok_escape_unit.
  - intros c d s IHs IHds Hok. remember (d :: s) as t eqn:Et. cbn [escape].
    destruct (is_high_surrogate c) eqn:Hc.
    + destruct (text_ok_cons_high c t Hc Hok) as (d' & s' & E0 & Hd). rewrite Et in E0 |- *.
      injection E0 as <- <-. rewrite Hd. subst t. pose proof (text_ok_cons_pair _ _ _ Hc Hd Hok) as Hs.
      rewrite text_ok_pair by done. by apply IHs.
    + destruct (text_ok_cons_unit c t Hc Hok) as (Hr & Hl & Ht). rewrite Hl.
      apply text_ok_app; [by apply text_ok_escape_unit|by apply IHds].
Qed.
Lemma text_ok_quote s : text_ok s = true → text_ok (quote s) = true.
Proof.
  intros Hs. unfold quote. apply (text_ok_app [34]); [done|]. by apply text_ok_app; [apply text_ok_escape|].
Qed.
Lemma text_ok_join ss : Forall (λ s, text_ok s = true) ss → text_ok (join_comma ss) = true.
Proof.
  induction 1 as [|s ss Hs Hss IH]; [done|]. simpl. destruct ss; [done|].
  apply text_ok_app; [done|]. by apply (text_ok_app [44]).
Qed.

Lemma Forall2_elem_r {A B} (P : A → B → Prop) l k y : Forall2 P l k → y ∈ k → ∃ x, x ∈ l ∧ P x y.
Proof.
  induction 1 as [|x y' l k Hxy _ IH]; [by intros ?%not_elem_of_nil|]. intros [->|Hy]%elem_of_cons.
  - exists x. split; [apply list_elem_of_here|done].
  - destruct (IH Hy) as (x' & Hx' & HP). exists x'. split; [by apply list_elem_of_further|done].
Qed.
Lemma encode_text_ok room : ∀ nodes v s nodes',
  wf_json v = true → encode room nodes v = Ret (s, nodes') → text_ok s = true.
Proof.
  induction room as [|room IH]; [done|]. intros nodes v s nodes' Hwf Henc.
  cbn [encode] in Henc. destruct (MAX_NODES <? nodes + 1); [done|].
  destruct v as [|b|t|n| | |l|fs]; try done.
  - by injection Henc as <- _.
  - by destruct b; injection Henc as <- _.
  - destruct (hasUnpairedSurrogate t) eqn:Hp; [done|]. injection Henc as <- _. apply text_ok_quote.
    unfold text_ok. rewrite Hp. simpl in Hwf. by rewrite Hwf.
  - destruct (MAX_SAFE_INTEGER <? Z.abs n); [done|]. injection Henc as <- _. unfold number_text.
    destruct (n <? 0); [apply (text_ok_app [45]); [done|]|]; apply text_ok_js.
  - destruct (encode_all _ _ _) as [[ss n1]|] eqn:Hall; [|done]. injection Henc as <- _.
    apply (text_ok_app [91]); [done|]. apply text_ok_app; [|done]. apply text_ok_join.
    apply encode_all_Forall2 in Hall. cbn [wf_json] in Hwf. rewrite forallb_elem in Hwf.
    rewrite Forall_forall. intros s Hs. destruct (Forall2_elem_r _ _ _ _ Hall Hs) as (x & Hx & n2 & n3 & Hs').
    eapply IH; [by apply Hwf|exact Hs'].
  - destruct (encode_all _ _ _) as [[ss n1]|] eqn:Hall; [|done]. injection Henc as <- _.
    apply (text_ok_app [123]); [done|]. apply text_ok_app; [|done]. apply text_ok_join.
    apply encode_all_Forall2 in Hall. cbn [wf_json] in Hwf. apply andb_prop in Hwf as [_ Hwf].
    rewrite forallb_elem in Hwf. rewrite Forall_forall. intros s Hs.
    destruct (Forall2_elem_r _ _ _ _ Hall Hs) as (x & Hx & n2 & n3 & Hs').
    rewrite sort_fields_perm in Hx. specialize (Hwf x Hx). apply andb_prop in Hwf as [Hk Hv].
    change (encode_member room n2 x = Ret (s, n3)) in Hs'.
    apply encode_member_Ret in Hs' as (vs & n4 & n5 & -> & Hp & Hvs).
    apply text_ok_app; [apply text_ok_quote; unfold text_ok; by rewrite Hk, Hp|].
    apply (text_ok_app [58]); [done|]. by eapply IH.
Qed.
Lemma canonical_text_ok v s :
  wf_json v = true → canonicalizeProtocolJson v = Ret s → text_ok s = true.
Proof.
  intros Hwf. unfold canonicalizeProtocolJson. destruct (encode (S MAX_DEPTH) 0 v) as [[t n]|] eqn:He; [|done].
  intros [= <-]. by eapply encode_text_ok.
Qed.

(** Flat objects of scalars within the node limit have a canonical text. *)
Definition scalar_ok (v : json) : bool :=
  match v with
  | JNull | JBool _ => true
  | JString s => negb (hasUnpairedSurrogate s)
  | JNumber n => Z.abs n <=? MAX_SAFE_INTEGER
  | _ => false
  end.
Lemma encode_scalar room n v : scalar_ok v = true → n < MAX_NODES → ∃ s, encode (S room) n v = Ret (s, n + 1).
Proof.
  intros Hv Hn. cbn [encode]. rewrite (proj2 (Z.ltb_ge _ _)) by lia.
  destruct v as [|b|s|m| | | |]; try done; [by eexists|by destruct b; eexists|..]; simpl in Hv.
  - apply negb_true_iff in Hv. rewrite Hv. by eexists.
  - rewrite (proj2 (Z.ltb_ge _ _)) by (by apply Z.leb_le). by eexists.
Qed.
Lemma encode_flat_members room n fs :
  Forall (λ kv : jsstr * json, hasUnpairedSurrogate kv.1 = false ∧ scalar_ok kv.2 = true) fs →
  n + 2 * Z.of_nat (length fs) ≤ MAX_NODES → ∃ ss m, encode_all (encode_member (S room)) n fs = Ret (ss, m).
Proof.
  intros Hfs. revert n; induction Hfs as [|[k v] fs [Hk Hv] _ IH]; intros n Hn; [by eexists _, _|].
  cbn [length] in Hn.
  destruct (encode_scalar room n (JString k)) as [ks Hks]; [simpl in *; by rewrite Hk|lia|].
  destruct (encode_scalar room (n + 1) v) as [vs Hvs]; [done|lia|].
  assert (encode_member (S room) n (k, v) = Ret (ks ++ 58 :: vs, n + 1 + 1)) as Hm.
  { unfold encode_member. cbn [fst snd]. rewrite Hks. cbn [mbind throws_bind fst snd]. by rewrite Hvs. }
  destruct (IH (n + 1 + 1)) as (ss & m & Hrest); [lia|]. cbn [encode_all]. rewrite Hm. cbn [mbind throws_bind fst snd].
  rewrite Hrest. by eexists _, _.
Qed.
Lemma canonicalize_flat fs :
  Forall (λ kv : jsstr * json, hasUnpairedSurrogate kv.1 = false ∧ scalar_ok kv.2 = true) fs →
  1 + 2 * Z.of_nat (length fs) ≤ MAX_NODES → ∃ s, canonicalizeProtocolJson (JObject fs) = Ret s.
Proof.
  intros Hfs Hn. unfold canonicalizeProtocolJson.
  assert (∀ room n, encode (S room) n (JObject fs) =
    if MAX_NODES <? n + 1 then Throw "RFC 8785 input exceeds the supported JSON shape limits."
    else p ← encode_all (encode_member room) (n + 1) (sort_fields fs); Ret (123 :: join_comma p.1 ++ [125], p.2)) as Hobj by done.
  change MAX_DEPTH with (S 63). rewrite Hobj. rewrite (proj2 (Z.ltb_ge _ _)) by lia.
  destruct (encode_flat_members 63 (0 + 1) (sort_fields fs)) as (ss & m & ->).
  - by rewrite sort_fields_perm.
  - rewrite sort_fields_perm. lia.
  - by eexists.
Qed.
Lemma js_paired s : hasUnpairedSurrogate (js s) = false.
Proof. pose proof (text_ok_js s) as Ht. unfold text_ok in Ht. by apply andb_prop in Ht as [_ ?%negb_true_iff]. Qed.
Lemma js_units_ok s : units_ok (js s) = true.
Proof. pose proof (text_ok_js s) as Ht. unfold text_ok in Ht. by apply andb_prop in Ht as [? _]. Qed.

(** * SHA-256 identities *)

Section identity.
Context `{Sha256}.

Definition sha256ProtocolText (value : jsstr) : string := ("sha256:" +:+ sha256_hex (utf8 value))%string.
Definition computeCanonicalSha256Id (value : json) : throws string :=
  s ← canonicalizeProtocolJson value; Ret (sha256ProtocolText s).

(* The object [identityInput] while its fields are assigned one by one. Assigning
   __proto__ replaces the prototype by an object and ignores a primitive value. *)
Record identityInput := { own_fields : list (jsstr * json); exotic_prototype : bool }.
Definition assign (o : identityInput) (kv : jsstr * json) : identityInput :=
  if kv.1 === js "__proto__" then
    match kv.2 with
    | JObject _ | JArray _ => {| own_fields := own_fields o; exotic_prototype := true |}
    | JNull => {| own_fields := own_fields o; exotic_prototype := false |}
    | _ => o
    end
  else {| own_fields := JsMap.set kv.1 kv.2 (own_fields o); exotic_prototype := exotic_prototype o |}.
Definition kept_fields (excludedFields : list jsstr) (fs : list (jsstr * json)) : list (jsstr * json) :=
  List.filter (λ kv : jsstr * json, negb (bool_decide (kv.1 ∈ excludedFields))) fs.

Definition recomputeExcludedFieldsIdentity (value : json) (excludedFields : list jsstr)
    (namespace : option string) : throws (option string) :=
  match value with
  | JObject fs =>
      if (bool_decide (excludedFields = []) ||
          negb (forallb (λ field, JsMap.has field fs || (field === js "exported_at")) excludedFields))%bool
      then Ret None
      else
        let input := fold_left assign (kept_fields excludedFields fs)
          {| own_fields := []; exotic_prototype := false |} in
        if exotic_prototype input then Throw "RFC 8785 input must use ordinary arrays and plain objects."
        else
          digest ← computeCanonicalSha256Id (JObject (own_fields input));
          Ret (Some (match namespace with
                     | None => digest
                     | Some ns => (ns +:+ ":" +:+ str_drop 7 digest)%string
                     end))
  | _ => Ret None
  end.
Definition recomputeExcludedFieldIdentity (value : json) (excludedField : jsstr) (namespace : option string) :=
  recomputeExcludedFieldsIdentity value [excludedField] namespace.

Lemma computeCanonical_inj v1 v2 s1 s2 :
  wf_json v1 = true → wf_json v2 = true →
  canonicalizeProtocolJson v1 = Ret s1 → canonicalizeProtocolJson v2 = Ret s2 →
  collision_free [utf8 s1; utf8 s2] →
  sha256_hex (utf8 s1) = sha256_hex (utf8 s2) → norm v1 = norm v2.
Proof.
  intros W1 W2 H1 H2 Hcf Hd%sha256_hex_inj. eapply canonical_inj; [done..|exact H1|].
  apply Hcf in Hd; [|rewrite !elem_of_cons; auto..].
  apply utf8_inj in Hd; [congruence|exact (canonical_text_ok v1 s1 W1 H1)|exact (canonical_text_ok v2 s2 W2 H2)].
Qed.

Definition no_proto (fs : list (jsstr * json)) : Prop := js "__proto__" ∉ fs.*1.

Lemma fold_assign fs acc :
  no_proto fs → NoDup (acc ++ fs).*1 →
  fold_left assign fs {| own_fields := acc; exotic_prototype := false |} =
    {| own_fields := acc ++ fs; exotic_prototype := false |}.
Proof.
  revert acc; induction fs as [|[k v] fs IH]; intros acc Hp Hnd; [by rewrite app_nil_r|].
  unfold no_proto in *. simpl in Hp. apply not_elem_of_cons in Hp as [Hk Hp]. simpl.
  unfold assign at 2. cbn [fst snd own_fields exotic_prototype]. rewrite bool_decide_false by done.
  rewrite JsMap.set_fresh.
  - rewrite IH; [by rewrite <- app_assoc|done|by rewrite <- app_assoc].
  - rewrite JsMap.get_None. unfold JsMap.keys. intros Hin. rewrite fmap_app in Hnd.
    apply NoDup_app in Hnd as (_ & Hd & _). apply (Hd k Hin). apply list_elem_of_here.
Qed.

Lemma kept_sub ex fs k : k ∈ (kept_fields ex fs).*1 → k ∈ fs.*1.
Proof.
  rewrite !list_elem_of_fmap. intros (kv & -> & Hin). exists kv. split; [done|].
  apply list_elem_of_In in Hin. apply filter_In in Hin as [Hin _]. by apply list_elem_of_In.
Qed.
Lemma kept_NoDup ex fs : NoDup fs.*1 → NoDup (kept_fields ex fs).*1.
Proof.
  induction fs as [|kv fs IH]; [done|]. simpl. rewrite NoDup_cons. intros [Hk Hnd].
  destruct (negb _); [|by apply IH]. simpl. rewrite NoDup_cons. split; [|by apply IH]. by intros ?%kept_sub.
Qed.
Lemma kept_wf ex fs : wf_json (JObject fs) = true → wf_json (JObject (kept_fields ex fs)) = true.
Proof.
  cbn [wf_json]. rewrite !andb_true_iff, !bool_decide_eq_true, !forallb_elem. intros [Hnd Hall].
  split; [by apply kept_NoDup|]. intros kv Hin. apply Hall. apply list_elem_of_In in Hin.
  apply filter_In in Hin as [Hin _]. by apply list_elem_of_In.
Qed.

Definition excluded_present (ex : list jsstr) (fs : list (jsstr * json)) : bool :=
  (negb (bool_decide (ex = [])) && forallb (λ field, JsMap.has field fs || (field === js "exported_at")) ex)%bool.

Definition identity_of (ns : option string) (s : jsstr) : string :=
  match ns with None => sha256ProtocolText s | Some ns => (ns +:+ ":" +:+ sha256_hex (utf8 s))%string end.
Lemma recompute_kept ex ns fs s :
  wf_json (JObject fs) = true → no_proto fs → excluded_present ex fs = true →
  canonicalizeProtocolJson (JObject (kept_fields ex fs)) = Ret s →
  recomputeExcludedFieldsIdentity (JObject fs) ex ns = Ret (Some (identity_of ns s)).
Proof.
  intros Hwf Hp Hex Hs. unfold recomputeExcludedFieldsIdentity. unfold excluded_present in Hex.
  apply andb_prop in Hex as [Hne%negb_true_iff Hall]. rewrite Hne, Hall. cbn [orb negb].
  rewrite (fold_assign (kept_fields ex fs) []).
  - simpl. unfold computeCanonicalSha256Id. rewrite Hs. simpl. by destruct ns.
  - intros Hin%kept_sub. by apply Hp.
  - apply kept_NoDup. simpl in Hwf. by apply andb_prop in Hwf as [?%bool_decide_eq_true _].
Qed.
Lemma identity_of_inj ns s1 s2 :
  identity_of ns s1 = identity_of ns s2 → sha256_hex (utf8 s1) = sha256_hex (utf8 s2).
Proof.
  unfold identity_of, sha256ProtocolText. destruct ns as [ns|]; intros E0.
  - apply (f_equal (strip ns)) in E0. rewrite !strip_app in E0. by injection E0.
  - apply (f_equal (strip "sha256:")) in E0. rewrite !strip_app in E0. congruence.
Qed.

(** An identity with excluded fields binds exactly the other fields: two records
    with all excluded fields present have the same recomputed identity if and only
    if they agree, up to key order, once those fields are removed. *)
Theorem excluded_identity_binds_the_rest ex ns fs1 fs2 s1 s2 :
  wf_json (JObject fs1) = true → wf_json (JObject fs2) = true → no_proto fs1 → no_proto fs2 →
  excluded_present ex fs1 = true → excluded_present ex fs2 = true →
  canonicalizeProtocolJson (JObject (kept_fields ex fs1)) = Ret s1 →
  canonicalizeProtocolJson (JObject (kept_fields ex fs2)) = Ret s2 →
  collision_free [utf8 s1; utf8 s2] →
  (recomputeExcludedFieldsIdentity (JObject fs1) ex ns = recomputeExcludedFieldsIdentity (JObject fs2) ex ns ↔
   norm (JObject (kept_fields ex fs1)) = norm (JObject (kept_fields ex fs2))).
Proof.
  intros W1 W2 P1 P2 X1 X2 H1 H2 Hcf.
  rewrite (recompute_kept ex ns fs1 s1), (recompute_kept ex ns fs2 s2) by done. split.
  - intros [= E0%identity_of_inj]. eapply computeCanonical_inj; eauto using kept_wf.
  - intros E0. assert (Ret s1 = Ret s2) as [= ->]; [|done].
    rewrite <- H1, <- H2, <- canonicalize_norm, E0. apply canonicalize_norm.
Qed.

(** An own field named __proto__ with a primitive value takes no part in the
    identity: two records that differ in it alone have the same identity. *)
Theorem identity_ignores_proto_field ex ns fs a b :
  js "__proto__" ∉ ex →
  recomputeExcludedFieldsIdentity (JObject (fs ++ [(js "__proto__", JNumber a)])) ex ns =
  recomputeExcludedFieldsIdentity (JObject (fs ++ [(js "__proto__", JNumber b)])) ex ns.
Proof.
  intros Hex. unfold recomputeExcludedFieldsIdentity.
  assert (∀ field n m, JsMap.has field (fs ++ [(js "__proto__", JNumber n)]) =
    JsMap.has field (fs ++ [(js "__proto__", JNumber m)])) as Hhas.
  { intros field n m. unfold JsMap.has. apply bool_decide_ext.
    induction fs as [|[k v] fs' IH]; simpl; case_decide; try done; by split; eexists. }
  erewrite forallb_pointwise; [|intros field; by rewrite (Hhas field a b)].
  assert (∀ n, fold_left assign (kept_fields ex (fs ++ [(js "__proto__", JNumber n)])) {| own_fields := []; exotic_prototype := false |}
    = fold_left assign (kept_fields ex fs) {| own_fields := []; exotic_prototype := false |}) as Hfold.
  { intros n. unfold kept_fields. rewrite List.filter_app, fold_left_app. simpl.
    rewrite bool_decide_false by done. done. }
  by rewrite !Hfold.
Qed.

(** * Canonical rows (canonical-row.ts) *)

Definition json_to_row (artifact : json) : throws CanonicalRow :=
  body ← canonicalizeProtocolJson artifact;
  digest ← computeCanonicalSha256Id artifact;
  Ret {| row_body := body; row_digest := digest |}.
Definition json_from_row (body : jsstr) : throws json := JSON_parse body.
Definition canonicalRowDigestMatches (row : CanonicalRow) : bool :=
  match (v ← json_from_row (row_body row); json_to_row v) with
  | Ret row' => row_digest row' === row_digest row
  | Throw _ => false
  end.

Lemma json_to_row_Ret v row :
  json_to_row v = Ret row ↔
  canonicalizeProtocolJson v = Ret (row_body row) ∧ row_digest row = sha256ProtocolText (row_body row).
Proof.
  unfold json_to_row, computeCanonicalSha256Id. destruct (canonicalizeProtocolJson v) as [s|]; simpl.
  - destruct row as [b d]. split; [by intros [= <- <-]|]. simpl. by intros [[= ->] ->].
  - split; [done|]. by intros [? _].
Qed.

(** A stored row passes the digest check, and a row whose body was replaced by the
    text of other data under the same digest fails it. *)
Theorem row_digest_detects_tampering v row body' v' s' :
  wf_json v = true → json_to_row v = Ret row →
  JSON_parse body' = Ret v' → wf_json v' = true → norm v' ≠ norm v →
  canonicalizeProtocolJson v' = Ret s' → collision_free [utf8 (row_body row); utf8 s'] →
  canonicalRowDigestMatches row = true ∧
  canonicalRowDigestMatches {| row_body := body'; row_digest := row_digest row |} = false.
Proof.
  intros Hwf [Hc Hd]%json_to_row_Ret Hp Hwf' Hne Hc' Hcf. unfold canonicalRowDigestMatches, json_from_row. split.
  - rewrite (parse_canonical v) by done. simpl. unfold json_to_row, computeCanonicalSha256Id.
    rewrite canonicalize_norm, Hc. simpl. rewrite Hd. by apply bool_decide_eq_true.
  - simpl. rewrite Hp. simpl. unfold json_to_row, computeCanonicalSha256Id. rewrite Hc'. simpl.
    apply bool_decide_eq_false. rewrite Hd. intros E0. apply Hne. symmetry.
    eapply computeCanonical_inj; [done..|exact Hc'|done|].
    symmetry. by apply (identity_of_inj None).
Qed.

(* The artifacts a row gives back: well-formed values, keys in code-unit order. *)
Definition is_canonical (v : json) : Prop := wf_json v = true ∧ norm v = v.
#[export] Instance is_canonical_dec v : Decision (is_canonical v).
Proof. unfold is_canonical. apply _. Defined.
Definition artifact := dsig is_canonical.

#[export] Instance json_rows : CanonicalRows artifact.
Proof.
  refine {| toCanonicalRow e := json_to_row (`e);
            fromCanonicalRow b := v ← json_from_row b;
              match decide (is_canonical v) with
              | left Hv => Ret (dexist v Hv)
              | right _ => Throw "not an artifact"
              end |}.
  - intros e row [Hc Hd]%json_to_row_Ret. destruct (proj2_dsig e) as [Hwf Hn].
    unfold json_from_row. rewrite (parse_canonical (`e)) by done. rewrite Hn. simpl.
    destruct (decide _) as [Hv|[]]; [|done]. f_equal. by apply dsig_eq.
  - intros e1 e2 r1 r2 [_ H1]%json_to_row_Ret [_ H2]%json_to_row_Ret Hb. congruence.
Defined.
End identity.

(** * Sample values *)

Module JsonSamples.
Definition fields_ab := [(js "b", JNumber 2); (js "a", JArray [JNull; JBool true; JString [233; 55357; 56832; 10]])].
Definition v_ab := JObject fields_ab.
Definition v_ba := JObject (rev fields_ab).
Definition text_ab : jsstr := js "{" ++ quote (js "a") ++ js ":[null,true," ++
  [34; 233; 55357; 56832; 92; 110; 34] ++ js "]," ++ quote (js "b") ++ js ":2}".

Example text_of_ab : canonicalizeProtocolJson v_ab = Ret text_ab.
Proof. by vm_compute. Qed.

Lemma canonical_text_identifies_witness :
  canonicalizeProtocolJson v_ba = Ret text_ab ∧ JSON_parse text_ab = Ret (norm v_ab).
Proof.
  destruct (canonical_text_identifies v_ab v_ba text_ab) as (Hiff & Hparse & _);
    [reflexivity|reflexivity|by vm_compute|].
  split; [apply Hiff; reflexivity|exact Hparse].
Defined.
Lemma canonical_ignores_key_order_witness :
  canonicalizeProtocolJson v_ab = canonicalizeProtocolJson v_ba.
Proof. apply (canonical_ignores_key_order fields_ab); [reflexivity|apply Permutation_swap]. Defined.

Import SampleHash.
Definition fields_1 := [(js "event_id", JString (js "x")); (js "n", JNumber 1)].
Definition fields_2 := [(js "n", JNumber 1); (js "event_id", JString (js "y"))].
Definition text_n := js "{" ++ quote (js "n") ++ js ":1}".
Lemma excluded_identity_binds_the_rest_witness :
  recomputeExcludedFieldsIdentity (JObject fields_1) [js "event_id"] None =
  recomputeExcludedFieldsIdentity (JObject fields_2) [js "event_id"] None.
Proof.
  eapply (excluded_identity_binds_the_rest [js "event_id"] None fields_1 fields_2 text_n text_n);
    [reflexivity|reflexivity| | |reflexivity|reflexivity|reflexivity|reflexivity| |reflexivity].
  - unfold no_proto. apply (bool_decide_unpack (js "__proto__" ∉ fields_1.*1)). by vm_compute.
  - unfold no_proto. apply (bool_decide_unpack (js "__proto__" ∉ fields_2.*1)). by vm_compute.
  - intros a b. rewrite !elem_of_cons, !elem_of_nil. intuition congruence.
Defined.
Lemma identity_ignores_proto_field_witness :
  recomputeExcludedFieldsIdentity (JObject (fields_1 ++ [(js "__proto__", JNumber 1)])) [js "event_id"] None =
  recomputeExcludedFieldsIdentity (JObject (fields_1 ++ [(js "__proto__", JNumber 2)])) [js "event_id"] None.
Proof.
  apply (identity_ignores_proto_field [js "event_id"] None fields_1 1 2).
  apply (bool_decide_unpack (js "__proto__" ∉ [js "event_id"])). by vm_compute.
Defined.

Definition row_n : CanonicalRow := {| row_body := text_n; row_digest := sha256ProtocolText text_n |}.
Lemma row_digest_detects_tampering_witness :
  canonicalRowDigestMatches {| row_body := js "[ 7 ]"; row_digest := row_digest row_n |} = false.
Proof.
  apply (row_digest_detects_tampering (JObject [(js "n", JNumber 1)]) row_n (js "[ 7 ]") (JArray [JNumber 7]) (js "[7]"));
    try reflexivity; [discriminate|].
  intros a b Ha Hb E0. apply (bool_decide_unpack (a = b)).
  revert a Ha b Hb E0.
  assert (sha256 (utf8 text_n) ≠ sha256 (utf8 (js "[7]"))) as Hne by (vm_compute; discriminate).
  intros a Ha b Hb E0. rewrite !elem_of_cons, !elem_of_nil in Ha, Hb.
  apply bool_decide_pack. destruct Ha as [->|[->|[]]], Hb as [->|[->|[]]]; simpl in *; congruence.
Defined.
End JsonSamples.
