(* ===== verification/JsonSnapshot.v ===== *)
(** The bounded deep copy every UI and static-bundle boundary takes of caller data
    (packages/protocol-ts/src/json-snapshot.ts). The reflection failures of proxies
    and accessors have no counterpart in [json], whose objects hold data. *)
From S2P Require Import Prelude Patterns Json.

Local Open Scope Z_scope.

Record JsonSnapshotLimits := {
  maxNodes : Z; maxDepth : nat; maxStringLength : Z; maxArrayLength : Z; maxObjectKeys : Z
}.
Definition DEFAULT_LIMITS : JsonSnapshotLimits := {|
  maxNodes := 20000; maxDepth := 64; maxStringLength := 1000000; maxArrayLength := 100000; maxObjectKeys := 10000
|}.

Definition DEFAULT_PAYLOAD_KEYS : list jsstr := List.map js [
  "payload"; "content"; "body"; "body_bytes"; "raw_text"; "raw_source"; "source_text"; "snippet"; "stdout";
  "stderr"; "script_output"; "base64"; "source_code"; "evidence_content"; "evidence_bytes"].

(* String.prototype.toLowerCase, up to letters outside ASCII: none of them lowers to
   a letter of a payload key. *)
Definition toLowerCase (s : jsstr) : jsstr :=
  List.map (λ c, if ((65 <=? c) && (c <=? 90))%bool then c + 32 else c) s.

(* What [visit] reads and writes: the node counter and the payload flag. *)
Record visit_state := { nodes : Z; payloadFieldPresent : bool }.

Definition text_length (s : jsstr) : Z := Z.of_nat (length s).

Section visit.
Variable limits : JsonSnapshotLimits.
Variable payloadKeys : list jsstr.

Definition is_payload_key (key : jsstr) : bool := bool_decide (toLowerCase key ∈ payloadKeys).
Definition flag_key (key : jsstr) (st : visit_state) : visit_state :=
  {| nodes := nodes st; payloadFieldPresent := payloadFieldPresent st || is_payload_key key |}.

(* The calls of [visit] on elements or fields in order; the first failure is returned. *)
Fixpoint visit_all {A B} (f : A → visit_state → throws (B * visit_state)) (l : list A) (st : visit_state)
    : throws (list B * visit_state) :=
  match l with
  | [] => Ret ([], st)
  | x :: l' =>
      p ← f x st;
      q ← visit_all f l' p.2;
      Ret (p.1 :: q.1, q.2)
  end.

(* [room] is maxDepth + 1 - depth. *)
Fixpoint visit (room : nat) (current : json) (st : visit_state) : throws (json * visit_state) :=
  let st := {| nodes := nodes st + 1; payloadFieldPresent := payloadFieldPresent st |} in
  if maxNodes limits <? nodes st then Throw "too_many_nodes"
  else match room with
  | O => Throw "too_deep"
  | S room' =>
    match current with
    | JNull | JBool _ => Ret (current, st)
    | JString s => if maxStringLength limits <? text_length s then Throw "string_too_long" else Ret (current, st)
    | JNumber n => if MAX_SAFE_INTEGER <? Z.abs n then Throw "unsafe_number" else Ret (current, st)
    | JNonFinite => Throw "unsafe_number"
    | JForeign => Throw "unsupported_type"
    | JArray l =>
        if maxArrayLength limits <? Z.of_nat (length l) then Throw "array_too_long"
        else p ← visit_all (visit room') l st; Ret (JArray p.1, p.2)
    | JObject fs =>
        if maxObjectKeys limits <? Z.of_nat (length fs) then Throw "too_many_keys"
        else
          p ← visit_all (λ (kv : jsstr * json) st,
                r ← visit room' kv.2 (flag_key kv.1 st); Ret ((kv.1, r.1), r.2)) fs st;
          Ret (JObject p.1, p.2)
    end
  end.

Definition snapshotJsonData (value : json) : throws (json * bool) :=
  p ← visit (S (maxDepth limits)) value {| nodes := 0; payloadFieldPresent := false |};
  Ret (p.1, payloadFieldPresent p.2).

(** * What the copy is *)

(* The values of the tree, the payload keys anywhere in it, and its bounds. *)
Fixpoint size (v : json) : Z :=
  1 + match v with
      | JArray l => fold_right (λ x n, size x + n) 0 l
      | JObject fs => fold_right (λ kv n, size kv.2 + n) 0 fs
      | _ => 0
      end.
Fixpoint has_payload_key (v : json) : bool :=
  match v with
  | JArray l => existsb has_payload_key l
  | JObject fs => existsb (λ kv, is_payload_key kv.1 || has_payload_key kv.2) fs
  | _ => false
  end.
Fixpoint fits (room : nat) (v : json) : bool :=
  match room with
  | O => false
  | S room' =>
    match v with
    | JNull | JBool _ => true
    | JString s => text_length s <=? maxStringLength limits
    | JNumber n => Z.abs n <=? MAX_SAFE_INTEGER
    | JNonFinite | JForeign => false
    | JArray l => (Z.of_nat (length l) <=? maxArrayLength limits) && forallb (fits room') l
    | JObject fs => (Z.of_nat (length fs) <=? maxObjectKeys limits) && forallb (λ kv, fits room' kv.2) fs
    end
  end.

Lemma size_pos v : 1 ≤ size v.
Proof.
  induction v as [|b|s|n| | |l IH|fs IH] using json_nested_ind; simpl; try lia.
  - induction IH; simpl; lia.
  - induction IH; simpl; lia.
Qed.

Definition after (st : visit_state) (n : Z) (flag : bool) : visit_state :=
  {| nodes := nodes st + n; payloadFieldPresent := payloadFieldPresent st || flag |}.
(* [f] copies [x], of [n] values, when it fits the limits, and fails otherwise. *)
Definition copies {A} (f : A → visit_state → throws (A * visit_state)) (ok : bool) (n : Z) (flag : bool) (x : A) : Prop :=
  ∀ st, nodes st ≤ maxNodes limits →
        if (ok && (nodes st + n <=? maxNodes limits))%bool then f x st = Ret (x, after st n flag)
        else ∃ e, f x st = Throw e.

Lemma after_after st n flag m flag' : after (after st n flag) m flag' = after st (n + m) (flag || flag').
Proof. unfold after. simpl. by rewrite orb_assoc, Z.add_assoc. Qed.

Lemma sum_nonneg {A} (n : A → Z) l : (∀ x, x ∈ l → 0 ≤ n x) → 0 ≤ fold_right (λ x m, n x + m) 0 l.
Proof.
  induction l as [|x l IH]; intros Hn; simpl; [lia|].
  assert (0 ≤ n x) by apply Hn, list_elem_of_here.
  assert (0 ≤ fold_right (λ x m, n x + m) 0 l); [|lia]. apply IH. intros. by apply Hn, list_elem_of_further.
Qed.
Lemma visit_all_copies {A} (f : A → visit_state → throws (A * visit_state)) (ok : A → bool) (n : A → Z) (flag : A → bool) l :
  (∀ x, x ∈ l → copies f (ok x) (n x) (flag x) x ∧ 0 ≤ n x) →
  copies (visit_all f) (forallb ok l) (fold_right (λ x m, n x + m) 0 l) (existsb flag l) l.
Proof.
  induction l as [|x l IH]; intros Hf st Hst; simpl.
  { rewrite (proj2 (Z.leb_le _ _)) by lia. unfold after. by rewrite Z.add_0_r, orb_false_r; destruct st. }
  destruct (Hf x) as [Hx Hn]; [apply list_elem_of_here|]. specialize (Hx st Hst).
  assert (∀ y, y ∈ l → copies f (ok y) (n y) (flag y) y ∧ 0 ≤ n y) as Hl by (intros; by apply Hf, list_elem_of_further).
  assert (0 ≤ fold_right (λ x m, n x + m) 0 l) as Hsum.
  { apply sum_nonneg. intros y Hy. by apply Hl. }
  destruct (ok x) eqn:Hok; simpl in Hx |- *.
  - destruct (Z.leb_spec (nodes st + n x) (maxNodes limits)) as [Hle|Hgt].
    + rewrite Hx. simpl. specialize (IH Hl (after st (n x) (flag x)) Hle). simpl in IH.
      rewrite <- Z.add_assoc in IH. destruct (forallb ok l && _)%bool; [|by destruct IH as [e ->]; eauto].
      rewrite IH. simpl. by rewrite after_after.
    + rewrite (proj2 (Z.leb_gt _ _)), andb_false_r by lia. destruct Hx as [e ->]. eauto.
  - destruct Hx as [e ->]. eauto.
Qed.

Lemma visit_copies room v : copies (visit room) (fits room v) (size v) (has_payload_key v) v.
Proof.
  revert v. induction room as [|room IH]; intros v st Hst; cbn [fits andb].
  { cbn [visit]. destruct (_ <? _); eauto. }
  pose proof (size_pos v) as Hsize. cbn [visit nodes payloadFieldPresent].
  destruct (Z.ltb_spec (maxNodes limits) (nodes st + 1)) as [Hm|Hm].
  { rewrite (proj2 (Z.leb_gt _ _)), andb_false_r by lia. eauto. }
  assert (∀ b : bool, (b && (nodes st + 1 <=? maxNodes limits))%bool = b) as Hone
    by (intros; rewrite (proj2 (Z.leb_le _ _)), andb_true_r by lia; done).
  assert ({| nodes := nodes st + 1; payloadFieldPresent := payloadFieldPresent st |} = after st 1 false) as Hst1
    by (unfold after; by rewrite orb_false_r).
  destruct v as [|b|s|n| | |l|fs]; cbn [size has_payload_key]; rewrite ?Z.add_0_r, ?Hone.
  - by rewrite Hst1.
  - by rewrite Hst1.
  - destruct (Z.leb_spec (text_length s) (maxStringLength limits)); destruct (Z.ltb_spec (maxStringLength limits) (text_length s)); try lia; [by rewrite Hst1|eauto].
  - destruct (Z.leb_spec (Z.abs n) MAX_SAFE_INTEGER); destruct (Z.ltb_spec MAX_SAFE_INTEGER (Z.abs n)); try lia; [by rewrite Hst1|eauto].
  - eauto.
  - eauto.
  - destruct (Z.leb_spec (Z.of_nat (length l)) (maxArrayLength limits)); destruct (Z.ltb_spec (maxArrayLength limits) (Z.of_nat (length l))); try lia; cbn [andb]; [|eauto].
    pose proof (visit_all_copies (visit room) (fits room) size has_payload_key l) as Hall.
    ospecialize (Hall _); [intros x _; split; [apply IH|pose proof (size_pos x); lia]|].
    specialize (Hall (after st 1 false) Hm). rewrite Hst1. simpl nodes in Hall. rewrite <- Z.add_assoc in Hall.
    destruct (forallb (fits room) l && _)%bool; [rewrite Hall; simpl; by rewrite after_after|].
    destruct Hall as [e ->]. by exists e.
  - destruct (Z.leb_spec (Z.of_nat (length fs)) (maxObjectKeys limits)); destruct (Z.ltb_spec (maxObjectKeys limits) (Z.of_nat (length fs))); try lia; cbn [andb]; [|eauto].
    pose proof (visit_all_copies (λ (kv : jsstr * json) st,
                r ← visit room kv.2 (flag_key kv.1 st); Ret ((kv.1, r.1), r.2)) (λ kv, fits room kv.2) (λ kv, size kv.2)
                (λ kv, is_payload_key kv.1 || has_payload_key kv.2)%bool fs) as Hall.
    ospecialize (Hall _).
    { intros [k x] _. split; [|pose proof (size_pos x); simpl; lia]. intros st' Hst'. cbn [fst snd].
      pose proof (IH x (flag_key k st') Hst') as Hx. cbn [flag_key nodes] in Hx.
      destruct (fits room x && _)%bool; [|by destruct Hx as [e ->]; exists e].
      rewrite Hx. simpl. do 2 f_equal. unfold after, flag_key. simpl. by rewrite orb_assoc. }
    specialize (Hall (after st 1 false) Hm). rewrite Hst1. simpl nodes in Hall. rewrite <- Z.add_assoc in Hall.
    destruct (forallb _ fs && _)%bool; [rewrite Hall; simpl; by rewrite after_after|].
    destruct Hall as [e ->]. by exists e.
Qed.

(** A snapshot is taken exactly of the values within the limits; it is then an
    equal value, and the flag says whether a payload key occurs anywhere in it. *)
Theorem snapshot_exact value :
  1 ≤ maxNodes limits →
  if (fits (S (maxDepth limits)) value && (size value <=? maxNodes limits))%bool
  then snapshotJsonData value = Ret (value, has_payload_key value)
  else ∃ reason, snapshotJsonData value = Throw reason.
Proof.
  intros Hm. unfold snapshotJsonData.
  pose proof (visit_copies (S (maxDepth limits)) value {| nodes := 0; payloadFieldPresent := false |}) as Hv.
  ospecialize (Hv _); [simpl; lia|]. cbn [nodes] in Hv. rewrite Z.add_0_l in Hv.
  destruct (fits _ value && _)%bool; [by rewrite Hv|]. destruct Hv as [e ->]. by exists e.
Qed.
End visit.

Module SnapshotSamples.
Definition sample := JObject [(js "a", JArray [JNumber 1; JObject [(js "Raw_Text", JString (js "x"))]])].
Lemma snapshot_exact_witness : snapshotJsonData DEFAULT_LIMITS DEFAULT_PAYLOAD_KEYS sample = Ret (sample, true).
Proof. apply (snapshot_exact DEFAULT_LIMITS DEFAULT_PAYLOAD_KEYS sample). discriminate. Defined.
End SnapshotSamples.
