(* ===== verification/ProtocolTypes.v ===== *)
(** The protocol records the stores handle, with the fields of their generated
    TypeScript types (packages/protocol-ts/src/generated/protocol-v0.ts). *)
From S2P Require Import Prelude.

Local Open Scope string_scope.

Inductive ActorType := local_runner | customer_user | vendor_service | reviewer.
Record ActorReference := { actor_type : ActorType; actor_id : string }.

Inductive RetentionSourceDerivedClass :=
  | never_collected
  | transient_source_derived
  | retained_review_artifact
  | customer_opt_in_retained_source.

Inductive DeletionMethod := crypto_erase | secure_delete | key_destruction | expiry_purge.
Inductive VerificationStatus := verified | unverified.

Record DeletionEvidence := {
  deletion_evidence_id : string;
  deleted_artifact_digests : list string;
  deletion_method : DeletionMethod;
  deletion_timestamp : string;
  deletion_actor : ActorReference;
  verification_status : VerificationStatus;
  supersedes_deletion_evidence_ref : option string
}.

Inductive ObjectKind :=
  | evidence_artifact | queue_payload | worker_scratch | generated_export
  | support_attachment | log_or_trace | analytics_record | crash_report.
Inductive EnvironmentProfile := synthetic_demo | partner_pilot_candidate | partner_pilot_real_snippet_ready.
Record StoredObjectClassification := {
  stored_object_ref : string;
  object_kind : ObjectKind;
  source_derived_class : RetentionSourceDerivedClass;
  environment_profile : EnvironmentProfile;
  artifact_ref : option string
}.

Record RetentionOptInRecord := {
  retention_record_id : string;
  retention_source_derived_class : RetentionSourceDerivedClass;
  customer_approval_ref : string;
  start_timestamp : string;
  end_timestamp : string;
  retained_artifact_refs : list string;
  retention_status_event_ids : list string
}.

#[export] Instance ActorType_eq_dec : EqDecision ActorType.
Proof. solve_decision. Defined.
#[export] Instance ActorReference_eq_dec : EqDecision ActorReference.
Proof. solve_decision. Defined.
#[export] Instance RetentionSourceDerivedClass_eq_dec : EqDecision RetentionSourceDerivedClass.
Proof. solve_decision. Defined.
#[export] Instance DeletionMethod_eq_dec : EqDecision DeletionMethod.
Proof. solve_decision. Defined.
#[export] Instance VerificationStatus_eq_dec : EqDecision VerificationStatus.
Proof. solve_decision. Defined.
#[export] Instance DeletionEvidence_eq_dec : EqDecision DeletionEvidence.
Proof. solve_decision. Defined.
#[export] Instance ObjectKind_eq_dec : EqDecision ObjectKind.
Proof. solve_decision. Defined.
#[export] Instance EnvironmentProfile_eq_dec : EqDecision EnvironmentProfile.
Proof. solve_decision. Defined.
#[export] Instance StoredObjectClassification_eq_dec : EqDecision StoredObjectClassification.
Proof. solve_decision. Defined.
#[export] Instance RetentionOptInRecord_eq_dec : EqDecision RetentionOptInRecord.
Proof. solve_decision. Defined.
