(* ===== verification/Envelope.v ===== *)
(** Envelope encryption of source-derived bytes at rest
    (packages/evidence-store/src/envelope-encryption.ts). AES-256-GCM is a
    parameter: opening what was sealed gives the plaintext back. *)
From S2P Require Import Prelude Patterns Bytes CanonicalRows Json JsonText CanonicalJson ProtocolTypes.

Local Open Scope nat_scope.

(* node:crypto's createCipheriv / createDecipheriv("aes-256-gcm"). *)
Class Aes256Gcm := {
  gcm_seal : bytes → bytes → bytes → bytes * bytes;
  gcm_open : bytes → bytes → bytes → bytes → option bytes;
  gcm_open_seal key nonce plaintext :
    gcm_open key nonce (gcm_seal key nonce plaintext).1 (gcm_seal key nonce plaintext).2 = Some plaintext;
  gcm_tag_length key nonce plaintext : length (gcm_seal key nonce plaintext).2 = 16
}.

Record EnvelopeKey := { keyId : jsstr; key : bytes }.

Definition MAGIC : bytes := [67; 65; 69; 49]%Z.
Definition NONCE_LENGTH : nat := 12.
Definition TAG_LENGTH : nat := 16.

Definition isSourceDerivedClass (c : RetentionSourceDerivedClass) : bool :=
  match c with
  | transient_source_derived | customer_opt_in_retained_source => true
  | _ => false
  end.

Definition isEnvelope (b : bytes) : bool :=
  if length b <? length MAGIC then false else take (length MAGIC) b === MAGIC.

(* buffer.subarray(first, last) *)
Definition subarray (first last : nat) (b : bytes) : bytes := take (last - first) (drop first b).

Inductive unwrap_result :=
  | unwrapped (plaintext : bytes)
  | not_envelope
  | wrong_key.

Section envelope.
Context `{Aes256Gcm}.

(* [nonce] is the value of randomBytes(NONCE_LENGTH). *)
Definition wrapEnvelope (nonce plaintext : bytes) (envelope : EnvelopeKey) : throws bytes :=
  if negb (length (key envelope) =? 32) then Throw "envelope key must be 32 bytes"
  else
    let id := utf8 (keyId envelope) in
    if (length id <? 1) || (64 <? length id) then Throw "envelope key id must be 1-64 bytes"
    else
      let '(ciphertext, tag) := gcm_seal (key envelope) nonce plaintext in
      Ret (MAGIC ++ [Z.of_nat (length id)] ++ id ++ nonce ++ ciphertext ++ tag).

Definition unwrapEnvelope (b : bytes) (envelope : EnvelopeKey) : unwrap_result :=
  if negb (isEnvelope b) then not_envelope
  else if negb (length (key envelope) =? 32) then wrong_key
  else match b !! length MAGIC with
  | None => wrong_key
  | Some keyIdLength =>
      if ((keyIdLength <? 1) || (64 <? keyIdLength))%Z then wrong_key
      else
        let keyIdStart := length MAGIC + 1 in
        let keyIdEnd := keyIdStart + Z.to_nat keyIdLength in
        let nonceStart := keyIdEnd in
        let nonceEnd := nonceStart + NONCE_LENGTH in
        if (Z.of_nat (length b) - Z.of_nat TAG_LENGTH <? Z.of_nat nonceEnd)%Z then wrong_key
        else
          let tagStart := length b - TAG_LENGTH in
          if utf8_units (subarray keyIdStart keyIdEnd b) !== keyId envelope then wrong_key
          else match gcm_open (key envelope) (subarray nonceStart nonceEnd b)
                     (subarray nonceEnd tagStart b) (drop tagStart b) with
          | Some plaintext => unwrapped plaintext
          | None => wrong_key
          end
  end.

Lemma subarray_app p m s first last :
  first = length p → last = length p + length m → subarray first last (p ++ m ++ s) = m.
Proof.
  intros -> ->. unfold subarray. rewrite drop_app_length.
  replace (length p + length m - length p) with (length m) by lia. apply take_app_length.
Qed.

(** What was wrapped under a key is an envelope, is unwrapped by that key, and is
    refused under another key id. *)
Theorem unwrap_wrap nonce plaintext envelope b :
  length nonce = NONCE_LENGTH → text_ok (keyId envelope) = true →
  wrapEnvelope nonce plaintext envelope = Ret b →
  isEnvelope b = true ∧ unwrapEnvelope b envelope = unwrapped plaintext ∧
  ∀ other, keyId other ≠ keyId envelope → unwrapEnvelope b other = wrong_key.
Proof.
  intros Hn Hid. unfold wrapEnvelope. destruct (length (key envelope) =? 32) eqn:Hk; [|done]. cbn [negb].
  destruct ((length (utf8 (keyId envelope)) <? 1) || (64 <? length (utf8 (keyId envelope)))) eqn:Hl; [done|].
  apply orb_false_iff in Hl as [Hl1%Nat.ltb_ge Hl2%Nat.ltb_ge].
  pose proof (gcm_open_seal (key envelope) nonce plaintext) as Hopen.
  pose proof (gcm_tag_length (key envelope) nonce plaintext) as Htag.
  destruct (gcm_seal (key envelope) nonce plaintext) as [ct tag]. simpl in Hopen, Htag. intros [= <-].
  set (id := utf8 (keyId envelope)) in *.
  set (b := (67 :: 65 :: 69 :: 49 :: Z.of_nat (length id) :: id ++ nonce ++ ct ++ tag)%Z).
  assert (isEnvelope b = true) as Henv by reflexivity.
  assert (length b = 5 + length id + 12 + length ct + 16) as Hlen.
  { unfold b. simpl. rewrite !length_app, Htag, Hn. unfold NONCE_LENGTH. lia. }
  assert (∀ other, unwrapEnvelope b other =
    if negb (length (key other) =? 32) then wrong_key
    else if keyId envelope !== keyId other then wrong_key
    else match gcm_open (key other) nonce ct tag with Some p => unwrapped p | None => wrong_key end) as Hunw.
  { intros other. unfold unwrapEnvelope. rewrite Henv. cbn [negb].
    destruct (length (key other) =? 32); [|done]. cbn [negb].
    change (b !! length MAGIC) with (Some (Z.of_nat (length id))). cbv beta iota.
    rewrite (proj2 (Z.ltb_ge _ 1)), (proj2 (Z.ltb_ge 64 _)) by lia. cbn [orb].
    rewrite Nat2Z.id, Hlen. unfold TAG_LENGTH, NONCE_LENGTH in *. change (length MAGIC + 1) with 5.
    rewrite (proj2 (Z.ltb_ge _ _)) by lia.
    change b with ([67; 65; 69; 49; Z.of_nat (length id)]%Z ++ id ++ nonce ++ ct ++ tag).
    set (pre := [67; 65; 69; 49; Z.of_nat (length id)]%Z).
    rewrite (subarray_app pre id (nonce ++ ct ++ tag)) by done.
    rewrite (utf8_units_utf8 (keyId envelope) Hid : utf8_units id = keyId envelope).
    destruct (keyId envelope !== keyId other); [done|].
    rewrite (app_assoc pre id (nonce ++ ct ++ tag)).
    rewrite (subarray_app (pre ++ id) nonce (ct ++ tag)) by (rewrite ?length_app; simpl; lia).
    rewrite (app_assoc (pre ++ id) nonce (ct ++ tag)).
    rewrite (subarray_app ((pre ++ id) ++ nonce) ct tag) by (rewrite ?length_app; simpl; lia).
    rewrite (app_assoc ((pre ++ id) ++ nonce) ct tag), drop_app_length' by (rewrite ?length_app; simpl; lia). done. }
  split; [exact Henv|]. split.
  - rewrite Hunw, Hk, bool_decide_true by done. simpl. by rewrite Hopen.
  - intros other Hne. rewrite Hunw. destruct (length (key other) =? 32); [|done].
    rewrite bool_decide_false by done. done.
Qed.
End envelope.

(** A stand-in cipher for running the definitions: the plaintext shifted by the
    first byte of the key, with that byte repeated as the tag. *)
Module SampleCipher.
Local Open Scope Z_scope.
Definition shift (key : bytes) : Z := default 0 (head key).
Definition seal (key nonce plaintext : bytes) : bytes * bytes :=
  (List.map (λ x, x + shift key) plaintext, replicate 16 (shift key)).
Definition open (key nonce ciphertext tag : bytes) : option bytes :=
  if tag === replicate 16 (shift key) then Some (List.map (λ x, x - shift key) ciphertext) else None.
#[export] Instance cipher : Aes256Gcm.
Proof.
  refine {| gcm_seal := seal; gcm_open := open |}.
  - intros k n p. unfold open, seal. simpl. rewrite bool_decide_true by done. f_equal.
    rewrite List.map_map. induction p as [|x p IH]; [done|]. simpl. rewrite IH. f_equal. lia.
  - done.
Defined.
Definition key1 : EnvelopeKey := {| keyId := js "k1"; key := replicate 32 1 |}.
Definition key2 : EnvelopeKey := {| keyId := js "k2"; key := replicate 32 1 |}.
Definition nonce0 : bytes := replicate 12 0.
Definition sealed : bytes := Eval vm_compute in
  match wrapEnvelope nonce0 [1; 2; 3] key1 with Ret b => b | Throw _ => [] end.
Lemma unwrap_wrap_witness :
  unwrapEnvelope sealed key1 = unwrapped [1; 2; 3] ∧ unwrapEnvelope sealed key2 = wrong_key.
Proof.
  destruct (unwrap_wrap nonce0 [1; 2; 3] key1 sealed) as (_ & H1 & H2); [reflexivity..|].
  split; [exact H1|]. apply H2. discriminate.
Defined.
End SampleCipher.
