(* ===== verification/ArtifactStore.v ===== *)
(** The artifact stores of packages/evidence-store: source-derived bytes encrypted
    at rest, reads that go through the lifecycle log, deletion with evidence; in
    memory, and on Postgres with the filesystem object store. *)
From S2P Require Import Prelude Patterns Bytes CanonicalRows AppendLog Json CanonicalJson ProtocolTypes Envelope.

Local Open Scope Z_scope.

(** * The lifecycle log as the store sees it *)

Definition is_rejected {E} (o : AppendOutcome E) : bool :=
  match o with rejected _ => true | _ => false end.

(* What EvidenceLifecycleLogStore promises: an append that is not rejected leaves
   the event in the review's log. [log_events] are the events the promise is about,
   whose digests must not collide. *)
Class LifecycleLog (L E : Type) := {
  log_append : L → string → E → throws (AppendOutcome E) * L;
  log_load : L → string → throws (list E);
  log_wf : L → Prop;
  log_events : list E;
  log_append_wf l r e o l' : e ∈ log_events → log_wf l → log_append l r e = (o, l') → log_wf l';
  log_append_logs l r e o l' :
    e ∈ log_events → log_wf l → log_append l r e = (Ret o, l') → is_rejected o = false →
    ∃ events, log_load l' r = Ret events ∧ e ∈ events
}.

(** The in-memory log keeps that promise. *)
Section memory_log_instance.
Context {E : Type} `{LogEvent E} `{CanonicalRows E}.
Variable known : list E.
Hypothesis Hdig : digests_identify known.

Lemma memory_log_append_logs (l : list (string * list MemoryLog.StoredEntry)) r (e : E) o l' :
  e ∈ known → MemoryLog.logs_ok known l → MemoryLog.append l r e = (Ret o, l') → is_rejected o = false →
  ∃ events, MemoryLog.loadLog (E := E) l' r = Ret events ∧ e ∈ events.
Proof.
  intros He [_ Hok] Happ Hrej. destruct (Hok r) as (events & Hev & Hsub).
  destruct (toCanonicalRow e) as [row|err] eqn:Hrow; [|unfold MemoryLog.append in Happ; by rewrite Hrow in Happ].
  destruct (MemoryLog.memory_append_simulates known Hdig _ _ _ _ _ He Hsub Hev Hrow) as (o' & ev' & l'' & Happ' & Hspec & Hev' & _).
  rewrite Happ in Happ'. injection Happ' as <- <-. exists ev'. split; [by apply MemoryLog.loadLog_entries|].
  destruct Hspec; try done. apply elem_of_app. right. by apply list_elem_of_singleton.
Qed.
Definition memory_lifecycle_log : LifecycleLog (list (string * list MemoryLog.StoredEntry)) E.
Proof.
  refine {| log_append := MemoryLog.append; log_load := MemoryLog.loadLog; log_wf := MemoryLog.logs_ok known;
            log_events := known |}.
  - intros l r e o l' He Hok Happ. eapply (MemoryLog.log_step_ok known Hdig); [done|]. econstructor; [exact He|exact Happ].
  - apply memory_log_append_logs.
Defined.
End memory_log_instance.

(** * Inputs and outcomes *)

Record ArtifactPutInput := {
  put_digest : string;
  put_bytes : bytes;
  put_classification : StoredObjectClassification;
  put_reviewId : string
}.
Inductive put_outcome := stored | put_already_present | encryption_unavailable.
Inductive ArtifactGetResult := read (b : bytes) | not_found | access_not_logged | decryption_failed.
Inductive DeletionOutcome := deleted (evidence : DeletionEvidence) | not_verified (evidence : DeletionEvidence).

#[export] Instance put_outcome_eq_dec : EqDecision put_outcome.
Proof. solve_decision. Defined.
#[export] Instance ArtifactGetResult_eq_dec : EqDecision ArtifactGetResult.
Proof. solve_decision. Defined.

(** * Deletion evidence (deletion-evidence-append.ts) *)

Definition unverifiedDeletionAttempt (evidence : DeletionEvidence) : DeletionEvidence := {|
  deletion_evidence_id := deletion_evidence_id evidence;
  deleted_artifact_digests := deleted_artifact_digests evidence;
  deletion_method := deletion_method evidence;
  deletion_timestamp := deletion_timestamp evidence;
  deletion_actor := deletion_actor evidence;
  verification_status := unverified;
  supersedes_deletion_evidence_ref := None
|}.
Definition verified_id (attemptId : string) : string :=
  let local := if startsWith "deletion_evidence:" attemptId then str_drop 18 attemptId else attemptId in
  let verifiedLocal := if endsWith "_verified" local then local else (local +:+ "_verified")%string in
  ("deletion_evidence:" +:+ verifiedLocal)%string.
Definition verifiedDeletionRecord (evidence : DeletionEvidence) : DeletionEvidence := {|
  deletion_evidence_id := verified_id (deletion_evidence_id evidence);
  deleted_artifact_digests := deleted_artifact_digests evidence;
  deletion_method := deletion_method evidence;
  deletion_timestamp := deletion_timestamp evidence;
  deletion_actor := deletion_actor evidence;
  verification_status := verified;
  supersedes_deletion_evidence_ref := Some (deletion_evidence_id evidence)
|}.

Section stores.
Context `{Aes256Gcm} {L E : Type} `{LifecycleLog L E} (review_id : E → string).
(* The store's options.envelope. *)
Variable envelope : option EnvelopeKey.

(* The tail of [get] once the bytes are at hand. *)
Definition open_stored (b : bytes) : ArtifactGetResult :=
  if isEnvelope b then
    match envelope with
    | None => decryption_failed
    | Some k => match unwrapEnvelope b k with unwrapped p => read p | _ => decryption_failed end
    end
  else read b.

(** * In memory (memory/artifact-store.ts) *)

Record memory_store := {
  objects : list (string * bytes);
  deletionEvidence : list (string * DeletionEvidence)
}.

(* [nonce] is what wrapEnvelope draws. *)
Definition memory_put (nonce : bytes) (st : memory_store) (input : ArtifactPutInput) : throws put_outcome * memory_store :=
  if JsMap.has (put_digest input) (objects st) then (Ret put_already_present, st)
  else
    let keep b := {| objects := JsMap.set (put_digest input) b (objects st); deletionEvidence := deletionEvidence st |} in
    if isSourceDerivedClass (source_derived_class (put_classification input)) then
      match envelope with
      | None => (Ret encryption_unavailable, st)
      | Some k =>
          match wrapEnvelope nonce (put_bytes input) k with
          | Throw e => (Throw e, st)
          | Ret b => (Ret stored, keep b)
          end
      end
    else (Ret stored, keep (put_bytes input)).

Definition memory_get (st : memory_store) (log : L) (access : E) (digest : string) : throws ArtifactGetResult * L :=
  match JsMap.get digest (objects st) with
  | None => (Ret not_found, log)
  | Some b =>
      match log_append log (review_id access) access with
      | (Throw e, log') => (Throw e, log')
      | (Ret o, log') => (Ret (if is_rejected o then access_not_logged else open_stored b), log')
      end
  end.

Definition memory_delete (st : memory_store) (digest : string) (evidence : DeletionEvidence) : DeletionOutcome * memory_store :=
  let attempt := unverifiedDeletionAttempt evidence in
  let recorded := JsMap.set (deletion_evidence_id attempt) attempt (deletionEvidence st) in
  let objects' := JsMap.delete digest (objects st) in
  if JsMap.has digest objects' then
    (not_verified attempt, {| objects := objects'; deletionEvidence := recorded |})
  else
    let v := verifiedDeletionRecord attempt in
    (deleted v, {| objects := objects'; deletionEvidence := JsMap.set (deletion_evidence_id v) v recorded |}).

Definition memory_findDeletionEvidence (st : memory_store) (id : string) : option DeletionEvidence :=
  JsMap.get id (deletionEvidence st).

(** ** Reads *)

(** The store hands out bytes only when the access event is in the lifecycle log
    of its review, and a missing artifact leaves the log as it was. *)
Theorem memory_read_is_logged st log access digest res log' :
  access ∈ log_events → log_wf log → memory_get st log access digest = (Ret res, log') →
  (∀ b, res = read b →
     ∃ events, log_load log' (review_id access) = Ret events ∧ access ∈ events) ∧
  (JsMap.get digest (objects st) = None → res = not_found ∧ log' = log).
Proof.
  intros He Hwf. unfold memory_get. destruct (JsMap.get digest (objects st)) as [b|].
  - destruct (log_append log (review_id access) access) as [[o|err] l'] eqn:Happ; [|done].
    intros [= <- <-]. split; [|done]. intros b'. destruct (is_rejected o) eqn:Hr; [done|]. intros _.
    by eapply log_append_logs.
  - intros [= <- <-]. split; [done|]. done.
Qed.

Definition loggable (log : L) (access : E) : Prop :=
  ∃ o log', log_append log (review_id access) access = (Ret o, log') ∧ is_rejected o = false.

(** A stored artifact is read back as it was put, and source-derived bytes are at
    rest only in an envelope; a store without a key keeps none of them. Bytes of
    another class come back unless they happen to begin with the envelope magic. *)
Theorem memory_put_get nonce st input st' o log access :
  length nonce = NONCE_LENGTH → (∀ k, envelope = Some k → text_ok (keyId k) = true) →
  memory_put nonce st input = (Ret o, st') → loggable log access →
  match o with
  | put_already_present | encryption_unavailable => st' = st
  | stored =>
      JsMap.get (put_digest input) (objects st) = None ∧
      (∀ d, d ≠ put_digest input → JsMap.get d (objects st') = JsMap.get d (objects st)) ∧
      ∃ at_rest, JsMap.get (put_digest input) (objects st') = Some at_rest ∧
        let derived := isSourceDerivedClass (source_derived_class (put_classification input)) in
        (derived = true → isEnvelope at_rest = true) ∧
        (derived = true ∨ isEnvelope (put_bytes input) = false →
         (memory_get st' log access (put_digest input)).1 = Ret (read (put_bytes input)))
  end.
Proof.
  intros Hn Hid Hput (lo & log' & Happ & Hrej). unfold memory_put in Hput.
  destruct (JsMap.has (put_digest input) (objects st)) eqn:Hhas; [by injection Hput as <- <-|].
  apply JsMap.has_false in Hhas.
  assert (∀ b, (memory_get {| objects := JsMap.set (put_digest input) b (objects st);
      deletionEvidence := deletionEvidence st |} log access (put_digest input)).1 = Ret (open_stored b)) as Hget.
  { intros b. unfold memory_get. simpl. by rewrite JsMap.get_set_eq, Happ, Hrej. }
  destruct (isSourceDerivedClass _).
  - destruct envelope as [k|] eqn:Hk; [|by injection Hput as <- <-].
    destruct (wrapEnvelope nonce (put_bytes input) k) as [b|err] eqn:Hw; [|done].
    injection Hput as <- <-. split; [done|]. split; [intros; by apply JsMap.get_set_ne|].
    exists b. split; [apply JsMap.get_set_eq|]. destruct (unwrap_wrap _ _ _ _ Hn (Hid k eq_refl) Hw) as (Henv & Hun & _).
    split; [done|]. intros _. rewrite Hget. unfold open_stored. by rewrite Henv, Hk, Hun.
  - injection Hput as <- <-. split; [done|]. split; [intros; by apply JsMap.get_set_ne|].
    exists (put_bytes input). split; [apply JsMap.get_set_eq|]. split; [done|].
    intros [?|Hplain]; [done|]. rewrite Hget. unfold open_stored. by rewrite Hplain.
Qed.

(** ** Deletion *)

(** Deleting removes the bytes and nothing else, reports verified evidence that
    supersedes the recorded attempt, and both records can be found; the attempt is
    overwritten when its id is already the verified one. *)
Theorem memory_delete_effect st digest evidence outcome st' :
  memory_delete st digest evidence = (outcome, st') →
  let attempt := unverifiedDeletionAttempt evidence in
  let v := verifiedDeletionRecord attempt in
  outcome = deleted v ∧
  (∀ log access, memory_get st' log access digest = (Ret not_found, log)) ∧
  (∀ d, d ≠ digest → JsMap.get d (objects st') = JsMap.get d (objects st)) ∧
  memory_findDeletionEvidence st' (deletion_evidence_id v) = Some v ∧
  memory_findDeletionEvidence st' (deletion_evidence_id attempt) =
    Some (if decide (deletion_evidence_id v = deletion_evidence_id attempt) then v else attempt).
Proof.
  unfold memory_delete.
  assert (JsMap.has digest (JsMap.delete digest (objects st)) = false) as ->
    by (apply JsMap.has_false, JsMap.get_delete_eq).
  intros [= <- <-]. split; [done|]. unfold memory_get, memory_findDeletionEvidence. cbn [objects deletionEvidence].
  split; [intros; by rewrite JsMap.get_delete_eq|]. split; [intros; by apply JsMap.get_delete_ne|].
  split; [apply JsMap.get_set_eq|]. rewrite JsMap.get_set.
  destruct (decide _); [done|]. by rewrite JsMap.get_set_eq.
Qed.

(** * On Postgres and the filesystem (postgres/artifact-store.ts, filesystem/object-store.ts) *)

(* The segments of a path below the root of the object store. *)
Abbreviation path := (list string).
Definition pathFor (digest : string) : path :=
  let hex := str_drop 7 digest in ["objects"; slice 0 2 hex; slice 2 4 hex; hex]%string.
Definition temporary (target : path) : path :=
  match reverse target with
  | last :: rest => reverse ((last +:+ ".tmp")%string :: rest)
  | [] => [".tmp"%string]
  end.
Abbreviation files_t := (list (path * bytes)).
Definition fs_has (files : files_t) (digest : string) : bool := JsMap.has (pathFor digest) files.
Definition fs_get (files : files_t) (digest : string) : option bytes := JsMap.get (pathFor digest) files.
Definition fs_remove (files : files_t) (digest : string) : files_t := JsMap.delete (pathFor digest) files.
(* writeFile(temporary) and rename(temporary, target) *)
Definition fs_write_temporary (files : files_t) (digest : string) (b : bytes) : files_t :=
  JsMap.set (temporary (pathFor digest)) b files.
Definition fs_rename (files : files_t) (digest : string) : files_t :=
  match JsMap.get (temporary (pathFor digest)) files with
  | Some b => JsMap.set (pathFor digest) b (JsMap.delete (temporary (pathFor digest)) files)
  | None => files
  end.
Definition fs_put (files : files_t) (digest : string) (b : bytes) : files_t :=
  fs_rename (fs_write_temporary files digest b) digest.

Context `{CanonicalRows StoredObjectClassification} `{CanonicalRows DeletionEvidence}.

Record reference_row := { ref_review_id : string; size_bytes : Z; ref_body : list Z }.
Record postgres_store := {
  artifact_reference : list (string * reference_row);
  files : files_t;
  deletion_evidence : list (string * list Z)
}.

Definition postgres_put (nonce : bytes) (st : postgres_store) (input : ArtifactPutInput) : throws put_outcome * postgres_store :=
  let derived := isSourceDerivedClass (source_derived_class (put_classification input)) in
  if JsMap.has (put_digest input) (artifact_reference st) then (Ret put_already_present, st)
  else if (derived && bool_decide (envelope = None))%bool then (Ret encryption_unavailable, st)
  else
    match (match envelope with
           | Some k => if derived then wrapEnvelope nonce (put_bytes input) k else Ret (put_bytes input)
           | None => Ret (put_bytes input)
           end) with
    | Throw e => (Throw e, st)
    | Ret storedBytes =>
        let written := {| artifact_reference := artifact_reference st;
                          files := fs_put (files st) (put_digest input) storedBytes;
                          deletion_evidence := deletion_evidence st |} in
        match toCanonicalRow (put_classification input) with
        | Throw e => (Throw e, written)
        | Ret row =>
            let reference := {| ref_review_id := put_reviewId input;
                                size_bytes := Z.of_nat (length (put_bytes input)); ref_body := row_body row |} in
            (Ret stored, {| artifact_reference := JsMap.set (put_digest input) reference (artifact_reference st);
                            files := files written; deletion_evidence := deletion_evidence st |})
        end
    end.

Definition postgres_get (st : postgres_store) (log : L) (access : E) (digest : string) : throws ArtifactGetResult * L :=
  if negb (JsMap.has digest (artifact_reference st)) then (Ret not_found, log)
  else
    match log_append log (review_id access) access with
    | (Throw e, log') => (Throw e, log')
    | (Ret o, log') =>
        (Ret (if is_rejected o then access_not_logged
              else match fs_get (files st) digest with
                   | None => not_found
                   | Some b => open_stored b
                   end), log')
    end.

(* INSERT INTO deletion_evidence ... ON CONFLICT DO NOTHING *)
Definition insert_evidence (table : list (string * list Z)) (e : DeletionEvidence) (body : list Z) : list (string * list Z) :=
  if JsMap.has (deletion_evidence_id e) table then table else JsMap.set (deletion_evidence_id e) body table.

Definition postgres_delete (st : postgres_store) (digest : string) (evidence : DeletionEvidence)
    : throws DeletionOutcome * postgres_store :=
  let attempt := unverifiedDeletionAttempt evidence in
  match toCanonicalRow attempt with
  | Throw e => (Throw e, st)
  | Ret attempt_row =>
      let table := insert_evidence (deletion_evidence st) attempt (row_body attempt_row) in
      let files' := fs_remove (files st) digest in
      if fs_has files' digest then
        (Ret (not_verified attempt),
         {| artifact_reference := artifact_reference st; files := files'; deletion_evidence := table |})
      else
        let v := verifiedDeletionRecord attempt in
        match toCanonicalRow v with
        | Throw e => (Throw e, {| artifact_reference := artifact_reference st; files := files'; deletion_evidence := table |})
        | Ret v_row =>
            (Ret (deleted v),
             {| artifact_reference := artifact_reference st; files := files';
                deletion_evidence := insert_evidence table v (row_body v_row) |})
        end
  end.

Definition postgres_findDeletionEvidence (st : postgres_store) (id : string) : throws (option DeletionEvidence) :=
  match JsMap.get id (deletion_evidence st) with
  | None => Ret None
  | Some body => e ← fromCanonicalRow body; Ret (Some e)
  end.

(** ** Paths of digests *)

Lemma digest_prefix d : SHA256_ID_PATTERN d = true → ∃ hex, d = ("sha256:" +:+ hex)%string ∧ String.length hex = 64%nat.
Proof.
  unfold SHA256_ID_PATTERN. destruct (strip _ d) as [hex|] eqn:Hs; [|done].
  apply strip_Some in Hs as ->. unfold SHA256_HEX_PATTERN. intros [_ Hl%Nat.eqb_eq]%andb_prop. by exists hex.
Qed.
Lemma pathFor_inj d d' :
  SHA256_ID_PATTERN d = true → SHA256_ID_PATTERN d' = true → pathFor d = pathFor d' → d = d'.
Proof.
  intros (h & -> & _)%digest_prefix (h' & -> & _)%digest_prefix. unfold pathFor. simpl. by intros [= _ _ ->].
Qed.
Lemma temporary_not_path d d' :
  SHA256_ID_PATTERN d = true → SHA256_ID_PATTERN d' = true → temporary (pathFor d) ≠ pathFor d'.
Proof.
  intros (h & -> & Hl)%digest_prefix (h' & -> & Hl')%digest_prefix. unfold pathFor, temporary. simpl.
  intros [= _ _ E0]. apply (f_equal String.length) in E0. rewrite length_append in E0. simpl in E0. lia.
Qed.

(** The object store gives each digest a file of its own; a put leaves no temporary behind. *)
Lemma fs_put_get (fs : files_t) d b :
  SHA256_ID_PATTERN d = true →
  fs_get (fs_put fs d b) d = Some b ∧
  (∀ d', SHA256_ID_PATTERN d' = true → d' ≠ d → fs_get (fs_put fs d b) d' = fs_get fs d') ∧
  JsMap.get (temporary (pathFor d)) (fs_put fs d b) = None.
Proof.
  intros Hd. unfold fs_get, fs_put, fs_rename, fs_write_temporary. rewrite JsMap.get_set_eq.
  split_and!.
  - apply JsMap.get_set_eq.
  - intros d' Hd' Hne. rewrite JsMap.get_set_ne by (intros ?%pathFor_inj; by eauto).
    rewrite JsMap.get_delete_ne, JsMap.get_set_ne by (by apply temporary_not_path). done.
  - rewrite JsMap.get_set_ne by (intros E0; by apply (temporary_not_path d d)). apply JsMap.get_delete_eq.
Qed.

(** ** The two adapters *)

(* The stores hold the same artifacts, and Postgres a reference for each. *)
Definition stores_agree (m : memory_store) (p : postgres_store) : Prop :=
  ∀ d, SHA256_ID_PATTERN d = true →
    fs_get (files p) d = JsMap.get d (objects m) ∧
    JsMap.has d (artifact_reference p) = JsMap.has d (objects m).

(** From stores that agree, a put and a get give the same outcome in memory and on
    Postgres, and the stores agree again. *)
Theorem artifact_adapters_agree m p nonce input row :
  stores_agree m p → SHA256_ID_PATTERN (put_digest input) = true →
  toCanonicalRow (put_classification input) = Ret row →
  (memory_put nonce m input).1 = (postgres_put nonce p input).1 ∧
  stores_agree (memory_put nonce m input).2 (postgres_put nonce p input).2 ∧
  ∀ log access d, SHA256_ID_PATTERN d = true → memory_get m log access d = postgres_get p log access d.
Proof.
  intros Hag Hd Hrow. split; [|split].
  3:{ intros log access d Hd'. destruct (Hag d Hd') as [Hget Hhas]. unfold memory_get, postgres_get.
      rewrite Hhas, Hget. unfold JsMap.has. destruct (JsMap.get d (objects m)) as [b|]; done. }
  all: destruct (Hag _ Hd) as [_ Hhas]; unfold memory_put, postgres_put; rewrite Hhas, Hrow;
    destruct (JsMap.has (put_digest input) (objects m)) eqn:Hm; [done|].
  - destruct (isSourceDerivedClass _), envelope as [k|]; try done. simpl. by destruct (wrapEnvelope _ _ _).
  - destruct (isSourceDerivedClass _), envelope as [k|]; try done; simpl; [destruct (wrapEnvelope _ _ _) as [b|]; [|done]|..].
    all: intros d Hd'; cbn [snd objects files artifact_reference].
    all: match goal with |- fs_get (fs_put _ _ ?b) _ = _ ∧ _ => destruct (fs_put_get (files p) (put_digest input) b Hd) as (Hsame & Hother & _) end.
    all: unfold JsMap.has; rewrite !JsMap.get_set; destruct (decide (put_digest input = d)) as [<-|Hne]; [split; [exact Hsame|done]|].
    all: rewrite Hother by done; split; [apply (Hag d Hd')|]; destruct (Hag d Hd') as [_ Hh]; exact Hh.
Qed.

(** Deleting on Postgres leaves the reference row. Afterwards a put of the same
    artifact is reported as already present although no bytes are stored, and a get
    appends an access event before it reports the miss. *)
Theorem postgres_delete_leaves_reference p digest evidence v p' nonce input log access o log' :
  put_digest input = digest → JsMap.has digest (artifact_reference p) = true →
  postgres_delete p digest evidence = (Ret (deleted v), p') →
  log_append log (review_id access) access = (Ret o, log') → is_rejected o = false →
  fs_get (files p') digest = None ∧
  postgres_put nonce p' input = (Ret put_already_present, p') ∧
  postgres_get p' log access digest = (Ret not_found, log').
Proof.
  intros <- Href Hdel Happ Hrej. unfold postgres_delete in Hdel.
  destruct (toCanonicalRow (unverifiedDeletionAttempt evidence)) as [r1|]; [|done].
  assert (fs_has (fs_remove (files p) (put_digest input)) (put_digest input) = false) as Hgone
    by (apply JsMap.has_false, JsMap.get_delete_eq).
  rewrite Hgone in Hdel. destruct (toCanonicalRow (verifiedDeletionRecord _)) as [r2|]; [|done].
  injection Hdel as _ <-. assert (fs_get (fs_remove (files p) (put_digest input)) (put_digest input) = None) as Hnone
    by apply JsMap.get_delete_eq.
  split; [done|]. split.
  - unfold postgres_put. simpl. by rewrite Href.
  - unfold postgres_get. simpl. by rewrite Href, Happ, Hrej, Hnone.
Qed.

(** A deletion whose evidence id already ends in _verified is reported as verified
    on Postgres, and the evidence found afterwards is the unverified attempt. *)
Theorem postgres_verified_evidence_lost p digest evidence v p' :
  verified_id (deletion_evidence_id evidence) = deletion_evidence_id evidence →
  JsMap.has (deletion_evidence_id evidence) (deletion_evidence p) = false →
  postgres_delete p digest evidence = (Ret (deleted v), p') →
  verification_status v = verified ∧
  postgres_findDeletionEvidence p' (deletion_evidence_id v) = Ret (Some (unverifiedDeletionAttempt evidence)).
Proof.
  intros Hid Hfresh. unfold postgres_delete.
  destruct (toCanonicalRow (unverifiedDeletionAttempt evidence)) as [r1|] eqn:Hr1; [|done].
  destruct (fs_has _ _); [done|]. destruct (toCanonicalRow (verifiedDeletionRecord _)) as [r2|]; [|done].
  intros [= <- <-]. split; [done|]. unfold postgres_findDeletionEvidence, insert_evidence. cbn [deletion_evidence].
  change (deletion_evidence_id (verifiedDeletionRecord (unverifiedDeletionAttempt evidence)))
    with (verified_id (deletion_evidence_id evidence)).
  change (deletion_evidence_id (unverifiedDeletionAttempt evidence)) with (deletion_evidence_id evidence).
  rewrite Hid, Hfresh. rewrite (proj2 (JsMap.has_true _ _)) by (rewrite JsMap.get_set_eq; eauto).
  rewrite JsMap.get_set_eq. by rewrite (row_roundtrip _ _ Hr1).
Qed.
End stores.

(** * Sample runs *)

Module ArtifactSamples.
Import SampleCipher.
#[local] Existing Instances Samples.event_log_event Samples.event_rows.
#[export] Instance log_instance : LifecycleLog (list (string * list MemoryLog.StoredEntry)) Samples.event :=
  memory_lifecycle_log Samples.known (Samples.samples_identify Samples.known).
Definition review_of (e : Samples.event) : string := "review:abc".
Definition dig : string := ("sha256:" +:+ Tabulated.zeros 64)%string.
Definition source_class : StoredObjectClassification := {|
  stored_object_ref := dig; object_kind := evidence_artifact; source_derived_class := transient_source_derived;
  environment_profile := synthetic_demo; artifact_ref := None |}.
Definition plain_class : StoredObjectClassification := {|
  stored_object_ref := dig; object_kind := generated_export; source_derived_class := retained_review_artifact;
  environment_profile := synthetic_demo; artifact_ref := None |}.
Definition ev (id : string) : DeletionEvidence := {|
  deletion_evidence_id := id; deleted_artifact_digests := [dig]; deletion_method := secure_delete;
  deletion_timestamp := "2026-01-01T00:00:00Z"; deletion_actor := {| actor_type := vendor_service; actor_id := "ops" |};
  verification_status := unverified; supersedes_deletion_evidence_ref := None |}.
Definition ev1 := ev "deletion_evidence:op_1".
Definition ev2 := ev "deletion_evidence:op_verified".
#[export] Instance class_rows : CanonicalRows StoredObjectClassification := Tabulated.rows [source_class; plain_class].
#[export] Instance evidence_rows : CanonicalRows DeletionEvidence :=
  Tabulated.rows [ev1; ev2; verifiedDeletionRecord ev1; verifiedDeletionRecord ev2].
Definition source_input : ArtifactPutInput :=
  {| put_digest := dig; put_bytes := [1; 2; 3]; put_classification := source_class; put_reviewId := "review:abc" |}.
Definition magic_input : ArtifactPutInput :=
  {| put_digest := dig; put_bytes := [67; 65; 69; 49; 0]; put_classification := plain_class; put_reviewId := "review:abc" |}.
Definition empty_memory : memory_store := {| objects := []; deletionEvidence := [] |}.
Definition empty_postgres : postgres_store := {| artifact_reference := []; files := []; deletion_evidence := [] |}.
Definition with_source : memory_store := (memory_put (Some key1) nonce0 empty_memory source_input).2.
Definition pg_with_source : postgres_store := (postgres_put (Some key1) nonce0 empty_postgres source_input).2.
Definition log0 : list (string * list MemoryLog.StoredEntry) := [].
Definition log1 := (log_append log0 "review:abc" Samples.e1).2.

Lemma memory_read_is_logged_witness :
  ∃ events, log_load log1 "review:abc" = Ret events ∧ Samples.e1 ∈ events.
Proof.
  refine (proj1 (memory_read_is_logged review_of (Some key1) with_source log0 Samples.e1 dig (read [1; 2; 3]) log1 _ _ _) [1; 2; 3] eq_refl).
  - apply list_elem_of_here.
  - exact SampleRuns.empty_logs_ok.
  - by vm_compute.
Defined.

Lemma loggable_first : loggable review_of log0 Samples.e1.
Proof. exists (appended Samples.e1), log1. split; [by vm_compute|done]. Qed.

Lemma memory_put_get_witness :
  (memory_get review_of (Some key1) with_source log0 Samples.e1 dig).1 = Ret (read [1; 2; 3]).
Proof.
  destruct (memory_put_get review_of (Some key1) nonce0 empty_memory source_input with_source stored log0 Samples.e1)
    as (_ & _ & b & _ & _ & Hget).
  - reflexivity.
  - by intros k [= <-].
  - by vm_compute.
  - exact loggable_first.
  - apply Hget. by left.
Defined.

(** Bytes that are not source-derived and begin with the envelope magic are stored
    as they are and can never be read back. *)
Theorem plain_artifact_with_magic_unreadable :
  let '(o, st) := memory_put (Some key1) nonce0 empty_memory magic_input in
  o = Ret stored ∧ JsMap.get dig (objects st) = Some (put_bytes magic_input) ∧
  (memory_get review_of (Some key1) st log0 Samples.e1 dig).1 = Ret decryption_failed ∧
  (memory_get review_of None st log0 Samples.e1 dig).1 = Ret decryption_failed.
Proof. by vm_compute. Qed.

Lemma memory_delete_effect_witness :
  memory_get review_of (Some key1) (memory_delete with_source dig ev1).2 log0 Samples.e1 dig = (Ret not_found, log0).
Proof.
  destruct (memory_delete_effect review_of (Some key1) with_source dig ev1 (deleted (verifiedDeletionRecord ev1))
    (memory_delete with_source dig ev1).2) as (_ & Hget & _); [by vm_compute|apply Hget].
Defined.

Lemma artifact_adapters_agree_witness :
  memory_get review_of (Some key1) empty_memory log0 Samples.e1 dig =
  postgres_get review_of (Some key1) empty_postgres log0 Samples.e1 dig.
Proof.
  destruct (artifact_adapters_agree review_of (Some key1) empty_memory empty_postgres nonce0 source_input (Tabulated.row_at 0))
    as (_ & _ & Hget); [done|by vm_compute|by vm_compute|]. apply Hget. by vm_compute.
Defined.

Lemma postgres_delete_leaves_reference_witness :
  postgres_get review_of (Some key1) (postgres_delete pg_with_source dig ev1).2 log0 Samples.e1 dig = (Ret not_found, log1).
Proof.
  destruct (postgres_delete_leaves_reference review_of (Some key1) pg_with_source dig ev1 (verifiedDeletionRecord ev1)
    (postgres_delete pg_with_source dig ev1).2 nonce0 source_input log0 Samples.e1 (appended Samples.e1) log1)
    as (_ & _ & Hget); [done|by vm_compute..|exact Hget].
Defined.

Lemma postgres_verified_evidence_lost_witness :
  postgres_findDeletionEvidence (postgres_delete pg_with_source dig ev2).2 "deletion_evidence:op_verified" = Ret (Some ev2).
Proof.
  refine (proj2 (postgres_verified_evidence_lost pg_with_source dig ev2 (verifiedDeletionRecord ev2)
    (postgres_delete pg_with_source dig ev2).2 _ _ _)); by vm_compute.
Defined.
End ArtifactSamples.
