(* ===== verification/JobQueue.v ===== *)
(** The job queue of packages/evidence-store: what a queue promises, the in-memory
    Map, and the Postgres table whose statements are atomic steps on a clock. *)
From S2P Require Import Prelude Patterns Json.

Local Open Scope Z_scope.

Record JobRecord := { job_id : string; job_type : string; payload : jsstr; attempts : Z }.
Record JobRow := { job : JobRecord; claimed : bool }.
Inductive enqueue_outcome := enqueued | job_already_present.

#[export] Instance JobRecord_eq_dec : EqDecision JobRecord.
Proof. solve_decision. Defined.
#[export] Instance JobRow_eq_dec : EqDecision JobRow.
Proof. solve_decision. Defined.
#[export] Instance enqueue_outcome_eq_dec : EqDecision enqueue_outcome.
Proof. solve_decision. Defined.

Definition row_id (r : JobRow) : string := job_id (job r).
Definition fresh_job (id type : string) (p : jsstr) : JobRow :=
  {| job := {| job_id := id; job_type := type; payload := p; attempts := 0 |}; claimed := false |}.
Definition claim_row (r : JobRow) : JobRow :=
  {| job := {| job_id := job_id (job r); job_type := job_type (job r); payload := payload (job r);
               attempts := attempts (job r) + 1 |}; claimed := true |}.
Definition unclaim_row (r : JobRow) : JobRow := {| job := job r; claimed := false |}.
Definition claimable (type : string) (r : JobRow) : bool := ((job_type (job r) === type) && negb (claimed r))%bool.

(** * What a queue promises: the jobs in the order they are claimed *)

Module JobSpec.
Definition enqueue (rows : list JobRow) (id type : string) (p : jsstr) : enqueue_outcome * list JobRow :=
  if existsb (λ r, row_id r === id) rows then (job_already_present, rows)
  else (enqueued, rows ++ [fresh_job id type p]).
Fixpoint claim (rows : list JobRow) (type : string) : option JobRecord * list JobRow :=
  match rows with
  | [] => (None, [])
  | r :: rows' =>
      if claimable type r then (Some (job (claim_row r)), claim_row r :: rows')
      else let '(o, rows'') := claim rows' type in (o, r :: rows'')
  end.
Definition complete (rows : list JobRow) (id : string) : list JobRow :=
  List.filter (λ r, row_id r !== id) rows.
Definition fail (rows : list JobRow) (id : string) : list JobRow :=
  List.map (λ r, if row_id r === id then unclaim_row r else r) rows.

Definition rows_ok (rows : list JobRow) : Prop := NoDup (row_id <$> rows).

Lemma claim_None rows type o rows' :
  claim rows type = (o, rows') → o = None ↔ ∀ r, r ∈ rows → claimable type r = false.
Proof.
  revert o rows'; induction rows as [|r rows IH]; intros o rows'; simpl.
  { intros [= <- <-]. split; [by intros _ r ?%not_elem_of_nil|done]. }
  destruct (claimable type r) eqn:Hc.
  - intros [= <- <-]. split; [done|]. intros Hall. specialize (Hall r (list_elem_of_here _ _)). congruence.
  - destruct (claim rows type) as [o1 rows1] eqn:Hrec. intros [= <- <-].
    rewrite (IH _ _ eq_refl). split.
    + by intros Hall r' [->|?]%elem_of_cons; [|apply Hall].
    + intros Hall r' Hr'. by apply Hall, list_elem_of_further.
Qed.
Lemma claim_None_rows rows type rows' : claim rows type = (None, rows') → rows' = rows.
Proof.
  revert rows'; induction rows as [|r rows IH]; intros rows'; simpl; [by intros [= <-]|].
  destruct (claimable type r); [done|]. destruct (claim rows type) as [o1 rows1]. intros [= -> <-]. f_equal. by apply IH.
Qed.
(* A claim takes the first claimable row. *)
Lemma claim_Some rows type j rows' :
  claim rows type = (Some j, rows') →
  ∃ before r after, rows = before ++ r :: after ∧ rows' = before ++ claim_row r :: after ∧
    claimable type r = true ∧ j = job (claim_row r) ∧ ∀ x, x ∈ before → claimable type x = false.
Proof.
  revert j rows'; induction rows as [|r rows IH]; intros j rows'; simpl; [done|].
  destruct (claimable type r) eqn:Hc.
  - intros [= <- <-]. exists [], r, rows. split_and!; try done. by intros x ?%not_elem_of_nil.
  - destruct (claim rows type) as [o1 rows1]. intros [= -> <-].
    destruct (IH _ _ eq_refl) as (b & r' & a & -> & -> & Hr' & -> & Hb). exists (r :: b), r', a.
    split_and!; try done. intros x [->|Hx]%elem_of_cons; [done|by apply Hb].
Qed.
Lemma claim_ids rows type o rows' : claim rows type = (o, rows') → row_id <$> rows' = row_id <$> rows.
Proof.
  revert o rows'; induction rows as [|r rows IH]; intros o rows'; simpl; [by intros [= _ <-]|].
  destruct (claimable type r); [by intros [= _ <-]|]. destruct (claim rows type) as [o1 rows1].
  intros [= _ <-]. simpl. f_equal. by eapply IH.
Qed.
Lemma fail_ids rows id : row_id <$> fail rows id = row_id <$> rows.
Proof. induction rows as [|r rows IH]; [done|]. simpl. f_equal; [by case_bool_decide|apply IH]. Qed.
Lemma complete_ok rows id : rows_ok rows → rows_ok (complete rows id).
Proof.
  unfold rows_ok, complete. induction rows as [|r rows IH]; [done|]. simpl. rewrite NoDup_cons. intros [Hr Hnd].
  destruct (row_id r !== id); [|by apply IH]. simpl. rewrite NoDup_cons. split; [|by apply IH].
  intros (x & Hx & Hin)%list_elem_of_fmap. apply Hr. apply list_elem_of_fmap. exists x. split; [done|].
  apply list_elem_of_In in Hin. apply filter_In in Hin as [? _]. by apply list_elem_of_In.
Qed.
Lemma enqueue_ok rows id type p : rows_ok rows → rows_ok (enqueue rows id type p).2.
Proof.
  unfold enqueue, rows_ok. destruct (existsb _ rows) eqn:E0; [done|]. intros Hnd. simpl.
  rewrite fmap_app. apply NoDup_app. split; [done|]. split; [|apply NoDup_singleton].
  intros x (r & -> & Hr)%list_elem_of_fmap Hx%list_elem_of_singleton.
  apply existsb_false with (x := r) in E0; [|done]. apply bool_decide_eq_false in E0. done.
Qed.
End JobSpec.

(** * The interface of a queue implementation *)

Class JobQueue (Q : Type) := {
  jq_enqueue : Q → string → string → jsstr → enqueue_outcome * Q;
  jq_claim : Q → string → option JobRecord * Q;
  jq_complete : Q → string → Q;
  jq_fail : Q → string → Q;
  jq_view : Q → list JobRow;
  jq_wf : Q → Prop;
  jq_view_ok q : jq_wf q → JobSpec.rows_ok (jq_view q);
  jq_enqueue_spec q id type p :
    jq_wf q → let '(o, q') := jq_enqueue q id type p in
    jq_wf q' ∧ (o, jq_view q') = JobSpec.enqueue (jq_view q) id type p;
  jq_claim_spec q type :
    jq_wf q → let '(o, q') := jq_claim q type in jq_wf q' ∧ (o, jq_view q') = JobSpec.claim (jq_view q) type;
  jq_complete_spec q id :
    jq_wf q → jq_wf (jq_complete q id) ∧ jq_view (jq_complete q id) = JobSpec.complete (jq_view q) id;
  jq_fail_spec q id :
    jq_wf q → jq_wf (jq_fail q id) ∧ jq_view (jq_fail q id) = JobSpec.fail (jq_view q) id
}.

(** * In memory (memory/job-queue.ts) *)

Module MemoryQueue.
Abbreviation jobs_t := (list (string * JobRow)).

Definition enqueue (jobs : jobs_t) (id type : string) (p : jsstr) : enqueue_outcome * jobs_t :=
  if JsMap.has id jobs then (job_already_present, jobs)
  else (enqueued, JsMap.set id (fresh_job id type p) jobs).
(* for (const job of jobs.values()): the first claimable job is mutated in place. *)
Fixpoint claim (jobs : jobs_t) (jobType : string) : option JobRecord * jobs_t :=
  match jobs with
  | [] => (None, [])
  | (k, r) :: jobs' =>
      if claimable jobType r then (Some (job (claim_row r)), (k, claim_row r) :: jobs')
      else let '(o, jobs'') := claim jobs' jobType in (o, (k, r) :: jobs'')
  end.
Definition complete (jobs : jobs_t) (jobId : string) : jobs_t := JsMap.delete jobId jobs.
Definition fail (jobs : jobs_t) (jobId : string) : jobs_t :=
  match JsMap.get jobId jobs with
  | Some r => JsMap.set jobId (unclaim_row r) jobs
  | None => jobs
  end.

(* Each row is stored under its own job id, once. *)
Definition jobs_ok (jobs : jobs_t) : Prop := NoDup (JsMap.keys jobs) ∧ Forall (λ kr, kr.1 = row_id kr.2) jobs.

Lemma jobs_ok_ids jobs : jobs_ok jobs → row_id <$> JsMap.values jobs = JsMap.keys jobs.
Proof.
  intros [_ Hall]. induction Hall as [|[k r] jobs Hk _ IH]; [done|]. simpl in Hk. unfold JsMap.values, JsMap.keys in *.
  rewrite !fmap_cons, IH. simpl. by rewrite Hk.
Qed.
Lemma rows_existsb_has jobs id :
  jobs_ok jobs → existsb (λ r, row_id r === id) (JsMap.values jobs) = JsMap.has id jobs.
Proof.
  intros [_ Hall]. unfold JsMap.has. induction Hall as [|[k r] jobs Hk _ IH]; [done|].
  change (JsMap.values ((k, r) :: jobs)) with (r :: JsMap.values jobs). simpl in *. subst k. rewrite IH.
  destruct (decide (id = row_id r)) as [->|Hne]; [by rewrite bool_decide_true|].
  rewrite bool_decide_false by congruence. done.
Qed.
Lemma claim_view jobs t :
  ((claim jobs t).1, JsMap.values (claim jobs t).2) = JobSpec.claim (JsMap.values jobs) t ∧
  JsMap.keys (claim jobs t).2 = JsMap.keys jobs ∧
  (Forall (λ kr, kr.1 = row_id kr.2) jobs → Forall (λ kr, kr.1 = row_id kr.2) (claim jobs t).2).
Proof.
  induction jobs as [|[k r] jobs (IH1 & IH2 & IH3)]; [done|].
  change (JsMap.values ((k, r) :: jobs)) with (r :: JsMap.values jobs). simpl.
  destruct (claimable t r); simpl.
  - split_and!; [done..|]. inversion 1; subst. by constructor.
  - destruct (claim jobs t) as [o jobs1]. simpl in *. rewrite <- IH1. split_and!; [done|unfold JsMap.keys in *; simpl; f_equal; apply IH2|].
    inversion 1; subst. constructor; auto.
Qed.
Lemma delete_view jobs id :
  Forall (λ kr, kr.1 = row_id kr.2) jobs →
  JsMap.values (JsMap.delete id jobs) = JobSpec.complete (JsMap.values jobs) id ∧
  Forall (λ kr, kr.1 = row_id kr.2) (JsMap.delete id jobs).
Proof.
  induction 1 as [|[k r] jobs Hk _ (IH1 & IH2)]; [done|]. simpl in Hk. subst k.
  change (JsMap.values ((row_id r, r) :: jobs)) with (r :: JsMap.values jobs). simpl.
  destruct (decide (id = row_id r)) as [->|Hne]; [by rewrite bool_decide_true|].
  rewrite bool_decide_false by congruence. simpl. rewrite <- IH1. split; [done|by constructor].
Qed.
Lemma fail_view jobs id :
  jobs_ok jobs → JsMap.values (fail jobs id) = JobSpec.fail (JsMap.values jobs) id ∧ jobs_ok (fail jobs id).
Proof.
  intros [Hnd Hall]. unfold fail.
  assert (∀ r, JsMap.get id jobs = Some r →
    JsMap.values (JsMap.set id (unclaim_row r) jobs) = JobSpec.fail (JsMap.values jobs) id ∧
    Forall (λ kr, kr.1 = row_id kr.2) (JsMap.set id (unclaim_row r) jobs)) as Hset.
  { clear -Hnd Hall. induction Hall as [|[k r0] jobs Hk Hall IH]; [done|]. intros r. simpl in Hk. subst k.
    rewrite JsMap.keys_cons, NoDup_cons in Hnd. destruct Hnd as [Hni Hnd].
    change (JsMap.values ((row_id r0, r0) :: jobs)) with (r0 :: JsMap.values jobs). simpl.
    destruct (decide (id = row_id r0)) as [->|Hne].
    - intros [= ->]. rewrite bool_decide_true by done. split; [|by constructor]. unfold JsMap.values. simpl. f_equal.
      clear -Hni Hall. induction Hall as [|[k r1] jobs Hk _ IH]; [done|]. simpl in Hk. subst k.
      rewrite JsMap.keys_cons, not_elem_of_cons in Hni. simpl. rewrite bool_decide_false by (intros E0; by destruct Hni).
      destruct Hni. f_equal. by apply IH.
    - intros Hg. destruct (IH Hnd r Hg) as [IH1 IH2]. rewrite bool_decide_false by congruence.
      split; [|by constructor]. unfold JsMap.values in *. simpl. f_equal. apply IH1. }
  destruct (JsMap.get id jobs) as [r|] eqn:Hg.
  - destruct (Hset r eq_refl). split; [done|]. split; [by apply JsMap.NoDup_keys_set|done].
  - split; [|done]. apply JsMap.get_None in Hg. clear -Hg Hall.
    induction Hall as [|[k r1] jobs Hk _ IH]; [done|]. simpl in Hk. subst k.
    rewrite JsMap.keys_cons, not_elem_of_cons in Hg. unfold JsMap.values in *. simpl.
    rewrite bool_decide_false by (intros E0; by destruct Hg). f_equal. apply IH. tauto.
Qed.

#[export] Instance queue : JobQueue jobs_t.
Proof.
  refine {| jq_enqueue := enqueue; jq_claim := claim; jq_complete := complete; jq_fail := fail;
            jq_view := JsMap.values; jq_wf := jobs_ok |}.
  - intros q Hq. unfold JobSpec.rows_ok. rewrite jobs_ok_ids by done. apply Hq.
  - intros q id t p Hq. unfold enqueue, JobSpec.enqueue. rewrite rows_existsb_has by done.
    destruct (JsMap.has id q) eqn:Hh; [done|]. apply JsMap.has_false in Hh. destruct Hq as [Hnd Hall].
    rewrite JsMap.set_fresh by done. split; [split|].
    + rewrite <- JsMap.set_fresh by done. by apply JsMap.NoDup_keys_set.
    + apply Forall_app. split; [done|]. by constructor.
    + unfold JsMap.values. by rewrite fmap_app.
  - intros q t [Hnd Hall]. destruct (claim_view q t) as (H1 & H2 & H3).
    destruct (claim q t) as [o q']. simpl in *. split; [|done]. split; [by rewrite H2|by apply H3].
  - intros q id [Hnd Hall]. destruct (delete_view q id Hall). split; [|done]. split; [by apply JsMap.NoDup_keys_delete|done].
  - intros q id Hq. destruct (fail_view q id Hq). done.
Defined.
End MemoryQueue.

(** * On Postgres (postgres/job-queue.ts) *)

Module PostgresQueue.
Record PgJob := { pg_job : JobRecord; enqueued_at : Z; claimed_at : option Z }.
(* The job table and the clock of now(), in microseconds; every statement runs at
   its own instant. *)
Record table := { job_rows : list PgJob; now : Z }.

Definition pg_id (r : PgJob) : string := job_id (pg_job r).
Definition unclaimed_of (jobType : string) (r : PgJob) : bool :=
  ((job_type (pg_job r) === jobType) && (claimed_at r === None))%bool.

Definition tick (t : table) (rows : list PgJob) : table := {| job_rows := rows; now := now t + 1 |}.

Definition enqueue (t : table) (id type : string) (p : jsstr) : enqueue_outcome * table :=
  if existsb (λ r, pg_id r === id) (job_rows t) then (job_already_present, tick t (job_rows t))
  else (enqueued, tick t (job_rows t ++ [{| pg_job := job (fresh_job id type p); enqueued_at := now t; claimed_at := None |}])).

(* SELECT job_id ... WHERE job_type = $1 AND claimed_at IS NULL ORDER BY enqueued_at LIMIT 1 *)
Definition select_claimable (rows : list PgJob) (jobType : string) : option string :=
  pg_id <$> head (sortBy (λ a b, enqueued_at a - enqueued_at b) (List.filter (unclaimed_of jobType) rows)).
Definition claim_pg_row (at_ : Z) (r : PgJob) : PgJob :=
  {| pg_job := {| job_id := job_id (pg_job r); job_type := job_type (pg_job r); payload := payload (pg_job r);
                  attempts := attempts (pg_job r) + 1 |};
     enqueued_at := enqueued_at r; claimed_at := Some at_ |}.
(* UPDATE job SET claimed_at = now(), attempts = attempts + 1 WHERE job_id = ... RETURNING ... *)
Definition claim (t : table) (jobType : string) : option JobRecord * table :=
  match select_claimable (job_rows t) jobType with
  | None => (None, tick t (job_rows t))
  | Some id =>
      let rows' := List.map (λ r, if pg_id r === id then claim_pg_row (now t) r else r) (job_rows t) in
      (pg_job <$> List.find (λ r, pg_id r === id) rows', tick t rows')
  end.
Definition complete (t : table) (jobId : string) : table :=
  tick t (List.filter (λ r, pg_id r !== jobId) (job_rows t)).
Definition unclaim_pg_row (r : PgJob) : PgJob :=
  {| pg_job := pg_job r; enqueued_at := enqueued_at r; claimed_at := None |}.
Definition fail (t : table) (jobId : string) : table :=
  tick t (List.map (λ r, if pg_id r === jobId then unclaim_pg_row r else r) (job_rows t)).

Definition stale (t : table) (olderThanSeconds : Z) (r : PgJob) : bool :=
  match claimed_at r with
  | None => false
  | Some at_ => at_ <? now t - olderThanSeconds * 1000000
  end.
Definition releaseStaleJobClaims (t : table) (olderThanSeconds : Z) : Z * table :=
  (Z.of_nat (length (List.filter (stale t olderThanSeconds) (job_rows t))),
   tick t (List.map (λ r, if stale t olderThanSeconds r then unclaim_pg_row r else r) (job_rows t))).

Definition row_view (r : PgJob) : JobRow := {| job := pg_job r; claimed := claimed_at r !== None |}.
Definition view (t : table) : list JobRow := List.map row_view (job_rows t).
Definition table_ok (t : table) : Prop :=
  NoDup (pg_id <$> job_rows t) ∧ StronglySorted (λ a b, enqueued_at a < enqueued_at b) (job_rows t) ∧
  Forall (λ r, enqueued_at r < now t) (job_rows t).

Lemma view_ids t : row_id <$> view t = pg_id <$> job_rows t.
Proof. unfold view. induction (job_rows t) as [|r rows IH]; [done|]. simpl. f_equal. apply IH. Qed.
Lemma existsb_view rows id :
  existsb (λ r, row_id r === id) (List.map row_view rows) = existsb (λ r, pg_id r === id) rows.
Proof. induction rows as [|r rows IH]; [done|]. simpl. by rewrite IH. Qed.
Lemma claimable_view t r : claimable t (row_view r) = unclaimed_of t r.
Proof. unfold claimable, unclaimed_of, row_view. simpl. by rewrite negb_involutive. Qed.

Lemma sorted_filter {A} (R : A → A → Prop) (p : A → bool) l : StronglySorted R l → StronglySorted R (List.filter p l).
Proof.
  induction 1 as [|x l _ IH Hx]; [constructor|]. simpl. destruct (p x); [|done]. constructor; [done|].
  rewrite Forall_forall in Hx |- *. intros y Hy. apply Hx. apply list_elem_of_In in Hy. apply filter_In in Hy as [? _].
  by apply list_elem_of_In.
Qed.
Lemma select_claimable_head rows t :
  StronglySorted (λ a b, enqueued_at a < enqueued_at b) rows →
  select_claimable rows t = pg_id <$> head (List.filter (unclaimed_of t) rows).
Proof.
  intros Hs. unfold select_claimable. rewrite sortBy_id; [done|].
  by apply (strictly_sorted_sorted enqueued_at), sorted_filter.
Qed.

Lemma claim_view_rows at_ rows t :
  NoDup (pg_id <$> rows) →
  match pg_id <$> head (List.filter (unclaimed_of t) rows) with
  | None => JobSpec.claim (List.map row_view rows) t = (None, List.map row_view rows)
  | Some id =>
      id ∈ (pg_id <$> rows) ∧
      let rows' := List.map (λ r, if pg_id r === id then claim_pg_row at_ r else r) rows in
      JobSpec.claim (List.map row_view rows) t = (pg_job <$> List.find (λ r, pg_id r === id) rows', List.map row_view rows')
  end.
Proof.
  induction rows as [|r rows IH]; [done|]. rewrite fmap_cons, NoDup_cons. intros [Hr Hnd]. specialize (IH Hnd).
  simpl. rewrite claimable_view. destruct (unclaimed_of t r) eqn:Hc; simpl.
  - split; [apply list_elem_of_here|]. rewrite (bool_decide_true (pg_id r = pg_id r)) by done. simpl.
    rewrite (bool_decide_true (pg_id (claim_pg_row at_ r) = pg_id r)) by done. simpl. f_equal. f_equal.
    clear -Hr. induction rows as [|x rows IH]; [done|]. rewrite fmap_cons, not_elem_of_cons in Hr. destruct Hr as [Hx Hr].
    simpl. rewrite bool_decide_false by congruence. f_equal. by apply IH.
  - destruct (pg_id <$> head _) as [id|].
    + destruct IH as [Hid IH]. split; [by apply list_elem_of_further|]. rewrite IH.
      assert (pg_id r ≠ id) as Hne by (intros E1; apply Hr; by rewrite E1).
      rewrite (bool_decide_false (pg_id r = id)) by done. simpl. by rewrite ?(bool_decide_false (pg_id r = id)) by done.
    + by rewrite IH.
Qed.

Lemma map_ok t rows' (f : PgJob → PgJob) :
  table_ok t → (∀ r, pg_id (f r) = pg_id r ∧ enqueued_at (f r) = enqueued_at r) → rows' = List.map f (job_rows t) →
  table_ok (tick t rows').
Proof.
  intros (Hnd & Hs & Hnow) Hf ->. unfold table_ok. simpl. split_and!.
  - assert (pg_id <$> List.map f (job_rows t) = pg_id <$> job_rows t) as ->; [|done].
    clear -Hf. induction (job_rows t) as [|r rows IH]; [done|]. rewrite !fmap_cons. simpl. f_equal; [apply Hf|apply IH].
  - clear -Hs Hf. induction Hs as [|r rows _ IH Hr]; [constructor|]. simpl. constructor; [done|].
    rewrite Forall_forall in Hr |- *. intros y Hy. apply list_elem_of_In, in_map_iff in Hy as (x & <- & Hx).
    apply list_elem_of_In in Hx. destruct (Hf r) as [_ ->], (Hf x) as [_ ->]. by apply Hr.
  - rewrite Forall_forall in Hnow |- *. intros y Hy. apply list_elem_of_In, in_map_iff in Hy as (x & <- & Hx).
    apply list_elem_of_In in Hx. destruct (Hf x) as [_ ->]. specialize (Hnow x Hx). simpl in *. lia.
Qed.
Lemma tick_ok t : table_ok t → table_ok (tick t (job_rows t)).
Proof.
  intros (Hnd & Hs & Hnow). split_and!; [done..|]. eapply Forall_impl; [exact Hnow|]. simpl. lia.
Qed.

#[export] Instance queue : JobQueue table.
Proof.
  refine {| jq_enqueue := enqueue; jq_claim := claim; jq_complete := complete; jq_fail := fail;
            jq_view := view; jq_wf := table_ok |}.
  - intros q Hq. unfold JobSpec.rows_ok. rewrite view_ids. apply Hq.
  - intros q id t p Hq. unfold enqueue, JobSpec.enqueue, view. rewrite existsb_view.
    destruct (existsb _ (job_rows q)) eqn:E0; [split; [by apply tick_ok|done]|].
    destruct Hq as (Hnd & Hs & Hnow). split; [|simpl; by rewrite List.map_app]. split_and!; simpl.
    + rewrite fmap_app. apply NoDup_app. split; [done|]. split; [|apply NoDup_singleton].
      intros x (r & -> & Hr)%list_elem_of_fmap Hx%list_elem_of_singleton.
      apply existsb_false with (x := r) in E0; [|done]. by apply bool_decide_eq_false in E0.
    + clear E0 Hnd. induction Hs as [|r rows _ IH Hr]; simpl; [by repeat constructor|].
      inversion Hnow; subst. constructor; [by apply IH|]. apply Forall_app. split; [done|]. by constructor.
    + apply Forall_app. split; [eapply Forall_impl; [exact Hnow|]; simpl; lia|]. constructor; simpl; [lia|done].
  - intros q t Hq. unfold claim. pose proof Hq as (Hnd & Hs & Hnow). rewrite select_claimable_head by done.
    pose proof (claim_view_rows (now q) (job_rows q) t Hnd) as Hc.
    destruct (pg_id <$> head _) as [id|]; [|split; [by apply tick_ok|symmetry; exact Hc]]. destruct Hc as [_ Hc]. split; [|symmetry; exact Hc].
    eapply (map_ok q _ (λ r, if pg_id r === id then claim_pg_row (now q) r else r)); [done| |done].
    intros r. by case_bool_decide.
  - intros q id Hq. unfold complete, JobSpec.complete, view. split.
    + destruct Hq as (Hnd & Hs & Hnow). split_and!; simpl; [|by apply sorted_filter|].
      * clear -Hnd. induction (job_rows q) as [|r rows IH]; [done|]. rewrite fmap_cons, NoDup_cons in Hnd.
        destruct Hnd as [Hr Hnd]. simpl. destruct (pg_id r !== id); [|by apply IH]. rewrite fmap_cons, NoDup_cons.
        split; [|by apply IH]. intros (x & Hx & Hin)%list_elem_of_fmap. apply Hr, list_elem_of_fmap. exists x.
        split; [done|]. apply list_elem_of_In in Hin. apply filter_In in Hin as [? _]. by apply list_elem_of_In.
      * rewrite Forall_forall in Hnow |- *. intros x Hin. apply list_elem_of_In in Hin.
        apply filter_In in Hin as [Hin _]. apply list_elem_of_In in Hin. specialize (Hnow x Hin). simpl in *. lia.
    + simpl. induction (job_rows q) as [|r rows IH]; [done|]. simpl.
      change (row_id (row_view r)) with (pg_id r). destruct (pg_id r !== id); simpl; by rewrite IH.
  - intros q id Hq. unfold fail, JobSpec.fail, view. split.
    + eapply (map_ok q _ (λ r, if pg_id r === id then unclaim_pg_row r else r)); [done| |done].
      intros r. by case_bool_decide.
    + simpl. rewrite !List.map_map. apply List.map_ext. intros r. change (row_id (row_view r)) with (pg_id r).
      by case_bool_decide.
Defined.
End PostgresQueue.

(** * Runs of queue calls *)

Inductive job_op :=
  | OpEnqueue (id type : string) (p : jsstr)
  | OpClaim (type : string)
  | OpComplete (id : string)
  | OpFail (id : string).
Inductive job_out := OutEnqueue (o : enqueue_outcome) | OutClaim (o : option JobRecord) | OutDone | OutReleased (n : Z).

Definition spec_op (rows : list JobRow) (op : job_op) : job_out * list JobRow :=
  match op with
  | OpEnqueue id t p => let '(o, rows') := JobSpec.enqueue rows id t p in (OutEnqueue o, rows')
  | OpClaim t => let '(o, rows') := JobSpec.claim rows t in (OutClaim o, rows')
  | OpComplete id => (OutDone, JobSpec.complete rows id)
  | OpFail id => (OutDone, JobSpec.fail rows id)
  end.
Fixpoint spec_ops (rows : list JobRow) (ops : list job_op) : list job_out * list JobRow :=
  match ops with
  | [] => ([], rows)
  | op :: ops' =>
      let '(o, rows1) := spec_op rows op in
      let '(os, rows2) := spec_ops rows1 ops' in (o :: os, rows2)
  end.

Section runs.
Context {Q : Type} `{JobQueue Q}.
Definition run_op (q : Q) (op : job_op) : job_out * Q :=
  match op with
  | OpEnqueue id t p => let '(o, q') := jq_enqueue q id t p in (OutEnqueue o, q')
  | OpClaim t => let '(o, q') := jq_claim q t in (OutClaim o, q')
  | OpComplete id => (OutDone, jq_complete q id)
  | OpFail id => (OutDone, jq_fail q id)
  end.
Fixpoint run_ops (q : Q) (ops : list job_op) : list job_out * Q :=
  match ops with
  | [] => ([], q)
  | op :: ops' =>
      let '(o, q1) := run_op q op in
      let '(os, q2) := run_ops q1 ops' in (o :: os, q2)
  end.

Lemma run_op_spec q op :
  jq_wf q → jq_wf (run_op q op).2 ∧ ((run_op q op).1, jq_view (run_op q op).2) = spec_op (jq_view q) op.
Proof.
  intros Hq. destruct op as [id t p|t|id|id]; simpl.
  - pose proof (jq_enqueue_spec q id t p Hq) as Hs. destruct (jq_enqueue q id t p) as [o q']. destruct Hs as [? Hs].
    split; [done|]. by rewrite <- Hs.
  - pose proof (jq_claim_spec q t Hq) as Hs. destruct (jq_claim q t) as [o q']. destruct Hs as [? Hs].
    split; [done|]. by rewrite <- Hs.
  - destruct (jq_complete_spec q id Hq) as [? ->]. done.
  - destruct (jq_fail_spec q id Hq) as [? ->]. done.
Qed.
Lemma run_ops_spec q ops :
  jq_wf q → jq_wf (run_ops q ops).2 ∧ ((run_ops q ops).1, jq_view (run_ops q ops).2) = spec_ops (jq_view q) ops.
Proof.
  revert q; induction ops as [|op ops IH]; intros q Hq; [done|]. simpl.
  destruct (run_op_spec q op Hq) as [Hq1 Hs]. destruct (run_op q op) as [o q1]. simpl in *. rewrite <- Hs.
  destruct (IH q1 Hq1) as [Hq2 Hs2]. destruct (run_ops q1 ops) as [os q2]. simpl in *. by rewrite <- Hs2.
Qed.
End runs.

(* The job [id] is in the queue and claimed. *)
Definition held (id : string) (rows : list JobRow) : Prop := ∃ r, r ∈ rows ∧ row_id r = id ∧ claimed r = true.

Lemma spec_op_held id rows op :
  JobSpec.rows_ok rows → held id rows → op ≠ OpComplete id → op ≠ OpFail id →
  held id (spec_op rows op).2 ∧ ∀ j, (spec_op rows op).1 = OutClaim (Some j) → job_id j ≠ id.
Proof.
  intros Hok (r & Hr & Hid & Hc) Hnc Hnf. destruct op as [id' t p|t|id'|id']; simpl.
  - unfold JobSpec.enqueue. destruct (existsb _ _); simpl; (split; [|done]); exists r; [done|].
    split; [|done]. apply elem_of_app. by left.
  - destruct (JobSpec.claim rows t) as [[j|] rows'] eqn:Hcl; simpl.
    2:{ apply JobSpec.claim_None_rows in Hcl as ->. split; [by exists r|done]. }
    apply JobSpec.claim_Some in Hcl as (before & x & after & -> & -> & Hx & -> & _).
    assert (row_id x ≠ id) as Hne.
    { intros Hxid. assert (x = r) as ->.
      { unfold JobSpec.rows_ok in Hok. apply list_elem_of_lookup in Hr as [i Hi].
        assert ((before ++ x :: after) !! length before = Some x) as Hj by (by rewrite list_lookup_middle).
        assert (i = length before) as ->.
        { apply (NoDup_lookup (row_id <$> before ++ x :: after) i (length before) id); [exact Hok|..];
            rewrite list_lookup_fmap; [rewrite Hi|rewrite Hj]; simpl; by f_equal. }
        congruence. }
      unfold claimable in Hx. rewrite Hc in Hx. by rewrite andb_false_r in Hx. }
    split; [|by intros j [= <-]]. exists r. split; [|done].
    apply elem_of_app in Hr as [Hr|[->|Hr]%elem_of_cons]; [apply elem_of_app; by left|done|].
    apply elem_of_app. right. by apply list_elem_of_further.
  - split; [|done]. exists r. split; [|done]. unfold JobSpec.complete. apply list_elem_of_In, filter_In.
    split; [by apply list_elem_of_In|]. rewrite bool_decide_false; [done|]. congruence.
  - split; [|done]. exists r. split; [|done]. unfold JobSpec.fail. apply list_elem_of_In, in_map_iff. exists r.
    split; [|by apply list_elem_of_In]. rewrite bool_decide_false; [done|]. congruence.
Qed.
Lemma spec_op_ok rows op : JobSpec.rows_ok rows → JobSpec.rows_ok (spec_op rows op).2.
Proof.
  intros Hok. destruct op as [id' t p|t|id'|id']; simpl.
  - pose proof (JobSpec.enqueue_ok rows id' t p Hok) as He. by destruct (JobSpec.enqueue rows id' t p).
  - destruct (JobSpec.claim rows t) as [o rows'] eqn:Hc. unfold JobSpec.rows_ok. simpl. by rewrite (JobSpec.claim_ids _ _ _ _ Hc).
  - by apply JobSpec.complete_ok.
  - unfold JobSpec.rows_ok. by rewrite JobSpec.fail_ids.
Qed.
Lemma spec_ops_held id rows ops :
  JobSpec.rows_ok rows → held id rows → (∀ op, op ∈ ops → op ≠ OpComplete id ∧ op ≠ OpFail id) →
  ∀ j, OutClaim (Some j) ∈ (spec_ops rows ops).1 → job_id j ≠ id.
Proof.
  revert rows; induction ops as [|op ops IH]; intros rows Hok Hh Hops j; simpl; [by intros ?%not_elem_of_nil|].
  destruct (Hops op (list_elem_of_here _ _)) as [Hc Hf].
  destruct (spec_op_held id rows op Hok Hh Hc Hf) as [Hh1 Hj1]. pose proof (spec_op_ok rows op Hok) as Hok1.
  destruct (spec_op rows op) as [o rows1]. simpl in *. specialize (IH rows1 Hok1 Hh1).
  destruct (spec_ops rows1 ops) as [os rows2]. simpl in *. intros [Heq|Hin]%elem_of_cons; [by apply Hj1|].
  apply IH; [|done]. intros op' Hop'. by apply Hops, list_elem_of_further.
Qed.

Section queue_theorems.
Context {Q : Type} `{JobQueue Q}.

(** Calls of the queue interface alone hand a claimed job out again only after it was
    completed or failed. The in-memory queue has no other operation. *)
Theorem interface_claim_exclusive (q q1 : Q) type j ops :
  jq_wf q → jq_claim q type = (Some j, q1) →
  (∀ op, op ∈ ops → op ≠ OpComplete (job_id j) ∧ op ≠ OpFail (job_id j)) →
  ∀ j', OutClaim (Some j') ∈ (run_ops q1 ops).1 → job_id j' ≠ job_id j.
Proof.
  intros Hq Hclaim Hops. pose proof (jq_claim_spec q type Hq) as Hs. rewrite Hclaim in Hs. destruct Hs as [Hq1 Hs].
  destruct (run_ops_spec q1 ops Hq1) as [_ Hr]. intros j' Hj'.
  apply (spec_ops_held (job_id j) (jq_view q1) ops); [by apply jq_view_ok| |done|].
  - symmetry in Hs. apply JobSpec.claim_Some in Hs as (b & r & a & _ & -> & _ & -> & _).
    exists (claim_row r). split; [|done]. apply elem_of_app. right. apply list_elem_of_here.
  - rewrite <- Hr. done.
Qed.
End queue_theorems.

#[export] Existing Instances MemoryQueue.queue PostgresQueue.queue.

(** The in-memory and the Postgres queue answer every sequence of calls alike. *)
Theorem queue_adapters_agree (jobs : list (string * JobRow)) (t : PostgresQueue.table) ops :
  MemoryQueue.jobs_ok jobs → PostgresQueue.table_ok t → JsMap.values jobs = PostgresQueue.view t →
  (run_ops jobs ops).1 = (run_ops t ops).1 ∧
  JsMap.values (run_ops jobs ops).2 = PostgresQueue.view (run_ops t ops).2.
Proof.
  intros Hm Hp Hview. destruct (@run_ops_spec _ MemoryQueue.queue jobs ops Hm) as [_ H1].
  destruct (@run_ops_spec _ PostgresQueue.queue t ops Hp) as [_ H2].
  simpl in H1, H2. rewrite Hview in H1. rewrite <- H2 in H1. by injection H1.
Qed.

(** Releasing stale claims returns exactly the jobs whose claim is older than the
    lease to the queue, keeps their attempts, and reports how many they were. *)
Theorem release_stale_claims_effect (t : PostgresQueue.table) secs n t' :
  PostgresQueue.table_ok t → PostgresQueue.releaseStaleJobClaims t secs = (n, t') →
  PostgresQueue.table_ok t' ∧
  n = Z.of_nat (length (List.filter (PostgresQueue.stale t secs) (PostgresQueue.job_rows t))) ∧
  ∀ r, r ∈ PostgresQueue.job_rows t → ∃ r', r' ∈ PostgresQueue.job_rows t' ∧
    PostgresQueue.pg_job r' = PostgresQueue.pg_job r ∧
    (PostgresQueue.claimed_at r' = None ↔
       PostgresQueue.claimed_at r = None ∨ PostgresQueue.stale t secs r = true).
Proof.
  intros Hok [= <- <-]. split_and!; [|done|].
  - eapply (PostgresQueue.map_ok t _ (λ r, if PostgresQueue.stale t secs r then PostgresQueue.unclaim_pg_row r else r));
      [done| |done]. intros r. by destruct (PostgresQueue.stale t secs r).
  - intros r Hr. exists (if PostgresQueue.stale t secs r then PostgresQueue.unclaim_pg_row r else r).
    split; [simpl; apply list_elem_of_In, in_map_iff; exists r; split; [done|by apply list_elem_of_In]|].
    destruct (PostgresQueue.stale t secs r) eqn:Es; (split; [done|]); simpl; split; auto. by intros [?|?].
Qed.

(** * Runs with the release of stale claims

    The worker releases stale claims between its passes, on Postgres only. A run is
    made of calls of the queue, of such releases, and of time that goes by. *)
Inductive pg_op := PgCall (op : job_op) | PgRelease (olderThanSeconds : Z) | PgElapse (microseconds : N).

Definition pg_run_op (t : PostgresQueue.table) (op : pg_op) : job_out * PostgresQueue.table :=
  match op with
  | PgCall op => run_op t op
  | PgRelease secs => let '(n, t') := PostgresQueue.releaseStaleJobClaims t secs in (OutReleased n, t')
  | PgElapse d =>
      (OutDone, {| PostgresQueue.job_rows := PostgresQueue.job_rows t; PostgresQueue.now := PostgresQueue.now t + Z.of_N d |})
  end.
Fixpoint pg_run (t : PostgresQueue.table) (ops : list pg_op) : list job_out * PostgresQueue.table :=
  match ops with
  | [] => ([], t)
  | op :: ops' =>
      let '(o, t1) := pg_run_op t op in
      let '(os, t2) := pg_run t1 ops' in (o :: os, t2)
  end.
(* An operation that gives the job [id], claimed at the instant [at_], back to the
   queue or removes it: it is completed or failed, or a release finds the claim
   older than its lease. *)
Definition lets_go (id : string) (at_ : Z) (t : PostgresQueue.table) (op : pg_op) : bool :=
  match op with
  | PgCall (OpComplete id') | PgCall (OpFail id') => id' === id
  | PgRelease secs => at_ <? PostgresQueue.now t - secs * 1000000
  | _ => false
  end.
(* Some operation of the run lets the job go. *)
Fixpoint some_lets_go (id : string) (at_ : Z) (t : PostgresQueue.table) (ops : list pg_op) : bool :=
  match ops with
  | [] => false
  | op :: ops' => (lets_go id at_ t op || some_lets_go id at_ (pg_run_op t op).2 ops')%bool
  end.
(* The job [id] is in the table, claimed at [at_]. *)
Definition held_since (id : string) (at_ : Z) (t : PostgresQueue.table) : Prop :=
  ∃ r, r ∈ PostgresQueue.job_rows t ∧ PostgresQueue.pg_id r = id ∧ PostgresQueue.claimed_at r = Some at_.

Lemma held_since_held id at_ t : held_since id at_ t → held id (PostgresQueue.view t).
Proof.
  intros (r & Hr & Hid & Hc). exists (PostgresQueue.row_view r). split_and!; [|done|].
  - apply list_elem_of_In, in_map, list_elem_of_In, Hr.
  - simpl. by rewrite Hc.
Qed.
Lemma held_since_map id at_ t (f : PostgresQueue.PgJob → PostgresQueue.PgJob) :
  (∀ r, PostgresQueue.pg_id r = id → PostgresQueue.claimed_at r = Some at_ → f r = r) →
  held_since id at_ t → held_since id at_ (PostgresQueue.tick t (List.map f (PostgresQueue.job_rows t))).
Proof.
  intros Hf (r & Hr & Hid & Hc). exists r. split; [|done]. simpl. apply list_elem_of_In, in_map_iff. exists r.
  split; [by apply Hf|by apply list_elem_of_In].
Qed.
Lemma claim_selects t type id :
  PostgresQueue.table_ok t → PostgresQueue.select_claimable (PostgresQueue.job_rows t) type = Some id →
  ∃ r, r ∈ PostgresQueue.job_rows t ∧ PostgresQueue.pg_id r = id ∧ PostgresQueue.claimed_at r = None.
Proof.
  intros (_ & Hs & _). rewrite PostgresQueue.select_claimable_head by done.
  destruct (List.filter _ _) as [|r l] eqn:Hf; [done|]. intros [= <-]. exists r.
  assert (In r (List.filter (PostgresQueue.unclaimed_of type) (PostgresQueue.job_rows t))) as [Hin Hu]%filter_In
    by (rewrite Hf; by left).
  unfold PostgresQueue.unclaimed_of in Hu. bool_simpl. split_and!; [by apply list_elem_of_In|done|done].
Qed.
Lemma held_not_unclaimed id at_ t r :
  PostgresQueue.table_ok t → held_since id at_ t → r ∈ PostgresQueue.job_rows t → PostgresQueue.claimed_at r = None →
  PostgresQueue.pg_id r ≠ id.
Proof.
  intros (Hnd & _) (x & [i Hi]%list_elem_of_lookup & <- & Hc) [j Hj]%list_elem_of_lookup Hn E0.
  assert (i = j) as ->; [|congruence].
  eapply (NoDup_lookup _ _ _ _ Hnd); rewrite list_lookup_fmap; [by rewrite Hi|]. rewrite Hj. simpl. by f_equal.
Qed.

Lemma pg_run_op_ok t op : PostgresQueue.table_ok t → PostgresQueue.table_ok (pg_run_op t op).2.
Proof.
  intros Hok. destruct op as [op|secs|d]; simpl.
  - by apply (@run_op_spec _ PostgresQueue.queue).
  - eapply (PostgresQueue.map_ok t _ (λ r, if PostgresQueue.stale t secs r then PostgresQueue.unclaim_pg_row r else r));
      [done| |done]. intros r. by destruct (PostgresQueue.stale t secs r).
  - destruct Hok as (Hnd & Hs & Hnow). split_and!; [done..|]. eapply Forall_impl; [exact Hnow|]. simpl. lia.
Qed.
Lemma pg_run_op_held id at_ t op :
  PostgresQueue.table_ok t → held_since id at_ t → lets_go id at_ t op = false → held_since id at_ (pg_run_op t op).2.
Proof.
  intros Hok Hh Hl. destruct op as [[id' type p|type|id'|id']|secs|d]; simpl in *.
  - unfold PostgresQueue.enqueue. destruct Hh as (r & Hr & ?). destruct (existsb _ _); exists r; [done|].
    split; [|done]. simpl. apply elem_of_app. by left.
  - unfold PostgresQueue.claim. destruct (PostgresQueue.select_claimable _ _) as [id'|] eqn:Hsel; [|done].
    destruct (claim_selects _ _ _ Hok Hsel) as (x & Hx & <- & Hn).
    pose proof (held_not_unclaimed _ _ _ _ Hok Hh Hx Hn) as Hne. apply held_since_map; [|done].
    intros r Hr _. rewrite bool_decide_false; [done|]. congruence.
  - destruct Hh as (r & Hr & Hid & Hc). exists r. split; [|done]. simpl. apply list_elem_of_In, filter_In.
    split; [by apply list_elem_of_In|]. apply bool_decide_eq_false in Hl. rewrite bool_decide_false; [done|]. congruence.
  - apply bool_decide_eq_false in Hl. apply held_since_map; [|done]. intros r Hr _.
    rewrite bool_decide_false; [done|]. congruence.
  - apply held_since_map; [|done]. intros r _ Hc. unfold PostgresQueue.stale. by rewrite Hc, Hl.
  - exact Hh.
Qed.
Lemma pg_run_op_not_again id at_ t op j :
  PostgresQueue.table_ok t → held_since id at_ t → lets_go id at_ t op = false →
  (pg_run_op t op).1 = OutClaim (Some j) → job_id j ≠ id.
Proof.
  intros Hok Hh Hl. destruct op as [op|secs|d]; [|done..]. simpl. intros Hout.
  pose proof (run_op_spec t op Hok) as [_ Hs]. rewrite Hout in Hs.
  apply (spec_op_held id (PostgresQueue.view t) op); [by apply (@jq_view_ok _ PostgresQueue.queue)|by eapply held_since_held|..].
  - intros ->. simpl in Hl. by rewrite bool_decide_true in Hl.
  - intros ->. simpl in Hl. by rewrite bool_decide_true in Hl.
  - change (jq_view t) with (PostgresQueue.view t) in Hs. by rewrite <- Hs.
Qed.

(** C38. On Postgres, whatever calls of the queue and releases of stale claims follow a
    claim and however much time goes by between them: while the job is not completed
    or failed and no release finds its claim older than the lease of that release, the
    job is not handed out again. *)
Theorem claim_is_exclusive (t t1 : PostgresQueue.table) type j ops :
  PostgresQueue.table_ok t → PostgresQueue.claim t type = (Some j, t1) →
  some_lets_go (job_id j) (PostgresQueue.now t) t1 ops = false →
  ∀ j', OutClaim (Some j') ∈ (pg_run t1 ops).1 → job_id j' ≠ job_id j.
Proof.
  intros Hok Hclaim.
  pose proof (pg_run_op_ok t (PgCall (OpClaim type)) Hok) as Hok1. simpl in Hok1. rewrite Hclaim in Hok1. simpl in Hok1.
  assert (held_since (job_id j) (PostgresQueue.now t) t1) as Hheld.
  { unfold PostgresQueue.claim in Hclaim. destruct (PostgresQueue.select_claimable _ _) as [id|] eqn:Hsel; [|done].
    injection Hclaim as Hfind <-. destruct (List.find _ _) as [r|] eqn:Hf; [|done]. injection Hfind as <-.
    apply find_Some_elem in Hf as [Hin Hid]. bool_simpl. exists r. split; [done|]. split; [done|].
    apply list_elem_of_In, in_map_iff in Hin as (x & <- & Hx). case_bool_decide as Hxid; [done|]. by rewrite Hid in Hxid. }
  clear Hclaim Hok. revert t1 Hok1 Hheld. induction ops as [|op ops IH]; intros t1 Hok1 Hheld Hgo j'; simpl in *.
  { by intros ?%not_elem_of_nil. }
  apply orb_false_iff in Hgo as [Hl Hgo].
  pose proof (pg_run_op_ok t1 op Hok1) as Hok2. pose proof (pg_run_op_held _ _ _ _ Hok1 Hheld Hl) as Hheld2.
  pose proof (λ j', pg_run_op_not_again _ _ _ _ j' Hok1 Hheld Hl) as Hout.
  destruct (pg_run_op t1 op) as [o t2]. simpl in *. specialize (IH t2 Hok2 Hheld2 Hgo).
  destruct (pg_run t2 ops) as [os t3]. simpl in *. intros [Heq|Hin]%elem_of_cons; [by apply Hout|by apply IH].
Qed.

Module QueueSamples.
Definition jobs0 : list (string * JobRow) := [].
Definition t0 : PostgresQueue.table := {| PostgresQueue.job_rows := []; PostgresQueue.now := 1000000 |}.
Definition ops1 := [OpEnqueue "a" "t" []; OpEnqueue "b" "t" []; OpEnqueue "a" "t" [1]].
Definition t1 : PostgresQueue.table := Eval vm_compute in (run_ops t0 ops1).2.
Definition t2 : PostgresQueue.table := Eval vm_compute in (PostgresQueue.claim t1 "t").2.

Lemma t0_ok : PostgresQueue.table_ok t0.
Proof. split_and!; constructor. Qed.
Lemma t1_ok : PostgresQueue.table_ok t1.
Proof. apply (@run_ops_spec _ PostgresQueue.queue t0 ops1 t0_ok). Qed.
Lemma t2_ok : PostgresQueue.table_ok t2.
Proof. pose proof (@jq_claim_spec _ PostgresQueue.queue t1 "t" t1_ok) as Hs. apply Hs. Qed.

Lemma claim_is_exclusive_witness :
  job_id {| job_id := "b"; job_type := "t"; payload := []; attempts := 1 |} ≠ "a".
Proof.
  apply (claim_is_exclusive t1 t2 "t" {| job_id := "a"; job_type := "t"; payload := []; attempts := 1 |}
    [PgElapse 899999999; PgRelease 900; PgCall (OpEnqueue "c" "t" []); PgCall (OpClaim "t")]).
  - exact t1_ok.
  - reflexivity.
  - vm_compute. reflexivity.
  - vm_compute. do 3 apply list_elem_of_further. apply list_elem_of_here.
Defined.
Lemma interface_claim_exclusive_witness :
  job_id {| job_id := "b"; job_type := "t"; payload := []; attempts := 1 |} ≠ "a".
Proof.
  apply (@interface_claim_exclusive _ PostgresQueue.queue t1 t2 "t" {| job_id := "a"; job_type := "t"; payload := []; attempts := 1 |}
    [OpEnqueue "c" "t" []; OpClaim "t"]); [exact t1_ok|reflexivity| |].
  - intros op. rewrite !elem_of_cons, elem_of_nil. intros [->|[->|[]]]; done.
  - vm_compute. apply elem_of_cons. right. apply list_elem_of_here.
Defined.
(* A release whose lease the claim has outlived hands the job out again, although
   its worker has neither completed nor failed it. *)
Example slow_worker_loses_claim :
  (pg_run t2 [PgElapse 900000000; PgRelease 900; PgCall (OpClaim "t")]).1 =
    [OutDone; OutReleased 1; OutClaim (Some {| job_id := "a"; job_type := "t"; payload := []; attempts := 2 |})].
Proof. vm_compute. reflexivity. Qed.
Lemma queue_adapters_agree_witness : (run_ops jobs0 ops1).1 = (run_ops t0 ops1).1.
Proof.
  apply (queue_adapters_agree jobs0 t0 ops1); [split; constructor|exact t0_ok|reflexivity].
Defined.
Lemma release_stale_claims_effect_witness :
  PostgresQueue.table_ok (PostgresQueue.releaseStaleJobClaims t2 (-1)).2.
Proof.
  destruct (release_stale_claims_effect t2 (-1) 1 (PostgresQueue.releaseStaleJobClaims t2 (-1)).2) as [Hok _];
    [exact t2_ok|reflexivity|exact Hok].
Defined.
End QueueSamples.
