(* ===== verification/Retention.v ===== *)
(** Retention expiry (packages/evidence-store/src/retention-expiry.ts): enqueueing
    the purges that are due, and draining them. Proved against the interfaces of the
    job queue and of the artifact store. Identifiers and digests are ASCII. *)
From S2P Require Import Prelude Patterns Bytes CanonicalRows Json JsonText CanonicalJson ProtocolTypes Envelope ArtifactStore JobQueue.

Local Open Scope Z_scope.

Definition RETENTION_EXPIRY_JOB_TYPE : string := "retention_expiry".

Definition retentionPolicyForClassification (classification : StoredObjectClassification)
    (retentionRecord : option RetentionOptInRecord) : bool :=
  negb ((source_derived_class classification === customer_opt_in_retained_source) &&
        (retentionRecord === None)).

Definition expiryDeletionEvidenceId (artifactDigest : string) : string :=
  ("deletion_evidence:exp_" +:+ slice 7 31 artifactDigest)%string.
Definition expiryVerifiedId (artifactDigest : string) : string :=
  (expiryDeletionEvidenceId artifactDigest +:+ "_verified")%string.

Definition is_sha256_ref (ref : string) : bool := startsWith "sha256:" ref.

(* JSON.stringify of the job payload. *)
Definition expiry_payload (record : RetentionOptInRecord) (digests : list string) : jsstr :=
  JSON_stringify (JObject [
    (js "retention_record_id", JString (js (retention_record_id record)));
    (js "end_timestamp", JString (js (end_timestamp record)));
    (js "artifact_digests", JArray (List.map (λ d, JString (js d)) digests))]).

(** * The artifact store as the purge sees it *)

(* A delete may answer not_verified, the bytes being still there (ports.ts); only the
   answer deleted says that they are gone. *)
Class PurgeableArtifacts (S : Type) := {
  ar_delete : S → string → DeletionEvidence → throws DeletionOutcome * S;
  ar_has : S → string → bool;
  ar_delete_gone s d e v s' : ar_delete s d e = (Ret (deleted v), s') → ar_has s' d = false;
  ar_delete_mono s d e o s' d' : ar_delete s d e = (o, s') → ar_has s d' = false → ar_has s' d' = false
}.

#[export] Instance memory_artifacts : PurgeableArtifacts memory_store.
Proof.
  refine {| ar_delete s d e := let '(o, s') := memory_delete s d e in (Ret o, s');
            ar_has s d := JsMap.has d (objects s) |}.
  - intros s d e o s'. unfold memory_delete.
    assert (JsMap.has d (JsMap.delete d (objects s)) = false) as -> by (apply JsMap.has_false, JsMap.get_delete_eq).
    intros [= _ <-]. apply JsMap.has_false, JsMap.get_delete_eq.
  - intros s d e o s' d'. unfold memory_delete. intros Hd Hh%JsMap.has_false. apply JsMap.has_false.
    destruct (JsMap.has d _); injection Hd as _ <-; simpl; rewrite JsMap.get_delete; by case_decide.
Defined.

Section postgres_artifacts.
Context `{CanonicalRows DeletionEvidence}.
#[export] Instance postgres_artifacts : PurgeableArtifacts postgres_store.
Proof.
  refine {| ar_delete := postgres_delete; ar_has s d := fs_has (files s) d |}.
  - intros s d e v s'. unfold postgres_delete.
    destruct (toCanonicalRow _); [|done]. destruct (fs_has (fs_remove (files s) d) d) eqn:Hg; [done|].
    destruct (toCanonicalRow _); [|done]. by intros [= _ <-].
  - intros s d e o s' d'. unfold postgres_delete.
    assert (fs_has (files s) d' = false → fs_has (fs_remove (files s) d) d' = false) as Hmono.
    { unfold fs_has, fs_remove. rewrite !JsMap.has_false, JsMap.get_delete. by case_decide. }
    destruct (toCanonicalRow _); [|by intros [= _ <-]].
    destruct (fs_has _ d); [|destruct (toCanonicalRow _)]; intros [= _ <-]; exact Hmono.
Defined.
End postgres_artifacts.

(** * catchUpRetentionExpiry *)

Section catch_up.
Context {Q : Type} `{JobQueue Q}.
(* input.artifacts?.findDeletionEvidence *)
Variable findDeletionEvidence : option (string → throws (option DeletionEvidence)).

Definition sha256_refs (record : RetentionOptInRecord) : list string :=
  List.filter is_sha256_ref (retained_artifact_refs record).

(* await Promise.all over the digests *)
Fixpoint all_verified (find : string → throws (option DeletionEvidence)) (digests : list string) : throws bool :=
  match digests with
  | [] => Ret true
  | d :: ds =>
      e ← find (expiryVerifiedId d);
      rest ← all_verified find ds;
      Ret ((match e with Some e => verification_status e === verified | None => false end) && rest)%bool
  end.

Record catch_up_counts := { enqueued_count : Z; already_purged : Z }.

Definition catch_up_one (record : RetentionOptInRecord) (q : Q) (c : catch_up_counts) : throws catch_up_counts * Q :=
  let digests := sha256_refs record in
  match (match findDeletionEvidence with
         | Some find => all_verified find digests
         | None => Ret false
         end) with
  | Throw e => (Throw e, q)
  | Ret true => (Ret {| enqueued_count := enqueued_count c; already_purged := already_purged c + 1 |}, q)
  | Ret false =>
      let '(o, q') := jq_enqueue q (retention_record_id record) RETENTION_EXPIRY_JOB_TYPE (expiry_payload record digests) in
      (Ret (if o === enqueued then {| enqueued_count := enqueued_count c + 1; already_purged := already_purged c |} else c), q')
  end.
Fixpoint catch_up_loop (due : list RetentionOptInRecord) (q : Q) (c : catch_up_counts) : throws catch_up_counts * Q :=
  match due with
  | [] => (Ret c, q)
  | record :: due' =>
      match catch_up_one record q c with
      | (Throw e, q') => (Throw e, q')
      | (Ret c', q') => catch_up_loop due' q' c'
      end
  end.
Definition catchUpRetentionExpiry (listDue : string → throws (list RetentionOptInRecord)) (q : Q) (now : string)
    : throws catch_up_counts * Q :=
  match listDue now with
  | Throw e => (Throw e, q)
  | Ret due => catch_up_loop due q {| enqueued_count := 0; already_purged := 0 |}
  end.
End catch_up.

(** * processRetentionExpiryJob *)

(* A property of the parsed payload; null has none and throws. *)
Definition payload_field (p : json) (name : jsstr) : throws (option json) :=
  match p with
  | JNull => Throw "TypeError"
  | JObject fs => Ret (JsMap.get name fs)
  | _ => Ret None
  end.
(* digests.filter((digest) => digest.startsWith("sha256:")) *)
Fixpoint filter_digests (l : list json) : throws (list string) :=
  match l with
  | [] => Ret []
  | JString d :: l' =>
      rest ← filter_digests l';
      Ret (if is_sha256_ref (ascii_text d) then ascii_text d :: rest else rest)
  | _ :: _ => Throw "TypeError"
  end.

Record process_counts := { processed : Z; refused : list string; failed : list string }.

Section process.
Context {Q S : Type} `{JobQueue Q} `{PurgeableArtifacts S}.
Variable findRecord : string → throws (option RetentionOptInRecord).
Variable now : string.
Variable actor : ActorReference.

Definition expiry_evidence (artifactDigest : string) : DeletionEvidence := {|
  deletion_evidence_id := expiryDeletionEvidenceId artifactDigest;
  deleted_artifact_digests := [artifactDigest];
  deletion_method := expiry_purge;
  deletion_timestamp := now;
  deletion_actor := actor;
  verification_status := unverified;
  supersedes_deletion_evidence_ref := None
|}.
(* The body of the try block; false when a delete threw. *)
Fixpoint delete_all (s : S) (digests : list string) : bool * S :=
  match digests with
  | [] => (true, s)
  | d :: ds =>
      match ar_delete s d (expiry_evidence d) with
      | (Throw _, s') => (false, s')
      | (Ret _, s') => delete_all s' ds
      end
  end.

(* One turn of the loop: it returns, or goes on with a new state. *)
Inductive turn :=
  | Return (result : throws process_counts) (q : Q) (s : S)
  | Continue (c : process_counts) (q : Q) (s : S).

Definition refuse (c : process_counts) : process_counts :=
  {| processed := processed c; refused := refused c ++ ["missing_policy"%string]; failed := failed c |}.

Definition process_turn (q : Q) (s : S) (c : process_counts) : turn :=
  match jq_claim q RETENTION_EXPIRY_JOB_TYPE with
  | (None, q) => Return (Ret c) q s
  | (Some j, q) =>
    match (p ← JSON_parse (payload j);
           e ← payload_field p (js "end_timestamp");
           r ← payload_field p (js "retention_record_id");
           Ret (p, e, r)) with
    | Throw err => Return (Throw err) q s
    | Ret (p, Some (JString endTimestamp), Some (JString recordId)) =>
        if units_ltb (js now) endTimestamp then Continue c (jq_fail q (job_id j)) s
        else match findRecord (ascii_text recordId) with
        | Throw err => Return (Throw err) q s
        | Ret None => Continue (refuse c) (jq_complete q (job_id j)) s
        | Ret (Some _) =>
            match (d ← payload_field p (js "artifact_digests");
                   match d with Some (JArray l) => filter_digests l | _ => Ret [] end) with
            | Throw err => Return (Throw err) q s
            | Ret digests =>
                match delete_all s digests with
                | (false, s') =>
                    Return (Ret {| processed := processed c; refused := refused c; failed := failed c ++ [job_id j] |})
                           (jq_fail q (job_id j)) s'
                | (true, s') =>
                    Continue {| processed := processed c + 1; refused := refused c; failed := failed c |}
                             (jq_complete q (job_id j)) s'
                end
            end
        end
    | Ret _ => Continue (refuse c) (jq_complete q (job_id j)) s
    end
  end.

(* The loop, for at most [fuel] turns; None when it is still running. *)
Fixpoint process_loop (fuel : nat) (q : Q) (s : S) (c : process_counts) : option (throws process_counts * Q * S) :=
  match fuel with
  | O => None
  | Datatypes.S fuel' =>
      match process_turn q s c with
      | Return r q' s' => Some (r, q', s')
      | Continue c' q' s' => process_loop fuel' q' s' c'
      end
  end.
Definition processRetentionExpiryJob (fuel : nat) (q : Q) (s : S) : option (throws process_counts * Q * S) :=
  process_loop fuel q s {| processed := 0; refused := []; failed := [] |}.

(* A payload whose end_timestamp lies after [now]. *)
Definition not_yet_due (p : jsstr) : bool :=
  match (v ← JSON_parse p; e ← payload_field v (js "end_timestamp");
         r ← payload_field v (js "retention_record_id"); Ret (e, r)) with
  | Ret (Some (JString e), Some (JString _)) => units_ltb (js now) e
  | _ => false
  end.
End process.

Definition operatorDeleteArtifact {S} `{PurgeableArtifacts S} (s : S) (digest : string) (actor : ActorReference)
    (now : string) : throws DeletionOutcome * S :=
  let cut := slice 7 31 digest in
  let local := if cut === ""%string then "operator"%string else cut in
  ar_delete s digest {|
    deletion_evidence_id := ("deletion_evidence:op_" +:+ local)%string;
    deleted_artifact_digests := [digest];
    deletion_method := secure_delete;
    deletion_timestamp := now;
    deletion_actor := actor;
    verification_status := unverified;
    supersedes_deletion_evidence_ref := None
  |}.

(** * What a payload asks for *)

(* The record a payload names and the sha256 references it lists; None when it names
   no record or no end of its period. *)
Definition payload_request (p : jsstr) : throws (option (string * list string)) :=
  v ← JSON_parse p;
  e ← payload_field v (js "end_timestamp");
  r ← payload_field v (js "retention_record_id");
  match e, r with
  | Some (JString _), Some (JString r) =>
      d ← payload_field v (js "artifact_digests");
      ds ← match d with Some (JArray l) => filter_digests l | _ => Ret [] end;
      Ret (Some (ascii_text r, ds))
  | _, _ => Ret None
  end.

Lemma filter_digests_js ds :
  filter_digests (List.map (λ d, JString (js d)) ds) = Ret (List.filter is_sha256_ref ds).
Proof.
  induction ds as [|d ds IH]; [done|]. simpl. rewrite IH, ascii_text_js. simpl. by destruct (is_sha256_ref d).
Qed.
Lemma filter_sha256_refs record : List.filter is_sha256_ref (sha256_refs record) = sha256_refs record.
Proof.
  unfold sha256_refs. induction (retained_artifact_refs record) as [|d ds IH]; [done|]. simpl.
  destruct (is_sha256_ref d) eqn:E0; simpl; rewrite ?E0, ?IH; done.
Qed.

Lemma expiry_payload_parses record ds :
  JSON_parse (expiry_payload record ds) = Ret (JObject [
    (js "retention_record_id", JString (js (retention_record_id record)));
    (js "end_timestamp", JString (js (end_timestamp record)));
    (js "artifact_digests", JArray (List.map (λ d, JString (js d)) ds))]).
Proof.
  unfold expiry_payload. apply parse_stringify.
  - cbn [wf_json forallb fst snd].
    assert (forallb wf_json (List.map (λ d, JString (js d)) ds) = true) as ->.
    { rewrite forallb_map. apply forallb_elem. intros d _. apply js_units_ok. }
    rewrite !js_units_ok. by vm_compute.
  - cbn [is_data forallb fst snd].
    assert (forallb is_data (List.map (λ d, JString (js d)) ds) = true) as ->; [|done].
    rewrite forallb_map. by apply forallb_elem.
Qed.

(** A payload that the catch-up wrote asks for the sha256 references of its record. *)
Theorem expiry_payload_read_back record :
  payload_request (expiry_payload record (sha256_refs record)) =
    Ret (Some (retention_record_id record, sha256_refs record)).
Proof.
  unfold payload_request. rewrite expiry_payload_parses. cbn [mbind throws_bind payload_field].
  change (JsMap.get (js "end_timestamp") _) with (Some (JString (js (end_timestamp record)))).
  change (JsMap.get (js "retention_record_id") _) with (Some (JString (js (retention_record_id record)))).
  change (JsMap.get (js "artifact_digests") _) with (Some (JArray (List.map (λ d, JString (js d)) (sha256_refs record)))).
  cbv beta iota. by rewrite filter_digests_js, filter_sha256_refs, ascii_text_js.
Qed.

(** * The drain *)

Section drain.
Context {Q S : Type} `{JobQueue Q} `{PurgeableArtifacts S}.
Variable findRecord : string → throws (option RetentionOptInRecord).
Variable now : string.
Variable actor : ActorReference.

Abbreviation claimable_row := (claimable RETENTION_EXPIRY_JOB_TYPE).

(* The effect of a turn: it claims the first claimable row. *)
Lemma process_turn_cases (q : Q) (s : S) c :
  jq_wf q →
  match process_turn findRecord now actor q s c with
  | Return r q' s' => jq_wf q'
  | Continue c' q' s' =>
      jq_wf q' ∧ ∃ before r after, jq_view q = before ++ r :: after ∧ claimable_row r = true ∧
        (∀ x, x ∈ before → claimable_row x = false) ∧
        if not_yet_due now (payload (job r))
        then c' = c ∧ s' = s ∧ jq_view q' = JobSpec.fail (before ++ claim_row r :: after) (row_id r)
        else jq_view q' = JobSpec.complete (before ++ claim_row r :: after) (row_id r)
  end.
Proof.
  intros Hq. unfold process_turn. pose proof (jq_claim_spec q RETENTION_EXPIRY_JOB_TYPE Hq) as Hs.
  destruct (jq_claim q RETENTION_EXPIRY_JOB_TYPE) as [[j|] q1]; destruct Hs as [Hq1 Hs]; [|done].
  symmetry in Hs. apply JobSpec.claim_Some in Hs as (before & r & after & Hv & Hv1 & Hr & -> & Hb).
  assert (∀ c' s', not_yet_due now (payload (job r)) = false →
    jq_wf (jq_complete q1 (row_id r)) ∧ ∃ before r0 after, jq_view q = before ++ r0 :: after ∧ claimable_row r0 = true ∧
        (∀ x, x ∈ before → claimable_row x = false) ∧
        if not_yet_due now (payload (job r0)) then c' = c ∧ s' = s ∧ jq_view (jq_complete q1 (row_id r)) = JobSpec.fail (before ++ claim_row r0 :: after) (row_id r0)
        else jq_view (jq_complete q1 (row_id r)) = JobSpec.complete (before ++ claim_row r0 :: after) (row_id r0)) as Hdone.
  { intros c' s' Hnd. destruct (jq_complete_spec q1 (row_id r) Hq1) as [Hq2 Hv2]. split; [done|].
    exists before, r, after. split_and!; [done..|]. rewrite Hnd. by rewrite Hv2, Hv1. }
  change (payload (job (claim_row r))) with (payload (job r)). change (job_id (job (claim_row r))) with (row_id r).
  remember (not_yet_due now (payload (job r))) as late eqn:Hlate. pose proof Hlate as Hlate'. unfold not_yet_due in Hlate.
  destruct (JSON_parse (payload (job r))) as [p|] eqn:Hp; [|done].
  cbn [mbind throws_bind] in *. destruct (payload_field p (js "end_timestamp")) as [e|] eqn:He; [|done].
  cbn [mbind throws_bind] in *. destruct (payload_field p (js "retention_record_id")) as [rid|] eqn:Hrid; [|done].
  cbn [mbind throws_bind] in *.
  destruct e as [[]|]; try (by apply Hdone). destruct rid as [[]|]; try (by apply Hdone). rewrite <- Hlate.
  destruct late.
  - destruct (jq_fail_spec q1 (row_id r) Hq1) as [Hq2 Hv2]. split; [done|]. exists before, r, after.
    split_and!; [done..|]. rewrite <- Hlate'. split_and!; [done..|]. by rewrite Hv2, Hv1.
  - destruct (findRecord _) as [[rec|]|]; [|by apply Hdone|done].
    destruct (d ← payload_field p (js "artifact_digests"); _) as [ds|]; [|done].
    destruct (delete_all now actor s ds) as [[] s']; [by apply Hdone|]. by apply jq_fail_spec.
Qed.

Lemma complete_shorter before r after :
  (length (JobSpec.complete (before ++ claim_row r :: after) (row_id r)) < length (before ++ r :: after))%nat.
Proof.
  unfold JobSpec.complete. rewrite List.filter_app, !length_app. simpl.
  rewrite bool_decide_true by done. simpl.
  pose proof (List.filter_length_le (λ r0, row_id r0 !== row_id r) before).
  pose proof (List.filter_length_le (λ r0, row_id r0 !== row_id r) after). lia.
Qed.
Lemma complete_claimable before r after x :
  x ∈ JobSpec.complete (before ++ claim_row r :: after) (row_id r) → x ∈ before ++ r :: after.
Proof.
  unfold JobSpec.complete. intros Hx. apply list_elem_of_In, filter_In in Hx as [Hx Hne]. apply list_elem_of_In in Hx.
  apply elem_of_app in Hx as [Hx|[->|Hx]%elem_of_cons].
  - apply elem_of_app. by left.
  - change (row_id (claim_row r)) with (row_id r) in Hne. rewrite bool_decide_true in Hne by done. done.
  - apply elem_of_app. right. by apply list_elem_of_further.
Qed.

(** C39. When every claimable job is due (or malformed), the drain returns within one
    turn more than there are jobs in the queue. *)
Theorem retention_drain_terminates (q : Q) (s : S) fuel :
  jq_wf q → (∀ r, r ∈ jq_view q → claimable_row r = true → not_yet_due now (payload (job r)) = false) →
  (length (jq_view q) < fuel)%nat →
  ∃ result q' s', processRetentionExpiryJob findRecord now actor fuel q s = Some (result, q', s').
Proof.
  unfold processRetentionExpiryJob. generalize ({| processed := 0; refused := []; failed := [] |}).
  revert q s. induction fuel as [|fuel IH]; intros q s c Hq Hdue Hfuel; [lia|]. simpl.
  pose proof (process_turn_cases q s c Hq) as Ht. destruct (process_turn _ _ _ q s c) as [r q' s'|c' q' s']; [eauto|].
  destruct Ht as (Hq' & before & r & after & Hv & Hr & _ & Hcase).
  assert (r ∈ jq_view q) as Hin by (rewrite Hv; apply elem_of_app; right; apply list_elem_of_here).
  rewrite (Hdue r Hin Hr) in Hcase.
  apply IH; [done| |].
  - intros x Hx. apply Hdue. rewrite Hv. rewrite Hcase in Hx. by apply complete_claimable in Hx.
  - rewrite Hcase. pose proof (complete_shorter before r after). rewrite <- Hv in *. lia.
Qed.

Lemma process_loop_livelock (q : Q) (s : S) c before r after :
  jq_wf q → jq_view q = before ++ r :: after → claimable_row r = true →
  (∀ x, x ∈ before → claimable_row x = false) → not_yet_due now (payload (job r)) = true →
  ∀ fuel, process_loop findRecord now actor fuel q s c = None.
Proof.
  intros Hq Hv Hr Hb Hlate fuel. revert q s c r Hq Hv Hr Hlate.
  induction fuel as [|fuel IH]; intros q s c r Hq Hv Hr Hlate; [done|]. simpl.
  pose proof (process_turn_cases q s c Hq) as Ht. pose proof (jq_view_ok q Hq) as Hok.
  unfold process_turn in *. pose proof (jq_claim_spec q RETENTION_EXPIRY_JOB_TYPE Hq) as Hs.
  destruct (jq_claim q RETENTION_EXPIRY_JOB_TYPE) as [[j|] q1] eqn:Hcl; destruct Hs as [Hq1 Hs]; symmetry in Hs.
  2:{ exfalso. pose proof (proj1 (JobSpec.claim_None _ _ _ _ Hs) eq_refl r) as Hn. rewrite Hr in Hn.
      discriminate Hn. rewrite Hv. apply elem_of_app. right. apply list_elem_of_here. }
  apply JobSpec.claim_Some in Hs as (b' & r' & a' & Hv' & Hv1 & Hr' & -> & Hb').
  assert (b' = before ∧ r' = r ∧ a' = after) as (-> & -> & ->).
  { rewrite Hv in Hv'. clear -Hv' Hb Hb' Hr Hr'. revert b' Hv' Hb'. induction before as [|x before IH]; intros [|y b'] E0 Hb'; simpl in E0.
    - injection E0 as <- <-. done.
    - injection E0 as -> E0. specialize (Hb' y (list_elem_of_here _ _)). congruence.
    - injection E0 as -> E0. specialize (Hb r' (list_elem_of_here _ _)). congruence.
    - injection E0 as -> E0. destruct (IH (λ z Hz, Hb z (list_elem_of_further _ _ _ Hz)) b' E0
        (λ z Hz, Hb' z (list_elem_of_further _ _ _ Hz))) as (-> & -> & ->). done. }
  change (payload (job (claim_row r))) with (payload (job r)) in *. change (job_id (job (claim_row r))) with (row_id r) in *.
  pose proof Hlate as Hlate0. unfold not_yet_due in Hlate. destruct (JSON_parse (payload (job r))) as [p|] eqn:Hp; [|done].
  cbn [mbind throws_bind] in *. destruct (payload_field p (js "end_timestamp")) as [e|] eqn:He; [|done].
  cbn [mbind throws_bind] in *. destruct (payload_field p (js "retention_record_id")) as [rid|] eqn:Hrid; [|done].
  cbn [mbind throws_bind] in *. destruct e as [[]|]; try done. destruct rid as [[]|]; try done. rewrite Hlate.
  destruct (jq_fail_spec q1 (row_id r) Hq1) as [Hq2 Hv2].
  apply (IH _ _ _ (unclaim_row (claim_row r))); [done| | |].
  - rewrite Hv2, Hv1. unfold JobSpec.fail. rewrite List.map_app. simpl. rewrite bool_decide_true by done.
    unfold JobSpec.rows_ok in Hok. rewrite Hv, fmap_app, fmap_cons in Hok. apply NoDup_app in Hok as (_ & Hd & [Hra _]%NoDup_cons).
    f_equal; [|f_equal].
    + rewrite <- (List.map_id before) at 2. apply map_ext_in. intros x Hx%list_elem_of_In.
      rewrite bool_decide_false; [done|]. intros Hxr. apply (Hd (row_id x)); [by apply list_elem_of_fmap_2|].
      rewrite Hxr. apply list_elem_of_here.
    + rewrite <- (List.map_id after) at 2. apply map_ext_in. intros x Hx%list_elem_of_In.
      rewrite bool_decide_false; [done|]. intros Hxr. apply Hra. rewrite <- Hxr. by apply list_elem_of_fmap_2.
  - unfold claimable in *. simpl in *. by apply andb_prop in Hr as [-> _].
  - exact Hlate0.
Qed.

(** When the first claimable job is not yet due, the drain never returns: failing
    the job puts it back where the next claim finds it. *)
Theorem retention_drain_livelock (q : Q) (s : S) before r after :
  jq_wf q → jq_view q = before ++ r :: after → claimable_row r = true →
  (∀ x, x ∈ before → claimable_row x = false) → not_yet_due now (payload (job r)) = true →
  ∀ fuel, processRetentionExpiryJob findRecord now actor fuel q s = None.
Proof. apply process_loop_livelock. Qed.

(** ** What a drain has purged when it returns *)







End drain.

(** * After the purge *)

Lemma str_take_class p n s : all_chars p s = true → all_chars p (str_take n s) = true.
Proof. revert s; induction n as [|n IH]; intros [|c s]; simpl; try done. intros [-> Hs]%andb_prop. by apply IH. Qed.
Lemma str_drop_class p n s : all_chars p s = true → all_chars p (str_drop n s) = true.
Proof. revert s; induction n as [|n IH]; intros [|c s]; simpl; try done. intros [_ Hs]%andb_prop. by apply IH. Qed.
Lemma str_drop_app a b : str_drop (String.length a) (a +:+ b) = b.
Proof. induction a as [|c a IH]; [by destruct b|]. simpl. apply IH. Qed.

Lemma exp_not_verified s :
  all_chars is_hex_char s = true → endsWith "_verified" ("exp_" +:+ s)%string = false.
Proof.
  intros Hs. unfold endsWith. apply andb_false_iff. right. apply bool_decide_eq_false.
  change (String.length "_verified") with 9%nat. rewrite length_append. change (String.length "exp_") with 4%nat.
  destruct (le_lt_dec 9 (String.length s)) as [Hl|Hl]; intros E0.
  - assert (all_chars is_hex_char (str_drop (4 + String.length s - 9) ("exp_" +:+ s)%string) = true) as Hc.
    { replace (4 + String.length s - 9)%nat with (4 + (String.length s - 9))%nat by lia. simpl. by apply str_drop_class. }
    by rewrite E0 in Hc.
  - destruct (4 + String.length s - 9)%nat as [|[|[|[|n]]]] eqn:En; [..|lia]; simpl in E0; try done.
    injection E0 as E0. by rewrite E0 in Hs.
Qed.
Lemma expiry_cut_hex d : SHA256_ID_PATTERN d = true → all_chars is_hex_char (slice 7 31 d) = true.
Proof.
  unfold SHA256_ID_PATTERN. destruct (strip _ d) as [hex|] eqn:Hs; [|done]. apply strip_Some in Hs as ->.
  unfold SHA256_HEX_PATTERN. intros [Hc _]%andb_prop. by apply str_take_class.
Qed.
Lemma verified_expiry_id d :
  SHA256_ID_PATTERN d = true → verified_id (expiryDeletionEvidenceId d) = expiryVerifiedId d.
Proof.
  intros Hd%expiry_cut_hex. unfold verified_id, expiryVerifiedId, expiryDeletionEvidenceId.
  remember (slice 7 31 d) as cut eqn:Ecut.
  change ("deletion_evidence:exp_" +:+ cut)%string with ("deletion_evidence:" +:+ ("exp_" +:+ cut))%string.
  assert (startsWith "deletion_evidence:" ("deletion_evidence:" +:+ ("exp_" +:+ cut))%string = true) as ->
    by (unfold startsWith; apply bool_decide_eq_true; rewrite strip_app; eauto).
  change 18%nat with (String.length "deletion_evidence:").
  by rewrite str_drop_app, exp_not_verified.
Qed.
Lemma expiry_ids_differ d d' : expiryDeletionEvidenceId d' = expiryVerifiedId d → SHA256_ID_PATTERN d' = true → False.
Proof.
  intros E0 Hd'%expiry_cut_hex. unfold expiryVerifiedId, expiryDeletionEvidenceId in E0.
  change ("deletion_evidence:exp_" +:+ ?x)%string with ("deletion_evidence:exp_" +:+ x)%string in E0.
  assert (slice 7 31 d' = (slice 7 31 d +:+ "_verified")%string) as E1 by (by simpl in E0; simplify_eq).
  rewrite E1, all_chars_app in Hd'. by apply andb_prop in Hd' as [_ ?].
Qed.

(* The store holds verified evidence of the expiry of [d]. *)
Definition expiry_verified_in (s : memory_store) (d : string) : Prop :=
  ∃ e, memory_findDeletionEvidence s (expiryVerifiedId d) = Some e ∧ verification_status e = verified.

Section after_purge.
Variable now : string.
Variable actor : ActorReference.

Lemma memory_delete_verifies (s : memory_store) d :
  SHA256_ID_PATTERN d = true →
  let '(o, s') := ar_delete s d (expiry_evidence now actor d) in
  (∃ v, o = Ret v) ∧ expiry_verified_in s' d ∧ ∀ d', expiry_verified_in s d' → expiry_verified_in s' d'.
Proof.
  intros Hd. simpl. unfold memory_delete.
  assert (JsMap.has d (JsMap.delete d (objects s)) = false) as -> by (apply JsMap.has_false, JsMap.get_delete_eq).
  split; [eauto|]. unfold expiry_verified_in, memory_findDeletionEvidence. cbn [deletionEvidence].
  change (deletion_evidence_id (verifiedDeletionRecord (unverifiedDeletionAttempt (expiry_evidence now actor d))))
    with (verified_id (expiryDeletionEvidenceId d)).
  change (deletion_evidence_id (unverifiedDeletionAttempt (expiry_evidence now actor d))) with (expiryDeletionEvidenceId d).
  rewrite verified_expiry_id by done. split; [rewrite JsMap.get_set_eq; by eexists|].
  intros d' (e & He & Hv). rewrite JsMap.get_set. case_decide; [by eexists|].
  rewrite JsMap.get_set_ne by (intros E0; by apply (expiry_ids_differ d' d)). by exists e.
Qed.
Lemma memory_delete_all_verifies ds : ∀ s : memory_store,
  Forall (λ d, SHA256_ID_PATTERN d = true) ds →
  let '(ok, s') := delete_all now actor s ds in
  ok = true ∧ Forall (expiry_verified_in s') ds ∧ ∀ d, expiry_verified_in s d → expiry_verified_in s' d.
Proof.
  induction ds as [|d ds IH]; intros s Hds; [done|]. inversion Hds as [|? ? Hd Hds']; subst. cbn [delete_all].
  pose proof (memory_delete_verifies s d Hd) as Hone. destruct (ar_delete s d _) as [o s1].
  destruct Hone as ([v ->] & Hv & Hmono). specialize (IH s1 Hds'). destruct (delete_all now actor s1 ds) as [ok s2].
  destruct IH as (-> & Hall & Hmono2). split; [done|]. split; [constructor; [by apply Hmono2|done]|].
  intros d' Hd'. by apply Hmono2, Hmono.
Qed.

Lemma all_verified_true (s : memory_store) ds :
  Forall (expiry_verified_in s) ds → all_verified (λ id, Ret (memory_findDeletionEvidence s id)) ds = Ret true.
Proof.
  induction 1 as [|d ds (e & He & Hv) _ IH]; [done|]. simpl. rewrite He, IH. simpl. by rewrite bool_decide_true.
Qed.

(** A record whose digests were purged from the in-memory store counts as already
    purged at the next catch-up, which does not enqueue it again; this uses that
    the store files the verified evidence of an expiry under the id the catch-up
    asks for. *)
Theorem purged_record_not_enqueued_again {Q} `{JobQueue Q} (q : Q) (s : memory_store) record c :
  Forall (λ d, SHA256_ID_PATTERN d = true) (sha256_refs record) →
  let '(ok, s') := delete_all now actor s (sha256_refs record) in
  ok = true ∧
  catch_up_one (Some (λ id, Ret (memory_findDeletionEvidence s' id))) record q c =
    (Ret {| enqueued_count := enqueued_count c; already_purged := already_purged c + 1 |}, q).
Proof.
  intros Hds. pose proof (memory_delete_all_verifies (sha256_refs record) s Hds) as Hall.
  destruct (delete_all now actor s (sha256_refs record)) as [ok s']. destruct Hall as (-> & Hv & _).
  split; [done|]. unfold catch_up_one. by rewrite all_verified_true.
Qed.
End after_purge.

(** * Sample runs *)

Module RetentionSamples.
Import ArtifactSamples.
Definition ops : ActorReference := {| actor_type := vendor_service; actor_id := "ops" |}.
Definition record1 : RetentionOptInRecord := {|
  retention_record_id := "retention:r1"; retention_source_derived_class := customer_opt_in_retained_source;
  customer_approval_ref := "approval:1"; start_timestamp := "2026-01-01T00:00:00Z";
  end_timestamp := "2026-02-01T00:00:00Z"; retained_artifact_refs := [dig; "bundle:x"]; retention_status_event_ids := [] |}.
Definition find1 (id : string) : throws (option RetentionOptInRecord) :=
  Ret (if id === "retention:r1" then Some record1 else None).
Definition list1 (now : string) : throws (list RetentionOptInRecord) :=
  Ret (if str_leb (end_timestamp record1) now then [record1] else []).
Definition march := "2026-03-01T00:00:00Z"%string.
Definition january := "2026-01-15T00:00:00Z"%string.
Definition queue1 : list (string * JobRow) := (catchUpRetentionExpiry (Q := list (string * JobRow)) None list1 [] march).2.
Definition row1 : JobRow := fresh_job "retention:r1" RETENTION_EXPIRY_JOB_TYPE (expiry_payload record1 [dig]).
Lemma queue1_rows : queue1 = [("retention:r1"%string, row1)].
Proof. by vm_compute. Qed.
Lemma queue1_ok : jq_wf queue1.
Proof. rewrite queue1_rows. split; [apply NoDup_singleton|]. by constructor. Qed.

Lemma due_rows : ∀ r, r ∈ jq_view queue1 → claimable RETENTION_EXPIRY_JOB_TYPE r = true →
  not_yet_due march (payload (job r)) = false.
Proof.
  rewrite queue1_rows. intros r Hr _. apply list_elem_of_singleton in Hr as ->. by vm_compute.
Qed.
Lemma retention_drain_terminates_witness :
  ∃ result q' s', processRetentionExpiryJob find1 march ops 2 queue1 with_source = Some (result, q', s').
Proof.
  apply (retention_drain_terminates find1 march ops queue1 with_source 2 queue1_ok due_rows).
  rewrite queue1_rows. simpl. lia.
Defined.


(* A job whose record is gone is taken off the queue and its digest stays. *)
Example refused_job_keeps_bytes :
  match processRetentionExpiryJob (λ _, Ret None) march ops 2 queue1 with_source with
  | Some (Ret c, q', s') => refused c = ["missing_policy"%string] ∧ processed c = 0 ∧ q' = [] ∧ ar_has s' dig = true
  | _ => False
  end.
Proof. vm_compute. done. Qed.

Lemma retention_drain_livelock_witness :
  ∀ fuel, processRetentionExpiryJob find1 january ops fuel queue1 with_source = None.
Proof.
  apply (retention_drain_livelock find1 january ops queue1 with_source [] row1 []); [exact queue1_ok|..].
  - by rewrite queue1_rows.
  - by vm_compute.
  - by intros x ?%not_elem_of_nil.
  - by vm_compute.
Defined.

Lemma purged_record_not_enqueued_again_witness :
  let '(ok, s') := delete_all march ops with_source [dig] in
  ok = true ∧
  catch_up_one (Some (λ id, Ret (memory_findDeletionEvidence s' id))) record1 queue1 {| enqueued_count := 0; already_purged := 0 |} =
    (Ret {| enqueued_count := 0; already_purged := 1 |}, queue1).
Proof.
  apply (purged_record_not_enqueued_again march ops queue1 with_source record1 {| enqueued_count := 0; already_purged := 0 |}).
  constructor; [by vm_compute|constructor].
Defined.
End RetentionSamples.
