(* ===== verification/Timestamps.v ===== *)
(** UTC timestamps: the RFC 3339 test, exact nanoseconds and comparison of
    packages/protocol-ts/src/validation.ts, and the parser of
    apps/control-plane/src/index.ts, with the day algorithm of Date.parse. *)
From S2P Require Import Prelude Patterns Json CanonicalJson.

Local Open Scope Z_scope.

(** * The shape of a timestamp *)

(* \d{n} at the start of the text. *)
Fixpoint take_digits (n : nat) (s : string) : option (string * string) :=
  match n, s with
  | O, _ => Some (EmptyString, s)
  | S n', String c s' =>
      if is_digit c then match take_digits n' s' with Some (d, r) => Some (String c d, r) | None => None end
      else None
  | S _, EmptyString => None
  end.
Fixpoint span_digit_chars (s : string) : string * string :=
  match s with
  | String c s' => if is_digit c then let '(d, r) := span_digit_chars s' in (String c d, r) else (EmptyString, s)
  | EmptyString => (EmptyString, EmptyString)
  end.
Definition literal (p : string) (s : string) : option string := strip p s.
(* Number and BigInt on a string of decimal digits. *)
Definition digit_value (c : ascii) : Z := Z.of_N (N_of_ascii c) - 48.
Fixpoint digits_value (acc : Z) (s : string) : Z :=
  match s with EmptyString => acc | String c s' => digits_value (acc * 10 + digit_value c) s' end.
Definition number (n : nat) (s : string) : option (Z * string) :=
  match take_digits n s with Some (d, r) => Some (digits_value 0 d, r) | None => None end.

Record stamp := {
  year : Z; month : Z; day : Z; hour : Z; minute : Z; second : Z; fraction : option string
}.

(* (?:\.(\d{1,9}))?(?:Z|\+00:00)$ *)
Definition scan_tail (s : string) : option (option string) :=
  let zone r := (bool_decide (r = "Z"%string) || bool_decide (r = "+00:00"%string))%bool in
  match literal "." s with
  | None => if zone s then Some None else None
  | Some r =>
      let '(d, r') := span_digit_chars r in
      if ((1 <=? String.length d)%nat && (String.length d <=? 9)%nat && zone r')%bool then Some (Some d) else None
  end.

(* ^(\d{4})-(\d{2})-(\d{2})T(\d{2}):(\d{2}):(\d{2}) and the tail *)
Definition scan (value : string) : option stamp :=
  y ← number 4 value; r ← literal "-" y.2;
  mo ← number 2 r; r ← literal "-" mo.2;
  d ← number 2 r; r ← literal "T" d.2;
  h ← number 2 r; r ← literal ":" h.2;
  mi ← number 2 r; r ← literal ":" mi.2;
  s ← number 2 r;
  f ← scan_tail s.2;
  Some {| year := y.1; month := mo.1; day := d.1; hour := h.1; minute := mi.1; second := s.1; fraction := f |}.

(** * The calendar *)

Definition isLeapYear (year : Z) : bool :=
  ((year mod 4 =? 0) && (negb (year mod 100 =? 0) || (year mod 400 =? 0)))%bool.
Definition daysByMonth (year : Z) : list Z :=
  [31; if isLeapYear year then 29 else 28; 31; 30; 31; 30; 31; 31; 30; 31; 30; 31].
Definition daysInMonth (year month : Z) : Z := default 0 (daysByMonth year !! Z.to_nat (month - 1)).

(* The checks after the pattern; [max_second] is 60 in validation.ts and 59 in the
   control plane. *)
Definition calendar_valid (max_second : Z) (t : stamp) : bool :=
  (negb ((month t <? 1) || (12 <? month t) || (23 <? hour t) || (59 <? minute t) || (max_second <? second t)) &&
   (1 <=? day t) && (day t <=? daysInMonth (year t) (month t)))%bool.

Definition isUtcRfc3339Timestamp (value : string) : bool :=
  match scan value with None => false | Some t => calendar_valid 60 t end.

(* Howard Hinnant's days_from_civil *)
Definition daysFromCivil (year month day : Z) : Z :=
  let shiftedYear := if month <=? 2 then year - 1 else year in
  let era := (if 0 <=? shiftedYear then shiftedYear else shiftedYear - 399) / 400 in
  let yearOfEra := shiftedYear - era * 400 in
  let monthOfYear := (month + 9) mod 12 in
  let dayOfYear := (153 * monthOfYear + 2) / 5 + day - 1 in
  let dayOfEra := yearOfEra * 365 + yearOfEra / 4 - yearOfEra / 100 + dayOfYear in
  era * 146097 + dayOfEra - 719468.

(* String.prototype.padEnd(n, "0") *)
Fixpoint zeros (n : nat) : string := match n with O => EmptyString | S n' => String "0" (zeros n') end.
Definition padEnd0 (n : nat) (s : string) : string := (s +:+ zeros (n - String.length s))%string.
Definition nanoseconds_of (t : stamp) : Z := digits_value 0 (padEnd0 9 (default EmptyString (fraction t))).

Definition utcRfc3339ToNanoseconds (value : string) : throws Z :=
  if negb (isUtcRfc3339Timestamp value) then Throw "value must be a valid UTC RFC 3339 timestamp"
  else match scan value with
  | None => Throw "value must be a valid UTC RFC 3339 timestamp"
  | Some t =>
      let days := daysFromCivil (year t) (month t) (day t) in
      let secondsSinceEpoch := days * 86400 + hour t * 3600 + minute t * 60 + second t in
      Ret (secondsSinceEpoch * 1000000000 + nanoseconds_of t)
  end.
Definition compareUtcRfc3339Timestamps (left right : string) : throws Z :=
  l ← utcRfc3339ToNanoseconds left;
  r ← utcRfc3339ToNanoseconds right;
  Ret (if l <? r then -1 else if r <? l then 1 else 0).

(** * The control plane's parser *)

(* ECMAScript's day number of a date: DayFromYear, and the days of the months before. *)
Definition DayFromYear (y : Z) : Z := 365 * (y - 1970) + (y - 1969) / 4 - (y - 1901) / 100 + (y - 1601) / 400.
Definition DayWithinYear (year month : Z) : Z :=
  fold_left Z.add (take (Z.to_nat (month - 1)) (daysByMonth year)) 0.
(* Date.parse of YYYY-MM-DDTHH:MM:SSZ, in milliseconds; NaN outside the calendar. *)
Definition Date_parse (t : stamp) : option Z :=
  if calendar_valid 59 t then
    Some (((DayFromYear (year t) + DayWithinYear (year t) (month t) + day t - 1) * 86400
           + hour t * 3600 + minute t * 60 + second t) * 1000)
  else None.

Definition isCalendarValidUtcTimestamp (value : string) : bool :=
  match scan value with None => false | Some t => calendar_valid 59 t end.
Definition parseUtcTimestampNs (value : string) : option Z :=
  match scan value with
  | None => None
  | Some t =>
      if negb (isCalendarValidUtcTimestamp value) then None
      else match Date_parse t with
      | None => None
      | Some wholeSeconds => Some (wholeSeconds * 1000000 + nanoseconds_of t)
      end
  end.

(** * The day count is the calendar's *)

Lemma month_cases m : 1 ≤ m ≤ 12 →
  m = 1 ∨ m = 2 ∨ m = 3 ∨ m = 4 ∨ m = 5 ∨ m = 6 ∨ m = 7 ∨ m = 8 ∨ m = 9 ∨ m = 10 ∨ m = 11 ∨ m = 12.
Proof. lia. Qed.

Lemma leap_step y : 0 ≤ y →
  y / 4 - y / 100 + y / 400 = (y - 1) / 4 - (y - 1) / 100 + (y - 1) / 400 + (if isLeapYear y then 1 else 0).
Proof.
  intros Hy. unfold isLeapYear.
  destruct (Z.eqb_spec (y mod 4) 0), (Z.eqb_spec (y mod 100) 0), (Z.eqb_spec (y mod 400) 0); simpl;
    Z.to_euclidean_division_equations; lia.
Qed.
Definition leaps (y : Z) : Z := y / 4 - y / 100 + y / 400.
Lemma DayFromYear_leaps y : DayFromYear y = 365 * (y - 1970) + leaps (y - 1) - 477.
Proof.
  unfold DayFromYear, leaps.
  replace (y - 1969) with (y - 1 + (-492) * 4) by lia. replace (y - 1901) with (y - 1 + (-19) * 100) by lia.
  replace (y - 1601) with (y - 1 + (-4) * 400) by lia. rewrite !Z.div_add by lia. lia.
Qed.
Lemma era_days sy : 
  let era := sy / 400 in let yoe := sy - era * 400 in
  era * 146097 + (yoe * 365 + yoe / 4 - yoe / 100) = 365 * sy + leaps sy.
Proof.
  simpl. unfold leaps. remember (sy / 400) as era eqn:Eera.
  assert (0 ≤ sy - era * 400 < 400) as Hr by (subst era; Z.to_euclidean_division_equations; lia).
  remember (sy - era * 400) as yoe eqn:Eyoe. replace sy with (yoe + (era * 100) * 4) at 2 by lia.
  replace sy with (yoe + (era * 4) * 100) at 2 by lia. rewrite !Z.div_add by lia. lia.
Qed.
Lemma era_floor sy : -1 ≤ sy → (if 0 <=? sy then sy else sy - 399) / 400 = sy / 400.
Proof.
  intros Hsy. destruct (Z.leb_spec 0 sy); [done|]. assert (sy = -1) as -> by lia. done.
Qed.

Lemma daysFromCivil_calendar y m d :
  0 ≤ y → 1 ≤ m ≤ 12 → daysFromCivil y m d = DayFromYear y + DayWithinYear y m + d - 1.
Proof.
  intros Hy Hm. rewrite DayFromYear_leaps. unfold daysFromCivil.
  rewrite era_floor by (destruct (m <=? 2); lia).
  pose proof (era_days (if m <=? 2 then y - 1 else y)) as He. simpl in He.
  assert (leaps y = leaps (y - 1) + (if isLeapYear y then 1 else 0)) as Hl by (by apply leap_step).
  pose proof (month_cases m Hm) as Hcases. unfold DayWithinYear.
  repeat match type of Hcases with _ ∨ _ => destruct Hcases as [Hcases|Hcases] end; subst m;
    repeat match goal with
    | |- context [(153 * ?e + 2) / 5] => let v := eval vm_compute in ((153 * e + 2) / 5) in change ((153 * e + 2) / 5) with v
    | |- context [Z.to_nat ?e] => let v := eval vm_compute in (Z.to_nat e) in change (Z.to_nat e) with v
    | H : context [?a <=? 2] |- _ => let v := eval vm_compute in (a <=? 2) in change (a <=? 2) with v in *; cbv iota in *
    end; cbn [take daysByMonth fold_left]; destruct (isLeapYear y); lia.
Qed.

(** * Fields of a scanned timestamp *)

Lemma digit_value_range c : is_digit c = true → 0 ≤ digit_value c ≤ 9.
Proof.
  intros Hc%in_class_spec. change (N_of_ascii "0") with 48%N in Hc. change (N_of_ascii "9") with 57%N in Hc.
  unfold digit_value. lia.
Qed.
Lemma digits_value_bounds acc s :
  0 ≤ acc → all_chars is_digit s = true →
  acc * 10 ^ Z.of_nat (String.length s) ≤ digits_value acc s < (acc + 1) * 10 ^ Z.of_nat (String.length s).
Proof.
  revert acc; induction s as [|c s IH]; intros acc Hacc Hs; [simpl; lia|].
  cbn [all_chars] in Hs. apply andb_prop in Hs as [Hc%digit_value_range Hs].
  cbn [digits_value String.length]. specialize (IH (acc * 10 + digit_value c) ltac:(lia) Hs).
  rewrite Nat2Z.inj_succ, Z.pow_succ_r by lia.
  assert (0 < 10 ^ Z.of_nat (String.length s)) by (apply Z.pow_pos_nonneg; lia). nia.
Qed.
Lemma take_digits_spec n s d r : take_digits n s = Some (d, r) → all_chars is_digit d = true ∧ String.length d = n.
Proof.
  revert s d r; induction n as [|n IH]; intros s d r; simpl; [by intros [= <- _]|].
  destruct s as [|c s]; [done|]. destruct (is_digit c) eqn:Hc; [|done].
  destruct (take_digits n s) as [[d' r']|] eqn:Ht; [|done]. intros [= <- _].
  destruct (IH _ _ _ Ht) as [Hd Hl]. simpl. by rewrite Hc, Hd, Hl.
Qed.
Lemma number_nonneg n s p : number n s = Some p → 0 ≤ p.1.
Proof.
  unfold number. destruct (take_digits n s) as [[d r]|] eqn:Ht; [|done]. intros [= <-].
  apply take_digits_spec in Ht as [Hd _]. simpl. pose proof (digits_value_bounds 0 d ltac:(lia) Hd). lia.
Qed.

Record fields_nonneg (t : stamp) : Prop := {
  year_nonneg : 0 ≤ year t; hour_nonneg : 0 ≤ hour t; minute_nonneg : 0 ≤ minute t; second_nonneg : 0 ≤ second t
}.
Lemma scan_nonneg value t : scan value = Some t → fields_nonneg t.
Proof.
  unfold scan. intros Hs.
  repeat match type of Hs with
  | (mbind _ ?x) = Some _ => let E0 := fresh "E" in destruct x eqn:E0; cbn [mbind option_bind] in Hs; [|done]
  end.
  injection Hs as <-.
  repeat match goal with H : number _ _ = Some _ |- _ => apply number_nonneg in H end. by constructor.
Qed.

Lemma span_digit_chars_spec s : all_chars is_digit (span_digit_chars s).1 = true.
Proof.
  induction s as [|c s IH]; [done|]. simpl. destruct (is_digit c) eqn:Hc; [|done].
  destruct (span_digit_chars s) as [d r]. simpl in *. by rewrite Hc, IH.
Qed.
Lemma zeros_digits n : all_chars is_digit (zeros n) = true ∧ String.length (zeros n) = n.
Proof. induction n as [|n [IH1 IH2]]; [done|]. simpl. by rewrite IH1, IH2. Qed.
Lemma padEnd0_spec d :
  all_chars is_digit d = true → (String.length d ≤ 9)%nat →
  all_chars is_digit (padEnd0 9 d) = true ∧ String.length (padEnd0 9 d) = 9%nat.
Proof.
  intros Hd Hl. unfold padEnd0. destruct (zeros_digits (9 - String.length d)) as [Hz Hn].
  rewrite all_chars_app, Hd, Hz, length_append, Hn. split; [done|lia].
Qed.
Lemma scan_fraction s f : scan_tail s = Some f → all_chars is_digit (default EmptyString f) = true ∧ (String.length (default EmptyString f) ≤ 9)%nat.
Proof.
  unfold scan_tail. destruct (literal "." s) as [r|].
  - pose proof (span_digit_chars_spec r) as Hd. destruct (span_digit_chars r) as [d r']. simpl in Hd.
    destruct (_ && _)%bool eqn:E0; [|done]. intros [= <-]. simpl.
    apply andb_prop in E0 as [[_ Hl%Nat.leb_le]%andb_prop _]. done.
  - destruct (_ || _)%bool; [|done]. intros [= <-]. simpl. split; [done|lia].
Qed.
Lemma scan_nanoseconds value t : scan value = Some t → 0 ≤ nanoseconds_of t < 1000000000.
Proof.
  unfold scan. intros Hs.
  repeat match type of Hs with
  | (mbind _ ?x) = Some _ => let E0 := fresh "E" in destruct x eqn:E0; cbn [mbind option_bind] in Hs; [|done]
  end.
  injection Hs as <-. unfold nanoseconds_of. cbn [fraction].
  match goal with H : scan_tail _ = Some _ |- _ => apply scan_fraction in H as [Hd Hl] end.
  destruct (padEnd0_spec _ Hd Hl) as [Hp Hn]. pose proof (digits_value_bounds 0 _ ltac:(lia) Hp) as Hb.
  rewrite Hn in Hb. simpl in Hb. lia.
Qed.

(* What calendar_valid leaves of the fields. *)
Record fields_valid (max_second : Z) (t : stamp) : Prop := {
  month_range : 1 ≤ month t ≤ 12; day_range : 1 ≤ day t ≤ daysInMonth (year t) (month t);
  hour_range : hour t ≤ 23; minute_range : minute t ≤ 59; second_range : second t ≤ max_second
}.
Lemma calendar_valid_spec max_second t : calendar_valid max_second t = true ↔ fields_valid max_second t.
Proof.
  unfold calendar_valid. rewrite !andb_true_iff, negb_true_iff, !orb_false_iff, !Z.ltb_ge, !Z.leb_le.
  split; [intros [[[[[[? ?] ?] ?] ?] ?] ?]; constructor; lia|]. intros []. lia.
Qed.

(* The seconds of the civil calendar. *)
Definition civil_day (t : stamp) : Z := DayFromYear (year t) + DayWithinYear (year t) (month t) + day t - 1.
Definition civil_seconds (t : stamp) : Z := civil_day t * 86400 + hour t * 3600 + minute t * 60 + second t.

Lemma utc_nanoseconds value t :
  scan value = Some t → isUtcRfc3339Timestamp value = true →
  utcRfc3339ToNanoseconds value = Ret (civil_seconds t * 1000000000 + nanoseconds_of t).
Proof.
  intros Hscan Hutc. unfold utcRfc3339ToNanoseconds. rewrite Hutc, Hscan. cbn [negb].
  unfold isUtcRfc3339Timestamp in Hutc. rewrite Hscan, calendar_valid_spec in Hutc. destruct Hutc.
  pose proof (year_nonneg _ (scan_nonneg _ _ Hscan)).
  rewrite daysFromCivil_calendar by done. unfold civil_seconds, civil_day. do 2 f_equal; lia.
Qed.

(** * The two parsers *)

(** Every timestamp the schema accepts has exact nanoseconds, and they are those
    of the civil calendar. The control plane's parser gives the same number, except
    that it has no instant for a second of 60, which the schema accepts. *)
Theorem timestamp_parsers_agree value t :
  scan value = Some t → isUtcRfc3339Timestamp value = true →
  utcRfc3339ToNanoseconds value = Ret (civil_seconds t * 1000000000 + nanoseconds_of t) ∧
  parseUtcTimestampNs value = if second t =? 60 then None else Some (civil_seconds t * 1000000000 + nanoseconds_of t).
Proof.
  intros Hscan Hutc. split; [by apply utc_nanoseconds|].
  unfold parseUtcTimestampNs, isCalendarValidUtcTimestamp, Date_parse. rewrite Hscan.
  unfold isUtcRfc3339Timestamp in Hutc. rewrite Hscan, calendar_valid_spec in Hutc. destruct Hutc.
  destruct (Z.eqb_spec (second t) 60) as [Hs|Hs].
  - destruct (calendar_valid 59 t) eqn:Hc; [|done]. apply calendar_valid_spec in Hc as []. lia.
  - rewrite (proj2 (calendar_valid_spec 59 t)) by (constructor; try done; lia). cbn [negb].
    unfold civil_seconds, civil_day. f_equal. lia.
Qed.

(** * Chronology *)

Lemma DWY_step y m : 1 ≤ m ≤ 11 → DayWithinYear y (m + 1) = DayWithinYear y m + daysInMonth y m.
Proof.
  intros Hm. assert (m ∈ seqZ 1 11) as Hin by (apply elem_of_seqZ; lia). clear Hm. revert m Hin.
  apply Forall_forall. repeat constructor; unfold DayWithinYear, daysInMonth; simpl; destruct (isLeapYear y); done.
Qed.
Lemma daysInMonth_pos y m : 1 ≤ m ≤ 12 → 28 ≤ daysInMonth y m.
Proof.
  intros Hm. assert (m ∈ seqZ 1 12) as Hin by (apply elem_of_seqZ; lia). clear Hm. revert m Hin.
  apply Forall_forall. repeat constructor; unfold daysInMonth; simpl; destruct (isLeapYear y); lia.
Qed.
Lemma DWY_mono y m m' : 1 ≤ m → m < m' → m' ≤ 12 → DayWithinYear y m + daysInMonth y m ≤ DayWithinYear y m'.
Proof.
  intros Hm Hlt. replace m' with (m + 1 + Z.of_nat (Z.to_nat (m' - m - 1))) by lia.
  induction (Z.to_nat (m' - m - 1)) as [|k IH]; intros Hle.
  - rewrite Z.add_0_r, DWY_step by lia. lia.
  - replace (m + 1 + Z.of_nat (S k)) with (m + 1 + Z.of_nat k + 1) in * by lia. rewrite DWY_step by lia.
    pose proof (daysInMonth_pos y (m + 1 + Z.of_nat k) ltac:(lia)). lia.
Qed.
Definition yearDays (y : Z) : Z := 365 + (if isLeapYear y then 1 else 0).
Lemma DWY_bound y m d : 1 ≤ m ≤ 12 → 1 ≤ d ≤ daysInMonth y m → 0 ≤ DayWithinYear y m + d - 1 < yearDays y.
Proof.
  intros Hm Hd. assert (DayWithinYear y 1 = 0) as H1 by done.
  assert (DayWithinYear y 12 + daysInMonth y 12 = yearDays y) as H12
    by (unfold DayWithinYear, daysInMonth, yearDays; simpl; destruct (isLeapYear y); done).
  pose proof (daysInMonth_pos y 1 ltac:(lia)). pose proof (daysInMonth_pos y 12 ltac:(lia)).
  pose proof (DWY_mono y 1 12 ltac:(lia) ltac:(lia) ltac:(lia)).
  destruct (decide (m = 1)) as [->|]; [lia|].
  destruct (decide (m = 12)) as [->|]; [lia|]. pose proof (DWY_mono y 1 m ltac:(lia) ltac:(lia) ltac:(lia)).
  pose proof (DWY_mono y m 12 ltac:(lia) ltac:(lia) ltac:(lia)). lia.
Qed.
Lemma DayFromYear_step y : 0 ≤ y → DayFromYear (y + 1) = DayFromYear y + yearDays y.
Proof.
  intros Hy. rewrite !DayFromYear_leaps. pose proof (leap_step y Hy). unfold leaps, yearDays.
  replace (y + 1 - 1) with y by lia. lia.
Qed.
Lemma DayFromYear_mono y y' : 0 ≤ y → y < y' → DayFromYear y + yearDays y ≤ DayFromYear y'.
Proof.
  intros Hy Hlt. replace y' with (y + 1 + Z.of_nat (Z.to_nat (y' - y - 1))) by lia.
  induction (Z.to_nat (y' - y - 1)) as [|k IH]; [rewrite Z.add_0_r, DayFromYear_step by lia; lia|].
  replace (y + 1 + Z.of_nat (S k)) with (y + 1 + Z.of_nat k + 1) by lia. rewrite DayFromYear_step by lia.
  unfold yearDays in *. destruct (isLeapYear (y + 1 + Z.of_nat k)); lia.
Qed.

Lemma civil_day_mono t t' mx mx' :
  0 ≤ year t → 0 ≤ year t' → fields_valid mx t → fields_valid mx' t' →
  year t < year t' ∨ (year t = year t' ∧ (month t < month t' ∨ (month t = month t' ∧ day t < day t'))) →
  civil_day t < civil_day t'.
Proof.
  intros Hy Hy' [] [] Hlt. unfold civil_day.
  pose proof (DWY_bound (year t) (month t) (day t) ltac:(done) ltac:(done)).
  pose proof (DWY_bound (year t') (month t') (day t') ltac:(done) ltac:(done)).
  destruct Hlt as [Hlt|[Ey [Hlt|[Em Hlt]]]].
  - pose proof (DayFromYear_mono _ _ Hy Hlt). lia.
  - rewrite <- Ey in *. pose proof (DWY_mono (year t) (month t) (month t') ltac:(lia) ltac:(lia) ltac:(lia)). lia.
  - rewrite <- Ey, <- Em in *. lia.
Qed.

(* The fields in order of significance. *)
Definition fields (t : stamp) : list Z := [year t; month t; day t; hour t; minute t; second t; nanoseconds_of t].

Lemma fields_ltb t t' :
  0 ≤ year t → 0 ≤ year t' → 0 ≤ hour t → 0 ≤ hour t' → 0 ≤ minute t → 0 ≤ minute t' → 0 ≤ second t → 0 ≤ second t' →
  fields_valid 59 t → fields_valid 59 t' →
  0 ≤ nanoseconds_of t < 1000000000 → 0 ≤ nanoseconds_of t' < 1000000000 →
  units_ltb (fields t) (fields t') =
    (civil_seconds t * 1000000000 + nanoseconds_of t <? civil_seconds t' * 1000000000 + nanoseconds_of t').
Proof.
  intros Hy Hy' ? ? ? ? ? ? Hv Hv' Hn Hn'.
  pose proof (civil_day_mono t t' 59 59 Hy Hy' Hv Hv') as Hup. pose proof (civil_day_mono t' t 59 59 Hy' Hy Hv' Hv) as Hdown.
  destruct Hv, Hv'. unfold fields, civil_seconds. cbn [units_ltb].
  destruct (Z.ltb_spec (year t) (year t')); [symmetry; apply Z.ltb_lt; cbn [orb]; lia|].
  destruct (Z.eqb_spec (year t) (year t')); [|symmetry; apply Z.ltb_ge; lia].
  destruct (Z.ltb_spec (month t) (month t')); [symmetry; apply Z.ltb_lt; lia|].
  destruct (Z.eqb_spec (month t) (month t')); [|symmetry; apply Z.ltb_ge; lia].
  destruct (Z.ltb_spec (day t) (day t')); [symmetry; apply Z.ltb_lt; lia|].
  destruct (Z.eqb_spec (day t) (day t')); [|symmetry; apply Z.ltb_ge; lia].
  assert (civil_day t = civil_day t') as -> by (unfold civil_day; congruence).
  destruct (Z.ltb_spec (hour t) (hour t')); [symmetry; apply Z.ltb_lt; lia|].
  destruct (Z.eqb_spec (hour t) (hour t')); [|symmetry; apply Z.ltb_ge; lia].
  destruct (Z.ltb_spec (minute t) (minute t')); [symmetry; apply Z.ltb_lt; lia|].
  destruct (Z.eqb_spec (minute t) (minute t')); [|symmetry; apply Z.ltb_ge; lia].
  destruct (Z.ltb_spec (second t) (second t')); [symmetry; apply Z.ltb_lt; lia|].
  destruct (Z.eqb_spec (second t) (second t')); [|symmetry; apply Z.ltb_ge; lia].
  destruct (Z.ltb_spec (nanoseconds_of t) (nanoseconds_of t')); [symmetry; apply Z.ltb_lt; lia|].
  rewrite andb_false_r. symmetry. apply Z.ltb_ge. lia.
Qed.

(** Comparison is chronological: on timestamps without a leap second it is the
    lexicographic comparison of year, month, day, hour, minute, second and fraction,
    whatever precision and zone suffix they are written with. *)
Theorem comparison_is_chronological l r tl tr :
  scan l = Some tl → scan r = Some tr → calendar_valid 59 tl = true → calendar_valid 59 tr = true →
  compareUtcRfc3339Timestamps l r = Ret (units_cmp (fields tl) (fields tr)).
Proof.
  intros Hl Hr Hvl Hvr.
  assert (∀ v t, scan v = Some t → calendar_valid 59 t = true →
    utcRfc3339ToNanoseconds v = Ret (civil_seconds t * 1000000000 + nanoseconds_of t)) as Hns.
  { intros v t Hs Hv. apply utc_nanoseconds; [done|]. unfold isUtcRfc3339Timestamp. rewrite Hs.
    apply calendar_valid_spec in Hv as []. apply calendar_valid_spec. constructor; try done. lia. }
  unfold compareUtcRfc3339Timestamps. rewrite (Hns l tl), (Hns r tr) by done. simpl. f_equal.
  apply calendar_valid_spec in Hvl, Hvr. destruct (scan_nonneg _ _ Hl), (scan_nonneg _ _ Hr).
  pose proof (scan_nanoseconds _ _ Hl). pose proof (scan_nanoseconds _ _ Hr).
  unfold units_cmp. by rewrite !fields_ltb.
Qed.

Module TimestampSamples.
Definition leap := "2016-12-31T23:59:60Z"%string.
Definition next := "2017-01-01T00:00:00Z"%string.
Definition precise := "2016-12-31T23:59:59.9+00:00"%string.
Definition stamp_of (v : string) : stamp := default {| year := 0; month := 0; day := 0; hour := 0; minute := 0; second := 0; fraction := None |} (scan v).

Lemma timestamp_parsers_agree_witness : parseUtcTimestampNs leap = None ∧ parseUtcTimestampNs precise = Some 1483228799900000000.
Proof.
  split.
  - refine (proj2 (timestamp_parsers_agree leap (stamp_of leap) _ _)); by vm_compute.
  - refine (proj2 (timestamp_parsers_agree precise (stamp_of precise) _ _)); by vm_compute.
Defined.
Lemma comparison_is_chronological_witness : compareUtcRfc3339Timestamps precise next = Ret (-1).
Proof. apply (comparison_is_chronological precise next (stamp_of precise) (stamp_of next)); by vm_compute. Defined.

(** A leap second passes the schema's test and equals the next second's instant in
    the shared comparison; the control plane's parser has no instant for it, and
    the text order disagrees with the chronological one. *)
Theorem leap_second_instants :
  isUtcRfc3339Timestamp leap = true ∧ compareUtcRfc3339Timestamps leap next = Ret 0 ∧
  parseUtcTimestampNs leap = None ∧ parseUtcTimestampNs next = Some 1483228800000000000 ∧
  str_ltb "2017-01-01T00:00:00.5Z" next = true ∧
  compareUtcRfc3339Timestamps "2017-01-01T00:00:00.5Z" next = Ret 1.
Proof. by vm_compute. Qed.
End TimestampSamples.

(** * RFC 3339 shape (packages/evidence-store/src/transparency/publication.ts) *)

(* (?:Z|[+-]\d{2}:\d{2})$ *)
Definition zone_shape (s : string) : bool :=
  bool_decide (s = "Z"%string) ||
  match s with
  | String c r =>
      ((Ascii.eqb c "+" || Ascii.eqb c "-") &&
       match (h ← number 2 r; r ← literal ":" h.2; number 2 r) with
       | Some (_, EmptyString) => true
       | _ => false
       end)%bool
  | EmptyString => false
  end.
Definition RFC3339_PATTERN (value : string) : bool :=
  match (y ← number 4 value; r ← literal "-" y.2;
         mo ← number 2 r; r ← literal "-" mo.2;
         d ← number 2 r; r ← literal "T" d.2;
         h ← number 2 r; r ← literal ":" h.2;
         mi ← number 2 r; r ← literal ":" mi.2;
         s ← number 2 r; Some s.2) with
  | None => false
  | Some rest =>
      match literal "." rest with
      | None => zone_shape rest
      | Some r =>
          let '(d, r') := span_digit_chars r in
          ((1 <=? String.length d)%nat && (String.length d <=? 9)%nat && zone_shape r')%bool
      end
  end.
