(* ===== verification/Base64Url.v ===== *)
(** Base64url text without padding (packages/signing/src/base64url.ts): the encoding
    of bytes, and a decoder that accepts exactly what the encoder writes. *)
From S2P Require Import Prelude Patterns Bytes Json.

Local Open Scope Z_scope.

(* The alphabet A-Z a-z 0-9 - _ as code units. *)
Definition base64_char (n : Z) : Z :=
  if n <? 26 then 65 + n else if n <? 52 then 71 + n else if n <? 62 then n - 4 else if n =? 62 then 45 else 95.
Definition base64_value (c : Z) : option Z :=
  if ((65 <=? c) && (c <=? 90))%bool then Some (c - 65)
  else if ((97 <=? c) && (c <=? 122))%bool then Some (c - 71)
  else if ((48 <=? c) && (c <=? 57))%bool then Some (c + 4)
  else if c =? 45 then Some 62
  else if c =? 95 then Some 63
  else None.
Definition sextet (c : Z) : Z := default 0 (base64_value c).

Definition BASE64URL_PATTERN (text : jsstr) : bool := forallb (λ c, bool_decide (is_Some (base64_value c))) text.

(* Buffer.from(bytes).toString("base64url") *)
Fixpoint encodeBase64Url (b : bytes) : jsstr :=
  match b with
  | [] => []
  | [x] => [base64_char (x / 4); base64_char (x mod 4 * 16)]
  | [x; y] => [base64_char (x / 4); base64_char (x mod 4 * 16 + y / 16); base64_char (y mod 16 * 4)]
  | x :: y :: z :: b' =>
      base64_char (x / 4) :: base64_char (x mod 4 * 16 + y / 16) :: base64_char (y mod 16 * 4 + z / 64)
        :: base64_char (z mod 64) :: encodeBase64Url b'
  end.
(* Buffer.from(text, "base64url") of a text over the alphabet: the bits of a last
   character that do not fill a byte are dropped. *)
Fixpoint buffer_from_base64url (text : jsstr) : bytes :=
  match text with
  | a :: b :: c :: d :: text' =>
      sextet a * 4 + sextet b / 16 :: sextet b mod 16 * 16 + sextet c / 4 :: sextet c mod 4 * 64 + sextet d
        :: buffer_from_base64url text'
  | [a; b; c] => [sextet a * 4 + sextet b / 16; sextet b mod 16 * 16 + sextet c / 4]
  | [a; b] => [sextet a * 4 + sextet b / 16]
  | _ => []
  end.
Definition decodeBase64Url (text : jsstr) : option bytes :=
  if (negb (BASE64URL_PATTERN text) || (Z.of_nat (length text) mod 4 =? 1))%bool then None
  else
    let decoded := buffer_from_base64url text in
    if encodeBase64Url decoded !== text then None else Some decoded.

(** * The decoder inverts the encoder *)

Lemma base64_value_char n : 0 ≤ n < 64 → base64_value (base64_char n) = Some n.
Proof.
  intros Hn. pose proof (forall_range (λ n, base64_value (base64_char n) === Some n) 0 64 n eq_refl Hn) as Hd.
  by apply bool_decide_eq_true in Hd.
Qed.
Lemma sextet_char n : 0 ≤ n < 64 → sextet (base64_char n) = n.
Proof. intros Hn. unfold sextet. by rewrite base64_value_char. Qed.
Lemma sextet_range c : 0 ≤ sextet c < 64.
Proof. unfold sextet, base64_value. repeat case_match; simpl; bool_simpl; lia. Qed.

(* Induction on the groups of three bytes, and of four characters. *)
Lemma groups_of_three (P : bytes → Prop) :
  P [] → (∀ x, P [x]) → (∀ x y, P [x; y]) → (∀ x y z b, P b → P (x :: y :: z :: b)) → ∀ b, P b.
Proof.
  intros H0 H1 H2 H3. fix IH 1. intros [|x [|y [|z b]]]; [done|by apply H1|by apply H2|]. by apply H3.
Qed.
Lemma groups_of_four (P : jsstr → Prop) :
  P [] → (∀ a, P [a]) → (∀ a b, P [a; b]) → (∀ a b c, P [a; b; c]) → (∀ a b c d s, P s → P (a :: b :: c :: d :: s)) → ∀ s, P s.
Proof.
  intros H0 H1 H2 H3 H4. fix IH 1.
  intros [|a [|b [|c [|d s]]]]; [done|by apply H1|by apply H2|by apply H3|]. by apply H4.
Qed.

Lemma buffer_bytes text : bytes_ok (buffer_from_base64url text) = true.
Proof.
  induction text as [|a|a b|a b c|a b c d text IH] using groups_of_four; simpl; rewrite ?IH, ?andb_true_r; try done;
    rewrite ?andb_true_iff, ?is_byte_true; pose proof (sextet_range a); pose proof (sextet_range b);
    try pose proof (sextet_range c); try pose proof (sextet_range d); split_and?; Z.to_euclidean_division_equations; lia.
Qed.
Lemma encode_pattern b : bytes_ok b = true → BASE64URL_PATTERN (encodeBase64Url b) = true.
Proof.
  unfold BASE64URL_PATTERN.
  induction b as [|x|x y|x y z b IH] using groups_of_three; simpl; rewrite ?andb_true_iff, ?is_byte_true; intros Hb;
    destruct_and?; [done|..]; rewrite ?IH by done;
    rewrite !base64_value_char by (Z.to_euclidean_division_equations; lia); done.
Qed.
Lemma encode_length b : Z.of_nat (length (encodeBase64Url b)) mod 4 ≠ 1.
Proof.
  induction b as [|x|x y|x y z b IH] using groups_of_three; [done..|]. simpl.
  rewrite !Nat2Z.inj_succ. Z.to_euclidean_division_equations; lia.
Qed.
Lemma buffer_encode b : bytes_ok b = true → buffer_from_base64url (encodeBase64Url b) = b.
Proof.
  induction b as [|x|x y|x y z b IH] using groups_of_three; simpl; rewrite ?andb_true_iff, ?is_byte_true; intros Hb;
    destruct_and?; [done|..]; rewrite ?IH by done;
    rewrite !sextet_char by (Z.to_euclidean_division_equations; lia); repeat f_equal; try done;
    Z.to_euclidean_division_equations; lia.
Qed.

(** A text is decoded to some bytes exactly when it is the text that the
    encoder writes for them: no second text, padded, with other alphabet characters
    or with stray trailing bits, stands for the same bytes. *)
Theorem base64url_canonical text b :
  decodeBase64Url text = Some b ↔ bytes_ok b = true ∧ text = encodeBase64Url b.
Proof.
  unfold decodeBase64Url. split.
  - case_match; [done|]. destruct (encodeBase64Url _ !== text) eqn:E0; [done|]. intros [= <-].
    bool_simpl. split; [apply buffer_bytes|by rewrite E0].
  - intros [Hb ->]. rewrite encode_pattern by done. rewrite (proj2 (Z.eqb_neq _ _)) by apply encode_length.
    cbn [negb orb]. rewrite buffer_encode by done. by rewrite bool_decide_true.
Qed.
