(* ===== verification/Transparency.v ===== *)
(** The transparency log: Merkle checkpoints and inclusion proofs
    (packages/evidence-store/src/transparency/checkpoint.ts), their verifier
    (packages/protocol-ts/src/transparency-verify.ts), the chain head of one
    review's events (transparency/review-chain.ts) and its verifier. *)
From S2P Require Import Prelude Patterns Bytes Json JsonText CanonicalJson.

Local Open Scope Z_scope.

Record ReviewHead := { review_id : string; head_hash : string }.
Inductive position := left | right.
Record MerkleProofStep := { step_position : position; step_hash : string }.
Record MerkleProof := {
  proof_review_id : string; leaf_index : Z; tree_size : Z; siblings : list MerkleProofStep
}.
Record CheckpointProjection := { merkle_root : string; checkpoint_tree_size : Z }.

#[export] Instance position_eq_dec : EqDecision position.
Proof. solve_decision. Defined.
#[export] Instance ReviewHead_eq_dec : EqDecision ReviewHead.
Proof. solve_decision. Defined.

(** * Checkpoints *)

Section checkpoint.
Context `{Sha256}.

Definition compareReviewIds (left right : string) : Z :=
  if str_ltb left right then -1 else if str_ltb right left then 1 else 0.

Fixpoint check_heads (previousReviewId : option string) (heads : list ReviewHead) : throws () :=
  match heads with
  | [] => Ret ()
  | head :: heads' =>
      if negb (REVIEW_ID_PATTERN (review_id head)) then Throw "Checkpoint entries must contain a valid review_id."
      else if negb (SHA256_HEX_PATTERN (head_hash head)) then
        Throw "Review head_hash must be lowercase 64-character sha256 hex."
      else if Some (review_id head) === previousReviewId then
        Throw "A checkpoint cannot contain duplicate review_id entries."
      else check_heads (Some (review_id head)) heads'
  end.
Definition validateAndSortHeads (heads : list ReviewHead) : throws (list ReviewHead) :=
  let orderedHeads := sortBy (λ l r, compareReviewIds (review_id l) (review_id r)) heads in
  _ ← check_heads None orderedHeads; Ret orderedHeads.

Definition head_json (head : ReviewHead) : json :=
  JObject [(js "review_id", JString (js (review_id head))); (js "head_hash", JString (js (head_hash head)))].
(* The canonical leaf cannot throw: the object is flat and its strings are ASCII. *)
Definition leaf_text (head : ReviewHead) : jsstr :=
  match canonicalizeProtocolJson (head_json head) with Ret s => s | Throw _ => [] end.
Definition leaf_input (head : ReviewHead) : bytes := 0 :: utf8 (leaf_text head).
Definition node_input (left right : bytes) : bytes := 1 :: left ++ right.
Definition hashReviewHeadLeaf (head : ReviewHead) : bytes := sha256 (leaf_input head).

Fixpoint nextMerkleLevel (level : list bytes) : list bytes :=
  match level with
  | a :: b :: level' => sha256 (node_input a b) :: nextMerkleLevel level'
  | _ => level
  end.
(* while (level.length > 1) level = nextMerkleLevel(level) *)
Fixpoint merkle_levels (fuel : nat) (level : list bytes) : bytes :=
  match fuel, level with
  | S fuel', _ :: _ :: _ => merkle_levels fuel' (nextMerkleLevel level)
  | _, root :: _ => root
  | _, [] => []
  end.
Definition computeMerkleRoot (leaves : list bytes) : bytes :=
  match leaves with [] => sha256 [] | _ => merkle_levels (length leaves) leaves end.

Definition computeCheckpoint (heads : list ReviewHead) : throws CheckpointProjection :=
  orderedHeads ← validateAndSortHeads heads;
  Ret {| merkle_root := hex_string (computeMerkleRoot (List.map hashReviewHeadLeaf orderedHeads));
         checkpoint_tree_size := Z.of_nat (length orderedHeads) |}.

Fixpoint findIndex {A} (p : A → bool) (l : list A) : option nat :=
  match l with
  | [] => None
  | x :: l' => if p x then Some O else S <$> findIndex p l'
  end.
Fixpoint sibling_path (fuel : nat) (index : nat) (level : list bytes) : list MerkleProofStep :=
  match fuel, level with
  | S fuel', _ :: _ :: _ =>
      let isRightChild := (index mod 2 =? 1)%nat in
      let siblingIndex := if isRightChild then (index - 1)%nat else (index + 1)%nat in
      let rest := sibling_path fuel' (index / 2) (nextMerkleLevel level) in
      match level !! siblingIndex with
      | Some sibling => {| step_position := if isRightChild then left else right; step_hash := hex_string sibling |} :: rest
      | None => rest
      end
  | _, _ => []
  end.
Definition inclusionProof (reviewId : string) (heads : list ReviewHead) : throws MerkleProof :=
  if negb (REVIEW_ID_PATTERN reviewId) then Throw "Checkpoint entries must contain a valid review_id."
  else
    orderedHeads ← validateAndSortHeads heads;
    match findIndex (λ head, review_id head === reviewId) orderedHeads with
    | None => Throw "No review head exists."
    | Some index =>
        Ret {| proof_review_id := reviewId; leaf_index := Z.of_nat index; tree_size := Z.of_nat (length orderedHeads);
               siblings := sibling_path (length orderedHeads) index (List.map hashReviewHeadLeaf orderedHeads) |}
    end.

(** * The inclusion-proof verifier *)

Inductive inclusion_result := proof_verified | invalid_review_head | invalid_proof | invalid_merkle_root | root_mismatch.

(* Every string of a proof is tested against an ASCII pattern, which a string
   outside Latin-1 fails. *)
Definition string_field (name : string) (v : json) : option string :=
  match v with
  | JObject fs => match JsMap.get (js name) fs with Some (JString s) => latin_text s | _ => None end
  | _ => None
  end.
Definition number_field (name : string) (v : json) : option Z :=
  match v with
  | JObject fs => match JsMap.get (js name) fs with Some (JNumber n) => Some n | _ => None end
  | _ => None
  end.
Definition isPlainRecordWithExactKeys (v : json) (expectedKeys : list string) : bool :=
  match v with
  | JObject fs => ((length fs =? length expectedKeys)%nat &&
                   forallb (λ kv : jsstr * json, bool_decide (kv.1 ∈ List.map js expectedKeys)) fs)%bool
  | _ => false
  end.

Definition isReviewHead (v : json) : option ReviewHead :=
  if isPlainRecordWithExactKeys v ["review_id"; "head_hash"] then
    id ← string_field "review_id" v;
    h ← string_field "head_hash" v;
    if (REVIEW_ID_PATTERN id && SHA256_HEX_PATTERN h)%bool then Some {| review_id := id; head_hash := h |} else None
  else None.
Definition isProofStep (v : json) : option MerkleProofStep :=
  if isPlainRecordWithExactKeys v ["position"; "hash"] then
    p ← string_field "position" v;
    h ← string_field "hash" v;
    if negb (SHA256_HEX_PATTERN h) then None
    else if p === "left" then Some {| step_position := left; step_hash := h |}
    else if p === "right" then Some {| step_position := right; step_hash := h |}
    else None
  else None.
Definition isMerkleProof (v : json) : option MerkleProof :=
  if isPlainRecordWithExactKeys v ["review_id"; "leaf_index"; "tree_size"; "siblings"] then
    id ← string_field "review_id" v;
    i ← number_field "leaf_index" v;
    n ← number_field "tree_size" v;
    if negb (REVIEW_ID_PATTERN id) then None
    else if negb (isSafeInteger i && isSafeInteger n) then None
    else if ((i <? 0) || (n <=? 0) || (n <=? i))%bool then None
    else match v with
    | JObject fs =>
        match JsMap.get (js "siblings") fs with
        | Some (JArray l) =>
            if (53 <? length l)%nat then None
            else steps ← mapM isProofStep l;
                 Some {| proof_review_id := id; leaf_index := i; tree_size := n; siblings := steps |}
        | _ => None
        end
    | _ => None
    end
  else None.

(* The loop over the levels; 54 halvings bring any safe integer down to 1. *)
Fixpoint verify_path (fuel : nat) (node : bytes) (index width : Z) (steps : list MerkleProofStep) : inclusion_result + bytes :=
  if width <=? 1 then (if steps is [] then inr node else inl invalid_proof)
  else match fuel with
  | O => inl invalid_proof
  | S fuel' =>
      let hasLeftSibling := index mod 2 =? 1 in
      let hasRightSibling := (negb hasLeftSibling && (index + 1 <? width))%bool in
      let index' := index / 2 in
      let width' := (width + 1) / 2 in
      if (hasLeftSibling || hasRightSibling)%bool then
        match steps with
        | [] => inl invalid_proof
        | step :: steps' =>
            let expectedPosition := if hasLeftSibling then left else right in
            if negb (bool_decide (step_position step = expectedPosition)) then inl invalid_proof
            else
              let siblingHash := from_hex (step_hash step) in
              let node' := if hasLeftSibling then sha256 (node_input siblingHash node)
                           else sha256 (node_input node siblingHash) in
              verify_path fuel' node' index' width' steps'
        end
      else verify_path fuel' node index' width' steps
  end.
Definition VERIFY_FUEL : nat := 54.

Definition verify_typed (head : ReviewHead) (proof : MerkleProof) (merkleRoot : string) : inclusion_result :=
  if proof_review_id proof !== review_id head then invalid_proof
  else match verify_path VERIFY_FUEL (sha256 (leaf_input head)) (leaf_index proof) (tree_size proof) (siblings proof) with
  | inl r => r
  | inr node => if hex_string node === merkleRoot then proof_verified else root_mismatch
  end.
Definition verifyInclusionProof (reviewHead proof merkleRoot : json) : inclusion_result :=
  match isReviewHead reviewHead with
  | None => invalid_review_head
  | Some head =>
      match merkleRoot with
      | JString root =>
          match latin_text root with
          | None => invalid_merkle_root
          | Some root =>
              if negb (SHA256_HEX_PATTERN root) then invalid_merkle_root
              else match isMerkleProof proof with
              | None => invalid_proof
              | Some p => verify_typed head p root
              end
          end
      | _ => invalid_merkle_root
      end
  end.

(** * The tree *)

Lemma next_level_lookup (l : list bytes) j :
  nextMerkleLevel l !! j = match l !! (2 * j)%nat, l !! (2 * j + 1)%nat with
                           | Some a, Some b => Some (sha256 (node_input a b))
                           | Some a, None => Some a
                           | None, _ => None
                           end.
Proof.
  revert l. induction j as [|j IH]; intros l.
  - by destruct l as [|a [|b l]].
  - destruct l as [|a [|b l]]; [done|done|]. cbn [nextMerkleLevel].
    replace (2 * S j)%nat with (S (S (2 * j))) by lia. replace (S (S (2 * j)) + 1)%nat with (S (S (2 * j + 1))) by lia.
    simpl lookup. change (list_lookup j ?x) with (x !! j). by rewrite IH.
Qed.
Lemma length_next_level (l : list bytes) : length (nextMerkleLevel l) = ((length l + 1) / 2)%nat.
Proof.
  assert (∀ n, ((S (S n) + 1) / 2 = S ((n + 1) / 2))%nat) as Hstep.
  { intros n. replace (S (S n) + 1)%nat with (n + 1 + 1 * 2)%nat by lia. rewrite Nat.div_add by lia. lia. }
  assert (length (nextMerkleLevel l) = ((length l + 1) / 2)%nat ∧
    ∀ a, length (nextMerkleLevel (a :: l)) = ((length (a :: l) + 1) / 2)%nat) as [H1 _]; [|done].
  induction l as [|b l [IH1 IH2]]; [done|]. split; [apply IH2|]. intros a. simpl. by rewrite IH1, <- Hstep.
Qed.

Definition level_ok (l : list bytes) : Prop := Forall (λ b, bytes_ok b = true ∧ length b = 32%nat) l.
Lemma sha256_ok b : bytes_ok (sha256 b) = true ∧ length (sha256 b) = 32%nat.
Proof. split; [apply sha256_bytes|apply sha256_length]. Qed.
Lemma next_level_ok l : level_ok l → level_ok (nextMerkleLevel l).
Proof.
  intros Hl. assert (level_ok (nextMerkleLevel l) ∧ ∀ a, bytes_ok a = true ∧ length a = 32%nat → level_ok (nextMerkleLevel (a :: l))) as [? _]; [|done].
  induction Hl as [|b l Hb Hl [IH1 IH2]].
  - split; [constructor|]. intros a Ha. by apply Forall_singleton.
  - split; [by apply IH2|]. intros a Ha. simpl. constructor; [apply sha256_ok|done].
Qed.

Lemma half_lt n : (2 ≤ n)%nat → ((n + 1) / 2 < n)%nat.
Proof. intros. apply Nat.Div0.div_lt_upper_bound; lia. Qed.
Lemma half_Z (n : nat) : Z.of_nat ((n + 1) / 2) = (Z.of_nat n + 1) / 2.
Proof. rewrite Nat2Z.inj_div. f_equal. lia. Qed.
Lemma lookup_lt_is_Some_nat (l : list bytes) i : (i < length l)%nat → ∃ x, l !! i = Some x.
Proof. intros Hi. by apply lookup_lt_is_Some. Qed.

(** Following the sibling path from a leaf arrives at the root. *)
Lemma verify_sibling_path vfuel : ∀ fuel (l : list bytes) i x,
  level_ok l → (length l ≤ fuel)%nat → (length l ≤ 2 ^ vfuel)%nat → l !! i = Some x →
  verify_path vfuel x (Z.of_nat i) (Z.of_nat (length l)) (sibling_path fuel i l) = inr (merkle_levels fuel l).
Proof.
  induction vfuel as [|vfuel IH]; intros fuel l i x Hok Hfuel Hv Hi.
  - destruct l as [|a [|b l]]; [done| |simpl in Hv; lia]. destruct i as [|i]; [|done]. injection Hi as ->.
    by destruct fuel.
  - destruct l as [|a [|b l]]; [done| |].
    { destruct i as [|i]; [|done]. injection Hi as ->. by destruct fuel. }
    remember (a :: b :: l) as lv eqn:El. assert (2 ≤ length lv)%nat as H2 by (subst lv; simpl; lia).
    pose proof (lookup_lt_Some _ _ _ Hi) as Hlt.
    destruct fuel as [|fuel]; [lia|].
    assert (merkle_levels (S fuel) lv = merkle_levels fuel (nextMerkleLevel lv)) as -> by (subst lv; done).
    assert (sibling_path (S fuel) i lv = 
      let r := (i mod 2 =? 1)%nat in
      let rest := sibling_path fuel (i / 2) (nextMerkleLevel lv) in
      match lv !! (if r then (i - 1)%nat else (i + 1)%nat) with
      | Some sibling => {| step_position := if r then left else right; step_hash := hex_string sibling |} :: rest
      | None => rest
      end) as -> by (subst lv; done).
    cbn [verify_path]. rewrite (proj2 (Z.leb_gt _ 1)) by lia.
    assert (Z.of_nat i mod 2 = Z.of_nat (i mod 2)) as -> by (by rewrite Nat2Z.inj_mod).
    assert (Z.of_nat i / 2 = Z.of_nat (i / 2)) as -> by (by rewrite Nat2Z.inj_div).
    rewrite <- half_Z, <- length_next_level.
    pose proof (Nat.div_mod_eq i 2) as Hdm. pose proof (Nat.mod_upper_bound i 2 ltac:(lia)) as Hmod.
    assert (∀ y, nextMerkleLevel lv !! (i / 2)%nat = Some y →
      verify_path vfuel y (Z.of_nat (i / 2)) (Z.of_nat (length (nextMerkleLevel lv))) (sibling_path fuel (i / 2) (nextMerkleLevel lv))
        = inr (merkle_levels fuel (nextMerkleLevel lv))) as IH'.
    { intros y Hy. apply IH; [by apply next_level_ok| | |done]; rewrite length_next_level.
      - pose proof (half_lt (length lv) H2). lia.
      - apply Nat.lt_succ_r. apply Nat.Div0.div_lt_upper_bound. rewrite Nat.pow_succ_r' in Hv. lia. }
    rewrite next_level_lookup in IH'.
    destruct (Nat.eqb_spec (i mod 2) 1) as [Hodd|Hodd].
    + rewrite Hodd. change (Z.of_nat 1 =? 1) with true. cbn [negb orb andb].
      destruct (lookup_lt_is_Some_nat lv (i - 1)) as [s Hs]; [lia|]. rewrite Hs. cbn [step_position step_hash].
      rewrite bool_decide_true by done. cbn [negb].
      assert (bytes_ok s = true) as Hsb by (apply (proj1 (Forall_forall _ _) Hok s); by eapply list_elem_of_lookup_2).
      rewrite from_hex_string by done. apply IH'.
      replace (2 * (i / 2))%nat with (i - 1)%nat by lia. replace (i - 1 + 1)%nat with i by lia. by rewrite Hs, Hi.
    + assert (i mod 2 = 0)%nat as Heven by lia. rewrite Heven. change (Z.of_nat 0 =? 1) with false. cbn [negb orb andb].
      assert (2 * (i / 2) = i)%nat as Hi2 by lia. rewrite Hi2, Hi in IH'.
      destruct (lv !! (i + 1)%nat) as [s|] eqn:Hs.
      * pose proof (lookup_lt_Some _ _ _ Hs). rewrite (proj2 (Z.ltb_lt _ _)) by lia. cbn [step_position step_hash].
        rewrite bool_decide_true by done. cbn [negb].
        assert (bytes_ok s = true) as Hsb by (apply (proj1 (Forall_forall _ _) Hok s); by eapply list_elem_of_lookup_2).
        rewrite from_hex_string by done. by apply IH'.
      * apply lookup_ge_None in Hs. rewrite (proj2 (Z.ltb_ge _ _)) by lia. by apply IH'.
Qed.
(** * What the hash is applied to *)

(* The node inputs of all levels above [level], and every node of those levels. *)
Fixpoint pair_inputs (level : list bytes) : list bytes :=
  match level with a :: b :: level' => node_input a b :: pair_inputs level' | _ => [] end.
Fixpoint tree_inputs (fuel : nat) (level : list bytes) : list bytes :=
  match fuel, level with
  | S fuel', _ :: _ :: _ => pair_inputs level ++ tree_inputs fuel' (nextMerkleLevel level)
  | _, _ => []
  end.
Fixpoint tree_nodes (fuel : nat) (level : list bytes) : list bytes :=
  match fuel, level with
  | S fuel', _ :: _ :: _ => level ++ tree_nodes fuel' (nextMerkleLevel level)
  | _, _ => level
  end.
(* The node inputs the verifier hashes along a path. *)
Fixpoint path_inputs (fuel : nat) (node : bytes) (index width : Z) (steps : list MerkleProofStep) : list bytes :=
  if width <=? 1 then []
  else match fuel with
  | O => []
  | S fuel' =>
      let hasLeftSibling := index mod 2 =? 1 in
      if (hasLeftSibling || (index + 1 <? width))%bool then
        match steps with
        | [] => []
        | step :: steps' =>
            let s := from_hex (step_hash step) in
            let input := if hasLeftSibling then node_input s node else node_input node s in
            input :: path_inputs fuel' (sha256 input) (index / 2) ((width + 1) / 2) steps'
        end
      else path_inputs fuel' node (index / 2) ((width + 1) / 2) steps
  end.
Definition checkpoint_inputs (heads : list ReviewHead) : list bytes :=
  [] :: List.map leaf_input heads ++ tree_inputs (length heads) (List.map hashReviewHeadLeaf heads).
Definition proof_inputs (head : ReviewHead) (proof : MerkleProof) : list bytes :=
  leaf_input head ::
  path_inputs VERIFY_FUEL (sha256 (leaf_input head)) (leaf_index proof) (tree_size proof) (siblings proof).

Lemma next_level_inv (l : list bytes) x :
  x ∈ nextMerkleLevel l → x ∈ l ∨ ∃ a b, a ∈ l ∧ b ∈ l ∧ x = sha256 (node_input a b) ∧ node_input a b ∈ pair_inputs l.
Proof.
  intros [j Hj]%list_elem_of_lookup. rewrite next_level_lookup in Hj.
  destruct (l !! (2 * j)%nat) as [a|] eqn:Ha; [|done].
  destruct (l !! (2 * j + 1)%nat) as [b|] eqn:Hb; injection Hj as <-; [|left; by eapply list_elem_of_lookup_2].
  right. exists a, b. split_and!; [by eapply list_elem_of_lookup_2..|done|].
  clear -Ha Hb. revert l Ha Hb. induction j as [|j IH]; intros l Ha Hb.
  - destruct l as [|a' [|b' l]]; try done. injection Ha as <-. injection Hb as <-. apply list_elem_of_here.
  - destruct l as [|a' [|b' l]]; try done. replace (2 * S j)%nat with (S (S (2 * j))) in * by lia.
    replace (S (S (2 * j)) + 1)%nat with (S (S (2 * j + 1))) in Hb by lia. simpl in Ha, Hb.
    apply list_elem_of_further. by apply IH.
Qed.
(* A node is a leaf, or the hash of an input over two nodes. *)
Lemma tree_nodes_inv fuel l x :
  x ∈ tree_nodes fuel l →
  x ∈ l ∨ ∃ a b, a ∈ tree_nodes fuel l ∧ b ∈ tree_nodes fuel l ∧ x = sha256 (node_input a b) ∧ node_input a b ∈ tree_inputs fuel l.
Proof.
  revert l x; induction fuel as [|fuel IH]; intros l x; [by left|].
  destruct l as [|a [|b l]]; [by left..|]. remember (a :: b :: l) as lv eqn:El.
  assert (tree_nodes (S fuel) lv = lv ++ tree_nodes fuel (nextMerkleLevel lv) ∧
    tree_inputs (S fuel) lv = pair_inputs lv ++ tree_inputs fuel (nextMerkleLevel lv)) as [-> ->] by (subst lv; done).
  intros [Hx|Hx]%elem_of_app; [by left|].
  destruct (IH _ _ Hx) as [Hn|(a' & b' & Ha & Hb & -> & Hin)].
  - apply next_level_inv in Hn as [?|(a' & b' & Ha & Hb & -> & Hin)]; [by left|].
    right. exists a', b'. rewrite !elem_of_app. auto.
  - right. exists a', b'. rewrite !elem_of_app. auto.
Qed.
Lemma root_in_tree fuel l : l ≠ [] → (length l ≤ fuel)%nat → merkle_levels fuel l ∈ tree_nodes fuel l.
Proof.
  revert l; induction fuel as [|fuel IH]; intros l Hne Hl; [by destruct l; [|simpl in Hl; lia]|].
  destruct l as [|a [|b l]]; [done|apply list_elem_of_here|]. cbn [merkle_levels tree_nodes].
  apply elem_of_app. right. apply IH; [done|]. rewrite length_next_level.
  pose proof (half_lt (length (a :: b :: l))). simpl in *. lia.
Qed.
Lemma tree_nodes_ok fuel l : level_ok l → level_ok (tree_nodes fuel l).
Proof.
  revert l; induction fuel as [|fuel IH]; intros l Hl; [done|]. destruct l as [|a [|b l]]; [done..|].
  cbn [tree_nodes]. apply Forall_app. split; [done|]. by apply IH, next_level_ok.
Qed.

(** * Soundness *)

Lemma leaf_input_not_node head a b : leaf_input head ≠ node_input a b.
Proof. unfold leaf_input, node_input. congruence. Qed.
Lemma node_input_inj a b a' b' : length a = length a' → node_input a b = node_input a' b' → a = a' ∧ b = b'.
Proof. unfold node_input. intros Hl [= E0]. by apply app_inj_1. Qed.

Section walk.
Variables (heads : list ReviewHead) (others : list bytes).
Abbreviation leaves := (List.map hashReviewHeadLeaf heads).
Abbreviation nodes := (tree_nodes (length heads) leaves).
Hypothesis Hcf : collision_free (checkpoint_inputs heads ++ others).

Lemma leaves_ok : level_ok leaves.
Proof.
  apply Forall_forall. intros x Hx. apply list_elem_of_In, in_map_iff in Hx as (h & <- & _). apply sha256_ok.
Qed.
(* A hash that occurs in the tree has its children, or its leaf, there. *)
Lemma tree_child input :
  input ∈ others → sha256 input ∈ nodes →
  (∃ head, head ∈ heads ∧ input = leaf_input head) ∨ ∃ a b, a ∈ nodes ∧ b ∈ nodes ∧ input = node_input a b.
Proof.
  intros Hin Hx. apply tree_nodes_inv in Hx as [Hx|(a & b & Ha & Hb & Hab & Hi)].
  - left. apply list_elem_of_In, in_map_iff in Hx as (h & Hh & Hhin). apply list_elem_of_In in Hhin.
    exists h. split; [done|]. symmetry. apply Hcf; [| |exact Hh]; apply elem_of_app; [left|by right].
    apply list_elem_of_further, elem_of_app. left. apply list_elem_of_In, in_map. by apply list_elem_of_In.
  - right. exists a, b. split_and!; [done..|]. apply Hcf; [| |done]; apply elem_of_app; [by right|left].
    apply list_elem_of_further, elem_of_app. by right.
Qed.

Lemma path_back fuel : ∀ node index width steps root,
  Forall (λ step, SHA256_HEX_PATTERN (step_hash step) = true) steps → length node = 32%nat →
  path_inputs fuel node index width steps ⊆ others →
  verify_path fuel node index width steps = inr root → root ∈ nodes → node ∈ nodes.
Proof.
  induction fuel as [|fuel IH]; intros node index width steps root Hsteps Hlen Hsub Hv Hroot.
  { cbn [verify_path] in Hv. destruct (width <=? 1); [|done]. destruct steps; [|done]. by injection Hv as ->. }
  cbn [verify_path path_inputs] in *. destruct (width <=? 1).
  { destruct steps; [|done]. by injection Hv as ->. }
  assert (∀ step steps' (l : bool), steps = step :: steps' →
    let s := from_hex (step_hash step) in
    let input := if l then node_input s node else node_input node s in
    (input :: path_inputs fuel (sha256 input) (index / 2) ((width + 1) / 2) steps') ⊆ others →
    verify_path fuel (sha256 input) (index / 2) ((width + 1) / 2) steps' = inr root → node ∈ nodes) as Hstep.
  { intros step steps' l -> s input Hsub' Hv'. inversion Hsteps as [|? ? Hs Hsteps']; subst.
    destruct (sha256_hex_roundtrip _ Hs) as (_ & _ & Hslen).
    assert (sha256 input ∈ nodes) as Hin.
    { eapply IH; [exact Hsteps'|apply sha256_length| |exact Hv'|done]. intros x Hx. apply Hsub'. by apply list_elem_of_further. }
    apply tree_child in Hin as [(h & _ & Hh)|(a & b & Ha & Hb & Hab)]; [| |apply Hsub', list_elem_of_here].
    - exfalso. destruct l; by apply (leaf_input_not_node h _ _ (eq_sym Hh)).
    - pose proof (tree_nodes_ok (length heads) leaves leaves_ok) as Hok. unfold level_ok in Hok. rewrite Forall_forall in Hok.
      destruct (Hok a Ha) as [_ Hla]. unfold input in Hab.
      destruct l; apply node_input_inj in Hab as [? ?]; subst; (done || (unfold s; congruence)). }
  destruct (index mod 2 =? 1) eqn:Hodd; cbn [negb andb orb] in *.
  - destruct steps as [|step steps]; [done|]. destruct (negb _); [done|]. by apply (Hstep step steps true).
  - destruct (index + 1 <? width) eqn:Hr; cbn [orb] in *.
    + destruct steps as [|step steps]; [done|]. destruct (negb _); [done|]. by apply (Hstep step steps false).
    + by eapply IH.
Qed.
End walk.

Lemma leaf_text_canonical head : canonicalizeProtocolJson (head_json head) = Ret (leaf_text head).
Proof.
  unfold leaf_text. destruct (canonicalize_flat [(js "review_id", JString (js (review_id head))); (js "head_hash", JString (js (head_hash head)))]) as [s Hs].
  - repeat (constructor; [split; [apply js_paired|simpl; by rewrite js_paired]|]). constructor.
  - simpl. unfold MAX_NODES. lia.
  - unfold head_json. by rewrite Hs.
Qed.
Lemma head_json_wf head : wf_json (head_json head) = true.
Proof. cbn [wf_json head_json forallb fst snd]. rewrite !js_units_ok. by vm_compute. Qed.
Lemma leaf_input_inj h h' : leaf_input h = leaf_input h' → h = h'.
Proof.
  unfold leaf_input. intros [= E0].
  apply utf8_inj in E0; [|eapply canonical_text_ok; [apply head_json_wf|apply leaf_text_canonical]..].
  pose proof (canonical_inj (head_json h) (head_json h') (leaf_text h) (head_json_wf h) (head_json_wf h')
    (leaf_text_canonical h)) as Hinj. rewrite E0 in Hinj. specialize (Hinj (leaf_text_canonical h')).
  assert (∀ x, norm (head_json x) = JObject [(js "head_hash", JString (js (head_hash x))); (js "review_id", JString (js (review_id x)))]) as Hn by done.
  rewrite !Hn in Hinj. injection Hinj as E1 E2. apply js_inj in E1, E2. destruct h, h'. simpl in *. congruence.
Qed.

Lemma verify_path_not_verified fuel node index width steps : verify_path fuel node index width steps ≠ inl proof_verified.
Proof.
  revert node index width steps; induction fuel as [|fuel IH]; intros node index width steps; cbn [verify_path];
    (destruct (width <=? 1); [by destruct steps|]); [done|].
  destruct (_ || _)%bool; [|apply IH]. destruct steps as [|step steps]; [done|]. destruct (negb _); [done|apply IH].
Qed.
(* The node a path ends in is the hash of one of the verifier's inputs. *)
Lemma verify_path_hash fuel : ∀ input index width steps root,
  input ≠ [] → verify_path fuel (sha256 input) index width steps = inr root →
  ∃ i, i ≠ [] ∧ root = sha256 i ∧ i ∈ input :: path_inputs fuel (sha256 input) index width steps.
Proof.
  induction fuel as [|fuel IH]; intros input index width steps root Hne Hv; cbn [verify_path path_inputs] in *;
    (destruct (width <=? 1); [destruct steps; [|done]; injection Hv as <-; exists input;
      split; [done|]; split; [done|apply list_elem_of_here]|]); [done|].
  assert (∀ input' steps', input' ≠ [] →
    verify_path fuel (sha256 input') (index / 2) ((width + 1) / 2) steps' = inr root →
    ∃ i, i ≠ [] ∧ root = sha256 i ∧ i ∈ input :: input' :: path_inputs fuel (sha256 input') (index / 2) ((width + 1) / 2) steps') as Hnext.
  { intros input' steps' Hne' Hv'. destruct (IH _ _ _ _ _ Hne' Hv') as (i & Hi & -> & Hin). exists i.
    split; [done|]. split; [done|]. by apply list_elem_of_further. }
  destruct (index mod 2 =? 1); cbn [negb andb orb] in *.
  - destruct steps as [|step steps]; [done|]. destruct (negb _); [done|]. by apply Hnext.
  - destruct (index + 1 <? width); cbn [orb] in *; [|by apply IH].
    destruct steps as [|step steps]; [done|]. destruct (negb _); [done|]. by apply Hnext.
Qed.
Lemma computeMerkleRoot_ok heads : bytes_ok (computeMerkleRoot (List.map hashReviewHeadLeaf heads)) = true.
Proof.
  unfold computeMerkleRoot. destruct heads as [|h heads]; [apply sha256_bytes|]. cbn [List.map].
  change (hashReviewHeadLeaf h :: List.map hashReviewHeadLeaf heads) with (List.map hashReviewHeadLeaf (h :: heads)).
  remember (List.map hashReviewHeadLeaf (h :: heads)) as l eqn:El.
  assert (merkle_levels (length l) l ∈ tree_nodes (length l) l) as Hin by (apply root_in_tree; [by subst l|done]).
  assert (level_ok (tree_nodes (length l) l)) as Hok by (subst l; apply tree_nodes_ok, leaves_ok).
  unfold level_ok in Hok. rewrite Forall_forall in Hok. by apply Hok in Hin as [? _].
Qed.
Lemma computeMerkleRoot_in_tree heads :
  heads ≠ [] → computeMerkleRoot (List.map hashReviewHeadLeaf heads) ∈ tree_nodes (length heads) (List.map hashReviewHeadLeaf heads).
Proof.
  intros Hne. unfold computeMerkleRoot. replace (length heads) with (length (List.map hashReviewHeadLeaf heads)) by apply List.length_map.
  destruct heads as [|h heads]; [done|]. cbn [List.map]. by apply root_in_tree.
Qed.

(** C4. Soundness: whatever a proof claims, if it verifies against the root of a
    checkpoint then the head it is for is one of the heads of that checkpoint,
    unless two of the hashed inputs collide. Leaf and node inputs begin with
    different bytes, so no other shape of tree or position can stand in. *)
Theorem inclusion_proof_sound heads cp head proof :
  computeCheckpoint heads = Ret cp →
  Forall (λ step, SHA256_HEX_PATTERN (step_hash step) = true) (siblings proof) →
  verify_typed head proof (merkle_root cp) = proof_verified →
  collision_free (checkpoint_inputs (sortBy (λ l r, compareReviewIds (review_id l) (review_id r)) heads) ++ proof_inputs head proof) →
  head ∈ heads.
Proof.
  unfold computeCheckpoint, validateAndSortHeads. set (ordered := sortBy _ heads).
  destruct (check_heads None ordered) as [|]; [|done]. cbn [mbind throws_bind]. intros [= <-] Hsteps Hv Hcf. cbn [merkle_root] in Hv.
  unfold verify_typed in Hv. destruct (negb (bool_decide (proof_review_id proof = review_id head))); [done|].
  destruct (verify_path _ _ _ _ _) as [r|node] eqn:Hpath; [by subst r; exfalso; eapply verify_path_not_verified|].
  case_bool_decide as Hroot; [|done].
  destruct (verify_path_hash VERIFY_FUEL (leaf_input head) _ _ _ _ (λ E0, ltac:(discriminate E0)) Hpath) as (i & Hi & -> & Hin).
  apply hex_string_inj in Hroot; [|apply sha256_bytes|apply computeMerkleRoot_ok].
  destruct (decide (ordered = [])) as [Hnil|Hne].
  { exfalso. rewrite Hnil in Hroot. apply Hi. apply Hcf; [apply elem_of_app; right; exact Hin| |exact Hroot].
    apply elem_of_app. left. apply list_elem_of_here. }
  pose proof (computeMerkleRoot_in_tree ordered Hne) as Htree. rewrite <- Hroot in Htree.
  assert (sha256 (leaf_input head) ∈ tree_nodes (length ordered) (List.map hashReviewHeadLeaf ordered)) as Hleaf.
  { eapply path_back; [exact Hcf|exact Hsteps|apply sha256_length| |exact Hpath|exact Htree].
    intros x Hx. by apply list_elem_of_further. }
  eapply tree_child in Hleaf; [|exact Hcf|apply list_elem_of_here].
  destruct Hleaf as [(h & Hh & E0)|(n1 & n2 & _ & _ & E0)].
  - apply leaf_input_inj in E0 as ->. unfold ordered in Hh. by rewrite elem_of_sortBy in Hh.
  - by apply leaf_input_not_node in E0.
Qed.
(** * Completeness *)

(* The JSON form of a proof. *)
Definition position_text (p : position) : string := match p with left => "left" | right => "right" end.
Definition step_json (s : MerkleProofStep) : json :=
  JObject [(js "position", JString (js (position_text (step_position s)))); (js "hash", JString (js (step_hash s)))].
Definition proof_json (p : MerkleProof) : json :=
  JObject [(js "review_id", JString (js (proof_review_id p))); (js "leaf_index", JNumber (leaf_index p));
           (js "tree_size", JNumber (tree_size p)); (js "siblings", JArray (List.map step_json (siblings p)))].

Lemma isReviewHead_json h :
  REVIEW_ID_PATTERN (review_id h) = true → SHA256_HEX_PATTERN (head_hash h) = true → isReviewHead (head_json h) = Some h.
Proof.
  intros Hid Hh. unfold isReviewHead.
  assert (isPlainRecordWithExactKeys (head_json h) ["review_id"; "head_hash"] = true) as -> by (by vm_compute).
  assert (string_field "review_id" (head_json h) = latin_text (js (review_id h))) as -> by done.
  assert (string_field "head_hash" (head_json h) = latin_text (js (head_hash h))) as -> by done.
  rewrite !latin_text_js. cbn [mbind option_bind]. rewrite Hid, Hh. by destruct h.
Qed.
Lemma isProofStep_json s : SHA256_HEX_PATTERN (step_hash s) = true → isProofStep (step_json s) = Some s.
Proof.
  intros Hh. unfold isProofStep.
  assert (isPlainRecordWithExactKeys (step_json s) ["position"; "hash"] = true) as -> by (by vm_compute).
  assert (string_field "position" (step_json s) = latin_text (js (position_text (step_position s)))) as -> by done.
  assert (string_field "hash" (step_json s) = latin_text (js (step_hash s))) as -> by done.
  rewrite !latin_text_js. cbn [mbind option_bind]. rewrite Hh. by destruct s as [[] h].
Qed.
Lemma isMerkleProof_json p :
  REVIEW_ID_PATTERN (proof_review_id p) = true → 0 ≤ leaf_index p < tree_size p → tree_size p ≤ MAX_SAFE_INTEGER →
  (length (siblings p) ≤ 53)%nat → Forall (λ s, SHA256_HEX_PATTERN (step_hash s) = true) (siblings p) →
  isMerkleProof (proof_json p) = Some p.
Proof.
  intros Hid Hi Hn Hl Hs. unfold isMerkleProof.
  assert (isPlainRecordWithExactKeys (proof_json p) ["review_id"; "leaf_index"; "tree_size"; "siblings"] = true) as -> by (by vm_compute).
  assert (string_field "review_id" (proof_json p) = latin_text (js (proof_review_id p))) as -> by done.
  assert (number_field "leaf_index" (proof_json p) = Some (leaf_index p)) as -> by done.
  assert (number_field "tree_size" (proof_json p) = Some (tree_size p)) as -> by done.
  rewrite latin_text_js. cbn [mbind option_bind]. rewrite Hid. cbn [negb].
  assert (isSafeInteger (leaf_index p) = true ∧ isSafeInteger (tree_size p) = true) as [-> ->].
  { unfold isSafeInteger. rewrite !andb_true_iff, !Z.leb_le. unfold MAX_SAFE_INTEGER in *. lia. }
  cbn [negb andb]. rewrite (proj2 (Z.ltb_ge _ 0)), (proj2 (Z.leb_gt _ 0)), (proj2 (Z.leb_gt (tree_size p) _)) by lia. cbn [orb].
  unfold proof_json.
  assert (∀ a b c d, JsMap.get (js "siblings") [(js "review_id", a); (js "leaf_index", b); (js "tree_size", c); (js "siblings", d)] = Some d) as -> by done.
  rewrite List.length_map, (proj2 (Nat.ltb_ge _ _)) by done.
  assert (mapM isProofStep (List.map step_json (siblings p)) = Some (siblings p)) as ->; [|by destruct p].
  clear Hl. induction Hs as [|st steps Hst _ IH]; [done|]. cbn [List.map mapM]. rewrite isProofStep_json by done. simpl.
  by rewrite IH.
Qed.

Lemma check_heads_valid prev heads r :
  check_heads prev heads = Ret r → Forall (λ h, REVIEW_ID_PATTERN (review_id h) = true ∧ SHA256_HEX_PATTERN (head_hash h) = true) heads.
Proof.
  revert prev; induction heads as [|h heads IH]; intros prev; [constructor|]. cbn [check_heads].
  destruct (REVIEW_ID_PATTERN (review_id h)) eqn:H1; [|done]. destruct (SHA256_HEX_PATTERN (head_hash h)) eqn:H2; [|done].
  cbn [negb]. case_bool_decide; [done|]. intros Hc. constructor; [done|]. by eapply IH.
Qed.
Lemma findIndex_Some {A} (p : A → bool) l i : findIndex p l = Some i → ∃ x, l !! i = Some x ∧ p x = true.
Proof.
  revert i; induction l as [|y l IH]; intros i; [done|]. simpl. destruct (p y) eqn:Hp; [intros [= <-]; by exists y|].
  destruct (findIndex p l) as [j|]; [|done]. intros [= <-]. by apply IH.
Qed.
Lemma sibling_path_length k : ∀ fuel i (l : list bytes), (length l ≤ 2 ^ k)%nat → (length (sibling_path fuel i l) ≤ k)%nat.
Proof.
  induction k as [|k IH]; intros fuel i l Hl.
  - destruct fuel; [done|]. destruct l as [|a [|b l]]; simpl in *; lia.
  - destruct fuel as [|fuel]; [simpl; lia|]. destruct l as [|a [|b l]]; [simpl; lia..|].
    cbn [sibling_path]. specialize (IH fuel (i / 2)%nat (nextMerkleLevel (a :: b :: l))).
    rewrite length_next_level, Nat.pow_succ_r' in *.
    assert ((length (a :: b :: l) + 1) / 2 ≤ 2 ^ k)%nat as Hh by (apply Nat.lt_succ_r, Nat.Div0.div_lt_upper_bound; lia).
    specialize (IH Hh). destruct (_ !! _); simpl in *; lia.
Qed.
Lemma sibling_path_hashes fuel : ∀ i (l : list bytes), level_ok l → Forall (λ s, SHA256_HEX_PATTERN (step_hash s) = true) (sibling_path fuel i l).
Proof.
  induction fuel as [|fuel IH]; intros i l Hl; [constructor|]. destruct l as [|a [|b l]]; [constructor..|].
  cbn [sibling_path]. assert (level_ok (nextMerkleLevel (a :: b :: l))) as Hn by (by apply next_level_ok).
  destruct (_ !! _) as [s|] eqn:Hs; [|by apply IH]. constructor; [|by apply IH]. cbn [step_hash].
  apply list_elem_of_lookup_2 in Hs. unfold level_ok in Hl. rewrite Forall_forall in Hl. destruct (Hl s Hs) as [Hb Hlen].
  unfold SHA256_HEX_PATTERN. by rewrite hex_string_chars, length_hex_string, Hlen.
Qed.
Lemma safe_pow_fuel n : Z.of_nat n ≤ MAX_SAFE_INTEGER → (n ≤ 2 ^ 53)%nat ∧ (n ≤ 2 ^ VERIFY_FUEL)%nat.
Proof.
  intros Hn. unfold MAX_SAFE_INTEGER in Hn. split; apply Nat2Z.inj_le; rewrite Nat2Z.inj_pow.
  - change (Z.of_nat 2 ^ Z.of_nat 53) with 9007199254740992. lia.
  - change (Z.of_nat 2 ^ Z.of_nat VERIFY_FUEL) with 18014398509481984. lia.
Qed.

(** Completeness: the proof produced for a head of a checkpoint verifies against
    that checkpoint's root. *)
Theorem inclusion_proof_complete heads cp reviewId proof :
  computeCheckpoint heads = Ret cp → inclusionProof reviewId heads = Ret proof →
  Z.of_nat (length heads) ≤ MAX_SAFE_INTEGER →
  ∃ head, head ∈ heads ∧ review_id head = reviewId ∧
    verifyInclusionProof (head_json head) (proof_json proof) (JString (js (merkle_root cp))) = proof_verified.
Proof.
  unfold computeCheckpoint, inclusionProof, validateAndSortHeads. set (ordered := sortBy _ heads).
  destruct (check_heads None ordered) as [u|] eqn:Hcheck; [|done]. cbn [mbind throws_bind]. intros [= <-].
  destruct (REVIEW_ID_PATTERN reviewId) eqn:Hpat; [|done]. cbn [negb].
  destruct (findIndex _ ordered) as [i|] eqn:Hfind; [|done]. intros [= <-] Hsize.
  destruct (findIndex_Some _ _ _ Hfind) as (h & Hi & Hid). apply bool_decide_eq_true in Hid.
  pose proof (check_heads_valid _ _ _ Hcheck) as Hvalid. rewrite Forall_forall in Hvalid.
  destruct (Hvalid h (list_elem_of_lookup_2 _ _ _ Hi)) as [Hhid Hhh].
  assert (length ordered = length heads) as Hlen by apply length_sortBy.
  pose proof (lookup_lt_Some _ _ _ Hi) as Hlt. destruct (safe_pow_fuel _ Hsize) as [H53 Hfuel].
  assert (level_ok (List.map hashReviewHeadLeaf ordered)) as Hlevel by apply leaves_ok.
  exists h. split; [|split; [done|]].
  { apply list_elem_of_lookup_2 in Hi. unfold ordered in Hi. by rewrite elem_of_sortBy in Hi. }
  unfold verifyInclusionProof. rewrite isReviewHead_json, latin_text_js by done. cbn [merkle_root].
  assert (SHA256_HEX_PATTERN (hex_string (computeMerkleRoot (List.map hashReviewHeadLeaf ordered))) = true) as ->.
  { unfold SHA256_HEX_PATTERN. rewrite hex_string_chars by apply computeMerkleRoot_ok.
    rewrite length_hex_string. unfold computeMerkleRoot. destruct ordered as [|h0 o]; [done|]. cbn [List.map].
    pose proof (root_in_tree (length (List.map hashReviewHeadLeaf (h0 :: o))) (List.map hashReviewHeadLeaf (h0 :: o)) ltac:(done) ltac:(done)) as Hin.
    pose proof (tree_nodes_ok (length (List.map hashReviewHeadLeaf (h0 :: o))) _ Hlevel) as Hok. unfold level_ok in Hok.
    rewrite Forall_forall in Hok. destruct (Hok _ Hin) as [_ Hl]. cbn [List.map] in Hl. by rewrite Hl. }
  cbn [negb]. rewrite isMerkleProof_json; cbn [proof_review_id leaf_index tree_size siblings]; [|done|lia|lia| |by apply sibling_path_hashes].
  2:{ apply sibling_path_length. rewrite List.length_map, Hlen. exact H53. }
  unfold verify_typed. cbn [proof_review_id leaf_index tree_size siblings].
  rewrite (bool_decide_true (reviewId = review_id h)) by done. cbn [negb].
  replace (length ordered) with (length (List.map hashReviewHeadLeaf ordered)) by apply List.length_map.
  rewrite (verify_sibling_path VERIFY_FUEL _ _ i); [|exact Hlevel|reflexivity|rewrite List.length_map, Hlen; exact Hfuel|].
  2:{ change (List.map hashReviewHeadLeaf ordered) with (hashReviewHeadLeaf <$> ordered). by rewrite list_lookup_fmap, Hi. }
  rewrite bool_decide_true; [done|]. unfold computeMerkleRoot. by destruct (List.map hashReviewHeadLeaf ordered) eqn:E0; [destruct ordered|].
Qed.
End checkpoint.

(** * Sample checkpoints *)

Module CheckpointSamples.
Import SampleHash.
Definition id_a : string := "review:aaa".
Definition id_b : string := "review:bbb".
Definition id_c : string := "review:ccc".
Definition head_of (id : string) : ReviewHead := {| review_id := id; head_hash := sha256_hex (utf8 (js id)) |}.
Definition heads : list ReviewHead := [head_of id_c; head_of id_a; head_of id_b].
Definition cp : CheckpointProjection :=
  match computeCheckpoint heads with Ret cp => cp | Throw _ => {| merkle_root := ""; checkpoint_tree_size := 0 |} end.
Definition proof_b : MerkleProof :=
  match inclusionProof id_b heads with
  | Ret p => p
  | Throw _ => {| proof_review_id := ""; leaf_index := 0; tree_size := 0; siblings := [] |}
  end.
Example proof_b_shape : length (siblings proof_b) = 2%nat ∧ leaf_index proof_b = 1 ∧ tree_size proof_b = 3.
Proof. by vm_compute. Qed.
Lemma inclusion_proof_sound_witness : head_of id_b ∈ heads.
Proof.
  apply (inclusion_proof_sound heads cp (head_of id_b) proof_b).
  - by vm_compute.
  - apply (bool_decide_unpack (Forall (λ step, SHA256_HEX_PATTERN (step_hash step) = true) (siblings proof_b))). by vm_compute.
  - by vm_compute.
  - apply collision_free_dec_sound. by vm_compute.
Defined.
Lemma inclusion_proof_complete_witness :
  ∃ head, head ∈ heads ∧ review_id head = id_b ∧
    verifyInclusionProof (head_json head) (proof_json proof_b) (JString (js (merkle_root cp))) = proof_verified.
Proof. apply (inclusion_proof_complete heads cp id_b proof_b); [by vm_compute|by vm_compute|by vm_compute]. Defined.
End CheckpointSamples.
