(* ===== verification/ReviewChain.v ===== *)
(** The chain head of one review's events (transparency/review-chain.ts), its
    verifier (verifyReviewChainHead of transparency-verify.ts), the identity of a
    checkpoint, and publication to an anchor (transparency/publication.ts). *)
From S2P Require Import Prelude Patterns Bytes Json JsonText CanonicalJson Timestamps Transparency.

Local Open Scope Z_scope.

(* The fields of a review event that the chain covers. *)
Record ChainEvent := { chain_review_id : string; chain_event_id : string; chain_sequence : Z }.
#[export] Instance ChainEvent_eq_dec : EqDecision ChainEvent.
Proof. solve_decision. Defined.

Definition MAX_REVIEW_EVENTS : Z := 10000.
Definition LEAF_DOMAIN : bytes := utf8 (js "codeattest:v0:review-log-leaf").
Definition HEAD_DOMAIN : bytes := utf8 (js "codeattest:v0:review-log-head").
Definition EMPTY_DOMAIN : bytes := utf8 (js "codeattest:v0:review-log-empty").

Section chain.
Context `{Sha256}.

Definition leaf_bytes (e : ChainEvent) : bytes :=
  LEAF_DOMAIN ++ be64 (chain_sequence e) ++ utf8 (js (chain_event_id e)).
Definition head_bytes (head : option bytes) (e : ChainEvent) : bytes :=
  match head with
  | None => HEAD_DOMAIN ++ sha256 (leaf_bytes e)
  | Some h => HEAD_DOMAIN ++ h ++ sha256 (leaf_bytes e)
  end.
Definition chain_head (head : option bytes) (events : list ChainEvent) : option bytes :=
  fold_left (λ h e, Some (sha256 (head_bytes h e))) events head.
Definition head_hex (head : option bytes) : string :=
  match head with Some h => hex_string h | None => sha256_hex EMPTY_DOMAIN end.

(** * The producer *)

Definition assertReviewEventChainInput (e : ChainEvent) : throws () :=
  if negb (REVIEW_ID_PATTERN (chain_review_id e)) then Throw "Review events must contain a valid review_id."
  else if negb (SHA256_ID_PATTERN (chain_event_id e)) then
    Throw "Review events must contain a lowercase algorithm-prefixed sha256 event_id."
  else if (negb (isSafeInteger (chain_sequence e)) || (chain_sequence e <? 0))%bool then
    Throw "Review event sequence_number must be an unsigned safe integer."
  else Ret ().
(* The loop over the ordered events, with its reviewId, previousSequence and head. *)
Fixpoint chain_loop (reviewId : option string) (previousSequence : option Z) (head : option bytes)
    (events : list ChainEvent) : throws (option bytes) :=
  match events with
  | [] => Ret head
  | e :: events' =>
      _ ← assertReviewEventChainInput e;
      let reviewId := default (chain_review_id e) reviewId in
      if chain_review_id e !== reviewId then Throw "A review chain cannot contain events from different reviews."
      else if Some (chain_sequence e) === previousSequence then Throw "A review chain cannot contain duplicate sequence numbers."
      else chain_loop (Some reviewId) (Some (chain_sequence e)) (Some (sha256 (head_bytes head e))) events'
  end.
Definition by_sequence (l r : ChainEvent) : Z := chain_sequence l - chain_sequence r.
Definition computeReviewChainHead (events : list ChainEvent) : throws string :=
  if (MAX_REVIEW_EVENTS <? Z.of_nat (length events)) then Throw "A review chain cannot exceed the protocol event limit."
  else if bool_decide (events = []) then Ret (sha256_hex EMPTY_DOMAIN)
  else head ← chain_loop None None None (sortBy by_sequence events); Ret (head_hex head).

(** * The verifier *)

Inductive chain_result := chain_verified | invalid_events | invalid_claimed_head | head_mismatch.

(* validateProtocolSchema("urn:codeattest:protocol:v0:review-event", event).length === 0 *)
Variable schema_ok : json → bool.

(* One event of the array: the checks of the first loop. *)
Definition check_event (reviewId : option string) (event : json) : option ChainEvent :=
  if negb (match event with JObject _ => true | _ => false end) then None
  else if negb (schema_ok event) then None
  else
    seq ← number_field "sequence_number" event;
    if (negb (isSafeInteger seq) || (seq <? 0))%bool then None
    else
      id ← string_field "event_id" event;
      if negb (SHA256_ID_PATTERN id) then None
      else
        rid ← string_field "review_id" event;
        if negb (REVIEW_ID_PATTERN rid) then None
        else if rid !== default rid reviewId then None
        else match recomputeExcludedFieldIdentity event (js "event_id") None with
        | Ret (Some recomputed) =>
            if recomputed === id then Some {| chain_review_id := rid; chain_event_id := id; chain_sequence := seq |} else None
        | _ => None
        end.
Fixpoint check_events (reviewId : option string) (events : list json) : option (list ChainEvent) :=
  match events with
  | [] => Some []
  | event :: events' =>
      e ← check_event reviewId event;
      rest ← check_events (Some (chain_review_id e)) events';
      Some (e :: rest)
  end.
Fixpoint no_adjacent_duplicates (l : list ChainEvent) : bool :=
  match l with
  | a :: ((b :: _) as l') => (negb (chain_sequence b =? chain_sequence a) && no_adjacent_duplicates l')%bool
  | _ => true
  end.
Definition recomputeReviewChainHead (events : json) : option string :=
  match events with
  | JArray l =>
      if (MAX_REVIEW_EVENTS <? Z.of_nat (length l)) then None
      else
        typed ← check_events None l;
        let ordered := sortBy by_sequence typed in
        if negb (no_adjacent_duplicates ordered) then None
        else Some (head_hex (chain_head None ordered))
  | _ => None
  end.
Definition verifyReviewChainHead (events claimedHead : json) : chain_result :=
  match claimedHead with
  | JString claimed =>
      match latin_text claimed with
      | None => invalid_claimed_head
      | Some claimed =>
          if negb (SHA256_HEX_PATTERN claimed) then invalid_claimed_head
          else match recomputeReviewChainHead events with
          | None => invalid_events
          | Some computed => if computed === claimed then chain_verified else head_mismatch
          end
      end
  | _ => invalid_claimed_head
  end.

(** * Producer and verifier compute the same head *)

Lemma check_event_valid reviewId event e :
  check_event reviewId event = Some e →
  assertReviewEventChainInput e = Ret () ∧ chain_review_id e = default (chain_review_id e) reviewId.
Proof.
  unfold check_event. destruct (negb (match event with JObject _ => true | _ => false end)); [done|].
  destruct (negb (schema_ok event)); [done|]. destruct (number_field _ event) as [seq|]; [|done]. cbn [mbind option_bind].
  destruct (negb (isSafeInteger seq) || (seq <? 0))%bool eqn:Hseq; [done|].
  destruct (string_field "event_id" event) as [id|]; [|done]. cbn [mbind option_bind].
  destruct (SHA256_ID_PATTERN id) eqn:Hid; [|done]. cbn [negb].
  destruct (string_field "review_id" event) as [rid|]; [|done]. cbn [mbind option_bind].
  destruct (REVIEW_ID_PATTERN rid) eqn:Hrid; [|done]. cbn [negb].
  destruct (decide (rid = default rid reviewId)) as [Hr|Hr]; [|by rewrite bool_decide_false].
  rewrite bool_decide_true by done. cbn [negb].
  destruct (recomputeExcludedFieldIdentity _ _ _) as [[recomputed|]|]; try done. case_bool_decide; [|done].
  intros [= <-]. split; [|done]. unfold assertReviewEventChainInput. cbn [chain_review_id chain_event_id chain_sequence].
  by rewrite Hrid, Hid, Hseq.
Qed.
(* Every typed event is valid, and all have the review id of the first. *)
Lemma check_events_valid reviewId l typed :
  check_events reviewId l = Some typed →
  Forall (λ e, assertReviewEventChainInput e = Ret ()) typed ∧ length typed = length l ∧
  ∃ rid, (∀ r, reviewId = Some r → rid = r) ∧ ∀ e, e ∈ typed → chain_review_id e = rid.
Proof.
  revert reviewId typed; induction l as [|event l IH]; intros reviewId typed; cbn [check_events].
  { intros [= <-]. split_and!; [constructor|done|]. exists (default "" reviewId).
    split; [by intros r ->|]. by intros e ?%not_elem_of_nil. }
  destruct (check_event reviewId event) as [e|] eqn:He; [|done]. cbn [mbind option_bind].
  destruct (check_events _ l) as [rest|] eqn:Hrest; [|done]. cbn [mbind option_bind]. intros [= <-].
  destruct (check_event_valid _ _ _ He) as [Hv Hr]. destruct (IH _ _ Hrest) as (Hall & Hlen & rid & Hrid & Hsame).
  split_and!; [by constructor|simpl; by f_equal|]. exists (chain_review_id e). split.
  - intros r ->. done.
  - intros e' [->|He']%elem_of_cons; [done|]. rewrite (Hsame e' He'). by apply Hrid.
Qed.
Lemma no_adjacent_cons a b l :
  no_adjacent_duplicates (a :: b :: l) = true → chain_sequence b ≠ chain_sequence a ∧ no_adjacent_duplicates (b :: l) = true.
Proof. cbn [no_adjacent_duplicates]. intros [Hn%negb_true_iff Hl]%andb_prop. by apply Z.eqb_neq in Hn. Qed.

Lemma chain_loop_ok rid l : ∀ reviewId previous head,
  Forall (λ e, assertReviewEventChainInput e = Ret ()) l → (∀ e, e ∈ l → chain_review_id e = rid) →
  (∀ r, reviewId = Some r → r = rid) → no_adjacent_duplicates l = true →
  (∀ e l', l = e :: l' → previous ≠ Some (chain_sequence e)) →
  chain_loop reviewId previous head l = Ret (chain_head head l).
Proof.
  induction l as [|e l IH]; intros reviewId previous head Hv Hrid Hr Hadj Hprev; [done|].
  inversion Hv as [|? ? He Hv']; subst. cbn [chain_loop]. rewrite He. cbn [mbind throws_bind].
  assert (chain_review_id e = rid) as Herid by apply Hrid, list_elem_of_here.
  assert (default (chain_review_id e) reviewId = rid) as ->.
  { destruct reviewId as [r|]; [by apply Hr|done]. }
  rewrite (bool_decide_true (chain_review_id e = rid)) by done. cbn [negb].
  rewrite bool_decide_false by (intros E0; by apply (Hprev e l)).
  rewrite IH; [done|done| | | |].
  - intros e' He'. by apply Hrid, list_elem_of_further.
  - by intros r [= <-].
  - destruct l as [|b l]; [done|]. by apply no_adjacent_cons in Hadj as [_ ?].
  - intros e' l' ->. apply no_adjacent_cons in Hadj as [Hne _]. congruence.
Qed.

(** Any event array the verifier accepts has, for the producer, the head that the
    verifier recomputes; so the head the producer publishes for it verifies. *)
Theorem chain_head_producer_agrees l typed head :
  check_events None l = Some typed → recomputeReviewChainHead (JArray l) = Some head →
  computeReviewChainHead typed = Ret head ∧ verifyReviewChainHead (JArray l) (JString (js head)) = chain_verified.
Proof.
  intros Hc Hre. pose proof Hre as Hre0. unfold recomputeReviewChainHead in Hre.
  destruct (MAX_REVIEW_EVENTS <? Z.of_nat (length l)) eqn:Hmax; [done|].
  rewrite Hc in Hre. cbn [mbind option_bind] in Hre. destruct (no_adjacent_duplicates _) eqn:Hadj; [|done]. cbn [negb] in Hre.
  destruct (check_events_valid _ _ _ Hc) as (Hv & Hlen & rid & _ & Hrid). injection Hre as Hhead. split.
  - unfold computeReviewChainHead. rewrite Hlen, Hmax. case_bool_decide as Hnil; [by rewrite Hnil in Hhead; subst head|].
    rewrite (chain_loop_ok rid); [cbn [mbind throws_bind]; by rewrite Hhead| | | |done|done].
    + by rewrite sortBy_perm.
    + intros e. rewrite elem_of_sortBy. apply Hrid.
    + done.
  - unfold verifyReviewChainHead. rewrite latin_text_js, Hre0.
    assert (SHA256_HEX_PATTERN head = true) as ->.
    { subst head. unfold head_hex. destruct (sortBy by_sequence typed) as [|e ordered] eqn:Hord using rev_ind; [apply sha256_hex_pattern|].
      unfold chain_head. rewrite fold_left_app. apply sha256_hex_pattern. }
    cbn [negb]. by rewrite bool_decide_true.
Qed.
(** * The head binds the events *)

(* Everything the chain hashes. *)
Fixpoint chain_inputs (head : option bytes) (events : list ChainEvent) : list bytes :=
  match events with
  | [] => [EMPTY_DOMAIN]
  | e :: events' => leaf_bytes e :: head_bytes head e :: chain_inputs (Some (sha256 (head_bytes head e))) events'
  end.

Lemma digits_inj n m (k : nat) :
  (∀ i : nat, (i < k)%nat → n / 256 ^ Z.of_nat i mod 256 = m / 256 ^ Z.of_nat i mod 256) →
  n mod 256 ^ Z.of_nat k = m mod 256 ^ Z.of_nat k.
Proof.
  induction k as [|k IH]; intros Hd; [by rewrite !Z.mod_1_r|].
  rewrite Nat2Z.inj_succ, Z.pow_succ_r, Z.mul_comm by lia. rewrite !Z.rem_mul_r by lia.
  rewrite IH by (intros; apply Hd; lia). by rewrite (Hd k) by lia.
Qed.
Lemma map_eq_inv {A B} (f g : A → B) l x : List.map f l = List.map g l → x ∈ l → f x = g x.
Proof. induction l as [|y l IH]; [by intros _ ?%not_elem_of_nil|]. intros [= E0 E1] [->|Hx]%elem_of_cons; [done|by apply IH]. Qed.
Lemma be64_inj n m : 0 ≤ n < 256 ^ Z.of_nat 8 → 0 ≤ m < 256 ^ Z.of_nat 8 → be64 n = be64 m → n = m.
Proof.
  intros Hn Hm E0. rewrite <- (Z.mod_small n _ Hn), <- (Z.mod_small m _ Hm).
  apply digits_inj. intros i Hi.
  refine (map_eq_inv (λ i : nat, n / 256 ^ Z.of_nat i mod 256) (λ i : nat, m / 256 ^ Z.of_nat i mod 256) _ i E0 _).
  rewrite !elem_of_cons. lia.
Qed.
Lemma leaf_bytes_inj e e' :
  0 ≤ chain_sequence e < 256 ^ Z.of_nat 8 → 0 ≤ chain_sequence e' < 256 ^ Z.of_nat 8 → leaf_bytes e = leaf_bytes e' →
  chain_sequence e = chain_sequence e' ∧ chain_event_id e = chain_event_id e'.
Proof.
  intros Hs Hs'. unfold leaf_bytes. generalize LEAF_DOMAIN. intros d E0%app_inv_head.
   apply app_inj_1 in E0 as [E1 E2]; [|by rewrite !length_be64]. split; [by apply be64_inj|].
  apply js_inj. by apply utf8_inj in E2; [|apply text_ok_js..].
Qed.
Lemma head_bytes_inj h h' e e' :
  (∀ x, h = Some x → length x = 32%nat) → (∀ x, h' = Some x → length x = 32%nat) →
  head_bytes h e = head_bytes h' e' → h = h' ∧ sha256 (leaf_bytes e) = sha256 (leaf_bytes e').
Proof.
  intros Hh Hh'. unfold head_bytes.
  destruct h as [x|], h' as [y|]; generalize HEAD_DOMAIN; intros d E0%app_inv_head.
  - apply app_inj_1 in E0 as [-> E0]; [done|]. by rewrite (Hh x), (Hh' y).
  - exfalso. apply (f_equal length) in E0. rewrite length_app, !sha256_length, (Hh x) in E0 by done. lia.
  - exfalso. apply (f_equal length) in E0. rewrite length_app, !sha256_length, (Hh' y) in E0 by done. lia.
  - done.
Qed.
Lemma chain_inputs_snoc head l e :
  chain_inputs head (l ++ [e]) ⊆ chain_inputs head (l ++ [e]) ∧
  chain_inputs head l ⊆ chain_inputs head (l ++ [e]) ∧
  leaf_bytes e ∈ chain_inputs head (l ++ [e]) ∧ head_bytes (chain_head head l) e ∈ chain_inputs head (l ++ [e]).
Proof.
  split; [done|]. revert head; induction l as [|x l IH]; intros head.
  - cbn [app chain_inputs]. split_and!.
    + intros y Hy. do 2 apply list_elem_of_further. done.
    + apply list_elem_of_here.
    + apply list_elem_of_further, list_elem_of_here.
  - cbn [app chain_inputs]. destruct (IH (Some (sha256 (head_bytes head x)))) as (IH1 & IH2 & IH3). split_and!.
    + intros y [->|[->|Hy]%elem_of_cons]%elem_of_cons; [apply list_elem_of_here|apply list_elem_of_further, list_elem_of_here|].
      do 2 apply list_elem_of_further. by apply IH1.
    + by do 2 apply list_elem_of_further.
    + by do 2 apply list_elem_of_further.
Qed.
Lemma empty_in_inputs head l : EMPTY_DOMAIN ∈ chain_inputs head l.
Proof. revert head; induction l as [|e l IH]; intros head; [apply list_elem_of_here|]. cbn [chain_inputs]. by do 2 apply list_elem_of_further. Qed.
Lemma chain_head_snoc l e : chain_head None (l ++ [e]) = Some (sha256 (head_bytes (chain_head None l) e)).
Proof. unfold chain_head. by rewrite fold_left_app. Qed.
Lemma chain_head_length l x : chain_head None l = Some x → length x = 32%nat.
Proof. induction l as [|e l _] using rev_ind; [done|]. rewrite chain_head_snoc. intros [= <-]. apply sha256_length. Qed.
Lemma head_bytes_not_empty h e : head_bytes h e ≠ EMPTY_DOMAIN.
Proof.
  unfold head_bytes, EMPTY_DOMAIN, HEAD_DOMAIN. intros E0. apply (f_equal (take 26)) in E0.
  destruct h; vm_compute in E0; discriminate E0.
Qed.

Definition sequence_ok (e : ChainEvent) : Prop := 0 ≤ chain_sequence e < 256 ^ Z.of_nat 8.
Definition covered (e : ChainEvent) : Z * string := (chain_sequence e, chain_event_id e).

Lemma chain_head_binds l l' :
  Forall sequence_ok l → Forall sequence_ok l' →
  collision_free (chain_inputs None l ++ chain_inputs None l') →
  head_hex (chain_head None l) = head_hex (chain_head None l') → covered <$> l = covered <$> l'.
Proof.
  revert l'. induction l as [|e l IH] using rev_ind; intros l' Hl Hl' Hcf Hhex.
  - destruct l' as [|e' l' _] using rev_ind; [done|]. exfalso. rewrite chain_head_snoc in Hhex. simpl in Hhex.
    apply sha256_hex_inj in Hhex. apply (head_bytes_not_empty (chain_head None l') e'). symmetry. apply Hcf; [| |done].
    + apply elem_of_app. left. apply empty_in_inputs.
    + apply elem_of_app. right. apply chain_inputs_snoc.
  - destruct l' as [|e' l' _] using rev_ind.
    { exfalso. rewrite chain_head_snoc in Hhex. simpl in Hhex. apply sha256_hex_inj in Hhex.
      apply (head_bytes_not_empty (chain_head None l) e). apply Hcf; [| |done].
      + apply elem_of_app. left. apply chain_inputs_snoc.
      + apply elem_of_app. right. apply empty_in_inputs. }
    destruct (chain_inputs_snoc None l e) as (_ & Hsub & Hleaf & Hhead).
    destruct (chain_inputs_snoc None l' e') as (_ & Hsub' & Hleaf' & Hhead').
    rewrite !chain_head_snoc in Hhex. simpl in Hhex. apply sha256_hex_inj in Hhex.
    apply Hcf in Hhex; [|apply elem_of_app; by left|apply elem_of_app; by right].
    apply head_bytes_inj in Hhex as [Hh Hlf]; [|by apply chain_head_length..].
    apply Hcf in Hlf; [|apply elem_of_app; by left|apply elem_of_app; by right].
    apply Forall_app in Hl as [Hl He%Forall_inv], Hl' as [Hl' He'%Forall_inv].
    apply leaf_bytes_inj in Hlf as [Hseq Hid]; [|done..]. rewrite !fmap_app. f_equal.
    + apply IH; [done|done| |by rewrite Hh]. eapply collision_free_sub; [|exact Hcf].
      intros x [Hx|Hx]%elem_of_app; apply elem_of_app; [left; by apply Hsub|right; by apply Hsub'].
    + simpl. unfold covered. by rewrite Hseq, Hid.
Qed.

Lemma chain_loop_valid reviewId previous head l h :
  chain_loop reviewId previous head l = Ret h → Forall sequence_ok l ∧ h = chain_head head l.
Proof.
  revert reviewId previous head; induction l as [|e l IH]; intros reviewId previous head; cbn [chain_loop].
  { intros [= <-]. split; [constructor|done]. }
  unfold assertReviewEventChainInput. destruct (negb (REVIEW_ID_PATTERN _)); [done|]. destruct (negb (SHA256_ID_PATTERN _)); [done|].
  destruct (negb (isSafeInteger (chain_sequence e)) || (chain_sequence e <? 0))%bool eqn:Hs; [done|]. cbn [mbind throws_bind].
  destruct (chain_review_id e !== _); [done|]. destruct (_ === previous); [done|]. intros Hrec. destruct (IH _ _ _ Hrec) as [Hl ->]. split; [|done].
  constructor; [|done]. apply orb_false_iff in Hs as [Hs Hneg]. apply negb_false_iff in Hs. unfold isSafeInteger in Hs.
  unfold sequence_ok, MAX_SAFE_INTEGER in *. change (256 ^ Z.of_nat 8) with 18446744073709551616. lia.
Qed.

(** C5. Two event lists with the same chain head hold, in sequence order, the same
    sequence numbers and event identities, unless two of the hashed inputs collide:
    nothing can be dropped, added, renumbered or replaced under a published head. *)
Theorem review_chain_binds_events events events' head :
  computeReviewChainHead events = Ret head → computeReviewChainHead events' = Ret head →
  collision_free (chain_inputs None (sortBy by_sequence events) ++ chain_inputs None (sortBy by_sequence events')) →
  covered <$> sortBy by_sequence events = covered <$> sortBy by_sequence events'.
Proof.
  assert (∀ l h, computeReviewChainHead l = Ret h →
    Forall sequence_ok (sortBy by_sequence l) ∧ h = head_hex (chain_head None (sortBy by_sequence l))) as Hcompute.
  { intros l h. unfold computeReviewChainHead. destruct (_ <? _); [done|].
    case_bool_decide as Hnil; [rewrite Hnil; intros [= <-]; split; [constructor|done]|].
    destruct (chain_loop _ _ _ _) as [r|] eqn:Hl; [|done]. intros [= <-].
    apply chain_loop_valid in Hl as [Hok ->]. done. }
  intros H1 H2 Hcf. destruct (Hcompute _ _ H1) as [Hok1 E1]. destruct (Hcompute _ _ H2) as [Hok2 E2].
  apply chain_head_binds; [done..|congruence].
Qed.

(** * The identity of a checkpoint (verifyCheckpointIdentity) *)

Inductive checkpoint_result := checkpoint_verified | checkpoint_schema_invalid | checkpoint_identity_mismatch.
Definition verifyCheckpointIdentity (log_checkpoint_ok : json → bool) (checkpoint : json) : checkpoint_result :=
  if negb (log_checkpoint_ok checkpoint) then checkpoint_schema_invalid
  else match checkpoint with
  | JObject fs =>
      if negb (JsMap.has (js "identity_input_excludes") fs) then checkpoint_schema_invalid
      else match recomputeExcludedFieldIdentity checkpoint (js "checkpoint_id") None with
      | Throw _ => checkpoint_schema_invalid
      | Ret None => checkpoint_identity_mismatch
      | Ret (Some expectedIdentity) =>
          if JsMap.get (js "checkpoint_id") fs === Some (JString (js expectedIdentity)) then checkpoint_verified
          else checkpoint_identity_mismatch
      end
  | _ => checkpoint_schema_invalid
  end.

(** * Publication (publication.ts) *)

Record TransparencyCheckpointRecord := {
  checkpoint_id : string; record_merkle_root : string; record_tree_size : Z; published_at : string
}.
#[export] Instance TransparencyCheckpointRecord_eq_dec : EqDecision TransparencyCheckpointRecord.
Proof. solve_decision. Defined.
Definition anchor_not_configured : string := "transparency anchor is not configured; checkpoint publication fails closed".

(* The off-box anchor: its own state, and the two calls of the port. *)
Record TransparencyAnchor (S : Type) := {
  anchor_put : S → TransparencyCheckpointRecord → throws (option string) * S;
  anchor_get : S → string → throws (option TransparencyCheckpointRecord)
}.
Arguments anchor_put {S} t. Arguments anchor_get {S} t.

Definition assertValidCheckpoint (c : CheckpointProjection) : throws () :=
  if negb (SHA256_HEX_PATTERN (merkle_root c)) then Throw "checkpoint merkle_root must be lowercase 64-character sha256 hex"
  else if checkpoint_tree_size c <? 0 then Throw "checkpoint tree_size must be a non-negative integer"
  else Ret ().
Definition checkpointId (c : CheckpointProjection) (publishedAt : string) : throws string :=
  s ← canonicalizeProtocolJson (JObject [
        (js "merkle_root", JString (js (merkle_root c)));
        (js "published_at", JString (js publishedAt));
        (js "tree_size", JNumber (checkpoint_tree_size c))]);
  Ret (sha256_hex (utf8 s)).

Record published := { published_id : string; anchor_ref : string; published_record : TransparencyCheckpointRecord }.
Definition publishCheckpoint {S} (anchor : option (TransparencyAnchor S)) (s : S) (c : CheckpointProjection)
    (publishedAt : string) : throws published * S :=
  match anchor with
  | None => (Throw anchor_not_configured, s)
  | Some a =>
      match (_ ← assertValidCheckpoint c;
             _ ← (if RFC3339_PATTERN publishedAt then Ret () else Throw "publishedAt must be an RFC 3339 timestamp");
             checkpointId c publishedAt) with
      | Throw e => (Throw e, s)
      | Ret id =>
          let record := {| checkpoint_id := id; record_merkle_root := merkle_root c;
                           record_tree_size := checkpoint_tree_size c; published_at := publishedAt |} in
          match anchor_put a s record with
          | (Throw e, s') => (Throw e, s')
          | (Ret ref, s') =>
              (match ref with
               | Some (String _ _ as r) => Ret {| published_id := id; anchor_ref := r; published_record := record |}
               | _ => Throw "transparency anchor returned no reference; publication cannot be confirmed"
               end, s')
          end
      end
  end.

Inductive verification := verified_record (r : TransparencyCheckpointRecord) | not_found | content_mismatch | corrupt_record.
Definition verifyPublishedCheckpoint {S} (anchor : option (TransparencyAnchor S)) (s : S)
    (expected : TransparencyCheckpointRecord) : throws verification :=
  match anchor with
  | None => Throw anchor_not_configured
  | Some a =>
      fetched ← anchor_get a s (checkpoint_id expected);
      match fetched with
      | None => Ret not_found
      | Some f =>
          recomputedId ← checkpointId {| merkle_root := record_merkle_root f; checkpoint_tree_size := record_tree_size f |} (published_at f);
          Ret (if recomputedId !== checkpoint_id f then corrupt_record
               else if ((checkpoint_id f !== checkpoint_id expected) || (record_merkle_root f !== record_merkle_root expected)
                        || (record_tree_size f !== record_tree_size expected) || (published_at f !== published_at expected))%bool
               then content_mismatch
               else verified_record f)
      end
  end.

(** Publication is confirmed only with an anchor, a valid checkpoint and a
    reference; a confirmed record verifies while the anchor keeps it, and
    whatever verifies is exactly the expected record. *)
Theorem publication_fails_closed {S} (anchor : option (TransparencyAnchor S)) (s s' : S) c publishedAt p :
  publishCheckpoint anchor s c publishedAt = (Ret p, s') →
  assertValidCheckpoint c = Ret () ∧ anchor_ref p ≠ "" ∧
  ∃ a, anchor = Some a ∧ anchor_put a s (published_record p) = (Ret (Some (anchor_ref p)), s') ∧
    (∀ t, anchor_get a t (checkpoint_id (published_record p)) = Ret (Some (published_record p)) →
       verifyPublishedCheckpoint anchor t (published_record p) = Ret (verified_record (published_record p))) ∧
    (∀ t f, verifyPublishedCheckpoint anchor t (published_record p) = Ret (verified_record f) → f = published_record p).
Proof.
  unfold publishCheckpoint. destruct anchor as [a|]; [|done].
  destruct (assertValidCheckpoint c) as [[]|] eqn:Hv; [|done]. cbn [mbind throws_bind].
  destruct (RFC3339_PATTERN publishedAt); [|done]. cbn [mbind throws_bind].
  destruct (checkpointId c publishedAt) as [id|] eqn:Hid; [|done].
  destruct (anchor_put a s _) as [[[ref|]|] s1] eqn:Hput; [|done..]. destruct ref as [|x ref]; [done|].
  intros [= <- <-]. split; [done|]. split; [done|]. exists a. cbn [anchor_ref published_record]. split_and!; [done|done| |].
  - intros t Hget. unfold verifyPublishedCheckpoint. rewrite Hget. cbn [mbind throws_bind record_merkle_root record_tree_size published_at checkpoint_id].
    assert (checkpointId {| merkle_root := merkle_root c; checkpoint_tree_size := checkpoint_tree_size c |} publishedAt = Ret id) as -> by (by destruct c).
    cbn [mbind throws_bind]. by rewrite !bool_decide_true by done.
  - intros t f. unfold verifyPublishedCheckpoint. destruct (anchor_get _ _ _) as [[g|]|]; [|done..]. cbn [mbind throws_bind].
    destruct (checkpointId _ (published_at g)) as [rid|]; [|done]. cbn [mbind throws_bind]. destruct (rid !== checkpoint_id g); [intros [=]|].
    match goal with |- context [if ?b then content_mismatch else _] => destruct b eqn:Hne end; [intros [=]|]. intros [= <-].
    repeat (apply orb_false_iff in Hne as [Hne ?]). bool_simpl. destruct g. simpl in *. by subst.
Qed.
End chain.

(** * Sample chains *)

Module ChainSamples.
Import SampleHash.
(* An event with its computed identity, as the verifier receives it. *)
Definition event_fields (sequence : Z) : list (jsstr * json) :=
  [(js "review_id", JString (js "review:aaa")); (js "sequence_number", JNumber sequence)].
Definition event_id_of (sequence : Z) : string :=
  match recomputeExcludedFieldIdentity (JObject ((js "event_id", JNull) :: event_fields sequence)) (js "event_id") None with
  | Ret (Some id) => id
  | _ => ""
  end.
Definition event_json (sequence : Z) : json :=
  JObject ((js "event_id", JString (js (event_id_of sequence))) :: event_fields sequence).
Definition typed_event (sequence : Z) : ChainEvent :=
  {| chain_review_id := "review:aaa"; chain_event_id := event_id_of sequence; chain_sequence := sequence |}.
Definition any_json (v : json) : bool := true.
Definition sample_head : string := head_hex (chain_head None [typed_event 1; typed_event 2]).

Lemma chain_head_producer_agrees_witness :
  computeReviewChainHead [typed_event 2; typed_event 1] = Ret sample_head ∧
  verifyReviewChainHead any_json (JArray [event_json 2; event_json 1]) (JString (js sample_head)) = chain_verified.
Proof. apply (chain_head_producer_agrees any_json); by vm_compute. Defined.
Lemma review_chain_binds_events_witness :
  covered <$> sortBy by_sequence [typed_event 2; typed_event 1] = covered <$> sortBy by_sequence [typed_event 1; typed_event 2].
Proof.
  apply (review_chain_binds_events [typed_event 2; typed_event 1] [typed_event 1; typed_event 2] sample_head);
    [by vm_compute|by vm_compute|]. apply collision_free_dec_sound. by vm_compute.
Defined.

(* An anchor that keeps every record and answers with a fixed reference. *)
Definition keeping_anchor : TransparencyAnchor (list TransparencyCheckpointRecord) :=
  {| anchor_put s r := (Ret (Some "anchor:1"), r :: s);
     anchor_get s id := Ret (List.find (λ r, checkpoint_id r === id) s) |}.
Definition empty_checkpoint : CheckpointProjection :=
  {| merkle_root := sha256_hex []; checkpoint_tree_size := 0 |}.
Definition publication : published :=
  match publishCheckpoint (Some keeping_anchor) [] empty_checkpoint "2026-01-01T00:00:00Z" with
  | (Ret p, _) => p
  | _ => {| published_id := ""; anchor_ref := ""; published_record :=
              {| checkpoint_id := ""; record_merkle_root := ""; record_tree_size := 0; published_at := "" |} |}
  end.
Lemma publication_fails_closed_witness :
  verifyPublishedCheckpoint (Some keeping_anchor) [published_record publication] (published_record publication) =
    Ret (verified_record (published_record publication)).
Proof.
  destruct (publication_fails_closed (Some keeping_anchor) [] [published_record publication] empty_checkpoint
    "2026-01-01T00:00:00Z" publication) as (_ & _ & a & [= <-] & _ & Hkeeps & _); [by vm_compute|].
  apply Hkeeps. by vm_compute.
Defined.
End ChainSamples.
