(* ===== verification/Schema.v ===== *)
(** The JSON Schema validator of the protocol (packages/protocol-ts/src/validation.ts).
    A schema is itself a JSON value; the registry it refers to and the collation of
    localeCompare are parameters. *)
From S2P Require Import Prelude Patterns Json JsonText Regex CanonicalJson Timestamps.

Local Open Scope Z_scope.

Record ProtocolValidationError := { code : string; location : jsstr }.
#[export] Instance ProtocolValidationError_eq_dec : EqDecision ProtocolValidationError.
Proof. solve_decision. Defined.

(** * Property lookup on plain objects *)

(* The names a plain object inherits from Object.prototype. *)
Definition OBJECT_PROTOTYPE_NAMES : list string :=
  ["constructor"; "__defineGetter__"; "__defineSetter__"; "hasOwnProperty"; "__lookupGetter__";
   "__lookupSetter__"; "isPrototypeOf"; "propertyIsEnumerable"; "toString"; "valueOf"; "__proto__"; "toLocaleString"].
(* The names an array has besides its elements and length. *)
Definition ARRAY_PROTOTYPE_NAMES : list string :=
  ["at"; "concat"; "copyWithin"; "fill"; "find"; "findIndex"; "findLast"; "findLastIndex"; "lastIndexOf"; "pop"; "push";
   "reverse"; "shift"; "unshift"; "slice"; "sort"; "splice"; "includes"; "indexOf"; "join"; "keys"; "entries"; "values";
   "forEach"; "filter"; "flat"; "flatMap"; "map"; "every"; "some"; "reduce"; "reduceRight"; "toReversed"; "toSorted";
   "toSpliced"; "with"].
Definition inherited (name : jsstr) : bool := existsb (λ n, js n === name) OBJECT_PROTOTYPE_NAMES.

(* JForeign stands for undefined in this file. *)
Definition is_undefined (v : json) : bool := match v with JForeign => true | _ => false end.

(* The object built by assigning the entries of a record to {} one by one: an
   assignment to __proto__ replaces its prototype or does nothing. *)
Inductive prototype := ordinary_prototype | null_prototype | own_prototype (p : json).
Record dataProperties := { data_fields : list (jsstr * json); data_prototype : prototype }.
Definition assign_data (o : dataProperties) (kv : jsstr * json) : dataProperties :=
  if kv.1 === js "__proto__" then
    match kv.2 with
    | JArray _ | JObject _ => {| data_fields := data_fields o; data_prototype := own_prototype kv.2 |}
    | JNull => {| data_fields := data_fields o; data_prototype := null_prototype |}
    | _ => o
    end
  else {| data_fields := JsMap.set kv.1 kv.2 (data_fields o); data_prototype := data_prototype o |}.
Definition ownEnumerableDataProperties (fs : list (jsstr * json)) : dataProperties :=
  fold_left assign_data fs {| data_fields := []; data_prototype := ordinary_prototype |}.

(* dataProperties[name] !== undefined *)
Definition element_defined (l : list json) (name : jsstr) : bool :=
  existsb (λ ie, (number_text (Z.of_nat ie.1) === name) && negb (is_undefined ie.2))%bool (imap pair l).
Definition has_value (o : dataProperties) (name : jsstr) : bool :=
  match JsMap.get name (data_fields o) with
  | Some v => negb (is_undefined v)
  | None =>
      match data_prototype o with
      | ordinary_prototype => inherited name
      | null_prototype => false
      | own_prototype (JObject pfs) =>
          match JsMap.get name pfs with Some v => negb (is_undefined v) | None => inherited name end
      | own_prototype (JArray l) =>
          (element_defined l name || (name === js "length")
           || existsb (λ n, js n === name) ARRAY_PROTOTYPE_NAMES || inherited name)%bool
      | own_prototype _ => inherited name
      end
  end.

(** * Schema keywords *)

Definition kw (name : string) (schema : json) : option json :=
  match schema with JObject fs => JsMap.get (js name) fs | _ => None end.
Definition kw_text (name : string) (schema : json) : option jsstr :=
  match kw name schema with Some (JString s) => Some s | _ => None end.
Definition kw_number (name : string) (schema : json) : option Z :=
  match kw name schema with Some (JNumber n) => Some n | _ => None end.
Definition kw_list (name : string) (schema : json) : option (list json) :=
  match kw name schema with Some (JArray l) => Some l | _ => None end.
Definition kw_fields (name : string) (schema : json) : list (jsstr * json) :=
  match kw name schema with Some (JObject fs) => fs | _ => [] end.
Definition has_kw (schema : json) (name : string) : bool := bool_decide (is_Some (kw name schema)).
Definition text_of (v : json) : jsstr := match v with JString s => s | _ => [] end.
Definition kw_names (name : string) (schema : json) : list jsstr :=
  List.map text_of (default [] (kw_list name schema)).

(** * References (resolveRef) *)

Fixpoint split_units (c : Z) (s : jsstr) : list jsstr :=
  match s with
  | [] => [[]]
  | x :: s' =>
      if x =? c then [] :: split_units c s'
      else match split_units c s' with [] => [[x]] | w :: ws => (x :: w) :: ws end
  end.
Fixpoint replace_pair (a b by_ : Z) (s : jsstr) : jsstr :=
  match s with
  | x :: ((y :: s'') as s') => if ((x =? a) && (y =? b))%bool then by_ :: replace_pair a b by_ s'' else x :: replace_pair a b by_ s'
  | _ => s
  end.
(* replaceAll("~1", "/").replaceAll("~0", "~") *)
Definition unescape_segment (s : jsstr) : jsstr := replace_pair 126 48 126 (replace_pair 126 49 47 s).
Fixpoint follow (target : json) (segments : list jsstr) : option json :=
  match segments with
  | [] => Some target
  | segment :: segments' =>
      match target with
      | JObject fs =>
          match JsMap.get segment fs with
          | Some (JObject next) => follow (JObject next) segments'
          | _ => None
          end
      | _ => None
      end
  end.

(* new RegExp(pattern).test(value), for a pattern in the syntax of [Regexp.parse] *)
Definition regexp_test (pattern value : jsstr) : bool :=
  Regexp.test Regexp.flags_none (default Regexp.nothing (Regexp.parse pattern)) value.

Section validator.
Variable schemaMap : list (jsstr * json).
Variable localeCompare : jsstr → jsstr → Z.

Definition resolveRef (ref : jsstr) : option json :=
  match split_units 35 ref with
  | [] => None
  | schemaId :: rest =>
      target ← JsMap.get schemaId schemaMap;
      match rest with
      | [] | [] :: _ => Some target
      | ((c :: fragment') as fragment) :: _ =>
          let pointer := if c =? 47 then fragment else fragment' in
          follow target (List.map unescape_segment (List.filter (λ s, negb (bool_decide (s = []))) (split_units 47 pointer)))
      end
  end.

(** * Types and equality *)

Definition typeof (v : json) : string :=
  match v with
  | JBool _ => "boolean"
  | JString _ => "string"
  | JNumber _ | JNonFinite => "number"
  | JForeign => "undefined"
  | JNull | JArray _ | JObject _ => "object"
  end.
Definition matchesType (v : json) (type : jsstr) : bool :=
  if type === js "null" then v === JNull
  else if type === js "array" then match v with JArray _ => true | _ => false end
  else if type === js "object" then match v with JObject _ => true | _ => false end
  else if type === js "integer" then match v with JNumber n => isSafeInteger n | _ => false end
  else if type === js "number" then match v with JNumber n => Z.abs n <=? MAX_SAFE_INTEGER | _ => false end
  else js (typeof v) === type.

Fixpoint stableJson (v : json) : jsstr :=
  match v with
  | JArray l => js "[" ++ join_comma (List.map (λ x, if is_undefined x then [] else stableJson x) l) ++ js "]"
  | JObject fs =>
      js "{" ++ join_comma (List.map (λ kt, quote kt.1 ++ js ":" ++ kt.2)
        (sortBy (λ a b, localeCompare a.1 b.1) (List.map (λ kv, (kv.1, stableJson kv.2)) fs))) ++ js "}"
  | JForeign => js "undefined"
  | JNonFinite => js "null"
  | _ => JSON_stringify v
  end.
Definition jsonValueEquals (left right : json) : bool := stableJson left === stableJson right.

(** * Validation *)

Definition err (c : string) (l : jsstr) : list ProtocolValidationError := [{| code := c; location := l |}].
Definition err_if (b : bool) (c : string) (l : jsstr) : list ProtocolValidationError := if b then err c l else [].
Definition at_index (l : jsstr) (i : nat) : jsstr := l ++ js "[" ++ number_text (Z.of_nat i) ++ js "]".
Definition at_property (l name : jsstr) : jsstr := l ++ js "." ++ name.

(* Runs a check on every element, collecting the errors in order. *)
Fixpoint collect {A} (f : A → option (list ProtocolValidationError)) (l : list A) : option (list ProtocolValidationError) :=
  match l with
  | [] => Some []
  | x :: l' => e ← f x; es ← collect f l'; Some (e ++ es)
  end.
Fixpoint count_matches {A} (f : A → option (list ProtocolValidationError)) (l : list A) : option Z :=
  match l with
  | [] => Some 0
  | x :: l' => e ← f x; n ← count_matches f l'; Some (if bool_decide (e = []) then 1 + n else n)
  end.
Definition when_some {A} (o : option A) (f : A → option (list ProtocolValidationError)) : option (list ProtocolValidationError) :=
  match o with Some x => f x | None => Some [] end.

Section keywords.
(* The recursive call validateSchemaValue(value, schema, ..., location). *)
Variable rec : json → json → jsstr → option (list ProtocolValidationError).

(* allOf, anyOf, oneOf, not and if/then/else *)
Definition applicator_errors (v schema : json) (l : jsstr) : option (list ProtocolValidationError) :=
  all ← when_some (kw_list "allOf" schema) (collect (λ s, rec v s l));
  any ← when_some (kw_list "anyOf" schema) (λ ss, n ← count_matches (λ s, rec v s l) ss; Some (err_if (n =? 0) "any_of" l));
  one ← when_some (kw_list "oneOf" schema) (λ ss, n ← count_matches (λ s, rec v s l) ss; Some (err_if (negb (n =? 1)) "one_of" l));
  neg ← when_some (kw "not" schema) (λ s, e ← rec v s l; Some (err_if (bool_decide (e = [])) "not" l));
  cond ← when_some (kw "if" schema) (λ s,
    e ← rec v s l;
    if bool_decide (e = []) then when_some (kw "then" schema) (λ t, rec v t l)
    else when_some (kw "else" schema) (λ t, rec v t l));
  Some (all ++ any ++ one ++ neg ++ cond).

Definition value_errors (v schema : json) (l : jsstr) : list ProtocolValidationError :=
  match kw "const" schema with Some c => err_if (negb (jsonValueEquals v c)) "const" l | None => [] end ++
  match kw_list "enum" schema with Some items => err_if (negb (existsb (jsonValueEquals v) items)) "enum" l | None => [] end.

Definition UTC_PATTERN : jsstr :=
  js "^[0-9]{4}-(?:0[1-9]|1[0-2])-(?:0[1-9]|[12][0-9]|3[01])T(?:[01][0-9]|2[0-3]):[0-5][0-9]:(?:[0-5][0-9]|60)(?:\.[0-9]{1,9})?(?:Z|\+00:00)$".
Definition valid_timestamp (s : jsstr) : bool :=
  match latin_text s with Some t => isUtcRfc3339Timestamp t | None => false end.
Definition string_errors (s : jsstr) (schema : json) (l : jsstr) : list ProtocolValidationError :=
  match kw_number "minLength" schema with Some n => err_if (Z.of_nat (length s) <? n) "min_length" l | None => [] end ++
  match kw_number "maxLength" schema with Some n => err_if (n <? Z.of_nat (length s)) "max_length" l | None => [] end ++
  match kw_text "pattern" schema with
  | Some p => err_if (negb (regexp_test p s)) "pattern" l ++
              err_if ((p === UTC_PATTERN) && negb (valid_timestamp s))%bool "utc_rfc3339_timestamp" l
  | None => []
  end.
Definition number_errors (n : Z) (schema : json) (l : jsstr) : list ProtocolValidationError :=
  match kw_number "minimum" schema with Some m => err_if (n <? m) "minimum" l | None => [] end ++
  match kw_number "maximum" schema with Some m => err_if (m <? n) "maximum" l | None => [] end.

Fixpoint first_duplicate (i : nat) (seen : list jsstr) (items : list json) : option nat :=
  match items with
  | [] => None
  | item :: items' =>
      let key := stableJson item in
      if bool_decide (key ∈ seen) then Some i else first_duplicate (S i) (key :: seen) items'
  end.
Definition array_errors (items : list json) (schema : json) (l : jsstr) : option (list ProtocolValidationError) :=
  let len := Z.of_nat (length items) in
  let sizes :=
    match kw_number "minItems" schema with Some n => err_if (len <? n) "min_items" l | None => [] end ++
    match kw_number "maxItems" schema with Some n => err_if (n <? len) "max_items" l | None => [] end ++
    match kw "uniqueItems" schema with
    | Some (JBool true) => match first_duplicate 0 [] items with Some i => err "unique_items" (at_index l i) | None => [] end
    | _ => []
    end in
  each ← when_some (kw "items" schema) (λ s, collect (λ ie, rec ie.2 s (at_index l ie.1)) (imap pair items));
  contained ← when_some (kw "contains" schema) (λ s,
    n ← count_matches (λ ie, rec ie.2 s (at_index l ie.1)) (imap pair items);
    Some (err_if (n <? default 1 (kw_number "minContains" schema)) "contains" l ++
          match kw_number "maxContains" schema with Some m => err_if (m <? n) "max_contains" l | None => [] end));
  Some (sizes ++ each ++ contained).

(* properties[propertyName]: an inherited function has no keyword, so it
   constrains nothing. *)
Definition property_schema (properties : list (jsstr * json)) (name : jsstr) : option json :=
  match JsMap.get name properties with
  | Some s => Some s
  | None => if inherited name then Some (JObject []) else None
  end.
Definition property_errors (schema : json) (l : jsstr) (kv : jsstr * json) : option (list ProtocolValidationError) :=
  if is_undefined kv.2 then Some []
  else match property_schema (kw_fields "properties" schema) kv.1 with
  | Some s => rec kv.2 s (at_property l kv.1)
  | None => Some (err_if (kw "additionalProperties" schema === Some (JBool false)) "additional_property" (at_property l kv.1))
  end.
Definition object_errors (fs : list (jsstr * json)) (schema : json) (l : jsstr) : option (list ProtocolValidationError) :=
  let data := ownEnumerableDataProperties fs in
  let required := mjoin (List.map (λ p, err_if (negb (has_value data p)) "required" (at_property l p)) (kw_names "required" schema)) in
  let dependent := mjoin (List.map (λ kv : jsstr * json,
    if has_value data kv.1 then
      mjoin (List.map (λ p, err_if (negb (has_value data p)) "dependent_required" (at_property l p))
        (match kv.2 with JArray ps => List.map text_of ps | _ => [] end))
    else []) (kw_fields "dependentRequired" schema)) in
  depschemas ← collect (λ kv, if has_value data kv.1 then rec (JObject fs) kv.2 l else Some []) (kw_fields "dependentSchemas" schema);
  props ← collect (property_errors schema l) (data_fields data);
  Some (required ++ dependent ++ depschemas ++ props).

Definition hasArrayKeywords (schema : json) : bool :=
  existsb (has_kw schema) ["minItems"; "maxItems"; "uniqueItems"; "items"; "contains"].
Definition hasObjectKeywords (schema : json) : bool :=
  existsb (has_kw schema) ["required"; "dependentRequired"; "dependentSchemas"; "properties"; "additionalProperties"].

Definition typed_errors (v schema : json) (l : jsstr) : option (list ProtocolValidationError) :=
  let type := kw_text "type" schema in
  match v with
  | JString s => Some (if type === Some (js "string") then string_errors s schema l else [])
  | JNumber n => Some (if ((type === Some (js "integer")) || (type === Some (js "number")))%bool then number_errors n schema l else [])
  | JArray items => if ((type === Some (js "array")) || hasArrayKeywords schema)%bool then array_errors items schema l else Some []
  | JObject fs => if ((type === Some (js "object")) || hasObjectKeywords schema)%bool then object_errors fs schema l else Some []
  | _ => Some []
  end.
Definition schema_errors (v schema : json) (l : jsstr) : option (list ProtocolValidationError) :=
  match kw_text "$ref" schema with
  | Some ref =>
      match resolveRef ref with
      | None => Some (err "unresolved_ref" l)
      | Some resolved => rec v resolved l
      end
  | None =>
      applied ← applicator_errors v schema l;
      let here := applied ++ value_errors v schema l in
      match kw_text "type" schema with
      | Some type =>
          if negb (matchesType v type) then Some (here ++ err "type" l)
          else typed ← typed_errors v schema l; Some (here ++ typed)
      | None => typed ← typed_errors v schema l; Some (here ++ typed)
      end
  end.
End keywords.

(* None: the recursion is deeper than the fuel. *)
Fixpoint validateSchemaValue (fuel : nat) (v schema : json) (l : jsstr) : option (list ProtocolValidationError) :=
  match fuel with
  | O => None
  | S fuel' => schema_errors (validateSchemaValue fuel') v schema l
  end.
Definition validateProtocolSchema (fuel : nat) (schemaId : string) (v : json) : option (list ProtocolValidationError) :=
  schema ← JsMap.get (js schemaId) schemaMap; validateSchemaValue fuel v schema (js "$").
End validator.

(** * Termination *)

Section validator_theorems.
Context (schemaMap : list (jsstr * json)) (localeCompare : jsstr → jsstr → Z).
Local Abbreviation validate := (validateSchemaValue schemaMap localeCompare).
Implicit Types (rec : json → json → jsstr → option (list ProtocolValidationError)) (schema v : json) (l : jsstr).

(* The schemas the validation of a schema without $ref may use. *)
Definition subschemas (schema : json) : list json :=
  mjoin (List.map (λ k, default [] (kw_list k schema)) ["allOf"; "anyOf"; "oneOf"]) ++
  mjoin (List.map (λ k, match kw k schema with Some s => [s] | None => [] end) ["not"; "if"; "then"; "else"; "items"; "contains"]) ++
  mjoin (List.map (λ k, (kw_fields k schema).*2) ["dependentSchemas"; "properties"]).
(* Every chain of subschemas and references from a schema ends within the fuel. *)
Fixpoint resolves (fuel : nat) (schema : json) : bool :=
  match fuel with
  | O => false
  | S fuel' =>
      match kw_text "$ref" schema with
      | Some ref => match resolveRef schemaMap ref with Some resolved => resolves fuel' resolved | None => false end
      | None => (negb (fuel' =? 0)%nat && forallb (resolves fuel') (subschemas schema))%bool
      end
  end.

Lemma collect_total {A} (f : A → option (list ProtocolValidationError)) items :
  (∀ x, x ∈ items → is_Some (f x)) → is_Some (collect f items).
Proof.
  induction items as [|x items IH]; intros Hf; [by eexists|]. cbn [collect].
  destruct (Hf x (list_elem_of_here _ _)) as [e ->]. cbn [mbind option_bind].
  destruct IH as [es ->]; [intros; by apply Hf, list_elem_of_further|]. by eexists.
Qed.
Lemma count_matches_total {A} (f : A → option (list ProtocolValidationError)) items :
  (∀ x, x ∈ items → is_Some (f x)) → is_Some (count_matches f items).
Proof.
  induction items as [|x items IH]; intros Hf; [by eexists|]. cbn [count_matches].
  destruct (Hf x (list_elem_of_here _ _)) as [e ->]. cbn [mbind option_bind].
  destruct IH as [es ->]; [intros; by apply Hf, list_elem_of_further|]. by eexists.
Qed.
Lemma when_some_total {A} (o : option A) f : (∀ x, o = Some x → is_Some (f x)) → is_Some (when_some o f).
Proof. destruct o; [by intros Hf; apply Hf|by eexists]. Qed.

Lemma sub_of_list k schema ss s : k ∈ ["allOf"; "anyOf"; "oneOf"] → kw_list k schema = Some ss → s ∈ ss → s ∈ subschemas schema.
Proof.
  intros Hk E0 Hs. unfold subschemas. apply elem_of_app. left. apply list_elem_of_join.
  exists ss. split; [done|]. apply list_elem_of_In, in_map_iff. exists k. rewrite E0. split; [done|by apply list_elem_of_In].
Qed.
Lemma sub_of_one k schema s : k ∈ ["not"; "if"; "then"; "else"; "items"; "contains"] → kw k schema = Some s → s ∈ subschemas schema.
Proof.
  intros Hk E0. unfold subschemas. apply elem_of_app. right. apply elem_of_app. left. apply list_elem_of_join.
  exists [s]. split; [apply list_elem_of_here|]. apply list_elem_of_In, in_map_iff. exists k. rewrite E0. split; [done|by apply list_elem_of_In].
Qed.
Lemma sub_of_field k schema kv : k ∈ ["dependentSchemas"; "properties"] → kv ∈ kw_fields k schema → kv.2 ∈ subschemas schema.
Proof.
  intros Hk Hkv. unfold subschemas. apply elem_of_app. right. apply elem_of_app. right. apply list_elem_of_join.
  exists ((kw_fields k schema).*2). split; [by apply list_elem_of_fmap_2|]. apply list_elem_of_In, in_map_iff. exists k. split; [done|by apply list_elem_of_In].
Qed.
Lemma get_elem {K V} `{EqDecision K} (k : K) (x : V) m : JsMap.get k m = Some x → (k, x) ∈ m.
Proof.
  induction m as [|[k0 v0] m IH]; [done|]. simpl. case_decide as Hk.
  - intros [= ->]. subst. apply list_elem_of_here.
  - intros Hg. by apply list_elem_of_further, IH.
Qed.

Ltac sub_total :=
  first [ eapply sub_of_list; [|eassumption|eassumption]; set_solver
        | eapply sub_of_one; [|eassumption]; set_solver
        | eapply (sub_of_field _ _ (_, _)); [|eassumption]; set_solver ].

Section total.
Context rec schema (Hsub : ∀ s, s ∈ subschemas schema → ∀ v l, is_Some (rec v s l)).
Lemma applicators_total v l : is_Some (applicator_errors rec v schema l).
Proof.
  unfold applicator_errors.
  destruct (when_some_total (kw_list "allOf" schema) (collect (λ s, rec v s l))) as [? ->].
  { intros ss E0. apply collect_total. intros s Hs. apply Hsub. sub_total. }
  cbn [mbind option_bind]. 
  destruct (when_some_total (kw_list "anyOf" schema) (λ ss, n ← count_matches (λ s, rec v s l) ss; Some (err_if (n =? 0) "any_of" l))) as [? ->].
  { intros ss E0. destruct (count_matches_total (λ s, rec v s l) ss) as [? ->]; [|by eexists]. intros s Hs. apply Hsub. sub_total. }
  cbn [mbind option_bind].
  destruct (when_some_total (kw_list "oneOf" schema) (λ ss, n ← count_matches (λ s, rec v s l) ss; Some (err_if (negb (n =? 1)) "one_of" l))) as [? ->].
  { intros ss E0. destruct (count_matches_total (λ s, rec v s l) ss) as [? ->]; [|by eexists]. intros s Hs. apply Hsub. sub_total. }
  cbn [mbind option_bind].
  destruct (when_some_total (kw "not" schema) (λ s, e ← rec v s l; Some (err_if (bool_decide (e = [])) "not" l))) as [? ->].
  { intros s E0. destruct (Hsub s ltac:(sub_total) v l) as [? ->]. by eexists. }
  cbn [mbind option_bind].
  match goal with |- is_Some (?m ≫= _) => assert (is_Some m) as [? ->]; [|by eexists] end.
  apply when_some_total. intros s E0. destruct (Hsub s ltac:(sub_total) v l) as [? ->]. cbn [mbind option_bind].
  case_bool_decide; apply when_some_total; intros t E1; apply Hsub; sub_total.
Qed.
Lemma array_total items l : is_Some (array_errors localeCompare rec items schema l).
Proof.
  unfold array_errors.
  match goal with |- is_Some (?m ≫= _) => assert (is_Some m) as [? ->] end.
  { apply when_some_total. intros s E0. apply collect_total. intros ie _. apply Hsub. sub_total. }
  cbn [mbind option_bind].
  match goal with |- is_Some (?m ≫= _) => assert (is_Some m) as [? ->]; [|by eexists] end.
  apply when_some_total. intros s E0.
  match goal with |- is_Some (count_matches ?f ?its ≫= _) => destruct (count_matches_total f its) as [? ->] end; [|by eexists].
  intros ie _. apply Hsub. sub_total.
Qed.
Context (Hempty : ∀ v l, is_Some (rec v (JObject []) l)).
Lemma object_total fs l : is_Some (object_errors rec fs schema l).
Proof.
  unfold object_errors.
  match goal with |- is_Some (?m ≫= _) => assert (is_Some m) as [? ->] end.
  { apply collect_total. intros [k s] Hk. simpl. destruct (has_value _ k); [|by eexists]. apply Hsub. sub_total. }
  cbn [mbind option_bind].
  match goal with |- is_Some (?m ≫= _) => assert (is_Some m) as [? ->]; [|by eexists] end.
  apply collect_total. intros [k w] _. unfold property_errors, property_schema. simpl. destruct (is_undefined w); [by eexists|].
  destruct (JsMap.get k _) as [s|] eqn:E0.
  - apply get_elem in E0. apply Hsub. sub_total.
  - destruct (inherited k); [apply Hempty|by eexists].
Qed.
Lemma typed_total v l : is_Some (typed_errors localeCompare rec v schema l).
Proof.
  unfold typed_errors. destruct v; try by eexists.
  - destruct (_ || _)%bool; [apply array_total|by eexists].
  - destruct (_ || _)%bool; [apply object_total|by eexists].
Qed.
End total.

Lemma empty_schema_accepts n v l : validate (S n) v (JObject []) l = Some [].
Proof. by destruct v. Qed.
Lemma validate_total n : ∀ schema, resolves n schema = true → ∀ v l, is_Some (validate n v schema l).
Proof.
  induction n as [|n IH]; intros schema; [done|]. cbn [resolves validateSchemaValue]. unfold schema_errors.
  destruct (kw_text "$ref" schema) as [ref|].
  { destruct (resolveRef _ ref) as [r|]; [|done]. intros Hr v l. by apply IH. }
  intros [Hn Hs]%andb_prop v l. apply negb_true_iff, Nat.eqb_neq in Hn. destruct n as [|n]; [done|].
  assert (∀ s, s ∈ subschemas schema → ∀ v l, is_Some (validate (S n) v s l)) as Hsub.
  { intros s Hin. rewrite forallb_forall in Hs. apply IH, Hs. by apply list_elem_of_In. }
  destruct (applicators_total _ _ Hsub v l) as [a ->]. cbn [mbind option_bind].
  assert (is_Some (typed_errors localeCompare (validate (S n)) v schema l)) as [t ->].
  { apply typed_total; [done|]. intros. rewrite empty_schema_accepts. by eexists. }
  destruct (kw_text "type" schema); [destruct (negb _)|]; by eexists.
Qed.

(* More fuel never changes an answer. *)
Definition below rec rec' : Prop := ∀ v s l e, rec v s l = Some e → rec' v s l = Some e.
Lemma collect_mono {A} (f f' : A → option (list ProtocolValidationError)) items es :
  (∀ x e, f x = Some e → f' x = Some e) → collect f items = Some es → collect f' items = Some es.
Proof.
  intros Hf. revert es; induction items as [|x items IH]; intros es; [done|]. cbn [collect].
  destruct (f x) as [e|] eqn:Hx; [|done]. rewrite (Hf _ _ Hx). cbn [mbind option_bind].
  destruct (collect f items) as [rest|]; [|done]. by rewrite (IH _ eq_refl).
Qed.
Lemma count_matches_mono {A} (f f' : A → option (list ProtocolValidationError)) items n :
  (∀ x e, f x = Some e → f' x = Some e) → count_matches f items = Some n → count_matches f' items = Some n.
Proof.
  intros Hf. revert n; induction items as [|x items IH]; intros n; [done|]. cbn [count_matches].
  destruct (f x) as [e|] eqn:Hx; [|done]. rewrite (Hf _ _ Hx). cbn [mbind option_bind].
  destruct (count_matches f items) as [rest|]; [|done]. by rewrite (IH _ eq_refl).
Qed.
Lemma when_some_mono {A} (o : option A) f f' e :
  (∀ x e, f x = Some e → f' x = Some e) → when_some o f = Some e → when_some o f' = Some e.
Proof. destruct o; simpl; [intros Hf; apply Hf|done]. Qed.
Lemma bind_mono {A B} (m m' : option A) (f f' : A → option B) e :
  (∀ a, m = Some a → m' = Some a) → (∀ a b, f a = Some b → f' a = Some b) → m ≫= f = Some e → m' ≫= f' = Some e.
Proof. intros Hm Hf. destruct m as [a|]; [|done]. rewrite (Hm a eq_refl). apply Hf. Qed.

Ltac mono :=
  repeat first
    [ done
    | intros; assumption
    | match goal with
      | Hb : below _ _, Hx : _ = Some _ |- _ = Some _ => by apply Hb in Hx
      end
    | eapply bind_mono; [intros ?| intros ? ?|eassumption]; intros
    | eapply when_some_mono; [intros ? ?|eassumption]; intros
    | eapply collect_mono; [intros ? ?|eassumption]; intros
    | eapply count_matches_mono; [intros ? ?|eassumption]; intros
    | progress simpl in *
    | case_match ].
Lemma schema_errors_mono rec rec' v schema l e : below rec rec' →
  schema_errors schemaMap localeCompare rec v schema l = Some e →
  schema_errors schemaMap localeCompare rec' v schema l = Some e.
Proof.
  intros Hb. unfold schema_errors, typed_errors, object_errors, array_errors, applicator_errors, property_errors.
  intros He. mono.
Qed.
Lemma validate_mono n m v schema l e : (n ≤ m)%nat → validate n v schema l = Some e → validate m v schema l = Some e.
Proof.
  revert m v schema l e; induction n as [|n IH]; intros [|m] v schema l e Hle; try done; [lia|].
  cbn [validateSchemaValue]. apply schema_errors_mono. intros v' s' l' e'. apply IH. lia.
Qed.

(** Validation terminates: when the chains of subschemas and references from a
    schema have length at most n, fuel n gives an answer for every value, and no
    larger fuel gives another one. *)
Theorem validation_total n schema : resolves n schema = true →
  ∀ v l, ∃ errors, ∀ m, (n ≤ m)%nat → validate m v schema l = Some errors.
Proof.
  intros Hr v l. destruct (validate_total n schema Hr v l) as [e He]. exists e. intros m Hm. by apply (validate_mono n).
Qed.

(** * What an object schema accepts *)

(* A schema whose only keywords that constrain objects are required, properties
   and additionalProperties. *)
Definition other_keywords : list string :=
  ["$ref"; "allOf"; "anyOf"; "oneOf"; "not"; "if"; "const"; "enum"; "dependentRequired"; "dependentSchemas"].
Definition plain_object_schema (schema : json) : bool :=
  ((kw_text "type" schema === Some (js "object")) && forallb (λ k, negb (has_kw schema k)) other_keywords)%bool.
Lemma has_kw_false schema k : has_kw schema k = false → kw k schema = None.
Proof. unfold has_kw. rewrite bool_decide_eq_false. by rewrite <- eq_None_not_Some. Qed.
Lemma plain_object_no_kw schema k : plain_object_schema schema = true → existsb (String.eqb k) other_keywords = true → kw k schema = None.
Proof.
  unfold plain_object_schema. intros [_ Hk]%andb_prop Hin. rewrite forallb_forall in Hk. apply existsb_exists in Hin as (k' & Hin & <-%String.eqb_eq).
  by apply has_kw_false, negb_true_iff, Hk.
Qed.
Lemma plain_object_schema_errors rec schema fs l : plain_object_schema schema = true →
  schema_errors schemaMap localeCompare rec (JObject fs) schema l = object_errors rec fs schema l.
Proof.
  intros Hs. assert (kw_text "type" schema = Some (js "object")) as Ht.
  { unfold plain_object_schema in Hs. apply andb_prop in Hs as [Ht _]. by apply bool_decide_eq_true in Ht. }
  unfold schema_errors, applicator_errors, value_errors, typed_errors, kw_list. rewrite Ht.
  unfold kw_text. repeat match goal with |- context [kw ?k schema] => rewrite (plain_object_no_kw schema k) by done end.
  cbn [when_some mbind option_bind app].
  change (matchesType (JObject fs) (js "object")) with true. cbn [negb].
  rewrite (bool_decide_true (Some (js "object") = _)) by done. cbn [orb].
  by destruct (object_errors rec fs schema l).
Qed.

Lemma collect_nil {A} (f : A → option (list ProtocolValidationError)) items :
  collect f items = Some [] ↔ ∀ x, x ∈ items → f x = Some [].
Proof.
  induction items as [|x items IH]; [split; [by intros _ x ?%not_elem_of_nil|done]|]. cbn [collect]. split.
  - destruct (f x) as [e|] eqn:Hx; [|done]. cbn [mbind option_bind]. destruct (collect f items) as [es|]; [|done].
    cbn [mbind option_bind]. intros [= [-> ->]%app_eq_nil] y [->|Hy]%elem_of_cons; [done|]. by apply IH.
  - intros Hf. rewrite (Hf x) by apply list_elem_of_here. cbn [mbind option_bind].
    by rewrite (proj2 IH) by (intros; by apply Hf, list_elem_of_further).
Qed.
Lemma join_err_if_nil {A} (p : A → bool) c (f : A → jsstr) items :
  mjoin (List.map (λ x, err_if (p x) c (f x)) items) = [] ↔ ∀ x, x ∈ items → p x = false.
Proof.
  induction items as [|x items IH]; [split; [by intros _ x ?%not_elem_of_nil|done]|].
  change (mjoin _) with (err_if (p x) c (f x) ++ mjoin (List.map (λ x, err_if (p x) c (f x)) items)). split.
  - intros [Hx Hr]%app_eq_nil y [->|Hy]%elem_of_cons; [by destruct (p x)|]. by apply IH.
  - intros Hp. rewrite (Hp x) by apply list_elem_of_here. apply IH. intros; by apply Hp, list_elem_of_further.
Qed.
(* What an object schema asks of a property. *)
Definition property_ok (n : nat) schema l (kv : jsstr * json) : Prop :=
  is_undefined kv.2 = true ∨
  match property_schema (kw_fields "properties" schema) kv.1 with
  | Some s => validate n kv.2 s (at_property l kv.1) = Some []
  | None => kw "additionalProperties" schema ≠ Some (JBool false)
  end.
Lemma property_errors_nil n schema l kv : property_errors (validate n) schema l kv = Some [] ↔ property_ok n schema l kv.
Proof.
  unfold property_errors, property_ok. destruct (is_undefined kv.2); [tauto|].
  destruct (property_schema _ _) as [s|]; [naive_solver|]. unfold err_if. case_bool_decide; naive_solver.
Qed.
Lemma plain_object_accepts n schema fs l : plain_object_schema schema = true →
  validate (S n) (JObject fs) schema l = Some [] ↔
  (∀ p, p ∈ kw_names "required" schema → has_value (ownEnumerableDataProperties fs) p = true) ∧
  (∀ kv, kv ∈ data_fields (ownEnumerableDataProperties fs) → property_ok n schema l kv).
Proof.
  intros Hs. cbn [validateSchemaValue]. rewrite plain_object_schema_errors by done. unfold object_errors.
  assert (kw_fields "dependentSchemas" schema = []) as -> by (unfold kw_fields; by rewrite (plain_object_no_kw schema "dependentSchemas")).
  assert (kw_fields "dependentRequired" schema = []) as -> by (unfold kw_fields; by rewrite (plain_object_no_kw schema "dependentRequired")).
  cbn [collect mbind option_bind List.map mjoin list_join app].
  setoid_rewrite <- property_errors_nil. rewrite <- (collect_nil (property_errors (validate n) schema l)).
  assert (∀ (a b : list ProtocolValidationError), Some (a ++ b) = Some [] ↔ a = [] ∧ b = []) as Happ.
  { intros a b. split; [by intros [= [-> ->]%app_eq_nil]|by intros [-> ->]]. }
  destruct (collect _ _) as [props|]; cbn [mbind option_bind]; [|naive_solver].
  rewrite Happ, join_err_if_nil. setoid_rewrite negb_false_iff. naive_solver.
Qed.

(* What any schema of type object asks of an accepted object. *)
Lemma accepted_object n schema fs l :
  kw_text "$ref" schema = None → kw_text "type" schema = Some (js "object") →
  validate (S n) (JObject fs) schema l = Some [] →
  (∀ p, p ∈ kw_names "required" schema → has_value (ownEnumerableDataProperties fs) p = true) ∧
  (∀ kv, kv ∈ data_fields (ownEnumerableDataProperties fs) → property_ok n schema l kv).
Proof.
  intros Hr Ht. cbn [validateSchemaValue]. unfold schema_errors. rewrite Hr, Ht.
  destruct (applicator_errors _ _ _ _) as [a|]; [|done]. cbn [mbind option_bind].
  change (matchesType (JObject fs) (js "object")) with true. cbn [negb]. unfold typed_errors. rewrite Ht.
  rewrite (bool_decide_true (Some (js "object") = _)) by done. cbn [orb]. unfold object_errors.
  destruct (collect _ (kw_fields "dependentSchemas" schema)) as [d|]; [|done]. cbn [mbind option_bind].
  destruct (collect (property_errors _ _ _) _) as [props|] eqn:Hprops; [|done]. cbn [mbind option_bind].
  intros [= [_ [Hreq [_ [_ ->]%app_eq_nil]%app_eq_nil]%app_eq_nil]%app_eq_nil]. split.
  - rewrite join_err_if_nil in Hreq. intros p Hp. apply negb_false_iff. by apply Hreq.
  - intros kv Hkv. apply property_errors_nil. by apply (proj1 (collect_nil (property_errors (validate n) schema l) _) Hprops).
Qed.
Lemma accepted_type n schema v l t :
  kw_text "$ref" schema = None → kw_text "type" schema = Some t → validate (S n) v schema l = Some [] → matchesType v t = true.
Proof.
  intros Hr Ht. cbn [validateSchemaValue]. unfold schema_errors. rewrite Hr, Ht.
  destruct (applicator_errors _ _ _ _) as [a|]; [|done]. cbn [mbind option_bind]. destruct (matchesType v t); [done|].
  cbn [negb]. intros [= E0]. apply app_eq_nil in E0 as [_ E0]. done.
Qed.
(* The own fields survive the copy; a field __proto__ sets the prototype. *)
Lemma data_get fs p : p ≠ js "__proto__" → NoDup fs.*1 →
  JsMap.get p (data_fields (ownEnumerableDataProperties fs)) = JsMap.get p fs.
Proof.
  intros Hp. unfold ownEnumerableDataProperties.
  assert (∀ o, NoDup fs.*1 → JsMap.get p (data_fields (fold_left assign_data fs o)) =
    match JsMap.get p fs with Some v => Some v | None => JsMap.get p (data_fields o) end) as Hgen.
  { induction fs as [|[k v] fs IH]; intros o Hnd; [done|]. cbn [fold_left]. rewrite fmap_cons, NoDup_cons in Hnd.
    destruct Hnd as [Hk Hnd]. rewrite IH by done. unfold assign_data. cbn [fst snd]. cbn [JsMap.get].
    destruct (decide (p = k)) as [<-|Hne].
    - rewrite bool_decide_false by done. cbn [data_fields]. rewrite (proj2 (JsMap.get_None p fs)) by done. apply JsMap.get_set_eq.
    - destruct (JsMap.get p fs); [done|]. case_bool_decide; [by destruct v|]. cbn [data_fields]. by apply JsMap.get_set_ne. }
  intros Hnd. rewrite Hgen by done. by destruct (JsMap.get p fs).
Qed.
Definition sets_prototype (v : json) : bool := match v with JNull | JArray _ | JObject _ => true | _ => false end.
Lemma data_prototype_ordinary fs :
  (∀ v, JsMap.get (js "__proto__") fs = Some v → sets_prototype v = false ∨ v = JNull) → NoDup fs.*1 →
  data_prototype (ownEnumerableDataProperties fs) ∈ [ordinary_prototype; null_prototype].
Proof.
  unfold ownEnumerableDataProperties.
  assert (∀ o, data_prototype o ∈ [ordinary_prototype; null_prototype] →
    (∀ v, JsMap.get (js "__proto__") fs = Some v → sets_prototype v = false ∨ v = JNull) → NoDup fs.*1 →
    data_prototype (fold_left assign_data fs o) ∈ [ordinary_prototype; null_prototype]) as Hgen.
  { induction fs as [|[k v] fs IH]; intros o Ho Hv Hnd; [done|]. cbn [fold_left]. rewrite fmap_cons, NoDup_cons in Hnd.
    destruct Hnd as [Hk Hnd]. simpl in Hk. apply IH; [| |done].
    - unfold assign_data. cbn [fst snd]. case_bool_decide as E0; [|done]. subst k.
      destruct (Hv v) as [Hs| ->]; [cbn [JsMap.get]; by rewrite decide_True| |].
      + by destruct v.
      + simpl. apply list_elem_of_further, list_elem_of_here.
    - intros w Hw. apply Hv. cbn [JsMap.get]. rewrite decide_False; [done|]. intros <-.
      by rewrite (proj2 (JsMap.get_None _ fs)) in Hw by done. }
  apply Hgen, list_elem_of_here.
Qed.

(* Objects without an own __proto__ field are copied as they are. *)
Lemma data_of_no_proto fs : no_proto fs → NoDup fs.*1 →
  ownEnumerableDataProperties fs = {| data_fields := fs; data_prototype := ordinary_prototype |}.
Proof.
  unfold ownEnumerableDataProperties, no_proto.
  assert (∀ acc, js "__proto__" ∉ fs.*1 → NoDup (acc ++ fs).*1 →
    fold_left assign_data fs {| data_fields := acc; data_prototype := ordinary_prototype |}
      = {| data_fields := acc ++ fs; data_prototype := ordinary_prototype |}) as Hgen.
  { induction fs as [|[k v] fs IH]; intros acc Hp Hnd; [by rewrite app_nil_r|]. cbn [fold_left].
    rewrite fmap_cons, not_elem_of_cons in Hp. destruct Hp as [Hk Hp]. unfold assign_data at 2. simpl in Hk |- *.
    rewrite bool_decide_false by congruence. rewrite JsMap.set_fresh.
    - rewrite IH; [by rewrite <- app_assoc|done|by rewrite <- app_assoc].
    - apply JsMap.get_None. unfold JsMap.keys. rewrite fmap_app in Hnd. apply NoDup_app in Hnd as (_ & Hd & _).
      intros Hin. apply (Hd k Hin). apply list_elem_of_here. }
  intros Hp Hnd. by apply (Hgen []).
Qed.

(** C36. Take a schema of type object with additionalProperties false and with none of the
    keywords $ref, allOf, anyOf, oneOf, not, if, const, enum, dependentRequired and
    dependentSchemas, that requires no property named like a member of Object.prototype. It
    accepts an object without a field named __proto__ exactly when every required property
    has a value, and every property that has a value is either declared and valid for its
    schema, or undeclared but named like a member of Object.prototype. *)
Theorem object_schema_exact n schema fs l :
  plain_object_schema schema = true → kw "additionalProperties" schema = Some (JBool false) →
  no_proto fs → NoDup fs.*1 → (∀ p, p ∈ kw_names "required" schema → inherited p = false) →
  validate (S (S n)) (JObject fs) schema l = Some [] ↔
  (∀ p, p ∈ kw_names "required" schema → ∃ v, (p, v) ∈ fs ∧ is_undefined v = false) ∧
  (∀ k v, (k, v) ∈ fs → is_undefined v = false →
     match JsMap.get k (kw_fields "properties" schema) with
     | Some s => validate (S n) v s (at_property l k) = Some []
     | None => inherited k = true
     end).
Proof.
  intros Hs Hclosed Hp Hnd Hreq. rewrite plain_object_accepts by done. rewrite data_of_no_proto by done. cbn [data_fields].
  assert (∀ p, p ∈ kw_names "required" schema →
    has_value {| data_fields := fs; data_prototype := ordinary_prototype |} p = true ↔ ∃ v, (p, v) ∈ fs ∧ is_undefined v = false) as Hhas.
  { intros p Hin. unfold has_value. cbn [data_fields data_prototype]. destruct (JsMap.get p fs) as [v|] eqn:Hg.
    - rewrite negb_true_iff. apply (JsMap.elem_of_get p v fs Hnd) in Hg. split; [by eauto|]. intros (w & Hw & Hd).
      apply (JsMap.elem_of_get p w fs Hnd) in Hw. apply (JsMap.elem_of_get p v fs Hnd) in Hg. congruence.
    - rewrite (Hreq p Hin). split; [done|]. intros (w & Hw & _). apply (JsMap.elem_of_get p w fs Hnd) in Hw. congruence. }
  split; intros [H1 H2]; (split; [intros p Hin; apply Hhas; auto|]).
  - intros k v Hk Hd. destruct (H2 _ Hk) as [Hu|Hu]; simpl in Hu; [congruence|]. unfold property_schema in Hu.
    destruct (JsMap.get k _); [done|]. destruct (inherited k); [done|by destruct Hu].
  - intros [k v] Hk. unfold property_ok. simpl. destruct (is_undefined v) eqn:Hd; [by left|right]. specialize (H2 k v Hk Hd).
    unfold property_schema. destruct (JsMap.get k _); [done|]. rewrite H2. apply empty_schema_accepts.
Qed.

(* A required property of an accepted object is there and valid for its schema. *)
Lemma accepted_required n schema fs l p s :
  kw_text "$ref" schema = None → kw_text "type" schema = Some (js "object") → no_proto fs → NoDup fs.*1 →
  validate (S n) (JObject fs) schema l = Some [] → p ∈ kw_names "required" schema → inherited p = false →
  JsMap.get p (kw_fields "properties" schema) = Some s →
  ∃ v, JsMap.get p fs = Some v ∧ validate n v s (at_property l p) = Some [].
Proof.
  intros Hr Ht Hp Hnd Hv Hin Hi Hs. destruct (accepted_object _ _ _ _ Hr Ht Hv) as [Hreq Hprops].
  rewrite data_of_no_proto in Hreq, Hprops by done. specialize (Hreq p Hin). unfold has_value in Hreq. cbn [data_fields data_prototype] in *.
  destruct (JsMap.get p fs) as [v|] eqn:Hg; [|congruence]. exists v. split; [done|].
  apply negb_true_iff in Hreq. destruct (Hprops (p, v)) as [Hu|Hu]; [by apply get_elem|simpl in Hu; congruence|].
  unfold property_schema in Hu. simpl in Hu. by rewrite Hs in Hu.
Qed.

(** An own field __proto__, which JSON.parse creates, supplies every required
    property of an object schema without being reported itself: if an object is
    accepted, so is the object whose only own field is __proto__ with that object as
    its value. *)
Theorem proto_field_satisfies_required n schema fs l :
  plain_object_schema schema = true → no_proto fs → NoDup fs.*1 →
  validate (S n) (JObject fs) schema l = Some [] →
  validate (S n) (JObject [(js "__proto__", JObject fs)]) schema l = Some [].
Proof.
  intros Hs Hp Hnd. rewrite !plain_object_accepts by done. rewrite data_of_no_proto by done. intros [Hreq _].
  unfold ownEnumerableDataProperties. cbn [fold_left]. unfold assign_data. cbn [fst snd data_fields].
  rewrite bool_decide_true by done. split; [|by intros kv ?%not_elem_of_nil].
  intros p Hin. exact (Hreq p Hin).
Qed.
End validator_theorems.
