(* ===== verification/Registry.v ===== *)
(** The schema registry of the protocol
    (packages/protocol-ts/src/generated/protocol-v0-schemas.ts): one definition per
    schema, with the keywords in the order of the file. *)
From S2P Require Import Prelude Json CanonicalJson Schema.

Local Open Scope string_scope.

(* The literals of the registry. *)
Definition jobj (fields : list (string * json)) : json := JObject (List.map (λ kv, (js kv.1, kv.2)) fields).
Definition jarr (elements : list json) : json := JArray elements.
Definition jstr (text : string) : json := JString (js text).
Definition jnum (number : Z) : json := JNumber number.
Definition jbool (value : bool) : json := JBool value.

Definition accepted_risk_record_properties_from_protocol_version : list (string * json) :=
  [("protocol_version", jobj [("$ref", jstr "urn:codeattest:protocol:v0:shared-definitions#/$defs/protocol_version")]); ("review_id",
  jobj [("type", jstr "string"); ("pattern", jstr "^review:[a-z0-9][a-z0-9_-]{2,63}$")]); ("accepted_risk_record_id", jobj [("type",
  jstr "string"); ("pattern", jstr "^accepted_risk:[a-z0-9][a-z0-9_-]{2,63}$")]); ("review_finding_draft_ref", jobj [("type", jstr "string");
  ("pattern", jstr "^review_finding_draft:[a-z0-9][a-z0-9_-]{2,63}$")]); ("classification_record_ref", jobj [("type", jstr "string");
  ("pattern", jstr "^classification_record:[a-z0-9][a-z0-9_-]{2,63}$")]); ("review_finding_draft_evidence_refs", jobj [("type", jstr
  "array"); ("maxItems", jnum 10000); ("minItems", jnum 1); ("items", jobj [("type", jstr "object"); ("additionalProperties", jbool false);
  ("required", jarr [jstr "artifact_ref"; jstr "availability_state"; jstr "available_for_review"; jstr "display_state"; jstr "source_derived_class"]);
  ("properties", jobj [("artifact_ref", jobj [("type", jstr "string"); ("pattern", jstr "^artifact_ref:[a-z0-9][a-z0-9_-]{2,63}$")]);
  ("availability_state", jobj [("type", jstr "string"); ("enum", jarr [jstr "retained_review_artifact"; jstr "deleted_under_policy";
  jstr "never_collected"; jstr "not_submitted_by_policy"; jstr "unresolved_reference"])]); ("available_for_review", jobj [("type", jstr
  "boolean")]); ("display_state", jobj [("type", jstr "string"); ("enum", jarr [jstr "available_reference"; jstr "deleted"; jstr "not_collected";
  jstr "not_submitted"; jstr "unresolved_reference"])]); ("deletion_evidence_ref", jobj [("type", jstr "string"); ("pattern", jstr "^deletion_evidence:[a-z0-9][a-z0-9_-]{2,63}$")]);
  ("source_derived_class", jobj [("$ref", jstr "urn:codeattest:protocol:v0:retention-source-derived-class")])])])]); ("evidence_basis",
  jobj [("type", jstr "array"); ("minItems", jnum 1); ("uniqueItems", jbool true); ("items", jobj [("type", jstr "string"); ("enum",
  jarr [jstr "scanner_output"; jstr "metadata_only"; jstr "finding_context_snippet"; jstr "extended_approved_source_context"; jstr "retained_review_artifact";
  jstr "deleted_under_policy_reference"; jstr "not_submitted_by_policy_reference"; jstr "never_collected_reference"; jstr "unresolved_reference"])])]);
  ("customer_rationale", jobj [("$ref", jstr "urn:codeattest:protocol:v0:shared-definitions#/$defs/non_empty_string")]); ("customer_signoff_ref",
  jobj [("type", jstr "string"); ("pattern", jstr "^customer_signoff:[a-z0-9][a-z0-9_-]{2,63}$")]); ("customer_signoff_summary", jobj
  [("$ref", jstr "urn:codeattest:protocol:v0:shared-definitions#/$defs/non_empty_string")]); ("customer_actor_ref", jobj [("type", jstr
  "string"); ("pattern", jstr "^customer:[a-z0-9][a-z0-9_-]{2,63}$")]); ("risk_owner", jobj [("$ref", jstr "urn:codeattest:protocol:v0:shared-definitions#/$defs/non_empty_string")]);
  ("scope_of_acceptance", jobj [("$ref", jstr "urn:codeattest:protocol:v0:shared-definitions#/$defs/non_empty_string")])].
Definition accepted_risk_record_properties_from_review_by_date : list (string * json) :=
  [("review_by_date", jobj [("type", jstr "string"); ("pattern", jstr "^[0-9]{4}-[0-9]{2}-[0-9]{2}$")]); ("remediation_context_ref",
  jobj [("type", jstr "string"); ("pattern", jstr "^remediation_guidance:[a-z0-9][a-z0-9_-]{2,63}$")]); ("validation_path_ref", jobj
  [("type", jstr "string"); ("pattern", jstr "^validation_path:[a-z0-9][a-z0-9_-]{2,63}$")]); ("recorded_at", jobj [("$ref", jstr "urn:codeattest:protocol:v0:shared-definitions#/$defs/utc_rfc3339_timestamp")]);
  ("actor", jobj [("$ref", jstr "urn:codeattest:protocol:v0:shared-definitions#/$defs/actor_reference")]); ("limitations", jobj [("type",
  jstr "array"); ("maxItems", jnum 100); ("minItems", jnum 1); ("items", jobj [("$ref", jstr "urn:codeattest:protocol:v0:shared-definitions#/$defs/narrative_string")])]);
  ("source_reference_state", jobj [("type", jstr "string"); ("enum", jarr [jstr "retained_review_artifact"; jstr "deleted_under_policy";
  jstr "never_collected"; jstr "not_submitted_by_policy"; jstr "unresolved_reference"])]); ("source_derived_class", jobj [("type", jstr
  "string"); ("const", jstr "retained_review_artifact")]); ("visibility", jobj [("type", jstr "string"); ("enum", jarr [jstr "customer_facing";
  jstr "internal_only"])])].
Definition accepted_risk_record_properties_from_field_export_policy : list (string * json) :=
  [("field_export_policy", jobj [("type", jstr "object"); ("additionalProperties", jbool false); ("required", jarr [jstr "customer_rationale";
  jstr "customer_signoff_summary"; jstr "risk_owner"; jstr "scope_of_acceptance"; jstr "limitations"; jstr "evidence_consumer_export";
  jstr "evidence_basis"]); ("properties", jobj [("customer_rationale", jobj [("type", jstr "string"); ("enum", jarr [jstr "include";
  jstr "exclude"])]); ("customer_signoff_summary", jobj [("type", jstr "string"); ("enum", jarr [jstr "include"; jstr "exclude"])]);
  ("risk_owner", jobj [("type", jstr "string"); ("enum", jarr [jstr "include"; jstr "exclude"])]); ("scope_of_acceptance", jobj [("type",
  jstr "string"); ("enum", jarr [jstr "include"; jstr "exclude"])]); ("limitations", jobj [("type", jstr "string"); ("enum", jarr [jstr
  "include"; jstr "exclude"])]); ("evidence_consumer_export", jobj [("type", jstr "string"); ("enum", jarr [jstr "include"; jstr "exclude"])]);
  ("evidence_basis", jobj [("type", jstr "string"); ("enum", jarr [jstr "include"; jstr "exclude"])])])])].
Definition accepted_risk_record_properties : json :=
  jobj (accepted_risk_record_properties_from_protocol_version ++ accepted_risk_record_properties_from_review_by_date ++ accepted_risk_record_properties_from_field_export_policy).
Definition accepted_risk_record_schema : json :=
  jobj [("$schema", jstr "https://json-schema.org/draft/2020-12/schema"); ("$id", jstr "urn:codeattest:protocol:v0:accepted-risk-record");
  ("title", jstr "Accepted Risk Record"); ("type", jstr "object"); ("additionalProperties", jbool false); ("required", jarr [jstr "protocol_version";
  jstr "review_id"; jstr "accepted_risk_record_id"; jstr "review_finding_draft_ref"; jstr "classification_record_ref"; jstr "recorded_at";
  jstr "actor"; jstr "limitations"; jstr "source_reference_state"; jstr "source_derived_class"; jstr "visibility"; jstr "review_finding_draft_evidence_refs";
  jstr "evidence_basis"]); ("properties", accepted_risk_record_properties)].
Definition artifact_reference_schema : json :=
  jobj [("$schema", jstr "https://json-schema.org/draft/2020-12/schema"); ("$id", jstr "urn:codeattest:protocol:v0:artifact-reference");
  ("title", jstr "Artifact Reference"); ("type", jstr "object"); ("additionalProperties", jbool false); ("dependentRequired", jobj [("content_path",
  jarr [jstr "content_path_anchor"])]); ("required", jarr [jstr "protocol_version"; jstr "artifact_ref"; jstr "artifact_type"; jstr "digest";
  jstr "size_bytes"; jstr "source_derived_class"; jstr "manifest_entry_ref"]); ("properties", jobj [("protocol_version", jobj [("$ref",
  jstr "urn:codeattest:protocol:v0:shared-definitions#/$defs/protocol_version")]); ("artifact_ref", jobj [("type", jstr "string"); ("pattern",
  jstr "^artifact_ref:[a-z0-9][a-z0-9_-]{2,63}$")]); ("artifact_type", jobj [("type", jstr "string"); ("enum", jarr [jstr "review_scope";
  jstr "disclosure_policy"; jstr "dependency_manifest"; jstr "scanner_finding_set"; jstr "scanner_raw_output"; jstr "raw_snippet"; jstr
  "targeted_file"; jstr "outbound_manifest"; jstr "customer_approval"; jstr "bundle_manifest"; jstr "signature_envelope"])]); ("digest",
  jobj [("$ref", jstr "urn:codeattest:protocol:v0:shared-definitions#/$defs/artifact_digest")]); ("size_bytes", jobj [("type", jstr "integer");
  ("minimum", jnum 0); ("maximum", jnum 9007199254740991)]); ("source_derived_class", jobj [("$ref", jstr "urn:codeattest:protocol:v0:retention-source-derived-class")]);
  ("manifest_entry_ref", jobj [("type", jstr "string"); ("pattern", jstr "^manifest_entry:[a-z0-9][a-z0-9_-]{2,63}$")]); ("media_type",
  jobj [("type", jstr "string"); ("minLength", jnum 1)]); ("content_path", jobj [("type", jstr "string"); ("minLength", jnum 1); ("pattern",
  jstr "^(?!/)(?![A-Za-z]:)(?!.*\\)(?!.*//)(?!.*(?:^|/)\.\.?(?:/|$))[a-zA-Z0-9._/-]+$")]); ("content_path_anchor", jobj [("type", jstr
  "string"); ("enum", jarr [jstr "manifest_artifacts"; jstr "bundle_artifacts"; jstr "bundle_source_derived_artifacts"; jstr "fixture_root"])]);
  ("synthetic_markers", jobj [("type", jstr "array"); ("maxItems", jnum 10000); ("minItems", jnum 1); ("items", jobj [("type", jstr "string");
  ("enum", jarr [jstr "SYNTHETIC_DEMO_DATA"; jstr "NOT_CUSTOMER_SOURCE"])])])])].
Definition attestation_package_finalization_properties : json :=
  jobj [("protocol_version", jobj [("$ref", jstr "urn:codeattest:protocol:v0:shared-definitions#/$defs/protocol_version")]); ("attestation_package_finalization_id",
  jobj [("type", jstr "string"); ("pattern", jstr "^attestation_finalization:[a-f0-9]{64}$")]); ("finalization_version", jobj [("type",
  jstr "integer"); ("minimum", jnum 1); ("maximum", jnum 9007199254740991)]); ("review_id", jobj [("type", jstr "string"); ("pattern",
  jstr "^review:[a-z0-9][a-z0-9_-]{2,63}$")]); ("static_bundle_id", jobj [("type", jstr "string"); ("pattern", jstr "^static_bundle:[a-z0-9][a-z0-9_-]{2,63}$")]);
  ("generated_manifest_ref", jobj [("$ref", jstr "urn:codeattest:protocol:v0:shared-definitions#/$defs/algorithm_prefixed_sha256_id")]);
  ("finalized_manifest_ref", jobj [("$ref", jstr "urn:codeattest:protocol:v0:shared-definitions#/$defs/algorithm_prefixed_sha256_id")]);
  ("finalized_manifest_version", jobj [("type", jstr "integer"); ("minimum", jnum 2); ("maximum", jnum 9007199254740991)]); ("customer_actor",
  jobj [("type", jstr "object"); ("additionalProperties", jbool false); ("required", jarr [jstr "actor_type"; jstr "actor_id"]); ("properties",
  jobj [("actor_type", jobj [("type", jstr "string"); ("const", jstr "customer_user")]); ("actor_id", jobj [("$ref", jstr "urn:codeattest:protocol:v0:shared-definitions#/$defs/non_empty_string")])])]);
  ("visible_context", jobj [("type", jstr "object"); ("additionalProperties", jbool false); ("required", jarr [jstr "attestation_id";
  jstr "static_bundle_id"; jstr "generated_manifest_id"; jstr "limitations_visible"; jstr "receipt_context_visible"; jstr "export_consequence_visible"]);
  ("properties", jobj [("attestation_id", jobj [("type", jstr "string"); ("pattern", jstr "^attestation:[a-f0-9]{64}$")]); ("static_bundle_id",
  jobj [("type", jstr "string"); ("pattern", jstr "^static_bundle:[a-z0-9][a-z0-9_-]{2,63}$")]); ("generated_manifest_id", jobj [("$ref",
  jstr "urn:codeattest:protocol:v0:shared-definitions#/$defs/algorithm_prefixed_sha256_id")]); ("limitations_visible", jobj [("type",
  jstr "boolean"); ("const", jbool true)]); ("receipt_context_visible", jobj [("type", jstr "boolean"); ("const", jbool true)]); ("export_consequence_visible",
  jobj [("type", jstr "boolean"); ("const", jbool true)])])]); ("receipt_verification_state", jobj [("type", jstr "string"); ("const",
  jstr "verified")]); ("signature_verification_state", jobj [("type", jstr "string"); ("const", jstr "verified")]); ("deletion_evidence_state",
  jobj [("type", jstr "string"); ("const", jstr "resolved")]); ("portal_verification_state", jobj [("type", jstr "string"); ("const",
  jstr "verified_offline")]); ("finalized_at", jobj [("$ref", jstr "urn:codeattest:protocol:v0:shared-definitions#/$defs/utc_rfc3339_timestamp")]);
  ("customer_control_after_export", jobj [("$ref", jstr "urn:codeattest:protocol:v0:shared-definitions#/$defs/non_empty_string")]); ("export_state",
  jobj [("type", jstr "string"); ("enum", jarr [jstr "not_exported"; jstr "exported"])]); ("exported_at", jobj [("$ref", jstr "urn:codeattest:protocol:v0:shared-definitions#/$defs/utc_rfc3339_timestamp")]);
  ("visibility", jobj [("type", jstr "string"); ("const", jstr "customer_facing")]); ("source_derived_class", jobj [("type", jstr "string");
  ("const", jstr "retained_review_artifact")]); ("canonicalization", jobj [("type", jstr "string"); ("const", jstr "rfc8785")]); ("identity_hash_algorithm",
  jobj [("type", jstr "string"); ("const", jstr "sha256")]); ("identity_input_excludes", jobj [("type", jstr "array"); ("minItems", jnum
  3); ("maxItems", jnum 3); ("uniqueItems", jbool true); ("items", jobj [("type", jstr "string"); ("enum", jarr [jstr "attestation_package_finalization_id";
  jstr "export_state"; jstr "exported_at"])])])].
Definition attestation_package_finalization_schema : json :=
  jobj [("$schema", jstr "https://json-schema.org/draft/2020-12/schema"); ("$id", jstr "urn:codeattest:protocol:v0:attestation-package-finalization");
  ("title", jstr "Attestation Package Finalization"); ("type", jstr "object"); ("additionalProperties", jbool false); ("required", jarr
  [jstr "protocol_version"; jstr "attestation_package_finalization_id"; jstr "finalization_version"; jstr "review_id"; jstr "static_bundle_id";
  jstr "generated_manifest_ref"; jstr "finalized_manifest_ref"; jstr "finalized_manifest_version"; jstr "customer_actor"; jstr "visible_context";
  jstr "receipt_verification_state"; jstr "signature_verification_state"; jstr "deletion_evidence_state"; jstr "portal_verification_state";
  jstr "finalized_at"; jstr "customer_control_after_export"; jstr "export_state"; jstr "visibility"; jstr "source_derived_class"; jstr
  "canonicalization"; jstr "identity_hash_algorithm"; jstr "identity_input_excludes"]); ("properties", attestation_package_finalization_properties);
  ("allOf", jarr [jobj [("if", jobj [("properties", jobj [("export_state", jobj [("const", jstr "exported")])])]); ("then", jobj [("required",
  jarr [jstr "exported_at"])]); ("else", jobj [("not", jobj [("required", jarr [jstr "exported_at"])])])]])].
Definition bundle_manifest_properties_from_protocol_version : list (string * json) :=
  [("protocol_version", jobj [("$ref", jstr "urn:codeattest:protocol:v0:shared-definitions#/$defs/protocol_version")]); ("evidence_bundle_id",
  jobj [("$ref", jstr "urn:codeattest:protocol:v0:shared-definitions#/$defs/algorithm_prefixed_sha256_id")]); ("manifest_id", jobj [("$ref",
  jstr "urn:codeattest:protocol:v0:shared-definitions#/$defs/algorithm_prefixed_sha256_id")]); ("customer_approval_ref", jobj [("type",
  jstr "string"); ("pattern", jstr "^approval:[a-z0-9][a-z0-9_-]{2,63}$")]); ("customer_approval_decision", jobj [("type", jstr "string");
  ("const", jstr "approved")]); ("bundle_state", jobj [("type", jstr "string"); ("const", jstr "not_submitted")]); ("review_scope_ref",
  jobj [("$ref", jstr "urn:codeattest:protocol:v0:shared-definitions#/$defs/algorithm_prefixed_sha256_id")]); ("disclosure_policy_ref",
  jobj [("$ref", jstr "urn:codeattest:protocol:v0:shared-definitions#/$defs/algorithm_prefixed_sha256_id")]); ("scanner_finding_set_ref",
  jobj [("$ref", jstr "urn:codeattest:protocol:v0:shared-definitions#/$defs/algorithm_prefixed_sha256_id")]); ("coverage_mode", jobj
  [("$ref", jstr "urn:codeattest:protocol:v0:shared-definitions#/$defs/coverage_mode")]); ("bundle_instance_id", jobj [("type", jstr
  "string"); ("pattern", jstr "^bundle_instance:[a-z0-9][a-z0-9_-]{2,63}$")]); ("submission_attempt_id", jobj [("type", jstr "string");
  ("pattern", jstr "^submission_attempt:[a-z0-9][a-z0-9_-]{2,63}$")]); ("created_at", jobj [("$ref", jstr "urn:codeattest:protocol:v0:shared-definitions#/$defs/utc_rfc3339_timestamp")]);
  ("runner", jobj [("type", jstr "object"); ("additionalProperties", jbool false); ("required", jarr [jstr "name"; jstr "version"]);
  ("properties", jobj [("name", jobj [("type", jstr "string"); ("const", jstr "codeattest-local-runner")]); ("version", jobj [("$ref",
  jstr "urn:codeattest:protocol:v0:shared-definitions#/$defs/non_empty_string")])])]); ("tool_versions", jobj [("type", jstr "array");
  ("maxItems", jnum 10000); ("minItems", jnum 1); ("items", jobj [("type", jstr "object"); ("additionalProperties", jbool false); ("required",
  jarr [jstr "tool_name"; jstr "tool_version"]); ("properties", jobj [("tool_name", jobj [("$ref", jstr "urn:codeattest:protocol:v0:shared-definitions#/$defs/non_empty_string")]);
  ("tool_version", jobj [("$ref", jstr "urn:codeattest:protocol:v0:shared-definitions#/$defs/non_empty_string")])])])]); ("artifact_references",
  jobj [("type", jstr "array"); ("maxItems", jnum 10000); ("minItems", jnum 4); ("items", jobj [("$ref", jstr "urn:codeattest:protocol:v0:artifact-reference")])])].
Definition bundle_manifest_properties_from_verification_metadata : list (string * json) :=
  [("verification_metadata", jobj [("type", jstr "object"); ("additionalProperties", jbool false); ("required", jarr [jstr "identity_canonicalization";
  jstr "identity_hash_algorithm"; jstr "identity_input_excludes"; jstr "signed_identity_type"; jstr "approved_manifest_id"; jstr "signature_envelope_path";
  jstr "bundle_signing_mode"]); ("properties", jobj [("identity_canonicalization", jobj [("type", jstr "string"); ("const", jstr "rfc8785")]);
  ("identity_hash_algorithm", jobj [("type", jstr "string"); ("const", jstr "sha256")]); ("identity_input_excludes", jobj [("type", jstr
  "array"); ("maxItems", jnum 10000); ("minItems", jnum 1); ("items", jobj [("type", jstr "string"); ("enum", jarr [jstr "evidence_bundle_id"])])]);
  ("signed_identity_type", jobj [("type", jstr "string"); ("const", jstr "evidence_bundle")]); ("approved_manifest_id", jobj [("$ref",
  jstr "urn:codeattest:protocol:v0:shared-definitions#/$defs/algorithm_prefixed_sha256_id")]); ("signature_envelope_path", jobj [("$ref",
  jstr "urn:codeattest:protocol:v0:shared-definitions#/$defs/non_empty_string")]); ("bundle_signing_mode", jobj [("type", jstr "string");
  ("enum", jarr [jstr "managed_key"; jstr "enrolled_runner_key"])])])]); ("local_cleanup_intent", jobj [("type", jstr "array"); ("maxItems",
  jnum 10000); ("items", jobj [("type", jstr "object"); ("additionalProperties", jbool false); ("required", jarr [jstr "artifact_ref";
  jstr "source_derived_class"; jstr "cleanup_state"; jstr "cleanup_required"; jstr "deletion_evidence_state"]); ("properties", jobj [("artifact_ref",
  jobj [("type", jstr "string"); ("pattern", jstr "^artifact_ref:[a-z0-9][a-z0-9_-]{2,63}$")]); ("source_derived_class", jobj [("$ref",
  jstr "urn:codeattest:protocol:v0:retention-source-derived-class")]); ("cleanup_state", jobj [("type", jstr "string"); ("enum", jarr
  [jstr "pending_local_cleanup"; jstr "not_applicable"])]); ("cleanup_required", jobj [("type", jstr "boolean")]); ("deletion_evidence_state",
  jobj [("type", jstr "string"); ("enum", jarr [jstr "pending"; jstr "not_applicable"])])])])])].
Definition bundle_manifest_properties : json :=
  jobj (bundle_manifest_properties_from_protocol_version ++ bundle_manifest_properties_from_verification_metadata).
Definition bundle_manifest_schema : json :=
  jobj [("$schema", jstr "https://json-schema.org/draft/2020-12/schema"); ("$id", jstr "urn:codeattest:protocol:v0:bundle-manifest");
  ("title", jstr "Evidence Bundle Manifest"); ("type", jstr "object"); ("additionalProperties", jbool false); ("required", jarr [jstr
  "protocol_version"; jstr "evidence_bundle_id"; jstr "manifest_id"; jstr "customer_approval_ref"; jstr "customer_approval_decision";
  jstr "bundle_state"; jstr "review_scope_ref"; jstr "disclosure_policy_ref"; jstr "coverage_mode"; jstr "bundle_instance_id"; jstr "submission_attempt_id";
  jstr "created_at"; jstr "runner"; jstr "tool_versions"; jstr "artifact_references"; jstr "verification_metadata"; jstr "local_cleanup_intent"]);
  ("properties", bundle_manifest_properties)].
Definition customer_approval_properties : json :=
  jobj [("protocol_version", jobj [("$ref", jstr "urn:codeattest:protocol:v0:shared-definitions#/$defs/protocol_version")]); ("approval_id",
  jobj [("type", jstr "string"); ("pattern", jstr "^approval:[a-z0-9][a-z0-9_-]{2,63}$")]); ("manifest_id", jobj [("$ref", jstr "urn:codeattest:protocol:v0:shared-definitions#/$defs/algorithm_prefixed_sha256_id")]);
  ("decision", jobj [("type", jstr "string"); ("enum", jarr [jstr "approved"; jstr "declined"])]); ("decided_at", jobj [("$ref", jstr
  "urn:codeattest:protocol:v0:shared-definitions#/$defs/utc_rfc3339_timestamp")]); ("approving_actor", jobj [("$ref", jstr "urn:codeattest:protocol:v0:shared-definitions#/$defs/actor_reference")]);
  ("displayed_context", jobj [("type", jstr "object"); ("additionalProperties", jbool false); ("required", jarr [jstr "manifest_id";
  jstr "selected_application"; jstr "selected_commit"; jstr "repository_identity"; jstr "coverage_mode"; jstr "disclosure_policy_ref";
  jstr "disclosure_warnings"; jstr "bundle_preview_summary"]); ("properties", jobj [("manifest_id", jobj [("$ref", jstr "urn:codeattest:protocol:v0:shared-definitions#/$defs/algorithm_prefixed_sha256_id")]);
  ("selected_application", jobj [("type", jstr "object"); ("additionalProperties", jbool false); ("required", jarr [jstr "application_id";
  jstr "display_name"]); ("properties", jobj [("application_id", jobj [("$ref", jstr "urn:codeattest:protocol:v0:shared-definitions#/$defs/non_empty_string")]);
  ("display_name", jobj [("$ref", jstr "urn:codeattest:protocol:v0:shared-definitions#/$defs/non_empty_string")])])]); ("selected_commit",
  jobj [("type", jstr "object"); ("additionalProperties", jbool false); ("required", jarr [jstr "commit_sha"; jstr "source_control_system"]);
  ("properties", jobj [("commit_sha", jobj [("type", jstr "string"); ("pattern", jstr "^[a-f0-9]{40}$")]); ("source_control_system",
  jobj [("type", jstr "string"); ("enum", jarr [jstr "git"])])])]); ("repository_identity", jobj [("$ref", jstr "urn:codeattest:protocol:v0:shared-definitions#/$defs/algorithm_prefixed_sha256_id")]);
  ("coverage_mode", jobj [("$ref", jstr "urn:codeattest:protocol:v0:shared-definitions#/$defs/coverage_mode")]); ("disclosure_policy_ref",
  jobj [("$ref", jstr "urn:codeattest:protocol:v0:shared-definitions#/$defs/algorithm_prefixed_sha256_id")]); ("scanner_finding_set_ref",
  jobj [("$ref", jstr "urn:codeattest:protocol:v0:shared-definitions#/$defs/algorithm_prefixed_sha256_id")]); ("disclosure_warnings",
  jobj [("type", jstr "array"); ("maxItems", jnum 100); ("minItems", jnum 1); ("items", jobj [("$ref", jstr "urn:codeattest:protocol:v0:shared-definitions#/$defs/narrative_string")])]);
  ("bundle_preview_summary", jobj [("$ref", jstr "urn:codeattest:protocol:v0:shared-definitions#/$defs/non_empty_string")])])]); ("warnings_acknowledged",
  jobj [("type", jstr "array"); ("maxItems", jnum 100); ("items", jobj [("$ref", jstr "urn:codeattest:protocol:v0:shared-definitions#/$defs/narrative_string")])]);
  ("not_submitted_state", jobj [("type", jstr "object"); ("additionalProperties", jbool false); ("required", jarr [jstr "state"; jstr
  "evidence_bundle_created"; jstr "evidence_sent"; jstr "next_actions"]); ("properties", jobj [("state", jobj [("type", jstr "string");
  ("const", jstr "not_submitted")]); ("evidence_bundle_created", jobj [("type", jstr "boolean"); ("const", jbool false)]); ("evidence_sent",
  jobj [("type", jstr "boolean"); ("const", jbool false)]); ("next_actions", jobj [("type", jstr "array"); ("maxItems", jnum 10000);
  ("minItems", jnum 4); ("items", jobj [("type", jstr "string"); ("enum", jarr [jstr "revise policy"; jstr "rerun scan"; jstr "export manifest";
  jstr "exit"])])])])])].
Definition customer_approval_schema : json :=
  jobj [("$schema", jstr "https://json-schema.org/draft/2020-12/schema"); ("$id", jstr "urn:codeattest:protocol:v0:customer-approval");
  ("title", jstr "Customer Approval Decision"); ("type", jstr "object"); ("additionalProperties", jbool false); ("required", jarr [jstr
  "protocol_version"; jstr "approval_id"; jstr "manifest_id"; jstr "decision"; jstr "decided_at"; jstr "displayed_context"; jstr "warnings_acknowledged"]);
  ("properties", customer_approval_properties)].
Definition customer_facing_finding_record_properties_from_protocol_version : list (string * json) :=
  [("protocol_version", jobj [("$ref", jstr "urn:codeattest:protocol:v0:shared-definitions#/$defs/protocol_version")]); ("review_id",
  jobj [("type", jstr "string"); ("pattern", jstr "^review:[a-z0-9][a-z0-9_-]{2,63}$")]); ("customer_facing_finding_record_id", jobj
  [("type", jstr "string"); ("pattern", jstr "^customer_facing_finding:[a-z0-9][a-z0-9_-]{2,63}$")]); ("review_finding_draft_ref", jobj
  [("type", jstr "string"); ("pattern", jstr "^review_finding_draft:[a-z0-9][a-z0-9_-]{2,63}$")]); ("classification_record_ref", jobj
  [("type", jstr "string"); ("pattern", jstr "^classification_record:[a-z0-9][a-z0-9_-]{2,63}$")]); ("remediation_guidance_ref", jobj
  [("type", jstr "string"); ("pattern", jstr "^remediation_guidance:[a-z0-9][a-z0-9_-]{2,63}$")]); ("customer_status_record_refs", jobj
  [("type", jstr "array"); ("maxItems", jnum 10000); ("minItems", jnum 0); ("uniqueItems", jbool true); ("items", jobj [("type", jstr
  "string"); ("pattern", jstr "^customer_status:[a-z0-9][a-z0-9_-]{2,63}$")])]); ("verification_record_ref", jobj [("type", jstr "string");
  ("pattern", jstr "^verification_record:[a-z0-9][a-z0-9_-]{2,63}$")]); ("accepted_risk_record_ref", jobj [("type", jstr "string"); ("pattern",
  jstr "^accepted_risk:[a-z0-9][a-z0-9_-]{2,63}$")]); ("false_positive_record_ref", jobj [("type", jstr "string"); ("pattern", jstr "^false_positive:[a-z0-9][a-z0-9_-]{2,63}$")]);
  ("expert_classification", jobj [("type", jstr "object"); ("additionalProperties", jbool false); ("required", jarr [jstr "classification";
  jstr "classification_record_ref"; jstr "rationale_summary"; jstr "criteria_summary"; jstr "limitations"]); ("properties", jobj [("classification",
  jobj [("type", jstr "string"); ("enum", jarr [jstr "likely"; jstr "confirmed"; jstr "inconclusive"; jstr "requires_customer_side_validation"])]);
  ("classification_record_ref", jobj [("type", jstr "string"); ("pattern", jstr "^classification_record:[a-z0-9][a-z0-9_-]{2,63}$")]);
  ("rationale_summary", jobj [("$ref", jstr "urn:codeattest:protocol:v0:shared-definitions#/$defs/non_empty_string")]); ("criteria_summary",
  jobj [("$ref", jstr "urn:codeattest:protocol:v0:shared-definitions#/$defs/non_empty_string")]); ("limitations", jobj [("type", jstr
  "array"); ("maxItems", jnum 100); ("minItems", jnum 1); ("items", jobj [("$ref", jstr "urn:codeattest:protocol:v0:shared-definitions#/$defs/narrative_string")])])])])].
Definition customer_facing_finding_record_properties_from_evidence_basis : list (string * json) :=
  [("evidence_basis", jobj [("type", jstr "object"); ("additionalProperties", jbool false); ("required", jarr [jstr "evidence_refs";
  jstr "source_reference_state"; jstr "limitations"]); ("properties", jobj [("evidence_refs", jobj [("type", jstr "array"); ("maxItems",
  jnum 10000); ("minItems", jnum 1); ("uniqueItems", jbool true); ("items", jobj [("type", jstr "string"); ("pattern", jstr "^artifact_ref:[a-z0-9][a-z0-9_-]{2,63}$")])]);
  ("source_reference_state", jobj [("type", jstr "string"); ("enum", jarr [jstr "retained_review_artifact"; jstr "deleted_under_policy";
  jstr "never_collected"; jstr "not_submitted_by_policy"; jstr "unresolved_reference"])]); ("limitations", jobj [("type", jstr "array");
  ("maxItems", jnum 100); ("minItems", jnum 1); ("items", jobj [("$ref", jstr "urn:codeattest:protocol:v0:shared-definitions#/$defs/narrative_string")])])])]);
  ("reviewer_remediation_guidance", jobj [("type", jstr "object"); ("additionalProperties", jbool false); ("required", jarr [jstr "guidance_status";
  jstr "limitations"]); ("properties", jobj [("guidance_status", jobj [("type", jstr "string"); ("enum", jarr [jstr "actionable_guidance_provided";
  jstr "limited_guidance_requires_validation"; jstr "guidance_unavailable_from_submitted_evidence"])]); ("remediation_guidance_ref",
  jobj [("type", jstr "string"); ("pattern", jstr "^remediation_guidance:[a-z0-9][a-z0-9_-]{2,63}$")]); ("exploitability_rationale_summary",
  jobj [("$ref", jstr "urn:codeattest:protocol:v0:shared-definitions#/$defs/non_empty_string")]); ("suggested_remediation_summary", jobj
  [("$ref", jstr "urn:codeattest:protocol:v0:shared-definitions#/$defs/non_empty_string")]); ("validation_step_summary", jobj [("$ref",
  jstr "urn:codeattest:protocol:v0:shared-definitions#/$defs/non_empty_string")]); ("next_step_summary", jobj [("$ref", jstr "urn:codeattest:protocol:v0:shared-definitions#/$defs/non_empty_string")]);
  ("validation_path_summary", jobj [("$ref", jstr "urn:codeattest:protocol:v0:shared-definitions#/$defs/non_empty_string")]); ("validation_path_ref",
  jobj [("type", jstr "string"); ("pattern", jstr "^validation_path:[a-z0-9][a-z0-9_-]{2,63}$")]); ("insufficient_evidence_reason", jobj
  [("$ref", jstr "urn:codeattest:protocol:v0:shared-definitions#/$defs/non_empty_string")]); ("limitations", jobj [("type", jstr "array");
  ("maxItems", jnum 100); ("minItems", jnum 1); ("items", jobj [("$ref", jstr "urn:codeattest:protocol:v0:shared-definitions#/$defs/narrative_string")])])])])].
Definition customer_facing_finding_record_properties_from_customer_remediation_status : list (string * json) :=
  [("customer_remediation_status", jobj [("type", jstr "object"); ("additionalProperties", jbool false); ("required", jarr [jstr "latest_status";
  jstr "customer_notes_visible"]); ("properties", jobj [("latest_status", jobj [("type", jstr "string"); ("enum", jarr [jstr "not_started";
  jstr "planned"; jstr "in_progress"; jstr "remediated_by_customer"; jstr "validation_pending"; jstr "deferred"; jstr "not_applicable"])]);
  ("latest_status_record_ref", jobj [("type", jstr "string"); ("pattern", jstr "^customer_status:[a-z0-9][a-z0-9_-]{2,63}$")]); ("owner",
  jobj [("$ref", jstr "urn:codeattest:protocol:v0:shared-definitions#/$defs/non_empty_string")]); ("due_date", jobj [("type", jstr "string");
  ("pattern", jstr "^[0-9]{4}-[0-9]{2}-[0-9]{2}$")]); ("target_state", jobj [("$ref", jstr "urn:codeattest:protocol:v0:shared-definitions#/$defs/non_empty_string")]);
  ("customer_notes_summary", jobj [("$ref", jstr "urn:codeattest:protocol:v0:shared-definitions#/$defs/non_empty_string")]); ("customer_notes_visible",
  jobj [("type", jstr "boolean")])])]); ("verification_state", jobj [("type", jstr "object"); ("additionalProperties", jbool false);
  ("required", jarr [jstr "status"; jstr "summary"]); ("properties", jobj [("status", jobj [("type", jstr "string"); ("enum", jarr [jstr
  "not_verified"; jstr "verification_pending"; jstr "verification_complete"; jstr "requires_customer_side_validation"])]); ("verification_record_ref",
  jobj [("type", jstr "string"); ("pattern", jstr "^verification_record:[a-z0-9][a-z0-9_-]{2,63}$")]); ("summary", jobj [("$ref", jstr
  "urn:codeattest:protocol:v0:shared-definitions#/$defs/non_empty_string")])])]); ("future_outcome_visibility", jobj [("type", jstr "object");
  ("additionalProperties", jbool false); ("required", jarr [jstr "accepted_risk_visible"; jstr "false_positive_visible"]); ("properties",
  jobj [("accepted_risk_visible", jobj [("type", jstr "boolean")]); ("accepted_risk_record_ref", jobj [("type", jstr "string"); ("pattern",
  jstr "^accepted_risk:[a-z0-9][a-z0-9_-]{2,63}$")]); ("false_positive_visible", jobj [("type", jstr "boolean")]); ("false_positive_record_ref",
  jobj [("type", jstr "string"); ("pattern", jstr "^false_positive:[a-z0-9][a-z0-9_-]{2,63}$")])])])].
Definition customer_facing_finding_record_properties_from_validation_paths : list (string * json) :=
  [("validation_paths", jobj [("type", jstr "array"); ("maxItems", jnum 10000); ("items", jobj [("type", jstr "object"); ("additionalProperties",
  jbool false); ("required", jarr [jstr "validation_path_ref"; jstr "path_type"; jstr "required_evidence"; jstr "steps"; jstr "expected_result";
  jstr "limitations"; jstr "included_pass_verifiability"]); ("properties", jobj [("validation_path_ref", jobj [("type", jstr "string");
  ("pattern", jstr "^validation_path:[a-z0-9][a-z0-9_-]{2,63}$")]); ("path_type", jobj [("type", jstr "string"); ("enum", jarr [jstr
  "remote_dynamic_testing"; jstr "customer_run_script"; jstr "manual_steps"])]); ("required_evidence", jobj [("$ref", jstr "urn:codeattest:protocol:v0:shared-definitions#/$defs/non_empty_string")]);
  ("steps", jobj [("$ref", jstr "urn:codeattest:protocol:v0:shared-definitions#/$defs/non_empty_string")]); ("expected_result", jobj
  [("$ref", jstr "urn:codeattest:protocol:v0:shared-definitions#/$defs/non_empty_string")]); ("limitations", jobj [("type", jstr "array");
  ("maxItems", jnum 100); ("minItems", jnum 1); ("items", jobj [("$ref", jstr "urn:codeattest:protocol:v0:shared-definitions#/$defs/narrative_string")])]);
  ("included_pass_verifiability", jobj [("type", jstr "string"); ("enum", jarr [jstr "verifiable_within_included_pass"; jstr "customer_provided_evidence_required";
  jstr "additional_agreement_required"])]); ("reviewer_validation_script_refs", jobj [("type", jstr "array"); ("maxItems", jnum 10000);
  ("minItems", jnum 1); ("uniqueItems", jbool true); ("items", jobj [("type", jstr "string"); ("pattern", jstr "^validation_script:[a-z0-9][a-z0-9_-]{2,63}$")])]);
  ("output_attachment_instructions", jobj [("$ref", jstr "urn:codeattest:protocol:v0:shared-definitions#/$defs/non_empty_string")]);
  ("target", jobj [("$ref", jstr "urn:codeattest:protocol:v0:shared-definitions#/$defs/non_empty_string")]); ("authorization_assumption",
  jobj [("$ref", jstr "urn:codeattest:protocol:v0:shared-definitions#/$defs/non_empty_string")]); ("method", jobj [("$ref", jstr "urn:codeattest:protocol:v0:shared-definitions#/$defs/non_empty_string")]);
  ("safety_constraints", jobj [("$ref", jstr "urn:codeattest:protocol:v0:shared-definitions#/$defs/non_empty_string")]); ("evidence_artifacts_to_collect",
  jobj [("type", jstr "array"); ("maxItems", jnum 10000); ("minItems", jnum 1); ("uniqueItems", jbool true); ("items", jobj [("type",
  jstr "string"); ("pattern", jstr "^artifact_ref:[a-z0-9][a-z0-9_-]{2,63}$")])])])])])].
Definition customer_facing_finding_record_properties_from_reviewer_validation_scripts : list (string * json) :=
  [("reviewer_validation_scripts", jobj [("type", jstr "array"); ("maxItems", jnum 10000); ("items", jobj [("type", jstr "object"); ("additionalProperties",
  jbool false); ("required", jarr [jstr "validation_script_ref"; jstr "validation_path_ref"; jstr "script_package_status"; jstr "purpose";
  jstr "prerequisites"; jstr "execution_steps"; jstr "expected_output"; jstr "safety_notes"; jstr "output_attachment_instructions"; jstr
  "script_content"]); ("properties", jobj [("validation_script_ref", jobj [("type", jstr "string"); ("pattern", jstr "^validation_script:[a-z0-9][a-z0-9_-]{2,63}$")]);
  ("validation_path_ref", jobj [("type", jstr "string"); ("pattern", jstr "^validation_path:[a-z0-9][a-z0-9_-]{2,63}$")]); ("script_package_status",
  jobj [("type", jstr "string"); ("enum", jarr [jstr "included_base_package"; jstr "additional_script_candidate_pricing_tbd"])]); ("included_script_slot",
  jobj [("type", jstr "integer"); ("minimum", jnum 1); ("maximum", jnum 3)]); ("pricing_note", jobj [("$ref", jstr "urn:codeattest:protocol:v0:shared-definitions#/$defs/non_empty_string")]);
  ("purpose", jobj [("$ref", jstr "urn:codeattest:protocol:v0:shared-definitions#/$defs/non_empty_string")]); ("prerequisites", jobj
  [("$ref", jstr "urn:codeattest:protocol:v0:shared-definitions#/$defs/non_empty_string")]); ("execution_steps", jobj [("$ref", jstr
  "urn:codeattest:protocol:v0:shared-definitions#/$defs/non_empty_string")]); ("expected_output", jobj [("$ref", jstr "urn:codeattest:protocol:v0:shared-definitions#/$defs/non_empty_string")]);
  ("safety_notes", jobj [("$ref", jstr "urn:codeattest:protocol:v0:shared-definitions#/$defs/non_empty_string")]); ("output_attachment_instructions",
  jobj [("$ref", jstr "urn:codeattest:protocol:v0:shared-definitions#/$defs/non_empty_string")]); ("script_content", jobj [("$ref", jstr
  "urn:codeattest:protocol:v0:shared-definitions#/$defs/non_empty_string")])])])]); ("evidence_consumer_export", jobj [("type", jstr
  "string"); ("enum", jarr [jstr "include"; jstr "exclude"])]); ("visibility", jobj [("type", jstr "string"); ("enum", jarr [jstr "customer_facing";
  jstr "internal_only"])]); ("source_derived_class", jobj [("type", jstr "string"); ("const", jstr "retained_review_artifact")])].
Definition customer_facing_finding_record_properties_from_accepted_risk_outcome : list (string * json) :=
  [("accepted_risk_outcome", jobj [("type", jstr "object"); ("additionalProperties", jbool false); ("required", jarr [jstr "accepted_risk_record_ref";
  jstr "actor_category"; jstr "evidence_basis_summary"; jstr "evidence_refs"; jstr "customer_acceptance_summary"; jstr "limitations";
  jstr "source_reference_state"; jstr "evidence_consumer_export"]); ("properties", jobj [("accepted_risk_record_ref", jobj [("type",
  jstr "string"); ("pattern", jstr "^accepted_risk:[a-z0-9][a-z0-9_-]{2,63}$")]); ("actor_category", jobj [("type", jstr "string"); ("enum",
  jarr [jstr "customer_user"; jstr "reviewer"; jstr "vendor_service"])]); ("evidence_basis_summary", jobj [("$ref", jstr "urn:codeattest:protocol:v0:shared-definitions#/$defs/non_empty_string")]);
  ("evidence_refs", jobj [("type", jstr "array"); ("maxItems", jnum 10000); ("minItems", jnum 0); ("uniqueItems", jbool true); ("items",
  jobj [("type", jstr "string"); ("pattern", jstr "^artifact_ref:[a-z0-9][a-z0-9_-]{2,63}$")])]); ("customer_acceptance_summary", jobj
  [("$ref", jstr "urn:codeattest:protocol:v0:shared-definitions#/$defs/non_empty_string")]); ("risk_owner", jobj [("$ref", jstr "urn:codeattest:protocol:v0:shared-definitions#/$defs/non_empty_string")]);
  ("scope_of_acceptance", jobj [("$ref", jstr "urn:codeattest:protocol:v0:shared-definitions#/$defs/non_empty_string")]); ("review_by_date",
  jobj [("type", jstr "string"); ("pattern", jstr "^[0-9]{4}-[0-9]{2}-[0-9]{2}$")]); ("remediation_context_ref", jobj [("type", jstr
  "string"); ("pattern", jstr "^remediation_guidance:[a-z0-9][a-z0-9_-]{2,63}$")]); ("validation_path_ref", jobj [("type", jstr "string");
  ("pattern", jstr "^validation_path:[a-z0-9][a-z0-9_-]{2,63}$")]); ("limitations", jobj [("type", jstr "array"); ("maxItems", jnum 100);
  ("minItems", jnum 1); ("items", jobj [("$ref", jstr "urn:codeattest:protocol:v0:shared-definitions#/$defs/narrative_string")])]); ("source_reference_state",
  jobj [("type", jstr "string"); ("enum", jarr [jstr "retained_review_artifact"; jstr "deleted_under_policy"; jstr "never_collected";
  jstr "not_submitted_by_policy"; jstr "unresolved_reference"])]); ("evidence_consumer_export", jobj [("type", jstr "string"); ("enum",
  jarr [jstr "include"; jstr "exclude"])])])])].
Definition customer_facing_finding_record_properties_from_false_positive_outcome : list (string * json) :=
  [("false_positive_outcome", jobj [("type", jstr "object"); ("additionalProperties", jbool false); ("required", jarr [jstr "false_positive_record_ref";
  jstr "actor_category"; jstr "evidence_basis_summary"; jstr "evidence_refs"; jstr "rationale_summary"; jstr "limitations"; jstr "source_reference_state";
  jstr "evidence_consumer_export"]); ("properties", jobj [("false_positive_record_ref", jobj [("type", jstr "string"); ("pattern", jstr
  "^false_positive:[a-z0-9][a-z0-9_-]{2,63}$")]); ("actor_category", jobj [("type", jstr "string"); ("const", jstr "reviewer")]); ("evidence_basis_summary",
  jobj [("$ref", jstr "urn:codeattest:protocol:v0:shared-definitions#/$defs/non_empty_string")]); ("evidence_refs", jobj [("type", jstr
  "array"); ("maxItems", jnum 10000); ("minItems", jnum 0); ("uniqueItems", jbool true); ("items", jobj [("type", jstr "string"); ("pattern",
  jstr "^artifact_ref:[a-z0-9][a-z0-9_-]{2,63}$")])]); ("rationale_summary", jobj [("$ref", jstr "urn:codeattest:protocol:v0:shared-definitions#/$defs/non_empty_string")]);
  ("candidate_finding_refs", jobj [("type", jstr "array"); ("maxItems", jnum 10000); ("minItems", jnum 1); ("uniqueItems", jbool true);
  ("items", jobj [("type", jstr "string"); ("pattern", jstr "^candidate_finding:[a-z0-9][a-z0-9_-]{2,63}$")])]); ("limitations", jobj
  [("type", jstr "array"); ("maxItems", jnum 100); ("minItems", jnum 1); ("items", jobj [("$ref", jstr "urn:codeattest:protocol:v0:shared-definitions#/$defs/narrative_string")])]);
  ("source_reference_state", jobj [("type", jstr "string"); ("enum", jarr [jstr "retained_review_artifact"; jstr "deleted_under_policy";
  jstr "never_collected"; jstr "not_submitted_by_policy"; jstr "unresolved_reference"])]); ("evidence_consumer_export", jobj [("type",
  jstr "string"); ("enum", jarr [jstr "include"; jstr "exclude"])])])])].
Definition customer_facing_finding_record_properties : json :=
  jobj (customer_facing_finding_record_properties_from_protocol_version ++ customer_facing_finding_record_properties_from_evidence_basis
  ++ customer_facing_finding_record_properties_from_customer_remediation_status ++ customer_facing_finding_record_properties_from_validation_paths
  ++ customer_facing_finding_record_properties_from_reviewer_validation_scripts ++ customer_facing_finding_record_properties_from_accepted_risk_outcome
  ++ customer_facing_finding_record_properties_from_false_positive_outcome).
Definition customer_facing_finding_record_schema : json :=
  jobj [("$schema", jstr "https://json-schema.org/draft/2020-12/schema"); ("$id", jstr "urn:codeattest:protocol:v0:customer-facing-finding-record");
  ("title", jstr "Customer-Facing Finding Record"); ("type", jstr "object"); ("additionalProperties", jbool false); ("required", jarr
  [jstr "protocol_version"; jstr "review_id"; jstr "customer_facing_finding_record_id"; jstr "review_finding_draft_ref"; jstr "expert_classification";
  jstr "evidence_basis"; jstr "reviewer_remediation_guidance"; jstr "customer_remediation_status"; jstr "verification_state"; jstr "future_outcome_visibility";
  jstr "evidence_consumer_export"; jstr "visibility"; jstr "source_derived_class"]); ("properties", customer_facing_finding_record_properties)].
Definition customer_remediation_status_record_properties : json :=
  jobj [("protocol_version", jobj [("$ref", jstr "urn:codeattest:protocol:v0:shared-definitions#/$defs/protocol_version")]); ("review_id",
  jobj [("type", jstr "string"); ("pattern", jstr "^review:[a-z0-9][a-z0-9_-]{2,63}$")]); ("customer_status_record_id", jobj [("type",
  jstr "string"); ("pattern", jstr "^customer_status:[a-z0-9][a-z0-9_-]{2,63}$")]); ("finding_ref", jobj [("type", jstr "string"); ("pattern",
  jstr "^review_finding_draft:[a-z0-9][a-z0-9_-]{2,63}$")]); ("classification_record_ref", jobj [("type", jstr "string"); ("pattern",
  jstr "^classification_record:[a-z0-9][a-z0-9_-]{2,63}$")]); ("remediation_guidance_ref", jobj [("type", jstr "string"); ("pattern",
  jstr "^remediation_guidance:[a-z0-9][a-z0-9_-]{2,63}$")]); ("customer_remediation_status", jobj [("type", jstr "string"); ("enum",
  jarr [jstr "not_started"; jstr "planned"; jstr "in_progress"; jstr "remediated_by_customer"; jstr "validation_pending"; jstr "deferred";
  jstr "not_applicable"])]); ("owner", jobj [("$ref", jstr "urn:codeattest:protocol:v0:shared-definitions#/$defs/non_empty_string")]);
  ("due_date", jobj [("type", jstr "string"); ("pattern", jstr "^[0-9]{4}-[0-9]{2}-[0-9]{2}$")]); ("target_state", jobj [("$ref", jstr
  "urn:codeattest:protocol:v0:shared-definitions#/$defs/non_empty_string")]); ("customer_notes", jobj [("$ref", jstr "urn:codeattest:protocol:v0:shared-definitions#/$defs/non_empty_string")]);
  ("recorded_at", jobj [("$ref", jstr "urn:codeattest:protocol:v0:shared-definitions#/$defs/utc_rfc3339_timestamp")]); ("actor", jobj
  [("type", jstr "object"); ("additionalProperties", jbool false); ("required", jarr [jstr "actor_type"; jstr "actor_id"]); ("properties",
  jobj [("actor_type", jobj [("type", jstr "string"); ("const", jstr "customer_user")]); ("actor_id", jobj [("$ref", jstr "urn:codeattest:protocol:v0:shared-definitions#/$defs/non_empty_string")])])]);
  ("field_export_policy", jobj [("type", jstr "object"); ("additionalProperties", jbool false); ("required", jarr [jstr "owner"; jstr
  "due_date"; jstr "target_state"; jstr "customer_notes"]); ("properties", jobj [("owner", jobj [("type", jstr "string"); ("enum", jarr
  [jstr "include"; jstr "exclude"])]); ("due_date", jobj [("type", jstr "string"); ("enum", jarr [jstr "include"; jstr "exclude"])]);
  ("target_state", jobj [("type", jstr "string"); ("enum", jarr [jstr "include"; jstr "exclude"])]); ("customer_notes", jobj [("type",
  jstr "string"); ("enum", jarr [jstr "include"; jstr "exclude"])])])]); ("visibility", jobj [("type", jstr "string"); ("enum", jarr
  [jstr "customer_facing"; jstr "internal_only"])]); ("source_derived_class", jobj [("type", jstr "string"); ("const", jstr "retained_review_artifact")])].
Definition customer_remediation_status_record_schema : json :=
  jobj [("$schema", jstr "https://json-schema.org/draft/2020-12/schema"); ("$id", jstr "urn:codeattest:protocol:v0:customer-remediation-status-record");
  ("title", jstr "Customer Remediation Status Record"); ("type", jstr "object"); ("additionalProperties", jbool false); ("required",
  jarr [jstr "protocol_version"; jstr "review_id"; jstr "customer_status_record_id"; jstr "customer_remediation_status"; jstr "recorded_at";
  jstr "actor"; jstr "visibility"; jstr "source_derived_class"]); ("properties", customer_remediation_status_record_properties)].
Definition deletion_evidence_schema : json :=
  jobj [("$schema", jstr "https://json-schema.org/draft/2020-12/schema"); ("$id", jstr "urn:codeattest:protocol:v0:deletion-evidence");
  ("title", jstr "Deletion Evidence"); ("type", jstr "object"); ("additionalProperties", jbool false); ("required", jarr [jstr "protocol_version";
  jstr "deletion_evidence_id"; jstr "deleted_artifact_digests"; jstr "deletion_method"; jstr "deletion_timestamp"; jstr "actor"; jstr
  "verification_status"]); ("properties", jobj [("protocol_version", jobj [("$ref", jstr "urn:codeattest:protocol:v0:shared-definitions#/$defs/protocol_version")]);
  ("deletion_evidence_id", jobj [("type", jstr "string"); ("pattern", jstr "^deletion_evidence:[a-z0-9][a-z0-9_-]{2,63}$")]); ("deleted_artifact_digests",
  jobj [("type", jstr "array"); ("maxItems", jnum 10000); ("minItems", jnum 1); ("uniqueItems", jbool true); ("items", jobj [("$ref",
  jstr "urn:codeattest:protocol:v0:shared-definitions#/$defs/artifact_digest")])]); ("deletion_method", jobj [("type", jstr "string");
  ("enum", jarr [jstr "crypto_erase"; jstr "secure_delete"; jstr "key_destruction"; jstr "expiry_purge"])]); ("deletion_timestamp", jobj
  [("$ref", jstr "urn:codeattest:protocol:v0:shared-definitions#/$defs/utc_rfc3339_timestamp")]); ("actor", jobj [("$ref", jstr "urn:codeattest:protocol:v0:shared-definitions#/$defs/actor_reference")]);
  ("verification_status", jobj [("type", jstr "string"); ("enum", jarr [jstr "verified"; jstr "unverified"])]); ("supersedes_deletion_evidence_ref",
  jobj [("type", jstr "string"); ("pattern", jstr "^deletion_evidence:[a-z0-9][a-z0-9_-]{2,63}$")])])].
Definition disclosure_policy_allOf_from_1 : list json :=
  [jobj [("if", jobj [("properties", jobj [("include_scanner_findings", jobj [("const", jbool true)])]); ("required", jarr [jstr "include_scanner_findings"])]);
  ("then", jobj [("required", jarr [jstr "scanner_finding_set_ref"])])]; jobj [("if", jobj [("properties", jobj [("coverage_mode", jobj
  [("const", jstr "metadata_only")])]); ("required", jarr [jstr "coverage_mode"])]); ("then", jobj [("properties", jobj [("snippet_policy",
  jobj [("properties", jobj [("allow_raw_snippets", jobj [("const", jbool false)]); ("max_snippet_chars", jobj [("const", jnum 0)]);
  ("context_lines", jobj [("const", jnum 0)]); ("selection_behavior", jobj [("const", jstr "none")]); ("selected_files_or_areas", jobj
  [("maxItems", jnum 0)])])]); ("evidence_categories", jobj [("not", jobj [("contains", jobj [("type", jstr "object"); ("properties",
  jobj [("category", jobj [("enum", jarr [jstr "raw_snippets"; jstr "targeted_files"])]); ("included", jobj [("const", jbool true)])]);
  ("required", jarr [jstr "category"; jstr "included"])])])])])])]].
Definition disclosure_policy_allOf_from_3 : list json :=
  [jobj [("if", jobj [("properties", jobj [("coverage_mode", jobj [("const", jstr "finding_context_snippets")])]); ("required", jarr
  [jstr "coverage_mode"])]); ("then", jobj [("properties", jobj [("snippet_policy", jobj [("properties", jobj [("allow_raw_snippets",
  jobj [("const", jbool true)]); ("max_snippet_chars", jobj [("minimum", jnum 1)]); ("selection_behavior", jobj [("const", jstr "finding_context")]);
  ("selected_files_or_areas", jobj [("maxItems", jnum 0)])])]); ("evidence_categories", jobj [("allOf", jarr [jobj [("contains", jobj
  [("type", jstr "object"); ("properties", jobj [("category", jobj [("const", jstr "raw_snippets")]); ("included", jobj [("const", jbool
  true)])]); ("required", jarr [jstr "category"; jstr "included"])]); ("minContains", jnum 1); ("maxContains", jnum 1)]; jobj [("contains",
  jobj [("type", jstr "object"); ("properties", jobj [("category", jobj [("const", jstr "targeted_files")]); ("included", jobj [("const",
  jbool false)])]); ("required", jarr [jstr "category"; jstr "included"])]); ("minContains", jnum 1); ("maxContains", jnum 1)]])])])])]].
Definition disclosure_policy_allOf_from_4 : list json :=
  [jobj [("if", jobj [("properties", jobj [("coverage_mode", jobj [("const", jstr "extended_approved_snippets_or_targeted_files")])]);
  ("required", jarr [jstr "coverage_mode"])]); ("then", jobj [("properties", jobj [("snippet_policy", jobj [("properties", jobj [("allow_raw_snippets",
  jobj [("const", jbool true)]); ("selection_behavior", jobj [("const", jstr "extended_selected_files_or_areas")]); ("selected_files_or_areas",
  jobj [("minItems", jnum 1)])])]); ("evidence_categories", jobj [("allOf", jarr [jobj [("contains", jobj [("type", jstr "object"); ("properties",
  jobj [("category", jobj [("const", jstr "raw_snippets")]); ("included", jobj [("const", jbool true)])]); ("required", jarr [jstr "category";
  jstr "included"])]); ("minContains", jnum 1); ("maxContains", jnum 1)]; jobj [("contains", jobj [("type", jstr "object"); ("properties",
  jobj [("category", jobj [("const", jstr "targeted_files")]); ("included", jobj [("const", jbool true)])]); ("required", jarr [jstr
  "category"; jstr "included"])]); ("minContains", jnum 1); ("maxContains", jnum 1)]])])])])]].
Definition disclosure_policy_allOf : json :=
  jarr (disclosure_policy_allOf_from_1 ++ disclosure_policy_allOf_from_3 ++ disclosure_policy_allOf_from_4).
Definition disclosure_policy_properties_from_protocol_version : list (string * json) :=
  [("protocol_version", jobj [("$ref", jstr "urn:codeattest:protocol:v0:shared-definitions#/$defs/protocol_version")]); ("disclosure_policy_id",
  jobj [("$ref", jstr "urn:codeattest:protocol:v0:shared-definitions#/$defs/algorithm_prefixed_sha256_id")]); ("created_at", jobj [("$ref",
  jstr "urn:codeattest:protocol:v0:shared-definitions#/$defs/utc_rfc3339_timestamp")]); ("review_scope_ref", jobj [("$ref", jstr "urn:codeattest:protocol:v0:shared-definitions#/$defs/algorithm_prefixed_sha256_id")]);
  ("scanner_finding_set_ref", jobj [("$ref", jstr "urn:codeattest:protocol:v0:shared-definitions#/$defs/algorithm_prefixed_sha256_id")]);
  ("coverage_mode", jobj [("$ref", jstr "urn:codeattest:protocol:v0:shared-definitions#/$defs/coverage_mode")]); ("include_metadata",
  jobj [("type", jstr "boolean")]); ("include_dependency_information", jobj [("type", jstr "boolean")]); ("include_scanner_findings",
  jobj [("type", jstr "boolean")]); ("evidence_categories", jobj [("type", jstr "array"); ("maxItems", jnum 10000); ("minItems", jnum
  7); ("uniqueItems", jbool true); ("items", jobj [("type", jstr "object"); ("additionalProperties", jbool false); ("required", jarr
  [jstr "category"; jstr "included"; jstr "source_derived_class"; jstr "retention_handling"]); ("properties", jobj [("category", jobj
  [("type", jstr "string"); ("enum", jarr [jstr "metadata"; jstr "dependencies"; jstr "scanner_findings"; jstr "raw_snippets"; jstr "targeted_files";
  jstr "derived_artifacts"; jstr "never_collected_items"])]); ("included", jobj [("type", jstr "boolean")]); ("source_derived_class",
  jobj [("$ref", jstr "urn:codeattest:protocol:v0:retention-source-derived-class")]); ("retention_handling", jobj [("$ref", jstr "urn:codeattest:protocol:v0:shared-definitions#/$defs/non_empty_string")]);
  ("limitation", jobj [("$ref", jstr "urn:codeattest:protocol:v0:shared-definitions#/$defs/non_empty_string")])])])])].
Definition disclosure_policy_properties_from_snippet_policy : list (string * json) :=
  [("snippet_policy", jobj [("type", jstr "object"); ("additionalProperties", jbool false); ("required", jarr [jstr "allow_raw_snippets";
  jstr "max_snippet_chars"; jstr "context_lines"; jstr "redaction_profile"; jstr "raw_snippet_default_class"; jstr "selection_behavior";
  jstr "selected_files_or_areas"]); ("properties", jobj [("allow_raw_snippets", jobj [("type", jstr "boolean")]); ("max_snippet_chars",
  jobj [("type", jstr "integer"); ("minimum", jnum 0); ("maximum", jnum 2000)]); ("context_lines", jobj [("type", jstr "integer"); ("minimum",
  jnum 0); ("maximum", jnum 10)]); ("redaction_profile", jobj [("$ref", jstr "urn:codeattest:protocol:v0:shared-definitions#/$defs/non_empty_string")]);
  ("raw_snippet_default_class", jobj [("type", jstr "string"); ("const", jstr "transient_source_derived")]); ("selection_behavior", jobj
  [("type", jstr "string"); ("enum", jarr [jstr "none"; jstr "finding_context"; jstr "extended_selected_files_or_areas"])]); ("selected_files_or_areas",
  jobj [("type", jstr "array"); ("maxItems", jnum 10000); ("items", jobj [("$ref", jstr "urn:codeattest:protocol:v0:shared-definitions#/$defs/non_empty_string")])])])]);
  ("redaction_policy", jobj [("type", jstr "object"); ("additionalProperties", jbool false); ("required", jarr [jstr "enabled"; jstr
  "profile"; jstr "configuration_version"; jstr "limitation"]); ("properties", jobj [("enabled", jobj [("type", jstr "boolean")]); ("profile",
  jobj [("$ref", jstr "urn:codeattest:protocol:v0:shared-definitions#/$defs/non_empty_string")]); ("configuration_version", jobj [("$ref",
  jstr "urn:codeattest:protocol:v0:shared-definitions#/$defs/non_empty_string")]); ("limitation", jobj [("$ref", jstr "urn:codeattest:protocol:v0:shared-definitions#/$defs/non_empty_string")])])]);
  ("retention_policy", jobj [("type", jstr "object"); ("additionalProperties", jbool false); ("required", jarr [jstr "raw_snippet_class";
  jstr "targeted_file_class"; jstr "retain_source_opt_in"; jstr "retention_period"]); ("properties", jobj [("raw_snippet_class", jobj
  [("$ref", jstr "urn:codeattest:protocol:v0:retention-source-derived-class")]); ("targeted_file_class", jobj [("$ref", jstr "urn:codeattest:protocol:v0:retention-source-derived-class")]);
  ("retain_source_opt_in", jobj [("type", jstr "boolean")]); ("retention_period", jobj [("$ref", jstr "urn:codeattest:protocol:v0:shared-definitions#/$defs/non_empty_string")])])]);
  ("warnings", jobj [("type", jstr "array"); ("maxItems", jnum 100); ("minItems", jnum 1); ("items", jobj [("$ref", jstr "urn:codeattest:protocol:v0:shared-definitions#/$defs/narrative_string")])])].
Definition disclosure_policy_properties_from_limitations : list (string * json) :=
  [("limitations", jobj [("type", jstr "array"); ("maxItems", jnum 100); ("items", jobj [("$ref", jstr "urn:codeattest:protocol:v0:shared-definitions#/$defs/narrative_string")])]);
  ("synthetic_fixture_markers", jobj [("type", jstr "array"); ("maxItems", jnum 10000); ("items", jobj [("type", jstr "string"); ("enum",
  jarr [jstr "SYNTHETIC_DEMO_DATA"; jstr "NOT_CUSTOMER_SOURCE"])])])].
Definition disclosure_policy_properties : json :=
  jobj (disclosure_policy_properties_from_protocol_version ++ disclosure_policy_properties_from_snippet_policy ++ disclosure_policy_properties_from_limitations).
Definition disclosure_policy_schema : json :=
  jobj [("$schema", jstr "https://json-schema.org/draft/2020-12/schema"); ("$id", jstr "urn:codeattest:protocol:v0:disclosure-policy");
  ("title", jstr "Disclosure Policy"); ("type", jstr "object"); ("additionalProperties", jbool false); ("allOf", disclosure_policy_allOf);
  ("required", jarr [jstr "protocol_version"; jstr "disclosure_policy_id"; jstr "created_at"; jstr "review_scope_ref"; jstr "coverage_mode";
  jstr "include_metadata"; jstr "include_dependency_information"; jstr "include_scanner_findings"; jstr "evidence_categories"; jstr "snippet_policy";
  jstr "redaction_policy"; jstr "retention_policy"; jstr "warnings"; jstr "limitations"]); ("properties", disclosure_policy_properties)].
Definition environment_evidence_gate_allOf : json :=
  jarr [jobj [("if", jobj [("properties", jobj [("environment_profile", jobj [("const", jstr "partner_pilot_real_snippet_ready")])]);
  ("required", jarr [jstr "environment_profile"])]); ("then", jobj [("required", jarr [jstr "readiness_decision_ref"])]); ("else", jobj
  [("not", jobj [("required", jarr [jstr "readiness_decision_ref"])])])]; jobj [("if", jobj [("properties", jobj [("environment_profile",
  jobj [("const", jstr "synthetic_demo")])]); ("required", jarr [jstr "environment_profile"])]); ("then", jobj [("properties", jobj [("real_raw_snippet_acceptance",
  jobj [("const", jbool false)]); ("real_targeted_file_acceptance", jobj [("const", jbool false)]); ("evidence_boundary", jobj [("const",
  jstr "synthetic-demo-only")]); ("allowed_source_derived_classes", jobj [("not", jobj [("contains", jobj [("const", jstr "customer_opt_in_retained_source")])])])])])];
  jobj [("if", jobj [("anyOf", jarr [jobj [("properties", jobj [("real_raw_snippet_acceptance", jobj [("const", jbool true)])]); ("required",
  jarr [jstr "real_raw_snippet_acceptance"])]; jobj [("properties", jobj [("real_targeted_file_acceptance", jobj [("const", jbool true)])]);
  ("required", jarr [jstr "real_targeted_file_acceptance"])]; jobj [("properties", jobj [("allowed_source_derived_classes", jobj [("contains",
  jobj [("const", jstr "customer_opt_in_retained_source")])])])]])]); ("then", jobj [("properties", jobj [("environment_profile", jobj
  [("const", jstr "partner_pilot_real_snippet_ready")]); ("access_control_ready", jobj [("const", jbool true)]); ("access_logging_ready",
  jobj [("const", jbool true)]); ("encryption_at_rest_ready", jobj [("const", jbool true)]); ("retention_defaults_ready", jobj [("const",
  jbool true)]); ("deletion_controls_ready", jobj [("const", jbool true)]); ("demo_budget_gate_ready", jobj [("const", jbool true)]);
  ("signing_release_trust_ready", jobj [("const", jbool true)]); ("retention_period_required", jobj [("const", jbool true)]); ("allowed_source_derived_classes",
  jobj [("contains", jobj [("const", jstr "customer_opt_in_retained_source")])])])])]].
Definition environment_evidence_gate_schema : json :=
  jobj [("$schema", jstr "https://json-schema.org/draft/2020-12/schema"); ("$id", jstr "urn:codeattest:protocol:v0:environment-evidence-gate");
  ("title", jstr "Environment Evidence Gate"); ("type", jstr "object"); ("additionalProperties", jbool false); ("allOf", environment_evidence_gate_allOf);
  ("required", jarr [jstr "protocol_version"; jstr "environment_profile"; jstr "allowed_source_derived_classes"; jstr "real_raw_snippet_acceptance";
  jstr "real_targeted_file_acceptance"; jstr "access_control_ready"; jstr "access_logging_ready"; jstr "encryption_at_rest_ready"; jstr
  "retention_defaults_ready"; jstr "deletion_controls_ready"; jstr "demo_budget_gate_ready"; jstr "signing_release_trust_ready"; jstr
  "retention_period_required"; jstr "evidence_boundary"]); ("properties", jobj [("protocol_version", jobj [("$ref", jstr "urn:codeattest:protocol:v0:shared-definitions#/$defs/protocol_version")]);
  ("environment_profile", jobj [("type", jstr "string"); ("enum", jarr [jstr "synthetic_demo"; jstr "partner_pilot_candidate"; jstr "partner_pilot_real_snippet_ready"])]);
  ("allowed_source_derived_classes", jobj [("type", jstr "array"); ("maxItems", jnum 10000); ("minItems", jnum 1); ("uniqueItems", jbool
  true); ("items", jobj [("$ref", jstr "urn:codeattest:protocol:v0:retention-source-derived-class")])]); ("real_raw_snippet_acceptance",
  jobj [("type", jstr "boolean")]); ("real_targeted_file_acceptance", jobj [("type", jstr "boolean")]); ("access_control_ready", jobj
  [("type", jstr "boolean")]); ("access_logging_ready", jobj [("type", jstr "boolean")]); ("encryption_at_rest_ready", jobj [("type",
  jstr "boolean")]); ("retention_defaults_ready", jobj [("type", jstr "boolean")]); ("deletion_controls_ready", jobj [("type", jstr "boolean")]);
  ("demo_budget_gate_ready", jobj [("type", jstr "boolean")]); ("signing_release_trust_ready", jobj [("type", jstr "boolean")]); ("retention_period_required",
  jobj [("type", jstr "boolean")]); ("evidence_boundary", jobj [("$ref", jstr "urn:codeattest:protocol:v0:shared-definitions#/$defs/non_empty_string")]);
  ("readiness_decision_ref", jobj [("$ref", jstr "urn:codeattest:protocol:v0:shared-definitions#/$defs/algorithm_prefixed_sha256_id")]);
  ("notes", jobj [("type", jstr "array"); ("maxItems", jnum 100); ("items", jobj [("$ref", jstr "urn:codeattest:protocol:v0:shared-definitions#/$defs/narrative_string")])])])].
Definition environment_readiness_decision_properties_evidence_bindings : json :=
  jobj [("type", jstr "array"); ("minItems", jnum 7); ("maxItems", jnum 7); ("allOf", jarr [jobj [("contains", jobj [("properties", jobj
  [("control", jobj [("const", jstr "access_control_ready")])]); ("required", jarr [jstr "control"])]); ("minContains", jnum 1); ("maxContains",
  jnum 1)]; jobj [("contains", jobj [("properties", jobj [("control", jobj [("const", jstr "access_logging_ready")])]); ("required",
  jarr [jstr "control"])]); ("minContains", jnum 1); ("maxContains", jnum 1)]; jobj [("contains", jobj [("properties", jobj [("control",
  jobj [("const", jstr "encryption_at_rest_ready")])]); ("required", jarr [jstr "control"])]); ("minContains", jnum 1); ("maxContains",
  jnum 1)]; jobj [("contains", jobj [("properties", jobj [("control", jobj [("const", jstr "retention_defaults_ready")])]); ("required",
  jarr [jstr "control"])]); ("minContains", jnum 1); ("maxContains", jnum 1)]; jobj [("contains", jobj [("properties", jobj [("control",
  jobj [("const", jstr "deletion_controls_ready")])]); ("required", jarr [jstr "control"])]); ("minContains", jnum 1); ("maxContains",
  jnum 1)]; jobj [("contains", jobj [("properties", jobj [("control", jobj [("const", jstr "demo_budget_gate_ready")])]); ("required",
  jarr [jstr "control"])]); ("minContains", jnum 1); ("maxContains", jnum 1)]; jobj [("contains", jobj [("properties", jobj [("control",
  jobj [("const", jstr "signing_release_trust_ready")])]); ("required", jarr [jstr "control"])]); ("minContains", jnum 1); ("maxContains",
  jnum 1)]]); ("items", jobj [("type", jstr "object"); ("additionalProperties", jbool false); ("required", jarr [jstr "control"; jstr
  "readiness_evidence_ref"]); ("properties", jobj [("control", jobj [("type", jstr "string"); ("enum", jarr [jstr "access_control_ready";
  jstr "access_logging_ready"; jstr "encryption_at_rest_ready"; jstr "retention_defaults_ready"; jstr "deletion_controls_ready"; jstr
  "demo_budget_gate_ready"; jstr "signing_release_trust_ready"])]); ("readiness_evidence_ref", jobj [("$ref", jstr "urn:codeattest:protocol:v0:shared-definitions#/$defs/algorithm_prefixed_sha256_id")])])])].
Definition environment_readiness_decision_properties_from_protocol_version : list (string * json) :=
  [("protocol_version", jobj [("$ref", jstr "urn:codeattest:protocol:v0:shared-definitions#/$defs/protocol_version")]); ("readiness_decision_id",
  jobj [("$ref", jstr "urn:codeattest:protocol:v0:shared-definitions#/$defs/algorithm_prefixed_sha256_id")]); ("previous_gate_version",
  jobj [("type", jstr "integer"); ("minimum", jnum 1); ("maximum", jnum 9007199254740990)]); ("proposed_gate_version", jobj [("type",
  jstr "integer"); ("minimum", jnum 2); ("maximum", jnum 9007199254740991)]); ("proposed_gate_approval_input_digest", jobj [("$ref",
  jstr "urn:codeattest:protocol:v0:shared-definitions#/$defs/algorithm_prefixed_sha256_id")]); ("deployment_identity", jobj [("type",
  jstr "string"); ("const", jstr "pilot")]); ("release_digest", jobj [("$ref", jstr "urn:codeattest:protocol:v0:shared-definitions#/$defs/algorithm_prefixed_sha256_id")]);
  ("deployment_digest", jobj [("$ref", jstr "urn:codeattest:protocol:v0:shared-definitions#/$defs/algorithm_prefixed_sha256_id")]); ("evidence_bindings",
  environment_readiness_decision_properties_evidence_bindings); ("approvers", jobj [("type", jstr "array"); ("minItems", jnum 2); ("maxItems",
  jnum 2); ("allOf", jarr [jobj [("contains", jobj [("properties", jobj [("approval_role", jobj [("const", jstr "pilot_security_owner")])]);
  ("required", jarr [jstr "approval_role"])]); ("minContains", jnum 1); ("maxContains", jnum 1)]; jobj [("contains", jobj [("properties",
  jobj [("approval_role", jobj [("const", jstr "pilot_operations_owner")])]); ("required", jarr [jstr "approval_role"])]); ("minContains",
  jnum 1); ("maxContains", jnum 1)]]); ("items", jobj [("type", jstr "object"); ("additionalProperties", jbool false); ("required", jarr
  [jstr "approval_role"; jstr "actor"]); ("properties", jobj [("approval_role", jobj [("type", jstr "string"); ("enum", jarr [jstr "pilot_security_owner";
  jstr "pilot_operations_owner"])]); ("actor", jobj [("type", jstr "object"); ("additionalProperties", jbool false); ("required", jarr
  [jstr "actor_type"; jstr "actor_id"]); ("properties", jobj [("actor_type", jobj [("type", jstr "string"); ("const", jstr "reviewer")]);
  ("actor_id", jobj [("$ref", jstr "urn:codeattest:protocol:v0:shared-definitions#/$defs/non_empty_string")])])])])])]); ("decided_at",
  jobj [("$ref", jstr "urn:codeattest:protocol:v0:shared-definitions#/$defs/utc_rfc3339_timestamp")]); ("decision", jobj [("type", jstr
  "string"); ("enum", jarr [jstr "approved"; jstr "declined"])])].
Definition environment_readiness_decision_properties_from_limitations : list (string * json) :=
  [("limitations", jobj [("type", jstr "array"); ("minItems", jnum 1); ("maxItems", jnum 100); ("items", jobj [("$ref", jstr "urn:codeattest:protocol:v0:shared-definitions#/$defs/narrative_string")])]);
  ("decision_signature", jobj [("$ref", jstr "urn:codeattest:protocol:v0:signature-envelope")]); ("canonicalization", jobj [("type",
  jstr "string"); ("const", jstr "rfc8785")]); ("identity_hash_algorithm", jobj [("type", jstr "string"); ("const", jstr "sha256")]);
  ("identity_input_excludes", jobj [("type", jstr "array"); ("minItems", jnum 2); ("maxItems", jnum 2); ("uniqueItems", jbool true);
  ("items", jobj [("type", jstr "string"); ("enum", jarr [jstr "readiness_decision_id"; jstr "decision_signature"])])])].
Definition environment_readiness_decision_properties : json :=
  jobj (environment_readiness_decision_properties_from_protocol_version ++ environment_readiness_decision_properties_from_limitations).
Definition environment_readiness_decision_schema : json :=
  jobj [("$schema", jstr "https://json-schema.org/draft/2020-12/schema"); ("$id", jstr "urn:codeattest:protocol:v0:environment-readiness-decision");
  ("title", jstr "Environment Readiness Decision"); ("type", jstr "object"); ("additionalProperties", jbool false); ("allOf", jarr [jobj
  [("if", jobj [("properties", jobj [("decision", jobj [("const", jstr "approved")])]); ("required", jarr [jstr "decision"])]); ("then",
  jobj [("required", jarr [jstr "decision_signature"])]); ("else", jobj [("not", jobj [("required", jarr [jstr "decision_signature"])])])]]);
  ("required", jarr [jstr "protocol_version"; jstr "readiness_decision_id"; jstr "previous_gate_version"; jstr "proposed_gate_version";
  jstr "proposed_gate_approval_input_digest"; jstr "deployment_identity"; jstr "release_digest"; jstr "deployment_digest"; jstr "evidence_bindings";
  jstr "approvers"; jstr "decided_at"; jstr "decision"; jstr "limitations"; jstr "canonicalization"; jstr "identity_hash_algorithm";
  jstr "identity_input_excludes"]); ("properties", environment_readiness_decision_properties)].
Definition environment_readiness_evidence_properties : json :=
  jobj [("protocol_version", jobj [("$ref", jstr "urn:codeattest:protocol:v0:shared-definitions#/$defs/protocol_version")]); ("readiness_evidence_id",
  jobj [("$ref", jstr "urn:codeattest:protocol:v0:shared-definitions#/$defs/algorithm_prefixed_sha256_id")]); ("control", jobj [("type",
  jstr "string"); ("enum", jarr [jstr "access_control_ready"; jstr "access_logging_ready"; jstr "encryption_at_rest_ready"; jstr "retention_defaults_ready";
  jstr "deletion_controls_ready"; jstr "demo_budget_gate_ready"; jstr "signing_release_trust_ready"])]); ("deployment_identity", jobj
  [("type", jstr "string"); ("const", jstr "pilot")]); ("release_digest", jobj [("$ref", jstr "urn:codeattest:protocol:v0:shared-definitions#/$defs/algorithm_prefixed_sha256_id")]);
  ("deployment_digest", jobj [("$ref", jstr "urn:codeattest:protocol:v0:shared-definitions#/$defs/algorithm_prefixed_sha256_id")]); ("observed_at",
  jobj [("$ref", jstr "urn:codeattest:protocol:v0:shared-definitions#/$defs/utc_rfc3339_timestamp")]); ("evidence_attachments", jobj
  [("type", jstr "array"); ("minItems", jnum 1); ("maxItems", jnum 1000); ("items", jobj [("type", jstr "object"); ("additionalProperties",
  jbool false); ("required", jarr [jstr "check_id"; jstr "attachment_digest"; jstr "collected_at"]); ("properties", jobj [("check_id",
  jobj [("type", jstr "string"); ("pattern", jstr "^[a-z0-9][a-z0-9._:-]{2,127}$")]); ("attachment_digest", jobj [("$ref", jstr "urn:codeattest:protocol:v0:shared-definitions#/$defs/algorithm_prefixed_sha256_id")]);
  ("collected_at", jobj [("$ref", jstr "urn:codeattest:protocol:v0:shared-definitions#/$defs/utc_rfc3339_timestamp")])])])]); ("result",
  jobj [("type", jstr "string"); ("enum", jarr [jstr "passed"; jstr "failed"])]); ("evidence_producer", jobj [("$ref", jstr "urn:codeattest:protocol:v0:shared-definitions#/$defs/actor_reference")]);
  ("independent_reviewer", jobj [("type", jstr "object"); ("additionalProperties", jbool false); ("required", jarr [jstr "actor_type";
  jstr "actor_id"]); ("properties", jobj [("actor_type", jobj [("type", jstr "string"); ("const", jstr "reviewer")]); ("actor_id", jobj
  [("$ref", jstr "urn:codeattest:protocol:v0:shared-definitions#/$defs/non_empty_string")])])]); ("reviewed_at", jobj [("$ref", jstr
  "urn:codeattest:protocol:v0:shared-definitions#/$defs/utc_rfc3339_timestamp")]); ("limitations", jobj [("type", jstr "array"); ("minItems",
  jnum 1); ("maxItems", jnum 100); ("items", jobj [("$ref", jstr "urn:codeattest:protocol:v0:shared-definitions#/$defs/narrative_string")])]);
  ("canonicalization", jobj [("type", jstr "string"); ("const", jstr "rfc8785")]); ("identity_hash_algorithm", jobj [("type", jstr "string");
  ("const", jstr "sha256")]); ("identity_input_excludes", jobj [("type", jstr "array"); ("minItems", jnum 1); ("maxItems", jnum 1); ("uniqueItems",
  jbool true); ("items", jobj [("type", jstr "string"); ("const", jstr "readiness_evidence_id")])])].
Definition environment_readiness_evidence_schema : json :=
  jobj [("$schema", jstr "https://json-schema.org/draft/2020-12/schema"); ("$id", jstr "urn:codeattest:protocol:v0:environment-readiness-evidence");
  ("title", jstr "Environment Readiness Evidence"); ("type", jstr "object"); ("additionalProperties", jbool false); ("required", jarr
  [jstr "protocol_version"; jstr "readiness_evidence_id"; jstr "control"; jstr "deployment_identity"; jstr "release_digest"; jstr "deployment_digest";
  jstr "observed_at"; jstr "evidence_attachments"; jstr "result"; jstr "evidence_producer"; jstr "independent_reviewer"; jstr "reviewed_at";
  jstr "limitations"; jstr "canonicalization"; jstr "identity_hash_algorithm"; jstr "identity_input_excludes"]); ("properties", environment_readiness_evidence_properties)].
Definition evidence_lifecycle_event_from_schema : list (string * json) :=
  [("$schema", jstr "https://json-schema.org/draft/2020-12/schema"); ("$id", jstr "urn:codeattest:protocol:v0:evidence-lifecycle-event");
  ("title", jstr "Evidence Lifecycle Event"); ("type", jstr "object"); ("additionalProperties", jbool false); ("allOf", jarr [jobj [("if",
  jobj [("properties", jobj [("event_type", jobj [("const", jstr "evidence_deleted")])]); ("required", jarr [jstr "event_type"])]); ("then",
  jobj [("required", jarr [jstr "deletion_evidence_ref"; jstr "source_derived_class"])])]; jobj [("if", jobj [("properties", jobj [("event_type",
  jobj [("const", jstr "evidence_accessed")])]); ("required", jarr [jstr "event_type"])]); ("then", jobj [("required", jarr [jstr "access_scope";
  jstr "source_derived_class"])])]; jobj [("if", jobj [("properties", jobj [("event_type", jobj [("const", jstr "retention_status_changed")])]);
  ("required", jarr [jstr "event_type"])]); ("then", jobj [("required", jarr [jstr "source_derived_class"])])]]); ("required", jarr [jstr
  "protocol_version"; jstr "event_id"; jstr "review_id"; jstr "sequence_number"; jstr "idempotency_key"; jstr "event_type"; jstr "actor";
  jstr "event_timestamp"; jstr "artifact_refs"])].
Definition evidence_lifecycle_event_from_properties : list (string * json) :=
  [("properties", jobj [("protocol_version", jobj [("$ref", jstr "urn:codeattest:protocol:v0:shared-definitions#/$defs/protocol_version")]);
  ("event_id", jobj [("type", jstr "string"); ("pattern", jstr "^evidence_event:[a-z0-9][a-z0-9_-]{2,63}$")]); ("review_id", jobj [("type",
  jstr "string"); ("pattern", jstr "^review:[a-z0-9][a-z0-9_-]{2,63}$")]); ("sequence_number", jobj [("type", jstr "integer"); ("minimum",
  jnum 0)]); ("idempotency_key", jobj [("$ref", jstr "urn:codeattest:protocol:v0:shared-definitions#/$defs/non_empty_string")]); ("event_type",
  jobj [("type", jstr "string"); ("enum", jarr [jstr "evidence_accessed"; jstr "evidence_deleted"; jstr "retention_status_changed"])]);
  ("actor", jobj [("$ref", jstr "urn:codeattest:protocol:v0:shared-definitions#/$defs/actor_reference")]); ("event_timestamp", jobj [("$ref",
  jstr "urn:codeattest:protocol:v0:shared-definitions#/$defs/utc_rfc3339_timestamp")]); ("artifact_refs", jobj [("type", jstr "array");
  ("maxItems", jnum 10000); ("minItems", jnum 1); ("uniqueItems", jbool true); ("items", jobj [("type", jstr "string"); ("pattern", jstr
  "^artifact_ref:[a-z0-9][a-z0-9_-]{2,63}$")])]); ("source_derived_class", jobj [("$ref", jstr "urn:codeattest:protocol:v0:retention-source-derived-class")]);
  ("purpose", jobj [("$ref", jstr "urn:codeattest:protocol:v0:shared-definitions#/$defs/non_empty_string")]); ("access_scope", jobj [("type",
  jstr "object"); ("additionalProperties", jbool false); ("required", jarr [jstr "tenant_id"; jstr "review_scope"]); ("properties", jobj
  [("tenant_id", jobj [("$ref", jstr "urn:codeattest:protocol:v0:shared-definitions#/$defs/non_empty_string")]); ("review_scope", jobj
  [("type", jstr "string"); ("pattern", jstr "^review:[a-z0-9][a-z0-9_-]{2,63}$")])])]); ("deletion_evidence_ref", jobj [("type", jstr
  "string"); ("pattern", jstr "^deletion_evidence:[a-z0-9][a-z0-9_-]{2,63}$")]); ("retention_record_ref", jobj [("type", jstr "string");
  ("pattern", jstr "^retention_record:[a-z0-9][a-z0-9_-]{2,63}$")]); ("supersedes_event_id", jobj [("type", jstr "string"); ("pattern",
  jstr "^evidence_event:[a-z0-9][a-z0-9_-]{2,63}$")])])].
Definition evidence_lifecycle_event_schema : json :=
  jobj (evidence_lifecycle_event_from_schema ++ evidence_lifecycle_event_from_properties).
Definition evidence_minimization_projection_properties_entries_items : json :=
  jobj [("type", jstr "object"); ("additionalProperties", jbool false); ("allOf", jarr [jobj [("if", jobj [("properties", jobj [("minimization_category",
  jobj [("const", jstr "deleted_transient")])]); ("required", jarr [jstr "minimization_category"])]); ("then", jobj [("required", jarr
  [jstr "deletion_evidence_ref"]); ("properties", jobj [("source_derived_class", jobj [("const", jstr "transient_source_derived")])])])];
  jobj [("if", jobj [("properties", jobj [("minimization_category", jobj [("const", jstr "retained_customer_opt_in_snippet")])]); ("required",
  jarr [jstr "minimization_category"])]); ("then", jobj [("properties", jobj [("source_derived_class", jobj [("const", jstr "customer_opt_in_retained_source")])])])];
  jobj [("if", jobj [("properties", jobj [("minimization_category", jobj [("const", jstr "never_collected")])]); ("required", jarr [jstr
  "minimization_category"])]); ("then", jobj [("properties", jobj [("source_derived_class", jobj [("const", jstr "never_collected")])])])];
  jobj [("if", jobj [("properties", jobj [("minimization_category", jobj [("enum", jarr [jstr "retained_finding"; jstr "retained_metadata";
  jstr "retained_attestation"])])]); ("required", jarr [jstr "minimization_category"])]); ("then", jobj [("properties", jobj [("source_derived_class",
  jobj [("const", jstr "retained_review_artifact")])])])]]); ("required", jarr [jstr "artifact_ref"; jstr "minimization_category"; jstr
  "source_derived_class"]); ("properties", jobj [("artifact_ref", jobj [("type", jstr "string"); ("pattern", jstr "^artifact_ref:[a-z0-9][a-z0-9_-]{2,63}$")]);
  ("minimization_category", jobj [("type", jstr "string"); ("enum", jarr [jstr "retained_finding"; jstr "retained_metadata"; jstr "retained_attestation";
  jstr "retained_customer_opt_in_snippet"; jstr "deleted_transient"; jstr "never_collected"])]); ("source_derived_class", jobj [("$ref",
  jstr "urn:codeattest:protocol:v0:retention-source-derived-class")]); ("deletion_evidence_ref", jobj [("type", jstr "string"); ("pattern",
  jstr "^deletion_evidence:[a-z0-9][a-z0-9_-]{2,63}$")])])].
Definition evidence_minimization_projection_properties_entries : json :=
  jobj [("type", jstr "array"); ("maxItems", jnum 10000); ("minItems", jnum 1); ("items", evidence_minimization_projection_properties_entries_items)].
Definition evidence_minimization_projection_properties : json :=
  jobj [("protocol_version", jobj [("$ref", jstr "urn:codeattest:protocol:v0:shared-definitions#/$defs/protocol_version")]); ("review_id",
  jobj [("type", jstr "string"); ("pattern", jstr "^review:[a-z0-9][a-z0-9_-]{2,63}$")]); ("entries", evidence_minimization_projection_properties_entries)].
Definition evidence_minimization_projection_schema : json :=
  jobj [("$schema", jstr "https://json-schema.org/draft/2020-12/schema"); ("$id", jstr "urn:codeattest:protocol:v0:evidence-minimization-projection");
  ("title", jstr "Evidence Minimization Projection"); ("type", jstr "object"); ("additionalProperties", jbool false); ("required", jarr
  [jstr "protocol_version"; jstr "review_id"; jstr "entries"]); ("properties", evidence_minimization_projection_properties)].
Definition false_positive_record_properties_from_protocol_version : list (string * json) :=
  [("protocol_version", jobj [("$ref", jstr "urn:codeattest:protocol:v0:shared-definitions#/$defs/protocol_version")]); ("review_id",
  jobj [("type", jstr "string"); ("pattern", jstr "^review:[a-z0-9][a-z0-9_-]{2,63}$")]); ("false_positive_record_id", jobj [("type",
  jstr "string"); ("pattern", jstr "^false_positive:[a-z0-9][a-z0-9_-]{2,63}$")]); ("review_finding_draft_ref", jobj [("type", jstr "string");
  ("pattern", jstr "^review_finding_draft:[a-z0-9][a-z0-9_-]{2,63}$")]); ("classification_record_ref", jobj [("type", jstr "string");
  ("pattern", jstr "^classification_record:[a-z0-9][a-z0-9_-]{2,63}$")]); ("candidate_finding_refs", jobj [("type", jstr "array"); ("maxItems",
  jnum 10000); ("minItems", jnum 1); ("uniqueItems", jbool true); ("items", jobj [("type", jstr "string"); ("pattern", jstr "^candidate_finding:[a-z0-9][a-z0-9_-]{2,63}$")])]);
  ("review_finding_draft_evidence_refs", jobj [("type", jstr "array"); ("maxItems", jnum 10000); ("minItems", jnum 1); ("items", jobj
  [("type", jstr "object"); ("additionalProperties", jbool false); ("required", jarr [jstr "artifact_ref"; jstr "availability_state";
  jstr "available_for_review"; jstr "display_state"; jstr "source_derived_class"]); ("properties", jobj [("artifact_ref", jobj [("type",
  jstr "string"); ("pattern", jstr "^artifact_ref:[a-z0-9][a-z0-9_-]{2,63}$")]); ("availability_state", jobj [("type", jstr "string");
  ("enum", jarr [jstr "retained_review_artifact"; jstr "deleted_under_policy"; jstr "never_collected"; jstr "not_submitted_by_policy";
  jstr "unresolved_reference"])]); ("available_for_review", jobj [("type", jstr "boolean")]); ("display_state", jobj [("type", jstr "string");
  ("enum", jarr [jstr "available_reference"; jstr "deleted"; jstr "not_collected"; jstr "not_submitted"; jstr "unresolved_reference"])]);
  ("deletion_evidence_ref", jobj [("type", jstr "string"); ("pattern", jstr "^deletion_evidence:[a-z0-9][a-z0-9_-]{2,63}$")]); ("source_derived_class",
  jobj [("$ref", jstr "urn:codeattest:protocol:v0:retention-source-derived-class")])])])]); ("evidence_basis", jobj [("type", jstr "array");
  ("minItems", jnum 1); ("uniqueItems", jbool true); ("items", jobj [("type", jstr "string"); ("enum", jarr [jstr "scanner_output"; jstr
  "metadata_only"; jstr "finding_context_snippet"; jstr "extended_approved_source_context"; jstr "retained_review_artifact"; jstr "deleted_under_policy_reference";
  jstr "not_submitted_by_policy_reference"; jstr "never_collected_reference"; jstr "unresolved_reference"])])]); ("rationale", jobj [("$ref",
  jstr "urn:codeattest:protocol:v0:shared-definitions#/$defs/non_empty_string")])].
Definition false_positive_record_properties_from_limitations : list (string * json) :=
  [("limitations", jobj [("type", jstr "array"); ("maxItems", jnum 100); ("minItems", jnum 1); ("items", jobj [("$ref", jstr "urn:codeattest:protocol:v0:shared-definitions#/$defs/narrative_string")])]);
  ("recorded_at", jobj [("$ref", jstr "urn:codeattest:protocol:v0:shared-definitions#/$defs/utc_rfc3339_timestamp")]); ("actor", jobj
  [("type", jstr "object"); ("additionalProperties", jbool false); ("required", jarr [jstr "actor_type"; jstr "actor_id"]); ("properties",
  jobj [("actor_type", jobj [("type", jstr "string"); ("const", jstr "reviewer")]); ("actor_id", jobj [("$ref", jstr "urn:codeattest:protocol:v0:shared-definitions#/$defs/non_empty_string")])])]);
  ("source_reference_state", jobj [("type", jstr "string"); ("enum", jarr [jstr "retained_review_artifact"; jstr "deleted_under_policy";
  jstr "never_collected"; jstr "not_submitted_by_policy"; jstr "unresolved_reference"])]); ("source_derived_class", jobj [("type", jstr
  "string"); ("const", jstr "retained_review_artifact")]); ("visibility", jobj [("type", jstr "string"); ("enum", jarr [jstr "customer_facing";
  jstr "internal_only"])]); ("field_export_policy", jobj [("type", jstr "object"); ("additionalProperties", jbool false); ("required",
  jarr [jstr "rationale"; jstr "limitations"; jstr "evidence_basis"; jstr "candidate_finding_refs"; jstr "evidence_consumer_export"]);
  ("properties", jobj [("rationale", jobj [("type", jstr "string"); ("enum", jarr [jstr "include"; jstr "exclude"])]); ("limitations",
  jobj [("type", jstr "string"); ("enum", jarr [jstr "include"; jstr "exclude"])]); ("evidence_basis", jobj [("type", jstr "string");
  ("enum", jarr [jstr "include"; jstr "exclude"])]); ("candidate_finding_refs", jobj [("type", jstr "string"); ("enum", jarr [jstr "include";
  jstr "exclude"])]); ("evidence_consumer_export", jobj [("type", jstr "string"); ("enum", jarr [jstr "include"; jstr "exclude"])])])])].
Definition false_positive_record_properties : json :=
  jobj (false_positive_record_properties_from_protocol_version ++ false_positive_record_properties_from_limitations).
Definition false_positive_record_schema : json :=
  jobj [("$schema", jstr "https://json-schema.org/draft/2020-12/schema"); ("$id", jstr "urn:codeattest:protocol:v0:false-positive-record");
  ("title", jstr "False Positive Record"); ("type", jstr "object"); ("additionalProperties", jbool false); ("required", jarr [jstr "protocol_version";
  jstr "review_id"; jstr "false_positive_record_id"; jstr "review_finding_draft_ref"; jstr "classification_record_ref"; jstr "review_finding_draft_evidence_refs";
  jstr "evidence_basis"; jstr "rationale"; jstr "limitations"; jstr "recorded_at"; jstr "actor"; jstr "source_reference_state"; jstr
  "source_derived_class"; jstr "visibility"]); ("properties", false_positive_record_properties)].
Definition finding_classification_record_properties_from_protocol_version : list (string * json) :=
  [("protocol_version", jobj [("$ref", jstr "urn:codeattest:protocol:v0:shared-definitions#/$defs/protocol_version")]); ("review_id",
  jobj [("type", jstr "string"); ("pattern", jstr "^review:[a-z0-9][a-z0-9_-]{2,63}$")]); ("classification_record_id", jobj [("type",
  jstr "string"); ("pattern", jstr "^classification_record:[a-z0-9][a-z0-9_-]{2,63}$")]); ("review_finding_draft_ref", jobj [("type",
  jstr "string"); ("pattern", jstr "^review_finding_draft:[a-z0-9][a-z0-9_-]{2,63}$")]); ("review_finding_draft_evidence_refs", jobj
  [("type", jstr "array"); ("maxItems", jnum 10000); ("minItems", jnum 1); ("items", jobj [("type", jstr "object"); ("additionalProperties",
  jbool false); ("required", jarr [jstr "artifact_ref"; jstr "availability_state"; jstr "available_for_review"; jstr "display_state";
  jstr "source_derived_class"]); ("properties", jobj [("artifact_ref", jobj [("type", jstr "string"); ("pattern", jstr "^artifact_ref:[a-z0-9][a-z0-9_-]{2,63}$")]);
  ("availability_state", jobj [("type", jstr "string"); ("enum", jarr [jstr "retained_review_artifact"; jstr "deleted_under_policy";
  jstr "never_collected"; jstr "not_submitted_by_policy"; jstr "unresolved_reference"])]); ("available_for_review", jobj [("type", jstr
  "boolean")]); ("display_state", jobj [("type", jstr "string"); ("enum", jarr [jstr "available_reference"; jstr "deleted"; jstr "not_collected";
  jstr "not_submitted"; jstr "unresolved_reference"])]); ("deletion_evidence_ref", jobj [("type", jstr "string"); ("pattern", jstr "^deletion_evidence:[a-z0-9][a-z0-9_-]{2,63}$")]);
  ("source_derived_class", jobj [("$ref", jstr "urn:codeattest:protocol:v0:retention-source-derived-class")])])])]); ("classification",
  jobj [("type", jstr "string"); ("enum", jarr [jstr "likely"; jstr "confirmed"; jstr "inconclusive"; jstr "requires_customer_side_validation"])]);
  ("classified_at", jobj [("$ref", jstr "urn:codeattest:protocol:v0:shared-definitions#/$defs/utc_rfc3339_timestamp")]); ("actor", jobj
  [("type", jstr "object"); ("additionalProperties", jbool false); ("required", jarr [jstr "actor_type"; jstr "actor_id"]); ("properties",
  jobj [("actor_type", jobj [("type", jstr "string"); ("const", jstr "reviewer")]); ("actor_id", jobj [("$ref", jstr "urn:codeattest:protocol:v0:shared-definitions#/$defs/non_empty_string")])])])].
Definition finding_classification_record_properties_from_evidence_basis : list (string * json) :=
  [("evidence_basis", jobj [("type", jstr "array"); ("minItems", jnum 1); ("uniqueItems", jbool true); ("items", jobj [("type", jstr
  "string"); ("enum", jarr [jstr "scanner_output"; jstr "metadata_only"; jstr "finding_context_snippet"; jstr "extended_approved_source_context";
  jstr "retained_review_artifact"; jstr "deleted_under_policy_reference"; jstr "not_submitted_by_policy_reference"; jstr "never_collected_reference";
  jstr "unresolved_reference"])])]); ("confirmation_criteria", jobj [("type", jstr "array"); ("maxItems", jnum 100); ("items", jobj [("$ref",
  jstr "urn:codeattest:protocol:v0:shared-definitions#/$defs/narrative_string")])]); ("defensible_confirmation_criteria", jobj [("$ref",
  jstr "urn:codeattest:protocol:v0:shared-definitions#/$defs/non_empty_string")]); ("threshold_gaps", jobj [("type", jstr "array"); ("maxItems",
  jnum 100); ("items", jobj [("$ref", jstr "urn:codeattest:protocol:v0:shared-definitions#/$defs/narrative_string")])]); ("limitations",
  jobj [("type", jstr "array"); ("maxItems", jnum 100); ("minItems", jnum 1); ("items", jobj [("$ref", jstr "urn:codeattest:protocol:v0:shared-definitions#/$defs/narrative_string")])]);
  ("rationale", jobj [("$ref", jstr "urn:codeattest:protocol:v0:shared-definitions#/$defs/non_empty_string")]); ("validation_path_summary",
  jobj [("$ref", jstr "urn:codeattest:protocol:v0:shared-definitions#/$defs/non_empty_string")]); ("validation_path_ref", jobj [("type",
  jstr "string"); ("pattern", jstr "^validation_path:[a-z0-9][a-z0-9_-]{2,63}$")]); ("supersedes_classification_record_ref", jobj [("type",
  jstr "string"); ("pattern", jstr "^classification_record:[a-z0-9][a-z0-9_-]{2,63}$")]); ("supersedes_event_id", jobj [("$ref", jstr
  "urn:codeattest:protocol:v0:shared-definitions#/$defs/algorithm_prefixed_sha256_id")]); ("source_reference_state", jobj [("type", jstr
  "string"); ("enum", jarr [jstr "retained_review_artifact"; jstr "deleted_under_policy"; jstr "never_collected"; jstr "not_submitted_by_policy";
  jstr "unresolved_reference"])]); ("source_derived_class", jobj [("type", jstr "string"); ("const", jstr "retained_review_artifact")]);
  ("visibility", jobj [("type", jstr "string"); ("enum", jarr [jstr "customer_facing"; jstr "internal_only"])])].
Definition finding_classification_record_properties : json :=
  jobj (finding_classification_record_properties_from_protocol_version ++ finding_classification_record_properties_from_evidence_basis).
Definition finding_classification_record_schema : json :=
  jobj [("$schema", jstr "https://json-schema.org/draft/2020-12/schema"); ("$id", jstr "urn:codeattest:protocol:v0:finding-classification-record");
  ("title", jstr "Finding Classification Record"); ("type", jstr "object"); ("additionalProperties", jbool false); ("required", jarr
  [jstr "protocol_version"; jstr "review_id"; jstr "classification_record_id"; jstr "review_finding_draft_ref"; jstr "review_finding_draft_evidence_refs";
  jstr "classification"; jstr "classified_at"; jstr "actor"; jstr "evidence_basis"; jstr "confirmation_criteria"; jstr "threshold_gaps";
  jstr "limitations"; jstr "rationale"; jstr "source_reference_state"; jstr "source_derived_class"; jstr "visibility"]); ("properties",
  finding_classification_record_properties); ("allOf", jarr [jobj [("if", jobj [("required", jarr [jstr "classification"]); ("properties",
  jobj [("classification", jobj [("const", jstr "confirmed")])])]); ("then", jobj [("properties", jobj [("confirmation_criteria", jobj
  [("type", jstr "array"); ("maxItems", jnum 10000); ("minItems", jnum 1)])])])]])].
Definition finding_remediation_guidance_properties_from_protocol_version : list (string * json) :=
  [("protocol_version", jobj [("$ref", jstr "urn:codeattest:protocol:v0:shared-definitions#/$defs/protocol_version")]); ("review_id",
  jobj [("type", jstr "string"); ("pattern", jstr "^review:[a-z0-9][a-z0-9_-]{2,63}$")]); ("remediation_guidance_id", jobj [("type",
  jstr "string"); ("pattern", jstr "^remediation_guidance:[a-z0-9][a-z0-9_-]{2,63}$")]); ("classification_record_ref", jobj [("type",
  jstr "string"); ("pattern", jstr "^classification_record:[a-z0-9][a-z0-9_-]{2,63}$")]); ("review_finding_draft_ref", jobj [("type",
  jstr "string"); ("pattern", jstr "^review_finding_draft:[a-z0-9][a-z0-9_-]{2,63}$")]); ("review_finding_draft_evidence_refs", jobj
  [("type", jstr "array"); ("maxItems", jnum 10000); ("minItems", jnum 1); ("items", jobj [("type", jstr "object"); ("additionalProperties",
  jbool false); ("required", jarr [jstr "artifact_ref"; jstr "availability_state"; jstr "available_for_review"; jstr "display_state";
  jstr "source_derived_class"]); ("properties", jobj [("artifact_ref", jobj [("type", jstr "string"); ("pattern", jstr "^artifact_ref:[a-z0-9][a-z0-9_-]{2,63}$")]);
  ("availability_state", jobj [("type", jstr "string"); ("enum", jarr [jstr "retained_review_artifact"; jstr "deleted_under_policy";
  jstr "never_collected"; jstr "not_submitted_by_policy"; jstr "unresolved_reference"])]); ("available_for_review", jobj [("type", jstr
  "boolean")]); ("display_state", jobj [("type", jstr "string"); ("enum", jarr [jstr "available_reference"; jstr "deleted"; jstr "not_collected";
  jstr "not_submitted"; jstr "unresolved_reference"])]); ("deletion_evidence_ref", jobj [("type", jstr "string"); ("pattern", jstr "^deletion_evidence:[a-z0-9][a-z0-9_-]{2,63}$")]);
  ("source_derived_class", jobj [("$ref", jstr "urn:codeattest:protocol:v0:retention-source-derived-class")])])])]); ("guidance_status",
  jobj [("type", jstr "string"); ("enum", jarr [jstr "actionable_guidance_provided"; jstr "limited_guidance_requires_validation"; jstr
  "guidance_unavailable_from_submitted_evidence"])]); ("authored_at", jobj [("$ref", jstr "urn:codeattest:protocol:v0:shared-definitions#/$defs/utc_rfc3339_timestamp")]);
  ("actor", jobj [("type", jstr "object"); ("additionalProperties", jbool false); ("required", jarr [jstr "actor_type"; jstr "actor_id"]);
  ("properties", jobj [("actor_type", jobj [("type", jstr "string"); ("const", jstr "reviewer")]); ("actor_id", jobj [("$ref", jstr "urn:codeattest:protocol:v0:shared-definitions#/$defs/non_empty_string")])])])].
Definition finding_remediation_guidance_properties_from_classification_context : list (string * json) :=
  [("classification_context", jobj [("type", jstr "object"); ("additionalProperties", jbool false); ("required", jarr [jstr "classification";
  jstr "confirmation_criteria"; jstr "evidence_basis"; jstr "source_reference_state"]); ("properties", jobj [("classification", jobj
  [("type", jstr "string"); ("enum", jarr [jstr "likely"; jstr "confirmed"; jstr "inconclusive"; jstr "requires_customer_side_validation"])]);
  ("confirmation_criteria", jobj [("type", jstr "array"); ("maxItems", jnum 100); ("items", jobj [("$ref", jstr "urn:codeattest:protocol:v0:shared-definitions#/$defs/narrative_string")])]);
  ("evidence_basis", jobj [("type", jstr "array"); ("minItems", jnum 1); ("uniqueItems", jbool true); ("items", jobj [("type", jstr "string");
  ("enum", jarr [jstr "scanner_output"; jstr "metadata_only"; jstr "finding_context_snippet"; jstr "extended_approved_source_context";
  jstr "retained_review_artifact"; jstr "deleted_under_policy_reference"; jstr "not_submitted_by_policy_reference"; jstr "never_collected_reference";
  jstr "unresolved_reference"])])]); ("source_reference_state", jobj [("type", jstr "string"); ("enum", jarr [jstr "retained_review_artifact";
  jstr "deleted_under_policy"; jstr "never_collected"; jstr "not_submitted_by_policy"; jstr "unresolved_reference"])])])]); ("exploitability_rationale",
  jobj [("$ref", jstr "urn:codeattest:protocol:v0:shared-definitions#/$defs/non_empty_string")]); ("suggested_remediation", jobj [("$ref",
  jstr "urn:codeattest:protocol:v0:shared-definitions#/$defs/non_empty_string")]); ("validation_steps", jobj [("$ref", jstr "urn:codeattest:protocol:v0:shared-definitions#/$defs/non_empty_string")]);
  ("insufficient_evidence_reason", jobj [("$ref", jstr "urn:codeattest:protocol:v0:shared-definitions#/$defs/non_empty_string")]); ("next_step_summary",
  jobj [("$ref", jstr "urn:codeattest:protocol:v0:shared-definitions#/$defs/non_empty_string")]); ("validation_path_summary", jobj [("$ref",
  jstr "urn:codeattest:protocol:v0:shared-definitions#/$defs/non_empty_string")]); ("validation_path_ref", jobj [("type", jstr "string");
  ("pattern", jstr "^validation_path:[a-z0-9][a-z0-9_-]{2,63}$")]); ("limitations", jobj [("type", jstr "array"); ("maxItems", jnum 100);
  ("minItems", jnum 1); ("items", jobj [("$ref", jstr "urn:codeattest:protocol:v0:shared-definitions#/$defs/narrative_string")])]); ("evidence_refs",
  jobj [("type", jstr "array"); ("maxItems", jnum 10000); ("minItems", jnum 1); ("uniqueItems", jbool true); ("items", jobj [("type",
  jstr "string"); ("pattern", jstr "^artifact_ref:[a-z0-9][a-z0-9_-]{2,63}$")])]); ("source_reference_state", jobj [("type", jstr "string");
  ("enum", jarr [jstr "retained_review_artifact"; jstr "deleted_under_policy"; jstr "never_collected"; jstr "not_submitted_by_policy";
  jstr "unresolved_reference"])])].
Definition finding_remediation_guidance_properties_from_source_derived_class : list (string * json) :=
  [("source_derived_class", jobj [("type", jstr "string"); ("const", jstr "retained_review_artifact")]); ("visibility", jobj [("type",
  jstr "string"); ("enum", jarr [jstr "customer_facing"; jstr "internal_only"])])].
Definition finding_remediation_guidance_properties : json :=
  jobj (finding_remediation_guidance_properties_from_protocol_version ++ finding_remediation_guidance_properties_from_classification_context
  ++ finding_remediation_guidance_properties_from_source_derived_class).
Definition finding_remediation_guidance_schema : json :=
  jobj [("$schema", jstr "https://json-schema.org/draft/2020-12/schema"); ("$id", jstr "urn:codeattest:protocol:v0:finding-remediation-guidance");
  ("title", jstr "Finding Remediation Guidance"); ("type", jstr "object"); ("additionalProperties", jbool false); ("required", jarr [jstr
  "protocol_version"; jstr "review_id"; jstr "remediation_guidance_id"; jstr "classification_record_ref"; jstr "review_finding_draft_ref";
  jstr "review_finding_draft_evidence_refs"; jstr "guidance_status"; jstr "authored_at"; jstr "actor"; jstr "classification_context";
  jstr "limitations"; jstr "evidence_refs"; jstr "source_reference_state"; jstr "source_derived_class"; jstr "visibility"]); ("properties",
  finding_remediation_guidance_properties)].
Definition finding_validation_path_properties_from_protocol_version : list (string * json) :=
  [("protocol_version", jobj [("$ref", jstr "urn:codeattest:protocol:v0:shared-definitions#/$defs/protocol_version")]); ("review_id",
  jobj [("type", jstr "string"); ("pattern", jstr "^review:[a-z0-9][a-z0-9_-]{2,63}$")]); ("validation_path_id", jobj [("type", jstr
  "string"); ("pattern", jstr "^validation_path:[a-z0-9][a-z0-9_-]{2,63}$")]); ("classification_record_ref", jobj [("type", jstr "string");
  ("pattern", jstr "^classification_record:[a-z0-9][a-z0-9_-]{2,63}$")]); ("review_finding_draft_ref", jobj [("type", jstr "string");
  ("pattern", jstr "^review_finding_draft:[a-z0-9][a-z0-9_-]{2,63}$")]); ("review_finding_draft_evidence_refs", jobj [("type", jstr "array");
  ("maxItems", jnum 10000); ("minItems", jnum 1); ("items", jobj [("type", jstr "object"); ("additionalProperties", jbool false); ("required",
  jarr [jstr "artifact_ref"; jstr "availability_state"; jstr "available_for_review"; jstr "display_state"; jstr "source_derived_class"]);
  ("properties", jobj [("artifact_ref", jobj [("type", jstr "string"); ("pattern", jstr "^artifact_ref:[a-z0-9][a-z0-9_-]{2,63}$")]);
  ("availability_state", jobj [("type", jstr "string"); ("enum", jarr [jstr "retained_review_artifact"; jstr "deleted_under_policy";
  jstr "never_collected"; jstr "not_submitted_by_policy"; jstr "unresolved_reference"])]); ("available_for_review", jobj [("type", jstr
  "boolean")]); ("display_state", jobj [("type", jstr "string"); ("enum", jarr [jstr "available_reference"; jstr "deleted"; jstr "not_collected";
  jstr "not_submitted"; jstr "unresolved_reference"])]); ("deletion_evidence_ref", jobj [("type", jstr "string"); ("pattern", jstr "^deletion_evidence:[a-z0-9][a-z0-9_-]{2,63}$")]);
  ("source_derived_class", jobj [("$ref", jstr "urn:codeattest:protocol:v0:retention-source-derived-class")])])])]); ("remediation_guidance_ref",
  jobj [("type", jstr "string"); ("pattern", jstr "^remediation_guidance:[a-z0-9][a-z0-9_-]{2,63}$")]); ("path_type", jobj [("type",
  jstr "string"); ("enum", jarr [jstr "remote_dynamic_testing"; jstr "customer_run_script"; jstr "manual_steps"])]); ("required_evidence",
  jobj [("$ref", jstr "urn:codeattest:protocol:v0:shared-definitions#/$defs/non_empty_string")]); ("steps", jobj [("$ref", jstr "urn:codeattest:protocol:v0:shared-definitions#/$defs/non_empty_string")]);
  ("expected_result", jobj [("$ref", jstr "urn:codeattest:protocol:v0:shared-definitions#/$defs/non_empty_string")]); ("limitations",
  jobj [("type", jstr "array"); ("maxItems", jnum 100); ("minItems", jnum 1); ("items", jobj [("$ref", jstr "urn:codeattest:protocol:v0:shared-definitions#/$defs/narrative_string")])]);
  ("included_pass_verifiability", jobj [("type", jstr "string"); ("enum", jarr [jstr "verifiable_within_included_pass"; jstr "customer_provided_evidence_required";
  jstr "additional_agreement_required"])])].
Definition finding_validation_path_properties_from_reviewer_validation_script_refs : list (string * json) :=
  [("reviewer_validation_script_refs", jobj [("type", jstr "array"); ("maxItems", jnum 10000); ("minItems", jnum 1); ("uniqueItems",
  jbool true); ("items", jobj [("type", jstr "string"); ("pattern", jstr "^validation_script:[a-z0-9][a-z0-9_-]{2,63}$")])]); ("output_attachment_instructions",
  jobj [("$ref", jstr "urn:codeattest:protocol:v0:shared-definitions#/$defs/non_empty_string")]); ("target", jobj [("$ref", jstr "urn:codeattest:protocol:v0:shared-definitions#/$defs/non_empty_string")]);
  ("authorization_assumption", jobj [("$ref", jstr "urn:codeattest:protocol:v0:shared-definitions#/$defs/non_empty_string")]); ("method",
  jobj [("$ref", jstr "urn:codeattest:protocol:v0:shared-definitions#/$defs/non_empty_string")]); ("safety_constraints", jobj [("$ref",
  jstr "urn:codeattest:protocol:v0:shared-definitions#/$defs/non_empty_string")]); ("evidence_artifacts_to_collect", jobj [("type", jstr
  "array"); ("maxItems", jnum 10000); ("minItems", jnum 1); ("uniqueItems", jbool true); ("items", jobj [("type", jstr "string"); ("pattern",
  jstr "^artifact_ref:[a-z0-9][a-z0-9_-]{2,63}$")])]); ("authored_at", jobj [("$ref", jstr "urn:codeattest:protocol:v0:shared-definitions#/$defs/utc_rfc3339_timestamp")]);
  ("actor", jobj [("type", jstr "object"); ("additionalProperties", jbool false); ("required", jarr [jstr "actor_type"; jstr "actor_id"]);
  ("properties", jobj [("actor_type", jobj [("type", jstr "string"); ("const", jstr "reviewer")]); ("actor_id", jobj [("$ref", jstr "urn:codeattest:protocol:v0:shared-definitions#/$defs/non_empty_string")])])]);
  ("source_reference_state", jobj [("type", jstr "string"); ("enum", jarr [jstr "retained_review_artifact"; jstr "deleted_under_policy";
  jstr "never_collected"; jstr "not_submitted_by_policy"; jstr "unresolved_reference"])]); ("source_derived_class", jobj [("type", jstr
  "string"); ("const", jstr "retained_review_artifact")]); ("visibility", jobj [("type", jstr "string"); ("enum", jarr [jstr "customer_facing";
  jstr "internal_only"])])].
Definition finding_validation_path_properties : json :=
  jobj (finding_validation_path_properties_from_protocol_version ++ finding_validation_path_properties_from_reviewer_validation_script_refs).
Definition finding_validation_path_schema : json :=
  jobj [("$schema", jstr "https://json-schema.org/draft/2020-12/schema"); ("$id", jstr "urn:codeattest:protocol:v0:finding-validation-path");
  ("title", jstr "Finding Validation Path"); ("type", jstr "object"); ("additionalProperties", jbool false); ("required", jarr [jstr
  "protocol_version"; jstr "review_id"; jstr "validation_path_id"; jstr "classification_record_ref"; jstr "review_finding_draft_ref";
  jstr "review_finding_draft_evidence_refs"; jstr "path_type"; jstr "required_evidence"; jstr "steps"; jstr "expected_result"; jstr "limitations";
  jstr "included_pass_verifiability"; jstr "authored_at"; jstr "actor"; jstr "source_reference_state"; jstr "source_derived_class"; jstr
  "visibility"]); ("properties", finding_validation_path_properties)].
Definition identity_signing_input_schema : json :=
  jobj [("$schema", jstr "https://json-schema.org/draft/2020-12/schema"); ("$id", jstr "urn:codeattest:protocol:v0:identity-signing-input");
  ("title", jstr "Identity Signing Input"); ("type", jstr "object"); ("additionalProperties", jbool false); ("required", jarr [jstr "protocol_version";
  jstr "signing_input_type"; jstr "algorithm_profile"; jstr "signed_identity_type"; jstr "signed_identity"; jstr "canonicalization";
  jstr "identity_input_path"]); ("properties", jobj [("protocol_version", jobj [("$ref", jstr "urn:codeattest:protocol:v0:shared-definitions#/$defs/protocol_version")]);
  ("signing_input_type", jobj [("type", jstr "string"); ("enum", jarr [jstr "outbound_manifest_identity"; jstr "bundle_manifest_identity";
  jstr "vendor_receipt_identity"; jstr "static_bundle_manifest_identity"; jstr "attestation_package_finalization_identity"; jstr "disclosure_policy_identity";
  jstr "review_event_identity"; jstr "security_review_attestation_identity"; jstr "signing_key_directory_identity"; jstr "evidence_bundle_identity";
  jstr "runner_release_identity"; jstr "environment_readiness_decision_identity"])]); ("algorithm_profile", jobj [("type", jstr "string");
  ("const", jstr "ml_dsa_65")]); ("signed_identity_type", jobj [("type", jstr "string"); ("enum", jarr [jstr "outbound_manifest"; jstr
  "evidence_bundle"; jstr "vendor_receipt"; jstr "static_bundle_manifest"; jstr "attestation_package_finalization"; jstr "disclosure_policy";
  jstr "review_event"; jstr "security_review_attestation"; jstr "signing_key_directory"; jstr "runner_release"; jstr "environment_readiness_decision"])]);
  ("signed_identity", jobj [("$ref", jstr "urn:codeattest:protocol:v0:shared-definitions#/$defs/algorithm_prefixed_sha256_id")]); ("canonicalization",
  jobj [("type", jstr "string"); ("const", jstr "rfc8785")]); ("identity_input_path", jobj [("type", jstr "string"); ("pattern", jstr
  "^v0/valid/[a-z0-9][a-z0-9._-]*\.json$")])])].
Definition local_runner_attempt_allOf_from_1 : list json :=
  [jobj [("if", jobj [("properties", jobj [("bundle_state", jobj [("const", jstr "ready_not_submitted")])]); ("required", jarr [jstr
  "bundle_state"])]); ("then", jobj [("properties", jobj [("identities", jobj [("required", jarr [jstr "evidence_bundle_id"; jstr "bundle_instance_id";
  jstr "submission_attempt_id"])])])]); ("else", jobj [("properties", jobj [("identities", jobj [("not", jobj [("anyOf", jarr [jobj [("required",
  jarr [jstr "evidence_bundle_id"])]; jobj [("required", jarr [jstr "bundle_instance_id"])]; jobj [("required", jarr [jstr "submission_attempt_id"])]])])])])])];
  jobj [("if", jobj [("anyOf", jarr [jobj [("properties", jobj [("approval_state", jobj [("const", jstr "approved")])]); ("required",
  jarr [jstr "approval_state"])]; jobj [("properties", jobj [("review_state", jobj [("const", jstr "approved_no_signed_bundle")])]);
  ("required", jarr [jstr "review_state"])]])]); ("then", jobj [("required", jarr [jstr "approval_metadata"]); ("properties", jobj [("identities",
  jobj [("required", jarr [jstr "manifest_id"; jstr "approval_id"])]); ("approval_metadata", jobj [("properties", jobj [("decision",
  jobj [("const", jstr "approved")])])])])])]].
Definition local_runner_attempt_allOf_from_3 : list json :=
  [jobj [("if", jobj [("properties", jobj [("runner_trust", jobj [("properties", jobj [("trust_label", jobj [("const", jstr "trusted_release")])]);
  ("required", jarr [jstr "trust_label"])])]); ("required", jarr [jstr "runner_trust"])]); ("then", jobj [("properties", jobj [("runner_trust",
  jobj [("required", jarr [jstr "release_verification_artifact"]); ("properties", jobj [("release_signature_status", jobj [("const",
  jstr "verified_release_signature")])])])])])]; jobj [("if", jobj [("not", jobj [("properties", jobj [("remote_state", jobj [("const",
  jstr "not_submitted")])]); ("required", jarr [jstr "remote_state"])])]); ("then", jobj [("properties", jobj [("stage", jobj [("const",
  jstr "submit")])]); ("required", jarr [jstr "stage"])])]; jobj [("if", jobj [("not", jobj [("properties", jobj [("remote_state", jobj
  [("const", jstr "received_with_receipt")])]); ("required", jarr [jstr "remote_state"])])]); ("then", jobj [("properties", jobj [("identities",
  jobj [("not", jobj [("required", jarr [jstr "vendor_receipt_id"])])])])])]].
Definition local_runner_attempt_allOf : json :=
  jarr (local_runner_attempt_allOf_from_1 ++ local_runner_attempt_allOf_from_3).
Definition local_runner_attempt_properties_from_protocol_version : list (string * json) :=
  [("protocol_version", jobj [("$ref", jstr "urn:codeattest:protocol:v0:shared-definitions#/$defs/protocol_version")]); ("attempt_id",
  jobj [("type", jstr "string"); ("pattern", jstr "^runner_attempt:[a-z0-9][a-z0-9_-]{2,63}$")]); ("stage", jobj [("type", jstr "string");
  ("enum", jarr [jstr "scope_init"; jstr "scan_run"; jstr "disclosure_configure"; jstr "manifest_preview"; jstr "approval"; jstr "bundle_packaging";
  jstr "bundle_signing"; jstr "bundle_prepare"; jstr "status_inspect"; jstr "runner_trust"; jstr "submit"])]); ("outcome", jobj [("type",
  jstr "string"); ("enum", jarr [jstr "succeeded"; jstr "failed"; jstr "declined"; jstr "blocked"])]); ("review_state", jobj [("type",
  jstr "string"); ("enum", jarr [jstr "unapproved_not_submitted"; jstr "approved_no_signed_bundle"; jstr "signed_bundle_not_submitted"])]);
  ("approval_state", jobj [("type", jstr "string"); ("enum", jarr [jstr "not_requested"; jstr "approved"; jstr "declined"; jstr "not_applicable"])]);
  ("bundle_state", jobj [("type", jstr "string"); ("enum", jarr [jstr "not_created"; jstr "failed_before_ready"; jstr "ready_not_submitted"])]);
  ("remote_state", jobj [("type", jstr "string"); ("enum", jarr [jstr "not_submitted"; jstr "submit_attempted"; jstr "received_with_receipt";
  jstr "rejected_no_receipt"; jstr "quarantined_no_receipt"])]); ("occurred_at", jobj [("$ref", jstr "urn:codeattest:protocol:v0:shared-definitions#/$defs/utc_rfc3339_timestamp")]);
  ("runner", jobj [("type", jstr "object"); ("additionalProperties", jbool false); ("required", jarr [jstr "name"; jstr "version"]);
  ("properties", jobj [("name", jobj [("type", jstr "string"); ("const", jstr "codeattest-local-runner")]); ("version", jobj [("$ref",
  jstr "urn:codeattest:protocol:v0:shared-definitions#/$defs/non_empty_string")])])])].
Definition local_runner_attempt_properties_from_runner_trust : list (string * json) :=
  [("runner_trust", jobj [("type", jstr "object"); ("additionalProperties", jbool false); ("required", jarr [jstr "runner_name"; jstr
  "runner_version"; jstr "build_identifier"; jstr "release_identifier"; jstr "release_signature_status"; jstr "bundle_signing_mode";
  jstr "trust_label"; jstr "evidence_boundary"; jstr "limitations"]); ("properties", jobj [("runner_name", jobj [("type", jstr "string");
  ("const", jstr "codeattest-local-runner")]); ("runner_version", jobj [("$ref", jstr "urn:codeattest:protocol:v0:shared-definitions#/$defs/non_empty_string")]);
  ("build_identifier", jobj [("$ref", jstr "urn:codeattest:protocol:v0:shared-definitions#/$defs/non_empty_string")]); ("release_identifier",
  jobj [("$ref", jstr "urn:codeattest:protocol:v0:shared-definitions#/$defs/non_empty_string")]); ("release_signature_status", jobj [("type",
  jstr "string"); ("enum", jarr [jstr "unsigned_local_build"; jstr "untrusted_local_build"; jstr "verified_release_signature"])]); ("bundle_signing_mode",
  jobj [("type", jstr "string"); ("enum", jarr [jstr "managed_key"; jstr "enrolled_runner_key"])]); ("trust_label", jobj [("type", jstr
  "string"); ("enum", jarr [jstr "demo_only_unsigned"; jstr "untrusted_local_dev"; jstr "trusted_release"])]); ("evidence_boundary",
  jobj [("type", jstr "string"); ("const", jstr "synthetic-demo-only")]); ("release_verification_artifact", jobj [("$ref", jstr "urn:codeattest:protocol:v0:shared-definitions#/$defs/non_empty_string")]);
  ("limitations", jobj [("type", jstr "array"); ("maxItems", jnum 100); ("minItems", jnum 1); ("items", jobj [("$ref", jstr "urn:codeattest:protocol:v0:shared-definitions#/$defs/narrative_string")])])])]);
  ("identities", jobj [("type", jstr "object"); ("additionalProperties", jbool false); ("properties", jobj [("selected_commit", jobj
  [("type", jstr "string"); ("pattern", jstr "^[a-f0-9]{40}$")]); ("repository_identity", jobj [("$ref", jstr "urn:codeattest:protocol:v0:shared-definitions#/$defs/algorithm_prefixed_sha256_id")]);
  ("manifest_id", jobj [("$ref", jstr "urn:codeattest:protocol:v0:shared-definitions#/$defs/algorithm_prefixed_sha256_id")]); ("approval_id",
  jobj [("type", jstr "string"); ("pattern", jstr "^approval:[a-z0-9][a-z0-9_-]{2,63}$")]); ("evidence_bundle_id", jobj [("$ref", jstr
  "urn:codeattest:protocol:v0:shared-definitions#/$defs/algorithm_prefixed_sha256_id")]); ("bundle_instance_id", jobj [("type", jstr
  "string"); ("pattern", jstr "^bundle_instance:[a-z0-9][a-z0-9_-]{2,63}$")]); ("submission_attempt_id", jobj [("type", jstr "string");
  ("pattern", jstr "^submission_attempt:[a-z0-9][a-z0-9_-]{2,63}$")]); ("vendor_receipt_id", jobj [("$ref", jstr "urn:codeattest:protocol:v0:shared-definitions#/$defs/algorithm_prefixed_sha256_id")]);
  ("submission_outcome_id", jobj [("type", jstr "string"); ("pattern", jstr "^submission_outcome:[a-z0-9][a-z0-9_-]{2,63}$")])])])].
Definition local_runner_attempt_properties_from_approval_metadata : list (string * json) :=
  [("approval_metadata", jobj [("type", jstr "object"); ("additionalProperties", jbool false); ("required", jarr [jstr "decision"; jstr
  "decided_at"]); ("properties", jobj [("decision", jobj [("type", jstr "string"); ("enum", jarr [jstr "approved"; jstr "declined"])]);
  ("decided_at", jobj [("$ref", jstr "urn:codeattest:protocol:v0:shared-definitions#/$defs/utc_rfc3339_timestamp")]); ("approving_actor",
  jobj [("$ref", jstr "urn:codeattest:protocol:v0:shared-definitions#/$defs/actor_reference")])])]); ("diagnostics", jobj [("type", jstr
  "object"); ("additionalProperties", jbool false); ("required", jarr [jstr "message"; jstr "retryable"; jstr "sensitive_detail_omitted";
  jstr "raw_snippets_printed"; jstr "support_summary"]); ("properties", jobj [("stage_failed", jobj [("type", jstr "string"); ("enum",
  jarr [jstr "scope_init"; jstr "scan_run"; jstr "disclosure_configure"; jstr "manifest_preview"; jstr "approval"; jstr "bundle_packaging";
  jstr "bundle_signing"; jstr "bundle_prepare"; jstr "status_inspect"; jstr "runner_trust"; jstr "submit"])]); ("failure_code", jobj
  [("type", jstr "string"); ("pattern", jstr "^[a-z][a-z0-9_]{2,63}$")]); ("message", jobj [("$ref", jstr "urn:codeattest:protocol:v0:shared-definitions#/$defs/non_empty_string")]);
  ("retryable", jobj [("type", jstr "boolean")]); ("sensitive_detail_omitted", jobj [("type", jstr "boolean")]); ("raw_snippets_printed",
  jobj [("type", jstr "boolean"); ("const", jbool false)]); ("support_summary", jobj [("$ref", jstr "urn:codeattest:protocol:v0:shared-definitions#/$defs/non_empty_string")]);
  ("local_artifact_paths", jobj [("type", jstr "array"); ("maxItems", jnum 10000); ("items", jobj [("$ref", jstr "urn:codeattest:protocol:v0:shared-definitions#/$defs/non_empty_string")])])])]);
  ("next_actions", jobj [("type", jstr "array"); ("maxItems", jnum 100); ("minItems", jnum 1); ("items", jobj [("$ref", jstr "urn:codeattest:protocol:v0:shared-definitions#/$defs/narrative_string")])])].
Definition local_runner_attempt_properties : json :=
  jobj (local_runner_attempt_properties_from_protocol_version ++ local_runner_attempt_properties_from_runner_trust ++ local_runner_attempt_properties_from_approval_metadata).
Definition local_runner_attempt_schema : json :=
  jobj [("$schema", jstr "https://json-schema.org/draft/2020-12/schema"); ("$id", jstr "urn:codeattest:protocol:v0:local-runner-attempt");
  ("title", jstr "Local Runner Attempt or Status Record"); ("type", jstr "object"); ("additionalProperties", jbool false); ("allOf",
  local_runner_attempt_allOf); ("required", jarr [jstr "protocol_version"; jstr "attempt_id"; jstr "stage"; jstr "outcome"; jstr "review_state";
  jstr "approval_state"; jstr "bundle_state"; jstr "remote_state"; jstr "occurred_at"; jstr "runner"; jstr "runner_trust"; jstr "identities";
  jstr "diagnostics"; jstr "next_actions"]); ("properties", local_runner_attempt_properties)].
Definition log_checkpoint_schema : json :=
  jobj [("$schema", jstr "https://json-schema.org/draft/2020-12/schema"); ("$id", jstr "urn:codeattest:protocol:v0:log-checkpoint");
  ("title", jstr "Log Checkpoint"); ("type", jstr "object"); ("additionalProperties", jbool false); ("allOf", jarr [jobj [("if", jobj
  [("properties", jobj [("tree_size", jobj [("const", jnum 0)])]); ("required", jarr [jstr "tree_size"])]); ("then", jobj [("properties",
  jobj [("merkle_root", jobj [("const", jstr "e3b0c44298fc1c149afbf4c8996fb92427ae41e4649b934ca495991b7852b855")])])])]; jobj [("if",
  jobj [("properties", jobj [("merkle_root", jobj [("const", jstr "e3b0c44298fc1c149afbf4c8996fb92427ae41e4649b934ca495991b7852b855")])]);
  ("required", jarr [jstr "merkle_root"])]); ("then", jobj [("properties", jobj [("tree_size", jobj [("const", jnum 0)])])])]]); ("required",
  jarr [jstr "protocol_version"; jstr "checkpoint_id"; jstr "deployment_identity"; jstr "checkpoint_timestamp"; jstr "merkle_root"; jstr
  "tree_size"; jstr "canonicalization"; jstr "identity_hash_algorithm"; jstr "identity_input_excludes"]); ("properties", jobj [("protocol_version",
  jobj [("$ref", jstr "urn:codeattest:protocol:v0:shared-definitions#/$defs/protocol_version")]); ("checkpoint_id", jobj [("$ref", jstr
  "urn:codeattest:protocol:v0:shared-definitions#/$defs/algorithm_prefixed_sha256_id")]); ("deployment_identity", jobj [("type", jstr
  "string"); ("enum", jarr [jstr "demo"; jstr "pilot"])]); ("checkpoint_timestamp", jobj [("$ref", jstr "urn:codeattest:protocol:v0:shared-definitions#/$defs/utc_rfc3339_timestamp")]);
  ("merkle_root", jobj [("$ref", jstr "urn:codeattest:protocol:v0:shared-definitions#/$defs/sha256_hex")]); ("tree_size", jobj [("type",
  jstr "integer"); ("minimum", jnum 0)]); ("canonicalization", jobj [("type", jstr "string"); ("const", jstr "rfc8785")]); ("identity_hash_algorithm",
  jobj [("type", jstr "string"); ("const", jstr "sha256")]); ("identity_input_excludes", jobj [("type", jstr "array"); ("minItems", jnum
  1); ("maxItems", jnum 1); ("uniqueItems", jbool true); ("items", jobj [("type", jstr "string"); ("const", jstr "checkpoint_id")])])])].
Definition outbound_manifest_properties_evidence_categories_items : json :=
  jobj [("type", jstr "object"); ("additionalProperties", jbool false); ("required", jarr [jstr "category"; jstr "included"; jstr "inclusion_state";
  jstr "count"; jstr "reference"; jstr "source_derived_class"; jstr "source_code_disclosure"; jstr "redaction_state"; jstr "redaction_configuration_version";
  jstr "retention_handling"; jstr "limitation"; jstr "details"]); ("properties", jobj [("category", jobj [("type", jstr "string"); ("enum",
  jarr [jstr "metadata"; jstr "dependencies"; jstr "scanner_findings"; jstr "raw_snippets"; jstr "targeted_files"; jstr "derived_artifacts";
  jstr "never_collected_items"])]); ("included", jobj [("type", jstr "boolean")]); ("inclusion_state", jobj [("type", jstr "string");
  ("enum", jarr [jstr "included"; jstr "excluded_by_policy"; jstr "never_collected"])]); ("count", jobj [("type", jstr "integer"); ("minimum",
  jnum 0)]); ("reference", jobj [("$ref", jstr "urn:codeattest:protocol:v0:shared-definitions#/$defs/non_empty_string")]); ("source_derived_class",
  jobj [("$ref", jstr "urn:codeattest:protocol:v0:retention-source-derived-class")]); ("source_code_disclosure", jobj [("type", jstr
  "boolean")]); ("redaction_state", jobj [("type", jstr "string"); ("enum", jarr [jstr "not_applicable"; jstr "redaction_not_configured";
  jstr "redaction_configured"])]); ("redaction_configuration_version", jobj [("$ref", jstr "urn:codeattest:protocol:v0:shared-definitions#/$defs/non_empty_string")]);
  ("retention_handling", jobj [("$ref", jstr "urn:codeattest:protocol:v0:shared-definitions#/$defs/non_empty_string")]); ("limitation",
  jobj [("$ref", jstr "urn:codeattest:protocol:v0:shared-definitions#/$defs/non_empty_string")]); ("details", jobj [("type", jstr "array");
  ("maxItems", jnum 100); ("minItems", jnum 1); ("items", jobj [("$ref", jstr "urn:codeattest:protocol:v0:shared-definitions#/$defs/narrative_string")])]);
  ("snippet_controls", jobj [("type", jstr "object"); ("additionalProperties", jbool false); ("required", jarr [jstr "max_snippet_chars";
  jstr "context_lines"; jstr "redaction_profile"; jstr "redaction_configuration_version"; jstr "retention_class"; jstr "selected_files_or_areas"]);
  ("properties", jobj [("max_snippet_chars", jobj [("type", jstr "integer"); ("minimum", jnum 1); ("maximum", jnum 2000)]); ("context_lines",
  jobj [("type", jstr "integer"); ("minimum", jnum 0); ("maximum", jnum 10)]); ("redaction_profile", jobj [("$ref", jstr "urn:codeattest:protocol:v0:shared-definitions#/$defs/non_empty_string")]);
  ("redaction_configuration_version", jobj [("$ref", jstr "urn:codeattest:protocol:v0:shared-definitions#/$defs/non_empty_string")]);
  ("retention_class", jobj [("$ref", jstr "urn:codeattest:protocol:v0:retention-source-derived-class")]); ("selected_files_or_areas",
  jobj [("type", jstr "array"); ("maxItems", jnum 10000); ("items", jobj [("$ref", jstr "urn:codeattest:protocol:v0:shared-definitions#/$defs/non_empty_string")])])])])])].
Definition outbound_manifest_properties_evidence_categories : json :=
  jobj [("type", jstr "array"); ("maxItems", jnum 10000); ("minItems", jnum 7); ("uniqueItems", jbool true); ("items", outbound_manifest_properties_evidence_categories_items)].
Definition outbound_manifest_properties_from_protocol_version : list (string * json) :=
  [("protocol_version", jobj [("$ref", jstr "urn:codeattest:protocol:v0:shared-definitions#/$defs/protocol_version")]); ("manifest_id",
  jobj [("$ref", jstr "urn:codeattest:protocol:v0:shared-definitions#/$defs/algorithm_prefixed_sha256_id")]); ("generated_at", jobj [("$ref",
  jstr "urn:codeattest:protocol:v0:shared-definitions#/$defs/utc_rfc3339_timestamp")]); ("review_scope_ref", jobj [("$ref", jstr "urn:codeattest:protocol:v0:shared-definitions#/$defs/algorithm_prefixed_sha256_id")]);
  ("disclosure_policy_ref", jobj [("$ref", jstr "urn:codeattest:protocol:v0:shared-definitions#/$defs/algorithm_prefixed_sha256_id")]);
  ("scanner_finding_set_ref", jobj [("$ref", jstr "urn:codeattest:protocol:v0:shared-definitions#/$defs/algorithm_prefixed_sha256_id")]);
  ("selected_scope_summary", jobj [("type", jstr "object"); ("additionalProperties", jbool false); ("required", jarr [jstr "selected_application";
  jstr "selected_commit"; jstr "repository_identity"; jstr "dependency_manifest_total_count"; jstr "dependency_manifest_detected_count"]);
  ("properties", jobj [("selected_application", jobj [("type", jstr "object"); ("additionalProperties", jbool false); ("required", jarr
  [jstr "application_id"; jstr "display_name"]); ("properties", jobj [("application_id", jobj [("$ref", jstr "urn:codeattest:protocol:v0:shared-definitions#/$defs/non_empty_string")]);
  ("display_name", jobj [("$ref", jstr "urn:codeattest:protocol:v0:shared-definitions#/$defs/non_empty_string")])])]); ("selected_commit",
  jobj [("type", jstr "object"); ("additionalProperties", jbool false); ("required", jarr [jstr "commit_sha"; jstr "source_control_system"]);
  ("properties", jobj [("commit_sha", jobj [("type", jstr "string"); ("pattern", jstr "^[a-f0-9]{40}$")]); ("source_control_system",
  jobj [("type", jstr "string"); ("enum", jarr [jstr "git"])])])]); ("repository_identity", jobj [("$ref", jstr "urn:codeattest:protocol:v0:shared-definitions#/$defs/algorithm_prefixed_sha256_id")]);
  ("dependency_manifest_total_count", jobj [("type", jstr "integer"); ("minimum", jnum 0)]); ("dependency_manifest_detected_count", jobj
  [("type", jstr "integer"); ("minimum", jnum 0)])])]); ("runner", jobj [("type", jstr "object"); ("additionalProperties", jbool false);
  ("required", jarr [jstr "name"; jstr "version"]); ("properties", jobj [("name", jobj [("type", jstr "string"); ("const", jstr "codeattest-local-runner")]);
  ("version", jobj [("$ref", jstr "urn:codeattest:protocol:v0:shared-definitions#/$defs/non_empty_string")])])]); ("coverage_mode", jobj
  [("$ref", jstr "urn:codeattest:protocol:v0:shared-definitions#/$defs/coverage_mode")])].
Definition outbound_manifest_properties_from_disclosure_policy_summary : list (string * json) :=
  [("disclosure_policy_summary", jobj [("type", jstr "object"); ("additionalProperties", jbool false); ("required", jarr [jstr "disclosure_policy_ref";
  jstr "coverage_mode"; jstr "redaction_profile"; jstr "redaction_configuration_version"; jstr "retention_period"]); ("properties", jobj
  [("disclosure_policy_ref", jobj [("$ref", jstr "urn:codeattest:protocol:v0:shared-definitions#/$defs/algorithm_prefixed_sha256_id")]);
  ("coverage_mode", jobj [("$ref", jstr "urn:codeattest:protocol:v0:shared-definitions#/$defs/coverage_mode")]); ("redaction_profile",
  jobj [("$ref", jstr "urn:codeattest:protocol:v0:shared-definitions#/$defs/non_empty_string")]); ("redaction_configuration_version",
  jobj [("$ref", jstr "urn:codeattest:protocol:v0:shared-definitions#/$defs/non_empty_string")]); ("retention_period", jobj [("$ref",
  jstr "urn:codeattest:protocol:v0:shared-definitions#/$defs/non_empty_string")])])]); ("evidence_categories", outbound_manifest_properties_evidence_categories);
  ("artifact_references", jobj [("type", jstr "array"); ("maxItems", jnum 10000); ("items", jobj [("$ref", jstr "urn:codeattest:protocol:v0:artifact-reference")])]);
  ("package_preview_state", jobj [("type", jstr "object"); ("additionalProperties", jbool false); ("required", jarr [jstr "state"; jstr
  "send_ready"; jstr "local_only"]); ("properties", jobj [("state", jobj [("type", jstr "string"); ("enum", jarr [jstr "preview_generated"])]);
  ("send_ready", jobj [("type", jstr "boolean"); ("const", jbool false)]); ("local_only", jobj [("type", jstr "boolean"); ("const", jbool
  true)])])]); ("approval", jobj [("type", jstr "object"); ("additionalProperties", jbool false); ("required", jarr [jstr "approval_state"]);
  ("properties", jobj [("approval_state", jobj [("type", jstr "string"); ("enum", jarr [jstr "not_requested"])])])]); ("warnings", jobj
  [("type", jstr "array"); ("maxItems", jnum 100); ("minItems", jnum 1); ("items", jobj [("$ref", jstr "urn:codeattest:protocol:v0:shared-definitions#/$defs/narrative_string")])]);
  ("limitations", jobj [("type", jstr "array"); ("maxItems", jnum 100); ("minItems", jnum 1); ("items", jobj [("$ref", jstr "urn:codeattest:protocol:v0:shared-definitions#/$defs/narrative_string")])])].
Definition outbound_manifest_properties : json :=
  jobj (outbound_manifest_properties_from_protocol_version ++ outbound_manifest_properties_from_disclosure_policy_summary).
Definition outbound_manifest_schema : json :=
  jobj [("$schema", jstr "https://json-schema.org/draft/2020-12/schema"); ("$id", jstr "urn:codeattest:protocol:v0:outbound-manifest");
  ("title", jstr "Outbound Manifest"); ("type", jstr "object"); ("additionalProperties", jbool false); ("required", jarr [jstr "protocol_version";
  jstr "manifest_id"; jstr "generated_at"; jstr "review_scope_ref"; jstr "disclosure_policy_ref"; jstr "selected_scope_summary"; jstr
  "runner"; jstr "coverage_mode"; jstr "disclosure_policy_summary"; jstr "evidence_categories"; jstr "artifact_references"; jstr "package_preview_state";
  jstr "approval"; jstr "warnings"; jstr "limitations"]); ("properties", outbound_manifest_properties)].
Definition pilot_feedback_record_properties : json :=
  jobj [("protocol_version", jobj [("$ref", jstr "urn:codeattest:protocol:v0:shared-definitions#/$defs/protocol_version")]); ("pilot_feedback_record_id",
  jobj [("type", jstr "string"); ("pattern", jstr "^pilot_feedback:[a-z0-9][a-z0-9_-]{2,63}$")]); ("record_version", jobj [("type", jstr
  "integer"); ("minimum", jnum 1); ("maximum", jnum 9007199254740991)]); ("review_id", jobj [("type", jstr "string"); ("pattern", jstr
  "^review:[a-z0-9][a-z0-9_-]{2,63}$")]); ("recorded_at", jobj [("$ref", jstr "urn:codeattest:protocol:v0:shared-definitions#/$defs/utc_rfc3339_timestamp")]);
  ("recorded_by", jobj [("type", jstr "object"); ("additionalProperties", jbool false); ("required", jarr [jstr "actor_type"; jstr "actor_id"]);
  ("properties", jobj [("actor_type", jobj [("type", jstr "string"); ("enum", jarr [jstr "reviewer"; jstr "vendor_service"])]); ("actor_id",
  jobj [("$ref", jstr "urn:codeattest:protocol:v0:shared-definitions#/$defs/non_empty_string")])])]); ("feedback_source", jobj [("type",
  jstr "string"); ("enum", jarr [jstr "customer_admin_aggregate"; jstr "evidence_consumer_aggregate"; jstr "reviewer_observation"])]);
  ("usefulness_rating", jobj [("type", jstr "integer"); ("minimum", jnum 1); ("maximum", jnum 5)]); ("repeat_intent", jobj [("type",
  jstr "string"); ("enum", jarr [jstr "yes"; jstr "no"; jstr "unsure"; jstr "not_asked"])]); ("pay_intent", jobj [("type", jstr "string");
  ("enum", jarr [jstr "yes"; jstr "no"; jstr "unsure"; jstr "not_asked"])]); ("mapping_feedback", jobj [("type", jstr "array"); ("maxItems",
  jnum 4); ("items", jobj [("type", jstr "object"); ("additionalProperties", jbool false); ("required", jarr [jstr "mapping_profile";
  jstr "usefulness_rating"]); ("properties", jobj [("mapping_profile", jobj [("type", jstr "string"); ("enum", jarr [jstr "soc_2_supporting_evidence";
  jstr "generic_technology_risk"; jstr "customer_security_review"; jstr "not_used"])]); ("usefulness_rating", jobj [("type", jstr "integer");
  ("minimum", jnum 1); ("maximum", jnum 5)])])])]); ("objection_codes", jobj [("type", jstr "array"); ("uniqueItems", jbool true); ("items",
  jobj [("type", jstr "string"); ("enum", jarr [jstr "scope_too_narrow"; jstr "evidence_too_limited"; jstr "mapping_not_applicable";
  jstr "signature_profile_demo_only"; jstr "offline_package_usability"; jstr "pricing_uncertain"; jstr "turnaround"; jstr "other_content_free"])])]);
  ("caveats", jobj [("type", jstr "array"); ("maxItems", jnum 100); ("minItems", jnum 1); ("items", jobj [("$ref", jstr "urn:codeattest:protocol:v0:shared-definitions#/$defs/narrative_string")])]);
  ("content_free", jobj [("type", jstr "boolean"); ("const", jbool true)]); ("pii_free", jobj [("type", jstr "boolean"); ("const", jbool
  true)]); ("visibility", jobj [("type", jstr "string"); ("const", jstr "internal_only")]); ("source_derived_class", jobj [("type", jstr
  "string"); ("const", jstr "retained_review_artifact")])].
Definition pilot_feedback_record_schema : json :=
  jobj [("$schema", jstr "https://json-schema.org/draft/2020-12/schema"); ("$id", jstr "urn:codeattest:protocol:v0:pilot-feedback-record");
  ("title", jstr "Pilot Feedback Record"); ("type", jstr "object"); ("additionalProperties", jbool false); ("required", jarr [jstr "protocol_version";
  jstr "pilot_feedback_record_id"; jstr "record_version"; jstr "review_id"; jstr "recorded_at"; jstr "recorded_by"; jstr "feedback_source";
  jstr "usefulness_rating"; jstr "repeat_intent"; jstr "pay_intent"; jstr "mapping_feedback"; jstr "objection_codes"; jstr "caveats";
  jstr "content_free"; jstr "pii_free"; jstr "visibility"; jstr "source_derived_class"]); ("properties", pilot_feedback_record_properties)].
Definition pilot_metric_record_properties_from_protocol_version : list (string * json) :=
  [("protocol_version", jobj [("$ref", jstr "urn:codeattest:protocol:v0:shared-definitions#/$defs/protocol_version")]); ("pilot_metric_record_id",
  jobj [("type", jstr "string"); ("pattern", jstr "^pilot_metric:[a-z0-9][a-z0-9_-]{2,63}$")]); ("record_version", jobj [("type", jstr
  "integer"); ("minimum", jnum 1); ("maximum", jnum 9007199254740991)]); ("review_id", jobj [("type", jstr "string"); ("pattern", jstr
  "^review:[a-z0-9][a-z0-9_-]{2,63}$")]); ("recorded_at", jobj [("$ref", jstr "urn:codeattest:protocol:v0:shared-definitions#/$defs/utc_rfc3339_timestamp")]);
  ("recorded_by", jobj [("type", jstr "object"); ("additionalProperties", jbool false); ("required", jarr [jstr "actor_type"; jstr "actor_id"]);
  ("properties", jobj [("actor_type", jobj [("type", jstr "string"); ("enum", jarr [jstr "reviewer"; jstr "vendor_service"])]); ("actor_id",
  jobj [("$ref", jstr "urn:codeattest:protocol:v0:shared-definitions#/$defs/non_empty_string")])])]); ("measurement_window", jobj [("type",
  jstr "object"); ("additionalProperties", jbool false); ("required", jarr [jstr "start_timestamp"; jstr "end_timestamp"]); ("properties",
  jobj [("start_timestamp", jobj [("$ref", jstr "urn:codeattest:protocol:v0:shared-definitions#/$defs/utc_rfc3339_timestamp")]); ("end_timestamp",
  jobj [("$ref", jstr "urn:codeattest:protocol:v0:shared-definitions#/$defs/utc_rfc3339_timestamp")])])])].
Definition pilot_metric_record_properties_from_metrics : list (string * json) :=
  [("metrics", jobj [("type", jstr "object"); ("additionalProperties", jbool false); ("required", jarr [jstr "candidate_finding_count";
  jstr "classified_finding_count"; jstr "actionable_classification_count"; jstr "review_hours"; jstr "validation_hours"; jstr "turnaround_hours";
  jstr "disclosure_mode"; jstr "submission_rejection_count"; jstr "repeat_intent_signal"; jstr "pay_intent_signal"]); ("properties",
  jobj [("candidate_finding_count", jobj [("type", jstr "integer"); ("minimum", jnum 0); ("maximum", jnum 9007199254740991)]); ("classified_finding_count",
  jobj [("type", jstr "integer"); ("minimum", jnum 0); ("maximum", jnum 9007199254740991)]); ("actionable_classification_count", jobj
  [("type", jstr "integer"); ("minimum", jnum 0); ("maximum", jnum 9007199254740991)]); ("review_hours", jobj [("type", jstr "number");
  ("minimum", jnum 0); ("maximum", jnum 9007199254740991)]); ("validation_hours", jobj [("type", jstr "number"); ("minimum", jnum 0);
  ("maximum", jnum 9007199254740991)]); ("turnaround_hours", jobj [("type", jstr "number"); ("minimum", jnum 0); ("maximum", jnum 9007199254740991)]);
  ("disclosure_mode", jobj [("$ref", jstr "urn:codeattest:protocol:v0:shared-definitions#/$defs/coverage_mode")]); ("submission_rejection_count",
  jobj [("type", jstr "integer"); ("minimum", jnum 0); ("maximum", jnum 9007199254740991)]); ("repeat_intent_signal", jobj [("type",
  jstr "string"); ("enum", jarr [jstr "yes"; jstr "no"; jstr "unsure"; jstr "not_asked"])]); ("pay_intent_signal", jobj [("type", jstr
  "string"); ("enum", jarr [jstr "yes"; jstr "no"; jstr "unsure"; jstr "not_asked"])])])]); ("caveats", jobj [("type", jstr "array");
  ("maxItems", jnum 100); ("minItems", jnum 1); ("items", jobj [("$ref", jstr "urn:codeattest:protocol:v0:shared-definitions#/$defs/narrative_string")])]);
  ("content_free", jobj [("type", jstr "boolean"); ("const", jbool true)]); ("pii_free", jobj [("type", jstr "boolean"); ("const", jbool
  true)]); ("visibility", jobj [("type", jstr "string"); ("const", jstr "internal_only")]); ("source_derived_class", jobj [("type", jstr
  "string"); ("const", jstr "retained_review_artifact")])].
Definition pilot_metric_record_properties : json :=
  jobj (pilot_metric_record_properties_from_protocol_version ++ pilot_metric_record_properties_from_metrics).
Definition pilot_metric_record_schema : json :=
  jobj [("$schema", jstr "https://json-schema.org/draft/2020-12/schema"); ("$id", jstr "urn:codeattest:protocol:v0:pilot-metric-record");
  ("title", jstr "Pilot Metric Record"); ("type", jstr "object"); ("additionalProperties", jbool false); ("required", jarr [jstr "protocol_version";
  jstr "pilot_metric_record_id"; jstr "record_version"; jstr "review_id"; jstr "recorded_at"; jstr "recorded_by"; jstr "measurement_window";
  jstr "metrics"; jstr "caveats"; jstr "content_free"; jstr "pii_free"; jstr "visibility"; jstr "source_derived_class"]); ("properties",
  pilot_metric_record_properties)].
Definition retention_opt_in_record_schema : json :=
  jobj [("$schema", jstr "https://json-schema.org/draft/2020-12/schema"); ("$id", jstr "urn:codeattest:protocol:v0:retention-opt-in-record");
  ("title", jstr "Retention Opt-In Record"); ("type", jstr "object"); ("additionalProperties", jbool false); ("required", jarr [jstr
  "protocol_version"; jstr "retention_record_id"; jstr "source_derived_class"; jstr "customer_approval_ref"; jstr "retention_period";
  jstr "retained_artifact_refs"]); ("properties", jobj [("protocol_version", jobj [("$ref", jstr "urn:codeattest:protocol:v0:shared-definitions#/$defs/protocol_version")]);
  ("retention_record_id", jobj [("type", jstr "string"); ("pattern", jstr "^retention_record:[a-z0-9][a-z0-9_-]{2,63}$")]); ("source_derived_class",
  jobj [("type", jstr "string"); ("const", jstr "customer_opt_in_retained_source")]); ("customer_approval_ref", jobj [("type", jstr "string");
  ("pattern", jstr "^approval:[a-z0-9][a-z0-9_-]{2,63}$")]); ("retention_period", jobj [("type", jstr "object"); ("additionalProperties",
  jbool false); ("required", jarr [jstr "start_timestamp"; jstr "end_timestamp"]); ("properties", jobj [("start_timestamp", jobj [("$ref",
  jstr "urn:codeattest:protocol:v0:shared-definitions#/$defs/utc_rfc3339_timestamp")]); ("end_timestamp", jobj [("$ref", jstr "urn:codeattest:protocol:v0:shared-definitions#/$defs/utc_rfc3339_timestamp")])])]);
  ("retained_artifact_refs", jobj [("type", jstr "array"); ("maxItems", jnum 10000); ("minItems", jnum 1); ("uniqueItems", jbool true);
  ("items", jobj [("type", jstr "string"); ("pattern", jstr "^artifact_ref:[a-z0-9][a-z0-9_-]{2,63}$")])]); ("retention_status_event_ids",
  jobj [("type", jstr "array"); ("maxItems", jnum 10000); ("minItems", jnum 1); ("uniqueItems", jbool true); ("items", jobj [("type",
  jstr "string"); ("pattern", jstr "^evidence_event:[a-z0-9][a-z0-9_-]{2,63}$")])])])].
Definition retention_source_derived_class_schema : json :=
  jobj [("$schema", jstr "https://json-schema.org/draft/2020-12/schema"); ("$id", jstr "urn:codeattest:protocol:v0:retention-source-derived-class");
  ("title", jstr "Retention and Source-Derived Class"); ("type", jstr "string"); ("enum", jarr [jstr "never_collected"; jstr "transient_source_derived";
  jstr "retained_review_artifact"; jstr "customer_opt_in_retained_source"])].
Definition review_event_customer_projection_schema : json :=
  jobj [("$schema", jstr "https://json-schema.org/draft/2020-12/schema"); ("$id", jstr "urn:codeattest:protocol:v0:review-event-customer-projection");
  ("title", jstr "Review Event Customer Projection"); ("type", jstr "object"); ("additionalProperties", jbool false); ("required", jarr
  [jstr "protocol_version"; jstr "review_id"; jstr "entries"]); ("properties", jobj [("protocol_version", jobj [("$ref", jstr "urn:codeattest:protocol:v0:shared-definitions#/$defs/protocol_version")]);
  ("review_id", jobj [("type", jstr "string"); ("pattern", jstr "^review:[a-z0-9][a-z0-9_-]{2,63}$")]); ("entries", jobj [("type", jstr
  "array"); ("maxItems", jnum 10000); ("minItems", jnum 0); ("items", jobj [("type", jstr "object"); ("additionalProperties", jbool false);
  ("required", jarr [jstr "event_id"; jstr "event_type"; jstr "event_timestamp"; jstr "actor_category"; jstr "artifact_refs"; jstr "visibility"]);
  ("properties", jobj [("event_id", jobj [("$ref", jstr "urn:codeattest:protocol:v0:shared-definitions#/$defs/algorithm_prefixed_sha256_id")]);
  ("event_type", jobj [("type", jstr "string"); ("enum", jarr [jstr "receipt_issued"; jstr "submission_rejected"; jstr "submission_quarantined";
  jstr "classification_recorded"; jstr "remediation_guidance_recorded"; jstr "validation_recorded"; jstr "verification_scope_recorded";
  jstr "verification_evidence_recorded"; jstr "verification_recorded"; jstr "customer_remediation_recorded"; jstr "false_positive_recorded";
  jstr "customer_accepted_risk_recorded"; jstr "attestation_generated"; jstr "static_bundle_generated"; jstr "attestation_package_finalized";
  jstr "attestation_package_exported"; jstr "evidence_deleted"; jstr "retention_status_changed"; jstr "evidence_accessed"; jstr "key_rotation_recorded"])]);
  ("event_timestamp", jobj [("$ref", jstr "urn:codeattest:protocol:v0:shared-definitions#/$defs/utc_rfc3339_timestamp")]); ("actor_category",
  jobj [("type", jstr "string"); ("enum", jarr [jstr "local_runner"; jstr "customer_user"; jstr "vendor_service"; jstr "reviewer"])]);
  ("artifact_refs", jobj [("type", jstr "array"); ("maxItems", jnum 10000); ("minItems", jnum 1); ("uniqueItems", jbool true); ("items",
  jobj [("type", jstr "string"); ("pattern", jstr "^artifact_ref:[a-z0-9][a-z0-9_-]{2,63}$")])]); ("visibility", jobj [("type", jstr
  "string"); ("const", jstr "customer_facing")]); ("reason", jobj [("$ref", jstr "urn:codeattest:protocol:v0:shared-definitions#/$defs/non_empty_string")])])])])])].
Definition review_event_log_schema : json :=
  jobj [("$schema", jstr "https://json-schema.org/draft/2020-12/schema"); ("$id", jstr "urn:codeattest:protocol:v0:review-event-log");
  ("title", jstr "Review Event Log"); ("type", jstr "object"); ("additionalProperties", jbool false); ("required", jarr [jstr "protocol_version";
  jstr "review_id"; jstr "events"]); ("properties", jobj [("protocol_version", jobj [("$ref", jstr "urn:codeattest:protocol:v0:shared-definitions#/$defs/protocol_version")]);
  ("review_id", jobj [("type", jstr "string"); ("pattern", jstr "^review:[a-z0-9][a-z0-9_-]{2,63}$")]); ("events", jobj [("type", jstr
  "array"); ("maxItems", jnum 10000); ("minItems", jnum 0); ("items", jobj [("$ref", jstr "urn:codeattest:protocol:v0:review-event")])])])].
Definition review_event_allOf_from_1 : list json :=
  [jobj [("if", jobj [("required", jarr [jstr "internal_note"])]); ("then", jobj [("properties", jobj [("visibility", jobj [("const",
  jstr "internal_only")])])])]; jobj [("if", jobj [("properties", jobj [("event_type", jobj [("enum", jarr [jstr "classification_recorded";
  jstr "remediation_guidance_recorded"; jstr "validation_recorded"; jstr "false_positive_recorded"; jstr "verification_recorded"])])]);
  ("required", jarr [jstr "event_type"])]); ("then", jobj [("properties", jobj [("actor", jobj [("properties", jobj [("actor_type", jobj
  [("const", jstr "reviewer")])])])])])]; jobj [("if", jobj [("properties", jobj [("event_type", jobj [("const", jstr "customer_remediation_recorded")])]);
  ("required", jarr [jstr "event_type"])]); ("then", jobj [("properties", jobj [("actor", jobj [("properties", jobj [("actor_type", jobj
  [("const", jstr "customer_user")])])])])])]; jobj [("if", jobj [("properties", jobj [("event_type", jobj [("const", jstr "verification_evidence_recorded")])]);
  ("required", jarr [jstr "event_type"])]); ("then", jobj [("properties", jobj [("actor", jobj [("properties", jobj [("actor_type", jobj
  [("enum", jarr [jstr "customer_user"; jstr "vendor_service"])])])])])])]].
Definition review_event_allOf_from_5 : list json :=
  [jobj [("if", jobj [("properties", jobj [("event_type", jobj [("const", jstr "verification_evidence_recorded")]); ("actor", jobj [("properties",
  jobj [("actor_type", jobj [("const", jstr "vendor_service")])]); ("required", jarr [jstr "actor_type"])])]); ("required", jarr [jstr
  "event_type"; jstr "actor"])]); ("then", jobj [("required", jarr [jstr "customer_actor_ref"])])]; jobj [("if", jobj [("properties",
  jobj [("event_type", jobj [("const", jstr "attestation_generated")])]); ("required", jarr [jstr "event_type"])]); ("then", jobj [("properties",
  jobj [("actor", jobj [("properties", jobj [("actor_type", jobj [("enum", jarr [jstr "reviewer"; jstr "vendor_service"])])])])])])];
  jobj [("if", jobj [("properties", jobj [("event_type", jobj [("const", jstr "static_bundle_generated")])]); ("required", jarr [jstr
  "event_type"])]); ("then", jobj [("properties", jobj [("actor", jobj [("properties", jobj [("actor_type", jobj [("const", jstr "vendor_service")])])])])])];
  jobj [("if", jobj [("properties", jobj [("event_type", jobj [("enum", jarr [jstr "attestation_package_finalized"; jstr "attestation_package_exported"])])]);
  ("required", jarr [jstr "event_type"])]); ("then", jobj [("properties", jobj [("actor", jobj [("properties", jobj [("actor_type", jobj
  [("const", jstr "customer_user")])])])])])]].
Definition review_event_allOf_from_9 : list json :=
  [jobj [("if", jobj [("properties", jobj [("event_type", jobj [("enum", jarr [jstr "pilot_metric_recorded"; jstr "pilot_feedback_recorded"])])]);
  ("required", jarr [jstr "event_type"])]); ("then", jobj [("properties", jobj [("visibility", jobj [("const", jstr "internal_only")]);
  ("actor", jobj [("properties", jobj [("actor_type", jobj [("enum", jarr [jstr "reviewer"; jstr "vendor_service"])])])])]); ("not",
  jobj [("required", jarr [jstr "reason"])])])]; jobj [("if", jobj [("properties", jobj [("event_type", jobj [("enum", jarr [jstr "evidence_deleted";
  jstr "retention_status_changed"])])]); ("required", jarr [jstr "event_type"])]); ("then", jobj [("required", jarr [jstr "source_derived_class"])])];
  jobj [("if", jobj [("properties", jobj [("event_type", jobj [("enum", jarr [jstr "false_positive_recorded"; jstr "customer_accepted_risk_recorded"])])]);
  ("required", jarr [jstr "event_type"])]); ("then", jobj [("not", jobj [("required", jarr [jstr "supersedes_classification_record_ref"])])])]].
Definition review_event_allOf : json :=
  jarr (review_event_allOf_from_1 ++ review_event_allOf_from_5 ++ review_event_allOf_from_9).
Definition review_event_properties : json :=
  jobj [("protocol_version", jobj [("$ref", jstr "urn:codeattest:protocol:v0:shared-definitions#/$defs/protocol_version")]); ("event_id",
  jobj [("$ref", jstr "urn:codeattest:protocol:v0:shared-definitions#/$defs/algorithm_prefixed_sha256_id")]); ("review_id", jobj [("type",
  jstr "string"); ("pattern", jstr "^review:[a-z0-9][a-z0-9_-]{2,63}$")]); ("sequence_number", jobj [("type", jstr "integer"); ("minimum",
  jnum 0)]); ("idempotency_key", jobj [("$ref", jstr "urn:codeattest:protocol:v0:shared-definitions#/$defs/non_empty_string")]); ("event_type",
  jobj [("type", jstr "string"); ("enum", jarr [jstr "receipt_issued"; jstr "submission_rejected"; jstr "submission_quarantined"; jstr
  "classification_recorded"; jstr "remediation_guidance_recorded"; jstr "validation_recorded"; jstr "verification_scope_recorded"; jstr
  "verification_evidence_recorded"; jstr "verification_recorded"; jstr "customer_remediation_recorded"; jstr "false_positive_recorded";
  jstr "customer_accepted_risk_recorded"; jstr "attestation_generated"; jstr "static_bundle_generated"; jstr "attestation_package_finalized";
  jstr "attestation_package_exported"; jstr "pilot_metric_recorded"; jstr "pilot_feedback_recorded"; jstr "evidence_deleted"; jstr "retention_status_changed";
  jstr "evidence_accessed"; jstr "key_rotation_recorded"])]); ("actor", jobj [("$ref", jstr "urn:codeattest:protocol:v0:shared-definitions#/$defs/actor_reference")]);
  ("event_timestamp", jobj [("$ref", jstr "urn:codeattest:protocol:v0:shared-definitions#/$defs/utc_rfc3339_timestamp")]); ("artifact_refs",
  jobj [("type", jstr "array"); ("maxItems", jnum 10000); ("minItems", jnum 1); ("uniqueItems", jbool true); ("items", jobj [("type",
  jstr "string"); ("pattern", jstr "^(?:artifact_ref:[a-z0-9][a-z0-9_-]{2,63}|sha256:[a-f0-9]{64})$")])]); ("visibility", jobj [("type",
  jstr "string"); ("enum", jarr [jstr "customer_facing"; jstr "internal_only"])]); ("canonicalization", jobj [("type", jstr "string");
  ("const", jstr "rfc8785")]); ("identity_hash_algorithm", jobj [("type", jstr "string"); ("const", jstr "sha256")]); ("identity_input_excludes",
  jobj [("type", jstr "array"); ("minItems", jnum 1); ("maxItems", jnum 1); ("uniqueItems", jbool true); ("items", jobj [("type", jstr
  "string"); ("enum", jarr [jstr "event_id"])])]); ("source_derived_class", jobj [("$ref", jstr "urn:codeattest:protocol:v0:retention-source-derived-class")]);
  ("reason", jobj [("$ref", jstr "urn:codeattest:protocol:v0:shared-definitions#/$defs/non_empty_string")]); ("customer_actor_ref", jobj
  [("type", jstr "string"); ("pattern", jstr "^customer:[a-z0-9][a-z0-9_-]{2,63}$")]); ("customer_selection_evidence_ref", jobj [("type",
  jstr "string"); ("pattern", jstr "^customer_selection:[a-z0-9][a-z0-9_-]{2,63}$")]); ("internal_note", jobj [("$ref", jstr "urn:codeattest:protocol:v0:shared-definitions#/$defs/non_empty_string")]);
  ("supersedes_event_id", jobj [("$ref", jstr "urn:codeattest:protocol:v0:shared-definitions#/$defs/algorithm_prefixed_sha256_id")]);
  ("supersedes_classification_record_ref", jobj [("type", jstr "string"); ("pattern", jstr "^classification_record:[a-z0-9][a-z0-9_-]{2,63}$")])].
Definition review_event_schema : json :=
  jobj [("$schema", jstr "https://json-schema.org/draft/2020-12/schema"); ("$id", jstr "urn:codeattest:protocol:v0:review-event"); ("title",
  jstr "Review Event"); ("type", jstr "object"); ("additionalProperties", jbool false); ("allOf", review_event_allOf); ("required", jarr
  [jstr "protocol_version"; jstr "event_id"; jstr "review_id"; jstr "sequence_number"; jstr "idempotency_key"; jstr "event_type"; jstr
  "actor"; jstr "event_timestamp"; jstr "artifact_refs"; jstr "visibility"; jstr "canonicalization"; jstr "identity_hash_algorithm";
  jstr "identity_input_excludes"]); ("properties", review_event_properties)].
Definition review_finding_draft_set_properties_review_finding_drafts_items_properties_evidence_refs_items_allOf : json :=
  jarr [jobj [("if", jobj [("properties", jobj [("availability_state", jobj [("const", jstr "retained_review_artifact")])]); ("required",
  jarr [jstr "availability_state"])]); ("then", jobj [("properties", jobj [("available_for_review", jobj [("const", jbool true)]); ("display_state",
  jobj [("const", jstr "available_reference")])]); ("not", jobj [("required", jarr [jstr "deletion_evidence_ref"])])])]; jobj [("if",
  jobj [("properties", jobj [("availability_state", jobj [("const", jstr "deleted_under_policy")])]); ("required", jarr [jstr "availability_state"])]);
  ("then", jobj [("required", jarr [jstr "deletion_evidence_ref"]); ("properties", jobj [("available_for_review", jobj [("const", jbool
  false)]); ("display_state", jobj [("const", jstr "deleted")])])])]; jobj [("if", jobj [("properties", jobj [("availability_state",
  jobj [("const", jstr "never_collected")])]); ("required", jarr [jstr "availability_state"])]); ("then", jobj [("properties", jobj [("available_for_review",
  jobj [("const", jbool false)]); ("display_state", jobj [("const", jstr "not_collected")])]); ("not", jobj [("required", jarr [jstr
  "deletion_evidence_ref"])])])]; jobj [("if", jobj [("properties", jobj [("availability_state", jobj [("const", jstr "not_submitted_by_policy")])]);
  ("required", jarr [jstr "availability_state"])]); ("then", jobj [("properties", jobj [("available_for_review", jobj [("const", jbool
  false)]); ("display_state", jobj [("const", jstr "not_submitted")])]); ("not", jobj [("required", jarr [jstr "deletion_evidence_ref"])])])];
  jobj [("if", jobj [("properties", jobj [("availability_state", jobj [("const", jstr "unresolved_reference")])]); ("required", jarr
  [jstr "availability_state"])]); ("then", jobj [("properties", jobj [("available_for_review", jobj [("const", jbool false)]); ("display_state",
  jobj [("const", jstr "unresolved_reference")])]); ("not", jobj [("required", jarr [jstr "deletion_evidence_ref"])])])]].
Definition review_finding_draft_set_properties_review_finding_drafts_items_properties_evidence_refs_items : json :=
  jobj [("type", jstr "object"); ("additionalProperties", jbool false); ("allOf", review_finding_draft_set_properties_review_finding_drafts_items_properties_evidence_refs_items_allOf);
  ("required", jarr [jstr "artifact_ref"; jstr "availability_state"; jstr "available_for_review"; jstr "display_state"; jstr "source_derived_class"]);
  ("properties", jobj [("artifact_ref", jobj [("type", jstr "string"); ("pattern", jstr "^artifact_ref:[a-z0-9][a-z0-9_-]{2,63}$")]);
  ("availability_state", jobj [("type", jstr "string"); ("enum", jarr [jstr "retained_review_artifact"; jstr "deleted_under_policy";
  jstr "never_collected"; jstr "not_submitted_by_policy"; jstr "unresolved_reference"])]); ("available_for_review", jobj [("type", jstr
  "boolean")]); ("display_state", jobj [("type", jstr "string"); ("enum", jarr [jstr "available_reference"; jstr "deleted"; jstr "not_collected";
  jstr "not_submitted"; jstr "unresolved_reference"])]); ("deletion_evidence_ref", jobj [("type", jstr "string"); ("pattern", jstr "^deletion_evidence:[a-z0-9][a-z0-9_-]{2,63}$")]);
  ("source_derived_class", jobj [("$ref", jstr "urn:codeattest:protocol:v0:retention-source-derived-class")])])].
Definition review_finding_draft_set_properties_review_finding_drafts_items_properties_evidence_refs : json :=
  jobj [("type", jstr "array"); ("maxItems", jnum 10000); ("items", review_finding_draft_set_properties_review_finding_drafts_items_properties_evidence_refs_items)].
Definition review_finding_draft_set_properties_review_finding_drafts_items_properties : json :=
  jobj [("review_finding_draft_id", jobj [("type", jstr "string"); ("pattern", jstr "^review_finding_draft:[a-z0-9][a-z0-9_-]{2,63}$")]);
  ("candidate_finding_refs", jobj [("type", jstr "array"); ("maxItems", jnum 10000); ("minItems", jnum 1); ("uniqueItems", jbool true);
  ("items", jobj [("type", jstr "string"); ("pattern", jstr "^candidate_finding:[a-z0-9][a-z0-9_-]{2,63}$")])]); ("group_key", jobj [("$ref",
  jstr "urn:codeattest:protocol:v0:shared-definitions#/$defs/non_empty_string")]); ("sources", jobj [("type", jstr "array"); ("minItems",
  jnum 1); ("uniqueItems", jbool true); ("items", jobj [("type", jstr "string"); ("enum", jarr [jstr "regex"; jstr "semgrep"])])]); ("affected_area",
  jobj [("$ref", jstr "urn:codeattest:protocol:v0:shared-definitions#/$defs/non_empty_string")]); ("evidence_refs", review_finding_draft_set_properties_review_finding_drafts_items_properties_evidence_refs);
  ("severity", jobj [("$ref", jstr "urn:codeattest:protocol:v0:shared-definitions#/$defs/non_empty_string")]); ("confidence", jobj [("type",
  jstr "string"); ("enum", jarr [jstr "low"; jstr "medium"; jstr "high"; jstr "unknown"])]); ("scanner_rule_ids", jobj [("type", jstr
  "array"); ("maxItems", jnum 10000); ("minItems", jnum 1); ("uniqueItems", jbool true); ("items", jobj [("$ref", jstr "urn:codeattest:protocol:v0:shared-definitions#/$defs/non_empty_string")])]);
  ("status", jobj [("type", jstr "string"); ("const", jstr "draft")]); ("review_lifecycle_state", jobj [("type", jstr "string"); ("const",
  jstr "under_review")]); ("coverage_mode", jobj [("$ref", jstr "urn:codeattest:protocol:v0:shared-definitions#/$defs/coverage_mode")]);
  ("evidence_basis", jobj [("type", jstr "array"); ("minItems", jnum 1); ("uniqueItems", jbool true); ("items", jobj [("type", jstr "string");
  ("enum", jarr [jstr "scanner_output"; jstr "metadata_only"; jstr "finding_context_snippet"; jstr "extended_approved_source_context";
  jstr "retained_review_artifact"; jstr "deleted_under_policy_reference"; jstr "not_submitted_by_policy_reference"; jstr "never_collected_reference";
  jstr "unresolved_reference"])])]); ("threshold_gaps", jobj [("type", jstr "array"); ("maxItems", jnum 100); ("items", jobj [("$ref",
  jstr "urn:codeattest:protocol:v0:shared-definitions#/$defs/narrative_string")])]); ("source_reference_state", jobj [("type", jstr "string");
  ("enum", jarr [jstr "retained_review_artifact"; jstr "deleted_under_policy"; jstr "never_collected"; jstr "not_submitted_by_policy";
  jstr "unresolved_reference"])]); ("source_derived_class", jobj [("type", jstr "string"); ("const", jstr "retained_review_artifact")])].
Definition review_finding_draft_set_properties_review_finding_drafts_items : json :=
  jobj [("type", jstr "object"); ("additionalProperties", jbool false); ("required", jarr [jstr "review_finding_draft_id"; jstr "candidate_finding_refs";
  jstr "group_key"; jstr "sources"; jstr "affected_area"; jstr "evidence_refs"; jstr "scanner_rule_ids"; jstr "status"; jstr "review_lifecycle_state";
  jstr "coverage_mode"; jstr "evidence_basis"; jstr "threshold_gaps"; jstr "source_reference_state"; jstr "source_derived_class"]); ("properties",
  review_finding_draft_set_properties_review_finding_drafts_items_properties)].
Definition review_finding_draft_set_properties_review_finding_drafts : json :=
  jobj [("type", jstr "array"); ("maxItems", jnum 10000); ("uniqueItems", jbool true); ("items", review_finding_draft_set_properties_review_finding_drafts_items)].
Definition review_finding_draft_set_properties : json :=
  jobj [("protocol_version", jobj [("$ref", jstr "urn:codeattest:protocol:v0:shared-definitions#/$defs/protocol_version")]); ("review_id",
  jobj [("type", jstr "string"); ("pattern", jstr "^review:[a-z0-9][a-z0-9_-]{2,63}$")]); ("normalization_run_id", jobj [("type", jstr
  "string"); ("pattern", jstr "^normalization_run:[a-z0-9][a-z0-9_-]{2,63}$")]); ("normalization_status", jobj [("type", jstr "string");
  ("enum", jarr [jstr "drafts_created"; jstr "no_findings_produced"])]); ("created_at", jobj [("$ref", jstr "urn:codeattest:protocol:v0:shared-definitions#/$defs/utc_rfc3339_timestamp")]);
  ("vendor_receipt_ref", jobj [("$ref", jstr "urn:codeattest:protocol:v0:shared-definitions#/$defs/algorithm_prefixed_sha256_id")]);
  ("evidence_bundle_id", jobj [("$ref", jstr "urn:codeattest:protocol:v0:shared-definitions#/$defs/algorithm_prefixed_sha256_id")]);
  ("manifest_id", jobj [("$ref", jstr "urn:codeattest:protocol:v0:shared-definitions#/$defs/algorithm_prefixed_sha256_id")]); ("source_scanner_finding_set_ref",
  jobj [("$ref", jstr "urn:codeattest:protocol:v0:shared-definitions#/$defs/algorithm_prefixed_sha256_id")]); ("coverage_mode", jobj
  [("$ref", jstr "urn:codeattest:protocol:v0:shared-definitions#/$defs/coverage_mode")]); ("review_finding_drafts", review_finding_draft_set_properties_review_finding_drafts);
  ("normalization_limitations", jobj [("type", jstr "array"); ("maxItems", jnum 100); ("items", jobj [("$ref", jstr "urn:codeattest:protocol:v0:shared-definitions#/$defs/narrative_string")])]);
  ("no_findings_statement", jobj [("$ref", jstr "urn:codeattest:protocol:v0:shared-definitions#/$defs/non_empty_string")]); ("source_derived_class",
  jobj [("type", jstr "string"); ("const", jstr "retained_review_artifact")])].
Definition review_finding_draft_set_schema : json :=
  jobj [("$schema", jstr "https://json-schema.org/draft/2020-12/schema"); ("$id", jstr "urn:codeattest:protocol:v0:review-finding-draft-set");
  ("title", jstr "Review Finding Draft Set"); ("type", jstr "object"); ("additionalProperties", jbool false); ("oneOf", jarr [jobj [("required",
  jarr [jstr "normalization_status"; jstr "no_findings_statement"]); ("properties", jobj [("normalization_status", jobj [("const", jstr
  "no_findings_produced")]); ("review_finding_drafts", jobj [("maxItems", jnum 0)]); ("no_findings_statement", jobj [("const", jstr "No findings were produced by the configured inputs")])])];
  jobj [("required", jarr [jstr "normalization_status"]); ("properties", jobj [("normalization_status", jobj [("const", jstr "drafts_created")]);
  ("review_finding_drafts", jobj [("minItems", jnum 1)])]); ("not", jobj [("required", jarr [jstr "no_findings_statement"])])]]); ("required",
  jarr [jstr "protocol_version"; jstr "review_id"; jstr "normalization_run_id"; jstr "normalization_status"; jstr "created_at"; jstr
  "vendor_receipt_ref"; jstr "evidence_bundle_id"; jstr "manifest_id"; jstr "source_scanner_finding_set_ref"; jstr "coverage_mode"; jstr
  "review_finding_drafts"; jstr "normalization_limitations"; jstr "source_derived_class"]); ("properties", review_finding_draft_set_properties)].
Definition review_scope_properties_from_protocol_version : list (string * json) :=
  [("protocol_version", jobj [("$ref", jstr "urn:codeattest:protocol:v0:shared-definitions#/$defs/protocol_version")]); ("review_scope_id",
  jobj [("$ref", jstr "urn:codeattest:protocol:v0:shared-definitions#/$defs/algorithm_prefixed_sha256_id")]); ("review_id", jobj [("type",
  jstr "string"); ("pattern", jstr "^review:[a-z0-9][a-z0-9_-]{2,63}$")]); ("generated_at", jobj [("$ref", jstr "urn:codeattest:protocol:v0:shared-definitions#/$defs/utc_rfc3339_timestamp")]);
  ("selected_application", jobj [("type", jstr "object"); ("additionalProperties", jbool false); ("required", jarr [jstr "application_id";
  jstr "display_name"]); ("properties", jobj [("application_id", jobj [("$ref", jstr "urn:codeattest:protocol:v0:shared-definitions#/$defs/non_empty_string")]);
  ("display_name", jobj [("$ref", jstr "urn:codeattest:protocol:v0:shared-definitions#/$defs/non_empty_string")])])]); ("selected_commit",
  jobj [("type", jstr "object"); ("additionalProperties", jbool false); ("required", jarr [jstr "commit_sha"; jstr "source_control_system"]);
  ("properties", jobj [("commit_sha", jobj [("type", jstr "string"); ("pattern", jstr "^[a-f0-9]{40}$")]); ("source_control_system",
  jobj [("type", jstr "string"); ("enum", jarr [jstr "git"])])])]); ("repository_identity", jobj [("$ref", jstr "urn:codeattest:protocol:v0:shared-definitions#/$defs/algorithm_prefixed_sha256_id")]);
  ("runner", jobj [("type", jstr "object"); ("additionalProperties", jbool false); ("required", jarr [jstr "name"; jstr "version"]);
  ("properties", jobj [("name", jobj [("type", jstr "string"); ("const", jstr "codeattest-local-runner")]); ("version", jobj [("$ref",
  jstr "urn:codeattest:protocol:v0:shared-definitions#/$defs/non_empty_string")])])]); ("technical_context", jobj [("type", jstr "array");
  ("maxItems", jnum 10000); ("minItems", jnum 1); ("items", jobj [("type", jstr "object"); ("additionalProperties", jbool false); ("required",
  jarr [jstr "context_type"; jstr "status"]); ("properties", jobj [("context_type", jobj [("type", jstr "string"); ("enum", jarr [jstr
  "language"; jstr "framework"; jstr "package_manager"; jstr "scanner"; jstr "ci_provider"])]); ("status", jobj [("type", jstr "string");
  ("enum", jarr [jstr "detected"; jstr "not_detected"; jstr "unsupported"; jstr "not_collected"])]); ("value", jobj [("type", jstr "string");
  ("minLength", jnum 1)])])])])].
Definition review_scope_properties_from_dependency_manifests : list (string * json) :=
  [("dependency_manifests", jobj [("type", jstr "array"); ("maxItems", jnum 10000); ("minItems", jnum 1); ("items", jobj [("type", jstr
  "object"); ("additionalProperties", jbool false); ("required", jarr [jstr "manifest_type"; jstr "status"; jstr "package_manager"; jstr
  "dependency_count"; jstr "dependencies"]); ("properties", jobj [("manifest_type", jobj [("type", jstr "string"); ("enum", jarr [jstr
  "package_json"; jstr "package_lock"; jstr "requirements_txt"; jstr "pyproject_toml"; jstr "pipfile"; jstr "pipfile_lock"; jstr "pnpm_lock";
  jstr "yarn_lock"])]); ("status", jobj [("type", jstr "string"); ("enum", jarr [jstr "detected"; jstr "not_found"; jstr "unsupported";
  jstr "malformed"])]); ("path", jobj [("$ref", jstr "urn:codeattest:protocol:v0:shared-definitions#/$defs/non_empty_string")]); ("package_manager",
  jobj [("type", jstr "string"); ("enum", jarr [jstr "npm"; jstr "pnpm"; jstr "yarn"; jstr "pip"; jstr "poetry"; jstr "pipenv"; jstr
  "unknown"])]); ("dependency_count", jobj [("type", jstr "integer"); ("minimum", jnum 0)]); ("dependencies", jobj [("type", jstr "array");
  ("maxItems", jnum 10000); ("items", jobj [("$ref", jstr "urn:codeattest:protocol:v0:shared-definitions#/$defs/non_empty_string")])]);
  ("limitation", jobj [("$ref", jstr "urn:codeattest:protocol:v0:shared-definitions#/$defs/non_empty_string")])])])])].
Definition review_scope_properties : json :=
  jobj (review_scope_properties_from_protocol_version ++ review_scope_properties_from_dependency_manifests).
Definition review_scope_schema : json :=
  jobj [("$schema", jstr "https://json-schema.org/draft/2020-12/schema"); ("$id", jstr "urn:codeattest:protocol:v0:review-scope"); ("title",
  jstr "Review Scope"); ("type", jstr "object"); ("additionalProperties", jbool false); ("required", jarr [jstr "protocol_version"; jstr
  "review_scope_id"; jstr "review_id"; jstr "generated_at"; jstr "selected_application"; jstr "selected_commit"; jstr "repository_identity";
  jstr "runner"; jstr "technical_context"; jstr "dependency_manifests"]); ("properties", review_scope_properties)].
Definition reviewer_validation_script_schema : json :=
  jobj [("$schema", jstr "https://json-schema.org/draft/2020-12/schema"); ("$id", jstr "urn:codeattest:protocol:v0:reviewer-validation-script");
  ("title", jstr "Reviewer Validation Script"); ("type", jstr "object"); ("additionalProperties", jbool false); ("required", jarr [jstr
  "protocol_version"; jstr "review_id"; jstr "validation_script_id"; jstr "validation_path_ref"; jstr "classification_record_ref"; jstr
  "script_package_status"; jstr "purpose"; jstr "prerequisites"; jstr "execution_steps"; jstr "expected_output"; jstr "safety_notes";
  jstr "output_attachment_instructions"; jstr "script_content"; jstr "authored_at"; jstr "actor"; jstr "source_derived_class"; jstr "visibility"]);
  ("properties", jobj [("protocol_version", jobj [("$ref", jstr "urn:codeattest:protocol:v0:shared-definitions#/$defs/protocol_version")]);
  ("review_id", jobj [("type", jstr "string"); ("pattern", jstr "^review:[a-z0-9][a-z0-9_-]{2,63}$")]); ("validation_script_id", jobj
  [("type", jstr "string"); ("pattern", jstr "^validation_script:[a-z0-9][a-z0-9_-]{2,63}$")]); ("validation_path_ref", jobj [("type",
  jstr "string"); ("pattern", jstr "^validation_path:[a-z0-9][a-z0-9_-]{2,63}$")]); ("classification_record_ref", jobj [("type", jstr
  "string"); ("pattern", jstr "^classification_record:[a-z0-9][a-z0-9_-]{2,63}$")]); ("remediation_guidance_ref", jobj [("type", jstr
  "string"); ("pattern", jstr "^remediation_guidance:[a-z0-9][a-z0-9_-]{2,63}$")]); ("script_package_status", jobj [("type", jstr "string");
  ("enum", jarr [jstr "included_base_package"; jstr "additional_script_candidate_pricing_tbd"])]); ("included_script_slot", jobj [("type",
  jstr "integer"); ("minimum", jnum 1); ("maximum", jnum 3)]); ("purpose", jobj [("$ref", jstr "urn:codeattest:protocol:v0:shared-definitions#/$defs/non_empty_string")]);
  ("prerequisites", jobj [("$ref", jstr "urn:codeattest:protocol:v0:shared-definitions#/$defs/non_empty_string")]); ("execution_steps",
  jobj [("$ref", jstr "urn:codeattest:protocol:v0:shared-definitions#/$defs/non_empty_string")]); ("expected_output", jobj [("$ref",
  jstr "urn:codeattest:protocol:v0:shared-definitions#/$defs/non_empty_string")]); ("safety_notes", jobj [("$ref", jstr "urn:codeattest:protocol:v0:shared-definitions#/$defs/non_empty_string")]);
  ("output_attachment_instructions", jobj [("$ref", jstr "urn:codeattest:protocol:v0:shared-definitions#/$defs/non_empty_string")]);
  ("script_content", jobj [("$ref", jstr "urn:codeattest:protocol:v0:shared-definitions#/$defs/non_empty_string")]); ("authored_at",
  jobj [("$ref", jstr "urn:codeattest:protocol:v0:shared-definitions#/$defs/utc_rfc3339_timestamp")]); ("actor", jobj [("type", jstr
  "object"); ("additionalProperties", jbool false); ("required", jarr [jstr "actor_type"; jstr "actor_id"]); ("properties", jobj [("actor_type",
  jobj [("type", jstr "string"); ("const", jstr "reviewer")]); ("actor_id", jobj [("$ref", jstr "urn:codeattest:protocol:v0:shared-definitions#/$defs/non_empty_string")])])]);
  ("source_derived_class", jobj [("type", jstr "string"); ("const", jstr "retained_review_artifact")]); ("visibility", jobj [("type",
  jstr "string"); ("enum", jarr [jstr "customer_facing"; jstr "internal_only"])])])].
Definition runner_key_enrollment_record_schema : json :=
  jobj [("$schema", jstr "https://json-schema.org/draft/2020-12/schema"); ("$id", jstr "urn:codeattest:protocol:v0:runner-key-enrollment-record");
  ("title", jstr "Runner Key Enrollment Record"); ("type", jstr "object"); ("additionalProperties", jbool false); ("required", jarr [jstr
  "protocol_version"; jstr "enrollment_id"; jstr "review_id"; jstr "runner_key_id"; jstr "runner_key_version"; jstr "algorithm_profile";
  jstr "public_key"; jstr "enrollment_method"; jstr "enrolled_at"; jstr "limitations"]); ("properties", jobj [("protocol_version", jobj
  [("$ref", jstr "urn:codeattest:protocol:v0:shared-definitions#/$defs/protocol_version")]); ("enrollment_id", jobj [("type", jstr "string");
  ("pattern", jstr "^runner_enrollment:[a-z0-9][a-z0-9_-]{2,63}$")]); ("review_id", jobj [("type", jstr "string"); ("pattern", jstr "^review:[a-z0-9][a-z0-9_-]{2,63}$")]);
  ("runner_key_id", jobj [("$ref", jstr "urn:codeattest:protocol:v0:shared-definitions#/$defs/non_empty_string")]); ("runner_key_version",
  jobj [("$ref", jstr "urn:codeattest:protocol:v0:shared-definitions#/$defs/non_empty_string")]); ("algorithm_profile", jobj [("type",
  jstr "string"); ("const", jstr "ml_dsa_65")]); ("public_key", jobj [("$ref", jstr "urn:codeattest:protocol:v0:shared-definitions#/$defs/ml_dsa_65_public_key")]);
  ("enrollment_method", jobj [("type", jstr "string"); ("enum", jarr [jstr "operator_verified"; jstr "trust_on_first_use"])]); ("enrolled_at",
  jobj [("$ref", jstr "urn:codeattest:protocol:v0:shared-definitions#/$defs/utc_rfc3339_timestamp")]); ("limitations", jobj [("type",
  jstr "array"); ("maxItems", jnum 100); ("minItems", jnum 1); ("items", jobj [("$ref", jstr "urn:codeattest:protocol:v0:shared-definitions#/$defs/narrative_string")])])])].
Definition runner_release_record_schema : json :=
  jobj [("$schema", jstr "https://json-schema.org/draft/2020-12/schema"); ("$id", jstr "urn:codeattest:protocol:v0:runner-release-record");
  ("title", jstr "Runner Release Record"); ("type", jstr "object"); ("additionalProperties", jbool false); ("required", jarr [jstr "protocol_version";
  jstr "release_identifier"; jstr "build_identifier"; jstr "artifact_digest"; jstr "released_at"; jstr "limitations"]); ("properties",
  jobj [("protocol_version", jobj [("$ref", jstr "urn:codeattest:protocol:v0:shared-definitions#/$defs/protocol_version")]); ("release_identifier",
  jobj [("$ref", jstr "urn:codeattest:protocol:v0:shared-definitions#/$defs/non_empty_string")]); ("build_identifier", jobj [("$ref",
  jstr "urn:codeattest:protocol:v0:shared-definitions#/$defs/non_empty_string")]); ("artifact_digest", jobj [("$ref", jstr "urn:codeattest:protocol:v0:shared-definitions#/$defs/algorithm_prefixed_sha256_id")]);
  ("released_at", jobj [("$ref", jstr "urn:codeattest:protocol:v0:shared-definitions#/$defs/utc_rfc3339_timestamp")]); ("limitations",
  jobj [("type", jstr "array"); ("maxItems", jnum 100); ("minItems", jnum 1); ("items", jobj [("$ref", jstr "urn:codeattest:protocol:v0:shared-definitions#/$defs/narrative_string")])])])].
Definition scanner_finding_set_properties_scanner_runs_items : json :=
  jobj [("type", jstr "object"); ("additionalProperties", jbool false); ("dependentSchemas", jobj [("failure_reason", jobj [("properties",
  jobj [("status", jobj [("enum", jarr [jstr "unavailable"; jstr "failed"; jstr "invalid_output"; jstr "skipped"])])]); ("required",
  jarr [jstr "status"])])]); ("allOf", jarr [jobj [("if", jobj [("properties", jobj [("status", jobj [("enum", jarr [jstr "unavailable";
  jstr "failed"; jstr "invalid_output"; jstr "skipped"])])]); ("required", jarr [jstr "status"])]); ("then", jobj [("required", jarr
  [jstr "failure_reason"])]); ("else", jobj [("not", jobj [("required", jarr [jstr "failure_reason"])])])]]); ("required", jarr [jstr
  "scanner_name"; jstr "scanner_version"; jstr "ruleset_identifier"; jstr "executed_at"; jstr "status"; jstr "covered_file_group"; jstr
  "scanned_files"; jstr "rerun_possible"; jstr "source_derived_class"]); ("properties", jobj [("scanner_name", jobj [("type", jstr "string");
  ("enum", jarr [jstr "regex"; jstr "semgrep"])]); ("scanner_version", jobj [("$ref", jstr "urn:codeattest:protocol:v0:shared-definitions#/$defs/non_empty_string")]);
  ("ruleset_identifier", jobj [("$ref", jstr "urn:codeattest:protocol:v0:shared-definitions#/$defs/non_empty_string")]); ("executed_at",
  jobj [("$ref", jstr "urn:codeattest:protocol:v0:shared-definitions#/$defs/utc_rfc3339_timestamp")]); ("status", jobj [("type", jstr
  "string"); ("enum", jarr [jstr "succeeded"; jstr "no_findings"; jstr "unavailable"; jstr "failed"; jstr "invalid_output"; jstr "skipped"])]);
  ("covered_file_group", jobj [("type", jstr "string"); ("enum", jarr [jstr "typescript_javascript"; jstr "python"; jstr "mixed"; jstr
  "unsupported"])]); ("scanned_files", jobj [("type", jstr "array"); ("maxItems", jnum 10000); ("items", jobj [("$ref", jstr "urn:codeattest:protocol:v0:shared-definitions#/$defs/non_empty_string")])]);
  ("failure_reason", jobj [("$ref", jstr "urn:codeattest:protocol:v0:shared-definitions#/$defs/non_empty_string")]); ("rerun_possible",
  jobj [("type", jstr "boolean")]); ("source_derived_class", jobj [("type", jstr "string"); ("const", jstr "retained_review_artifact")])])].
Definition scanner_finding_set_properties_scanner_runs : json :=
  jobj [("type", jstr "array"); ("maxItems", jnum 10000); ("minItems", jnum 1); ("items", scanner_finding_set_properties_scanner_runs_items)].
Definition scanner_finding_set_properties_from_protocol_version : list (string * json) :=
  [("protocol_version", jobj [("$ref", jstr "urn:codeattest:protocol:v0:shared-definitions#/$defs/protocol_version")]); ("scanner_finding_set_id",
  jobj [("$ref", jstr "urn:codeattest:protocol:v0:shared-definitions#/$defs/algorithm_prefixed_sha256_id")]); ("generated_at", jobj [("$ref",
  jstr "urn:codeattest:protocol:v0:shared-definitions#/$defs/utc_rfc3339_timestamp")]); ("review_scope_ref", jobj [("$ref", jstr "urn:codeattest:protocol:v0:shared-definitions#/$defs/algorithm_prefixed_sha256_id")]);
  ("runner", jobj [("type", jstr "object"); ("additionalProperties", jbool false); ("required", jarr [jstr "name"; jstr "version"]);
  ("properties", jobj [("name", jobj [("type", jstr "string"); ("const", jstr "codeattest-local-runner")]); ("version", jobj [("$ref",
  jstr "urn:codeattest:protocol:v0:shared-definitions#/$defs/non_empty_string")])])]); ("source_derived_class", jobj [("type", jstr "string");
  ("const", jstr "retained_review_artifact")]); ("scanner_runs", scanner_finding_set_properties_scanner_runs); ("candidate_findings",
  jobj [("type", jstr "array"); ("maxItems", jnum 10000); ("items", jobj [("type", jstr "object"); ("additionalProperties", jbool false);
  ("required", jarr [jstr "candidate_finding_id"; jstr "source"; jstr "affected_area"; jstr "scanner_rule_id"; jstr "original_reference";
  jstr "source_artifact_refs"; jstr "status"; jstr "source_derived_class"]); ("properties", jobj [("candidate_finding_id", jobj [("type",
  jstr "string"); ("pattern", jstr "^candidate_finding:[a-z0-9][a-z0-9_-]{2,63}$")]); ("source", jobj [("type", jstr "string"); ("enum",
  jarr [jstr "regex"; jstr "semgrep"])]); ("affected_area", jobj [("$ref", jstr "urn:codeattest:protocol:v0:shared-definitions#/$defs/non_empty_string")]);
  ("severity", jobj [("$ref", jstr "urn:codeattest:protocol:v0:shared-definitions#/$defs/non_empty_string")]); ("confidence", jobj [("type",
  jstr "string"); ("enum", jarr [jstr "low"; jstr "medium"; jstr "high"; jstr "unknown"])]); ("scanner_rule_id", jobj [("$ref", jstr
  "urn:codeattest:protocol:v0:shared-definitions#/$defs/non_empty_string")]); ("original_reference", jobj [("$ref", jstr "urn:codeattest:protocol:v0:shared-definitions#/$defs/non_empty_string")]);
  ("source_artifact_refs", jobj [("type", jstr "array"); ("maxItems", jnum 10000); ("uniqueItems", jbool true); ("items", jobj [("type",
  jstr "string"); ("pattern", jstr "^artifact_ref:[a-z0-9][a-z0-9_-]{2,63}$")])]); ("status", jobj [("type", jstr "string"); ("enum",
  jarr [jstr "candidate"])]); ("source_derived_class", jobj [("type", jstr "string"); ("const", jstr "retained_review_artifact")])])])])].
Definition scanner_finding_set_properties_from_coverage_limitations : list (string * json) :=
  [("coverage_limitations", jobj [("type", jstr "array"); ("maxItems", jnum 100); ("items", jobj [("$ref", jstr "urn:codeattest:protocol:v0:shared-definitions#/$defs/narrative_string")])]);
  ("artifact_references", jobj [("type", jstr "array"); ("maxItems", jnum 10000); ("items", jobj [("$ref", jstr "urn:codeattest:protocol:v0:artifact-reference")])])].
Definition scanner_finding_set_properties : json :=
  jobj (scanner_finding_set_properties_from_protocol_version ++ scanner_finding_set_properties_from_coverage_limitations).
Definition scanner_finding_set_schema : json :=
  jobj [("$schema", jstr "https://json-schema.org/draft/2020-12/schema"); ("$id", jstr "urn:codeattest:protocol:v0:scanner-finding-set");
  ("title", jstr "Scanner Finding Set"); ("type", jstr "object"); ("additionalProperties", jbool false); ("required", jarr [jstr "protocol_version";
  jstr "scanner_finding_set_id"; jstr "generated_at"; jstr "review_scope_ref"; jstr "runner"; jstr "source_derived_class"; jstr "scanner_runs";
  jstr "candidate_findings"; jstr "coverage_limitations"; jstr "artifact_references"]); ("properties", scanner_finding_set_properties)].
Definition security_review_attestation_properties_sections_allOf : json :=
  jarr [jobj [("contains", jobj [("properties", jobj [("section_type", jobj [("const", jstr "scope")])]); ("required", jarr [jstr "section_type"])]);
  ("minContains", jnum 1); ("maxContains", jnum 1)]; jobj [("contains", jobj [("properties", jobj [("section_type", jobj [("const", jstr
  "method")])]); ("required", jarr [jstr "section_type"])]); ("minContains", jnum 1); ("maxContains", jnum 1)]; jobj [("contains", jobj
  [("properties", jobj [("section_type", jobj [("const", jstr "receipt_chain")])]); ("required", jarr [jstr "section_type"])]); ("minContains",
  jnum 1); ("maxContains", jnum 1)]; jobj [("contains", jobj [("properties", jobj [("section_type", jobj [("const", jstr "findings_and_classification")])]);
  ("required", jarr [jstr "section_type"])]); ("minContains", jnum 1); ("maxContains", jnum 1)]; jobj [("contains", jobj [("properties",
  jobj [("section_type", jobj [("const", jstr "remediation_and_validation")])]); ("required", jarr [jstr "section_type"])]); ("minContains",
  jnum 1); ("maxContains", jnum 1)]; jobj [("contains", jobj [("properties", jobj [("section_type", jobj [("const", jstr "verification_outcomes")])]);
  ("required", jarr [jstr "section_type"])]); ("minContains", jnum 1); ("maxContains", jnum 1)]; jobj [("contains", jobj [("properties",
  jobj [("section_type", jobj [("const", jstr "evidence_lifecycle")])]); ("required", jarr [jstr "section_type"])]); ("minContains",
  jnum 1); ("maxContains", jnum 1)]; jobj [("contains", jobj [("properties", jobj [("section_type", jobj [("const", jstr "limitations")])]);
  ("required", jarr [jstr "section_type"])]); ("minContains", jnum 1); ("maxContains", jnum 1)]].
Definition security_review_attestation_properties_sections : json :=
  jobj [("type", jstr "array"); ("minItems", jnum 8); ("maxItems", jnum 8); ("allOf", security_review_attestation_properties_sections_allOf);
  ("items", jobj [("type", jstr "object"); ("additionalProperties", jbool false); ("required", jarr [jstr "section_id"; jstr "section_type";
  jstr "title"; jstr "summary"; jstr "scope"; jstr "evidence_basis"; jstr "limitations"; jstr "supporting_artifact_refs"]); ("properties",
  jobj [("section_id", jobj [("type", jstr "string"); ("pattern", jstr "^attestation_section:[a-z0-9][a-z0-9_-]{2,63}$")]); ("section_type",
  jobj [("type", jstr "string"); ("enum", jarr [jstr "scope"; jstr "method"; jstr "receipt_chain"; jstr "findings_and_classification";
  jstr "remediation_and_validation"; jstr "verification_outcomes"; jstr "evidence_lifecycle"; jstr "limitations"])]); ("title", jobj
  [("$ref", jstr "urn:codeattest:protocol:v0:shared-definitions#/$defs/non_empty_string")]); ("summary", jobj [("$ref", jstr "urn:codeattest:protocol:v0:shared-definitions#/$defs/non_empty_string")]);
  ("scope", jobj [("$ref", jstr "urn:codeattest:protocol:v0:shared-definitions#/$defs/non_empty_string")]); ("evidence_basis", jobj [("type",
  jstr "array"); ("maxItems", jnum 100); ("minItems", jnum 1); ("items", jobj [("$ref", jstr "urn:codeattest:protocol:v0:shared-definitions#/$defs/narrative_string")])]);
  ("limitations", jobj [("type", jstr "array"); ("maxItems", jnum 100); ("minItems", jnum 1); ("items", jobj [("$ref", jstr "urn:codeattest:protocol:v0:shared-definitions#/$defs/narrative_string")])]);
  ("supporting_artifact_refs", jobj [("type", jstr "array"); ("maxItems", jnum 10000); ("minItems", jnum 1); ("uniqueItems", jbool true);
  ("items", jobj [("type", jstr "string"); ("pattern", jstr "^artifact_ref:[a-z0-9][a-z0-9_-]{2,63}$")])])])])].
Definition security_review_attestation_properties_from_protocol_version : list (string * json) :=
  [("protocol_version", jobj [("$ref", jstr "urn:codeattest:protocol:v0:shared-definitions#/$defs/protocol_version")]); ("attestation_id",
  jobj [("type", jstr "string"); ("pattern", jstr "^attestation:[a-f0-9]{64}$")]); ("attestation_version", jobj [("type", jstr "integer");
  ("minimum", jnum 1); ("maximum", jnum 9007199254740991)]); ("review_id", jobj [("type", jstr "string"); ("pattern", jstr "^review:[a-z0-9][a-z0-9_-]{2,63}$")]);
  ("generated_at", jobj [("$ref", jstr "urn:codeattest:protocol:v0:shared-definitions#/$defs/utc_rfc3339_timestamp")]); ("generated_by",
  jobj [("type", jstr "object"); ("additionalProperties", jbool false); ("required", jarr [jstr "actor_type"; jstr "actor_id"]); ("properties",
  jobj [("actor_type", jobj [("type", jstr "string"); ("enum", jarr [jstr "reviewer"; jstr "vendor_service"])]); ("actor_id", jobj [("$ref",
  jstr "urn:codeattest:protocol:v0:shared-definitions#/$defs/non_empty_string")])])]); ("review_scope_ref", jobj [("$ref", jstr "urn:codeattest:protocol:v0:shared-definitions#/$defs/algorithm_prefixed_sha256_id")]);
  ("selected_commit", jobj [("type", jstr "object"); ("additionalProperties", jbool false); ("required", jarr [jstr "commit_sha"; jstr
  "source_control_system"]); ("properties", jobj [("commit_sha", jobj [("type", jstr "string"); ("pattern", jstr "^[a-f0-9]{40}$")]);
  ("source_control_system", jobj [("type", jstr "string"); ("const", jstr "git")])])]); ("repository_identity", jobj [("$ref", jstr "urn:codeattest:protocol:v0:shared-definitions#/$defs/algorithm_prefixed_sha256_id")]);
  ("method", jobj [("type", jstr "object"); ("additionalProperties", jbool false); ("required", jarr [jstr "coverage_mode"; jstr "scanner_versions";
  jstr "tooling_summary"; jstr "disclosure_summary"; jstr "method_limitations"]); ("properties", jobj [("coverage_mode", jobj [("$ref",
  jstr "urn:codeattest:protocol:v0:shared-definitions#/$defs/coverage_mode")]); ("scanner_versions", jobj [("type", jstr "array"); ("maxItems",
  jnum 10000); ("minItems", jnum 1); ("uniqueItems", jbool true); ("items", jobj [("$ref", jstr "urn:codeattest:protocol:v0:shared-definitions#/$defs/non_empty_string")])]);
  ("tooling_summary", jobj [("$ref", jstr "urn:codeattest:protocol:v0:shared-definitions#/$defs/non_empty_string")]); ("disclosure_summary",
  jobj [("$ref", jstr "urn:codeattest:protocol:v0:shared-definitions#/$defs/non_empty_string")]); ("method_limitations", jobj [("type",
  jstr "array"); ("maxItems", jnum 100); ("minItems", jnum 1); ("items", jobj [("$ref", jstr "urn:codeattest:protocol:v0:shared-definitions#/$defs/narrative_string")])])])])].
Definition security_review_attestation_properties_from_receipt_chain : list (string * json) :=
  [("receipt_chain", jobj [("type", jstr "object"); ("additionalProperties", jbool false); ("required", jarr [jstr "manifest_id"; jstr
  "evidence_bundle_id"; jstr "vendor_receipt_id"; jstr "receipt_timestamp"; jstr "verification_state"]); ("properties", jobj [("manifest_id",
  jobj [("$ref", jstr "urn:codeattest:protocol:v0:shared-definitions#/$defs/algorithm_prefixed_sha256_id")]); ("evidence_bundle_id",
  jobj [("$ref", jstr "urn:codeattest:protocol:v0:shared-definitions#/$defs/algorithm_prefixed_sha256_id")]); ("vendor_receipt_id", jobj
  [("$ref", jstr "urn:codeattest:protocol:v0:shared-definitions#/$defs/algorithm_prefixed_sha256_id")]); ("receipt_timestamp", jobj [("$ref",
  jstr "urn:codeattest:protocol:v0:shared-definitions#/$defs/utc_rfc3339_timestamp")]); ("verification_state", jobj [("type", jstr "string");
  ("const", jstr "received_with_receipt")])])]); ("sections", security_review_attestation_properties_sections); ("verification_addendum_refs",
  jobj [("type", jstr "array"); ("maxItems", jnum 10000); ("uniqueItems", jbool true); ("items", jobj [("type", jstr "string"); ("pattern",
  jstr "^verification_addendum:[a-z0-9][a-z0-9_-]{2,63}$")])]); ("evidence_minimization_ref", jobj [("type", jstr "string"); ("pattern",
  jstr "^evidence_minimization:[a-z0-9][a-z0-9_-]{2,63}$")]); ("deletion_evidence_refs", jobj [("type", jstr "array"); ("maxItems", jnum
  10000); ("uniqueItems", jbool true); ("items", jobj [("type", jstr "string"); ("pattern", jstr "^deletion_evidence:[a-z0-9][a-z0-9_-]{2,63}$")])]);
  ("supporting_evidence_mapping_ref", jobj [("type", jstr "string"); ("pattern", jstr "^supporting_evidence_mapping:[a-z0-9][a-z0-9_-]{2,63}$")]);
  ("limitations", jobj [("type", jstr "array"); ("maxItems", jnum 100); ("minItems", jnum 1); ("items", jobj [("$ref", jstr "urn:codeattest:protocol:v0:shared-definitions#/$defs/narrative_string")])]);
  ("supporting_artifact_refs", jobj [("type", jstr "array"); ("maxItems", jnum 10000); ("minItems", jnum 1); ("uniqueItems", jbool true);
  ("items", jobj [("type", jstr "string"); ("pattern", jstr "^artifact_ref:[a-z0-9][a-z0-9_-]{2,63}$")])]); ("customer_safe_projection",
  jobj [("type", jstr "boolean"); ("const", jbool true)]); ("source_derived_class", jobj [("type", jstr "string"); ("const", jstr "retained_review_artifact")]);
  ("visibility", jobj [("type", jstr "string"); ("const", jstr "customer_facing")]); ("canonicalization", jobj [("type", jstr "string");
  ("const", jstr "rfc8785")]); ("identity_hash_algorithm", jobj [("type", jstr "string"); ("const", jstr "sha256")]); ("identity_input_excludes",
  jobj [("type", jstr "array"); ("minItems", jnum 1); ("maxItems", jnum 1); ("uniqueItems", jbool true); ("items", jobj [("type", jstr
  "string"); ("const", jstr "attestation_id")])])].
Definition security_review_attestation_properties : json :=
  jobj (security_review_attestation_properties_from_protocol_version ++ security_review_attestation_properties_from_receipt_chain).
Definition security_review_attestation_schema : json :=
  jobj [("$schema", jstr "https://json-schema.org/draft/2020-12/schema"); ("$id", jstr "urn:codeattest:protocol:v0:security-review-attestation");
  ("title", jstr "Security Review Attestation"); ("type", jstr "object"); ("additionalProperties", jbool false); ("required", jarr [jstr
  "protocol_version"; jstr "attestation_id"; jstr "attestation_version"; jstr "review_id"; jstr "generated_at"; jstr "generated_by";
  jstr "review_scope_ref"; jstr "selected_commit"; jstr "repository_identity"; jstr "method"; jstr "receipt_chain"; jstr "sections";
  jstr "verification_addendum_refs"; jstr "evidence_minimization_ref"; jstr "deletion_evidence_refs"; jstr "limitations"; jstr "supporting_artifact_refs";
  jstr "customer_safe_projection"; jstr "source_derived_class"; jstr "visibility"; jstr "canonicalization"; jstr "identity_hash_algorithm";
  jstr "identity_input_excludes"]); ("properties", security_review_attestation_properties)].
Definition shared_definitions_schema : json :=
  jobj [("$schema", jstr "https://json-schema.org/draft/2020-12/schema"); ("$id", jstr "urn:codeattest:protocol:v0:shared-definitions");
  ("title", jstr "CodeAttest Protocol v0 Shared Definitions"); ("$defs", jobj [("actor_reference", jobj [("type", jstr "object"); ("additionalProperties",
  jbool false); ("required", jarr [jstr "actor_type"; jstr "actor_id"]); ("properties", jobj [("actor_type", jobj [("type", jstr "string");
  ("enum", jarr [jstr "local_runner"; jstr "customer_user"; jstr "vendor_service"; jstr "reviewer"])]); ("actor_id", jobj [("$ref", jstr
  "urn:codeattest:protocol:v0:shared-definitions#/$defs/non_empty_string")])])]); ("algorithm_prefixed_sha256_id", jobj [("type", jstr
  "string"); ("pattern", jstr "^sha256:[a-f0-9]{64}$")]); ("artifact_digest", jobj [("type", jstr "string"); ("pattern", jstr "^sha256:[a-f0-9]{64}$")]);
  ("coverage_mode", jobj [("type", jstr "string"); ("enum", jarr [jstr "metadata_only"; jstr "finding_context_snippets"; jstr "extended_approved_snippets_or_targeted_files"])]);
  ("ml_dsa_65_signature", jobj [("type", jstr "string"); ("pattern", jstr "^ml_dsa_65:[A-Za-z0-9_-]{4412}$")]); ("ml_dsa_65_public_key",
  jobj [("type", jstr "string"); ("pattern", jstr "^[A-Za-z0-9_-]{2603}$")]); ("narrative_string", jobj [("type", jstr "string"); ("minLength",
  jnum 1); ("maxLength", jnum 4096)]); ("non_empty_string", jobj [("type", jstr "string"); ("minLength", jnum 1); ("maxLength", jnum
  65536)]); ("protocol_version", jobj [("type", jstr "string"); ("const", jstr "codeattest.v0")]); ("sha256_hex", jobj [("type", jstr
  "string"); ("pattern", jstr "^[a-f0-9]{64}$")]); ("snake_case_field_name", jobj [("type", jstr "string"); ("pattern", jstr "^[a-z][a-z0-9_]*$")]);
  ("utc_rfc3339_timestamp", jobj [("type", jstr "string"); ("pattern", jstr "^[0-9]{4}-(?:0[1-9]|1[0-2])-(?:0[1-9]|[12][0-9]|3[01])T(?:[01][0-9]|2[0-3]):[0-5][0-9]:(?:[0-5][0-9]|60)(?:\.[0-9]{1,9})?(?:Z|\+00:00)$")])])].
Definition signature_envelope_schema : json :=
  jobj [("$schema", jstr "https://json-schema.org/draft/2020-12/schema"); ("$id", jstr "urn:codeattest:protocol:v0:signature-envelope");
  ("title", jstr "Signature Envelope"); ("type", jstr "object"); ("additionalProperties", jbool false); ("required", jarr [jstr "protocol_version";
  jstr "algorithm_profile"; jstr "key_id"; jstr "key_version"; jstr "signing_time"; jstr "signed_identity_type"; jstr "signed_identity";
  jstr "canonicalization"; jstr "signing_mode"; jstr "signing_limitations"; jstr "signature_bytes"]); ("properties", jobj [("protocol_version",
  jobj [("$ref", jstr "urn:codeattest:protocol:v0:shared-definitions#/$defs/protocol_version")]); ("algorithm_profile", jobj [("type",
  jstr "string"); ("const", jstr "ml_dsa_65")]); ("key_id", jobj [("$ref", jstr "urn:codeattest:protocol:v0:shared-definitions#/$defs/non_empty_string")]);
  ("key_version", jobj [("$ref", jstr "urn:codeattest:protocol:v0:shared-definitions#/$defs/non_empty_string")]); ("signing_time", jobj
  [("$ref", jstr "urn:codeattest:protocol:v0:shared-definitions#/$defs/utc_rfc3339_timestamp")]); ("signed_identity_type", jobj [("type",
  jstr "string"); ("enum", jarr [jstr "outbound_manifest"; jstr "evidence_bundle"; jstr "vendor_receipt"; jstr "static_bundle_manifest";
  jstr "attestation_package_finalization"; jstr "disclosure_policy"; jstr "review_event"; jstr "security_review_attestation"; jstr "signing_key_directory";
  jstr "runner_release"; jstr "environment_readiness_decision"])]); ("signed_identity", jobj [("$ref", jstr "urn:codeattest:protocol:v0:shared-definitions#/$defs/algorithm_prefixed_sha256_id")]);
  ("canonicalization", jobj [("type", jstr "string"); ("const", jstr "rfc8785")]); ("signing_mode", jobj [("type", jstr "string"); ("enum",
  jarr [jstr "managed_key"; jstr "enrolled_runner_key"])]); ("signing_limitations", jobj [("type", jstr "array"); ("maxItems", jnum 100);
  ("minItems", jnum 1); ("items", jobj [("$ref", jstr "urn:codeattest:protocol:v0:shared-definitions#/$defs/narrative_string")])]); ("signature_bytes",
  jobj [("$ref", jstr "urn:codeattest:protocol:v0:shared-definitions#/$defs/ml_dsa_65_signature")])])].
Definition signature_verification_outcome_schema : json :=
  jobj [("$schema", jstr "https://json-schema.org/draft/2020-12/schema"); ("$id", jstr "urn:codeattest:protocol:v0:signature-verification-outcome");
  ("title", jstr "Signature Verification Outcome"); ("type", jstr "object"); ("additionalProperties", jbool false); ("required", jarr
  [jstr "protocol_version"; jstr "signed_identity_type"; jstr "signed_identity"; jstr "algorithm_profile"; jstr "key_id"; jstr "key_version";
  jstr "key_directory_version"; jstr "verified_at"; jstr "result"]); ("properties", jobj [("protocol_version", jobj [("$ref", jstr "urn:codeattest:protocol:v0:shared-definitions#/$defs/protocol_version")]);
  ("signed_identity_type", jobj [("type", jstr "string"); ("enum", jarr [jstr "outbound_manifest"; jstr "evidence_bundle"; jstr "vendor_receipt";
  jstr "static_bundle_manifest"; jstr "attestation_package_finalization"; jstr "disclosure_policy"; jstr "review_event"; jstr "security_review_attestation";
  jstr "signing_key_directory"; jstr "environment_readiness_decision"])]); ("signed_identity", jobj [("$ref", jstr "urn:codeattest:protocol:v0:shared-definitions#/$defs/algorithm_prefixed_sha256_id")]);
  ("algorithm_profile", jobj [("type", jstr "string"); ("const", jstr "ml_dsa_65")]); ("key_id", jobj [("$ref", jstr "urn:codeattest:protocol:v0:shared-definitions#/$defs/non_empty_string")]);
  ("key_version", jobj [("$ref", jstr "urn:codeattest:protocol:v0:shared-definitions#/$defs/non_empty_string")]); ("key_directory_version",
  jobj [("type", jstr "integer"); ("minimum", jnum 1); ("maximum", jnum 9007199254740991)]); ("verified_at", jobj [("$ref", jstr "urn:codeattest:protocol:v0:shared-definitions#/$defs/utc_rfc3339_timestamp")]);
  ("result", jobj [("type", jstr "string"); ("enum", jarr [jstr "verified"; jstr "signature_bytes_untrusted"; jstr "signature_key_unknown";
  jstr "signature_key_revoked"; jstr "signature_key_outside_validity_window"; jstr "signature_key_algorithm_mismatch"; jstr "signature_key_directory_untrusted";
  jstr "signature_signing_input_mismatch"])])])].
Definition signing_key_directory_schema : json :=
  jobj [("$schema", jstr "https://json-schema.org/draft/2020-12/schema"); ("$id", jstr "urn:codeattest:protocol:v0:signing-key-directory");
  ("title", jstr "Signing Key Directory"); ("type", jstr "object"); ("additionalProperties", jbool false); ("required", jarr [jstr "protocol_version";
  jstr "directory_version"; jstr "trust_anchor_key_id"; jstr "published_at"; jstr "keys"; jstr "directory_signature"]); ("properties",
  jobj [("protocol_version", jobj [("$ref", jstr "urn:codeattest:protocol:v0:shared-definitions#/$defs/protocol_version")]); ("directory_version",
  jobj [("type", jstr "integer"); ("minimum", jnum 1); ("maximum", jnum 9007199254740991)]); ("trust_anchor_key_id", jobj [("$ref", jstr
  "urn:codeattest:protocol:v0:shared-definitions#/$defs/non_empty_string")]); ("published_at", jobj [("$ref", jstr "urn:codeattest:protocol:v0:shared-definitions#/$defs/utc_rfc3339_timestamp")]);
  ("keys", jobj [("type", jstr "array"); ("minItems", jnum 1); ("maxItems", jnum 1000); ("items", jobj [("$ref", jstr "urn:codeattest:protocol:v0:signing-key-record")])]);
  ("directory_signature", jobj [("$ref", jstr "urn:codeattest:protocol:v0:signature-envelope")])])].
Definition signing_key_record_schema : json :=
  jobj [("$schema", jstr "https://json-schema.org/draft/2020-12/schema"); ("$id", jstr "urn:codeattest:protocol:v0:signing-key-record");
  ("title", jstr "Signing Key Record"); ("type", jstr "object"); ("additionalProperties", jbool false); ("required", jarr [jstr "protocol_version";
  jstr "key_id"; jstr "key_version"; jstr "algorithm_profile"; jstr "public_key"; jstr "custody_mode"; jstr "valid_from"; jstr "status";
  jstr "limitations"]); ("properties", jobj [("protocol_version", jobj [("$ref", jstr "urn:codeattest:protocol:v0:shared-definitions#/$defs/protocol_version")]);
  ("key_id", jobj [("$ref", jstr "urn:codeattest:protocol:v0:shared-definitions#/$defs/non_empty_string")]); ("key_version", jobj [("$ref",
  jstr "urn:codeattest:protocol:v0:shared-definitions#/$defs/non_empty_string")]); ("algorithm_profile", jobj [("type", jstr "string");
  ("const", jstr "ml_dsa_65")]); ("public_key", jobj [("$ref", jstr "urn:codeattest:protocol:v0:shared-definitions#/$defs/ml_dsa_65_public_key")]);
  ("custody_mode", jobj [("type", jstr "string"); ("enum", jarr [jstr "offline_trust_anchor"; jstr "self_hosted_software"; jstr "customer_held_runner"])]);
  ("valid_from", jobj [("$ref", jstr "urn:codeattest:protocol:v0:shared-definitions#/$defs/utc_rfc3339_timestamp")]); ("valid_until",
  jobj [("$ref", jstr "urn:codeattest:protocol:v0:shared-definitions#/$defs/utc_rfc3339_timestamp")]); ("status", jobj [("type", jstr
  "string"); ("enum", jarr [jstr "active"; jstr "retired"; jstr "revoked"])]); ("limitations", jobj [("type", jstr "array"); ("maxItems",
  jnum 100); ("minItems", jnum 1); ("items", jobj [("$ref", jstr "urn:codeattest:protocol:v0:shared-definitions#/$defs/narrative_string")])])])].
Definition static_bundle_manifest_properties_from_protocol_version : list (string * json) :=
  [("protocol_version", jobj [("$ref", jstr "urn:codeattest:protocol:v0:shared-definitions#/$defs/protocol_version")]); ("static_bundle_id",
  jobj [("type", jstr "string"); ("pattern", jstr "^static_bundle:[a-z0-9][a-z0-9_-]{2,63}$")]); ("static_bundle_manifest_id", jobj [("$ref",
  jstr "urn:codeattest:protocol:v0:shared-definitions#/$defs/algorithm_prefixed_sha256_id")]); ("manifest_version", jobj [("type", jstr
  "integer"); ("minimum", jnum 1); ("maximum", jnum 9007199254740991)]); ("package_state", jobj [("type", jstr "string"); ("enum", jarr
  [jstr "generated"; jstr "finalized"])]); ("review_id", jobj [("type", jstr "string"); ("pattern", jstr "^review:[a-z0-9][a-z0-9_-]{2,63}$")]);
  ("created_at", jobj [("$ref", jstr "urn:codeattest:protocol:v0:shared-definitions#/$defs/utc_rfc3339_timestamp")]); ("supersedes_static_bundle_manifest_id",
  jobj [("$ref", jstr "urn:codeattest:protocol:v0:shared-definitions#/$defs/algorithm_prefixed_sha256_id")]); ("attestation_ref", jobj
  [("type", jstr "string"); ("pattern", jstr "^attestation:[a-f0-9]{64}$")]); ("vendor_receipt_ref", jobj [("$ref", jstr "urn:codeattest:protocol:v0:shared-definitions#/$defs/algorithm_prefixed_sha256_id")]);
  ("evidence_bundle_representation", jobj [("type", jstr "object"); ("additionalProperties", jbool false); ("required", jarr [jstr "evidence_bundle_id";
  jstr "bundle_manifest_ref"; jstr "signature_ref"; jstr "identity_ref"; jstr "retained_export_approved_payload_refs"]); ("properties",
  jobj [("evidence_bundle_id", jobj [("$ref", jstr "urn:codeattest:protocol:v0:shared-definitions#/$defs/algorithm_prefixed_sha256_id")]);
  ("bundle_manifest_ref", jobj [("type", jstr "string"); ("pattern", jstr "^artifact_ref:[a-z0-9][a-z0-9_-]{2,63}$")]); ("signature_ref",
  jobj [("type", jstr "string"); ("pattern", jstr "^artifact_ref:[a-z0-9][a-z0-9_-]{2,63}$")]); ("identity_ref", jobj [("type", jstr
  "string"); ("pattern", jstr "^artifact_ref:[a-z0-9][a-z0-9_-]{2,63}$")]); ("retained_export_approved_payload_refs", jobj [("type",
  jstr "array"); ("maxItems", jnum 10000); ("uniqueItems", jbool true); ("items", jobj [("type", jstr "string"); ("pattern", jstr "^artifact_ref:[a-z0-9][a-z0-9_-]{2,63}$")])])])]);
  ("portal_projection_ref", jobj [("type", jstr "string"); ("pattern", jstr "^static_portal_projection:[a-z0-9][a-z0-9_-]{2,63}$")])].
Definition static_bundle_manifest_properties_from_files : list (string * json) :=
  [("files", jobj [("type", jstr "array"); ("maxItems", jnum 10000); ("minItems", jnum 6); ("items", jobj [("type", jstr "object"); ("additionalProperties",
  jbool false); ("required", jarr [jstr "relative_path"; jstr "artifact_ref"; jstr "media_type"; jstr "digest"; jstr "size_bytes"; jstr
  "artifact_role"; jstr "source_derived_class"; jstr "inclusion_reason"]); ("properties", jobj [("relative_path", jobj [("type", jstr
  "string"); ("pattern", jstr "^(?!/)(?!.*(?:^|/)\.\.(?:/|$))(?!.*\\)[a-zA-Z0-9._/-]+$")]); ("artifact_ref", jobj [("type", jstr "string");
  ("pattern", jstr "^artifact_ref:[a-z0-9][a-z0-9_-]{2,63}$")]); ("media_type", jobj [("$ref", jstr "urn:codeattest:protocol:v0:shared-definitions#/$defs/non_empty_string")]);
  ("digest", jobj [("$ref", jstr "urn:codeattest:protocol:v0:shared-definitions#/$defs/artifact_digest")]); ("size_bytes", jobj [("type",
  jstr "integer"); ("minimum", jnum 0); ("maximum", jnum 9007199254740991)]); ("artifact_role", jobj [("type", jstr "string"); ("enum",
  jarr [jstr "attestation"; jstr "vendor_receipt"; jstr "evidence_bundle_representation"; jstr "supporting_evidence"; jstr "portal";
  jstr "portal_asset"; jstr "verification_metadata"])]); ("source_derived_class", jobj [("type", jstr "string"); ("enum", jarr [jstr
  "never_collected"; jstr "retained_review_artifact"; jstr "customer_opt_in_retained_source"])]); ("inclusion_reason", jobj [("$ref",
  jstr "urn:codeattest:protocol:v0:shared-definitions#/$defs/non_empty_string")])])])])].
Definition static_bundle_manifest_properties_from_minimization_disposition : list (string * json) :=
  [("minimization_disposition", jobj [("type", jstr "object"); ("additionalProperties", jbool false); ("required", jarr [jstr "included_retained_refs";
  jstr "excluded_refs"; jstr "deleted_refs"; jstr "never_collected_refs"]); ("properties", jobj [("included_retained_refs", jobj [("type",
  jstr "array"); ("maxItems", jnum 10000); ("uniqueItems", jbool true); ("items", jobj [("type", jstr "string"); ("pattern", jstr "^artifact_ref:[a-z0-9][a-z0-9_-]{2,63}$")])]);
  ("excluded_refs", jobj [("type", jstr "array"); ("maxItems", jnum 10000); ("uniqueItems", jbool true); ("items", jobj [("type", jstr
  "string"); ("pattern", jstr "^artifact_ref:[a-z0-9][a-z0-9_-]{2,63}$")])]); ("deleted_refs", jobj [("type", jstr "array"); ("maxItems",
  jnum 10000); ("uniqueItems", jbool true); ("items", jobj [("type", jstr "string"); ("pattern", jstr "^deletion_evidence:[a-z0-9][a-z0-9_-]{2,63}$")])]);
  ("never_collected_refs", jobj [("type", jstr "array"); ("maxItems", jnum 10000); ("uniqueItems", jbool true); ("items", jobj [("type",
  jstr "string"); ("pattern", jstr "^artifact_ref:[a-z0-9][a-z0-9_-]{2,63}$")])])])]); ("verification_metadata", jobj [("type", jstr
  "object"); ("additionalProperties", jbool false); ("required", jarr [jstr "manifest_signature_ref"; jstr "signing_input_ref"; jstr
  "verification_instructions_path"; jstr "offline_verification_supported"; jstr "all_file_digests_verified"]); ("properties", jobj [("manifest_signature_ref",
  jobj [("type", jstr "string"); ("pattern", jstr "^artifact_ref:[a-z0-9][a-z0-9_-]{2,63}$")]); ("signing_input_ref", jobj [("type",
  jstr "string"); ("pattern", jstr "^artifact_ref:[a-z0-9][a-z0-9_-]{2,63}$")]); ("verification_instructions_path", jobj [("type", jstr
  "string"); ("pattern", jstr "^(?!/)(?!.*(?:^|/)\.\.(?:/|$))(?!.*\\)[a-zA-Z0-9._/-]+$")]); ("offline_verification_supported", jobj [("type",
  jstr "boolean"); ("const", jbool true)]); ("all_file_digests_verified", jobj [("type", jstr "boolean"); ("const", jbool true)])])]);
  ("canonicalization", jobj [("type", jstr "string"); ("const", jstr "rfc8785")]); ("identity_hash_algorithm", jobj [("type", jstr "string");
  ("const", jstr "sha256")]); ("identity_input_excludes", jobj [("type", jstr "array"); ("minItems", jnum 1); ("maxItems", jnum 1); ("uniqueItems",
  jbool true); ("items", jobj [("type", jstr "string"); ("const", jstr "static_bundle_manifest_id")])])].
Definition static_bundle_manifest_properties : json :=
  jobj (static_bundle_manifest_properties_from_protocol_version ++ static_bundle_manifest_properties_from_files ++ static_bundle_manifest_properties_from_minimization_disposition).
Definition static_bundle_manifest_schema : json :=
  jobj [("$schema", jstr "https://json-schema.org/draft/2020-12/schema"); ("$id", jstr "urn:codeattest:protocol:v0:static-bundle-manifest");
  ("title", jstr "Static Bundle Manifest"); ("type", jstr "object"); ("additionalProperties", jbool false); ("required", jarr [jstr "protocol_version";
  jstr "static_bundle_id"; jstr "static_bundle_manifest_id"; jstr "manifest_version"; jstr "package_state"; jstr "review_id"; jstr "created_at";
  jstr "attestation_ref"; jstr "vendor_receipt_ref"; jstr "evidence_bundle_representation"; jstr "portal_projection_ref"; jstr "files";
  jstr "minimization_disposition"; jstr "verification_metadata"; jstr "canonicalization"; jstr "identity_hash_algorithm"; jstr "identity_input_excludes"]);
  ("properties", static_bundle_manifest_properties)].
Definition static_bundle_verification_package_schema : json :=
  jobj [("$schema", jstr "https://json-schema.org/draft/2020-12/schema"); ("$id", jstr "urn:codeattest:protocol:v0:static-bundle-verification-package");
  ("title", jstr "Static Bundle Verification Package"); ("type", jstr "object"); ("additionalProperties", jbool false); ("required",
  jarr [jstr "protocol_version"; jstr "attachment_index_id"; jstr "signed_payload_manifest_id"; jstr "signing_input_attachment"; jstr
  "signature_attachment"; jstr "canonicalization"; jstr "identity_hash_algorithm"; jstr "identity_input_excludes"]); ("properties", jobj
  [("protocol_version", jobj [("$ref", jstr "urn:codeattest:protocol:v0:shared-definitions#/$defs/protocol_version")]); ("attachment_index_id",
  jobj [("$ref", jstr "urn:codeattest:protocol:v0:shared-definitions#/$defs/algorithm_prefixed_sha256_id")]); ("signed_payload_manifest_id",
  jobj [("$ref", jstr "urn:codeattest:protocol:v0:shared-definitions#/$defs/algorithm_prefixed_sha256_id")]); ("signing_input_attachment",
  jobj [("type", jstr "object"); ("additionalProperties", jbool false); ("required", jarr [jstr "relative_path"; jstr "artifact_ref";
  jstr "media_type"; jstr "digest"; jstr "size_bytes"; jstr "signing_input"]); ("properties", jobj [("relative_path", jobj [("type",
  jstr "string"); ("const", jstr "verification/static-bundle-signing-input.json")]); ("artifact_ref", jobj [("type", jstr "string");
  ("const", jstr "artifact_ref:static_bundle_signing_input")]); ("media_type", jobj [("type", jstr "string"); ("const", jstr "application/json")]);
  ("digest", jobj [("$ref", jstr "urn:codeattest:protocol:v0:shared-definitions#/$defs/artifact_digest")]); ("size_bytes", jobj [("type",
  jstr "integer"); ("minimum", jnum 1); ("maximum", jnum 9007199254740991)]); ("signing_input", jobj [("$ref", jstr "urn:codeattest:protocol:v0:identity-signing-input")])])]);
  ("signature_attachment", jobj [("type", jstr "object"); ("additionalProperties", jbool false); ("required", jarr [jstr "relative_path";
  jstr "artifact_ref"; jstr "media_type"; jstr "digest"; jstr "size_bytes"; jstr "signature_envelope"]); ("properties", jobj [("relative_path",
  jobj [("type", jstr "string"); ("const", jstr "verification/static-bundle-signature.json")]); ("artifact_ref", jobj [("type", jstr
  "string"); ("const", jstr "artifact_ref:static_bundle_signature")]); ("media_type", jobj [("type", jstr "string"); ("const", jstr "application/json")]);
  ("digest", jobj [("$ref", jstr "urn:codeattest:protocol:v0:shared-definitions#/$defs/artifact_digest")]); ("size_bytes", jobj [("type",
  jstr "integer"); ("minimum", jnum 1); ("maximum", jnum 9007199254740991)]); ("signature_envelope", jobj [("$ref", jstr "urn:codeattest:protocol:v0:signature-envelope")])])]);
  ("canonicalization", jobj [("type", jstr "string"); ("const", jstr "rfc8785")]); ("identity_hash_algorithm", jobj [("type", jstr "string");
  ("const", jstr "sha256")]); ("identity_input_excludes", jobj [("type", jstr "array"); ("minItems", jnum 1); ("maxItems", jnum 1); ("uniqueItems",
  jbool true); ("items", jobj [("type", jstr "string"); ("const", jstr "attachment_index_id")])])])].
Definition static_portal_projection_properties_from_protocol_version : list (string * json) :=
  [("protocol_version", jobj [("$ref", jstr "urn:codeattest:protocol:v0:shared-definitions#/$defs/protocol_version")]); ("static_portal_projection_id",
  jobj [("type", jstr "string"); ("pattern", jstr "^static_portal_projection:[a-z0-9][a-z0-9_-]{2,63}$")]); ("review_id", jobj [("type",
  jstr "string"); ("pattern", jstr "^review:[a-z0-9][a-z0-9_-]{2,63}$")]); ("static_bundle_id", jobj [("type", jstr "string"); ("pattern",
  jstr "^static_bundle:[a-z0-9][a-z0-9_-]{2,63}$")]); ("static_bundle_manifest_ref", jobj [("$ref", jstr "urn:codeattest:protocol:v0:shared-definitions#/$defs/algorithm_prefixed_sha256_id")]);
  ("generated_at", jobj [("$ref", jstr "urn:codeattest:protocol:v0:shared-definitions#/$defs/utc_rfc3339_timestamp")]); ("navigation",
  jobj [("type", jstr "array"); ("minItems", jnum 8); ("maxItems", jnum 8); ("items", jobj [("type", jstr "object"); ("additionalProperties",
  jbool false); ("required", jarr [jstr "section_id"; jstr "label"; jstr "relative_path"; jstr "order"]); ("properties", jobj [("section_id",
  jobj [("type", jstr "string"); ("enum", jarr [jstr "overview"; jstr "scope"; jstr "receipt_chain"; jstr "methods"; jstr "findings";
  jstr "validation_remediation"; jstr "limitations"; jstr "appendices"])]); ("label", jobj [("$ref", jstr "urn:codeattest:protocol:v0:shared-definitions#/$defs/non_empty_string")]);
  ("relative_path", jobj [("type", jstr "string"); ("pattern", jstr "^(?!/)(?!.*(?:^|/)\.\.(?:/|$))(?!.*\\)[a-zA-Z0-9._/-]+$")]); ("order",
  jobj [("type", jstr "integer"); ("minimum", jnum 1); ("maximum", jnum 8)])])])])].
Definition static_portal_projection_properties_from_documents : list (string * json) :=
  [("documents", jobj [("type", jstr "array"); ("minItems", jnum 8); ("maxItems", jnum 8); ("items", jobj [("type", jstr "object"); ("additionalProperties",
  jbool false); ("required", jarr [jstr "document_id"; jstr "section_id"; jstr "title"; jstr "summary"; jstr "relative_path"; jstr "source_artifact_refs";
  jstr "copyable_identity_values"; jstr "phone_summary"; jstr "print_included"; jstr "search_included"]); ("properties", jobj [("document_id",
  jobj [("type", jstr "string"); ("pattern", jstr "^portal_document:[a-z0-9][a-z0-9_-]{2,63}$")]); ("section_id", jobj [("type", jstr
  "string"); ("enum", jarr [jstr "overview"; jstr "scope"; jstr "receipt_chain"; jstr "methods"; jstr "findings"; jstr "validation_remediation";
  jstr "limitations"; jstr "appendices"])]); ("title", jobj [("$ref", jstr "urn:codeattest:protocol:v0:shared-definitions#/$defs/non_empty_string")]);
  ("summary", jobj [("$ref", jstr "urn:codeattest:protocol:v0:shared-definitions#/$defs/non_empty_string")]); ("relative_path", jobj
  [("type", jstr "string"); ("pattern", jstr "^(?!/)(?!.*(?:^|/)\.\.(?:/|$))(?!.*\\)[a-zA-Z0-9._/-]+$")]); ("source_artifact_refs", jobj
  [("type", jstr "array"); ("maxItems", jnum 10000); ("minItems", jnum 1); ("uniqueItems", jbool true); ("items", jobj [("type", jstr
  "string"); ("pattern", jstr "^artifact_ref:[a-z0-9][a-z0-9_-]{2,63}$")])]); ("copyable_identity_values", jobj [("type", jstr "array");
  ("maxItems", jnum 10000); ("uniqueItems", jbool true); ("items", jobj [("$ref", jstr "urn:codeattest:protocol:v0:shared-definitions#/$defs/non_empty_string")])]);
  ("phone_summary", jobj [("$ref", jstr "urn:codeattest:protocol:v0:shared-definitions#/$defs/non_empty_string")]); ("print_included",
  jobj [("type", jstr "boolean"); ("const", jbool true)]); ("search_included", jobj [("type", jstr "boolean"); ("const", jbool true)])])])])].
Definition static_portal_projection_properties_from_capabilities : list (string * json) :=
  [("capabilities", jobj [("type", jstr "object"); ("additionalProperties", jbool false); ("required", jarr [jstr "offline_navigation";
  jstr "offline_search"; jstr "print_export"; jstr "copy_controls"; jstr "phone_readable_summaries"]); ("properties", jobj [("offline_navigation",
  jobj [("type", jstr "boolean"); ("const", jbool true)]); ("offline_search", jobj [("type", jstr "boolean"); ("const", jbool true)]);
  ("print_export", jobj [("type", jstr "boolean"); ("const", jbool true)]); ("copy_controls", jobj [("type", jstr "boolean"); ("const",
  jbool true)]); ("phone_readable_summaries", jobj [("type", jstr "boolean"); ("const", jbool true)])])]); ("asset_policy", jobj [("type",
  jstr "object"); ("additionalProperties", jbool false); ("required", jarr [jstr "remote_assets_allowed"; jstr "analytics_allowed"; jstr
  "live_api_calls_allowed"; jstr "runtime_authorization_required"; jstr "relative_links_only"]); ("properties", jobj [("remote_assets_allowed",
  jobj [("type", jstr "boolean"); ("const", jbool false)]); ("analytics_allowed", jobj [("type", jstr "boolean"); ("const", jbool false)]);
  ("live_api_calls_allowed", jobj [("type", jstr "boolean"); ("const", jbool false)]); ("runtime_authorization_required", jobj [("type",
  jstr "boolean"); ("const", jbool false)]); ("relative_links_only", jobj [("type", jstr "boolean"); ("const", jbool true)])])]); ("customer_safe_projection",
  jobj [("type", jstr "boolean"); ("const", jbool true)]); ("visibility", jobj [("type", jstr "string"); ("const", jstr "customer_facing")])].
Definition static_portal_projection_properties : json :=
  jobj (static_portal_projection_properties_from_protocol_version ++ static_portal_projection_properties_from_documents ++ static_portal_projection_properties_from_capabilities).
Definition static_portal_projection_schema : json :=
  jobj [("$schema", jstr "https://json-schema.org/draft/2020-12/schema"); ("$id", jstr "urn:codeattest:protocol:v0:static-portal-projection");
  ("title", jstr "Static Portal Projection"); ("type", jstr "object"); ("additionalProperties", jbool false); ("required", jarr [jstr
  "protocol_version"; jstr "static_portal_projection_id"; jstr "review_id"; jstr "static_bundle_id"; jstr "static_bundle_manifest_ref";
  jstr "generated_at"; jstr "navigation"; jstr "documents"; jstr "capabilities"; jstr "asset_policy"; jstr "customer_safe_projection";
  jstr "visibility"]); ("properties", static_portal_projection_properties)].
Definition stored_object_classification_schema : json :=
  jobj [("$schema", jstr "https://json-schema.org/draft/2020-12/schema"); ("$id", jstr "urn:codeattest:protocol:v0:stored-object-classification");
  ("title", jstr "Stored Object Classification"); ("type", jstr "object"); ("additionalProperties", jbool false); ("allOf", jarr [jobj
  [("if", jobj [("properties", jobj [("object_kind", jobj [("enum", jarr [jstr "support_attachment"; jstr "log_or_trace"; jstr "analytics_record";
  jstr "crash_report"])])]); ("required", jarr [jstr "object_kind"])]); ("then", jobj [("properties", jobj [("source_derived_class",
  jobj [("enum", jarr [jstr "never_collected"; jstr "retained_review_artifact"])])])])]; jobj [("if", jobj [("properties", jobj [("source_derived_class",
  jobj [("const", jstr "customer_opt_in_retained_source")])]); ("required", jarr [jstr "source_derived_class"])]); ("then", jobj [("properties",
  jobj [("environment_profile", jobj [("const", jstr "partner_pilot_real_snippet_ready")])])])]]); ("required", jarr [jstr "protocol_version";
  jstr "stored_object_ref"; jstr "object_kind"; jstr "source_derived_class"; jstr "environment_profile"]); ("properties", jobj [("protocol_version",
  jobj [("$ref", jstr "urn:codeattest:protocol:v0:shared-definitions#/$defs/protocol_version")]); ("stored_object_ref", jobj [("type",
  jstr "string"); ("pattern", jstr "^stored_object:[a-z0-9][a-z0-9_-]{2,63}$")]); ("object_kind", jobj [("type", jstr "string"); ("enum",
  jarr [jstr "evidence_artifact"; jstr "queue_payload"; jstr "worker_scratch"; jstr "generated_export"; jstr "support_attachment"; jstr
  "log_or_trace"; jstr "analytics_record"; jstr "crash_report"])]); ("source_derived_class", jobj [("$ref", jstr "urn:codeattest:protocol:v0:retention-source-derived-class")]);
  ("environment_profile", jobj [("type", jstr "string"); ("enum", jarr [jstr "synthetic_demo"; jstr "partner_pilot_candidate"; jstr "partner_pilot_real_snippet_ready"])]);
  ("artifact_ref", jobj [("type", jstr "string"); ("pattern", jstr "^artifact_ref:[a-z0-9][a-z0-9_-]{2,63}$")])])].
Definition submission_outcome_from_schema : list (string * json) :=
  [("$schema", jstr "https://json-schema.org/draft/2020-12/schema"); ("$id", jstr "urn:codeattest:protocol:v0:submission-outcome"); ("title",
  jstr "Submission Outcome"); ("type", jstr "object"); ("additionalProperties", jbool false); ("allOf", jarr [jobj [("if", jobj [("properties",
  jobj [("outcome_state", jobj [("const", jstr "received_with_receipt")])]); ("required", jarr [jstr "outcome_state"])]); ("then", jobj
  [("required", jarr [jstr "vendor_receipt_ref"]); ("properties", jobj [("next_path", jobj [("const", jstr "verify_receipt")])]); ("not",
  jobj [("required", jarr [jstr "failure_reason_codes"])])])]; jobj [("if", jobj [("properties", jobj [("outcome_state", jobj [("const",
  jstr "rejected_no_receipt")])]); ("required", jarr [jstr "outcome_state"])]); ("then", jobj [("required", jarr [jstr "failure_reason_codes"]);
  ("properties", jobj [("failure_reason_codes", jobj [("minItems", jnum 1)]); ("next_path", jobj [("enum", jarr [jstr "retry"; jstr "contact_support"])])]);
  ("not", jobj [("required", jarr [jstr "vendor_receipt_ref"])])])]; jobj [("if", jobj [("properties", jobj [("outcome_state", jobj [("const",
  jstr "quarantined_no_receipt")])]); ("required", jarr [jstr "outcome_state"])]); ("then", jobj [("required", jarr [jstr "failure_reason_codes"]);
  ("properties", jobj [("failure_reason_codes", jobj [("minItems", jnum 1)]); ("next_path", jobj [("enum", jarr [jstr "quarantine_support";
  jstr "contact_support"])])]); ("not", jobj [("required", jarr [jstr "vendor_receipt_ref"])])])]])].
Definition submission_outcome_from_required : list (string * json) :=
  [("required", jarr [jstr "protocol_version"; jstr "submission_outcome_id"; jstr "review_id"; jstr "outcome_state"; jstr "bundle_instance_id";
  jstr "submission_attempt_id"; jstr "occurred_at"; jstr "submission_identities"; jstr "next_path"; jstr "customer_facing_summary"]);
  ("properties", jobj [("protocol_version", jobj [("$ref", jstr "urn:codeattest:protocol:v0:shared-definitions#/$defs/protocol_version")]);
  ("submission_outcome_id", jobj [("type", jstr "string"); ("pattern", jstr "^submission_outcome:[a-z0-9][a-z0-9_-]{2,63}$")]); ("review_id",
  jobj [("type", jstr "string"); ("pattern", jstr "^review:[a-z0-9][a-z0-9_-]{2,63}$")]); ("outcome_state", jobj [("type", jstr "string");
  ("enum", jarr [jstr "received_with_receipt"; jstr "rejected_no_receipt"; jstr "quarantined_no_receipt"])]); ("bundle_instance_id",
  jobj [("type", jstr "string"); ("pattern", jstr "^bundle_instance:[a-z0-9][a-z0-9_-]{2,63}$")]); ("submission_attempt_id", jobj [("type",
  jstr "string"); ("pattern", jstr "^submission_attempt:[a-z0-9][a-z0-9_-]{2,63}$")]); ("occurred_at", jobj [("$ref", jstr "urn:codeattest:protocol:v0:shared-definitions#/$defs/utc_rfc3339_timestamp")]);
  ("submission_identities", jobj [("type", jstr "array"); ("minItems", jnum 1); ("maxItems", jnum 16); ("uniqueItems", jbool true); ("items",
  jobj [("type", jstr "object"); ("additionalProperties", jbool false); ("required", jarr [jstr "identity_type"; jstr "identity_value"]);
  ("properties", jobj [("identity_type", jobj [("type", jstr "string"); ("enum", jarr [jstr "manifest_id"; jstr "evidence_bundle_id";
  jstr "review_request_id"; jstr "bundle_instance_id"; jstr "submission_attempt_id"])]); ("identity_value", jobj [("type", jstr "string");
  ("minLength", jnum 1); ("maxLength", jnum 512)])])])]); ("failure_reason_codes", jobj [("type", jstr "array"); ("maxItems", jnum 64);
  ("uniqueItems", jbool true); ("items", jobj [("type", jstr "string"); ("pattern", jstr "^[a-z][a-z0-9_]{2,63}$")])]); ("vendor_receipt_ref",
  jobj [("$ref", jstr "urn:codeattest:protocol:v0:shared-definitions#/$defs/algorithm_prefixed_sha256_id")]); ("next_path", jobj [("type",
  jstr "string"); ("enum", jarr [jstr "retry"; jstr "quarantine_support"; jstr "contact_support"; jstr "verify_receipt"])]); ("customer_facing_summary",
  jobj [("type", jstr "string"); ("minLength", jnum 1); ("maxLength", jnum 512)])])].
Definition submission_outcome_schema : json :=
  jobj (submission_outcome_from_schema ++ submission_outcome_from_required).
Definition supporting_evidence_mapping_properties : json :=
  jobj [("protocol_version", jobj [("$ref", jstr "urn:codeattest:protocol:v0:shared-definitions#/$defs/protocol_version")]); ("supporting_evidence_mapping_id",
  jobj [("type", jstr "string"); ("pattern", jstr "^supporting_evidence_mapping:[a-z0-9][a-z0-9_-]{2,63}$")]); ("mapping_version", jobj
  [("type", jstr "integer"); ("minimum", jnum 1); ("maximum", jnum 9007199254740991)]); ("review_id", jobj [("type", jstr "string");
  ("pattern", jstr "^review:[a-z0-9][a-z0-9_-]{2,63}$")]); ("attestation_ref", jobj [("type", jstr "string"); ("pattern", jstr "^attestation:[a-f0-9]{64}$")]);
  ("mapping_profile", jobj [("type", jstr "string"); ("enum", jarr [jstr "soc_2_supporting_evidence"; jstr "generic_technology_risk";
  jstr "customer_security_review"])]); ("approval_state", jobj [("type", jstr "string"); ("const", jstr "approved")]); ("approved_at",
  jobj [("$ref", jstr "urn:codeattest:protocol:v0:shared-definitions#/$defs/utc_rfc3339_timestamp")]); ("approved_by", jobj [("type",
  jstr "object"); ("additionalProperties", jbool false); ("required", jarr [jstr "actor_type"; jstr "actor_id"]); ("properties", jobj
  [("actor_type", jobj [("type", jstr "string"); ("const", jstr "reviewer")]); ("actor_id", jobj [("$ref", jstr "urn:codeattest:protocol:v0:shared-definitions#/$defs/non_empty_string")])])]);
  ("decision_authority", jobj [("$ref", jstr "urn:codeattest:protocol:v0:shared-definitions#/$defs/non_empty_string")]); ("acceptance_disclaimer",
  jobj [("$ref", jstr "urn:codeattest:protocol:v0:shared-definitions#/$defs/non_empty_string")]); ("entries", jobj [("type", jstr "array");
  ("maxItems", jnum 10000); ("minItems", jnum 1); ("items", jobj [("type", jstr "object"); ("additionalProperties", jbool false); ("required",
  jarr [jstr "mapping_entry_id"; jstr "topic"; jstr "supporting_evidence_role"; jstr "scope_summary"; jstr "method_summary"; jstr "receipt_context";
  jstr "evidence_refs"; jstr "limitations"]); ("properties", jobj [("mapping_entry_id", jobj [("type", jstr "string"); ("pattern", jstr
  "^mapping_entry:[a-z0-9][a-z0-9_-]{2,63}$")]); ("topic", jobj [("$ref", jstr "urn:codeattest:protocol:v0:shared-definitions#/$defs/non_empty_string")]);
  ("supporting_evidence_role", jobj [("$ref", jstr "urn:codeattest:protocol:v0:shared-definitions#/$defs/non_empty_string")]); ("scope_summary",
  jobj [("$ref", jstr "urn:codeattest:protocol:v0:shared-definitions#/$defs/non_empty_string")]); ("method_summary", jobj [("$ref", jstr
  "urn:codeattest:protocol:v0:shared-definitions#/$defs/non_empty_string")]); ("receipt_context", jobj [("$ref", jstr "urn:codeattest:protocol:v0:shared-definitions#/$defs/non_empty_string")]);
  ("evidence_refs", jobj [("type", jstr "array"); ("maxItems", jnum 10000); ("minItems", jnum 1); ("uniqueItems", jbool true); ("items",
  jobj [("type", jstr "string"); ("pattern", jstr "^artifact_ref:[a-z0-9][a-z0-9_-]{2,63}$")])]); ("limitations", jobj [("type", jstr
  "array"); ("maxItems", jnum 100); ("minItems", jnum 1); ("items", jobj [("$ref", jstr "urn:codeattest:protocol:v0:shared-definitions#/$defs/narrative_string")])])])])]);
  ("limitations", jobj [("type", jstr "array"); ("maxItems", jnum 100); ("minItems", jnum 1); ("items", jobj [("$ref", jstr "urn:codeattest:protocol:v0:shared-definitions#/$defs/narrative_string")])]);
  ("visibility", jobj [("type", jstr "string"); ("const", jstr "customer_facing")]); ("source_derived_class", jobj [("type", jstr "string");
  ("const", jstr "retained_review_artifact")])].
Definition supporting_evidence_mapping_schema : json :=
  jobj [("$schema", jstr "https://json-schema.org/draft/2020-12/schema"); ("$id", jstr "urn:codeattest:protocol:v0:supporting-evidence-mapping");
  ("title", jstr "Supporting Evidence Mapping"); ("type", jstr "object"); ("additionalProperties", jbool false); ("required", jarr [jstr
  "protocol_version"; jstr "supporting_evidence_mapping_id"; jstr "mapping_version"; jstr "review_id"; jstr "attestation_ref"; jstr "mapping_profile";
  jstr "approval_state"; jstr "approved_at"; jstr "approved_by"; jstr "decision_authority"; jstr "acceptance_disclaimer"; jstr "entries";
  jstr "limitations"; jstr "visibility"; jstr "source_derived_class"]); ("properties", supporting_evidence_mapping_properties)].
Definition vendor_receipt_properties_approved_vs_received_comparison_properties_rows : json :=
  jobj [("type", jstr "array"); ("minItems", jnum 7); ("maxItems", jnum 7); ("allOf", jarr [jobj [("contains", jobj [("properties", jobj
  [("field", jobj [("const", jstr "manifest_id")])]); ("required", jarr [jstr "field"])]); ("minContains", jnum 1); ("maxContains", jnum
  1)]; jobj [("contains", jobj [("properties", jobj [("field", jobj [("const", jstr "evidence_bundle_id")])]); ("required", jarr [jstr
  "field"])]); ("minContains", jnum 1); ("maxContains", jnum 1)]; jobj [("contains", jobj [("properties", jobj [("field", jobj [("const",
  jstr "selected_commit")])]); ("required", jarr [jstr "field"])]); ("minContains", jnum 1); ("maxContains", jnum 1)]; jobj [("contains",
  jobj [("properties", jobj [("field", jobj [("const", jstr "repository_identity_hash")])]); ("required", jarr [jstr "field"])]); ("minContains",
  jnum 1); ("maxContains", jnum 1)]; jobj [("contains", jobj [("properties", jobj [("field", jobj [("const", jstr "coverage_mode")])]);
  ("required", jarr [jstr "field"])]); ("minContains", jnum 1); ("maxContains", jnum 1)]; jobj [("contains", jobj [("properties", jobj
  [("field", jobj [("const", jstr "artifact_count_summary")])]); ("required", jarr [jstr "field"])]); ("minContains", jnum 1); ("maxContains",
  jnum 1)]; jobj [("contains", jobj [("properties", jobj [("field", jobj [("const", jstr "disclosure_policy_summary")])]); ("required",
  jarr [jstr "field"])]); ("minContains", jnum 1); ("maxContains", jnum 1)]]); ("items", jobj [("type", jstr "object"); ("additionalProperties",
  jbool false); ("required", jarr [jstr "field"; jstr "approved_value"; jstr "received_value"; jstr "result"]); ("properties", jobj [("field",
  jobj [("$ref", jstr "urn:codeattest:protocol:v0:shared-definitions#/$defs/non_empty_string")]); ("approved_value", jobj [("$ref", jstr
  "urn:codeattest:protocol:v0:shared-definitions#/$defs/non_empty_string")]); ("received_value", jobj [("$ref", jstr "urn:codeattest:protocol:v0:shared-definitions#/$defs/non_empty_string")]);
  ("result", jobj [("type", jstr "string"); ("const", jstr "matched")])])])].
Definition vendor_receipt_properties_approved_vs_received_comparison_properties : json :=
  jobj [("comparison_state", jobj [("type", jstr "string"); ("const", jstr "matched")]); ("rows", vendor_receipt_properties_approved_vs_received_comparison_properties_rows)].
Definition vendor_receipt_properties_approved_vs_received_comparison : json :=
  jobj [("type", jstr "object"); ("additionalProperties", jbool false); ("required", jarr [jstr "comparison_state"; jstr "rows"]); ("properties",
  vendor_receipt_properties_approved_vs_received_comparison_properties)].
Definition vendor_receipt_properties_from_protocol_version : list (string * json) :=
  [("protocol_version", jobj [("$ref", jstr "urn:codeattest:protocol:v0:shared-definitions#/$defs/protocol_version")]); ("vendor_receipt_id",
  jobj [("$ref", jstr "urn:codeattest:protocol:v0:shared-definitions#/$defs/algorithm_prefixed_sha256_id")]); ("evidence_bundle_id",
  jobj [("$ref", jstr "urn:codeattest:protocol:v0:shared-definitions#/$defs/algorithm_prefixed_sha256_id")]); ("manifest_id", jobj [("$ref",
  jstr "urn:codeattest:protocol:v0:shared-definitions#/$defs/algorithm_prefixed_sha256_id")]); ("receipt_timestamp", jobj [("$ref", jstr
  "urn:codeattest:protocol:v0:shared-definitions#/$defs/utc_rfc3339_timestamp")]); ("receiving_environment", jobj [("type", jstr "object");
  ("additionalProperties", jbool false); ("required", jarr [jstr "environment_profile"; jstr "evidence_boundary"]); ("properties", jobj
  [("environment_profile", jobj [("type", jstr "string"); ("enum", jarr [jstr "synthetic_demo"; jstr "partner_pilot_candidate"; jstr
  "partner_pilot_real_snippet_ready"])]); ("evidence_boundary", jobj [("$ref", jstr "urn:codeattest:protocol:v0:shared-definitions#/$defs/non_empty_string")])])]);
  ("verification_state", jobj [("type", jstr "string"); ("const", jstr "received_with_receipt")]); ("canonicalization", jobj [("type",
  jstr "string"); ("const", jstr "rfc8785")]); ("identity_hash_algorithm", jobj [("type", jstr "string"); ("const", jstr "sha256")]);
  ("identity_input_excludes", jobj [("type", jstr "array"); ("minItems", jnum 3); ("uniqueItems", jbool true); ("items", jobj [("type",
  jstr "string"); ("enum", jarr [jstr "vendor_receipt_id"; jstr "receipt_signature"; jstr "public_verification_metadata.signed_identity"])])]);
  ("source_derived_class", jobj [("type", jstr "string"); ("const", jstr "retained_review_artifact")]); ("approved_outbound_manifest_ref",
  jobj [("type", jstr "string"); ("pattern", jstr "^artifact_ref:[a-z0-9][a-z0-9_-]{2,63}$")]); ("bundle_instance_id", jobj [("type",
  jstr "string"); ("pattern", jstr "^bundle_instance:[a-z0-9][a-z0-9_-]{2,63}$")]); ("submission_attempt_id", jobj [("type", jstr "string");
  ("pattern", jstr "^submission_attempt:[a-z0-9][a-z0-9_-]{2,63}$")]); ("selected_application", jobj [("type", jstr "object"); ("additionalProperties",
  jbool false); ("required", jarr [jstr "application_id"; jstr "display_name"]); ("properties", jobj [("application_id", jobj [("$ref",
  jstr "urn:codeattest:protocol:v0:shared-definitions#/$defs/non_empty_string")]); ("display_name", jobj [("$ref", jstr "urn:codeattest:protocol:v0:shared-definitions#/$defs/non_empty_string")])])])].
Definition vendor_receipt_properties_from_selected_commit : list (string * json) :=
  [("selected_commit", jobj [("type", jstr "object"); ("additionalProperties", jbool false); ("required", jarr [jstr "commit_sha"; jstr
  "source_control_system"]); ("properties", jobj [("commit_sha", jobj [("type", jstr "string"); ("pattern", jstr "^[a-f0-9]{40}$")]);
  ("source_control_system", jobj [("type", jstr "string"); ("enum", jarr [jstr "git"])])])]); ("repository_identity_hash", jobj [("$ref",
  jstr "urn:codeattest:protocol:v0:shared-definitions#/$defs/algorithm_prefixed_sha256_id")]); ("coverage_mode", jobj [("$ref", jstr
  "urn:codeattest:protocol:v0:shared-definitions#/$defs/coverage_mode")]); ("disclosure_policy_ref", jobj [("$ref", jstr "urn:codeattest:protocol:v0:shared-definitions#/$defs/algorithm_prefixed_sha256_id")]);
  ("disclosure_policy_summary", jobj [("type", jstr "object"); ("additionalProperties", jbool false); ("required", jarr [jstr "disclosure_policy_ref";
  jstr "coverage_mode"; jstr "redaction_profile"; jstr "redaction_configuration_version"; jstr "retention_period"]); ("properties", jobj
  [("disclosure_policy_ref", jobj [("$ref", jstr "urn:codeattest:protocol:v0:shared-definitions#/$defs/algorithm_prefixed_sha256_id")]);
  ("coverage_mode", jobj [("$ref", jstr "urn:codeattest:protocol:v0:shared-definitions#/$defs/coverage_mode")]); ("redaction_profile",
  jobj [("$ref", jstr "urn:codeattest:protocol:v0:shared-definitions#/$defs/non_empty_string")]); ("redaction_configuration_version",
  jobj [("$ref", jstr "urn:codeattest:protocol:v0:shared-definitions#/$defs/non_empty_string")]); ("retention_period", jobj [("$ref",
  jstr "urn:codeattest:protocol:v0:shared-definitions#/$defs/non_empty_string")])])]); ("approved_artifact_count_summary", jobj [("type",
  jstr "object"); ("additionalProperties", jbool false); ("required", jarr [jstr "count_domain"; jstr "total_count"; jstr "categories"]);
  ("properties", jobj [("count_domain", jobj [("type", jstr "string"); ("const", jstr "evidence_category_counts")]); ("total_count",
  jobj [("type", jstr "integer"); ("minimum", jnum 0)]); ("categories", jobj [("type", jstr "array"); ("minItems", jnum 1); ("maxItems",
  jnum 7); ("uniqueItems", jbool true); ("items", jobj [("type", jstr "object"); ("additionalProperties", jbool false); ("required",
  jarr [jstr "category"; jstr "count"]); ("properties", jobj [("category", jobj [("type", jstr "string"); ("enum", jarr [jstr "metadata";
  jstr "dependencies"; jstr "scanner_findings"; jstr "raw_snippets"; jstr "targeted_files"; jstr "derived_artifacts"; jstr "never_collected_items"])]);
  ("count", jobj [("type", jstr "integer"); ("minimum", jnum 0)])])])])])])].
Definition vendor_receipt_properties_from_received_artifact_count_summary : list (string * json) :=
  [("received_artifact_count_summary", jobj [("type", jstr "object"); ("additionalProperties", jbool false); ("required", jarr [jstr
  "count_domain"; jstr "total_count"; jstr "categories"]); ("properties", jobj [("count_domain", jobj [("type", jstr "string"); ("const",
  jstr "evidence_category_counts")]); ("total_count", jobj [("type", jstr "integer"); ("minimum", jnum 0)]); ("categories", jobj [("type",
  jstr "array"); ("minItems", jnum 1); ("maxItems", jnum 7); ("uniqueItems", jbool true); ("items", jobj [("type", jstr "object"); ("additionalProperties",
  jbool false); ("required", jarr [jstr "category"; jstr "count"]); ("properties", jobj [("category", jobj [("type", jstr "string");
  ("enum", jarr [jstr "metadata"; jstr "dependencies"; jstr "scanner_findings"; jstr "raw_snippets"; jstr "targeted_files"; jstr "derived_artifacts";
  jstr "never_collected_items"])]); ("count", jobj [("type", jstr "integer"); ("minimum", jnum 0)])])])])])]); ("approved_vs_received_comparison",
  vendor_receipt_properties_approved_vs_received_comparison); ("receipt_signature", jobj [("$ref", jstr "urn:codeattest:protocol:v0:signature-envelope")])].
Definition vendor_receipt_properties_from_public_verification_metadata : list (string * json) :=
  [("public_verification_metadata", jobj [("type", jstr "object"); ("additionalProperties", jbool false); ("required", jarr [jstr "protocol_version";
  jstr "algorithm_profile"; jstr "canonicalization"; jstr "key_id"; jstr "key_version"; jstr "public_key_reference"; jstr "signing_time";
  jstr "signed_identity_type"; jstr "signed_identity"; jstr "signing_mode"; jstr "signing_limitations"]); ("properties", jobj [("protocol_version",
  jobj [("$ref", jstr "urn:codeattest:protocol:v0:shared-definitions#/$defs/protocol_version")]); ("algorithm_profile", jobj [("type",
  jstr "string"); ("const", jstr "ml_dsa_65")]); ("canonicalization", jobj [("type", jstr "string"); ("const", jstr "rfc8785")]); ("key_id",
  jobj [("$ref", jstr "urn:codeattest:protocol:v0:shared-definitions#/$defs/non_empty_string")]); ("key_version", jobj [("$ref", jstr
  "urn:codeattest:protocol:v0:shared-definitions#/$defs/non_empty_string")]); ("public_key_reference", jobj [("$ref", jstr "urn:codeattest:protocol:v0:shared-definitions#/$defs/non_empty_string")]);
  ("signing_time", jobj [("$ref", jstr "urn:codeattest:protocol:v0:shared-definitions#/$defs/utc_rfc3339_timestamp")]); ("signed_identity_type",
  jobj [("type", jstr "string"); ("const", jstr "vendor_receipt")]); ("signed_identity", jobj [("$ref", jstr "urn:codeattest:protocol:v0:shared-definitions#/$defs/algorithm_prefixed_sha256_id")]);
  ("signing_mode", jobj [("type", jstr "string"); ("enum", jarr [jstr "managed_key"; jstr "enrolled_runner_key"])]); ("signing_limitations",
  jobj [("type", jstr "array"); ("maxItems", jnum 100); ("minItems", jnum 1); ("items", jobj [("$ref", jstr "urn:codeattest:protocol:v0:shared-definitions#/$defs/narrative_string")])])])]);
  ("key_rotation_readiness", jobj [("type", jstr "object"); ("additionalProperties", jbool false); ("required", jarr [jstr "historical_key_id";
  jstr "historical_key_version"; jstr "event_append_hint"]); ("properties", jobj [("historical_key_id", jobj [("$ref", jstr "urn:codeattest:protocol:v0:shared-definitions#/$defs/non_empty_string")]);
  ("historical_key_version", jobj [("$ref", jstr "urn:codeattest:protocol:v0:shared-definitions#/$defs/non_empty_string")]); ("event_append_hint",
  jobj [("$ref", jstr "urn:codeattest:protocol:v0:shared-definitions#/$defs/non_empty_string")])])])].
Definition vendor_receipt_properties : json :=
  jobj (vendor_receipt_properties_from_protocol_version ++ vendor_receipt_properties_from_selected_commit ++ vendor_receipt_properties_from_received_artifact_count_summary
  ++ vendor_receipt_properties_from_public_verification_metadata).
Definition vendor_receipt_schema : json :=
  jobj [("$schema", jstr "https://json-schema.org/draft/2020-12/schema"); ("$id", jstr "urn:codeattest:protocol:v0:vendor-receipt");
  ("title", jstr "Vendor Receipt"); ("type", jstr "object"); ("additionalProperties", jbool false); ("required", jarr [jstr "protocol_version";
  jstr "vendor_receipt_id"; jstr "evidence_bundle_id"; jstr "manifest_id"; jstr "receipt_timestamp"; jstr "receiving_environment"; jstr
  "verification_state"; jstr "canonicalization"; jstr "identity_hash_algorithm"; jstr "identity_input_excludes"; jstr "source_derived_class";
  jstr "approved_outbound_manifest_ref"; jstr "bundle_instance_id"; jstr "submission_attempt_id"; jstr "selected_application"; jstr "selected_commit";
  jstr "repository_identity_hash"; jstr "coverage_mode"; jstr "disclosure_policy_ref"; jstr "disclosure_policy_summary"; jstr "approved_artifact_count_summary";
  jstr "received_artifact_count_summary"; jstr "approved_vs_received_comparison"; jstr "receipt_signature"; jstr "public_verification_metadata";
  jstr "key_rotation_readiness"]); ("properties", vendor_receipt_properties)].
Definition verification_addendum_properties_findings_items : json :=
  jobj [("type", jstr "object"); ("additionalProperties", jbool false); ("allOf", jarr [jobj [("if", jobj [("properties", jobj [("verification_status",
  jobj [("const", jstr "verification_complete")])]); ("required", jarr [jstr "verification_status"])]); ("else", jobj [("required", jarr
  [jstr "next_step_summary"])])]]); ("required", jarr [jstr "review_finding_draft_ref"; jstr "classification_record_ref"; jstr "current_classification";
  jstr "verification_status"; jstr "reviewer_actor_category"; jstr "verification_record_ref"; jstr "verification_evidence_record_refs";
  jstr "timestamp"; jstr "summary"; jstr "remaining_limitations"]); ("properties", jobj [("review_finding_draft_ref", jobj [("type",
  jstr "string"); ("pattern", jstr "^review_finding_draft:[a-z0-9][a-z0-9_-]{2,63}$")]); ("classification_record_ref", jobj [("type",
  jstr "string"); ("pattern", jstr "^classification_record:[a-z0-9][a-z0-9_-]{2,63}$")]); ("current_classification", jobj [("type", jstr
  "string"); ("enum", jarr [jstr "likely"; jstr "confirmed"; jstr "inconclusive"; jstr "requires_customer_side_validation"])]); ("verification_status",
  jobj [("type", jstr "string"); ("enum", jarr [jstr "verification_complete"; jstr "verification_pending"; jstr "not_verified"; jstr
  "requires_customer_side_validation"])]); ("reviewer_actor_category", jobj [("type", jstr "string"); ("const", jstr "reviewer")]); ("verification_record_ref",
  jobj [("type", jstr "string"); ("pattern", jstr "^verification_record:[a-z0-9][a-z0-9_-]{2,63}$")]); ("verification_evidence_record_refs",
  jobj [("type", jstr "array"); ("maxItems", jnum 10000); ("minItems", jnum 1); ("uniqueItems", jbool true); ("items", jobj [("type",
  jstr "string"); ("pattern", jstr "^verification_evidence:[a-z0-9][a-z0-9_-]{2,63}$")])]); ("remediation_guidance_ref", jobj [("type",
  jstr "string"); ("pattern", jstr "^remediation_guidance:[a-z0-9][a-z0-9_-]{2,63}$")]); ("validation_path_ref", jobj [("type", jstr
  "string"); ("pattern", jstr "^validation_path:[a-z0-9][a-z0-9_-]{2,63}$")]); ("accepted_risk_record_ref", jobj [("type", jstr "string");
  ("pattern", jstr "^accepted_risk:[a-z0-9][a-z0-9_-]{2,63}$")]); ("false_positive_record_ref", jobj [("type", jstr "string"); ("pattern",
  jstr "^false_positive:[a-z0-9][a-z0-9_-]{2,63}$")]); ("timestamp", jobj [("$ref", jstr "urn:codeattest:protocol:v0:shared-definitions#/$defs/utc_rfc3339_timestamp")]);
  ("summary", jobj [("$ref", jstr "urn:codeattest:protocol:v0:shared-definitions#/$defs/non_empty_string")]); ("remaining_limitations",
  jobj [("type", jstr "array"); ("maxItems", jnum 100); ("minItems", jnum 1); ("items", jobj [("$ref", jstr "urn:codeattest:protocol:v0:shared-definitions#/$defs/narrative_string")])]);
  ("next_step_summary", jobj [("$ref", jstr "urn:codeattest:protocol:v0:shared-definitions#/$defs/non_empty_string")])])].
Definition verification_addendum_properties_findings : json :=
  jobj [("type", jstr "array"); ("maxItems", jnum 10000); ("minItems", jnum 1); ("items", verification_addendum_properties_findings_items)].
Definition verification_addendum_properties_from_protocol_version : list (string * json) :=
  [("protocol_version", jobj [("$ref", jstr "urn:codeattest:protocol:v0:shared-definitions#/$defs/protocol_version")]); ("verification_addendum_id",
  jobj [("type", jstr "string"); ("pattern", jstr "^verification_addendum:[a-z0-9][a-z0-9_-]{2,63}$")]); ("review_id", jobj [("type",
  jstr "string"); ("pattern", jstr "^review:[a-z0-9][a-z0-9_-]{2,63}$")]); ("verification_pass_id", jobj [("type", jstr "string"); ("pattern",
  jstr "^verification_pass:[a-z0-9][a-z0-9_-]{2,63}$")]); ("review_scope_ref", jobj [("$ref", jstr "urn:codeattest:protocol:v0:shared-definitions#/$defs/algorithm_prefixed_sha256_id")]);
  ("verification_pass_ref", jobj [("type", jstr "string"); ("pattern", jstr "^verification_pass:[a-z0-9][a-z0-9_-]{2,63}$")]); ("selected_commit",
  jobj [("type", jstr "object"); ("additionalProperties", jbool false); ("required", jarr [jstr "commit_sha"; jstr "source_control_system"]);
  ("properties", jobj [("commit_sha", jobj [("type", jstr "string"); ("pattern", jstr "^[a-f0-9]{40}$")]); ("source_control_system",
  jobj [("type", jstr "string"); ("const", jstr "git")])])]); ("repository_identity", jobj [("$ref", jstr "urn:codeattest:protocol:v0:shared-definitions#/$defs/algorithm_prefixed_sha256_id")]);
  ("generated_at", jobj [("$ref", jstr "urn:codeattest:protocol:v0:shared-definitions#/$defs/utc_rfc3339_timestamp")]); ("findings",
  verification_addendum_properties_findings); ("retained_evidence", jobj [("type", jstr "array"); ("maxItems", jnum 10000); ("items",
  jobj [("type", jstr "object"); ("additionalProperties", jbool false); ("required", jarr [jstr "artifact_ref"; jstr "source_derived_class";
  jstr "recorded_at"]); ("properties", jobj [("artifact_ref", jobj [("type", jstr "string"); ("pattern", jstr "^artifact_ref:[a-z0-9][a-z0-9_-]{2,63}$")]);
  ("source_derived_class", jobj [("type", jstr "string"); ("enum", jarr [jstr "retained_review_artifact"; jstr "customer_opt_in_retained_source"])]);
  ("recorded_at", jobj [("$ref", jstr "urn:codeattest:protocol:v0:shared-definitions#/$defs/utc_rfc3339_timestamp")])])])])].
Definition verification_addendum_properties_from_deleted_evidence : list (string * json) :=
  [("deleted_evidence", jobj [("type", jstr "array"); ("maxItems", jnum 10000); ("items", jobj [("type", jstr "object"); ("additionalProperties",
  jbool false); ("required", jarr [jstr "artifact_ref"; jstr "deletion_evidence_ref"; jstr "deletion_timestamp"; jstr "deletion_verification_status"]);
  ("properties", jobj [("artifact_ref", jobj [("type", jstr "string"); ("pattern", jstr "^artifact_ref:[a-z0-9][a-z0-9_-]{2,63}$")]);
  ("deletion_evidence_ref", jobj [("type", jstr "string"); ("pattern", jstr "^deletion_evidence:[a-z0-9][a-z0-9_-]{2,63}$")]); ("deletion_timestamp",
  jobj [("$ref", jstr "urn:codeattest:protocol:v0:shared-definitions#/$defs/utc_rfc3339_timestamp")]); ("deletion_verification_status",
  jobj [("type", jstr "string"); ("enum", jarr [jstr "verified"; jstr "pending"; jstr "unavailable"])])])])]); ("history_refs", jobj
  [("type", jstr "array"); ("maxItems", jnum 10000); ("minItems", jnum 1); ("uniqueItems", jbool true); ("items", jobj [("$ref", jstr
  "urn:codeattest:protocol:v0:shared-definitions#/$defs/algorithm_prefixed_sha256_id")])]); ("limitations", jobj [("type", jstr "array");
  ("maxItems", jnum 100); ("minItems", jnum 1); ("items", jobj [("$ref", jstr "urn:codeattest:protocol:v0:shared-definitions#/$defs/narrative_string")])]);
  ("next_step_summary", jobj [("$ref", jstr "urn:codeattest:protocol:v0:shared-definitions#/$defs/non_empty_string")]); ("finalization_state",
  jobj [("type", jstr "string"); ("enum", jarr [jstr "finalized"; jstr "not_finalized"])]); ("visibility", jobj [("type", jstr "string");
  ("const", jstr "customer_facing")]); ("source_derived_class", jobj [("type", jstr "string"); ("const", jstr "retained_review_artifact")])].
Definition verification_addendum_properties : json :=
  jobj (verification_addendum_properties_from_protocol_version ++ verification_addendum_properties_from_deleted_evidence).
Definition verification_addendum_schema : json :=
  jobj [("$schema", jstr "https://json-schema.org/draft/2020-12/schema"); ("$id", jstr "urn:codeattest:protocol:v0:verification-addendum");
  ("title", jstr "Verification Addendum"); ("type", jstr "object"); ("additionalProperties", jbool false); ("allOf", jarr [jobj [("if",
  jobj [("properties", jobj [("findings", jobj [("contains", jobj [("properties", jobj [("verification_status", jobj [("enum", jarr [jstr
  "verification_pending"; jstr "requires_customer_side_validation"])])]); ("required", jarr [jstr "verification_status"])])])]); ("required",
  jarr [jstr "findings"])]); ("then", jobj [("required", jarr [jstr "next_step_summary"]); ("properties", jobj [("finalization_state",
  jobj [("const", jstr "not_finalized")])])])]; jobj [("if", jobj [("properties", jobj [("finalization_state", jobj [("const", jstr "not_finalized")])]);
  ("required", jarr [jstr "finalization_state"])]); ("then", jobj [("required", jarr [jstr "next_step_summary"])])]]); ("required", jarr
  [jstr "protocol_version"; jstr "verification_addendum_id"; jstr "review_id"; jstr "verification_pass_id"; jstr "review_scope_ref";
  jstr "verification_pass_ref"; jstr "selected_commit"; jstr "repository_identity"; jstr "generated_at"; jstr "findings"; jstr "retained_evidence";
  jstr "deleted_evidence"; jstr "history_refs"; jstr "limitations"; jstr "finalization_state"; jstr "visibility"; jstr "source_derived_class"]);
  ("properties", verification_addendum_properties)].
Definition verification_evidence_record_properties_from_protocol_version : list (string * json) :=
  [("protocol_version", jobj [("$ref", jstr "urn:codeattest:protocol:v0:shared-definitions#/$defs/protocol_version")]); ("review_id",
  jobj [("type", jstr "string"); ("pattern", jstr "^review:[a-z0-9][a-z0-9_-]{2,63}$")]); ("verification_evidence_record_id", jobj [("type",
  jstr "string"); ("pattern", jstr "^verification_evidence:[a-z0-9][a-z0-9_-]{2,63}$")]); ("record_version", jobj [("type", jstr "integer");
  ("minimum", jnum 1)]); ("verification_pass_id", jobj [("type", jstr "string"); ("pattern", jstr "^verification_pass:[a-z0-9][a-z0-9_-]{2,63}$")]);
  ("verification_pass_ref", jobj [("type", jstr "string"); ("pattern", jstr "^verification_pass:[a-z0-9][a-z0-9_-]{2,63}$")]); ("scope_version",
  jobj [("type", jstr "integer"); ("minimum", jnum 1)]); ("review_finding_draft_ref", jobj [("type", jstr "string"); ("pattern", jstr
  "^review_finding_draft:[a-z0-9][a-z0-9_-]{2,63}$")]); ("classification_record_ref", jobj [("type", jstr "string"); ("pattern", jstr
  "^classification_record:[a-z0-9][a-z0-9_-]{2,63}$")]); ("requested_verification_type", jobj [("type", jstr "string"); ("enum", jarr
  [jstr "follow_up_commit"; jstr "customer_validation_evidence"; jstr "reviewer_authored_script_output"; jstr "manual_validation_record";
  jstr "remote_dynamic_testing_evidence"])]); ("intake_state", jobj [("type", jstr "string"); ("enum", jarr [jstr "accepted_for_review";
  jstr "verification_pending"; jstr "broader_context_required"])]); ("state_reason", jobj [("$ref", jstr "urn:codeattest:protocol:v0:shared-definitions#/$defs/non_empty_string")]);
  ("next_step_summary", jobj [("$ref", jstr "urn:codeattest:protocol:v0:shared-definitions#/$defs/non_empty_string")]); ("actor", jobj
  [("type", jstr "object"); ("additionalProperties", jbool false); ("required", jarr [jstr "actor_type"; jstr "actor_id"]); ("properties",
  jobj [("actor_type", jobj [("type", jstr "string"); ("enum", jarr [jstr "customer_user"; jstr "vendor_service"])]); ("actor_id", jobj
  [("$ref", jstr "urn:codeattest:protocol:v0:shared-definitions#/$defs/non_empty_string")])])]); ("customer_actor_ref", jobj [("type",
  jstr "string"); ("pattern", jstr "^customer:[a-z0-9][a-z0-9_-]{2,63}$")])].
Definition verification_evidence_record_properties_from_follow_up_commit : list (string * json) :=
  [("follow_up_commit", jobj [("type", jstr "object"); ("additionalProperties", jbool false); ("required", jarr [jstr "original_selected_commit";
  jstr "follow_up_commit"; jstr "original_repository_identity"; jstr "follow_up_repository_identity"; jstr "relationship_to_selected_commit";
  jstr "relationship_basis"]); ("properties", jobj [("original_selected_commit", jobj [("type", jstr "object"); ("additionalProperties",
  jbool false); ("required", jarr [jstr "commit_sha"; jstr "source_control_system"]); ("properties", jobj [("commit_sha", jobj [("type",
  jstr "string"); ("pattern", jstr "^[a-f0-9]{40}$")]); ("source_control_system", jobj [("type", jstr "string"); ("const", jstr "git")])])]);
  ("follow_up_commit", jobj [("type", jstr "object"); ("additionalProperties", jbool false); ("required", jarr [jstr "commit_sha"; jstr
  "source_control_system"]); ("properties", jobj [("commit_sha", jobj [("type", jstr "string"); ("pattern", jstr "^[a-f0-9]{40}$")]);
  ("source_control_system", jobj [("type", jstr "string"); ("const", jstr "git")])])]); ("original_repository_identity", jobj [("$ref",
  jstr "urn:codeattest:protocol:v0:shared-definitions#/$defs/algorithm_prefixed_sha256_id")]); ("follow_up_repository_identity", jobj
  [("$ref", jstr "urn:codeattest:protocol:v0:shared-definitions#/$defs/algorithm_prefixed_sha256_id")]); ("relationship_to_selected_commit",
  jobj [("type", jstr "string"); ("enum", jarr [jstr "customer_declared_related"; jstr "customer_declared_descendant"; jstr "relationship_unverified";
  jstr "same_commit_submitted"; jstr "repository_mismatch"])]); ("relationship_basis", jobj [("$ref", jstr "urn:codeattest:protocol:v0:shared-definitions#/$defs/non_empty_string")])])]);
  ("validation_path_ref", jobj [("type", jstr "string"); ("pattern", jstr "^validation_path:[a-z0-9][a-z0-9_-]{2,63}$")]); ("reviewer_validation_script_ref",
  jobj [("type", jstr "string"); ("pattern", jstr "^validation_script:[a-z0-9][a-z0-9_-]{2,63}$")])].
Definition verification_evidence_record_properties_from_validation_artifacts : list (string * json) :=
  [("validation_artifacts", jobj [("type", jstr "array"); ("maxItems", jnum 10000); ("minItems", jnum 1); ("uniqueItems", jbool true);
  ("items", jobj [("type", jstr "object"); ("additionalProperties", jbool false); ("required", jarr [jstr "artifact_ref"; jstr "digest";
  jstr "size_bytes"; jstr "media_type"; jstr "source_derived_class"]); ("properties", jobj [("artifact_ref", jobj [("type", jstr "string");
  ("pattern", jstr "^artifact_ref:[a-z0-9][a-z0-9_-]{2,63}$")]); ("digest", jobj [("$ref", jstr "urn:codeattest:protocol:v0:shared-definitions#/$defs/artifact_digest")]);
  ("size_bytes", jobj [("type", jstr "integer"); ("minimum", jnum 0); ("maximum", jnum 9007199254740991)]); ("media_type", jobj [("$ref",
  jstr "urn:codeattest:protocol:v0:shared-definitions#/$defs/non_empty_string")]); ("source_derived_class", jobj [("$ref", jstr "urn:codeattest:protocol:v0:retention-source-derived-class")]);
  ("retention_record_ref", jobj [("type", jstr "string"); ("pattern", jstr "^retention_record:[a-z0-9][a-z0-9_-]{2,63}$")])])])]); ("recorded_at",
  jobj [("$ref", jstr "urn:codeattest:protocol:v0:shared-definitions#/$defs/utc_rfc3339_timestamp")]); ("access_scope", jobj [("type",
  jstr "object"); ("additionalProperties", jbool false); ("required", jarr [jstr "tenant_id"; jstr "review_scope"]); ("properties", jobj
  [("tenant_id", jobj [("$ref", jstr "urn:codeattest:protocol:v0:shared-definitions#/$defs/non_empty_string")]); ("review_scope", jobj
  [("type", jstr "string"); ("pattern", jstr "^review:[a-z0-9][a-z0-9_-]{2,63}$")])])]); ("environment_profile", jobj [("type", jstr
  "string"); ("enum", jarr [jstr "synthetic_demo"; jstr "partner_pilot_candidate"; jstr "partner_pilot_real_snippet_ready"])]); ("disclosure_state",
  jobj [("type", jstr "string"); ("const", jstr "metadata_only")]); ("limitations", jobj [("type", jstr "array"); ("maxItems", jnum 100);
  ("minItems", jnum 1); ("items", jobj [("$ref", jstr "urn:codeattest:protocol:v0:shared-definitions#/$defs/narrative_string")])]); ("source_derived_class",
  jobj [("type", jstr "string"); ("const", jstr "retained_review_artifact")]); ("visibility", jobj [("type", jstr "string"); ("enum",
  jarr [jstr "customer_facing"; jstr "internal_only"])])].
Definition verification_evidence_record_properties : json :=
  jobj (verification_evidence_record_properties_from_protocol_version ++ verification_evidence_record_properties_from_follow_up_commit
  ++ verification_evidence_record_properties_from_validation_artifacts).
Definition verification_evidence_record_schema : json :=
  jobj [("$schema", jstr "https://json-schema.org/draft/2020-12/schema"); ("$id", jstr "urn:codeattest:protocol:v0:verification-evidence-record");
  ("title", jstr "Verification Evidence Record"); ("type", jstr "object"); ("additionalProperties", jbool false); ("required", jarr [jstr
  "protocol_version"; jstr "review_id"; jstr "verification_evidence_record_id"; jstr "record_version"; jstr "verification_pass_id"; jstr
  "verification_pass_ref"; jstr "scope_version"; jstr "review_finding_draft_ref"; jstr "classification_record_ref"; jstr "requested_verification_type";
  jstr "intake_state"; jstr "state_reason"; jstr "actor"; jstr "recorded_at"; jstr "access_scope"; jstr "environment_profile"; jstr "disclosure_state";
  jstr "limitations"; jstr "source_derived_class"; jstr "visibility"]); ("allOf", jarr [jobj [("if", jobj [("properties", jobj [("requested_verification_type",
  jobj [("const", jstr "follow_up_commit")])])]); ("then", jobj [("required", jarr [jstr "follow_up_commit"])])]; jobj [("if", jobj [("properties",
  jobj [("requested_verification_type", jobj [("enum", jarr [jstr "customer_validation_evidence"; jstr "reviewer_authored_script_output";
  jstr "manual_validation_record"; jstr "remote_dynamic_testing_evidence"])])])]); ("then", jobj [("required", jarr [jstr "validation_path_ref";
  jstr "validation_artifacts"])])]; jobj [("if", jobj [("properties", jobj [("requested_verification_type", jobj [("const", jstr "reviewer_authored_script_output")])])]);
  ("then", jobj [("required", jarr [jstr "reviewer_validation_script_ref"])])]]); ("properties", verification_evidence_record_properties)].
Definition verification_pass_scope_properties_from_protocol_version : list (string * json) :=
  [("protocol_version", jobj [("$ref", jstr "urn:codeattest:protocol:v0:shared-definitions#/$defs/protocol_version")]); ("review_id",
  jobj [("type", jstr "string"); ("pattern", jstr "^review:[a-z0-9][a-z0-9_-]{2,63}$")]); ("verification_pass_id", jobj [("type", jstr
  "string"); ("pattern", jstr "^verification_pass:[a-z0-9][a-z0-9_-]{2,63}$")]); ("scope_version", jobj [("type", jstr "integer"); ("minimum",
  jnum 1)]); ("included_pass_started_at", jobj [("$ref", jstr "urn:codeattest:protocol:v0:shared-definitions#/$defs/utc_rfc3339_timestamp")]);
  ("included_pass_start_basis", jobj [("$ref", jstr "urn:codeattest:protocol:v0:shared-definitions#/$defs/non_empty_string")]); ("scope_recorded_at",
  jobj [("$ref", jstr "urn:codeattest:protocol:v0:shared-definitions#/$defs/utc_rfc3339_timestamp")]); ("pass_deadline", jobj [("$ref",
  jstr "urn:codeattest:protocol:v0:shared-definitions#/$defs/utc_rfc3339_timestamp")]); ("actor", jobj [("type", jstr "object"); ("additionalProperties",
  jbool false); ("required", jarr [jstr "actor_type"; jstr "actor_id"]); ("properties", jobj [("actor_type", jobj [("type", jstr "string");
  ("enum", jarr [jstr "customer_user"; jstr "reviewer"; jstr "vendor_service"])]); ("actor_id", jobj [("$ref", jstr "urn:codeattest:protocol:v0:shared-definitions#/$defs/non_empty_string")])])]);
  ("customer_actor_ref", jobj [("type", jstr "string"); ("pattern", jstr "^customer:[a-z0-9][a-z0-9_-]{2,63}$")]); ("customer_selection_evidence_ref",
  jobj [("type", jstr "string"); ("pattern", jstr "^customer_selection:[a-z0-9][a-z0-9_-]{2,63}$")])].
Definition verification_pass_scope_properties_from_selected_findings : list (string * json) :=
  [("selected_findings", jobj [("type", jstr "array"); ("maxItems", jnum 10000); ("minItems", jnum 1); ("items", jobj [("type", jstr
  "object"); ("additionalProperties", jbool false); ("required", jarr [jstr "review_finding_draft_ref"; jstr "classification_record_ref";
  jstr "current_classification"; jstr "requested_verification_type"; jstr "eligibility_state"; jstr "eligibility_reason"; jstr "limitations"]);
  ("properties", jobj [("review_finding_draft_ref", jobj [("type", jstr "string"); ("pattern", jstr "^review_finding_draft:[a-z0-9][a-z0-9_-]{2,63}$")]);
  ("classification_record_ref", jobj [("type", jstr "string"); ("pattern", jstr "^classification_record:[a-z0-9][a-z0-9_-]{2,63}$")]);
  ("current_classification", jobj [("type", jstr "string"); ("enum", jarr [jstr "likely"; jstr "confirmed"; jstr "inconclusive"; jstr
  "requires_customer_side_validation"])]); ("remediation_guidance_ref", jobj [("type", jstr "string"); ("pattern", jstr "^remediation_guidance:[a-z0-9][a-z0-9_-]{2,63}$")]);
  ("customer_status_record_ref", jobj [("type", jstr "string"); ("pattern", jstr "^customer_status:[a-z0-9][a-z0-9_-]{2,63}$")]); ("current_customer_remediation_status",
  jobj [("type", jstr "string"); ("enum", jarr [jstr "not_started"; jstr "planned"; jstr "in_progress"; jstr "remediated_by_customer";
  jstr "validation_pending"; jstr "deferred"; jstr "not_applicable"])]); ("validation_path_ref", jobj [("type", jstr "string"); ("pattern",
  jstr "^validation_path:[a-z0-9][a-z0-9_-]{2,63}$")]); ("reviewer_validation_script_refs", jobj [("type", jstr "array"); ("maxItems",
  jnum 10000); ("minItems", jnum 1); ("uniqueItems", jbool true); ("items", jobj [("type", jstr "string"); ("pattern", jstr "^validation_script:[a-z0-9][a-z0-9_-]{2,63}$")])]);
  ("accepted_risk_record_ref", jobj [("type", jstr "string"); ("pattern", jstr "^accepted_risk:[a-z0-9][a-z0-9_-]{2,63}$")]); ("false_positive_record_ref",
  jobj [("type", jstr "string"); ("pattern", jstr "^false_positive:[a-z0-9][a-z0-9_-]{2,63}$")]); ("requested_verification_type", jobj
  [("type", jstr "string"); ("enum", jarr [jstr "follow_up_commit"; jstr "customer_validation_evidence"; jstr "reviewer_authored_script_output";
  jstr "manual_validation_record"; jstr "remote_dynamic_testing_evidence"])]); ("eligibility_state", jobj [("type", jstr "string"); ("enum",
  jarr [jstr "eligible"; jstr "out_of_scope"; jstr "requires_additional_agreement"; jstr "blocked_pending_validation_path"])]); ("eligibility_reason",
  jobj [("$ref", jstr "urn:codeattest:protocol:v0:shared-definitions#/$defs/non_empty_string")]); ("limitations", jobj [("type", jstr
  "array"); ("maxItems", jnum 100); ("minItems", jnum 1); ("items", jobj [("$ref", jstr "urn:codeattest:protocol:v0:shared-definitions#/$defs/narrative_string")])])])])])].
Definition verification_pass_scope_properties_from_included_script_allocation : list (string * json) :=
  [("included_script_allocation", jobj [("type", jstr "object"); ("additionalProperties", jbool false); ("required", jarr [jstr "included_slots";
  jstr "additional_script_candidates"]); ("properties", jobj [("included_slots", jobj [("type", jstr "array"); ("maxItems", jnum 3);
  ("items", jobj [("type", jstr "object"); ("additionalProperties", jbool false); ("required", jarr [jstr "slot"; jstr "validation_script_ref";
  jstr "finding_ref"]); ("properties", jobj [("slot", jobj [("type", jstr "integer"); ("minimum", jnum 1); ("maximum", jnum 3)]); ("validation_script_ref",
  jobj [("type", jstr "string"); ("pattern", jstr "^validation_script:[a-z0-9][a-z0-9_-]{2,63}$")]); ("finding_ref", jobj [("type", jstr
  "string"); ("pattern", jstr "^review_finding_draft:[a-z0-9][a-z0-9_-]{2,63}$")])])])]); ("additional_script_candidates", jobj [("type",
  jstr "array"); ("maxItems", jnum 10000); ("items", jobj [("type", jstr "object"); ("additionalProperties", jbool false); ("required",
  jarr [jstr "validation_script_ref"; jstr "finding_ref"; jstr "pricing_posture"; jstr "reason"]); ("properties", jobj [("validation_script_ref",
  jobj [("type", jstr "string"); ("pattern", jstr "^validation_script:[a-z0-9][a-z0-9_-]{2,63}$")]); ("finding_ref", jobj [("type", jstr
  "string"); ("pattern", jstr "^review_finding_draft:[a-z0-9][a-z0-9_-]{2,63}$")]); ("pricing_posture", jobj [("type", jstr "string");
  ("const", jstr "pricing_tbd")]); ("reason", jobj [("$ref", jstr "urn:codeattest:protocol:v0:shared-definitions#/$defs/non_empty_string")])])])])])]);
  ("limitations", jobj [("type", jstr "array"); ("maxItems", jnum 100); ("minItems", jnum 1); ("items", jobj [("$ref", jstr "urn:codeattest:protocol:v0:shared-definitions#/$defs/narrative_string")])]);
  ("source_derived_class", jobj [("type", jstr "string"); ("const", jstr "retained_review_artifact")]); ("visibility", jobj [("type",
  jstr "string"); ("enum", jarr [jstr "customer_facing"; jstr "internal_only"])])].
Definition verification_pass_scope_properties : json :=
  jobj (verification_pass_scope_properties_from_protocol_version ++ verification_pass_scope_properties_from_selected_findings ++ verification_pass_scope_properties_from_included_script_allocation).
Definition verification_pass_scope_schema : json :=
  jobj [("$schema", jstr "https://json-schema.org/draft/2020-12/schema"); ("$id", jstr "urn:codeattest:protocol:v0:verification-pass-scope");
  ("title", jstr "Verification Pass Scope"); ("type", jstr "object"); ("additionalProperties", jbool false); ("required", jarr [jstr
  "protocol_version"; jstr "review_id"; jstr "verification_pass_id"; jstr "scope_version"; jstr "included_pass_started_at"; jstr "scope_recorded_at";
  jstr "pass_deadline"; jstr "actor"; jstr "selected_findings"; jstr "included_script_allocation"; jstr "limitations"; jstr "source_derived_class";
  jstr "visibility"]); ("properties", verification_pass_scope_properties)].
Definition verification_record_allOf : json :=
  jarr [jobj [("if", jobj [("properties", jobj [("verification_status", jobj [("enum", jarr [jstr "verification_pending"; jstr "not_verified";
  jstr "requires_customer_side_validation"])])])]); ("then", jobj [("required", jarr [jstr "next_step_summary"])])]; jobj [("if", jobj
  [("properties", jobj [("verification_status", jobj [("const", jstr "verification_complete")])]); ("required", jarr [jstr "verification_status"])]);
  ("then", jobj [("properties", jobj [("after_state", jobj [("properties", jobj [("criteria_results", jobj [("items", jobj [("properties",
  jobj [("result", jobj [("const", jstr "satisfied")])])])])])])])])]; jobj [("if", jobj [("properties", jobj [("verification_status",
  jobj [("const", jstr "verification_pending")])]); ("required", jarr [jstr "verification_status"])]); ("then", jobj [("properties",
  jobj [("after_state", jobj [("properties", jobj [("criteria_results", jobj [("contains", jobj [("properties", jobj [("result", jobj
  [("const", jstr "not_evaluated")])]); ("required", jarr [jstr "result"])]); ("minContains", jnum 1)])])])])])]; jobj [("if", jobj [("properties",
  jobj [("verification_status", jobj [("const", jstr "not_verified")])]); ("required", jarr [jstr "verification_status"])]); ("then",
  jobj [("properties", jobj [("after_state", jobj [("properties", jobj [("criteria_results", jobj [("contains", jobj [("properties",
  jobj [("result", jobj [("const", jstr "not_satisfied")])]); ("required", jarr [jstr "result"])]); ("minContains", jnum 1)])])])])])];
  jobj [("if", jobj [("properties", jobj [("verification_status", jobj [("const", jstr "requires_customer_side_validation")])]); ("required",
  jarr [jstr "verification_status"])]); ("then", jobj [("properties", jobj [("after_state", jobj [("properties", jobj [("criteria_results",
  jobj [("contains", jobj [("properties", jobj [("result", jobj [("const", jstr "customer_validation_required")])]); ("required", jarr
  [jstr "result"])]); ("minContains", jnum 1)])])])])])]].
Definition verification_record_properties_from_protocol_version : list (string * json) :=
  [("protocol_version", jobj [("$ref", jstr "urn:codeattest:protocol:v0:shared-definitions#/$defs/protocol_version")]); ("review_id",
  jobj [("type", jstr "string"); ("pattern", jstr "^review:[a-z0-9][a-z0-9_-]{2,63}$")]); ("verification_record_id", jobj [("type", jstr
  "string"); ("pattern", jstr "^verification_record:[a-z0-9][a-z0-9_-]{2,63}$")]); ("record_version", jobj [("type", jstr "integer");
  ("minimum", jnum 1)]); ("verification_pass_id", jobj [("type", jstr "string"); ("pattern", jstr "^verification_pass:[a-z0-9][a-z0-9_-]{2,63}$")]);
  ("verification_pass_ref", jobj [("type", jstr "string"); ("pattern", jstr "^verification_pass:[a-z0-9][a-z0-9_-]{2,63}$")]); ("review_finding_draft_ref",
  jobj [("type", jstr "string"); ("pattern", jstr "^review_finding_draft:[a-z0-9][a-z0-9_-]{2,63}$")]); ("classification_record_ref",
  jobj [("type", jstr "string"); ("pattern", jstr "^classification_record:[a-z0-9][a-z0-9_-]{2,63}$")]); ("verification_evidence_record_refs",
  jobj [("type", jstr "array"); ("maxItems", jnum 10000); ("minItems", jnum 1); ("uniqueItems", jbool true); ("items", jobj [("type",
  jstr "string"); ("pattern", jstr "^verification_evidence:[a-z0-9][a-z0-9_-]{2,63}$")])]); ("verification_status", jobj [("type", jstr
  "string"); ("enum", jarr [jstr "verification_complete"; jstr "verification_pending"; jstr "not_verified"; jstr "requires_customer_side_validation"])]);
  ("recorded_at", jobj [("$ref", jstr "urn:codeattest:protocol:v0:shared-definitions#/$defs/utc_rfc3339_timestamp")]); ("actor", jobj
  [("type", jstr "object"); ("additionalProperties", jbool false); ("required", jarr [jstr "actor_type"; jstr "actor_id"]); ("properties",
  jobj [("actor_type", jobj [("type", jstr "string"); ("const", jstr "reviewer")]); ("actor_id", jobj [("$ref", jstr "urn:codeattest:protocol:v0:shared-definitions#/$defs/non_empty_string")])])])].
Definition verification_record_properties_from_before_state : list (string * json) :=
  [("before_state", jobj [("type", jstr "object"); ("additionalProperties", jbool false); ("required", jarr [jstr "classification"; jstr
  "review_finding_draft_evidence_refs"; jstr "evidence_basis"; jstr "source_reference_state"; jstr "confirmation_criteria"]); ("properties",
  jobj [("classification", jobj [("type", jstr "string"); ("enum", jarr [jstr "likely"; jstr "confirmed"; jstr "inconclusive"; jstr "requires_customer_side_validation"])]);
  ("review_finding_draft_evidence_refs", jobj [("type", jstr "array"); ("maxItems", jnum 10000); ("minItems", jnum 1); ("items", jobj
  [("type", jstr "string"); ("pattern", jstr "^artifact_ref:[a-z0-9][a-z0-9_-]{2,63}$")])]); ("evidence_basis", jobj [("type", jstr "array");
  ("maxItems", jnum 100); ("minItems", jnum 1); ("items", jobj [("$ref", jstr "urn:codeattest:protocol:v0:shared-definitions#/$defs/narrative_string")])]);
  ("source_reference_state", jobj [("type", jstr "string"); ("enum", jarr [jstr "retained_review_artifact"; jstr "deleted_under_policy";
  jstr "never_collected"; jstr "not_submitted_by_policy"; jstr "unresolved_reference"])]); ("confirmation_criteria", jobj [("type", jstr
  "array"); ("maxItems", jnum 100); ("minItems", jnum 1); ("items", jobj [("$ref", jstr "urn:codeattest:protocol:v0:shared-definitions#/$defs/narrative_string")])])])]);
  ("after_state", jobj [("type", jstr "object"); ("additionalProperties", jbool false); ("required", jarr [jstr "summary"; jstr "criteria_results";
  jstr "evidence_refs"]); ("properties", jobj [("summary", jobj [("$ref", jstr "urn:codeattest:protocol:v0:shared-definitions#/$defs/non_empty_string")]);
  ("criteria_results", jobj [("type", jstr "array"); ("maxItems", jnum 10000); ("minItems", jnum 1); ("items", jobj [("type", jstr "object");
  ("additionalProperties", jbool false); ("required", jarr [jstr "criterion"; jstr "result"]); ("properties", jobj [("criterion", jobj
  [("$ref", jstr "urn:codeattest:protocol:v0:shared-definitions#/$defs/non_empty_string")]); ("result", jobj [("type", jstr "string");
  ("enum", jarr [jstr "satisfied"; jstr "not_satisfied"; jstr "not_evaluated"; jstr "customer_validation_required"])])])])]); ("evidence_refs",
  jobj [("type", jstr "array"); ("maxItems", jnum 10000); ("minItems", jnum 1); ("items", jobj [("type", jstr "string"); ("pattern",
  jstr "^artifact_ref:[a-z0-9][a-z0-9_-]{2,63}$")])])])]); ("rationale", jobj [("$ref", jstr "urn:codeattest:protocol:v0:shared-definitions#/$defs/non_empty_string")])].
Definition verification_record_properties_from_remaining_limitations : list (string * json) :=
  [("remaining_limitations", jobj [("type", jstr "array"); ("maxItems", jnum 100); ("minItems", jnum 1); ("items", jobj [("$ref", jstr
  "urn:codeattest:protocol:v0:shared-definitions#/$defs/narrative_string")])]); ("next_step_summary", jobj [("$ref", jstr "urn:codeattest:protocol:v0:shared-definitions#/$defs/non_empty_string")]);
  ("source_derived_class", jobj [("type", jstr "string"); ("const", jstr "retained_review_artifact")]); ("visibility", jobj [("type",
  jstr "string"); ("enum", jarr [jstr "customer_facing"; jstr "internal_only"])])].
Definition verification_record_properties : json :=
  jobj (verification_record_properties_from_protocol_version ++ verification_record_properties_from_before_state ++ verification_record_properties_from_remaining_limitations).
Definition verification_record_schema : json :=
  jobj [("$schema", jstr "https://json-schema.org/draft/2020-12/schema"); ("$id", jstr "urn:codeattest:protocol:v0:verification-record");
  ("title", jstr "Verification Record"); ("type", jstr "object"); ("additionalProperties", jbool false); ("x-typescript-conditional-required",
  jbool true); ("required", jarr [jstr "protocol_version"; jstr "review_id"; jstr "verification_record_id"; jstr "record_version"; jstr
  "verification_pass_id"; jstr "verification_pass_ref"; jstr "review_finding_draft_ref"; jstr "classification_record_ref"; jstr "verification_evidence_record_refs";
  jstr "verification_status"; jstr "recorded_at"; jstr "actor"; jstr "before_state"; jstr "after_state"; jstr "rationale"; jstr "remaining_limitations";
  jstr "source_derived_class"; jstr "visibility"]); ("allOf", verification_record_allOf); ("properties", verification_record_properties)].
Definition protocolV0Schemas : list (jsstr * json) :=
  [(js "urn:codeattest:protocol:v0:accepted-risk-record", accepted_risk_record_schema);
   (js "urn:codeattest:protocol:v0:artifact-reference", artifact_reference_schema);
   (js "urn:codeattest:protocol:v0:attestation-package-finalization", attestation_package_finalization_schema);
   (js "urn:codeattest:protocol:v0:bundle-manifest", bundle_manifest_schema);
   (js "urn:codeattest:protocol:v0:customer-approval", customer_approval_schema);
   (js "urn:codeattest:protocol:v0:customer-facing-finding-record", customer_facing_finding_record_schema);
   (js "urn:codeattest:protocol:v0:customer-remediation-status-record", customer_remediation_status_record_schema);
   (js "urn:codeattest:protocol:v0:deletion-evidence", deletion_evidence_schema);
   (js "urn:codeattest:protocol:v0:disclosure-policy", disclosure_policy_schema);
   (js "urn:codeattest:protocol:v0:environment-evidence-gate", environment_evidence_gate_schema);
   (js "urn:codeattest:protocol:v0:environment-readiness-decision", environment_readiness_decision_schema);
   (js "urn:codeattest:protocol:v0:environment-readiness-evidence", environment_readiness_evidence_schema);
   (js "urn:codeattest:protocol:v0:evidence-lifecycle-event", evidence_lifecycle_event_schema);
   (js "urn:codeattest:protocol:v0:evidence-minimization-projection", evidence_minimization_projection_schema);
   (js "urn:codeattest:protocol:v0:false-positive-record", false_positive_record_schema);
   (js "urn:codeattest:protocol:v0:finding-classification-record", finding_classification_record_schema);
   (js "urn:codeattest:protocol:v0:finding-remediation-guidance", finding_remediation_guidance_schema);
   (js "urn:codeattest:protocol:v0:finding-validation-path", finding_validation_path_schema);
   (js "urn:codeattest:protocol:v0:identity-signing-input", identity_signing_input_schema);
   (js "urn:codeattest:protocol:v0:local-runner-attempt", local_runner_attempt_schema);
   (js "urn:codeattest:protocol:v0:log-checkpoint", log_checkpoint_schema);
   (js "urn:codeattest:protocol:v0:outbound-manifest", outbound_manifest_schema);
   (js "urn:codeattest:protocol:v0:pilot-feedback-record", pilot_feedback_record_schema);
   (js "urn:codeattest:protocol:v0:pilot-metric-record", pilot_metric_record_schema);
   (js "urn:codeattest:protocol:v0:retention-opt-in-record", retention_opt_in_record_schema);
   (js "urn:codeattest:protocol:v0:retention-source-derived-class", retention_source_derived_class_schema);
   (js "urn:codeattest:protocol:v0:review-event-customer-projection", review_event_customer_projection_schema);
   (js "urn:codeattest:protocol:v0:review-event-log", review_event_log_schema);
   (js "urn:codeattest:protocol:v0:review-event", review_event_schema);
   (js "urn:codeattest:protocol:v0:review-finding-draft-set", review_finding_draft_set_schema);
   (js "urn:codeattest:protocol:v0:review-scope", review_scope_schema);
   (js "urn:codeattest:protocol:v0:reviewer-validation-script", reviewer_validation_script_schema);
   (js "urn:codeattest:protocol:v0:runner-key-enrollment-record", runner_key_enrollment_record_schema);
   (js "urn:codeattest:protocol:v0:runner-release-record", runner_release_record_schema);
   (js "urn:codeattest:protocol:v0:scanner-finding-set", scanner_finding_set_schema);
   (js "urn:codeattest:protocol:v0:security-review-attestation", security_review_attestation_schema);
   (js "urn:codeattest:protocol:v0:shared-definitions", shared_definitions_schema);
   (js "urn:codeattest:protocol:v0:signature-envelope", signature_envelope_schema);
   (js "urn:codeattest:protocol:v0:signature-verification-outcome", signature_verification_outcome_schema);
   (js "urn:codeattest:protocol:v0:signing-key-directory", signing_key_directory_schema);
   (js "urn:codeattest:protocol:v0:signing-key-record", signing_key_record_schema);
   (js "urn:codeattest:protocol:v0:static-bundle-manifest", static_bundle_manifest_schema);
   (js "urn:codeattest:protocol:v0:static-bundle-verification-package", static_bundle_verification_package_schema);
   (js "urn:codeattest:protocol:v0:static-portal-projection", static_portal_projection_schema);
   (js "urn:codeattest:protocol:v0:stored-object-classification", stored_object_classification_schema);
   (js "urn:codeattest:protocol:v0:submission-outcome", submission_outcome_schema);
   (js "urn:codeattest:protocol:v0:supporting-evidence-mapping", supporting_evidence_mapping_schema);
   (js "urn:codeattest:protocol:v0:vendor-receipt", vendor_receipt_schema);
   (js "urn:codeattest:protocol:v0:verification-addendum", verification_addendum_schema);
   (js "urn:codeattest:protocol:v0:verification-evidence-record", verification_evidence_record_schema);
   (js "urn:codeattest:protocol:v0:verification-pass-scope", verification_pass_scope_schema);
   (js "urn:codeattest:protocol:v0:verification-record", verification_record_schema)].

(** * The registry is closed and acyclic *)

(* Enough for every schema: the longest chain of subschemas and references. *)
Definition REGISTRY_FUEL : nat := 10.
Definition schema_id_known (schemaId : string) : bool := JsMap.has (js schemaId) protocolV0Schemas.

Lemma registry_resolves : forallb (λ kv, resolves protocolV0Schemas REGISTRY_FUEL kv.2) protocolV0Schemas = true.
Proof. by vm_compute. Qed.
Lemma registry_schema_resolves k schema :
  JsMap.get k protocolV0Schemas = Some schema → resolves protocolV0Schemas REGISTRY_FUEL schema = true.
Proof.
  intros Hg%get_elem. pose proof registry_resolves as Hall. rewrite forallb_forall in Hall.
  apply (Hall (k, schema)). by apply list_elem_of_In.
Qed.

(** C35. Validation against any schema of the registry terminates with the same errors
    for every value, whatever the collation: the references of the registry are resolved
    and never cyclic. *)
Theorem registry_validation_terminates localeCompare schemaId :
  schema_id_known schemaId = true →
  ∀ v, ∃ errors, ∀ m, (REGISTRY_FUEL ≤ m)%nat →
    validateProtocolSchema protocolV0Schemas localeCompare m schemaId v = Some errors.
Proof.
  unfold schema_id_known, validateProtocolSchema. rewrite JsMap.has_true. intros [schema Hg] v. rewrite Hg.
  cbn [mbind option_bind]. apply validation_total. by apply (registry_schema_resolves (js schemaId)).
Qed.

(** * Sample validations *)

Module SchemaSamples.
Definition validated (schemaId : string) (v : json) : option (list ProtocolValidationError) :=
  validateProtocolSchema protocolV0Schemas units_cmp REGISTRY_FUEL schemaId v.
Definition deletion_evidence_id : string := "urn:codeattest:protocol:v0:deletion-evidence".
Definition evidence_fields : list (jsstr * json) :=
  [(js "protocol_version", jstr "codeattest.v0");
   (js "deletion_evidence_id", jstr "deletion_evidence:abc");
   (js "deleted_artifact_digests", jarr [jstr ("sha256:" +:+ String.concat "" (replicate 64 "0"))]);
   (js "deletion_method", jstr "expiry_purge");
   (js "deletion_timestamp", jstr "2026-01-01T00:00:00Z");
   (js "actor", jobj [("actor_type", jstr "vendor_service"); ("actor_id", jstr "ops")]);
   (js "verification_status", jstr "unverified")].
Example evidence_accepted : validated deletion_evidence_id (JObject evidence_fields) = Some [].
Proof. by vm_compute. Qed.

Lemma registry_validation_terminates_witness :
  ∃ errors, ∀ m, (REGISTRY_FUEL ≤ m)%nat →
    validateProtocolSchema protocolV0Schemas units_cmp m "urn:codeattest:protocol:v0:review-event" JNull = Some errors.
Proof. apply (registry_validation_terminates units_cmp). by vm_compute. Defined.
Lemma validation_total_witness :
  ∃ errors, ∀ m, (REGISTRY_FUEL ≤ m)%nat →
    validateSchemaValue protocolV0Schemas units_cmp m (JObject evidence_fields) deletion_evidence_schema [] = Some errors.
Proof. apply (validation_total protocolV0Schemas units_cmp). by vm_compute. Defined.

Lemma evidence_no_proto : no_proto evidence_fields.
Proof. apply (bool_decide_unpack (js "__proto__" ∉ evidence_fields.*1)). by vm_compute. Qed.
Lemma evidence_keys : NoDup evidence_fields.*1.
Proof. apply (bool_decide_unpack _). by vm_compute. Qed.
Lemma object_schema_exact_witness :
  ∃ v, (js "deletion_method", v) ∈ evidence_fields ∧ is_undefined v = false.
Proof.
  destruct (object_schema_exact protocolV0Schemas units_cmp 8 deletion_evidence_schema evidence_fields (js "$")) as [Hexact _];
    [by vm_compute|by vm_compute|exact evidence_no_proto|exact evidence_keys| |].
  - intros p Hp. assert (Forall (λ p, inherited p = false) (kw_names "required" deletion_evidence_schema)) as Hall.
    { apply (bool_decide_unpack _). by vm_compute. }
    rewrite Forall_forall in Hall. by apply Hall.
  - destruct Hexact as [Hrequired _]; [by vm_compute|]. apply Hrequired.
    apply (bool_decide_unpack (js "deletion_method" ∈ kw_names "required" deletion_evidence_schema)). by vm_compute.
Defined.
Lemma proto_field_satisfies_required_witness :
  validateSchemaValue protocolV0Schemas units_cmp REGISTRY_FUEL
    (JObject [(js "__proto__", JObject evidence_fields)]) deletion_evidence_schema (js "$") = Some [].
Proof.
  apply (proto_field_satisfies_required protocolV0Schemas units_cmp 9 deletion_evidence_schema evidence_fields (js "$"));
    [by vm_compute|exact evidence_no_proto|exact evidence_keys|by vm_compute].
Defined.

(** A field named like a member of Object.prototype passes
    additionalProperties: false on the deletion evidence schema, any other
    undeclared field does not. *)
Theorem inherited_name_not_additional :
  validated deletion_evidence_id (JObject (evidence_fields ++ [(js "toString", JNumber 1)])) = Some [] ∧
  validated deletion_evidence_id (JObject (evidence_fields ++ [(js "to_string", JNumber 1)])) =
    Some [{| code := "additional_property"; location := js "$.to_string" |}].
Proof. by vm_compute. Qed.
End SchemaSamples.
