(* ===== verification/Values.v ===== *)
(** Values of JavaScript as the handlers read them from JSON: property access,
    the shape guards shared by the components, and the conversion to a string. *)
From S2P Require Import Prelude Patterns Bytes Json JsonText CanonicalJson Timestamps Schema Registry.

Local Open Scope Z_scope.

(* event.name on a value read from JSON; JForeign is undefined. *)
Definition prop (name : string) (v : json) : json :=
  match v with JObject fs => default JForeign (JsMap.get (js name) fs) | _ => JForeign end.
(* value.name, a TypeError on null and undefined *)
Definition member (name : string) (v : json) : throws json :=
  match v with
  | JNull | JForeign => Throw "Cannot read properties of undefined"
  | _ => Ret (prop name v)
  end.
(* [[...].every(...)] and the like on an array read from a field; a TypeError on anything else. *)
Definition js_elements (v : json) : throws (list json) :=
  match v with JArray l => Ret l | _ => Throw "TypeError" end.
(* text.startsWith(...), text.slice(...) on a string read from a field *)
Definition text (v : json) : throws jsstr :=
  match v with JString s => Ret s | _ => Throw "TypeError" end.

(* value !== null && typeof value === "object" && !Array.isArray(value) *)
Definition isRecord (v : json) : bool := match v with JObject _ => true | _ => false end.
(* The white space and line terminators [String.prototype.trim] removes. *)
Definition is_js_space (c : Z) : bool :=
  (((9 <=? c) && (c <=? 13)) || (c =? 32) || (c =? 160) || (c =? 5760) || ((8192 <=? c) && (c <=? 8202)) ||
   (c =? 8232) || (c =? 8233) || (c =? 8239) || (c =? 8287) || (c =? 12288) || (c =? 65279))%bool.
(* typeof value === "string" && value.trim().length > 0 *)
Definition isNonEmptyString (v : json) : bool :=
  match v with JString s => existsb (λ c, negb (is_js_space c)) s | _ => false end.
(* String(value), the conversion RegExp.prototype.exec applies to its argument. *)
Fixpoint js_string (v : json) : jsstr :=
  match v with
  | JNull => js "null"
  | JBool b => if b then js "true" else js "false"
  | JString s => s
  | JNumber n => number_text n
  | JNonFinite => js "NaN"
  | JForeign => js "undefined"
  | JArray l => join_comma (List.map (λ x, match x with JNull | JForeign => [] | _ => js_string x end) l)
  | JObject _ => js "[object Object]"
  end.
(** The Unicode tables of the language, and what they say of ASCII text. *)
Definition is_ascii (s : jsstr) : bool := forallb (λ c, (0 <=? c) && (c <? 128))%bool s.
Definition ascii_lower (c : Z) : Z := if ((65 <=? c) && (c <=? 90))%bool then c + 32 else c.
Class UnicodeText := {
  toLowerCase : jsstr → jsstr;
  normalizeNFKC : jsstr → jsstr;
  toLowerCase_ascii : ∀ s, is_ascii s = true → toLowerCase s = List.map ascii_lower s;
  normalizeNFKC_ascii : ∀ s, is_ascii s = true → normalizeNFKC s = s
}.

Fixpoint drop_space (s : jsstr) : jsstr :=
  match s with
  | [] => []
  | c :: s' => if is_js_space c then drop_space s' else s
  end.
Definition js_trim (s : jsstr) : jsstr := rev (drop_space (rev (drop_space s))).
(* value === "literal", and set.has(value) of a set of literals *)
Definition has_string (s : string) (v : json) : bool := v === jstr s.
Definition one_of (l : list string) (v : json) : bool := existsb (λ s, has_string s v) l.
Definition is_safe_integer (v : json) : bool := match v with JNumber n => isSafeInteger n | _ => false end.
Definition negative (v : json) : bool := match v with JNumber n => n <? 0 | _ => false end.
(* structuredClone. It refuses functions, which are not values of the model, and symbols: in
   the modules that clone, JForeign stands for undefined (see prop), which is copied. *)
Definition cloneJson (v : json) : option json := Some v.
(* try { return canonicalizeProtocolJson(left) === canonicalizeProtocolJson(right) } catch { return false } *)
Definition sameCanonicalJson (left right : json) : bool :=
  match canonicalizeProtocolJson left, canonicalizeProtocolJson right with Ret s, Ret t => s === t | _, _ => false end.
(* value ?? fallback *)
Definition coalesce (v fallback : json) : json := match v with JNull | JForeign => fallback | _ => v end.
(* Boolean(value) *)
Definition truthy (v : json) : bool :=
  match v with
  | JNull | JForeign | JNonFinite | JBool false | JString [] => false
  | JNumber n => negb (n =? 0)
  | _ => true
  end.
(* text.includes(literal) *)
Fixpoint includes (literal s : jsstr) : bool :=
  (bool_decide (is_Some (strip_units literal s)) || match s with [] => false | _ :: s' => includes literal s' end)%bool.
Definition mentions (s : jsstr) (literal : string) : bool := includes (js literal) s.
(* Number.isInteger(value) && value >= 0, and > 0 *)
Definition natural (v : json) : bool := match v with JNumber n => 0 <=? n | _ => false end.
Definition positiveNumber (v : json) : bool := match v with JNumber n => 0 <? n | _ => false end.
(* issues.push(i) under a condition *)
Definition issue_when {I} (b : bool) (i : I) : list I := if b then [i] else [].
(* const { name: _excluded, ...rest } = value *)
Definition without_field (name : string) (v : json) : json :=
  match v with
  | JObject fs => JObject (List.filter (λ kv : jsstr * json, kv.1 !== js name) fs)
  | _ => JObject []
  end.

(* Array.from(new Set(values)) *)
Fixpoint dedupe_values (seen values : list json) : list json :=
  match values with
  | [] => []
  | v :: values' => if bool_decide (v ∈ seen) then dedupe_values seen values' else v :: dedupe_values (v :: seen) values'
  end.
(* compareUtcRfc3339Timestamps on values: the pattern is tested on the value's text. *)
Definition compareTimestamps (left right : json) : throws Z :=
  match latin_text (js_string left), latin_text (js_string right) with
  | Some l, Some r => compareUtcRfc3339Timestamps l r
  | _, _ => Throw "value must be a valid UTC RFC 3339 timestamp"
  end.
(* values.map(f) where f may throw *)
Fixpoint map_throws {A B} (f : A → throws B) (values : list A) : throws (list B) :=
  match values with [] => Ret [] | v :: values' => w ← f v; ws ← map_throws f values'; Ret (w :: ws) end.

Lemma issue_when_nil {I} b (i : I) : issue_when b i = [] ↔ b = false.
Proof. by destruct b. Qed.

Lemma flat_map_nil {A I} (f : A → list I) l : List.flat_map f l = [] ↔ ∀ x, x ∈ l → f x = [].
Proof.
  induction l as [|a l IH]; simpl; [split; [intros _ x Hx%elem_of_nil|]; done|].
  rewrite app_nil, IH. split; [intros [H1 H2] x [->|Hx]%elem_of_cons; auto|].
  intros Hall. split; [|intros x Hx]; apply Hall, elem_of_cons; auto.
Qed.
(* Reads "no issues" off an appended list of issues. *)
Ltac no_issues H := repeat setoid_rewrite app_nil in H; repeat setoid_rewrite flat_map_nil in H; repeat setoid_rewrite issue_when_nil in H.

(** Reading a field of an object literal. *)
Lemma prop_jobj name k v l : prop name (jobj ((k, v) :: l)) = if String.eqb k name then v else prop name (jobj l).
Proof.
  unfold prop, jobj. simpl. destruct (String.eqb_spec k name) as [->|Hne].
  - by rewrite decide_True.
  - rewrite decide_False; [done|]. by intros E0%js_inj.
Qed.
Ltac read_fields := rewrite ?prop_jobj; cbn [String.eqb Ascii.eqb Bool.eqb].
Lemma jstr_inj s t : jstr s = jstr t → s = t.
Proof. intros E0%(f_equal (λ v, match v with JString u => u | _ => [] end)). by apply js_inj. Qed.
Lemma has_string_true s v : has_string s v = true ↔ v = jstr s.
Proof. apply bool_decide_eq_true. Qed.
Lemma json_eq_refl (v : json) : (v === v) = true.
Proof. by apply bool_decide_eq_true. Qed.
Lemma has_string_jstr s : has_string s (jstr s) = true.
Proof. by apply has_string_true. Qed.
(* Reading an object literal by the names of its fields. *)
Fixpoint field_of (name : string) (l : list (string * json)) : json :=
  match l with [] => JForeign | (k, v) :: l' => if String.eqb k name then v else field_of name l' end.
Lemma prop_field name l : prop name (jobj l) = field_of name l.
Proof. induction l as [|[k v] l IH]; [done|]. rewrite prop_jobj, IH. reflexivity. Qed.
Lemma map_throws_Forall2 {A B} (f : A → throws B) values : ∀ ws, map_throws f values = Ret ws ↔ Forall2 (λ v w, f v = Ret w) values ws.
Proof.
  induction values as [|v values IH]; intros ws; cbn [map_throws].
  - split; [by intros [= <-]|by inversion 1].
  - destruct (f v) as [w|] eqn:Hf; cbn [mbind throws_bind]; [|split; [done|inversion 1; congruence]].
    destruct (map_throws f values) as [ws'|msg]; cbn [mbind throws_bind].
    + split; [intros [= <-]; constructor; [done|by apply IH]|]. inversion 1; subst. f_equal. f_equal; [congruence|].
      assert (Ret ws' = Ret l') as [= ->]; [by apply IH|done].
    + split; [done|]. inversion 1; subst. assert (@Throw (list B) msg = Ret l') as ?; [by apply IH|done].
Qed.

Lemma sameCanonicalJson_data a b :
  wf_json a = true → wf_json b = true → sameCanonicalJson a b = true → same_data a b.
Proof.
  unfold sameCanonicalJson. intros Wa Wb. destruct (canonicalizeProtocolJson a) as [s|] eqn:Ha; [|done].
  destruct (canonicalizeProtocolJson b) as [t|] eqn:Hb; [|done]. intros ->%bool_decide_eq_true. by eapply canonical_inj.
Qed.
(* Flat literals of texts have a canonical text. *)
Lemma canonicalize_texts l :
  1 + 2 * Z.of_nat (length l) ≤ MAX_NODES → ∃ s, canonicalizeProtocolJson (jobj (List.map (λ kv, (kv.1, jstr kv.2)) l)) = Ret s.
Proof.
  intros Hl. apply canonicalize_flat; [|by rewrite !length_map].
  rewrite List.map_map, Forall_map. apply Forall_true. intros [k v]. simpl. by rewrite !js_paired.
Qed.
Lemma without_field_wf name v : wf_json v = true → wf_json (without_field name v) = true.
Proof.
  destruct v as [| | | | | | |fs]; try done. simpl. rewrite !andb_true_iff. intros [Hnd%bool_decide_eq_true Hf]. split.
  - clear Hf. apply bool_decide_eq_true. induction fs as [|kv fs IH]; [done|]. simpl in *.
    apply NoDup_cons in Hnd as [Hk Hnd]. case_match; [|by apply IH]. cbn [fmap list_fmap]. apply NoDup_cons. split; [|by apply IH].
    intros Hin. apply Hk. apply list_elem_of_fmap in Hin as (kv' & -> & [Hin _]%list_elem_of_In%filter_In).
    apply list_elem_of_fmap_2. by apply list_elem_of_In.
  - apply forallb_forall. intros kv [Hin _]%filter_In. rewrite forallb_forall in Hf. by apply Hf.
Qed.

(** Equal data have equal fields. *)
Lemma get_perm k (fs fs' : list (jsstr * json)) : NoDup fs.*1 → fs ≡ₚ fs' → JsMap.get k fs = JsMap.get k fs'.
Proof.
  intros Hnd Hp. assert (NoDup fs'.*1) as Hnd' by by rewrite <- Hp.
  apply option_eq. intros v. rewrite <- !JsMap.elem_of_get by done. by rewrite Hp.
Qed.
Lemma get_values (f : json → json) k (fs : list (jsstr * json)) :
  JsMap.get k (List.map (λ kv, (kv.1, f kv.2)) fs) = f <$> JsMap.get k fs.
Proof. induction fs as [|[k' v] fs IH]; [done|]. simpl. by case_match. Qed.
Lemma get_wf name fs v : wf_json (JObject fs) = true → JsMap.get name fs = Some v → wf_json v = true.
Proof.
  cbn [wf_json]. intros [Hnd%bool_decide_eq_true Hf]%andb_prop Hg. apply JsMap.elem_of_get in Hg; [|done].
  apply (proj1 (forallb_elem _ _)) with (x := (name, v)) in Hf; [|done]. by apply andb_prop in Hf as [_ ?].
Qed.
Lemma prop_wf name v : wf_json v = true → wf_json (prop name v) = true.
Proof.
  destruct v as [| | | | | | |fs]; try done. intros Hw. unfold prop. destruct (JsMap.get _ fs) eqn:Hg; [|done]. by eapply get_wf.
Qed.
(* A field of JSON data is JSON data; a field that is not there reads as null under [??]. *)
Lemma prop_data name v : is_data v = true → is_data (coalesce (prop name v) JNull) = true.
Proof.
  destruct v as [| | | | | | |fs]; try done. cbn [is_data prop]. intros Hf.
  destruct (JsMap.get (js name) fs) as [w|] eqn:Hg; [|done]. apply JsMap.get_in in Hg.
  apply (proj1 (forallb_elem _ _)) with (x := (js name, w)) in Hf; [|done]. cbn [snd] in Hf. by destruct w.
Qed.
Lemma without_field_data name v : is_data v = true → is_data (without_field name v) = true.
Proof.
  destruct v as [| | | | | | |fs]; try done. cbn [is_data without_field]. rewrite !forallb_forall.
  intros Hf kv [Hin _]%filter_In. by apply Hf.
Qed.
Lemma set_wf name v fs : wf_json (JObject fs) = true → units_ok name = true → wf_json v = true → wf_json (JObject (JsMap.set name v fs)) = true.
Proof.
  cbn [wf_json]. intros [Hnd%bool_decide_eq_true Hf]%andb_prop Hn Hv. apply andb_true_intro. split.
  - apply bool_decide_eq_true. by apply JsMap.NoDup_keys_set.
  - clear Hnd. induction fs as [|[k x] fs IH]; simpl in *; [by rewrite Hn, Hv|].
    apply andb_prop in Hf as [[Hk Hx]%andb_prop Hf]. case_decide; simpl; [by rewrite ?Hn, ?Hk, ?Hv, ?Hf|]. by rewrite Hk, Hx, IH.
Qed.
Lemma prop_norm name v : wf_json v = true → prop name (norm v) = norm (prop name v).
Proof.
  destruct v as [| | | | | | |fs]; try done. cbn [wf_json norm prop]. intros [Hnd%bool_decide_eq_true _]%andb_prop.
  rewrite (get_perm _ _ (List.map (λ kv, (kv.1, norm kv.2)) fs)); [|rewrite sort_fields_perm|by rewrite sort_fields_perm].
  - rewrite get_values. by destruct (JsMap.get _ fs).
  - rewrite <- list_fmap_compose. done.
Qed.
Lemma same_data_text name a b t :
  wf_json a = true → wf_json b = true → same_data a b → prop name a = jstr t → prop name b = jstr t.
Proof.
  intros Wa Wb E0%(f_equal (prop name)) Ha. rewrite !prop_norm, Ha in E0 by done. destruct (prop name b); try done.
Qed.

Lemma dedupe_values_spec values : ∀ seen, NoDup (dedupe_values seen values) ∧
  ∀ v, v ∈ dedupe_values seen values ↔ v ∈ values ∧ v ∉ seen.
Proof.
  induction values as [|w values IH]; intros seen; cbn [dedupe_values]; [split; [constructor|set_solver]|].
  case_bool_decide as Hw.
  - destruct (IH seen) as [Hnd Hin]. split; [done|]. intros v. rewrite Hin, elem_of_cons. naive_solver.
  - destruct (IH (w :: seen)) as [Hnd Hin]. split.
    + constructor; [|done]. rewrite Hin, elem_of_cons. naive_solver.
    + intros v. rewrite !elem_of_cons, Hin, elem_of_cons. destruct (decide (v = w)); naive_solver.
Qed.

(** The text rules on ASCII, for running the definitions. *)
Module SampleText.
#[export, refine] Instance ascii_text_rules : UnicodeText := {| toLowerCase := List.map ascii_lower; normalizeNFKC s := s |}.
Proof. all: done. Defined.
End SampleText.
