(* ===== verification/ClaimSafety.v ===== *)
(** The text screens of the protocol (packages/protocol-ts/src/claim-safety.ts with the
    lists of generated/claim-safety-policy.ts): forbidden phrases, personal data,
    assurance claims, source code and positive closure language. *)

From Stdlib Require Import String.
From S2P Require Import Prelude Patterns Bytes Json JsonText Regex CanonicalJson JsonSnapshot Schema Values.

Import Regexp.
Local Open Scope Z_scope.

(** * The policy *)

Definition CLAIM_SAFE_FORBIDDEN_PHRASES : list string :=
  ["received_with_receipt"; "review complete"; "codeattest reviewed"; "vendor receipt"; "auditor acceptance"; "auditor accepted";
   "auditor approved"; "regulator acceptance"; "regulator accepted"; "independent assurance"; "no vulnerabilities";
   "absence of vulnerabilities"; "verification accepted"; "remediation complete"; "control accepted"; "control is satisfied";
   "control satisfied"; "soc 2 acceptance"; "soc 2 accepted"; "soc 2 certified"; "soc 2 certification"; "soc 2 compliant";
   "soc2 acceptance"; "soc2 accepted"; "soc2 certified"; "soc2 certification"; "soc2 compliant"; "regulator approval";
   "regulator approved"; "regulatory approval"; "regulatory accepted"; "control effectiveness proven"; "controls are effective";
   "security guaranteed"; "secure by codeattest"; "certification granted"; "granted certification"; "deployment certified"; "is certified"].
Definition CLAIM_SAFE_POSITIVE_CLOSURE_PHRASES : list string :=
  ["fresh full review"; "complete fresh review"; "full secure-code review"; "fixed"; "verified"; "remediated"; "resolved";
   "verification complete"; "regulator approved"; "auditor accepted"; "certified"; "control satisfied"; "independent assurance";
   "no vulnerabilities"].
Definition CLAIM_SAFE_TYPED_REFERENCE_NAMESPACES : list string :=
  ["accepted_risk"; "artifact_ref"; "attestation_finalization"; "mapping_entry"; "pilot_feedback"; "pilot_metric"; "portal_document";
   "static_bundle"; "static_portal_projection"; "supporting_evidence_mapping"; "candidate_finding"; "classification_record"; "customer";
   "customer_facing_finding"; "customer_selection"; "customer_status"; "false_positive"; "remediation_guidance"; "review";
   "review_finding_draft"; "validation_path"; "validation_script"; "verification_pass"].
Definition CLAIM_SAFE_TEXT_MAX_LENGTH : Z := 65536.
Definition PII_EMAIL_ADDRESS_PATTERN_SOURCE : string := "\b[a-z0-9][a-z0-9._%+-]{0,63}@([a-z0-9.-]{1,253}\.[a-z]{2,63})\b".
Definition SOURCE_TEXT_FORBIDDEN_PHRASES : list string :=
  ["eval('1 + 1')"; "raw scanner output"; "scanner stdout"; "scanner stderr"; "secret="; "secret:"; "password="; "password:"; "api_key=";
   "api_key:"; "api-key="; "api-key:"; "token="; "token:"; "authorization: bearer"].

Definition TEXT_TOO_LONG_REASON : string := "text_too_long".

(** * Patterns *)

Definition CUSTOMER_VISIBLE_ASSURANCE_FAMILY_PATTERNS : list (string * string) :=
  [("certifies_code_claim", "\bcertif(?:y|ies|ied|ication)\b[^.!?]{0,60}\b(?:code|application|package|product|deployment|system|software)\b");
   ("audit_ready_claim", "\baudit[- ]?(?:safe|ready|readiness|accepted|acceptance)\b");
   ("soc2_readiness_claim", "\bsoc 2\b[^.!?]{0,30}\b(?:read(?:y|iness)|accept(?:ed|ance)|certif(?:y|ies|ied|ication)|complian(?:t|ce))\b");
   ("secure_conclusion_claim", "\b(?:confirms?|proves?|guarantees?|ensures?)\b[^.!?]{0,60}\b(?:is\s+)?secure\b");
   ("compliance_guarantee_claim", "\bguarantees?\b[^.!?]{0,60}\bcomplian(?:t|ce)\b");
   ("zero_vulnerability_claim", "\b(?:zero|no|without\s+any|free\s+of|absence\s+of)\b[^.!?]{0,40}\bvulnerab(?:le|ilit(?:y|ies))\b");
   ("vulnerability_free_claim", "\bvulnerab(?:le|ility|ilities)[- ]free\b")].
Definition PII_FAMILY_PATTERNS : list (string * string) :=
  [("email_address", PII_EMAIL_ADDRESS_PATTERN_SOURCE);
   ("phone_number", "\b(?:phone|telephone|mobile|cell|fax|contact)\s*(?:number)?\s*[:=]\s*\+?[\d\s().-]{7,}\d\b");
   ("unlabeled_phone_number", "\b(?:\(\d{3}\)\s?\d{3}-\d{4}|\d{3}-\d{3}-\d{4})\b");
   ("customer_identifier_field", "\b(?:user|uid|customer|device|account|session)[_-]?id\s*[:=]");
   ("ip_address", "\b(?:(?:25[0-5]|2[0-4]\d|1?\d?\d)\.){3}(?:25[0-5]|2[0-4]\d|1?\d?\d)\b");
   ("street_address", "\b\d{1,5}\s+[a-z](?:[a-z.']*\s+){0,3}(?:street|st|avenue|ave|road|rd|boulevard|blvd|lane|ln|drive|dr|way|court|ct)\b");
   ("credential_variant", "\b(?:access_token|refresh_token|client_secret|private_key|secret_key)\s*[:=]");
   ("cloud_credential", "\bakia[0-9a-z]{16}\b");
   ("ssn", "\b\d{3}-\d{2}-\d{4}\b")].
Definition HIDDEN_CONTROL_CODEPOINT_RANGES : list (Z * Z) :=
  [(0x00ad, 0x00ad); (0x200b, 0x200f); (0x2060, 0x2064); (0x2066, 0x2069); (0x202a, 0x202e); (0xfeff, 0xfeff)].
Definition STRONG_BOUNDARY_PATTERN : string := "\band\b|\bbut\b|\bhowever\b|\bthough\b|\byet\b".
Definition FAMILY_NEGATION_CUE_PATTERN : string :=
  "\b(?:not|no|never|without|does not|do not|cannot|is not|are not|was not|were not|has not been|have not been)\b".
Definition DYNAMIC_EXECUTION_PATTERN : string := "\b(?:eval|exec|new\s+Function)\s*\(".
Definition CODE_FENCE_OR_SHEBANG_PATTERN : string := "```|^#!".
Definition FILE_LINE_REFERENCE_PATTERN : string :=
  "\b[\w./-]+\.(?:ts|tsx|js|jsx|mjs|cjs|py|rb|go|java|kt|c|cc|cpp|h|hpp|cs|php|rs|sh)\s*:\s*\d+\b".
Definition CODE_SYNTAX_PATTERN : string :=
  "\b(?:if|for|while|switch|function)\s*\(|\bclass\s+[A-Za-z_$][\w$]*|\b(?:const|let|var)\s+[A-Za-z_$][\w$]*\s*=|=>|[^=!<>]=[^=]|\b[a-zA-Z_$][\w.$]*\([^()]*\)".
Definition AUTHORIZATION_CONDITIONAL_PATTERN : string := "\bif\s*\([^{}]{0,200}?\)\s*\{".
Definition AUTHORIZATION_KEYWORD_PATTERN : string :=
  "\b(?:admin|authorize[ds]?|authorizing|authorization|permission|role|is[_-]?admin|is[_-]?authorized|access[_-]?control)\b".
Definition FRESH_REVIEW_CLOSURE_PATTERN : string := "\b(?:complete\s+fresh|fresh\s+full|complete\s+full)(?:\s+secure-code)?\s+review\b".
Definition NEGATION_GUARD_PATTERN : string :=
  "(?:\bnot|\bno|\bnever|\bwithout|\bdoes not|\bdo not|\bcannot|\bis not|\bwas not|\bhas not been)(?:\s+[^,;.!?]{0,40})?$".
Definition LEADING_TAIL_PATTERN : string := ",|;|:|(?<!\w)-(?!\w)|\band\b|\bbut\b|\bhowever\b|\bthough\b|\byet\b".
Definition TYPED_REFERENCE_PATTERN : string := "^([a-z_]+):([a-z0-9][a-z0-9_-]{2,63})$".

(** * Normalisation *)

(* new RegExp(text, "u") *)
Definition new_regexp (text : jsstr) : regex := default nothing (parse (code_points text)).
Definition trim_end (s : jsstr) : jsstr := rev (drop_space (rev s)).
Definition fixed (s : string) (m : found) : list Z := js s.
Definition group_text (m : found) (i : nat) : list Z := default [] (group m i).

Section claim_safety.
Context `{UnicodeText}.

Definition dashes : regex := class [(0x2010, 0x2015); (0x2212, 0x2212); (0xfe63, 0xfe63); (0xff0d, 0xff0d)].
Definition ignorable : regex := class [(0x00ad, 0x00ad); (0x200b, 0x200f); (0x2060, 0x2060); (0xfeff, 0xfeff)].
Definition normalizeForbiddenText (value : jsstr) : jsstr :=
  let s := normalizeNFKC value in
  let s := replace_u dashes (fixed "-") s in
  let s := replace_u ignorable (fixed "") s in
  let s := replace_u (re "\s+") (fixed " ") s in
  let s := toLowerCase (js_trim s) in
  let s := replace_u (re "\bsoc\s*-\s*2\b") (fixed "soc 2") s in
  let s := replace_u (re "\bsoc2\b") (fixed "soc 2") s in
  let s := replace_u (re "\s*([:=])\s*") (λ m, group_text m 1) s in
  let s := replace_u (re "\bs\s+e\s+c\s+r\s+e\s+t([=:])") (λ m, js "secret" ++ group_text m 1) s in
  let s := replace_u (re "\bp\s+a\s+s\s+s\s+w\s+o\s+r\s+d([=:])") (λ m, js "password" ++ group_text m 1) s in
  let s := replace_u (re "\bt\s+o\s+k\s+e\s+n([=:])") (λ m, js "token" ++ group_text m 1) s in
  let s := replace_u (re "\ba[\s_-]*p[\s_-]*i[\s_-]*k[\s_-]*e[\s_-]*y([=:])") (λ m, js "api_key" ++ group_text m 1) s in
  let s := replace_u (re "\bapi[\s_-]*key\b") (fixed "api_key") s in
  let s := replace_u (re "\bauthorization\s*[:=]?\s*bearer\b") (fixed "authorization:bearer") s in
  replace_u (re "\b(secret|password|api_key|api-key|token)([=:])\s+") (λ m, group_text m 1 ++ group_text m 2) s.
Definition escapeRegularExpression (value : jsstr) : jsstr :=
  replace_u (re "[.*+?^${}()|[\]\\]") (λ m, 92 :: matched m) value.
Definition splitNormalizedClauses (value : jsstr) : list jsstr :=
  List.filter (λ clause, negb (clause === [])) (List.map js_trim (split_u (re "[.;!?]+") value)).
Definition containsHiddenControlCharacter (value : jsstr) : bool :=
  existsb (in_ranges HIDDEN_CONTROL_CODEPOINT_RANGES) (code_points value).
Definition too_long (value : jsstr) : bool := CLAIM_SAFE_TEXT_MAX_LENGTH <? Z.of_nat (length value).

(** * Forbidden phrases *)

Definition starts_alphanumeric (s : jsstr) : bool := test_u (re "^[a-z0-9]") s.
Definition ends_alphanumeric (s : jsstr) : bool := test_u (re "[a-z0-9]$") s.
(* matchablePhrase.replaceAll(" ", "[\\s_-]+") *)
Definition tolerant (s : jsstr) : jsstr := List.flat_map (λ c, if c =? 32 then js "[\s_-]+" else [c]) s.
Definition phrase_pattern (toleratesSeparators : bool) (normalizedPhrase : jsstr) : jsstr :=
  let escapedPhrase := escapeRegularExpression normalizedPhrase in
  (if starts_alphanumeric normalizedPhrase then js "(?:^|[^a-z0-9])" else [])
  ++ (if toleratesSeparators then tolerant escapedPhrase else escapedPhrase)
  ++ (if ends_alphanumeric normalizedPhrase then js "(?:$|[^a-z0-9])" else []).
Definition firstForbiddenPhrase (value : json) (phrases : list string) : option string :=
  match value with
  | JString s =>
      if too_long s then Some TEXT_TOO_LONG_REASON
      else if containsHiddenControlCharacter s then Some "hidden_control_character"
      else
        let normalized := normalizeForbiddenText s in
        let toleratesSeparators := includes (js " ") normalized in
        List.find (λ phrase, test_u (new_regexp (phrase_pattern toleratesSeparators (normalizeForbiddenText (js phrase)))) normalized) phrases
  | _ => None
  end.
Definition claimSafeForbiddenPhrase (value : json) : option string := firstForbiddenPhrase value CLAIM_SAFE_FORBIDDEN_PHRASES.
Definition sourceTextForbiddenPhrase (value : json) : option string := firstForbiddenPhrase value SOURCE_TEXT_FORBIDDEN_PHRASES.

(** * Personal data *)

Definition isTypedIdentityNamespace (value : list Z) : bool :=
  existsb (λ namespace, value === js namespace) CLAIM_SAFE_TYPED_REFERENCE_NAMESPACES.
Definition isTypedIdentityReference (value : jsstr) : bool :=
  match exec flags_u (re TYPED_REFERENCE_PATTERN) (code_points (js_trim value)) with
  | Some m => match group m 1 with Some namespace => isTypedIdentityNamespace namespace | None => false end
  | None => false
  end.
Definition piiTextForbidden (value : json) : option string :=
  match value with
  | JString s =>
      if too_long s then Some TEXT_TOO_LONG_REASON
      else if isTypedIdentityReference (normalizeForbiddenText s) then None
      else fst <$> List.find (λ family : string * string, test_u (re family.2) (normalizeForbiddenText s)) PII_FAMILY_PATTERNS
  | _ => None
  end.
Fixpoint containsPiiValue (value : json) : bool :=
  match value with
  | JArray l => existsb containsPiiValue l
  | JObject fields => existsb (λ field, containsPiiValue field.2) fields
  | _ => bool_decide (is_Some (piiTextForbidden value))
  end.

(** * Claims and their negations *)

(* The matches of a regular expression with the flags gu, and where they begin: from left to
   right, each one sought after the end of the one before. *)
Fixpoint occurrences_from (fuel : nat) (r : regex) (x : position) : list (nat * found) :=
  match fuel with
  | 0%nat => []
  | S fuel' =>
      match exec_from flags_u r x.1 x.2 with
      | None => []
      | Some m =>
          ((length x.1 + length (skipped m))%nat, m)
            :: match next_start m with Some (_, y) => occurrences_from fuel' r y | None => [] end
      end
  end.
Definition occurrences (r : regex) (s : list Z) : list (nat * found) := occurrences_from (S (S (length s))) r ([], s).
Definition slice {A} (from to : nat) (s : list A) : list A := take (to - from) (drop from s).

(* The end of the last conjunction that begins before the index. *)
Fixpoint segment_start (boundaries : list (nat * found)) (index : nat) (start : nat) : nat :=
  match boundaries with
  | [] => start
  | (at_, m) :: boundaries' =>
      if (index <=? at_)%nat then start else segment_start boundaries' index (at_ + length (matched m))
  end.
Definition claim_segment (clause : list Z) (index : nat) : list Z :=
  slice (segment_start (occurrences (re STRONG_BOUNDARY_PATTERN) clause) index 0) index clause.
Definition familyClaimAppearsPositively (clause : jsstr) (pattern : string) : bool :=
  let points := code_points clause in
  existsb (λ o, negb (test flags_u (re FAMILY_NEGATION_CUE_PATTERN) (claim_segment points o.1))) (occurrences (re pattern) points).

Definition customerVisibleTextForbidden (value : json) : option string :=
  match claimSafeForbiddenPhrase value, value with
  | Some phrase, _ => Some phrase
  | None, JString s =>
      if containsHiddenControlCharacter s then Some "hidden_control_character"
      else match piiTextForbidden value with
      | Some pii => Some pii
      | None =>
          let clauses := splitNormalizedClauses (normalizeForbiddenText s) in
          head (List.flat_map (λ clause,
            option_list (fst <$> List.find (λ family : string * string, familyClaimAppearsPositively clause family.2)
                                    CUSTOMER_VISIBLE_ASSURANCE_FAMILY_PATTERNS)) clauses)
      end
  | None, _ => None
  end.
Definition attestationClaimUnsafePhrase (value : json) : option string := customerVisibleTextForbidden value.
Definition isAttestationClaimSafe (value : json) : bool :=
  (bool_decide (attestationClaimUnsafePhrase value = None) && bool_decide (sourceTextForbiddenPhrase value = None))%bool.

(** * Source code *)

Definition sourceCodeLikeTextReason (value : json) : option string :=
  match value with
  | JString s =>
      if too_long s then Some TEXT_TOO_LONG_REASON
      else if test_flags flags_mu (re CODE_FENCE_OR_SHEBANG_PATTERN) s then Some "code_fence_or_shebang"
      else if test_u (re DYNAMIC_EXECUTION_PATTERN) s then Some "dynamic_execution_call"
      else if (test_u (re AUTHORIZATION_CONDITIONAL_PATTERN) s && test_flags flags_iu (re AUTHORIZATION_KEYWORD_PATTERN) s)%bool then
        Some "authorization_conditional_with_executable_syntax"
      else if (test_flags flags_iu (re FILE_LINE_REFERENCE_PATTERN) s && test_u (re CODE_SYNTAX_PATTERN) s)%bool then
        Some "source_location_with_code_syntax"
      else None
  | _ => None
  end.

(** * Closure language *)

(* The 64 code units before a match, and their part after the last clause boundary. *)
Definition leading_window (clause : jsstr) (matchStart : nat) : jsstr := trim_end (slice (matchStart - 64) matchStart clause).
Definition leading_tail (window : jsstr) : jsstr := js_trim (List.last (split_u (re LEADING_TAIL_PATTERN) window) []).
Definition negated_before (window : jsstr) : bool :=
  (negb (window === []) && test_u (re NEGATION_GUARD_PATTERN) (leading_tail window))%bool.
Definition regexAppearsPositively (clause : jsstr) (pattern : regex) (hasCaptureGroupBoundary : bool) : bool :=
  let points := code_points clause in
  existsb (λ o : nat * found,
      let boundaryPrefix := if hasCaptureGroupBoundary then to_units (group_text o.2 1) else [] in
      let matchStart := (length (to_units (take o.1 points)) + length boundaryPrefix)%nat in
      negb (negated_before (leading_window clause matchStart)))
    (occurrences pattern points).
Definition phraseAppearsPositively (clause phrase : jsstr) : bool :=
  let hasLeadingBoundary := starts_alphanumeric phrase in
  let prefix := if hasLeadingBoundary then js "(^|[^a-z0-9])" else [] in
  let suffix := if ends_alphanumeric phrase then js "(?:$|[^a-z0-9])" else [] in
  regexAppearsPositively clause (new_regexp (prefix ++ escapeRegularExpression phrase ++ suffix)) hasLeadingBoundary.
Definition closure_phrase (clause : jsstr) : option string :=
  match List.find (λ phrase, phraseAppearsPositively clause (normalizeForbiddenText (js phrase))) CLAIM_SAFE_POSITIVE_CLOSURE_PHRASES with
  | Some phrase => Some phrase
  | None => if regexAppearsPositively clause (re FRESH_REVIEW_CLOSURE_PATTERN) false then Some "complete fresh secure-code review" else None
  end.
Definition claimSafePositiveClosurePhrase (value : json) : option string :=
  match value with
  | JString s =>
      if too_long s then Some TEXT_TOO_LONG_REASON
      else
        let normalizedValue := normalizeForbiddenText s in
        if isTypedIdentityReference normalizedValue then None
        else head (List.flat_map (λ clause, option_list (closure_phrase clause)) (splitNormalizedClauses normalizedValue))
  | _ => None
  end.

(** * Opaque actor ids *)

Definition opaquePilotActorIdIsValid (actorType actorId : json) : bool :=
  match actorType, actorId with
  | JString type, JString id => test_u (new_regexp (js "^" ++ escapeRegularExpression type ++ js ":[a-z0-9][a-z0-9_-]{2,63}$")) id
  | _, _ => false
  end.
End claim_safety.

(* Every pattern above is in the syntax of the parser. *)
Example patterns_parse : forallb (λ p, bool_decide (is_Some (parse (js p))))
  (CUSTOMER_VISIBLE_ASSURANCE_FAMILY_PATTERNS.*2 ++ PII_FAMILY_PATTERNS.*2
   ++ [STRONG_BOUNDARY_PATTERN; FAMILY_NEGATION_CUE_PATTERN; DYNAMIC_EXECUTION_PATTERN; CODE_FENCE_OR_SHEBANG_PATTERN;
       FILE_LINE_REFERENCE_PATTERN; CODE_SYNTAX_PATTERN; AUTHORIZATION_CONDITIONAL_PATTERN; AUTHORIZATION_KEYWORD_PATTERN;
       FRESH_REVIEW_CLOSURE_PATTERN; NEGATION_GUARD_PATTERN; LEADING_TAIL_PATTERN; TYPED_REFERENCE_PATTERN;
       "\s+"; "\bsoc\s*-\s*2\b"; "\bsoc2\b"; "\s*([:=])\s*"; "\bs\s+e\s+c\s+r\s+e\s+t([=:])"; "\bp\s+a\s+s\s+s\s+w\s+o\s+r\s+d([=:])";
       "\bt\s+o\s+k\s+e\s+n([=:])"; "\ba[\s_-]*p[\s_-]*i[\s_-]*k[\s_-]*e[\s_-]*y([=:])"; "\bapi[\s_-]*key\b";
       "\bauthorization\s*[:=]?\s*bearer\b"; "\b(secret|password|api_key|api-key|token)([=:])\s+"; "[.*+?^${}()|[\]\\]"; "[.;!?]+";
       "^[a-z0-9]"; "[a-z0-9]$"]) = true.
Proof. by vm_compute. Qed.

(** * How a phrase is written as a pattern *)

Definition plain (s : jsstr) : bool := forallb (λ c, negb (is_high_surrogate c) && (c <? 65536))%bool s.
Lemma forallb_weaken {A} (p q : A → bool) l : (∀ x, p x = true → q x = true) → forallb p l = true → forallb q l = true.
Proof. rewrite !forallb_forall. auto. Qed.
Lemma plain_app s t : plain (s ++ t) = (plain s && plain t)%bool.
Proof. apply forallb_app. Qed.
Lemma plain_points s : plain s = true → code_points s = s.
Proof. intros Hs. apply code_points_plain. revert Hs. apply forallb_weaken. by intros c [H _]%andb_prop. Qed.
Lemma plain_units s : plain s = true → to_units s = s.
Proof.
  intros Hs. rewrite <- (plain_points s Hs) at 1. apply to_units_code_points. revert Hs. apply forallb_weaken.
  by intros c [_ H]%andb_prop.
Qed.
Lemma ascii_plain s : is_ascii s = true → plain s = true.
Proof. apply forallb_weaken. intros c Hc. unfold is_high_surrogate. lia. Qed.

Lemma in_singles l c : in_ranges (List.map (λ x, (x, x)) l) c = bool_decide (c ∈ l).
Proof.
  induction l as [|x l IH]; [done|]. cbn [List.map]. unfold in_ranges in *. cbn [existsb fst snd]. rewrite IH.
  apply eq_true_iff_eq. rewrite orb_true_iff, andb_true_iff, !bool_decide_eq_true, elem_of_cons, !Z.leb_le. intuition lia.
Qed.
Lemma escape_spec s : plain s = true → escapeRegularExpression s = escape_points s.
Proof.
  intros Hs. unfold escapeRegularExpression, replace_u. rewrite plain_points by done.
  change (re "[.*+?^${}()|[\]\\]") with (class (List.map (λ x, (x, x)) special_characters)). unfold class.
  rewrite (replace_chars _ _ _ (λ c, [92; c])) by (by intros m c ->).
  assert (∀ c, in_set flags_u {| negated := false; ranges := List.map (λ x, (x, x)) special_characters |} c = special c) as E.
  { intros c. unfold in_set, special. cbn [negated ranges]. unfold variants. cbn [ignoreCase flags_u negb existsb].
    by rewrite in_singles, orb_false_r, xorb_false_l. }
  rewrite plain_units; [apply flat_map_ext; intros c; by rewrite E|].
  induction s as [|c s IH]; [done|]. cbn [List.flat_map]. unfold plain in Hs. cbn [forallb] in Hs. apply andb_prop in Hs as [Hc Hs].
  rewrite plain_app, IH by done. destruct (in_set _ _ _); unfold plain; cbn [forallb]; by rewrite Hc.
Qed.

Definition separators : charset := {| negated := false; ranges := space_ranges ++ [(95, 95); (45, 45)] |}.
Definition alphanumeric : list (Z * Z) := [(97, 122); (48, 57)].
Definition is_alphanumeric (c : Z) : bool := in_ranges alphanumeric c.
Definition phrase_text (tolerates : bool) (p : jsstr) : jsstr :=
  List.flat_map (λ c, if (tolerates && (c =? 32))%bool then js "[\s_-]+" else if special c then [92; c] else [c]) p.
Fixpoint phrase_regex (tolerates : bool) (p : list Z) (r : regex) : regex :=
  match p with
  | [] => r
  | c :: p' =>
      if (tolerates && (c =? 32))%bool then seq (Repeat 1 None true (Char separators)) (phrase_regex tolerates p' r)
      else seq (single c) (phrase_regex tolerates p' r)
  end.
Lemma special_space c : special c = true → (c =? 32) = false.
Proof.
  unfold special. rewrite bool_decide_eq_true. intros H. apply Z.eqb_neq. intros ->. unfold special_characters in H.
  rewrite !elem_of_cons, elem_of_nil in H. lia.
Qed.
Lemma phrase_text_spec (tolerates : bool) p : (if tolerates then tolerant (escape_points p) else escape_points p) = phrase_text tolerates p.
Proof.
  destruct tolerates; [|done]. unfold tolerant, escape_points, phrase_text. induction p as [|c p IH]; [done|].
  cbn [List.flat_map andb]. rewrite flat_map_app, IH. f_equal. destruct (special c) eqn:Hc.
  - cbn [List.flat_map]. by rewrite (special_space c).
  - cbn [List.flat_map]. by rewrite app_nil_r.
Qed.
Lemma phrase_starts tolerates p rest : quantifier_start rest = false → quantifier_start (phrase_text tolerates p ++ rest) = false.
Proof.
  destruct p as [|c p]; [done|]. intros H. unfold phrase_text. cbn [List.flat_map]. rewrite <- app_assoc.
  destruct (tolerates && (c =? 32))%bool; [reflexivity|].
  pose proof (escape_starts [c] [] eq_refl) as Hs. unfold escape_points in Hs. cbn [List.flat_map] in Hs. rewrite !app_nil_r in Hs.
  destruct (special c); exact Hs.
Qed.
Lemma quantified_plus a s : quantifier_start s = false → quantified a (43 :: s) = Some (Repeat 1 None true a, s).
Proof.
  destruct s as [|c s]; [done|]. intros Hc. unfold quantified. cbn [quantifier mbind option_bind].
  destruct c as [|p|p]; [reflexivity| |reflexivity]. do 7 (destruct p as [p|p|]; try reflexivity; try discriminate Hc).
Qed.
Lemma parse_atom_separators k i t : parse_atom (8 + k) i (js "[\s_-]" ++ t) = Some (Char separators, i, t).
Proof. reflexivity. Qed.
Lemma parse_terms_atom n i c s a s' a' s'' : special c = false ∨ c ∈ [92; 91; 40; 94] →
  parse_atom n i (c :: s) = Some (a, i, s') → quantified a s' = Some (a', s'') →
  parse_terms (S n) i (c :: s) = '(b, i'', rest) ← parse_terms n i s''; Some (seq a' b, i'', rest).
Proof.
  intros Hc Ha Hq.
  assert (parse_terms (S n) i (c :: s) =
    '(a, i', s') ← parse_atom n i (c :: s);
    '(a', s'') ← quantified a s';
    if (negb (Nat.eqb i i') && negb (Nat.eqb (length s') (length s'')))%bool then None
    else '(b, i'', rest) ← parse_terms n i' s''; Some (seq a' b, i'', rest)) as ->.
  { destruct Hc as [Hc|Hc]; [by apply parse_terms_cons; left|]. rewrite !elem_of_cons, elem_of_nil in Hc.
    by destruct Hc as [-> |[-> |[-> |[-> |[]]]]]. }
  rewrite Ha. cbn [mbind option_bind]. rewrite Hq. cbn [mbind option_bind]. by rewrite Nat.eqb_refl.
Qed.
Lemma parse_phrase tolerates p n i rest r j rest' : quantifier_start rest = false → (8 ≤ n)%nat →
  parse_terms (S n) i rest = Some (r, j, rest') →
  parse_terms (length p + S n) i (phrase_text tolerates p ++ rest) = Some (phrase_regex tolerates p r, j, rest').
Proof.
  intros Hq Hn Hrest. induction p as [|c p IH]; [done|]. pose proof (phrase_starts tolerates p rest Hq) as Hs.
  change (phrase_text tolerates (c :: p))
    with ((if (tolerates && (c =? 32))%bool then js "[\s_-]+" else if special c then [92; c] else [c]) ++ phrase_text tolerates p).
  rewrite <- app_assoc. cbn [length Nat.add phrase_regex].
  assert (∃ k, length p + S n = 8 + k)%nat as [k Hk] by (exists (length p + n - 7)%nat; lia).
  destruct (tolerates && (c =? 32))%bool; [|destruct (special c) eqn:Hc].
  - change (js "[\s_-]+" ++ phrase_text tolerates p ++ rest) with (91 :: (js "\s_-]" ++ 43 :: phrase_text tolerates p ++ rest)).
    erewrite parse_terms_atom; [|right; rewrite !elem_of_cons; by auto|rewrite Hk; apply parse_atom_separators|by apply quantified_plus].
    by rewrite IH.
  - cbn [app]. erewrite parse_terms_atom; [|right; rewrite !elem_of_cons; by auto|rewrite Hk; by apply parse_atom_escaped|by apply quantified_none].
    by rewrite IH.
  - cbn [app]. erewrite parse_terms_atom; [|by left|rewrite Hk; by apply parse_atom_plain|by apply quantified_none].
    by rewrite IH.
Qed.

(** ** The pattern of a phrase *)

Definition boundary_before : regex := Alt LineStart (other_than alphanumeric).
Definition boundary_after : regex := Alt LineEnd (other_than alphanumeric).
Definition bounded (tolerates before after : bool) (p : list Z) : regex :=
  let body := phrase_regex tolerates p (if after then boundary_after else Empty) in
  if before then seq boundary_before body else body.
Definition phrase_source (tolerates before after : bool) (p : jsstr) : jsstr :=
  (if before then js "(?:^|[^a-z0-9])" else []) ++ phrase_text tolerates p ++ (if after then js "(?:$|[^a-z0-9])" else []).
Lemma parse_phrase_tail (tolerates after : bool) p n : (12 ≤ n)%nat →
  parse_terms (length p + S n) 1 (phrase_text tolerates p ++ (if after then js "(?:$|[^a-z0-9])" else []))
  = Some (phrase_regex tolerates p (if after then boundary_after else Empty), 1%nat, []).
Proof.
  intros Hn. apply parse_phrase; [by destruct after|lia|].
  assert (∃ k, n = 12 + k)%nat as [k ->] by (exists (n - 12)%nat; lia). by destruct after.
Qed.
Lemma phrase_text_length tolerates p : (length p ≤ length (phrase_text tolerates p))%nat.
Proof.
  unfold phrase_text. induction p as [|c p IH]; [done|]. cbn [List.flat_map]. rewrite length_app.
  apply (Nat.add_le_mono 1); [|done]. destruct (tolerates && (c =? 32))%bool; [|destruct (special c)]; cbn; lia.
Qed.
Lemma parse_atom_before k t : parse_atom (12 + k) 1 (40 :: (js "?:^|[^a-z0-9])" ++ t)) = Some (boundary_before, 1%nat, t).
Proof. reflexivity. Qed.
Lemma parse_before n t b i rest : quantifier_start t = false → (12 ≤ n)%nat → parse_terms n 1 t = Some (b, i, rest) →
  parse_terms (S n) 1 (40 :: (js "?:^|[^a-z0-9])" ++ t)) = Some (seq boundary_before b, i, rest).
Proof.
  intros Hq Hn Ht.
  assert (∃ k, n = 12 + k)%nat as [k Hk] by (exists (n - 12)%nat; lia).
  assert (parse_atom n 1 (40 :: (js "?:^|[^a-z0-9])" ++ t)) = Some (boundary_before, 1%nat, t)) as Ha by (rewrite Hk; apply parse_atom_before).
  pose proof (quantified_none boundary_before t Hq) as Hb.
  assert (40 ∈ [92; 91; 40; 94]) as H40 by (rewrite !elem_of_cons; auto).
  rewrite (parse_terms_atom n 1 40 _ _ _ _ _ (or_intror H40) Ha Hb), Ht. reflexivity.
Qed.
Lemma parse_alternatives_last n t r i : parse_terms n 1 t = Some (r, i, []) → parse_alternatives (S n) 1 t = Some (r, i, []).
Proof. intros H. cbn [parse_alternatives]. by rewrite H. Qed.
Lemma parse_from n t r i : (2 * length t + 16)%nat = S n → parse_terms n 1 t = Some (r, i, []) → parse t = Some r.
Proof. unfold parse. intros -> H. by rewrite (parse_alternatives_last n t r i H). Qed.
Lemma parse_bounded tolerates before after p : parse (phrase_source tolerates before after p) = Some (bounded tolerates before after p).
Proof.
  unfold phrase_source, bounded. pose proof (phrase_text_length tolerates p) as Hlen.
  pose proof (parse_phrase_tail tolerates after p) as Ht.
  set (tail := if after then js "(?:$|[^a-z0-9])" else []) in *.
  assert (quantifier_start (phrase_text tolerates p ++ tail) = false) as Hq by (apply phrase_starts; by destruct after).
  destruct before; cbn [app].
  - change (js "(?:^|[^a-z0-9])") with (40 :: js "?:^|[^a-z0-9])"). cbn [app].
    remember (2 * length (40%Z :: (js "?:^|[^a-z0-9])" ++ phrase_text tolerates p ++ tail)) + 15)%nat as n eqn:En.
    apply (parse_from n _ _ 1); [by rewrite En, <- Nat.add_succ_r|]. cbn [length] in En. rewrite !length_app in En.
    replace n with (S (length p + S (n - length p - 2)))%nat by lia.
    apply parse_before; [done|lia|]. apply Ht. lia.
  - remember (2 * length (phrase_text tolerates p ++ tail) + 15)%nat as n eqn:En.
    apply (parse_from n _ _ 1); [by rewrite En, <- Nat.add_succ_r|]. rewrite !length_app in En.
    replace n with (length p + S (n - length p - 1))%nat by lia. apply Ht. lia.
Qed.

(** ** What the pattern of a phrase matches *)

(* A text that reads as the phrase: where separators are tolerated, a run of them
   stands for a space. *)
Inductive spells (tolerates : bool) : list Z → list Z → Prop :=
| spells_nil : spells tolerates [] []
| spells_char c p w : (tolerates && (c =? 32))%bool = false → spells tolerates p w → spells tolerates (c :: p) (c :: w)
| spells_gap gap p w : tolerates = true → gap ≠ [] → forallb (in_set flags_u separators) gap = true →
    spells tolerates p w → spells tolerates (32 :: p) (gap ++ w).
Definition begins_alphanumeric (s : list Z) : bool := match s with c :: _ => is_alphanumeric c | [] => false end.
(* The phrase occurs in the text, and where it begins or ends with a letter or digit no
   other is next to it. *)
Definition phrase_occurs (tolerates : bool) (p text : list Z) : Prop :=
  ∃ a w b, text = a ++ w ++ b ∧ spells tolerates p w ∧
    (begins_alphanumeric p = true → begins_alphanumeric (rev a) = false) ∧
    (begins_alphanumeric (rev p) = true → begins_alphanumeric b = false).

Lemma accepts_phrase tolerates p r pre s :
  accepts flags_u (phrase_regex tolerates p r) (pre, s) ↔
  ∃ w s', s = w ++ s' ∧ spells tolerates p w ∧ accepts flags_u r (rev w ++ pre, s').
Proof.
  revert pre s. induction p as [|c p IH]; intros pre s; cbn [phrase_regex].
  - split; [intros H; exists [], s; by split_and!; [|constructor|]|]. intros (w & s' & -> & Hw & H). by inversion Hw; subst.
  - destruct (tolerates && (c =? 32))%bool eqn:Hc.
    + apply andb_prop in Hc as [Ht ->%Z.eqb_eq]. rewrite accepts_run. split.
      * intros (gap & s1 & -> & Hne & Hgap & (w & s' & -> & Hw & H)%IH). exists (gap ++ w), s'.
        split_and!; [by rewrite app_assoc|by apply spells_gap|]. by rewrite rev_app_distr, <- app_assoc.
      * intros (w & s' & -> & Hw & H). inversion Hw as [|? ? ? Hc ?|gap ? w' ? Hne Hgap Hw']; subst.
        { by cbn in *. }
        exists gap, (w' ++ s'). rewrite <- app_assoc. split_and!; try done. apply IH. exists w', s'. split_and!; try done.
        by rewrite rev_app_distr, <- app_assoc in H.
    + unfold single. rewrite accepts_char. destruct s as [|d s].
      * split; [done|]. intros (w & s' & E & Hw & _). inversion Hw as [| |gap ? w' ? Hne]; subst; [done|]. by cbn in *.
      * rewrite in_single, Z.eqb_eq, IH by done. split.
        -- intros [-> (w & s' & -> & Hw & H)]. exists (d :: w), s'. split_and!; [done|by apply spells_char|].
           cbn [rev]. by rewrite <- app_assoc.
        -- intros (w & s' & E & Hw & H). inversion Hw as [|? ? w' ? Hw'|gap ? w' ?]; subst; [|by cbn in *].
           cbn in E. simplify_eq. split; [done|]. exists w', s'. split_and!; try done. cbn [rev] in H. by rewrite <- app_assoc in H.
Qed.
Lemma other_alphanumeric c : in_set flags_u {| negated := true; ranges := alphanumeric |} c = negb (is_alphanumeric c).
Proof. unfold in_set, variants. cbn [negated ranges ignoreCase flags_u negb existsb]. by rewrite orb_false_r, xorb_true_l. Qed.
Lemma accepts_after pre s : accepts flags_u boundary_after (pre, s) ↔ begins_alphanumeric s = false.
Proof.
  unfold boundary_after. rewrite accepts_alt. change (other_than alphanumeric) with (seq (other_than alphanumeric) Empty).
  unfold other_than. rewrite accepts_char. unfold accepts. cbn [denotes at_line_end fst snd]. destruct s as [|c s].
  - split; [done|]. intros _. left. by eexists.
  - rewrite other_alphanumeric, negb_true_iff. cbn. split; [intros [(? & _ & ?)|[? _]]; done|]. intros H. right. split; [done|]. by eexists.
Qed.
Lemma accepts_before r pre s : accepts flags_u (seq boundary_before r) (pre, s) ↔
  (pre = [] ∧ accepts flags_u r (pre, s)) ∨ ∃ c s', s = c :: s' ∧ is_alphanumeric c = false ∧ accepts flags_u r (c :: pre, s').
Proof.
  rewrite accepts_seq. unfold boundary_before. cbn [denotes]. split.
  - intros (y & [[-> Hs]|(c & Hc & Hr)] & H).
    + left. destruct pre; [done|]. done.
    + right. destruct s as [|d s]; [by destruct Hr|]. apply reads_cons_inv in Hr as [-> ->]. exists d, s. split_and!; try done.
      by rewrite other_alphanumeric, negb_true_iff in Hc.
  - intros [[-> H]|(c & s' & -> & Hc & H)].
    + exists ([], s). split; [by left|done].
    + exists (c :: pre, s'). split; [|done]. right. exists c. by rewrite other_alphanumeric, Hc.
Qed.
Lemma accepts_tail (after : bool) pre s :
  accepts flags_u (if after then boundary_after else Empty) (pre, s) ↔ (after = true → begins_alphanumeric s = false).
Proof.
  destruct after; [rewrite accepts_after; tauto|]. split; [done|]. intros _. apply accepts_empty.
Qed.
Lemma test_bounded tolerates before after p text :
  test flags_u (bounded tolerates before after p) text = true ↔
  ∃ a w b, text = a ++ w ++ b ∧ spells tolerates p w ∧ (before = true → begins_alphanumeric (rev a) = false) ∧
    (after = true → begins_alphanumeric b = false).
Proof.
  rewrite test_accepts. unfold bounded. destruct before.
  - split.
    + intros (a & b & -> & [[Ha (w & s' & -> & Hw & H)%accepts_phrase]|(c & s & -> & Hc & (w & s' & -> & Hw & H)%accepts_phrase)]%accepts_before).
      * exists a, w, s'. rewrite accepts_tail in H. split_and!; try done. by rewrite Ha.
      * exists (a ++ [c]), w, s'. rewrite accepts_tail in H. rewrite <- !app_assoc. split_and!; try done. intros _.
        by rewrite rev_app_distr.
    + intros (a & w & b & -> & Hw & Ha & Hb). destruct (rev a) as [|c l] eqn:E.
      * exists a, (w ++ b). split; [done|]. rewrite E. apply accepts_before. left. split; [done|].
        apply accepts_phrase. exists w, b. split_and!; try done. by apply accepts_tail.
      * apply (f_equal (@rev Z)) in E. rewrite rev_involutive in E. subst a. exists (rev l), (c :: w ++ b). cbn [rev].
        rewrite <- !app_assoc, rev_involutive. split; [done|]. apply accepts_before. right. exists c, (w ++ b). split; [done|].
        split; [by apply Ha|]. apply accepts_phrase. exists w, b. split_and!; try done. by apply accepts_tail.
  - split.
    + intros (a & b & -> & (w & s' & -> & Hw & H)%accepts_phrase). exists a, w, s'. rewrite accepts_tail in H. by split_and!.
    + intros (a & w & b & -> & Hw & _ & Hb). exists a, (w ++ b). split; [done|]. apply accepts_phrase. exists w, b.
      split_and!; try done. by apply accepts_tail.
Qed.

(** * What a screened text is free of *)

Lemma in_alphanumeric c : in_set flags_u {| negated := false; ranges := alphanumeric |} c = is_alphanumeric c.
Proof. unfold in_set, variants. cbn [negated ranges ignoreCase flags_u negb existsb]. by rewrite orb_false_r, xorb_false_l. Qed.
Lemma starts_spec s : plain s = true → starts_alphanumeric s = begins_alphanumeric s.
Proof.
  intros Hs. unfold starts_alphanumeric, test_u, test_flags. rewrite plain_points by done. apply eq_true_iff_eq.
  change (re "^[a-z0-9]") with (Seq LineStart (seq (class alphanumeric) Empty)). unfold class.
  rewrite test_anchored, accepts_char by done. destruct s as [|c s]; [done|]. rewrite in_alphanumeric. cbn.
  split; [by intros [? _]|]. intros H. by split; [|apply accepts_empty].
Qed.
Lemma ends_spec s : plain s = true → ends_alphanumeric s = begins_alphanumeric (rev s).
Proof.
  intros Hs. unfold ends_alphanumeric, test_u, test_flags. rewrite plain_points by done. apply eq_true_iff_eq.
  change (re "[a-z0-9]$") with (seq (class alphanumeric) LineEnd). unfold class. rewrite test_accepts.
  split.
  - intros (a & b & -> & H). rewrite accepts_char in H. destruct b as [|c b]; [done|]. destruct H as [Hc (y & _ & He)].
    unfold at_line_end in He. cbn in He. destruct b; [|done]. rewrite rev_app_distr. cbn. by rewrite in_alphanumeric in Hc.
  - intros H. destruct (rev s) as [|c l] eqn:E; [done|]. apply (f_equal (@rev Z)) in E. rewrite rev_involutive in E. subst s.
    exists (rev l), [c]. split; [done|]. rewrite accepts_char, in_alphanumeric. split; [done|]. by eexists.
Qed.
Lemma phrase_pattern_spec tolerates p : plain p = true →
  phrase_pattern tolerates p = phrase_source tolerates (begins_alphanumeric p) (begins_alphanumeric (rev p)) p.
Proof.
  intros Hp. unfold phrase_pattern, phrase_source. rewrite starts_spec, ends_spec, escape_spec, phrase_text_spec by done. done.
Qed.
Lemma phrase_text_plain tolerates p : plain p = true → plain (phrase_text tolerates p) = true.
Proof.
  unfold phrase_text. induction p as [|c p IH]; [done|]. intros Hp. unfold plain in Hp. cbn [forallb] in Hp. apply andb_prop in Hp as [Hc Hp].
  cbn [List.flat_map]. rewrite plain_app, IH, andb_true_r by done. destruct (tolerates && (c =? 32))%bool; [reflexivity|].
  unfold plain. destruct (special c); cbn [forallb]; by rewrite Hc.
Qed.
Lemma test_phrase tolerates p text : plain p = true →
  test_u (new_regexp (phrase_pattern tolerates p)) text = true ↔ phrase_occurs tolerates p (code_points text).
Proof.
  intros Hp. unfold new_regexp. rewrite phrase_pattern_spec, plain_points by
    (try done; unfold phrase_source; rewrite !plain_app, phrase_text_plain by done; by destruct (begins_alphanumeric p), (begins_alphanumeric (rev p))).
  rewrite parse_bounded. cbn [default]. unfold test_u, test_flags. apply test_bounded.
Qed.

Section screens.
Context `{UnicodeText}.

Lemma find_none_iff {A} (p : A → bool) l : List.find p l = None ↔ ∀ x, x ∈ l → p x = false.
Proof.
  split; [intros Hf x Hx; by apply (find_none p l Hf), list_elem_of_In|].
  intros Hno. destruct (List.find p l) as [x|] eqn:E; [|done]. apply find_some in E as [Hx Hp]. apply list_elem_of_In in Hx.
  by rewrite Hno in Hp.
Qed.
Definition phrases_plain (phrases : list string) : Prop := ∀ phrase, phrase ∈ phrases → plain (normalizeForbiddenText (js phrase)) = true.

(* The screen for forbidden phrases passes a text exactly when it is short enough, holds
    no hidden character, and in its normal form no phrase of the list occurs as words
    of its own; in prose a run of spaces, hyphens and underscores counts as a space. *)
Lemma phrase_screen_none phrases s : phrases_plain phrases →
  firstForbiddenPhrase (JString s) phrases = None ↔
  Z.of_nat (length s) ≤ CLAIM_SAFE_TEXT_MAX_LENGTH ∧ containsHiddenControlCharacter s = false ∧
  ∀ phrase, phrase ∈ phrases →
    let text := normalizeForbiddenText s in
    ¬ phrase_occurs (includes (js " ") text) (normalizeForbiddenText (js phrase)) (code_points text).
Proof.
  intros Hplain. unfold firstForbiddenPhrase, too_long. destruct (Z.ltb_spec CLAIM_SAFE_TEXT_MAX_LENGTH (Z.of_nat (length s))).
  { split; [done|]. intros [? _]. lia. }
  destruct (containsHiddenControlCharacter s); [split; [done|by intros (_ & ? & _)]|]. rewrite find_none_iff. split.
  - intros Hf. split_and!; [done..|]. intros phrase Hp Ho. apply test_phrase in Ho; [|by apply Hplain]. by rewrite Hf in Ho.
  - intros (_ & _ & Hno) phrase Hp. apply not_true_iff_false. rewrite test_phrase by (by apply Hplain). by apply Hno.
Qed.

(** *** The lists of the policy *)

(* On ASCII text the Unicode tables play no part. *)
Definition normalized_start (s : jsstr) : jsstr :=
  js_trim (replace_u (re "\s+") (fixed " ") (replace_u ignorable (fixed "") (replace_u dashes (fixed "-") s))).
Lemma normalize_ascii s : is_ascii s = true → is_ascii (normalized_start s) = true →
  normalizeForbiddenText s = @normalizeForbiddenText SampleText.ascii_text_rules s.
Proof.
  intros Hs Hstart. unfold normalizeForbiddenText. rewrite normalizeNFKC_ascii by done.
  change (@normalizeNFKC SampleText.ascii_text_rules s) with s. fold (normalized_start s). rewrite toLowerCase_ascii by done. reflexivity.
Qed.
Lemma phrases_are_plain phrases :
  forallb (λ phrase, is_ascii (js phrase) && is_ascii (normalized_start (js phrase))
                     && plain (@normalizeForbiddenText SampleText.ascii_text_rules (js phrase)))%bool phrases = true → phrases_plain phrases.
Proof.
  rewrite forallb_forall. intros Hall phrase Hp. apply list_elem_of_In in Hp. specialize (Hall phrase Hp). apply andb_prop in Hall as [[Ha Hb]%andb_prop Hc].
  by rewrite normalize_ascii.
Qed.
Lemma claim_phrases_plain : phrases_plain CLAIM_SAFE_FORBIDDEN_PHRASES.
Proof. apply phrases_are_plain. by vm_compute. Qed.
Lemma source_phrases_plain : phrases_plain SOURCE_TEXT_FORBIDDEN_PHRASES.
Proof. apply phrases_are_plain. by vm_compute. Qed.

(** *** Claims *)

Lemma occurrences_some r s : occurs flags_u r s → occurrences r s ≠ [].
Proof.
  intros Ho%test_exact. unfold test, exec in Ho. apply bool_decide_eq_true in Ho as [m Hm].
  unfold occurrences. cbn [occurrences_from fst snd]. by rewrite Hm.
Qed.
Lemma head_flat_map_none {A B} (f : A → list B) l : head (List.flat_map f l) = None ↔ ∀ x, x ∈ l → f x = [].
Proof.
  split.
  - intros Hh. assert (List.flat_map f l = []) as E by (by destruct (List.flat_map f l)). clear Hh.
    induction l as [|y l IH]; [by intros x ?%elem_of_nil|]. cbn in E. apply app_eq_nil in E as [Ey E].
    intros x [-> | Hx]%elem_of_cons; auto.
  - intros Hall. replace (List.flat_map f l) with ([] : list B); [done|]. symmetry. induction l as [|y l IH]; [done|]. cbn.
    rewrite Hall by (by left). apply IH. intros x Hx. apply Hall. by right.
Qed.
Lemma not_claimed clause pattern : familyClaimAppearsPositively clause pattern = false ↔
  ∀ o, o ∈ occurrences (re pattern) (code_points clause) →
    occurs flags_u (re FAMILY_NEGATION_CUE_PATTERN) (claim_segment (code_points clause) o.1).
Proof.
  unfold familyClaimAppearsPositively. rewrite <- not_true_iff_false, existsb_exists. split.
  - intros Hno o Ho%list_elem_of_In. apply test_exact, not_false_iff_true. intros Hf. apply Hno. exists o. by rewrite Hf.
  - intros Hall (o & Ho & Hn). apply list_elem_of_In in Ho. specialize (Hall o Ho). apply test_exact in Hall. by rewrite Hall in Hn.
Qed.
Lemma test_u_exact r s : test_u r s = true ↔ occurs flags_u r (code_points s).
Proof. apply test_exact. Qed.
Lemma pii_none s : piiTextForbidden (JString s) = None ↔
  Z.of_nat (length s) ≤ CLAIM_SAFE_TEXT_MAX_LENGTH ∧
  (isTypedIdentityReference (normalizeForbiddenText s) = true ∨
   ∀ family, family ∈ PII_FAMILY_PATTERNS → ¬ occurs flags_u (re family.2) (code_points (normalizeForbiddenText s))).
Proof.
  unfold piiTextForbidden, too_long. destruct (Z.ltb_spec CLAIM_SAFE_TEXT_MAX_LENGTH (Z.of_nat (length s))).
  { split; [done|]. intros [? _]. lia. }
  destruct (isTypedIdentityReference _); [split; [by split; [|left]|done]|].
  rewrite fmap_None, find_none_iff. split.
  - intros Hf. split; [done|]. right. intros family Hfam Ho%test_u_exact. specialize (Hf family Hfam). cbv beta in Hf. congruence.
  - intros [_ [?|Hno]]; [done|]. intros family Hfam. apply not_true_iff_false. rewrite test_u_exact. by apply (Hno family).
Qed.

(** C29. A text is passed for the customer exactly when it is at most 65536 units long, has no
    hidden character, and its normalised form holds no forbidden phrase, no personal data
    (a typed reference apart) and no unnegated assurance claim as the screen finds them:
    clause by clause it takes the matches of a family's pattern from left to right, each
    begun after the end of the one before, and every match taken has a negation between the
    last conjunction before it and itself. A claim inside an earlier match is not looked at. *)
Theorem customer_text_exact s :
  customerVisibleTextForbidden (JString s) = None ↔
  let text := normalizeForbiddenText s in
  Z.of_nat (length s) ≤ CLAIM_SAFE_TEXT_MAX_LENGTH ∧ containsHiddenControlCharacter s = false ∧
  (∀ phrase, phrase ∈ CLAIM_SAFE_FORBIDDEN_PHRASES →
     ¬ phrase_occurs (includes (js " ") text) (normalizeForbiddenText (js phrase)) (code_points text)) ∧
  (isTypedIdentityReference text = true ∨ ∀ family, family ∈ PII_FAMILY_PATTERNS → ¬ occurs flags_u (re family.2) (code_points text)) ∧
  (∀ clause family, clause ∈ splitNormalizedClauses text → family ∈ CUSTOMER_VISIBLE_ASSURANCE_FAMILY_PATTERNS →
     ∀ o, o ∈ occurrences (re family.2) (code_points clause) →
       occurs flags_u (re FAMILY_NEGATION_CUE_PATTERN) (claim_segment (code_points clause) o.1)).
Proof.
  unfold customerVisibleTextForbidden. intros. pose proof (phrase_screen_none CLAIM_SAFE_FORBIDDEN_PHRASES s claim_phrases_plain) as Hphrase.
  change (claimSafeForbiddenPhrase (JString s)) with (firstForbiddenPhrase (JString s) CLAIM_SAFE_FORBIDDEN_PHRASES).
  destruct (firstForbiddenPhrase (JString s) CLAIM_SAFE_FORBIDDEN_PHRASES) as [phrase|].
  { split; [done|]. intros (? & ? & ? & _). destruct Hphrase as [_ Hp]. by discriminate Hp. }
  destruct Hphrase as [(Hlen & -> & Hph) _]; [done|]. pose proof (pii_none s) as Hpii.
  destruct (piiTextForbidden (JString s)) as [pii|].
  { split; [done|]. intros (_ & _ & _ & ? & _). destruct Hpii as [_ Hp]. by discriminate Hp. }
  destruct Hpii as [[_ Hp] _]; [done|]. rewrite head_flat_map_none. split.
  - intros Hall. split_and!; try done. intros clause family Hc Hfam. apply not_claimed. specialize (Hall clause Hc).
    destruct (List.find _ _) as [x|] eqn:Ef in Hall; [done|]. by apply (proj1 (find_none_iff _ _) Ef).
  - intros (_ & _ & _ & _ & Hall) clause Hc.
    assert (List.find (λ family : string * string, familyClaimAppearsPositively clause family.2) CUSTOMER_VISIBLE_ASSURANCE_FAMILY_PATTERNS = None) as ->; [|done].
    apply find_none_iff. intros family Hfam. apply not_claimed. by apply Hall.
Qed.
End screens.

(** *** ASCII texts

    The tables of Unicode say the same of every ASCII text, so any tables screen an ASCII
    text as the ASCII tables do. *)

(* What is put in lower case by the normalisation. *)
Definition spaced (value : jsstr) : jsstr :=
  js_trim (replace_u (re "\s+") (fixed " ") (replace_u ignorable (fixed "") (replace_u dashes (fixed "-") value))).
Definition screenable (s : jsstr) : bool := (is_ascii s && is_ascii (spaced s))%bool.
Abbreviation ascii_tables := SampleText.ascii_text_rules.

Section ascii_texts.
Context `{U : UnicodeText}.
Lemma normalize_alike s : screenable s = true → normalizeForbiddenText s = normalizeForbiddenText (H := ascii_tables) s.
Proof.
  unfold screenable. intros [Hs Hl]%andb_prop. unfold normalizeForbiddenText. cbv zeta. rewrite !normalizeNFKC_ascii by done.
  change (js_trim (replace_u (re "\s+") _ _)) with (spaced s). by rewrite !toLowerCase_ascii.
Qed.
Lemma find_alike {A} (f g : A → bool) l : (∀ x, x ∈ l → f x = g x) → List.find f l = List.find g l.
Proof.
  induction l as [|x l IH]; intros Hfg; [done|]. cbn [List.find]. rewrite (Hfg x) by left. rewrite IH; [done|]. intros y Hy. apply Hfg. by right.
Qed.
Lemma first_phrase_ascii s phrases : screenable s = true → forallb (λ phrase, screenable (js phrase)) phrases = true →
  firstForbiddenPhrase (JString s) phrases = firstForbiddenPhrase (H := ascii_tables) (JString s) phrases.
Proof.
  intros Hs Hp. unfold firstForbiddenPhrase. rewrite (normalize_alike s Hs). destruct (too_long s); [reflexivity|].
  destruct (containsHiddenControlCharacter s); [reflexivity|]. cbv zeta. apply find_alike. intros phrase Hin.
  apply (proj1 (forallb_elem _ _) Hp) in Hin. cbv beta in Hin. rewrite (normalize_alike (js phrase) Hin). reflexivity.
Qed.
Lemma claim_safe_ascii s : screenable s = true →
  claimSafeForbiddenPhrase (JString s) = claimSafeForbiddenPhrase (H := ascii_tables) (JString s).
Proof. intros Hs. apply first_phrase_ascii; [done|by vm_compute]. Qed.
Lemma source_text_ascii s : screenable s = true →
  sourceTextForbiddenPhrase (JString s) = sourceTextForbiddenPhrase (H := ascii_tables) (JString s).
Proof. intros Hs. apply first_phrase_ascii; [done|by vm_compute]. Qed.
Lemma customer_visible_ascii s : screenable s = true →
  customerVisibleTextForbidden (JString s) = customerVisibleTextForbidden (H := ascii_tables) (JString s).
Proof.
  intros Hs. unfold customerVisibleTextForbidden, piiTextForbidden. by rewrite (claim_safe_ascii s Hs), (normalize_alike s Hs).
Qed.
End ascii_texts.

(** * Opaque actor ids *)

Definition slug_character (c : Z) : bool := (is_alphanumeric c || (c =? 95) || (c =? 45))%bool.
(* [a-z0-9][a-z0-9_-]{2,63} *)
Definition is_slug (s : list Z) : bool :=
  match s with
  | c :: r => (is_alphanumeric c && forallb slug_character r && (2 <=? length r)%nat && (length r <=? 63)%nat)%bool
  | [] => false
  end.
Definition slug_range : charset := {| negated := false; ranges := alphanumeric ++ [(95, 95); (45, 45)] |}.
Definition slug_tail : regex := seq (class alphanumeric) (seq (Repeat 2 (Some 61%nat) true (Char slug_range)) LineEnd).
Lemma in_slug c : in_set flags_u slug_range c = slug_character c.
Proof.
  unfold in_set, variants. cbn [negated ranges ignoreCase flags_u negb existsb slug_range]. rewrite orb_false_r, xorb_false_l.
  unfold in_ranges. rewrite existsb_app. fold (in_ranges alphanumeric c). unfold slug_character, is_alphanumeric. cbn [existsb fst snd].
  rewrite orb_false_r, orb_assoc. f_equal; [f_equal|]; apply eq_true_iff_eq; rewrite andb_true_iff, !Z.leb_le, Z.eqb_eq; lia.
Qed.
Lemma accepts_slug pre s : accepts flags_u slug_tail (pre, s) ↔ is_slug s = true.
Proof.
  unfold slug_tail, class. rewrite accepts_char. destruct s as [|c r]; [done|]. rewrite in_alphanumeric, accepts_run_to_end by done.
  cbn [is_slug allows]. rewrite !andb_true_iff, !Nat.leb_le.
  replace (forallb (in_set flags_u slug_range) r) with (forallb slug_character r); [split; intros; intuition lia|].
  induction r as [|d r IH]; [done|]. cbn [forallb]. by rewrite IH, in_slug.
Qed.
Lemma literal_app p q r : literal (p ++ q) r = literal p (literal q r).
Proof. induction p as [|c p IH]; [done|]. cbn. by rewrite IH. Qed.
Lemma seq_nonempty a r : r ≠ Empty → seq a r = Seq a r.
Proof. by destruct r. Qed.
Lemma seq_single_nonempty c r : seq (single c) r ≠ Empty.
Proof. by destruct r. Qed.
Lemma literal_nonempty p r : r ≠ Empty → literal p r ≠ Empty.
Proof. destruct p; [done|]. intros _. apply seq_single_nonempty. Qed.
Lemma parse_slug_tail k : parse_terms (S (12 + k)) 1 (js ":[a-z0-9][a-z0-9_-]{2,63}$") = Some (seq (single 58) slug_tail, 1%nat, []).
Proof. reflexivity. Qed.
Lemma parse_start_atom n t : parse_atom (S n) 1 (94 :: t) = Some (LineStart, 1%nat, t).
Proof. reflexivity. Qed.
Lemma slug_pattern_parses p : parse (94 :: escape_points p ++ js ":[a-z0-9][a-z0-9_-]{2,63}$") = Some (Seq LineStart (literal (p ++ [58]) slug_tail)).
Proof.
  pose proof (phrase_text_length false p) as Hlen. change (phrase_text false p) with (escape_points p) in Hlen.
  set (tail := js ":[a-z0-9][a-z0-9_-]{2,63}$") in *.
  assert (quantifier_start (escape_points p ++ tail) = false) as Hq by (by apply escape_starts).
  remember (2 * length (94%Z :: escape_points p ++ tail) + 15)%nat as n eqn:En.
  apply (parse_from n _ _ 1); [by rewrite En, <- Nat.add_succ_r|]. cbn [length] in En. rewrite !length_app in En.
  assert (∃ k, n = S (length p + S (12 + k)))%nat as [k ->] by (exists (n - length p - 14)%nat; lia). clear En.
  assert (parse_terms (length p + S (12 + k)) 1 (escape_points p ++ tail) = Some (literal p (seq (single 58) slug_tail), 1%nat, [])) as Hp.
  { apply parse_terms_escaped; [done|apply parse_slug_tail]. }
  assert (94 ∈ [92; 91; 40; 94]) as H94 by (rewrite !elem_of_cons; auto).
  assert (parse_atom (length p + S (12 + k)) 1 (94 :: escape_points p ++ tail) = Some (LineStart, 1%nat, escape_points p ++ tail)) as Ha.
  { rewrite Nat.add_succ_r. apply parse_start_atom. }
  rewrite (parse_terms_atom _ 1 94 _ _ _ _ _ (or_intror H94) Ha (quantified_none _ _ Hq)), Hp. cbn [mbind option_bind].
  rewrite seq_nonempty by (apply literal_nonempty, seq_single_nonempty). by rewrite literal_app.
Qed.
Lemma code_points_plain_eq s : plain (code_points s) = true → s = code_points s.
Proof.
  revert s. apply (strings_by_pairs (λ s, plain (code_points s) = true → s = code_points s)); [done|done|].
  intros c d s IHs IHds. rewrite code_points_pair. destruct (is_high_surrogate c && is_low_surrogate d)%bool eqn:E.
  - intros H. exfalso. apply andb_prop in E as [E1 E2]. unfold plain in H. cbn [forallb] in H. apply andb_prop in H as [[_ H]%andb_prop _].
    unfold is_high_surrogate, is_low_surrogate in E1, E2. lia.
  - intros H. unfold plain in H. cbn [forallb] in H. apply andb_prop in H as [_ H]. by rewrite <- IHds.
Qed.
Lemma slug_plain s : is_slug s = true → plain s = true.
Proof.
  assert (∀ c, slug_character c = true → (negb (is_high_surrogate c) && (c <? 65536))%bool = true) as Hc.
  { intros c. unfold slug_character, is_alphanumeric, in_ranges, is_high_surrogate. cbn. lia. }
  destruct s as [|c r]; [done|]. cbn [is_slug]. rewrite !andb_true_iff. intros [[[H1 H2] _] _].
  change (c :: r) with ([c] ++ r). rewrite plain_app. apply andb_true_iff. split; [|revert H2; by apply forallb_weaken].
  unfold plain. cbn [forallb]. rewrite andb_true_r. apply Hc. unfold slug_character. by rewrite H1.
Qed.

(** An actor id of a pilot record is accepted exactly when it is the actor's type, a
    colon and a slug; the type is taken literally, whatever characters it holds. *)
Theorem opaque_actor_exact type actorId : plain type = true →
  opaquePilotActorIdIsValid (JString type) (JString actorId) = true ↔ ∃ slug, actorId = type ++ 58 :: slug ∧ is_slug slug = true.
Proof.
  intros Ht. unfold opaquePilotActorIdIsValid, test_u, test_flags, new_regexp. rewrite escape_spec by done.
  assert (plain (js "^" ++ escape_points type ++ js ":[a-z0-9][a-z0-9_-]{2,63}$") = true) as Hp.
  { rewrite !plain_app. change (escape_points type) with (phrase_text false type). by rewrite phrase_text_plain. }
  rewrite plain_points by exact Hp. change (js "^" ++ ?t) with (94 :: t). rewrite slug_pattern_parses. cbn [default from_option id].
  rewrite test_anchored, accepts_literal by done. setoid_rewrite accepts_slug. setoid_rewrite <- app_assoc. cbn [app]. split.
  - intros (slug & E & Hs). exists slug. split; [|done]. rewrite <- E. apply code_points_plain_eq. rewrite E, plain_app, Ht.
    cbn. by apply slug_plain.
  - intros (slug & -> & Hs). exists slug. split; [|done]. apply plain_points. rewrite plain_app, Ht. cbn. by apply slug_plain.
Qed.

(** * The screens at work *)

(* The texts of packages/protocol-ts/test/claim-safety.test.mjs and the answers asserted there. *)
Module ScreenSamples.
Import SampleText.
Definition claimSafeForbiddenPhrase_tests : list (string * option string) :=
  [("SYNTHETIC_DEMO_DATA SOC2 certification is forbidden. NOT_CUSTOMER_SOURCE.", Some "soc 2 certification");
   ("SYNTHETIC_DEMO_DATA the vendor's release is auditor-approved this quarter. NOT_CUSTOMER_SOURCE.", Some "auditor approved");
   ("SYNTHETIC_DEMO_DATA the environment is SOC_2 accepted by the reviewer. NOT_CUSTOMER_SOURCE.", Some "soc 2 accepted");
   ("artifact_ref:vendor_receipt", None)].
Definition sourceTextForbiddenPhrase_tests : list (string * option string) :=
  [("SYNTHETIC_DEMO_DATA bearer of the award is not a credential. NOT_CUSTOMER_SOURCE.", None);
   ("SYNTHETIC_DEMO_DATA Authorization:   Bearer token must not enter text. NOT_CUSTOMER_SOURCE.", Some "authorization: bearer");
   ("SYNTHETIC_DEMO_DATA s e c r e t = abc must not enter reviewer text. NOT_CUSTOMER_SOURCE.", Some "secret=")].
Definition piiTextForbidden_tests : list (string * option string) :=
  [("review:abc123", None);
   ("reviewer@xn--bcher-kva.example", Some "email_address");
   ("SYNTHETIC_DEMO_DATA contact alice@example.com for details. NOT_CUSTOMER_SOURCE.", Some "email_address");
   ("SYNTHETIC_DEMO_DATA phone: 555-123-4567 on file. NOT_CUSTOMER_SOURCE.", Some "phone_number")].
Definition customerVisibleTextForbidden_tests : list (string * option string) :=
  [("SYNTHETIC_DEMO_DATA evidence is limited to submitted artifacts. NOT_CUSTOMER_SOURCE.", None);
   ("SYNTHETIC_DEMO_DATA guidance is limited to submitted retained evidence and does not imply audit acceptance. NOT_CUSTOMER_SOURCE.", None);
   ("SYNTHETIC_DEMO_DATA this package is audit-safe. NOT_CUSTOMER_SOURCE.", Some "audit_ready_claim");
   ("SYNTHETIC_DEMO_DATA the application has zero vulnerabilities. NOT_CUSTOMER_SOURCE.", Some "zero_vulnerability_claim")].
Definition claimSafePositiveClosurePhrase_tests : list (string * option string) :=
  [("SYNTHETIC_DEMO_DATA this is not a complete fresh secure-code review. NOT_CUSTOMER_SOURCE.", None);
   ("SYNTHETIC_DEMO_DATA this issue is fixed. It was not verified. NOT_CUSTOMER_SOURCE.", Some "fixed");
   ("customer:verified", None);
   ("SYNTHETIC_DEMO_DATA this is not audit-ready certified. NOT_CUSTOMER_SOURCE.", None)].
Definition attestationClaimUnsafePhrase_tests : list (string * option string) :=
  [("SYNTHETIC_DEMO_DATA the auditor approved this package. NOT_CUSTOMER_SOURCE.", Some "auditor approved")].
Definition agrees (screen : json → option string) (tests : list (string * option string)) : bool :=
  forallb (λ t, bool_decide (screen (JString (js t.1)) = t.2)) tests.
Example screens_answer_as_tested :
  (agrees claimSafeForbiddenPhrase claimSafeForbiddenPhrase_tests && agrees sourceTextForbiddenPhrase sourceTextForbiddenPhrase_tests
   && agrees piiTextForbidden piiTextForbidden_tests && agrees customerVisibleTextForbidden customerVisibleTextForbidden_tests
   && agrees claimSafePositiveClosurePhrase claimSafePositiveClosurePhrase_tests
   && agrees attestationClaimUnsafePhrase attestationClaimUnsafePhrase_tests)%bool = true.
Proof. by vm_compute. Qed.
Lemma customer_text_exact_witness :
  ¬ phrase_occurs true (normalizeForbiddenText (js "vendor receipt")) (code_points (normalizeForbiddenText (js "The vendor_receipts file."))).
Proof.
  destruct (customer_text_exact (js "The vendor_receipts file.")) as [Hf _].
  destruct Hf as (_ & _ & Hno & _); [by vm_compute|]. apply (Hno "vendor receipt"), (bool_decide_unpack _). by vm_compute.
Defined.
(* One match spans both claims, and the negation before the first speaks for it. *)
Example spanned_claim_passes :
  customerVisibleTextForbidden (JString (js "This does not certify the code, and CodeAttest certifies the application.")) = None ∧
  customerVisibleTextForbidden (JString (js "CodeAttest certifies the application.")) = Some "certifies_code_claim".
Proof. by vm_compute. Qed.
Lemma opaque_actor_exact_witness : ∃ slug, js "reviewer:abc_1" = js "reviewer" ++ 58 :: slug ∧ is_slug slug = true.
Proof. apply (opaque_actor_exact (js "reviewer") (js "reviewer:abc_1")); by vm_compute. Defined.
End ScreenSamples.
