(* ===== verification/TypeGenerator.v ===== *)
(** The generator of the TypeScript bindings (scripts/lib/protocol-types-generator.mjs)
    and what its types mean. The generator writes text; here it builds the tree of a
    type, and [render] writes the text of the tree. *)

From Stdlib Require Import String.
From S2P Require Import Prelude Json JsonText CanonicalJson Schema Values.

Local Open Scope Z_scope.

(** * Types *)

Inductive ts_type :=
| TsLiteral (value : json)
| TsNamed (name : jsstr)
| TsString
| TsBoolean
| TsNumber
| TsUnknown
| TsArray (item : ts_type)
| TsNonEmptyArray (item : ts_type)
| TsTuple (items : list ts_type)
| TsObject (properties : list (jsstr * bool * ts_type)) (* true: optional *)
| TsUnion (alternatives : list ts_type).

(* types.join(" | ") *)
Definition union (types : list ts_type) : ts_type := match types with [t] => t | _ => TsUnion types end.

(** ** The values of a type *)

Section has_type.
Variable types : list (jsstr * ts_type).
(* Structural typing: an object may have other properties, an optional one may be undefined.
   The fuel bounds the chains of type names. *)
Fixpoint has_type (fuel : nat) : ts_type → json → bool :=
  fix typed (t : ts_type) (v : json) {struct t} : bool :=
    match t with
    | TsLiteral c => v === c
    | TsNamed name =>
        match fuel, JsMap.get name types with
        | S fuel', Some t' => has_type fuel' t' v
        | _, _ => false
        end
    | TsString => match v with JString _ => true | _ => false end
    | TsBoolean => match v with JBool _ => true | _ => false end
    | TsNumber => match v with JNumber _ | JNonFinite => true | _ => false end
    | TsUnknown => true
    | TsArray t' => match v with JArray l => forallb (typed t') l | _ => false end
    | TsNonEmptyArray t' => match v with JArray ((_ :: _) as l) => forallb (typed t') l | _ => false end
    | TsTuple ts =>
        match v with
        | JArray l =>
            (fix each (ts : list ts_type) (l : list json) : bool :=
               match ts, l with
               | [], [] => true
               | t' :: ts', x :: l' => (typed t' x && each ts' l')%bool
               | _, _ => false
               end) ts l
        | _ => false
        end
    | TsObject properties =>
        match v with
        | JObject fs =>
            forallb (λ p, match JsMap.get p.1.1 fs with
                          | Some w => ((p.1.2 && is_undefined w) || typed p.2 w)%bool
                          | None => p.1.2
                          end) properties
        | _ => false
        end
    | TsUnion ts => existsb (λ t', typed t' v) ts
    end.
End has_type.

(** * From schemas to types *)

Definition FINDING_CLASSIFICATION_RECORD : jsstr := js "urn:codeattest:protocol:v0:finding-classification-record".
Definition SHARED_DEFINITIONS : jsstr := js "urn:codeattest:protocol:v0:shared-definitions".

(* The names are ASCII: toUpperCase of a letter is the letter 32 below. *)
Definition upper_first (part : jsstr) : jsstr :=
  match part with c :: rest => (if ((97 <=? c) && (c <=? 122))%bool then c - 32 else c) :: rest | [] => [] end.
Definition pascalCase (value : jsstr) : jsstr :=
  mjoin (List.map upper_first (List.filter (λ part, negb (part === [])) (mjoin (List.map (split_units 95) (split_units 45 value))))).
Definition typeNameForSchemaId (schemaId : jsstr) : jsstr := pascalCase (List.last (split_units 58 schemaId) (js "unknown")).
Fixpoint drop_prefix (p s : jsstr) : option jsstr :=
  match p, s with
  | [], _ => Some s
  | a :: p', b :: s' => if a =? b then drop_prefix p' s' else None
  | _ :: _, [] => None
  end.
Definition typeNameForRef (ref : jsstr) : jsstr :=
  match split_units 35 ref with
  | schemaId :: rest =>
      match rest with
      | fragment :: _ => match drop_prefix (js "/$defs/") fragment with Some name => pascalCase name | None => typeNameForSchemaId schemaId end
      | [] => typeNameForSchemaId schemaId
      end
  | [] => typeNameForSchemaId []
  end.

(** ** Conditional requirements *)

(* A branch of an object type: the literal of the discriminant, and what it requires. *)
Record branch := { literal : json; additionalRequired : list jsstr }.
Definition if_properties (clause : json) : option (list (jsstr * json)) :=
  match clause_if ← kw "if" clause; kw "properties" clause_if with Some (JObject fs) => Some fs | _ => None end.
Definition then_required (clause : json) : option (list json) := clause_then ← kw "then" clause; kw_list "required" clause_then.
Definition required_clause (clause : json) : bool :=
  match if_properties clause, then_required clause with Some [_], Some _ => true | _, _ => false end.
Definition clause_field (clause : json) : jsstr := match if_properties clause with Some ((name, _) :: _) => name | _ => [] end.
Definition clause_condition (clause : json) : json := match if_properties clause with Some ((_, condition) :: _) => condition | _ => JNull end.
(* a === b *)
Definition identical (a b : json) : bool := match a with JArray _ | JObject _ | JNonFinite => false | _ => a === b end.
Definition clause_matches (literal clause : json) : bool :=
  match kw "const" (clause_condition clause) with
  | Some c => identical c literal
  | None => match kw_list "enum" (clause_condition clause) with Some items => existsb (λ x, identical x literal) items | None => false end
  end.
Definition clause_requires (clause : json) : list jsstr := List.map text_of (default [] (then_required clause)).
Definition conditionalRequiredBranches (schema : json) (properties : list (jsstr * json)) : option (jsstr * list branch) :=
  match kw_list "allOf" schema with
  | None | Some [] => None
  | Some clauses =>
      match List.filter required_clause clauses with
      | [] => None
      | (first :: _) as requiredClauses =>
          if (negb (Nat.eqb (length requiredClauses) (length clauses))
              && negb (kw "x-typescript-conditional-required" schema === Some (JBool true)))%bool then None
          else if negb (forallb (λ clause, clause_field clause === clause_field first) requiredClauses) then None
          else
            discriminantSchema ← JsMap.get (clause_field first) properties;
            if negb (kw_text "type" discriminantSchema === Some (js "string")) then None
            else
              literals ← kw_list "enum" discriminantSchema;
              Some (clause_field first,
                List.map (λ literal, {| literal := literal;
                  additionalRequired := mjoin (List.map clause_requires (List.filter (clause_matches literal) requiredClauses)) |}) literals)
      end
  end.

(** ** The type of a schema *)

Section objects.
Variable rec : json → ts_type.
Definition objectPropertiesToTypeScript (properties : list (jsstr * json)) (required : list jsstr)
    (propertyTypeOverrides : list (jsstr * ts_type)) : ts_type :=
  TsObject (List.map (λ kv, (kv.1, negb (bool_decide (kv.1 ∈ required)), default (rec kv.2) (JsMap.get kv.1 propertyTypeOverrides))) properties).
Definition objectSchemaToTypeScript (schema : json) : ts_type :=
  let properties := kw_fields "properties" schema in
  let required := kw_names "required" schema in
  match conditionalRequiredBranches schema properties with
  | Some (discriminantField, branches) =>
      union (List.map (λ b, objectPropertiesToTypeScript properties (required ++ additionalRequired b)
        [(discriminantField, TsLiteral (literal b))]) branches)
  | None => objectPropertiesToTypeScript properties required []
  end.
Definition findingClassificationRecordToTypeScript (schema : json) : ts_type :=
  let properties := kw_fields "properties" schema in
  let required := kw_names "required" schema in
  let lit s := TsLiteral (JString (js s)) in
  let NonEmptyString := TsNamed (js "NonEmptyString") in
  union
    [objectPropertiesToTypeScript properties required
       [(js "classification", lit "confirmed"); (js "confirmation_criteria", TsNonEmptyArray NonEmptyString)];
     objectPropertiesToTypeScript properties required
       [(js "classification", union [lit "likely"; lit "inconclusive"; lit "requires_customer_side_validation"]);
        (js "confirmation_criteria", TsArray NonEmptyString)]].
End objects.

(* The fuel bounds the nesting of the schema. *)
Fixpoint schemaToTypeScript (fuel : nat) (schema : json) : ts_type :=
  match fuel with
  | O => TsUnknown
  | S fuel' =>
      if kw_text "$id" schema === Some FINDING_CLASSIFICATION_RECORD then findingClassificationRecordToTypeScript (schemaToTypeScript fuel') schema
      else match kw_text "$ref" schema with
      | Some ((_ :: _) as ref) => TsNamed (typeNameForRef ref)
      | _ =>
      match kw "const" schema with
      | Some c => TsLiteral c
      | None =>
      match kw_list "enum" schema with
      | Some items => union (List.map TsLiteral items)
      | None =>
          let type := kw_text "type" schema in
          if type === Some (js "string") then TsString
          else if type === Some (js "boolean") then TsBoolean
          else if ((type === Some (js "integer")) || (type === Some (js "number")))%bool then TsNumber
          else if type === Some (js "array") then
            let itemType := schemaToTypeScript fuel' (default (JObject []) (kw "items" schema)) in
            match kw_number "minItems" schema with
            | Some n =>
                if kw_number "maxItems" schema === Some n then TsTuple (replicate (Z.to_nat n) itemType)
                else if n =? 1 then TsNonEmptyArray itemType else TsArray itemType
            | None => TsArray itemType
            end
          else if type === Some (js "object") then objectSchemaToTypeScript (schemaToTypeScript fuel') schema
          else TsUnknown
      end end end
  end.

(* The declarations of the file: the shared definitions by name, then the schemas. *)
Definition shared_definitions (schemas : list (jsstr * json)) : list (jsstr * json) :=
  match JsMap.get SHARED_DEFINITIONS schemas with Some shared => kw_fields "$defs" shared | None => [] end.
Definition declared (localeCompare : jsstr → jsstr → Z) (schemas : list (jsstr * json)) : list (jsstr * json) :=
  List.map (λ kv, (pascalCase kv.1, kv.2)) (sortBy (λ a b, localeCompare a.1 b.1) (shared_definitions schemas)) ++
  List.map (λ kv, (typeNameForSchemaId kv.1, kv.2)) (List.filter (λ kv, negb (kv.1 === SHARED_DEFINITIONS)) schemas).
Definition declared_types (fuel : nat) (declarations : list (jsstr * json)) : list (jsstr * ts_type) :=
  List.map (λ d, (d.1, schemaToTypeScript fuel d.2)) declarations.

(** * The text of the declarations *)

Fixpoint join_with (separator : jsstr) (parts : list jsstr) : jsstr :=
  match parts with
  | [] => []
  | [p] => p
  | p :: parts' => p ++ separator ++ join_with separator parts'
  end.
Definition indent (level : nat) : jsstr := mjoin (replicate level (js "  ")).
Fixpoint render (level : nat) (t : ts_type) : jsstr :=
  match t with
  | TsLiteral c => JSON_stringify c
  | TsNamed name => name
  | TsString => js "string"
  | TsBoolean => js "boolean"
  | TsNumber => js "number"
  | TsUnknown => js "unknown"
  | TsArray t' => js "Array<" ++ render level t' ++ js ">"
  | TsNonEmptyArray t' => js "NonEmptyArray<" ++ render level t' ++ js ">"
  | TsTuple ts => js "[" ++ join_with (js ", ") (List.map (render level) ts) ++ js "]"
  | TsObject properties =>
      join_with [10]
        (js "{" :: List.map (λ p, indent (S level) ++ p.1.1 ++ (if p.1.2 : bool then js "?" else []) ++ js ": " ++ render (S level) p.2 ++ js ";") properties
         ++ [indent level ++ js "}"])
  | TsUnion ts => join_with (js " | ") (List.map (render level) ts)
  end.
(* lines.join("\n").trimEnd() followed by a line feed *)
Definition trimmed_lines (lines : list jsstr) : jsstr := rev (drop_space (rev (join_with [10] lines))) ++ [10].
Definition renderTypes (types : list (jsstr * ts_type)) : jsstr :=
  trimmed_lines
    ([js "// Generated from protocol/schemas/*.schema.json. Do not edit by hand.";
      js "// Regenerate with: npm run generate --workspace @onevps/protocol-ts"; [];
      js "export type NonEmptyArray<T> = [T, ...T[]];"; []]
     ++ mjoin (List.map (λ d, [js "export type " ++ d.1 ++ js " = " ++ render 0 d.2 ++ js ";"; []]) types)).
