(* ===== verification/TypeSoundness.v ===== *)
(** What the validator accepts has the type that the generator writes for its schema. *)

From Stdlib Require Import String.
From S2P Require Import Prelude Json JsonText CanonicalJson Schema Values TypeGenerator.

Local Open Scope Z_scope.

(** * Plain data *)

(* What JSON.parse builds from a text without a member named __proto__. *)
Fixpoint proto_free (v : json) : bool :=
  match v with
  | JArray l => forallb proto_free l
  | JObject fs => (bool_decide (js "__proto__" ∉ fs.*1) && forallb (λ kv, proto_free kv.2) fs)%bool
  | _ => true
  end.
Definition plain_data (v : json) : bool := (wf_json v && is_data v && proto_free v)%bool.

Lemma plain_elements l : plain_data (JArray l) = true → ∀ x, x ∈ l → plain_data x = true.
Proof.
  unfold plain_data. cbn [wf_json is_data proto_free]. rewrite !andb_true_iff, !forallb_forall. intros [[H1 H2] H3] x Hx%list_elem_of_In.
  rewrite !andb_true_iff. auto.
Qed.
Lemma plain_object fs : plain_data (JObject fs) = true → no_proto fs ∧ NoDup fs.*1.
Proof.
  unfold plain_data. cbn [wf_json proto_free]. rewrite !andb_true_iff, !bool_decide_eq_true. unfold no_proto. tauto.
Qed.
Lemma plain_field fs p w : plain_data (JObject fs) = true → JsMap.get p fs = Some w → plain_data w = true.
Proof.
  unfold plain_data. cbn [wf_json is_data proto_free]. rewrite !andb_true_iff, !forallb_forall.
  intros [[[_ H1] H2] [_ H3]] Hg%get_elem%list_elem_of_In. specialize (H1 _ Hg). specialize (H2 _ Hg). specialize (H3 _ Hg).
  cbn [fst snd] in *. apply andb_prop in H1 as [_ H1]. by rewrite H1, H2, H3.
Qed.
Lemma plain_defined v : plain_data v = true → is_undefined v = false.
Proof. by destruct v. Qed.

(** * Literals *)

Definition is_literal (c : json) : bool := match c with JString s => units_ok s | JBool _ | JNumber _ => true | _ => false end.
Lemma literal_plain c : is_literal c = true → wf_json c = true ∧ is_data c = true.
Proof. by destruct c. Qed.
Lemma literal_equals localeCompare v c : is_literal c = true → plain_data v = true → jsonValueEquals localeCompare v c = true → v = c.
Proof.
  intros Hc Hv. unfold jsonValueEquals. rewrite bool_decide_eq_true.
  assert (stableJson localeCompare c = JSON_stringify c) as -> by (by destruct c).
  destruct (literal_plain c Hc) as [Hwc Hdc]. unfold plain_data in Hv. rewrite !andb_true_iff in Hv. destruct Hv as [[Hwv Hdv] _].
  assert (stableJson localeCompare v = JSON_stringify v → stableJson localeCompare v = JSON_stringify c → v = c) as Hscalar.
  { intros Ev. rewrite Ev. intros E. pose proof (parse_stringify v Hwv Hdv) as P. rewrite E, (parse_stringify c Hwc Hdc) in P. by apply Ret_inj in P. }
  assert (∀ a s, (a = 91 ∨ a = 123) → a :: s = JSON_stringify c → False) as Hstart.
  { intros a s Ha E. destruct c as [|[]|t|n| | |l|fs]; try done; try (by destruct Ha as [->| ->]).
    cbn [JSON_stringify] in E. destruct (number_text_start n) as (d & t & Et & Hd). rewrite Et in E. injection E as -> _.
    unfold is_digit_unit in Hd. destruct Ha, Hd; lia. }
  destruct v as [|b|s|n| | |l|fs]; try (by apply Hscalar); try done; intros E; exfalso; eapply (Hstart _ _ _ E).
  Unshelve. all: auto.
Qed.

(** * What an accepted value satisfies *)

Section accepted.
Context (schemaMap : list (jsstr * json)) (localeCompare : jsstr → jsstr → Z).
Local Abbreviation validate := (validateSchemaValue schemaMap localeCompare).
Implicit Types (schema v : json) (l : jsstr).

Lemma some_app_nil (a b : list ProtocolValidationError) : Some (a ++ b) = Some [] → a = [] ∧ b = [].
Proof. by intros [= H]; apply app_eq_nil in H. Qed.
Lemma accepted_parts n schema v l : kw_text "$ref" schema = None → validate (S n) v schema l = Some [] →
  applicator_errors (validate n) v schema l = Some [] ∧ value_errors localeCompare v schema l = [] ∧
  typed_errors localeCompare (validate n) v schema l = Some [] ∧
  (∀ t, kw_text "type" schema = Some t → matchesType v t = true).
Proof.
  intros Hr. cbn [validateSchemaValue]. unfold schema_errors. rewrite Hr.
  destruct (applicator_errors _ _ _ _) as [a|]; [|done]. cbn [mbind option_bind].
  destruct (kw_text "type" schema) as [t|].
  - destruct (matchesType v t) eqn:Ht; cbn [negb].
    + destruct (typed_errors _ _ _ _ _) as [e|]; [|done]. cbn [mbind option_bind].
      intros [[-> ->]%app_eq_nil ->]%some_app_nil. split_and!; try done. by intros ? [= <-].
    + intros [_ H]%some_app_nil. done.
  - destruct (typed_errors _ _ _ _ _) as [e|]; [|done]. cbn [mbind option_bind].
    intros [[-> ->]%app_eq_nil ->]%some_app_nil. split_and!; done.
Qed.
Lemma accepted_const n schema v l c : kw_text "$ref" schema = None → kw "const" schema = Some c →
  validate (S n) v schema l = Some [] → jsonValueEquals localeCompare v c = true.
Proof.
  intros Hr Hc (_ & Hv & _)%accepted_parts; [|done]. unfold value_errors in Hv. rewrite Hc in Hv. apply app_eq_nil in Hv as [Hv _].
  by destruct (jsonValueEquals localeCompare v c).
Qed.
Lemma accepted_enum n schema v l items : kw_text "$ref" schema = None → kw_list "enum" schema = Some items →
  validate (S n) v schema l = Some [] → ∃ c, c ∈ items ∧ jsonValueEquals localeCompare v c = true.
Proof.
  intros Hr He (_ & Hv & _)%accepted_parts; [|done]. unfold value_errors in Hv. rewrite He in Hv. apply app_eq_nil in Hv as [_ Hv].
  destruct (existsb _ items) eqn:Hx; [|done]. apply existsb_exists in Hx as (c & Hin%list_elem_of_In & Hc). by exists c.
Qed.
Lemma imap_elem {A} (x : A) items : x ∈ items → ∃ i, (i, x) ∈ imap pair items.
Proof.
  intros [i Hi]%list_elem_of_lookup. exists i. apply list_elem_of_lookup. exists i. by rewrite list_lookup_imap, Hi.
Qed.
Lemma accepted_array n schema items l : kw_text "$ref" schema = None → kw_text "type" schema = Some (js "array") →
  validate (S n) (JArray items) schema l = Some [] →
  (∀ m, kw_number "minItems" schema = Some m → m ≤ Z.of_nat (length items)) ∧
  (∀ m, kw_number "maxItems" schema = Some m → Z.of_nat (length items) ≤ m) ∧
  (∀ s x, kw "items" schema = Some s → x ∈ items → ∃ l', validate n x s l' = Some []).
Proof.
  intros Hr Ht (_ & _ & Hty & _)%accepted_parts; [|done]. unfold typed_errors in Hty. rewrite Ht, bool_decide_true in Hty by done.
  cbn [orb] in Hty. unfold array_errors in Hty.
  destruct (when_some (kw "items" schema) _) as [each|] eqn:Heach; [|done]. cbn [mbind option_bind] in Hty.
  destruct (when_some (kw "contains" schema) _) as [contained|]; [|done]. cbn [mbind option_bind] in Hty.
  apply some_app_nil in Hty as [[Hmin [Hmax _]%app_eq_nil]%app_eq_nil [-> _]%app_eq_nil]. split_and!.
  - intros m Hm. rewrite Hm in Hmin. destruct (Z.ltb_spec (Z.of_nat (length items)) m); [done|lia].
  - intros m Hm. rewrite Hm in Hmax. destruct (Z.ltb_spec m (Z.of_nat (length items))); [done|lia].
  - intros s x Hs [i Hi]%imap_elem. rewrite Hs in Heach. cbn [when_some] in Heach. rewrite collect_nil in Heach.
    specialize (Heach _ Hi). eauto.
Qed.
(* Objects, for a schema that constrains objects at all. *)
Definition object_schema schema : bool := ((kw_text "type" schema === Some (js "object")) || hasObjectKeywords schema)%bool.
Lemma accepted_fields n schema fs l : kw_text "$ref" schema = None → object_schema schema = true → no_proto fs → NoDup fs.*1 →
  validate (S n) (JObject fs) schema l = Some [] →
  (∀ p, p ∈ kw_names "required" schema → inherited p = false → is_Some (JsMap.get p fs)) ∧
  (∀ p w s, JsMap.get p fs = Some w → is_undefined w = false → JsMap.get p (kw_fields "properties" schema) = Some s →
     validate n w s (at_property l p) = Some []).
Proof.
  intros Hr Hs Hp Hnd (_ & _ & Hty & _)%accepted_parts; [|done]. unfold typed_errors in Hty. unfold object_schema in Hs. rewrite Hs in Hty.
  unfold object_errors in Hty. rewrite data_of_no_proto in Hty by done. cbn [data_fields] in Hty.
  destruct (collect _ (kw_fields "dependentSchemas" schema)) as [d|]; [|done]. cbn [mbind option_bind] in Hty.
  destruct (collect (property_errors _ _ _) _) as [props|] eqn:Hprops; [|done]. cbn [mbind option_bind] in Hty.
  apply some_app_nil in Hty as [Hreq [_ [_ ->]%app_eq_nil]%app_eq_nil]. split.
  - rewrite join_err_if_nil in Hreq. intros p Hin Hi. specialize (Hreq p Hin). apply negb_false_iff in Hreq. unfold has_value in Hreq.
    cbn [data_fields data_prototype] in Hreq. destruct (JsMap.get p fs); [by eexists|congruence].
  - intros p w s Hw Hu Hps. rewrite collect_nil in Hprops. specialize (Hprops _ (get_elem _ _ _ Hw)). unfold property_errors, property_schema in Hprops.
    cbn [fst snd] in Hprops. by rewrite Hu, Hps in Hprops.
Qed.
Lemma accepted_all_of n schema v l clauses clause : kw_text "$ref" schema = None → kw_list "allOf" schema = Some clauses → clause ∈ clauses →
  validate (S n) v schema l = Some [] → validate n v clause l = Some [].
Proof.
  intros Hr Ha Hin (Happ & _)%accepted_parts; [|done]. unfold applicator_errors in Happ. rewrite Ha in Happ. cbn [when_some] in Happ.
  destruct (collect _ clauses) as [all|] eqn:Hall; [|done]. cbn [mbind option_bind] in Happ.
  repeat match type of Happ with (?m ≫= _) = _ => destruct m; [|done]; cbn [mbind option_bind] in Happ end.
  apply some_app_nil in Happ as [-> _]. rewrite collect_nil in Hall. by apply Hall.
Qed.
Lemma accepted_then n clause v l c t : kw_text "$ref" clause = None → kw "if" clause = Some c → kw "then" clause = Some t →
  validate (S n) v clause l = Some [] → (∃ m, validate m v c l = Some []) → validate n v t l = Some [].
Proof.
  intros Hr Hc Ht (Happ & _)%accepted_parts [m Hm]; [|done]. unfold applicator_errors in Happ. rewrite Hc in Happ. cbn [when_some] in Happ.
  do 4 (match type of Happ with (?m ≫= _) = _ => destruct m; [|done] end; cbn [mbind option_bind] in Happ).
  destruct (validate n v c l) as [e|] eqn:He; [|done]. cbn [mbind option_bind] in Happ.
  assert (e = []) as ->.
  { apply (validate_mono _ _ n (max n m)) in He; [|lia]. apply (validate_mono _ _ m (max n m)) in Hm; [|lia]. congruence. }
  rewrite bool_decide_true in Happ by done. rewrite Ht in Happ. cbn [when_some] in Happ.
  destruct (validate n v t l) as [e|] eqn:Het; [|done]. cbn [mbind option_bind] in Happ.
  apply some_app_nil in Happ as [_ [_ [_ [_ ->]%app_eq_nil]%app_eq_nil]%app_eq_nil]. done.
Qed.

(** ** Conditions of the form if: { properties: { field: { const | enum } } } *)

Definition only_keywords (names : list string) schema : bool :=
  match schema with JObject fs => forallb (λ kv, existsb (λ n, js n === kv.1) names) fs | _ => false end.
Lemma only_keywords_none names schema k : only_keywords names schema = true → existsb (λ n, js n === js k) names = false → kw k schema = None.
Proof.
  destruct schema as [| | | | | | |fs]; try done. cbn [only_keywords kw]. rewrite forallb_forall. intros Hall Hk.
  destruct (JsMap.get (js k) fs) as [s|] eqn:Hg; [|done]. apply get_elem, list_elem_of_In in Hg. apply Hall in Hg. cbn [fst] in Hg. congruence.
Qed.
Ltac no_keyword H :=
  match type of H with
  | only_keywords _ ?s = true =>
      repeat match goal with |- context [kw ?k s] => rewrite (only_keywords_none _ _ k H) by reflexivity end
  end.

Definition simple_condition (field : jsstr) (c : json) : bool :=
  (only_keywords ["properties"; "required"] c && forallb (λ p, p === field) (kw_names "required" c)
   && match kw_fields "properties" c with
      | [(name, condition)] => (name === field) && (only_keywords ["const"] condition || only_keywords ["enum"] condition)
      | _ => false
      end)%bool.
Lemma condition_holds n field c condition fs w l :
  kw_fields "properties" c = [(field, condition)] → simple_condition field c = true → no_proto fs → NoDup fs.*1 →
  JsMap.get field fs = Some w → is_undefined w = false →
  match kw "const" condition with
  | Some x => jsonValueEquals localeCompare w x
  | None => match kw_list "enum" condition with Some items => existsb (jsonValueEquals localeCompare w) items | None => false end
  end = true →
  validate (S (S n)) (JObject fs) c l = Some [].
Proof.
  intros Hprops Hc Hp Hnd Hw Hu Hcond. unfold simple_condition in Hc. rewrite Hprops, bool_decide_true in Hc by done. cbn [andb] in Hc.
  apply andb_prop in Hc as [[Hkeys Hreq]%andb_prop Hck].
  assert (∀ m l', validate (S m) w condition l' = Some []) as Hinner.
  { intros m l'. cbn [validateSchemaValue]. unfold schema_errors, applicator_errors, value_errors, kw_text, kw_list.
    assert (typed_errors localeCompare (validate m) w condition l' = Some []) as Hty.
    { unfold typed_errors, hasArrayKeywords, hasObjectKeywords, has_kw, kw_text. cbn [existsb].
      apply orb_prop in Hck as [Hk|Hk]; no_keyword Hk; by destruct w. }
    apply orb_prop in Hck as [Hk|Hk]; unfold kw_list in Hcond; revert Hcond; no_keyword Hk; intros Hcond;
      cbn [when_some mbind option_bind app]; rewrite Hty; cbn [mbind option_bind].
    - destruct (kw "const" condition); [|done]. by rewrite Hcond.
    - destruct (kw "enum" condition) as [[]|]; try done. by rewrite Hcond. }
  remember (S n) as m eqn:Em. cbn [validateSchemaValue]. unfold schema_errors, applicator_errors, value_errors, kw_text, kw_list. no_keyword Hkeys.
  cbn [when_some mbind option_bind app]. unfold typed_errors, hasArrayKeywords, hasObjectKeywords, has_kw, kw_text. cbn [existsb]. no_keyword Hkeys.
  assert (bool_decide (is_Some (kw "properties" c)) = true) as ->.
  { apply bool_decide_eq_true. unfold kw_fields in Hprops. destruct (kw "properties" c); [by eexists|done]. }
  rewrite !bool_decide_false by (done || by intros []). rewrite !orb_true_r. unfold object_errors.
  rewrite data_of_no_proto by done. cbn [data_fields]. unfold kw_fields at 1 2. no_keyword Hkeys. cbn [List.map mjoin list_join collect mbind option_bind].
  assert (collect (property_errors (validate m) c l) fs = Some []) as ->.
  { apply collect_nil. intros [p x] Hx. unfold property_errors. cbn [fst snd]. destruct (is_undefined x) eqn:Hux; [done|]. rewrite Hprops.
    unfold property_schema. cbn [JsMap.get]. destruct (decide (p = field)) as [->|].
    - apply (JsMap.elem_of_get field x fs Hnd) in Hx. replace x with w by congruence. subst m. apply Hinner.
    - destruct (inherited p); [subst m; apply empty_schema_accepts|]. no_keyword Hkeys. done. }
  cbn [mbind option_bind app]. rewrite app_nil_r. f_equal.
  apply join_err_if_nil. intros p Hin. rewrite forallb_forall in Hreq. apply list_elem_of_In, Hreq in Hin. apply bool_decide_eq_true in Hin as ->.
  unfold has_value. cbn [data_fields]. by rewrite Hw, Hu.
Qed.
End accepted.

(** * Schemas the generator renders soundly *)

Section soundness.
Context (schemaMap : list (jsstr * json)) (localeCompare : jsstr → jsstr → Z).
Context (declarations : list (jsstr * json)) (depth : nat).
Local Abbreviation validate := (validateSchemaValue schemaMap localeCompare).
Local Abbreviation types := (declared_types depth declarations).
Local Abbreviation typed := (has_type types).
Implicit Types (schema v : json) (l : jsstr).

Definition sound_clause (field : jsstr) (clause : json) : bool :=
  ((kw_text "$ref" clause === None)
   && match kw "if" clause, kw "then" clause with
      | Some c, Some t =>
          simple_condition field c && (kw_text "$ref" t === None) && object_schema t
          && forallb (λ p, negb (inherited p)) (kw_names "required" t)
      | _, _ => false
      end)%bool.
(* The discriminant of a conditional requirement is a required literal. *)
Definition sound_discriminant schema (field : jsstr) : bool :=
  (bool_decide (field ∈ kw_names "required" schema)
   && match JsMap.get field (kw_fields "properties" schema) with
      | Some s => (kw_text "$ref" s === None) && forallb is_literal (default [] (kw_list "enum" s))
      | None => false
      end)%bool.
Definition sound_branches schema : bool :=
  match conditionalRequiredBranches schema (kw_fields "properties" schema) with
  | None => true
  | Some (field, _) =>
      sound_discriminant schema field
      && forallb (sound_clause field) (List.filter required_clause (default [] (kw_list "allOf" schema)))
  end.
Definition sound_object schema : bool :=
  ((kw_text "$ref" schema === None) && (kw_text "type" schema === Some (js "object"))
   && bool_decide (NoDup (kw_fields "properties" schema).*1)
   && forallb (λ p, negb (inherited p)) (kw_names "required" schema))%bool.
Definition sound_ref (ref : jsstr) : bool :=
  match resolveRef schemaMap ref with Some s => bool_decide (JsMap.get (typeNameForRef ref) declarations = Some s) | None => false end.
Definition is_text_type (name : jsstr) : bool := match JsMap.get name types with Some TsString => true | _ => false end.
(* The classification record: confirmed requires confirmation criteria. *)
Definition CLASSIFICATIONS : list json :=
  [JString (js "confirmed"); JString (js "likely"); JString (js "inconclusive"); JString (js "requires_customer_side_validation")].
Definition sound_criteria (s : json) : bool :=
  ((kw_text "$ref" s === None) && (kw_text "type" s === Some (js "array"))
   && match kw "items" s with
      | Some (JObject [(name, JString ((_ :: _) as ref))]) =>
          (name === js "$ref") && sound_ref ref && is_text_type (typeNameForRef ref)
      | _ => false
      end)%bool.
Definition sound_minimum (clause : json) : bool :=
  match t ← kw "then" clause; JsMap.get (js "confirmation_criteria") (kw_fields "properties" t) with
  | Some s => (kw_text "$ref" s === None) && (kw_text "type" s === Some (js "array")) && (kw_number "minItems" s === Some 1)
  | None => false
  end.
Definition sound_classification (rec : json → bool) schema : bool :=
  (sound_object schema && forallb rec (kw_fields "properties" schema).*2 && sound_discriminant schema (js "classification")
   && match JsMap.get (js "classification") (kw_fields "properties" schema) with
      | Some s => match kw_list "enum" s with Some items => forallb (λ c, bool_decide (c ∈ CLASSIFICATIONS)) items | None => false end
      | None => false
      end
   && match JsMap.get (js "confirmation_criteria") (kw_fields "properties" schema) with Some s => sound_criteria s | None => false end
   && is_text_type (js "NonEmptyString")
   && match kw_list "allOf" schema with
      | Some [clause] => sound_clause (js "classification") clause && clause_matches (JString (js "confirmed")) clause && sound_minimum clause
      | _ => false
      end)%bool.
Fixpoint sound (fuel : nat) schema : bool :=
  match fuel with
  | O => true
  | S fuel' =>
      if kw_text "$id" schema === Some FINDING_CLASSIFICATION_RECORD then sound_classification (sound fuel') schema
      else match kw_text "$ref" schema with
      | Some ref => negb (ref === []) && sound_ref ref
      | None =>
      match kw "const" schema with
      | Some c => is_literal c
      | None =>
      match kw_list "enum" schema with
      | Some items => forallb is_literal items
      | None =>
          if kw_text "type" schema === Some (js "array") then match kw "items" schema with Some s => sound fuel' s | None => true end
          else if kw_text "type" schema === Some (js "object") then
            sound_object schema && forallb (sound fuel') (kw_fields "properties" schema).*2 && sound_branches schema
          else true
      end end end
  end%bool.

(** ** The values of each form of type *)

Lemma typed_union N ts v : typed N (union ts) v = existsb (λ t, typed N t v) ts.
Proof. destruct ts as [|t [|t' ts]]; [by destruct N|by cbn; rewrite orb_false_r|by destruct N]. Qed.
Lemma typed_literal N c v : typed N (TsLiteral c) v = (v === c).
Proof. by destruct N. Qed.
Lemma typed_unknown N v : typed N TsUnknown v = true.
Proof. by destruct N. Qed.
Lemma typed_array N t items : typed N (TsArray t) (JArray items) = forallb (typed N t) items.
Proof. by destruct N. Qed.
Lemma typed_non_empty N t items : typed N (TsNonEmptyArray t) (JArray items) = (negb (Nat.eqb (length items) 0) && forallb (typed N t) items)%bool.
Proof. by destruct N, items. Qed.
Lemma typed_tuple N t items : typed N (TsTuple (replicate (length items) t)) (JArray items) = forallb (typed N t) items.
Proof. destruct N; (induction items as [|x items IH]; [done|]); cbn [length replicate forallb]; rewrite <- IH; done. Qed.
Lemma typed_object N properties fs : typed N (TsObject properties) (JObject fs) =
  forallb (λ p, match JsMap.get p.1.1 fs with Some w => ((p.1.2 && is_undefined w) || typed N p.2 w)%bool | None => p.1.2 end) properties.
Proof. by destruct N. Qed.
Lemma typed_named N name v : typed (S N) (TsNamed name) v = match JsMap.get name types with Some t => typed N t v | None => false end.
Proof. reflexivity. Qed.
Lemma types_get name : JsMap.get name types = schemaToTypeScript depth <$> JsMap.get name declarations.
Proof.
  unfold declared_types. induction declarations as [|[n s] ds IH]; [done|]. cbn [List.map JsMap.get fst snd]. by case_decide.
Qed.
Lemma typed_properties N rec properties required overrides fs :
  (∀ p s w, (p, s) ∈ properties → JsMap.get p fs = Some w → typed N (default (rec s) (JsMap.get p overrides)) w = true) →
  (∀ p, p ∈ required → is_Some (JsMap.get p fs)) →
  typed N (objectPropertiesToTypeScript rec properties required overrides) (JObject fs) = true.
Proof.
  intros Htyped Hreq. unfold objectPropertiesToTypeScript. rewrite typed_object, forallb_forall. intros x Hx.
  apply in_map_iff in Hx as ([p s] & <- & Hin%list_elem_of_In). cbn [fst snd].
  destruct (JsMap.get p fs) as [w|] eqn:Hw; [by rewrite (Htyped p s w), orb_true_r|].
  case_bool_decide as Hr; [|done]. destruct (Hreq p Hr) as [w Hw']. congruence.
Qed.
Ltac by_type := match goal with |- matchesType ?v _ = true → _ => destruct v end; intros H; first [eexists; reflexivity | by vm_compute in H].
Lemma type_string v : matchesType v (js "string") = true → ∃ s, v = JString s.
Proof. by_type. Qed.
Lemma type_boolean v : matchesType v (js "boolean") = true → ∃ b, v = JBool b.
Proof. by_type. Qed.
Lemma type_integer v : matchesType v (js "integer") = true → ∃ n, v = JNumber n.
Proof. by_type. Qed.
Lemma type_number v : matchesType v (js "number") = true → ∃ n, v = JNumber n.
Proof. by_type. Qed.
Lemma type_array v : matchesType v (js "array") = true → ∃ items, v = JArray items.
Proof. by_type. Qed.
Lemma type_object v : matchesType v (js "object") = true → ∃ fs, v = JObject fs.
Proof. by_type. Qed.
Lemma accepted_of_type n schema v l t : kw_text "$ref" schema = None → kw_text "type" schema = Some t →
  validate (S n) v schema l = Some [] → matchesType v t = true.
Proof. apply accepted_type. Qed.

(** ** Conditional requirements *)

Lemma clause_applies n field clause fs w l :
  sound_clause field clause = true → no_proto fs → NoDup fs.*1 → JsMap.get field fs = Some w → is_literal w = true →
  clause_matches w clause = true → validate (S n) (JObject fs) clause l = Some [] →
  ∃ t, kw "then" clause = Some t ∧ kw_text "$ref" t = None ∧ object_schema t = true ∧
       (∀ p, p ∈ kw_names "required" t → inherited p = false) ∧ validate n (JObject fs) t l = Some [].
Proof.
  intros Hs Hp Hnd Hw Hlit Hm Hv. unfold sound_clause in Hs. apply andb_prop in Hs as [Hr Hs]. apply bool_decide_eq_true in Hr.
  destruct (kw "if" clause) as [c|] eqn:Hc; [|done]. destruct (kw "then" clause) as [t|] eqn:Ht; [|done].
  apply andb_prop in Hs as [[[Hcond Hrt%bool_decide_eq_true]%andb_prop Hot]%andb_prop Hinh]. exists t. split_and!; try done.
  - intros p Hin. rewrite forallb_forall in Hinh. apply negb_true_iff, Hinh. by apply list_elem_of_In.
  - apply (accepted_then _ _ n clause (JObject fs) l c t Hr Hc Ht Hv). exists 2%nat.
    assert (∃ condition, kw_fields "properties" c = [(field, condition)] ∧ clause_condition clause = condition) as (condition & Hprops & Econd).
    { unfold simple_condition in Hcond. apply andb_prop in Hcond as [_ Hcond]. unfold clause_condition, if_properties. rewrite Hc. cbn [mbind option_bind].
      unfold kw_fields in *. destruct (kw "properties" c) as [[| | | | | | |[|[name condition] [|]]]|]; try done.
      apply andb_prop in Hcond as [->%bool_decide_eq_true _]. by exists condition. }
    apply (condition_holds _ _ 0 field c condition fs w); try done; [by destruct w|]. unfold clause_matches in Hm. rewrite Econd in Hm.
    assert (∀ x, identical x w = true → jsonValueEquals localeCompare w x = true) as Hid.
    { intros x Hx. unfold jsonValueEquals. apply bool_decide_eq_true. unfold identical in Hx. by destruct x; try done; apply bool_decide_eq_true in Hx as <-. }
    destruct (kw "const" condition) as [x|]; [by apply Hid|]. destruct (kw_list "enum" condition) as [items|]; [|done].
    apply existsb_exists in Hm as (x & Hx & Hxw). apply existsb_exists. exists x. split; [done|by apply Hid].
Qed.

Definition sound_at (n : nat) : Prop := ∀ k schema v l, plain_data v = true → sound k schema = true →
  validate n v schema l = Some [] → ∀ N, (n ≤ N)%nat → typed N (schemaToTypeScript k schema) v = true.

Lemma sound_object_facts schema : sound_object schema = true →
  kw_text "$ref" schema = None ∧ kw_text "type" schema = Some (js "object") ∧ NoDup (kw_fields "properties" schema).*1 ∧
  (∀ p, p ∈ kw_names "required" schema → inherited p = false).
Proof.
  unfold sound_object. rewrite !andb_true_iff, !bool_decide_eq_true, forallb_forall. intros (((? & ?) & ?) & Hi). split_and!; try done.
  intros p Hp. apply negb_true_iff, Hi. by apply list_elem_of_In.
Qed.
Lemma object_is_schema schema : kw_text "type" schema = Some (js "object") → object_schema schema = true.
Proof. intros H. unfold object_schema. by rewrite bool_decide_true. Qed.
(* The fields of an accepted object: the required ones are there, and each has its type. *)
Lemma fields_sound n k schema fs l : sound_at n → sound_object schema = true →
  forallb (sound k) (kw_fields "properties" schema).*2 = true →
  plain_data (JObject fs) = true → validate (S n) (JObject fs) schema l = Some [] →
  (∀ p, p ∈ kw_names "required" schema → is_Some (JsMap.get p fs)) ∧
  (∀ p s w N, (p, s) ∈ kw_fields "properties" schema → JsMap.get p fs = Some w → (n ≤ N)%nat → typed N (schemaToTypeScript k s) w = true) ∧
  (∀ p s w, JsMap.get p (kw_fields "properties" schema) = Some s → JsMap.get p fs = Some w → ∃ l', validate n w s l' = Some []).
Proof.
  intros IH (Hr & Ht & Hnd & Hi)%sound_object_facts Hsub Hplain Hv. destruct (plain_object _ Hplain) as [Hp Hfs].
  destruct (accepted_fields _ _ n schema fs l Hr (object_is_schema _ Ht) Hp Hfs Hv) as [Hreq Hprops].
  assert (∀ p s w, JsMap.get p (kw_fields "properties" schema) = Some s → JsMap.get p fs = Some w → validate n w s (at_property l p) = Some []) as Hall.
  { intros p s w Hs Hw. apply (Hprops p w s); try done. by eapply plain_defined, plain_field. }
  split_and!; [by auto| |].
  - intros p s w N Hs Hw HN. rewrite forallb_forall in Hsub. apply (IH k s w (at_property l p)); [by eapply plain_field| | |done].
    + apply Hsub, list_elem_of_In. by apply (list_elem_of_fmap_2 snd _ (p, s)).
    + apply Hall; [|done]. by apply (JsMap.elem_of_get p s _ Hnd).
  - intros p s w Hs Hw. eauto.
Qed.
Lemma discriminant_literal n schema field fs s literals : sound_discriminant schema field = true →
  JsMap.get field (kw_fields "properties" schema) = Some s → kw_list "enum" s = Some literals →
  plain_data (JObject fs) = true → (∀ p, p ∈ kw_names "required" schema → is_Some (JsMap.get p fs)) →
  (∀ w, JsMap.get field fs = Some w → ∃ l', validate n w s l' = Some []) →
  ∃ w, JsMap.get field fs = Some w ∧ w ∈ literals ∧ is_literal w = true.
Proof.
  unfold sound_discriminant. intros [Hin%bool_decide_eq_true Hd]%andb_prop Hs Hl Hplain Hreq Hv. rewrite Hs, Hl in Hd.
  apply andb_prop in Hd as [Hr%bool_decide_eq_true Hlit]. destruct (Hreq field Hin) as [w Hw]. exists w.
  destruct (Hv w Hw) as [l' Hw']. destruct n as [|n]; [done|]. destruct (accepted_enum _ _ n s w l' literals Hr Hl Hw') as (c & Hc & Heq).
  rewrite forallb_forall in Hlit. assert (is_literal c = true) as Hcl by (by apply Hlit, list_elem_of_In).
  apply (literal_equals _ w c Hcl) in Heq as ->; [done|]. by eapply plain_field.
Qed.

Definition branch_of (clauses : list json) (literal : json) : branch :=
  {| literal := literal; additionalRequired := mjoin (List.map clause_requires (List.filter (clause_matches literal) (List.filter required_clause clauses))) |}.
Lemma branches_inv schema properties field bs : conditionalRequiredBranches schema properties = Some (field, bs) →
  ∃ clauses ds literals, kw_list "allOf" schema = Some clauses ∧ JsMap.get field properties = Some ds ∧
    kw_list "enum" ds = Some literals ∧ bs = List.map (branch_of clauses) literals.
Proof.
  unfold conditionalRequiredBranches. destruct (kw_list "allOf" schema) as [[|x clauses]|] eqn:Ha; [done| |done]. unfold branch_of.
  destruct (List.filter required_clause (x :: clauses)) as [|first rest] eqn:Hf; [done|].
  destruct (_ && _)%bool; [done|]. destruct (negb _); [done|].
  destruct (JsMap.get (clause_field first) properties) as [ds|] eqn:Hds; [|done]. cbn [mbind option_bind].
  destruct (negb _); [done|]. destruct (kw_list "enum" ds) as [literals|] eqn:Hl; [|done]. cbn [mbind option_bind].
  intros [= <- <-]. exists (x :: clauses), ds, literals. rewrite Hf. done.
Qed.
(* What a branch requires of the object beyond the schema. *)
Lemma additional_present n schema fs l field w clauses : kw_text "$ref" schema = None → kw_list "allOf" schema = Some clauses →
  forallb (sound_clause field) (List.filter required_clause clauses) = true → plain_data (JObject fs) = true →
  JsMap.get field fs = Some w → is_literal w = true → validate (S n) (JObject fs) schema l = Some [] →
  ∀ p, p ∈ additionalRequired (branch_of clauses w) → is_Some (JsMap.get p fs).
Proof.
  intros Hr Ha Hs Hplain Hw Hlit Hv p Hp. destruct (plain_object _ Hplain) as [Hnp Hnd]. cbn [additionalRequired branch_of] in Hp.
  apply list_elem_of_join in Hp as (ps & Hp & Hps). apply list_elem_of_In, in_map_iff in Hps as (clause & <- & Hc%filter_In).
  destruct Hc as [Hin Hm]. rewrite forallb_forall in Hs. specialize (Hs clause Hin). apply filter_In in Hin as [Hin _].
  apply list_elem_of_In in Hin. pose proof (accepted_all_of _ _ n schema (JObject fs) l clauses clause Hr Ha Hin Hv) as Hcv.
  destruct n as [|n]; [done|].
  destruct (clause_applies n field clause fs w l Hs Hnp Hnd Hw Hlit Hm Hcv) as (t & Ht & Hrt & Hot & Hinh & Htv).
  destruct n as [|n]; [done|]. destruct (accepted_fields _ _ n t fs l Hrt Hot Hnp Hnd Htv) as [Hreq _].
  unfold clause_requires, then_required in Hp. rewrite Ht in Hp. cbn [mbind option_bind] in Hp. apply Hreq; [done|by apply Hinh].
Qed.
Lemma objects_sound n k schema fs l N : sound_at n → sound_object schema = true →
  forallb (sound k) (kw_fields "properties" schema).*2 = true → sound_branches schema = true →
  plain_data (JObject fs) = true → validate (S n) (JObject fs) schema l = Some [] → (n ≤ N)%nat →
  typed N (objectSchemaToTypeScript (schemaToTypeScript k) schema) (JObject fs) = true.
Proof.
  intros IH Hs Hsub Hb Hplain Hv HN. destruct (fields_sound n k schema fs l IH Hs Hsub Hplain Hv) as (Hreq & Hty & Hval).
  destruct (sound_object_facts schema Hs) as (Hr & _ & Hnd & _). unfold objectSchemaToTypeScript. unfold sound_branches in Hb.
  destruct (conditionalRequiredBranches schema _) as [[field bs]|] eqn:Hbr.
  - destruct (branches_inv _ _ _ _ Hbr) as (clauses & ds & literals & Ha & Hds & Hl & ->). rewrite Ha in Hb. cbn [default] in Hb.
    apply andb_prop in Hb as [Hdisc Hclauses].
    destruct (discriminant_literal n schema field fs ds literals Hdisc Hds Hl Hplain Hreq) as (w & Hw & Hin & Hlit).
    { intros w Hw. by apply (Hval field ds w). }
    rewrite typed_union. apply existsb_exists. eexists. split.
    { apply in_map, in_map, list_elem_of_In, Hin. }
    apply typed_properties.
    + intros p s x Hps Hx. cbn [JsMap.get]. destruct (decide (p = field)) as [->|].
      * cbn [default from_option id branch_of literal]. rewrite typed_literal. apply bool_decide_eq_true. congruence.
      * cbn [default from_option]. by apply (Hty p).
    + intros p [Hp|Hp]%elem_of_app; [by apply Hreq|]. by apply (additional_present n schema fs l field w clauses).
  - apply typed_properties; [|done]. intros p s w Hps Hw. cbn [JsMap.get default from_option]. by apply (Hty p).
Qed.

(** ** References *)

Context (declarations_sound : forallb (λ d, sound depth d.2) declarations = true).
Lemma ref_sound n ref l v N : sound_at n → sound_ref ref = true → plain_data v = true →
  match resolveRef schemaMap ref with None => Some (err "unresolved_ref" l) | Some r => validate n v r l end = Some [] → (n ≤ N)%nat →
  typed (S N) (TsNamed (typeNameForRef ref)) v = true.
Proof.
  intros IH Hs Hplain Hv HN. unfold sound_ref in Hs. destruct (resolveRef schemaMap ref) as [r|]; [|done]. apply bool_decide_eq_true in Hs.
  rewrite typed_named, types_get, Hs. cbn [fmap option_fmap option_map]. apply (IH depth r v l); try done.
  rewrite forallb_forall in declarations_sound. apply (declarations_sound (typeNameForRef ref, r)), list_elem_of_In. by apply get_elem.
Qed.

(** ** The classification record *)

Definition ref_schema (ref : jsstr) : json := JObject [(js "$ref", JString ref)].
Lemma ref_type c ref : schemaToTypeScript 1 (ref_schema (c :: ref)) = TsNamed (typeNameForRef (c :: ref)).
Proof. reflexivity. Qed.
Lemma ref_sound_schema c ref : sound 1 (ref_schema (c :: ref)) = sound_ref (c :: ref).
Proof. reflexivity. Qed.
Lemma criteria_sound n s items l N : sound_at n → sound_criteria s = true → is_text_type (js "NonEmptyString") = true →
  forallb plain_data items = true → validate (S n) (JArray items) s l = Some [] → (S n ≤ N)%nat →
  forallb (typed N (TsNamed (js "NonEmptyString"))) items = true.
Proof.
  intros IH Hs Hne Hplain Hv HN. unfold sound_criteria in Hs. apply andb_prop in Hs as [[Hr%bool_decide_eq_true Ht%bool_decide_eq_true]%andb_prop Hs].
  destruct (kw "items" s) as [it|] eqn:Hi; [|done]. destruct it as [| | | | | | |[|[name [| |[|c ref]| | | | |]] [|]]]; try done.
  apply andb_prop in Hs as [[->%bool_decide_eq_true Href]%andb_prop Htext].
  destruct (accepted_array _ _ n s items l Hr Ht Hv) as (_ & _ & Hall). apply forallb_forall. intros x Hx.
  rewrite forallb_forall in Hplain. specialize (Hplain x Hx). apply list_elem_of_In in Hx.
  destruct (Hall _ x Hi Hx) as [l' Hx'].
  assert (typed N (TsNamed (typeNameForRef (c :: ref))) x = true) as Htx.
  { rewrite <- (ref_type c ref). apply (IH 1%nat _ x l' Hplain); [|exact Hx'|lia]. by rewrite ref_sound_schema. }
  destruct N as [|N]; [lia|]. rewrite typed_named in Htx |- *. unfold is_text_type in Hne, Htext.
  destruct (JsMap.get (typeNameForRef _) types) as [[]|]; try done. by destruct (JsMap.get (js "NonEmptyString") types) as [[]|].
Qed.
(* Confirmed: the criteria are not empty. *)
Lemma confirmed_criteria n schema fs l clause criteria : kw_text "$ref" schema = None → kw_list "allOf" schema = Some [clause] →
  sound_clause (js "classification") clause = true → clause_matches (JString (js "confirmed")) clause = true → sound_minimum clause = true →
  plain_data (JObject fs) = true → JsMap.get (js "classification") fs = Some (JString (js "confirmed")) →
  JsMap.get (js "confirmation_criteria") fs = Some (JArray criteria) →
  validate (S n) (JObject fs) schema l = Some [] → (1 ≤ length criteria)%nat.
Proof.
  intros Hr Ha Hs Hm Hmin Hplain Hw Hcr Hv. destruct (plain_object _ Hplain) as [Hnp Hnd].
  pose proof (accepted_all_of _ _ n schema (JObject fs) l [clause] clause Hr Ha (list_elem_of_here _ _) Hv) as Hcv. destruct n as [|n]; [done|].
  destruct (clause_applies n _ clause fs _ l Hs Hnp Hnd Hw eq_refl Hm Hcv) as (t & Ht & Hrt & Hot & _ & Htv). destruct n as [|n]; [done|].
  destruct (accepted_fields _ _ n t fs l Hrt Hot Hnp Hnd Htv) as [_ Hprops]. unfold sound_minimum in Hmin. rewrite Ht in Hmin.
  cbn [mbind option_bind] in Hmin. destruct (JsMap.get _ (kw_fields "properties" t)) as [s|] eqn:Hsc; [|done].
  apply andb_prop in Hmin as [[Hrs%bool_decide_eq_true Hts%bool_decide_eq_true]%andb_prop Hn%bool_decide_eq_true].
  pose proof (Hprops _ _ _ Hcr eq_refl Hsc) as Hsv. destruct n as [|n]; [done|].
  destruct (accepted_array _ _ n s criteria _ Hrs Hts Hsv) as (Hlen & _). specialize (Hlen 1 Hn). lia.
Qed.

Lemma classification_sound n k schema fs l N : sound_at n → sound_classification (sound k) schema = true →
  plain_data (JObject fs) = true → validate (S n) (JObject fs) schema l = Some [] → (S n ≤ N)%nat →
  typed N (findingClassificationRecordToTypeScript (schemaToTypeScript k) schema) (JObject fs) = true.
Proof.
  intros IH Hs Hplain Hv HN. unfold sound_classification in Hs.
  apply andb_prop in Hs as [[[[[[Hobj Hsub]%andb_prop Hdisc]%andb_prop Henum]%andb_prop Hcriteria]%andb_prop Hne]%andb_prop Hclause].
  destruct (fields_sound n k schema fs l IH Hobj Hsub Hplain Hv) as (Hreq & Hty & Hval).
  destruct (sound_object_facts schema Hobj) as (Hr & _ & Hnd & _).
  destruct (JsMap.get (js "classification") (kw_fields "properties" schema)) as [ds|] eqn:Hds; [|done].
  destruct (kw_list "enum" ds) as [literals|] eqn:Hl; [|done].
  destruct (discriminant_literal n schema _ fs ds literals Hdisc Hds Hl Hplain Hreq) as (w & Hw & Hin & _).
  { intros w Hw. by apply (Hval (js "classification") ds w). }
  rewrite forallb_forall in Henum. apply list_elem_of_In, Henum, bool_decide_eq_true in Hin.
  destruct (JsMap.get (js "confirmation_criteria") (kw_fields "properties" schema)) as [cs|] eqn:Hcs; [|done].
  destruct (kw_list "allOf" schema) as [[|clause [|]]|] eqn:Ha; try done. apply andb_prop in Hclause as [[Hsc Hm]%andb_prop Hmin].
  assert (∀ c, JsMap.get (js "confirmation_criteria") fs = Some c → ∃ items, c = JArray items ∧
    forallb (typed N (TsNamed (js "NonEmptyString"))) items = true) as Hitems.
  { intros c Hc. destruct (Hval (js "confirmation_criteria") cs c Hcs Hc) as [l' Hv']. destruct n as [|n]; [done|].
    assert (matchesType c (js "array") = true) as [items ->]%type_array.
    { unfold sound_criteria in Hcriteria. apply andb_prop in Hcriteria as [[Hrc%bool_decide_eq_true Htc%bool_decide_eq_true]%andb_prop _].
      exact (accepted_of_type n cs c l' _ Hrc Htc Hv'). }
    exists items. split; [done|]. apply (criteria_sound (S n) cs items l' N IH Hcriteria Hne); [| |lia].
    - apply forallb_forall. intros x Hx%list_elem_of_In. apply (plain_elements items); [by eapply plain_field|done].
    - apply (validate_mono _ _ (S n)); [lia|done]. }
  unfold findingClassificationRecordToTypeScript. rewrite typed_union. cbn [existsb]. rewrite orb_false_r, orb_true_iff.
  destruct (decide (w = JString (js "confirmed"))) as [->|Hnc]; [left|right]; (apply typed_properties; [|done]);
    intros p s x Hps Hx; cbn [JsMap.get];
    (destruct (decide (p = js "classification")) as [->|]; [|destruct (decide (p = js "confirmation_criteria")) as [->|]]); cbn [default from_option id];
    try (apply (Hty p); [done..|lia]).
  - rewrite typed_literal. apply bool_decide_eq_true. congruence.
  - destruct (Hitems x Hx) as (items & -> & Hall). rewrite typed_non_empty, Hall, andb_true_r.
    pose proof (confirmed_criteria n schema fs l clause items Hr Ha Hsc Hm Hmin Hplain Hw Hx Hv). by destruct items; [simpl in *; lia|].
  - rewrite typed_union. cbn [existsb]. rewrite !typed_literal, orb_false_r, !orb_true_iff, !bool_decide_eq_true.
    replace x with w by congruence. unfold CLASSIFICATIONS in Hin. rewrite !elem_of_cons, elem_of_nil in Hin. tauto.
  - destruct (Hitems x Hx) as (items & -> & Hall). by rewrite typed_array.
Qed.

Lemma arrays_sound n k schema items l N : sound_at n → kw_text "$ref" schema = None → kw_text "type" schema = Some (js "array") →
  match kw "items" schema with Some s => sound k s | None => true end = true → plain_data (JArray items) = true →
  validate (S n) (JArray items) schema l = Some [] → (S n ≤ N)%nat →
  typed N (let itemType := schemaToTypeScript k (default (JObject []) (kw "items" schema)) in
           match kw_number "minItems" schema with
           | Some m => if kw_number "maxItems" schema === Some m then TsTuple (replicate (Z.to_nat m) itemType)
                       else if m =? 1 then TsNonEmptyArray itemType else TsArray itemType
           | None => TsArray itemType
           end) (JArray items) = true.
Proof.
  intros IH Hr Ht Hs Hplain Hv HN. destruct (accepted_array _ _ n schema items l Hr Ht Hv) as (Hmin & Hmax & Hall).
  set (itemType := schemaToTypeScript k (default (JObject []) (kw "items" schema))). cbn zeta.
  assert (forallb (typed N itemType) items = true) as Hitems.
  { apply forallb_forall. intros x Hx%list_elem_of_In. subst itemType. destruct (kw "items" schema) as [s|].
    - destruct (Hall s x eq_refl Hx) as [l' Hx']. apply (IH k s x l'); try done; [|lia]. by apply (plain_elements items).
    - destruct k as [|k]; apply typed_unknown. }
  destruct (kw_number "minItems" schema) as [m|]; [|by rewrite typed_array]. specialize (Hmin m eq_refl).
  case_bool_decide as Hm.
  - specialize (Hmax m Hm). replace (Z.to_nat m) with (length items) by lia. by rewrite typed_tuple.
  - destruct (Z.eqb_spec m 1) as [->|]; [|by rewrite typed_array]. rewrite typed_non_empty, Hitems. destruct items; [simpl in *; lia|done].
Qed.

(** ** Every sound schema *)

Theorem accepted_typed n : sound_at n.
Proof.
  induction n as [|n IH]; intros k schema v l Hplain Hs Hv N HN; [done|]. destruct k as [|k]; [apply typed_unknown|].
  cbn [sound schemaToTypeScript] in *. destruct (kw_text "$id" schema === _) eqn:Hid.
  { pose proof Hs as Hs'. unfold sound_classification in Hs'. apply andb_prop in Hs' as [[[[[[Hobj _]%andb_prop _]%andb_prop _]%andb_prop _]%andb_prop _]%andb_prop _].
    destruct (sound_object_facts schema Hobj) as (Hr & Ht & _). pose proof (accepted_of_type n schema v l _ Hr Ht Hv) as [fs ->]%type_object.
    by apply (classification_sound n k schema fs l). }
  destruct (kw_text "$ref" schema) as [ref|] eqn:Hr.
  { apply andb_prop in Hs as [Hne Href]. destruct ref as [|c ref]; [done|]. destruct N as [|N]; [lia|].
    apply (ref_sound n (c :: ref) l); try done; [|lia]. cbn [validateSchemaValue] in Hv. unfold schema_errors in Hv. by rewrite Hr in Hv. }
  destruct (kw "const" schema) as [c|] eqn:Hc.
  { rewrite typed_literal. apply bool_decide_eq_true. apply (literal_equals localeCompare); [done..|]. by apply (accepted_const schemaMap _ n schema v l). }
  destruct (kw_list "enum" schema) as [items|] eqn:He.
  { rewrite typed_union. destruct (accepted_enum _ _ n schema v l items Hr He Hv) as (c & Hin & Heq). rewrite forallb_forall in Hs.
    apply list_elem_of_In in Hin. rewrite (literal_equals _ v c (Hs c Hin) Hplain Heq). apply existsb_exists. exists (TsLiteral c).
    split; [by apply in_map|]. rewrite typed_literal. by apply bool_decide_eq_true. }
  assert (∀ t, kw_text "type" schema = Some (js t) → matchesType v (js t) = true) as Htype.
  { intros t Ht. by apply (accepted_of_type n schema v l). }
  destruct (kw_text "type" schema === Some (js "string")) eqn:E1.
  { apply bool_decide_eq_true in E1. destruct (type_string _ (Htype _ E1)) as [s ->]. by destruct N. }
  destruct (kw_text "type" schema === Some (js "boolean")) eqn:E2.
  { apply bool_decide_eq_true in E2. destruct (type_boolean _ (Htype _ E2)) as [b ->]. by destruct N. }
  destruct ((kw_text "type" schema === Some (js "integer")) || (kw_text "type" schema === Some (js "number")))%bool eqn:E3.
  { assert (∃ m, v = JNumber m) as [m ->]; [|by destruct N].
    apply orb_prop in E3 as [E3%bool_decide_eq_true|E3%bool_decide_eq_true]; [by apply type_integer, Htype|by apply type_number, Htype]. }
  destruct (kw_text "type" schema === Some (js "array")) eqn:E4.
  { apply bool_decide_eq_true in E4. destruct (type_array _ (Htype _ E4)) as [items ->]. by apply (arrays_sound n k schema items l). }
  destruct (kw_text "type" schema === Some (js "object")) eqn:E5; [|apply typed_unknown].
  apply bool_decide_eq_true in E5. destruct (type_object _ (Htype _ E5)) as [fs ->].
  apply andb_prop in Hs as [[Hobj Hsub]%andb_prop Hb]. apply (objects_sound n k schema fs l); try done. lia.
Qed.
End soundness.
