(* ===== verification/GeneratedTypes.v ===== *)
(** The generated TypeScript types of the protocol
    (packages/protocol-ts/src/generated/protocol-v0.ts), one definition per type, as the
    file has them; the generator writes exactly these, and what the validator accepts has
    the type of its schema. *)

From Stdlib Require Import String.
From S2P Require Import Prelude Json JsonText CanonicalJson Schema Registry Values TypeGenerator TypeSoundness.

Local Open Scope Z_scope.

Definition lit (text : string) : ts_type := TsLiteral (JString (js text)).
Definition num (n : Z) : ts_type := TsLiteral (JNumber n).
Definition boolean (b : bool) : ts_type := TsLiteral (JBool b).
Definition named (name : string) : ts_type := TsNamed (js name).
Definition req (name : string) (t : ts_type) : jsstr * bool * ts_type := (js name, false, t).
Definition opt (name : string) (t : ts_type) : jsstr * bool * ts_type := (js name, true, t).

(** * The declarations *)

Definition ActorReference : ts_type := TsObject [req "actor_type" (TsUnion [lit "local_runner"; lit "customer_user"; lit
  "vendor_service"; lit "reviewer"]); req "actor_id" (named "NonEmptyString")].
Definition AlgorithmPrefixedSha256Id : ts_type := TsString.
Definition ArtifactDigest : ts_type := TsString.
Definition CoverageMode : ts_type := TsUnion [lit "metadata_only"; lit "finding_context_snippets"; lit "extended_approved_snippets_or_targeted_files"].
Definition MlDsa65PublicKey : ts_type := TsString.
Definition MlDsa65Signature : ts_type := TsString.
Definition NarrativeString : ts_type := TsString.
Definition NonEmptyString : ts_type := TsString.
Definition ProtocolVersion : ts_type := lit "codeattest.v0".
Definition Sha256Hex : ts_type := TsString.
Definition SnakeCaseFieldName : ts_type := TsString.
Definition UtcRfc3339Timestamp : ts_type := TsString.
Definition AcceptedRiskRecord : ts_type := TsObject [req "protocol_version" (named "ProtocolVersion"); req "review_id"
  TsString; req "accepted_risk_record_id" TsString; req "review_finding_draft_ref" TsString; req "classification_record_ref"
  TsString; req "review_finding_draft_evidence_refs" (TsNonEmptyArray (TsObject [req "artifact_ref" TsString; req "availability_state"
  (TsUnion [lit "retained_review_artifact"; lit "deleted_under_policy"; lit "never_collected"; lit "not_submitted_by_policy";
  lit "unresolved_reference"]); req "available_for_review" TsBoolean; req "display_state" (TsUnion [lit "available_reference";
  lit "deleted"; lit "not_collected"; lit "not_submitted"; lit "unresolved_reference"]); opt "deletion_evidence_ref" TsString;
  req "source_derived_class" (named "RetentionSourceDerivedClass")])); req "evidence_basis" (TsNonEmptyArray (TsUnion [lit
  "scanner_output"; lit "metadata_only"; lit "finding_context_snippet"; lit "extended_approved_source_context"; lit "retained_review_artifact";
  lit "deleted_under_policy_reference"; lit "not_submitted_by_policy_reference"; lit "never_collected_reference"; lit "unresolved_reference"]));
  opt "customer_rationale" (named "NonEmptyString"); opt "customer_signoff_ref" TsString; opt "customer_signoff_summary"
  (named "NonEmptyString"); opt "customer_actor_ref" TsString; opt "risk_owner" (named "NonEmptyString"); opt "scope_of_acceptance"
  (named "NonEmptyString"); opt "review_by_date" TsString; opt "remediation_context_ref" TsString; opt "validation_path_ref"
  TsString; req "recorded_at" (named "UtcRfc3339Timestamp"); req "actor" (named "ActorReference"); req "limitations" (TsNonEmptyArray
  (named "NarrativeString")); req "source_reference_state" (TsUnion [lit "retained_review_artifact"; lit "deleted_under_policy";
  lit "never_collected"; lit "not_submitted_by_policy"; lit "unresolved_reference"]); req "source_derived_class" (lit "retained_review_artifact");
  req "visibility" (TsUnion [lit "customer_facing"; lit "internal_only"]); opt "field_export_policy" (TsObject [req "customer_rationale"
  (TsUnion [lit "include"; lit "exclude"]); req "customer_signoff_summary" (TsUnion [lit "include"; lit "exclude"]); req
  "risk_owner" (TsUnion [lit "include"; lit "exclude"]); req "scope_of_acceptance" (TsUnion [lit "include"; lit "exclude"]);
  req "limitations" (TsUnion [lit "include"; lit "exclude"]); req "evidence_consumer_export" (TsUnion [lit "include"; lit
  "exclude"]); req "evidence_basis" (TsUnion [lit "include"; lit "exclude"])])].
Definition ArtifactReference : ts_type := TsObject [req "protocol_version" (named "ProtocolVersion"); req "artifact_ref"
  TsString; req "artifact_type" (TsUnion [lit "review_scope"; lit "disclosure_policy"; lit "dependency_manifest"; lit "scanner_finding_set";
  lit "scanner_raw_output"; lit "raw_snippet"; lit "targeted_file"; lit "outbound_manifest"; lit "customer_approval"; lit
  "bundle_manifest"; lit "signature_envelope"]); req "digest" (named "ArtifactDigest"); req "size_bytes" TsNumber; req "source_derived_class"
  (named "RetentionSourceDerivedClass"); req "manifest_entry_ref" TsString; opt "media_type" TsString; opt "content_path"
  TsString; opt "content_path_anchor" (TsUnion [lit "manifest_artifacts"; lit "bundle_artifacts"; lit "bundle_source_derived_artifacts";
  lit "fixture_root"]); opt "synthetic_markers" (TsNonEmptyArray (TsUnion [lit "SYNTHETIC_DEMO_DATA"; lit "NOT_CUSTOMER_SOURCE"]))].
Definition AttestationPackageFinalization : ts_type := TsUnion [TsObject [req "protocol_version" (named "ProtocolVersion");
  req "attestation_package_finalization_id" TsString; req "finalization_version" TsNumber; req "review_id" TsString; req
  "static_bundle_id" TsString; req "generated_manifest_ref" (named "AlgorithmPrefixedSha256Id"); req "finalized_manifest_ref"
  (named "AlgorithmPrefixedSha256Id"); req "finalized_manifest_version" TsNumber; req "customer_actor" (TsObject [req "actor_type"
  (lit "customer_user"); req "actor_id" (named "NonEmptyString")]); req "visible_context" (TsObject [req "attestation_id"
  TsString; req "static_bundle_id" TsString; req "generated_manifest_id" (named "AlgorithmPrefixedSha256Id"); req "limitations_visible"
  (boolean true); req "receipt_context_visible" (boolean true); req "export_consequence_visible" (boolean true)]); req "receipt_verification_state"
  (lit "verified"); req "signature_verification_state" (lit "verified"); req "deletion_evidence_state" (lit "resolved");
  req "portal_verification_state" (lit "verified_offline"); req "finalized_at" (named "UtcRfc3339Timestamp"); req "customer_control_after_export"
  (named "NonEmptyString"); req "export_state" (lit "not_exported"); opt "exported_at" (named "UtcRfc3339Timestamp"); req
  "visibility" (lit "customer_facing"); req "source_derived_class" (lit "retained_review_artifact"); req "canonicalization"
  (lit "rfc8785"); req "identity_hash_algorithm" (lit "sha256"); req "identity_input_excludes" (TsTuple (replicate 3 (TsUnion
  [lit "attestation_package_finalization_id"; lit "export_state"; lit "exported_at"])))]; TsObject [req "protocol_version"
  (named "ProtocolVersion"); req "attestation_package_finalization_id" TsString; req "finalization_version" TsNumber; req
  "review_id" TsString; req "static_bundle_id" TsString; req "generated_manifest_ref" (named "AlgorithmPrefixedSha256Id");
  req "finalized_manifest_ref" (named "AlgorithmPrefixedSha256Id"); req "finalized_manifest_version" TsNumber; req "customer_actor"
  (TsObject [req "actor_type" (lit "customer_user"); req "actor_id" (named "NonEmptyString")]); req "visible_context" (TsObject
  [req "attestation_id" TsString; req "static_bundle_id" TsString; req "generated_manifest_id" (named "AlgorithmPrefixedSha256Id");
  req "limitations_visible" (boolean true); req "receipt_context_visible" (boolean true); req "export_consequence_visible"
  (boolean true)]); req "receipt_verification_state" (lit "verified"); req "signature_verification_state" (lit "verified");
  req "deletion_evidence_state" (lit "resolved"); req "portal_verification_state" (lit "verified_offline"); req "finalized_at"
  (named "UtcRfc3339Timestamp"); req "customer_control_after_export" (named "NonEmptyString"); req "export_state" (lit "exported");
  req "exported_at" (named "UtcRfc3339Timestamp"); req "visibility" (lit "customer_facing"); req "source_derived_class" (lit
  "retained_review_artifact"); req "canonicalization" (lit "rfc8785"); req "identity_hash_algorithm" (lit "sha256"); req
  "identity_input_excludes" (TsTuple (replicate 3 (TsUnion [lit "attestation_package_finalization_id"; lit "export_state";
  lit "exported_at"])))]].
Definition BundleManifest : ts_type := TsObject [req "protocol_version" (named "ProtocolVersion"); req "evidence_bundle_id"
  (named "AlgorithmPrefixedSha256Id"); req "manifest_id" (named "AlgorithmPrefixedSha256Id"); req "customer_approval_ref"
  TsString; req "customer_approval_decision" (lit "approved"); req "bundle_state" (lit "not_submitted"); req "review_scope_ref"
  (named "AlgorithmPrefixedSha256Id"); req "disclosure_policy_ref" (named "AlgorithmPrefixedSha256Id"); opt "scanner_finding_set_ref"
  (named "AlgorithmPrefixedSha256Id"); req "coverage_mode" (named "CoverageMode"); req "bundle_instance_id" TsString; req
  "submission_attempt_id" TsString; req "created_at" (named "UtcRfc3339Timestamp"); req "runner" (TsObject [req "name" (lit
  "codeattest-local-runner"); req "version" (named "NonEmptyString")]); req "tool_versions" (TsNonEmptyArray (TsObject [req
  "tool_name" (named "NonEmptyString"); req "tool_version" (named "NonEmptyString")])); req "artifact_references" (TsArray
  (named "ArtifactReference")); req "verification_metadata" (TsObject [req "identity_canonicalization" (lit "rfc8785"); req
  "identity_hash_algorithm" (lit "sha256"); req "identity_input_excludes" (TsNonEmptyArray (lit "evidence_bundle_id")); req
  "signed_identity_type" (lit "evidence_bundle"); req "approved_manifest_id" (named "AlgorithmPrefixedSha256Id"); req "signature_envelope_path"
  (named "NonEmptyString"); req "bundle_signing_mode" (TsUnion [lit "managed_key"; lit "enrolled_runner_key"])]); req "local_cleanup_intent"
  (TsArray (TsObject [req "artifact_ref" TsString; req "source_derived_class" (named "RetentionSourceDerivedClass"); req
  "cleanup_state" (TsUnion [lit "pending_local_cleanup"; lit "not_applicable"]); req "cleanup_required" TsBoolean; req "deletion_evidence_state"
  (TsUnion [lit "pending"; lit "not_applicable"])]))].
Definition CustomerApproval : ts_type := TsObject [req "protocol_version" (named "ProtocolVersion"); req "approval_id"
  TsString; req "manifest_id" (named "AlgorithmPrefixedSha256Id"); req "decision" (TsUnion [lit "approved"; lit "declined"]);
  req "decided_at" (named "UtcRfc3339Timestamp"); opt "approving_actor" (named "ActorReference"); req "displayed_context"
  (TsObject [req "manifest_id" (named "AlgorithmPrefixedSha256Id"); req "selected_application" (TsObject [req "application_id"
  (named "NonEmptyString"); req "display_name" (named "NonEmptyString")]); req "selected_commit" (TsObject [req "commit_sha"
  TsString; req "source_control_system" (lit "git")]); req "repository_identity" (named "AlgorithmPrefixedSha256Id"); req
  "coverage_mode" (named "CoverageMode"); req "disclosure_policy_ref" (named "AlgorithmPrefixedSha256Id"); opt "scanner_finding_set_ref"
  (named "AlgorithmPrefixedSha256Id"); req "disclosure_warnings" (TsNonEmptyArray (named "NarrativeString")); req "bundle_preview_summary"
  (named "NonEmptyString")]); req "warnings_acknowledged" (TsArray (named "NarrativeString")); opt "not_submitted_state"
  (TsObject [req "state" (lit "not_submitted"); req "evidence_bundle_created" (boolean false); req "evidence_sent" (boolean
  false); req "next_actions" (TsArray (TsUnion [lit "revise policy"; lit "rerun scan"; lit "export manifest"; lit "exit"]))])].
Definition CustomerFacingFindingRecord : ts_type := TsObject [req "protocol_version" (named "ProtocolVersion"); req "review_id"
  TsString; req "customer_facing_finding_record_id" TsString; req "review_finding_draft_ref" TsString; opt "classification_record_ref"
  TsString; opt "remediation_guidance_ref" TsString; opt "customer_status_record_refs" (TsArray TsString); opt "verification_record_ref"
  TsString; opt "accepted_risk_record_ref" TsString; opt "false_positive_record_ref" TsString; req "expert_classification"
  (TsObject [req "classification" (TsUnion [lit "likely"; lit "confirmed"; lit "inconclusive"; lit "requires_customer_side_validation"]);
  req "classification_record_ref" TsString; req "rationale_summary" (named "NonEmptyString"); req "criteria_summary" (named
  "NonEmptyString"); req "limitations" (TsNonEmptyArray (named "NarrativeString"))]); req "evidence_basis" (TsObject [req
  "evidence_refs" (TsNonEmptyArray TsString); req "source_reference_state" (TsUnion [lit "retained_review_artifact"; lit
  "deleted_under_policy"; lit "never_collected"; lit "not_submitted_by_policy"; lit "unresolved_reference"]); req "limitations"
  (TsNonEmptyArray (named "NarrativeString"))]); req "reviewer_remediation_guidance" (TsObject [req "guidance_status" (TsUnion
  [lit "actionable_guidance_provided"; lit "limited_guidance_requires_validation"; lit "guidance_unavailable_from_submitted_evidence"]);
  opt "remediation_guidance_ref" TsString; opt "exploitability_rationale_summary" (named "NonEmptyString"); opt "suggested_remediation_summary"
  (named "NonEmptyString"); opt "validation_step_summary" (named "NonEmptyString"); opt "next_step_summary" (named "NonEmptyString");
  opt "validation_path_summary" (named "NonEmptyString"); opt "validation_path_ref" TsString; opt "insufficient_evidence_reason"
  (named "NonEmptyString"); req "limitations" (TsNonEmptyArray (named "NarrativeString"))]); req "customer_remediation_status"
  (TsObject [req "latest_status" (TsUnion [lit "not_started"; lit "planned"; lit "in_progress"; lit "remediated_by_customer";
  lit "validation_pending"; lit "deferred"; lit "not_applicable"]); opt "latest_status_record_ref" TsString; opt "owner"
  (named "NonEmptyString"); opt "due_date" TsString; opt "target_state" (named "NonEmptyString"); opt "customer_notes_summary"
  (named "NonEmptyString"); req "customer_notes_visible" TsBoolean]); req "verification_state" (TsObject [req "status" (TsUnion
  [lit "not_verified"; lit "verification_pending"; lit "verification_complete"; lit "requires_customer_side_validation"]);
  opt "verification_record_ref" TsString; req "summary" (named "NonEmptyString")]); req "future_outcome_visibility" (TsObject
  [req "accepted_risk_visible" TsBoolean; opt "accepted_risk_record_ref" TsString; req "false_positive_visible" TsBoolean;
  opt "false_positive_record_ref" TsString]); opt "validation_paths" (TsArray (TsObject [req "validation_path_ref" TsString;
  req "path_type" (TsUnion [lit "remote_dynamic_testing"; lit "customer_run_script"; lit "manual_steps"]); req "required_evidence"
  (named "NonEmptyString"); req "steps" (named "NonEmptyString"); req "expected_result" (named "NonEmptyString"); req "limitations"
  (TsNonEmptyArray (named "NarrativeString")); req "included_pass_verifiability" (TsUnion [lit "verifiable_within_included_pass";
  lit "customer_provided_evidence_required"; lit "additional_agreement_required"]); opt "reviewer_validation_script_refs"
  (TsNonEmptyArray TsString); opt "output_attachment_instructions" (named "NonEmptyString"); opt "target" (named "NonEmptyString");
  opt "authorization_assumption" (named "NonEmptyString"); opt "method" (named "NonEmptyString"); opt "safety_constraints"
  (named "NonEmptyString"); opt "evidence_artifacts_to_collect" (TsNonEmptyArray TsString)])); opt "reviewer_validation_scripts"
  (TsArray (TsObject [req "validation_script_ref" TsString; req "validation_path_ref" TsString; req "script_package_status"
  (TsUnion [lit "included_base_package"; lit "additional_script_candidate_pricing_tbd"]); opt "included_script_slot" TsNumber;
  opt "pricing_note" (named "NonEmptyString"); req "purpose" (named "NonEmptyString"); req "prerequisites" (named "NonEmptyString");
  req "execution_steps" (named "NonEmptyString"); req "expected_output" (named "NonEmptyString"); req "safety_notes" (named
  "NonEmptyString"); req "output_attachment_instructions" (named "NonEmptyString"); req "script_content" (named "NonEmptyString")]));
  req "evidence_consumer_export" (TsUnion [lit "include"; lit "exclude"]); req "visibility" (TsUnion [lit "customer_facing";
  lit "internal_only"]); req "source_derived_class" (lit "retained_review_artifact"); opt "accepted_risk_outcome" (TsObject
  [req "accepted_risk_record_ref" TsString; req "actor_category" (TsUnion [lit "customer_user"; lit "reviewer"; lit "vendor_service"]);
  req "evidence_basis_summary" (named "NonEmptyString"); req "evidence_refs" (TsArray TsString); req "customer_acceptance_summary"
  (named "NonEmptyString"); opt "risk_owner" (named "NonEmptyString"); opt "scope_of_acceptance" (named "NonEmptyString");
  opt "review_by_date" TsString; opt "remediation_context_ref" TsString; opt "validation_path_ref" TsString; req "limitations"
  (TsNonEmptyArray (named "NarrativeString")); req "source_reference_state" (TsUnion [lit "retained_review_artifact"; lit
  "deleted_under_policy"; lit "never_collected"; lit "not_submitted_by_policy"; lit "unresolved_reference"]); req "evidence_consumer_export"
  (TsUnion [lit "include"; lit "exclude"])]); opt "false_positive_outcome" (TsObject [req "false_positive_record_ref" TsString;
  req "actor_category" (lit "reviewer"); req "evidence_basis_summary" (named "NonEmptyString"); req "evidence_refs" (TsArray
  TsString); req "rationale_summary" (named "NonEmptyString"); opt "candidate_finding_refs" (TsNonEmptyArray TsString); req
  "limitations" (TsNonEmptyArray (named "NarrativeString")); req "source_reference_state" (TsUnion [lit "retained_review_artifact";
  lit "deleted_under_policy"; lit "never_collected"; lit "not_submitted_by_policy"; lit "unresolved_reference"]); req "evidence_consumer_export"
  (TsUnion [lit "include"; lit "exclude"])])].
Definition CustomerRemediationStatusRecord : ts_type := TsObject [req "protocol_version" (named "ProtocolVersion"); req
  "review_id" TsString; req "customer_status_record_id" TsString; opt "finding_ref" TsString; opt "classification_record_ref"
  TsString; opt "remediation_guidance_ref" TsString; req "customer_remediation_status" (TsUnion [lit "not_started"; lit "planned";
  lit "in_progress"; lit "remediated_by_customer"; lit "validation_pending"; lit "deferred"; lit "not_applicable"]); opt
  "owner" (named "NonEmptyString"); opt "due_date" TsString; opt "target_state" (named "NonEmptyString"); opt "customer_notes"
  (named "NonEmptyString"); req "recorded_at" (named "UtcRfc3339Timestamp"); req "actor" (TsObject [req "actor_type" (lit
  "customer_user"); req "actor_id" (named "NonEmptyString")]); opt "field_export_policy" (TsObject [req "owner" (TsUnion
  [lit "include"; lit "exclude"]); req "due_date" (TsUnion [lit "include"; lit "exclude"]); req "target_state" (TsUnion [lit
  "include"; lit "exclude"]); req "customer_notes" (TsUnion [lit "include"; lit "exclude"])]); req "visibility" (TsUnion
  [lit "customer_facing"; lit "internal_only"]); req "source_derived_class" (lit "retained_review_artifact")].
Definition DeletionEvidence : ts_type := TsObject [req "protocol_version" (named "ProtocolVersion"); req "deletion_evidence_id"
  TsString; req "deleted_artifact_digests" (TsNonEmptyArray (named "ArtifactDigest")); req "deletion_method" (TsUnion [lit
  "crypto_erase"; lit "secure_delete"; lit "key_destruction"; lit "expiry_purge"]); req "deletion_timestamp" (named "UtcRfc3339Timestamp");
  req "actor" (named "ActorReference"); req "verification_status" (TsUnion [lit "verified"; lit "unverified"]); opt "supersedes_deletion_evidence_ref"
  TsString].
Definition DisclosurePolicy : ts_type := TsObject [req "protocol_version" (named "ProtocolVersion"); req "disclosure_policy_id"
  (named "AlgorithmPrefixedSha256Id"); req "created_at" (named "UtcRfc3339Timestamp"); req "review_scope_ref" (named "AlgorithmPrefixedSha256Id");
  opt "scanner_finding_set_ref" (named "AlgorithmPrefixedSha256Id"); req "coverage_mode" (named "CoverageMode"); req "include_metadata"
  TsBoolean; req "include_dependency_information" TsBoolean; req "include_scanner_findings" TsBoolean; req "evidence_categories"
  (TsArray (TsObject [req "category" (TsUnion [lit "metadata"; lit "dependencies"; lit "scanner_findings"; lit "raw_snippets";
  lit "targeted_files"; lit "derived_artifacts"; lit "never_collected_items"]); req "included" TsBoolean; req "source_derived_class"
  (named "RetentionSourceDerivedClass"); req "retention_handling" (named "NonEmptyString"); opt "limitation" (named "NonEmptyString")]));
  req "snippet_policy" (TsObject [req "allow_raw_snippets" TsBoolean; req "max_snippet_chars" TsNumber; req "context_lines"
  TsNumber; req "redaction_profile" (named "NonEmptyString"); req "raw_snippet_default_class" (lit "transient_source_derived");
  req "selection_behavior" (TsUnion [lit "none"; lit "finding_context"; lit "extended_selected_files_or_areas"]); req "selected_files_or_areas"
  (TsArray (named "NonEmptyString"))]); req "redaction_policy" (TsObject [req "enabled" TsBoolean; req "profile" (named "NonEmptyString");
  req "configuration_version" (named "NonEmptyString"); req "limitation" (named "NonEmptyString")]); req "retention_policy"
  (TsObject [req "raw_snippet_class" (named "RetentionSourceDerivedClass"); req "targeted_file_class" (named "RetentionSourceDerivedClass");
  req "retain_source_opt_in" TsBoolean; req "retention_period" (named "NonEmptyString")]); req "warnings" (TsNonEmptyArray
  (named "NarrativeString")); req "limitations" (TsArray (named "NarrativeString")); opt "synthetic_fixture_markers" (TsArray
  (TsUnion [lit "SYNTHETIC_DEMO_DATA"; lit "NOT_CUSTOMER_SOURCE"]))].
Definition EnvironmentEvidenceGate : ts_type := TsObject [req "protocol_version" (named "ProtocolVersion"); req "environment_profile"
  (TsUnion [lit "synthetic_demo"; lit "partner_pilot_candidate"; lit "partner_pilot_real_snippet_ready"]); req "allowed_source_derived_classes"
  (TsNonEmptyArray (named "RetentionSourceDerivedClass")); req "real_raw_snippet_acceptance" TsBoolean; req "real_targeted_file_acceptance"
  TsBoolean; req "access_control_ready" TsBoolean; req "access_logging_ready" TsBoolean; req "encryption_at_rest_ready" TsBoolean;
  req "retention_defaults_ready" TsBoolean; req "deletion_controls_ready" TsBoolean; req "demo_budget_gate_ready" TsBoolean;
  req "signing_release_trust_ready" TsBoolean; req "retention_period_required" TsBoolean; req "evidence_boundary" (named
  "NonEmptyString"); opt "readiness_decision_ref" (named "AlgorithmPrefixedSha256Id"); opt "notes" (TsArray (named "NarrativeString"))].
Definition EnvironmentReadinessDecision : ts_type := TsUnion [TsObject [req "protocol_version" (named "ProtocolVersion");
  req "readiness_decision_id" (named "AlgorithmPrefixedSha256Id"); req "previous_gate_version" TsNumber; req "proposed_gate_version"
  TsNumber; req "proposed_gate_approval_input_digest" (named "AlgorithmPrefixedSha256Id"); req "deployment_identity" (lit
  "pilot"); req "release_digest" (named "AlgorithmPrefixedSha256Id"); req "deployment_digest" (named "AlgorithmPrefixedSha256Id");
  req "evidence_bindings" (TsTuple (replicate 7 (TsObject [req "control" (TsUnion [lit "access_control_ready"; lit "access_logging_ready";
  lit "encryption_at_rest_ready"; lit "retention_defaults_ready"; lit "deletion_controls_ready"; lit "demo_budget_gate_ready";
  lit "signing_release_trust_ready"]); req "readiness_evidence_ref" (named "AlgorithmPrefixedSha256Id")]))); req "approvers"
  (TsTuple (replicate 2 (TsObject [req "approval_role" (TsUnion [lit "pilot_security_owner"; lit "pilot_operations_owner"]);
  req "actor" (TsObject [req "actor_type" (lit "reviewer"); req "actor_id" (named "NonEmptyString")])]))); req "decided_at"
  (named "UtcRfc3339Timestamp"); req "decision" (lit "approved"); req "limitations" (TsNonEmptyArray (named "NarrativeString"));
  req "decision_signature" (named "SignatureEnvelope"); req "canonicalization" (lit "rfc8785"); req "identity_hash_algorithm"
  (lit "sha256"); req "identity_input_excludes" (TsTuple (replicate 2 (TsUnion [lit "readiness_decision_id"; lit "decision_signature"])))];
  TsObject [req "protocol_version" (named "ProtocolVersion"); req "readiness_decision_id" (named "AlgorithmPrefixedSha256Id");
  req "previous_gate_version" TsNumber; req "proposed_gate_version" TsNumber; req "proposed_gate_approval_input_digest" (named
  "AlgorithmPrefixedSha256Id"); req "deployment_identity" (lit "pilot"); req "release_digest" (named "AlgorithmPrefixedSha256Id");
  req "deployment_digest" (named "AlgorithmPrefixedSha256Id"); req "evidence_bindings" (TsTuple (replicate 7 (TsObject [req
  "control" (TsUnion [lit "access_control_ready"; lit "access_logging_ready"; lit "encryption_at_rest_ready"; lit "retention_defaults_ready";
  lit "deletion_controls_ready"; lit "demo_budget_gate_ready"; lit "signing_release_trust_ready"]); req "readiness_evidence_ref"
  (named "AlgorithmPrefixedSha256Id")]))); req "approvers" (TsTuple (replicate 2 (TsObject [req "approval_role" (TsUnion
  [lit "pilot_security_owner"; lit "pilot_operations_owner"]); req "actor" (TsObject [req "actor_type" (lit "reviewer");
  req "actor_id" (named "NonEmptyString")])]))); req "decided_at" (named "UtcRfc3339Timestamp"); req "decision" (lit "declined");
  req "limitations" (TsNonEmptyArray (named "NarrativeString")); opt "decision_signature" (named "SignatureEnvelope"); req
  "canonicalization" (lit "rfc8785"); req "identity_hash_algorithm" (lit "sha256"); req "identity_input_excludes" (TsTuple
  (replicate 2 (TsUnion [lit "readiness_decision_id"; lit "decision_signature"])))]].
Definition EnvironmentReadinessEvidence : ts_type := TsObject [req "protocol_version" (named "ProtocolVersion"); req "readiness_evidence_id"
  (named "AlgorithmPrefixedSha256Id"); req "control" (TsUnion [lit "access_control_ready"; lit "access_logging_ready"; lit
  "encryption_at_rest_ready"; lit "retention_defaults_ready"; lit "deletion_controls_ready"; lit "demo_budget_gate_ready";
  lit "signing_release_trust_ready"]); req "deployment_identity" (lit "pilot"); req "release_digest" (named "AlgorithmPrefixedSha256Id");
  req "deployment_digest" (named "AlgorithmPrefixedSha256Id"); req "observed_at" (named "UtcRfc3339Timestamp"); req "evidence_attachments"
  (TsNonEmptyArray (TsObject [req "check_id" TsString; req "attachment_digest" (named "AlgorithmPrefixedSha256Id"); req "collected_at"
  (named "UtcRfc3339Timestamp")])); req "result" (TsUnion [lit "passed"; lit "failed"]); req "evidence_producer" (named "ActorReference");
  req "independent_reviewer" (TsObject [req "actor_type" (lit "reviewer"); req "actor_id" (named "NonEmptyString")]); req
  "reviewed_at" (named "UtcRfc3339Timestamp"); req "limitations" (TsNonEmptyArray (named "NarrativeString")); req "canonicalization"
  (lit "rfc8785"); req "identity_hash_algorithm" (lit "sha256"); req "identity_input_excludes" (TsTuple [lit "readiness_evidence_id"])].
Definition EvidenceLifecycleEvent : ts_type := TsUnion [TsObject [req "protocol_version" (named "ProtocolVersion"); req
  "event_id" TsString; req "review_id" TsString; req "sequence_number" TsNumber; req "idempotency_key" (named "NonEmptyString");
  req "event_type" (lit "evidence_accessed"); req "actor" (named "ActorReference"); req "event_timestamp" (named "UtcRfc3339Timestamp");
  req "artifact_refs" (TsNonEmptyArray TsString); req "source_derived_class" (named "RetentionSourceDerivedClass"); opt "purpose"
  (named "NonEmptyString"); req "access_scope" (TsObject [req "tenant_id" (named "NonEmptyString"); req "review_scope" TsString]);
  opt "deletion_evidence_ref" TsString; opt "retention_record_ref" TsString; opt "supersedes_event_id" TsString]; TsObject
  [req "protocol_version" (named "ProtocolVersion"); req "event_id" TsString; req "review_id" TsString; req "sequence_number"
  TsNumber; req "idempotency_key" (named "NonEmptyString"); req "event_type" (lit "evidence_deleted"); req "actor" (named
  "ActorReference"); req "event_timestamp" (named "UtcRfc3339Timestamp"); req "artifact_refs" (TsNonEmptyArray TsString);
  req "source_derived_class" (named "RetentionSourceDerivedClass"); opt "purpose" (named "NonEmptyString"); opt "access_scope"
  (TsObject [req "tenant_id" (named "NonEmptyString"); req "review_scope" TsString]); req "deletion_evidence_ref" TsString;
  opt "retention_record_ref" TsString; opt "supersedes_event_id" TsString]; TsObject [req "protocol_version" (named "ProtocolVersion");
  req "event_id" TsString; req "review_id" TsString; req "sequence_number" TsNumber; req "idempotency_key" (named "NonEmptyString");
  req "event_type" (lit "retention_status_changed"); req "actor" (named "ActorReference"); req "event_timestamp" (named "UtcRfc3339Timestamp");
  req "artifact_refs" (TsNonEmptyArray TsString); req "source_derived_class" (named "RetentionSourceDerivedClass"); opt "purpose"
  (named "NonEmptyString"); opt "access_scope" (TsObject [req "tenant_id" (named "NonEmptyString"); req "review_scope" TsString]);
  opt "deletion_evidence_ref" TsString; opt "retention_record_ref" TsString; opt "supersedes_event_id" TsString]].
Definition EvidenceMinimizationProjection : ts_type := TsObject [req "protocol_version" (named "ProtocolVersion"); req
  "review_id" TsString; req "entries" (TsNonEmptyArray (TsObject [req "artifact_ref" TsString; req "minimization_category"
  (TsUnion [lit "retained_finding"; lit "retained_metadata"; lit "retained_attestation"; lit "retained_customer_opt_in_snippet";
  lit "deleted_transient"; lit "never_collected"]); req "source_derived_class" (named "RetentionSourceDerivedClass"); opt
  "deletion_evidence_ref" TsString]))].
Definition FalsePositiveRecord : ts_type := TsObject [req "protocol_version" (named "ProtocolVersion"); req "review_id"
  TsString; req "false_positive_record_id" TsString; req "review_finding_draft_ref" TsString; req "classification_record_ref"
  TsString; opt "candidate_finding_refs" (TsNonEmptyArray TsString); req "review_finding_draft_evidence_refs" (TsNonEmptyArray
  (TsObject [req "artifact_ref" TsString; req "availability_state" (TsUnion [lit "retained_review_artifact"; lit "deleted_under_policy";
  lit "never_collected"; lit "not_submitted_by_policy"; lit "unresolved_reference"]); req "available_for_review" TsBoolean;
  req "display_state" (TsUnion [lit "available_reference"; lit "deleted"; lit "not_collected"; lit "not_submitted"; lit "unresolved_reference"]);
  opt "deletion_evidence_ref" TsString; req "source_derived_class" (named "RetentionSourceDerivedClass")])); req "evidence_basis"
  (TsNonEmptyArray (TsUnion [lit "scanner_output"; lit "metadata_only"; lit "finding_context_snippet"; lit "extended_approved_source_context";
  lit "retained_review_artifact"; lit "deleted_under_policy_reference"; lit "not_submitted_by_policy_reference"; lit "never_collected_reference";
  lit "unresolved_reference"])); req "rationale" (named "NonEmptyString"); req "limitations" (TsNonEmptyArray (named "NarrativeString"));
  req "recorded_at" (named "UtcRfc3339Timestamp"); req "actor" (TsObject [req "actor_type" (lit "reviewer"); req "actor_id"
  (named "NonEmptyString")]); req "source_reference_state" (TsUnion [lit "retained_review_artifact"; lit "deleted_under_policy";
  lit "never_collected"; lit "not_submitted_by_policy"; lit "unresolved_reference"]); req "source_derived_class" (lit "retained_review_artifact");
  req "visibility" (TsUnion [lit "customer_facing"; lit "internal_only"]); opt "field_export_policy" (TsObject [req "rationale"
  (TsUnion [lit "include"; lit "exclude"]); req "limitations" (TsUnion [lit "include"; lit "exclude"]); req "evidence_basis"
  (TsUnion [lit "include"; lit "exclude"]); req "candidate_finding_refs" (TsUnion [lit "include"; lit "exclude"]); req "evidence_consumer_export"
  (TsUnion [lit "include"; lit "exclude"])])].
Definition FindingClassificationRecord : ts_type := TsUnion [TsObject [req "protocol_version" (named "ProtocolVersion");
  req "review_id" TsString; req "classification_record_id" TsString; req "review_finding_draft_ref" TsString; req "review_finding_draft_evidence_refs"
  (TsNonEmptyArray (TsObject [req "artifact_ref" TsString; req "availability_state" (TsUnion [lit "retained_review_artifact";
  lit "deleted_under_policy"; lit "never_collected"; lit "not_submitted_by_policy"; lit "unresolved_reference"]); req "available_for_review"
  TsBoolean; req "display_state" (TsUnion [lit "available_reference"; lit "deleted"; lit "not_collected"; lit "not_submitted";
  lit "unresolved_reference"]); opt "deletion_evidence_ref" TsString; req "source_derived_class" (named "RetentionSourceDerivedClass")]));
  req "classification" (lit "confirmed"); req "classified_at" (named "UtcRfc3339Timestamp"); req "actor" (TsObject [req "actor_type"
  (lit "reviewer"); req "actor_id" (named "NonEmptyString")]); req "evidence_basis" (TsNonEmptyArray (TsUnion [lit "scanner_output";
  lit "metadata_only"; lit "finding_context_snippet"; lit "extended_approved_source_context"; lit "retained_review_artifact";
  lit "deleted_under_policy_reference"; lit "not_submitted_by_policy_reference"; lit "never_collected_reference"; lit "unresolved_reference"]));
  req "confirmation_criteria" (TsNonEmptyArray (named "NonEmptyString")); opt "defensible_confirmation_criteria" (named "NonEmptyString");
  req "threshold_gaps" (TsArray (named "NarrativeString")); req "limitations" (TsNonEmptyArray (named "NarrativeString"));
  req "rationale" (named "NonEmptyString"); opt "validation_path_summary" (named "NonEmptyString"); opt "validation_path_ref"
  TsString; opt "supersedes_classification_record_ref" TsString; opt "supersedes_event_id" (named "AlgorithmPrefixedSha256Id");
  req "source_reference_state" (TsUnion [lit "retained_review_artifact"; lit "deleted_under_policy"; lit "never_collected";
  lit "not_submitted_by_policy"; lit "unresolved_reference"]); req "source_derived_class" (lit "retained_review_artifact");
  req "visibility" (TsUnion [lit "customer_facing"; lit "internal_only"])]; TsObject [req "protocol_version" (named "ProtocolVersion");
  req "review_id" TsString; req "classification_record_id" TsString; req "review_finding_draft_ref" TsString; req "review_finding_draft_evidence_refs"
  (TsNonEmptyArray (TsObject [req "artifact_ref" TsString; req "availability_state" (TsUnion [lit "retained_review_artifact";
  lit "deleted_under_policy"; lit "never_collected"; lit "not_submitted_by_policy"; lit "unresolved_reference"]); req "available_for_review"
  TsBoolean; req "display_state" (TsUnion [lit "available_reference"; lit "deleted"; lit "not_collected"; lit "not_submitted";
  lit "unresolved_reference"]); opt "deletion_evidence_ref" TsString; req "source_derived_class" (named "RetentionSourceDerivedClass")]));
  req "classification" (TsUnion [lit "likely"; lit "inconclusive"; lit "requires_customer_side_validation"]); req "classified_at"
  (named "UtcRfc3339Timestamp"); req "actor" (TsObject [req "actor_type" (lit "reviewer"); req "actor_id" (named "NonEmptyString")]);
  req "evidence_basis" (TsNonEmptyArray (TsUnion [lit "scanner_output"; lit "metadata_only"; lit "finding_context_snippet";
  lit "extended_approved_source_context"; lit "retained_review_artifact"; lit "deleted_under_policy_reference"; lit "not_submitted_by_policy_reference";
  lit "never_collected_reference"; lit "unresolved_reference"])); req "confirmation_criteria" (TsArray (named "NonEmptyString"));
  opt "defensible_confirmation_criteria" (named "NonEmptyString"); req "threshold_gaps" (TsArray (named "NarrativeString"));
  req "limitations" (TsNonEmptyArray (named "NarrativeString")); req "rationale" (named "NonEmptyString"); opt "validation_path_summary"
  (named "NonEmptyString"); opt "validation_path_ref" TsString; opt "supersedes_classification_record_ref" TsString; opt
  "supersedes_event_id" (named "AlgorithmPrefixedSha256Id"); req "source_reference_state" (TsUnion [lit "retained_review_artifact";
  lit "deleted_under_policy"; lit "never_collected"; lit "not_submitted_by_policy"; lit "unresolved_reference"]); req "source_derived_class"
  (lit "retained_review_artifact"); req "visibility" (TsUnion [lit "customer_facing"; lit "internal_only"])]].
Definition FindingRemediationGuidance : ts_type := TsObject [req "protocol_version" (named "ProtocolVersion"); req "review_id"
  TsString; req "remediation_guidance_id" TsString; req "classification_record_ref" TsString; req "review_finding_draft_ref"
  TsString; req "review_finding_draft_evidence_refs" (TsNonEmptyArray (TsObject [req "artifact_ref" TsString; req "availability_state"
  (TsUnion [lit "retained_review_artifact"; lit "deleted_under_policy"; lit "never_collected"; lit "not_submitted_by_policy";
  lit "unresolved_reference"]); req "available_for_review" TsBoolean; req "display_state" (TsUnion [lit "available_reference";
  lit "deleted"; lit "not_collected"; lit "not_submitted"; lit "unresolved_reference"]); opt "deletion_evidence_ref" TsString;
  req "source_derived_class" (named "RetentionSourceDerivedClass")])); req "guidance_status" (TsUnion [lit "actionable_guidance_provided";
  lit "limited_guidance_requires_validation"; lit "guidance_unavailable_from_submitted_evidence"]); req "authored_at" (named
  "UtcRfc3339Timestamp"); req "actor" (TsObject [req "actor_type" (lit "reviewer"); req "actor_id" (named "NonEmptyString")]);
  req "classification_context" (TsObject [req "classification" (TsUnion [lit "likely"; lit "confirmed"; lit "inconclusive";
  lit "requires_customer_side_validation"]); req "confirmation_criteria" (TsArray (named "NarrativeString")); req "evidence_basis"
  (TsNonEmptyArray (TsUnion [lit "scanner_output"; lit "metadata_only"; lit "finding_context_snippet"; lit "extended_approved_source_context";
  lit "retained_review_artifact"; lit "deleted_under_policy_reference"; lit "not_submitted_by_policy_reference"; lit "never_collected_reference";
  lit "unresolved_reference"])); req "source_reference_state" (TsUnion [lit "retained_review_artifact"; lit "deleted_under_policy";
  lit "never_collected"; lit "not_submitted_by_policy"; lit "unresolved_reference"])]); opt "exploitability_rationale" (named
  "NonEmptyString"); opt "suggested_remediation" (named "NonEmptyString"); opt "validation_steps" (named "NonEmptyString");
  opt "insufficient_evidence_reason" (named "NonEmptyString"); opt "next_step_summary" (named "NonEmptyString"); opt "validation_path_summary"
  (named "NonEmptyString"); opt "validation_path_ref" TsString; req "limitations" (TsNonEmptyArray (named "NarrativeString"));
  req "evidence_refs" (TsNonEmptyArray TsString); req "source_reference_state" (TsUnion [lit "retained_review_artifact";
  lit "deleted_under_policy"; lit "never_collected"; lit "not_submitted_by_policy"; lit "unresolved_reference"]); req "source_derived_class"
  (lit "retained_review_artifact"); req "visibility" (TsUnion [lit "customer_facing"; lit "internal_only"])].
Definition FindingValidationPath : ts_type := TsObject [req "protocol_version" (named "ProtocolVersion"); req "review_id"
  TsString; req "validation_path_id" TsString; req "classification_record_ref" TsString; req "review_finding_draft_ref" TsString;
  req "review_finding_draft_evidence_refs" (TsNonEmptyArray (TsObject [req "artifact_ref" TsString; req "availability_state"
  (TsUnion [lit "retained_review_artifact"; lit "deleted_under_policy"; lit "never_collected"; lit "not_submitted_by_policy";
  lit "unresolved_reference"]); req "available_for_review" TsBoolean; req "display_state" (TsUnion [lit "available_reference";
  lit "deleted"; lit "not_collected"; lit "not_submitted"; lit "unresolved_reference"]); opt "deletion_evidence_ref" TsString;
  req "source_derived_class" (named "RetentionSourceDerivedClass")])); opt "remediation_guidance_ref" TsString; req "path_type"
  (TsUnion [lit "remote_dynamic_testing"; lit "customer_run_script"; lit "manual_steps"]); req "required_evidence" (named
  "NonEmptyString"); req "steps" (named "NonEmptyString"); req "expected_result" (named "NonEmptyString"); req "limitations"
  (TsNonEmptyArray (named "NarrativeString")); req "included_pass_verifiability" (TsUnion [lit "verifiable_within_included_pass";
  lit "customer_provided_evidence_required"; lit "additional_agreement_required"]); opt "reviewer_validation_script_refs"
  (TsNonEmptyArray TsString); opt "output_attachment_instructions" (named "NonEmptyString"); opt "target" (named "NonEmptyString");
  opt "authorization_assumption" (named "NonEmptyString"); opt "method" (named "NonEmptyString"); opt "safety_constraints"
  (named "NonEmptyString"); opt "evidence_artifacts_to_collect" (TsNonEmptyArray TsString); req "authored_at" (named "UtcRfc3339Timestamp");
  req "actor" (TsObject [req "actor_type" (lit "reviewer"); req "actor_id" (named "NonEmptyString")]); req "source_reference_state"
  (TsUnion [lit "retained_review_artifact"; lit "deleted_under_policy"; lit "never_collected"; lit "not_submitted_by_policy";
  lit "unresolved_reference"]); req "source_derived_class" (lit "retained_review_artifact"); req "visibility" (TsUnion [lit
  "customer_facing"; lit "internal_only"])].
Definition IdentitySigningInput : ts_type := TsObject [req "protocol_version" (named "ProtocolVersion"); req "signing_input_type"
  (TsUnion [lit "outbound_manifest_identity"; lit "bundle_manifest_identity"; lit "vendor_receipt_identity"; lit "static_bundle_manifest_identity";
  lit "attestation_package_finalization_identity"; lit "disclosure_policy_identity"; lit "review_event_identity"; lit "security_review_attestation_identity";
  lit "signing_key_directory_identity"; lit "evidence_bundle_identity"; lit "runner_release_identity"; lit "environment_readiness_decision_identity"]);
  req "algorithm_profile" (lit "ml_dsa_65"); req "signed_identity_type" (TsUnion [lit "outbound_manifest"; lit "evidence_bundle";
  lit "vendor_receipt"; lit "static_bundle_manifest"; lit "attestation_package_finalization"; lit "disclosure_policy"; lit
  "review_event"; lit "security_review_attestation"; lit "signing_key_directory"; lit "runner_release"; lit "environment_readiness_decision"]);
  req "signed_identity" (named "AlgorithmPrefixedSha256Id"); req "canonicalization" (lit "rfc8785"); req "identity_input_path"
  TsString].
Definition LocalRunnerAttempt : ts_type := TsObject [req "protocol_version" (named "ProtocolVersion"); req "attempt_id"
  TsString; req "stage" (TsUnion [lit "scope_init"; lit "scan_run"; lit "disclosure_configure"; lit "manifest_preview"; lit
  "approval"; lit "bundle_packaging"; lit "bundle_signing"; lit "bundle_prepare"; lit "status_inspect"; lit "runner_trust";
  lit "submit"]); req "outcome" (TsUnion [lit "succeeded"; lit "failed"; lit "declined"; lit "blocked"]); req "review_state"
  (TsUnion [lit "unapproved_not_submitted"; lit "approved_no_signed_bundle"; lit "signed_bundle_not_submitted"]); req "approval_state"
  (TsUnion [lit "not_requested"; lit "approved"; lit "declined"; lit "not_applicable"]); req "bundle_state" (TsUnion [lit
  "not_created"; lit "failed_before_ready"; lit "ready_not_submitted"]); req "remote_state" (TsUnion [lit "not_submitted";
  lit "submit_attempted"; lit "received_with_receipt"; lit "rejected_no_receipt"; lit "quarantined_no_receipt"]); req "occurred_at"
  (named "UtcRfc3339Timestamp"); req "runner" (TsObject [req "name" (lit "codeattest-local-runner"); req "version" (named
  "NonEmptyString")]); req "runner_trust" (TsObject [req "runner_name" (lit "codeattest-local-runner"); req "runner_version"
  (named "NonEmptyString"); req "build_identifier" (named "NonEmptyString"); req "release_identifier" (named "NonEmptyString");
  req "release_signature_status" (TsUnion [lit "unsigned_local_build"; lit "untrusted_local_build"; lit "verified_release_signature"]);
  req "bundle_signing_mode" (TsUnion [lit "managed_key"; lit "enrolled_runner_key"]); req "trust_label" (TsUnion [lit "demo_only_unsigned";
  lit "untrusted_local_dev"; lit "trusted_release"]); req "evidence_boundary" (lit "synthetic-demo-only"); opt "release_verification_artifact"
  (named "NonEmptyString"); req "limitations" (TsNonEmptyArray (named "NarrativeString"))]); req "identities" (TsObject [opt
  "selected_commit" TsString; opt "repository_identity" (named "AlgorithmPrefixedSha256Id"); opt "manifest_id" (named "AlgorithmPrefixedSha256Id");
  opt "approval_id" TsString; opt "evidence_bundle_id" (named "AlgorithmPrefixedSha256Id"); opt "bundle_instance_id" TsString;
  opt "submission_attempt_id" TsString; opt "vendor_receipt_id" (named "AlgorithmPrefixedSha256Id"); opt "submission_outcome_id"
  TsString]); opt "approval_metadata" (TsObject [req "decision" (TsUnion [lit "approved"; lit "declined"]); req "decided_at"
  (named "UtcRfc3339Timestamp"); opt "approving_actor" (named "ActorReference")]); req "diagnostics" (TsObject [opt "stage_failed"
  (TsUnion [lit "scope_init"; lit "scan_run"; lit "disclosure_configure"; lit "manifest_preview"; lit "approval"; lit "bundle_packaging";
  lit "bundle_signing"; lit "bundle_prepare"; lit "status_inspect"; lit "runner_trust"; lit "submit"]); opt "failure_code"
  TsString; req "message" (named "NonEmptyString"); req "retryable" TsBoolean; req "sensitive_detail_omitted" TsBoolean;
  req "raw_snippets_printed" (boolean false); req "support_summary" (named "NonEmptyString"); opt "local_artifact_paths"
  (TsArray (named "NonEmptyString"))]); req "next_actions" (TsNonEmptyArray (named "NarrativeString"))].
Definition LogCheckpoint : ts_type := TsObject [req "protocol_version" (named "ProtocolVersion"); req "checkpoint_id" (named
  "AlgorithmPrefixedSha256Id"); req "deployment_identity" (TsUnion [lit "demo"; lit "pilot"]); req "checkpoint_timestamp"
  (named "UtcRfc3339Timestamp"); req "merkle_root" (named "Sha256Hex"); req "tree_size" TsNumber; req "canonicalization"
  (lit "rfc8785"); req "identity_hash_algorithm" (lit "sha256"); req "identity_input_excludes" (TsTuple [lit "checkpoint_id"])].
Definition OutboundManifest : ts_type := TsObject [req "protocol_version" (named "ProtocolVersion"); req "manifest_id"
  (named "AlgorithmPrefixedSha256Id"); req "generated_at" (named "UtcRfc3339Timestamp"); req "review_scope_ref" (named "AlgorithmPrefixedSha256Id");
  req "disclosure_policy_ref" (named "AlgorithmPrefixedSha256Id"); opt "scanner_finding_set_ref" (named "AlgorithmPrefixedSha256Id");
  req "selected_scope_summary" (TsObject [req "selected_application" (TsObject [req "application_id" (named "NonEmptyString");
  req "display_name" (named "NonEmptyString")]); req "selected_commit" (TsObject [req "commit_sha" TsString; req "source_control_system"
  (lit "git")]); req "repository_identity" (named "AlgorithmPrefixedSha256Id"); req "dependency_manifest_total_count" TsNumber;
  req "dependency_manifest_detected_count" TsNumber]); req "runner" (TsObject [req "name" (lit "codeattest-local-runner");
  req "version" (named "NonEmptyString")]); req "coverage_mode" (named "CoverageMode"); req "disclosure_policy_summary" (TsObject
  [req "disclosure_policy_ref" (named "AlgorithmPrefixedSha256Id"); req "coverage_mode" (named "CoverageMode"); req "redaction_profile"
  (named "NonEmptyString"); req "redaction_configuration_version" (named "NonEmptyString"); req "retention_period" (named
  "NonEmptyString")]); req "evidence_categories" (TsArray (TsObject [req "category" (TsUnion [lit "metadata"; lit "dependencies";
  lit "scanner_findings"; lit "raw_snippets"; lit "targeted_files"; lit "derived_artifacts"; lit "never_collected_items"]);
  req "included" TsBoolean; req "inclusion_state" (TsUnion [lit "included"; lit "excluded_by_policy"; lit "never_collected"]);
  req "count" TsNumber; req "reference" (named "NonEmptyString"); req "source_derived_class" (named "RetentionSourceDerivedClass");
  req "source_code_disclosure" TsBoolean; req "redaction_state" (TsUnion [lit "not_applicable"; lit "redaction_not_configured";
  lit "redaction_configured"]); req "redaction_configuration_version" (named "NonEmptyString"); req "retention_handling"
  (named "NonEmptyString"); req "limitation" (named "NonEmptyString"); req "details" (TsNonEmptyArray (named "NarrativeString"));
  opt "snippet_controls" (TsObject [req "max_snippet_chars" TsNumber; req "context_lines" TsNumber; req "redaction_profile"
  (named "NonEmptyString"); req "redaction_configuration_version" (named "NonEmptyString"); req "retention_class" (named
  "RetentionSourceDerivedClass"); req "selected_files_or_areas" (TsArray (named "NonEmptyString"))])])); req "artifact_references"
  (TsArray (named "ArtifactReference")); req "package_preview_state" (TsObject [req "state" (lit "preview_generated"); req
  "send_ready" (boolean false); req "local_only" (boolean true)]); req "approval" (TsObject [req "approval_state" (lit "not_requested")]);
  req "warnings" (TsNonEmptyArray (named "NarrativeString")); req "limitations" (TsNonEmptyArray (named "NarrativeString"))].
Definition PilotFeedbackRecord : ts_type := TsObject [req "protocol_version" (named "ProtocolVersion"); req "pilot_feedback_record_id"
  TsString; req "record_version" TsNumber; req "review_id" TsString; req "recorded_at" (named "UtcRfc3339Timestamp"); req
  "recorded_by" (TsObject [req "actor_type" (TsUnion [lit "reviewer"; lit "vendor_service"]); req "actor_id" (named "NonEmptyString")]);
  req "feedback_source" (TsUnion [lit "customer_admin_aggregate"; lit "evidence_consumer_aggregate"; lit "reviewer_observation"]);
  req "usefulness_rating" TsNumber; req "repeat_intent" (TsUnion [lit "yes"; lit "no"; lit "unsure"; lit "not_asked"]); req
  "pay_intent" (TsUnion [lit "yes"; lit "no"; lit "unsure"; lit "not_asked"]); req "mapping_feedback" (TsArray (TsObject
  [req "mapping_profile" (TsUnion [lit "soc_2_supporting_evidence"; lit "generic_technology_risk"; lit "customer_security_review";
  lit "not_used"]); req "usefulness_rating" TsNumber])); req "objection_codes" (TsArray (TsUnion [lit "scope_too_narrow";
  lit "evidence_too_limited"; lit "mapping_not_applicable"; lit "signature_profile_demo_only"; lit "offline_package_usability";
  lit "pricing_uncertain"; lit "turnaround"; lit "other_content_free"])); req "caveats" (TsNonEmptyArray (named "NarrativeString"));
  req "content_free" (boolean true); req "pii_free" (boolean true); req "visibility" (lit "internal_only"); req "source_derived_class"
  (lit "retained_review_artifact")].
Definition PilotMetricRecord : ts_type := TsObject [req "protocol_version" (named "ProtocolVersion"); req "pilot_metric_record_id"
  TsString; req "record_version" TsNumber; req "review_id" TsString; req "recorded_at" (named "UtcRfc3339Timestamp"); req
  "recorded_by" (TsObject [req "actor_type" (TsUnion [lit "reviewer"; lit "vendor_service"]); req "actor_id" (named "NonEmptyString")]);
  req "measurement_window" (TsObject [req "start_timestamp" (named "UtcRfc3339Timestamp"); req "end_timestamp" (named "UtcRfc3339Timestamp")]);
  req "metrics" (TsObject [req "candidate_finding_count" TsNumber; req "classified_finding_count" TsNumber; req "actionable_classification_count"
  TsNumber; req "review_hours" TsNumber; req "validation_hours" TsNumber; req "turnaround_hours" TsNumber; req "disclosure_mode"
  (named "CoverageMode"); req "submission_rejection_count" TsNumber; req "repeat_intent_signal" (TsUnion [lit "yes"; lit
  "no"; lit "unsure"; lit "not_asked"]); req "pay_intent_signal" (TsUnion [lit "yes"; lit "no"; lit "unsure"; lit "not_asked"])]);
  req "caveats" (TsNonEmptyArray (named "NarrativeString")); req "content_free" (boolean true); req "pii_free" (boolean true);
  req "visibility" (lit "internal_only"); req "source_derived_class" (lit "retained_review_artifact")].
Definition RetentionOptInRecord : ts_type := TsObject [req "protocol_version" (named "ProtocolVersion"); req "retention_record_id"
  TsString; req "source_derived_class" (lit "customer_opt_in_retained_source"); req "customer_approval_ref" TsString; req
  "retention_period" (TsObject [req "start_timestamp" (named "UtcRfc3339Timestamp"); req "end_timestamp" (named "UtcRfc3339Timestamp")]);
  req "retained_artifact_refs" (TsNonEmptyArray TsString); opt "retention_status_event_ids" (TsNonEmptyArray TsString)].
Definition RetentionSourceDerivedClass : ts_type := TsUnion [lit "never_collected"; lit "transient_source_derived"; lit
  "retained_review_artifact"; lit "customer_opt_in_retained_source"].
Definition ReviewEventCustomerProjection : ts_type := TsObject [req "protocol_version" (named "ProtocolVersion"); req "review_id"
  TsString; req "entries" (TsArray (TsObject [req "event_id" (named "AlgorithmPrefixedSha256Id"); req "event_type" (TsUnion
  [lit "receipt_issued"; lit "submission_rejected"; lit "submission_quarantined"; lit "classification_recorded"; lit "remediation_guidance_recorded";
  lit "validation_recorded"; lit "verification_scope_recorded"; lit "verification_evidence_recorded"; lit "verification_recorded";
  lit "customer_remediation_recorded"; lit "false_positive_recorded"; lit "customer_accepted_risk_recorded"; lit "attestation_generated";
  lit "static_bundle_generated"; lit "attestation_package_finalized"; lit "attestation_package_exported"; lit "evidence_deleted";
  lit "retention_status_changed"; lit "evidence_accessed"; lit "key_rotation_recorded"]); req "event_timestamp" (named "UtcRfc3339Timestamp");
  req "actor_category" (TsUnion [lit "local_runner"; lit "customer_user"; lit "vendor_service"; lit "reviewer"]); req "artifact_refs"
  (TsNonEmptyArray TsString); req "visibility" (lit "customer_facing"); opt "reason" (named "NonEmptyString")]))].
Definition ReviewEventLog : ts_type := TsObject [req "protocol_version" (named "ProtocolVersion"); req "review_id" TsString;
  req "events" (TsArray (named "ReviewEvent"))].
Definition ReviewEvent : ts_type := TsObject [req "protocol_version" (named "ProtocolVersion"); req "event_id" (named "AlgorithmPrefixedSha256Id");
  req "review_id" TsString; req "sequence_number" TsNumber; req "idempotency_key" (named "NonEmptyString"); req "event_type"
  (TsUnion [lit "receipt_issued"; lit "submission_rejected"; lit "submission_quarantined"; lit "classification_recorded";
  lit "remediation_guidance_recorded"; lit "validation_recorded"; lit "verification_scope_recorded"; lit "verification_evidence_recorded";
  lit "verification_recorded"; lit "customer_remediation_recorded"; lit "false_positive_recorded"; lit "customer_accepted_risk_recorded";
  lit "attestation_generated"; lit "static_bundle_generated"; lit "attestation_package_finalized"; lit "attestation_package_exported";
  lit "pilot_metric_recorded"; lit "pilot_feedback_recorded"; lit "evidence_deleted"; lit "retention_status_changed"; lit
  "evidence_accessed"; lit "key_rotation_recorded"]); req "actor" (named "ActorReference"); req "event_timestamp" (named
  "UtcRfc3339Timestamp"); req "artifact_refs" (TsNonEmptyArray TsString); req "visibility" (TsUnion [lit "customer_facing";
  lit "internal_only"]); req "canonicalization" (lit "rfc8785"); req "identity_hash_algorithm" (lit "sha256"); req "identity_input_excludes"
  (TsTuple [lit "event_id"]); opt "source_derived_class" (named "RetentionSourceDerivedClass"); opt "reason" (named "NonEmptyString");
  opt "customer_actor_ref" TsString; opt "customer_selection_evidence_ref" TsString; opt "internal_note" (named "NonEmptyString");
  opt "supersedes_event_id" (named "AlgorithmPrefixedSha256Id"); opt "supersedes_classification_record_ref" TsString].
Definition ReviewFindingDraftSet : ts_type := TsObject [req "protocol_version" (named "ProtocolVersion"); req "review_id"
  TsString; req "normalization_run_id" TsString; req "normalization_status" (TsUnion [lit "drafts_created"; lit "no_findings_produced"]);
  req "created_at" (named "UtcRfc3339Timestamp"); req "vendor_receipt_ref" (named "AlgorithmPrefixedSha256Id"); req "evidence_bundle_id"
  (named "AlgorithmPrefixedSha256Id"); req "manifest_id" (named "AlgorithmPrefixedSha256Id"); req "source_scanner_finding_set_ref"
  (named "AlgorithmPrefixedSha256Id"); req "coverage_mode" (named "CoverageMode"); req "review_finding_drafts" (TsArray (TsObject
  [req "review_finding_draft_id" TsString; req "candidate_finding_refs" (TsNonEmptyArray TsString); req "group_key" (named
  "NonEmptyString"); req "sources" (TsNonEmptyArray (TsUnion [lit "regex"; lit "semgrep"])); req "affected_area" (named "NonEmptyString");
  req "evidence_refs" (TsArray (TsObject [req "artifact_ref" TsString; req "availability_state" (TsUnion [lit "retained_review_artifact";
  lit "deleted_under_policy"; lit "never_collected"; lit "not_submitted_by_policy"; lit "unresolved_reference"]); req "available_for_review"
  TsBoolean; req "display_state" (TsUnion [lit "available_reference"; lit "deleted"; lit "not_collected"; lit "not_submitted";
  lit "unresolved_reference"]); opt "deletion_evidence_ref" TsString; req "source_derived_class" (named "RetentionSourceDerivedClass")]));
  opt "severity" (named "NonEmptyString"); opt "confidence" (TsUnion [lit "low"; lit "medium"; lit "high"; lit "unknown"]);
  req "scanner_rule_ids" (TsNonEmptyArray (named "NonEmptyString")); req "status" (lit "draft"); req "review_lifecycle_state"
  (lit "under_review"); req "coverage_mode" (named "CoverageMode"); req "evidence_basis" (TsNonEmptyArray (TsUnion [lit "scanner_output";
  lit "metadata_only"; lit "finding_context_snippet"; lit "extended_approved_source_context"; lit "retained_review_artifact";
  lit "deleted_under_policy_reference"; lit "not_submitted_by_policy_reference"; lit "never_collected_reference"; lit "unresolved_reference"]));
  req "threshold_gaps" (TsArray (named "NarrativeString")); req "source_reference_state" (TsUnion [lit "retained_review_artifact";
  lit "deleted_under_policy"; lit "never_collected"; lit "not_submitted_by_policy"; lit "unresolved_reference"]); req "source_derived_class"
  (lit "retained_review_artifact")])); req "normalization_limitations" (TsArray (named "NarrativeString")); opt "no_findings_statement"
  (named "NonEmptyString"); req "source_derived_class" (lit "retained_review_artifact")].
Definition ReviewScope : ts_type := TsObject [req "protocol_version" (named "ProtocolVersion"); req "review_scope_id" (named
  "AlgorithmPrefixedSha256Id"); req "review_id" TsString; req "generated_at" (named "UtcRfc3339Timestamp"); req "selected_application"
  (TsObject [req "application_id" (named "NonEmptyString"); req "display_name" (named "NonEmptyString")]); req "selected_commit"
  (TsObject [req "commit_sha" TsString; req "source_control_system" (lit "git")]); req "repository_identity" (named "AlgorithmPrefixedSha256Id");
  req "runner" (TsObject [req "name" (lit "codeattest-local-runner"); req "version" (named "NonEmptyString")]); req "technical_context"
  (TsNonEmptyArray (TsObject [req "context_type" (TsUnion [lit "language"; lit "framework"; lit "package_manager"; lit "scanner";
  lit "ci_provider"]); req "status" (TsUnion [lit "detected"; lit "not_detected"; lit "unsupported"; lit "not_collected"]);
  opt "value" TsString])); req "dependency_manifests" (TsNonEmptyArray (TsObject [req "manifest_type" (TsUnion [lit "package_json";
  lit "package_lock"; lit "requirements_txt"; lit "pyproject_toml"; lit "pipfile"; lit "pipfile_lock"; lit "pnpm_lock"; lit
  "yarn_lock"]); req "status" (TsUnion [lit "detected"; lit "not_found"; lit "unsupported"; lit "malformed"]); opt "path"
  (named "NonEmptyString"); req "package_manager" (TsUnion [lit "npm"; lit "pnpm"; lit "yarn"; lit "pip"; lit "poetry"; lit
  "pipenv"; lit "unknown"]); req "dependency_count" TsNumber; req "dependencies" (TsArray (named "NonEmptyString")); opt
  "limitation" (named "NonEmptyString")]))].
Definition ReviewerValidationScript : ts_type := TsObject [req "protocol_version" (named "ProtocolVersion"); req "review_id"
  TsString; req "validation_script_id" TsString; req "validation_path_ref" TsString; req "classification_record_ref" TsString;
  opt "remediation_guidance_ref" TsString; req "script_package_status" (TsUnion [lit "included_base_package"; lit "additional_script_candidate_pricing_tbd"]);
  opt "included_script_slot" TsNumber; req "purpose" (named "NonEmptyString"); req "prerequisites" (named "NonEmptyString");
  req "execution_steps" (named "NonEmptyString"); req "expected_output" (named "NonEmptyString"); req "safety_notes" (named
  "NonEmptyString"); req "output_attachment_instructions" (named "NonEmptyString"); req "script_content" (named "NonEmptyString");
  req "authored_at" (named "UtcRfc3339Timestamp"); req "actor" (TsObject [req "actor_type" (lit "reviewer"); req "actor_id"
  (named "NonEmptyString")]); req "source_derived_class" (lit "retained_review_artifact"); req "visibility" (TsUnion [lit
  "customer_facing"; lit "internal_only"])].
Definition RunnerKeyEnrollmentRecord : ts_type := TsObject [req "protocol_version" (named "ProtocolVersion"); req "enrollment_id"
  TsString; req "review_id" TsString; req "runner_key_id" (named "NonEmptyString"); req "runner_key_version" (named "NonEmptyString");
  req "algorithm_profile" (lit "ml_dsa_65"); req "public_key" (named "MlDsa65PublicKey"); req "enrollment_method" (TsUnion
  [lit "operator_verified"; lit "trust_on_first_use"]); req "enrolled_at" (named "UtcRfc3339Timestamp"); req "limitations"
  (TsNonEmptyArray (named "NarrativeString"))].
Definition RunnerReleaseRecord : ts_type := TsObject [req "protocol_version" (named "ProtocolVersion"); req "release_identifier"
  (named "NonEmptyString"); req "build_identifier" (named "NonEmptyString"); req "artifact_digest" (named "AlgorithmPrefixedSha256Id");
  req "released_at" (named "UtcRfc3339Timestamp"); req "limitations" (TsNonEmptyArray (named "NarrativeString"))].
Definition ScannerFindingSet : ts_type := TsObject [req "protocol_version" (named "ProtocolVersion"); req "scanner_finding_set_id"
  (named "AlgorithmPrefixedSha256Id"); req "generated_at" (named "UtcRfc3339Timestamp"); req "review_scope_ref" (named "AlgorithmPrefixedSha256Id");
  req "runner" (TsObject [req "name" (lit "codeattest-local-runner"); req "version" (named "NonEmptyString")]); req "source_derived_class"
  (lit "retained_review_artifact"); req "scanner_runs" (TsNonEmptyArray (TsUnion [TsObject [req "scanner_name" (TsUnion [lit
  "regex"; lit "semgrep"]); req "scanner_version" (named "NonEmptyString"); req "ruleset_identifier" (named "NonEmptyString");
  req "executed_at" (named "UtcRfc3339Timestamp"); req "status" (lit "succeeded"); req "covered_file_group" (TsUnion [lit
  "typescript_javascript"; lit "python"; lit "mixed"; lit "unsupported"]); req "scanned_files" (TsArray (named "NonEmptyString"));
  opt "failure_reason" (named "NonEmptyString"); req "rerun_possible" TsBoolean; req "source_derived_class" (lit "retained_review_artifact")];
  TsObject [req "scanner_name" (TsUnion [lit "regex"; lit "semgrep"]); req "scanner_version" (named "NonEmptyString"); req
  "ruleset_identifier" (named "NonEmptyString"); req "executed_at" (named "UtcRfc3339Timestamp"); req "status" (lit "no_findings");
  req "covered_file_group" (TsUnion [lit "typescript_javascript"; lit "python"; lit "mixed"; lit "unsupported"]); req "scanned_files"
  (TsArray (named "NonEmptyString")); opt "failure_reason" (named "NonEmptyString"); req "rerun_possible" TsBoolean; req
  "source_derived_class" (lit "retained_review_artifact")]; TsObject [req "scanner_name" (TsUnion [lit "regex"; lit "semgrep"]);
  req "scanner_version" (named "NonEmptyString"); req "ruleset_identifier" (named "NonEmptyString"); req "executed_at" (named
  "UtcRfc3339Timestamp"); req "status" (lit "unavailable"); req "covered_file_group" (TsUnion [lit "typescript_javascript";
  lit "python"; lit "mixed"; lit "unsupported"]); req "scanned_files" (TsArray (named "NonEmptyString")); req "failure_reason"
  (named "NonEmptyString"); req "rerun_possible" TsBoolean; req "source_derived_class" (lit "retained_review_artifact")];
  TsObject [req "scanner_name" (TsUnion [lit "regex"; lit "semgrep"]); req "scanner_version" (named "NonEmptyString"); req
  "ruleset_identifier" (named "NonEmptyString"); req "executed_at" (named "UtcRfc3339Timestamp"); req "status" (lit "failed");
  req "covered_file_group" (TsUnion [lit "typescript_javascript"; lit "python"; lit "mixed"; lit "unsupported"]); req "scanned_files"
  (TsArray (named "NonEmptyString")); req "failure_reason" (named "NonEmptyString"); req "rerun_possible" TsBoolean; req
  "source_derived_class" (lit "retained_review_artifact")]; TsObject [req "scanner_name" (TsUnion [lit "regex"; lit "semgrep"]);
  req "scanner_version" (named "NonEmptyString"); req "ruleset_identifier" (named "NonEmptyString"); req "executed_at" (named
  "UtcRfc3339Timestamp"); req "status" (lit "invalid_output"); req "covered_file_group" (TsUnion [lit "typescript_javascript";
  lit "python"; lit "mixed"; lit "unsupported"]); req "scanned_files" (TsArray (named "NonEmptyString")); req "failure_reason"
  (named "NonEmptyString"); req "rerun_possible" TsBoolean; req "source_derived_class" (lit "retained_review_artifact")];
  TsObject [req "scanner_name" (TsUnion [lit "regex"; lit "semgrep"]); req "scanner_version" (named "NonEmptyString"); req
  "ruleset_identifier" (named "NonEmptyString"); req "executed_at" (named "UtcRfc3339Timestamp"); req "status" (lit "skipped");
  req "covered_file_group" (TsUnion [lit "typescript_javascript"; lit "python"; lit "mixed"; lit "unsupported"]); req "scanned_files"
  (TsArray (named "NonEmptyString")); req "failure_reason" (named "NonEmptyString"); req "rerun_possible" TsBoolean; req
  "source_derived_class" (lit "retained_review_artifact")]])); req "candidate_findings" (TsArray (TsObject [req "candidate_finding_id"
  TsString; req "source" (TsUnion [lit "regex"; lit "semgrep"]); req "affected_area" (named "NonEmptyString"); opt "severity"
  (named "NonEmptyString"); opt "confidence" (TsUnion [lit "low"; lit "medium"; lit "high"; lit "unknown"]); req "scanner_rule_id"
  (named "NonEmptyString"); req "original_reference" (named "NonEmptyString"); req "source_artifact_refs" (TsArray TsString);
  req "status" (lit "candidate"); req "source_derived_class" (lit "retained_review_artifact")])); req "coverage_limitations"
  (TsArray (named "NarrativeString")); req "artifact_references" (TsArray (named "ArtifactReference"))].
Definition SecurityReviewAttestation : ts_type := TsObject [req "protocol_version" (named "ProtocolVersion"); req "attestation_id"
  TsString; req "attestation_version" TsNumber; req "review_id" TsString; req "generated_at" (named "UtcRfc3339Timestamp");
  req "generated_by" (TsObject [req "actor_type" (TsUnion [lit "reviewer"; lit "vendor_service"]); req "actor_id" (named
  "NonEmptyString")]); req "review_scope_ref" (named "AlgorithmPrefixedSha256Id"); req "selected_commit" (TsObject [req "commit_sha"
  TsString; req "source_control_system" (lit "git")]); req "repository_identity" (named "AlgorithmPrefixedSha256Id"); req
  "method" (TsObject [req "coverage_mode" (named "CoverageMode"); req "scanner_versions" (TsNonEmptyArray (named "NonEmptyString"));
  req "tooling_summary" (named "NonEmptyString"); req "disclosure_summary" (named "NonEmptyString"); req "method_limitations"
  (TsNonEmptyArray (named "NarrativeString"))]); req "receipt_chain" (TsObject [req "manifest_id" (named "AlgorithmPrefixedSha256Id");
  req "evidence_bundle_id" (named "AlgorithmPrefixedSha256Id"); req "vendor_receipt_id" (named "AlgorithmPrefixedSha256Id");
  req "receipt_timestamp" (named "UtcRfc3339Timestamp"); req "verification_state" (lit "received_with_receipt")]); req "sections"
  (TsTuple (replicate 8 (TsObject [req "section_id" TsString; req "section_type" (TsUnion [lit "scope"; lit "method"; lit
  "receipt_chain"; lit "findings_and_classification"; lit "remediation_and_validation"; lit "verification_outcomes"; lit
  "evidence_lifecycle"; lit "limitations"]); req "title" (named "NonEmptyString"); req "summary" (named "NonEmptyString");
  req "scope" (named "NonEmptyString"); req "evidence_basis" (TsNonEmptyArray (named "NarrativeString")); req "limitations"
  (TsNonEmptyArray (named "NarrativeString")); req "supporting_artifact_refs" (TsNonEmptyArray TsString)]))); req "verification_addendum_refs"
  (TsArray TsString); req "evidence_minimization_ref" TsString; req "deletion_evidence_refs" (TsArray TsString); opt "supporting_evidence_mapping_ref"
  TsString; req "limitations" (TsNonEmptyArray (named "NarrativeString")); req "supporting_artifact_refs" (TsNonEmptyArray
  TsString); req "customer_safe_projection" (boolean true); req "source_derived_class" (lit "retained_review_artifact");
  req "visibility" (lit "customer_facing"); req "canonicalization" (lit "rfc8785"); req "identity_hash_algorithm" (lit "sha256");
  req "identity_input_excludes" (TsTuple [lit "attestation_id"])].
Definition SignatureEnvelope : ts_type := TsObject [req "protocol_version" (named "ProtocolVersion"); req "algorithm_profile"
  (lit "ml_dsa_65"); req "key_id" (named "NonEmptyString"); req "key_version" (named "NonEmptyString"); req "signing_time"
  (named "UtcRfc3339Timestamp"); req "signed_identity_type" (TsUnion [lit "outbound_manifest"; lit "evidence_bundle"; lit
  "vendor_receipt"; lit "static_bundle_manifest"; lit "attestation_package_finalization"; lit "disclosure_policy"; lit "review_event";
  lit "security_review_attestation"; lit "signing_key_directory"; lit "runner_release"; lit "environment_readiness_decision"]);
  req "signed_identity" (named "AlgorithmPrefixedSha256Id"); req "canonicalization" (lit "rfc8785"); req "signing_mode" (TsUnion
  [lit "managed_key"; lit "enrolled_runner_key"]); req "signing_limitations" (TsNonEmptyArray (named "NarrativeString"));
  req "signature_bytes" (named "MlDsa65Signature")].
Definition SignatureVerificationOutcome : ts_type := TsObject [req "protocol_version" (named "ProtocolVersion"); req "signed_identity_type"
  (TsUnion [lit "outbound_manifest"; lit "evidence_bundle"; lit "vendor_receipt"; lit "static_bundle_manifest"; lit "attestation_package_finalization";
  lit "disclosure_policy"; lit "review_event"; lit "security_review_attestation"; lit "signing_key_directory"; lit "environment_readiness_decision"]);
  req "signed_identity" (named "AlgorithmPrefixedSha256Id"); req "algorithm_profile" (lit "ml_dsa_65"); req "key_id" (named
  "NonEmptyString"); req "key_version" (named "NonEmptyString"); req "key_directory_version" TsNumber; req "verified_at"
  (named "UtcRfc3339Timestamp"); req "result" (TsUnion [lit "verified"; lit "signature_bytes_untrusted"; lit "signature_key_unknown";
  lit "signature_key_revoked"; lit "signature_key_outside_validity_window"; lit "signature_key_algorithm_mismatch"; lit "signature_key_directory_untrusted";
  lit "signature_signing_input_mismatch"])].
Definition SigningKeyDirectory : ts_type := TsObject [req "protocol_version" (named "ProtocolVersion"); req "directory_version"
  TsNumber; req "trust_anchor_key_id" (named "NonEmptyString"); req "published_at" (named "UtcRfc3339Timestamp"); req "keys"
  (TsNonEmptyArray (named "SigningKeyRecord")); req "directory_signature" (named "SignatureEnvelope")].
Definition SigningKeyRecord : ts_type := TsObject [req "protocol_version" (named "ProtocolVersion"); req "key_id" (named
  "NonEmptyString"); req "key_version" (named "NonEmptyString"); req "algorithm_profile" (lit "ml_dsa_65"); req "public_key"
  (named "MlDsa65PublicKey"); req "custody_mode" (TsUnion [lit "offline_trust_anchor"; lit "self_hosted_software"; lit "customer_held_runner"]);
  req "valid_from" (named "UtcRfc3339Timestamp"); opt "valid_until" (named "UtcRfc3339Timestamp"); req "status" (TsUnion
  [lit "active"; lit "retired"; lit "revoked"]); req "limitations" (TsNonEmptyArray (named "NarrativeString"))].
Definition StaticBundleManifest : ts_type := TsObject [req "protocol_version" (named "ProtocolVersion"); req "static_bundle_id"
  TsString; req "static_bundle_manifest_id" (named "AlgorithmPrefixedSha256Id"); req "manifest_version" TsNumber; req "package_state"
  (TsUnion [lit "generated"; lit "finalized"]); req "review_id" TsString; req "created_at" (named "UtcRfc3339Timestamp");
  opt "supersedes_static_bundle_manifest_id" (named "AlgorithmPrefixedSha256Id"); req "attestation_ref" TsString; req "vendor_receipt_ref"
  (named "AlgorithmPrefixedSha256Id"); req "evidence_bundle_representation" (TsObject [req "evidence_bundle_id" (named "AlgorithmPrefixedSha256Id");
  req "bundle_manifest_ref" TsString; req "signature_ref" TsString; req "identity_ref" TsString; req "retained_export_approved_payload_refs"
  (TsArray TsString)]); req "portal_projection_ref" TsString; req "files" (TsArray (TsObject [req "relative_path" TsString;
  req "artifact_ref" TsString; req "media_type" (named "NonEmptyString"); req "digest" (named "ArtifactDigest"); req "size_bytes"
  TsNumber; req "artifact_role" (TsUnion [lit "attestation"; lit "vendor_receipt"; lit "evidence_bundle_representation";
  lit "supporting_evidence"; lit "portal"; lit "portal_asset"; lit "verification_metadata"]); req "source_derived_class"
  (TsUnion [lit "never_collected"; lit "retained_review_artifact"; lit "customer_opt_in_retained_source"]); req "inclusion_reason"
  (named "NonEmptyString")])); req "minimization_disposition" (TsObject [req "included_retained_refs" (TsArray TsString);
  req "excluded_refs" (TsArray TsString); req "deleted_refs" (TsArray TsString); req "never_collected_refs" (TsArray TsString)]);
  req "verification_metadata" (TsObject [req "manifest_signature_ref" TsString; req "signing_input_ref" TsString; req "verification_instructions_path"
  TsString; req "offline_verification_supported" (boolean true); req "all_file_digests_verified" (boolean true)]); req "canonicalization"
  (lit "rfc8785"); req "identity_hash_algorithm" (lit "sha256"); req "identity_input_excludes" (TsTuple [lit "static_bundle_manifest_id"])].
Definition StaticBundleVerificationPackage : ts_type := TsObject [req "protocol_version" (named "ProtocolVersion"); req
  "attachment_index_id" (named "AlgorithmPrefixedSha256Id"); req "signed_payload_manifest_id" (named "AlgorithmPrefixedSha256Id");
  req "signing_input_attachment" (TsObject [req "relative_path" (lit "verification/static-bundle-signing-input.json"); req
  "artifact_ref" (lit "artifact_ref:static_bundle_signing_input"); req "media_type" (lit "application/json"); req "digest"
  (named "ArtifactDigest"); req "size_bytes" TsNumber; req "signing_input" (named "IdentitySigningInput")]); req "signature_attachment"
  (TsObject [req "relative_path" (lit "verification/static-bundle-signature.json"); req "artifact_ref" (lit "artifact_ref:static_bundle_signature");
  req "media_type" (lit "application/json"); req "digest" (named "ArtifactDigest"); req "size_bytes" TsNumber; req "signature_envelope"
  (named "SignatureEnvelope")]); req "canonicalization" (lit "rfc8785"); req "identity_hash_algorithm" (lit "sha256"); req
  "identity_input_excludes" (TsTuple [lit "attachment_index_id"])].
Definition StaticPortalProjection : ts_type := TsObject [req "protocol_version" (named "ProtocolVersion"); req "static_portal_projection_id"
  TsString; req "review_id" TsString; req "static_bundle_id" TsString; req "static_bundle_manifest_ref" (named "AlgorithmPrefixedSha256Id");
  req "generated_at" (named "UtcRfc3339Timestamp"); req "navigation" (TsTuple (replicate 8 (TsObject [req "section_id" (TsUnion
  [lit "overview"; lit "scope"; lit "receipt_chain"; lit "methods"; lit "findings"; lit "validation_remediation"; lit "limitations";
  lit "appendices"]); req "label" (named "NonEmptyString"); req "relative_path" TsString; req "order" TsNumber]))); req "documents"
  (TsTuple (replicate 8 (TsObject [req "document_id" TsString; req "section_id" (TsUnion [lit "overview"; lit "scope"; lit
  "receipt_chain"; lit "methods"; lit "findings"; lit "validation_remediation"; lit "limitations"; lit "appendices"]); req
  "title" (named "NonEmptyString"); req "summary" (named "NonEmptyString"); req "relative_path" TsString; req "source_artifact_refs"
  (TsNonEmptyArray TsString); req "copyable_identity_values" (TsArray (named "NonEmptyString")); req "phone_summary" (named
  "NonEmptyString"); req "print_included" (boolean true); req "search_included" (boolean true)]))); req "capabilities" (TsObject
  [req "offline_navigation" (boolean true); req "offline_search" (boolean true); req "print_export" (boolean true); req "copy_controls"
  (boolean true); req "phone_readable_summaries" (boolean true)]); req "asset_policy" (TsObject [req "remote_assets_allowed"
  (boolean false); req "analytics_allowed" (boolean false); req "live_api_calls_allowed" (boolean false); req "runtime_authorization_required"
  (boolean false); req "relative_links_only" (boolean true)]); req "customer_safe_projection" (boolean true); req "visibility"
  (lit "customer_facing")].
Definition StoredObjectClassification : ts_type := TsObject [req "protocol_version" (named "ProtocolVersion"); req "stored_object_ref"
  TsString; req "object_kind" (TsUnion [lit "evidence_artifact"; lit "queue_payload"; lit "worker_scratch"; lit "generated_export";
  lit "support_attachment"; lit "log_or_trace"; lit "analytics_record"; lit "crash_report"]); req "source_derived_class"
  (named "RetentionSourceDerivedClass"); req "environment_profile" (TsUnion [lit "synthetic_demo"; lit "partner_pilot_candidate";
  lit "partner_pilot_real_snippet_ready"]); opt "artifact_ref" TsString].
Definition SubmissionOutcome : ts_type := TsUnion [TsObject [req "protocol_version" (named "ProtocolVersion"); req "submission_outcome_id"
  TsString; req "review_id" TsString; req "outcome_state" (lit "received_with_receipt"); req "bundle_instance_id" TsString;
  req "submission_attempt_id" TsString; req "occurred_at" (named "UtcRfc3339Timestamp"); req "submission_identities" (TsNonEmptyArray
  (TsObject [req "identity_type" (TsUnion [lit "manifest_id"; lit "evidence_bundle_id"; lit "review_request_id"; lit "bundle_instance_id";
  lit "submission_attempt_id"]); req "identity_value" TsString])); opt "failure_reason_codes" (TsArray TsString); req "vendor_receipt_ref"
  (named "AlgorithmPrefixedSha256Id"); req "next_path" (TsUnion [lit "retry"; lit "quarantine_support"; lit "contact_support";
  lit "verify_receipt"]); req "customer_facing_summary" TsString]; TsObject [req "protocol_version" (named "ProtocolVersion");
  req "submission_outcome_id" TsString; req "review_id" TsString; req "outcome_state" (lit "rejected_no_receipt"); req "bundle_instance_id"
  TsString; req "submission_attempt_id" TsString; req "occurred_at" (named "UtcRfc3339Timestamp"); req "submission_identities"
  (TsNonEmptyArray (TsObject [req "identity_type" (TsUnion [lit "manifest_id"; lit "evidence_bundle_id"; lit "review_request_id";
  lit "bundle_instance_id"; lit "submission_attempt_id"]); req "identity_value" TsString])); req "failure_reason_codes" (TsArray
  TsString); opt "vendor_receipt_ref" (named "AlgorithmPrefixedSha256Id"); req "next_path" (TsUnion [lit "retry"; lit "quarantine_support";
  lit "contact_support"; lit "verify_receipt"]); req "customer_facing_summary" TsString]; TsObject [req "protocol_version"
  (named "ProtocolVersion"); req "submission_outcome_id" TsString; req "review_id" TsString; req "outcome_state" (lit "quarantined_no_receipt");
  req "bundle_instance_id" TsString; req "submission_attempt_id" TsString; req "occurred_at" (named "UtcRfc3339Timestamp");
  req "submission_identities" (TsNonEmptyArray (TsObject [req "identity_type" (TsUnion [lit "manifest_id"; lit "evidence_bundle_id";
  lit "review_request_id"; lit "bundle_instance_id"; lit "submission_attempt_id"]); req "identity_value" TsString])); req
  "failure_reason_codes" (TsArray TsString); opt "vendor_receipt_ref" (named "AlgorithmPrefixedSha256Id"); req "next_path"
  (TsUnion [lit "retry"; lit "quarantine_support"; lit "contact_support"; lit "verify_receipt"]); req "customer_facing_summary"
  TsString]].
Definition SupportingEvidenceMapping : ts_type := TsObject [req "protocol_version" (named "ProtocolVersion"); req "supporting_evidence_mapping_id"
  TsString; req "mapping_version" TsNumber; req "review_id" TsString; req "attestation_ref" TsString; req "mapping_profile"
  (TsUnion [lit "soc_2_supporting_evidence"; lit "generic_technology_risk"; lit "customer_security_review"]); req "approval_state"
  (lit "approved"); req "approved_at" (named "UtcRfc3339Timestamp"); req "approved_by" (TsObject [req "actor_type" (lit "reviewer");
  req "actor_id" (named "NonEmptyString")]); req "decision_authority" (named "NonEmptyString"); req "acceptance_disclaimer"
  (named "NonEmptyString"); req "entries" (TsNonEmptyArray (TsObject [req "mapping_entry_id" TsString; req "topic" (named
  "NonEmptyString"); req "supporting_evidence_role" (named "NonEmptyString"); req "scope_summary" (named "NonEmptyString");
  req "method_summary" (named "NonEmptyString"); req "receipt_context" (named "NonEmptyString"); req "evidence_refs" (TsNonEmptyArray
  TsString); req "limitations" (TsNonEmptyArray (named "NarrativeString"))])); req "limitations" (TsNonEmptyArray (named
  "NarrativeString")); req "visibility" (lit "customer_facing"); req "source_derived_class" (lit "retained_review_artifact")].
Definition VendorReceipt : ts_type := TsObject [req "protocol_version" (named "ProtocolVersion"); req "vendor_receipt_id"
  (named "AlgorithmPrefixedSha256Id"); req "evidence_bundle_id" (named "AlgorithmPrefixedSha256Id"); req "manifest_id" (named
  "AlgorithmPrefixedSha256Id"); req "receipt_timestamp" (named "UtcRfc3339Timestamp"); req "receiving_environment" (TsObject
  [req "environment_profile" (TsUnion [lit "synthetic_demo"; lit "partner_pilot_candidate"; lit "partner_pilot_real_snippet_ready"]);
  req "evidence_boundary" (named "NonEmptyString")]); req "verification_state" (lit "received_with_receipt"); req "canonicalization"
  (lit "rfc8785"); req "identity_hash_algorithm" (lit "sha256"); req "identity_input_excludes" (TsArray (TsUnion [lit "vendor_receipt_id";
  lit "receipt_signature"; lit "public_verification_metadata.signed_identity"])); req "source_derived_class" (lit "retained_review_artifact");
  req "approved_outbound_manifest_ref" TsString; req "bundle_instance_id" TsString; req "submission_attempt_id" TsString;
  req "selected_application" (TsObject [req "application_id" (named "NonEmptyString"); req "display_name" (named "NonEmptyString")]);
  req "selected_commit" (TsObject [req "commit_sha" TsString; req "source_control_system" (lit "git")]); req "repository_identity_hash"
  (named "AlgorithmPrefixedSha256Id"); req "coverage_mode" (named "CoverageMode"); req "disclosure_policy_ref" (named "AlgorithmPrefixedSha256Id");
  req "disclosure_policy_summary" (TsObject [req "disclosure_policy_ref" (named "AlgorithmPrefixedSha256Id"); req "coverage_mode"
  (named "CoverageMode"); req "redaction_profile" (named "NonEmptyString"); req "redaction_configuration_version" (named
  "NonEmptyString"); req "retention_period" (named "NonEmptyString")]); req "approved_artifact_count_summary" (TsObject [req
  "count_domain" (lit "evidence_category_counts"); req "total_count" TsNumber; req "categories" (TsNonEmptyArray (TsObject
  [req "category" (TsUnion [lit "metadata"; lit "dependencies"; lit "scanner_findings"; lit "raw_snippets"; lit "targeted_files";
  lit "derived_artifacts"; lit "never_collected_items"]); req "count" TsNumber]))]); req "received_artifact_count_summary"
  (TsObject [req "count_domain" (lit "evidence_category_counts"); req "total_count" TsNumber; req "categories" (TsNonEmptyArray
  (TsObject [req "category" (TsUnion [lit "metadata"; lit "dependencies"; lit "scanner_findings"; lit "raw_snippets"; lit
  "targeted_files"; lit "derived_artifacts"; lit "never_collected_items"]); req "count" TsNumber]))]); req "approved_vs_received_comparison"
  (TsObject [req "comparison_state" (lit "matched"); req "rows" (TsTuple (replicate 7 (TsObject [req "field" (named "NonEmptyString");
  req "approved_value" (named "NonEmptyString"); req "received_value" (named "NonEmptyString"); req "result" (lit "matched")])))]);
  req "receipt_signature" (named "SignatureEnvelope"); req "public_verification_metadata" (TsObject [req "protocol_version"
  (named "ProtocolVersion"); req "algorithm_profile" (lit "ml_dsa_65"); req "canonicalization" (lit "rfc8785"); req "key_id"
  (named "NonEmptyString"); req "key_version" (named "NonEmptyString"); req "public_key_reference" (named "NonEmptyString");
  req "signing_time" (named "UtcRfc3339Timestamp"); req "signed_identity_type" (lit "vendor_receipt"); req "signed_identity"
  (named "AlgorithmPrefixedSha256Id"); req "signing_mode" (TsUnion [lit "managed_key"; lit "enrolled_runner_key"]); req "signing_limitations"
  (TsNonEmptyArray (named "NarrativeString"))]); req "key_rotation_readiness" (TsObject [req "historical_key_id" (named "NonEmptyString");
  req "historical_key_version" (named "NonEmptyString"); req "event_append_hint" (named "NonEmptyString")])].
Definition VerificationAddendum : ts_type := TsObject [req "protocol_version" (named "ProtocolVersion"); req "verification_addendum_id"
  TsString; req "review_id" TsString; req "verification_pass_id" TsString; req "review_scope_ref" (named "AlgorithmPrefixedSha256Id");
  req "verification_pass_ref" TsString; req "selected_commit" (TsObject [req "commit_sha" TsString; req "source_control_system"
  (lit "git")]); req "repository_identity" (named "AlgorithmPrefixedSha256Id"); req "generated_at" (named "UtcRfc3339Timestamp");
  req "findings" (TsNonEmptyArray (TsObject [req "review_finding_draft_ref" TsString; req "classification_record_ref" TsString;
  req "current_classification" (TsUnion [lit "likely"; lit "confirmed"; lit "inconclusive"; lit "requires_customer_side_validation"]);
  req "verification_status" (TsUnion [lit "verification_complete"; lit "verification_pending"; lit "not_verified"; lit "requires_customer_side_validation"]);
  req "reviewer_actor_category" (lit "reviewer"); req "verification_record_ref" TsString; req "verification_evidence_record_refs"
  (TsNonEmptyArray TsString); opt "remediation_guidance_ref" TsString; opt "validation_path_ref" TsString; opt "accepted_risk_record_ref"
  TsString; opt "false_positive_record_ref" TsString; req "timestamp" (named "UtcRfc3339Timestamp"); req "summary" (named
  "NonEmptyString"); req "remaining_limitations" (TsNonEmptyArray (named "NarrativeString")); opt "next_step_summary" (named
  "NonEmptyString")])); req "retained_evidence" (TsArray (TsObject [req "artifact_ref" TsString; req "source_derived_class"
  (TsUnion [lit "retained_review_artifact"; lit "customer_opt_in_retained_source"]); req "recorded_at" (named "UtcRfc3339Timestamp")]));
  req "deleted_evidence" (TsArray (TsObject [req "artifact_ref" TsString; req "deletion_evidence_ref" TsString; req "deletion_timestamp"
  (named "UtcRfc3339Timestamp"); req "deletion_verification_status" (TsUnion [lit "verified"; lit "pending"; lit "unavailable"])]));
  req "history_refs" (TsNonEmptyArray (named "AlgorithmPrefixedSha256Id")); req "limitations" (TsNonEmptyArray (named "NarrativeString"));
  opt "next_step_summary" (named "NonEmptyString"); req "finalization_state" (TsUnion [lit "finalized"; lit "not_finalized"]);
  req "visibility" (lit "customer_facing"); req "source_derived_class" (lit "retained_review_artifact")].
Definition VerificationEvidenceRecord : ts_type := TsUnion [TsObject [req "protocol_version" (named "ProtocolVersion");
  req "review_id" TsString; req "verification_evidence_record_id" TsString; req "record_version" TsNumber; req "verification_pass_id"
  TsString; req "verification_pass_ref" TsString; req "scope_version" TsNumber; req "review_finding_draft_ref" TsString;
  req "classification_record_ref" TsString; req "requested_verification_type" (lit "follow_up_commit"); req "intake_state"
  (TsUnion [lit "accepted_for_review"; lit "verification_pending"; lit "broader_context_required"]); req "state_reason" (named
  "NonEmptyString"); opt "next_step_summary" (named "NonEmptyString"); req "actor" (TsObject [req "actor_type" (TsUnion [lit
  "customer_user"; lit "vendor_service"]); req "actor_id" (named "NonEmptyString")]); opt "customer_actor_ref" TsString;
  req "follow_up_commit" (TsObject [req "original_selected_commit" (TsObject [req "commit_sha" TsString; req "source_control_system"
  (lit "git")]); req "follow_up_commit" (TsObject [req "commit_sha" TsString; req "source_control_system" (lit "git")]);
  req "original_repository_identity" (named "AlgorithmPrefixedSha256Id"); req "follow_up_repository_identity" (named "AlgorithmPrefixedSha256Id");
  req "relationship_to_selected_commit" (TsUnion [lit "customer_declared_related"; lit "customer_declared_descendant"; lit
  "relationship_unverified"; lit "same_commit_submitted"; lit "repository_mismatch"]); req "relationship_basis" (named "NonEmptyString")]);
  opt "validation_path_ref" TsString; opt "reviewer_validation_script_ref" TsString; opt "validation_artifacts" (TsNonEmptyArray
  (TsObject [req "artifact_ref" TsString; req "digest" (named "ArtifactDigest"); req "size_bytes" TsNumber; req "media_type"
  (named "NonEmptyString"); req "source_derived_class" (named "RetentionSourceDerivedClass"); opt "retention_record_ref"
  TsString])); req "recorded_at" (named "UtcRfc3339Timestamp"); req "access_scope" (TsObject [req "tenant_id" (named "NonEmptyString");
  req "review_scope" TsString]); req "environment_profile" (TsUnion [lit "synthetic_demo"; lit "partner_pilot_candidate";
  lit "partner_pilot_real_snippet_ready"]); req "disclosure_state" (lit "metadata_only"); req "limitations" (TsNonEmptyArray
  (named "NarrativeString")); req "source_derived_class" (lit "retained_review_artifact"); req "visibility" (TsUnion [lit
  "customer_facing"; lit "internal_only"])]; TsObject [req "protocol_version" (named "ProtocolVersion"); req "review_id"
  TsString; req "verification_evidence_record_id" TsString; req "record_version" TsNumber; req "verification_pass_id" TsString;
  req "verification_pass_ref" TsString; req "scope_version" TsNumber; req "review_finding_draft_ref" TsString; req "classification_record_ref"
  TsString; req "requested_verification_type" (lit "customer_validation_evidence"); req "intake_state" (TsUnion [lit "accepted_for_review";
  lit "verification_pending"; lit "broader_context_required"]); req "state_reason" (named "NonEmptyString"); opt "next_step_summary"
  (named "NonEmptyString"); req "actor" (TsObject [req "actor_type" (TsUnion [lit "customer_user"; lit "vendor_service"]);
  req "actor_id" (named "NonEmptyString")]); opt "customer_actor_ref" TsString; opt "follow_up_commit" (TsObject [req "original_selected_commit"
  (TsObject [req "commit_sha" TsString; req "source_control_system" (lit "git")]); req "follow_up_commit" (TsObject [req
  "commit_sha" TsString; req "source_control_system" (lit "git")]); req "original_repository_identity" (named "AlgorithmPrefixedSha256Id");
  req "follow_up_repository_identity" (named "AlgorithmPrefixedSha256Id"); req "relationship_to_selected_commit" (TsUnion
  [lit "customer_declared_related"; lit "customer_declared_descendant"; lit "relationship_unverified"; lit "same_commit_submitted";
  lit "repository_mismatch"]); req "relationship_basis" (named "NonEmptyString")]); req "validation_path_ref" TsString; opt
  "reviewer_validation_script_ref" TsString; req "validation_artifacts" (TsNonEmptyArray (TsObject [req "artifact_ref" TsString;
  req "digest" (named "ArtifactDigest"); req "size_bytes" TsNumber; req "media_type" (named "NonEmptyString"); req "source_derived_class"
  (named "RetentionSourceDerivedClass"); opt "retention_record_ref" TsString])); req "recorded_at" (named "UtcRfc3339Timestamp");
  req "access_scope" (TsObject [req "tenant_id" (named "NonEmptyString"); req "review_scope" TsString]); req "environment_profile"
  (TsUnion [lit "synthetic_demo"; lit "partner_pilot_candidate"; lit "partner_pilot_real_snippet_ready"]); req "disclosure_state"
  (lit "metadata_only"); req "limitations" (TsNonEmptyArray (named "NarrativeString")); req "source_derived_class" (lit "retained_review_artifact");
  req "visibility" (TsUnion [lit "customer_facing"; lit "internal_only"])]; TsObject [req "protocol_version" (named "ProtocolVersion");
  req "review_id" TsString; req "verification_evidence_record_id" TsString; req "record_version" TsNumber; req "verification_pass_id"
  TsString; req "verification_pass_ref" TsString; req "scope_version" TsNumber; req "review_finding_draft_ref" TsString;
  req "classification_record_ref" TsString; req "requested_verification_type" (lit "reviewer_authored_script_output"); req
  "intake_state" (TsUnion [lit "accepted_for_review"; lit "verification_pending"; lit "broader_context_required"]); req "state_reason"
  (named "NonEmptyString"); opt "next_step_summary" (named "NonEmptyString"); req "actor" (TsObject [req "actor_type" (TsUnion
  [lit "customer_user"; lit "vendor_service"]); req "actor_id" (named "NonEmptyString")]); opt "customer_actor_ref" TsString;
  opt "follow_up_commit" (TsObject [req "original_selected_commit" (TsObject [req "commit_sha" TsString; req "source_control_system"
  (lit "git")]); req "follow_up_commit" (TsObject [req "commit_sha" TsString; req "source_control_system" (lit "git")]);
  req "original_repository_identity" (named "AlgorithmPrefixedSha256Id"); req "follow_up_repository_identity" (named "AlgorithmPrefixedSha256Id");
  req "relationship_to_selected_commit" (TsUnion [lit "customer_declared_related"; lit "customer_declared_descendant"; lit
  "relationship_unverified"; lit "same_commit_submitted"; lit "repository_mismatch"]); req "relationship_basis" (named "NonEmptyString")]);
  req "validation_path_ref" TsString; req "reviewer_validation_script_ref" TsString; req "validation_artifacts" (TsNonEmptyArray
  (TsObject [req "artifact_ref" TsString; req "digest" (named "ArtifactDigest"); req "size_bytes" TsNumber; req "media_type"
  (named "NonEmptyString"); req "source_derived_class" (named "RetentionSourceDerivedClass"); opt "retention_record_ref"
  TsString])); req "recorded_at" (named "UtcRfc3339Timestamp"); req "access_scope" (TsObject [req "tenant_id" (named "NonEmptyString");
  req "review_scope" TsString]); req "environment_profile" (TsUnion [lit "synthetic_demo"; lit "partner_pilot_candidate";
  lit "partner_pilot_real_snippet_ready"]); req "disclosure_state" (lit "metadata_only"); req "limitations" (TsNonEmptyArray
  (named "NarrativeString")); req "source_derived_class" (lit "retained_review_artifact"); req "visibility" (TsUnion [lit
  "customer_facing"; lit "internal_only"])]; TsObject [req "protocol_version" (named "ProtocolVersion"); req "review_id"
  TsString; req "verification_evidence_record_id" TsString; req "record_version" TsNumber; req "verification_pass_id" TsString;
  req "verification_pass_ref" TsString; req "scope_version" TsNumber; req "review_finding_draft_ref" TsString; req "classification_record_ref"
  TsString; req "requested_verification_type" (lit "manual_validation_record"); req "intake_state" (TsUnion [lit "accepted_for_review";
  lit "verification_pending"; lit "broader_context_required"]); req "state_reason" (named "NonEmptyString"); opt "next_step_summary"
  (named "NonEmptyString"); req "actor" (TsObject [req "actor_type" (TsUnion [lit "customer_user"; lit "vendor_service"]);
  req "actor_id" (named "NonEmptyString")]); opt "customer_actor_ref" TsString; opt "follow_up_commit" (TsObject [req "original_selected_commit"
  (TsObject [req "commit_sha" TsString; req "source_control_system" (lit "git")]); req "follow_up_commit" (TsObject [req
  "commit_sha" TsString; req "source_control_system" (lit "git")]); req "original_repository_identity" (named "AlgorithmPrefixedSha256Id");
  req "follow_up_repository_identity" (named "AlgorithmPrefixedSha256Id"); req "relationship_to_selected_commit" (TsUnion
  [lit "customer_declared_related"; lit "customer_declared_descendant"; lit "relationship_unverified"; lit "same_commit_submitted";
  lit "repository_mismatch"]); req "relationship_basis" (named "NonEmptyString")]); req "validation_path_ref" TsString; opt
  "reviewer_validation_script_ref" TsString; req "validation_artifacts" (TsNonEmptyArray (TsObject [req "artifact_ref" TsString;
  req "digest" (named "ArtifactDigest"); req "size_bytes" TsNumber; req "media_type" (named "NonEmptyString"); req "source_derived_class"
  (named "RetentionSourceDerivedClass"); opt "retention_record_ref" TsString])); req "recorded_at" (named "UtcRfc3339Timestamp");
  req "access_scope" (TsObject [req "tenant_id" (named "NonEmptyString"); req "review_scope" TsString]); req "environment_profile"
  (TsUnion [lit "synthetic_demo"; lit "partner_pilot_candidate"; lit "partner_pilot_real_snippet_ready"]); req "disclosure_state"
  (lit "metadata_only"); req "limitations" (TsNonEmptyArray (named "NarrativeString")); req "source_derived_class" (lit "retained_review_artifact");
  req "visibility" (TsUnion [lit "customer_facing"; lit "internal_only"])]; TsObject [req "protocol_version" (named "ProtocolVersion");
  req "review_id" TsString; req "verification_evidence_record_id" TsString; req "record_version" TsNumber; req "verification_pass_id"
  TsString; req "verification_pass_ref" TsString; req "scope_version" TsNumber; req "review_finding_draft_ref" TsString;
  req "classification_record_ref" TsString; req "requested_verification_type" (lit "remote_dynamic_testing_evidence"); req
  "intake_state" (TsUnion [lit "accepted_for_review"; lit "verification_pending"; lit "broader_context_required"]); req "state_reason"
  (named "NonEmptyString"); opt "next_step_summary" (named "NonEmptyString"); req "actor" (TsObject [req "actor_type" (TsUnion
  [lit "customer_user"; lit "vendor_service"]); req "actor_id" (named "NonEmptyString")]); opt "customer_actor_ref" TsString;
  opt "follow_up_commit" (TsObject [req "original_selected_commit" (TsObject [req "commit_sha" TsString; req "source_control_system"
  (lit "git")]); req "follow_up_commit" (TsObject [req "commit_sha" TsString; req "source_control_system" (lit "git")]);
  req "original_repository_identity" (named "AlgorithmPrefixedSha256Id"); req "follow_up_repository_identity" (named "AlgorithmPrefixedSha256Id");
  req "relationship_to_selected_commit" (TsUnion [lit "customer_declared_related"; lit "customer_declared_descendant"; lit
  "relationship_unverified"; lit "same_commit_submitted"; lit "repository_mismatch"]); req "relationship_basis" (named "NonEmptyString")]);
  req "validation_path_ref" TsString; opt "reviewer_validation_script_ref" TsString; req "validation_artifacts" (TsNonEmptyArray
  (TsObject [req "artifact_ref" TsString; req "digest" (named "ArtifactDigest"); req "size_bytes" TsNumber; req "media_type"
  (named "NonEmptyString"); req "source_derived_class" (named "RetentionSourceDerivedClass"); opt "retention_record_ref"
  TsString])); req "recorded_at" (named "UtcRfc3339Timestamp"); req "access_scope" (TsObject [req "tenant_id" (named "NonEmptyString");
  req "review_scope" TsString]); req "environment_profile" (TsUnion [lit "synthetic_demo"; lit "partner_pilot_candidate";
  lit "partner_pilot_real_snippet_ready"]); req "disclosure_state" (lit "metadata_only"); req "limitations" (TsNonEmptyArray
  (named "NarrativeString")); req "source_derived_class" (lit "retained_review_artifact"); req "visibility" (TsUnion [lit
  "customer_facing"; lit "internal_only"])]].
Definition VerificationPassScope : ts_type := TsObject [req "protocol_version" (named "ProtocolVersion"); req "review_id"
  TsString; req "verification_pass_id" TsString; req "scope_version" TsNumber; req "included_pass_started_at" (named "UtcRfc3339Timestamp");
  opt "included_pass_start_basis" (named "NonEmptyString"); req "scope_recorded_at" (named "UtcRfc3339Timestamp"); req "pass_deadline"
  (named "UtcRfc3339Timestamp"); req "actor" (TsObject [req "actor_type" (TsUnion [lit "customer_user"; lit "reviewer"; lit
  "vendor_service"]); req "actor_id" (named "NonEmptyString")]); opt "customer_actor_ref" TsString; opt "customer_selection_evidence_ref"
  TsString; req "selected_findings" (TsNonEmptyArray (TsObject [req "review_finding_draft_ref" TsString; req "classification_record_ref"
  TsString; req "current_classification" (TsUnion [lit "likely"; lit "confirmed"; lit "inconclusive"; lit "requires_customer_side_validation"]);
  opt "remediation_guidance_ref" TsString; opt "customer_status_record_ref" TsString; opt "current_customer_remediation_status"
  (TsUnion [lit "not_started"; lit "planned"; lit "in_progress"; lit "remediated_by_customer"; lit "validation_pending";
  lit "deferred"; lit "not_applicable"]); opt "validation_path_ref" TsString; opt "reviewer_validation_script_refs" (TsNonEmptyArray
  TsString); opt "accepted_risk_record_ref" TsString; opt "false_positive_record_ref" TsString; req "requested_verification_type"
  (TsUnion [lit "follow_up_commit"; lit "customer_validation_evidence"; lit "reviewer_authored_script_output"; lit "manual_validation_record";
  lit "remote_dynamic_testing_evidence"]); req "eligibility_state" (TsUnion [lit "eligible"; lit "out_of_scope"; lit "requires_additional_agreement";
  lit "blocked_pending_validation_path"]); req "eligibility_reason" (named "NonEmptyString"); req "limitations" (TsNonEmptyArray
  (named "NarrativeString"))])); req "included_script_allocation" (TsObject [req "included_slots" (TsArray (TsObject [req
  "slot" TsNumber; req "validation_script_ref" TsString; req "finding_ref" TsString])); req "additional_script_candidates"
  (TsArray (TsObject [req "validation_script_ref" TsString; req "finding_ref" TsString; req "pricing_posture" (lit "pricing_tbd");
  req "reason" (named "NonEmptyString")]))]); req "limitations" (TsNonEmptyArray (named "NarrativeString")); req "source_derived_class"
  (lit "retained_review_artifact"); req "visibility" (TsUnion [lit "customer_facing"; lit "internal_only"])].
Definition VerificationRecord : ts_type := TsUnion [TsObject [req "protocol_version" (named "ProtocolVersion"); req "review_id"
  TsString; req "verification_record_id" TsString; req "record_version" TsNumber; req "verification_pass_id" TsString; req
  "verification_pass_ref" TsString; req "review_finding_draft_ref" TsString; req "classification_record_ref" TsString; req
  "verification_evidence_record_refs" (TsNonEmptyArray TsString); req "verification_status" (lit "verification_complete");
  req "recorded_at" (named "UtcRfc3339Timestamp"); req "actor" (TsObject [req "actor_type" (lit "reviewer"); req "actor_id"
  (named "NonEmptyString")]); req "before_state" (TsObject [req "classification" (TsUnion [lit "likely"; lit "confirmed";
  lit "inconclusive"; lit "requires_customer_side_validation"]); req "review_finding_draft_evidence_refs" (TsNonEmptyArray
  TsString); req "evidence_basis" (TsNonEmptyArray (named "NarrativeString")); req "source_reference_state" (TsUnion [lit
  "retained_review_artifact"; lit "deleted_under_policy"; lit "never_collected"; lit "not_submitted_by_policy"; lit "unresolved_reference"]);
  req "confirmation_criteria" (TsNonEmptyArray (named "NarrativeString"))]); req "after_state" (TsObject [req "summary" (named
  "NonEmptyString"); req "criteria_results" (TsNonEmptyArray (TsObject [req "criterion" (named "NonEmptyString"); req "result"
  (TsUnion [lit "satisfied"; lit "not_satisfied"; lit "not_evaluated"; lit "customer_validation_required"])])); req "evidence_refs"
  (TsNonEmptyArray TsString)]); req "rationale" (named "NonEmptyString"); req "remaining_limitations" (TsNonEmptyArray (named
  "NarrativeString")); opt "next_step_summary" (named "NonEmptyString"); req "source_derived_class" (lit "retained_review_artifact");
  req "visibility" (TsUnion [lit "customer_facing"; lit "internal_only"])]; TsObject [req "protocol_version" (named "ProtocolVersion");
  req "review_id" TsString; req "verification_record_id" TsString; req "record_version" TsNumber; req "verification_pass_id"
  TsString; req "verification_pass_ref" TsString; req "review_finding_draft_ref" TsString; req "classification_record_ref"
  TsString; req "verification_evidence_record_refs" (TsNonEmptyArray TsString); req "verification_status" (lit "verification_pending");
  req "recorded_at" (named "UtcRfc3339Timestamp"); req "actor" (TsObject [req "actor_type" (lit "reviewer"); req "actor_id"
  (named "NonEmptyString")]); req "before_state" (TsObject [req "classification" (TsUnion [lit "likely"; lit "confirmed";
  lit "inconclusive"; lit "requires_customer_side_validation"]); req "review_finding_draft_evidence_refs" (TsNonEmptyArray
  TsString); req "evidence_basis" (TsNonEmptyArray (named "NarrativeString")); req "source_reference_state" (TsUnion [lit
  "retained_review_artifact"; lit "deleted_under_policy"; lit "never_collected"; lit "not_submitted_by_policy"; lit "unresolved_reference"]);
  req "confirmation_criteria" (TsNonEmptyArray (named "NarrativeString"))]); req "after_state" (TsObject [req "summary" (named
  "NonEmptyString"); req "criteria_results" (TsNonEmptyArray (TsObject [req "criterion" (named "NonEmptyString"); req "result"
  (TsUnion [lit "satisfied"; lit "not_satisfied"; lit "not_evaluated"; lit "customer_validation_required"])])); req "evidence_refs"
  (TsNonEmptyArray TsString)]); req "rationale" (named "NonEmptyString"); req "remaining_limitations" (TsNonEmptyArray (named
  "NarrativeString")); req "next_step_summary" (named "NonEmptyString"); req "source_derived_class" (lit "retained_review_artifact");
  req "visibility" (TsUnion [lit "customer_facing"; lit "internal_only"])]; TsObject [req "protocol_version" (named "ProtocolVersion");
  req "review_id" TsString; req "verification_record_id" TsString; req "record_version" TsNumber; req "verification_pass_id"
  TsString; req "verification_pass_ref" TsString; req "review_finding_draft_ref" TsString; req "classification_record_ref"
  TsString; req "verification_evidence_record_refs" (TsNonEmptyArray TsString); req "verification_status" (lit "not_verified");
  req "recorded_at" (named "UtcRfc3339Timestamp"); req "actor" (TsObject [req "actor_type" (lit "reviewer"); req "actor_id"
  (named "NonEmptyString")]); req "before_state" (TsObject [req "classification" (TsUnion [lit "likely"; lit "confirmed";
  lit "inconclusive"; lit "requires_customer_side_validation"]); req "review_finding_draft_evidence_refs" (TsNonEmptyArray
  TsString); req "evidence_basis" (TsNonEmptyArray (named "NarrativeString")); req "source_reference_state" (TsUnion [lit
  "retained_review_artifact"; lit "deleted_under_policy"; lit "never_collected"; lit "not_submitted_by_policy"; lit "unresolved_reference"]);
  req "confirmation_criteria" (TsNonEmptyArray (named "NarrativeString"))]); req "after_state" (TsObject [req "summary" (named
  "NonEmptyString"); req "criteria_results" (TsNonEmptyArray (TsObject [req "criterion" (named "NonEmptyString"); req "result"
  (TsUnion [lit "satisfied"; lit "not_satisfied"; lit "not_evaluated"; lit "customer_validation_required"])])); req "evidence_refs"
  (TsNonEmptyArray TsString)]); req "rationale" (named "NonEmptyString"); req "remaining_limitations" (TsNonEmptyArray (named
  "NarrativeString")); req "next_step_summary" (named "NonEmptyString"); req "source_derived_class" (lit "retained_review_artifact");
  req "visibility" (TsUnion [lit "customer_facing"; lit "internal_only"])]; TsObject [req "protocol_version" (named "ProtocolVersion");
  req "review_id" TsString; req "verification_record_id" TsString; req "record_version" TsNumber; req "verification_pass_id"
  TsString; req "verification_pass_ref" TsString; req "review_finding_draft_ref" TsString; req "classification_record_ref"
  TsString; req "verification_evidence_record_refs" (TsNonEmptyArray TsString); req "verification_status" (lit "requires_customer_side_validation");
  req "recorded_at" (named "UtcRfc3339Timestamp"); req "actor" (TsObject [req "actor_type" (lit "reviewer"); req "actor_id"
  (named "NonEmptyString")]); req "before_state" (TsObject [req "classification" (TsUnion [lit "likely"; lit "confirmed";
  lit "inconclusive"; lit "requires_customer_side_validation"]); req "review_finding_draft_evidence_refs" (TsNonEmptyArray
  TsString); req "evidence_basis" (TsNonEmptyArray (named "NarrativeString")); req "source_reference_state" (TsUnion [lit
  "retained_review_artifact"; lit "deleted_under_policy"; lit "never_collected"; lit "not_submitted_by_policy"; lit "unresolved_reference"]);
  req "confirmation_criteria" (TsNonEmptyArray (named "NarrativeString"))]); req "after_state" (TsObject [req "summary" (named
  "NonEmptyString"); req "criteria_results" (TsNonEmptyArray (TsObject [req "criterion" (named "NonEmptyString"); req "result"
  (TsUnion [lit "satisfied"; lit "not_satisfied"; lit "not_evaluated"; lit "customer_validation_required"])])); req "evidence_refs"
  (TsNonEmptyArray TsString)]); req "rationale" (named "NonEmptyString"); req "remaining_limitations" (TsNonEmptyArray (named
  "NarrativeString")); req "next_step_summary" (named "NonEmptyString"); req "source_derived_class" (lit "retained_review_artifact");
  req "visibility" (TsUnion [lit "customer_facing"; lit "internal_only"])]].

(* The file. *)
Definition protocolV0Types : list (jsstr * ts_type) :=
  [(js "ActorReference", ActorReference); (js "AlgorithmPrefixedSha256Id", AlgorithmPrefixedSha256Id); (js "ArtifactDigest",
  ArtifactDigest); (js "CoverageMode", CoverageMode); (js "MlDsa65PublicKey", MlDsa65PublicKey); (js "MlDsa65Signature",
  MlDsa65Signature); (js "NarrativeString", NarrativeString); (js "NonEmptyString", NonEmptyString); (js "ProtocolVersion",
  ProtocolVersion); (js "Sha256Hex", Sha256Hex); (js "SnakeCaseFieldName", SnakeCaseFieldName); (js "UtcRfc3339Timestamp",
  UtcRfc3339Timestamp); (js "AcceptedRiskRecord", AcceptedRiskRecord); (js "ArtifactReference", ArtifactReference); (js "AttestationPackageFinalization",
  AttestationPackageFinalization); (js "BundleManifest", BundleManifest); (js "CustomerApproval", CustomerApproval); (js
  "CustomerFacingFindingRecord", CustomerFacingFindingRecord); (js "CustomerRemediationStatusRecord", CustomerRemediationStatusRecord);
  (js "DeletionEvidence", DeletionEvidence); (js "DisclosurePolicy", DisclosurePolicy); (js "EnvironmentEvidenceGate", EnvironmentEvidenceGate);
  (js "EnvironmentReadinessDecision", EnvironmentReadinessDecision); (js "EnvironmentReadinessEvidence", EnvironmentReadinessEvidence);
  (js "EvidenceLifecycleEvent", EvidenceLifecycleEvent); (js "EvidenceMinimizationProjection", EvidenceMinimizationProjection);
  (js "FalsePositiveRecord", FalsePositiveRecord); (js "FindingClassificationRecord", FindingClassificationRecord); (js "FindingRemediationGuidance",
  FindingRemediationGuidance); (js "FindingValidationPath", FindingValidationPath); (js "IdentitySigningInput", IdentitySigningInput);
  (js "LocalRunnerAttempt", LocalRunnerAttempt); (js "LogCheckpoint", LogCheckpoint); (js "OutboundManifest", OutboundManifest);
  (js "PilotFeedbackRecord", PilotFeedbackRecord); (js "PilotMetricRecord", PilotMetricRecord); (js "RetentionOptInRecord",
  RetentionOptInRecord); (js "RetentionSourceDerivedClass", RetentionSourceDerivedClass); (js "ReviewEventCustomerProjection",
  ReviewEventCustomerProjection); (js "ReviewEventLog", ReviewEventLog); (js "ReviewEvent", ReviewEvent); (js "ReviewFindingDraftSet",
  ReviewFindingDraftSet); (js "ReviewScope", ReviewScope); (js "ReviewerValidationScript", ReviewerValidationScript); (js
  "RunnerKeyEnrollmentRecord", RunnerKeyEnrollmentRecord); (js "RunnerReleaseRecord", RunnerReleaseRecord); (js "ScannerFindingSet",
  ScannerFindingSet); (js "SecurityReviewAttestation", SecurityReviewAttestation); (js "SignatureEnvelope", SignatureEnvelope);
  (js "SignatureVerificationOutcome", SignatureVerificationOutcome); (js "SigningKeyDirectory", SigningKeyDirectory); (js
  "SigningKeyRecord", SigningKeyRecord); (js "StaticBundleManifest", StaticBundleManifest); (js "StaticBundleVerificationPackage",
  StaticBundleVerificationPackage); (js "StaticPortalProjection", StaticPortalProjection); (js "StoredObjectClassification",
  StoredObjectClassification); (js "SubmissionOutcome", SubmissionOutcome); (js "SupportingEvidenceMapping", SupportingEvidenceMapping);
  (js "VendorReceipt", VendorReceipt); (js "VerificationAddendum", VerificationAddendum); (js "VerificationEvidenceRecord",
  VerificationEvidenceRecord); (js "VerificationPassScope", VerificationPassScope); (js "VerificationRecord", VerificationRecord)].

(** * The file is what the generator writes *)

Definition DECLARATION_FUEL : nat := 20.
Definition registry_declarations : list (jsstr * json) := declared units_cmp protocolV0Schemas.
Lemma bindings_current : protocolV0Types = declared_types DECLARATION_FUEL registry_declarations.
Proof. by vm_compute. Qed.

(** * Validated values have their generated type *)

Lemma registry_sound :
  forallb (λ d, sound protocolV0Schemas registry_declarations DECLARATION_FUEL DECLARATION_FUEL d.2) registry_declarations = true.
Proof. by vm_compute. Qed.
(* Every schema but the shared definitions is declared under the name of its id. *)
Lemma registry_declared :
  forallb (λ kv, (kv.1 === SHARED_DEFINITIONS)
                 || bool_decide (JsMap.get (typeNameForSchemaId kv.1) registry_declarations = Some kv.2))%bool protocolV0Schemas = true.
Proof. by vm_compute. Qed.

(** C27. The validator is a type guard: a value it accepts for a schema of the registry has
    the TypeScript type that is generated for that schema, for every value that JSON.parse
    can build from a text without a member named __proto__. *)
Theorem validated_has_generated_type localeCompare schemaId n v :
  schema_id_known schemaId = true → js schemaId ≠ SHARED_DEFINITIONS → plain_data v = true →
  validateProtocolSchema protocolV0Schemas localeCompare n schemaId v = Some [] →
  has_type protocolV0Types (S n) (TsNamed (typeNameForSchemaId (js schemaId))) v = true.
Proof.
  unfold schema_id_known, validateProtocolSchema. rewrite JsMap.has_true. intros [schema Hg] Hshared Hplain. rewrite Hg.
  cbn [mbind option_bind]. intros Hv. rewrite bindings_current, typed_named, types_get.
  pose proof registry_declared as Hdecl. rewrite forallb_forall in Hdecl. specialize (Hdecl _ (proj1 (list_elem_of_In _ _) (get_elem _ _ _ Hg))).
  cbn [fst snd] in Hdecl. rewrite bool_decide_false in Hdecl by done. apply bool_decide_eq_true in Hdecl. rewrite Hdecl.
  cbn [fmap option_fmap option_map]. apply (accepted_typed protocolV0Schemas localeCompare registry_declarations DECLARATION_FUEL registry_sound n DECLARATION_FUEL schema v (js "$") Hplain); [|done|done].
  pose proof registry_sound as Hsound. rewrite forallb_forall in Hsound. apply (Hsound (typeNameForSchemaId (js schemaId), schema)).
  apply list_elem_of_In. by apply get_elem.
Qed.

Module TypeSamples.
Definition evidence : json := JObject SchemaSamples.evidence_fields.
Lemma validated_has_generated_type_witness : has_type protocolV0Types (S REGISTRY_FUEL) (TsNamed (js "DeletionEvidence")) evidence = true.
Proof.
  apply (validated_has_generated_type units_cmp "urn:codeattest:protocol:v0:deletion-evidence" REGISTRY_FUEL evidence);
    [by vm_compute|by vm_compute|by vm_compute|by vm_compute].
Defined.
(* The types tell values apart. *)
Example types_reject :
  has_type protocolV0Types 4 (named "ActorReference") (JObject [(js "actor_type", JString (js "reviewer")); (js "actor_id", JString (js "r"))]) = true ∧
  has_type protocolV0Types 4 (named "ActorReference") (JObject [(js "actor_type", JString (js "robot")); (js "actor_id", JString (js "r"))]) = false ∧
  has_type protocolV0Types 4 (named "ActorReference") (JObject [(js "actor_type", JString (js "reviewer"))]) = false ∧
  has_type protocolV0Types 4 (named "LogCheckpoint") evidence = false.
Proof. by vm_compute. Qed.
End TypeSamples.
