(* ===== verification/TextDecoder.v ===== *)
(** The UTF-8 decoder of the platform ([new TextDecoder().decode(bytes)]): ill-formed
    sequences become U+FFFD, and a leading byte order mark is dropped. Decoding undoes
    [utf8]. *)
From S2P Require Import Prelude Bytes Json JsonText CanonicalJson.

Local Open Scope Z_scope.

(* The state of the decoder: continuation bytes to come, the bounds of the next one, and
   the bits read. *)
Record decoder := { needed : nat; lower : Z; upper : Z; code_point : Z }.
Definition idle : decoder := {| needed := 0; lower := 128; upper := 191; code_point := 0 |}.
Definition replacement : Z := 65533.
Definition units_of (p : Z) : jsstr :=
  if p <? 65536 then [p] else [0xd800 + (p - 65536) / 1024; 0xdc00 + (p - 65536) mod 1024].
Definition start (x : Z) : jsstr * decoder :=
  if x <? 128 then ([x], idle)
  else if ((194 <=? x) && (x <=? 223))%bool then ([], {| needed := 1; lower := 128; upper := 191; code_point := x - 192 |})
  else if ((224 <=? x) && (x <=? 239))%bool then
    ([], {| needed := 2; lower := if x =? 224 then 160 else 128; upper := if x =? 237 then 159 else 191; code_point := x - 224 |})
  else if ((240 <=? x) && (x <=? 244))%bool then
    ([], {| needed := 3; lower := if x =? 240 then 144 else 128; upper := if x =? 244 then 143 else 191; code_point := x - 240 |})
  else ([replacement], idle).
Definition advance (d : decoder) (x : Z) : jsstr * decoder :=
  match needed d with
  | 0%nat => start x
  | S n =>
      if ((lower d <=? x) && (x <=? upper d))%bool then
        let p := code_point d * 64 + (x - 128) in
        match n with
        | 0%nat => (units_of p, idle)
        | _ => ([], {| needed := n; lower := 128; upper := 191; code_point := p |})
        end
      else let '(out, d') := start x in (replacement :: out, d')
  end.
Fixpoint decode_from (d : decoder) (b : bytes) : jsstr :=
  match b with
  | [] => match needed d with 0%nat => [] | _ => [replacement] end
  | x :: b' => let '(out, d') := advance d x in out ++ decode_from d' b'
  end.
Definition TextDecoder_decode (b : bytes) : jsstr :=
  match decode_from idle b with
  | 65279 :: s => s
  | s => s
  end.

(** * Decoding an encoded text *)

Ltac by_bounds :=
  repeat match goal with
  | |- context [?a <? ?b] => destruct (Z.ltb_spec a b); try lia
  | |- context [?a <=? ?b] => destruct (Z.leb_spec a b); try lia
  | |- context [?a =? ?b] => destruct (Z.eqb_spec a b); try lia
  end.
Lemma decode_unit c b : 0 ≤ c < 65536 → is_high_surrogate c = false → is_low_surrogate c = false →
  decode_from idle (unit_bytes c ++ b) = c :: decode_from idle b.
Proof.
  intros Hc Hh Hl. unfold is_high_surrogate, is_low_surrogate in *. unfold unit_bytes.
  destruct (Z.ltb_spec c 128) as [H1|H1].
  { cbn [app decode_from]. unfold advance, start. cbn [needed idle]. by rewrite (proj2 (Z.ltb_lt c 128)). }
  destruct (Z.ltb_spec c 2048) as [H2|H2].
  - assert (2 ≤ c / 64 < 32) by (Z.to_euclidean_division_equations; lia).
    assert (0 ≤ c mod 64 < 64) by (Z.to_euclidean_division_equations; lia).
    cbn [app decode_from]. unfold advance at 1, start. cbn [needed idle]. by_bounds. cbn [andb app]. unfold advance. cbn [needed lower upper code_point].
    by_bounds. cbn [andb]. replace ((192 + c / 64 - 192) * 64 + (128 + c mod 64 - 128)) with c by (Z.to_euclidean_division_equations; lia).
    unfold units_of. by_bounds. done.
  - assert (0 ≤ c / 4096 < 16) by (Z.to_euclidean_division_equations; lia).
    assert (0 ≤ c / 64 mod 64 < 64) by (Z.to_euclidean_division_equations; lia).
    assert (0 ≤ c mod 64 < 64) by (Z.to_euclidean_division_equations; lia).
    assert (c / 4096 = 0 → 32 ≤ c / 64 mod 64) by (Z.to_euclidean_division_equations; lia).
    assert (c / 4096 = 13 → c / 64 mod 64 < 32).
    { intros. assert (c < 0xd800 ∨ 0xe000 ≤ c) by lia. Z.to_euclidean_division_equations; lia. }
    cbn [app decode_from]. unfold advance at 1, start. cbn [needed idle].
    rewrite (proj2 (Z.ltb_ge (224 + c / 4096) 128)) by lia. rewrite (proj2 (Z.leb_gt (224 + c / 4096) 223)) by lia. rewrite andb_false_r.
    rewrite (proj2 (Z.leb_le 224 (224 + c / 4096))), (proj2 (Z.leb_le (224 + c / 4096) 239)) by lia. cbn [andb app].
    unfold advance at 1. cbn [needed lower upper code_point].
    assert (((if 224 + c / 4096 =? 224 then 160 else 128) <=? 128 + c / 64 mod 64) = true) as ->.
    { destruct (Z.eqb_spec (224 + c / 4096) 224); lia. }
    assert ((128 + c / 64 mod 64 <=? (if 224 + c / 4096 =? 237 then 159 else 191)) = true) as ->.
    { destruct (Z.eqb_spec (224 + c / 4096) 237); lia. }
    cbn [andb app]. unfold advance. cbn [needed lower upper code_point].
    rewrite (proj2 (Z.leb_le 128 (128 + c mod 64))), (proj2 (Z.leb_le (128 + c mod 64) 191)) by lia. cbn [andb].
    replace (((224 + c / 4096 - 224) * 64 + (128 + c / 64 mod 64 - 128)) * 64 + (128 + c mod 64 - 128)) with c
      by (Z.to_euclidean_division_equations; lia).
    unfold units_of. by rewrite (proj2 (Z.ltb_lt c 65536)) by lia.
Qed.
Lemma decode_pair c d b : is_high_surrogate c = true → is_low_surrogate d = true →
  decode_from idle (pair_bytes c d ++ b) = c :: d :: decode_from idle b.
Proof.
  unfold is_high_surrogate, is_low_surrogate. intros Hc Hd.
  assert (0xd800 ≤ c ≤ 0xdbff ∧ 0xdc00 ≤ d ≤ 0xdfff) as [Bc Bd] by lia. unfold pair_bytes.
  set (p := 65536 + (c - 0xd800) * 1024 + (d - 0xdc00)). assert (65536 ≤ p < 1114112) as Bp by (unfold p; lia).
  assert (0 ≤ p / 262144 ≤ 4) by (Z.to_euclidean_division_equations; lia).
  assert (0 ≤ p / 4096 mod 64 < 64) by (Z.to_euclidean_division_equations; lia).
  assert (0 ≤ p / 64 mod 64 < 64) by (Z.to_euclidean_division_equations; lia).
  assert (0 ≤ p mod 64 < 64) by (Z.to_euclidean_division_equations; lia).
  assert (p / 262144 = 0 → 16 ≤ p / 4096 mod 64) by (Z.to_euclidean_division_equations; lia).
  assert (p / 262144 = 4 → p / 4096 mod 64 < 16) by (Z.to_euclidean_division_equations; lia).
  cbn [app decode_from]. unfold advance at 1, start. cbn [needed idle].
  rewrite (proj2 (Z.ltb_ge (240 + p / 262144) 128)) by lia. rewrite (proj2 (Z.leb_gt (240 + p / 262144) 223)) by lia. rewrite andb_false_r.
  rewrite (proj2 (Z.leb_gt (240 + p / 262144) 239)) by lia. rewrite andb_false_r.
  rewrite (proj2 (Z.leb_le 240 (240 + p / 262144))), (proj2 (Z.leb_le (240 + p / 262144) 244)) by lia. cbn [andb app].
  unfold advance at 1. cbn [needed lower upper code_point].
  assert (((if 240 + p / 262144 =? 240 then 144 else 128) <=? 128 + p / 4096 mod 64) = true) as ->.
  { destruct (Z.eqb_spec (240 + p / 262144) 240); lia. }
  assert ((128 + p / 4096 mod 64 <=? (if 240 + p / 262144 =? 244 then 143 else 191)) = true) as ->.
  { destruct (Z.eqb_spec (240 + p / 262144) 244); lia. }
  cbn [andb app]. unfold advance at 1. cbn [needed lower upper code_point].
  rewrite (proj2 (Z.leb_le 128 (128 + p / 64 mod 64))), (proj2 (Z.leb_le (128 + p / 64 mod 64) 191)) by lia. cbn [andb app].
  unfold advance. cbn [needed lower upper code_point].
  rewrite (proj2 (Z.leb_le 128 (128 + p mod 64))), (proj2 (Z.leb_le (128 + p mod 64) 191)) by lia. cbn [andb].
  replace ((((240 + p / 262144 - 240) * 64 + (128 + p / 4096 mod 64 - 128)) * 64 + (128 + p / 64 mod 64 - 128)) * 64 + (128 + p mod 64 - 128)) with p
    by (Z.to_euclidean_division_equations; lia).
  unfold units_of. rewrite (proj2 (Z.ltb_ge p 65536)) by lia. cbn [app]. f_equal; [|f_equal]; unfold p; Z.to_euclidean_division_equations; lia.
Qed.
Lemma decode_utf8 s : text_ok s = true → decode_from idle (utf8 s) = s.
Proof.
  revert s. apply (strings_by_pairs (λ s, text_ok s = true → decode_from idle (utf8 s) = s)); [done| |].
  - intros c Hok. cbn [utf8]. destruct (is_high_surrogate c) eqn:Hc.
    { by destruct (text_ok_cons_high c [] Hc Hok) as (? & ? & ? & _). }
    destruct (text_ok_cons_unit c [] Hc Hok) as (Hr & Hl & _). rewrite Hl. by rewrite decode_unit.
  - intros c d s IHs IHds Hok. remember (d :: s) as t eqn:Et. cbn [utf8]. destruct (is_high_surrogate c) eqn:Hc.
    + destruct (text_ok_cons_high c t Hc Hok) as (d' & s' & E0 & Hd). rewrite Et in E0 |- *. injection E0 as <- <-.
      rewrite Hd, decode_pair by done. rewrite IHs; [done|]. subst t. by eapply text_ok_cons_pair.
    + destruct (text_ok_cons_unit c t Hc Hok) as (Hr & Hl & Ht). rewrite Hl. by rewrite decode_unit, IHds.
Qed.
(** A text without lone surrogates and byte order mark survives the encoder and the decoder. *)
Lemma decode_encoded s : text_ok s = true → head s ≠ Some 65279 → TextDecoder_decode (utf8 s) = s.
Proof.
  intros Hs Hbom. unfold TextDecoder_decode. rewrite decode_utf8 by done. destruct s as [|c s]; [done|].
  destruct (Z.eqb_spec c 65279) as [->|Hc]; [done|]. destruct c as [|p|p]; try done.
  do 16 (destruct p as [p|p|]; try done).
Qed.

Example decodes_malformed :
  TextDecoder_decode [239; 187; 191; 104; 105] = [104; 105] ∧
  TextDecoder_decode [192; 128] = [65533; 65533] ∧
  TextDecoder_decode [240; 159; 152] = [65533] ∧
  TextDecoder_decode [237; 160; 128] = [65533; 65533; 65533] ∧
  TextDecoder_decode [226; 130; 65] = [65533; 65].
Proof. by vm_compute. Qed.
