(* ===== verification/SubmissionFixtures.v ===== *)
(** A complete submission, the one services/intake/test/helpers/receipt-fixtures.mjs builds
    from protocol/fixtures/v0/valid: the documents of the fixtures, with the identities,
    digests and sizes computed under the sample hash. The signature bytes are placeholders:
    what verified them is the outcome that comes with them. *)
From S2P Require Import Prelude Patterns Bytes Json JsonText CanonicalJson Schema Registry Values.

Local Open Scope Z_scope.

Module Fixture.
Import SampleHash SampleText.
Definition identity_of (id : throws string) : json := match id with Ret id => jstr id | Throw _ => JNull end.
Definition jtexts (texts : list string) : json := jarr (List.map jstr texts).
Definition text_of (v : json) : jsstr := JSON_stringify v.
Definition lines (l : list string) : jsstr := List.flat_map (λ s, js s ++ [10]) l.
Definition digest_of (s : jsstr) : json := jstr ("sha256:" +:+ sha256_hex (utf8 s)).
Definition artifact (name type class entry media : string) (content : jsstr) (more : list (string * json)) : json :=
  jobj ([("protocol_version", jstr "codeattest.v0"); ("artifact_ref", jstr ("artifact_ref:" +:+ name)); ("artifact_type", jstr type);
         ("digest", digest_of content); ("size_bytes", jnum (Z.of_nat (length (utf8 content)))); ("source_derived_class", jstr class);
         ("manifest_entry_ref", jstr ("manifest_entry:" +:+ entry)); ("media_type", jstr media)] ++ more).

Definition snippet : jsstr := Eval vm_compute in lines ["SYNTHETIC_DEMO_DATA"; "NOT_CUSTOMER_SOURCE"; "";
    "This is synthetic Raw Snippet-like demo content for Story 1.2 fixture-safety checks.";
    "It is not customer source, not production code, and not evidence collected from a customer environment."].
Definition application : json := Eval vm_compute in jobj [("application_id", jstr "synthetic-demo-app"); ("display_name", jstr "Synthetic Demo Application")].
Definition commit : json := Eval vm_compute in jobj [("commit_sha", jstr "0123456789abcdef0123456789abcdef01234567"); ("source_control_system", jstr "git")].
Definition repository : json := Eval vm_compute in jstr "sha256:b8cc052213b8d87084a602fbff734a3112b9c52e0991b50b55066ece93046ec8".
Definition finding_set_identity : json := Eval vm_compute in jstr "sha256:bbbbbbbbbbbbbbbbbbbbbbbbbbbbbbbbbbbbbbbbbbbbbbbbbbbbbbbbbbbbbbbb".
Definition scope_body : list (string * json) := Eval vm_compute in [("protocol_version", jstr "codeattest.v0"); ("review_id", jstr "review:synthetic-demo-001");
    ("generated_at", jstr "2026-07-06T00:00:00Z"); ("selected_application", application); ("selected_commit", commit); ("repository_identity",
    repository); ("runner", jobj [("name", jstr "codeattest-local-runner"); ("version", jstr "0.0.0-story-1.3-fixture")]); ("technical_context", jarr
    [jobj [("context_type", jstr "language"); ("status", jstr "detected"); ("value", jstr "typescript")]; jobj [("context_type", jstr "language");
    ("status", jstr "detected"); ("value", jstr "python")]; jobj [("context_type", jstr "framework"); ("status", jstr "detected"); ("value", jstr
    "react")]; jobj [("context_type", jstr "framework"); ("status", jstr "not_detected"); ("value", jstr "django")]; jobj [("context_type", jstr
    "scanner"); ("status", jstr "unsupported"); ("value", jstr "scanner behavior begins after protocol fixture seeding")]]); ("dependency_manifests",
    jarr [jobj [("manifest_type", jstr "package_json"); ("status", jstr "detected"); ("path", jstr "package.json"); ("package_manager", jstr "npm");
    ("dependency_count", jnum 2); ("dependencies", jtexts ["react"; "typescript"])]; jobj [("manifest_type", jstr "requirements_txt"); ("status",
    jstr "detected"); ("path", jstr "requirements.txt"); ("package_manager", jstr "pip"); ("dependency_count", jnum 1); ("dependencies", jtexts
    ["fastapi"])]; jobj [("manifest_type", jstr "pyproject_toml"); ("status", jstr "unsupported"); ("path", jstr "pyproject.toml");
    ("package_manager", jstr "unknown"); ("dependency_count", jnum 0); ("dependencies", jarr []); ("limitation", jstr
    "pyproject.toml detected but dependency extraction is deferred to runner implementation")]; jobj [("manifest_type", jstr "pipfile"); ("status",
    jstr "not_found"); ("package_manager", jstr "pipenv"); ("dependency_count", jnum 0); ("dependencies", jarr [])]])].
Definition scope_identity : json := Eval vm_compute in identity_of (computeCanonicalSha256Id (jobj
    [("generated_at", jstr "2026-07-06T00:00:00Z"); ("protocol_version", jstr "codeattest.v0"); ("repository_identity", repository);
     ("review_id", jstr "review:synthetic-demo-001"); ("runner_name", jstr "codeattest-local-runner"); ("runner_version", jstr "0.0.0-story-1.3-fixture");
     ("selected_application_id", jstr "synthetic-demo-app"); ("selected_commit", jstr "0123456789abcdef0123456789abcdef01234567")])).
Definition scope : json := Eval vm_compute in jobj (("review_scope_id", scope_identity) :: scope_body).
Definition findings : json := Eval vm_compute in jobj [("protocol_version", jstr "codeattest.v0"); ("scanner_finding_set_id", finding_set_identity); ("generated_at",
    jstr "2026-07-08T00:00:00Z"); ("review_scope_ref", scope_identity); ("runner", jobj [("name", jstr "codeattest-local-runner"); ("version", jstr
    "0.0.0-story-1.5-fixture")]); ("source_derived_class", jstr "retained_review_artifact"); ("scanner_runs", jarr [jobj [("scanner_name", jstr
    "regex"); ("scanner_version", jstr "0.0.0-story-1.5-fixture"); ("ruleset_identifier", jstr "local:demo-regex-rules"); ("executed_at", jstr
    "2026-07-08T00:00:00Z"); ("status", jstr "succeeded"); ("covered_file_group", jstr "typescript_javascript"); ("scanned_files", jtexts
    ["src/app.ts"]); ("rerun_possible", jbool true); ("source_derived_class", jstr "retained_review_artifact")]; jobj [("scanner_name", jstr
    "semgrep"); ("scanner_version", jstr "1.168.0"); ("ruleset_identifier", jstr "local:demo-semgrep-rules"); ("executed_at", jstr
    "2026-07-08T00:00:00Z"); ("status", jstr "succeeded"); ("covered_file_group", jstr "typescript_javascript"); ("scanned_files", jtexts
    ["src/app.ts"]); ("rerun_possible", jbool true); ("source_derived_class", jstr "retained_review_artifact")]]); ("candidate_findings", jarr [jobj
    [("candidate_finding_id", jstr "candidate_finding:demo_regex_001"); ("source", jstr "regex"); ("affected_area", jstr "src/app.ts:2:18");
    ("severity", jstr "warning"); ("confidence", jstr "medium"); ("scanner_rule_id", jstr "demo.regex.eval"); ("original_reference", jstr
    "regex:demo.regex.eval:src/app.ts:2:18"); ("status", jstr "candidate"); ("source_derived_class", jstr "retained_review_artifact");
    ("source_artifact_refs", jtexts ["artifact_ref:synthetic_raw_snippet"])]; jobj [("candidate_finding_id", jstr
    "candidate_finding:demo_semgrep_001"); ("source", jstr "semgrep"); ("affected_area", jstr "src/app.ts:4:7"); ("severity", jstr "warning");
    ("confidence", jstr "medium"); ("scanner_rule_id", jstr "demo.semgrep.insecure-random"); ("original_reference", jstr
    "semgrep:demo.semgrep.insecure-random:src/app.ts:4:7"); ("status", jstr "candidate"); ("source_derived_class", jstr "retained_review_artifact");
    ("source_artifact_refs", jtexts ["artifact_ref:synthetic_raw_snippet"])]]); ("coverage_limitations", jtexts
    ["Synthetic fixture only; scanner results are not expert classifications."; "Python file group was not scanned by this fixture ruleset."]);
    ("artifact_references", jarr [])].
Definition policy_body : list (string * json) := Eval vm_compute in [("protocol_version", jstr "codeattest.v0"); ("created_at", jstr "2026-07-06T00:00:00Z");
    ("review_scope_ref", scope_identity); ("scanner_finding_set_ref", finding_set_identity); ("coverage_mode", jstr "finding_context_snippets");
    ("include_metadata", jbool true); ("include_dependency_information", jbool true); ("include_scanner_findings", jbool true);
    ("evidence_categories", jarr [jobj [("category", jstr "metadata"); ("included", jbool true); ("source_derived_class", jstr
    "retained_review_artifact"); ("retention_handling", jstr "retained review metadata")]; jobj [("category", jstr "dependencies"); ("included",
    jbool true); ("source_derived_class", jstr "retained_review_artifact"); ("retention_handling", jstr "retained dependency metadata")]; jobj
    [("category", jstr "scanner_findings"); ("included", jbool true); ("source_derived_class", jstr "retained_review_artifact");
    ("retention_handling", jstr "retained Candidate Findings only")]; jobj [("category", jstr "raw_snippets"); ("included", jbool true);
    ("source_derived_class", jstr "transient_source_derived"); ("retention_handling", jstr "transient capped finding-context Raw Snippets only")];
    jobj [("category", jstr "targeted_files"); ("included", jbool false); ("source_derived_class", jstr "never_collected"); ("retention_handling",
    jstr "not collected in finding-context mode")]; jobj [("category", jstr "derived_artifacts"); ("included", jbool true); ("source_derived_class",
    jstr "retained_review_artifact"); ("retention_handling", jstr "retained derived policy metadata")]; jobj [("category", jstr
    "never_collected_items"); ("included", jbool false); ("source_derived_class", jstr "never_collected"); ("retention_handling", jstr
    "complete repository archives and non-selected files are not collected"); ("limitation", jstr
    "No complete repository archive is represented by this policy.")]]); ("snippet_policy", jobj [("allow_raw_snippets", jbool true);
    ("max_snippet_chars", jnum 800); ("context_lines", jnum 2); ("redaction_profile", jstr "synthetic-demo-redaction"); ("raw_snippet_default_class",
    jstr "transient_source_derived"); ("selection_behavior", jstr "finding_context"); ("selected_files_or_areas", jarr [])]); ("redaction_policy",
    jobj [("enabled", jbool true); ("profile", jstr "synthetic-demo-redaction"); ("configuration_version", jstr "synthetic-demo-redaction-v0");
    ("limitation", jstr "Redaction reduces exposure but secret detection cannot prove absence of secrets.")]); ("retention_policy", jobj
    [("raw_snippet_class", jstr "transient_source_derived"); ("targeted_file_class", jstr "transient_source_derived"); ("retain_source_opt_in", jbool
    false); ("retention_period", jstr "not_applicable")]); ("warnings", jtexts
    ["Finding-context snippets are Raw Snippets and remain source-code disclosure even when capped or redacted."]); ("limitations", jtexts
    ["Redaction reduces exposure but secret detection cannot prove absence of secrets.";
    "Candidate Findings are scanner output only, not review findings."; "No complete repository archive is collected."]);
    ("synthetic_fixture_markers", jtexts ["SYNTHETIC_DEMO_DATA"; "NOT_CUSTOMER_SOURCE"])].
Definition policy_identity : json := Eval vm_compute in identity_of (computeCanonicalSha256Id (jobj policy_body)).
Definition policy : json := Eval vm_compute in jobj (("disclosure_policy_id", policy_identity) :: policy_body).
Definition runner : json := Eval vm_compute in jobj [("name", jstr "codeattest-local-runner"); ("version", jstr "0.0.0-story-1.7-fixture")].
Definition warnings : json := Eval vm_compute in jtexts ["Manifest preview is local-only and does not transmit evidence.";
    "Raw Snippets are source-code disclosure even when capped or redaction is configured.";
    "Redaction configuration is recorded, but secret detection cannot prove absence of secrets."].
Definition manifest_body : list (string * json) := Eval vm_compute in [("protocol_version", jstr "codeattest.v0"); ("generated_at", jstr "2026-07-10T00:00:00Z");
    ("review_scope_ref", scope_identity); ("disclosure_policy_ref", policy_identity); ("scanner_finding_set_ref", finding_set_identity);
    ("selected_scope_summary", jobj [("selected_application", application); ("selected_commit", commit); ("repository_identity", repository);
    ("dependency_manifest_total_count", jnum 4); ("dependency_manifest_detected_count", jnum 2)]); ("runner", runner); ("coverage_mode", jstr
    "finding_context_snippets"); ("disclosure_policy_summary", jobj [("disclosure_policy_ref", policy_identity); ("coverage_mode", jstr
    "finding_context_snippets"); ("redaction_profile", jstr "synthetic-demo-redaction"); ("redaction_configuration_version", jstr
    "synthetic-demo-redaction-v0"); ("retention_period", jstr "not_applicable")]); ("evidence_categories", jarr [jobj [("category", jstr "metadata");
    ("included", jbool true); ("inclusion_state", jstr "included"); ("count", jnum 1); ("reference", jstr "review_scope_ref");
    ("source_derived_class", jstr "retained_review_artifact"); ("source_code_disclosure", jbool false); ("redaction_state", jstr "not_applicable");
    ("redaction_configuration_version", jstr "not_applicable"); ("retention_handling", jstr "retained review metadata"); ("limitation", jstr
    "Review scope metadata is included; source contents are not included by this category."); ("details", jtexts
    ["Selected application, selected commit, repository identity hash, runner metadata, and technical context are included."])]; jobj [("category",
    jstr "dependencies"); ("included", jbool true); ("inclusion_state", jstr "included"); ("count", jnum 2); ("reference", jstr
    "review_scope.dependency_manifests"); ("source_derived_class", jstr "retained_review_artifact"); ("source_code_disclosure", jbool false);
    ("redaction_state", jstr "not_applicable"); ("redaction_configuration_version", jstr "not_applicable"); ("retention_handling", jstr
    "retained dependency metadata"); ("limitation", jstr
    "Dependency names and manifest metadata are included; lockfile expansion may be unsupported."); ("details", jtexts
    ["Detected package_json and requirements_txt dependency metadata are represented by count and reference: 2 detected of 4 total dependency manifest slots."])];
    jobj [("category", jstr "scanner_findings"); ("included", jbool true); ("inclusion_state", jstr "included"); ("count", jnum 2); ("reference",
    jstr "scanner_finding_set_ref"); ("source_derived_class", jstr "retained_review_artifact"); ("source_code_disclosure", jbool false);
    ("redaction_state", jstr "not_applicable"); ("redaction_configuration_version", jstr "not_applicable"); ("retention_handling", jstr
    "retained Candidate Findings only"); ("limitation", jstr "Candidate Findings are scanner output only and are not expert review findings.");
    ("details", jtexts ["Candidate Finding identifiers, affected areas, rules, severity, confidence, and scanner run metadata are included."])]; jobj
    [("category", jstr "raw_snippets"); ("included", jbool true); ("inclusion_state", jstr "included"); ("count", jnum 2); ("reference", jstr
    "planned_finding_context_snippets"); ("source_derived_class", jstr "transient_source_derived"); ("source_code_disclosure", jbool true);
    ("redaction_state", jstr "redaction_configured"); ("redaction_configuration_version", jstr "synthetic-demo-redaction-v0"); ("retention_handling",
    jstr "transient capped finding-context Raw Snippets only"); ("limitation", jstr
    "Raw Snippets are source-code disclosure; redaction configuration is recorded, and secret detection cannot prove absence of secrets.");
    ("details", jtexts ["Source-code disclosure label: Raw Snippets.";
    "Preview records planned snippet metadata only; no snippet source contents are included in this fixture.";
    "Snippet cap is 800 characters with 2 context lines."]); ("snippet_controls", jobj [("max_snippet_chars", jnum 800); ("context_lines", jnum 2);
    ("redaction_profile", jstr "synthetic-demo-redaction"); ("redaction_configuration_version", jstr "synthetic-demo-redaction-v0");
    ("retention_class", jstr "transient_source_derived"); ("selected_files_or_areas", jarr [])])]; jobj [("category", jstr "targeted_files");
    ("included", jbool false); ("inclusion_state", jstr "excluded_by_policy"); ("count", jnum 0); ("reference", jstr
    "not_included_by_finding_context_policy"); ("source_derived_class", jstr "never_collected"); ("source_code_disclosure", jbool false);
    ("redaction_state", jstr "not_applicable"); ("redaction_configuration_version", jstr "not_applicable"); ("retention_handling", jstr
    "not collected in finding-context mode"); ("limitation", jstr "Targeted files are excluded by the Disclosure Policy for finding-context mode.");
    ("details", jtexts ["No selected files or area references are included."])]; jobj [("category", jstr "derived_artifacts"); ("included", jbool
    true); ("inclusion_state", jstr "included"); ("count", jnum 4); ("reference", jstr
    "review_scope_ref, scanner_finding_set_ref, disclosure_policy_ref, outbound_manifest_preview"); ("source_derived_class", jstr
    "retained_review_artifact"); ("source_code_disclosure", jbool false); ("redaction_state", jstr "not_applicable");
    ("redaction_configuration_version", jstr "not_applicable"); ("retention_handling", jstr "retained derived protocol metadata"); ("limitation",
    jstr "Derived artifacts describe local protocol metadata and preview state, not a submitted evidence bundle."); ("details", jtexts
    ["Review scope, scanner finding set, Disclosure Policy, and outbound manifest metadata are represented."])]; jobj [("category", jstr
    "never_collected_items"); ("included", jbool false); ("inclusion_state", jstr "never_collected"); ("count", jnum 5); ("reference", jstr
    "data_minimization_boundary"); ("source_derived_class", jstr "never_collected"); ("source_code_disclosure", jbool false); ("redaction_state",
    jstr "not_applicable"); ("redaction_configuration_version", jstr "not_applicable"); ("retention_handling", jstr
    "complete repository archives and non-selected files are not collected"); ("limitation", jstr
    "Data minimization boundary is explicit before approval or transmission."); ("details", jtexts ["complete repository archive";
    "full Git history"; "unapproved source files"; "unapproved Raw Snippets"; "local environment secrets"])]]); ("artifact_references", jarr
    [artifact "review_scope" "review_scope" "retained_review_artifact" "metadata" "application/json" (text_of scope) []; artifact
    "scanner_finding_set" "scanner_finding_set" "retained_review_artifact" "scanner_findings" "application/json" (text_of findings) []; artifact
    "disclosure_policy" "disclosure_policy" "retained_review_artifact" "derived_artifacts" "application/json" (text_of policy) []]);
    ("package_preview_state", jobj [("state", jstr "preview_generated"); ("send_ready", jbool false); ("local_only", jbool true)]); ("approval", jobj
    [("approval_state", jstr "not_requested")]); ("warnings", warnings); ("limitations", jtexts
    ["Preview records manifest metadata only; it is not an approved, signed, submitted, or received evidence bundle.";
    "Candidate Findings are scanner output only, not review findings."; "No complete repository archive is collected or represented."])].
Definition manifest_identity : json := Eval vm_compute in identity_of (computeCanonicalSha256Id (jobj manifest_body)).
Definition manifest : json := Eval vm_compute in jobj (("manifest_id", manifest_identity) :: manifest_body).
Definition approval : json := Eval vm_compute in jobj [("protocol_version", jstr "codeattest.v0"); ("approval_id", jstr "approval:synthetic_demo_approval");
    ("manifest_id", manifest_identity); ("decision", jstr "approved"); ("decided_at", jstr "2026-07-10T00:10:00Z"); ("approving_actor", jobj
    [("actor_type", jstr "customer_user"); ("actor_id", jstr "maya@example.com")]); ("displayed_context", jobj [("manifest_id", manifest_identity);
    ("selected_application", application); ("selected_commit", commit); ("repository_identity", repository); ("coverage_mode", jstr
    "finding_context_snippets"); ("disclosure_policy_ref", policy_identity); ("scanner_finding_set_ref", finding_set_identity);
    ("disclosure_warnings", warnings); ("bundle_preview_summary", jstr
    "not_submitted local Evidence Bundle preview with review scope, scanner finding set, Disclosure Policy, outbound manifest, approved synthetic Raw Snippet artifact reference, customer approval, bundle identity, and demo signature metadata; no evidence is sent and no remote intake result is produced.")]);
    ("warnings_acknowledged", warnings)].
Definition gate : json := Eval vm_compute in jobj [("protocol_version", jstr "codeattest.v0"); ("environment_profile", jstr "synthetic_demo");
    ("allowed_source_derived_classes", jtexts ["never_collected"; "retained_review_artifact"; "transient_source_derived"]);
    ("real_raw_snippet_acceptance", jbool false); ("real_targeted_file_acceptance", jbool false); ("access_control_ready", jbool false);
    ("access_logging_ready", jbool false); ("encryption_at_rest_ready", jbool false); ("retention_defaults_ready", jbool false);
    ("deletion_controls_ready", jbool false); ("demo_budget_gate_ready", jbool true); ("signing_release_trust_ready", jbool false);
    ("retention_period_required", jbool false); ("evidence_boundary", jstr "synthetic-demo-only"); ("notes", jtexts
    ["Synthetic demo mode rejects real Raw Snippets and real targeted files.";
    "This gate does not implement production storage, access logging, encryption, deletion evidence, or receipt issuance."])].
Definition bundle_body : list (string * json) := Eval vm_compute in [("protocol_version", jstr "codeattest.v0"); ("manifest_id", manifest_identity);
    ("customer_approval_ref", jstr "approval:synthetic_demo_approval"); ("customer_approval_decision", jstr "approved"); ("bundle_state", jstr
    "not_submitted"); ("review_scope_ref", scope_identity); ("disclosure_policy_ref", policy_identity); ("scanner_finding_set_ref",
    finding_set_identity); ("coverage_mode", jstr "finding_context_snippets"); ("bundle_instance_id", jstr "bundle_instance:synthetic_demo_001");
    ("submission_attempt_id", jstr "submission_attempt:synthetic_demo_001"); ("created_at", jstr "2026-07-10T00:15:00Z"); ("runner", runner);
    ("tool_versions", jarr [jobj [("tool_name", jstr "typescript"); ("tool_version", jstr "6.0.3")]; jobj [("tool_name", jstr
    "local-runner-scaffold"); ("tool_version", jstr "0.0.0-story-1.8-fixture")]]); ("artifact_references", jarr [artifact "review_scope"
    "review_scope" "retained_review_artifact" "metadata" "application/json" (text_of scope) []; artifact "scanner_finding_set" "scanner_finding_set"
    "retained_review_artifact" "scanner_findings" "application/json" (text_of findings) []; artifact "disclosure_policy" "disclosure_policy"
    "retained_review_artifact" "derived_artifacts" "application/json" (text_of policy) []; artifact "outbound_manifest" "outbound_manifest"
    "retained_review_artifact" "derived_artifacts" "application/json" (text_of manifest) []; artifact "customer_approval" "customer_approval"
    "retained_review_artifact" "derived_artifacts" "application/json" (text_of approval) []; artifact "synthetic_raw_snippet" "raw_snippet"
    "transient_source_derived" "raw_snippets" "text/plain" snippet [("synthetic_markers", jtexts ["SYNTHETIC_DEMO_DATA"; "NOT_CUSTOMER_SOURCE"])]]);
    ("verification_metadata", jobj [("identity_canonicalization", jstr "rfc8785"); ("identity_hash_algorithm", jstr "sha256");
    ("identity_input_excludes", jtexts ["evidence_bundle_id"]); ("signed_identity_type", jstr "evidence_bundle"); ("approved_manifest_id",
    manifest_identity); ("signature_envelope_path", jstr "v0/valid/signature-envelope.bundle.json"); ("bundle_signing_mode", jstr
    "enrolled_runner_key")]); ("local_cleanup_intent", jarr [jobj [("artifact_ref", jstr "artifact_ref:synthetic_raw_snippet");
    ("source_derived_class", jstr "transient_source_derived"); ("cleanup_state", jstr "pending_local_cleanup"); ("cleanup_required", jbool true);
    ("deletion_evidence_state", jstr "pending")]])].
Definition bundle_identity : json := Eval vm_compute in identity_of (computeCanonicalSha256Id (jobj bundle_body)).
Definition bundle : json := Eval vm_compute in jobj (("evidence_bundle_id", bundle_identity) :: bundle_body).
Definition envelope : json := Eval vm_compute in jobj [("protocol_version", jstr "codeattest.v0"); ("algorithm_profile", jstr "ml_dsa_65"); ("key_id", jstr
    "codeattest-local-runner-demo-key"); ("key_version", jstr "story-1.8-synthetic-demo"); ("signing_time", jstr "2026-07-10T00:16:00Z");
    ("signed_identity_type", jstr "evidence_bundle"); ("signed_identity", bundle_identity); ("canonicalization", jstr "rfc8785"); ("signing_mode",
    jstr "enrolled_runner_key"); ("signing_limitations", jtexts
    ["SYNTHETIC_DEMO_DATA This signature covers synthetic fixture data. NOT_CUSTOMER_SOURCE.";
    "Key custody is customer-held runner custody; the private key is generated on this machine and never transmitted.";
    "The runner is open source and runs on the customer's own machine, so this signature cannot attest that the runner code was unmodified."]);
    ("signature_bytes", JString (js "ml_dsa_65:" ++ replicate 4412 65))].
Definition outcome : json := Eval vm_compute in jobj [("protocol_version", jstr "codeattest.v0"); ("signed_identity_type", jstr "evidence_bundle"); ("signed_identity",
    bundle_identity); ("algorithm_profile", jstr "ml_dsa_65"); ("key_id", jstr "codeattest-local-runner-demo-key"); ("key_version", jstr
    "story-1.8-synthetic-demo"); ("key_directory_version", jnum 1); ("verified_at", jstr "2026-08-16T00:00:00Z"); ("result", jstr "verified")].
Definition session : json := Eval vm_compute in jobj [("customer_id", jstr "customer:synthetic-demo"); ("review_request_id", jstr "review_request:synthetic-demo-001");
    ("selected_application_id", prop "application_id" application); ("selected_commit", prop "commit_sha" commit); ("repository_identity_hash",
    repository)].
Definition token : json := Eval vm_compute in jobj [("token_key_id", jstr "runner-token:synthetic-demo"); ("token_secret_material", jstr "synthetic-token-secret")].
Definition expectation : json := Eval vm_compute in jobj [("customer_id", jstr "customer:synthetic-demo"); ("review_request_id", jstr
    "review_request:synthetic-demo-001"); ("selected_application_id", prop "application_id" application); ("selected_commit", prop "commit_sha"
    commit); ("repository_identity_hash", repository); ("expected_manifest_id", manifest_identity); ("expected_evidence_bundle_id", bundle_identity);
    ("token_key_id", jstr "runner-token:synthetic-demo"); ("token_secret_material", jstr "synthetic-token-secret")].
Definition shipped_documents : list (jsstr * jsstr) := Eval vm_compute in [(js "artifact_ref:review_scope", text_of scope); (js "artifact_ref:scanner_finding_set",
    text_of findings); (js "artifact_ref:disclosure_policy", text_of policy); (js "artifact_ref:outbound_manifest", text_of manifest); (js
    "artifact_ref:customer_approval", text_of approval); (js "artifact_ref:synthetic_raw_snippet", snippet)].
End Fixture.
