(* ===== verification/ReviewEventLog.v ===== *)
(** Validation of a stored review event log for rendering
    (packages/protocol-ts/src/review-event-log.ts). *)
From S2P Require Import Prelude Patterns Bytes Json CanonicalJson Schema Registry Values.

Local Open Scope Z_scope.

Inductive ReviewEventLogIssue :=
  | schema_invalid
  | sequence_not_strictly_increasing
  | duplicate_event_id
  | duplicate_idempotency_key
  | event_protocol_version_mismatch
  | event_review_id_mismatch
  | event_identity_excludes_invalid
  | event_identity_mismatch
  | supersedes_event_unresolved.
#[export] Instance ReviewEventLogIssue_eq_dec : EqDecision ReviewEventLogIssue.
Proof. solve_decision. Defined.

Definition PLACEHOLDER_VALID_TIMESTAMP : jsstr := js "2026-01-01T00:00:00Z".

(* left.sequence_number - right.sequence_number; NaN counts as equal. *)
Definition seq_cmp (l r : json) : Z :=
  match prop "sequence_number" l, prop "sequence_number" r with JNumber a, JNumber b => a - b | _, _ => 0 end.
(* sequence <= previous; None is -Infinity or a value that is not a number. *)
Definition not_above (sequence : json) (previous : option Z) : bool :=
  match sequence, previous with JNumber n, Some p => n <=? p | _, _ => false end.
Definition as_previous (sequence : json) : option Z := match sequence with JNumber n => Some n | _ => None end.
(* excludes.length !== 1 || excludes[0] !== "event_id", negated *)
Definition excludes_event_id (v : json) : throws bool :=
  match v with
  | JNull | JForeign => Throw "Cannot read properties of undefined (reading 'length')"
  | JArray [x] => Ret (x === JString (js "event_id"))
  | _ => Ret false
  end.

Record seen := {
  seenEventIds : list json; seenIdempotencyKeys : list json; priorEventIds : list json; previousSequence : option Z
}.
Definition nothing_seen : seen :=
  {| seenEventIds := []; seenIdempotencyKeys := []; priorEventIds := []; previousSequence := None |}.

Section event_log.
Context `{Sha256}.
(* validateProtocolSchema(id, value).length === 0 *)
Variable valid : string → json → bool.
Definition REVIEW_EVENT : string := "urn:codeattest:protocol:v0:review-event".
Definition REVIEW_EVENT_LOG : string := "urn:codeattest:protocol:v0:review-event-log".

Definition isReviewEventShapedIgnoringTimestampFormat (candidate : json) : bool :=
  match candidate with
  | JObject fs =>
      (valid REVIEW_EVENT candidate
       || valid REVIEW_EVENT (JObject (JsMap.set (js "event_timestamp") (JString PLACEHOLDER_VALID_TIMESTAMP) fs)))%bool
  | _ => false
  end.
Definition isReviewEventLogShaped (v : json) : option (list json) :=
  match prop "events" v with JArray events => Some events | _ => None end.

(* The issues of one event, given what was seen before it. *)
Definition event_issues (protocolVersion reviewId : json) (st : seen) (event : json) : throws (list ReviewEventLogIssue) :=
  let first :=
    issue_when (not_above (prop "sequence_number" event) (previousSequence st)) sequence_not_strictly_increasing ++
    issue_when (bool_decide (prop "event_id" event ∈ seenEventIds st)) duplicate_event_id ++
    issue_when (bool_decide (prop "idempotency_key" event ∈ seenIdempotencyKeys st)) duplicate_idempotency_key ++
    issue_when (prop "protocol_version" event !== protocolVersion) event_protocol_version_mismatch ++
    issue_when (prop "review_id" event !== reviewId) event_review_id_mismatch in
  excluded ← excludes_event_id (prop "identity_input_excludes" event);
  identity ← (if negb excluded then Ret [event_identity_excludes_invalid]
              else recomputed ← recomputeExcludedFieldsIdentity event [js "event_id"] None;
                   Ret (match recomputed with
                        | Some id => issue_when (prop "event_id" event !== JString (js id)) event_identity_mismatch
                        | None => [event_identity_mismatch]
                        end));
  Ret (first ++ identity ++
       issue_when (negb (is_undefined (prop "supersedes_event_id" event))
                 && negb (bool_decide (prop "supersedes_event_id" event ∈ priorEventIds st)))%bool supersedes_event_unresolved).
Definition after_event (st : seen) (event : json) (issues : list ReviewEventLogIssue) : seen :=
  if bool_decide (issues = []) then
    {| seenEventIds := prop "event_id" event :: seenEventIds st;
       seenIdempotencyKeys := prop "idempotency_key" event :: seenIdempotencyKeys st;
       priorEventIds := prop "event_id" event :: priorEventIds st;
       previousSequence := as_previous (prop "sequence_number" event) |}
  else {| seenEventIds := seenEventIds st; seenIdempotencyKeys := seenIdempotencyKeys st;
          priorEventIds := priorEventIds st; previousSequence := as_previous (prop "sequence_number" event) |}.
Fixpoint check_ordered (protocolVersion reviewId : json) (st : seen) (ordered : list json)
    : throws (list (json * list ReviewEventLogIssue)) :=
  match ordered with
  | [] => Ret []
  | event :: ordered' =>
      issues ← event_issues protocolVersion reviewId st event;
      rest ← check_ordered protocolVersion reviewId (after_event st event issues) ordered';
      Ret ((event, issues) :: rest)
  end.
Definition orderedEventsWithIssues (protocolVersion reviewId : json) (events : list json)
    : throws (list (json * list ReviewEventLogIssue)) :=
  check_ordered protocolVersion reviewId nothing_seen
    (sortBy seq_cmp (List.filter isReviewEventShapedIgnoringTimestampFormat events)).

Definition reviewEventLogIssues (log : json) : throws (list ReviewEventLogIssue) :=
  if negb (valid REVIEW_EVENT_LOG log) then Ret [schema_invalid]
  else match isReviewEventLogShaped log with
  | None => Throw "log.events is not iterable"
  | Some events =>
      results ← orderedEventsWithIssues (prop "protocol_version" log) (prop "review_id" log) events;
      Ret (mjoin (List.map snd results))
  end.
Definition reviewEventLogStructurallyValid (log : json) : throws bool :=
  issues ← reviewEventLogIssues log; Ret (bool_decide (issues = [])).
Definition structurallyValidReviewEvents (log : json) : throws (option (list json)) :=
  match isReviewEventLogShaped log with
  | None => Ret None
  | Some events =>
      results ← orderedEventsWithIssues (prop "protocol_version" log) (prop "review_id" log) events;
      Ret (Some (List.map fst (List.filter (λ r : json * list ReviewEventLogIssue, bool_decide (r.2 = [])) results)))
  end.

(** * The events that survive *)

Definition kept (results : list (json * list ReviewEventLogIssue)) : list json :=
  List.map fst (List.filter (λ r : json * list ReviewEventLogIssue, bool_decide (r.2 = [])) results).
(* What an event without issues satisfies. *)
Record event_consistent (protocolVersion reviewId : json) (st : seen) (event : json) : Prop := {
  consistent_above : not_above (prop "sequence_number" event) (previousSequence st) = false;
  consistent_id : prop "event_id" event ∉ seenEventIds st;
  consistent_key : prop "idempotency_key" event ∉ seenIdempotencyKeys st;
  consistent_protocol : prop "protocol_version" event = protocolVersion;
  consistent_review : prop "review_id" event = reviewId;
  consistent_identity : ∃ id, recomputeExcludedFieldsIdentity event [js "event_id"] None = Ret (Some id) ∧
    prop "event_id" event = JString (js id);
  consistent_supersedes : prop "supersedes_event_id" event = JForeign ∨ prop "supersedes_event_id" event ∈ priorEventIds st
}.
Lemma event_issues_nil pv rid st event :
  event_issues pv rid st event = Ret [] → event_consistent pv rid st event.
Proof.
  unfold event_issues. destruct (excludes_event_id _) as [ex|]; [|done]. cbn [mbind throws_bind].
  destruct ex; cbn [negb]; [|intros [= E0]; apply (f_equal length) in E0; rewrite !length_app in E0; simpl in E0; lia].
  destruct (recomputeExcludedFieldsIdentity _ _ _) as [[id|]|] eqn:Hrec; cbn [mbind throws_bind];
    [|intros [= E0]; apply (f_equal length) in E0; rewrite !length_app in E0; simpl in E0; lia|done].
  intros [= E0]. repeat (apply app_eq_nil in E0 as [? E0] || apply app_eq_nil in E0 as [E0 ?]).
  repeat match goal with H : _ ++ _ = [] |- _ => apply app_eq_nil in H as [? ?] end.
  repeat match goal with H : issue_when _ _ = [] |- _ => apply issue_when_nil in H end. bool_simpl.
  constructor; try done; [by exists id|].
  match goal with H : (_ && _)%bool = false |- _ => apply andb_false_iff in H as [Hs|Hs]; bool_simpl; [left|right; done] end.
  by destruct (prop "supersedes_event_id" event).
Qed.

Lemma kept_cons r results : kept (r :: results) = if bool_decide (r.2 = []) then r.1 :: kept results else kept results.
Proof. unfold kept. cbn [List.filter]. by destruct (bool_decide (r.2 = [])). Qed.

(* Every surviving event is consistent with what survived before it. *)
Lemma check_ordered_kept pv rid : ∀ ordered st results,
  check_ordered pv rid st ordered = Ret results →
  ∀ i e, kept results !! i = Some e →
    ∃ st', event_consistent pv rid st' e ∧
      seenEventIds st' = rev (prop "event_id" <$> take i (kept results)) ++ seenEventIds st ∧
      seenIdempotencyKeys st' = rev (prop "idempotency_key" <$> take i (kept results)) ++ seenIdempotencyKeys st ∧
      priorEventIds st' = rev (prop "event_id" <$> take i (kept results)) ++ priorEventIds st.
Proof.
  induction ordered as [|event ordered IH]; intros st results; cbn [check_ordered].
  { by intros [= <-] i e. }
  destruct (event_issues pv rid st event) as [issues|] eqn:Hissues; [|done]. cbn [mbind throws_bind].
  destruct (check_ordered _ _ _ ordered) as [rest|] eqn:Hrest; [|done]. intros [= <-] i e. rewrite kept_cons. cbn [fst snd].
  specialize (IH _ _ Hrest). unfold after_event in IH. case_bool_decide as E0.
  - subst issues. apply event_issues_nil in Hissues. destruct i as [|i]; [intros [= <-]; by exists st|].
    intros Hi. destruct (IH i e Hi) as (st' & Hc & H1 & H2 & H3). exists st'. cbn [seenEventIds seenIdempotencyKeys priorEventIds] in *.
    cbn [take]. rewrite !fmap_cons. cbn [rev]. rewrite <- !app_assoc. done.
  - intros Hi. destruct (IH i e Hi) as (st' & Hc & H1 & H2 & H3). by exists st'.
Qed.
Lemma elem_of_rev {A} (x : A) l : x ∈ rev l ↔ x ∈ l.
Proof. by rewrite !list_elem_of_In, <- in_rev. Qed.
Lemma rev_keys_NoDup {A} (f : json → A) (l : list json) :
  (∀ i e, l !! i = Some e → f e ∉ rev (f <$> take i l)) → NoDup (f <$> l).
Proof.
  intros Hl. induction l as [|x l IH] using rev_ind; [constructor|]. rewrite fmap_app. apply NoDup_app. split_and!.
  - apply IH. intros i e Hi. specialize (Hl i e). rewrite lookup_app_l in Hl by (by eapply lookup_lt_Some).
    rewrite take_app_le in Hl by (apply lookup_lt_Some in Hi; lia). by apply Hl.
  - intros y Hy ->%list_elem_of_singleton. apply (Hl (length l) x).
    + by rewrite lookup_app_r, Nat.sub_diag by done.
    + rewrite take_app_length. by rewrite elem_of_rev.
  - apply NoDup_singleton.
Qed.

(** ** Order *)

Definition seq_number (e : json) : Z := match prop "sequence_number" e with JNumber n => n | _ => 0 end.
Definition numbered (e : json) : Prop := prop "sequence_number" e = JNumber (seq_number e).
Lemma insertBy_ext {A} (c c' : A → A → Z) x l : (∀ y, y ∈ l → c x y = c' x y) → insertBy c x l = insertBy c' x l.
Proof.
  induction l as [|y l IH]; intros Hc; [done|]. simpl. rewrite (Hc y) by apply list_elem_of_here.
  rewrite IH; [done|]. intros; by apply Hc, list_elem_of_further.
Qed.
Lemma sortBy_ext {A} (c c' : A → A → Z) l : (∀ x y, x ∈ l → y ∈ l → c x y = c' x y) → sortBy c l = sortBy c' l.
Proof.
  induction l as [|x l IH]; intros Hc; [done|]. simpl. rewrite IH by (intros; apply Hc; by apply list_elem_of_further).
  apply insertBy_ext. intros y Hy. rewrite elem_of_sortBy in Hy.
  apply Hc; [apply list_elem_of_here|by apply list_elem_of_further].
Qed.
Lemma StronglySorted_weaken {A} (R R' : A → A → Prop) l : (∀ x y, R x y → R' x y) → StronglySorted R l → StronglySorted R' l.
Proof. intros HR. induction 1 as [|x l Hl IH Hx]; constructor; [done|]. eapply Forall_impl; [exact Hx|]. auto. Qed.
Lemma sorted_events events : Forall numbered events →
  StronglySorted (λ a b, seq_number a ≤ seq_number b) (sortBy seq_cmp events).
Proof.
  intros Hn. rewrite Forall_forall in Hn. rewrite (sortBy_ext _ (λ a b, seq_number a - seq_number b)).
  - eapply StronglySorted_weaken; [|apply sortBy_sorted]; unfold cmp_le; intros; lia.
  - intros x y Hx%Hn Hy%Hn. unfold seq_cmp. by rewrite Hx, Hy.
Qed.
Lemma check_ordered_sorted pv rid : ∀ ordered st results,
  check_ordered pv rid st ordered = Ret results → Forall numbered ordered →
  StronglySorted (λ a b, seq_number a ≤ seq_number b) ordered →
  (∀ p, previousSequence st = Some p → Forall (λ e, p ≤ seq_number e) ordered) →
  StronglySorted (λ a b, seq_number a < seq_number b) (kept results) ∧
  Forall (λ e, e ∈ ordered ∧ ∀ p, previousSequence st = Some p → p < seq_number e) (kept results).
Proof.
  induction ordered as [|event ordered IH]; intros st results; cbn [check_ordered].
  { intros [= <-]. repeat constructor. }
  destruct (event_issues pv rid st event) as [issues|] eqn:Hissues; [|done]. cbn [mbind throws_bind].
  destruct (check_ordered _ _ _ ordered) as [rest|] eqn:Hrest; [|done]. intros [= <-] [He Hn]%Forall_cons Hs Hp.
  inversion Hs as [|? ? Hs' Hle]; subst.
  assert (previousSequence (after_event st event issues) = Some (seq_number event)) as Hprev.
  { unfold after_event. rewrite He. by destruct (bool_decide _). }
  destruct (IH _ _ Hrest Hn Hs') as [Hsorted Habove].
  { intros p. rewrite Hprev. by intros [= <-]. }
  rewrite kept_cons. cbn [fst snd]. rewrite Hprev in Habove.
  assert (∀ p, previousSequence st = Some p → p ≤ seq_number event) as Hpe by (intros p E0; by apply Hp, Forall_cons in E0 as [? _]).
  assert (Forall (λ e, e ∈ event :: ordered ∧ seq_number event < seq_number e) (kept rest)) as Hrest'.
  { eapply Forall_impl; [exact Habove|]. intros e [Hin Hlt]. split; [by apply list_elem_of_further|by apply Hlt]. }
  case_bool_decide as E0.
  - subst issues. apply event_issues_nil in Hissues as [Hab _ _ _ _ _ _]. rewrite He in Hab. split.
    + constructor; [done|]. by eapply Forall_impl; [exact Hrest'|]; intros e [_ ?].
    + constructor.
      * split; [apply list_elem_of_here|]. intros p Hpp. rewrite Hpp in Hab. simpl in Hab. lia.
      * eapply Forall_impl; [exact Hrest'|]. intros e [Hin Hlt]. split; [done|]. intros p Hpp. specialize (Hpe p Hpp). lia.
  - split; [done|]. eapply Forall_impl; [exact Hrest'|]. intros e [Hin Hlt]. split; [done|]. intros p Hpp.
    specialize (Hpe p Hpp). lia.
Qed.

(* What the schema promises of a review event without a field __proto__. *)
Definition schema_numbers_events : Prop := ∀ fs, no_proto fs → NoDup fs.*1 →
  valid REVIEW_EVENT (JObject fs) = true → ∃ n, JsMap.get (js "sequence_number") fs = Some (JNumber n).
Definition plain_event (e : json) : Prop := ∀ fs, e = JObject fs → no_proto fs ∧ NoDup fs.*1.
Lemma shaped_numbered e : schema_numbers_events → plain_event e →
  isReviewEventShapedIgnoringTimestampFormat e = true → numbered e.
Proof.
  intros Hvalid Hplain. destruct e as [| | | | | | |fs]; try done. destruct (Hplain fs eq_refl) as [Hp Hnd].
  unfold isReviewEventShapedIgnoringTimestampFormat, numbered, seq_number. cbn [prop].
  assert (∀ n, JsMap.get (js "sequence_number") fs = Some (JNumber n) →
    default JForeign (JsMap.get (js "sequence_number") fs) = JNumber (match default JForeign (JsMap.get (js "sequence_number") fs) with JNumber n => n | _ => 0 end)) as Hget
    by (by intros n ->).
  intros [Hv|Hv]%orb_prop.
  - destruct (Hvalid fs Hp Hnd Hv) as [n Hn]. by apply (Hget n).
  - destruct (Hvalid (JsMap.set (js "event_timestamp") (JString PLACEHOLDER_VALID_TIMESTAMP) fs)) as [n Hn]; [|by apply JsMap.NoDup_keys_set|done|].
    + unfold no_proto. change ((JsMap.set (js "event_timestamp") (JString PLACEHOLDER_VALID_TIMESTAMP) fs).*1)
        with (JsMap.keys (JsMap.set (js "event_timestamp") (JString PLACEHOLDER_VALID_TIMESTAMP) fs)).
      rewrite JsMap.keys_set. destruct (decide _); [done|]. rewrite elem_of_app, list_elem_of_singleton. by intros [?|?].
    + rewrite JsMap.get_set_ne in Hn by done. by apply (Hget n).
Qed.

(** C13. The events that survive the render-boundary check of a log are consistent: their
    sequence numbers strictly increase, their event ids and idempotency keys do not
    repeat, each is bound to the log's protocol version and review, each event id is
    the recomputed content identity, and a superseded event survives earlier in the
    list. This is for logs none of whose events has an own field named __proto__,
    which the validator reads as a changed prototype, and for a schema check that
    passes only events with a numeric sequence number, as the registry's does. *)
Theorem surviving_events_consistent log events surviving :
  schema_numbers_events → isReviewEventLogShaped log = Some events → Forall plain_event events →
  structurallyValidReviewEvents log = Ret (Some surviving) →
  StronglySorted (λ a b, seq_number a < seq_number b) surviving ∧
  NoDup (prop "event_id" <$> surviving) ∧ NoDup (prop "idempotency_key" <$> surviving) ∧
  ∀ i e, surviving !! i = Some e →
    e ∈ events ∧ prop "protocol_version" e = prop "protocol_version" log ∧ prop "review_id" e = prop "review_id" log ∧
    (∃ id, recomputeExcludedFieldsIdentity e [js "event_id"] None = Ret (Some id) ∧ prop "event_id" e = JString (js id)) ∧
    (prop "supersedes_event_id" e = JForeign ∨ prop "supersedes_event_id" e ∈ (prop "event_id" <$> take i surviving)).
Proof.
  intros Hvalid Hlog Hplain. unfold structurallyValidReviewEvents, orderedEventsWithIssues. rewrite Hlog.
  destruct (check_ordered _ _ _ _) as [results|] eqn:Hcheck; [|done]. intros [= <-]. change (List.map fst _) with (kept results).
  assert (∀ e, e ∈ sortBy seq_cmp (List.filter isReviewEventShapedIgnoringTimestampFormat events) → e ∈ events ∧ numbered e) as Hin.
  { intros e He. rewrite elem_of_sortBy, list_elem_of_In, filter_In, <- list_elem_of_In in He. destruct He as [He Hsh]. split; [done|].
    rewrite Forall_forall in Hplain. by apply shaped_numbered; [|apply Hplain|]. }
  destruct (check_ordered_sorted _ _ _ _ _ Hcheck) as [Hsorted Habove].
  { apply Forall_forall. intros e He. by apply Hin. }
  { apply sorted_events, Forall_forall. intros e He. apply Hin. by rewrite elem_of_sortBy. }
  { done. }
  pose proof (check_ordered_kept _ _ _ _ _ Hcheck) as Hkept. cbn [nothing_seen seenEventIds seenIdempotencyKeys priorEventIds] in Hkept.
  rewrite Forall_forall in Habove. split_and!; [done| | |].
  - apply rev_keys_NoDup. intros i e Hi. destruct (Hkept i e Hi) as (st' & Hc & Hids & _). pose proof (consistent_id _ _ _ _ Hc) as Hn.
    by rewrite Hids, app_nil_r in Hn.
  - apply rev_keys_NoDup. intros i e Hi. destruct (Hkept i e Hi) as (st' & Hc & _ & Hkeys & _). pose proof (consistent_key _ _ _ _ Hc) as Hn.
    by rewrite Hkeys, app_nil_r in Hn.
  - intros i e Hi. destruct (Hkept i e Hi) as (st' & Hc & _ & _ & Hprior). destruct Hc as [_ _ _ Hpv Hrid Hid Hsup].
    split; [apply Hin, Habove; by eapply list_elem_of_lookup_2|]. split_and!; [done..|].
    rewrite Hprior, app_nil_r, elem_of_rev in Hsup. exact Hsup.
Qed.
End event_log.

(** * The registry keeps the promise *)

Section registry.
Context (localeCompare : jsstr → jsstr → Z).
(* validateProtocolSchema(schemaId, v).length === 0 *)
Definition registry_valid (schemaId : string) (v : json) : bool :=
  validateProtocolSchema protocolV0Schemas localeCompare REGISTRY_FUEL schemaId v === Some [].
Definition integer_schema : json := jobj [("type", jstr "integer"); ("minimum", jnum 0)].
Lemma registry_numbers_events : schema_numbers_events registry_valid.
Proof.
  intros fs Hp Hnd Hv. apply bool_decide_eq_true in Hv. unfold validateProtocolSchema in Hv.
  assert (JsMap.get (js REVIEW_EVENT) protocolV0Schemas = Some review_event_schema) as E0 by (by vm_compute).
  rewrite E0 in Hv. cbn [mbind option_bind] in Hv. unfold REGISTRY_FUEL in Hv.
  destruct (accepted_required protocolV0Schemas localeCompare 9 review_event_schema fs (js "$") (js "sequence_number") integer_schema)
    as (v & Hg & Hok); try done.
  - apply (bool_decide_unpack (js "sequence_number" ∈ kw_names "required" review_event_schema)). by vm_compute.
  - apply accepted_type with (t := js "integer") in Hok; [|done..]. destruct v; try done. by eexists.
Qed.
End registry.

Module EventLogSamples.
Import SampleHash SchemaSamples.
Definition valid := registry_valid units_cmp.
Definition review_id : json := jstr "review:aaa".
(* A review event with its content identity. *)
Definition body (sequence : Z) (key : string) : list (string * json) :=
  [("protocol_version", jstr "codeattest.v0"); ("review_id", review_id); ("sequence_number", jnum sequence);
   ("idempotency_key", jstr key); ("event_type", jstr "receipt_issued");
   ("actor", jobj [("actor_type", jstr "vendor_service"); ("actor_id", jstr "intake")]);
   ("event_timestamp", jstr "2026-01-01T00:00:00Z"); ("artifact_refs", jarr [jstr "artifact_ref:abc"]);
   ("visibility", jstr "customer_facing"); ("canonicalization", jstr "rfc8785"); ("identity_hash_algorithm", jstr "sha256");
   ("identity_input_excludes", jarr [jstr "event_id"])].
Definition event (sequence : Z) (key : string) : json :=
  match recomputeExcludedFieldsIdentity (jobj (("event_id", JNull) :: body sequence key)) [js "event_id"] None with
  | Ret (Some id) => jobj (("event_id", jstr id) :: body sequence key)
  | _ => JNull
  end.
Definition log (events : list json) : json :=
  jobj [("protocol_version", jstr "codeattest.v0"); ("review_id", review_id); ("events", jarr events)].
Definition first := event 1 "one".
Definition second := event 2 "two".
Definition replayed := event 2 "one".
Example surviving_of_log : structurallyValidReviewEvents valid (log [second; replayed; first]) = Ret (Some [first; second]).
Proof. by vm_compute. Qed.

Lemma surviving_events_consistent_witness : StronglySorted (λ a b, seq_number a < seq_number b) [first; second].
Proof.
  eapply (surviving_events_consistent valid (log [second; replayed; first]) [second; replayed; first] [first; second]);
    [apply registry_numbers_events|by vm_compute| |by vm_compute].
  assert (∀ e, (∃ fs, e = JObject fs ∧ bool_decide (js "__proto__" ∉ fs.*1) = true ∧ bool_decide (NoDup fs.*1) = true) → plain_event e) as Hplain.
  { intros e (fs & -> & Hp%bool_decide_eq_true & Hn%bool_decide_eq_true) fs' [= <-]. done. }
  do 3 (constructor; [apply Hplain; eexists; (split; [vm_compute; reflexivity|by vm_compute])|]). constructor.
Defined.

(* An object with no fields of its own but the given one. *)
Definition forged (field : string) : json :=
  JObject [(js field, jobj (("event_id", jstr "x") :: ("customer_actor_ref", jstr "x") :: ("source_derived_class", jstr "x") :: body 2 "two"))].

(** One forged event makes the whole log unreadable: an array element whose only
    own field is __proto__, an object with the required names, passes the schema, but
    reading its identity_input_excludes throws instead of dropping that event. *)
Theorem forged_proto_event_throws :
  structurallyValidReviewEvents valid (log [first; forged "__proto__"]) =
    Throw "Cannot read properties of undefined (reading 'length')" ∧
  structurallyValidReviewEvents valid (log [first; forged "proto"]) = Ret (Some [first]).
Proof. by vm_compute. Qed.
End EventLogSamples.
