(* ===== verification/Signing.v ===== *)
(** Signatures over protocol identities (packages/signing/src: ml-dsa.ts,
    signed-message.ts, key-directory.ts, envelope.ts; packages/protocol-ts/src:
    identity-signing.ts): the signing input, the signed message, the key directory
    with its validity windows, the signing and the verification of an envelope. *)
From S2P Require Import Prelude Patterns Bytes Json JsonText CanonicalJson Timestamps Schema Registry Values ReviewEventLog Base64Url.

Local Open Scope Z_scope.

(** * ML-DSA-65

    node:crypto is a parameter. [crypto_spki] is the DER text of the public key of a
    PKCS #8 private key, [crypto_sign] takes the randomness of a hedged signature,
    and None stands for a call that throws. *)
Definition ML_DSA_65_SIGNATURE_BYTES : nat := 3309.
Definition ML_DSA_65_PUBLIC_KEY_BYTES : nat := 1952.
Definition SPKI_PREFIX : bytes :=
  [48; 130; 7; 178; 48; 11; 6; 9; 96; 134; 72; 1; 101; 3; 4; 3; 18; 3; 130; 7; 161; 0].

Class NodeCrypto := {
  crypto_spki : bytes → option bytes;
  crypto_sign : bytes → bytes → bytes → option bytes;
  crypto_verify : bytes → bytes → bytes → option bool;
  (* Signing with an ML-DSA-65 key succeeds, and its public key verifies the signature. *)
  crypto_correct privateKey publicKey : ∀ randomness message,
    crypto_spki privateKey = Some (SPKI_PREFIX ++ publicKey) → length publicKey = ML_DSA_65_PUBLIC_KEY_BYTES →
    ∃ signature, crypto_sign privateKey message randomness = Some signature ∧
      bytes_ok signature = true ∧ length signature = ML_DSA_65_SIGNATURE_BYTES ∧
      crypto_verify (SPKI_PREFIX ++ publicKey) message signature = Some true;
  crypto_spki_bytes privateKey spki : crypto_spki privateKey = Some spki → bytes_ok spki = true
}.

Section ml_dsa.
Context `{NodeCrypto}.
Definition signMlDsa65 (privateKeyPkcs8 message randomness : bytes) : throws bytes :=
  match crypto_sign privateKeyPkcs8 message randomness with Some s => Ret s | None => Throw "sign" end.
Definition verifyMlDsa65 (publicKey message signature : bytes) : bool :=
  if (negb (Nat.eqb (length publicKey) ML_DSA_65_PUBLIC_KEY_BYTES)
      || negb (Nat.eqb (length signature) ML_DSA_65_SIGNATURE_BYTES))%bool then false
  else default false (crypto_verify (SPKI_PREFIX ++ publicKey) message signature).
Definition publicKeyFromPkcs8 (privateKeyPkcs8 : bytes) : option bytes :=
  match crypto_spki privateKeyPkcs8 with
  | None => None
  | Some spki =>
      let raw := drop (length spki - ML_DSA_65_PUBLIC_KEY_BYTES) spki in
      if Nat.eqb (length raw) ML_DSA_65_PUBLIC_KEY_BYTES then Some raw else None
  end.
End ml_dsa.

(** * Signing inputs and signed messages *)

Definition SIGNED_MESSAGE_DOMAIN : string := "codeattest-ml-dsa-65-v1".
Definition signedMessage (canonicalIdentitySigningInput : jsstr) : bytes :=
  utf8 (js SIGNED_MESSAGE_DOMAIN ++ [10] ++ canonicalIdentitySigningInput).
Definition signedMessageForSigningInput (signingInput : json) : throws bytes :=
  s ← canonicalizeProtocolJson signingInput; Ret (signedMessage s).

Record IdentitySignatureExpectation := {
  protocol_version : string; signing_input_type : string; signed_identity_type : string; signed_identity : string;
  identity_input_path : string; key_id : string; key_version : string; signing_time : string
}.
Definition signing_input (protocol_version type identity_type identity path : string) : json :=
  jobj [("protocol_version", jstr protocol_version); ("signing_input_type", jstr type); ("algorithm_profile", jstr "ml_dsa_65");
    ("signed_identity_type", jstr identity_type); ("signed_identity", jstr identity); ("canonicalization", jstr "rfc8785");
    ("identity_input_path", jstr path)].
Definition createIdentitySigningInput (e : IdentitySignatureExpectation) : json :=
  signing_input (protocol_version e) (signing_input_type e) (signed_identity_type e) (signed_identity e) (identity_input_path e).

(** * Key directories *)

Inductive KeyTrustFailure :=
  | signature_key_unknown
  | signature_key_revoked
  | signature_key_outside_validity_window
  | signature_key_algorithm_mismatch.
Inductive KeyResolution := resolved (record : json) | unresolved (reason : KeyTrustFailure).
Inductive purpose := sign | verify.
Record KeyResolutionQuery := { query_key_id : json; query_key_version : json; query_signing_time : json; query_purpose : purpose }.

Definition KEY_DIRECTORY_IDENTITY_INPUT_PATH : string := "v0/valid/signing-key-directory.identity-input.json".
Definition ML_DSA_65_SIGNATURE_PREFIX : string := "ml_dsa_65:".

Record SigningKeyHandle := { handle_key_id : json; handle_key_version : json; privateKeyPkcs8 : bytes }.
Record SignIdentityEnvelopeInput := {
  input_signing_input : json; input_key : SigningKeyHandle; input_signing_time : json;
  input_signing_mode : json; input_signing_limitations : list json
}.
Record VerifyIdentityEnvelopeInput := { verified_envelope : json; verified_signing_input : json; verified_at : json }.

Section signing.
Context `{Sha256, NodeCrypto}.
(* Date.parse, in milliseconds; None is NaN. *)
Variable Date_parse : jsstr → option Z.
(* validateProtocolSchema(schemaId, value).length === 0 *)
Variable valid : string → json → bool.

(** ** identity-signing.ts *)

Definition signingInputMatchesExpectation (signingInput : json) (e : IdentitySignatureExpectation) : bool :=
  if negb (valid "urn:codeattest:protocol:v0:identity-signing-input" signingInput) then false
  else sameCanonicalJson signingInput (createIdentitySigningInput e).
Definition signatureEnvelopeMatchesExpectation (signingInput envelope : json) (e : IdentitySignatureExpectation) : bool :=
  (signingInputMatchesExpectation signingInput e
   && valid "urn:codeattest:protocol:v0:signature-envelope" envelope
   && isRecord envelope
   && has_string (protocol_version e) (prop "protocol_version" envelope)
   && has_string "ml_dsa_65" (prop "algorithm_profile" envelope)
   && has_string (key_id e) (prop "key_id" envelope)
   && has_string (key_version e) (prop "key_version" envelope)
   && has_string (signing_time e) (prop "signing_time" envelope)
   && has_string (signed_identity_type e) (prop "signed_identity_type" envelope)
   && has_string (signed_identity e) (prop "signed_identity" envelope)
   && has_string "rfc8785" (prop "canonicalization" envelope))%bool.
Definition same_prop (name : string) (a b : json) : bool := prop name a === prop name b.
Definition signatureOutcomeCovers (envelope outcome : json) : bool :=
  (negb (is_undefined outcome) && has_string "verified" (prop "result" outcome)
   && same_prop "signed_identity" outcome envelope && same_prop "signed_identity_type" outcome envelope
   && same_prop "key_id" outcome envelope && same_prop "key_version" outcome envelope
   && same_prop "algorithm_profile" outcome envelope)%bool.

(** ** key-directory.ts *)

Definition instant (value : json) : option Z := Date_parse (js_string value).
Definition insideWindow (record signingTime : json) : bool :=
  match instant signingTime, instant (prop "valid_from" record) with
  | Some at_, Some from =>
      if at_ <? from then false
      else if is_undefined (prop "valid_until" record) then true
      else match instant (prop "valid_until" record) with Some until => at_ <? until | None => false end
  | _, _ => false
  end.
Definition names_key (id version candidate : json) : bool :=
  ((prop "key_id" candidate === id) && (prop "key_version" candidate === version))%bool.
Definition resolveSigningKey (directory : json) (q : KeyResolutionQuery) : throws KeyResolution :=
  keys ← js_elements (prop "keys" directory);
  Ret match List.find (names_key (query_key_id q) (query_key_version q)) keys with
  | None => unresolved signature_key_unknown
  | Some record =>
      if negb (has_string "ml_dsa_65" (prop "algorithm_profile" record)) then unresolved signature_key_algorithm_mismatch
      else if has_string "revoked" (prop "status" record) then unresolved signature_key_revoked
      else if (match query_purpose q with sign => negb (has_string "active" (prop "status" record)) | verify => false end)
      then unresolved signature_key_outside_validity_window
      else if negb (insideWindow record (query_signing_time q)) then unresolved signature_key_outside_validity_window
      else resolved record
  end.
Definition keyDirectoryIdentity (directory : json) : throws string :=
  s ← canonicalizeProtocolJson (without_field "directory_signature" directory); Ret (sha256ProtocolText s).
Definition keyDirectorySigningInput (directory : json) : throws json :=
  identity ← keyDirectoryIdentity directory;
  Ret (signing_input "codeattest.v0" "signing_key_directory_identity" "signing_key_directory" identity KEY_DIRECTORY_IDENTITY_INPUT_PATH).
Definition verifyKeyDirectory (directory : json) (trustAnchorPublicKey : bytes) : throws bool :=
  if negb (Nat.eqb (length trustAnchorPublicKey) ML_DSA_65_PUBLIC_KEY_BYTES) then Ret false
  else if negb (valid "urn:codeattest:protocol:v0:signing-key-directory" directory) then Ret false
  else
    let signature := prop "directory_signature" directory in
    if negb (has_string "signing_key_directory" (prop "signed_identity_type" signature)) then Ret false
    else if negb (prop "key_id" signature === prop "trust_anchor_key_id" directory) then Ret false
    else if negb (has_string "ml_dsa_65" (prop "algorithm_profile" signature)) then Ret false
    else
      input ← keyDirectorySigningInput directory;
      if negb (prop "signed_identity" signature === prop "signed_identity" input) then Ret false
      else
        signature_bytes ← text (prop "signature_bytes" signature);
        match decodeBase64Url (drop 10 signature_bytes) with
        | None => Ret false
        | Some b =>
            message ← signedMessageForSigningInput input;
            Ret (verifyMlDsa65 trustAnchorPublicKey message b)
        end.

(** ** envelope.ts *)

Definition signIdentityEnvelope (randomness : bytes) (input : SignIdentityEnvelopeInput) : throws json :=
  message ← signedMessageForSigningInput (input_signing_input input);
  signature ← signMlDsa65 (privateKeyPkcs8 (input_key input)) message randomness;
  Ret (jobj [("protocol_version", prop "protocol_version" (input_signing_input input)); ("algorithm_profile", jstr "ml_dsa_65");
    ("key_id", handle_key_id (input_key input)); ("key_version", handle_key_version (input_key input));
    ("signing_time", input_signing_time input);
    ("signed_identity_type", prop "signed_identity_type" (input_signing_input input));
    ("signed_identity", prop "signed_identity" (input_signing_input input)); ("canonicalization", jstr "rfc8785");
    ("signing_mode", input_signing_mode input); ("signing_limitations", JArray (input_signing_limitations input));
    ("signature_bytes", JString (js ML_DSA_65_SIGNATURE_PREFIX ++ encodeBase64Url signature))]).

Inductive result := result_verified | directory_untrusted | signing_input_mismatch | bytes_untrusted | key_failure (reason : KeyTrustFailure).
Definition result_text (r : result) : string :=
  match r with
  | result_verified => "verified"
  | directory_untrusted => "signature_key_directory_untrusted"
  | signing_input_mismatch => "signature_signing_input_mismatch"
  | bytes_untrusted => "signature_bytes_untrusted"
  | key_failure signature_key_unknown => "signature_key_unknown"
  | key_failure signature_key_revoked => "signature_key_revoked"
  | key_failure signature_key_outside_validity_window => "signature_key_outside_validity_window"
  | key_failure signature_key_algorithm_mismatch => "signature_key_algorithm_mismatch"
  end.
Definition outcome (input : VerifyIdentityEnvelopeInput) (directoryVersion : Z) (r : result) : json :=
  jobj [("protocol_version", jstr "codeattest.v0");
    ("signed_identity_type", prop "signed_identity_type" (verified_envelope input));
    ("signed_identity", prop "signed_identity" (verified_envelope input)); ("algorithm_profile", jstr "ml_dsa_65");
    ("key_id", prop "key_id" (verified_envelope input)); ("key_version", prop "key_version" (verified_envelope input));
    ("key_directory_version", JNumber directoryVersion); ("verified_at", verified_at input); ("result", jstr (result_text r))].
Definition parsedDirectoryVersion (directory : json) : Z :=
  match prop "directory_version" directory with JNumber n => if 1 <=? n then n else 1 | _ => 1 end.

(* What verify answers; the closure of createSignatureVerifier over its directory. *)
Definition verify_result (directory : json) (trusted : bool) (input : VerifyIdentityEnvelopeInput) : throws result :=
  if negb trusted then Ret directory_untrusted
  else
    let envelope := verified_envelope input in
    let signingInput := verified_signing_input input in
    if (negb (same_prop "signed_identity" signingInput envelope) || negb (same_prop "signed_identity_type" signingInput envelope)
        || negb (same_prop "canonicalization" signingInput envelope)
        || negb (has_string "ml_dsa_65" (prop "algorithm_profile" signingInput)))%bool then Ret signing_input_mismatch
    else
      resolution ← resolveSigningKey directory {| query_key_id := prop "key_id" envelope; query_key_version := prop "key_version" envelope;
                                                  query_signing_time := prop "signing_time" envelope; query_purpose := verify |};
      match resolution with
      | unresolved reason => Ret (key_failure reason)
      | resolved record =>
          signature_bytes ← text (prop "signature_bytes" envelope);
          match strip_units (js ML_DSA_65_SIGNATURE_PREFIX) signature_bytes with
          | None => Ret bytes_untrusted
          | Some encoded =>
              public_key ← text (prop "public_key" record);
              match decodeBase64Url encoded, decodeBase64Url public_key with
              | Some signature, Some publicKey =>
                  message ← signedMessageForSigningInput signingInput;
                  Ret (if verifyMlDsa65 publicKey message signature then result_verified else bytes_untrusted)
              | _, _ => Ret bytes_untrusted
              end
          end
      end.
Record SignatureVerifier := { directoryTrusted : bool; verify_ : VerifyIdentityEnvelopeInput → throws json }.
Definition verifier (directory : json) (trusted : bool) : SignatureVerifier :=
  {| directoryTrusted := trusted;
     verify_ := λ input, r ← verify_result directory trusted input; Ret (outcome input (parsedDirectoryVersion directory) r) |}.
Definition createSignatureVerifier (directory : json) (trustAnchorPublicKey : bytes) : throws SignatureVerifier :=
  trusted ← verifyKeyDirectory directory trustAnchorPublicKey;
  Ret (verifier directory trusted).

(** ** Signed messages *)

Lemma signedMessage_inj s t : text_ok s = true → text_ok t = true → signedMessage s = signedMessage t → s = t.
Proof.
  unfold signedMessage. intros Hs Ht E0. apply utf8_inj in E0.
  - do 2 apply app_inv_head in E0. done.
  - apply text_ok_app; [apply text_ok_js|by apply (text_ok_app [10])].
  - apply text_ok_app; [apply text_ok_js|by apply (text_ok_app [10])].
Qed.
(* One signed message belongs to one signing input. *)
Lemma signed_message_binds a b message :
  wf_json a = true → wf_json b = true →
  signedMessageForSigningInput a = Ret message → signedMessageForSigningInput b = Ret message → same_data a b.
Proof.
  unfold signedMessageForSigningInput. intros Wa Wb.
  destruct (canonicalizeProtocolJson a) as [s|] eqn:Ha; [|done]. destruct (canonicalizeProtocolJson b) as [t|] eqn:Hb; [|done].
  cbn [mbind throws_bind]. intros <-%Ret_inj E0%Ret_inj.
  apply signedMessage_inj in E0 as ->; [by eapply canonical_inj|exact (canonical_text_ok b _ Wb Hb)|exact (canonical_text_ok a _ Wa Ha)].
Qed.
Lemma signing_input_wf p t it i path : wf_json (signing_input p t it i path) = true.
Proof. unfold signing_input, jobj, jstr. simpl. by rewrite !js_units_ok. Qed.
Lemma signing_input_message p t it i path : ∃ m, signedMessageForSigningInput (signing_input p t it i path) = Ret m.
Proof.
  destruct (canonicalize_texts [("protocol_version", p); ("signing_input_type", t); ("algorithm_profile", "ml_dsa_65");
    ("signed_identity_type", it); ("signed_identity", i); ("canonicalization", "rfc8785"); ("identity_input_path", path)]) as [s Hs];
    [done|].
  eexists. unfold signedMessageForSigningInput. unfold signing_input. cbn [List.map fst snd] in Hs. by rewrite Hs.
Qed.
Lemma signing_input_inj p t it i path i' :
  same_data (signing_input p t it i path) (signing_input p t it i' path) → i = i'.
Proof.
  intros E0. unfold same_data, signing_input, jobj in E0. cbn in E0. injection E0 as E0. by apply js_inj.
Qed.

(** ** Keys *)

Definition ml_dsa_key (privateKey publicKey : bytes) : Prop :=
  crypto_spki privateKey = Some (SPKI_PREFIX ++ publicKey) ∧ length publicKey = ML_DSA_65_PUBLIC_KEY_BYTES.
Lemma ml_dsa_key_public privateKey publicKey :
  ml_dsa_key privateKey publicKey → publicKeyFromPkcs8 privateKey = Some publicKey ∧ bytes_ok publicKey = true.
Proof.
  intros [Hk Hl]. unfold publicKeyFromPkcs8. rewrite Hk. split.
  - rewrite length_app, Hl. change (length SPKI_PREFIX) with 22%nat.
    rewrite Nat.add_sub, (drop_app_length' SPKI_PREFIX) by done. by rewrite Hl, Nat.eqb_refl.
  - apply crypto_spki_bytes in Hk. rewrite bytes_ok_app in Hk. by apply andb_prop in Hk as [_ ?].
Qed.
Lemma sign_verifies privateKey publicKey message randomness :
  ml_dsa_key privateKey publicKey →
  ∃ s, signMlDsa65 privateKey message randomness = Ret s ∧ bytes_ok s = true ∧ verifyMlDsa65 publicKey message s = true.
Proof.
  intros [Hk Hl]. destruct (crypto_correct privateKey publicKey randomness message Hk Hl) as (s & Hs & Hok & Hls & Hv).
  exists s. unfold signMlDsa65, verifyMlDsa65. rewrite Hs, Hl, Hls, !Nat.eqb_refl. cbn [negb orb]. by rewrite Hv.
Qed.

(* What a resolution says of the record it returns. *)
Lemma resolved_record directory q record :
  resolveSigningKey directory q = Ret (resolved record) ↔
  ∃ keys, prop "keys" directory = JArray keys ∧
    List.find (names_key (query_key_id q) (query_key_version q)) keys = Some record ∧
    prop "algorithm_profile" record = jstr "ml_dsa_65" ∧ prop "status" record ≠ jstr "revoked" ∧
    (query_purpose q = sign → prop "status" record = jstr "active") ∧ insideWindow record (query_signing_time q) = true.
Proof.
  unfold resolveSigningKey. destruct (prop "keys" directory) as [| | | | | |keys|] eqn:Hkeys; cbn [js_elements mbind throws_bind];
    try (split; [done|by intros (? & ? & _)]).
  split.
  - intros Hr%Ret_inj. destruct (List.find _ keys) as [r|] eqn:Hf; [|done].
    destruct (has_string "ml_dsa_65" _) eqn:Ha; cbn [negb] in Hr; [|done]. destruct (has_string "revoked" _) eqn:Hrev; [done|].
    destruct (match query_purpose q with sign => _ | verify => _ end) eqn:Hp; [done|].
    destruct (insideWindow r _) eqn:Hw; cbn [negb] in Hr; [|done]. injection Hr as ->.
    exists keys. apply has_string_true in Ha. split_and!; try done.
    + by intros E0%has_string_true; rewrite E0 in Hrev.
    + intros Eq. rewrite Eq in Hp. apply negb_false_iff in Hp. by apply has_string_true.
  - intros (keys' & [= <-] & -> & Ha%has_string_true & Hs & Hact & ->). rewrite Ha. cbn [negb].
    destruct (has_string "revoked" _) eqn:Hrev; [by apply has_string_true in Hrev|].
    destruct (query_purpose q); [|done]. by rewrite (proj2 (has_string_true _ _) (Hact eq_refl)).
Qed.
Lemma sign_resolution_verifies directory id version time record :
  resolveSigningKey directory {| query_key_id := id; query_key_version := version; query_signing_time := time; query_purpose := sign |}
    = Ret (resolved record) →
  resolveSigningKey directory {| query_key_id := id; query_key_version := version; query_signing_time := time; query_purpose := verify |}
    = Ret (resolved record).
Proof.
  intros (keys & Hk & Hf & Ha & Hs & _ & Hw)%resolved_record. apply resolved_record. exists keys. by split_and!.
Qed.

(** ** What verification means *)

(* The anchor signed the directory's identity. *)
Definition directory_signed (directory : json) (anchor : bytes) : Prop :=
  ∃ input message signature,
    keyDirectorySigningInput directory = Ret input ∧ signedMessageForSigningInput input = Ret message ∧
    verifyMlDsa65 anchor message signature = true.
Lemma trusted_directory directory anchor :
  verifyKeyDirectory directory anchor = Ret true →
  valid "urn:codeattest:protocol:v0:signing-key-directory" directory = true ∧ directory_signed directory anchor.
Proof.
  unfold verifyKeyDirectory. destruct (Nat.eqb _ _); [|done]. destruct (valid _ _); cbn [negb]; [|done]. intros Hv. split; [done|].
  repeat (case_match; [done|]).
  destruct (keyDirectorySigningInput directory) as [input|] eqn:Hi; cbn [mbind throws_bind] in Hv; [|done]. case_match; [done|].
  destruct (text _) as [sb|]; cbn [mbind throws_bind] in Hv; [|done]. destruct (decodeBase64Url _) as [b|]; [|done].
  destruct (signedMessageForSigningInput input) as [m|] eqn:Hm; cbn [mbind throws_bind] in Hv; [|done].
  exists input, m, b. by apply Ret_inj in Hv.
Qed.

Definition matching_input (envelope signingInput : json) : bool :=
  (same_prop "signed_identity" signingInput envelope && same_prop "signed_identity_type" signingInput envelope
   && same_prop "canonicalization" signingInput envelope && has_string "ml_dsa_65" (prop "algorithm_profile" signingInput))%bool.
Definition verify_query (envelope : json) : KeyResolutionQuery :=
  {| query_key_id := prop "key_id" envelope; query_key_version := prop "key_version" envelope;
     query_signing_time := prop "signing_time" envelope; query_purpose := verify |}.
(* The envelope's bytes are a signature of the signing input under the record's key. *)
Definition signed_under (record envelope signingInput : json) : Prop :=
  ∃ signature publicKey message,
    prop "signature_bytes" envelope = JString (js ML_DSA_65_SIGNATURE_PREFIX ++ encodeBase64Url signature) ∧
    prop "public_key" record = JString (encodeBase64Url publicKey) ∧ bytes_ok signature = true ∧ bytes_ok publicKey = true ∧
    signedMessageForSigningInput signingInput = Ret message ∧ verifyMlDsa65 publicKey message signature = true.

Lemma strip_units_spec p s r : strip_units p s = Some r ↔ s = p ++ r.
Proof.
  revert s; induction p as [|a p IH]; intros s; [split; [by intros [= ->]|by intros ->]|].
  destruct s as [|b s]; [done|]. cbn [strip_units app]. destruct (Z.eqb_spec a b) as [->|Hne].
  - rewrite IH. split; [by intros ->|by intros [= ->]].
  - split; [done|]. by intros [= -> _].
Qed.
Lemma verify_result_verified directory trusted envelope signingInput at_ :
  verify_result directory trusted {| verified_envelope := envelope; verified_signing_input := signingInput; verified_at := at_ |}
    = Ret result_verified ↔
  trusted = true ∧ matching_input envelope signingInput = true ∧
  ∃ record, resolveSigningKey directory (verify_query envelope) = Ret (resolved record) ∧ signed_under record envelope signingInput.
Proof.
  unfold verify_result, matching_input. destruct trusted; cbn [negb verified_envelope verified_signing_input]; [|naive_solver].
  destruct (same_prop "signed_identity" _ _), (same_prop "signed_identity_type" _ _), (same_prop "canonicalization" _ _),
    (has_string "ml_dsa_65" _); cbn [negb orb andb]; try naive_solver.
  change {| query_key_id := _; query_key_version := _; query_signing_time := _; query_purpose := _ |} with (verify_query envelope).
  destruct (resolveSigningKey directory (verify_query envelope)) as [[record|]|]; cbn [mbind throws_bind]; try naive_solver.
  split.
  - intros Hv. split; [done|]. split; [done|]. exists record. split; [done|].
    destruct (prop "signature_bytes" envelope) as [| |sb| | | | |] eqn:Hsb; try done. cbn [text mbind throws_bind] in Hv.
    destruct (strip_units _ sb) as [encoded|] eqn:Hstrip; [|done].
    destruct (prop "public_key" record) as [| |pk| | | | |] eqn:Hpk; try done. cbn [text mbind throws_bind] in Hv.
    destruct (decodeBase64Url encoded) as [signature|] eqn:Hd1; [|done]. destruct (decodeBase64Url pk) as [publicKey|] eqn:Hd2; [|done].
    destruct (signedMessageForSigningInput signingInput) as [m|] eqn:Hm; cbn [mbind throws_bind] in Hv; [|done].
    destruct (verifyMlDsa65 _ _ _) eqn:Hver; [|done].
    apply base64url_canonical in Hd1 as [Hok1 ->], Hd2 as [Hok2 ->]. apply strip_units_spec in Hstrip as ->.
    by exists signature, publicKey, m.
  - intros (_ & _ & r & [= <-]%Ret_inj & signature & publicKey & m & Hsb & Hpk & Hok1 & Hok2 & Hm & Hver).
    rewrite Hsb. cbn [text mbind throws_bind]. rewrite (proj2 (strip_units_spec _ _ _) eq_refl), Hpk.
    cbn [text mbind throws_bind]. rewrite (proj2 (base64url_canonical _ signature)) by done.
    rewrite (proj2 (base64url_canonical _ publicKey)) by done. rewrite Hm. cbn [mbind throws_bind]. by rewrite Hver.
Qed.
(* Comparisons of the fields of two object literals. *)
Ltac read_literals := rewrite !andb_true_iff; split_and!; first [reflexivity | apply bool_decide_eq_true; reflexivity].
Lemma outcome_result input version r : prop "result" (outcome input version r) = jstr (result_text r).
Proof. unfold outcome. by read_fields. Qed.
Lemma result_text_verified r : result_text r = "verified" → r = result_verified.
Proof. by destruct r as [| | | |[]]. Qed.

Lemma created_verifier directory anchor v :
  createSignatureVerifier directory anchor = Ret v →
  verifyKeyDirectory directory anchor = Ret (directoryTrusted v) ∧
  verify_ v = λ input, r ← verify_result directory (directoryTrusted v) input; Ret (outcome input (parsedDirectoryVersion directory) r).
Proof.
  unfold createSignatureVerifier. destruct (verifyKeyDirectory directory anchor) as [tr|]; [|done].
  cbn [mbind throws_bind]. by intros <-%Ret_inj.
Qed.
Lemma verifier_verified directory anchor v input o :
  createSignatureVerifier directory anchor = Ret v → verify_ v input = Ret o →
  prop "result" o = jstr "verified" ↔ verify_result directory (directoryTrusted v) input = Ret result_verified.
Proof.
  intros [_ ->]%created_verifier. destruct (verify_result _ _ _) as [r|]; cbn [mbind throws_bind]; [|done]. intros <-%Ret_inj.
  rewrite outcome_result. split.
  - by intros ->%jstr_inj%result_text_verified.
  - by intros ->%Ret_inj.
Qed.

(** C32. When a verifier answers "verified", the trust anchor signed the directory, and
    the directory's first record under the envelope's key id and version is an
    ML-DSA-65 key that is not revoked, whose validity window holds the signing time,
    and under which the envelope's bytes are a signature of the canonical text of
    exactly the signing input that was presented. *)
Theorem verified_means_key_in_force directory anchor v envelope signingInput at_ o :
  createSignatureVerifier directory anchor = Ret v →
  verify_ v {| verified_envelope := envelope; verified_signing_input := signingInput; verified_at := at_ |} = Ret o →
  prop "result" o = jstr "verified" →
  directory_signed directory anchor ∧ matching_input envelope signingInput = true ∧
  ∃ keys record, prop "keys" directory = JArray keys ∧
    List.find (names_key (prop "key_id" envelope) (prop "key_version" envelope)) keys = Some record ∧
    prop "algorithm_profile" record = jstr "ml_dsa_65" ∧ prop "status" record ≠ jstr "revoked" ∧
    insideWindow record (prop "signing_time" envelope) = true ∧ signed_under record envelope signingInput.
Proof.
  intros Hv Ho Hr. apply (verifier_verified _ _ _ _ _ Hv Ho) in Hr.
  apply verify_result_verified in Hr as (Htr & Hm & record & (keys & Hk & Hf & Ha & Hs & _ & Hw)%resolved_record & Hsig).
  apply created_verifier in Hv as [Hd _]. rewrite Htr in Hd. apply trusted_directory in Hd as [_ Hd].
  split; [done|]. split; [done|]. exists keys, record. by split_and!.
Qed.

(** C33. What a holder of an active key signs inside the key's validity window is
    verified by every verifier whose trusted directory lists the public key of the
    signing key, and the answer covers the envelope. *)
Theorem sign_then_verify directory anchor v e key publicKey record randomness time mode limitations at_ :
  createSignatureVerifier directory anchor = Ret v → directoryTrusted v = true →
  ml_dsa_key (privateKeyPkcs8 key) publicKey →
  resolveSigningKey directory {| query_key_id := handle_key_id key; query_key_version := handle_key_version key;
                                 query_signing_time := time; query_purpose := sign |} = Ret (resolved record) →
  prop "public_key" record = JString (encodeBase64Url publicKey) →
  ∃ envelope o,
    signIdentityEnvelope randomness {| input_signing_input := createIdentitySigningInput e; input_key := key; input_signing_time := time;
      input_signing_mode := mode; input_signing_limitations := limitations |} = Ret envelope ∧
    verify_ v {| verified_envelope := envelope; verified_signing_input := createIdentitySigningInput e; verified_at := at_ |} = Ret o ∧
    signatureOutcomeCovers envelope o = true.
Proof.
  intros Hv Htr Hkey Hres%sign_resolution_verifies Hpk. unfold createIdentitySigningInput.
  set (input := signing_input _ _ _ _ _). destruct (signing_input_message (protocol_version e) (signing_input_type e)
    (signed_identity_type e) (signed_identity e) (identity_input_path e)) as [m Hm]. fold input in Hm.
  destruct (sign_verifies _ _ m randomness Hkey) as (s & Hs & Hok & Hver).
  unfold signIdentityEnvelope. cbn [input_signing_input input_key input_signing_time input_signing_mode input_signing_limitations].
  rewrite Hm. cbn [mbind throws_bind]. rewrite Hs. cbn [mbind throws_bind].
  eexists _, _. split; [done|]. set (envelope := jobj _).
  pose proof (proj2 (created_verifier _ _ _ Hv)) as ->. rewrite Htr.
  rewrite (proj2 (verify_result_verified directory true envelope input at_)); cbn [mbind throws_bind].
  - split; [done|]. unfold signatureOutcomeCovers. read_literals.
  - split; [done|]. split.
    + unfold matching_input. read_literals.
    + exists record. split.
      * exact Hres.
      * exists s, publicKey, m. destruct (ml_dsa_key_public _ _ Hkey) as [_ Hpok]. by split_and!.
Qed.

(** A rotation boundary belongs to exactly one key version: when one version of a
    key ends at the instant the next begins and neither is revoked, a signing time
    between the start of the first and the end of the second resolves to exactly one
    of them. *)
Theorem rotation_boundary directory id old new record_old record_new keys time boundary from until at_ :
  prop "keys" directory = JArray keys →
  List.find (names_key id old) keys = Some record_old → List.find (names_key id new) keys = Some record_new →
  (∀ r, r = record_old ∨ r = record_new → prop "algorithm_profile" r = jstr "ml_dsa_65" ∧ prop "status" r ≠ jstr "revoked") →
  instant (prop "valid_from" record_old) = Some from → instant (prop "valid_until" record_old) = Some boundary →
  instant (prop "valid_from" record_new) = Some boundary → instant (prop "valid_until" record_new) = Some until →
  is_undefined (prop "valid_until" record_old) = false → is_undefined (prop "valid_until" record_new) = false →
  instant time = Some at_ → from ≤ at_ < until → from ≤ boundary ≤ until →
  let resolves version record := resolveSigningKey directory
    {| query_key_id := id; query_key_version := version; query_signing_time := time; query_purpose := verify |} = Ret (resolved record) in
  (at_ < boundary ∧ resolves old record_old ∧ ∀ r, ¬ resolves new r) ∨ (boundary ≤ at_ ∧ resolves new record_new ∧ ∀ r, ¬ resolves old r).
Proof.
  intros Hk Ho Hn Hboth Hof Hou Hnf Hnu Uo Un Hat Hrange Hb resolves.
  assert (∀ version record, List.find (names_key id version) keys = Some record → record = record_old ∨ record = record_new →
    ∀ r, resolves version r ↔ r = record ∧ insideWindow record time = true) as Hres.
  { intros version record Hf Hor r. unfold resolves. rewrite resolved_record. cbn. split.
    - intros (ks & Hks & Hf' & _ & _ & _ & Hw). rewrite Hk in Hks. injection Hks as <-. rewrite Hf in Hf'. by injection Hf' as ->.
    - intros [-> Hw]. destruct (Hboth record Hor). exists keys. by split_and!. }
  assert (insideWindow record_old time = (at_ <? boundary)) as Wo.
  { unfold insideWindow. rewrite Hat, Hof, Uo, Hou. by rewrite (proj2 (Z.ltb_ge _ _)) by lia. }
  assert (insideWindow record_new time = negb (at_ <? boundary)) as Wn.
  { unfold insideWindow. rewrite Hat, Hnf, Un, Hnu. rewrite (proj2 (Z.ltb_lt at_ until)) by lia. by destruct (at_ <? boundary). }
  pose proof (Hres old record_old Ho (or_introl eq_refl)) as Ro. pose proof (Hres new record_new Hn (or_intror eq_refl)) as Rn.
  rewrite Wo in Ro. rewrite Wn in Rn.
  destruct (Z.ltb_spec at_ boundary); [left|right]; split_and!; try lia; try (by apply Ro); try (by apply Rn).
  - by intros r [_ ?]%Rn.
  - by intros r [_ ?]%Ro.
Qed.

(** A signature of the trust anchor belongs to one directory: when two trusted
    directories have the same signed message, and SHA-256 has no collision between
    their identity texts, they agree on every field but the signature, so keys cannot
    be added, revoked or re-dated under an old signature. *)
Theorem directory_signature_binds d1 d2 i1 i2 message s1 s2 :
  wf_json d1 = true → wf_json d2 = true →
  keyDirectorySigningInput d1 = Ret i1 → keyDirectorySigningInput d2 = Ret i2 →
  signedMessageForSigningInput i1 = Ret message → signedMessageForSigningInput i2 = Ret message →
  canonicalizeProtocolJson (without_field "directory_signature" d1) = Ret s1 →
  canonicalizeProtocolJson (without_field "directory_signature" d2) = Ret s2 →
  collision_free [utf8 s1; utf8 s2] →
  same_data (without_field "directory_signature" d1) (without_field "directory_signature" d2).
Proof.
  unfold keyDirectorySigningInput, keyDirectoryIdentity. intros W1 W2 H1 H2 M1 M2 C1 C2 Hcf.
  rewrite C1 in H1. rewrite C2 in H2. cbn [mbind throws_bind] in H1, H2.
  apply Ret_inj in H1 as <-, H2 as <-.
  assert (E0 := signed_message_binds _ _ _ (signing_input_wf _ _ _ _ _) (signing_input_wf _ _ _ _ _) M1 M2).
  apply signing_input_inj in E0. apply (identity_of_inj None) in E0.
  eapply computeCanonical_inj; [by apply without_field_wf|by apply without_field_wf|exact C1|exact C2|done|done].
Qed.
End signing.

(** A stand-in for ML-DSA-65 for running the definitions: a private key is one byte,
    its public key repeats it, and a signature ends in the sum of the message. *)
Module SampleCrypto.
Definition spki_of (k : bytes) : option bytes :=
  match k with [b] => Some (SPKI_PREFIX ++ replicate ML_DSA_65_PUBLIC_KEY_BYTES (b mod 256)) | _ => None end.
Definition signature_of (b : Z) (message : bytes) : bytes := replicate 3308 0 ++ [(fold_left Z.add message b) mod 256].
#[export] Instance crypto : NodeCrypto.
Proof.
  refine {| crypto_spki := spki_of;
            crypto_sign k message randomness := match k with [b] => Some (signature_of (b mod 256) message) | _ => None end;
            crypto_verify spki message signature := Some (signature === signature_of (default 0 (last spki)) message) |}.
  - intros k pk randomness message Hk Hl. destruct k as [|b [|]]; try done. unfold spki_of in Hk.
    assert (pk = replicate ML_DSA_65_PUBLIC_KEY_BYTES (b mod 256)) as ->.
    { apply (app_inv_head SPKI_PREFIX). congruence. }
    exists (signature_of (b mod 256) message). split_and!; [done| | |].
    + unfold signature_of. rewrite bytes_ok_app, andb_true_iff. split; [by vm_compute|].
      simpl. rewrite andb_true_r. apply is_byte_true. Z.to_euclidean_division_equations; lia.
    + unfold signature_of. by rewrite length_app, length_replicate.
    + rewrite last_app. by rewrite bool_decide_true.
  - intros k spki Hk. destruct k as [|b [|]]; try done. unfold spki_of in Hk.
    assert (spki = SPKI_PREFIX ++ replicate ML_DSA_65_PUBLIC_KEY_BYTES (b mod 256)) as -> by congruence.
    rewrite bytes_ok_app, andb_true_iff. split; [done|]. apply forallb_forall. intros x [-> _]%list_elem_of_In%elem_of_replicate. apply is_byte_true. Z.to_euclidean_division_equations; lia.
Defined.
Definition public_of (b : Z) : bytes := replicate ML_DSA_65_PUBLIC_KEY_BYTES b.
End SampleCrypto.

Module SigningSamples.
Import SampleHash SampleCrypto SchemaSamples.
Definition valid := registry_valid units_cmp.
(* Date.parse of the timestamps of the samples. *)
Definition parse_date (s : jsstr) : option Z :=
  value ← latin_text s; t ← scan value; ms ← Timestamps.Date_parse t; Some (ms + nanoseconds_of t / 1000000).
Definition key_record (version from until status : string) (b : Z) : json :=
  jobj [("protocol_version", jstr "codeattest.v0"); ("key_id", jstr "reviewer-key"); ("key_version", jstr version);
    ("algorithm_profile", jstr "ml_dsa_65"); ("public_key", JString (encodeBase64Url (public_of b)));
    ("custody_mode", jstr "self_hosted_software"); ("valid_from", jstr from); ("valid_until", jstr until); ("status", jstr status);
    ("limitations", JArray [jstr "A sample key."])].
Definition old_record : json := key_record "v1" "2025-01-01T00:00:00Z" "2026-01-01T00:00:00Z" "retired" 7.
Definition new_record : json := key_record "v2" "2026-01-01T00:00:00Z" "2027-01-01T00:00:00Z" "active" 8.
Definition unsigned : list (string * json) :=
  [("protocol_version", jstr "codeattest.v0"); ("directory_version", jnum 3); ("trust_anchor_key_id", jstr "anchor");
   ("published_at", jstr "2026-01-01T00:00:00Z"); ("keys", JArray [old_record; new_record])].
Definition or_null (t : throws json) : json := match t with Ret v => v | Throw _ => JNull end.
Definition directory_input : json := or_null (keyDirectorySigningInput (jobj unsigned)).
Definition directory_signature : json := or_null (signIdentityEnvelope [] {|
  input_signing_input := directory_input;
  input_key := {| handle_key_id := jstr "anchor"; handle_key_version := jstr "v1"; privateKeyPkcs8 := [9] |};
  input_signing_time := jstr "2026-01-01T00:00:00Z"; input_signing_mode := jstr "managed_key"; input_signing_limitations := [jstr "A sample."] |}).
Definition directory : json := jobj (unsigned ++ [("directory_signature", directory_signature)]).
Definition anchor : bytes := public_of 9.
Definition trusted : SignatureVerifier := verifier parse_date directory true.
Lemma directory_trusted : createSignatureVerifier parse_date valid directory anchor = Ret trusted.
Proof. unfold createSignatureVerifier. assert (verifyKeyDirectory valid directory anchor = Ret true) as -> by (by vm_compute). done. Qed.

Definition expectation : IdentitySignatureExpectation := {|
  protocol_version := "codeattest.v0"; signing_input_type := "receipt_identity"; signed_identity_type := "receipt";
  signed_identity := "sha256:" +:+ sha256_hex [1]; identity_input_path := "v0/valid/receipt.identity-input.json";
  key_id := "reviewer-key"; key_version := "v2"; signing_time := "2026-01-01T00:00:00Z" |}.
Definition key : SigningKeyHandle := {| handle_key_id := jstr "reviewer-key"; handle_key_version := jstr "v2"; privateKeyPkcs8 := [8] |}.
Definition envelope : json := or_null (signIdentityEnvelope [] {|
  input_signing_input := createIdentitySigningInput expectation; input_key := key; input_signing_time := jstr "2026-01-01T00:00:00Z";
  input_signing_mode := jstr "managed_key"; input_signing_limitations := [jstr "A sample."] |}).
Definition presented : VerifyIdentityEnvelopeInput := {|
  verified_envelope := envelope; verified_signing_input := createIdentitySigningInput expectation; verified_at := jstr "2026-02-01T00:00:00Z" |}.

Lemma sign_then_verify_witness : ∃ envelope o,
  verify_ trusted {| verified_envelope := envelope; verified_signing_input := createIdentitySigningInput expectation; verified_at := JNull |} = Ret o ∧
  signatureOutcomeCovers envelope o = true.
Proof.
  destruct (sign_then_verify parse_date valid directory anchor trusted expectation key (public_of 8) new_record []
    (jstr "2026-01-01T00:00:00Z") (jstr "managed_key") [] JNull) as (e & o & _ & Ho & Hc);
    [exact directory_trusted|done|by split|by vm_compute|done|]. by exists e, o.
Defined.
Lemma verified_means_key_in_force_witness : directory_signed directory anchor ∧ matching_input envelope (createIdentitySigningInput expectation) = true.
Proof.
  destruct (verified_means_key_in_force parse_date valid directory anchor trusted envelope (createIdentitySigningInput expectation)
    (jstr "2026-02-01T00:00:00Z") (outcome presented 3 result_verified)) as (H1 & H2 & _);
    [exact directory_trusted|by vm_compute|done|]. exact (conj H1 H2).
Defined.
Lemma rotation_boundary_witness : (0 <= 1767225600000) ∧
  ∀ r, ¬ resolveSigningKey parse_date directory {| query_key_id := jstr "reviewer-key"; query_key_version := jstr "v1";
    query_signing_time := jstr "2026-01-01T00:00:00Z"; query_purpose := verify |} = Ret (resolved r).
Proof.
  destruct (rotation_boundary parse_date directory (jstr "reviewer-key") (jstr "v1") (jstr "v2") old_record new_record [old_record; new_record]
    (jstr "2026-01-01T00:00:00Z") 1767225600000 1735689600000 1798761600000 1767225600000) as [[Hlt _]|(Hle & _ & Hr)];
    try done.
  by intros r [-> | ->].
Defined.

(* One directory, its fields written in two orders under two envelopes. *)
Definition small : list (string * json) := [("directory_version", jnum 3); ("trust_anchor_key_id", jstr "anchor"); ("keys", JArray [])].
Definition directory_a : json := jobj (small ++ [("directory_signature", JNull)]).
Definition directory_b : json := jobj (("directory_signature", jnum 1) :: rev small).
Definition directory_text : jsstr := match canonicalizeProtocolJson (jobj small) with Ret s => s | Throw _ => [] end.
Definition small_input : json := or_null (keyDirectorySigningInput directory_a).
Lemma directory_signature_binds_witness :
  same_data (without_field "directory_signature" directory_a) (without_field "directory_signature" directory_b).
Proof.
  apply (directory_signature_binds directory_a directory_b small_input small_input
    (match signedMessageForSigningInput small_input with Ret m => m | Throw _ => [] end) directory_text directory_text);
    [by vm_compute..|].
  apply collision_free_dec_sound. by vm_compute.
Defined.

(** A key directory that lists a key version twice is decided by its first entry: a
    later entry that revokes it is not seen. *)
Definition revoked_record : json := key_record "v2" "2026-01-01T00:00:00Z" "2027-01-01T00:00:00Z" "revoked" 8.
Lemma later_revocation_ignored :
  resolveSigningKey parse_date (jobj [("keys", JArray [new_record; revoked_record])])
    {| query_key_id := jstr "reviewer-key"; query_key_version := jstr "v2";
       query_signing_time := jstr "2026-06-01T00:00:00Z"; query_purpose := verify |} = Ret (resolved new_record).
Proof. by vm_compute. Qed.
End SigningSamples.
