(* ===== verification/Release.v ===== *)
(** Runner releases and key custody (packages/signing/src/runner-release.ts,
    custody.ts): the signature of a release record, its verification against the
    bytes of the released artifact, and the loading of a signing credential. *)
From S2P Require Import Prelude Patterns Bytes Json JsonText CanonicalJson Timestamps Schema Registry Values ReviewEventLog Base64Url Signing.

Local Open Scope Z_scope.

Definition RUNNER_RELEASE_IDENTITY_INPUT_PATH : string := "v0/valid/runner-release-record.identity-input.json".
Definition SOFTWARE_CUSTODY_LIMITATION : string :=
  "Key custody is self-hosted software custody in a non-validated cryptographic module, not a hardware security module.".

Inductive release_failure :=
  | release_artifact_malformed
  | release_record_invalid
  | release_build_mismatch
  | release_identifier_mismatch
  | release_artifact_digest_mismatch
  | release_signing_input_mismatch
  | release_signature_invalid
  | release_trust_anchor_invalid.
Inductive RunnerReleaseVerification := release_ok (release_record : json) | release_refused (reason : release_failure).

(* What [stat] and [readFile] say of the credential; None stands for a rejected promise. *)
Inductive credential_failure :=
  | credential_directory_missing
  | credential_missing
  | credential_readable_by_others
  | credential_malformed.
Inductive CredentialLoad := loaded (privateKeyPkcs8 publicKey : bytes) | not_loaded (reason : credential_failure).

Record VerifyReleaseInput := {
  release_artifact : json; artifact_bytes : bytes; trust_anchor_public_key : bytes;
  expected_build_identifier : option json; expected_release_identifier : option json
}.

(* Object.keys(value).sort() names exactly the three parts. *)
Definition isClosedArtifact (value : json) : bool :=
  match value with
  | JObject fs =>
      (Nat.eqb (length fs) 3 && JsMap.has (js "release_record") fs && JsMap.has (js "signature") fs && JsMap.has (js "signing_input") fs)%bool
  | _ => false
  end.

Section release.
Context `{Sha256, NodeCrypto}.
Variable valid : string → json → bool.

Definition release_signing_input (identity : string) : json :=
  signing_input "codeattest.v0" "runner_release_identity" "runner_release" identity RUNNER_RELEASE_IDENTITY_INPUT_PATH.
Definition runnerReleaseSigningInput (record : json) : throws json :=
  s ← canonicalizeProtocolJson record; Ret (release_signing_input (sha256ProtocolText s)).
Definition signRunnerReleaseArtifact (randomness : bytes) (release_record : json) (key : SigningKeyHandle) (signing_time : json) : throws json :=
  signingInput ← runnerReleaseSigningInput release_record;
  signature ← signIdentityEnvelope randomness {| input_signing_input := signingInput; input_key := key; input_signing_time := signing_time;
    input_signing_mode := jstr "managed_key"; input_signing_limitations := [jstr SOFTWARE_CUSTODY_LIMITATION] |};
  Ret (jobj [("release_record", release_record); ("signing_input", signingInput); ("signature", signature)]).

Definition mismatch (expected : option json) (actual : json) : bool :=
  match expected with None => false | Some e => actual !== e end.
Definition artifact_digest (b : bytes) : string := "sha256:" +:+ sha256_hex b.
(* The fields of the signature envelope; the encoded signature when they are as expected. *)
Definition release_signature_fields (signature expectedInput : json) : throws (option jsstr) :=
  if (negb (has_string "codeattest.v0" (prop "protocol_version" signature))
      || negb (has_string "ml_dsa_65" (prop "algorithm_profile" signature))
      || negb (has_string "runner_release" (prop "signed_identity_type" signature))
      || negb (same_prop "signed_identity" signature expectedInput)
      || negb (has_string "rfc8785" (prop "canonicalization" signature))
      || negb (has_string "managed_key" (prop "signing_mode" signature)))%bool then Ret None
  else
    limitations ← js_elements (prop "signing_limitations" signature);
    if negb (existsb (has_string SOFTWARE_CUSTODY_LIMITATION) limitations) then Ret None
    else
      signature_bytes ← text (prop "signature_bytes" signature);
      Ret (strip_units (js ML_DSA_65_SIGNATURE_PREFIX) signature_bytes).
Definition verifyRunnerReleaseArtifact (input : VerifyReleaseInput) : throws RunnerReleaseVerification :=
  let artifact := release_artifact input in
  let record := prop "release_record" artifact in
  if negb (isClosedArtifact artifact) then Ret (release_refused release_artifact_malformed)
  else if negb (valid "urn:codeattest:protocol:v0:runner-release-record" record) then Ret (release_refused release_record_invalid)
  else if negb (valid "urn:codeattest:protocol:v0:identity-signing-input" (prop "signing_input" artifact)) then
    Ret (release_refused release_artifact_malformed)
  else if negb (valid "urn:codeattest:protocol:v0:signature-envelope" (prop "signature" artifact)) then
    Ret (release_refused release_artifact_malformed)
  else if mismatch (expected_build_identifier input) (prop "build_identifier" record) then Ret (release_refused release_build_mismatch)
  else if mismatch (expected_release_identifier input) (prop "release_identifier" record) then Ret (release_refused release_identifier_mismatch)
  else if negb (has_string (artifact_digest (artifact_bytes input)) (prop "artifact_digest" record)) then
    Ret (release_refused release_artifact_digest_mismatch)
  else
    expectedInput ← runnerReleaseSigningInput record;
    presented ← canonicalizeProtocolJson (prop "signing_input" artifact);
    expected ← canonicalizeProtocolJson expectedInput;
    if presented !== expected then Ret (release_refused release_signing_input_mismatch)
    else
      encoded ← release_signature_fields (prop "signature" artifact) expectedInput;
      match encoded with
      | None => Ret (release_refused release_signature_invalid)
      | Some encoded =>
          if negb (Nat.eqb (length (trust_anchor_public_key input)) ML_DSA_65_PUBLIC_KEY_BYTES) then
            Ret (release_refused release_trust_anchor_invalid)
          else match decodeBase64Url encoded with
          | None => Ret (release_refused release_signature_invalid)
          | Some signatureBytes =>
              Ret (if verifyMlDsa65 (trust_anchor_public_key input) (signedMessage expected) signatureBytes
                   then release_ok record else release_refused release_signature_invalid)
          end
      end.

(** * Custody *)

Definition loadSigningCredential (join : string → string → string) (stat_mode : string → option Z) (read_file : string → option bytes)
    (credentialsDirectory : option string) (credentialName : string) : CredentialLoad :=
  match credentialsDirectory with
  | None | Some EmptyString => not_loaded credential_directory_missing
  | Some directory =>
      let credentialPath := join directory credentialName in
      match stat_mode credentialPath with
      | None => not_loaded credential_missing
      | Some st_mode =>
          let mode := Z.land st_mode 511 (* 0o777 *) in
          if negb (Z.land mode 63 (* 0o077 *) =? 0) then not_loaded credential_readable_by_others
          else match read_file credentialPath with
          | None => not_loaded credential_missing
          | Some b =>
              match publicKeyFromPkcs8 b with
              | None => not_loaded credential_malformed
              | Some publicKey => loaded b publicKey
              end
          end
      end
  end.

(** * What a verified release says *)

Lemma release_fields_some signature expectedInput encoded :
  release_signature_fields signature expectedInput = Ret (Some encoded) →
  prop "signature_bytes" signature = JString (js ML_DSA_65_SIGNATURE_PREFIX ++ encoded).
Proof.
  unfold release_signature_fields. case_match; [done|]. destruct (js_elements _) as [l|]; cbn [mbind throws_bind]; [|done].
  case_match; [done|]. destruct (prop "signature_bytes" signature) as [| |s| | | | |]; try done. cbn [text mbind throws_bind].
  by intros ->%Ret_inj%strip_units_spec.
Qed.
(* The verified artifact's record, digest, message and signature. *)
Lemma release_verified input record :
  verifyRunnerReleaseArtifact input = Ret (release_ok record) →
  ∃ s message signature,
    record = prop "release_record" (release_artifact input) ∧
    valid "urn:codeattest:protocol:v0:runner-release-record" record = true ∧
    prop "artifact_digest" record = jstr (artifact_digest (artifact_bytes input)) ∧
    canonicalizeProtocolJson record = Ret s ∧
    signedMessageForSigningInput (release_signing_input (sha256ProtocolText s)) = Ret message ∧
    prop "signature_bytes" (prop "signature" (release_artifact input)) =
      JString (js ML_DSA_65_SIGNATURE_PREFIX ++ encodeBase64Url signature) ∧
    verifyMlDsa65 (trust_anchor_public_key input) message signature = true.
Proof.
  unfold verifyRunnerReleaseArtifact, runnerReleaseSigningInput, signedMessageForSigningInput.
  set (r := prop "release_record" _). destruct (isClosedArtifact _); cbn [negb]; [|done].
  destruct (valid _ r) eqn:Hval; cbn [negb]; [|done]. do 4 (case_match; [done|]).
  destruct (has_string (artifact_digest _) _) eqn:Hdig; cbn [negb]; [|done]. apply has_string_true in Hdig.
  destruct (canonicalizeProtocolJson r) as [s|] eqn:Hs; cbn [mbind throws_bind]; [|done].
  destruct (canonicalizeProtocolJson (prop "signing_input" _)) as [presented|]; cbn [mbind throws_bind]; [|done].
  destruct (canonicalizeProtocolJson (release_signing_input _)) as [expected|] eqn:He; cbn [mbind throws_bind]; [|done].
  case_match; [done|]. destruct (release_signature_fields _ _) as [[encoded|]|] eqn:Hf; cbn [mbind throws_bind]; try done.
  destruct (Nat.eqb _ _); cbn [negb]; [|done]. destruct (decodeBase64Url encoded) as [sb|] eqn:Hd; [|done].
  destruct (verifyMlDsa65 _ _ _) eqn:Hver; [|done]. intros <-%Ret_inj%(f_equal (λ o, match o with release_ok x => x | _ => r end)).
  apply base64url_canonical in Hd as [_ ->]. apply release_fields_some in Hf.
  exists s, (signedMessage expected), sb. rewrite He. by split_and!.
Qed.

(** A verified release binds the artifact: its record carries the digest of the
    presented bytes, and when a signature's message verifies a second release, then
    absent SHA-256 collisions among the two records and the two artifacts, the
    records are the same data and the artifacts the same bytes. *)
Theorem release_binds_artifact input input' record record' s s' message :
  verifyRunnerReleaseArtifact input = Ret (release_ok record) → verifyRunnerReleaseArtifact input' = Ret (release_ok record') →
  wf_json record = true → wf_json record' = true →
  canonicalizeProtocolJson record = Ret s → canonicalizeProtocolJson record' = Ret s' →
  signedMessageForSigningInput (release_signing_input (sha256ProtocolText s)) = Ret message →
  signedMessageForSigningInput (release_signing_input (sha256ProtocolText s')) = Ret message →
  collision_free [utf8 s; utf8 s'] → collision_free [artifact_bytes input; artifact_bytes input'] →
  same_data record record' ∧ artifact_bytes input = artifact_bytes input'.
Proof.
  intros Hv Hv' W W' Hs Hs' Hm Hm' Hcf Hcb.
  apply release_verified in Hv as (_ & _ & _ & _ & _ & Hd & _), Hv' as (_ & _ & _ & _ & _ & Hd' & _).
  pose proof (signed_message_binds _ _ _ (signing_input_wf _ _ _ _ _) (signing_input_wf _ _ _ _ _) Hm Hm') as E0.
  apply signing_input_inj, (identity_of_inj None) in E0.
  assert (same_data record record') as Hsame by (by eapply (computeCanonical_inj record record')). split; [done|].
  eapply same_data_text in Hd; [|exact W|exact W'|exact Hsame]. rewrite Hd' in Hd. apply jstr_inj in Hd. unfold artifact_digest in Hd.
  apply (f_equal (strip "sha256:")) in Hd. rewrite !strip_app in Hd. injection Hd as E1%sha256_hex_inj.
  symmetry. apply Hcb; [rewrite !elem_of_cons; auto..|done].
Qed.

(** A signed release verifies: what [signRunnerReleaseArtifact] makes for a
    canonical record and an ML-DSA-65 key is accepted with the key's public part as
    the trust anchor, whenever its parts satisfy their schemas, the record's digest
    is the artifact's, and the expected identifiers, if given, are the record's. *)
Theorem signed_release_verifies randomness record key time publicKey s b build identifier :
  canonicalizeProtocolJson record = Ret s → ml_dsa_key (privateKeyPkcs8 key) publicKey →
  prop "artifact_digest" record = jstr (artifact_digest b) →
  mismatch build (prop "build_identifier" record) = false → mismatch identifier (prop "release_identifier" record) = false →
  ∃ artifact, signRunnerReleaseArtifact randomness record key time = Ret artifact ∧
    (valid "urn:codeattest:protocol:v0:runner-release-record" record = true →
     valid "urn:codeattest:protocol:v0:identity-signing-input" (prop "signing_input" artifact) = true →
     valid "urn:codeattest:protocol:v0:signature-envelope" (prop "signature" artifact) = true →
     verifyRunnerReleaseArtifact {| release_artifact := artifact; artifact_bytes := b; trust_anchor_public_key := publicKey;
       expected_build_identifier := build; expected_release_identifier := identifier |} = Ret (release_ok record)).
Proof.
  intros Hs Hkey Hdig Hb Hi. set (input := release_signing_input (sha256ProtocolText s)).
  assert (runnerReleaseSigningInput record = Ret input) as Hin by (unfold runnerReleaseSigningInput; by rewrite Hs).
  assert (∃ t, canonicalizeProtocolJson input = Ret t) as [t Ht].
  { destruct (signing_input_message "codeattest.v0" "runner_release_identity" "runner_release" (sha256ProtocolText s)
      RUNNER_RELEASE_IDENTITY_INPUT_PATH) as [m Hm]. change (signedMessageForSigningInput input = Ret m) in Hm.
    unfold signedMessageForSigningInput in Hm. destruct (canonicalizeProtocolJson input) as [t|]; [by exists t|done]. }
  destruct (sign_verifies _ _ (signedMessage t) randomness Hkey) as (sg & Hsg & Hok & Hver).
  unfold signRunnerReleaseArtifact, signIdentityEnvelope, signedMessageForSigningInput. rewrite Hin. cbn [mbind throws_bind input_signing_input].
  rewrite Ht. cbn [mbind throws_bind input_key]. rewrite Hsg. cbn [mbind throws_bind]. eexists. split; [done|].
  set (artifact := jobj _). set (envelope := prop "signature" artifact).
  change (prop "signing_input" artifact) with input. intros V1 V2 V3.
  unfold verifyRunnerReleaseArtifact. cbn [release_artifact artifact_bytes trust_anchor_public_key expected_build_identifier
    expected_release_identifier]. change (prop "release_record" artifact) with record.
  change (prop "signing_input" artifact) with input. fold envelope.
  assert (isClosedArtifact artifact = true) as -> by done. rewrite V1, V2, V3, Hb, Hi, (proj2 (has_string_true _ _) Hdig), Hin. cbn [negb mbind throws_bind].
  rewrite Ht. cbn [mbind throws_bind]. rewrite bool_decide_true by done.
  assert (release_signature_fields envelope input = Ret (Some (encodeBase64Url sg))) as ->.
  { unfold release_signature_fields.
    match goal with |- (if ?g then _ else _) = _ => assert (g = false) as -> end.
    { rewrite !orb_false_iff, !negb_false_iff. split_and!; apply bool_decide_eq_true; reflexivity. }
    change (prop "signing_limitations" envelope) with (JArray [jstr SOFTWARE_CUSTODY_LIMITATION]).
    change (prop "signature_bytes" envelope) with (JString (js ML_DSA_65_SIGNATURE_PREFIX ++ encodeBase64Url sg)).
    cbn [js_elements mbind throws_bind existsb text]. rewrite (proj2 (has_string_true _ _) eq_refl). cbn [orb negb].
    by rewrite (proj2 (strip_units_spec _ _ _) eq_refl). }
  cbn [mbind throws_bind]. rewrite (proj2 Hkey), Nat.eqb_refl. cbn [negb].
  rewrite (proj2 (base64url_canonical _ sg)) by done. by rewrite Hver.
Qed.

(** A credential is loaded only when group and others may not touch it. *)
Lemma loaded_credential_private join stat_mode read_file directory name sk pk :
  loadSigningCredential join stat_mode read_file directory name = loaded sk pk →
  ∃ d st_mode, directory = Some d ∧ d ≠ EmptyString ∧ stat_mode (join d name) = Some st_mode ∧
    (∀ i, 0 ≤ i < 6 → Z.testbit st_mode i = false) ∧
    read_file (join d name) = Some sk ∧ publicKeyFromPkcs8 sk = Some pk.
Proof.
  unfold loadSigningCredential. destruct directory as [[|c d]|]; try done.
  destruct (stat_mode _) as [m|] eqn:Hm; [|done]. destruct (Z.eqb_spec (Z.land (Z.land m 511) 63) 0) as [Hz|]; cbn [negb]; [|done].
  destruct (read_file _) as [b|] eqn:Hb; [|done]. destruct (publicKeyFromPkcs8 b) as [p|] eqn:Hp; [|done]. intros [= -> ->].
  exists (String c d), m. split_and!; try done. intros i Hi.
  assert (Z.testbit (Z.land (Z.land m 511) 63) i = false) as Ht by (rewrite Hz; apply Z.testbit_0_l).
  rewrite !Z.land_spec in Ht.
  assert (Z.testbit 511 i = true ∧ Z.testbit 63 i = true) as [E1 E2].
  { assert (i = 0 ∨ i = 1 ∨ i = 2 ∨ i = 3 ∨ i = 4 ∨ i = 5) as Hc by lia. by destruct_or! Hc; subst. }
  rewrite E1, E2, !andb_true_r in Ht. done.
Qed.
(** The type of a key is not looked at: any private key whose public key's DER text is
    long enough, an ML-DSA-87 key for one, is loaded as an ML-DSA-65 key, with the
    last 1952 bytes of that text as its public key. *)
Lemma any_long_key_accepted join stat_mode read_file directory name sk prefix raw :
  directory ≠ EmptyString → stat_mode (join directory name) = Some 384 → read_file (join directory name) = Some sk →
  crypto_spki sk = Some (prefix ++ raw) → length raw = ML_DSA_65_PUBLIC_KEY_BYTES →
  loadSigningCredential join stat_mode read_file (Some directory) name = loaded sk raw.
Proof.
  intros Hd Hm Hr Hk Hl. unfold loadSigningCredential. destruct directory as [|c d]; [done|]. rewrite Hm. cbn [negb Z.eqb].
  rewrite Hr. unfold publicKeyFromPkcs8. rewrite Hk, length_app, Hl, Nat.add_sub, drop_app_length. by rewrite Hl, Nat.eqb_refl.
Qed.
End release.

Module ReleaseSamples.
Import SampleHash SampleCrypto SchemaSamples.
Definition valid := registry_valid units_cmp.
Definition binary : bytes := [127; 69; 76; 70].
Definition record : json := jobj [("protocol_version", jstr "codeattest.v0"); ("release_identifier", jstr "codeattest-local-runner-v0.1.0");
  ("build_identifier", jstr "ci-build-0001"); ("artifact_digest", jstr (artifact_digest binary)); ("released_at", jstr "2026-08-16T00:00:00Z");
  ("limitations", JArray [jstr "A sample release."])].
Definition record_text : jsstr := match canonicalizeProtocolJson record with Ret s => s | Throw _ => [] end.
Definition key : SigningKeyHandle := {| handle_key_id := jstr "anchor"; handle_key_version := jstr "v1"; privateKeyPkcs8 := [9] |}.
Definition artifact : json :=
  match signRunnerReleaseArtifact [] record key (jstr "2026-08-16T00:00:00Z") with Ret v => v | Throw _ => JNull end.
Definition input (b : bytes) : VerifyReleaseInput := {| release_artifact := artifact; artifact_bytes := b; trust_anchor_public_key := public_of 9;
  expected_build_identifier := Some (jstr "ci-build-0001"); expected_release_identifier := None |}.
Example other_bytes_refused :
  verifyRunnerReleaseArtifact valid (input [127; 69; 76; 71]) = Ret (release_refused release_artifact_digest_mismatch).
Proof. by vm_compute. Qed.
Lemma signed_release_verifies_witness : verifyRunnerReleaseArtifact valid (input binary) = Ret (release_ok record).
Proof.
  destruct (signed_release_verifies valid [] record key (jstr "2026-08-16T00:00:00Z") (public_of 9) record_text binary
    (Some (jstr "ci-build-0001")) None) as (a & Ha & Hv); [by vm_compute|by split|done|by vm_compute|done|].
  assert (a = artifact) as -> by (unfold artifact; by rewrite Ha). apply Hv; by vm_compute.
Defined.
Lemma release_binds_artifact_witness : same_data record record ∧ artifact_bytes (input binary) = artifact_bytes (input binary).
Proof.
  apply (release_binds_artifact valid (input binary) (input binary) record record record_text record_text
    (match signedMessageForSigningInput (release_signing_input (sha256ProtocolText record_text)) with Ret m => m | Throw _ => [] end));
    [by vm_compute..| |]; apply collision_free_dec_sound; by vm_compute.
Defined.
End ReleaseSamples.
