(* ===== verification/SubmittedArtifacts.v ===== *)
(** What a schema alone cannot say of a submitted artifact
    (packages/protocol-ts/src/submitted-artifact-semantics.ts): the semantic issues of
    outbound manifests, customer approvals, disclosure policies, bundle manifests and
    scanner finding sets. *)
From S2P Require Import Prelude Patterns Bytes Json JsonText CanonicalJson Schema Registry Values.

Local Open Scope Z_scope.

Definition REQUIRED_EVIDENCE_CATEGORIES : list string :=
  ["metadata"; "dependencies"; "scanner_findings"; "raw_snippets"; "targeted_files"; "derived_artifacts"; "never_collected_items"].

Inductive OutboundManifestSemanticIssue :=
  | outbound_manifest_identity_mismatch
  | outbound_manifest_missing_evidence_category
  | outbound_manifest_duplicate_evidence_category
  | outbound_manifest_policy_coverage_mode_mismatch
  | outbound_manifest_policy_ref_mismatch
  | preview_safe_package_state_required
  | preview_safe_approval_state_required
  | metadata_only_must_not_include_snippets
  | metadata_only_warning_required
  | finding_context_requires_caps_redaction
  | extended_requires_selected_files_or_areas
  | retained_review_artifact_class_required
  | source_code_disclosure_label_required
  | raw_snippet_wrong_source_class
  | targeted_file_wrong_source_class
  | source_code_disclosure_controls_required
  | outbound_manifest_inclusion_state_mismatch
  | redaction_limitation_required
  | outbound_manifest_data_minimization_required.
Inductive CustomerApprovalSemanticIssue :=
  | approval_manifest_context_mismatch
  | approval_displayed_context_required
  | approval_state_mismatch
  | approval_warnings_acknowledgement_mismatch
  | approval_not_submitted_state_required.
Inductive DisclosurePolicySemanticIssue :=
  | disclosure_policy_missing_evidence_category
  | disclosure_policy_duplicate_evidence_category
  | scanner_finding_set_ref_required
  | metadata_category_mismatch
  | dependency_category_mismatch
  | scanner_findings_category_mismatch
  | policy_retained_review_artifact_class_required
  | policy_metadata_only_must_not_include_snippets
  | policy_metadata_only_warning_required
  | policy_finding_context_requires_caps_redaction
  | finding_context_warning_required
  | policy_extended_requires_selected_files_or_areas
  | extended_warning_required
  | policy_raw_snippet_wrong_source_class
  | policy_targeted_file_wrong_source_class
  | retained_source_requires_opt_in_and_period
  | policy_redaction_limitation_required.
Inductive BundleManifestCleanupSemanticIssue :=
  | source_derived_cleanup_intent_required
  | bundle_claim_safe_language_required.
Inductive ScannerFindingSetSemanticIssue :=
  | scanner_run_failure_reason_contradiction
  | candidate_finding_source_run_unresolved.

(** * Shared readings *)

(* typeof v.name === "string" *)
Definition has_text (name : string) (v : json) : bool := match prop name v with JString _ => true | _ => false end.
Definition has_array (name : string) (v : json) : bool := match prop name v with JArray _ => true | _ => false end.
Definition included (v : json) : bool := prop "included" v === JBool true.
Definition array_of (v : json) : list json := match v with JArray l => l | _ => [] end.
Definition asStringArray (v : json) : list json := List.filter (λ x, match x with JString _ => true | _ => false end) (array_of v).
Definition sourceRetentionClass (v : json) : bool := one_of ["transient_source_derived"; "customer_opt_in_retained_source"] v.
(* typeof v === "string" ? v.trim() : "" *)
Definition trimmed (v : json) : jsstr := match v with JString s => js_trim s | _ => [] end.
Definition coverage_modes : list string :=
  ["metadata_only"; "finding_context_snippets"; "extended_approved_snippets_or_targeted_files"].
(* The text is blank or one of the placeholders. *)
Definition unset (s : jsstr) : bool := ((s === []) || (s === js "not_configured") || (s === js "not_applicable"))%bool.

(* The first entry of each category name. *)
Fixpoint category_entries (map : list (jsstr * json)) (categories : list json) : list (jsstr * json) :=
  match categories with
  | [] => map
  | category :: categories' =>
      category_entries
        (match prop "category" category with
         | JString name => if JsMap.has name map then map else JsMap.set name category map
         | _ => map
         end) categories'
  end.
Definition categoryMap (categories : json) : list (jsstr * json) := category_entries [] (array_of categories).
Definition category_of (categories : list (jsstr * json)) (name : string) : json := default JForeign (JsMap.get (js name) categories).
Definition category_included (categories : list (jsstr * json)) (name : string) : bool := included (category_of categories name).
Definition includedCategory (categories : list (jsstr * json)) (category : string) (expected : json) : bool :=
  prop "included" (category_of categories category) === expected.
(* v.length *)
Definition js_length (v : json) : option Z :=
  match v with
  | JArray l => Some (Z.of_nat (length l))
  | JString s => Some (Z.of_nat (length s))
  | JObject _ => match prop "length" v with JNumber n => Some n | _ => None end
  | _ => None
  end.
Definition missing_category {I} (categories : list (jsstr * json)) (i : I) : list I :=
  List.flat_map (λ name, issue_when (negb (JsMap.has (js name) categories)) i) REQUIRED_EVIDENCE_CATEGORIES.
Definition duplicate_category {I} (categories : list (jsstr * json)) (entries : json) (i : I) : list I :=
  issue_when (negb (js_length (coalesce entries (JArray [])) === Some (Z.of_nat (length categories)))) i.
Definition retained_class {I} (categories : list (jsstr * json)) (i : I) : list I :=
  List.flat_map (λ name, issue_when (category_included categories name
      && negb (has_string "retained_review_artifact" (prop "source_derived_class" (category_of categories name))))%bool i)
    ["metadata"; "dependencies"; "scanner_findings"; "derived_artifacts"].

Section semantics.
Context `{UnicodeText, Sha256}.

(* values.join(" ").toLowerCase() *)
Fixpoint join_space (parts : list jsstr) : jsstr :=
  match parts with [] => [] | [p] => p | p :: parts' => p ++ 32 :: join_space parts' end.
Definition element_text (v : json) : jsstr := match v with JNull | JForeign => [] | _ => js_string v end.
Definition lower_joined (l : list json) : jsstr := toLowerCase (join_space (List.map element_text l)).
Definition joinedLower (v : json) : jsstr := match v with JArray l => lower_joined l | _ => [] end.
Definition admits_redaction_limits (s : jsstr) : bool := (mentions s "cannot prove absence" || mentions s "cannot prove the absence")%bool.

(** * Outbound manifests *)

Definition isOutboundManifestLike (v : json) : bool :=
  (isRecord v && has_text "manifest_id" v && has_text "coverage_mode" v && has_array "evidence_categories" v
   && truthy (prop "package_preview_state" v) && truthy (prop "approval" v))%bool.
Definition manifest_identity_issue (v : json) : list OutboundManifestSemanticIssue :=
  issue_when match computeCanonicalSha256Id (without_field "manifest_id" v) with
             | Ret id => negb (has_string id (prop "manifest_id" v))
             | Throw _ => true
             end outbound_manifest_identity_mismatch.
Definition preview_issues (v : json) : list OutboundManifestSemanticIssue :=
  let packageState := prop "package_preview_state" v in
  issue_when (negb (has_string "preview_generated" (prop "state" packageState)) || (prop "send_ready" packageState !== JBool false)
              || (prop "local_only" packageState !== JBool true))%bool preview_safe_package_state_required
  ++ issue_when (negb (has_string "not_requested" (prop "approval_state" (prop "approval" v)))) preview_safe_approval_state_required.
Definition mode_issues (categories : list (jsstr * json)) (warningsText : jsstr) (mode : json) : list OutboundManifestSemanticIssue :=
  let raw := category_included categories "raw_snippets" in
  let targeted := category_included categories "targeted_files" in
  (if has_string "metadata_only" mode then
     issue_when (raw || targeted)%bool metadata_only_must_not_include_snippets
     ++ issue_when (negb (mentions warningsText "expert confidence may be lower") || negb (mentions warningsText "snippets were not provided"))%bool
          metadata_only_warning_required
   else [])
  ++ (if has_string "finding_context_snippets" mode then issue_when (negb raw || targeted)%bool finding_context_requires_caps_redaction else [])
  ++ (if has_string "extended_approved_snippets_or_targeted_files" mode then
        issue_when (negb raw || negb targeted)%bool extended_requires_selected_files_or_areas
        ++ issue_when match prop "selected_files_or_areas" (prop "snippet_controls" (category_of categories "targeted_files")) with
                      | JArray (_ :: _) => false
                      | _ => true
                      end extended_requires_selected_files_or_areas
      else []).
Definition source_category_issues (categories : list (jsstr * json)) (warningsText : jsstr) (categoryName : string)
    (wrong_class : OutboundManifestSemanticIssue) : list OutboundManifestSemanticIssue :=
  let category := category_of categories categoryName in
  if negb (included category) then []
  else
    let controls := prop "snippet_controls" category in
    issue_when (prop "source_code_disclosure" category !== JBool true) source_code_disclosure_label_required
    ++ issue_when (negb (sourceRetentionClass (prop "source_derived_class" category))) wrong_class
    ++ issue_when (negb (positiveNumber (prop "max_snippet_chars" controls)) || negb (natural (prop "context_lines" controls)))%bool
         source_code_disclosure_controls_required
    ++ issue_when (negb (mentions (lower_joined (asStringArray (prop "details" category) ++
                                     [prop "limitation" category; prop "retention_handling" category; JString warningsText]))
                           "source-code disclosure")) source_code_disclosure_label_required.
Definition entry_issues (warningsText limitationsText : jsstr) (category : json) : list OutboundManifestSemanticIssue :=
  issue_when (included category && negb (has_string "included" (prop "inclusion_state" category)))%bool outbound_manifest_inclusion_state_mismatch
  ++ (if has_string "redaction_configured" (prop "redaction_state" category) then
        issue_when (unset (trimmed (prop "redaction_configuration_version" category))) redaction_limitation_required
        ++ issue_when (negb (admits_redaction_limits (lower_joined ([prop "limitation" category] ++ asStringArray (prop "details" category)
                               ++ [JString warningsText; JString limitationsText])))) redaction_limitation_required
      else []).
Definition summary_redaction_issues (summary : json) (warningsText limitationsText : jsstr) : list OutboundManifestSemanticIssue :=
  issue_when (negb (unset (trimmed (prop "redaction_profile" summary))) && negb (unset (trimmed (prop "redaction_configuration_version" summary)))
              && negb (admits_redaction_limits (lower_joined [JString warningsText; JString limitationsText])))%bool redaction_limitation_required.
Definition minimization_issues (categories : list (jsstr * json)) : list OutboundManifestSemanticIssue :=
  let neverCollectedText := lower_joined (asStringArray (prop "details" (category_of categories "never_collected_items"))) in
  List.flat_map (λ requiredText, issue_when (negb (mentions neverCollectedText requiredText)) outbound_manifest_data_minimization_required)
    ["complete repository archive"; "full git history"; "unapproved source files"; "unapproved raw snippets"; "local environment secrets"].
Definition outboundManifestSemanticIssues (v : json) : list OutboundManifestSemanticIssue :=
  if negb (isOutboundManifestLike v) then []
  else if negb (one_of coverage_modes (prop "coverage_mode" v)) then []
  else
    let categories := categoryMap (prop "evidence_categories" v) in
    let summary := prop "disclosure_policy_summary" v in
    let warningsText := joinedLower (prop "warnings" v) in
    let limitationsText := joinedLower (prop "limitations" v) in
    manifest_identity_issue v
    ++ missing_category categories outbound_manifest_missing_evidence_category
    ++ duplicate_category categories (prop "evidence_categories" v) outbound_manifest_duplicate_evidence_category
    ++ issue_when (prop "coverage_mode" summary !== prop "coverage_mode" v) outbound_manifest_policy_coverage_mode_mismatch
    ++ issue_when (prop "disclosure_policy_ref" summary !== prop "disclosure_policy_ref" v) outbound_manifest_policy_ref_mismatch
    ++ preview_issues v
    ++ mode_issues categories warningsText (prop "coverage_mode" v)
    ++ retained_class categories retained_review_artifact_class_required
    ++ source_category_issues categories warningsText "raw_snippets" raw_snippet_wrong_source_class
    ++ source_category_issues categories warningsText "targeted_files" targeted_file_wrong_source_class
    ++ List.flat_map (entry_issues warningsText limitationsText) (array_of (prop "evidence_categories" v))
    ++ summary_redaction_issues summary warningsText limitationsText
    ++ minimization_issues categories.

(** * Customer approvals *)

Definition isCustomerApprovalLike (v : json) : bool :=
  (isRecord v && has_text "approval_id" v && has_text "manifest_id" v && has_text "decision" v)%bool.
Definition displayed_fields : list string :=
  ["manifest_id"; "selected_application"; "selected_commit"; "repository_identity"; "coverage_mode"; "disclosure_policy_ref";
   "disclosure_warnings"; "bundle_preview_summary"].
Definition declined_issues (v : json) : list CustomerApprovalSemanticIssue :=
  let state := prop "not_submitted_state" v in
  issue_when (negb (has_string "not_submitted" (prop "state" state)) || (prop "evidence_bundle_created" state !== JBool false)
              || (prop "evidence_sent" state !== JBool false))%bool approval_not_submitted_state_required
  ++ List.flat_map (λ action, issue_when (negb (existsb (has_string action) (array_of (prop "next_actions" state))))
                                approval_not_submitted_state_required)
       ["revise policy"; "rerun scan"; "export manifest"; "exit"].
Definition customerApprovalSemanticIssues (v : json) : list CustomerApprovalSemanticIssue :=
  if negb (isCustomerApprovalLike v) then []
  else
    let displayed := prop "displayed_context" v in
    let summary := toLowerCase (js_string (coalesce (prop "bundle_preview_summary" displayed) (jstr ""))) in
    issue_when (prop "manifest_id" displayed !== prop "manifest_id" v) approval_manifest_context_mismatch
    ++ List.flat_map (λ field, issue_when (is_undefined (prop field displayed)) approval_displayed_context_required) displayed_fields
    ++ issue_when (negb (mentions summary "not_submitted") || negb (mentions summary "no evidence is sent"))%bool
         approval_displayed_context_required
    ++ issue_when (has_string "approved" (prop "decision" v) && negb (is_undefined (prop "not_submitted_state" v)))%bool
         approval_state_mismatch
    ++ issue_when (has_string "approved" (prop "decision" v)
                   && match prop "disclosure_warnings" displayed with
                      | JArray _ as shown => JSON_stringify shown !== JSON_stringify (coalesce (prop "warnings_acknowledged" v) (JArray []))
                      | _ => false
                      end)%bool approval_warnings_acknowledgement_mismatch
    ++ (if has_string "declined" (prop "decision" v) then declined_issues v else []).

(** * Disclosure policies *)

Definition isDisclosurePolicyLike (v : json) : bool :=
  (isRecord v && has_text "disclosure_policy_id" v && has_text "coverage_mode" v
   && truthy (prop "snippet_policy" v) && truthy (prop "retention_policy" v))%bool.
Definition policy_mode_issues (categories : list (jsstr * json)) (snippetPolicy : json) (warningsText : jsstr) (mode : json)
    : list DisclosurePolicySemanticIssue :=
  let selected := prop "selected_files_or_areas" snippetPolicy in
  let none_selected := Nat.eqb (length (array_of selected)) 0 in
  (if has_string "metadata_only" mode then
     issue_when ((prop "allow_raw_snippets" snippetPolicy !== JBool false) || (prop "max_snippet_chars" snippetPolicy !== JNumber 0)
                 || (prop "context_lines" snippetPolicy !== JNumber 0) || negb (has_string "none" (prop "selection_behavior" snippetPolicy))
                 || negb none_selected || category_included categories "raw_snippets" || category_included categories "targeted_files")%bool
       policy_metadata_only_must_not_include_snippets
     ++ issue_when (negb (mentions warningsText "expert confidence may be lower") || negb (mentions warningsText "snippets were not provided"))%bool
          policy_metadata_only_warning_required
   else [])
  ++ (if has_string "finding_context_snippets" mode then
        issue_when ((prop "allow_raw_snippets" snippetPolicy !== JBool true)
                    || negb (has_string "finding_context" (prop "selection_behavior" snippetPolicy))
                    || negb (positiveNumber (prop "max_snippet_chars" snippetPolicy)) || negb (natural (prop "context_lines" snippetPolicy))
                    || negb none_selected)%bool policy_finding_context_requires_caps_redaction
        ++ issue_when (negb (mentions warningsText "source-code disclosure") || negb (mentions warningsText "capped")
                       || negb (mentions warningsText "redacted"))%bool finding_context_warning_required
      else [])
  ++ (if has_string "extended_approved_snippets_or_targeted_files" mode then
        issue_when ((prop "allow_raw_snippets" snippetPolicy !== JBool true)
                    || negb (has_string "extended_selected_files_or_areas" (prop "selection_behavior" snippetPolicy))
                    || none_selected || negb (category_included categories "targeted_files"))%bool
          policy_extended_requires_selected_files_or_areas
        ++ issue_when (negb (mentions warningsText "improve review confidence") || negb (mentions warningsText "increases disclosure"))%bool
             extended_warning_required
      else []).
Definition policy_class_issues (categories : list (jsstr * json)) (snippetPolicy retentionPolicy : json) : list DisclosurePolicySemanticIssue :=
  let opt_in name := has_string "customer_opt_in_retained_source" (prop name retentionPolicy) in
  let period := trimmed (prop "retention_period" retentionPolicy) in
  issue_when (negb (has_string "transient_source_derived" (prop "raw_snippet_default_class" snippetPolicy))) policy_raw_snippet_wrong_source_class
  ++ issue_when (category_included categories "raw_snippets" && negb (sourceRetentionClass (prop "raw_snippet_class" retentionPolicy)))%bool
       policy_raw_snippet_wrong_source_class
  ++ issue_when (category_included categories "targeted_files" && negb (sourceRetentionClass (prop "targeted_file_class" retentionPolicy)))%bool
       policy_targeted_file_wrong_source_class
  ++ issue_when ((opt_in "raw_snippet_class" || opt_in "targeted_file_class")
                 && ((prop "retain_source_opt_in" retentionPolicy !== JBool true) || (period === []) || (period === js "not_applicable")))%bool
       retained_source_requires_opt_in_and_period.
Definition disclosurePolicySemanticIssues (v : json) : list DisclosurePolicySemanticIssue :=
  if negb (isDisclosurePolicyLike v) then []
  else if negb (one_of coverage_modes (prop "coverage_mode" v)) then []
  else
    let categories := categoryMap (prop "evidence_categories" v) in
    let redactionPolicy := prop "redaction_policy" v in
    let warningsText := joinedLower (prop "warnings" v) in
    let limitationsText := joinedLower (prop "limitations" v) in
    missing_category categories disclosure_policy_missing_evidence_category
    ++ duplicate_category categories (prop "evidence_categories" v) disclosure_policy_duplicate_evidence_category
    ++ issue_when ((prop "include_scanner_findings" v === JBool true) && negb (has_text "scanner_finding_set_ref" v))%bool
         scanner_finding_set_ref_required
    ++ issue_when (negb (includedCategory categories "metadata" (prop "include_metadata" v))) metadata_category_mismatch
    ++ issue_when (negb (includedCategory categories "dependencies" (prop "include_dependency_information" v))) dependency_category_mismatch
    ++ issue_when (negb (includedCategory categories "scanner_findings" (prop "include_scanner_findings" v))) scanner_findings_category_mismatch
    ++ retained_class categories policy_retained_review_artifact_class_required
    ++ policy_mode_issues categories (prop "snippet_policy" v) warningsText (prop "coverage_mode" v)
    ++ policy_class_issues categories (prop "snippet_policy" v) (prop "retention_policy" v)
    ++ issue_when ((prop "enabled" redactionPolicy === JBool true)
                   && negb (admits_redaction_limits
                        (toLowerCase (js_string (coalesce (prop "limitation" redactionPolicy) (jstr ""))) ++ 32 :: warningsText ++ 32 :: limitationsText)))%bool
         policy_redaction_limitation_required.

(** * Bundle manifests *)

Definition BUNDLE_CLAIM_FORBIDDEN_PHRASES : list string :=
  ["vendor receipt"; "received state"; "attestation"; "review findings"; "no vulnerabilities"; "certified"].
Definition isBundleManifestLike (v : json) : bool :=
  (isRecord v && has_text "evidence_bundle_id" v && has_text "manifest_id" v && has_array "artifact_references" v
   && truthy (prop "verification_metadata" v))%bool.
(* list.map((item) => item.name) *)
Fixpoint members (name : string) (l : list json) : throws (list json) :=
  match l with
  | [] => Ret []
  | item :: l' => x ← member name item; xs ← members name l'; Ret (x :: xs)
  end.
(* artifact.source_derived_class and the other fields of an entry; a TypeError on null *)
Definition artifact_issue (cleanupRefs : list json) (artifact : json) : throws bool :=
  class ← member "source_derived_class" artifact;
  Ret (sourceRetentionClass class && negb (bool_decide (prop "artifact_ref" artifact ∈ cleanupRefs)))%bool.
Definition intent_issue (intent : json) : throws bool :=
  class ← member "source_derived_class" intent;
  Ret (has_string "transient_source_derived" class
       && ((prop "cleanup_required" intent !== JBool true) || negb (has_string "pending" (prop "deletion_evidence_state" intent))))%bool.
Fixpoint each_issue {I} (test : json → throws bool) (i : I) (l : list json) : throws (list I) :=
  match l with
  | [] => Ret []
  | x :: l' => b ← test x; issues ← each_issue test i l'; Ret (issue_when b i ++ issues)
  end.
Definition bundleManifestCleanupSemanticIssues (v : json) : throws (list BundleManifestCleanupSemanticIssue) :=
  if negb (isBundleManifestLike v) then Ret []
  else
    intents ← js_elements (coalesce (prop "local_cleanup_intent" v) (JArray []));
    cleanupRefs ← members "artifact_ref" intents;
    artifacts ← each_issue (artifact_issue cleanupRefs) source_derived_cleanup_intent_required (array_of (prop "artifact_references" v));
    pending ← each_issue intent_issue source_derived_cleanup_intent_required intents;
    let lower := toLowerCase (JSON_stringify v) in
    Ret (artifacts ++ pending
         ++ List.flat_map (λ forbidden, issue_when (mentions lower forbidden) bundle_claim_safe_language_required) BUNDLE_CLAIM_FORBIDDEN_PHRASES).

(** * Scanner finding sets *)

Definition isScannerFindingSetLike (v : json) : bool :=
  (isRecord v && has_text "scanner_finding_set_id" v && has_array "scanner_runs" v && has_array "candidate_findings" v)%bool.
Definition run_issues (run : json) : list ScannerFindingSetSemanticIssue :=
  let unsuccessful := one_of ["failed"; "unavailable"; "invalid_output"; "skipped"] (prop "status" run) in
  let successful := one_of ["succeeded"; "no_findings"] (prop "status" run) in
  issue_when (unsuccessful && (trimmed (prop "failure_reason" run) === []))%bool scanner_run_failure_reason_contradiction
  ++ issue_when (successful && negb (is_undefined (prop "failure_reason" run)))%bool scanner_run_failure_reason_contradiction.
Fixpoint scan_runs (runs : list json) : throws (list ScannerFindingSetSemanticIssue * list json) :=
  match runs with
  | [] => Ret ([], [])
  | run :: runs' =>
      status ← member "status" run;
      rest ← scan_runs runs';
      Ret (run_issues run ++ rest.1, (if has_string "succeeded" status then [prop "scanner_name" run] else []) ++ rest.2)
  end.
Definition scannerFindingSetSemanticIssues (v : json) : throws (list ScannerFindingSetSemanticIssue) :=
  if negb (isScannerFindingSetLike v) then Ret []
  else
    scanned ← scan_runs (array_of (prop "scanner_runs" v));
    sources ← members "source" (array_of (prop "candidate_findings" v));
    Ret (scanned.1 ++ List.flat_map (λ source, issue_when (negb (bool_decide (source ∈ scanned.2))) candidate_finding_source_run_unresolved) sources).
End semantics.

(** * Categories *)

(* When no entry was dropped, the map lists the entries under their names. *)
Lemma category_entries_length map l : (length (category_entries map l) ≤ length map + length l)%nat.
Proof.
  revert map; induction l as [|c l IH]; intros map; simpl; [lia|].
  etransitivity; [apply IH|]. repeat case_match; simpl; try lia.
  match goal with K : JsMap.has _ _ = false |- _ => apply JsMap.has_false in K; rewrite JsMap.set_fresh, length_app by done end. simpl. lia.
Qed.
Lemma category_entries_full map l :
  length (category_entries map l) = (length map + length l)%nat →
  ∃ names, List.map (prop "category") l = List.map JString names ∧ category_entries map l = map ++ zip names l ∧
    (NoDup map.*1 → NoDup (map.*1 ++ names)).
Proof.
  revert map; induction l as [|c l IH]; intros map Hlen; simpl in *.
  { exists []. by rewrite !app_nil_r. }
  pose proof (category_entries_length map l).
  destruct (prop "category" c) as [| |name| | | | |] eqn:Hc; try lia. destruct (JsMap.has name map) eqn:Hhas; [lia|].
  apply JsMap.has_false in Hhas. rewrite JsMap.set_fresh in * by done.
  destruct (IH (map ++ [(name, c)])) as (names & Hn & He & Hnd); [rewrite Hlen, length_app; simpl; lia|].
  exists (name :: names). simpl. rewrite Hn, He, <- app_assoc. split_and!; try done.
  intros Hm. rewrite fmap_app, <- app_assoc in Hnd. apply Hnd. simpl. apply JsMap.get_None in Hhas. unfold JsMap.keys in Hhas.
  apply NoDup_app. split_and!; [done|intros x Hx ->%list_elem_of_singleton; by apply Hhas|apply NoDup_singleton].
Qed.
Lemma zip_fst {A B} (xs : list A) (ys : list B) : length xs = length ys → (zip xs ys).*1 = xs.
Proof. revert ys; induction xs as [|x xs IH]; intros [|y ys]; simpl; try done. intros [= Hl]. by rewrite IH. Qed.
Lemma zip_names names l c name :
  List.map (prop "category") l = List.map JString names → NoDup names → c ∈ l → prop "category" c = JString name →
  JsMap.get name (zip names l) = Some c.
Proof.
  intros Hn Hnd Hin Hc. assert (length names = length l) as Hl by (by rewrite <- (length_map JString), <- Hn, length_map).
  apply JsMap.elem_of_get; [unfold JsMap.keys; by rewrite zip_fst|].
  clear Hnd. revert names Hn Hl Hin. induction l as [|c' l IH]; intros [|n names] Hn Hl Hin; simpl in *; try done; [by apply elem_of_nil in Hin|].
  injection Hn as Hn1 Hn2. apply elem_of_cons in Hin as [<-|Hin].
  - rewrite Hc in Hn1. injection Hn1 as <-. apply elem_of_cons. by left.
  - apply elem_of_cons. right. apply IH; [done|lia|done].
Qed.
Lemma category_found l c name :
  length (categoryMap (JArray l)) = length l → c ∈ l → prop "category" c = jstr name → category_of (categoryMap (JArray l)) name = c.
Proof.
  unfold categoryMap, category_of. cbn [array_of]. intros Hl Hin Hc.
  destruct (category_entries_full [] l Hl) as (names & Hn & -> & Hnd). cbn [app].
  by rewrite (zip_names names l c (js name) Hn (Hnd (NoDup_nil_2 )) Hin Hc).
Qed.

(** * Outbound manifests without issues *)

Section clean.
Context `{UnicodeText, Sha256}.

Definition discloses_source (c : json) : Prop := prop "category" c = jstr "raw_snippets" ∨ prop "category" c = jstr "targeted_files".

Lemma source_category_clean categories warningsText name wrong c :
  source_category_issues categories warningsText name wrong = [] → category_of categories name = c → included c = true →
  prop "source_code_disclosure" c = JBool true ∧ sourceRetentionClass (prop "source_derived_class" c) = true ∧
  positiveNumber (prop "max_snippet_chars" (prop "snippet_controls" c)) = true ∧
  natural (prop "context_lines" (prop "snippet_controls" c)) = true.
Proof.
  unfold source_category_issues. intros Hc Hcat Hinc. rewrite Hcat, Hinc in Hc. cbn [negb] in Hc. no_issues Hc.
  destruct Hc as (H1 & H2 & H3 & _). bool_simpl. by split_and!.
Qed.
Lemma metadata_only_clean categories warningsText mode :
  mode_issues categories warningsText mode = [] → mode = jstr "metadata_only" →
  category_included categories "raw_snippets" = false ∧ category_included categories "targeted_files" = false.
Proof.
  unfold mode_issues. intros Hc ->. rewrite (proj2 (has_string_true _ _) eq_refl) in Hc. no_issues Hc.
  destruct Hc as [[Hc _] _]. by apply orb_false_iff in Hc.
Qed.

(** An outbound manifest without issues says what it discloses: its id is the
    identity of its content, nothing has been sent and no approval was asked, its
    categories are distinct and the seven required ones are present, every included
    entry says so, an included entry of source text is never under metadata_only and
    is labelled, capped and of a source retention class, and the other evidence is
    retained review artifacts. *)
Theorem clean_manifest_discloses_as_labelled v entries :
  outboundManifestSemanticIssues v = [] → isOutboundManifestLike v = true → one_of coverage_modes (prop "coverage_mode" v) = true →
  prop "evidence_categories" v = JArray entries →
  (∃ id, computeCanonicalSha256Id (without_field "manifest_id" v) = Ret id ∧ prop "manifest_id" v = jstr id) ∧
  prop "send_ready" (prop "package_preview_state" v) = JBool false ∧
  prop "approval_state" (prop "approval" v) = jstr "not_requested" ∧
  (∃ names, List.map (prop "category") entries = List.map JString names ∧ NoDup names ∧
     ∀ required, required ∈ REQUIRED_EVIDENCE_CATEGORIES → js required ∈ names) ∧
  ∀ c, c ∈ entries → included c = true →
    prop "inclusion_state" c = jstr "included" ∧
    (discloses_source c → prop "coverage_mode" v ≠ jstr "metadata_only" ∧ prop "source_code_disclosure" c = JBool true ∧
       sourceRetentionClass (prop "source_derived_class" c) = true ∧
       positiveNumber (prop "max_snippet_chars" (prop "snippet_controls" c)) = true) ∧
    (∀ name, name ∈ ["metadata"; "dependencies"; "scanner_findings"; "derived_artifacts"] → prop "category" c = jstr name →
       prop "source_derived_class" c = jstr "retained_review_artifact").
Proof.
  unfold outboundManifestSemanticIssues. intros Hv Hlike Hmode Hent. rewrite Hlike, Hmode, Hent in Hv. cbn [negb] in Hv.
  set (categories := categoryMap (JArray entries)) in Hv. set (w := joinedLower (prop "warnings" v)) in Hv.
  rewrite !app_nil in Hv. destruct Hv as (Hid & Hmiss & Hdup & _ & _ & Hpre & Hmodes & Hret & Hraw & Htgt & Hentry & _ & _).
  assert (length categories = length entries) as Hlen.
  { unfold duplicate_category in Hdup. apply issue_when_nil, negb_false_iff, bool_decide_eq_true in Hdup. cbn [coalesce js_length] in Hdup.
    assert (Z.of_nat (length entries) = Z.of_nat (length categories)) by congruence. lia. }
  assert (∀ c name, c ∈ entries → prop "category" c = jstr name → category_of categories name = c) as Hfound
    by (intros c name; by apply category_found).
  split_and!.
  - unfold manifest_identity_issue in Hid. apply issue_when_nil in Hid. destruct (computeCanonicalSha256Id _) as [id|]; [|done].
    exists id. split; [done|]. by apply has_string_true, negb_false_iff.
  - unfold preview_issues in Hpre. no_issues Hpre. destruct Hpre as [Hpre _]. bool_simpl. done.
  - unfold preview_issues in Hpre. no_issues Hpre. destruct Hpre as [_ Hpre]. by apply has_string_true, negb_false_iff.
  - destruct (category_entries_full [] entries Hlen) as (names & Hn & He & Hnd). exists names. split; [done|]. split; [by apply Hnd, NoDup_nil_2|].
    intros required Hreq. unfold missing_category in Hmiss. apply (proj1 (flat_map_nil _ _)) with (x := required) in Hmiss; [|done].
    apply issue_when_nil, negb_false_iff, JsMap.has_true in Hmiss as [c Hc]. unfold categories, categoryMap in Hc. cbn [array_of] in Hc.
    rewrite He in Hc. cbn [app] in Hc. apply JsMap.elem_of_get in Hc; [by apply elem_of_zip_l in Hc|].
    unfold JsMap.keys. rewrite zip_fst; [by apply Hnd, NoDup_nil_2|]. by rewrite <- (length_map JString), <- Hn, length_map.
  - intros c Hin Hinc. apply (proj1 (flat_map_nil _ _)) with (x := c) in Hentry; [|done]. unfold entry_issues in Hentry.
    apply app_nil in Hentry as [Hstate%issue_when_nil _]. rewrite Hinc in Hstate. split_and!.
    + by apply has_string_true, negb_false_iff.
    + intros Hsrc. split.
      * intros Hm. destruct (metadata_only_clean _ _ _ Hmodes Hm) as [M1 M2]. unfold category_included in M1, M2.
        destruct Hsrc as [Hs|Hs]; rewrite (Hfound c _ Hin Hs) in *; congruence.
      * destruct Hsrc as [Hs|Hs]; [apply (source_category_clean _ _ _ _ c) in Hraw|apply (source_category_clean _ _ _ _ c) in Htgt];
          try done; try (by apply Hfound); naive_solver.
    + intros name Hname Hc. unfold retained_class in Hret. apply (proj1 (flat_map_nil _ _)) with (x := name) in Hret; [|done].
      apply issue_when_nil in Hret. unfold category_included in Hret. rewrite (Hfound c name Hin Hc), Hinc in Hret.
      by apply has_string_true, negb_false_iff.
Qed.
End clean.

(** * Bundle manifests and scanner finding sets without issues *)

Section clean_sets.
Context `{UnicodeText}.

Definition not_nullish (v : json) : Prop := v ≠ JNull ∧ v ≠ JForeign.
Lemma member_prop name v : not_nullish v → member name v = Ret (prop name v).
Proof. intros [? ?]. by destruct v. Qed.
Lemma members_map name l : Forall not_nullish l → members name l = Ret (List.map (prop name) l).
Proof. induction 1 as [|x l Hx Hl IH]; [done|]. simpl. by rewrite member_prop, IH. Qed.
Lemma each_issue_nil {I} test (i : I) l : each_issue test i l = Ret [] → ∀ x, x ∈ l → test x = Ret false.
Proof.
  induction l as [|a l IH]; [intros _ x []%elem_of_nil|]. simpl. destruct (test a) as [b|] eqn:Ha; [|done]. simpl.
  destruct (each_issue test i l) as [found|]; [|done]. simpl. destruct b; [done|]. intros Hr%Ret_inj x [->|Hx]%elem_of_cons; [done|].
  apply IH; [|done]. cbn in Hr. by rewrite Hr.
Qed.
Lemma members_in name l xs : members name l = Ret xs → xs = List.map (prop name) l.
Proof.
  revert xs; induction l as [|a l IH]; intros xs; simpl; [by intros [= <-]|]. destruct (member name a) as [x|] eqn:Ha; [|done]. simpl.
  destruct (members name l) as [ys|]; [|done]. simpl. intros [= <-]. rewrite (IH ys) by done. f_equal.
  by destruct a; try done; injection Ha as <-.
Qed.

(** A bundle manifest without issues plans the cleanup of all its source text:
    every reference to source-derived evidence has a cleanup intent for it, every
    intent for transient source requires the cleanup and its deletion is pending,
    and the manifest's text makes no claim the vendor alone may make. *)
Theorem clean_bundle_plans_cleanup v intents references :
  bundleManifestCleanupSemanticIssues v = Ret [] → isBundleManifestLike v = true →
  prop "local_cleanup_intent" v = JArray intents → prop "artifact_references" v = JArray references →
  (∀ artifact, artifact ∈ references → sourceRetentionClass (prop "source_derived_class" artifact) = true →
     ∃ intent, intent ∈ intents ∧ prop "artifact_ref" intent = prop "artifact_ref" artifact) ∧
  (∀ intent, intent ∈ intents → prop "source_derived_class" intent = jstr "transient_source_derived" →
     prop "cleanup_required" intent = JBool true ∧ prop "deletion_evidence_state" intent = jstr "pending") ∧
  ∀ phrase, phrase ∈ BUNDLE_CLAIM_FORBIDDEN_PHRASES → mentions (toLowerCase (JSON_stringify v)) phrase = false.
Proof.
  unfold bundleManifestCleanupSemanticIssues. intros Hv Hlike Hint Href. rewrite Hlike, Hint, Href in Hv. cbn [negb coalesce js_elements mbind throws_bind] in Hv.
  destruct (members "artifact_ref" intents) as [refs|] eqn:Hrefs; cbn [mbind throws_bind] in Hv; [|done]. apply members_in in Hrefs as ->.
  destruct (each_issue (artifact_issue _) _ _) as [i1|] eqn:H1; cbn [mbind throws_bind] in Hv; [|done].
  destruct (each_issue intent_issue _ _) as [i2|] eqn:H2; cbn [mbind throws_bind] in Hv; [|done].
  apply Ret_inj in Hv. rewrite !app_nil in Hv. destruct Hv as (-> & -> & Hphr). split_and!.
  - intros a Ha Hsrc. apply (each_issue_nil _ _ _ H1) in Ha. unfold artifact_issue in Ha.
    destruct (member _ a) as [c|] eqn:Hm; cbn [mbind throws_bind] in Ha; [|done].
    assert (c = prop "source_derived_class" a) as -> by (destruct a; try done; by injection Hm as <-).
    rewrite Hsrc in Ha. apply Ret_inj in Ha. cbn [andb] in Ha. bool_simpl.
    apply list_elem_of_fmap in Ha as (intent & E0 & Hin). by exists intent.
  - intros i Hi Hc. apply (each_issue_nil _ _ _ H2) in Hi. unfold intent_issue in Hi.
    destruct (member _ i) as [c|] eqn:Hm; cbn [mbind throws_bind] in Hi; [|done].
    assert (c = prop "source_derived_class" i) as -> by (destruct i; try done; by injection Hm as <-).
    rewrite (proj2 (has_string_true _ _) Hc) in Hi. apply Ret_inj in Hi. cbn [andb] in Hi. bool_simpl.
    split; [done|by apply has_string_true].
  - intros p Hp. apply (proj1 (flat_map_nil _ _)) with (x := p) in Hphr; [|done]. by apply issue_when_nil in Hphr.
Qed.

Definition run_consistent (run : json) : Prop :=
  (one_of ["failed"; "unavailable"; "invalid_output"; "skipped"] (prop "status" run) = true → trimmed (prop "failure_reason" run) ≠ []) ∧
  (one_of ["succeeded"; "no_findings"] (prop "status" run) = true → prop "failure_reason" run = JForeign).
Lemma run_issues_nil run : run_issues run = [] ↔ run_consistent run.
Proof.
  unfold run_issues, run_consistent. rewrite app_nil, !issue_when_nil.
  destruct (one_of ["failed"; _; _; _] _), (one_of ["succeeded"; _] _); cbn [andb]; rewrite ?bool_decide_eq_false, ?negb_false_iff;
    destruct (prop "failure_reason" run); naive_solver.
Qed.
Lemma scan_runs_spec runs : Forall not_nullish runs →
  scan_runs runs = Ret (List.flat_map run_issues runs,
    List.map (prop "scanner_name") (List.filter (λ r, has_string "succeeded" (prop "status" r)) runs)).
Proof.
  induction 1 as [|r runs Hr Hruns IH]; [done|]. simpl. rewrite member_prop, IH by done. simpl. by case_match.
Qed.
(** A scanner finding set has no issues exactly when every run that did not
    succeed gives a reason, no successful run gives one, and the source of every
    candidate finding is a scanner that succeeded. *)
Theorem scanner_set_clean_iff v runs findings :
  isScannerFindingSetLike v = true → prop "scanner_runs" v = JArray runs → prop "candidate_findings" v = JArray findings →
  Forall not_nullish runs → Forall not_nullish findings →
  scannerFindingSetSemanticIssues v = Ret [] ↔
    (∀ run, run ∈ runs → run_consistent run) ∧
    ∀ finding, finding ∈ findings →
      ∃ run, run ∈ runs ∧ prop "status" run = jstr "succeeded" ∧ prop "scanner_name" run = prop "source" finding.
Proof.
  intros Hlike Hr Hf Nr Nf. unfold scannerFindingSetSemanticIssues. rewrite Hlike, Hr, Hf. cbn [negb array_of].
  rewrite scan_runs_spec by done. cbn [mbind throws_bind]. rewrite members_map by done. cbn [mbind throws_bind fst snd].
  trans (List.flat_map run_issues runs ++ List.flat_map (λ source, issue_when (negb (bool_decide (source ∈
      List.map (prop "scanner_name") (List.filter (λ r, has_string "succeeded" (prop "status" r)) runs)))) candidate_finding_source_run_unresolved)
      (List.map (prop "source") findings) = []).
  { split; [by intros ?%Ret_inj|by intros ->]. }
  rewrite app_nil, !flat_map_nil. setoid_rewrite run_issues_nil. apply and_iff_compat_l.
  setoid_rewrite issue_when_nil. setoid_rewrite negb_false_iff. setoid_rewrite bool_decide_eq_true. split.
  - intros Hall f Hin. specialize (Hall (prop "source" f)). apply list_elem_of_fmap in Hall as (r & E0 & Hr'); [|by apply list_elem_of_fmap_2].
    apply list_elem_of_In, filter_In in Hr' as [Hr1 Hr2%has_string_true]. exists r. rewrite <- list_elem_of_In in Hr1. by split_and!.
  - intros Hall x (f & -> & Hin)%list_elem_of_fmap. destruct (Hall f Hin) as (r & Hin' & Hs & <-). apply list_elem_of_fmap_2.
    apply list_elem_of_In, filter_In. split; [by apply list_elem_of_In|by apply has_string_true].
Qed.
End clean_sets.

Module ManifestSamples.
Import SampleHash SampleText.
Definition entry (category class : string) (shown : bool) (more : list (string * json)) : json :=
  jobj ([("category", jstr category); ("included", JBool shown); ("inclusion_state", jstr (if shown then "included" else "excluded_by_policy"));
    ("source_derived_class", jstr class); ("redaction_state", jstr "not_applicable"); ("limitation", jstr "None.");
    ("retention_handling", jstr "transient capped snippets only")] ++ more).
Definition snippet_entry (category : string) (shown : bool) : json :=
  entry category (if shown then "transient_source_derived" else "never_collected") shown
    [("source_code_disclosure", JBool shown); ("details", JArray [jstr "Source-code disclosure label."]);
     ("snippet_controls", jobj [("max_snippet_chars", jnum 800); ("context_lines", jnum 2)])].
Definition retained_entry (category : string) : json := entry category "retained_review_artifact" true [].
Definition entries : list json :=
  [retained_entry "metadata"; retained_entry "dependencies"; retained_entry "scanner_findings"; snippet_entry "raw_snippets" true;
   snippet_entry "targeted_files" false; retained_entry "derived_artifacts";
   entry "never_collected_items" "never_collected" false [("details", JArray [jstr "Complete repository archive, full Git history.";
     jstr "Unapproved source files, unapproved raw snippets, local environment secrets."])]].
Definition manifest_body : list (string * json) :=
  [("coverage_mode", jstr "finding_context_snippets"); ("disclosure_policy_ref", jstr "policy:1");
   ("disclosure_policy_summary", jobj [("disclosure_policy_ref", jstr "policy:1"); ("coverage_mode", jstr "finding_context_snippets");
      ("redaction_profile", jstr "not_applicable")]);
   ("package_preview_state", jobj [("state", jstr "preview_generated"); ("send_ready", JBool false); ("local_only", JBool true)]);
   ("approval", jobj [("approval_state", jstr "not_requested")]); ("evidence_categories", JArray entries)].
Definition manifest : json :=
  jobj (("manifest_id", match computeCanonicalSha256Id (jobj manifest_body) with Ret id => jstr id | Throw _ => JNull end) :: manifest_body).
Lemma clean_manifest_discloses_as_labelled_witness :
  prop "send_ready" (prop "package_preview_state" manifest) = JBool false ∧
  prop "coverage_mode" manifest ≠ jstr "metadata_only".
Proof.
  destruct (clean_manifest_discloses_as_labelled manifest entries) as (_ & Hsend & _ & _ & Hentries); [by vm_compute..|].
  split; [exact Hsend|].
  destruct (Hentries (snippet_entry "raw_snippets" true)) as (_ & Hsrc & _); [|done|].
  { unfold entries. rewrite !elem_of_cons. tauto. }
  by apply Hsrc; left.
Defined.

Definition artifact_ref (class ref : string) : json := jobj [("artifact_ref", jstr ref); ("source_derived_class", jstr class)].
Definition intent (ref : string) : json :=
  jobj [("artifact_ref", jstr ref); ("source_derived_class", jstr "transient_source_derived"); ("cleanup_required", JBool true);
        ("deletion_evidence_state", jstr "pending")].
Definition bundle : json := jobj [("evidence_bundle_id", jstr "b"); ("manifest_id", jstr "m"); ("verification_metadata", JObject []);
  ("artifact_references", JArray [artifact_ref "transient_source_derived" "raw"; artifact_ref "retained_review_artifact" "meta"]);
  ("local_cleanup_intent", JArray [intent "raw"])].
Lemma clean_bundle_plans_cleanup_witness : ∃ i, i ∈ [intent "raw"] ∧ prop "artifact_ref" i = jstr "raw".
Proof.
  destruct (clean_bundle_plans_cleanup bundle [intent "raw"] [artifact_ref "transient_source_derived" "raw"; artifact_ref "retained_review_artifact" "meta"])
    as (Hclean & _); [by vm_compute|done..|].
  apply (Hclean (artifact_ref "transient_source_derived" "raw")); [apply elem_of_cons; by left|done].
Defined.

Definition run (name status : string) : json := jobj [("scanner_name", jstr name); ("status", jstr status)].
Definition runs : list json := [run "semgrep" "succeeded"; run "trivy" "no_findings"].
Definition finding (source : string) : json := jobj [("source", jstr source)].
Definition finding_set (fs : list json) : json :=
  jobj [("scanner_finding_set_id", jstr "s"); ("scanner_runs", JArray runs); ("candidate_findings", JArray fs)].
Lemma scanner_set_clean_iff_witness :
  scannerFindingSetSemanticIssues (finding_set [finding "trivy"]) ≠ Ret [].
Proof.
  intros Hc. apply (scanner_set_clean_iff (finding_set [finding "trivy"]) runs [finding "trivy"]) in Hc as [_ Hf]; [|done..|by repeat constructor|by repeat constructor].
  destruct (Hf (finding "trivy")) as (r & Hr & Hs & Hn); [apply elem_of_cons; by left|].
  unfold runs in Hr. rewrite !elem_of_cons in Hr. destruct Hr as [-> | [-> | []%elem_of_nil]]; done.
Defined.
End ManifestSamples.
