(* ===== verification/Receipts.v ===== *)
(** Vendor receipts and the verified submission chain (packages/protocol-ts/src:
    vendor-receipt-verification.ts, verified-submission-chain.ts,
    submission-identity-grammar.ts). *)
From S2P Require Import Prelude Patterns Bytes Json JsonText CanonicalJson Schema Registry Values SubmittedArtifacts.

Local Open Scope Z_scope.

(** * Submission identities *)

Definition SUBMISSION_IDENTITY_PATTERNS : list (string * (string → bool)) :=
  [("manifest_id", SHA256_ID_PATTERN); ("evidence_bundle_id", SHA256_ID_PATTERN);
   ("review_request_id", λ s, match strip "review_request:" s with Some slug => isSlug slug | None => false end);
   ("bundle_instance_id", λ s, match strip "bundle_instance:" s with Some slug => isSlug slug | None => false end);
   ("submission_attempt_id", λ s, match strip "submission_attempt:" s with Some slug => isSlug slug | None => false end)].
(* An inherited name of Object.prototype finds a member that has no test method. *)
Definition submissionIdentityValueMatchesGrammar (identityType : string) (identityValue : json) : throws bool :=
  match JsMap.get identityType SUBMISSION_IDENTITY_PATTERNS with
  | Some pattern =>
      Ret match identityValue with JString s => match latin_text s with Some t => pattern t | None => false end | _ => false end
  | None =>
      match identityValue with
      | JString _ => if inherited (js identityType) then Throw "pattern.test is not a function" else Ret false
      | _ => Ret false
      end
  end.

(** * Vendor receipts *)

Inductive receipt_state := receipt_verified | failed_verification.
Record VendorReceiptVerificationResult := { state : receipt_state; reason_codes : list string }.

Definition ARTIFACT_COUNT_CATEGORIES : list string :=
  ["metadata"; "dependencies"; "scanner_findings"; "raw_snippets"; "targeted_files"; "derived_artifacts"; "never_collected_items"].

Definition receiptReasonForSchemaError (code : string) : string :=
  if bool_decide (code = "required") then "receipt_key_metadata_required"
  else if bool_decide (code = "utc_rfc3339_timestamp") then "receipt_timestamp_invalid"
  else "receipt_schema_validation_failed".
(* Array.from(new Set(values)) *)
Fixpoint dedupe_from (seen values : list string) : list string :=
  match values with
  | [] => []
  | v :: values' => if bool_decide (v ∈ seen) then dedupe_from seen values' else v :: dedupe_from (v :: seen) values'
  end.
Definition dedupe (values : list string) : list string := dedupe_from [] values.

(* The loop over the categories: None when an entry is refused. *)
Fixpoint count_categories (seen : list json) (sum : Z) (categories : list json) : option (list json * Z) :=
  match categories with
  | [] => Some (seen, sum)
  | category :: categories' =>
      match prop "category" category, prop "count" category with
      | JString name, JNumber count =>
          if (negb (one_of ARTIFACT_COUNT_CATEGORIES (JString name)) || (count <? 0) || bool_decide (JString name ∈ seen))%bool then None
          else count_categories (JString name :: seen) (sum + count) categories'
      | _, _ => None
      end
  end.
Definition isArtifactCountSummary (v : json) : bool :=
  match prop "total_count" v, prop "categories" v with
  | JNumber total, JArray categories =>
      (has_string "evidence_category_counts" (prop "count_domain" v) && negb (total <? 0)
       && match count_categories [] 0 categories with
          | Some (seen, sum) => (Nat.eqb (length seen) (length ARTIFACT_COUNT_CATEGORIES) && (sum =? total))%bool
          | None => false
          end)%bool
  | _, _ => false
  end.

Definition disclosureSummaryComparisonValue (summary : json) : jsstr :=
  js_string (prop "disclosure_policy_ref" summary) ++ 58 :: js_string (prop "coverage_mode" summary)
    ++ 58 :: js_string (prop "redaction_configuration_version" summary).
Definition expected_rows (receipt : json) : list (string * json) :=
  [("manifest_id", prop "manifest_id" receipt); ("evidence_bundle_id", prop "evidence_bundle_id" receipt);
   ("selected_commit", prop "commit_sha" (prop "selected_commit" receipt));
   ("repository_identity_hash", prop "repository_identity_hash" receipt); ("coverage_mode", prop "coverage_mode" receipt);
   ("artifact_count_summary",
     JString (js "evidence_category_counts:" ++ js_string (prop "total_count" (prop "approved_artifact_count_summary" receipt))));
   ("disclosure_policy_summary", JString (disclosureSummaryComparisonValue (prop "disclosure_policy_summary" receipt)))].
Fixpoint rows_match (expected : list (string * json)) (seenFields : list json) (rows : list json) : bool :=
  match rows with
  | [] => Nat.eqb (length seenFields) (length expected)
  | row :: rows' =>
      match List.find (λ e, has_string e.1 (prop "field" row)) expected with
      | None => false
      | Some (_, expectedValue) =>
          (isRecord row && negb (bool_decide (prop "field" row ∈ seenFields)) && has_string "matched" (prop "result" row)
           && (prop "approved_value" row === expectedValue) && (prop "received_value" row === expectedValue)
           && rows_match expected (prop "field" row :: seenFields) rows')%bool
      end
  end.
Definition comparisonRowsMatchReceipt (receipt : json) : bool :=
  match prop "rows" (prop "approved_vs_received_comparison" receipt) with
  | JArray rows =>
      (isRecord (prop "selected_commit" receipt) && isRecord (prop "disclosure_policy_summary" receipt)
       && (prop "disclosure_policy_ref" receipt === prop "disclosure_policy_ref" (prop "disclosure_policy_summary" receipt))
       && (prop "coverage_mode" receipt === prop "coverage_mode" (prop "disclosure_policy_summary" receipt))
       && Nat.eqb (length rows) (length (expected_rows receipt)) && rows_match (expected_rows receipt) [] rows)%bool
  | _ => false
  end.

Definition signatureTrusted (signature vendorReceiptId outcome : json) : bool :=
  (has_string "verified" (prop "result" outcome) && (prop "signed_identity" outcome === vendorReceiptId)
   && has_string "vendor_receipt" (prop "signed_identity_type" outcome)
   && (prop "key_id" outcome === prop "key_id" signature) && (prop "key_version" outcome === prop "key_version" signature)
   && (prop "algorithm_profile" outcome === prop "algorithm_profile" signature))%bool.

(* identityInput["public_verification_metadata"] = { ...metadata } without signed_identity *)
Definition receipt_identity_input (receipt : json) : json :=
  match without_field "receipt_signature" (without_field "vendor_receipt_id" receipt) with
  | JObject fs =>
      JObject (if isRecord (prop "public_verification_metadata" receipt)
               then JsMap.set (js "public_verification_metadata") (without_field "signed_identity" (prop "public_verification_metadata" receipt)) fs
               else fs)
  | v => v
  end.

Section receipts.
Context `{UnicodeText, Sha256}.
(* validateProtocolSchema(schemaId, value) *)
Variable validateProtocolSchema : string → json → list ProtocolValidationError.

Definition computeVendorReceiptIdentity (receipt : json) : throws string := computeCanonicalSha256Id (receipt_identity_input receipt).
(* The checks on a receipt that is an object with its three nested objects. *)
Definition receipt_issues (receipt outcome : json) : list string :=
  let signature := prop "receipt_signature" receipt in
  let metadata := prop "public_verification_metadata" receipt in
  let keyRotation := prop "key_rotation_readiness" receipt in
  let id := prop "vendor_receipt_id" receipt in
  issue_when (negb (has_string "received_with_receipt" (prop "verification_state" receipt))) "vendor_receipt_no_failed_receipt"
  ++ issue_when (negb (has_string "vendor_receipt" (prop "signed_identity_type" signature))
                 || negb (has_string "vendor_receipt" (prop "signed_identity_type" metadata)))%bool "vendor_receipt_signature_identity_type"
  ++ issue_when ((prop "signed_identity" signature !== id) || (prop "signed_identity" metadata !== id))%bool "signature_signed_identity_mismatch"
  ++ issue_when (negb (signatureTrusted signature id outcome)) "receipt_signature_unverified"
  ++ issue_when (negb (has_string "rfc8785" (prop "canonicalization" signature))
                 || negb (has_string "rfc8785" (prop "canonicalization" metadata)))%bool "receipt_canonicalization_unsupported"
  ++ issue_when ((prop "signing_mode" signature !== prop "signing_mode" metadata)
                 || negb (sameCanonicalJson (prop "signing_limitations" signature) (prop "signing_limitations" metadata)))%bool
       "receipt_key_metadata_required"
  ++ issue_when (negb (has_text "key_id" signature) || negb (has_text "key_version" signature)
                 || (prop "key_id" signature !== prop "key_id" metadata) || (prop "key_version" signature !== prop "key_version" metadata)
                 || (prop "historical_key_id" keyRotation !== prop "key_id" signature)
                 || (prop "historical_key_version" keyRotation !== prop "key_version" signature))%bool "receipt_key_metadata_required"
  ++ issue_when ((prop "signing_time" signature !== prop "receipt_timestamp" receipt)
                 || (prop "signing_time" metadata !== prop "receipt_timestamp" receipt))%bool "receipt_key_metadata_required"
  ++ issue_when match computeVendorReceiptIdentity receipt with Ret expected => negb (has_string expected id) | Throw _ => true end
       "vendor_receipt_identity_mismatch"
  ++ issue_when (negb (isArtifactCountSummary (prop "approved_artifact_count_summary" receipt))
                 || negb (isArtifactCountSummary (prop "received_artifact_count_summary" receipt))
                 || negb (sameCanonicalJson (prop "approved_artifact_count_summary" receipt) (prop "received_artifact_count_summary" receipt))
                 || negb (comparisonRowsMatchReceipt receipt))%bool "receipt_approved_received_mismatch".
Definition verifyVendorReceiptRecordSync (receipt outcome : json) : VendorReceiptVerificationResult :=
  let schema_issues := List.map (λ e, receiptReasonForSchemaError (code e)) (validateProtocolSchema "urn:codeattest:protocol:v0:vendor-receipt" receipt) in
  let failed issues := {| state := failed_verification; reason_codes := dedupe issues |} in
  if negb (isRecord receipt) then
    failed (match schema_issues with [] => ["receipt_schema_validation_failed"] | _ => schema_issues end)
  else if (negb (isRecord (prop "receipt_signature" receipt)) || negb (isRecord (prop "public_verification_metadata" receipt))
           || negb (isRecord (prop "key_rotation_readiness" receipt)))%bool then
    failed (schema_issues ++ ["receipt_schema_validation_failed"])
  else match dedupe (schema_issues ++ receipt_issues receipt outcome) with
  | [] => {| state := receipt_verified; reason_codes := [] |}
  | codes => {| state := failed_verification; reason_codes := codes |}
  end.
End receipts.

(** * Counts and comparison rows *)

Definition count_of (category : json) : Z := match prop "count" category with JNumber n => n | _ => 0 end.
Definition total_of (categories : list json) : Z := fold_right (λ c n, count_of c + n) 0 categories.
Lemma count_categories_spec categories : ∀ seen sum seen' sum',
  count_categories seen sum categories = Some (seen', sum') →
  seen' = rev (List.map (prop "category") categories) ++ seen ∧ sum' = sum + total_of categories ∧
  (∀ c, c ∈ categories → one_of ARTIFACT_COUNT_CATEGORIES (prop "category" c) = true ∧ 0 ≤ count_of c) ∧
  (NoDup seen → NoDup seen').
Proof.
  induction categories as [|c l IH]; intros seen sum seen' sum'; cbn [count_categories List.map rev total_of fold_right app].
  { intros [= <- <-]. split_and!; [done|lia|by intros c Hc%elem_of_nil|done]. }
  unfold count_of at 1. destruct (prop "category" c) as [| |name| | | | |] eqn:Hc; try done.
  destruct (prop "count" c) as [| | |n| | | |] eqn:Hn; try done.
  destruct (one_of ARTIFACT_COUNT_CATEGORIES (JString name)) eqn:Ho; cbn [negb orb]; [|done].
  destruct (Z.ltb_spec n 0); cbn [orb]; [done|]. destruct (bool_decide _) eqn:Hs; [done|]. apply bool_decide_eq_false in Hs.
  intros (-> & -> & Hall & Hnd)%IH. split_and!.
  - by rewrite <- app_assoc.
  - unfold total_of. lia.
  - intros c' [->|Hin]%elem_of_cons; [|by apply Hall]. unfold count_of. by rewrite Hc, Hn.
  - intros Hseen. apply Hnd. by constructor.
Qed.
Lemma names_exact (names : list json) (allowed : list string) :
  NoDup names → (∀ x, x ∈ names → ∃ s, s ∈ allowed ∧ x = jstr s) → length names = length allowed → names ≡ₚ List.map jstr allowed.
Proof.
  intros Hnd Hin Hl. apply submseteq_length_Permutation; [|by rewrite length_map, Hl]. apply NoDup_submseteq; [done|].
  intros x (s & Hs & ->)%Hin. by apply list_elem_of_fmap_2.
Qed.
Lemma one_of_true l v : one_of l v = true ↔ ∃ s, s ∈ l ∧ v = jstr s.
Proof.
  unfold one_of. rewrite existsb_elem. split; intros (s & Hs & E0); exists s; (split; [done|]); by apply has_string_true.
Qed.
(* A count summary lists every category once, and its total is the sum. *)
Lemma summary_exact v : isArtifactCountSummary v = true →
  ∃ categories, prop "categories" v = JArray categories ∧
    List.map (prop "category") categories ≡ₚ List.map jstr ARTIFACT_COUNT_CATEGORIES ∧
    (∀ c, c ∈ categories → 0 ≤ count_of c) ∧ prop "total_count" v = JNumber (total_of categories).
Proof.
  unfold isArtifactCountSummary. destruct (prop "total_count" v) as [| | |total| | | |]; try done.
  destruct (prop "categories" v) as [| | | | | |categories|]; try done. intros Hv. bool_simpl.
  destruct (count_categories [] 0 categories) as [[seen sum]|] eqn:Hc; [|done]. bool_simpl.
  apply count_categories_spec in Hc as (-> & -> & Hall & Hnd). rewrite app_nil_r in *. exists categories. split_and!; try done.
  - apply names_exact.
    + specialize (Hnd (NoDup_nil_2)). by rewrite <- (rev_involutive (List.map _ _)), <- Permutation_rev.
    + intros x (c & -> & Hin)%list_elem_of_fmap. by apply one_of_true, Hall.
    + match goal with K : Nat.eqb (length (rev _)) _ = true |- _ => apply Nat.eqb_eq in K; by rewrite length_rev in K end.
  - intros c Hin. by apply Hall.
  - f_equal. lia.
Qed.

Definition row_agrees (expected : list (string * json)) (row : json) : Prop :=
  ∃ f v, (f, v) ∈ expected ∧ prop "field" row = jstr f ∧ prop "result" row = jstr "matched" ∧
    prop "approved_value" row = v ∧ prop "received_value" row = v.
Lemma rows_match_spec expected rows : ∀ seen, rows_match expected seen rows = true → NoDup seen →
  (∀ row, row ∈ rows → row_agrees expected row) ∧ NoDup (List.map (prop "field") rows ++ seen).
Proof.
  induction rows as [|row rows IH]; intros seen; simpl; [intros _ ?; split; [by intros r Hr%elem_of_nil|done]|].
  destruct (List.find _ expected) as [[f v]|] eqn:Hf; [|done]. intros Hr Hnd. bool_simpl.
  apply find_Some_elem in Hf as [Hin Hf%has_string_true].
  match goal with K : rows_match _ _ _ = true |- _ => apply IH in K as [Hall Hnd'] end; [|by constructor].
  split.
  - intros r [->|Hr]%elem_of_cons; [|by apply Hall]. exists f, v. split_and!; try done; by apply has_string_true.
  - rewrite <- Permutation_middle in Hnd'. done.
Qed.
(** The comparison of what was approved with what was received is accepted only
    for exactly the seven known fields: their rows, in any order, each appear once,
    are marked as matched, and carry the receipt's own value on both sides. *)
Theorem comparison_rows_exact receipt :
  comparisonRowsMatchReceipt receipt = true →
  ∃ rows, prop "rows" (prop "approved_vs_received_comparison" receipt) = JArray rows ∧
    List.map (prop "field") rows ≡ₚ List.map jstr (expected_rows receipt).*1 ∧
    (∀ row, row ∈ rows → row_agrees (expected_rows receipt) row) ∧
    prop "disclosure_policy_ref" receipt = prop "disclosure_policy_ref" (prop "disclosure_policy_summary" receipt) ∧
    prop "coverage_mode" receipt = prop "coverage_mode" (prop "disclosure_policy_summary" receipt).
Proof.
  unfold comparisonRowsMatchReceipt. destruct (prop "rows" _) as [| | | | | |rows|]; try done. intros Hc. bool_simpl.
  match goal with K : rows_match _ _ _ = true |- _ => apply rows_match_spec in K as [Hall Hnd] end; [|apply NoDup_nil_2].
  rewrite app_nil_r in Hnd. exists rows. split_and!; try done. apply names_exact; [done| |by rewrite !length_map; apply Nat.eqb_eq].
  intros x (row & -> & Hin)%list_elem_of_fmap. destruct (Hall row Hin) as (f & v & Hf & -> & _). exists f. split; [|done].
  by apply (list_elem_of_fmap_2 fst) in Hf.
Qed.

(** * Verified receipts *)

Lemma dedupe_nil l : dedupe l = [] ↔ l = [].
Proof. unfold dedupe. destruct l as [|a l]; [done|]. done. Qed.

Section receipt_theorems.
Context `{UnicodeText, Sha256}.
Variable validateProtocolSchema : string → json → list ProtocolValidationError.
Local Abbreviation verify := (verifyVendorReceiptRecordSync validateProtocolSchema).

Lemma receipt_verified_issues receipt outcome :
  state (verify receipt outcome) = receipt_verified →
  validateProtocolSchema "urn:codeattest:protocol:v0:vendor-receipt" receipt = [] ∧ isRecord receipt = true ∧
  isRecord (prop "public_verification_metadata" receipt) = true ∧ receipt_issues receipt outcome = [].
Proof.
  unfold verifyVendorReceiptRecordSync. destruct (isRecord receipt) eqn:Hr; cbn [negb]; [|done].
  destruct (isRecord (prop "receipt_signature" receipt)), (isRecord (prop "public_verification_metadata" receipt)) eqn:Hm,
    (isRecord (prop "key_rotation_readiness" receipt)); cbn [negb orb]; try done.
  destruct (dedupe _) eqn:Hd; [|done]. intros _. apply dedupe_nil, app_nil in Hd as [Hs Hi].
  split_and!; try done. by apply map_eq_nil in Hs.
Qed.

Lemma receipt_verified_identity receipt outcome : state (verify receipt outcome) = receipt_verified →
  ∃ identity, computeVendorReceiptIdentity receipt = Ret identity ∧ prop "vendor_receipt_id" receipt = jstr identity.
Proof.
  intros Hv. apply receipt_verified_issues in Hv as (_ & _ & _ & Hi). unfold receipt_issues in Hi. no_issues Hi.
  destruct Hi as (_ & _ & _ & _ & _ & _ & _ & _ & Hidentity & _). bool_simpl.
  destruct (computeVendorReceiptIdentity receipt) as [identity|]; [|done]. exists identity. split; [done|].
  by apply has_string_true, negb_false_iff.
Qed.

(** A receipt is verified only on all of this evidence: the schema accepts it, an
    independent outcome "verified" names the receipt's id, its type and the key of
    its signature, the id is the identity of the receipt's content, the signature and
    the public metadata name that id, and the approved and the received counts are
    one complete summary of the seven categories. *)
Theorem receipt_verified_means receipt outcome :
  state (verify receipt outcome) = receipt_verified → wf_json receipt = true →
  let id := prop "vendor_receipt_id" receipt in
  let signature := prop "receipt_signature" receipt in
  validateProtocolSchema "urn:codeattest:protocol:v0:vendor-receipt" receipt = [] ∧
  prop "result" outcome = jstr "verified" ∧ prop "signed_identity" outcome = id ∧
  prop "signed_identity_type" outcome = jstr "vendor_receipt" ∧
  prop "key_id" outcome = prop "key_id" signature ∧ prop "key_version" outcome = prop "key_version" signature ∧
  prop "signed_identity" signature = id ∧ prop "signed_identity" (prop "public_verification_metadata" receipt) = id ∧
  (∃ identity, computeVendorReceiptIdentity receipt = Ret identity ∧ id = jstr identity) ∧
  same_data (prop "approved_artifact_count_summary" receipt) (prop "received_artifact_count_summary" receipt) ∧
  ∃ categories, prop "categories" (prop "received_artifact_count_summary" receipt) = JArray categories ∧
    List.map (prop "category") categories ≡ₚ List.map jstr ARTIFACT_COUNT_CATEGORIES ∧
    prop "total_count" (prop "received_artifact_count_summary" receipt) = JNumber (total_of categories).
Proof.
  intros Hv Hwf id signature. pose proof (receipt_verified_identity _ _ Hv) as Hidentity.
  apply receipt_verified_issues in Hv as (Hs & Hr & _ & Hi). unfold receipt_issues in Hi. no_issues Hi.
  destruct Hi as (_ & _ & Hid & Hsig & _ & _ & _ & _ & _ & Hcounts). bool_simpl. unfold signatureTrusted in Hsig. bool_simpl.
  repeat match goal with K : has_string _ _ = true |- _ => apply has_string_true in K end.
  split_and!; try done.
  - apply sameCanonicalJson_data; [by apply prop_wf..|done].
  - match goal with K : isArtifactCountSummary (prop "received_artifact_count_summary" receipt) = true |- _ => apply summary_exact in K as (cs & ? & ? & _ & ?) end.
    by exists cs.
Qed.

Lemma identity_input_wf receipt : wf_json receipt = true → wf_json (receipt_identity_input receipt) = true.
Proof.
  intros Hw. unfold receipt_identity_input.
  assert (wf_json (without_field "receipt_signature" (without_field "vendor_receipt_id" receipt)) = true) as Hw' by (by do 2 apply without_field_wf).
  destruct (without_field _ _) as [| | | | | | |fs]; try done. destruct (isRecord _); [|done].
  apply set_wf; [done|done|]. by apply without_field_wf, prop_wf.
Qed.
(** A receipt's id binds its content: two verified receipts with the same id have
    the same data, the id, the signature and the repeated id in the metadata apart,
    unless SHA-256 collides on their identity texts. *)
Theorem receipt_id_binds_content r1 r2 o1 o2 s1 s2 :
  state (verify r1 o1) = receipt_verified → state (verify r2 o2) = receipt_verified →
  wf_json r1 = true → wf_json r2 = true → prop "vendor_receipt_id" r1 = prop "vendor_receipt_id" r2 →
  canonicalizeProtocolJson (receipt_identity_input r1) = Ret s1 → canonicalizeProtocolJson (receipt_identity_input r2) = Ret s2 →
  collision_free [utf8 s1; utf8 s2] →
  same_data (receipt_identity_input r1) (receipt_identity_input r2).
Proof.
  intros V1 V2 W1 W2 Hid C1 C2 Hcf.
  apply receipt_verified_identity in V1 as (i1 & H1 & E1). apply receipt_verified_identity in V2 as (i2 & H2 & E2).
  assert (i1 = i2) as <- by (apply jstr_inj; congruence).
  unfold computeVendorReceiptIdentity, computeCanonicalSha256Id in H1, H2. rewrite C1 in H1. rewrite C2 in H2.
  apply Ret_inj in H1, H2. eapply computeCanonical_inj; [by apply identity_input_wf|by apply identity_input_wf|exact C1|exact C2|done|].
  apply (identity_of_inj None). cbn [identity_of]. congruence.
Qed.
End receipt_theorems.

(** * The verified submission chain *)

Record VerifiedSubmissionChainInput := {
  review_scope : json; bundle_manifest : json; outbound_manifest : json; scanner_finding_set : json;
  vendor_receipt : json; vendor_receipt_signature_outcome : json
}.
Inductive VerifiedArtifactSemanticIssue :=
  | chain_review_scope_identity_mismatch
  | chain_bundle_manifest_identity_mismatch
  | chain_bundle_manifest_semantic_invalid
  | chain_outbound_manifest_semantic_invalid
  | chain_scanner_finding_set_semantic_invalid.
Inductive VerifiedSubmissionChainIssue :=
  | chain_receipt_unverified
  | chain_review_scope_mismatch
  | chain_disclosure_policy_mismatch
  | chain_selected_application_mismatch
  | chain_selected_commit_mismatch
  | chain_repository_identity_mismatch.

Section chain.
Context `{UnicodeText, Sha256}.
Variable validateProtocolSchema : string → json → list ProtocolValidationError.

Definition reviewScopeIdentity (reviewScope : json) : throws string :=
  runner_name ← member "name" (prop "runner" reviewScope);
  application_id ← member "application_id" (prop "selected_application" reviewScope);
  commit_sha ← member "commit_sha" (prop "selected_commit" reviewScope);
  computeCanonicalSha256Id (jobj [("generated_at", prop "generated_at" reviewScope); ("protocol_version", prop "protocol_version" reviewScope);
    ("repository_identity", prop "repository_identity" reviewScope); ("review_id", prop "review_id" reviewScope);
    ("runner_name", runner_name); ("runner_version", prop "version" (prop "runner" reviewScope));
    ("selected_application_id", application_id); ("selected_commit", commit_sha)]).
(* recomputeExcludedFieldIdentity(...) !== value; undefined is an answer too *)
Definition identity_differs (identity : option string) (v : json) : bool :=
  match identity with Some id => negb (has_string id v) | None => negb (is_undefined v) end.
Definition nonempty {A} (l : list A) : bool := match l with [] => false | _ => true end.
Definition verifiedArtifactSemanticIssues (input : VerifiedSubmissionChainInput) : throws (list VerifiedArtifactSemanticIssue) :=
  scope_identity ← reviewScopeIdentity (review_scope input);
  bundle_identity ← recomputeExcludedFieldIdentity (bundle_manifest input) (js "evidence_bundle_id") None;
  bundle_issues ← bundleManifestCleanupSemanticIssues (bundle_manifest input);
  scanner_issues ← scannerFindingSetSemanticIssues (scanner_finding_set input);
  Ret (issue_when (negb (has_string scope_identity (prop "review_scope_id" (review_scope input)))) chain_review_scope_identity_mismatch
    ++ issue_when (identity_differs bundle_identity (prop "evidence_bundle_id" (bundle_manifest input))) chain_bundle_manifest_identity_mismatch
    ++ issue_when (nonempty bundle_issues) chain_bundle_manifest_semantic_invalid
    ++ issue_when (nonempty (outboundManifestSemanticIssues (outbound_manifest input))) chain_outbound_manifest_semantic_invalid
    ++ issue_when (nonempty scanner_issues) chain_scanner_finding_set_semantic_invalid).
(* canonicalizeProtocolJson(left ?? null) === canonicalizeProtocolJson(right ?? null) *)
Definition same_or_null (left right : json) : bool := sameCanonicalJson (coalesce left JNull) (coalesce right JNull).
Definition verifiedSubmissionChainIssues (input : VerifiedSubmissionChainInput) : list VerifiedSubmissionChainIssue :=
  let scope := review_scope input in
  let bundle := bundle_manifest input in
  let outbound := outbound_manifest input in
  let receipt := vendor_receipt input in
  let scope_id := prop "review_scope_id" scope in
  let selected := prop "selected_scope_summary" outbound in
  issue_when match state (verifyVendorReceiptRecordSync validateProtocolSchema receipt (vendor_receipt_signature_outcome input)) with
             | receipt_verified => false | failed_verification => true end chain_receipt_unverified
  ++ issue_when ((prop "review_scope_ref" bundle !== scope_id) || (prop "review_scope_ref" outbound !== scope_id)
                 || (prop "review_scope_ref" (scanner_finding_set input) !== scope_id))%bool chain_review_scope_mismatch
  ++ issue_when ((prop "disclosure_policy_ref" bundle !== prop "disclosure_policy_ref" outbound)
                 || (prop "disclosure_policy_ref" bundle !== prop "disclosure_policy_ref" receipt)
                 || (prop "disclosure_policy_ref" (prop "disclosure_policy_summary" outbound) !== prop "disclosure_policy_ref" receipt)
                 || negb (same_or_null (prop "disclosure_policy_summary" outbound) (prop "disclosure_policy_summary" receipt)))%bool
       chain_disclosure_policy_mismatch
  ++ issue_when (negb (same_or_null (prop "selected_application" selected) (prop "selected_application" scope))
                 || negb (same_or_null (prop "selected_application" selected) (prop "selected_application" receipt)))%bool
       chain_selected_application_mismatch
  ++ issue_when (negb (same_or_null (prop "selected_commit" selected) (prop "selected_commit" scope))
                 || negb (same_or_null (prop "selected_commit" selected) (prop "selected_commit" receipt)))%bool chain_selected_commit_mismatch
  ++ issue_when ((prop "repository_identity" selected !== prop "repository_identity" scope)
                 || (prop "repository_identity" selected !== prop "repository_identity_hash" receipt))%bool
       chain_repository_identity_mismatch.

Lemma same_or_null_data a b : wf_json a = true → wf_json b = true → same_or_null a b = true → same_data (coalesce a JNull) (coalesce b JNull).
Proof. intros Wa Wb. apply sameCanonicalJson_data; by destruct a, b. Qed.
Lemma nonempty_nil {A} (l : list A) : nonempty l = false ↔ l = [].
Proof. by destruct l. Qed.

(** A submission whose artifacts and chain have no issues is one submission: the
    receipt is verified; the review scope's id is the identity of its content and
    the bundle, the outbound manifest and the scanner findings all refer to it; the
    bundle's id is recomputed from its content; the disclosure policy, the selected
    application, commit and repository agree through manifest and receipt; and the
    three artifacts have no semantic issue of their own. *)
Theorem verified_chain_is_bound input :
  verifiedArtifactSemanticIssues input = Ret [] → verifiedSubmissionChainIssues input = [] →
  wf_json (review_scope input) = true → wf_json (outbound_manifest input) = true → wf_json (vendor_receipt input) = true →
  let scope := review_scope input in
  let selected := prop "selected_scope_summary" (outbound_manifest input) in
  state (verifyVendorReceiptRecordSync validateProtocolSchema (vendor_receipt input) (vendor_receipt_signature_outcome input)) = receipt_verified ∧
  (∃ id, reviewScopeIdentity scope = Ret id ∧
     ∀ artifact, artifact ∈ [bundle_manifest input; outbound_manifest input; scanner_finding_set input] → prop "review_scope_ref" artifact = jstr id) ∧
  (∃ id, recomputeExcludedFieldIdentity (bundle_manifest input) (js "evidence_bundle_id") None = Ret id ∧
     identity_differs id (prop "evidence_bundle_id" (bundle_manifest input)) = false) ∧
  (∀ artifact, artifact ∈ [bundle_manifest input; outbound_manifest input] →
     prop "disclosure_policy_ref" artifact = prop "disclosure_policy_ref" (vendor_receipt input)) ∧
  (∀ name, name ∈ ["selected_application"; "selected_commit"] → ∀ holder, holder ∈ [scope; vendor_receipt input] →
     same_data (coalesce (prop name selected) JNull) (coalesce (prop name holder) JNull)) ∧
  prop "repository_identity" scope = prop "repository_identity_hash" (vendor_receipt input) ∧
  bundleManifestCleanupSemanticIssues (bundle_manifest input) = Ret [] ∧ outboundManifestSemanticIssues (outbound_manifest input) = [] ∧
  scannerFindingSetSemanticIssues (scanner_finding_set input) = Ret [].
Proof.
  intros Ha Hc W1 W2 W3 scope selected. unfold verifiedArtifactSemanticIssues in Ha. unfold verifiedSubmissionChainIssues in Hc.
  fold scope in Ha, Hc, W1. fold selected in Hc. assert (wf_json selected = true) as W4 by (by apply prop_wf).
  destruct (reviewScopeIdentity scope) as [sid|] eqn:Hsid; cbn [mbind throws_bind] in Ha; [|done].
  destruct (recomputeExcludedFieldIdentity _ _ _) as [bid|] eqn:Hbid; cbn [mbind throws_bind] in Ha; [|done].
  destruct (bundleManifestCleanupSemanticIssues _) as [bi|] eqn:Hbi; cbn [mbind throws_bind] in Ha; [|done].
  destruct (scannerFindingSetSemanticIssues _) as [si|] eqn:Hsi; cbn [mbind throws_bind] in Ha; [|done].
  apply Ret_inj in Ha. no_issues Ha. no_issues Hc. destruct Ha as (A1 & A2 & A3%nonempty_nil & A4%nonempty_nil & A5%nonempty_nil).
  destruct Hc as (C1 & C2 & C3 & C4 & C5 & C6). bool_simpl. apply has_string_true in A1. subst bi si. split_and!; try done.
  - by destruct (state _).
  - exists sid. split; [done|]. intros a. rewrite !elem_of_cons. intros [-> | [-> | [-> | []%elem_of_nil]]]; congruence.
  - by exists bid.
  - intros a. rewrite !elem_of_cons. intros [-> | [-> | []%elem_of_nil]]; congruence.
  - intros name Hname holder Hholder. rewrite !elem_of_cons in Hname. rewrite !elem_of_cons in Hholder.
    destruct Hname as [-> | [-> | []%elem_of_nil]], Hholder as [-> | [-> | []%elem_of_nil]];
      apply same_or_null_data; try done; by apply prop_wf.
  - congruence.
Qed.
End chain.

(** * A sample submission *)

Module SubmissionSamples.
Import SampleHash SampleText SchemaSamples ManifestSamples.
Definition errors (schemaId : string) (v : json) : list ProtocolValidationError :=
  default [] (validateProtocolSchema protocolV0Schemas units_cmp REGISTRY_FUEL schemaId v).
Definition identity_of_text (v : throws string) : json := match v with Ret id => jstr id | Throw _ => JNull end.
Definition sha (c : string) : json := jstr ("sha256:" +:+ String.concat "" (replicate 64 c)).

Definition application : json := Eval vm_compute in jobj [("application_id", jstr "synthetic-demo-app"); ("display_name", jstr "Synthetic Demo Application")].
Definition commit : json := Eval vm_compute in jobj [("commit_sha", jstr "0123456789abcdef0123456789abcdef01234567"); ("source_control_system", jstr "git")].
Definition scope_body : list (string * json) :=
  [("protocol_version", jstr "codeattest.v0"); ("generated_at", jstr "2026-07-10T00:00:00Z"); ("repository_identity", sha "b");
   ("review_id", jstr "review:aaa"); ("runner", jobj [("name", jstr "codeattest-local-runner"); ("version", jstr "0.0.0")]);
   ("selected_application", application); ("selected_commit", commit)].
Definition scope_id : json := Eval vm_compute in identity_of_text (reviewScopeIdentity (jobj scope_body)).
Definition scope : json := Eval vm_compute in jobj (("review_scope_id", scope_id) :: scope_body).
Definition policy_summary : json := Eval vm_compute in jobj [("disclosure_policy_ref", sha "c"); ("coverage_mode", jstr "finding_context_snippets");
  ("redaction_profile", jstr "not_applicable"); ("redaction_configuration_version", jstr "not_applicable");
  ("retention_period", jstr "not_applicable")].
Definition outbound_body : list (string * json) :=
  [("review_scope_ref", scope_id); ("disclosure_policy_ref", sha "c"); ("coverage_mode", jstr "finding_context_snippets");
   ("disclosure_policy_summary", policy_summary);
   ("selected_scope_summary", jobj [("selected_application", application); ("selected_commit", commit); ("repository_identity", sha "b")]);
   ("package_preview_state", jobj [("state", jstr "preview_generated"); ("send_ready", JBool false); ("local_only", JBool true)]);
   ("approval", jobj [("approval_state", jstr "not_requested")]); ("evidence_categories", JArray entries)].
Definition outbound : json := Eval vm_compute in jobj (("manifest_id", identity_of_text (computeCanonicalSha256Id (jobj outbound_body))) :: outbound_body).
Definition bundle_body : list (string * json) :=
  [("manifest_id", prop "manifest_id" outbound); ("review_scope_ref", scope_id); ("disclosure_policy_ref", sha "c");
   ("verification_metadata", JObject []); ("artifact_references", JArray [artifact_ref "transient_source_derived" "raw"]);
   ("local_cleanup_intent", JArray [intent "raw"])].
Definition sample_bundle : json := Eval vm_compute in jobj (("evidence_bundle_id", identity_of_text (computeCanonicalSha256Id (jobj bundle_body))) :: bundle_body).
Definition sample_findings : json := Eval vm_compute in jobj [("scanner_finding_set_id", jstr "s"); ("review_scope_ref", scope_id);
  ("scanner_runs", JArray runs); ("candidate_findings", JArray [finding "semgrep"])].

Definition counts : json := Eval vm_compute in jobj [("count_domain", jstr "evidence_category_counts"); ("total_count", jnum 16);
  ("categories", JArray (List.map (λ cn : string * Z, jobj [("category", jstr cn.1); ("count", jnum cn.2)])
     [("metadata", 1); ("dependencies", 2); ("scanner_findings", 2); ("raw_snippets", 2); ("targeted_files", 0);
      ("derived_artifacts", 4); ("never_collected_items", 5)]))].
Definition row (field : string) (value : json) : json :=
  jobj [("field", jstr field); ("approved_value", value); ("received_value", value); ("result", jstr "matched")].
Definition key_fields : list (string * json) :=
  [("protocol_version", jstr "codeattest.v0"); ("algorithm_profile", jstr "ml_dsa_65"); ("canonicalization", jstr "rfc8785");
   ("key_id", jstr "receipt-key"); ("key_version", jstr "v1"); ("signing_time", jstr "2026-07-10T00:20:00Z");
   ("signed_identity_type", jstr "vendor_receipt"); ("signing_mode", jstr "managed_key"); ("signing_limitations", JArray [jstr "A sample."])].
Definition receipt_body (metadata_id : list (string * json)) : list (string * json) :=
  let body := [("protocol_version", jstr "codeattest.v0"); ("evidence_bundle_id", prop "evidence_bundle_id" sample_bundle);
    ("manifest_id", prop "manifest_id" outbound); ("receipt_timestamp", jstr "2026-07-10T00:20:00Z");
    ("receiving_environment", jobj [("environment_profile", jstr "synthetic_demo"); ("evidence_boundary", jstr "synthetic-demo-only")]);
    ("verification_state", jstr "received_with_receipt"); ("canonicalization", jstr "rfc8785"); ("identity_hash_algorithm", jstr "sha256");
    ("identity_input_excludes", JArray [jstr "vendor_receipt_id"; jstr "receipt_signature"; jstr "public_verification_metadata.signed_identity"]);
    ("source_derived_class", jstr "retained_review_artifact"); ("approved_outbound_manifest_ref", jstr "artifact_ref:outbound_manifest");
    ("bundle_instance_id", jstr "bundle_instance:synthetic_demo_001"); ("submission_attempt_id", jstr "submission_attempt:synthetic_demo_001");
    ("selected_application", application); ("selected_commit", commit); ("repository_identity_hash", sha "b");
    ("coverage_mode", jstr "finding_context_snippets"); ("disclosure_policy_ref", sha "c"); ("disclosure_policy_summary", policy_summary);
    ("approved_artifact_count_summary", counts); ("received_artifact_count_summary", counts)] in
  body ++ [("approved_vs_received_comparison", jobj [("comparison_state", jstr "matched");
      ("rows", JArray (List.map (λ e, row e.1 e.2) (rev (expected_rows (jobj body)))))]);
    ("public_verification_metadata", jobj (("public_key_reference", jstr "fixture:key") :: key_fields ++ metadata_id));
    ("key_rotation_readiness", jobj [("historical_key_id", jstr "receipt-key"); ("historical_key_version", jstr "v1");
      ("event_append_hint", jstr "future_story_2_4_append_key_rotation_event_without_rewriting_receipt")])].
Definition receipt_id : json := Eval vm_compute in identity_of_text (computeCanonicalSha256Id (jobj (receipt_body []))).
Definition receipt (signature : string) : json :=
  jobj (("vendor_receipt_id", receipt_id) :: receipt_body [("signed_identity", receipt_id)]
        ++ [("receipt_signature", jobj (key_fields ++ [("signed_identity", receipt_id); ("signature_bytes", JString (js "ml_dsa_65:" ++ mjoin (replicate 4412 (js signature))))]))]).
Definition outcome : json := Eval vm_compute in jobj [("result", jstr "verified"); ("signed_identity", receipt_id); ("signed_identity_type", jstr "vendor_receipt");
  ("key_id", jstr "receipt-key"); ("key_version", jstr "v1"); ("algorithm_profile", jstr "ml_dsa_65")].
Definition receipt_a : json := Eval vm_compute in receipt "a".
Definition receipt_b : json := Eval vm_compute in receipt "b".
Example receipt_verifies : verifyVendorReceiptRecordSync errors receipt_a outcome = {| state := receipt_verified; reason_codes := [] |}.
Proof. by vm_compute. Qed.
Example other_receipt_refused :
  verifyVendorReceiptRecordSync errors (jobj (("coverage_mode", jstr "metadata_only") :: receipt_body [])) outcome ≠
    {| state := receipt_verified; reason_codes := [] |}.
Proof. by vm_compute. Qed.

Lemma comparison_rows_exact_witness : ∃ rows, prop "rows" (prop "approved_vs_received_comparison" receipt_a) = JArray rows ∧
  ∀ row, row ∈ rows → row_agrees (expected_rows receipt_a) row.
Proof.
  destruct (comparison_rows_exact receipt_a) as (rows & Hrows & _ & Hall & _); [by vm_compute|]. exists rows. exact (conj Hrows Hall).
Defined.
Lemma receipt_verified_means_witness : prop "signed_identity" outcome = prop "vendor_receipt_id" receipt_a.
Proof.
  destruct (receipt_verified_means errors receipt_a outcome) as (_ & _ & Hid & _); [by vm_compute..|]. exact Hid.
Defined.
(* The same receipt under another signature. *)
Definition or_empty (t : throws jsstr) : jsstr := match t with Ret s => s | Throw _ => [] end.
Definition receipt_text : jsstr := Eval vm_compute in or_empty (canonicalizeProtocolJson (receipt_identity_input receipt_a)).
Lemma receipt_id_binds_content_witness : same_data (receipt_identity_input receipt_a) (receipt_identity_input receipt_b).
Proof.
  apply (receipt_id_binds_content errors receipt_a receipt_b outcome outcome receipt_text receipt_text); [by vm_compute..|].
  apply collision_free_dec_sound. by vm_compute.
Defined.
Definition submission : VerifiedSubmissionChainInput := Eval vm_compute in {|
  review_scope := scope; bundle_manifest := sample_bundle; outbound_manifest := outbound; scanner_finding_set := sample_findings;
  vendor_receipt := receipt_a; vendor_receipt_signature_outcome := outcome |}.
Lemma verified_chain_is_bound_witness : prop "repository_identity" scope = prop "repository_identity_hash" receipt_a.
Proof.
  destruct (verified_chain_is_bound errors submission) as (_ & _ & _ & _ & _ & Hrepo & _); [by vm_compute..|]. exact Hrepo.
Defined.
End SubmissionSamples.
