(* ===== verification/Intake.v ===== *)
(** Verification of a submission (services/intake/src/index.ts): the checks that decide
    whether a submitted bundle may get a Vendor Receipt. *)

From Stdlib Require Import String QArith.
From S2P Require Import Prelude Patterns Bytes Json JsonText Regex CanonicalJson Timestamps Schema Registry Values SubmittedArtifacts TextDecoder SubmissionFixtures.

Local Open Scope Z_scope.

(** * Requests and results *)

(* string | Uint8Array | ArrayBuffer, or a value of another type *)
Inductive ArtifactBytes := Text (s : jsstr) | Bytes (b : bytes) | OtherValue.
(* { spend_ratio }, a number, or a value of another shape; finite numbers are fractions. *)
Inductive DemoBudgetEnforcement := SpendRatio (q : Q) | NonFiniteRatio | MalformedEnforcement.
Record IntakeVerificationRequest := {
  submitted_bundle_manifest : json;
  signature_envelope : json;
  artifact_bytes_by_ref : option (list (jsstr * ArtifactBytes)); (* None: not a record *)
  customer_approval : json;
  approved_outbound_manifest : json;
  environment_evidence_gate : json;
  authenticated_context : json;
  submission_token : json;
  submission_token_expectation : json;
  demo_budget_enforcement : DemoBudgetEnforcement;
  signature_verification_outcome : json
}.

Record IntakeRecordProjection := {
  approved_outbound_manifest_ref : json;
  manifest_id : json;
  evidence_bundle_id : json;
  selected_application : json;
  selected_commit : json;
  repository_identity_hash : json;
  disclosure_policy_ref : json;
  disclosure_policy_summary : json;
  coverage_mode : json;
  runner : json;
  tool_versions : json;
  bundle_instance_id : json;
  submission_attempt_id : json
}.
Record AffectedIdentity := {
  affected_manifest_id : option json;
  affected_evidence_bundle_id : option json;
  affected_review_request_id : option json
}.
Inductive NextPathHint := retry | quarantine_support | contact_support.
Inductive failed_state := rejected_no_receipt | quarantined_no_receipt.
Record FailedIntakeResult := {
  state : failed_state;
  reason_codes : list json;
  affected_identity : option AffectedIdentity;
  next_path : NextPathHint
}.
Inductive IntakeVerificationResult :=
| verified_receipt_eligible (intake_record : IntakeRecordProjection)
| failed (result : FailedIntakeResult).

Inductive VerificationDisposition := disposition_reject | disposition_quarantine.
Record VerificationIssue := { code : json; disposition : VerificationDisposition }.
#[export] Instance VerificationDisposition_eq_dec : EqDecision VerificationDisposition.
Proof. solve_decision. Defined.
#[export] Instance VerificationIssue_eq_dec : EqDecision VerificationIssue.
Proof. solve_decision. Defined.
Definition reject_value (code : json) : VerificationIssue := {| code := code; disposition := disposition_reject |}.
Definition reject (code : string) : VerificationIssue := reject_value (jstr code).
Definition quarantine (code : string) : VerificationIssue := {| code := jstr code; disposition := disposition_quarantine |}.
(* if (wrong) issues.push(issue) *)
Definition push_when : bool → VerificationIssue → list VerificationIssue := issue_when.

(** * Constants *)

Definition ACCEPTED_PROTOCOL_VERSION : string := "codeattest.v0".
Definition REQUIRED_SYNTHETIC_MARKERS : list string := ["SYNTHETIC_DEMO_DATA"; "NOT_CUSTOMER_SOURCE"].
(* The double nearest to 0.95 *)
Definition DEMO_BUDGET_INTAKE_DISABLE_THRESHOLD : Q := 4278419646001971 # 4503599627370496.
Definition TRUSTED_ENVIRONMENT_EVIDENCE_GATES : list (string * json) :=
  [("synthetic_demo",
    jobj [("protocol_version", jstr ACCEPTED_PROTOCOL_VERSION); ("environment_profile", jstr "synthetic_demo");
          ("allowed_source_derived_classes", jarr [jstr "never_collected"; jstr "retained_review_artifact"; jstr "transient_source_derived"]);
          ("real_raw_snippet_acceptance", jbool false); ("real_targeted_file_acceptance", jbool false);
          ("access_control_ready", jbool false); ("access_logging_ready", jbool false); ("encryption_at_rest_ready", jbool false);
          ("retention_defaults_ready", jbool false); ("deletion_controls_ready", jbool false); ("demo_budget_gate_ready", jbool true);
          ("signing_release_trust_ready", jbool false); ("retention_period_required", jbool false);
          ("evidence_boundary", jstr "synthetic-demo-only")]);
   ("partner_pilot_real_snippet_ready",
    jobj [("protocol_version", jstr ACCEPTED_PROTOCOL_VERSION); ("environment_profile", jstr "partner_pilot_real_snippet_ready");
          ("allowed_source_derived_classes",
           jarr [jstr "never_collected"; jstr "retained_review_artifact"; jstr "transient_source_derived"; jstr "customer_opt_in_retained_source"]);
          ("real_raw_snippet_acceptance", jbool true); ("real_targeted_file_acceptance", jbool true);
          ("access_control_ready", jbool true); ("access_logging_ready", jbool true); ("encryption_at_rest_ready", jbool true);
          ("retention_defaults_ready", jbool true); ("deletion_controls_ready", jbool true); ("demo_budget_gate_ready", jbool true);
          ("signing_release_trust_ready", jbool true); ("retention_period_required", jbool true);
          ("evidence_boundary", jstr "partner-pilot-real-snippet-ready");
          ("readiness_decision_ref", jstr "sha256:8aa3c2ec6cf635126083b9b643d51e12f405ef4ec8e993e6e1c7b95c092c31ce")])].
Definition sha256Pattern (s : jsstr) : bool := Regexp.test Regexp.flags_none (Regexp.re "^sha256:[a-f0-9]{64}$") s.
Definition commitShaPattern (s : jsstr) : bool := Regexp.test Regexp.flags_none (Regexp.re "^[a-f0-9]{40}$") s.
Definition ARTIFACT_COUNT_CATEGORIES : list string :=
  ["metadata"; "dependencies"; "scanner_findings"; "raw_snippets"; "targeted_files"; "derived_artifacts"; "never_collected_items"].
Definition ARTIFACT_TYPE_CATEGORY : list (string * string) :=
  [("review_scope", "metadata"); ("dependency_manifest", "dependencies"); ("scanner_finding_set", "scanner_findings");
   ("scanner_raw_output", "derived_artifacts"); ("raw_snippet", "raw_snippets"); ("targeted_file", "targeted_files");
   ("outbound_manifest", "derived_artifacts"); ("customer_approval", "derived_artifacts"); ("bundle_manifest", "derived_artifacts");
   ("disclosure_policy", "derived_artifacts"); ("signature_envelope", "derived_artifacts")].
Definition PHYSICALLY_RECONCILABLE_CATEGORIES : list string := ["metadata"; "scanner_findings"; "raw_snippets"; "targeted_files"].
Definition SOFTWARE_CUSTODY_LIMITATION : string := "software custody".
Definition NON_VALIDATED_MODULE_LIMITATION : string := "non-validated".
Definition CONTENT_UNSAFE_ARTIFACT_TYPES : list string := ["raw_snippet"; "targeted_file"; "dependency_manifest"; "scanner_raw_output"].

(** * Shape checks *)

Definition schema_validation_failed : VerificationIssue := reject "schema_validation_failed".
Definition isSnakeCase (s : jsstr) : bool := Regexp.test Regexp.flags_none (Regexp.re "^[a-z][a-z0-9_]*$") s.
Definition isSha256Id (v : json) : bool := match v with JString s => sha256Pattern s | _ => false end.
Definition isArtifactBytes (b : ArtifactBytes) : bool := match b with OtherValue => false | _ => true end.
Definition isSourceArtifact (artifact : json) : bool := one_of CONTENT_UNSAFE_ARTIFACT_TYPES (prop "artifact_type" artifact).
Definition expectPattern (v : json) (pattern : jsstr → bool) : list VerificationIssue :=
  push_when (negb match v with JString s => pattern s | _ => false end) schema_validation_failed.
Definition expectOptionalPattern (v : json) (pattern : jsstr → bool) : list VerificationIssue :=
  if is_undefined v then [] else expectPattern v pattern.
Definition expectNonEmptyString (v : json) : list VerificationIssue :=
  push_when (negb match v with JString (_ :: _) => true | _ => false end) schema_validation_failed.
(* None: not a record, the caller returns. *)
Definition validateObjectShape (v : json) (allowedProperties requiredProperties : list string) : list VerificationIssue * bool :=
  match v with
  | JObject fs =>
      (List.flat_map (λ p, push_when (is_undefined (prop p v)) schema_validation_failed) requiredProperties
       ++ List.flat_map (λ kv : jsstr * json, push_when (negb (existsb (λ p, js p === kv.1) allowedProperties) || negb (isSnakeCase kv.1))%bool
            schema_validation_failed) fs, true)
  | _ => ([schema_validation_failed], false)
  end.
(* The shape, then the fields when it is a record. *)
Definition shape_then (shape : list VerificationIssue * bool) (fields : list VerificationIssue) : list VerificationIssue :=
  shape.1 ++ if shape.2 then fields else [].
Definition context_properties : list string :=
  ["customer_id"; "review_request_id"; "selected_application_id"; "selected_commit"; "repository_identity_hash"].
Definition validateContextShape (v : json) : list VerificationIssue :=
  shape_then (validateObjectShape v context_properties context_properties)
    (expectNonEmptyString (prop "customer_id" v) ++ expectNonEmptyString (prop "review_request_id" v)
     ++ expectNonEmptyString (prop "selected_application_id" v) ++ expectPattern (prop "selected_commit" v) commitShaPattern
     ++ expectPattern (prop "repository_identity_hash" v) sha256Pattern).
Definition token_properties : list string := ["token_key_id"; "token_secret_material"].
Definition validateTokenShape (v : json) : list VerificationIssue :=
  shape_then (validateObjectShape v token_properties token_properties)
    (expectNonEmptyString (prop "token_key_id" v) ++ expectNonEmptyString (prop "token_secret_material" v)).
Definition expectation_required : list string :=
  ["customer_id"; "review_request_id"; "selected_application_id"; "selected_commit"; "repository_identity_hash"; "expected_manifest_id";
   "token_key_id"; "token_secret_material"].
Definition expectation_properties : list string := "expected_evidence_bundle_id" :: expectation_required.
Definition validateExpectationShape (v : json) : list VerificationIssue :=
  shape_then (validateObjectShape v expectation_properties expectation_required)
    (expectNonEmptyString (prop "customer_id" v) ++ expectNonEmptyString (prop "review_request_id" v)
     ++ expectNonEmptyString (prop "selected_application_id" v) ++ expectPattern (prop "selected_commit" v) commitShaPattern
     ++ expectPattern (prop "repository_identity_hash" v) sha256Pattern ++ expectPattern (prop "expected_manifest_id" v) sha256Pattern
     ++ expectOptionalPattern (prop "expected_evidence_bundle_id" v) sha256Pattern
     ++ expectNonEmptyString (prop "token_key_id" v) ++ expectNonEmptyString (prop "token_secret_material" v)).
Definition validateServiceLocalRequestSchema (r : IntakeVerificationRequest) : list VerificationIssue :=
  match artifact_bytes_by_ref r with
  | None => [schema_validation_failed]
  | Some entries => List.flat_map (λ e : jsstr * ArtifactBytes, push_when (negb (isArtifactBytes e.2)) schema_validation_failed) entries
  end
  ++ validateContextShape (authenticated_context r) ++ validateTokenShape (submission_token r)
  ++ validateExpectationShape (submission_token_expectation r).
Fixpoint repeated_ref (seen : list json) (artifacts : list json) : bool :=
  match artifacts with
  | [] => false
  | artifact :: artifacts' =>
      match prop "artifact_ref" artifact with
      | JString s => if bool_decide (JString s ∈ seen) then true else repeated_ref (JString s :: seen) artifacts'
      | _ => repeated_ref seen artifacts'
      end
  end.
Definition validateUniqueArtifactRefs (v : json) : list VerificationIssue :=
  match prop "artifact_references" v with
  | JArray artifacts => push_when (repeated_ref [] artifacts) schema_validation_failed
  | _ => []
  end.
Fixpoint dedupe_issues (seen issues : list VerificationIssue) : list VerificationIssue :=
  match issues with
  | [] => []
  | i :: issues' => if bool_decide (i ∈ seen) then dedupe_issues seen issues' else i :: dedupe_issues (i :: seen) issues'
  end.
Definition dedupeIssues : list VerificationIssue → list VerificationIssue := dedupe_issues [].

(** * Reading the request *)

(* value.a.b.c *)
Fixpoint path (names : list string) (v : json) : throws json :=
  match names with
  | [] => Ret v
  | name :: names' => w ← member name v; path names' w
  end.
(* Object.entries spread into a new object: { ...value } *)
Definition spread (v : json) : json :=
  match v with
  | JObject fs => v
  | JArray l => JObject (imap (λ i x, (number_text (Z.of_nat i), x)) l)
  | JString s => JObject (imap (λ i c, (number_text (Z.of_nat i), JString [c])) s)
  | _ => JObject []
  end.
Definition bytesFromInput (b : ArtifactBytes) : bytes := match b with Text s => utf8 s | Bytes b => b | OtherValue => [] end.
(* bytesByRef[ref]; a name of Object.prototype finds a function. *)
Definition bytes_for (entries : list (jsstr * ArtifactBytes)) (ref : json) : option ArtifactBytes :=
  match JsMap.get (js_string ref) entries with
  | Some b => Some b
  | None => if inherited (js_string ref) then Some OtherValue else None
  end.
(* list.find((entry) => entry.artifact_type === type) *)
Fixpoint find_type (artifactType : string) (artifacts : list json) : throws (option json) :=
  match artifacts with
  | [] => Ret None
  | entry :: artifacts' =>
      t ← member "artifact_type" entry;
      if has_string artifactType t then Ret (Some entry) else find_type artifactType artifacts'
  end.
Definition findArtifactRef (bundle : json) (artifactType : string) : throws json :=
  refs ← member "artifact_references" bundle; artifacts ← js_elements refs;
  entry ← find_type artifactType artifacts;
  Ret match entry with Some e => prop "artifact_ref" e | None => JForeign end.
(* try { return JSON.parse(...) } catch { return undefined } *)
Definition parseShippedJson (b : option ArtifactBytes) : json :=
  match b with
  | None | Some OtherValue => JForeign
  | Some b => match JSON_parse (TextDecoder_decode (bytesFromInput b)) with Ret v => v | Throw _ => JForeign end
  end.
Definition cloneJsonObject (v : json) : throws json := JSON_parse (JSON_stringify v).
Definition same_strings (left right : json) : throws bool :=
  l ← js_elements left; r ← js_elements right; Ret (l === r).
(* review:<suffix> of review_request:<suffix> *)
Definition reviewIdFor (reviewRequestId : jsstr) : jsstr :=
  js "review:" ++ default reviewRequestId (strip_units (js "review_request:") reviewRequestId).

(** The npm package canonicalize, which writes RFC 8785 text: undefined for what JSON
    cannot hold, and the protocol's own text where the protocol has one. The text of JSON
    data tells the data apart up to the order of fields; of other values it does not, as a
    member that is undefined is left out. *)
Class Canonicalize := {
  canonicalizeJson : json → throws (option jsstr);
  canonicalizeJson_rfc8785 v s : canonicalizeProtocolJson v = Ret s → canonicalizeJson v = Ret (Some s);
  canonicalizeJson_data v w s : wf_json v = true → wf_json w = true → is_data v = true → is_data w = true →
    canonicalizeJson v = Ret (Some s) → canonicalizeJson w = Ret (Some s) → same_data v w
}.

Section intake.
Context `{UnicodeText, Sha256, Canonicalize}.
(* validateProtocolSchema(schemaId, value) *)
Variable validateProtocolSchema : string → json → list ProtocolValidationError.

Definition sha256Digest (b : bytes) : string := ("sha256:" +:+ sha256_hex b)%string.
Definition identityFromCanonicalObject (v : json) : throws string :=
  canonical ← canonicalizeJson v;
  match canonical with Some s => Ret (sha256Digest (utf8 s)) | None => Throw "canonical identity input must be JSON-serializable" end.
Definition canonicalIdentity (v : json) (excludedField : string) : throws string :=
  identityInput ← cloneJsonObject v; identityFromCanonicalObject (without_field excludedField identityInput).
Definition sameCanonicalText (left right : json) : throws bool :=
  l ← canonicalizeJson left; r ← canonicalizeJson right;
  Ret match l, r with Some s, Some t => s === t | _, _ => false end.
(* difference |= leftDigest.charCodeAt(index) ^ rightDigest.charCodeAt(index) *)
Fixpoint difference_of (left right : string) : Z :=
  match left, right with
  | String a l, String b r => Z.lor (Z.lxor (Z.of_N (N_of_ascii a)) (Z.of_N (N_of_ascii b))) (difference_of l r)
  | String a l, EmptyString => Z.lor (Z.of_N (N_of_ascii a)) (difference_of l EmptyString)
  | EmptyString, _ => 0
  end.
Definition constantTimeStringEquals (left right : jsstr) : bool :=
  difference_of (sha256ProtocolText left) (sha256ProtocolText right) =? 0.

(** * The checks *)

Definition pushProtocolSchemaIssues (schemaId : string) (v : json) : list VerificationIssue :=
  match validateProtocolSchema schemaId v with
  | [] => []
  | _ =>
      match isRecord v, prop "protocol_version" v with
      | true, JString version => if version === js ACCEPTED_PROTOCOL_VERSION then [schema_validation_failed] else [reject "protocol_version_invalid"]
      | _, _ => [schema_validation_failed]
      end
  end.
Definition pushSignatureSchemaIssues (v : json) : list VerificationIssue :=
  match validateProtocolSchema "urn:codeattest:protocol:v0:signature-envelope" v with
  | [] => []
  | schemaErrors =>
      if forallb (λ e, String.eqb (Schema.code e) "pattern" && (location e === js "$.signature_bytes"))%bool schemaErrors
      then [reject "signature_bytes_untrusted"] else [schema_validation_failed]
  end.
Definition validateRequestSchemas (r : IntakeVerificationRequest) : list VerificationIssue :=
  dedupeIssues
    (pushProtocolSchemaIssues "urn:codeattest:protocol:v0:bundle-manifest" (submitted_bundle_manifest r)
     ++ pushSignatureSchemaIssues (signature_envelope r)
     ++ pushProtocolSchemaIssues "urn:codeattest:protocol:v0:customer-approval" (customer_approval r)
     ++ pushProtocolSchemaIssues "urn:codeattest:protocol:v0:outbound-manifest" (approved_outbound_manifest r)
     ++ pushProtocolSchemaIssues "urn:codeattest:protocol:v0:environment-evidence-gate" (environment_evidence_gate r)
     ++ validateUniqueArtifactRefs (submitted_bundle_manifest r)
     ++ validateServiceLocalRequestSchema r).
Definition validateDemoBudgetEnforcement (enforcement : DemoBudgetEnforcement) : list VerificationIssue :=
  match enforcement with
  | SpendRatio ratio =>
      if negb (Qle_bool 0 ratio) then [reject "demo_budget_enforcement_invalid"]
      else if Qle_bool DEMO_BUDGET_INTAKE_DISABLE_THRESHOLD ratio then [reject "demo_budget_intake_disabled"]
      else []
  | _ => [reject "demo_budget_enforcement_invalid"]
  end.

Definition differ (left right : json) : bool := left !== right.
Definition validateApprovalAndManifestChain (r : IntakeVerificationRequest) : throws (list VerificationIssue) :=
  let bundle := submitted_bundle_manifest r in
  let manifest := approved_outbound_manifest r in
  let approval := customer_approval r in
  displayed ← member "displayed_context" approval;
  selected ← member "selected_scope_summary" manifest;
  approved_manifest_id ← path ["verification_metadata"; "approved_manifest_id"] bundle;
  bundle_version ← path ["runner"; "version"] bundle;
  manifest_version ← path ["runner"; "version"] manifest;
  displayed_manifest ← member "manifest_id" displayed;
  displayed_application ← path ["selected_application"; "application_id"] displayed;
  selected_application ← path ["selected_application"; "application_id"] selected;
  displayed_name ← path ["selected_application"; "display_name"] displayed;
  selected_name ← path ["selected_application"; "display_name"] selected;
  displayed_commit ← path ["selected_commit"; "commit_sha"] displayed;
  selected_commit ← path ["selected_commit"; "commit_sha"] selected;
  acknowledged ← same_strings (prop "disclosure_warnings" displayed) (prop "warnings_acknowledged" approval);
  summarized ← same_strings (prop "disclosure_warnings" displayed) (prop "warnings" manifest);
  let id := prop "manifest_id" manifest in
  Ret (push_when (negb (has_string "approved" (prop "decision" approval))) (reject "customer_approval_not_approved")
    ++ push_when (differ (prop "customer_approval_ref" bundle) (prop "approval_id" approval)
                  || negb (has_string "approved" (prop "customer_approval_decision" bundle)))%bool (reject "customer_approval_mismatch")
    ++ push_when (differ (prop "manifest_id" approval) id || differ (prop "manifest_id" bundle) id)%bool (reject "customer_approval_mismatch")
    ++ push_when (differ approved_manifest_id id) (reject "bundle_approved_manifest_mismatch")
    ++ push_when (differ (prop "review_scope_ref" bundle) (prop "review_scope_ref" manifest)) (reject "bundle_review_scope_mismatch")
    ++ push_when (differ (prop "disclosure_policy_ref" bundle) (prop "disclosure_policy_ref" manifest)) (reject "bundle_disclosure_policy_mismatch")
    ++ push_when (differ (prop "coverage_mode" bundle) (prop "coverage_mode" manifest)) (reject "bundle_coverage_mode_mismatch")
    ++ push_when (differ bundle_version manifest_version) (reject "bundle_runner_version_mismatch")
    ++ push_when (differ (prop "scanner_finding_set_ref" bundle) (prop "scanner_finding_set_ref" manifest)) (reject "bundle_scanner_finding_set_mismatch")
    ++ push_when (differ displayed_manifest id) (reject "customer_approval_mismatch")
    ++ push_when (differ displayed_application selected_application || differ displayed_name selected_name)%bool (reject "selected_application_mismatch")
    ++ push_when (differ displayed_commit selected_commit) (reject "selected_commit_mismatch")
    ++ push_when (differ (prop "repository_identity" displayed) (prop "repository_identity" selected)) (reject "repository_identity_mismatch")
    ++ push_when (differ (prop "coverage_mode" displayed) (prop "coverage_mode" manifest)) (reject "coverage_mode_mismatch")
    ++ push_when (differ (prop "disclosure_policy_ref" displayed) (prop "disclosure_policy_ref" manifest)) (reject "disclosure_policy_mismatch")
    ++ push_when (differ (prop "scanner_finding_set_ref" displayed) (prop "scanner_finding_set_ref" manifest)) (reject "scanner_finding_set_mismatch")
    ++ push_when (negb acknowledged) (reject "customer_approval_warnings_mismatch")
    ++ push_when (negb summarized) (reject "customer_approval_manifest_warnings_mismatch")).

(* signing_limitations.some((limitation) => test(limitation.toLowerCase())) *)
Fixpoint some_limitation (test : jsstr → bool) (limitations : list json) : throws bool :=
  match limitations with
  | [] => Ret false
  | l :: limitations' => s ← text l; if test (toLowerCase s) then Ret true else some_limitation test limitations'
  end.
Definition names_custody (s : jsstr) : bool :=
  (mentions s "custody" && (mentions s SOFTWARE_CUSTODY_LIMITATION || mentions s "runner custody"))%bool.
Definition names_module (s : jsstr) : bool := (mentions s NON_VALIDATED_MODULE_LIMITATION || mentions s "cannot attest")%bool.
(* The part on the independent verification of the signature, which returns early. *)
Definition outcome_issues (signature outcome : json) (recomputedBundleId : string) : throws (list VerificationIssue) :=
  if is_undefined outcome then Ret [reject "signature_bytes_untrusted"]
  else
    identity ← member "signed_identity" outcome;
    if (negb (has_string recomputedBundleId identity) || negb (has_string "evidence_bundle" (prop "signed_identity_type" outcome)))%bool
    then Ret [reject "signature_bytes_untrusted"]
    else if (differ (prop "key_id" outcome) (prop "key_id" signature) || differ (prop "key_version" outcome) (prop "key_version" signature)
             || differ (prop "algorithm_profile" outcome) (prop "algorithm_profile" signature))%bool
    then Ret [reject "signature_key_mismatch"]
    else Ret (push_when (negb (has_string "verified" (prop "result" outcome))) (reject_value (prop "result" outcome))).
Definition validateSignatureEnvelopeTrustBoundary (r : IntakeVerificationRequest) (recomputedBundleId : string) : throws (list VerificationIssue) :=
  let signature := signature_envelope r in
  mode ← path ["verification_metadata"; "bundle_signing_mode"] (submitted_bundle_manifest r);
  signature_mode ← member "signing_mode" signature;
  limitations ← js_elements (prop "signing_limitations" signature);
  custodyDescribed ← some_limitation names_custody limitations;
  moduleDescribed ← some_limitation names_module limitations;
  verification ← outcome_issues signature (signature_verification_outcome r) recomputedBundleId;
  Ret (push_when (differ mode signature_mode) (quarantine "unsupported_signature_mode")
    ++ push_when (negb (has_string "evidence_bundle" (prop "signed_identity_type" signature))) (reject "signature_signed_identity_mismatch")
    ++ push_when (differ (prop "signed_identity" signature) (prop "evidence_bundle_id" (submitted_bundle_manifest r))
                  || negb (has_string recomputedBundleId (prop "signed_identity" signature)))%bool (reject "signature_signed_identity_mismatch")
    ++ push_when (negb custodyDescribed || negb moduleDescribed)%bool (reject "signature_limitations_missing")
    ++ verification).

Definition units_of_text (v : json) : jsstr := match v with JString s => s | _ => [] end.
Definition validateSubmissionScope (r : IntakeVerificationRequest) (recomputedBundleId : string) : throws (list VerificationIssue) :=
  let context := authenticated_context r in
  let expectation := submission_token_expectation r in
  let token := submission_token r in
  let manifest := approved_outbound_manifest r in
  application ← path ["selected_scope_summary"; "selected_application"; "application_id"] manifest;
  commit ← path ["selected_scope_summary"; "selected_commit"; "commit_sha"] manifest;
  repository ← path ["selected_scope_summary"; "repository_identity"] manifest;
  let against name manifest_value code :=
    push_when (differ (prop name context) (prop name expectation) || differ (prop name expectation) manifest_value)%bool (reject code) in
  let expected_bundle := prop "expected_evidence_bundle_id" expectation in
  Ret (push_when (differ (prop "customer_id" context) (prop "customer_id" expectation)) (reject "review_scope_customer_mismatch")
    ++ push_when (differ (prop "review_request_id" context) (prop "review_request_id" expectation)) (reject "review_scope_request_mismatch")
    ++ against "selected_application_id" application "review_scope_application_mismatch"
    ++ against "selected_commit" commit "review_scope_commit_mismatch"
    ++ against "repository_identity_hash" repository "review_scope_repository_mismatch"
    ++ push_when (differ (prop "expected_manifest_id" expectation) (prop "manifest_id" manifest)) (reject "review_scope_manifest_mismatch")
    ++ push_when (negb (is_undefined expected_bundle) && negb (has_string recomputedBundleId expected_bundle))%bool (reject "review_scope_bundle_mismatch")
    ++ push_when (differ (prop "token_key_id" token) (prop "token_key_id" expectation)) (reject "review_scope_token_key_mismatch")
    ++ push_when (negb (constantTimeStringEquals (units_of_text (prop "token_secret_material" token)) (units_of_text (prop "token_secret_material" expectation))))
         (reject "review_scope_token_material_mismatch")).

Definition withoutNotes (gate : json) : json := without_field "notes" gate.
Definition validateEnvironmentEvidenceGate (gate : json) : throws (list VerificationIssue) :=
  profile ← member "environment_profile" gate;
  match List.find (λ t, has_string t.1 profile) TRUSTED_ENVIRONMENT_EVIDENCE_GATES with
  | None => Ret [quarantine "environment_gate_untrusted"]
  | Some (_, trusted) =>
      same ← sameCanonicalText (withoutNotes gate) trusted;
      Ret (push_when (negb same) (quarantine "environment_gate_untrusted"))
  end.

(** ** Artifacts *)

Fixpoint repeated_issues (seen : list json) (artifacts : list json) : throws (list VerificationIssue) :=
  match artifacts with
  | [] => Ret []
  | artifact :: artifacts' =>
      ref ← member "artifact_ref" artifact;
      rest ← repeated_issues (ref :: seen) artifacts';
      Ret (push_when (bool_decide (ref ∈ seen)) schema_validation_failed ++ rest)
  end.
Definition count_type (artifactType : string) (artifacts : list json) : nat :=
  length (List.filter (λ a, has_string artifactType (prop "artifact_type" a)) artifacts).
Definition singleton_issues (artifacts : list json) (requiredType : string) : list VerificationIssue :=
  match count_type requiredType artifacts with
  | 0%nat => [reject "bundle_required_artifact_missing"]
  | 1%nat => []
  | _ => [reject "bundle_required_artifact_duplicated"]
  end.
Definition requiredSingletonTypes (bundle : json) : list string :=
  ["review_scope"; "disclosure_policy"; "outbound_manifest"; "customer_approval"]
  ++ if is_undefined (prop "scanner_finding_set_ref" bundle) then [] else ["scanner_finding_set"].
Definition unexplained_issues (artifacts : list json) (entries : list (jsstr * ArtifactBytes)) : list VerificationIssue :=
  List.flat_map (λ e : jsstr * ArtifactBytes,
    push_when (negb (existsb (λ a, prop "artifact_ref" a === JString e.1) artifacts)) (reject "artifact_bytes_unexplained_key")) entries.
Definition is_true (name : string) (v : json) : bool := prop name v === JBool true.
Definition allRealEvidenceReadinessControlsReady (gate : json) : throws bool :=
  if forallb (λ name, is_true name gate)
       ["access_control_ready"; "access_logging_ready"; "encryption_at_rest_ready"; "retention_defaults_ready"; "deletion_controls_ready";
        "demo_budget_gate_ready"; "signing_release_trust_ready"; "retention_period_required"]
  then classes ← js_elements (prop "allowed_source_derived_classes" gate); Ret (existsb (has_string "customer_opt_in_retained_source") classes)
  else Ret false.
Definition type_accepted (artifact gate : json) : bool :=
  ((has_string "raw_snippet" (prop "artifact_type" artifact) && is_true "real_raw_snippet_acceptance" gate)
   || (has_string "targeted_file" (prop "artifact_type" artifact) && is_true "real_targeted_file_acceptance" gate))%bool.
Definition has_markers (markers : list json) (b : bytes) : bool :=
  (forallb (λ marker, existsb (has_string marker) markers) REQUIRED_SYNTHETIC_MARKERS
   && forallb (λ marker, mentions (TextDecoder_decode b) marker) REQUIRED_SYNTHETIC_MARKERS)%bool.
Definition validateSourceArtifactBoundary (artifact : json) (b : bytes) (gate : json) : throws (list VerificationIssue) :=
  let typeAccepted := type_accepted artifact gate in
  let ready_profile := has_string "partner_pilot_real_snippet_ready" (prop "environment_profile" gate) in
  marked ← (if (ready_profile && typeAccepted)%bool then Ret true
            else markers ← js_elements (coalesce (prop "synthetic_markers" artifact) (JArray [])); Ret (has_markers markers b));
  ready ← (if typeAccepted then allRealEvidenceReadinessControlsReady gate else Ret true);
  Ret (push_when (negb marked) (quarantine "synthetic_demo_source_marker_required")
    ++ push_when (negb ready_profile && typeAccepted)%bool (quarantine "environment_gate_real_evidence_not_allowed")
    ++ push_when (negb ready) (quarantine "environment_gate_readiness_required")).
Definition artifact_issues (entries : list (jsstr * ArtifactBytes)) (gate artifact : json) : throws (list VerificationIssue) :=
  classes ← js_elements (prop "allowed_source_derived_classes" gate);
  let class_issue := push_when (negb (bool_decide (prop "source_derived_class" artifact ∈ classes))) (quarantine "source_derived_class_not_allowed") in
  match bytes_for entries (prop "artifact_ref" artifact) with
  | None => Ret (class_issue ++ [reject "artifact_bytes_missing"])
  | Some OtherValue => Ret (class_issue ++ [schema_validation_failed])
  | Some artifactBytes =>
      let b := bytesFromInput artifactBytes in
      source ← (if isSourceArtifact artifact then validateSourceArtifactBoundary artifact b gate else Ret []);
      Ret (class_issue
        ++ push_when (negb (has_string (sha256Digest b) (prop "digest" artifact))) (reject "artifact_digest_mismatch")
        ++ push_when (prop "size_bytes" artifact !== JNumber (Z.of_nat (length b))) (reject "artifact_size_mismatch")
        ++ source)
  end.
Fixpoint each_artifact (check : json → throws (list VerificationIssue)) (artifacts : list json) : throws (list VerificationIssue) :=
  match artifacts with
  | [] => Ret []
  | artifact :: artifacts' => issues ← check artifact; rest ← each_artifact check artifacts'; Ret (issues ++ rest)
  end.
Definition entries_of (r : IntakeVerificationRequest) : list (jsstr * ArtifactBytes) := default [] (artifact_bytes_by_ref r).
Definition validateArtifacts (r : IntakeVerificationRequest) : throws (list VerificationIssue) :=
  let bundle := submitted_bundle_manifest r in
  refs ← member "artifact_references" bundle; artifacts ← js_elements refs;
  repeated ← repeated_issues [] artifacts;
  each ← each_artifact (artifact_issues (entries_of r) (environment_evidence_gate r)) artifacts;
  Ret (repeated ++ List.flat_map (singleton_issues artifacts) (requiredSingletonTypes bundle)
    ++ unexplained_issues artifacts (entries_of r) ++ each).

(** ** Shipped documents *)

Definition validatePhysicalEvidenceCategoryInclusion (r : IntakeVerificationRequest) : throws (list VerificationIssue) :=
  refs ← member "artifact_references" (submitted_bundle_manifest r); artifacts ← js_elements refs;
  entries ← member "evidence_categories" (approved_outbound_manifest r); categories ← js_elements entries;
  let category_issues category :=
    let name := prop "category" category in
    if one_of PHYSICALLY_RECONCILABLE_CATEGORIES name then
      let physicallyPresent := match List.find (λ t, has_string t.2 name) ARTIFACT_TYPE_CATEGORY with
                               | Some (artifactType, _) => negb (Nat.eqb (count_type artifactType artifacts) 0)
                               | None => false
                               end in
      push_when (is_true "included" category && negb physicallyPresent)%bool (reject "evidence_category_physical_artifact_missing")
      ++ push_when ((prop "included" category === JBool false) && physicallyPresent)%bool (reject "evidence_category_unapproved_physical_artifact")
    else [] in
  Ret (List.flat_map category_issues categories).

Definition schema_valid (schemaId : string) (v : json) : bool := match validateProtocolSchema schemaId v with [] => true | _ => false end.
Definition is_nil {A} (l : list A) : bool := match l with [] => true | _ => false end.
(* What the bundle ships under the first reference of a type: None, no such reference. *)
Definition shipped (r : IntakeVerificationRequest) (artifactType : string) : throws (option json) :=
  ref ← findArtifactRef (submitted_bundle_manifest r) artifactType;
  Ret (if is_undefined ref then None else Some (parseShippedJson (bytes_for (entries_of r) ref))).
Definition review_scope_issues (r : IntakeVerificationRequest) : throws (list VerificationIssue) :=
  document ← shipped r "review_scope";
  Ret match document with
      | None => []
      | Some parsed =>
          if (is_undefined parsed || negb (schema_valid "urn:codeattest:protocol:v0:review-scope" parsed))%bool then [reject "shipped_review_scope_invalid"]
          else push_when (negb (isRecord parsed)
                          || (prop "review_id" parsed !== JString (reviewIdFor (units_of_text (prop "review_request_id" (submission_token_expectation r))))))%bool
                 (reject "review_scope_review_mismatch")
      end.
Definition disclosure_policy_issues (r : IntakeVerificationRequest) : throws (list VerificationIssue) :=
  document ← shipped r "disclosure_policy";
  match document with
  | None => Ret []
  | Some parsed =>
      if negb (isRecord parsed) then Ret [reject "shipped_disclosure_policy_invalid"]
      else
        identity ← recomputeExcludedFieldIdentity parsed (js "disclosure_policy_id") None;
        Ret (push_when (negb (schema_valid "urn:codeattest:protocol:v0:disclosure-policy" parsed)
                        || negb (is_nil (disclosurePolicySemanticIssues parsed))
                        || match identity with None => true | Some id => negb (has_string id (prop "disclosure_policy_id" parsed)) end)%bool
               (reject "shipped_disclosure_policy_invalid"))
  end.
Definition scanner_finding_set_issues (r : IntakeVerificationRequest) : throws (list VerificationIssue) :=
  if is_undefined (prop "scanner_finding_set_ref" (submitted_bundle_manifest r)) then Ret []
  else
    document ← shipped r "scanner_finding_set";
    match document with
    | None => Ret []
    | Some parsed =>
        if (is_undefined parsed || negb (schema_valid "urn:codeattest:protocol:v0:scanner-finding-set" parsed))%bool
        then Ret [reject "shipped_scanner_finding_set_invalid"]
        else semantic ← scannerFindingSetSemanticIssues parsed; Ret (push_when (negb (is_nil semantic)) (reject "shipped_scanner_finding_set_invalid"))
    end.
(* A document that the request also carries: valid, and the same data. *)
Definition copy_issues {I} (r : IntakeVerificationRequest) (artifactType schemaId : string) (semantic : json → list I) (carried : json)
    (invalid mismatch : string) : throws (list VerificationIssue) :=
  document ← shipped r artifactType;
  match document with
  | None => Ret []
  | Some parsed =>
      if negb (isRecord parsed) then Ret [reject invalid]
      else if (negb (schema_valid schemaId parsed) || negb (is_nil (semantic parsed)))%bool then Ret [reject invalid]
      else same ← sameCanonicalText parsed carried; Ret (push_when (negb same) (reject mismatch))
  end.
Definition outbound_manifest_issues (r : IntakeVerificationRequest) : throws (list VerificationIssue) :=
  copy_issues r "outbound_manifest" "urn:codeattest:protocol:v0:outbound-manifest" outboundManifestSemanticIssues (approved_outbound_manifest r)
    "shipped_outbound_manifest_invalid" "shipped_outbound_manifest_mismatch".
Definition customer_approval_issues (r : IntakeVerificationRequest) : throws (list VerificationIssue) :=
  copy_issues r "customer_approval" "urn:codeattest:protocol:v0:customer-approval" customerApprovalSemanticIssues (customer_approval r)
    "shipped_customer_approval_invalid" "shipped_customer_approval_mismatch".
Definition validateShippedControlArtifacts (r : IntakeVerificationRequest) : throws (list VerificationIssue) :=
  scope ← review_scope_issues r;
  policy ← disclosure_policy_issues r;
  findings ← scanner_finding_set_issues r;
  manifest ← outbound_manifest_issues r;
  approval ← customer_approval_issues r;
  Ret (scope ++ policy ++ findings ++ manifest ++ approval).

(** * The verdict *)

Definition requiredArtifactRef (bundle : json) (artifactType : string) : throws json :=
  refs ← member "artifact_references" bundle; artifacts ← js_elements refs;
  entry ← find_type artifactType artifacts;
  match entry with Some e => Ret (prop "artifact_ref" e) | None => Throw "required artifact is missing after validation" end.
Definition buildIntakeRecord (r : IntakeVerificationRequest) : throws IntakeRecordProjection :=
  let bundle := submitted_bundle_manifest r in
  let manifest := approved_outbound_manifest r in
  outboundManifestRef ← requiredArtifactRef bundle "outbound_manifest";
  application ← path ["selected_scope_summary"; "selected_application"] manifest;
  commit ← path ["selected_scope_summary"; "selected_commit"] manifest;
  repository ← path ["selected_scope_summary"; "repository_identity"] manifest;
  tools ← js_elements (prop "tool_versions" bundle);
  Ret {| approved_outbound_manifest_ref := outboundManifestRef;
         manifest_id := prop "manifest_id" manifest;
         evidence_bundle_id := prop "evidence_bundle_id" bundle;
         selected_application := spread application;
         selected_commit := spread commit;
         repository_identity_hash := repository;
         disclosure_policy_ref := prop "disclosure_policy_ref" manifest;
         disclosure_policy_summary := spread (prop "disclosure_policy_summary" manifest);
         coverage_mode := prop "coverage_mode" manifest;
         runner := spread (prop "runner" bundle);
         tool_versions := JArray (List.map spread tools);
         bundle_instance_id := prop "bundle_instance_id" bundle;
         submission_attempt_id := prop "submission_attempt_id" bundle |}.

Definition sha_field (v : json) : option json := if isSha256Id v then Some v else None.
Definition affected_of (r : IntakeVerificationRequest) : AffectedIdentity := {|
  affected_manifest_id := sha_field (prop "manifest_id" (submitted_bundle_manifest r));
  affected_evidence_bundle_id := sha_field (prop "evidence_bundle_id" (submitted_bundle_manifest r));
  affected_review_request_id :=
    match prop "review_request_id" (authenticated_context r) with JString (_ :: _) as id => Some id | _ => None end
|}.
Definition no_affected (a : AffectedIdentity) : bool :=
  match affected_manifest_id a, affected_evidence_bundle_id a, affected_review_request_id a with None, None, None => true | _, _, _ => false end.
Definition is_quarantine (i : VerificationIssue) : bool := match disposition i with disposition_quarantine => true | disposition_reject => false end.
Definition failureResult (affected : AffectedIdentity) (issues : list VerificationIssue) : FailedIntakeResult :=
  let hasQuarantine := existsb is_quarantine issues in
  let hasDemoBudgetDisabled := existsb (λ i, has_string "demo_budget_intake_disabled" (code i)) issues in
  {| state := if hasQuarantine then quarantined_no_receipt else rejected_no_receipt;
     reason_codes := dedupe_values [] (List.map code issues);
     affected_identity := if no_affected affected then None else Some affected;
     next_path := if hasQuarantine then quarantine_support else if hasDemoBudgetDisabled then contact_support else retry |}.

Definition cleanup_code (i : BundleManifestCleanupSemanticIssue) : string :=
  match i with
  | source_derived_cleanup_intent_required => "source_derived_cleanup_intent_required"
  | bundle_claim_safe_language_required => "bundle_claim_safe_language_required"
  end.
(* Every check after the schemas, the budget and the identities. *)
Definition submission_issues (r : IntakeVerificationRequest) (recomputedManifestId recomputedBundleId : string) : throws (list VerificationIssue) :=
  chain ← validateApprovalAndManifestChain r;
  signature ← validateSignatureEnvelopeTrustBoundary r recomputedBundleId;
  scope ← validateSubmissionScope r recomputedBundleId;
  gate ← validateEnvironmentEvidenceGate (environment_evidence_gate r);
  artifacts ← validateArtifacts r;
  shipped ← validateShippedControlArtifacts r;
  cleanup ← bundleManifestCleanupSemanticIssues (submitted_bundle_manifest r);
  physical ← validatePhysicalEvidenceCategoryInclusion r;
  Ret (push_when (negb (has_string recomputedManifestId (prop "manifest_id" (approved_outbound_manifest r)))) (reject "manifest_identity_mismatch")
    ++ push_when (negb (has_string recomputedBundleId (prop "evidence_bundle_id" (submitted_bundle_manifest r)))) (reject "evidence_bundle_identity_mismatch")
    ++ chain ++ signature ++ scope ++ gate ++ artifacts ++ shipped ++ List.map (λ i, reject (cleanup_code i)) cleanup ++ physical).
(* The two identities, both recomputed inside one try. *)
Definition recomputed_identities (r : IntakeVerificationRequest) : option (string * string) :=
  match canonicalIdentity (approved_outbound_manifest r) "manifest_id", canonicalIdentity (submitted_bundle_manifest r) "evidence_bundle_id" with
  | Ret m, Ret b => Some (m, b)
  | _, _ => None
  end.
(* None: the request is not a record. *)
Definition verifyIntakeSubmission (request : option IntakeVerificationRequest) : throws IntakeVerificationResult :=
  match request with
  | None => Ret (failed (failureResult {| affected_manifest_id := None; affected_evidence_bundle_id := None; affected_review_request_id := None |}
                                       [schema_validation_failed]))
  | Some r =>
      let fail issues := Ret (failed (failureResult (affected_of r) issues)) in
      match validateRequestSchemas r with
      | (_ :: _) as schemaIssues => fail schemaIssues
      | [] =>
          match validateDemoBudgetEnforcement (demo_budget_enforcement r) with
          | (_ :: _) as demoBudgetIssues => fail demoBudgetIssues
          | [] =>
              match recomputed_identities r with
              | None => fail [schema_validation_failed]
              | Some (recomputedManifestId, recomputedBundleId) =>
                  issues ← submission_issues r recomputedManifestId recomputedBundleId;
                  match issues with
                  | _ :: _ => fail issues
                  | [] => record ← buildIntakeRecord r; Ret (verified_receipt_eligible record)
                  end
              end
          end
      end
  end.
End intake.

(** * What a verified submission satisfies *)

Section intake_theorems.
Context `{UnicodeText, Sha256, Canonicalize}.
Variable validateProtocolSchema : string → json → list ProtocolValidationError.
Local Abbreviation verify := (verifyIntakeSubmission validateProtocolSchema).

Ltac step H x E := match type of H with (?m ≫= _) = _ => destruct m as [x|] eqn:E; [cbn [mbind throws_bind] in H|done] end.
Ltac wrong H := repeat first [rewrite app_nil in H | rewrite issue_when_nil in H].

Lemma verified_inv r rec : verify (Some r) = Ret (verified_receipt_eligible rec) →
  validateRequestSchemas validateProtocolSchema r = [] ∧ validateDemoBudgetEnforcement (demo_budget_enforcement r) = [] ∧
  ∃ m b, recomputed_identities r = Some (m, b) ∧ submission_issues validateProtocolSchema r m b = Ret [] ∧ buildIntakeRecord r = Ret rec.
Proof.
  unfold verifyIntakeSubmission. destruct (validateRequestSchemas _ r); [|done]. destruct (validateDemoBudgetEnforcement _); [|done].
  destruct (recomputed_identities r) as [[m b]|]; [|done]. intros Hv. step Hv issues Hi. destruct issues as [|]; [|done].
  step Hv record Hr. apply Ret_inj in Hv. split_and!; [done..|]. exists m, b. split_and!; [done..|congruence].
Qed.
(* Every part of the checks is silent. *)
Lemma silent_parts r m b : submission_issues validateProtocolSchema r m b = Ret [] →
  prop "manifest_id" (approved_outbound_manifest r) = jstr m ∧ prop "evidence_bundle_id" (submitted_bundle_manifest r) = jstr b ∧
  validateApprovalAndManifestChain r = Ret [] ∧ validateSignatureEnvelopeTrustBoundary r b = Ret [] ∧ validateSubmissionScope r b = Ret [] ∧
  validateEnvironmentEvidenceGate (environment_evidence_gate r) = Ret [] ∧ validateArtifacts r = Ret [] ∧
  validateShippedControlArtifacts validateProtocolSchema r = Ret [] ∧ validatePhysicalEvidenceCategoryInclusion r = Ret [].
Proof.
  unfold submission_issues. intros Hs.
  step Hs chain E1. step Hs signature E2. step Hs scope E3. step Hs gate E4. step Hs artifacts E5. step Hs documents E6. step Hs cleanup E7.
  step Hs physical E8. apply Ret_inj in Hs. unfold push_when in Hs. wrong Hs.
  destruct Hs as (M & B & -> & -> & -> & -> & -> & -> & _ & ->). apply negb_false_iff, has_string_true in M, B. done.
Qed.

Lemma member_ret name v w : member name v = Ret w → w = prop name v.
Proof. destruct v; try done; by intros [= <-]. Qed.
Lemma path_ret names v w : path names v = Ret w → w = fold_left (λ v name, prop name v) names v.
Proof.
  revert v. induction names as [|name names IH]; intros v; cbn [path fold_left]; [by intros [= <-]|].
  destruct (member name v) as [u|] eqn:Hu; [|done]. cbn [mbind throws_bind]. apply member_ret in Hu as ->. apply IH.
Qed.
Ltac read H :=
  let x := fresh "field" in let E := fresh in step H x E;
  first [apply member_ret in E | apply path_ret in E; cbn [fold_left] in E]; subst x.
Definition same_field (name : string) (v w : json) : Prop := prop name v = prop name w.
Lemma differ_false v w : differ v w = false ↔ v = w.
Proof. unfold differ. by rewrite negb_false_iff, bool_decide_eq_true. Qed.
(* Reads the conditions off a list of pushed issues that is empty. *)
Ltac no_wrong K :=
  lazymatch type of K with
  | (_ || _)%bool = false => let K1 := fresh "K" in let K2 := fresh "K" in apply orb_false_iff in K as [K1 K2]; no_wrong K1; no_wrong K2
  | differ _ _ = false => apply differ_false in K
  | negb (has_string _ _) = false => apply negb_false_iff, has_string_true in K
  | negb _ = false => apply negb_false_iff in K
  | _ => idtac
  end.
Ltac silent H :=
  lazymatch type of H with
  | push_when _ _ ++ _ = [] => let K := fresh "K" in apply app_eq_nil in H as [K H]; apply issue_when_nil in K; no_wrong K; silent H
  | push_when _ _ = [] => apply issue_when_nil in H; no_wrong H
  | _ => idtac
  end.
(* The approval, what it displayed and the bundle all name the manifest m and repeat what m says. *)
Definition approved_for (r : IntakeVerificationRequest) (m : string) : Prop :=
  let bundle := submitted_bundle_manifest r in let manifest := approved_outbound_manifest r in let approval := customer_approval r in
  let displayed := prop "displayed_context" approval in let selected := prop "selected_scope_summary" manifest in
  prop "decision" approval = jstr "approved" ∧ prop "customer_approval_decision" bundle = jstr "approved" ∧
  prop "customer_approval_ref" bundle = prop "approval_id" approval ∧
  prop "manifest_id" approval = jstr m ∧ prop "manifest_id" bundle = jstr m ∧ prop "manifest_id" displayed = jstr m ∧
  prop "approved_manifest_id" (prop "verification_metadata" bundle) = jstr m ∧
  same_field "review_scope_ref" bundle manifest ∧ same_field "disclosure_policy_ref" bundle manifest ∧ same_field "coverage_mode" bundle manifest ∧
  same_field "scanner_finding_set_ref" bundle manifest ∧ same_field "version" (prop "runner" bundle) (prop "runner" manifest) ∧
  same_field "disclosure_policy_ref" displayed manifest ∧ same_field "coverage_mode" displayed manifest ∧
  same_field "repository_identity" displayed selected ∧
  same_field "application_id" (prop "selected_application" displayed) (prop "selected_application" selected) ∧
  same_field "display_name" (prop "selected_application" displayed) (prop "selected_application" selected) ∧
  same_field "commit_sha" (prop "selected_commit" displayed) (prop "selected_commit" selected) ∧
  prop "disclosure_warnings" displayed = prop "warnings" manifest ∧ prop "warnings_acknowledged" approval = prop "warnings" manifest.
Lemma chain_bound r m : prop "manifest_id" (approved_outbound_manifest r) = jstr m → validateApprovalAndManifestChain r = Ret [] → approved_for r m.
Proof.
  intros Hm Hc. unfold approved_for. unfold validateApprovalAndManifestChain in Hc.
  read Hc. read Hc. read Hc. read Hc. read Hc. read Hc. read Hc. read Hc. read Hc. read Hc.
  read Hc. read Hc. step Hc acknowledged Ea. step Hc summarized Es. apply Ret_inj in Hc. rewrite Hm in Hc. silent Hc.
  assert (∀ a b, same_strings a b = Ret true → a = b) as Hsame.
  { intros a b Hab. unfold same_strings in Hab. destruct a; try done; destruct b; try done. cbn in Hab.
    apply Ret_inj, bool_decide_eq_true in Hab. by subst. }
  subst acknowledged summarized. apply Hsame in Ea, Es. unfold same_field. split_and!; congruence.
Qed.

(* The envelope and the outcome of its independent verification are those of the bundle b. *)
Definition signed_for (r : IntakeVerificationRequest) (b : string) : Prop :=
  let signature := signature_envelope r in let outcome := signature_verification_outcome r in
  prop "signed_identity" signature = jstr b ∧ prop "signed_identity_type" signature = jstr "evidence_bundle" ∧
  prop "bundle_signing_mode" (prop "verification_metadata" (submitted_bundle_manifest r)) = prop "signing_mode" signature ∧
  prop "result" outcome = jstr "verified" ∧ prop "signed_identity" outcome = jstr b ∧
  prop "signed_identity_type" outcome = jstr "evidence_bundle" ∧
  same_field "key_id" outcome signature ∧ same_field "key_version" outcome signature ∧ same_field "algorithm_profile" outcome signature.
Lemma signature_bound r b : validateSignatureEnvelopeTrustBoundary r b = Ret [] → signed_for r b.
Proof.
  intros Hs. unfold signed_for. unfold validateSignatureEnvelopeTrustBoundary in Hs. read Hs. read Hs. step Hs limitations El. step Hs custody Ec.
  step Hs modules Em. step Hs verification Ev. apply Ret_inj in Hs. silent Hs. subst verification. unfold outcome_issues in Ev.
  destruct (is_undefined _); [by apply Ret_inj in Ev|]. read Ev.
  destruct (_ || _)%bool eqn:E1 in Ev; [by apply Ret_inj in Ev|]. no_wrong E1.
  destruct (_ || _)%bool eqn:E2 in Ev; [by apply Ret_inj in Ev|]. no_wrong E2.
  apply Ret_inj in Ev. silent Ev. unfold same_field. split_and!; congruence.
Qed.

(** ** The credential *)

Lemma difference_zero left right : String.length left = String.length right → difference_of left right = 0 ↔ left = right.
Proof.
  revert right. induction left as [|a left IH]; intros [|b right]; try done. cbn [String.length difference_of]. intros [= Hl].
  rewrite Z.lor_eq_0_iff, Z.lxor_eq_0_iff, IH by done. split; [intros [E0%N2Z.inj ->]|intros [= -> ->]; done].
  by rewrite <- (ascii_N_embedding a), E0, ascii_N_embedding.
Qed.
Lemma digest_length s : String.length (sha256ProtocolText s) = 71%nat.
Proof. unfold sha256ProtocolText, sha256_hex. rewrite length_append, length_hex_string, sha256_length. done. Qed.
Lemma constant_time_equal left right : collision_free [utf8 left; utf8 right] →
  constantTimeStringEquals left right = true ↔ utf8 left = utf8 right.
Proof.
  intros Hcf. unfold constantTimeStringEquals. rewrite Z.eqb_eq, difference_zero by (by rewrite !digest_length). split; [|by unfold sha256ProtocolText; intros ->].
  unfold sha256ProtocolText. intros E0. apply Hcf; [set_solver..|]. apply sha256_hex_inj. by injection E0.
Qed.
(* The authenticated session, the expectation and the token are for this application, commit, repository, manifest and bundle. *)
Definition scoped_for (r : IntakeVerificationRequest) (b : string) : Prop :=
  let context := authenticated_context r in let expectation := submission_token_expectation r in let token := submission_token r in
  let selected := prop "selected_scope_summary" (approved_outbound_manifest r) in
  same_field "customer_id" context expectation ∧ same_field "review_request_id" context expectation ∧
  prop "selected_application_id" context = prop "application_id" (prop "selected_application" selected) ∧
  prop "selected_commit" context = prop "commit_sha" (prop "selected_commit" selected) ∧
  prop "repository_identity_hash" context = prop "repository_identity" selected ∧
  prop "expected_manifest_id" expectation = prop "manifest_id" (approved_outbound_manifest r) ∧
  (prop "expected_evidence_bundle_id" expectation = JForeign ∨ prop "expected_evidence_bundle_id" expectation = jstr b) ∧
  same_field "token_key_id" token expectation ∧
  constantTimeStringEquals (units_of_text (prop "token_secret_material" token)) (units_of_text (prop "token_secret_material" expectation)) = true.
Lemma scope_bound r b : validateSubmissionScope r b = Ret [] → scoped_for r b.
Proof.
  intros Hs. unfold scoped_for. unfold validateSubmissionScope in Hs. read Hs. read Hs. read Hs. apply Ret_inj in Hs. silent Hs. unfold same_field.
  split_and!; try congruence.
  match goal with K : (negb (is_undefined ?e) && _)%bool = false |- _ => destruct e eqn:Ee; try (by left);
    right; apply negb_false_iff, has_string_true in K; congruence end.
Qed.

(** ** The gate *)

Lemma gate_trusted gate : validateEnvironmentEvidenceGate gate = Ret [] →
  ∃ profile trusted s, (profile, trusted) ∈ TRUSTED_ENVIRONMENT_EVIDENCE_GATES ∧ prop "environment_profile" gate = jstr profile ∧
    canonicalizeJson (withoutNotes gate) = Ret (Some s) ∧ canonicalizeJson trusted = Ret (Some s).
Proof.
  unfold validateEnvironmentEvidenceGate. intros Hg. read Hg.
  destruct (List.find _ _) as [[profile trusted]|] eqn:Hf; [|by apply Ret_inj in Hg]. apply find_Some_elem in Hf as [Hin Hp%has_string_true].
  step Hg same Es. apply Ret_inj in Hg. silent Hg. subst same. unfold sameCanonicalText in Es. step Es found El. step Es expected Er.
  apply Ret_inj in Es. destruct found as [s|], expected as [t|]; try done. apply bool_decide_eq_true in Es as ->. by exists profile, trusted, t.
Qed.
Lemma gate_same_data gate : validateEnvironmentEvidenceGate gate = Ret [] →
  ∃ profile trusted, (profile, trusted) ∈ TRUSTED_ENVIRONMENT_EVIDENCE_GATES ∧ prop "environment_profile" gate = jstr profile ∧
    (wf_json gate = true → is_data gate = true → same_data (withoutNotes gate) trusted).
Proof.
  intros (profile & trusted & s & Hin & Hp & Hl & Hr)%gate_trusted. exists profile, trusted. split_and!; try done. intros Hwf Hdata.
  assert (wf_json trusted = true ∧ is_data trusted = true) as [Htw Htd].
  { revert Hin. clear. unfold TRUSTED_ENVIRONMENT_EVIDENCE_GATES.
    intros [[= _ ->]|[[= _ ->]|[]%elem_of_nil]%elem_of_cons]%elem_of_cons; by vm_compute. }
  apply (canonicalizeJson_data _ _ s); [by apply without_field_wf|done|by apply without_field_data|done..].
Qed.

(** ** The artifacts *)

(* A source artifact ships as itself only under the pilot's gate; elsewhere its metadata and its bytes carry both markers. *)
Definition source_accounted (gate artifact : json) (b : bytes) : Prop :=
  (prop "environment_profile" gate = jstr "partner_pilot_real_snippet_ready" ∧ type_accepted artifact gate = true) ∨
  ∃ markers, prop "synthetic_markers" artifact = JArray markers ∧
    ∀ marker, marker ∈ REQUIRED_SYNTHETIC_MARKERS → jstr marker ∈ markers ∧ mentions (TextDecoder_decode b) marker = true.
(* The bytes of a declared artifact: present, with the digest, the size and an allowed class it declares. *)
Definition artifact_accounted (entries : list (jsstr * ArtifactBytes)) (gate artifact : json) : Prop :=
  ∃ input classes, bytes_for entries (prop "artifact_ref" artifact) = Some input ∧ isArtifactBytes input = true ∧
    prop "digest" artifact = jstr (sha256Digest (bytesFromInput input)) ∧
    prop "size_bytes" artifact = JNumber (Z.of_nat (length (bytesFromInput input))) ∧
    prop "allowed_source_derived_classes" gate = JArray classes ∧ prop "source_derived_class" artifact ∈ classes ∧
    (isSourceArtifact artifact = true → source_accounted gate artifact (bytesFromInput input)).
Definition artifacts_accounted (r : IntakeVerificationRequest) (artifacts : list json) : Prop :=
  NoDup (List.map (prop "artifact_ref") artifacts) ∧
  (∀ requiredType, requiredType ∈ requiredSingletonTypes (submitted_bundle_manifest r) → count_type requiredType artifacts = 1%nat) ∧
  (∀ ref input, (ref, input) ∈ entries_of r → ∃ artifact, artifact ∈ artifacts ∧ prop "artifact_ref" artifact = JString ref) ∧
  (∀ artifact, artifact ∈ artifacts → artifact_accounted (entries_of r) (environment_evidence_gate r) artifact).

Lemma js_elements_ret v l : js_elements v = Ret l → v = JArray l.
Proof. destruct v; try done. by intros ->%Ret_inj. Qed.
Lemma existsb_has_string name l : existsb (has_string name) l = true → jstr name ∈ l.
Proof. intros (v & Hv & ->%has_string_true)%existsb_exists. by apply list_elem_of_In. Qed.
Lemma repeated_none seen artifacts : repeated_issues seen artifacts = Ret [] →
  NoDup (List.map (prop "artifact_ref") artifacts) ∧ ∀ a, a ∈ artifacts → prop "artifact_ref" a ∉ seen.
Proof.
  revert seen. induction artifacts as [|a artifacts IH]; intros seen Hr; [split; [constructor|set_solver]|]. cbn [repeated_issues] in Hr.
  read Hr. step Hr rest Er. apply Ret_inj, app_eq_nil in Hr as [Ha ->]. apply issue_when_nil, bool_decide_eq_false in Ha.
  apply IH in Er as [Hnd Hfresh]. split.
  - cbn [List.map]. constructor; [|done]. intros (a' & Ea & Ha')%list_elem_of_fmap. apply (Hfresh a'); [done|]. rewrite <- Ea. apply elem_of_cons. by left.
  - intros a' [->|Ha']%elem_of_cons; [done|]. intros Hs. apply (Hfresh a' Ha'). apply elem_of_cons. by right.
Qed.
Lemma each_none check artifacts a : each_artifact check artifacts = Ret [] → a ∈ artifacts → check a = Ret [].
Proof.
  induction artifacts as [|b artifacts IH]; [set_solver|]. cbn [each_artifact]. intros He. step He issues Ei. step He rest Er.
  apply Ret_inj, app_eq_nil in He as [-> ->]. intros [->|Ha]%elem_of_cons; auto.
Qed.
Lemma source_bound gate artifact b : validateSourceArtifactBoundary artifact b gate = Ret [] → source_accounted gate artifact b.
Proof.
  unfold validateSourceArtifactBoundary. intros Hs. step Hs marked Em. step Hs ready Er. apply Ret_inj in Hs. silent Hs. subst marked. unfold source_accounted.
  destruct (has_string _ _ && _)%bool eqn:Ep in Em.
  - left. apply andb_true_iff in Ep as [Ep%has_string_true Et]. done.
  - right. destruct (js_elements _) as [markers|] eqn:Ee; [|done]. cbn [mbind throws_bind] in Em. apply Ret_inj, andb_true_iff in Em as [Em Et].
    rewrite forallb_forall in Em, Et. exists markers. apply js_elements_ret in Ee. split.
    + destruct (prop "synthetic_markers" artifact) eqn:E0; cbn [coalesce] in Ee; try done; injection Ee as <-;
        exfalso; specialize (Em "SYNTHETIC_DEMO_DATA" (or_introl eq_refl)); done.
    + intros marker Hm%list_elem_of_In. split; [by apply existsb_has_string, Em|by apply Et].
Qed.
Lemma artifact_bound entries gate artifact : artifact_issues entries gate artifact = Ret [] → artifact_accounted entries gate artifact.
Proof.
  unfold artifact_issues. intros Ha. step Ha classes Ec. apply js_elements_ret in Ec.
  destruct (bytes_for _ _) as [input|] eqn:Eb; [|by apply Ret_inj, app_eq_nil in Ha as [_ Ha]].
  assert (isArtifactBytes input = true) as Hinput by (destruct input; try done; by apply Ret_inj, app_eq_nil in Ha as [_ Ha]).
  assert ((source ← (if isSourceArtifact artifact then validateSourceArtifactBoundary artifact (bytesFromInput input) gate else Ret []);
    Ret (push_when (negb (bool_decide (prop "source_derived_class" artifact ∈ classes))) (quarantine "source_derived_class_not_allowed")
      ++ push_when (negb (has_string (sha256Digest (bytesFromInput input)) (prop "digest" artifact))) (reject "artifact_digest_mismatch")
      ++ push_when (prop "size_bytes" artifact !== JNumber (Z.of_nat (length (bytesFromInput input)))) (reject "artifact_size_mismatch")
      ++ source)) = Ret []) as Hb by (by destruct input).
  clear Ha. step Hb source Es. apply Ret_inj in Hb. silent Hb.
  match goal with K : bool_decide (_ ∈ _) = true |- _ => apply bool_decide_eq_true in K end.
  match goal with K : bool_decide (_ = JNumber _) = true |- _ => apply bool_decide_eq_true in K end.
  exists input, classes. split_and!; try done. intros Hsource. rewrite Hsource in Es. subst source. by apply source_bound.
Qed.
Lemma artifacts_bound r : validateArtifacts r = Ret [] →
  ∃ artifacts, prop "artifact_references" (submitted_bundle_manifest r) = JArray artifacts ∧ artifacts_accounted r artifacts.
Proof.
  unfold validateArtifacts. intros Ha. read Ha. step Ha artifacts Ea. apply js_elements_ret in Ea. step Ha repeated Er. step Ha each Ee. apply Ret_inj in Ha.
  exists artifacts. split; [done|]. apply app_nil in Ha as [-> Ha]. apply app_nil in Ha as [Hsingle Ha]. apply app_nil in Ha as [Hkeys ->]. apply repeated_none in Er as [Hnd _].
  split_and!; [done| | |].
  - intros t Ht. apply (proj1 (flat_map_nil _ _)) with (x := t) in Hsingle; [|done]. unfold singleton_issues in Hsingle. by destruct (count_type t artifacts) as [|[|n]].
  - intros ref input Hin. unfold unexplained_issues in Hkeys. apply (proj1 (flat_map_nil _ _)) with (x := (ref, input)) in Hkeys; [|done].
    apply issue_when_nil, negb_false_iff, existsb_exists in Hkeys as (a & Hin' & Hr%bool_decide_eq_true). exists a. split; [by apply list_elem_of_In|done].
  - intros a Hin. apply artifact_bound. by apply (each_none _ _ _ Ee).
Qed.

(** ** Schemas, the budget and the record *)

Lemma dedupe_issues_nil issues : dedupeIssues issues = [] → issues = [].
Proof.
  unfold dedupeIssues. destruct issues as [|i issues]; [done|]. cbn [dedupe_issues]. by rewrite bool_decide_false by apply not_elem_of_nil.
Qed.
Lemma no_schema_issue schemaId v : pushProtocolSchemaIssues validateProtocolSchema schemaId v = [] → validateProtocolSchema schemaId v = [].
Proof.
  unfold pushProtocolSchemaIssues. destruct (validateProtocolSchema _ _); [done|]. destruct (isRecord v); [|done].
  destruct (prop _ v); try done. by case_match.
Qed.
Definition schemas_valid (r : IntakeVerificationRequest) : Prop :=
  validateProtocolSchema "urn:codeattest:protocol:v0:bundle-manifest" (submitted_bundle_manifest r) = [] ∧
  validateProtocolSchema "urn:codeattest:protocol:v0:signature-envelope" (signature_envelope r) = [] ∧
  validateProtocolSchema "urn:codeattest:protocol:v0:customer-approval" (customer_approval r) = [] ∧
  validateProtocolSchema "urn:codeattest:protocol:v0:outbound-manifest" (approved_outbound_manifest r) = [] ∧
  validateProtocolSchema "urn:codeattest:protocol:v0:environment-evidence-gate" (environment_evidence_gate r) = [].
Lemma schemas_bound r : validateRequestSchemas validateProtocolSchema r = [] → schemas_valid r.
Proof.
  unfold validateRequestSchemas, schemas_valid. intros Hl%dedupe_issues_nil.
  apply app_nil in Hl as [Hs1 Hl]. apply app_nil in Hl as [Hs2 Hl]. apply app_nil in Hl as [Hs3 Hl]. apply app_nil in Hl as [Hs4 Hl].
  apply app_nil in Hl as [Hs5 _]. split_and!; try by apply no_schema_issue.
  unfold pushSignatureSchemaIssues in Hs2. destruct (validateProtocolSchema _ _); [done|]. by case_match.
Qed.
Lemma budget_open enforcement : validateDemoBudgetEnforcement enforcement = [] ↔
  ∃ ratio, enforcement = SpendRatio ratio ∧ (0 <= ratio)%Q ∧ (ratio < DEMO_BUDGET_INTAKE_DISABLE_THRESHOLD)%Q.
Proof.
  unfold validateDemoBudgetEnforcement. split.
  - destruct enforcement as [ratio| |]; try done. destruct (Qle_bool 0 ratio) eqn:E0; [|done]. cbn [negb].
    destruct (Qle_bool DEMO_BUDGET_INTAKE_DISABLE_THRESHOLD ratio) eqn:E1; [done|]. intros _. exists ratio. split_and!; [done|by apply Qle_bool_iff|].
    apply Qnot_le_lt. intros Hle%Qle_bool_iff. congruence.
  - intros (ratio & -> & Hlow%Qle_bool_iff & Hhigh). rewrite Hlow. cbn [negb]. destruct (Qle_bool DEMO_BUDGET_INTAKE_DISABLE_THRESHOLD ratio) eqn:E1; [|done].
    apply Qle_bool_iff in E1. exfalso. exact (Qlt_not_le _ _ Hhigh E1).
Qed.
Lemma find_type_ret name artifacts entry : find_type name artifacts = Ret entry →
  entry = List.find (λ a, has_string name (prop "artifact_type" a)) artifacts.
Proof.
  induction artifacts as [|a artifacts IH]; cbn [find_type List.find]; [by intros ->%Ret_inj|]. intros Hf. read Hf.
  destruct (has_string _ _); [by apply Ret_inj in Hf|auto].
Qed.
Lemma required_ref_ret bundle name v : requiredArtifactRef bundle name = Ret v →
  ∃ artifacts a, prop "artifact_references" bundle = JArray artifacts ∧ a ∈ artifacts ∧ prop "artifact_type" a = jstr name ∧ v = prop "artifact_ref" a.
Proof.
  unfold requiredArtifactRef. intros Hr. read Hr. step Hr artifacts Ea. apply js_elements_ret in Ea. step Hr entry Ef.
  apply find_type_ret in Ef. destruct entry as [a|]; [|done]. apply Ret_inj in Hr as <-. symmetry in Ef.
  apply find_some in Ef as [Hin Ht%has_string_true]. exists artifacts, a. split_and!; [done|by apply list_elem_of_In|done..].
Qed.
(* The record repeats the manifest and the bundle that were verified. *)
Definition record_of (r : IntakeVerificationRequest) (rec : IntakeRecordProjection) : Prop :=
  let bundle := submitted_bundle_manifest r in let manifest := approved_outbound_manifest r in
  (∃ artifacts a, prop "artifact_references" bundle = JArray artifacts ∧ a ∈ artifacts ∧ prop "artifact_type" a = jstr "outbound_manifest" ∧
    approved_outbound_manifest_ref rec = prop "artifact_ref" a) ∧
  manifest_id rec = prop "manifest_id" manifest ∧ evidence_bundle_id rec = prop "evidence_bundle_id" bundle ∧
  selected_application rec = spread (prop "selected_application" (prop "selected_scope_summary" manifest)) ∧
  selected_commit rec = spread (prop "selected_commit" (prop "selected_scope_summary" manifest)) ∧
  repository_identity_hash rec = prop "repository_identity" (prop "selected_scope_summary" manifest) ∧
  disclosure_policy_ref rec = prop "disclosure_policy_ref" manifest ∧
  disclosure_policy_summary rec = spread (prop "disclosure_policy_summary" manifest) ∧
  (∃ tools, prop "tool_versions" bundle = JArray tools ∧ tool_versions rec = JArray (List.map spread tools)) ∧ coverage_mode rec = prop "coverage_mode" manifest ∧
  runner rec = spread (prop "runner" bundle) ∧
  bundle_instance_id rec = prop "bundle_instance_id" bundle ∧ submission_attempt_id rec = prop "submission_attempt_id" bundle.
Lemma record_bound r rec : buildIntakeRecord r = Ret rec → record_of r rec.
Proof.
  unfold buildIntakeRecord. intros Hr. step Hr ref Er. apply required_ref_ret in Er as (artifacts & a & Ha & Hin & Ht & Href).
  read Hr. read Hr. read Hr. step Hr tools Et. apply js_elements_ret in Et. apply Ret_inj in Hr as <-. unfold record_of.
  cbn [approved_outbound_manifest_ref manifest_id evidence_bundle_id selected_application selected_commit repository_identity_hash
       disclosure_policy_ref disclosure_policy_summary tool_versions coverage_mode runner bundle_instance_id submission_attempt_id].
  split_and!; try done; [by exists artifacts, a|by exists tools].
Qed.

(** ** Shipped copies *)

(* The bytes shipped as an artifact parse to a schema-valid document with the canonical text of the one carried in the request. *)
Definition shipped_copy_of (r : IntakeVerificationRequest) (artifactType schemaId : string) (carried : json) : Prop :=
  ∀ ref, findArtifactRef (submitted_bundle_manifest r) artifactType = Ret ref → ref ≠ JForeign →
  ∃ s, let parsed := parseShippedJson (bytes_for (entries_of r) ref) in
    validateProtocolSchema schemaId parsed = [] ∧ canonicalizeJson parsed = Ret (Some s) ∧ canonicalizeJson carried = Ret (Some s).
Lemma same_canonical_true v w : sameCanonicalText v w = Ret true → ∃ s, canonicalizeJson v = Ret (Some s) ∧ canonicalizeJson w = Ret (Some s).
Proof.
  unfold sameCanonicalText. intros Hs. step Hs found Ef. step Hs expected Ee. apply Ret_inj in Hs. destruct found as [s|], expected as [t|]; try done.
  apply bool_decide_eq_true in Hs as ->. by exists t.
Qed.
Lemma schema_valid_true schemaId v : schema_valid validateProtocolSchema schemaId v = true → validateProtocolSchema schemaId v = [].
Proof. unfold schema_valid. by destruct (validateProtocolSchema _ _). Qed.
Lemma copy_bound {I} r artifactType schemaId (semantic : json → list I) carried invalid mismatch :
  copy_issues validateProtocolSchema r artifactType schemaId semantic carried invalid mismatch = Ret [] → shipped_copy_of r artifactType schemaId carried.
Proof.
  unfold copy_issues, shipped. intros Hc ref Href Hdef. rewrite Href in Hc. cbn [mbind throws_bind] in Hc.
  assert (is_undefined ref = false) as Hu by (by destruct ref). rewrite Hu in Hc. cbn match in Hc.
  destruct (isRecord _); [|done]. cbn [negb] in Hc. destruct (negb _ || _)%bool eqn:Ev in Hc; [done|].
  apply orb_false_iff in Ev as [Ev%negb_false_iff%schema_valid_true _].
  step Hc same Es. apply Ret_inj in Hc. silent Hc. subst same. apply same_canonical_true in Es as (s & Hl & Hr). by exists s.
Qed.
Lemma documents_bound r : validateShippedControlArtifacts validateProtocolSchema r = Ret [] →
  shipped_copy_of r "outbound_manifest" "urn:codeattest:protocol:v0:outbound-manifest" (approved_outbound_manifest r) ∧
  shipped_copy_of r "customer_approval" "urn:codeattest:protocol:v0:customer-approval" (customer_approval r).
Proof.
  unfold validateShippedControlArtifacts. intros Hd. step Hd scope E1. step Hd policy E2. step Hd findings E3. step Hd outbound E4. step Hd approval E5.
  apply Ret_inj in Hd. apply app_nil in Hd as [_ Hd]. apply app_nil in Hd as [_ Hd]. apply app_nil in Hd as [_ Hd]. apply app_nil in Hd as [-> ->].
  split; by eapply copy_bound.
Qed.

(** ** Failures *)

(* The codes whose evidence is kept apart instead of turned away. *)
Definition quarantine_codes : list string :=
  ["unsupported_signature_mode"; "environment_gate_untrusted"; "source_derived_class_not_allowed"; "synthetic_demo_source_marker_required";
   "environment_gate_real_evidence_not_allowed"; "environment_gate_readiness_required"].
Definition known_disposition (i : VerificationIssue) : Prop := is_quarantine i = true → ∃ name, name ∈ quarantine_codes ∧ code i = jstr name.
Definition known : list VerificationIssue → Prop := Forall known_disposition.
Lemma known_nil : known [].
Proof. constructor. Qed.
Lemma known_app l l' : known l → known l' → known (l ++ l').
Proof. apply Forall_app_2. Qed.
Lemma known_one i : known_disposition i → known [i].
Proof. intros Hi. by constructor. Qed.
Lemma known_when b i : known_disposition i → known (push_when b i).
Proof. intros Hi. destruct b; [by apply known_one|apply known_nil]. Qed.
Lemma known_reject v : known_disposition (reject_value v).
Proof. done. Qed.
Lemma known_quarantine name : name ∈ quarantine_codes → known_disposition (quarantine name).
Proof. intros Hn _. by exists name. Qed.
Lemma known_flat_map {A} (f : A → list VerificationIssue) l : (∀ x, known (f x)) → known (List.flat_map f l).
Proof. intros Hf. induction l; simpl; [apply known_nil|by apply known_app]. Qed.
Lemma known_map {A} (f : A → json) l : known (List.map (λ x, reject_value (f x)) l).
Proof. induction l; constructor; [apply known_reject|done]. Qed.
(* Every issue a check may push. *)
Ltac knows :=
  repeat first [ apply known_nil | apply known_app | apply known_when | apply known_one | apply known_reject
               | apply known_quarantine; by apply (bool_decide_unpack _) | apply known_flat_map; intros ? ].
Ltac known_apps := repeat match goal with |- known (_ ++ _) => apply known_app end.
Ltac returns H := cbv zeta in H; repeat match type of H with (?m ≫= _) = Ret _ => destruct m eqn:?; [cbn [mbind throws_bind] in H|done] end.
Ltac known_check H := returns H; try (apply Ret_inj in H; subst; knows).

Lemma known_signature r b issues : validateSignatureEnvelopeTrustBoundary r b = Ret issues → known issues.
Proof.
  unfold validateSignatureEnvelopeTrustBoundary. intros Hs. known_check Hs.
  match goal with E : outcome_issues _ _ _ = _ |- _ => revert E end. unfold outcome_issues. case_match; [by intros <-%Ret_inj; knows|]. intros E. returns E.
  repeat case_match; apply Ret_inj in E; subst; knows.
Qed.
Lemma known_gate gate issues : validateEnvironmentEvidenceGate gate = Ret issues → known issues.
Proof.
  unfold validateEnvironmentEvidenceGate. intros Hg. returns Hg. destruct (List.find _ _) as [[]|]; known_check Hg.
Qed.
Lemma known_repeated seen artifacts issues : repeated_issues seen artifacts = Ret issues → known issues.
Proof.
  revert seen issues. induction artifacts as [|a artifacts IH]; intros seen issues; cbn [repeated_issues]; [by intros <-%Ret_inj; knows|].
  intros Hr. known_check Hr. by eapply IH.
Qed.
Lemma known_artifact entries gate artifact issues : artifact_issues entries gate artifact = Ret issues → known issues.
Proof.
  unfold artifact_issues. intros Ha. step Ha classes Ec.
  assert (∀ b source, (if isSourceArtifact artifact then validateSourceArtifactBoundary artifact b gate else Ret []) = Ret source → known source) as Hsource.
  { intros b source. destruct (isSourceArtifact _); [|by intros <-%Ret_inj; knows]. unfold validateSourceArtifactBoundary. intros Hs. known_check Hs. }
  destruct (bytes_for _ _) as [[]|]; known_check Ha; by eapply Hsource.
Qed.
Lemma known_each check artifacts issues : (∀ a l, check a = Ret l → known l) → each_artifact check artifacts = Ret issues → known issues.
Proof.
  intros Hc. revert issues. induction artifacts as [|a artifacts IH]; intros issues; cbn [each_artifact]; [by intros <-%Ret_inj; knows|].
  intros He. known_check He; [by eapply Hc|by apply IH].
Qed.
Lemma known_documents r issues : validateShippedControlArtifacts validateProtocolSchema r = Ret issues → known issues.
Proof.
  assert (∀ {I} t id (semantic : json → list I) carried bad differs l, copy_issues validateProtocolSchema r t id semantic carried bad differs = Ret l → known l) as Hcopy.
  { intros I t id semantic carried bad differs l. unfold copy_issues. intros Hl. step Hl document Ed. destruct document; [|known_check Hl].
    repeat case_match; known_check Hl. }
  unfold validateShippedControlArtifacts. intros Hd. returns Hd. apply Ret_inj in Hd. subst.
  known_apps; try by eapply Hcopy.
  - match goal with E : review_scope_issues _ _ = _ |- _ => revert E end. unfold review_scope_issues. intros E. returns E. apply Ret_inj in E. subst.
    repeat case_match; knows.
  - match goal with E : disclosure_policy_issues _ _ = _ |- _ => revert E end. unfold disclosure_policy_issues. intros E. step E document Ed.
    destruct document; [|known_check E]. case_match; known_check E.
  - match goal with E : scanner_finding_set_issues _ _ = _ |- _ => revert E end. unfold scanner_finding_set_issues. intros E.
    case_match; [known_check E|]. step E document Ed. destruct document; [|known_check E]. case_match; known_check E.
Qed.
Lemma known_submission r m b issues : submission_issues validateProtocolSchema r m b = Ret issues → known issues.
Proof.
  unfold submission_issues. intros Hs. step Hs chain E1. step Hs signature E2. step Hs scope E3. step Hs gate E4. step Hs artifacts E5. step Hs documents E6.
  step Hs cleanup E7. step Hs physical E8. apply Ret_inj in Hs. subst issues.
  apply known_signature in E2. apply known_gate in E4. apply known_documents in E6.
  known_apps; try done; try (by knows).
  - unfold validateApprovalAndManifestChain in E1. known_check E1.
  - unfold validateSubmissionScope in E3. known_check E3.
  - unfold validateArtifacts in E5. returns E5. apply Ret_inj in E5. subst artifacts. known_apps.
    + by eapply known_repeated.
    + apply known_flat_map. intros t. unfold singleton_issues. repeat case_match; knows.
    + unfold unexplained_issues. knows.
    + eapply known_each; [|eassumption]. intros declared l. apply known_artifact.
  - apply (known_map (λ i, jstr (cleanup_code i))).
  - unfold validatePhysicalEvidenceCategoryInclusion in E8. returns E8. apply Ret_inj in E8. subst physical. apply known_flat_map. intros c.
    case_match; knows.
Qed.

(** C14. A submission that is found eligible for a receipt is one bound object: every
    document is schema-valid, the spend ratio is below the threshold, the manifest and bundle
    identities are the recomputed ones, the customer's approval and what it displayed are of
    that manifest, the signature and its verification of that bundle, the session, token and
    expectation of that scope, and every field of the intake record repeats these documents. *)
Theorem verified_submission_is_bound r rec : verify (Some r) = Ret (verified_receipt_eligible rec) →
  schemas_valid r ∧
  (∃ ratio, demo_budget_enforcement r = SpendRatio ratio ∧ (0 <= ratio)%Q ∧ (ratio < DEMO_BUDGET_INTAKE_DISABLE_THRESHOLD)%Q) ∧
  (∃ m b, canonicalIdentity (approved_outbound_manifest r) "manifest_id" = Ret m ∧ prop "manifest_id" (approved_outbound_manifest r) = jstr m ∧
    canonicalIdentity (submitted_bundle_manifest r) "evidence_bundle_id" = Ret b ∧ prop "evidence_bundle_id" (submitted_bundle_manifest r) = jstr b ∧
    approved_for r m ∧ signed_for r b ∧ scoped_for r b) ∧
  record_of r rec.
Proof.
  intros (Hschemas & Hbudget & m & b & Hids & Hissues & Hrecord)%verified_inv. apply silent_parts in Hissues as (Hm & Hb & Hchain & Hsig & Hscope & _).
  unfold recomputed_identities in Hids. split_and!; [by apply schemas_bound|by apply budget_open| |by apply record_bound].
  destruct (canonicalIdentity _ "manifest_id") as [m'|] eqn:Em; [|done]. destruct (canonicalIdentity _ "evidence_bundle_id") as [b'|] eqn:Eb; [|done].
  injection Hids as -> ->. exists m, b. split_and!; [done..|by apply chain_bound|by apply signature_bound|by apply scope_bound].
Qed.
(** C15. In a submission found eligible for a receipt the environment gate names the profile
    of a trusted gate and, where it is JSON data (no member of it is undefined), holds the
    same data as that gate, its notes aside. The manifest and the approval shipped as
    artifacts, where the bundle lists them, are schema-valid and have the canonical text of
    the ones the request carries. Every artifact is accounted for: no reference twice, each
    required document once, no bytes without a declaration, and for every declared artifact
    bytes of the declared digest, size and an allowed class, source text carrying the
    synthetic markers in its metadata and its bytes unless the gate is the trusted pilot's. *)
Theorem verified_artifacts_accounted r rec : verify (Some r) = Ret (verified_receipt_eligible rec) →
  (∃ profile trusted, (profile, trusted) ∈ TRUSTED_ENVIRONMENT_EVIDENCE_GATES ∧
    prop "environment_profile" (environment_evidence_gate r) = jstr profile ∧
    (wf_json (environment_evidence_gate r) = true → is_data (environment_evidence_gate r) = true →
     same_data (withoutNotes (environment_evidence_gate r)) trusted)) ∧
  shipped_copy_of r "outbound_manifest" "urn:codeattest:protocol:v0:outbound-manifest" (approved_outbound_manifest r) ∧
  shipped_copy_of r "customer_approval" "urn:codeattest:protocol:v0:customer-approval" (customer_approval r) ∧
  ∃ artifacts, prop "artifact_references" (submitted_bundle_manifest r) = JArray artifacts ∧ artifacts_accounted r artifacts.
Proof.
  intros (_ & _ & m & b & _ & Hissues & _)%verified_inv. apply silent_parts in Hissues as (_ & _ & _ & _ & _ & Hgate & Hartifacts & Hdocuments & _).
  apply documents_bound in Hdocuments as [Hmanifest Happroval]. split_and!; [by apply gate_same_data|done..|by apply artifacts_bound].
Qed.
Lemma known_request r : known (validateRequestSchemas validateProtocolSchema r ++ validateDemoBudgetEnforcement (demo_budget_enforcement r)).
Proof.
  apply known_app.
  - unfold validateRequestSchemas, dedupeIssues.
    assert (∀ issues seen, known issues → known (dedupe_issues seen issues)) as Hdedupe.
    { induction issues as [|i issues IH]; intros seen; cbn [dedupe_issues]; [done|]. intros [Hi Hrest]%Forall_cons. case_match; [by apply IH|].
      apply Forall_cons. split; [done|by apply IH]. }
    assert (∀ v pattern, known (expectPattern v pattern)) as Hpattern by (intros; unfold expectPattern; knows).
    assert (∀ v, known (expectNonEmptyString v)) as Hnonempty by (intros; unfold expectNonEmptyString; knows).
    assert (∀ v allowed required fields, known fields → known (shape_then (validateObjectShape v allowed required) fields)) as Hshape.
    { intros v allowed required fields Hfields. unfold shape_then, validateObjectShape. destruct v; cbn [fst snd]; knows; done. }
    assert (∀ id v, known (pushProtocolSchemaIssues validateProtocolSchema id v)) as Hpush.
    { intros id v. unfold pushProtocolSchemaIssues. repeat case_match; knows. }
    apply Hdedupe. unfold validateServiceLocalRequestSchema. known_apps; try apply Hpush.
    + unfold pushSignatureSchemaIssues. repeat case_match; knows.
    + unfold validateUniqueArtifactRefs. case_match; knows.
    + case_match; knows.
    + apply Hshape. known_apps; first [apply Hpattern | apply Hnonempty].
    + apply Hshape. known_apps; apply Hnonempty.
    + apply Hshape. known_apps; first [apply Hpattern | apply Hnonempty | unfold expectOptionalPattern; case_match; [knows|apply Hpattern]].
  - unfold validateDemoBudgetEnforcement. repeat case_match; knows.
Qed.
(* A failure is the summary of a list of issues. *)
Lemma failed_inv r f : verify (Some r) = Ret (failed f) → ∃ issues, issues ≠ [] ∧ known issues ∧ f = failureResult (affected_of r) issues.
Proof.
  pose proof (known_request r) as [Hschemas Hbudget]%Forall_app. unfold verifyIntakeSubmission.
  destruct (validateRequestSchemas _ r) eqn:E1; [|intros [= <-]%Ret_inj; eexists; split_and!; [| |reflexivity]; done].
  destruct (validateDemoBudgetEnforcement _) eqn:E2; [|intros [= <-]%Ret_inj; eexists; split_and!; [| |reflexivity]; done].
  destruct (recomputed_identities r) as [[m b]|].
  - intros Hv. step Hv issues Ei. apply known_submission in Ei. destruct issues; [by step Hv record Er|].
    apply Ret_inj in Hv as [= <-]. eexists. split_and!; [| |reflexivity]; done.
  - intros [= <-]%Ret_inj. exists [schema_validation_failed]. split_and!; [done| |done]. apply known_one, known_reject.
Qed.

(** C31. A submission that is turned away gets at least one reason and no reason twice; it is
    quarantined, and sent to quarantine support, only for one of the six quarantine reasons,
    and a rejected one is sent to support exactly when the budget is what stopped it and asked
    to retry otherwise. *)
Theorem failure_is_explained r f : verify (Some r) = Ret (failed f) →
  reason_codes f ≠ [] ∧ NoDup (reason_codes f) ∧
  match state f with
  | quarantined_no_receipt => next_path f = quarantine_support ∧ ∃ name, name ∈ quarantine_codes ∧ jstr name ∈ reason_codes f
  | rejected_no_receipt =>
      (next_path f = contact_support ∧ jstr "demo_budget_intake_disabled" ∈ reason_codes f) ∨
      (next_path f = retry ∧ jstr "demo_budget_intake_disabled" ∉ reason_codes f)
  end.
Proof.
  intros (issues & Hne & Hknown & ->)%failed_inv. unfold failureResult. cbn [state reason_codes next_path].
  destruct (dedupe_values_spec (List.map code issues) []) as [Hnd Hin].
  assert (∀ i, i ∈ issues → code i ∈ dedupe_values [] (List.map code issues)) as Hcode.
  { intros i Hi. apply Hin. split; [by apply list_elem_of_fmap_2|apply not_elem_of_nil]. }
  split_and!; [|done|].
  - destruct issues as [|i issues]; [done|]. intros E0. specialize (Hcode i). rewrite E0 in Hcode. apply (not_elem_of_nil (code i)), Hcode, elem_of_cons. by left.
  - destruct (existsb is_quarantine issues) eqn:Eq.
    + split; [done|]. apply existsb_exists in Eq as (i & Hi%list_elem_of_In & Hq). pose proof Hknown as Hall. unfold known in Hall. rewrite Forall_forall in Hall.
      destruct (Hall i Hi Hq) as (name & Hname & Hc). exists name. split; [done|]. rewrite <- Hc. by apply Hcode.
    + destruct (existsb (λ i, has_string "demo_budget_intake_disabled" (code i)) issues) eqn:Ed; [left|right]; split; try done.
      * apply existsb_exists in Ed as (i & Hi%list_elem_of_In & Hc%has_string_true). rewrite <- Hc. by apply Hcode.
      * intros [(i & Hc & Hi)%list_elem_of_fmap _]%Hin. assert (existsb (λ i, has_string "demo_budget_intake_disabled" (code i)) issues = true); [|congruence].
        apply existsb_exists. exists i. split; [by apply list_elem_of_In|]. by apply has_string_true.
Qed.
(** C30. Once the spend ratio reaches the threshold, a request that is otherwise well formed is
    turned away with the one budget code and told to contact support, whatever it carries. *)
Theorem intake_budget_closed r ratio : validateRequestSchemas validateProtocolSchema r = [] → demo_budget_enforcement r = SpendRatio ratio →
  (DEMO_BUDGET_INTAKE_DISABLE_THRESHOLD <= ratio)%Q →
  ∃ affected, verify (Some r) = Ret (failed {| state := rejected_no_receipt; reason_codes := [jstr "demo_budget_intake_disabled"];
    affected_identity := affected; next_path := contact_support |}).
Proof.
  intros Hs Hr Hle. unfold verifyIntakeSubmission. rewrite Hs. unfold validateDemoBudgetEnforcement. rewrite Hr.
  rewrite (proj2 (Qle_bool_iff 0 ratio)) by (eapply Qle_trans; [|exact Hle]; by vm_compute).
  rewrite (proj2 (Qle_bool_iff _ ratio) Hle). cbn [negb]. eexists. reflexivity.
Qed.
End intake_theorems.

(** * The fixture submission *)

Module IntakeSamples.
Import SampleHash SampleText Fixture.
Definition sample_text (v : json) : throws (option jsstr) :=
  match canonicalizeProtocolJson v with Ret s => Ret (Some s) | Throw _ => Ret None end.
Lemma sample_text_ret v s : sample_text v = Ret (Some s) ↔ canonicalizeProtocolJson v = Ret s.
Proof. unfold sample_text. destruct (canonicalizeProtocolJson v); split; congruence. Qed.
#[export] Instance sample_canonicalize : Canonicalize.
Proof.
  refine {| canonicalizeJson := sample_text |}; [intros v s; by rewrite sample_text_ret|].
  intros v w s Hv Hw _ _ Hs%sample_text_ret Ht%sample_text_ret. exact (canonical_inj v w s Hv Hw Hs Ht).
Defined.
Definition errors (schemaId : string) (v : json) : list ProtocolValidationError :=
  default [] (validateProtocolSchema protocolV0Schemas units_cmp REGISTRY_FUEL schemaId v).
Definition request_with (enforcement : DemoBudgetEnforcement) (documents : list (jsstr * jsstr)) (gate : json) : IntakeVerificationRequest := {|
  submitted_bundle_manifest := bundle; signature_envelope := envelope;
  artifact_bytes_by_ref := Some (List.map (λ d : jsstr * jsstr, (d.1, Text d.2)) documents);
  customer_approval := approval; approved_outbound_manifest := manifest; environment_evidence_gate := gate;
  authenticated_context := session; submission_token := token; submission_token_expectation := expectation;
  demo_budget_enforcement := enforcement; signature_verification_outcome := outcome |}.
Definition request : IntakeVerificationRequest := request_with (SpendRatio (1 # 10)) shipped_documents gate.
Definition intake_record : { rec | verifyIntakeSubmission errors (Some request) = Ret (verified_receipt_eligible rec) }.
Proof. eexists. vm_compute. reflexivity. Defined.
(* One byte more in one document: both its digest and its size are off. *)
Example tampered_refused : verifyIntakeSubmission errors (Some (request_with (SpendRatio 0) (match shipped_documents with
    (ref, s) :: documents => (ref, s ++ [10]) :: documents | [] => [] end) gate)) =
  Ret (failed {| state := rejected_no_receipt; reason_codes := [jstr "artifact_digest_mismatch"; jstr "artifact_size_mismatch"];
    affected_identity := Some {| affected_manifest_id := Some manifest_identity; affected_evidence_bundle_id := Some bundle_identity;
      affected_review_request_id := Some (prop "review_request_id" session) |}; next_path := retry |}).
Proof. by vm_compute. Qed.
Definition opened_gate : json := match gate with
  | JObject fs => JObject (JsMap.set (js "real_raw_snippet_acceptance") (jbool true) fs) | v => v end.
Definition opened_failure : { f | verifyIntakeSubmission errors (Some (request_with (SpendRatio 0) shipped_documents opened_gate)) = Ret (failed f) }.
Proof. eexists. vm_compute. reflexivity. Defined.

Lemma verified_submission_is_bound_witness : schemas_valid errors request ∧ record_of request (proj1_sig intake_record).
Proof.
  destruct (verified_submission_is_bound errors request (proj1_sig intake_record) (proj2_sig intake_record)) as (Hs & _ & _ & Hr).
  exact (conj Hs Hr).
Defined.
Lemma verified_artifacts_accounted_witness : ∃ artifacts, prop "artifact_references" bundle = JArray artifacts ∧ artifacts_accounted request artifacts.
Proof.
  destruct (verified_artifacts_accounted errors request (proj1_sig intake_record)) as (_ & _ & _ & Ha); [exact (proj2_sig intake_record)|].
  exact Ha.
Defined.
Lemma failure_is_explained_witness : reason_codes (proj1_sig opened_failure) ≠ [].
Proof.
  destruct (failure_is_explained errors (request_with (SpendRatio 0) shipped_documents opened_gate) (proj1_sig opened_failure) (proj2_sig opened_failure)) as [Hne _].
  exact Hne.
Defined.
Lemma intake_budget_closed_witness : ∃ affected, verifyIntakeSubmission errors (Some (request_with (SpendRatio 1) [] gate)) =
  Ret (failed {| state := rejected_no_receipt; reason_codes := [jstr "demo_budget_intake_disabled"];
    affected_identity := affected; next_path := contact_support |}).
Proof. apply (intake_budget_closed errors _ 1); [by vm_compute|done|by vm_compute]. Defined.
End IntakeSamples.
