(* ===== verification/IntakeReceipt.v ===== *)
(** Receipts and outcomes of verified submissions (services/intake/src/index.ts): preparing a
    Vendor Receipt, completing it with its signature, and the outcome record of a submission. *)

From Stdlib Require Import String QArith.
From S2P Require Import Prelude Patterns Bytes Json JsonText CanonicalJson Timestamps Schema Registry Values SubmittedArtifacts Receipts SubmissionFixtures Intake.

Local Open Scope Z_scope.

(** * Receipts *)

Record VendorReceiptGenerationRequest := {
  intake_verification_request : IntakeVerificationRequest;
  receipt_timestamp : json;
  signing : json;
  approved_artifact_count_summary : json;
  received_artifact_count_summary : json
}.
Record ValidatedReceiptSigning := {
  key_id : jsstr; key_version : jsstr; public_key_reference : jsstr; signing_limitations : list json
}.
Record ReceiptPreflightResult := {
  issues : list string; validated_signing : option ValidatedReceiptSigning; artifactCountSummary : option json
}.
Record PreparedVendorReceipt := {
  prepared_id : string; signing_input : json; unsigned_receipt : json; comparison : json
}.
Record ReceiptSuccessResult := {
  minted_receipt : json; receipt_signature : json; minted_comparison : json; receipt_summary : json; public_verification_metadata : json
}.

Definition RECEIPT_ALGORITHM_PROFILE : string := "ml_dsa_65".
(* A JSON round trip of one field: an absent one stays absent. *)
Definition clone_field (v : json) : throws json := if is_undefined v then Ret v else cloneJsonObject v.
(* { spend_ratio } after a JSON round trip: a ratio that is not finite becomes null. *)
Definition clone_enforcement (e : DemoBudgetEnforcement) : DemoBudgetEnforcement :=
  match e with NonFiniteRatio => MalformedEnforcement | e => e end.
Definition clone_intake_request (r : IntakeVerificationRequest) (bytesByRef : list (jsstr * ArtifactBytes)) : throws IntakeVerificationRequest :=
  bundle ← clone_field (submitted_bundle_manifest r);
  envelope ← clone_field (signature_envelope r);
  approval ← clone_field (customer_approval r);
  manifest ← clone_field (approved_outbound_manifest r);
  gate ← clone_field (environment_evidence_gate r);
  context ← clone_field (authenticated_context r);
  token ← clone_field (submission_token r);
  expectation ← clone_field (submission_token_expectation r);
  outcome ← clone_field (signature_verification_outcome r);
  Ret {| submitted_bundle_manifest := bundle; signature_envelope := envelope; artifact_bytes_by_ref := Some bytesByRef;
         customer_approval := approval; approved_outbound_manifest := manifest; environment_evidence_gate := gate;
         authenticated_context := context; submission_token := token; submission_token_expectation := expectation;
         demo_budget_enforcement := clone_enforcement (demo_budget_enforcement r); signature_verification_outcome := outcome |}.
(* None: the request or its intake request is not a record. *)
Definition cloneReceiptGenerationRequest (request : option VendorReceiptGenerationRequest) : option VendorReceiptGenerationRequest :=
  match request with
  | None => None
  | Some q =>
      let r := intake_verification_request q in
      match artifact_bytes_by_ref r with
      | None => None
      | Some entries =>
          if negb (forallb (λ e : jsstr * ArtifactBytes, isArtifactBytes e.2) entries) then None
          else
            match
              cloned ← clone_intake_request r entries;
              timestamp ← clone_field (receipt_timestamp q); keys ← clone_field (signing q);
              approved ← clone_field (approved_artifact_count_summary q); received ← clone_field (received_artifact_count_summary q);
              Ret {| intake_verification_request := cloned; receipt_timestamp := timestamp; signing := keys;
                     approved_artifact_count_summary := approved; received_artifact_count_summary := received |}
            with Ret snapshot => Some snapshot | Throw _ => None end
      end
  end.

(** ** Preflight *)

(* The pattern and the checks of validation.ts, with seconds up to 59. *)
Definition isUtcRfc3339Timestamp (v : json) : bool :=
  match latin_text (js_string v) with
  | Some value => match scan value with None => false | Some t => calendar_valid 59 t end
  | None => false
  end.
Definition precedes (left right : json) : throws bool := order ← compareTimestamps left right; Ret (order <? 0).
Fixpoint precedes_any (timestamp : json) (prerequisites : list (throws json)) : throws bool :=
  match prerequisites with
  | [] => Ret false
  | prerequisite :: prerequisites' =>
      v ← prerequisite; precedes timestamp v ≫= λ before : bool, if before then Ret true else precedes_any timestamp prerequisites'
  end.
Definition nonempty_text (v : json) : bool := match v with JString (_ :: _) => true | _ => false end.
Definition validateReceiptSigning `{UnicodeText} (v : json) : list string * option ValidatedReceiptSigning :=
  if negb (isRecord v) then (["receipt_signing_key_metadata_missing"], None)
  else
    let keys := (nonempty_text (prop "key_id" v) && nonempty_text (prop "key_version" v) && nonempty_text (prop "public_key_reference" v))%bool in
    let mode := has_string "managed_key" (prop "signing_mode" v) in
    let canonical := has_string "rfc8785" (prop "canonicalization" v) in
    let limitations := match prop "signing_limitations" v with
                       | JArray l =>
                           (negb (is_nil l) && forallb nonempty_text l
                            && mentions (lower_joined l) "custody" && mentions (lower_joined l) NON_VALIDATED_MODULE_LIMITATION)%bool
                       | _ => false
                       end in
    (issue_when (negb keys) "receipt_signing_key_metadata_missing" ++ issue_when (negb mode) "receipt_signing_mode_unsupported"
     ++ issue_when (negb canonical) "receipt_canonicalization_unsupported" ++ issue_when (negb limitations) "receipt_signing_key_metadata_missing",
     match prop "key_id" v, prop "key_version" v, prop "public_key_reference" v, prop "signing_limitations" v with
     | JString id, JString version, JString reference, JArray l =>
         if (keys && mode && canonical && limitations)%bool
         then Some {| key_id := id; key_version := version; public_key_reference := reference; signing_limitations := l |} else None
     | _, _, _, _ => None
     end).
Definition category_count (categories : list json) (name : string) : option Z :=
  match List.find (λ entry, isRecord entry && has_string name (prop "category" entry))%bool categories with
  | Some category => match prop "count" category with JNumber n => if n <? 0 then None else Some n | _ => None end
  | None => None
  end.
Definition count_summary (counts : list Z) : json :=
  jobj [("count_domain", jstr "evidence_category_counts"); ("total_count", JNumber (foldr Z.add 0 counts));
        ("categories", JArray (zip_with (λ name n, jobj [("category", jstr name); ("count", JNumber n)]) ARTIFACT_COUNT_CATEGORIES counts))].
Definition artifactCountSummaryFromOutboundManifest (manifest : json) : option json :=
  match prop "evidence_categories" manifest with
  | JArray entries =>
      counts ← mapM (category_count entries) ARTIFACT_COUNT_CATEGORIES;
      if Nat.eqb (length ARTIFACT_COUNT_CATEGORIES) (length entries)
      then Some (count_summary counts) else None
  | _ => None
  end.

Definition comparisonRow (field : string) (approvedValue receivedValue : json) : json :=
  jobj [("field", jstr field); ("approved_value", approvedValue); ("received_value", receivedValue); ("result", jstr "matched")].
Definition both (field : string) (v : json) : json := comparisonRow field v v.
Definition buildComparison (record : IntakeRecordProjection) (summary : json) : json :=
  jobj [("comparison_state", jstr "matched");
        ("rows", JArray
          [both "manifest_id" (manifest_id record); both "evidence_bundle_id" (evidence_bundle_id record);
           both "selected_commit" (prop "commit_sha" (selected_commit record));
           both "repository_identity_hash" (repository_identity_hash record); both "coverage_mode" (coverage_mode record);
           both "artifact_count_summary" (JString (js "evidence_category_counts:" ++ js_string (prop "total_count" summary)));
           both "disclosure_policy_summary" (JString (disclosureSummaryComparisonValue (disclosure_policy_summary record)))])].
(* Array.from(new Set(values)) on texts *)
Definition unique_codes (codes : list json) : list json := dedupe_values [] codes.
Definition noReceiptResult (failed_as : failed_state) (reasonCodes : list json) (affected : option AffectedIdentity) (path : NextPathHint) : FailedIntakeResult :=
  {| state := failed_as; reason_codes := unique_codes reasonCodes; affected_identity := affected; next_path := path |}.
Definition identities_of (manifest bundle : json) : option AffectedIdentity :=
  Some {| affected_manifest_id := Some manifest; affected_evidence_bundle_id := Some bundle; affected_review_request_id := None |}.
(* The path of a failed submission, kept by the receipt that is not prepared. *)
Definition refused_path (f : FailedIntakeResult) : NextPathHint :=
  match Intake.state f, next_path f with
  | quarantined_no_receipt, _ => quarantine_support
  | rejected_no_receipt, contact_support => contact_support
  | rejected_no_receipt, _ => retry
  end.

Definition metadata_without_identity (keys : ValidatedReceiptSigning) (timestamp : json) : list (string * json) :=
  [("protocol_version", jstr ACCEPTED_PROTOCOL_VERSION); ("algorithm_profile", jstr RECEIPT_ALGORITHM_PROFILE); ("canonicalization", jstr "rfc8785");
   ("key_id", JString (key_id keys)); ("key_version", JString (key_version keys)); ("public_key_reference", JString (public_key_reference keys));
   ("signing_time", timestamp); ("signed_identity_type", jstr "vendor_receipt"); ("signing_mode", jstr "managed_key");
   ("signing_limitations", JArray (signing_limitations keys))].
(* The fields around public_verification_metadata. *)
Definition receipt_fields (record : IntakeRecordProjection) (keys : ValidatedReceiptSigning) (timestamp environment summary metadata : json) : list (string * json) :=
  [("protocol_version", jstr ACCEPTED_PROTOCOL_VERSION); ("evidence_bundle_id", evidence_bundle_id record); ("manifest_id", manifest_id record);
   ("receipt_timestamp", timestamp); ("receiving_environment", environment); ("verification_state", jstr "received_with_receipt");
   ("canonicalization", jstr "rfc8785"); ("identity_hash_algorithm", jstr "sha256");
   ("identity_input_excludes", jarr [jstr "vendor_receipt_id"; jstr "receipt_signature"; jstr "public_verification_metadata.signed_identity"]);
   ("source_derived_class", jstr "retained_review_artifact"); ("approved_outbound_manifest_ref", approved_outbound_manifest_ref record);
   ("bundle_instance_id", bundle_instance_id record); ("submission_attempt_id", submission_attempt_id record);
   ("selected_application", selected_application record); ("selected_commit", selected_commit record);
   ("repository_identity_hash", repository_identity_hash record); ("coverage_mode", coverage_mode record);
   ("disclosure_policy_ref", disclosure_policy_ref record); ("disclosure_policy_summary", disclosure_policy_summary record);
   ("approved_artifact_count_summary", summary); ("received_artifact_count_summary", summary);
   ("approved_vs_received_comparison", buildComparison record summary); ("public_verification_metadata", metadata);
   ("key_rotation_readiness",
     jobj [("historical_key_id", JString (key_id keys)); ("historical_key_version", JString (key_version keys));
           ("event_append_hint", jstr "future_story_2_4_append_key_rotation_event_without_rewriting_receipt")])].
Definition receipt_signing_input (id : string) : json :=
  jobj [("protocol_version", jstr ACCEPTED_PROTOCOL_VERSION); ("signing_input_type", jstr "vendor_receipt_identity");
        ("algorithm_profile", jstr RECEIPT_ALGORITHM_PROFILE); ("signed_identity_type", jstr "vendor_receipt"); ("signed_identity", jstr id);
        ("canonicalization", jstr "rfc8785"); ("identity_input_path", jstr "v0/valid/vendor-receipt.identity-input.json")].

Section receipt.
Context `{UnicodeText, Sha256, Canonicalize}.
(* validateProtocolSchema(schemaId, value) *)
Variable validateProtocolSchema : string → json → list ProtocolValidationError.

Definition pushSuppliedSummaryIssue (supplied derived : json) : throws (list string) :=
  if is_undefined supplied then Ret []
  else if negb (isArtifactCountSummary supplied) then Ret ["artifact_count_not_provable"]
  else same ← sameCanonicalText supplied derived; Ret (issue_when (negb same) "receipt_artifact_count_mismatch").
Definition validateReceiptPreflight (q : VendorReceiptGenerationRequest) : throws ReceiptPreflightResult :=
  let r := intake_verification_request q in
  let '(signing_issues, keys) := validateReceiptSigning (signing q) in
  timing ← (if negb (isUtcRfc3339Timestamp (receipt_timestamp q)) then Ret ["receipt_timestamp_invalid"]
            else early ← precedes_any (receipt_timestamp q)
                   [member "generated_at" (approved_outbound_manifest r); member "decided_at" (customer_approval r);
                    member "created_at" (submitted_bundle_manifest r)];
                 Ret (issue_when early "receipt_timestamp_precedes_prerequisite"));
  let summary := artifactCountSummaryFromOutboundManifest (approved_outbound_manifest r) in
  counts ← match summary with
           | None => Ret ["artifact_count_not_provable"]
           | Some derived =>
               approved ← pushSuppliedSummaryIssue (approved_artifact_count_summary q) derived;
               received ← pushSuppliedSummaryIssue (received_artifact_count_summary q) derived;
               Ret (approved ++ received)
           end;
  Ret {| issues := dedupe (signing_issues ++ timing ++ counts); validated_signing := keys; artifactCountSummary := summary |}.

Definition prepareVendorReceipt (request : option VendorReceiptGenerationRequest) : throws (PreparedVendorReceipt + FailedIntakeResult) :=
  match cloneReceiptGenerationRequest request with
  | None => Ret (inr {| state := rejected_no_receipt; reason_codes := [jstr "receipt_schema_validation_failed"]; affected_identity := None; next_path := retry |})
  | Some snapshot =>
      verified ← verifyIntakeSubmission validateProtocolSchema (Some (intake_verification_request snapshot));
      match verified with
      | failed f =>
          Ret (inr (noReceiptResult (Intake.state f) (jstr "intake_not_receipt_eligible" :: Intake.reason_codes f) (affected_identity f) (refused_path f)))
      | verified_receipt_eligible record =>
          preflight ← validateReceiptPreflight snapshot;
          let refuse codes := Ret (inr (noReceiptResult rejected_no_receipt (List.map jstr codes)
                                          (identities_of (manifest_id record) (evidence_bundle_id record)) retry)) in
          match issues preflight, validated_signing preflight, artifactCountSummary preflight with
          | [], Some keys, Some summary =>
              let gate := environment_evidence_gate (intake_verification_request snapshot) in
              profile ← member "environment_profile" gate;
              let environment := jobj [("environment_profile", profile); ("evidence_boundary", prop "evidence_boundary" gate)] in
              let metadata := metadata_without_identity keys (receipt_timestamp snapshot) in
              id ← identityFromCanonicalObject (jobj (receipt_fields record keys (receipt_timestamp snapshot) environment summary (jobj metadata)));
              Ret (inl {| prepared_id := id; signing_input := receipt_signing_input id;
                          unsigned_receipt := jobj (("vendor_receipt_id", jstr id) ::
                            receipt_fields record keys (receipt_timestamp snapshot) environment summary (jobj (metadata ++ [("signed_identity", jstr id)])));
                          comparison := buildComparison record summary |})
          | [], _, _ => refuse ["receipt_schema_validation_failed"]
          | codes, _, _ => refuse codes
          end
      end
  end.

(** ** Completing a receipt *)

Definition labelled (label : string) (v : json) : json := jobj [("label", jstr label); ("value", v)].
Definition spoken (parts : list jsstr) : json := JString (List.concat parts).
Definition buildReceiptSummary (receipt : json) : throws json :=
  signature ← member "receipt_signature" receipt;
  id ← member "key_id" signature;
  commit ← path ["selected_commit"; "commit_sha"] receipt;
  let field name := prop name receipt in
  let keyVersion := spoken [js_string id; js "/"; js_string (prop "key_version" signature)] in
  Ret (jobj
    [("plain_language_summary",
       spoken [js "CodeAttest received bundle "; js_string (field "evidence_bundle_id"); js " at "; js_string (field "receipt_timestamp");
               js " under Vendor Receipt "; js_string (field "vendor_receipt_id"); js "."]);
     ("copyable_identifiers", jarr
       [labelled "Vendor Receipt" (field "vendor_receipt_id"); labelled "Evidence Bundle" (field "evidence_bundle_id");
        labelled "Outbound Manifest" (field "manifest_id"); labelled "Signing key/version" keyVersion;
        labelled "Algorithm/profile" (prop "algorithm_profile" signature); labelled "Canonicalization" (field "canonicalization");
        labelled "Selected commit" commit; labelled "Repository identity hash" (field "repository_identity_hash");
        labelled "Coverage Mode" (field "coverage_mode"); labelled "Disclosure Policy" (field "disclosure_policy_ref")]);
     ("technical_details", jarr
       [labelled "Receipt identity" (field "vendor_receipt_id"); labelled "Bundle identity" (field "evidence_bundle_id");
        labelled "Signing key/version" keyVersion; labelled "Algorithm/profile" (prop "algorithm_profile" signature);
        labelled "Canonicalization" (field "canonicalization"); labelled "Verification status" (field "verification_state")]);
     ("accessibility", jobj [("role", jstr "status"); ("aria_live", jstr "polite"); ("min_target_size_px", jnum 44)])]).
(* { ...prepared.unsigned_receipt, receipt_signature } *)
Definition signed_receipt (prepared : PreparedVendorReceipt) (signature : json) : json :=
  match unsigned_receipt prepared with JObject fs => JObject (JsMap.set (js "receipt_signature") signature fs) | v => v end.
Definition completeVendorReceipt (prepared : PreparedVendorReceipt) (signature outcome : json) : throws (ReceiptSuccessResult + FailedIntakeResult) :=
  let receipt := unsigned_receipt prepared in
  let metadata := prop "public_verification_metadata" receipt in
  let refuse codes := Ret (inr (noReceiptResult rejected_no_receipt codes (identities_of (prop "manifest_id" receipt) (prop "evidence_bundle_id" receipt)) retry)) in
  identity ← member "signed_identity" signature;
  if (negb (has_string (prepared_id prepared) identity) || negb (has_string "vendor_receipt" (prop "signed_identity_type" signature)))%bool
  then refuse [jstr "receipt_signature_identity_mismatch"]
  else
    profile_expected ← member "key_id" metadata;
    if (differ (prop "key_id" signature) profile_expected || differ (prop "key_version" signature) (prop "key_version" metadata)
        || differ (prop "signing_mode" signature) (prop "signing_mode" metadata)
        || differ (prop "algorithm_profile" signature) (prop "algorithm_profile" metadata)
        || differ (prop "signing_time" signature) (prop "receipt_timestamp" receipt))%bool
    then refuse [jstr "receipt_signature_key_mismatch"]
    else
      let vendorReceipt := signed_receipt prepared signature in
      if negb (is_nil (validateProtocolSchema "urn:codeattest:protocol:v0:vendor-receipt" vendorReceipt))
      then refuse [jstr "receipt_schema_validation_failed"]
      else
        let verification := verifyVendorReceiptRecordSync validateProtocolSchema vendorReceipt outcome in
        match Receipts.state verification with
        | failed_verification => refuse (List.map jstr (Receipts.reason_codes verification))
        | receipt_verified =>
            summary ← buildReceiptSummary vendorReceipt;
            Ret (inl {| minted_receipt := vendorReceipt; receipt_signature := signature; minted_comparison := comparison prepared;
                        receipt_summary := summary; public_verification_metadata := prop "public_verification_metadata" vendorReceipt |})
        end.

(** * The outcome of a submission *)

Inductive SubmissionOutcomeRejectionReason :=
  | submission_outcome_input_invalid
  | submission_outcome_receipt_required
  | submission_outcome_receipt_invalid
  | submission_outcome_receipt_mismatch
  | submission_outcome_occurred_before_receipt
  | submission_outcome_schema_invalid.
Definition SUBMISSION_OUTCOME_SUMMARIES (outcome_state : string) : string :=
  if String.eqb outcome_state "received_with_receipt" then "CodeAttest recorded a Vendor Receipt for this submission."
  else if String.eqb outcome_state "rejected_no_receipt" then "This submission was rejected before any receipt was issued."
  else "This submission was quarantined before any receipt was issued.".
Definition isValidVerifiedIntakeRecord (v : json) : bool :=
  (isRecord v && isSha256Id (prop "manifest_id" v) && isSha256Id (prop "evidence_bundle_id" v)
   && nonempty_text (prop "bundle_instance_id" v) && nonempty_text (prop "submission_attempt_id" v))%bool.
Definition cloneSubmissionOutcomeRequest (request : json) : option json :=
  if (isRecord request && isRecord (prop "result" request))%bool
  then match cloneJsonObject request with Ret snapshot => Some snapshot | Throw _ => None end else None.
Definition nextPathForFailure (result : json) : string :=
  if has_string "contact_support" (prop "next_path" result) then "contact_support"
  else if has_string "quarantined_no_receipt" (prop "state" result) then "quarantine_support" else "retry".
Definition identity_row (identityType : string) (v : json) : json := jobj [("identity_type", jstr identityType); ("identity_value", v)].
(* The identities after the call, and what the call returns. *)
Definition addSubmissionIdentity (identities : list json) (identityType : string) (v : json) : throws (list json * bool) :=
  if is_undefined v then Ret (identities, true)
  else
    submissionIdentityValueMatchesGrammar identityType v ≫= λ matches : bool,
    if negb matches then Ret (identities, false)
    else if existsb (λ i, has_string identityType (prop "identity_type" i)) identities then Ret (identities, true)
    else Ret (identities ++ [identity_row identityType v], true).
(* identitiesValid = addSubmissionIdentity(...) && identitiesValid, one call after the other *)
Fixpoint add_identities (identities : list json) (valid : bool) (supplied : list (string * json)) : throws (list json * bool) :=
  match supplied with
  | [] => Ret (identities, valid)
  | (identityType, v) :: supplied' =>
      added ← addSubmissionIdentity identities identityType v;
      add_identities added.1 (added.2 && valid)%bool supplied'
  end.
(* Array.from(new Set(values)): two objects are never the same value. *)
Definition primitive (v : json) : bool := match v with JArray _ | JObject _ => false | _ => true end.
Fixpoint unique_values (seen values : list json) : list json :=
  match values with
  | [] => []
  | v :: values' => if (primitive v && bool_decide (v ∈ seen))%bool then unique_values seen values' else v :: unique_values (v :: seen) values'
  end.
(* The checks on the receipt of a verified submission. *)
Definition receipt_blocker (snapshot : json) : throws (option SubmissionOutcomeRejectionReason) :=
  let record := prop "intake_record" (prop "result" snapshot) in
  let receipt := prop "vendor_receipt" snapshot in
  let outcome := prop "vendor_receipt_signature_outcome" snapshot in
  if is_undefined outcome then Ret (Some submission_outcome_receipt_invalid)
  else match Receipts.state (verifyVendorReceiptRecordSync validateProtocolSchema receipt outcome) with
  | failed_verification => Ret (Some submission_outcome_receipt_invalid)
  | receipt_verified =>
      if existsb (λ name, differ (prop name receipt) (prop name record)) ["manifest_id"; "evidence_bundle_id"; "bundle_instance_id"; "submission_attempt_id"]
      then Ret (Some submission_outcome_receipt_mismatch)
      else if negb (match prop "occurred_at" snapshot with JString _ => true | _ => false end && isUtcRfc3339Timestamp (prop "occurred_at" snapshot))%bool
      then Ret (Some submission_outcome_occurred_before_receipt)
      else early ← precedes (prop "occurred_at" snapshot) (prop "receipt_timestamp" receipt);
           Ret (if early : bool then Some submission_outcome_occurred_before_receipt else None)
  end.
Definition outcome_of (snapshot : json) (identities : list json) (bundleInstanceId submissionAttemptId : json) (outcome_state : string)
    (more : list (string * json)) (next_path : string) : json :=
  jobj ([("protocol_version", jstr ACCEPTED_PROTOCOL_VERSION); ("submission_outcome_id", prop "submission_outcome_id" snapshot);
         ("review_id", prop "review_id" snapshot); ("bundle_instance_id", bundleInstanceId); ("submission_attempt_id", submissionAttemptId);
         ("occurred_at", prop "occurred_at" snapshot); ("submission_identities", JArray identities); ("outcome_state", jstr outcome_state)]
        ++ more ++ [("next_path", jstr next_path); ("customer_facing_summary", jstr (SUBMISSION_OUTCOME_SUMMARIES outcome_state))]).
Definition buildSubmissionOutcome (request : json) : throws (json + SubmissionOutcomeRejectionReason) :=
  match cloneSubmissionOutcomeRequest request with
  | None => Ret (inr submission_outcome_input_invalid)
  | Some snapshot =>
      let result := prop "result" snapshot in
      let record := prop "intake_record" result in
      let isVerified := has_string "verified_receipt_eligible" (prop "state" result) in
      let isAllowedFailure := one_of ["rejected_no_receipt"; "quarantined_no_receipt"] (prop "state" result) in
      if (negb isVerified && negb isAllowedFailure)%bool then Ret (inr submission_outcome_input_invalid)
      else if (isVerified && negb (isValidVerifiedIntakeRecord record))%bool then Ret (inr submission_outcome_input_invalid)
      else if (isVerified && negb (isRecord (prop "vendor_receipt" snapshot)))%bool then Ret (inr submission_outcome_receipt_required)
      else
        blocked ← (if isVerified then receipt_blocker snapshot else Ret None);
        match blocked with
        | Some reason => Ret (inr reason)
        | None =>
            let bundleInstanceId := prop "bundle_instance_id" (if isVerified then record else snapshot) in
            let submissionAttemptId := prop "submission_attempt_id" (if isVerified then record else snapshot) in
            if negb (match bundleInstanceId, submissionAttemptId with JString _, JString _ => true | _, _ => false end)
            then Ret (inr submission_outcome_input_invalid)
            else
              let affected := prop "affected_identity" result in
              added ← add_identities [] true
                ((if isVerified then [("manifest_id", prop "manifest_id" record); ("evidence_bundle_id", prop "evidence_bundle_id" record)]
                  else [("manifest_id", prop "manifest_id" affected); ("evidence_bundle_id", prop "evidence_bundle_id" affected);
                        ("review_request_id", prop "review_request_id" affected)])
                 ++ [("bundle_instance_id", bundleInstanceId); ("submission_attempt_id", submissionAttemptId)]);
              if negb added.2 then Ret (inr submission_outcome_input_invalid)
              else match added.1 with
              | [] => Throw "expected non-empty protocol array after validation"
              | identities =>
                  let emit := outcome_of snapshot identities bundleInstanceId submissionAttemptId in
                  let checked outcome :=
                    Ret (if negb (is_nil (validateProtocolSchema "urn:codeattest:protocol:v0:submission-outcome" outcome))
                         then inr submission_outcome_schema_invalid else inl outcome) in
                  if isVerified then
                    checked (emit "received_with_receipt" [("vendor_receipt_ref", prop "vendor_receipt_id" (prop "vendor_receipt" snapshot))] "verify_receipt")
                  else
                    let codes := unique_values [] (match prop "reason_codes" result with JArray l => l | _ => [] end) in
                    if is_nil codes then Ret (inr submission_outcome_input_invalid)
                    else checked (emit (if has_string "rejected_no_receipt" (prop "state" result) then "rejected_no_receipt" else "quarantined_no_receipt")
                                       [("failure_reason_codes", JArray codes)] (nextPathForFailure result))
              end
        end
  end.
End receipt.

(** * Receipts of verified submissions *)

Lemma count_rows names counts : ∀ seen sum,
  Forall (λ name, one_of Receipts.ARTIFACT_COUNT_CATEGORIES (jstr name) = true) names → Forall (λ n, 0 ≤ n) counts → length names = length counts →
  NoDup (List.map jstr names) → (∀ v, v ∈ List.map jstr names → v ∉ seen) →
  count_categories seen sum (zip_with (λ name n, jobj [("category", jstr name); ("count", JNumber n)]) names counts) =
    Some (rev (List.map jstr names) ++ seen, sum + foldr Z.add 0 counts).
Proof.
  revert counts. induction names as [|name names IH]; intros [|n counts] seen sum Hn Hc Hl Hnd Hfresh; try done; [by rewrite Z.add_0_r|].
  apply Forall_cons in Hn as [Hone Hn]. apply Forall_cons in Hc as [H0 Hc]. cbn [List.map] in Hnd, Hfresh. apply NoDup_cons in Hnd as [Hname Hnd].
  cbn [zip_with count_categories]. rewrite !prop_jobj. cbn [String.eqb Ascii.eqb Bool.eqb]. unfold jstr in Hone, Hfresh |- *. rewrite Hone.
  rewrite (proj2 (Z.ltb_ge n 0)) by done. rewrite bool_decide_false by (apply Hfresh, elem_of_cons; by left). cbn [negb orb].
  rewrite IH; [|done|done|by injection Hl|done|].
  - cbn [List.map rev foldr]. rewrite <- app_assoc. cbn [app]. f_equal. f_equal. lia.
  - intros v Hv [->|Hs]%elem_of_cons; [done|]. apply (Hfresh v); [|done]. apply elem_of_cons. by right.
Qed.
Lemma count_summary_ok counts : Forall (λ n, 0 ≤ n) counts → length counts = length ARTIFACT_COUNT_CATEGORIES → isArtifactCountSummary (count_summary counts) = true.
Proof.
  intros Hpos Hl. unfold isArtifactCountSummary, count_summary. rewrite !prop_jobj. cbn [String.eqb Ascii.eqb Bool.eqb].
  rewrite count_rows; [|by apply (bool_decide_unpack _)|done|done|by apply (bool_decide_unpack _)|by intros v _ Hv%elem_of_nil].
  rewrite app_nil_r, length_rev, length_map, Z.add_0_l, Z.eqb_refl, andb_true_r. rewrite (proj2 (Z.ltb_ge _ 0)); [by vm_compute|].
  clear -Hpos. induction Hpos; simpl; lia.
Qed.
Lemma derived_summary manifest summary : artifactCountSummaryFromOutboundManifest manifest = Some summary → isArtifactCountSummary summary = true.
Proof.
  unfold artifactCountSummaryFromOutboundManifest. destruct (prop _ manifest) as [| | | | | |entries|]; try done.
  destruct (mapM _ _) as [counts|] eqn:Em; [|done]. apply mapM_Some in Em. cbn [mbind option_bind]. destruct (Nat.eqb _ _); [|done]. intros Hs.
  assert (count_summary counts = summary) as <- by congruence. apply count_summary_ok; [|by rewrite (Forall2_length _ _ _ Em)].
  apply Forall_forall. intros n Hn. apply list_elem_of_lookup in Hn as [i Hi].
  destruct (Forall2_lookup_r _ _ _ _ _ Em Hi) as (name & _ & Hc). unfold category_count in Hc. destruct (List.find _ _); [|done].
  destruct (prop _ _) as [| | |m| | | |]; try done. destruct (Z.ltb_spec m 0); [done|]. by injection Hc as ->.
Qed.

Definition agreed_row (expected : string * json) : json := both expected.1 expected.2.
Lemma find_field (expected pre rest : list (string * json)) f v : expected = pre ++ (f, v) :: rest → NoDup expected.*1 →
  List.find (λ e, has_string e.1 (jstr f)) expected = Some (f, v).
Proof.
  intros -> Hnd. induction pre as [|[g w] pre IH]; cbn [app List.find fst].
  - by rewrite (proj2 (has_string_true f (jstr f)) eq_refl).
  - destruct (has_string g (jstr f)) eqn:Hg; [|apply IH; by apply NoDup_cons in Hnd as [_ Hnd]].
    apply has_string_true, jstr_inj in Hg as ->. apply NoDup_cons in Hnd as [Hfresh _]. destruct Hfresh.
    apply (list_elem_of_fmap_2 fst _ (g, v)), elem_of_app. right. apply elem_of_cons. by left.
Qed.
Lemma agreed_rows_match expected rest : ∀ pre, expected = pre ++ rest → NoDup expected.*1 →
  rows_match expected (rev (List.map jstr pre.*1)) (List.map agreed_row rest) = true.
Proof.
  induction rest as [|[f v] rest IH]; intros pre -> Hnd; cbn [List.map rows_match].
  - rewrite app_nil_r. by rewrite length_rev, length_map, length_fmap, Nat.eqb_refl.
  - unfold agreed_row at 1 2 3 4 5. unfold both, comparisonRow. cbn [fst snd]. rewrite !prop_jobj. cbn [String.eqb Ascii.eqb Bool.eqb].
    rewrite (find_field _ pre rest f v) by done. cbn [isRecord jobj andb]. rewrite (proj2 (has_string_true "matched" (jstr "matched")) eq_refl). rewrite !(bool_decide_true (v = v)) by done. cbn [andb].
    rewrite bool_decide_false; cbn [negb andb].
    + change (prop "field" (agreed_row (f, v))) with (jstr f). assert (jstr f :: rev (List.map jstr pre.*1) = rev (List.map jstr (pre ++ [(f, v)]).*1)) as ->; [|apply IH; [by rewrite <- app_assoc|done]].
      rewrite fmap_app. cbn [fmap list_fmap fst]. by rewrite List.map_app, rev_app_distr.
    + change (prop "field" (agreed_row (f, v))) with (jstr f). intros Hin%list_elem_of_In. apply (proj2 (in_rev _ _)), list_elem_of_In in Hin.
      apply list_elem_of_fmap in Hin as (g & Hg%jstr_inj & Hin). subst g.
      rewrite fmap_app in Hnd. apply NoDup_app in Hnd as (_ & Hd & _). apply (Hd f Hin). apply elem_of_cons. by left.
Qed.

Section receipt_theorems.
Context `{UnicodeText, Sha256, Canonicalize}.
Variable validateProtocolSchema : string → json → list ProtocolValidationError.
Local Abbreviation verify := (verifyIntakeSubmission validateProtocolSchema).
Local Abbreviation prepare := (prepareVendorReceipt validateProtocolSchema).

Ltac step H x E := match type of H with (?m ≫= _) = _ => destruct m as [x|] eqn:E; [cbn [mbind throws_bind] in H|done] end.

(* What went into a prepared receipt. *)
Record receipt_parts := {
  snapshot : VendorReceiptGenerationRequest; record : IntakeRecordProjection; keys : ValidatedReceiptSigning; summary : json; environment : json
}.
Definition submitted (d : receipt_parts) : IntakeVerificationRequest := intake_verification_request (snapshot d).
Definition stamped (d : receipt_parts) : json := receipt_timestamp (snapshot d).
Definition parts_of (request : option VendorReceiptGenerationRequest) (d : receipt_parts) : Prop :=
  cloneReceiptGenerationRequest request = Some (snapshot d) ∧ verify (Some (submitted d)) = Ret (verified_receipt_eligible (record d)) ∧
  (∃ preflight, validateReceiptPreflight (snapshot d) = Ret preflight ∧ issues preflight = [] ∧ validated_signing preflight = Some (keys d) ∧
     artifactCountSummary preflight = Some (summary d)) ∧
  environment d = jobj [("environment_profile", prop "environment_profile" (environment_evidence_gate (submitted d)));
                        ("evidence_boundary", prop "evidence_boundary" (environment_evidence_gate (submitted d)))].
Definition identity_input (d : receipt_parts) : json :=
  jobj (receipt_fields (record d) (keys d) (stamped d) (environment d) (summary d) (jobj (metadata_without_identity (keys d) (stamped d)))).
Definition prepared_of (d : receipt_parts) (id : string) : PreparedVendorReceipt := {|
  prepared_id := id; signing_input := receipt_signing_input id;
  unsigned_receipt := jobj (("vendor_receipt_id", jstr id) ::
    receipt_fields (record d) (keys d) (stamped d) (environment d) (summary d)
      (jobj (metadata_without_identity (keys d) (stamped d) ++ [("signed_identity", jstr id)])));
  comparison := buildComparison (record d) (summary d) |}.
Lemma prepared_inv request p : prepare request = Ret (inl p) →
  ∃ d s, parts_of request d ∧ canonicalizeJson (identity_input d) = Ret (Some s) ∧ p = prepared_of d (sha256Digest (utf8 s)).
Proof.
  unfold prepareVendorReceipt. destruct (cloneReceiptGenerationRequest request) as [snap|] eqn:Hsnap; [|done]. intros Hp.
  step Hp verified Hv. destruct verified as [rec|]; [|done]. step Hp preflight Hpre.
  destruct (issues preflight) eqn:Hi; [|done]. destruct (validated_signing preflight) as [k|] eqn:Hk; [|done].
  destruct (artifactCountSummary preflight) as [counts|] eqn:Hc; [|done]. step Hp profile Hprofile. step Hp digest Hid. apply Ret_inj in Hp as [= <-].
  apply member_ret in Hprofile as ->. unfold identityFromCanonicalObject in Hid. step Hid canonical Hcan. destruct canonical as [s|]; [|done].
  apply Ret_inj in Hid as <-.
  exists {| snapshot := snap; record := rec; keys := k; summary := counts;
    environment := jobj [("environment_profile", prop "environment_profile" (environment_evidence_gate (intake_verification_request snap)));
                         ("evidence_boundary", prop "evidence_boundary" (environment_evidence_gate (intake_verification_request snap)))] |}, s.
  split_and!; [|done|done]. unfold parts_of, submitted. cbn [snapshot record keys summary environment]. split_and!; try done. by exists preflight.
Qed.
(* The verifier hashes exactly what the producer hashed, whatever the signature. *)
Lemma identity_input_recovered d id signature : receipt_identity_input (signed_receipt (prepared_of d id) signature) = identity_input d.
Proof. unfold identity_input, prepared_of, signed_receipt, receipt_fields. cbn [unsigned_receipt]. by vm_compute. Qed.

(** ** What the preflight settles *)

Lemma precedes_any_false timestamp prerequisites : precedes_any timestamp prerequisites = Ret false →
  ∀ m, m ∈ prerequisites → ∃ v order, m = Ret v ∧ compareTimestamps timestamp v = Ret order ∧ 0 ≤ order.
Proof.
  induction prerequisites as [|prerequisite prerequisites IH]; [by intros _ v Hv%elem_of_nil|]. cbn [precedes_any]. intros Hp m Hm.
  step Hp w Ew. unfold precedes in Hp.
  destruct (compareTimestamps timestamp w) as [order|] eqn:Eo; [|done]. cbn [mbind throws_bind] in Hp. destruct (Z.ltb_spec order 0); [done|].
  apply elem_of_cons in Hm as [->|Hm]; [|by apply IH]. by exists w, order.
Qed.
(* The three instants a receipt may not precede. *)
Definition prerequisites_of (r : IntakeVerificationRequest) : list json :=
  [prop "generated_at" (approved_outbound_manifest r); prop "decided_at" (customer_approval r); prop "created_at" (submitted_bundle_manifest r)].
Lemma preflight_bound q preflight : validateReceiptPreflight q = Ret preflight → issues preflight = [] →
  (∀ v, v ∈ prerequisites_of (intake_verification_request q) → ∃ order, compareTimestamps (receipt_timestamp q) v = Ret order ∧ 0 ≤ order) ∧
  artifactCountSummary preflight = artifactCountSummaryFromOutboundManifest (approved_outbound_manifest (intake_verification_request q)).
Proof.
  unfold validateReceiptPreflight. destruct (validateReceiptSigning (signing q)) as [signing_issues signing_keys]. cbv zeta. intros Hp Hi.
  step Hp timing Et. step Hp counts Ec. apply Ret_inj in Hp as <-. cbn [issues artifactCountSummary] in *. split; [|done].
  apply dedupe_nil, app_nil in Hi as [_ Hi]. apply app_nil in Hi as [-> _].
  destruct (isUtcRfc3339Timestamp _); cbn [negb] in Et; [|done]. step Et early Ee. apply Ret_inj, issue_when_nil in Et as ->.
  pose proof (precedes_any_false _ _ Ee) as Hnone.
  assert (∀ name v (l : list (throws json)), member name v ∈ l → (∀ m, m ∈ l → ∃ w order, m = Ret w ∧ compareTimestamps (receipt_timestamp q) w = Ret order ∧ 0 ≤ order) →
    ∃ order, compareTimestamps (receipt_timestamp q) (prop name v) = Ret order ∧ 0 ≤ order) as Hmember.
  { intros name v l Hin Hall. destruct (Hall _ Hin) as (w & order & Hw%member_ret & Ho). subst w. by exists order. }
  intros v. unfold prerequisites_of. rewrite !elem_of_cons.
  intros [->|[->|[->|[]%elem_of_nil]]]; (eapply Hmember; [|exact Hnone]); rewrite !elem_of_cons; tauto.
Qed.

(** C16. A receipt is prepared only for a submission that was verified from a copy of the
    request itself: it names that submission's manifest, bundle and attempt, its time is not
    before the manifest, the approval or the bundle, the approved and the received counts are
    one complete summary, and its id is the digest of exactly what a verifier recomputes from
    the receipt, whatever signature is put on it. *)
Theorem prepared_receipt_is_bound request p : prepare request = Ret (inl p) →
  ∃ q rec, cloneReceiptGenerationRequest request = Some q ∧
    verify (Some (intake_verification_request q)) = Ret (verified_receipt_eligible rec) ∧
    let receipt := unsigned_receipt p in
    prop "vendor_receipt_id" receipt = jstr (prepared_id p) ∧
    prop "manifest_id" receipt = manifest_id rec ∧ prop "evidence_bundle_id" receipt = evidence_bundle_id rec ∧
    prop "bundle_instance_id" receipt = bundle_instance_id rec ∧ prop "submission_attempt_id" receipt = submission_attempt_id rec ∧
    prop "receipt_timestamp" receipt = receipt_timestamp q ∧
    (∀ v, v ∈ prerequisites_of (intake_verification_request q) → ∃ order, compareTimestamps (receipt_timestamp q) v = Ret order ∧ 0 ≤ order) ∧
    isArtifactCountSummary (prop "approved_artifact_count_summary" receipt) = true ∧
    prop "received_artifact_count_summary" receipt = prop "approved_artifact_count_summary" receipt ∧
    ∀ signature, ∃ s, canonicalizeJson (receipt_identity_input (signed_receipt p signature)) = Ret (Some s) ∧ prepared_id p = sha256Digest (utf8 s).
Proof.
  intros (d & s & (Hsnap & Hv & (preflight & Hpre & Hi & _ & Hcounts) & _) & Hcan & ->)%prepared_inv.
  apply preflight_bound in Hpre as [Hafter Hsummary]; [|done]. exists (snapshot d), (record d).
  cbv zeta. split; [done|]. split; [done|]. do 6 (split; [reflexivity|]). split; [done|]. split_and!; [|reflexivity|].
  - change (prop "approved_artifact_count_summary" (unsigned_receipt (prepared_of d (sha256Digest (utf8 s))))) with (summary d).
    apply (derived_summary (approved_outbound_manifest (intake_verification_request (snapshot d)))). congruence.
  - intros signature. exists s. split; [|done]. by rewrite <- (identity_input_recovered d (sha256Digest (utf8 s)) signature) in Hcan.
Qed.
(** A completed receipt is the prepared one with the given signature, the schema accepts
    it, the shared verifier verifies it with the same outcome, and the signature names the
    prepared id and signs at the receipt's own time. *)
Theorem completed_receipt_verifies p signature outcome res :
  completeVendorReceipt validateProtocolSchema p signature outcome = Ret (inl res) →
  minted_receipt res = signed_receipt p signature ∧ receipt_signature res = signature ∧
  validateProtocolSchema "urn:codeattest:protocol:v0:vendor-receipt" (minted_receipt res) = [] ∧
  Receipts.state (verifyVendorReceiptRecordSync validateProtocolSchema (minted_receipt res) outcome) = receipt_verified ∧
  prop "signed_identity" signature = jstr (prepared_id p) ∧ prop "signed_identity_type" signature = jstr "vendor_receipt" ∧
  prop "signing_time" signature = prop "receipt_timestamp" (unsigned_receipt p).
Proof.
  unfold completeVendorReceipt. intros Hc. step Hc named Ei. apply member_ret in Ei as ->.
  destruct (negb _ || negb _)%bool eqn:E1 in Hc; [done|]. step Hc key Ek. destruct (_ || differ (prop "signing_time" _) _)%bool eqn:E2 in Hc; [done|].
  destruct (validateProtocolSchema _ _) eqn:Es; [|done]. cbn [is_nil negb] in Hc. destruct (Receipts.state _) eqn:Ev; [|done].
  step Hc shown Esum. apply Ret_inj in Hc as [= <-]. cbn [minted_receipt receipt_signature].
  apply orb_false_iff in E1 as [Hid%negb_false_iff%has_string_true Hty%negb_false_iff%has_string_true].
  apply orb_false_iff in E2 as [_ Htime%differ_false]. done.
Qed.

(** ** An honest signer completes *)

(* An envelope over what was prepared, with the prepared key, time and limitations. *)
Definition honest_envelope (p : PreparedVendorReceipt) (signature : json) : Prop :=
  let metadata := prop "public_verification_metadata" (unsigned_receipt p) in
  isRecord signature = true ∧ prop "signed_identity" signature = jstr (prepared_id p) ∧ prop "signed_identity_type" signature = jstr "vendor_receipt" ∧
  prop "canonicalization" signature = jstr "rfc8785" ∧ prop "signing_time" signature = prop "receipt_timestamp" (unsigned_receipt p) ∧
  same_field "key_id" signature metadata ∧ same_field "key_version" signature metadata ∧ same_field "signing_mode" signature metadata ∧
  same_field "algorithm_profile" signature metadata ∧ same_field "signing_limitations" signature metadata.
(* The parts of the receipt that are compared have protocol texts, and its policy summary is
   of its policy. *)
Definition has_protocol_text (v : json) : Prop := ∃ s, canonicalizeProtocolJson v = Ret s.
Definition protocol_receipt (p : PreparedVendorReceipt) : Prop :=
  let receipt := unsigned_receipt p in let policy := prop "disclosure_policy_summary" receipt in
  (∀ signature, has_protocol_text (receipt_identity_input (signed_receipt p signature))) ∧
  has_protocol_text (prop "signing_limitations" (prop "public_verification_metadata" receipt)) ∧
  has_protocol_text (prop "received_artifact_count_summary" receipt) ∧
  isRecord (prop "selected_commit" receipt) = true ∧ isRecord policy = true ∧
  same_field "disclosure_policy_ref" receipt policy ∧ same_field "coverage_mode" receipt policy.
Lemma same_protocol_text v : has_protocol_text v → sameCanonicalJson v v = true.
Proof. intros [s Hs]. unfold sameCanonicalJson. rewrite Hs. by apply bool_decide_eq_true. Qed.
Lemma has_string_refl name : has_string name (jstr name) = true.
Proof. by apply has_string_true. Qed.
Lemma differ_refl v : differ v v = false.
Proof. by apply differ_false. Qed.
(* The rows that were built are the rows the verifier expects. *)
Lemma built_rows_match d identity signature : let receipt := signed_receipt (prepared_of d identity) signature in
  isRecord (selected_commit (record d)) = true → isRecord (disclosure_policy_summary (record d)) = true →
  disclosure_policy_ref (record d) = prop "disclosure_policy_ref" (disclosure_policy_summary (record d)) →
  coverage_mode (record d) = prop "coverage_mode" (disclosure_policy_summary (record d)) →
  comparisonRowsMatchReceipt receipt = true.
Proof.
  intros receipt Hcommit Hpolicy Href Hmode. unfold comparisonRowsMatchReceipt.
  assert (prop "rows" (prop "approved_vs_received_comparison" receipt) = JArray (List.map agreed_row (expected_rows receipt))) as -> by reflexivity.
  change (prop "selected_commit" receipt) with (selected_commit (record d)).
  change (prop "disclosure_policy_summary" receipt) with (disclosure_policy_summary (record d)).
  change (prop "disclosure_policy_ref" receipt) with (disclosure_policy_ref (record d)).
  change (prop "coverage_mode" receipt) with (coverage_mode (record d)).
  rewrite Hcommit, Hpolicy, !bool_decide_true by done. cbn [andb]. rewrite length_map, Nat.eqb_refl. cbn [andb].
  apply (agreed_rows_match _ _ []); [done|]. by apply (bool_decide_unpack _).
Qed.
Lemma honest_issues d signature outcome s : canonicalizeJson (identity_input d) = Ret (Some s) →
  isArtifactCountSummary (summary d) = true →
  let p := prepared_of d (sha256Digest (utf8 s)) in
  honest_envelope p signature → protocol_receipt p → signatureTrusted signature (jstr (prepared_id p)) outcome = true →
  receipt_issues (signed_receipt p signature) outcome = [].
Proof.
  intros Hcan Hcounts p (Hrec & Hid & Hty & Hcn & Htime & Hkey & Hversion & Hmode & Hprofile & Hlimits) (Htext & Hlimtext & Hsumtext & Hcommit & Hpolicy & Href & Hcov) Htrust.
  assert (computeVendorReceiptIdentity (signed_receipt p signature) = Ret (sha256Digest (utf8 s))) as Hcompute.
  { destruct (Htext signature) as [t Ht]. unfold computeVendorReceiptIdentity, computeCanonicalSha256Id. rewrite Ht.
    unfold p in Ht. rewrite identity_input_recovered in Ht. apply canonicalizeJson_rfc8785 in Ht. rewrite Ht in Hcan. apply Ret_inj in Hcan as [= ->]. done. }
  assert (comparisonRowsMatchReceipt (signed_receipt p signature) = true) as Hrows by (by apply built_rows_match).
  unfold receipt_issues. rewrite Hrows. set (receipt := signed_receipt p signature) in *.
  change (prop "receipt_signature" receipt) with signature.
  change (prop "vendor_receipt_id" receipt) with (jstr (prepared_id p)).
  change (prop "verification_state" receipt) with (jstr "received_with_receipt").
  change (prop "public_verification_metadata" receipt) with (prop "public_verification_metadata" (unsigned_receipt p)).
  change (prop "receipt_timestamp" receipt) with (prop "receipt_timestamp" (unsigned_receipt p)).
  change (prop "approved_artifact_count_summary" receipt) with (summary d). change (prop "received_artifact_count_summary" receipt) with (summary d).
  unfold same_field in *. unfold has_text. rewrite Hid, Hty, Hcn, Htime, Hkey, Hversion, Hmode, Hlimits, Htrust, Hcounts, !same_protocol_text by done.
  set (metadata := prop "public_verification_metadata" (unsigned_receipt p)). set (rotation := prop "key_rotation_readiness" receipt).
  change (prop "signed_identity_type" metadata) with (jstr "vendor_receipt"). change (prop "signed_identity" metadata) with (jstr (prepared_id p)).
  change (prop "canonicalization" metadata) with (jstr "rfc8785"). change (prop "signing_time" metadata) with (prop "receipt_timestamp" (unsigned_receipt p)).
  change (prop "historical_key_id" rotation) with (prop "key_id" metadata). change (prop "historical_key_version" rotation) with (prop "key_version" metadata).
  rewrite !has_string_refl, Hcompute, has_string_refl, !bool_decide_true by done. done.
Qed.
(** C18. Preparing, signing honestly and verifying ends in a receipt: completing a prepared
    receipt returns the signed receipt when five things hold. The envelope is over the
    prepared identity, with the key, the algorithm, the mode, the time and the limitations
    that were prepared. The signature outcome is trusted for it. The signed receipt is valid
    for its schema. Its identity input (whatever the envelope), its signing limitations and
    its count summary have protocol texts, and its selected commit and its policy summary are
    records. Its policy reference and its coverage mode are those of its policy summary, which
    the verifier checks and preparing takes from the intake record as they are. *)
Theorem honest_signature_completes request p signature outcome : prepare request = Ret (inl p) →
  honest_envelope p signature → protocol_receipt p → signatureTrusted signature (jstr (prepared_id p)) outcome = true →
  validateProtocolSchema "urn:codeattest:protocol:v0:vendor-receipt" (signed_receipt p signature) = [] →
  ∃ res, completeVendorReceipt validateProtocolSchema p signature outcome = Ret (inl res) ∧ minted_receipt res = signed_receipt p signature.
Proof.
  intros (d & s & (_ & _ & (preflight & Hpre & Hi & _ & Hcounts) & _) & Hcan & Hp)%prepared_inv Henvelope Hprotocol Htrust Hschema.
  apply preflight_bound in Hpre as [_ Hsummary]; [|done].
  assert (isArtifactCountSummary (summary d) = true) as Hsum by (rewrite Hsummary in Hcounts; by apply derived_summary in Hcounts).
  subst p. pose proof (honest_issues _ _ _ _ Hcan Hsum Henvelope Hprotocol Htrust) as Hissues.
  destruct Henvelope as (Hrec & Hid & Hty & Hcn & Htime & Hkey & Hversion & Hmode & Hprofile & Hlimits).
  destruct Hprotocol as (_ & _ & _ & Hcommit & _). set (p := prepared_of d (sha256Digest (utf8 s))) in *.
  assert (∀ name, member name signature = Ret (prop name signature)) as Hmember by (by destruct signature).
  unfold completeVendorReceipt. rewrite Hmember. cbn [mbind throws_bind]. rewrite Hid, Hty, !has_string_refl. cbn [negb orb].
  change (member "key_id" (prop "public_verification_metadata" (unsigned_receipt p)))
    with (Ret (prop "key_id" (prop "public_verification_metadata" (unsigned_receipt p)))). cbn [mbind throws_bind].
  unfold same_field in *. rewrite Hkey, Hversion, Hmode, Hprofile, Htime, !differ_refl. cbn [orb]. rewrite Hschema. cbn [is_nil negb].
  assert (verifyVendorReceiptRecordSync validateProtocolSchema (signed_receipt p signature) outcome =
    {| Receipts.state := receipt_verified; Receipts.reason_codes := [] |}) as Hverified.
  { unfold verifyVendorReceiptRecordSync. rewrite Hschema, Hissues. change (prop "receipt_signature" (signed_receipt p signature)) with signature.
    by rewrite Hrec. }
  rewrite Hverified. cbn [Receipts.state]. unfold buildReceiptSummary.
  change (member "receipt_signature" (signed_receipt p signature)) with (Ret signature). cbn [mbind throws_bind]. rewrite Hmember. cbn [mbind throws_bind path].
  change (member "selected_commit" (signed_receipt p signature)) with (Ret (selected_commit (record d))). cbn [mbind throws_bind].
  change (isRecord (selected_commit (record d)) = true) in Hcommit.
  assert (member "commit_sha" (selected_commit (record d)) = Ret (prop "commit_sha" (selected_commit (record d)))) as -> by (by destruct (selected_commit (record d))).
  cbn [mbind throws_bind]. by eexists.
Qed.

(** * Outcomes *)

Lemma unique_values_spec values : ∀ seen v, v ∈ unique_values seen values → v ∈ values.
Proof.
  induction values as [|w values IH]; intros seen v; cbn [unique_values]; [done|]. case_match; [intros Hv%IH; apply elem_of_cons; by right|].
  intros [->|Hv%IH]%elem_of_cons; apply elem_of_cons; [by left|by right].
Qed.
Lemma unique_values_complete values : ∀ seen v, v ∈ values → v ∈ unique_values seen values ∨ v ∈ seen.
Proof.
  induction values as [|w values IH]; intros seen v; [by intros Hv%elem_of_nil|]. cbn [unique_values]. case_match eqn:Hc.
  - apply andb_true_iff in Hc as [_ Hc%bool_decide_eq_true]. intros [->|Hv]%elem_of_cons; [by right|by apply IH].
  - intros [->|Hv]%elem_of_cons; [left; apply elem_of_cons; by left|]. destruct (IH (w :: seen) v Hv) as [Hin|[->|Hin]%elem_of_cons].
    + left. apply elem_of_cons. by right.
    + left. apply elem_of_cons. by left.
    + by right.
Qed.
Lemma receipt_unblocked snapshot : receipt_blocker validateProtocolSchema snapshot = Ret None →
  let record := prop "intake_record" (prop "result" snapshot) in let receipt := prop "vendor_receipt" snapshot in
  Receipts.state (verifyVendorReceiptRecordSync validateProtocolSchema receipt (prop "vendor_receipt_signature_outcome" snapshot)) = receipt_verified ∧
  (∀ name, name ∈ ["manifest_id"; "evidence_bundle_id"; "bundle_instance_id"; "submission_attempt_id"] → same_field name receipt record) ∧
  ∃ order, compareTimestamps (prop "occurred_at" snapshot) (prop "receipt_timestamp" receipt) = Ret order ∧ 0 ≤ order.
Proof.
  unfold receipt_blocker. destruct (is_undefined _); [done|]. destruct (Receipts.state _) eqn:Ev; [|done]. intros Hb. cbv zeta.
  destruct (existsb _ _) eqn:Ex; [done|]. destruct (negb _) in Hb; [done|]. step Hb early Ee. destruct early; [done|]. unfold precedes in Ee.
  step Ee sign Eo. apply Ret_inj, Z.ltb_ge in Ee. split_and!; [done| |by exists sign]. intros name Hname.
  destruct (differ (prop name (prop "vendor_receipt" snapshot)) (prop name (prop "intake_record" (prop "result" snapshot)))) eqn:Ed; [|by apply differ_false].
  apply not_true_iff_false in Ex. destruct Ex. apply existsb_exists. exists name. split; [by apply list_elem_of_In|done].
Qed.
(* What an outcome may say of a failed submission. *)
Definition failure_outcome (result outcome : json) : Prop :=
  ∃ failed_as codes, failed_as ∈ ["rejected_no_receipt"; "quarantined_no_receipt"] ∧ prop "state" result = jstr failed_as ∧
    prop "outcome_state" outcome = jstr failed_as ∧ prop "vendor_receipt_ref" outcome = JForeign ∧
    prop "next_path" outcome = jstr (nextPathForFailure result) ∧
    prop "failure_reason_codes" outcome = JArray codes ∧ codes ≠ [] ∧ ∃ given, prop "reason_codes" result = JArray given ∧ ∀ v, v ∈ codes ↔ v ∈ given.
Definition received_outcome (snapshot outcome : json) : Prop :=
  let result := prop "result" snapshot in let record := prop "intake_record" result in let receipt := prop "vendor_receipt" snapshot in
  prop "state" result = jstr "verified_receipt_eligible" ∧ prop "outcome_state" outcome = jstr "received_with_receipt" ∧
  prop "failure_reason_codes" outcome = JForeign ∧ prop "vendor_receipt_ref" outcome = prop "vendor_receipt_id" receipt ∧
  Receipts.state (verifyVendorReceiptRecordSync validateProtocolSchema receipt (prop "vendor_receipt_signature_outcome" snapshot)) = receipt_verified ∧
  (∀ name, name ∈ ["manifest_id"; "evidence_bundle_id"; "bundle_instance_id"; "submission_attempt_id"] → same_field name receipt record) ∧
  ∃ order, compareTimestamps (prop "occurred_at" outcome) (prop "receipt_timestamp" receipt) = Ret order ∧ 0 ≤ order.

(** C17. Every outcome is accepted by its schema, and its state is earned: it says that a
    submission was received only for a verified result whose own receipt was verified, carries
    the same four identities and is not later than the outcome; a rejected or quarantined
    result keeps its state, gives its reasons, all of them and at least one, and names no
    receipt. *)
Theorem outcome_state_is_earned request outcome : buildSubmissionOutcome validateProtocolSchema request = Ret (inl outcome) →
  validateProtocolSchema "urn:codeattest:protocol:v0:submission-outcome" outcome = [] ∧
  ∃ snapshot, cloneSubmissionOutcomeRequest request = Some snapshot ∧
    (received_outcome snapshot outcome ∨ failure_outcome (prop "result" snapshot) outcome).
Proof.
  unfold buildSubmissionOutcome. destruct (cloneSubmissionOutcomeRequest request) as [snap|]; [|done]. cbv zeta. intros Hb.
  destruct (negb _ && _)%bool eqn:E1 in Hb; [done|]. destruct (_ && negb (isValidVerifiedIntakeRecord _))%bool in Hb; [done|].
  destruct (_ && negb (isRecord _))%bool in Hb; [done|]. step Hb blocked Eb. destruct blocked; [done|].
  destruct (negb _) in Hb; [done|]. step Hb added Ea. destruct (negb _) in Hb; [done|]. destruct (added.1) as [|row rows]; [done|].
  destruct (has_string "verified_receipt_eligible" _) eqn:Ev.
  - apply Ret_inj in Hb. destruct (validateProtocolSchema _ _) eqn:Es in Hb; [|done]. injection Hb as <-. split; [done|]. exists snap. split; [done|].
    left. apply receipt_unblocked in Eb as (Hr & Hsame & Horder). apply has_string_true in Ev. unfold received_outcome. cbv zeta.
    unfold outcome_of. cbn [app]. rewrite !prop_jobj. cbn [String.eqb Ascii.eqb Bool.eqb]. split_and!; done.
  - destruct (is_nil _) eqn:En; [done|]. apply Ret_inj in Hb. destruct (validateProtocolSchema _ _) eqn:Es in Hb; [|done]. injection Hb as <-.
    split; [done|]. exists snap. split; [done|]. right. cbn [negb andb] in E1. apply negb_false_iff in E1.
    destruct (prop "reason_codes" (prop "result" snap)) as [| | | | | |given|] eqn:Eg; try done.
    unfold failure_outcome, outcome_of. cbn [app]. rewrite !prop_jobj. cbn [String.eqb Ascii.eqb Bool.eqb].
    exists (if has_string "rejected_no_receipt" (prop "state" (prop "result" snap)) then "rejected_no_receipt" else "quarantined_no_receipt"), (unique_values [] given).
    apply one_of_true in E1 as (name & Hname & Hstate). rewrite Hstate in *. rewrite Eg. split_and!; try done.
    + case_match; rewrite !elem_of_cons; tauto.
    + rewrite !elem_of_cons in Hname. by destruct Hname as [->|[->|[]%elem_of_nil]].
    + by destruct (unique_values [] given).
    + exists given. split; [done|]. intros v. split; [apply unique_values_spec|]. intros Hv. by destruct (unique_values_complete given [] v Hv) as [|[]%elem_of_nil].
Qed.
End receipt_theorems.

(** * The receipt of the fixture submission *)

Module ReceiptSamples.
Import SampleHash SampleText Fixture IntakeSamples.
Definition limitations : json := jtexts
  ["Key custody is self-hosted software custody in a non-validated cryptographic module, not a hardware security module.";
   "A valid signature shows which deployment key produced this artifact and says nothing about the completeness or quality of any review."].
Definition signing_keys : json := jobj
  [("key_id", jstr "codeattest-vendor-receipt-test-key"); ("key_version", jstr "v1"); ("signing_mode", jstr "managed_key");
   ("canonicalization", jstr "rfc8785"); ("public_key_reference", jstr "fixture:vendor-receipt-managed-key-public-key");
   ("signing_limitations", limitations)].
Definition generation (timestamp : string) : VendorReceiptGenerationRequest := {|
  intake_verification_request := IntakeSamples.request; receipt_timestamp := jstr timestamp; signing := signing_keys;
  approved_artifact_count_summary := JForeign; received_artifact_count_summary := JForeign |}.
Definition prepared : { p | prepareVendorReceipt errors (Some (generation "2026-07-10T00:20:00Z")) = Ret (inl p) }.
Proof. eexists. vm_compute. reflexivity. Defined.
Definition prepared_receipt : PreparedVendorReceipt := proj1_sig prepared.
Definition receipt_envelope : json := jobj
  [("protocol_version", jstr "codeattest.v0"); ("algorithm_profile", jstr "ml_dsa_65"); ("key_id", prop "key_id" signing_keys);
   ("key_version", prop "key_version" signing_keys); ("signing_time", jstr "2026-07-10T00:20:00Z"); ("signed_identity_type", jstr "vendor_receipt");
   ("signed_identity", jstr (prepared_id prepared_receipt)); ("canonicalization", jstr "rfc8785"); ("signing_mode", jstr "managed_key");
   ("signing_limitations", limitations); ("signature_bytes", JString (js "ml_dsa_65:" ++ replicate 4412 65))].
Definition receipt_outcome : json := jobj
  [("protocol_version", jstr "codeattest.v0"); ("signed_identity_type", jstr "vendor_receipt"); ("signed_identity", jstr (prepared_id prepared_receipt));
   ("algorithm_profile", jstr "ml_dsa_65"); ("key_id", prop "key_id" signing_keys); ("key_version", prop "key_version" signing_keys);
   ("key_directory_version", jnum 1); ("verified_at", jstr "2026-08-16T00:00:00Z"); ("result", jstr "verified")].
Definition completed : { res | completeVendorReceipt errors prepared_receipt receipt_envelope receipt_outcome = Ret (inl res) }.
Proof. eexists. vm_compute. reflexivity. Defined.
Definition receipt_of_sample : json := signed_receipt prepared_receipt receipt_envelope.
Definition outcome_request (result : json) (occurred_at : string) : json := jobj
  [("result", result); ("review_id", jstr "review:synthetic-demo-001"); ("submission_outcome_id", jstr "submission_outcome:synthetic-demo-001");
   ("occurred_at", jstr occurred_at); ("bundle_instance_id", prop "bundle_instance_id" bundle);
   ("submission_attempt_id", prop "submission_attempt_id" bundle);
   ("vendor_receipt", receipt_of_sample); ("vendor_receipt_signature_outcome", receipt_outcome)].
Definition verified_result (manifest : json) : json := jobj
  [("state", jstr "verified_receipt_eligible"); ("reason_codes", jarr []);
   ("intake_record", jobj [("manifest_id", manifest); ("evidence_bundle_id", bundle_identity);
      ("bundle_instance_id", prop "bundle_instance_id" bundle); ("submission_attempt_id", prop "submission_attempt_id" bundle)])].
Definition received : { outcome | buildSubmissionOutcome errors (outcome_request (verified_result manifest_identity) "2026-07-10T00:20:00.5Z") = Ret (inl outcome) }.
Proof. eexists. vm_compute. reflexivity. Defined.
(* Another submission's receipt, and an outcome older than the receipt. *)
Example spliced_refused :
  buildSubmissionOutcome errors (outcome_request (verified_result scope_identity) "2026-07-10T00:20:00.5Z") = Ret (inr submission_outcome_receipt_mismatch) ∧
  buildSubmissionOutcome errors (outcome_request (verified_result manifest_identity) "2026-07-10T00:19:59Z") = Ret (inr submission_outcome_occurred_before_receipt).
Proof. by vm_compute. Qed.

Lemma prepared_receipt_is_bound_witness :
  prop "received_artifact_count_summary" (unsigned_receipt prepared_receipt) = prop "approved_artifact_count_summary" (unsigned_receipt prepared_receipt).
Proof.
  destruct (prepared_receipt_is_bound errors (Some (generation "2026-07-10T00:20:00Z")) prepared_receipt (proj2_sig prepared))
    as (q & rec & _ & _ & _ & _ & _ & _ & _ & _ & _ & _ & Hsame & _). exact Hsame.
Defined.
Lemma completed_receipt_verifies_witness : Receipts.state (verifyVendorReceiptRecordSync errors (minted_receipt (proj1_sig completed)) receipt_outcome) = receipt_verified.
Proof.
  destruct (completed_receipt_verifies errors prepared_receipt receipt_envelope receipt_outcome (proj1_sig completed) (proj2_sig completed))
    as (_ & _ & _ & Hv & _). exact Hv.
Defined.
Lemma honest_signature_completes_witness : ∃ res, completeVendorReceipt errors prepared_receipt receipt_envelope receipt_outcome = Ret (inl res) ∧
  minted_receipt res = receipt_of_sample.
Proof.
  apply (honest_signature_completes errors (Some (generation "2026-07-10T00:20:00Z")) prepared_receipt receipt_envelope receipt_outcome (proj2_sig prepared)).
  - split_and!; by vm_compute.
  - split_and!; try by vm_compute. all: try (intros signature; eexists; vm_compute; reflexivity). all: eexists; vm_compute; reflexivity.
  - by vm_compute.
  - by vm_compute.
Defined.
Lemma outcome_state_is_earned_witness : errors "urn:codeattest:protocol:v0:submission-outcome" (proj1_sig received) = [].
Proof.
  destruct (outcome_state_is_earned errors (outcome_request (verified_result manifest_identity) "2026-07-10T00:20:00.5Z") (proj1_sig received) (proj2_sig received))
    as [Hv _]. exact Hv.
Defined.
End ReceiptSamples.
