(* ===== verification/StaticPackage.v ===== *)
(** The manifest of a static bundle and the projection of its portal: the rules of
    packages/protocol-ts/src/epic-5-semantics.ts, beside those of
    scripts/lib/protocol-utils.mjs that they were taken from. A manifest and a portal are
    read as the generated types describe them. *)

From Stdlib Require Import String.
From S2P Require Import Prelude Patterns Bytes Json JsonText Regex CanonicalJson Timestamps Schema Registry Values ClaimSafety Intake.

Import Regexp.
Local Open Scope Z_scope.

Inductive StaticBundleManifestSemanticIssue :=
  | static_bundle_identity_excludes_invalid
  | static_bundle_manifest_identity_mismatch
  | static_bundle_finalization_version_invalid
  | static_bundle_duplicate_file
  | static_bundle_required_files_missing
  | static_bundle_reference_unresolved
  | static_bundle_signing_attachment_circular
  | static_bundle_minimization_coverage_invalid
  | static_bundle_internal_learning_forbidden
  | static_bundle_text_forbidden.
Inductive StaticPortalProjectionSemanticIssue :=
  | static_portal_navigation_incomplete
  | static_portal_document_incomplete
  | static_portal_internal_learning_forbidden
  | static_portal_remote_dependency_forbidden
  | static_portal_text_forbidden.

Definition INTERNAL_LEARNING_PATTERN : regex := re "(?:pilot[-_. ]?(?:metric|feedback)|internal[-_. ]?learning)".
Definition REQUIRED_FILE_ROLES : list string := ["attestation"; "vendor_receipt"; "evidence_bundle_representation"; "portal"].
Definition REQUIRED_PORTAL_SECTIONS : list string :=
  ["overview"; "scope"; "receipt_chain"; "methods"; "findings"; "validation_remediation"; "limitations"; "appendices"].
Definition STATIC_BUNDLE_REQUIRED_PATH_ROLES : list (string * string) :=
  [("attestation.json", "attestation"); ("vendor-receipt.json", "vendor_receipt");
   ("evidence-bundle-representation.json", "evidence_bundle_representation"); ("portal/index.html", "portal");
   ("portal/styles.css", "portal_asset"); ("portal/portal.js", "portal_asset")].

(* values.includes(v), values.filter((w) => w === v).length, new Set(values).size *)
Definition holds (values : list json) (v : json) : bool := existsb (λ w, w === v) values.
Definition times (v : json) (values : list json) : nat := length (List.filter (λ w, w === v) values).
Definition set_size (values : list json) : nat := length (dedupe_values [] values).
(* value < n on a value the types make a number *)
Definition below (n : Z) (v : json) : bool := match v with JNumber m => m <? n | _ => false end.
Definition internal_learning (s : jsstr) : bool := test_flags flags_iu INTERNAL_LEARNING_PATTERN s.

(** * The manifest *)

(* What both checks read of a manifest *)
Record BundleParts := {
  files : list json; (* manifest.files *)
  payload_refs : list json; (* every reference the representation needs resolved *)
  signing_refs : list json; (* the signature and its input *)
  included_refs : list json (* minimization_disposition.included_retained_refs *)
}.
Definition filePaths (p : BundleParts) : list json := List.map (prop "relative_path") (files p).
Definition fileRefs (p : BundleParts) : list json := List.map (prop "artifact_ref") (files p).
Definition roles (p : BundleParts) : list json := List.map (prop "artifact_role") (files p).
Definition representation_refs (representation : json) (retained : list json) : list json :=
  prop "bundle_manifest_ref" representation :: prop "signature_ref" representation :: prop "identity_ref" representation :: retained.
Definition metadata_refs (metadata : json) : list json := [prop "manifest_signature_ref" metadata; prop "signing_input_ref" metadata].

Definition finalization_invalid (manifest : json) : bool :=
  (has_string "finalized" (prop "package_state" manifest) &&
   (below 2 (prop "manifest_version" manifest) || negb (match prop "supersedes_static_bundle_manifest_id" manifest with JString _ => true | _ => false end) ||
    (prop "supersedes_static_bundle_manifest_id" manifest === prop "static_bundle_manifest_id" manifest)))%bool.
Definition duplicate_file (p : BundleParts) : bool :=
  (negb (Nat.eqb (set_size (filePaths p)) (length (filePaths p))) || negb (Nat.eqb (set_size (fileRefs p)) (length (fileRefs p))))%bool.
Definition coverage_invalid (p : BundleParts) : bool :=
  (negb (Nat.eqb (length (included_refs p)) (length (fileRefs p))) || negb (Nat.eqb (set_size (included_refs p)) (length (included_refs p))) ||
   existsb (λ ref, negb (holds (included_refs p) ref)) (fileRefs p) || existsb (λ ref, negb (holds (fileRefs p) ref)) (included_refs p))%bool.
(* `${file.relative_path} ${file.inclusion_reason}`; the script reads nothing for what is missing *)
Definition learning_file (reading : json → json) (file : json) : bool :=
  internal_learning (js_string (reading (prop "relative_path" file)) ++ 32 :: js_string (reading (prop "inclusion_reason" file))).

Section static_package.
Context `{UnicodeText, Sha256}.

Definition text_forbidden (v : json) : bool :=
  (bool_decide (is_Some (sourceTextForbiddenPhrase v)) || bool_decide (is_Some (customerVisibleTextForbidden v)))%bool.
Definition identity_mismatch (manifest : json) : bool :=
  match computeCanonicalSha256Id (without_field "static_bundle_manifest_id" manifest) with
  | Ret id => negb (has_string id (prop "static_bundle_manifest_id" manifest))
  | Throw _ => true
  end.
Definition read_manifest (manifest : json) : throws BundleParts :=
  let representation := prop "evidence_bundle_representation" manifest in
  let metadata := prop "verification_metadata" manifest in
  files ← js_elements (prop "files" manifest);
  paths ← map_throws (member "relative_path") files;
  bundle_ref ← member "bundle_manifest_ref" representation;
  retained ← js_elements (prop "retained_export_approved_payload_refs" representation);
  instructions ← member "verification_instructions_path" metadata;
  disposition ← member "included_retained_refs" (prop "minimization_disposition" manifest);
  included ← js_elements disposition;
  Ret {| files := files; payload_refs := representation_refs representation retained;
         signing_refs := metadata_refs metadata; included_refs := included |}.
Definition required_role_missing (p : BundleParts) : bool :=
  (existsb (λ role, negb (holds (roles p) (jstr role))) REQUIRED_FILE_ROLES ||
   (times (jstr "portal_asset") (roles p) <? 2)%nat)%bool.
Definition instructions_missing (manifest : json) : bool :=
  negb (has_string "VERIFY.txt" (prop "verification_instructions_path" (prop "verification_metadata" manifest))).
Definition required_path_missing (manifest : json) (p : BundleParts) : bool :=
  (negb (holds (filePaths p) (jstr "portal/index.html")) || negb (holds (filePaths p) (jstr "portal/styles.css")) ||
   negb (holds (filePaths p) (jstr "portal/portal.js")) || instructions_missing manifest)%bool.
Definition reference_unresolved (p : BundleParts) : bool :=
  existsb (λ ref, negb (Nat.eqb (times ref (fileRefs p)) 1)) (payload_refs p).
Definition signing_circular (p : BundleParts) : bool := existsb (holds (fileRefs p)) (signing_refs p).
Definition learning_ref (ref : json) : bool := internal_learning (js_string ref).

(* The rules but the last, which screens the files' reasons *)
Definition manifest_rule_issues (manifest : json) (excludes : list json) (p : BundleParts) : list StaticBundleManifestSemanticIssue :=
  issue_when (negb (excludes === [jstr "static_bundle_manifest_id"])) static_bundle_identity_excludes_invalid
  ++ issue_when (identity_mismatch manifest) static_bundle_manifest_identity_mismatch
  ++ issue_when (finalization_invalid manifest) static_bundle_finalization_version_invalid
  ++ issue_when (duplicate_file p) static_bundle_duplicate_file
  ++ issue_when (required_role_missing p) static_bundle_required_files_missing
  ++ issue_when (required_path_missing manifest p) static_bundle_required_files_missing
  ++ issue_when (reference_unresolved p) static_bundle_reference_unresolved
  ++ issue_when (signing_circular p) static_bundle_signing_attachment_circular
  ++ issue_when (coverage_invalid p) static_bundle_minimization_coverage_invalid
  ++ issue_when (existsb (learning_file id) (files p) || existsb learning_ref (included_refs p))%bool static_bundle_internal_learning_forbidden.
Definition staticBundleManifestSemanticIssues (manifest : json) : throws (list StaticBundleManifestSemanticIssue) :=
  identity_input_excludes ← member "identity_input_excludes" manifest;
  excludes ← js_elements identity_input_excludes;
  p ← read_manifest manifest;
  Ret (manifest_rule_issues manifest excludes p
    ++ issue_when (existsb (λ file, text_forbidden (prop "inclusion_reason" file)) (files p)) static_bundle_text_forbidden).

(** * The portal *)

(* values.some(f) where f may throw *)
Fixpoint some_throws {A} (f : A → throws bool) (values : list A) : throws bool :=
  match values with [] => Ret false | v :: values' => f v ≫= λ b : bool, if b then Ret true else some_throws f values' end.
Definition sections (entries : list json) : list json := List.map (prop "section_id") entries.
(* orders.some((order, index) => order !== index + 1) *)
Definition out_of_order (orders : list json) : bool :=
  existsb (λ '(order, index), negb (order === JNumber (index + 1))) (combine orders (seqZ 0 (Z.of_nat (length orders)))).
Definition section_missing (held : list json) : bool := existsb (λ section, negb (holds held (jstr section))) REQUIRED_PORTAL_SECTIONS.
Definition navigation_incomplete (navigation : list json) : bool :=
  let orders := List.map (prop "order") navigation in
  (negb (Nat.eqb (length navigation) 8) || negb (Nat.eqb (set_size (sections navigation)) 8) || section_missing (sections navigation) ||
   negb (Nat.eqb (set_size orders) 8) || out_of_order orders)%bool.
Definition resolves (entry document : json) : bool :=
  ((prop "section_id" document === prop "section_id" entry) && (prop "relative_path" document === prop "relative_path" entry))%bool.
Definition document_incomplete (navigation documents : list json) : bool :=
  (negb (Nat.eqb (length documents) 8) || negb (Nat.eqb (set_size (sections documents)) 8) || section_missing (sections documents) ||
   negb (Nat.eqb (set_size (List.map (prop "relative_path") documents)) (length documents)) ||
   existsb (λ entry, negb (existsb (resolves entry) documents)) navigation)%bool.
Definition learning_document (document : json) : throws bool :=
  refs ← js_elements (prop "source_artifact_refs" document); Ret (existsb learning_ref refs).
Definition asset_policy_open (policy : json) : bool :=
  (existsb (λ name, negb (prop name policy === JBool false))
     ["remote_assets_allowed"; "analytics_allowed"; "live_api_calls_allowed"; "runtime_authorization_required"] ||
   negb (prop "relative_links_only" policy === JBool true))%bool.
Definition document_text_forbidden (document : json) : bool :=
  existsb (λ name, text_forbidden (prop name document)) ["title"; "summary"; "phone_summary"].

Definition portal_rule_issues (portal : json) (navigation documents : list json) (learning : bool) : list StaticPortalProjectionSemanticIssue :=
  issue_when (navigation_incomplete navigation) static_portal_navigation_incomplete
  ++ issue_when (document_incomplete navigation documents) static_portal_document_incomplete
  ++ issue_when learning static_portal_internal_learning_forbidden
  ++ issue_when (asset_policy_open (prop "asset_policy" portal)) static_portal_remote_dependency_forbidden.
Definition staticPortalProjectionSemanticIssues (portal : json) : throws (list StaticPortalProjectionSemanticIssue) :=
  shown ← member "navigation" portal;
  navigation ← js_elements shown;
  entries ← map_throws (member "section_id") navigation;
  documents ← js_elements (prop "documents" portal);
  listed ← map_throws (member "section_id") documents;
  learning ← some_throws learning_document documents;
  policy ← member "remote_assets_allowed" (prop "asset_policy" portal);
  Ret (portal_rule_issues portal navigation documents learning
    ++ issue_when (existsb document_text_forbidden documents) static_portal_text_forbidden).

(** * The script's rules, up to its text screens *)

Context `{!Canonicalize}.
Definition canonicalize (value : json) : throws jsstr :=
  canonical ← canonicalizeJson value;
  match canonical with Some s => Ret s | None => Throw "Unsupported JSON value for RFC 8785 canonicalization" end.
Definition sha256IdFromCanonical (value : json) : throws string := s ← canonicalize value; Ret ("sha256:" +:+ sha256_hex (utf8 s))%string.
Definition isStaticBundleManifestLike (value : json) : bool :=
  (isRecord value && match prop "static_bundle_manifest_id" value with JString _ => true | _ => false end &&
   match prop "files" value with JArray _ => true | _ => false end)%bool.
Definition script_identity_mismatch (value : json) : bool :=
  match sha256IdFromCanonical (without_field "static_bundle_manifest_id" value) with
  | Ret id => negb (has_string id (prop "static_bundle_manifest_id" value))
  | Throw _ => true
  end.
Definition script_finalization_issues (value : json) : list StaticBundleManifestSemanticIssue :=
  issue_when (finalization_invalid value) static_bundle_finalization_version_invalid
  ++ issue_when (has_string "generated" (prop "package_state" value) && negb (is_undefined (prop "supersedes_static_bundle_manifest_id" value)))%bool
       static_bundle_finalization_version_invalid.
Definition filesByPath (p : BundleParts) : list (json * json) :=
  fold_left (λ m file, JsMap.set (prop "relative_path" file) file m) (files p) [].
Definition path_role_missing (p : BundleParts) (required : string * string) : bool :=
  match JsMap.get (jstr required.1) (filesByPath p) with
  | Some file => (negb (truthy file) || negb (has_string required.2 (prop "artifact_role" file)))%bool
  | None => true
  end.
Definition script_parts (value : json) : throws BundleParts :=
  let representation := prop "evidence_bundle_representation" value in
  retained ← js_elements (coalesce (prop "retained_export_approved_payload_refs" representation) (JArray []));
  included ← js_elements (coalesce (prop "included_retained_refs" (prop "minimization_disposition" value)) (JArray []));
  Ret {| files := match prop "files" value with JArray l => l | _ => [] end; payload_refs := representation_refs representation retained;
         signing_refs := metadata_refs (prop "verification_metadata" value); included_refs := included |}.

Definition script_manifest_errors (value : json) : throws (list StaticBundleManifestSemanticIssue) :=
  if negb (isStaticBundleManifestLike value) then Ret [] else
  excludes ← canonicalize (coalesce (prop "identity_input_excludes" value) JNull);
  expected ← canonicalize (jarr [jstr "static_bundle_manifest_id"]);
  p ← script_parts value;
  Ret (issue_when (negb (excludes === expected)) static_bundle_identity_excludes_invalid
    ++ issue_when (script_identity_mismatch value) static_bundle_manifest_identity_mismatch
    ++ script_finalization_issues value
    ++ issue_when (duplicate_file p) static_bundle_duplicate_file
    ++ List.flat_map (λ required, issue_when (path_role_missing p required) static_bundle_required_files_missing) STATIC_BUNDLE_REQUIRED_PATH_ROLES
    ++ issue_when (instructions_missing value) static_bundle_required_files_missing
    ++ issue_when (reference_unresolved p) static_bundle_reference_unresolved
    ++ issue_when (signing_circular p) static_bundle_signing_attachment_circular
    ++ issue_when (coverage_invalid p) static_bundle_minimization_coverage_invalid
    ++ issue_when (existsb (learning_file (λ v, coalesce v (jstr ""))) (files p) || existsb learning_ref (included_refs p))%bool
         static_bundle_internal_learning_forbidden).

Definition isStaticPortalProjectionLike (value : json) : bool :=
  (isRecord value && match prop "static_portal_projection_id" value with JString _ => true | _ => false end)%bool.
Definition array_or_none (v : json) : list json := match v with JArray l => l | _ => [] end.
(* requiredSections.some((section, index) => sections[index] !== section) *)
Definition rotated (held : list json) : bool :=
  existsb (λ '(section, index), negb (has_string section (nth index held JForeign))) (combine REQUIRED_PORTAL_SECTIONS (List.seq 0 8)).
Definition script_learning_document (document : json) : throws bool :=
  refs ← js_elements (coalesce (prop "source_artifact_refs" document) (JArray [])); Ret (existsb learning_ref refs).
Definition script_portal_errors (value : json) : throws (list StaticPortalProjectionSemanticIssue) :=
  if negb (isStaticPortalProjectionLike value) then Ret [] else
  let navigation := array_or_none (prop "navigation" value) in
  let documents := array_or_none (prop "documents" value) in
  learning ← some_throws script_learning_document documents;
  Ret (issue_when (navigation_incomplete navigation || rotated (sections navigation))%bool static_portal_navigation_incomplete
    ++ issue_when (document_incomplete navigation documents) static_portal_document_incomplete
    ++ issue_when learning static_portal_internal_learning_forbidden
    ++ issue_when (asset_policy_open (prop "asset_policy" value)) static_portal_remote_dependency_forbidden).

End static_package.

(** * Sets and arrays *)

Lemma holds_true values v : holds values v = true ↔ v ∈ values.
Proof.
  unfold holds. rewrite existsb_elem. split; [|intros Hv; exists v; split; [done|apply json_eq_refl]].
  by intros (w & Hw & ->%bool_decide_eq_true).
Qed.
Lemma holds_false values v : holds values v = false ↔ v ∉ values.
Proof. rewrite <- holds_true. by destruct (holds values v). Qed.
Lemma lacks_none values wanted : existsb (λ v, negb (holds values v)) wanted = false ↔ ∀ v, v ∈ wanted → v ∈ values.
Proof.
  rewrite existsb_false. split; intros Hall v Hv; [by apply holds_true, negb_false_iff, Hall|by apply negb_false_iff, holds_true, Hall].
Qed.
Lemma dedupe_sublist values : ∀ seen, dedupe_values seen values `sublist_of` values.
Proof. induction values as [|v values IH]; intros seen; cbn [dedupe_values]; [constructor|]. by case_bool_decide; constructor. Qed.
Lemma dedupe_distinct values : ∀ seen, NoDup values → (∀ v, v ∈ values → v ∉ seen) → dedupe_values seen values = values.
Proof.
  induction values as [|v values IH]; intros seen; [done|]. rewrite NoDup_cons. intros [Hv Hnd] Hs. cbn [dedupe_values].
  rewrite bool_decide_false by (apply Hs; left). f_equal. apply IH; [done|]. intros w Hw. rewrite elem_of_cons.
  intros [->|?]; [done|]. apply (Hs w); [by right|done].
Qed.
Lemma set_size_distinct values : Nat.eqb (set_size values) (length values) = true ↔ NoDup values.
Proof.
  unfold set_size. rewrite Nat.eqb_eq. split.
  - intros Hl. pose proof (proj1 (dedupe_values_spec values [])) as Hnd. rewrite (submseteq_length_Permutation (dedupe_values [] values) values) in Hnd;
      [done|apply sublist_submseteq, dedupe_sublist|lia].
  - intros Hnd. rewrite dedupe_distinct; [done|done|]. intros v _. apply not_elem_of_nil.
Qed.
Lemma times_none v values : times v values = 0%nat ↔ v ∉ values.
Proof.
  unfold times. rewrite length_zero_iff_nil. induction values as [|w values IH]; [set_solver|]. cbn [List.filter].
  rewrite not_elem_of_cons, <- IH. case_bool_decide; naive_solver.
Qed.
Lemma times_distinct v values : NoDup values → Nat.eqb (times v values) 1 = true ↔ v ∈ values.
Proof.
  rewrite Nat.eqb_eq. induction 1 as [|w values Hw Hnd IH]; [set_solver|]. unfold times. cbn [List.filter].
  rewrite elem_of_cons. case_bool_decide as E0; [|fold (times v values); rewrite IH; naive_solver].
  subst w. cbn [length]. fold (times v values). split; [by left|]. intros _. f_equal. by apply times_none.
Qed.
(* Two lists of which one has no repetition, of one length and of the same elements *)
Lemma covers_exactly {A} (values wanted : list A) :
  (length values = length wanted ∧ NoDup values ∧ ∀ v, v ∈ values → v ∈ wanted) ↔ (NoDup values ∧ values ≡ₚ wanted).
Proof.
  split.
  - intros (Hl & Hnd & Hin). split; [done|]. apply submseteq_length_Permutation; [|lia]. by apply NoDup_submseteq.
  - intros [Hnd Hp]. split; [by rewrite Hp|]. split; [done|]. intros v. by rewrite Hp.
Qed.

(** * What an accepted manifest is *)

Section manifest.
Context `{UnicodeText, Sha256}.

Definition portal_files : list string := ["portal/index.html"; "portal/styles.css"; "portal/portal.js"].
(* The rules but the last, which screens the files' reasons *)
Record rules_sound (m : json) (p : BundleParts) : Prop := {
  sound_identity : ∃ id, computeCanonicalSha256Id (without_field "static_bundle_manifest_id" m) = Ret id ∧ prop "static_bundle_manifest_id" m = jstr id;
  sound_lineage : prop "package_state" m = jstr "finalized" → below 2 (prop "manifest_version" m) = false ∧
    ∃ earlier, prop "supersedes_static_bundle_manifest_id" m = JString earlier ∧ prop "static_bundle_manifest_id" m ≠ JString earlier;
  sound_paths : NoDup (filePaths p);
  sound_refs : NoDup (fileRefs p);
  sound_roles : ∀ role, role ∈ REQUIRED_FILE_ROLES → jstr role ∈ roles p;
  sound_assets : (2 ≤ times (jstr "portal_asset") (roles p))%nat;
  sound_portal : ∀ path, path ∈ portal_files → jstr path ∈ filePaths p;
  sound_instructions : prop "verification_instructions_path" (prop "verification_metadata" m) = jstr "VERIFY.txt";
  sound_payload : ∀ ref, ref ∈ payload_refs p → ref ∈ fileRefs p;
  sound_signing : ∀ ref, ref ∈ signing_refs p → ref ∉ fileRefs p;
  sound_coverage : included_refs p ≡ₚ fileRefs p;
  sound_learning : (∀ file, file ∈ files p → learning_file id file = false) ∧ (∀ ref, ref ∈ included_refs p → learning_ref ref = false)
}.
Definition bundle_sound (m : json) (p : BundleParts) : Prop :=
  rules_sound m p ∧ ∀ file, file ∈ files p → text_forbidden (prop "inclusion_reason" file) = false.

Lemma identity_matches m : identity_mismatch m = false ↔
  ∃ id, computeCanonicalSha256Id (without_field "static_bundle_manifest_id" m) = Ret id ∧ prop "static_bundle_manifest_id" m = jstr id.
Proof.
  unfold identity_mismatch. destruct (computeCanonicalSha256Id _) as [id|]; [|naive_solver].
  rewrite negb_false_iff, has_string_true. split; [by exists id|]. by intros (? & <-%Ret_inj & ->).
Qed.
Lemma lineage_valid m : finalization_invalid m = false ↔
  (prop "package_state" m = jstr "finalized" → below 2 (prop "manifest_version" m) = false ∧
    ∃ earlier, prop "supersedes_static_bundle_manifest_id" m = JString earlier ∧ prop "static_bundle_manifest_id" m ≠ JString earlier).
Proof.
  unfold finalization_invalid. rewrite andb_false_iff, <- not_true_iff_false, has_string_true, !orb_false_iff, negb_false_iff.
  destruct (prop "supersedes_static_bundle_manifest_id" m); rewrite ?bool_decide_eq_false; destruct (decide (prop "package_state" m = jstr "finalized")); naive_solver.
Qed.
Lemma files_distinct p : duplicate_file p = false ↔ NoDup (filePaths p) ∧ NoDup (fileRefs p).
Proof. unfold duplicate_file. by rewrite orb_false_iff, !negb_false_iff, !set_size_distinct. Qed.
Lemma refs_covered p : NoDup (fileRefs p) → coverage_invalid p = false ↔ included_refs p ≡ₚ fileRefs p.
Proof.
  intros Hnd. unfold coverage_invalid. rewrite !orb_false_iff, !negb_false_iff, set_size_distinct, !lacks_none, Nat.eqb_eq. split.
  - intros [[[Hl Hi] _] Hin]. by apply covers_exactly.
  - intros Hp. rewrite Hp. split; [split; [by split|]|]; intros v; by rewrite Hp.
Qed.
Lemma refs_resolved p : NoDup (fileRefs p) → reference_unresolved p = false ↔ ∀ ref, ref ∈ payload_refs p → ref ∈ fileRefs p.
Proof.
  intros Hnd. unfold reference_unresolved. rewrite existsb_false.
  split; intros Hall ref Hin; [by apply times_distinct, negb_false_iff, Hall|by apply negb_false_iff, times_distinct, Hall].
Qed.
Lemma not_circular p : signing_circular p = false ↔ ∀ ref, ref ∈ signing_refs p → ref ∉ fileRefs p.
Proof. unfold signing_circular. rewrite existsb_false. by setoid_rewrite holds_false. Qed.
Lemma all_strings (P : json → Prop) l : (∀ s, s ∈ l → P (jstr s)) ↔ ∀ v, v ∈ List.map jstr l → P v.
Proof.
  split; [intros Hall v (s & <- & Hs%list_elem_of_In)%list_elem_of_In%in_map_iff; by apply Hall|].
  intros Hall s Hs. apply Hall, list_elem_of_In, in_map, list_elem_of_In, Hs.
Qed.
Lemma lacks_no_string values wanted : existsb (λ s, negb (holds values (jstr s))) wanted = false ↔ ∀ s, s ∈ wanted → jstr s ∈ values.
Proof. rewrite existsb_false. by setoid_rewrite negb_false_iff; setoid_rewrite holds_true. Qed.
Lemma roles_present p : required_role_missing p = false ↔
  (∀ role, role ∈ REQUIRED_FILE_ROLES → jstr role ∈ roles p) ∧ (2 ≤ times (jstr "portal_asset") (roles p))%nat.
Proof. unfold required_role_missing. by rewrite orb_false_iff, lacks_no_string, Nat.ltb_ge. Qed.
Lemma paths_present m p : required_path_missing m p = false ↔
  (∀ path, path ∈ portal_files → jstr path ∈ filePaths p) ∧
  prop "verification_instructions_path" (prop "verification_metadata" m) = jstr "VERIFY.txt".
Proof.
  unfold required_path_missing, instructions_missing, portal_files. rewrite !orb_false_iff, !negb_false_iff, !holds_true, has_string_true.
  set_solver.
Qed.

Lemma rules_exact m p : manifest_rule_issues m [jstr "static_bundle_manifest_id"] p = [] ↔ rules_sound m p.
Proof.
  split.
  - intros Hi. unfold manifest_rule_issues in Hi. no_issues Hi.
    rewrite identity_matches, lineage_valid, files_distinct, roles_present, paths_present, not_circular, orb_false_iff, !existsb_false in Hi.
    destruct Hi as (_ & Hid & Hl & [Hpaths Hrefs] & [Hr Ha] & [Hf Hv] & Hu & Hc & Hcov & [Hl1 Hl2]).
    rewrite refs_resolved in Hu by done. rewrite refs_covered in Hcov by done. by constructor.
  - intros []. unfold manifest_rule_issues. rewrite !app_nil, !issue_when_nil, identity_matches, lineage_valid, files_distinct, roles_present,
      paths_present, not_circular, orb_false_iff, !existsb_false, refs_resolved, refs_covered by done.
    by rewrite (bool_decide_true ([jstr "static_bundle_manifest_id"] = _)).
Qed.
Lemma port_issues m p : prop "identity_input_excludes" m = jarr [jstr "static_bundle_manifest_id"] → read_manifest m = Ret p → rules_sound m p →
  staticBundleManifestSemanticIssues m =
    Ret (issue_when (existsb (λ file, text_forbidden (prop "inclusion_reason" file)) (files p)) static_bundle_text_forbidden).
Proof.
  intros He Hp Hr%rules_exact. unfold staticBundleManifestSemanticIssues. destruct m as [| | | | | | |fs]; try done.
  cbn [member mbind throws_bind]. rewrite He. cbn [js_elements jarr mbind throws_bind]. rewrite Hp. cbn [mbind throws_bind]. by rewrite Hr.
Qed.

(** C25. A manifest of a static bundle is accepted exactly when it excludes its own id, and
    nothing else, from its identity and that id is the recomputed one; a finalized one has a
    version of at least 2 and names another manifest it supersedes; its files are told apart
    by path and by reference, and their references are exactly the retained references it
    declares, each once; every reference of its evidence bundle is the reference of a file,
    and neither the manifest's own signature nor its signing input is; every required role is
    held, by two files at least for the portal's assets, the three portal paths are there
    and the verification instructions are VERIFY.txt; no file or retained reference speaks
    of internal learning, and no file's reason is in forbidden words. *)
Theorem accepted_bundle_exact m : staticBundleManifestSemanticIssues m = Ret [] ↔
  prop "identity_input_excludes" m = jarr [jstr "static_bundle_manifest_id"] ∧ ∃ p, read_manifest m = Ret p ∧ bundle_sound m p.
Proof.
  split.
  - unfold staticBundleManifestSemanticIssues. intros (v & Hm & (excludes & He & (p & Hp & Hi)%bind_Ret)%bind_Ret)%bind_Ret.
    apply Ret_inj, app_nil in Hi as [Hi Ht%issue_when_nil]. rewrite existsb_false in Ht.
    assert (excludes = [jstr "static_bundle_manifest_id"]) as ->.
    { unfold manifest_rule_issues in Hi. apply app_nil in Hi as [Hx%issue_when_nil _]. by apply negb_false_iff, bool_decide_eq_true in Hx. }
    apply rules_exact in Hi. split; [|exists p; split; [done|by split]].
    destruct v; try done. apply Ret_inj in He as ->. by destruct m; try done; apply Ret_inj in Hm.
  - intros (He & p & Hp & Hr & Ht). rewrite (port_issues m p He Hp Hr). f_equal. apply issue_when_nil. by apply existsb_false.
Qed.
End manifest.

(** * The script's rules and the port *)

Section port.
Context `{UnicodeText, Sha256, Canonicalize}.

Lemma filesByPath_sound p path file : JsMap.get path (filesByPath p) = Some file → file ∈ files p ∧ prop "relative_path" file = path.
Proof.
  unfold filesByPath. assert (∀ l m, (∀ f, JsMap.get path m = Some f → f ∈ files p ∧ prop "relative_path" f = path) → (∀ f, f ∈ l → f ∈ files p) →
    ∀ f, JsMap.get path (fold_left (λ m file, JsMap.set (prop "relative_path" file) file m) l m) = Some f → f ∈ files p ∧ prop "relative_path" f = path) as Hg.
  { induction l as [|g l IH]; intros m Hm Hl f; [apply Hm|]. cbn [fold_left]. apply IH; [|intros; apply Hl; by right].
    intros f'. rewrite JsMap.get_set. case_decide as E0; [|apply Hm]. intros [= <-]. split; [apply Hl; left|done]. }
  by apply Hg.
Qed.
Lemma path_role_found p path role : path_role_missing p (path, role) = false →
  ∃ file, file ∈ files p ∧ prop "relative_path" file = jstr path ∧ prop "artifact_role" file = jstr role.
Proof.
  unfold path_role_missing. cbn [fst snd]. destruct (JsMap.get _ _) as [file|] eqn:Hg; [|done]. apply filesByPath_sound in Hg as [Hin Hp].
  rewrite orb_false_iff, !negb_false_iff, has_string_true. intros [_ Hr]. by exists file.
Qed.
Lemma two_of_role p role f g : f ∈ files p → g ∈ files p → f ≠ g →
  prop "artifact_role" f = role → prop "artifact_role" g = role → (2 ≤ times role (roles p))%nat.
Proof.
  intros Hf Hg Hne Rf Rg. assert (times role (roles p) = length (List.filter (λ f, prop "artifact_role" f === role) (files p))) as ->.
  { unfold times, roles. clear. induction (files p) as [|f l IH]; [done|]. cbn [List.map List.filter]. case_bool_decide; simpl; by rewrite IH. }
  apply (submseteq_length [f; g]). apply NoDup_submseteq; [repeat constructor; set_solver|].
  intros x Hx. apply list_elem_of_In, filter_In. rewrite <- list_elem_of_In. rewrite bool_decide_eq_true. set_solver.
Qed.
Lemma norm_text v s : norm v = JString s → v = JString s.
Proof. destruct v; try done. Qed.
Lemma canonicalize_Ret v t : canonicalize v = Ret t → canonicalizeJson v = Ret (Some t).
Proof. unfold canonicalize. destruct (canonicalizeJson v) as [[u|]|]; try done. by intros ->%Ret_inj. Qed.
Lemma excludes_text (v : json) t : wf_json v = true → is_data (coalesce v JNull) = true →
  canonicalize (coalesce v JNull) = Ret t → canonicalize (jarr [jstr "static_bundle_manifest_id"]) = Ret t → v = jarr [jstr "static_bundle_manifest_id"].
Proof.
  intros Hw Hdata Hv%canonicalize_Ret He%canonicalize_Ret.
  assert (same_data (coalesce v JNull) (jarr [jstr "static_bundle_manifest_id"])) as Hd.
  { eapply canonicalizeJson_data; [by destruct v|by vm_compute|done|by vm_compute|exact Hv|exact He]. }
  unfold same_data in Hd. destruct v as [| | | | | |l|]; try done.
  assert (List.map norm l = [jstr "static_bundle_manifest_id"]) as E0.
  { change (JArray (List.map norm l) = JArray [jstr "static_bundle_manifest_id"]) in Hd. congruence. }
  destruct l as [|v [|w l]]; try done. cbn [List.map] in E0.
  assert (norm v = jstr "static_bundle_manifest_id") as Hn by congruence. apply norm_text in Hn as ->. done.
Qed.
Lemma script_identity m s : canonicalizeProtocolJson (without_field "static_bundle_manifest_id" m) = Ret s →
  script_identity_mismatch m = identity_mismatch m.
Proof.
  intros Hs. unfold script_identity_mismatch, identity_mismatch, sha256IdFromCanonical, canonicalize, computeCanonicalSha256Id.
  rewrite (canonicalizeJson_rfc8785 _ _ Hs), Hs. done.
Qed.
Lemma script_reads m p : read_manifest m = Ret p → script_parts m = Ret p.
Proof.
  unfold read_manifest, script_parts. intros (files & Hf & (paths & _ & (bundle_ref & _ & (retained & Hr & (instructions & _ &
    (disposition & Hd & (included & Hi & <-%Ret_inj)%bind_Ret)%bind_Ret)%bind_Ret)%bind_Ret)%bind_Ret)%bind_Ret)%bind_Ret.
  destruct (prop "retained_export_approved_payload_refs" _); try done. cbn [coalesce]. rewrite Hr. cbn [mbind throws_bind].
  assert (prop "included_retained_refs" (prop "minimization_disposition" m) = disposition) as ->.
  { destruct (prop "minimization_disposition" m); try done; by apply Ret_inj in Hd. }
  destruct disposition; try done. cbn [coalesce]. rewrite Hi. cbn [mbind throws_bind].
  destruct (prop "files" m); try done. by apply Ret_inj in Hf as ->.
Qed.
Definition file_texts (p : BundleParts) : Prop :=
  ∀ file, file ∈ files p → ∃ path reason, prop "relative_path" file = JString path ∧ prop "inclusion_reason" file = JString reason.
Definition shows_texts (file : json) : bool :=
  match prop "relative_path" file, prop "inclusion_reason" file with JString _, JString _ => true | _, _ => false end.
Lemma file_texts_check p : forallb shows_texts (files p) = true → file_texts p.
Proof.
  intros Hall file Hin. apply (proj1 (forallb_elem _ _) Hall) in Hin. unfold shows_texts in Hin.
  destruct (prop "relative_path" file), (prop "inclusion_reason" file); try done. by do 2 eexists.
Qed.

(** C26. The port refuses nothing more than the script but by its text screen. Take a
    manifest that is JSON data, whose text without its id is within the limits of
    canonicalizeProtocolJson, whose fields the port can read, and whose files have texts for
    path and reason. When the script's rules (its text screens aside) find no error in it,
    no rule of the port does, and its verdict is the issue static_bundle_text_forbidden
    where a reason is in forbidden words and no issue otherwise. *)
Theorem script_rules_imply_port m s p :
  wf_json m = true → is_data m = true → isStaticBundleManifestLike m = true →
  canonicalizeProtocolJson (without_field "static_bundle_manifest_id" m) = Ret s →
  read_manifest m = Ret p → file_texts p → script_manifest_errors m = Ret [] →
  staticBundleManifestSemanticIssues m =
    Ret (issue_when (existsb (λ file, text_forbidden (prop "inclusion_reason" file)) (files p)) static_bundle_text_forbidden).
Proof.
  intros Hw Hdata Hlike Hs Hp Htexts. unfold script_manifest_errors. rewrite Hlike, (script_reads m p Hp), (script_identity m s Hs). cbn [negb].
  intros (excludes & Hx & (expected & He & Hi%Ret_inj)%bind_Ret)%bind_Ret. unfold script_finalization_issues in Hi. no_issues Hi.
  destruct Hi as (Heq%negb_false_iff%bool_decide_eq_true & Hid%identity_matches & [Hl _] & [Hpaths Hrefs]%files_distinct & Hroles &
    Hv & Hu & Hc & Hcov & [Hl1 Hl2]%orb_false_iff). subst expected.
  rewrite not_circular in Hc. rewrite lineage_valid in Hl.
  apply port_issues; [eapply excludes_text; [by apply prop_wf|by apply prop_data|done..]|done|].
  assert (∀ path role, (path, role) ∈ STATIC_BUNDLE_REQUIRED_PATH_ROLES →
    ∃ file, file ∈ files p ∧ prop "relative_path" file = jstr path ∧ prop "artifact_role" file = jstr role) as Hfound.
  { intros path role Hin. apply path_role_found. unfold STATIC_BUNDLE_REQUIRED_PATH_ROLES in Hin.
    repeat (apply elem_of_cons in Hin as [E0|Hin]; [rewrite E0; tauto|]). by apply elem_of_nil in Hin. }
  rewrite refs_resolved in Hu by done. rewrite refs_covered in Hcov by done. rewrite existsb_false in Hl1, Hl2. constructor; try done.
  - intros role Hr. assert (∃ path, (path, role) ∈ STATIC_BUNDLE_REQUIRED_PATH_ROLES) as [path Hin].
    { unfold REQUIRED_FILE_ROLES in Hr. unfold STATIC_BUNDLE_REQUIRED_PATH_ROLES. set_solver. }
    apply Hfound in Hin as (file & Hf & _ & <-). by apply list_elem_of_In, in_map, list_elem_of_In.
  - destruct (Hfound "portal/styles.css"%string "portal_asset"%string) as (f & Hf & Pf & Rf); [unfold STATIC_BUNDLE_REQUIRED_PATH_ROLES; set_solver|].
    destruct (Hfound "portal/portal.js"%string "portal_asset"%string) as (g & Hg & Pg & Rg); [unfold STATIC_BUNDLE_REQUIRED_PATH_ROLES; set_solver|].
    apply (two_of_role p _ f g); try done. intros ->. rewrite Pf in Pg. by apply jstr_inj in Pg.
  - intros path Hin. assert (∃ role, (path, role) ∈ STATIC_BUNDLE_REQUIRED_PATH_ROLES) as [role Hr].
    { unfold portal_files in Hin. unfold STATIC_BUNDLE_REQUIRED_PATH_ROLES. set_solver. }
    apply Hfound in Hr as (file & Hf & <- & _). by apply list_elem_of_In, in_map, list_elem_of_In.
  - unfold instructions_missing in Hv. by apply has_string_true, negb_false_iff.
  - split; [|done]. intros file Hin. destruct (Htexts file Hin) as (path & reason & Hpath & Hreason).
    specialize (Hl1 file Hin). unfold learning_file in *. by rewrite Hpath, Hreason in *.
Qed.
End port.

(** * What an accepted portal is *)

Section portal.
Context `{UnicodeText, Sha256}.

Definition section_names : list json := List.map jstr REQUIRED_PORTAL_SECTIONS.
Record portal_sound (portal : json) (navigation documents : list json) : Prop := {
  sound_sections : sections navigation ≡ₚ section_names;
  sound_orders : List.map (prop "order") navigation = List.map JNumber (seqZ 1 8);
  sound_documents : sections documents ≡ₚ section_names;
  sound_document_paths : NoDup (List.map (prop "relative_path") documents);
  sound_links : ∀ entry, entry ∈ navigation → ∃ document, document ∈ documents ∧
    prop "section_id" document = prop "section_id" entry ∧ prop "relative_path" document = prop "relative_path" entry ∧
    ∀ other, other ∈ documents → prop "section_id" other = prop "section_id" entry → other = document;
  sound_document_learning : ∀ document, document ∈ documents → ∃ refs, prop "source_artifact_refs" document = JArray refs ∧
    ∀ ref, ref ∈ refs → learning_ref ref = false;
  sound_assets_closed : ∀ name, name ∈ ["remote_assets_allowed"; "analytics_allowed"; "live_api_calls_allowed"; "runtime_authorization_required"] →
    prop name (prop "asset_policy" portal) = JBool false;
  sound_links_relative : prop "relative_links_only" (prop "asset_policy" portal) = JBool true;
  sound_document_text : ∀ document name, document ∈ documents → name ∈ ["title"; "summary"; "phone_summary"] → text_forbidden (prop name document) = false
}.
Lemma section_names_distinct : NoDup section_names.
Proof. by apply (bool_decide_unpack _); vm_compute. Qed.
Lemma sections_complete entries :
  length entries = 8%nat → set_size (sections entries) = 8%nat ∧ section_missing (sections entries) = false ↔ sections entries ≡ₚ section_names.
Proof.
  intros Hl. assert (length (sections entries) = 8%nat) as Hs by (unfold sections; by rewrite length_map).
  assert (set_size (sections entries) = 8%nat ↔ NoDup (sections entries)) as ->. { rewrite <- set_size_distinct, Hs. by rewrite Nat.eqb_eq. }
  unfold section_missing. rewrite lacks_no_string, (all_strings (λ v, v ∈ sections entries)). fold section_names. split.
  - intros [_ Hin]. symmetry. by apply covers_exactly; split_and!; [rewrite Hs|apply section_names_distinct|].
  - intros Hp. rewrite Hp. split; [apply section_names_distinct|]. intros v. by rewrite Hp.
Qed.
Lemma in_order orders : length orders = 8%nat → out_of_order orders = false ↔ orders = List.map JNumber (seqZ 1 8).
Proof.
  intros Hl. destruct orders as [|? [|? [|? [|? [|? [|? [|? [|? [|? orders]]]]]]]]]; try done. unfold out_of_order. clear Hl.
  cbn [length combine]. change (seqZ 0 (Z.of_nat 8)) with [0; 1; 2; 3; 4; 5; 6; 7]. change (List.map JNumber (seqZ 1 8)) with (List.map JNumber [1; 2; 3; 4; 5; 6; 7; 8]).
  cbn [combine existsb List.map]. rewrite !orb_false_iff, !negb_false_iff, !bool_decide_eq_true. split; [by intros (-> & -> & -> & -> & -> & -> & -> & -> & _)|naive_solver].
Qed.
Lemma member_Ret name v w : member name v = Ret w → w = prop name v.
Proof. by destruct v; intros E0; try done; apply Ret_inj in E0. Qed.
Lemma member_of_text name other v s : prop other v = jstr s → member name v = Ret (prop name v).
Proof. by destruct v. Qed.
Lemma map_member name l : (∀ v, v ∈ l → member name v = Ret (prop name v)) → map_throws (member name) l = Ret (List.map (prop name) l).
Proof.
  induction l as [|v l IH]; intros Hall; [done|]. cbn [map_throws List.map]. rewrite (Hall v) by left. cbn [mbind throws_bind].
  rewrite IH; [done|]. intros w Hw. apply Hall. by right.
Qed.
Lemma some_throws_false {A} (f : A → throws bool) l : some_throws f l = Ret false ↔ ∀ x, x ∈ l → f x = Ret false.
Proof.
  induction l as [|a l IH]; cbn [some_throws]; [split; [intros _ x Hx%elem_of_nil|]; done|]. split.
  - destruct (f a) as [[]|] eqn:Ha; cbn [mbind throws_bind]; try done. intros Hl x [->|Hx]%elem_of_cons; [done|]. by apply IH.
  - intros Hall. rewrite (Hall a) by left. cbn [mbind throws_bind]. apply IH. intros x Hx. apply Hall. by right.
Qed.
Lemma learning_document_none document : learning_document document = Ret false ↔
  ∃ refs, prop "source_artifact_refs" document = JArray refs ∧ ∀ ref, ref ∈ refs → learning_ref ref = false.
Proof.
  unfold learning_document. destruct (prop "source_artifact_refs" document) as [| | | | | |l|]; cbn [js_elements mbind throws_bind]; try naive_solver.
  split; [intros E0%Ret_inj; exists l; split; [done|]; by rewrite <- existsb_false|].
  intros (refs & E0 & Hall). f_equal. assert (l = refs) as -> by congruence. by apply existsb_false.
Qed.
Lemma documents_complete navigation documents :
  document_incomplete navigation documents = false ↔
  sections documents ≡ₚ section_names ∧ NoDup (List.map (prop "relative_path") documents) ∧
  ∀ entry, entry ∈ navigation → ∃ document, document ∈ documents ∧
    prop "section_id" document = prop "section_id" entry ∧ prop "relative_path" document = prop "relative_path" entry ∧
    ∀ other, other ∈ documents → prop "section_id" other = prop "section_id" entry → other = document.
Proof.
  unfold document_incomplete. rewrite !orb_false_iff, !negb_false_iff, !Nat.eqb_eq, existsb_false.
  rewrite <- (length_map (prop "relative_path") documents) at 2. rewrite <- (Nat.eqb_eq (set_size (List.map (prop "relative_path") documents))), set_size_distinct. split.
  - intros ((((Hl & Hs) & Hm) & Hp) & Hr). assert (sections documents ≡ₚ section_names) as Hperm by by apply sections_complete.
    split; [done|]. split; [done|]. intros entry He. specialize (Hr entry He). apply negb_false_iff, existsb_elem in Hr as (document & Hd & [E1 E2]%andb_prop).
    apply bool_decide_eq_true in E1, E2. exists document. split_and!; [done..|]. intros other Ho E3.
    apply (distinct_by (prop "section_id") documents); [|done|done|congruence]. fold (sections documents). rewrite Hperm. apply section_names_distinct.
  - intros (Hperm & Hp & Hr). assert (length documents = 8%nat) as Hl.
    { apply Permutation_length in Hperm. unfold sections in Hperm. by rewrite length_map in Hperm. }
    destruct (proj2 (sections_complete documents Hl) Hperm) as [-> ->]. split_and!; [done..|]. intros entry He.
    apply negb_false_iff, existsb_elem. destruct (Hr entry He) as (document & Hd & E1 & E2 & _). exists document. split; [done|].
    unfold resolves. rewrite E1, E2. by rewrite !json_eq_refl.
Qed.

(** A portal is accepted exactly when its navigation lists the eight sections once,
    numbered from one in order, each entry leads to the only document of its section under
    that document's own path, no document refers to internal learning or uses forbidden
    words, and it needs nothing from outside. *)
Theorem accepted_portal_exact portal : staticPortalProjectionSemanticIssues portal = Ret [] ↔
  ∃ navigation documents, prop "navigation" portal = JArray navigation ∧ prop "documents" portal = JArray documents ∧
    portal_sound portal navigation documents.
Proof.
  unfold staticPortalProjectionSemanticIssues. split.
  - intros (v & Hm & (navigation & Hn & (entries & _ & (documents & Hd & (listed & _ & (learning & Hl & (policy & _ & Hi%Ret_inj)
      %bind_Ret)%bind_Ret)%bind_Ret)%bind_Ret)%bind_Ret)%bind_Ret)%bind_Ret.
    apply member_Ret in Hm as ->. unfold portal_rule_issues in Hi. no_issues Hi. destruct Hi as ((Hnav & Hdoc & -> & Hpol) & Ht). exists navigation, documents.
    split; [destruct (prop "navigation" portal); try done; by apply Ret_inj in Hn as ->|].
    split; [destruct (prop "documents" portal); try done; by apply Ret_inj in Hd as ->|].
    unfold navigation_incomplete in Hnav. rewrite !orb_false_iff, !negb_false_iff, !Nat.eqb_eq in Hnav. destruct Hnav as ((((Hlen & Hs) & Hmiss) & Ho) & Hord).
    assert (sections navigation ≡ₚ section_names) as Hperm by by apply sections_complete. rewrite documents_complete in Hdoc. destruct Hdoc as (Hd1 & Hd2 & Hd3).
    unfold asset_policy_open in Hpol. rewrite orb_false_iff, existsb_false, negb_false_iff in Hpol. destruct Hpol as [Hpol Hrel%bool_decide_eq_true].
    rewrite existsb_false in Ht. constructor; try done.
    + apply in_order; [by rewrite length_map|done].
    + intros document Hin. apply learning_document_none. by apply (proj1 (some_throws_false _ _) Hl).
    + intros name Hin. specialize (Hpol name Hin). by apply negb_false_iff, bool_decide_eq_true in Hpol.
    + intros document name Hin Hname. by apply (proj1 (existsb_false _ _) (Ht document Hin)).
  - intros (navigation & documents & Hn & Hd & [Hs Ho Hds Hdp Hlinks Hlearn Hpol Hrel Ht]).
    assert (∀ l, sections l ≡ₚ section_names → map_throws (member "section_id") l = Ret (sections l)) as Hread.
    { intros l Hp. apply map_member. intros v Hv. assert (prop "section_id" v ∈ section_names) as (s & Es & _)%list_elem_of_In%in_map_iff.
      { rewrite <- Hp. by apply list_elem_of_In, in_map, list_elem_of_In. } by apply (member_of_text _ "section_id" v s). }
    destruct portal as [| | | | | | |fs]; try done. cbn [member mbind throws_bind]. rewrite Hn. cbn [js_elements mbind throws_bind].
    rewrite (Hread navigation Hs). cbn [mbind throws_bind]. rewrite Hd. cbn [js_elements mbind throws_bind]. rewrite (Hread documents Hds). cbn [mbind throws_bind].
    rewrite (proj2 (some_throws_false learning_document documents)) by (intros document Hin; by apply learning_document_none, Hlearn). cbn [mbind throws_bind].
    assert (member "remote_assets_allowed" (prop "asset_policy" (JObject fs)) = Ret (JBool false)) as ->.
    { specialize (Hpol "remote_assets_allowed"%string). destruct (prop "asset_policy" (JObject fs)); try (by specialize (Hpol ltac:(left))). cbn [member]. f_equal. apply Hpol. left. }
    cbn [mbind throws_bind]. f_equal. unfold portal_rule_issues. rewrite !app_nil, !issue_when_nil.
    assert (length navigation = 8%nat) as Hl. { apply Permutation_length in Hs. unfold sections in Hs. by rewrite length_map in Hs. }
    split; [split; [|split; [by apply documents_complete|split; [done|]]]|].
    + unfold navigation_incomplete. destruct (proj2 (sections_complete navigation Hl) Hs) as [-> ->]. rewrite Hl, (proj2 (in_order (List.map (prop "order") navigation) ltac:(by rewrite length_map)) Ho), Ho. by vm_compute.
    + unfold asset_policy_open. rewrite orb_false_iff, existsb_false, negb_false_iff. split; [|by rewrite Hrel]. intros name Hin. by rewrite (Hpol name Hin).
    + apply existsb_false. intros document Hin. apply existsb_false. intros name Hname. by apply Ht.
Qed.

(** A portal with no error by the script's rules has its navigation in the fixed order. *)
Lemma script_navigation_fixed portal : isStaticPortalProjectionLike portal = true → script_portal_errors portal = Ret [] →
  sections (array_or_none (prop "navigation" portal)) = section_names.
Proof.
  intros Hlike. unfold script_portal_errors. rewrite Hlike. cbn [negb]. intros (learning & _ & Hi%Ret_inj)%bind_Ret. no_issues Hi.
  destruct Hi as ([Hn Hr]%orb_false_iff & _). unfold navigation_incomplete in Hn. rewrite !orb_false_iff, !negb_false_iff, !Nat.eqb_eq in Hn.
  destruct Hn as ((((Hlen & _) & _) & _) & _). revert Hlen Hr. generalize (array_or_none (prop "navigation" portal)). intros navigation Hl.
  assert (length (sections navigation) = 8%nat) as Hs by (unfold sections; by rewrite length_map). revert Hs. generalize (sections navigation). clear. intros held Hs.
  destruct held as [|? [|? [|? [|? [|? [|? [|? [|? [|? held]]]]]]]]]; try done. unfold rotated, REQUIRED_PORTAL_SECTIONS. cbn [combine List.seq existsb nth].
  rewrite !orb_false_iff, !negb_false_iff, !has_string_true. by intros (-> & -> & -> & -> & -> & -> & -> & -> & _).
Qed.
End portal.

(** * Samples, after protocol/fixtures/v0/valid/static-bundle-manifest.generated.json *)

Module StaticSamples.
Import SampleHash SampleText IntakeSamples.
Definition file (path ref role : string) : json :=
  jobj [("relative_path", jstr path); ("artifact_ref", jstr ref); ("artifact_role", jstr role); ("inclusion_reason", jstr "Kept.")].
Definition bundle_files (attestation_role portal_role : string) : list json :=
  [file "attestation.json" "artifact_ref:attestation" attestation_role; file "evidence/bundle-identity.json" "artifact_ref:bundle_identity" "supporting_evidence";
   file "evidence/bundle-manifest.json" "artifact_ref:bundle_manifest" "supporting_evidence";
   file "evidence/bundle-signature.json" "artifact_ref:bundle_signature" "supporting_evidence";
   file "evidence-bundle-representation.json" "artifact_ref:representation" "evidence_bundle_representation";
   file "portal/index.html" "artifact_ref:portal_html" portal_role; file "portal/portal.js" "artifact_ref:portal_js" "portal_asset";
   file "portal/styles.css" "artifact_ref:portal_css" "portal_asset"; file "vendor-receipt.json" "artifact_ref:vendor_receipt" "vendor_receipt"].
Definition manifest_body (lineage : list (string * json)) (files : list json) : list (string * json) :=
  ([("manifest_version", jnum 1); ("package_state", jstr "generated")] ++ lineage ++
   [("identity_input_excludes", jarr [jstr "static_bundle_manifest_id"]);
    ("evidence_bundle_representation", jobj [("bundle_manifest_ref", jstr "artifact_ref:bundle_manifest");
       ("signature_ref", jstr "artifact_ref:bundle_signature"); ("identity_ref", jstr "artifact_ref:bundle_identity");
       ("retained_export_approved_payload_refs", jarr [])]);
    ("files", jarr files);
    ("minimization_disposition", jobj [("included_retained_refs", jarr (List.map (prop "artifact_ref") files))]);
    ("verification_metadata", jobj [("manifest_signature_ref", jstr "artifact_ref:static_bundle_signature");
       ("signing_input_ref", jstr "artifact_ref:static_bundle_signing_input"); ("verification_instructions_path", jstr "VERIFY.txt")])])%list.
Definition identified (body : list (string * json)) : json :=
  jobj (("static_bundle_manifest_id", match computeCanonicalSha256Id (jobj body) with Ret id => jstr id | Throw _ => JNull end) :: body).
Definition sample_manifest : json := Eval vm_compute in identified (manifest_body [] (bundle_files "attestation" "portal")).
(* The roles of two files exchanged, and a first version that claims to supersede another *)
Definition swapped_manifest : json := Eval vm_compute in identified (manifest_body [] (bundle_files "portal" "attestation")).
Definition superseding_manifest : json := Eval vm_compute in
  identified (manifest_body [("supersedes_static_bundle_manifest_id", jstr "sha256:0")] (bundle_files "attestation" "portal")).

Lemma kept_allowed : text_forbidden (jstr "Kept.") = false.
Proof. by vm_compute. Qed.
Definition says_kept (names : list string) (v : json) : bool := forallb (λ name, has_string "Kept." (prop name v)) names.
Lemma kept_manifest m excludes p : prop "identity_input_excludes" m = JArray excludes → read_manifest m = Ret p →
  manifest_rule_issues m excludes p = [] → forallb (says_kept ["inclusion_reason"]) (files p) = true → staticBundleManifestSemanticIssues m = Ret [].
Proof.
  intros Hx Hp Hi Hk. destruct m as [| | | | | | |fs]; try done. unfold staticBundleManifestSemanticIssues. cbn [member mbind throws_bind].
  rewrite Hx. cbn [js_elements mbind throws_bind]. rewrite Hp. cbn [mbind throws_bind]. rewrite Hi. f_equal. apply issue_when_nil, existsb_false.
  intros file Hf. apply (proj1 (forallb_elem _ _) Hk), andb_prop, proj1, has_string_true in Hf. rewrite Hf. apply kept_allowed.
Qed.
Definition parts_of (m : json) : BundleParts :=
  match read_manifest m with Ret p => p | Throw _ => {| files := []; payload_refs := []; signing_refs := []; included_refs := [] |} end.
Lemma swapped_roles_accepted : staticBundleManifestSemanticIssues swapped_manifest = Ret [] ∧
  script_manifest_errors swapped_manifest = Ret [static_bundle_required_files_missing; static_bundle_required_files_missing].
Proof. split; [apply (kept_manifest _ [jstr "static_bundle_manifest_id"] (parts_of swapped_manifest))|]; by vm_compute. Qed.
Lemma early_supersession_accepted : staticBundleManifestSemanticIssues superseding_manifest = Ret [] ∧
  script_manifest_errors superseding_manifest = Ret [static_bundle_finalization_version_invalid].
Proof. split; [apply (kept_manifest _ [jstr "static_bundle_manifest_id"] (parts_of superseding_manifest))|]; by vm_compute. Qed.

Definition document (section : string) : json :=
  jobj [("section_id", jstr section); ("relative_path", jstr ("portal/" +:+ section)); ("title", jstr "Kept."); ("summary", jstr "Kept."); ("phone_summary", jstr "Kept.");
        ("source_artifact_refs", jarr [jstr "artifact_ref:attestation"])].
Definition navigation_of (names : list string) : list json :=
  List.map (λ e : string * Z, jobj [("section_id", jstr e.1); ("order", JNumber e.2); ("relative_path", jstr ("portal/" +:+ e.1))]) (combine names [1; 2; 3; 4; 5; 6; 7; 8]).
Definition portal_with (names : list string) : json :=
  jobj [("static_portal_projection_id", jstr "static_portal_projection:sample"); ("navigation", jarr (navigation_of names));
        ("documents", jarr (List.map document REQUIRED_PORTAL_SECTIONS));
        ("asset_policy", jobj [("remote_assets_allowed", JBool false); ("analytics_allowed", JBool false); ("live_api_calls_allowed", JBool false);
           ("runtime_authorization_required", JBool false); ("relative_links_only", JBool true)])].
Definition sample_portal : json := Eval vm_compute in portal_with REQUIRED_PORTAL_SECTIONS.
Definition rotated_portal : json := Eval vm_compute in
  portal_with ["scope"; "receipt_chain"; "methods"; "findings"; "validation_remediation"; "limitations"; "appendices"; "overview"].
Lemma kept_portal portal navigation documents : prop "navigation" portal = JArray navigation → prop "documents" portal = JArray documents →
  map_throws (member "section_id") navigation = Ret (sections navigation) → map_throws (member "section_id") documents = Ret (sections documents) →
  some_throws learning_document documents = Ret false → member "remote_assets_allowed" (prop "asset_policy" portal) = Ret (JBool false) →
  portal_rule_issues portal navigation documents false = [] → forallb (says_kept ["title"; "summary"; "phone_summary"]) documents = true →
  staticPortalProjectionSemanticIssues portal = Ret [].
Proof.
  intros Hn Hd Rn Rd Hl Hp Hi Hk. destruct portal as [| | | | | | |fs]; try done. unfold staticPortalProjectionSemanticIssues. cbn [member mbind throws_bind].
  rewrite Hn. cbn [js_elements mbind throws_bind]. rewrite Rn. cbn [mbind throws_bind]. rewrite Hd. cbn [js_elements mbind throws_bind]. rewrite Rd. cbn [mbind throws_bind].
  rewrite Hl. cbn [mbind throws_bind]. rewrite Hp. cbn [mbind throws_bind]. rewrite Hi. f_equal. apply issue_when_nil, existsb_false. intros d Hin. apply existsb_false. intros name Hname.
  apply (proj1 (forallb_elem _ _) Hk) in Hin. unfold says_kept in Hin. apply (proj1 (forallb_elem _ _) Hin), has_string_true in Hname. rewrite Hname. apply kept_allowed.
Qed.
Lemma rotated_navigation_accepted : staticPortalProjectionSemanticIssues rotated_portal = Ret [] ∧
  script_portal_errors rotated_portal = Ret [static_portal_navigation_incomplete] ∧ script_portal_errors sample_portal = Ret [].
Proof.
  split; [|split; by vm_compute].
  apply (kept_portal rotated_portal (array_or_none (prop "navigation" rotated_portal)) (array_or_none (prop "documents" rotated_portal))); by vm_compute.
Qed.

Definition sample_text : { s | canonicalizeProtocolJson (without_field "static_bundle_manifest_id" sample_manifest) = Ret s }.
Proof. eexists. vm_compute. reflexivity. Defined.
Lemma accepted_bundle_exact_witness : bundle_sound sample_manifest (parts_of sample_manifest).
Proof.
  assert (read_manifest sample_manifest = Ret (parts_of sample_manifest)) as Hp by by vm_compute.
  destruct (proj1 (accepted_bundle_exact sample_manifest)) as (_ & p & Hp' & Hs).
  - apply (kept_manifest _ [jstr "static_bundle_manifest_id"] (parts_of sample_manifest)); by vm_compute.
  - rewrite Hp in Hp'. apply Ret_inj in Hp' as ->. exact Hs.
Defined.
Lemma script_rules_imply_port_witness : staticBundleManifestSemanticIssues sample_manifest =
  Ret (issue_when (existsb (λ file, text_forbidden (prop "inclusion_reason" file)) (files (parts_of sample_manifest))) static_bundle_text_forbidden).
Proof.
  apply (script_rules_imply_port sample_manifest (proj1_sig sample_text) (parts_of sample_manifest));
    [by vm_compute..|exact (proj2_sig sample_text)|by vm_compute|apply file_texts_check; by vm_compute|by vm_compute].
Defined.
End StaticSamples.
