(* ===== verification/CustomerFindings.v ===== *)
(** The rules a customer-facing finding record obeys beyond its schema
    (packages/protocol-ts/src/customer-facing-finding-semantics.ts). *)

From Stdlib Require Import String.
From S2P Require Import Prelude Patterns Bytes Json JsonText Regex CanonicalJson Schema Registry Values ClaimSafety.

Import Regexp.
Local Open Scope Z_scope.

Inductive CustomerFacingFindingRecordSemanticIssue :=
  | customer_facing_finding_source_class_required
  | customer_facing_finding_visibility_required
  | customer_facing_finding_status_separation_required
  | customer_facing_finding_reference_mismatch
  | customer_facing_finding_evidence_ref_required
  | customer_facing_finding_guidance_actionable_details_required
  | customer_facing_finding_guidance_insufficient_evidence_reason_required
  | customer_facing_finding_guidance_next_step_required
  | customer_facing_finding_verification_reference_required
  | customer_facing_finding_future_outcome_reference_required
  | customer_facing_finding_outcome_section_required
  | customer_facing_finding_outcome_details_required
  | customer_facing_finding_outcome_export_required
  | customer_facing_finding_customer_notes_export_forbidden
  | customer_facing_finding_due_date_invalid
  | customer_facing_finding_script_pricing_tbd_required
  | customer_facing_finding_raw_source_text_forbidden
  | customer_facing_finding_claim_unsafe_text_forbidden.
Abbreviation Issues := (list CustomerFacingFindingRecordSemanticIssue).

(* Each field as its section and its name: "section.name".split(".") *)
Definition CUSTOMER_FACING_FINDING_TEXT_FIELDS : list (string * string) :=
  let fields section names := List.map (λ name : string, (section : string, name)) names in
  (fields "expert_classification" ["rationale_summary"; "criteria_summary"; "limitations"] ++
   fields "evidence_basis" ["limitations"] ++
   fields "reviewer_remediation_guidance" ["exploitability_rationale_summary"; "suggested_remediation_summary"; "validation_step_summary";
     "next_step_summary"; "validation_path_summary"; "validation_path_ref"; "insufficient_evidence_reason"; "limitations"] ++
   fields "customer_remediation_status" ["owner"; "target_state"; "customer_notes_summary"] ++
   fields "verification_state" ["summary"] ++
   fields "validation_paths" ["required_evidence"; "steps"; "expected_result"; "limitations"; "output_attachment_instructions"; "target";
     "authorization_assumption"; "method"; "safety_constraints"; "evidence_artifacts_to_collect"] ++
   fields "reviewer_validation_scripts" ["purpose"; "prerequisites"; "execution_steps"; "expected_output"; "safety_notes";
     "output_attachment_instructions"; "script_content"; "pricing_note"] ++
   fields "accepted_risk_outcome" ["evidence_basis_summary"; "customer_acceptance_summary"; "risk_owner"; "scope_of_acceptance"; "limitations"] ++
   fields "false_positive_outcome" ["evidence_basis_summary"; "rationale_summary"; "limitations"])%list%string.

(** * Readings *)

Definition has_text (name : string) (v : json) : bool := match prop name v with JString _ => true | _ => false end.
Definition elements (v : json) : list json := match v with JArray l => l | _ => [] end.
(* Strict equality of two values read from a record: objects and arrays are told apart *)
Definition same (v w : json) : bool := match v with JObject _ | JArray _ => false | _ => v === w end.
Definition lists (values : list json) (v : json) : bool := existsb (λ w, same w v) values.
Definition asRecord (v : json) : option json := match v with JObject _ => Some v | _ => None end.
(* asRecord(value) ?? {} *)
Definition record_or_empty (v : json) : json := default (JObject []) (asRecord v).
Definition isCustomerFacingFindingRecordLike (v : json) : bool :=
  match v with
  | JObject _ => (has_text "customer_facing_finding_record_id" v || negb (is_undefined (prop "expert_classification" v)))%bool
  | _ => false
  end.
Definition isMeaningfulRemediationText (v : json) : bool := match v with JString s => (12 <=? length (js_trim s))%nat | _ => false end.
Definition meaningful (name : string) (v : json) : bool := isMeaningfulRemediationText (prop name v).

Definition isLeapYear (year : Z) : bool := (((year mod 4 =? 0) && negb (year mod 100 =? 0)) || (year mod 400 =? 0))%bool.
Definition days_of_months (year : Z) : list Z := [31; if isLeapYear year then 29 else 28; 31; 30; 31; 30; 31; 31; 30; 31; 30; 31].
(* Number(text) of a text of digits *)
Definition digits_number (s : list Z) : Z := fold_left (λ n c, n * 10 + (c - 48)) s 0.
Definition isIsoCalendarDate (value : jsstr) : bool :=
  match exec flags_none (re "^(\d{4})-(\d{2})-(\d{2})$") value with
  | None => false
  | Some m =>
      let part i := digits_number (default [] (group m i)) in
      if ((part 2%nat <? 1) || (12 <? part 2%nat))%bool then false
      else match days_of_months (part 1%nat) !! Z.to_nat (part 2%nat - 1) with
      | Some days => (1 <=? part 3%nat) && (part 3%nat <=? days)
      | None => false
      end%bool
  end.

Fixpoint valueAtPathParts (parts : list string) : json → json :=
  match parts with
  | [] => λ v, v
  | part :: remaining =>
      fix go (v : json) : json :=
        match v with
        | JArray l => JArray (List.map go l)
        | JObject _ => valueAtPathParts remaining (prop part v)
        | _ => JForeign
        end
  end.

(** * The rules *)

(* The references a record repeats from its sections *)
Definition section_mismatch (name : string) (value section : json) : bool := (has_text name value && negb (same (prop name section) (prop name value)))%bool.
Definition shared_mismatch (name : string) (value section : json) : bool :=
  ((has_text name value || has_text name section) && negb (same (prop name section) (prop name value)))%bool.
Definition latest_status_unlisted (value customerStatus : json) : bool :=
  (has_text "latest_status_record_ref" customerStatus &&
   negb (lists (elements (prop "customer_status_record_refs" value)) (prop "latest_status_record_ref" customerStatus)))%bool.
Definition actionable_details_missing (expert guidance : json) : bool :=
  (has_string "actionable_guidance_provided" (prop "guidance_status" guidance) &&
   (negb (meaningful "suggested_remediation_summary" guidance) || negb (meaningful "validation_step_summary" guidance) ||
    (one_of ["likely"; "confirmed"] (prop "classification" expert) && negb (meaningful "exploitability_rationale_summary" guidance))))%bool.
Definition limited_guidance (guidance : json) : bool :=
  one_of ["limited_guidance_requires_validation"; "guidance_unavailable_from_submitted_evidence"] (prop "guidance_status" guidance).
Definition next_step_missing (guidance : json) : bool :=
  (negb (meaningful "next_step_summary" guidance) && negb (meaningful "validation_path_summary" guidance) && negb (has_text "validation_path_ref" guidance))%bool.
Definition verification_unreferenced (verification : json) : bool :=
  (one_of ["verification_complete"; "verified_with_evidence"] (prop "status" verification) && negb (has_text "verification_record_ref" verification))%bool.

(* An outcome of a finding, accepted risk or false positive: the names of its fields *)
Record OutcomeKind := { visible_field : string; ref_field : string; outcome_field : string; own_summary : string }.
Definition accepted_risk : OutcomeKind := {| visible_field := "accepted_risk_visible"; ref_field := "accepted_risk_record_ref";
  outcome_field := "accepted_risk_outcome"; own_summary := "customer_acceptance_summary" |}.
Definition false_positive : OutcomeKind := {| visible_field := "false_positive_visible"; ref_field := "false_positive_record_ref";
  outcome_field := "false_positive_outcome"; own_summary := "rationale_summary" |}.
Definition ref_consistent (k : OutcomeKind) (future : json) : bool := prop (visible_field k) future === JBool (has_text (ref_field k) future).
Definition outcome_section_wrong (k : OutcomeKind) (value future : json) : bool :=
  let outcome := asRecord (prop (outcome_field k) value) in
  if ((prop (visible_field k) future === JBool true) && ref_consistent k future &&
      same (prop (ref_field k) future) (prop (ref_field k) value) && has_text (ref_field k) value)%bool
  then match outcome with
       | None => true
       | Some o => (negb (same (prop (ref_field k) o) (prop (ref_field k) future)) || negb (same (prop (ref_field k) o) (prop (ref_field k) value)))%bool
       end
  else (bool_decide (is_Some outcome) && negb (prop (visible_field k) future === JBool true))%bool.
Definition outcome_details_missing (k : OutcomeKind) (outcome : json) : bool :=
  (bool_decide (elements (prop "evidence_refs" outcome) = []) || negb (meaningful "evidence_basis_summary" outcome) || negb (meaningful (own_summary k) outcome))%bool.
Definition export_undeclared (outcome : json) : bool := negb (one_of ["include"; "exclude"] (prop "evidence_consumer_export" outcome)).
Definition accepted_risk_issues (outcome : json) : Issues :=
  issue_when (outcome_details_missing accepted_risk outcome) customer_facing_finding_outcome_details_required
  ++ issue_when (export_undeclared outcome) customer_facing_finding_outcome_export_required.
Definition false_positive_issues (outcome : json) : Issues :=
  issue_when (outcome_details_missing false_positive outcome) customer_facing_finding_outcome_details_required
  ++ issue_when (negb (has_string "reviewer" (prop "actor_category" outcome))) customer_facing_finding_outcome_details_required
  ++ issue_when (export_undeclared outcome) customer_facing_finding_outcome_export_required.
Definition of_outcome (f : json → Issues) (outcome : json) : Issues := match asRecord outcome with Some o => f o | None => [] end.
Definition due_date_invalid (customerStatus : json) : bool :=
  match prop "due_date" customerStatus with JString s => negb (isIsoCalendarDate s) | _ => false end.

(* The paths and scripts of a record, and both by their references *)
Definition records_of (v : json) : list json := List.filter isRecord (elements v).
Definition by_ref (name : string) (records : list json) : list (json * json) :=
  fold_left (λ m r, JsMap.set (prop name r) r m) (List.filter (has_text name) records) [].
Definition is_defined (name : string) (v : json) : bool := negb (is_undefined (prop name v)).
Definition remote_fields : list string := ["target"; "authorization_assumption"; "method"; "safety_constraints"; "evidence_artifacts_to_collect"].
Definition remote_details_missing (pathRecord : json) : bool :=
  (existsb (λ name, negb (meaningful name pathRecord)) ["target"; "authorization_assumption"; "method"; "safety_constraints"] ||
   bool_decide (elements (prop "evidence_artifacts_to_collect" pathRecord) = []))%bool.
Definition script_ref_unresolved (scriptsByRef : list (json * json)) (pathRecord ref : json) : bool :=
  match ref with
  | JString _ =>
      match JsMap.get ref scriptsByRef with
      | Some script => negb (same (prop "validation_path_ref" script) (prop "validation_path_ref" pathRecord))
      | None => true
      end
  | _ => true
  end.
Definition path_issues (scriptsByRef : list (json * json)) (pathRecord : json) : Issues :=
  let path_type := prop "path_type" pathRecord in
  let scriptRefs := elements (prop "reviewer_validation_script_refs" pathRecord) in
  let mismatch b := issue_when b customer_facing_finding_reference_mismatch in
  mismatch (if has_string "remote_dynamic_testing" path_type then remote_details_missing pathRecord
            else existsb (λ name, is_defined name pathRecord) remote_fields)
  ++ (if has_string "customer_run_script" path_type then
        mismatch (bool_decide (scriptRefs = [])) ++ mismatch (existsb (script_ref_unresolved scriptsByRef pathRecord) scriptRefs)
      else mismatch (is_defined "reviewer_validation_script_refs" pathRecord))
  ++ mismatch (has_string "manual_steps" path_type && negb (meaningful "output_attachment_instructions" pathRecord))%bool.
Definition script_unlisted (pathsByRef : list (json * json)) (script : json) : bool :=
  match (if has_text "validation_path_ref" script then JsMap.get (prop "validation_path_ref" script) pathsByRef else None) with
  | None => true
  | Some pathRecord =>
      (negb (has_string "customer_run_script" (prop "path_type" pathRecord)) ||
       negb (lists (elements (prop "reviewer_validation_script_refs" pathRecord)) (prop "validation_script_ref" script)))%bool
  end.
(* [...].filter((item) => typeof item === "string").join(" ") *)
Fixpoint join_space (texts : list jsstr) : jsstr := match texts with [] => [] | [s] => s | s :: texts' => s ++ 32 :: join_space texts' end.
Definition texts_of (values : list json) : list jsstr := List.flat_map (λ v, match v with JString s => [s] | _ => [] end) values.
Definition pricing_copy (script : json) : jsstr :=
  join_space (texts_of (List.map (λ name, prop name script)
    ["pricing_note"; "purpose"; "prerequisites"; "execution_steps"; "expected_output"; "safety_notes"; "output_attachment_instructions"; "script_content"])).
Definition pricing_note_missing (script : json) : bool :=
  (has_string "additional_script_candidate_pricing_tbd" (prop "script_package_status" script) &&
   negb (test_flags flags_iu (re "pricing\s+tbd") (pricing_copy script)))%bool.
Definition script_issues (pathsByRef : list (json * json)) (script : json) : Issues :=
  issue_when (script_unlisted pathsByRef script) customer_facing_finding_reference_mismatch
  ++ issue_when (pricing_note_missing script) customer_facing_finding_script_pricing_tbd_required.

Section customer_findings.
Context `{UnicodeText}.

Fixpoint collectTextViolations (v : json) : Issues :=
  match v with
  | JString _ =>
      if bool_decide (is_Some (sourceTextForbiddenPhrase v)) then [customer_facing_finding_raw_source_text_forbidden]
      else issue_when (bool_decide (is_Some (customerVisibleTextForbidden v))) customer_facing_finding_claim_unsafe_text_forbidden
  | JArray l => List.flat_map collectTextViolations l
  | _ => []
  end.

(* Every rule but the text screens *)
Definition record_rule_issues (value : json) : Issues :=
  let expert := record_or_empty (prop "expert_classification" value) in
  let guidance := record_or_empty (prop "reviewer_remediation_guidance" value) in
  let customerStatus := record_or_empty (prop "customer_remediation_status" value) in
  let verification := record_or_empty (prop "verification_state" value) in
  let future := record_or_empty (prop "future_outcome_visibility" value) in
  let paths := records_of (prop "validation_paths" value) in
  let scripts := records_of (prop "reviewer_validation_scripts" value) in
  issue_when (negb (has_string "retained_review_artifact" (prop "source_derived_class" value))) customer_facing_finding_source_class_required
  ++ issue_when (negb (has_string "customer_facing" (prop "visibility" value))) customer_facing_finding_visibility_required
  ++ issue_when (has_text "ambiguous_status" value || has_text "status" value || has_text "remediation_status" value)%bool
       customer_facing_finding_status_separation_required
  ++ issue_when (section_mismatch "classification_record_ref" value expert) customer_facing_finding_reference_mismatch
  ++ issue_when (section_mismatch "remediation_guidance_ref" value guidance) customer_facing_finding_reference_mismatch
  ++ issue_when (shared_mismatch "verification_record_ref" value verification) customer_facing_finding_reference_mismatch
  ++ issue_when (shared_mismatch (ref_field accepted_risk) value future) customer_facing_finding_reference_mismatch
  ++ issue_when (shared_mismatch (ref_field false_positive) value future) customer_facing_finding_reference_mismatch
  ++ issue_when (bool_decide (elements (prop "evidence_refs" (record_or_empty (prop "evidence_basis" value))) = [])) customer_facing_finding_evidence_ref_required
  ++ issue_when (latest_status_unlisted value customerStatus) customer_facing_finding_reference_mismatch
  ++ issue_when (actionable_details_missing expert guidance) customer_facing_finding_guidance_actionable_details_required
  ++ issue_when (limited_guidance guidance && negb (meaningful "insufficient_evidence_reason" guidance))%bool
       customer_facing_finding_guidance_insufficient_evidence_reason_required
  ++ issue_when (limited_guidance guidance && next_step_missing guidance)%bool customer_facing_finding_guidance_next_step_required
  ++ issue_when (verification_unreferenced verification) customer_facing_finding_verification_reference_required
  ++ issue_when (negb (ref_consistent accepted_risk future)) customer_facing_finding_future_outcome_reference_required
  ++ issue_when (negb (ref_consistent false_positive future)) customer_facing_finding_future_outcome_reference_required
  ++ issue_when (outcome_section_wrong accepted_risk value future) customer_facing_finding_outcome_section_required
  ++ issue_when (outcome_section_wrong false_positive value future) customer_facing_finding_outcome_section_required
  ++ of_outcome accepted_risk_issues (prop "accepted_risk_outcome" value)
  ++ of_outcome false_positive_issues (prop "false_positive_outcome" value)
  ++ issue_when ((prop "customer_notes_visible" customerStatus === JBool false) && has_text "customer_notes_summary" customerStatus)%bool
       customer_facing_finding_customer_notes_export_forbidden
  ++ issue_when (due_date_invalid customerStatus) customer_facing_finding_due_date_invalid
  ++ List.flat_map (path_issues (by_ref "validation_script_ref" scripts)) paths
  ++ List.flat_map (script_issues (by_ref "validation_path_ref" paths)) scripts.
Definition customerFacingFindingRecordSemanticIssues (value : json) : Issues :=
  if negb (isCustomerFacingFindingRecordLike value) then [] else
  record_rule_issues value
  ++ List.flat_map (λ field : string * string, collectTextViolations (valueAtPathParts [field.1; field.2] value)) CUSTOMER_FACING_FINDING_TEXT_FIELDS.

End customer_findings.

(** * Readings *)

Lemma same_text v w s : same v w = true → v = JString s ∨ w = JString s → v = JString s ∧ w = JString s.
Proof. by destruct v; intros Hs; try done; apply bool_decide_eq_true in Hs as <-; intros [E0|E0]. Qed.
Lemma same_refl s : same (JString s) (JString s) = true.
Proof. apply json_eq_refl. Qed.
Lemma has_text_true name v : has_text name v = true ↔ ∃ s, prop name v = JString s.
Proof. unfold has_text. destruct (prop name v); naive_solver. Qed.
Lemma elements_some v : bool_decide (elements v = []) = false ↔ ∃ e l, v = JArray (e :: l).
Proof. rewrite bool_decide_eq_false. destruct v as [| | | | | |[|e l]|]; cbn [elements]; naive_solver. Qed.
Lemma lists_text values s : lists values (JString s) = true ↔ JString s ∈ values.
Proof.
  unfold lists. rewrite existsb_elem. split; [intros (w & Hw & Hs); by destruct (same_text w _ s Hs ltac:(by right)) as [-> _]|].
  intros Hin. exists (JString s). split; [done|apply same_refl].
Qed.
Lemma elem_filter {A} (p : A → bool) l x : x ∈ List.filter p l ↔ x ∈ l ∧ p x = true.
Proof. by rewrite !list_elem_of_In, filter_In. Qed.
Lemma by_ref_sound name records ref r : JsMap.get ref (by_ref name records) = Some r → r ∈ records ∧ prop name r = ref.
Proof.
  unfold by_ref. assert (∀ l m, (∀ f, JsMap.get ref m = Some f → f ∈ records ∧ prop name f = ref) → (∀ f, f ∈ l → f ∈ records) →
    ∀ f, JsMap.get ref (fold_left (λ m r, JsMap.set (prop name r) r m) l m) = Some f → f ∈ records ∧ prop name f = ref) as Hg.
  { induction l as [|g l IH]; intros m Hm Hl f; [apply Hm|]. cbn [fold_left]. apply IH; [|intros; apply Hl; by right].
    intros f'. rewrite JsMap.get_set. case_decide as E0; [|apply Hm]. intros [= <-]. split; [apply Hl; left|done]. }
  apply Hg; [done|]. intros f Hf. by apply elem_filter in Hf as [Hf _].
Qed.
Lemma asRecord_is v o : asRecord v = Some o ↔ v = o ∧ isRecord v = true.
Proof. destruct v; simpl; naive_solver. Qed.

(** * Outcomes *)

(* What a clean record says of an outcome: shown with its evidence, or not there at all *)
Definition outcome_shown (k : OutcomeKind) (value : json) : Prop :=
  let future := record_or_empty (prop "future_outcome_visibility" value) in
  prop (visible_field k) future = JBool true ∧
  ∃ ref o, prop (ref_field k) value = JString ref ∧ prop (ref_field k) future = JString ref ∧
    prop (outcome_field k) value = o ∧ isRecord o = true ∧ prop (ref_field k) o = JString ref ∧
    (∃ e l, prop "evidence_refs" o = JArray (e :: l)) ∧ meaningful "evidence_basis_summary" o = true ∧ meaningful (own_summary k) o = true ∧
    one_of ["include"; "exclude"] (prop "evidence_consumer_export" o) = true.
Definition outcome_hidden (k : OutcomeKind) (value : json) : Prop :=
  let future := record_or_empty (prop "future_outcome_visibility" value) in
  prop (visible_field k) future = JBool false ∧ has_text (ref_field k) value = false ∧ has_text (ref_field k) future = false ∧
  isRecord (prop (outcome_field k) value) = false.
Lemma outcome_exact k value : let future := record_or_empty (prop "future_outcome_visibility" value) in
  shared_mismatch (ref_field k) value future = false → ref_consistent k future = true → outcome_section_wrong k value future = false →
  (∀ o, asRecord (prop (outcome_field k) value) = Some o → outcome_details_missing k o = false ∧ export_undeclared o = false) →
  outcome_shown k value ∨ outcome_hidden k value.
Proof.
  unfold outcome_shown, outcome_hidden. generalize (record_or_empty (prop "future_outcome_visibility" value)). intros future Hs Hc Ho Hd.
  unfold outcome_section_wrong in Ho. rewrite Hc in Ho. unfold shared_mismatch in Hs. unfold ref_consistent in Hc. apply bool_decide_eq_true in Hc.
  destruct (has_text (ref_field k) future) eqn:Hf.
  - left. split; [done|]. apply has_text_true in Hf as [ref Hf]. rewrite orb_true_r, andb_true_l, negb_false_iff in Hs.
    rewrite Hs, Hc, json_eq_refl in Ho. pose proof (same_text _ _ ref Hs ltac:(by left)) as [_ Hv].
    assert (has_text (ref_field k) value = true) as Ht by (apply has_text_true; eauto). rewrite Ht in Ho. cbn [andb] in Ho.
    destruct (asRecord (prop (outcome_field k) value)) as [o|] eqn:Hr; [|done]. apply orb_false_iff in Ho as [Ho _]. rewrite negb_false_iff, Hf in Ho.
    pose proof (same_text _ _ ref Ho ltac:(by right)) as [Hor _]. destruct (Hd o eq_refl) as [Hm Hx].
    apply asRecord_is in Hr as [<- Hr]. unfold outcome_details_missing in Hm. rewrite !orb_false_iff, !negb_false_iff, elements_some in Hm.
    destruct Hm as [[He Hb] Hw]. apply negb_false_iff in Hx. exists ref, (prop (outcome_field k) value). done.
  - right. rewrite orb_false_r in Hs. assert (has_text (ref_field k) value = false) as Ht.
    { destruct (has_text (ref_field k) value) eqn:Ht; [|done]. rewrite andb_true_l, negb_false_iff in Hs. apply has_text_true in Ht as [ref Ht].
      pose proof (same_text _ _ ref Hs ltac:(by right)) as [Hr _]. assert (has_text (ref_field k) future = true); [apply has_text_true; eauto|congruence]. }
    split_and!; [done..|]. rewrite Hc in Ho. change (JBool false === JBool true) with false in Ho. cbn [andb negb] in Ho. rewrite andb_true_r in Ho.
    apply bool_decide_eq_false in Ho. destruct (prop (outcome_field k) value); try done. by destruct Ho.
Qed.

(** * Texts *)

Fixpoint texts_within (v : json) : list json :=
  match v with JString _ => [v] | JArray l => List.flat_map texts_within l | _ => [] end.
Section texts.
Context `{UnicodeText}.
Definition allowed_text (v : json) : Prop := sourceTextForbiddenPhrase v = None ∧ customerVisibleTextForbidden v = None.
Lemma no_text_violations v : collectTextViolations v = [] ↔ ∀ t, t ∈ texts_within v → allowed_text t.
Proof.
  induction v as [| | | | | |l IH|fs _] using json_nested_ind; cbn [texts_within collectTextViolations]; try (split; [intros _ t Ht; by apply elem_of_nil in Ht|done]).
  - setoid_rewrite list_elem_of_singleton. unfold allowed_text. case_bool_decide as E1.
    + split; [done|]. intros Hall. destruct (Hall _ eq_refl) as [E0 _]. rewrite E0 in E1. by destruct E1.
    + apply eq_None_not_Some in E1. rewrite issue_when_nil, bool_decide_eq_false, <- eq_None_not_Some.
      split; [by intros Hc t ->|]. intros Hall. by destruct (Hall _ eq_refl).
  - rewrite flat_map_nil. setoid_rewrite list_elem_of_In at 2. setoid_rewrite in_flat_map. setoid_rewrite <- list_elem_of_In.
    rewrite Forall_forall in IH. split.
    + intros Hall t (x & Hx & Ht). by apply (proj1 (IH x Hx) (Hall x Hx)).
    + intros Hall x Hx. apply IH; [done|]. intros t Ht. apply Hall. by exists x.
Qed.

(** * What a clean record is *)

Definition path_sound (scripts : list json) (path : json) : Prop :=
  (prop "path_type" path = jstr "customer_run_script" ∧
    (∃ e l, prop "reviewer_validation_script_refs" path = JArray (e :: l)) ∧
    ∀ ref, ref ∈ elements (prop "reviewer_validation_script_refs" path) → ∃ script, script ∈ scripts ∧
      prop "validation_script_ref" script = ref ∧ same (prop "validation_path_ref" script) (prop "validation_path_ref" path) = true) ∨
  (prop "path_type" path ≠ jstr "customer_run_script" ∧ is_defined "reviewer_validation_script_refs" path = false).
Definition script_sound (paths : list json) (script : json) : Prop :=
  ∃ path ref, path ∈ paths ∧ prop "validation_path_ref" script = JString ref ∧ prop "validation_path_ref" path = JString ref ∧
    prop "path_type" path = jstr "customer_run_script" ∧
    lists (elements (prop "reviewer_validation_script_refs" path)) (prop "validation_script_ref" script) = true.
Definition remote_sound (path : json) : Prop :=
  if decide (prop "path_type" path = jstr "remote_dynamic_testing")
  then (∀ name, name ∈ ["target"; "authorization_assumption"; "method"; "safety_constraints"]%string → meaningful name path = true) ∧
       ∃ e l, prop "evidence_artifacts_to_collect" path = JArray (e :: l)
  else ∀ name, name ∈ remote_fields → is_defined name path = false.

Lemma path_clean scripts path : path_issues (by_ref "validation_script_ref" scripts) path = [] → path_sound scripts path ∧ remote_sound path.
Proof.
  unfold path_issues. intros Hi. rewrite !app_nil, !issue_when_nil in Hi. destruct Hi as (Hr & Hs & _). split.
  - clear Hr. unfold path_sound. destruct (has_string "customer_run_script" (prop "path_type" path)) eqn:Ht.
    + left. apply has_string_true in Ht. rewrite app_nil, !issue_when_nil in Hs. destruct Hs as [He%elements_some Hu].
      split; [done|]. split; [done|]. intros ref Hin. apply (proj1 (existsb_false _ _) Hu) in Hin. unfold script_ref_unresolved in Hin.
      destruct ref; try done. destruct (JsMap.get _ _) as [script|] eqn:Hg; [|done].
      apply by_ref_sound in Hg as [Hsc Href]. apply negb_false_iff in Hin. by exists script.
    + right. rewrite issue_when_nil in Hs. split; [|done]. intros E0. by rewrite E0, has_string_jstr in Ht.
  - unfold remote_sound. case_decide as E0.
    + rewrite E0, has_string_jstr in Hr. unfold remote_details_missing in Hr. apply orb_false_iff in Hr as [Hm He%elements_some]. split; [|done].
      intros name Hn. by apply (proj1 (existsb_false _ _) Hm), negb_false_iff in Hn.
    + assert (has_string "remote_dynamic_testing" (prop "path_type" path) = false) as Hf.
      { destruct (has_string _ _) eqn:E1; [|done]. by apply has_string_true in E1. }
      rewrite Hf in Hr. intros name Hn. by apply (proj1 (existsb_false _ _) Hr) in Hn.
Qed.
Lemma script_clean paths script : script_issues (by_ref "validation_path_ref" paths) script = [] → script_sound paths script.
Proof.
  unfold script_issues. intros Hi. rewrite !app_nil, !issue_when_nil in Hi. destruct Hi as [Hu _]. unfold script_unlisted in Hu.
  destruct (has_text "validation_path_ref" script) eqn:Ht; [|done]. apply has_text_true in Ht as [ref Ht]. rewrite Ht in Hu.
  destruct (JsMap.get _ _) as [path|] eqn:Hg; [|done]. apply by_ref_sound in Hg as [Hin Href].
  apply orb_false_iff in Hu as [Hc%negb_false_iff%has_string_true Hl%negb_false_iff]. exists path, ref. done.
Qed.

Record finding_sound (value : json) : Prop := {
  sound_customer_facing : prop "visibility" value = jstr "customer_facing" ∧ prop "source_derived_class" value = jstr "retained_review_artifact";
  sound_one_status : has_text "status" value = false ∧ has_text "remediation_status" value = false ∧ has_text "ambiguous_status" value = false;
  sound_evidence : ∃ e l, prop "evidence_refs" (prop "evidence_basis" value) = JArray (e :: l);
  sound_verification : one_of ["verification_complete"; "verified_with_evidence"] (prop "status" (prop "verification_state" value)) = true →
    ∃ ref, prop "verification_record_ref" (prop "verification_state" value) = JString ref ∧ prop "verification_record_ref" value = JString ref;
  sound_accepted_risk : outcome_shown accepted_risk value ∨ outcome_hidden accepted_risk value;
  sound_false_positive : (outcome_shown false_positive value ∧ prop "actor_category" (prop "false_positive_outcome" value) = jstr "reviewer") ∨
    outcome_hidden false_positive value;
  sound_notes : prop "customer_notes_visible" (prop "customer_remediation_status" value) = JBool false →
    has_text "customer_notes_summary" (prop "customer_remediation_status" value) = false;
  sound_paths : ∀ path, path ∈ records_of (prop "validation_paths" value) →
    path_sound (records_of (prop "reviewer_validation_scripts" value)) path ∧ remote_sound path;
  sound_scripts : ∀ script, script ∈ records_of (prop "reviewer_validation_scripts" value) →
    script_sound (records_of (prop "validation_paths" value)) script;
  sound_texts : ∀ section name text, (section, name) ∈ CUSTOMER_FACING_FINDING_TEXT_FIELDS →
    text ∈ texts_within (valueAtPathParts [section; name] value) → allowed_text text
}.
Lemma prop_record_or_empty name v : prop name (record_or_empty v) = prop name v.
Proof. by destruct v. Qed.
Lemma has_text_record_or_empty name v : has_text name (record_or_empty v) = has_text name v.
Proof. unfold has_text. by rewrite prop_record_or_empty. Qed.

(** C34. A finding record without issues is for customers and of retained evidence, keeps
    expert, customer and verification status apart, claims verification only with the
    record it and its section both name, shows an accepted risk or a false positive
    exactly when its section, its flag and its reference agree and carry evidence, hides
    the notes the customer hid, ties every validation script to a path that lists it and
    every listed script to its path, and says nothing forbidden in any of its texts. *)
Theorem clean_finding_is_sound value :
  isCustomerFacingFindingRecordLike value = true → customerFacingFindingRecordSemanticIssues value = [] → finding_sound value.
Proof.
  intros Hlike. unfold customerFacingFindingRecordSemanticIssues. rewrite Hlike. cbn [negb]. intros [Hi Ht]%app_nil.
  unfold record_rule_issues in Hi. rewrite !app_nil, !issue_when_nil, !flat_map_nil in Hi.
  destruct Hi as (Hclass%negb_false_iff%has_string_true & Hvis%negb_false_iff%has_string_true & Hstatus & _ & _ & Hver & Har & Hfp & Hev & _ & _ & _ & _ & Hvr &
    Harc%negb_false_iff & Hfpc%negb_false_iff & Haro & Hfpo & Hari & Hfpi & Hnotes & _ & Hpaths & Hscripts).
  rewrite !orb_false_iff in Hstatus. destruct Hstatus as [[Hs1 Hs2] Hs3]. constructor; try done.
  - apply elements_some in Hev. by rewrite prop_record_or_empty in Hev.
  - intros Hdone. unfold verification_unreferenced, shared_mismatch in *. rewrite !has_text_record_or_empty, !prop_record_or_empty in *.
    rewrite Hdone in Hvr. apply negb_false_iff, has_text_true in Hvr as [ref Hr]. exists ref. split; [done|].
    rewrite (proj2 (has_text_true "verification_record_ref" (prop "verification_state" value))), orb_true_r in Hver by eauto.
    apply negb_false_iff in Hver. by destruct (same_text _ _ ref Hver ltac:(by left)).
  - apply outcome_exact; [done..|]. intros o Ho. change (prop (outcome_field accepted_risk) value) with (prop "accepted_risk_outcome" value) in Ho.
    unfold of_outcome in Hari. rewrite Ho in Hari. unfold accepted_risk_issues in Hari.
    by rewrite app_nil, !issue_when_nil in Hari.
  - assert (∀ o, asRecord (prop (outcome_field false_positive) value) = Some o → outcome_details_missing false_positive o = false ∧ export_undeclared o = false ∧
      prop "actor_category" o = jstr "reviewer") as Ho.
    { intros o Ho. unfold of_outcome in Hfpi. change (prop (outcome_field false_positive) value) with (prop "false_positive_outcome" value) in Ho.
      rewrite Ho in Hfpi. unfold false_positive_issues in Hfpi. rewrite !app_nil, !issue_when_nil, negb_false_iff, has_string_true in Hfpi. tauto. }
    destruct (outcome_exact false_positive value Hfp Hfpc Hfpo) as [Hshown|Hhidden]; [intros o E0; by destruct (Ho o E0) as (? & ? & _)| |by right].
    left. split; [done|]. destruct Hshown as (_ & ref & o & _ & _ & Eo & Hrec & _). apply Ho. apply asRecord_is. by rewrite Eo.
  - rewrite prop_record_or_empty, has_text_record_or_empty in Hnotes. intros E0. by rewrite E0, json_eq_refl in Hnotes.
  - intros path Hin. by apply path_clean, Hpaths.
  - intros script Hin. by apply script_clean, Hscripts.
  - intros section name text Hin. apply no_text_violations. by apply (proj1 (flat_map_nil _ _) Ht (section, name)).
Qed.
End texts.

(** * Samples, after protocol/fixtures/v0/valid/customer-facing-finding-record.json *)

Module FindingSamples.
Import SampleText.
Definition kept : json := jstr "Kept for the record.".
Definition guidance : json := jobj [("guidance_status", jstr "actionable_guidance_provided"); ("remediation_guidance_ref", jstr "remediation_guidance:one");
  ("exploitability_rationale_summary", kept); ("suggested_remediation_summary", kept); ("validation_step_summary", kept); ("limitations", jarr [kept])].
Definition outcome : json := jobj [("accepted_risk_record_ref", jstr "accepted_risk:one"); ("actor_category", jstr "customer_user");
  ("evidence_basis_summary", kept); ("evidence_refs", jarr [jstr "artifact_ref:scanner_finding_set"]); ("customer_acceptance_summary", kept);
  ("scope_of_acceptance", kept); ("limitations", jarr [kept]); ("evidence_consumer_export", jstr "include")].
Definition script_path : json := jobj [("validation_path_ref", jstr "validation_path:one"); ("path_type", jstr "customer_run_script");
  ("reviewer_validation_script_refs", jarr [jstr "validation_script:one"]); ("steps", kept)].
Definition script : json := jobj [("validation_script_ref", jstr "validation_script:one"); ("validation_path_ref", jstr "validation_path:one");
  ("script_package_status", jstr "included_base_package"); ("purpose", kept)].
Definition finding_with (visible : bool) (due_date : string) : json := jobj
  [("customer_facing_finding_record_id", jstr "customer_facing_finding:one"); ("classification_record_ref", jstr "classification_record:one");
   ("remediation_guidance_ref", jstr "remediation_guidance:one"); ("customer_status_record_refs", jarr [jstr "customer_status:one"]);
   ("expert_classification", jobj [("classification", jstr "likely"); ("classification_record_ref", jstr "classification_record:one"); ("rationale_summary", kept)]);
   ("evidence_basis", jobj [("evidence_refs", jarr [jstr "artifact_ref:raw_snippet"]); ("limitations", jarr [kept])]);
   ("reviewer_remediation_guidance", guidance);
   ("customer_remediation_status", jobj [("latest_status", jstr "planned"); ("latest_status_record_ref", jstr "customer_status:one");
      ("due_date", jstr due_date); ("customer_notes_visible", JBool false)]);
   ("verification_state", jobj [("status", jstr "not_verified"); ("summary", kept)]);
   ("future_outcome_visibility", jobj [("accepted_risk_visible", JBool visible); ("accepted_risk_record_ref", jstr "accepted_risk:one"); ("false_positive_visible", JBool false)]);
   ("visibility", jstr "customer_facing"); ("source_derived_class", jstr "retained_review_artifact"); ("accepted_risk_record_ref", jstr "accepted_risk:one");
   ("accepted_risk_outcome", outcome); ("validation_paths", jarr [script_path]); ("reviewer_validation_scripts", jarr [script])].
Definition sample_finding : json := Eval vm_compute in finding_with true "2028-02-29".

Lemma kept_text_allowed : allowed_text kept.
Proof. split; by vm_compute. Qed.
Lemma kept_finding value : isCustomerFacingFindingRecordLike value = true → record_rule_issues value = [] →
  forallb (λ field : string * string, forallb (λ text, text === kept) (texts_within (valueAtPathParts [field.1; field.2] value)))
    CUSTOMER_FACING_FINDING_TEXT_FIELDS = true → customerFacingFindingRecordSemanticIssues value = [].
Proof.
  intros Hl Hi Hk. unfold customerFacingFindingRecordSemanticIssues. rewrite Hl, Hi. cbn [negb app]. apply flat_map_nil. intros field Hf.
  apply no_text_violations. intros text Ht. apply (proj1 (forallb_elem _ _) Hk) in Hf. apply (proj1 (forallb_elem _ _) Hf), bool_decide_eq_true in Ht as ->.
  apply kept_text_allowed.
Qed.
(* A hidden outcome with its section, and a day the calendar lacks *)
Example contradictory_finding : record_rule_issues (finding_with false "2026-02-29") =
  [customer_facing_finding_future_outcome_reference_required; customer_facing_finding_outcome_section_required; customer_facing_finding_due_date_invalid].
Proof. by vm_compute. Qed.
Lemma clean_finding_is_sound_witness : customerFacingFindingRecordSemanticIssues sample_finding = [] ∧ finding_sound sample_finding.
Proof.
  assert (customerFacingFindingRecordSemanticIssues sample_finding = []) as Hi by (apply kept_finding; by vm_compute).
  split; [exact Hi|]. apply (clean_finding_is_sound sample_finding); [by vm_compute|exact Hi].
Defined.
End FindingSamples.
