(* ===== verification/Worker.v ===== *)
(** Normalization of scanner findings into review finding drafts
    (services/worker/src/index.ts). The boundary validates every artifact against its
    schema first, so the fields read afterwards as texts and lists are that. *)

From Stdlib Require Import String.
From S2P Require Import Prelude Patterns Bytes Json JsonText Regex CanonicalJson Timestamps Schema Registry Values ClaimSafety SubmittedArtifacts Receipts.

Local Open Scope Z_scope.

(** * Reasons and tables *)

Inductive NormalizeCandidateFindingsRejectionReason :=
  | normalization_input_not_object
  | normalization_metadata_invalid
  | normalization_receipt_absent
  | normalization_receipt_not_received
  | normalization_review_scope_schema_invalid
  | normalization_bundle_manifest_schema_invalid
  | normalization_outbound_manifest_schema_invalid
  | normalization_scanner_finding_set_schema_invalid
  | normalization_vendor_receipt_schema_invalid
  | normalization_receipt_bundle_mismatch
  | normalization_receipt_manifest_mismatch
  | normalization_receipt_coverage_mode_mismatch
  | normalization_receipt_attempt_mismatch
  | normalization_manifest_bundle_mismatch
  | normalization_scanner_finding_set_mismatch
  | normalization_bundle_manifest_identity_invalid
  | normalization_review_scope_identity_invalid
  | normalization_bundle_manifest_semantic_invalid
  | normalization_outbound_manifest_semantic_invalid
  | normalization_scanner_finding_set_semantic_invalid
  | normalization_receipt_unverified
  | normalization_review_scope_mismatch
  | normalization_disclosure_policy_mismatch
  | normalization_selected_application_mismatch
  | normalization_selected_commit_mismatch
  | normalization_repository_identity_mismatch
  | normalization_chronology_invalid
  | normalization_availability_invalid
  | normalization_candidate_provenance_unsafe
  | normalization_candidate_run_coverage_missing
  | normalization_scan_coverage_incomplete
  | normalization_output_schema_invalid.
Definition ARTIFACT_SEMANTIC_ISSUE_REASON (issue : VerifiedArtifactSemanticIssue) : NormalizeCandidateFindingsRejectionReason :=
  match issue with
  | chain_review_scope_identity_mismatch => normalization_review_scope_identity_invalid
  | chain_bundle_manifest_identity_mismatch => normalization_bundle_manifest_identity_invalid
  | chain_bundle_manifest_semantic_invalid => normalization_bundle_manifest_semantic_invalid
  | chain_outbound_manifest_semantic_invalid => normalization_outbound_manifest_semantic_invalid
  | chain_scanner_finding_set_semantic_invalid => normalization_scanner_finding_set_semantic_invalid
  end.
Definition SUBMISSION_CHAIN_ISSUE_REASON (issue : VerifiedSubmissionChainIssue) : NormalizeCandidateFindingsRejectionReason :=
  match issue with
  | chain_receipt_unverified => normalization_receipt_unverified
  | chain_review_scope_mismatch => normalization_review_scope_mismatch
  | chain_disclosure_policy_mismatch => normalization_disclosure_policy_mismatch
  | chain_selected_application_mismatch => normalization_selected_application_mismatch
  | chain_selected_commit_mismatch => normalization_selected_commit_mismatch
  | chain_repository_identity_mismatch => normalization_repository_identity_mismatch
  end.
Inductive NormalizeCandidateFindingsResult :=
  | normalized (draft_set : json)
  | rejected (reason : NormalizeCandidateFindingsRejectionReason).

Definition NO_FINDINGS_STATEMENT : string := "No findings were produced by the configured inputs".
Definition SCANNER_SET_REF : json := jstr "artifact_ref:scanner_finding_set".
Definition NORMALIZATION_RUN_ID_PATTERN (s : jsstr) : bool :=
  Regexp.test Regexp.flags_none (Regexp.re "^normalization_run:[a-z0-9][a-z0-9_-]{2,63}$") s.
Definition DELETION_EVIDENCE_REF_PATTERN (s : jsstr) : bool :=
  Regexp.test Regexp.flags_none (Regexp.re "^deletion_evidence:[a-z0-9][a-z0-9_-]{2,63}$") s.
Definition REVIEW_FINDING_DRAFT_UNAVAILABLE_STATES : list string :=
  ["deleted_under_policy"; "never_collected"; "not_submitted_by_policy"; "unresolved_reference"].
Definition REVIEW_FINDING_DRAFT_INSUFFICIENT_BASIS : list string :=
  ["scanner_output"; "metadata_only"; "deleted_under_policy_reference"; "not_submitted_by_policy_reference"; "never_collected_reference";
   "unresolved_reference"].
Definition CONFIDENCE_RANK : list (string * Z) := [("unknown", 0); ("low", 1); ("medium", 2); ("high", 3)].
Definition SEVERITY_RANK : list (string * Z) :=
  [("unknown", 0); ("note", 1); ("info", 1); ("informational", 1); ("low", 2); ("medium", 3); ("moderate", 3); ("warning", 3); ("warn", 3);
   ("error", 4); ("high", 4); ("critical", 5)].
Definition COMPLETED_SCANNER_RUN_STATUSES : list string := ["succeeded"; "no_findings"].
(* map.get(text) ?? 0 *)
Definition rank_in (ranks : list (string * Z)) (s : jsstr) : Z :=
  match List.find (λ r, js r.1 === s) ranks with Some (_, rank) => rank | None => 0 end.

(** * Order and sets *)

(* The code-unit order of two texts *)
Definition unit_text (v : json) : jsstr := match v with JString s => s | _ => [] end.
Definition compareCodeUnit (left right : json) : Z := units_cmp (unit_text left) (unit_text right).
Definition uniqueSorted (values : list json) : list json := sortBy compareCodeUnit (dedupe_values [] values).
Definition nonEmptyArray (values : list json) : throws (list json) :=
  match values with [] => Throw "expected non-empty normalized review finding draft field" | _ => Ret values end.
(* left.sort(compare).at(0) of the values that are there *)
Definition first_of (compare : json → json → Z) (values : list json) : option json :=
  head (sortBy compare (List.filter (λ v, negb (is_undefined v)) values)).
Definition by_rank (rank : json → Z) (left right : json) : Z :=
  let difference := rank right - rank left in if difference =? 0 then compareCodeUnit left right else difference.
Definition confidence_rank (v : json) : Z := match v with JString s => rank_in CONFIDENCE_RANK s | _ => 0 end.
Definition compareConfidence : json → json → Z := by_rank confidence_rank.
Definition highestScannerConfidence (values : list json) : option json := first_of compareConfidence values.

(** * The groups *)

(* /:\d+(?::\d+)?$/ matches from here to the end *)
Definition trailing_line_column (s : jsstr) : bool := Regexp.test Regexp.flags_none (Regexp.re "^:\d+(?::\d+)?$") s.
(* TRAILING_LINE_COLUMN_PATTERN finds its leftmost match; the text before it. *)
Fixpoint before_line_column (s : jsstr) : jsstr :=
  match s with [] => [] | c :: s' => if trailing_line_column s then [] else c :: before_line_column s' end.
Definition affectedAreaFilePath (affectedArea : json) : json :=
  match affectedArea with JString s => JString (before_line_column s) | v => v end.
Definition normalizeAffectedArea (affectedArea : json) : json :=
  match affectedAreaFilePath affectedArea with JString [] => affectedArea | filePath => filePath end.
Definition groupKeyForCandidate (candidate : json) : jsstr :=
  JSON_stringify (JArray [jstr "affected_area_path"; normalizeAffectedArea (prop "affected_area" candidate)]).
Definition add_candidate (groups : list (jsstr * list json)) (candidate : json) : list (jsstr * list json) :=
  let groupKey := groupKeyForCandidate candidate in
  JsMap.set groupKey (default [] (JsMap.get groupKey groups) ++ [candidate]) groups.
Definition by_id (left right : json) : Z := compareCodeUnit (prop "candidate_finding_id" left) (prop "candidate_finding_id" right).
Definition groupCandidateFindings (candidates : list json) : list (jsstr * list json) :=
  sortBy (λ left right : jsstr * list json, units_cmp left.1 right.1) (fold_left add_candidate (sortBy by_id candidates) []).

(** * Availability of evidence *)

Record AvailabilityContract := {
  displayState : string; allowedSourceDerivedClasses : list string; deletionEvidenceRequired : bool; deletionEvidenceAllowed : bool
}.
Definition AVAILABILITY_STATE_CONTRACT : list (string * AvailabilityContract) :=
  [("retained_review_artifact",
    {| displayState := "available_reference";
       allowedSourceDerivedClasses := ["retained_review_artifact"; "transient_source_derived"; "customer_opt_in_retained_source"];
       deletionEvidenceRequired := false; deletionEvidenceAllowed := false |});
   ("never_collected",
    {| displayState := "not_collected"; allowedSourceDerivedClasses := ["never_collected"]; deletionEvidenceRequired := false; deletionEvidenceAllowed := false |});
   ("not_submitted_by_policy",
    {| displayState := "not_submitted"; allowedSourceDerivedClasses := ["never_collected"]; deletionEvidenceRequired := false; deletionEvidenceAllowed := false |});
   ("deleted_under_policy",
    {| displayState := "deleted"; allowedSourceDerivedClasses := ["transient_source_derived"; "customer_opt_in_retained_source"];
       deletionEvidenceRequired := true; deletionEvidenceAllowed := true |});
   ("unresolved_reference",
    {| displayState := "unresolved_reference";
       allowedSourceDerivedClasses := ["never_collected"; "retained_review_artifact"; "transient_source_derived"; "customer_opt_in_retained_source"];
       deletionEvidenceRequired := false; deletionEvidenceAllowed := false |})].
Definition contract_of (state : json) : option AvailabilityContract :=
  snd <$> List.find (λ c : string * AvailabilityContract, has_string c.1 state) AVAILABILITY_STATE_CONTRACT.
Definition isEvidenceAvailabilityState (v : json) : bool := one_of AVAILABILITY_STATE_CONTRACT.*1 v.
Definition isValidArtifactAvailability (v : json) : bool :=
  match isRecord v, contract_of (prop "availability_state" v) with
  | true, Some contract =>
      if negb (one_of (allowedSourceDerivedClasses contract) (prop "source_derived_class" v)) then false
      else match prop "deletion_evidence_ref" v with
      | JForeign => negb (deletionEvidenceRequired contract)
      | JString ref => (deletionEvidenceAllowed contract && DELETION_EVIDENCE_REF_PATTERN ref)%bool
      | _ => false
      end
  | _, _ => false
  end.
Definition isValidArtifactAvailabilityInput (v : json) : bool :=
  match v with
  | JForeign => true
  | JObject fs => forallb (λ kv : jsstr * json, isValidArtifactAvailability kv.2) fs
  | _ => false
  end.
Definition artifactAvailabilityLookup (v : json) : list (jsstr * json) :=
  match v with JObject fs => List.filter (λ kv : jsstr * json, isValidArtifactAvailability kv.2) fs | _ => [] end.
Definition unresolved : json := jobj [("availability_state", jstr "unresolved_reference"); ("source_derived_class", jstr "retained_review_artifact")].
Definition availability_of (availabilityLookup : list (jsstr * json)) (artifactRef : json) : json :=
  default unresolved (match artifactRef with JString ref => JsMap.get ref availabilityLookup | _ => None end).
Definition evidenceRefForArtifact (availabilityLookup : list (jsstr * json)) (artifactRef : json) : json :=
  let availability := availability_of availabilityLookup artifactRef in
  let state := prop "availability_state" availability in
  jobj ([("artifact_ref", artifactRef); ("availability_state", state);
         ("available_for_review", JBool (has_string "retained_review_artifact" state));
         ("display_state", match contract_of state with Some contract => jstr (displayState contract) | None => JForeign end);
         ("source_derived_class", prop "source_derived_class" availability)]
        ++ if is_undefined (prop "deletion_evidence_ref" availability) then []
           else [("deletion_evidence_ref", prop "deletion_evidence_ref" availability)]).
(* candidates.flatMap((candidate) => candidate.source_artifact_refs) *)
Definition source_refs (candidates : list json) : list json :=
  List.flat_map (λ c, match prop "source_artifact_refs" c with JArray refs => refs | v => [v] end) candidates.
(* Exactly one shipped artifact has this ref, and it is source. *)
Definition resolvesToShippedSource (artifacts : list json) (sourceRef : json) : bool :=
  match List.filter (λ a, prop "artifact_ref" a === sourceRef) artifacts with
  | [artifact] => one_of ["raw_snippet"; "targeted_file"] (prop "artifact_type" artifact)
  | _ => false
  end.
Definition evidenceRefsForDraft (artifacts : list json) (availabilityLookup : list (jsstr * json)) (candidates : list json) : list json :=
  evidenceRefForArtifact availabilityLookup SCANNER_SET_REF ::
  List.map (λ sourceRef, evidenceRefForArtifact (if resolvesToShippedSource artifacts sourceRef then availabilityLookup else []) sourceRef)
    (uniqueSorted (source_refs candidates)).

(** * Basis, gaps and state of a draft *)

Definition in_state (state : string) (ref : json) : bool := has_string state (prop "availability_state" ref).
Definition is_provenance (ref : json) : bool := prop "artifact_ref" ref === SCANNER_SET_REF.
Definition ref_basis (ref : json) : list json :=
  if in_state "retained_review_artifact" ref then (if is_provenance ref then [] else [jstr "retained_review_artifact"])
  else if in_state "deleted_under_policy" ref then [jstr "deleted_under_policy_reference"]
  else if in_state "not_submitted_by_policy" ref then [jstr "not_submitted_by_policy_reference"]
  else if in_state "never_collected" ref then [jstr "never_collected_reference"]
  else if in_state "unresolved_reference" ref then [jstr "unresolved_reference"] else [].
Definition mode_basis (coverageMode : json) (evidenceRefs : list json) : list json :=
  if has_string "metadata_only" coverageMode then [jstr "metadata_only"]
  else match List.find (λ ref, negb (is_provenance ref)) evidenceRefs with
  | Some ref =>
      if in_state "retained_review_artifact" ref
      then [jstr (if has_string "finding_context_snippets" coverageMode then "finding_context_snippet" else "extended_approved_source_context")]
      else []
  | None => []
  end.
Definition evidenceBasisForDraft (coverageMode : json) (evidenceRefs : list json) : throws (list json) :=
  nonEmptyArray (uniqueSorted (jstr "scanner_output" :: mode_basis coverageMode evidenceRefs ++ List.flat_map ref_basis evidenceRefs)).
Definition thresholdGapsForDraft (coverageMode : json) (evidenceBasis evidenceRefs : list json) : list json :=
  uniqueSorted
    ([jstr (if has_string "metadata_only" coverageMode
            then "Metadata-only coverage cannot confirm a finding without customer-approved source or runtime context."
            else if has_string "finding_context_snippets" coverageMode
            then "Finding-context snippets are bounded and may omit broader runtime or architectural context needed for confirmation."
            else "Extended approved context is available, but normalization still requires reviewer judgment before classification.")]
     ++ issue_when (existsb (has_string "scanner_output") evidenceBasis)
          (jstr "Scanner output is provenance only and requires reviewer confirmation before classification.")
     ++ issue_when (existsb (in_state "deleted_under_policy") evidenceRefs)
          (jstr "Source-derived evidence was deleted under policy; retained references and deletion evidence are available instead of content.")
     ++ issue_when (existsb (λ ref, in_state "not_submitted_by_policy" ref || in_state "never_collected" ref)%bool evidenceRefs)
          (jstr "Some source-derived context was not submitted or collected under policy.")
     ++ issue_when (existsb (in_state "unresolved_reference") evidenceRefs)
          (jstr "At least one evidence reference is unresolved and cannot be reviewed as available content.")).
Definition state_priority : list string :=
  ["unresolved_reference"; "deleted_under_policy"; "not_submitted_by_policy"; "never_collected"; "retained_review_artifact"].
Definition sourceReferenceStateForEvidenceRefs (evidenceRefs : list json) : string :=
  let sourceRefs := List.filter (λ ref, negb (is_provenance ref)) evidenceRefs in
  match List.find (λ state, existsb (in_state state) sourceRefs) state_priority with
  | Some state => state
  | None => "unresolved_reference"
  end.

(** * Drafts *)



Section drafts.
Context `{UnicodeText, Sha256}.

Definition severity_rank (v : json) : Z := match v with JString s => rank_in SEVERITY_RANK (toLowerCase s) | _ => 0 end.
Definition compareSeverity : json → json → Z := by_rank severity_rank.
Definition highestScannerSeverity (values : list json) : option json := first_of compareSeverity values.

Definition draft_identity_input (reviewId normalizationRunId : json) (groupKey : jsstr) (candidateFindingRefs : list json) : json := jobj
  [("review_id", reviewId); ("normalization_run_id", normalizationRunId); ("group_key", JString groupKey);
   ("candidate_finding_refs", JArray (sortBy compareCodeUnit candidateFindingRefs))].
Definition draftIdSlug (reviewId normalizationRunId : json) (groupKey : jsstr) (candidateFindingRefs : list json) : throws string :=
  id ← computeCanonicalSha256Id (draft_identity_input reviewId normalizationRunId groupKey candidateFindingRefs);
  Ret (default EmptyString (strip "sha256:" id)).
Definition optional_field (name : string) (v : option json) : list (string * json) :=
  match v with Some v => [(name, v)] | None => [] end.
Definition coverage_of (input : json) : json := prop "coverage_mode" (prop "bundle_manifest" input).
Definition shipped_artifacts (input : json) : list json := array_of (prop "artifact_references" (prop "bundle_manifest" input)).
Definition draft_evidence (input : json) (candidates : list json) : list json :=
  evidenceRefsForDraft (shipped_artifacts input) (artifactAvailabilityLookup (prop "artifact_availability" input)) candidates.
Definition draft_record (input : json) (groupKey : jsstr) (candidates evidenceRefs evidenceBasis candidateFindingRefs sources scannerRuleIds : list json)
    (slug : string) : json :=
  jobj
    ([("review_finding_draft_id", jstr ("review_finding_draft:" +:+ slug)); ("candidate_finding_refs", JArray candidateFindingRefs);
      ("group_key", JString groupKey); ("sources", JArray sources); ("affected_area", prop "affected_area" (default JForeign (head candidates)));
      ("evidence_refs", JArray evidenceRefs); ("scanner_rule_ids", JArray scannerRuleIds); ("status", jstr "draft");
      ("review_lifecycle_state", jstr "under_review"); ("coverage_mode", coverage_of input); ("evidence_basis", JArray evidenceBasis);
      ("threshold_gaps", JArray (thresholdGapsForDraft (coverage_of input) evidenceBasis evidenceRefs));
      ("source_reference_state", jstr (sourceReferenceStateForEvidenceRefs evidenceRefs));
      ("source_derived_class", jstr "retained_review_artifact")]
     ++ optional_field "severity" (highestScannerSeverity (List.map (prop "severity") candidates))
     ++ optional_field "confidence" (highestScannerConfidence (List.map (prop "confidence") candidates))).
Definition buildDraft (input : json) (group : jsstr * list json) : throws json :=
  let evidenceRefs := draft_evidence input group.2 in
  evidenceBasis ← evidenceBasisForDraft (coverage_of input) evidenceRefs;
  candidateFindingRefs ← nonEmptyArray (List.map (prop "candidate_finding_id") group.2);
  sources ← nonEmptyArray (uniqueSorted (List.map (prop "source") group.2));
  scannerRuleIds ← nonEmptyArray (uniqueSorted (List.map (prop "scanner_rule_id") group.2));
  slug ← draftIdSlug (prop "review_id" (prop "review_scope" input)) (prop "normalization_run_id" input) group.1 candidateFindingRefs;
  Ret (draft_record input group.1 group.2 evidenceRefs evidenceBasis candidateFindingRefs sources scannerRuleIds slug).

(** * The draft set *)

Definition unsafe_text (v : json) : bool :=
  (bool_decide (is_Some (sourceTextForbiddenPhrase v)) || bool_decide (is_Some (piiTextForbidden v))
   || bool_decide (is_Some (sourceCodeLikeTextReason v)))%bool.
Definition is_text (v : json) : bool := match v with JString _ => true | _ => false end.
Definition candidateProvenanceUnsafeReason (candidate : json) : option string :=
  if existsb (λ name, is_text (prop name candidate) && unsafe_text (prop name candidate))%bool
       ["affected_area"; "scanner_rule_id"; "original_reference"; "severity"]
  then Some "candidate_provenance_unsafe" else None.
Definition safeCoverageLimitations (scannerFindingSet : json) : list json :=
  List.filter (λ limitation, negb (unsafe_text limitation)) (array_of (prop "coverage_limitations" scannerFindingSet)).
Definition candidateHasSuccessfulRunCoverage (scannerFindingSet candidate : json) : bool :=
  let filePath := affectedAreaFilePath (prop "affected_area" candidate) in
  existsb (λ run, has_string "succeeded" (prop "status" run) && (prop "scanner_name" run === prop "source" candidate)
                  && bool_decide (filePath ∈ array_of (prop "scanned_files" run)))%bool (array_of (prop "scanner_runs" scannerFindingSet)).
Definition NO_FINDINGS_LIMITATIONS : list json :=
  [jstr (NO_FINDINGS_STATEMENT +:+ "; this does not prove absence of vulnerabilities.");
   jstr "Configured inputs and coverage mode bound this statement to submitted scanner outputs only."].
Definition DRAFT_LIMITATIONS : list json :=
  [jstr "Review Finding drafts are normalized scanner output and retained evidence references only, not expert classifications.";
   jstr "Scanner severity and confidence are preserved as scanner-provided metadata only."].
Definition candidates_of (input : json) : list json := array_of (prop "candidate_findings" (prop "scanner_finding_set" input)).
Definition draft_set_record (input : json) (drafts limitations : list json) : json :=
  jobj
    ([("protocol_version", jstr "codeattest.v0"); ("review_id", prop "review_id" (prop "review_scope" input));
      ("normalization_run_id", prop "normalization_run_id" input);
      ("normalization_status", jstr (if nonempty drafts then "drafts_created" else "no_findings_produced"));
      ("created_at", prop "created_at" input); ("vendor_receipt_ref", prop "vendor_receipt_id" (prop "vendor_receipt" input));
      ("evidence_bundle_id", prop "evidence_bundle_id" (prop "bundle_manifest" input));
      ("manifest_id", prop "manifest_id" (prop "bundle_manifest" input));
      ("source_scanner_finding_set_ref", prop "scanner_finding_set_id" (prop "scanner_finding_set" input));
      ("coverage_mode", coverage_of input); ("review_finding_drafts", JArray drafts);
      ("normalization_limitations", JArray limitations); ("source_derived_class", jstr "retained_review_artifact")]
     ++ if nonempty drafts then [] else [("no_findings_statement", jstr NO_FINDINGS_STATEMENT)]).
Definition draft_set_limitations (input : json) (drafts : list json) : list json :=
  uniqueSorted ((if nonempty drafts then DRAFT_LIMITATIONS else NO_FINDINGS_LIMITATIONS) ++ safeCoverageLimitations (prop "scanner_finding_set" input)).
Definition buildReviewFindingDraftSet (input : json) : throws json :=
  drafts ← map_throws (buildDraft input) (groupCandidateFindings (candidates_of input));
  Ret (draft_set_record input drafts (draft_set_limitations input drafts)).

(** * What a draft set must say *)

Definition INSUFFICIENT (v : json) : bool := one_of REVIEW_FINDING_DRAFT_INSUFFICIENT_BASIS v.
Definition validateReviewFindingDraftOutputSemantics (draft coverageMode : json) : bool :=
  (has_string "draft" (prop "status" draft) && has_string "under_review" (prop "review_lifecycle_state" draft)
   && (prop "coverage_mode" draft === coverageMode) && nonempty (array_of (prop "candidate_finding_refs" draft))
   && negb (existsb INSUFFICIENT (array_of (prop "evidence_basis" draft)) && negb (nonempty (array_of (prop "threshold_gaps" draft))))
   && has_string (sourceReferenceStateForEvidenceRefs (array_of (prop "evidence_refs" draft))) (prop "source_reference_state" draft)
   && forallb (λ evidenceRef,
        negb (one_of REVIEW_FINDING_DRAFT_UNAVAILABLE_STATES (prop "availability_state" evidenceRef)
              && truthy (prop "available_for_review" evidenceRef))
        && negb (in_state "deleted_under_policy" evidenceRef
                 && (negb (has_string "deleted" (prop "display_state" evidenceRef)) || negb (is_text (prop "deletion_evidence_ref" evidenceRef)))))
      (array_of (prop "evidence_refs" draft)))%bool.
Fixpoint drafts_valid (coverageMode : json) (draftIds drafts : list json) : bool :=
  match drafts with
  | [] => true
  | draft :: drafts' =>
      let draftId := prop "review_finding_draft_id" draft in
      (negb (bool_decide (draftId ∈ draftIds)) && validateReviewFindingDraftOutputSemantics draft coverageMode
       && drafts_valid coverageMode (draftId :: draftIds) drafts')%bool
  end.
Definition validateReviewFindingDraftSetOutputSemantics (draftSet : json) : bool :=
  let drafts := array_of (prop "review_finding_drafts" draftSet) in
  let status := prop "normalization_status" draftSet in
  (has_string "retained_review_artifact" (prop "source_derived_class" draftSet)
   && negb (has_string "no_findings_produced" status
            && (nonempty drafts || negb (has_string NO_FINDINGS_STATEMENT (prop "no_findings_statement" draftSet))
                || negb (mentions (lower_joined (array_of (prop "normalization_limitations" draftSet)))
                           "does not prove absence of vulnerabilities")))
   && negb (has_string "drafts_created" status && negb (nonempty drafts))
   && drafts_valid (prop "coverage_mode" draftSet) [] drafts)%bool.

(** * The boundary *)

(* validateProtocolSchema(schemaId, value) *)
Variable validateProtocolSchema : string → json → list ProtocolValidationError.
Definition has_own (name : string) (v : json) : bool := match v with JObject fs => JsMap.has (js name) fs | _ => false end.
Definition hasValidNormalizationMetadata (input : json) : bool :=
  (negb (has_own "review_id" input) && NORMALIZATION_RUN_ID_PATTERN (js_string (prop "normalization_run_id" input))
   && match latin_text (js_string (prop "created_at" input)) with Some t => isUtcRfc3339Timestamp t | None => false end)%bool.
Definition chain_input (input : json) : VerifiedSubmissionChainInput := {|
  review_scope := prop "review_scope" input; bundle_manifest := prop "bundle_manifest" input;
  outbound_manifest := prop "outbound_manifest" input; scanner_finding_set := prop "scanner_finding_set" input;
  vendor_receipt := prop "vendor_receipt" input; vendor_receipt_signature_outcome := prop "vendor_receipt_signature_outcome" input |}.
Definition validateReceiptBoundary (input : json) : option NormalizeCandidateFindingsRejectionReason :=
  let bundle := prop "bundle_manifest" input in
  let outbound := prop "outbound_manifest" input in
  let findings := prop "scanner_finding_set" input in
  let receipt := prop "vendor_receipt" input in
  if prop "evidence_bundle_id" receipt !== prop "evidence_bundle_id" bundle then Some normalization_receipt_bundle_mismatch
  else if ((prop "manifest_id" receipt !== prop "manifest_id" bundle) || (prop "manifest_id" receipt !== prop "manifest_id" outbound))%bool
  then Some normalization_receipt_manifest_mismatch
  else if ((prop "manifest_id" bundle !== prop "manifest_id" outbound)
           || (prop "coverage_mode" bundle !== prop "coverage_mode" outbound))%bool then Some normalization_manifest_bundle_mismatch
  else if ((prop "coverage_mode" receipt !== prop "coverage_mode" bundle)
           || (prop "coverage_mode" receipt !== prop "coverage_mode" outbound))%bool then Some normalization_receipt_coverage_mode_mismatch
  else if ((prop "bundle_instance_id" receipt !== prop "bundle_instance_id" bundle)
           || (prop "submission_attempt_id" receipt !== prop "submission_attempt_id" bundle))%bool then Some normalization_receipt_attempt_mismatch
  else if ((prop "scanner_finding_set_ref" bundle !== prop "scanner_finding_set_id" findings)
           || (prop "scanner_finding_set_ref" outbound !== prop "scanner_finding_set_id" findings))%bool
  then Some normalization_scanner_finding_set_mismatch
  else None.
(* The first invalid document, in the order they are checked. *)
Definition document_schemas : list (string * string * NormalizeCandidateFindingsRejectionReason) :=
  [("review_scope", "urn:codeattest:protocol:v0:review-scope", normalization_review_scope_schema_invalid);
   ("bundle_manifest", "urn:codeattest:protocol:v0:bundle-manifest", normalization_bundle_manifest_schema_invalid);
   ("outbound_manifest", "urn:codeattest:protocol:v0:outbound-manifest", normalization_outbound_manifest_schema_invalid);
   ("scanner_finding_set", "urn:codeattest:protocol:v0:scanner-finding-set", normalization_scanner_finding_set_schema_invalid);
   ("vendor_receipt", "urn:codeattest:protocol:v0:vendor-receipt", normalization_vendor_receipt_schema_invalid)].
Definition document_rejection (input : json) : option NormalizeCandidateFindingsRejectionReason :=
  head (List.flat_map (λ '(field, schemaId, reason),
    issue_when (nonempty (validateProtocolSchema schemaId (prop field input))) reason) document_schemas).
(* The checks before the documents are compared. *)
Definition input_rejection (input : json) : option NormalizeCandidateFindingsRejectionReason :=
  match prop "vendor_receipt" input with
  | JForeign | JNull => Some normalization_receipt_absent
  | receipt =>
      if negb (has_string "received_with_receipt" (prop "verification_state" receipt)) then Some normalization_receipt_not_received
      else if negb (hasValidNormalizationMetadata input) then Some normalization_metadata_invalid
      else match document_rejection input with
      | Some reason => Some reason
      | None => if isValidArtifactAvailabilityInput (prop "artifact_availability" input) then None else Some normalization_availability_invalid
      end
  end.
Definition chronology_invalid (input : json) : throws bool :=
  let received := prop "receipt_timestamp" (prop "vendor_receipt" input) in
  scanned ← compareTimestamps (prop "generated_at" (prop "scanner_finding_set" input)) received;
  if 0 <? scanned then Ret true else created ← compareTimestamps received (prop "created_at" input); Ret (0 <? created).
Definition scan_rejection (findings : json) : option NormalizeCandidateFindingsRejectionReason :=
  let candidates := array_of (prop "candidate_findings" findings) in
  if existsb (λ candidate, bool_decide (is_Some (candidateProvenanceUnsafeReason candidate))) candidates
  then Some normalization_candidate_provenance_unsafe
  else if existsb (λ candidate, negb (candidateHasSuccessfulRunCoverage findings candidate)) candidates
  then Some normalization_candidate_run_coverage_missing
  else if (negb (nonempty candidates)
           && negb (existsb (λ run, one_of COMPLETED_SCANNER_RUN_STATUSES (prop "status" run) && nonempty (array_of (prop "scanned_files" run)))
                      (array_of (prop "scanner_runs" findings))))%bool
  then Some normalization_scan_coverage_incomplete
  else None.
Definition normalizeCandidateFindingsChecked (input : json) : throws NormalizeCandidateFindingsResult :=
  if negb (isRecord input) then Ret (rejected normalization_input_not_object)
  else match input_rejection input with
  | Some reason => Ret (rejected reason)
  | None =>
      artifactSemanticIssues ← verifiedArtifactSemanticIssues (chain_input input);
      match artifactSemanticIssues with
      | issue :: _ => Ret (rejected (ARTIFACT_SEMANTIC_ISSUE_REASON issue))
      | [] =>
          match validateReceiptBoundary input, verifiedSubmissionChainIssues validateProtocolSchema (chain_input input) with
          | Some reason, _ => Ret (rejected reason)
          | None, issue :: _ => Ret (rejected (SUBMISSION_CHAIN_ISSUE_REASON issue))
          | None, [] =>
              invalid ← chronology_invalid input;
              if (invalid : bool) then Ret (rejected normalization_chronology_invalid)
              else match scan_rejection (prop "scanner_finding_set" input) with
              | Some reason => Ret (rejected reason)
              | None =>
                  draftSet ← buildReviewFindingDraftSet input;
                  Ret (if (nonempty (validateProtocolSchema "urn:codeattest:protocol:v0:review-finding-draft-set" draftSet)
                           || negb (validateReviewFindingDraftSetOutputSemantics draftSet))%bool
                       then rejected normalization_output_schema_invalid else normalized draftSet)
              end
          end
      end
  end.
(* catch: whatever throws is an input that is no plain JSON. *)
Definition normalizeCandidateFindings (input : json) : NormalizeCandidateFindingsResult :=
  match normalizeCandidateFindingsChecked input with Ret result => result | Throw _ => rejected normalization_input_not_object end.
End drafts.

(** * Sorting by code units *)

Lemma compareCodeUnit_total x y : compareCodeUnit x y ≤ 0 ∨ compareCodeUnit y x ≤ 0.
Proof. apply units_cmp_total. Qed.
Lemma compareCodeUnit_trans x y z : compareCodeUnit x y ≤ 0 → compareCodeUnit y z ≤ 0 → compareCodeUnit x z ≤ 0.
Proof. apply units_cmp_trans. Qed.
Lemma sortBy_unique {A} (cmp : A → A → Z) l l' :
  (∀ x y, cmp x y ≤ 0 ∨ cmp y x ≤ 0) → (∀ x y z, cmp x y ≤ 0 → cmp y z ≤ 0 → cmp x z ≤ 0) →
  (∀ x y, x ∈ l → y ∈ l → cmp x y ≤ 0 → cmp y x ≤ 0 → x = y) → l ≡ₚ l' → sortBy cmp l = sortBy cmp l'.
Proof.
  intros Ht Htr Ha Hp. eapply StronglySorted_unique_strong; [|by apply sortBy_sorted..|by rewrite !sortBy_perm].
  intros x y Hx Hy. rewrite elem_of_sortBy in Hx, Hy. rewrite <- Hp in Hy. by apply Ha.
Qed.
Lemma uniqueSorted_elem v l : v ∈ uniqueSorted l ↔ v ∈ l.
Proof. unfold uniqueSorted. rewrite elem_of_sortBy. rewrite (proj2 (dedupe_values_spec l [])). set_solver. Qed.
Lemma uniqueSorted_nil l : uniqueSorted l = [] → l = [].
Proof. destruct l as [|v l]; [done|]. intros E0. assert (v ∈ uniqueSorted (v :: l)) as Hv by (apply uniqueSorted_elem; set_solver). rewrite E0 in Hv. by apply elem_of_nil in Hv. Qed.

(** * Groups *)

Definition members (groupKey : jsstr) (candidates : list json) : list json :=
  List.filter (λ c, groupKeyForCandidate c === groupKey) candidates.
Definition grouped (candidates : list json) : list (jsstr * list json) := fold_left add_candidate candidates [].
Lemma grouped_snoc candidates c : grouped (candidates ++ [c]) = add_candidate (grouped candidates) c.
Proof. unfold grouped. by rewrite fold_left_app. Qed.
Lemma members_snoc k candidates c :
  members k (candidates ++ [c]) = members k candidates ++ (if groupKeyForCandidate c === k then [c] else []).
Proof. unfold members. rewrite List.filter_app. simpl. by case_match. Qed.
(* What a group holds: the candidates of its key, in their order. *)
Lemma grouped_get candidates k : JsMap.get k (grouped candidates) = match members k candidates with [] => None | g => Some g end.
Proof.
  induction candidates as [|c candidates IH] using rev_ind; [done|]. rewrite grouped_snoc, members_snoc. unfold add_candidate. rewrite JsMap.get_set.
  destruct (decide (groupKeyForCandidate c = k)) as [<-|Hne].
  - rewrite bool_decide_true by done. rewrite IH. destruct (members _ candidates); done.
  - rewrite bool_decide_false by done. by rewrite app_nil_r.
Qed.
Lemma set_keys_NoDup {K V} `{EqDecision K} (k : K) (v : V) m : NoDup m.*1 → NoDup (JsMap.set k v m).*1.
Proof.
  intros Hnd. change (NoDup (JsMap.keys (JsMap.set k v m))). rewrite JsMap.keys_set. case_decide as Hk; [done|].
  apply NoDup_app. split_and!; [done|set_solver|apply NoDup_singleton].
Qed.
Lemma grouped_keys candidates : NoDup (grouped candidates).*1.
Proof. induction candidates as [|c candidates IH] using rev_ind; [constructor|]. rewrite grouped_snoc. by apply set_keys_NoDup. Qed.
Lemma NoDup_keys_get {K V} `{EqDecision K} (k : K) (v : V) m : NoDup m.*1 → (k, v) ∈ m ↔ JsMap.get k m = Some v.
Proof.
  induction m as [|[k' v'] m IH]; cbn [fmap list_fmap JsMap.get]; [set_solver|]. intros [Hk Hnd]%NoDup_cons. rewrite elem_of_cons.
  case_decide as Hd; [subst k'|rewrite IH by done; naive_solver]. split; [|naive_solver].
  intros [[= ->]|Hin]; [done|]. exfalso. apply Hk. cbn. by apply (list_elem_of_fmap_2 fst) in Hin.
Qed.
(* The groups in order: the members of each key, and every candidate in the group of its key. *)
Lemma group_spec candidates k g : (k, g) ∈ groupCandidateFindings candidates ↔ g = members k (sortBy by_id candidates) ∧ g ≠ [].
Proof.
  unfold groupCandidateFindings. rewrite elem_of_sortBy. fold (grouped (sortBy by_id candidates)). rewrite NoDup_keys_get by apply grouped_keys. rewrite grouped_get.
  destruct (members _ _) eqn:Hm; naive_solver.
Qed.
Lemma group_keys candidates : NoDup (groupCandidateFindings candidates).*1.
Proof. unfold groupCandidateFindings. rewrite sortBy_perm. apply grouped_keys. Qed.
Lemma group_of candidates c : c ∈ candidates → ∃ g, (groupKeyForCandidate c, g) ∈ groupCandidateFindings candidates ∧ c ∈ g.
Proof.
  intros Hc. assert (c ∈ members (groupKeyForCandidate c) (sortBy by_id candidates)) as Hm.
  { unfold members. apply list_elem_of_In, filter_In. split; [apply list_elem_of_In; by rewrite elem_of_sortBy|by apply bool_decide_eq_true]. }
  exists (members (groupKeyForCandidate c) (sortBy by_id candidates)). split; [|done]. apply group_spec. split; [done|]. intros E0. rewrite E0 in Hm. by apply elem_of_nil in Hm.
Qed.
Lemma groups_order_free candidates candidates' :
  NoDup (List.map (prop "candidate_finding_id") candidates) → Forall (λ c, is_text (prop "candidate_finding_id" c) = true) candidates →
  candidates ≡ₚ candidates' → groupCandidateFindings candidates = groupCandidateFindings candidates'.
Proof.
  intros Hnd Ht Hp. unfold groupCandidateFindings. do 2 f_equal. apply sortBy_unique; [intros; apply compareCodeUnit_total|intros x y z; apply compareCodeUnit_trans| |done].
  intros x y Hx Hy Hxy Hyx. rewrite Forall_forall in Ht. pose proof (Ht x Hx) as Tx. pose proof (Ht y Hy) as Ty. unfold by_id, compareCodeUnit in Hxy, Hyx.
  destruct (prop "candidate_finding_id" x) as [| |s| | | | |] eqn:Ex; try done. destruct (prop "candidate_finding_id" y) as [| |t| | | | |] eqn:Ey; try done.
  pose proof (units_cmp_antisym _ _ Hxy Hyx). cbn in *. subst t.
  apply list_elem_of_lookup in Hx as [i Hi], Hy as [j Hj].
  assert (i = j) as ->; [|congruence]. eapply (NoDup_lookup _ _ _ (JString s) Hnd); by rewrite list_lookup_fmap, ?Hi, ?Hj; cbn; rewrite ?Ex, ?Ey.
Qed.

(** * What a draft holds *)

Lemma nonEmptyArray_inv values l : nonEmptyArray values = Ret l ↔ values = l ∧ l ≠ [].
Proof. destruct values; simpl; naive_solver. Qed.

Section draft_theorems.
Context `{UnicodeText, Sha256}.
Variable input : json.

Record draft_of (k : jsstr) (g : list json) (draft : json) : Prop := {
  of_refs : prop "candidate_finding_refs" draft = JArray (List.map (prop "candidate_finding_id") g);
  of_key : prop "group_key" draft = JString k;
  of_evidence : prop "evidence_refs" draft = JArray (draft_evidence input g);
  of_basis : ∃ basis, evidenceBasisForDraft (coverage_of input) (draft_evidence input g) = Ret basis ∧
    prop "evidence_basis" draft = JArray basis ∧
    prop "threshold_gaps" draft = JArray (thresholdGapsForDraft (coverage_of input) basis (draft_evidence input g));
  of_id : ∃ slug, draftIdSlug (prop "review_id" (prop "review_scope" input)) (prop "normalization_run_id" input) k
      (List.map (prop "candidate_finding_id") g) = Ret slug ∧
    prop "review_finding_draft_id" draft = jstr ("review_finding_draft:" +:+ slug);
  of_state : prop "source_reference_state" draft = jstr (sourceReferenceStateForEvidenceRefs (draft_evidence input g));
  of_constants : prop "status" draft = jstr "draft" ∧ prop "review_lifecycle_state" draft = jstr "under_review" ∧ prop "coverage_mode" draft = coverage_of input
}.
Lemma recorded_draft k g basis sources rules slug : evidenceBasisForDraft (coverage_of input) (draft_evidence input g) = Ret basis →
  draftIdSlug (prop "review_id" (prop "review_scope" input)) (prop "normalization_run_id" input) k (List.map (prop "candidate_finding_id") g) = Ret slug →
  draft_of k g (draft_record input k g (draft_evidence input g) basis (List.map (prop "candidate_finding_id") g) sources rules slug).
Proof.
  intros Hb Hs. unfold draft_record. split; rewrite ?prop_field; [reflexivity|reflexivity|reflexivity| | |reflexivity|split_and!; reflexivity].
  - exists basis. split_and!; [exact Hb|reflexivity..].
  - exists slug. split; [exact Hs|reflexivity].
Qed.
Lemma build_draft k g draft : buildDraft input (k, g) = Ret draft → draft_of k g draft ∧ g ≠ [].
Proof.
  intros (basis & Hb & H1)%bind_Ret. apply bind_Ret in H1 as (refs & [<- Hne]%nonEmptyArray_inv & H1).
  apply bind_Ret in H1 as (sources & _ & H1). apply bind_Ret in H1 as (rules & _ & H1). apply bind_Ret in H1 as (slug & Hs & <-%Ret_inj).
  split; [exact (recorded_draft k g basis sources rules slug Hb Hs)|by intros ->].
Qed.

Lemma build_set draftSet : buildReviewFindingDraftSet input = Ret draftSet →
  ∃ drafts, prop "review_finding_drafts" draftSet = JArray drafts ∧
    Forall2 (λ group draft, draft_of group.1 group.2 draft) (groupCandidateFindings (candidates_of input)) drafts ∧
    prop "coverage_mode" draftSet = coverage_of input ∧
    prop "source_derived_class" draftSet = jstr "retained_review_artifact" ∧
    prop "normalization_status" draftSet = jstr (if nonempty drafts then "drafts_created" else "no_findings_produced") ∧
    prop "no_findings_statement" draftSet = (if nonempty drafts then JForeign else jstr NO_FINDINGS_STATEMENT) ∧
    prop "normalization_limitations" draftSet = JArray (draft_set_limitations input drafts).
Proof.
  unfold buildReviewFindingDraftSet. destruct (map_throws _ _) as [drafts|] eqn:Hd; [|done]. intros <-%Ret_inj. exists drafts.
  apply map_throws_Forall2 in Hd. unfold draft_set_record. rewrite !prop_field. split; [reflexivity|]. split.
  { eapply Forall2_impl; [exact Hd|]. intros [k g] draft Hb. exact (proj1 (build_draft k g draft Hb)). }
  destruct drafts; split_and!; reflexivity.
Qed.
End draft_theorems.

(** * The theorems *)

Definition path_of (candidate : json) : json := normalizeAffectedArea (prop "affected_area" candidate).
Definition key_of (path : json) : jsstr := JSON_stringify (JArray [jstr "affected_area_path"; path]).
Definition wf_text (v : json) : bool := (is_text v && wf_json v)%bool.
Lemma key_of_inj p q : wf_text p = true → wf_text q = true → key_of p = key_of q → p = q.
Proof.
  unfold wf_text, key_of. intros [Tp Wp]%andb_prop [Tq Wq]%andb_prop E0. destruct p as [| |s| | | | |], q as [| |t| | | | |]; try done.
  apply (f_equal JSON_parse) in E0. cbn [wf_json] in Wp, Wq.
  rewrite !parse_stringify in E0; [by simplify_eq/=|cbn [wf_json forallb]; rewrite Wq; reflexivity|reflexivity|cbn [wf_json forallb]; rewrite Wp; reflexivity|reflexivity].
Qed.
Lemma before_line_column_prefix s : before_line_column s `prefix_of` s.
Proof.
  induction s as [|c s IH]; [done|]. cbn [before_line_column]. destruct (trailing_line_column _); [by exists (c :: s)|by apply prefix_cons].
Qed.
Lemma prefix_units_ok s t : s `prefix_of` t → units_ok t = true → units_ok s = true.
Proof. intros [u ->]. unfold units_ok. rewrite forallb_app. by intros [? _]%andb_prop. Qed.
Lemma path_of_wf c : wf_text (prop "affected_area" c) = true → wf_text (path_of c) = true.
Proof.
  unfold path_of, normalizeAffectedArea, affectedAreaFilePath, wf_text. destruct (prop "affected_area" c) as [| |s| | | | |]; try done. cbn [is_text wf_json andb].
  intros Hs. assert (units_ok (before_line_column s) = true) as Hp by (by eapply prefix_units_ok, Hs; apply before_line_column_prefix).
  by destruct (before_line_column s).
Qed.

(** ** The file of an affected area *)

Section line_columns.
Import Regexp.
(* A zero-or-one group, and a group of two. *)
Lemma accepts_optional f g a r x : accepts f (seq (Repeat 0 (Some 1%nat) g a) r) x ↔ accepts f r x ∨ accepts f (seq a r) x.
Proof.
  rewrite !accepts_seq. cbn [denotes allows Nat.add]. split.
  - intros (y & (n & Hn & Hs) & Hr). destruct n as [|[|n]]; [|right|lia].
    + left. by inversion Hs; subst.
    + exists y. split; [|done]. inversion Hs as [|? ? z ? H1 H2]; subst. by inversion H2; subst.
  - intros [Hr|(y & Hy & Hr)]; [exists x|exists y]; (split; [|done]).
    + exists 0%nat. split; [lia|constructor].
    + exists 1%nat. split; [lia|by apply nsteps_once].
Qed.
Lemma accepts_group f a b r x : accepts f (seq (Seq a b) r) x ↔ accepts f (seq a (seq b r)) x.
Proof. rewrite !accepts_seq. setoid_rewrite accepts_seq. cbn [denotes]. naive_solver. Qed.

Definition is_digit_unit (c : Z) : bool := ((48 <=? c) && (c <=? 57))%bool.
Definition decimal_digits (s : jsstr) : Prop := s ≠ [] ∧ forallb is_digit_unit s = true.
(* A line, or a line and a column: a colon and digits, once or twice. *)
Definition line_column (s : jsstr) : Prop :=
  ∃ line, decimal_digits line ∧ (s = 58 :: line ∨ ∃ column, decimal_digits column ∧ s = 58 :: line ++ 58 :: column).

Definition digit_set : charset := {| negated := false; ranges := [(48, 57)] |}.
Lemma all_digits s : forallb (in_set flags_none digit_set) s = forallb is_digit_unit s.
Proof.
  induction s as [|c s IH]; [done|]. cbn [forallb]. rewrite IH. f_equal. unfold in_set, variants, in_ranges. cbn. by rewrite !orb_false_r.
Qed.
Lemma trailing_location s : trailing_line_column s = true ↔ line_column s.
Proof.
  unfold trailing_line_column.
  assert (Regexp.re "^:\d+(?::\d+)?$" = Seq LineStart (seq (single 58) (seq (Repeat 1 None true (Char digit_set))
    (seq (Repeat 0 (Some 1%nat) true (seq (single 58) (Repeat 1 None true (Char digit_set)))) LineEnd)))) as -> by by vm_compute.
  rewrite test_anchored by done. unfold single. rewrite accepts_char. destruct s as [|c s].
  { split; [done|]. intros (line & _ & [?|(? & _ & ?)]); done. }
  rewrite in_single, Z.eqb_eq, accepts_run by done. setoid_rewrite accepts_optional. setoid_rewrite all_digits.
  assert (∀ pre t, accepts flags_none LineEnd (pre, t) ↔ t = []) as Hend.
  { intros pre t. unfold accepts. cbn [denotes]. split; [intros (y & _ & He); by destruct t|intros ->; by eexists]. }
  assert (∀ pre t, accepts flags_none (seq (seq (single 58) (Repeat 1 None true (Char digit_set))) LineEnd) (pre, t) ↔
    ∃ column, decimal_digits column ∧ t = 58 :: column) as Hcolumn.
  { intros pre t. change (seq (single 58) (Repeat 1 None true (Char digit_set))) with (Seq (single 58) (Repeat 1 None true (Char digit_set))).
    rewrite accepts_group. unfold single. rewrite accepts_char. destruct t as [|d t]; [split; [done|by intros (? & _ & ?)]|].
    rewrite in_single, Z.eqb_eq, accepts_run_to_end, all_digits by done. cbn [allows]. unfold decimal_digits. split.
    - intros (<- & Hd & Hl & _). exists t. split; [split; [by destruct t; [simpl in Hl; lia|]|done]|done].
    - intros (column & [Hne Hd] & [= -> ->]). split_and!; [done|done|by destruct column; [|simpl; lia]|lia]. }
  setoid_rewrite Hend. setoid_rewrite Hcolumn. unfold line_column, decimal_digits. split.
  - intros (<- & w & t & -> & Hne & Hd & Ht). exists w. split; [done|].
    destruct Ht as [->|(column & Hc & ->)]; [left; by rewrite app_nil_r|right; by exists column].
  - intros (line & [Hne Hd] & [[= -> ->]|(column & Hc & [= -> ->])]); (split; [done|]).
    + exists line, []. rewrite app_nil_r. split_and!; auto.
    + exists line, (58 :: column). split_and!; try done. right. by exists column.
Qed.
End line_columns.

(* The file that an affected area names: the text before its location, which is its longest
   end of that form; the whole text where it has none, or is nothing else. *)
Definition names_file (area file : jsstr) : Prop :=
  (file ≠ [] ∧ ∃ at_, area = file ++ at_ ∧ line_column at_ ∧
     ∀ file' at', area = file' ++ at' → line_column at' → (length file ≤ length file')%nat) ∨
  (file = area ∧ (line_column area ∨ ∀ file' at', area = file' ++ at' → ¬ line_column at')).
Lemma before_line_column_spec s :
  (∃ t, s = before_line_column s ++ t ∧ line_column t ∧
     ∀ p' t', s = p' ++ t' → line_column t' → (length (before_line_column s) ≤ length p')%nat) ∨
  (before_line_column s = s ∧ ∀ p' t', s = p' ++ t' → ¬ line_column t').
Proof.
  assert (¬ line_column []) as Hnil by (intros (line & _ & [?|(? & _ & ?)]); done).
  induction s as [|c s IH].
  { right. split; [done|]. intros p' t' E. symmetry in E. by apply app_eq_nil in E as [_ ->]. }
  cbn [before_line_column]. destruct (trailing_line_column (c :: s)) eqn:E0.
  - left. exists (c :: s). apply trailing_location in E0. split_and!; [done..|]. intros. simpl. lia.
  - assert (¬ line_column (c :: s)) as Hno by (rewrite <- trailing_location; congruence).
    destruct IH as [(t & Hs & Ht & Hmin)|[Hs Hnone]]; [left; exists t|right].
    + split_and!; [by rewrite Hs at 1|done|]. intros [|d p'] t' E Hl; simpl in E; [by subst|].
      injection E as <- E. simpl. specialize (Hmin _ _ E Hl). lia.
    + split; [by rewrite Hs|]. intros [|d p'] t' E; simpl in E; [by subst|]. injection E as <- E. by apply (Hnone p').
Qed.
Lemma path_names_file c s : prop "affected_area" c = JString s → ∃ file, path_of c = JString file ∧ names_file s file.
Proof.
  intros Hc. unfold path_of, normalizeAffectedArea, affectedAreaFilePath. rewrite Hc. unfold names_file.
  destruct (before_line_column_spec s) as [(t & Hs & Ht & Hmin)|[Hs Hnone]].
  - destruct (before_line_column s) as [|d p] eqn:Ep.
    + exists s. split; [done|]. right. split; [done|]. left. simpl in Hs. by subst t.
    + exists (d :: p). split; [done|]. left. split; [done|]. by exists t.
  - rewrite Hs. exists s. split; [by destruct s|]. right. split; [done|]. by right.
Qed.

Lemma Forall2_impl_in {A B} (P Q : A → B → Prop) l l' : Forall2 P l l' → (∀ x y, x ∈ l → y ∈ l' → P x y → Q x y) → Forall2 Q l l'.
Proof. induction 1; intros Himpl; constructor; set_solver. Qed.

Section worker_theorems.
Context `{UnicodeText, Sha256}.

(** C24. The drafts split candidates whose affected areas are texts by file: a draft holds,
    in the order of their ids, the candidates of one path, no path has two drafts, and the
    path of every candidate has one. The path of an affected area is the text before its
    longest end of the form colon, line or colon, line, colon, column; it is the whole text
    where there is no such end, or nothing before it. *)
Theorem drafts_partition_candidates input draftSet :
  buildReviewFindingDraftSet input = Ret draftSet →
  Forall (λ c, wf_text (prop "affected_area" c) = true) (candidates_of input) →
  ∃ drafts paths, prop "review_finding_drafts" draftSet = JArray drafts ∧ NoDup paths ∧
    (∀ path, path ∈ paths ↔ ∃ c, c ∈ candidates_of input ∧ path_of c = path) ∧
    (∀ c area, c ∈ candidates_of input → prop "affected_area" c = JString area →
       ∃ file, path_of c = JString file ∧ names_file area file) ∧
    Forall2 (λ path draft, prop "candidate_finding_refs" draft = JArray (List.map (prop "candidate_finding_id")
      (List.filter (λ c, path_of c === path) (sortBy by_id (candidates_of input))))) paths drafts.
Proof.
  intros Hb Hwf. apply build_set in Hb as (drafts & Hd & Hall & _). set (candidates := candidates_of input) in *.
  set (group_path := λ group : jsstr * list json, path_of (default JForeign (head group.2))).
  assert (∀ c, c ∈ candidates → wf_text (path_of c) = true) as Hpath by (intros c Hc; apply path_of_wf; by rewrite Forall_forall in Hwf; apply Hwf).
  assert (∀ k g, (k, g) ∈ groupCandidateFindings candidates → ∃ c, c ∈ candidates ∧ group_path (k, g) = path_of c ∧ k = key_of (path_of c) ∧
    g = List.filter (λ d, path_of d === path_of c) (sortBy by_id candidates)) as Hgroup.
  { intros k g [Eg Hne]%group_spec. destruct g as [|c g]; [done|]. assert (c ∈ members k (sortBy by_id candidates)) as Hc by (rewrite <- Eg; set_solver).
    unfold members in Hc. apply list_elem_of_In, filter_In in Hc as [Hc Hk%bool_decide_eq_true]. apply list_elem_of_In in Hc. rewrite elem_of_sortBy in Hc.
    exists c. split; [exact Hc|]. split; [reflexivity|]. split; [symmetry; exact Hk|]. rewrite Eg. unfold members. apply filter_ext_in. intros d Hin%list_elem_of_In. rewrite elem_of_sortBy in Hin.
    apply bool_decide_ext. rewrite <- Hk. split; [|intros E0; change (key_of (path_of d) = key_of (path_of c)); congruence].
    intros E0. by apply key_of_inj; [apply Hpath..|]. }
  exists drafts, (List.map group_path (groupCandidateFindings candidates)). split_and!; [done| | |intros c area _; apply path_names_file|].
  - apply (NoDup_fmap_1 key_of). rewrite <- list_fmap_compose. erewrite (Forall_fmap_ext_1 _ fst); [apply group_keys|].
    apply Forall_forall. intros [k g] Hin. destruct (Hgroup k g Hin) as (c & _ & Hp & -> & _). exact (f_equal key_of Hp).
  - intros path. rewrite list_elem_of_fmap. split.
    + intros ([k g] & -> & Hin). destruct (Hgroup k g Hin) as (c & Hc & Hp & _). by exists c.
    + intros (c & Hc & <-). destruct (group_of candidates c Hc) as (g & Hg & Hin). exists (groupKeyForCandidate c, g). split; [|done].
      destruct (Hgroup _ _ Hg) as (d & Hdin & -> & E0 & _). by apply key_of_inj; [apply Hpath..|].
  - apply Forall2_fmap_l. eapply Forall2_impl_in; [exact Hall|]. intros [k g] draft Hin _ [Hr _ _ _ _ _ _]. destruct (Hgroup k g Hin) as (c & _ & Hp & _ & Eg).
    cbn [fst snd] in Hr.
    change (prop "candidate_finding_refs" draft = JArray (List.map (prop "candidate_finding_id")
      (List.filter (λ c, path_of c === group_path (k, g)) (sortBy by_id candidates)))). rewrite Hr, Hp, <- Eg. reflexivity.
Qed.

(** C28. The order in which the scanners report the candidates plays no part: two inputs that
    differ only in the order of the candidate findings, whose ids are distinct texts, give
    the same draft set, ids included, or throw the same error. *)
Theorem draft_set_order_free input input' :
  (∀ name, name ≠ "scanner_finding_set" → prop name input' = prop name input) →
  (∀ name, name ≠ "candidate_findings" → prop name (prop "scanner_finding_set" input') = prop name (prop "scanner_finding_set" input)) →
  candidates_of input ≡ₚ candidates_of input' →
  NoDup (List.map (prop "candidate_finding_id") (candidates_of input)) →
  Forall (λ c, is_text (prop "candidate_finding_id" c) = true) (candidates_of input) →
  buildReviewFindingDraftSet input' = buildReviewFindingDraftSet input.
Proof.
  intros Hin Hset Hp Hnd Ht. unfold buildReviewFindingDraftSet. rewrite (groups_order_free _ _ Hnd Ht Hp).
  assert (∀ groups, map_throws (buildDraft input') groups = map_throws (buildDraft input) groups) as ->.
  { induction groups as [|group groups IH]; [done|]. cbn [map_throws]. rewrite IH.
    assert (buildDraft input' group = buildDraft input group) as ->; [|done].
    unfold buildDraft, draft_evidence, draft_record, coverage_of, shipped_artifacts. by rewrite !Hin. }
  destruct (map_throws _ _) as [drafts|]; [|done]. cbn [mbind throws_bind]. f_equal.
  unfold draft_set_record, draft_set_limitations, safeCoverageLimitations, coverage_of. by rewrite !Hset, !Hin.
Qed.
End worker_theorems.

(** ** Evidence *)

Lemma evidence_ref_fields availabilityLookup r :
  let e := evidenceRefForArtifact availabilityLookup r in
  let availability := availability_of availabilityLookup r in
  prop "artifact_ref" e = r ∧ prop "availability_state" e = prop "availability_state" availability ∧
  prop "available_for_review" e = JBool (has_string "retained_review_artifact" (prop "availability_state" availability)) ∧
  prop "display_state" e = match contract_of (prop "availability_state" availability) with
                           | Some contract => jstr (displayState contract) | None => JForeign end ∧
  prop "deletion_evidence_ref" e = prop "deletion_evidence_ref" availability.
Proof.
  intros e availability. unfold e, evidenceRefForArtifact. fold availability. rewrite !prop_field. split_and!; try reflexivity.
  destruct (is_undefined (prop "deletion_evidence_ref" availability)) eqn:Hu; [|reflexivity].
  destruct (prop "deletion_evidence_ref" availability); try discriminate Hu; reflexivity.
Qed.
Lemma availability_lookup_entry v ref entry : JsMap.get ref (artifactAvailabilityLookup v) = Some entry →
  ∃ fs, v = JObject fs ∧ (ref, entry) ∈ fs ∧ isValidArtifactAvailability entry = true.
Proof.
  destruct v as [| | | | | | |fs]; try done. cbn [artifactAvailabilityLookup].
  intros [Hin Hv]%get_elem%list_elem_of_In%filter_In. exists fs. by rewrite list_elem_of_In.
Qed.
(* What an entry that the lookup holds says; a reference with no entry is unresolved. *)
Lemma availability_cases v r (P : json → Prop) : P unresolved → (∀ entry, isValidArtifactAvailability entry = true → P entry) →
  P (availability_of (artifactAvailabilityLookup v) r).
Proof.
  intros Hu He. unfold availability_of. destruct r as [| |ref| | | | |]; [exact Hu|exact Hu| |exact Hu..].
  destruct (JsMap.get ref (artifactAvailabilityLookup v)) as [entry|] eqn:Hg; [|exact Hu].
  apply availability_lookup_entry in Hg as (_ & _ & _ & Hv). exact (He entry Hv).
Qed.
Lemma retained_entry v r : prop "availability_state" (availability_of (artifactAvailabilityLookup v) r) = jstr "retained_review_artifact" →
  ∃ ref entry fs, r = JString ref ∧ v = JObject fs ∧ (ref, entry) ∈ fs ∧ isValidArtifactAvailability entry = true ∧
    prop "availability_state" entry = jstr "retained_review_artifact".
Proof.
  assert (prop "availability_state" unresolved ≠ jstr "retained_review_artifact") as Hu by by vm_compute.
  unfold availability_of. destruct r as [| |ref| | | | |]; [done|done| |done..].
  destruct (JsMap.get ref (artifactAvailabilityLookup v)) as [entry|] eqn:Hg; [|done]. intros He.
  apply availability_lookup_entry in Hg as (fs & -> & Hin & Hv). by exists ref, entry, fs.
Qed.
Lemma draft_evidence_elem input g e : e ∈ draft_evidence input g → ∃ r lookup, e = evidenceRefForArtifact lookup r ∧
  ((r = SCANNER_SET_REF ∧ lookup = artifactAvailabilityLookup (prop "artifact_availability" input)) ∨
   (resolvesToShippedSource (shipped_artifacts input) r = true ∧ lookup = artifactAvailabilityLookup (prop "artifact_availability" input)) ∨ lookup = []).
Proof.
  unfold draft_evidence, evidenceRefsForDraft. rewrite elem_of_cons. intros [->|Hin].
  { exists SCANNER_SET_REF, (artifactAvailabilityLookup (prop "artifact_availability" input)). split; [reflexivity|]. by left. }
  apply list_elem_of_fmap in Hin as (r & -> & _). destruct (resolvesToShippedSource (shipped_artifacts input) r) eqn:Hr.
  - exists r, (artifactAvailabilityLookup (prop "artifact_availability" input)). split; [reflexivity|]. right; left. done.
  - exists r, []. split; [reflexivity|]. by right; right.
Qed.
Definition shipped_source (input ref : json) : Prop := ∃ artifact,
  List.filter (λ a, prop "artifact_ref" a === ref) (shipped_artifacts input) = [artifact] ∧
  one_of ["raw_snippet"; "targeted_file"] (prop "artifact_type" artifact) = true.
Lemma resolves_shipped input r : resolvesToShippedSource (shipped_artifacts input) r = true → shipped_source input r.
Proof.
  unfold resolvesToShippedSource, shipped_source. destruct (List.filter _ _) as [|artifact [|]]; [done| |done]. by exists artifact.
Qed.
Definition available_entry (input ref : json) : Prop := ∃ text entry fs,
  ref = JString text ∧ prop "artifact_availability" input = JObject fs ∧ (text, entry) ∈ fs ∧ isValidArtifactAvailability entry = true ∧
  prop "availability_state" entry = jstr "retained_review_artifact".
Lemma evidence_available input g e : e ∈ draft_evidence input g → prop "available_for_review" e = JBool true →
  prop "availability_state" e = jstr "retained_review_artifact" ∧ available_entry input (prop "artifact_ref" e) ∧
  (prop "artifact_ref" e = SCANNER_SET_REF ∨ shipped_source input (prop "artifact_ref" e)).
Proof.
  intros (r & lookup & -> & Hcase)%draft_evidence_elem. destruct (evidence_ref_fields lookup r) as (-> & -> & -> & _ & _). intros Ha.
  assert (has_string "retained_review_artifact" (prop "availability_state" (availability_of lookup r)) = true) as Hs by congruence.
  apply has_string_true in Hs. split; [exact Hs|]. destruct Hcase as [[-> ->]|[[Hr ->]| ->]].
  - split; [exact (retained_entry _ _ Hs)|by left].
  - split; [exact (retained_entry _ _ Hs)|right; by apply resolves_shipped].
  - exfalso. revert Hs. unfold availability_of. destruct r; by vm_compute.
Qed.

Lemma basis_elem mode refs basis b : evidenceBasisForDraft mode refs = Ret basis →
  b ∈ basis ↔ b = jstr "scanner_output" ∨ b ∈ mode_basis mode refs ∨ ∃ e, e ∈ refs ∧ b ∈ ref_basis e.
Proof.
  intros [<- _]%nonEmptyArray_inv. rewrite uniqueSorted_elem, elem_of_cons, elem_of_app.
  assert (b ∈ List.flat_map ref_basis refs ↔ ∃ e, e ∈ refs ∧ b ∈ ref_basis e) as ->; [|done].
  rewrite list_elem_of_In, in_flat_map. split; intros (e & He & Hb); exists e; [rewrite !list_elem_of_In|rewrite <- !list_elem_of_In]; done.
Qed.
(* The basis that says source content was there to read. *)
Definition positive_basis (b : json) : bool :=
  one_of ["finding_context_snippet"; "extended_approved_source_context"; "retained_review_artifact"] b.
Lemma singleton_case (b v : json) (P : Prop) : b ∈ [v] → positive_basis b = true → positive_basis v = false → P.
Proof. intros ->%list_elem_of_singleton. congruence. Qed.
Lemma positive_ref e b : b ∈ ref_basis e → positive_basis b = true → in_state "retained_review_artifact" e = true ∧ is_provenance e = false.
Proof.
  unfold ref_basis. destruct (in_state "retained_review_artifact" e).
  - destruct (is_provenance e); [by intros ?%elem_of_nil|done].
  - intros Hb Hp. exfalso. repeat (case_match; [eapply singleton_case; [exact Hb|exact Hp|reflexivity]|]). by apply elem_of_nil in Hb.
Qed.
Lemma positive_source mode refs basis b : evidenceBasisForDraft mode refs = Ret basis → b ∈ basis → positive_basis b = true →
  ∃ e, e ∈ refs ∧ in_state "retained_review_artifact" e = true ∧ is_provenance e = false.
Proof.
  intros Hb Hin Hp. rewrite (basis_elem _ _ _ _ Hb) in Hin. destruct Hin as [->|[Hm|(e & He & Hr)]].
  - discriminate Hp.
  - unfold mode_basis in Hm. destruct (has_string "metadata_only" mode); [eapply singleton_case; [exact Hm|exact Hp|reflexivity]|].
    destruct (List.find _ refs) as [e|] eqn:Hf; [|by apply elem_of_nil in Hm]. apply find_some in Hf as [Hin%list_elem_of_In Hprov%negb_true_iff].
    exists e. destruct (in_state "retained_review_artifact" e); [done|by apply elem_of_nil in Hm].
  - exists e. split; [exact He|]. by eapply positive_ref.
Qed.

(** ** The check of the output *)

Lemma deleted_entry entry : isValidArtifactAvailability entry = true → in_state "deleted_under_policy" entry = true →
  is_text (prop "deletion_evidence_ref" entry) = true.
Proof.
  unfold isValidArtifactAvailability, in_state. intros Hv Hs%has_string_true. rewrite Hs in Hv.
  change (contract_of (jstr "deleted_under_policy")) with (Some {| displayState := "deleted"; allowedSourceDerivedClasses := ["transient_source_derived"; "customer_opt_in_retained_source"];
       deletionEvidenceRequired := true; deletionEvidenceAllowed := true |}) in Hv.
  destruct (isRecord entry); [|done]. cbn [allowedSourceDerivedClasses deletionEvidenceRequired] in Hv. destruct (negb (one_of _ _)); [done|].
  by destruct (prop "deletion_evidence_ref" entry).
Qed.
Definition evidence_ref_valid (e : json) : bool :=
  (negb (one_of REVIEW_FINDING_DRAFT_UNAVAILABLE_STATES (prop "availability_state" e) && truthy (prop "available_for_review" e))
   && negb (in_state "deleted_under_policy" e
            && (negb (has_string "deleted" (prop "display_state" e)) || negb (is_text (prop "deletion_evidence_ref" e)))))%bool.
Lemma built_ref_valid v r lookup : (lookup = artifactAvailabilityLookup v ∨ lookup = []) → evidence_ref_valid (evidenceRefForArtifact lookup r) = true.
Proof.
  intros Hl. unfold evidence_ref_valid, in_state. destruct (evidence_ref_fields lookup r) as (_ & -> & -> & -> & ->). cbn [truthy].
  set (availability := availability_of lookup r). apply andb_true_intro. split; apply negb_true_iff.
  - apply not_true_iff_false. intros [Hu Hs]%andb_prop. destruct (has_string "retained_review_artifact" (prop "availability_state" availability)) eqn:Hr; [|discriminate Hs].
    apply has_string_true in Hr. rewrite Hr in Hu. discriminate Hu.
  - apply not_true_iff_false. intros [Hs Hd]%andb_prop. apply has_string_true in Hs as Hs'. rewrite Hs' in Hd.
    change (contract_of (jstr "deleted_under_policy")) with (Some {| displayState := "deleted"; allowedSourceDerivedClasses := ["transient_source_derived"; "customer_opt_in_retained_source"];
       deletionEvidenceRequired := true; deletionEvidenceAllowed := true |}) in Hd. cbn [displayState] in Hd.
    assert (has_string "deleted" (jstr "deleted") = true) as E0 by reflexivity. rewrite E0 in Hd. cbn [negb orb] in Hd. apply negb_true_iff in Hd.
    assert (is_text (prop "deletion_evidence_ref" availability) = true) as Ht; [|congruence]. revert Hs. unfold availability.
    destruct Hl as [->| ->].
    + apply (availability_cases v r (λ entry, has_string "deleted_under_policy" (prop "availability_state" entry) = true → is_text (prop "deletion_evidence_ref" entry) = true)).
      * intros Hs. discriminate Hs.
      * intros entry. apply deleted_entry.
    + unfold availability_of. destruct r; intros Hs; discriminate Hs.
Qed.
Lemma built_refs_valid input g : forallb evidence_ref_valid (draft_evidence input g) = true.
Proof.
  apply forallb_forall. intros e (r & lookup & -> & Hcase)%list_elem_of_In%draft_evidence_elem.
  apply (built_ref_valid (prop "artifact_availability" input)). naive_solver.
Qed.
Lemma gaps_nonempty mode basis refs : nonempty (thresholdGapsForDraft mode basis refs) = true.
Proof.
  destruct (thresholdGapsForDraft mode basis refs) as [|] eqn:E0; [|done]. unfold thresholdGapsForDraft in E0. by apply uniqueSorted_nil in E0.
Qed.
Lemma built_draft_valid `{UnicodeText, Sha256} input k g draft : draft_of input k g draft → g ≠ [] →
  validateReviewFindingDraftOutputSemantics draft (coverage_of input) = true.
Proof.
  intros [Hrefs _ Hev (basis & _ & Hbasis & Hgaps) _ Hstate (Hs & Hl & Hc)] Hne. unfold validateReviewFindingDraftOutputSemantics.
  rewrite Hrefs, Hev, Hbasis, Hgaps, Hstate, Hs, Hl, Hc, !has_string_jstr, json_eq_refl. cbn [array_of].
  rewrite gaps_nonempty, andb_false_r, ?has_string_jstr. destruct g; [done|]. exact (built_refs_valid input _).
Qed.

(** ** Ids *)

Lemma hex_digit_range n : 0 ≤ n < 16 → 0 ≤ hex_digit n < 65536.
Proof. unfold hex_digit. destruct (Z.ltb_spec n 10); lia. Qed.
Lemma units_ok_cons c s : 0 ≤ c < 65536 → units_ok s = true → units_ok (c :: s) = true.
Proof. intros Hc Hs. unfold units_ok. cbn [forallb]. fold (units_ok s). rewrite Hs, andb_true_r. apply andb_true_intro. split; [apply Z.leb_le|apply Z.ltb_lt]; lia. Qed.
Lemma units_ok_app s t : units_ok s = true → units_ok t = true → units_ok (s ++ t) = true.
Proof. unfold units_ok. rewrite forallb_app. by intros -> ->. Qed.
Lemma units_ok_unicode_escape c : 0 ≤ c < 65536 → units_ok (unicode_escape c) = true.
Proof.
  intros Hc. unfold unicode_escape, hex4.
  assert (0 ≤ c / 4096 < 16) as H3 by (split; [apply Z.div_pos; lia|apply Z.div_lt_upper_bound; lia]).
  do 2 (apply units_ok_cons; [lia|]). apply units_ok_cons; [by apply hex_digit_range|].
  do 3 (apply units_ok_cons; [apply hex_digit_range, Z.mod_pos_bound; lia|]). reflexivity.
Qed.
Lemma units_ok_escape_unit c : 0 ≤ c < 65536 → units_ok (escape_unit c) = true.
Proof.
  intros Hc. unfold escape_unit. repeat (case_match; [first [reflexivity|by apply units_ok_unicode_escape]|]). apply units_ok_cons; [done|reflexivity].
Qed.
Lemma units_ok_inv c s : units_ok (c :: s) = true → 0 ≤ c < 65536 ∧ units_ok s = true.
Proof. unfold units_ok. cbn [forallb]. intros [[Hl%Z.leb_le Hu%Z.ltb_lt]%andb_prop Hs]%andb_prop. done. Qed.
Lemma units_ok_escape s : units_ok s = true → units_ok (escape s) = true.
Proof.
  revert s. apply (strings_by_pairs (λ s, units_ok s = true → units_ok (escape s) = true)).
  - done.
  - intros c [Hc _]%units_ok_inv. cbn [escape]. case_match; [by apply units_ok_unicode_escape|].
    case_match; (apply units_ok_app; [|reflexivity]); [by apply units_ok_unicode_escape|by apply units_ok_escape_unit].
  - intros c d s IHs IHds [Hc Hds]%units_ok_inv. apply units_ok_inv in Hds as Hd'. destruct Hd' as [Hd Hs]. remember (d :: s) as t eqn:Et. cbn [escape].
    specialize (IHds Hds). case_match.
    + rewrite Et at 1. case_match; [by do 2 (apply units_ok_cons; [done|]); apply IHs|]. apply units_ok_app; [by apply units_ok_unicode_escape|exact IHds].
    + case_match; (apply units_ok_app; [|exact IHds]); [by apply units_ok_unicode_escape|by apply units_ok_escape_unit].
Qed.
Lemma key_of_units_ok p : wf_text p = true → units_ok (key_of p) = true.
Proof.
  unfold wf_text. destruct p as [| |s| | | | |]; try done. cbn [is_text wf_json andb]. intros Hs.
  change (units_ok ((91 :: quote (js "affected_area_path") ++ [44]) ++ quote s ++ [93]) = true).
  apply units_ok_app; [reflexivity|]. apply units_ok_app; [|reflexivity].
  unfold quote. apply units_ok_cons; [lia|]. apply units_ok_app; [by apply units_ok_escape|reflexivity].
Qed.

Lemma drafts_valid_spec coverageMode drafts : ∀ draftIds,
  (∀ d, d ∈ drafts → validateReviewFindingDraftOutputSemantics d coverageMode = true ∧ prop "review_finding_draft_id" d ∉ draftIds) →
  NoDup (List.map (prop "review_finding_draft_id") drafts) → drafts_valid coverageMode draftIds drafts = true.
Proof.
  induction drafts as [|d drafts IH]; intros draftIds Hall; [done|]. cbn [drafts_valid List.map]. intros [Hd Hnd]%NoDup_cons.
  destruct (Hall d) as [-> Hf]; [set_solver|]. rewrite bool_decide_false by done. cbn [negb andb]. apply IH; [|done].
  intros d' Hd'. destruct (Hall d') as [Hv Hf']; [set_solver|]. split; [done|]. rewrite not_elem_of_cons. split; [|done].
  intros E0. apply Hd. rewrite <- E0. by apply (list_elem_of_fmap_2 (prop "review_finding_draft_id")).
Qed.

(* The limitations of an empty set, read as text. *)
Lemma join_space_split p parts : p ∈ parts → ∃ a b, join_space parts = a ++ p ++ b.
Proof.
  induction parts as [|q parts IH]; [by intros ?%elem_of_nil|]. intros [->|Hp]%elem_of_cons.
  - destruct parts as [|q' parts]; [exists [], []; by rewrite app_nil_r|]. by exists [], (32 :: join_space (q' :: parts)).
  - destruct (IH Hp) as (a & b & E0). destruct parts as [|q' parts]; [by apply elem_of_nil in Hp|].
    exists (q ++ 32 :: a), b. change (join_space (q :: q' :: parts)) with (q ++ 32 :: join_space (q' :: parts)). rewrite E0. by rewrite <- app_assoc.
Qed.
Lemma join_space_ascii parts : Forall (λ p, is_ascii p = true) parts → is_ascii (join_space parts) = true.
Proof.
  unfold is_ascii. induction 1 as [|p parts Hp Hall IH]; [done|]. destruct parts as [|q parts]; [exact Hp|].
  change (join_space (p :: q :: parts)) with (p ++ 32 :: join_space (q :: parts)). by rewrite forallb_app, Hp.
Qed.
Lemma strip_units_app p s : strip_units p (p ++ s) = Some s.
Proof. induction p as [|c p IH]; [by destruct s|]. cbn [strip_units app]. by rewrite Z.eqb_refl. Qed.
Lemma includes_app l a b : includes l (a ++ l ++ b) = true.
Proof.
  induction a as [|c a IH]; cbn [app].
  - destruct (l ++ b) eqn:E0; cbn [includes]; rewrite <- E0, strip_units_app; done.
  - cbn [includes]. by rewrite IH, orb_true_r.
Qed.

Section output_check.
Context `{UnicodeText, Sha256}.
Variable input : json.
Hypothesis input_wf : wf_json input = true.
Hypothesis areas_wf : Forall (λ c, wf_text (prop "affected_area" c) = true) (candidates_of input).

(* What the id of a group's draft is computed from. *)
Definition draft_identity (group : jsstr * list json) : json :=
  draft_identity_input (prop "review_id" (prop "review_scope" input)) (prop "normalization_run_id" input) group.1
    (List.map (prop "candidate_finding_id") group.2).
Definition identity_texts : list bytes :=
  List.flat_map (λ group, match canonicalizeProtocolJson (draft_identity group) with Ret s => [utf8 s] | Throw _ => [] end)
    (groupCandidateFindings (candidates_of input)).

Lemma elem_wf l v : forallb wf_json l = true → v ∈ l → wf_json v = true.
Proof. rewrite forallb_elem. auto. Qed.
Lemma array_of_wf v : wf_json v = true → forallb wf_json (array_of v) = true.
Proof. by destruct v. Qed.
Lemma candidates_wf c : c ∈ candidates_of input → wf_json c = true.
Proof. apply elem_wf, array_of_wf. by do 2 apply prop_wf. Qed.
Lemma group_members_in k g c : (k, g) ∈ groupCandidateFindings (candidates_of input) → c ∈ g → c ∈ candidates_of input.
Proof.
  intros [-> _]%group_spec. unfold members. rewrite list_elem_of_In, filter_In, <- list_elem_of_In. intros [Hc _]. by rewrite elem_of_sortBy in Hc.
Qed.
Lemma group_key_ok k g : (k, g) ∈ groupCandidateFindings (candidates_of input) → units_ok k = true.
Proof.
  intros Hg. apply group_spec in Hg as Hs. destruct Hs as [Eg Hne]. destruct g as [|c g]; [done|].
  assert (c ∈ members k (sortBy by_id (candidates_of input))) as Hc by (rewrite <- Eg; set_solver).
  unfold members in Hc. apply list_elem_of_In, filter_In in Hc as [Hc Hk%bool_decide_eq_true]. rewrite <- Hk. apply key_of_units_ok, path_of_wf.
  apply list_elem_of_In in Hc. rewrite elem_of_sortBy in Hc. rewrite Forall_forall in areas_wf. by apply areas_wf.
Qed.
Lemma draft_identity_wf k g : (k, g) ∈ groupCandidateFindings (candidates_of input) → wf_json (draft_identity (k, g)) = true.
Proof.
  intros Hg. unfold draft_identity, draft_identity_input, jobj. cbn [wf_json List.map fst snd forallb]. apply andb_true_intro. split; [reflexivity|].
  rewrite (group_key_ok k g Hg). rewrite !prop_wf by (try apply prop_wf; exact input_wf).
  assert (forallb wf_json (sortBy compareCodeUnit (List.map (prop "candidate_finding_id") g)) = true) as ->; [|reflexivity].
  apply forallb_elem. intros v. rewrite elem_of_sortBy. intros (c & -> & Hc)%list_elem_of_fmap. apply prop_wf, candidates_wf. by eapply group_members_in.
Qed.
Lemma slug_text s : default EmptyString (strip "sha256:" (sha256ProtocolText s)) = sha256_hex (utf8 s).
Proof. unfold sha256ProtocolText. by rewrite strip_app. Qed.
Lemma slug_of group slug : draftIdSlug (prop "review_id" (prop "review_scope" input)) (prop "normalization_run_id" input) group.1
    (List.map (prop "candidate_finding_id") group.2) = Ret slug →
  ∃ s, canonicalizeProtocolJson (draft_identity group) = Ret s ∧ slug = sha256_hex (utf8 s).
Proof.
  unfold draftIdSlug, computeCanonicalSha256Id. fold (draft_identity group).
  destruct (canonicalizeProtocolJson (draft_identity group)) as [s|msg]; cbn [mbind throws_bind]; [|intros [=]].
  rewrite slug_text. intros <-%Ret_inj. exists s. split; reflexivity.
Qed.
Lemma draft_ids_distinct g1 g2 d1 d2 : collision_free identity_texts →
  g1 ∈ groupCandidateFindings (candidates_of input) → g2 ∈ groupCandidateFindings (candidates_of input) →
  draft_of input g1.1 g1.2 d1 → draft_of input g2.1 g2.2 d2 →
  prop "review_finding_draft_id" d1 = prop "review_finding_draft_id" d2 → g1.1 = g2.1.
Proof.
  intros Hcf H1 H2 [_ _ _ _ (u1 & U1 & ->) _ _] [_ _ _ _ (u2 & U2 & ->) _ _] E0.
  apply jstr_inj, (f_equal (strip "review_finding_draft:")) in E0. rewrite !strip_app in E0.
  apply slug_of in U1 as (s1 & C1 & ->), U2 as (s2 & C2 & ->).
  destruct g1 as [k1 l1], g2 as [k2 l2]. assert (norm (draft_identity (k1, l1)) = norm (draft_identity (k2, l2))) as En.
  { eapply computeCanonical_inj; [by apply draft_identity_wf|by apply draft_identity_wf|exact C1|exact C2| |congruence].
    eapply collision_free_sub; [|exact Hcf]. intros b Hb. unfold identity_texts. apply list_elem_of_In, in_flat_map.
    apply elem_of_cons in Hb as [->|Hb%list_elem_of_singleton].
    - exists (k1, l1). rewrite <- !list_elem_of_In, C1. set_solver.
    - exists (k2, l2). rewrite <- !list_elem_of_In, C2. set_solver. }
  apply (f_equal (prop "group_key")) in En. rewrite !prop_norm in En by (by apply draft_identity_wf).
  unfold draft_identity, draft_identity_input in En. rewrite !prop_field in En.
  change (JString k1 = JString k2) in En. injection En as ->. reflexivity.
Qed.

End output_check.

Section normalization_theorems.
Context `{UnicodeText, Sha256}.

Lemma no_drafts input drafts : Forall2 (λ group draft, draft_of input group.1 group.2 draft) (groupCandidateFindings (candidates_of input)) drafts →
  drafts = [] ↔ candidates_of input = [].
Proof.
  intros Hall. split.
  - intros ->. apply Forall2_nil_inv_r in Hall. destruct (candidates_of input) as [|c l] eqn:Ec; [done|].
    destruct (group_of (c :: l) c) as (g & Hg & _); [set_solver|]. rewrite Hall in Hg. by apply elem_of_nil in Hg.
  - intros E0. rewrite E0 in Hall. by apply Forall2_nil_inv_l in Hall.
Qed.
Lemma no_findings_text input : Forall (λ v, is_ascii (element_text v) = true) (safeCoverageLimitations (prop "scanner_finding_set" input)) →
  mentions (lower_joined (draft_set_limitations input [])) "does not prove absence of vulnerabilities" = true.
Proof.
  intros Ha. unfold lower_joined, draft_set_limitations. cbn [nonempty].
  set (parts := List.map element_text (uniqueSorted (NO_FINDINGS_LIMITATIONS ++ safeCoverageLimitations (prop "scanner_finding_set" input)))).
  assert (Forall (λ p, is_ascii p = true) parts) as Hparts.
  { unfold parts. apply Forall_fmap, Forall_forall. intros v. rewrite uniqueSorted_elem, elem_of_app. intros [Hv|Hv]; [|by rewrite Forall_forall in Ha; apply Ha].
    unfold NO_FINDINGS_LIMITATIONS in Hv. rewrite !elem_of_cons, elem_of_nil in Hv. by destruct Hv as [->|[->|[]]]; vm_compute. }
  rewrite toLowerCase_ascii by by apply join_space_ascii.
  destruct (join_space_split (js (NO_FINDINGS_STATEMENT +:+ "; this does not prove absence of vulnerabilities.")) parts) as (a & b & ->).
  { unfold parts. apply list_elem_of_fmap. exists (jstr (NO_FINDINGS_STATEMENT +:+ "; this does not prove absence of vulnerabilities.")). split; [reflexivity|].
    rewrite uniqueSorted_elem, elem_of_app. left. apply list_elem_of_here. }
  rewrite !List.map_app. unfold mentions.
  assert (List.map ascii_lower (js (NO_FINDINGS_STATEMENT +:+ "; this does not prove absence of vulnerabilities.")) =
    js "no findings were produced by the configured inputs; this " ++ js "does not prove absence of vulnerabilities" ++ js ".") as -> by by vm_compute.
  rewrite <- !app_assoc, app_assoc. apply includes_app.
Qed.

(** What the builder builds passes the check made on it, unless two canonical texts collide:
    the check guards against other programs, it never refuses a genuine result. *)
Theorem built_set_passes_check input draftSet :
  buildReviewFindingDraftSet input = Ret draftSet → wf_json input = true →
  Forall (λ c, wf_text (prop "affected_area" c) = true) (candidates_of input) →
  (candidates_of input = [] → Forall (λ v, is_ascii (element_text v) = true) (safeCoverageLimitations (prop "scanner_finding_set" input))) →
  collision_free (identity_texts input) →
  validateReviewFindingDraftSetOutputSemantics draftSet = true.
Proof.
  intros Hb Hwf Hareas Hlim Hcf. apply build_set in Hb as (drafts & Hd & Hall & Hc & Hclass & Hstatus & Hno & Hl).
  unfold validateReviewFindingDraftSetOutputSemantics. rewrite Hd, Hc, Hclass, Hstatus, Hno, Hl. cbn [array_of]. rewrite has_string_jstr. cbn [andb].
  assert (drafts_valid (coverage_of input) [] drafts = true) as Hv.
  { apply drafts_valid_spec.
    - intros d Hin. split; [|set_solver]. destruct (Forall2_elem_r _ _ _ _ Hall Hin) as ([k g] & Hg & Hof). cbn [fst snd] in Hof.
      apply (built_draft_valid input k g d Hof). by apply group_spec in Hg as [_ Hne].
    - apply NoDup_alt. intros i j v Hi Hj. rewrite !list_lookup_fmap in Hi, Hj.
      destruct (drafts !! i) as [d1|] eqn:E1, (drafts !! j) as [d2|] eqn:E2; try done. cbn in Hi, Hj.
      destruct (Forall2_lookup_r _ _ _ _ _ Hall E1) as (g1 & G1 & O1), (Forall2_lookup_r _ _ _ _ _ Hall E2) as (g2 & G2 & O2).
      assert (g1.1 = g2.1) as Ek by (eapply (draft_ids_distinct input Hwf Hareas g1 g2 d1 d2 Hcf);
        [by eapply list_elem_of_lookup_2|by eapply list_elem_of_lookup_2|exact O1|exact O2|congruence]).
      eapply (NoDup_lookup _ _ _ g1.1 (group_keys (candidates_of input))); rewrite list_lookup_fmap; [by rewrite G1|by rewrite G2, Ek]. }
  rewrite Hv. apply andb_true_intro; split; [|reflexivity]. destruct drafts as [|d drafts].
  - assert (candidates_of input = []) as E0 by by apply (no_drafts input []). cbn [nonempty]. rewrite (no_findings_text input (Hlim E0)), has_string_jstr. reflexivity.
  - reflexivity.
Qed.
End normalization_theorems.

Section boundary_theorems.
Context `{UnicodeText, Sha256}.
Variable validateProtocolSchema : string → json → list ProtocolValidationError.

Lemma nonempty_false {A} (l : list A) : nonempty l = false ↔ l = [].
Proof. by destruct l. Qed.
(* Everything a normalized result went through. *)
Lemma normalized_inv input draftSet : normalizeCandidateFindings validateProtocolSchema input = normalized draftSet →
  isRecord input = true ∧ input_rejection validateProtocolSchema input = None ∧ verifiedArtifactSemanticIssues (chain_input input) = Ret [] ∧
  validateReceiptBoundary input = None ∧ verifiedSubmissionChainIssues validateProtocolSchema (chain_input input) = [] ∧
  chronology_invalid input = Ret false ∧ scan_rejection (prop "scanner_finding_set" input) = None ∧
  buildReviewFindingDraftSet input = Ret draftSet ∧
  validateProtocolSchema "urn:codeattest:protocol:v0:review-finding-draft-set" draftSet = [].
Proof.
  unfold normalizeCandidateFindings. destruct (normalizeCandidateFindingsChecked validateProtocolSchema input) as [result|] eqn:Hn; [|done]. intros ->.
  unfold normalizeCandidateFindingsChecked in Hn. destruct (isRecord input); cbn [negb] in Hn; [|done].
  destruct (input_rejection validateProtocolSchema input); [done|]. apply bind_Ret in Hn as (issues & Hi & Hn). destruct issues as [|issue issues]; [|done].
  destruct (validateReceiptBoundary input); [done|]. destruct (verifiedSubmissionChainIssues validateProtocolSchema (chain_input input)); [|done].
  apply bind_Ret in Hn as (invalid & Hc & Hn). destruct invalid; [done|]. destruct (scan_rejection _); [done|].
  apply bind_Ret in Hn as (built & Hb & Hn). apply Ret_inj in Hn.
  destruct (nonempty (validateProtocolSchema "urn:codeattest:protocol:v0:review-finding-draft-set" built)) eqn:Hs; [done|].
  destruct (validateReviewFindingDraftSetOutputSemantics built); [|done]. cbn [negb orb] in Hn.
  assert (built = draftSet) as -> by congruence. apply nonempty_false in Hs. done.
Qed.
Lemma document_accepted input field schemaId reason : input_rejection validateProtocolSchema input = None →
  (field, schemaId, reason) ∈ document_schemas → validateProtocolSchema schemaId (prop field input) = [].
Proof.
  intros Hr Hin. assert (document_rejection validateProtocolSchema input = None) as Hd.
  { unfold input_rejection in Hr. destruct (prop "vendor_receipt" input); try done; destruct (negb (has_string _ _)); try done;
      destruct (negb (hasValidNormalizationMetadata input)); try done; by destruct (document_rejection validateProtocolSchema input). }
  unfold document_rejection in Hd. apply nonempty_false. destruct (nonempty _) eqn:Hne; [|done]. exfalso.
  destruct (List.flat_map _ document_schemas) as [|reason' l] eqn:Hf; [|done].
  assert (reason ∈ @nil NormalizeCandidateFindingsRejectionReason) as Hc; [|by apply elem_of_nil in Hc]. rewrite <- Hf.
  apply list_elem_of_In, in_flat_map. exists (field, schemaId, reason). rewrite <- list_elem_of_In. split; [exact Hin|]. rewrite Hne. by left.
Qed.

(** C22. A draft set is made only of a submission that holds together: the five documents have
    their schemas, the receipt verifies and names the bundle, manifest and attempt, the scan
    precedes the receipt and the receipt the normalization; each candidate's file was scanned
    by a run of its scanner that succeeded; and "no findings" is only said when there is
    no candidate and a completed run scanned some file. *)
Theorem normalization_is_earned input draftSet :
  normalizeCandidateFindings validateProtocolSchema input = normalized draftSet →
  let findings := prop "scanner_finding_set" input in
  let receipt := prop "vendor_receipt" input in
  let bundle := prop "bundle_manifest" input in
  (∀ field schemaId reason, (field, schemaId, reason) ∈ document_schemas → validateProtocolSchema schemaId (prop field input) = []) ∧
  state (verifyVendorReceiptRecordSync validateProtocolSchema receipt (prop "vendor_receipt_signature_outcome" input)) = receipt_verified ∧
  prop "evidence_bundle_id" receipt = prop "evidence_bundle_id" bundle ∧ prop "manifest_id" receipt = prop "manifest_id" bundle ∧
  prop "manifest_id" receipt = prop "manifest_id" (prop "outbound_manifest" input) ∧
  prop "submission_attempt_id" receipt = prop "submission_attempt_id" bundle ∧
  prop "scanner_finding_set_ref" bundle = prop "scanner_finding_set_id" findings ∧
  (∃ order, compareTimestamps (prop "generated_at" findings) (prop "receipt_timestamp" receipt) = Ret order ∧ order ≤ 0) ∧
  (∃ order, compareTimestamps (prop "receipt_timestamp" receipt) (prop "created_at" input) = Ret order ∧ order ≤ 0) ∧
  (∀ c, c ∈ candidates_of input → ∃ run, run ∈ array_of (prop "scanner_runs" findings) ∧ prop "status" run = jstr "succeeded" ∧
     prop "scanner_name" run = prop "source" c ∧ affectedAreaFilePath (prop "affected_area" c) ∈ array_of (prop "scanned_files" run)) ∧
  (prop "normalization_status" draftSet = jstr "no_findings_produced" → candidates_of input = [] ∧
     ∃ run, run ∈ array_of (prop "scanner_runs" findings) ∧ one_of COMPLETED_SCANNER_RUN_STATUSES (prop "status" run) = true ∧
       array_of (prop "scanned_files" run) ≠ []).
Proof.
  intros (_ & Hinput & _ & Hboundary & Hchain & Htime & Hscan & Hbuild & _)%normalized_inv findings receipt bundle.
  unfold validateReceiptBoundary in Hboundary. fold findings receipt bundle in Hboundary.
  unfold verifiedSubmissionChainIssues in Hchain. no_issues Hchain. destruct Hchain as (Hreceipt & _).
  unfold chronology_invalid in Htime. apply bind_Ret in Htime as (scanned & Hscanned & Htime). destruct (Z.ltb_spec 0 scanned); [done|].
  apply bind_Ret in Htime as (created & Hcreated & Hle%Ret_inj%Z.ltb_ge).
  unfold scan_rejection in Hscan. fold findings in Hscan. change (array_of (prop "candidate_findings" findings)) with (candidates_of input) in Hscan.
  destruct (existsb (λ candidate, bool_decide _) _); [done|].
  destruct (existsb (λ candidate, negb (candidateHasSuccessfulRunCoverage findings candidate)) (candidates_of input)) eqn:Hcov; [done|].
  repeat match type of Hboundary with context [if ?b then _ else _] => destruct b eqn:?; [done|] end. bool_simpl.
  split_and!; try done.
  - intros field schemaId reason. by apply document_accepted.
  - unfold chain_input in Hreceipt. cbn in Hreceipt. fold receipt in Hreceipt. by destruct (state _).
  - by exists scanned.
  - by exists created.
  - intros c Hc. pose proof (proj1 (existsb_false _ _) Hcov c Hc) as Hcc. cbn beta in Hcc. apply negb_false_iff in Hcc. unfold candidateHasSuccessfulRunCoverage in Hcc.
    apply existsb_exists in Hcc as (run & Hrun%list_elem_of_In & Hr). bool_simpl. exists run. by rewrite <- has_string_true.
  - intros Hstatus. apply build_set in Hbuild as (drafts & _ & Hall & _ & _ & Hs & _). destruct drafts as [|d drafts]; [|cbn [nonempty] in Hs; rewrite Hs in Hstatus; by apply jstr_inj in Hstatus].
    assert (candidates_of input = []) as E0 by by apply (no_drafts input []). split; [done|]. rewrite E0 in Hscan. cbn [nonempty negb andb] in Hscan.
    destruct (existsb (λ run, one_of COMPLETED_SCANNER_RUN_STATUSES _ && _)%bool _) eqn:Hrun; [|discriminate Hscan]. apply existsb_exists in Hrun as (run & Hin%list_elem_of_In & Hr). bool_simpl. exists run. split_and!; [done..|].
    by intros E1; rewrite E1 in *.
Qed.

(** C23. An evidence reference is offered for review, and a basis that claims source content is
    given, only when it is there: the caller's own availability entry of the reference is
    valid and says retained, and the reference is the scanner set or the one shipped
    artifact of that name, a source snippet or file; a draft that claims such a basis
    has an available source reference. *)
Theorem evidence_claims_are_earned input draftSet draft :
  normalizeCandidateFindings validateProtocolSchema input = normalized draftSet → draft ∈ array_of (prop "review_finding_drafts" draftSet) →
  (∀ e, e ∈ array_of (prop "evidence_refs" draft) → prop "available_for_review" e = JBool true →
     prop "availability_state" e = jstr "retained_review_artifact" ∧ available_entry input (prop "artifact_ref" e) ∧
     (prop "artifact_ref" e = SCANNER_SET_REF ∨ shipped_source input (prop "artifact_ref" e))) ∧
  (∀ b, b ∈ array_of (prop "evidence_basis" draft) → positive_basis b = true →
     ∃ e, e ∈ array_of (prop "evidence_refs" draft) ∧ prop "available_for_review" e = JBool true ∧ shipped_source input (prop "artifact_ref" e)).
Proof.
  intros (_ & _ & _ & _ & _ & _ & _ & Hbuild & _)%normalized_inv. apply build_set in Hbuild as (drafts & -> & Hall & _). cbn [array_of]. intros Hin.
  destruct (Forall2_elem_r _ _ _ _ Hall Hin) as ([k g] & _ & [_ _ Hev (basis & Hb & Hbasis & _) _ _ _]). cbn [fst snd] in *.
  rewrite Hev, Hbasis. cbn [array_of]. split; [intros e; apply evidence_available|]. intros b Hbin Hp.
  destruct (positive_source _ _ _ _ Hb Hbin Hp) as (e & He & Hs & Hprov).
  assert (prop "available_for_review" e = JBool true) as Ha.
  { apply draft_evidence_elem in He as (r & lookup & -> & _). destruct (evidence_ref_fields lookup r) as (_ & Est & -> & _).
    unfold in_state in Hs. by rewrite Est in Hs; rewrite Hs. }
  exists e. split_and!; [done..|]. destruct (evidence_available input g e He Ha) as (_ & _ & [Hp'|]); [|done].
  unfold is_provenance in Hprov. by apply bool_decide_eq_false in Hprov.
Qed.
End boundary_theorems.
