(* ===== verification/WorkerSamples.v ===== *)
(** A submission carried through the services: the fixture's documents pass intake, the
    receipt minted for them verifies, and the worker normalizes their scanner findings;
    the witnesses of the worker's theorems are taken there. *)
From Stdlib Require Import String.
From S2P Require Import Prelude Patterns Bytes Json JsonText CanonicalJson Timestamps Schema Registry Values SubmittedArtifacts Receipts SubmissionFixtures Intake IntakeReceipt Worker.

Local Open Scope Z_scope.

Module WorkerSamples.
Import SampleHash SampleText Fixture IntakeSamples ReceiptSamples.
Definition retained (class : string) : json :=
  jobj [("availability_state", jstr "retained_review_artifact"); ("source_derived_class", jstr class)].
Definition availability : json := jobj
  [("artifact_ref:scanner_finding_set", retained "retained_review_artifact");
   ("artifact_ref:synthetic_raw_snippet", retained "transient_source_derived")].
Definition input_with (findings : json) : json := jobj
  [("normalization_run_id", jstr "normalization_run:synthetic_demo_001"); ("created_at", jstr "2026-07-10T00:30:00Z"); ("review_scope", scope);
   ("scanner_finding_set", findings); ("bundle_manifest", bundle); ("outbound_manifest", manifest); ("vendor_receipt", receipt_of_sample);
   ("vendor_receipt_signature_outcome", receipt_outcome); ("artifact_availability", availability)].
Definition input : json := Eval vm_compute in input_with findings.
(* The same findings, reported in the other order. *)
Definition reversed_findings : json := match findings with
  | JObject fs => JObject (JsMap.set (js "candidate_findings") (JArray (rev (candidates_of input))) fs) | v => v end.
Definition reversed_input : json := Eval vm_compute in input_with reversed_findings.
Definition built : { d | buildReviewFindingDraftSet input = Ret d }.
Proof. eexists. vm_compute. reflexivity. Defined.
Definition draft_set : json := proj1_sig built.
Definition the_draft : json := Eval vm_compute in default JNull (head (array_of (prop "review_finding_drafts" draft_set))).
Lemma input_normalizes : normalizeCandidateFindings errors input = normalized draft_set.
Proof. by vm_compute. Qed.
(* An entry with another state's class, or with no deletion evidence for a deletion. *)
Example impossible_entries_refused :
  isValidArtifactAvailability (jobj [("availability_state", jstr "retained_review_artifact"); ("source_derived_class", jstr "never_collected")]) = false ∧
  isValidArtifactAvailability (jobj [("availability_state", jstr "deleted_under_policy"); ("source_derived_class", jstr "transient_source_derived")]) = false ∧
  isValidArtifactAvailability (retained "transient_source_derived") = true.
Proof. by vm_compute. Qed.
Example paths : List.map (λ s, affectedAreaFilePath (jstr s)) ["src/app.ts:2:18"; "C:\Users\demo\app.ts:10:5"; ":12"; "a:1:2:3"; "a:b"; "a:1:"] =
  List.map jstr ["src/app.ts"; "C:\Users\demo\app.ts"; ""; "a:1"; "a:b"; "a:1:"].
Proof. by vm_compute. Qed.

Lemma drafts_partition_candidates_witness : ∃ drafts (paths : list json), prop "review_finding_drafts" draft_set = JArray drafts ∧ NoDup paths ∧
  length drafts = length paths.
Proof.
  destruct (drafts_partition_candidates input draft_set (proj2_sig built)) as (drafts & paths & Hd & Hnd & _ & _ & Hall);
    [apply (bool_decide_unpack _); by vm_compute|].
  exists drafts, paths. split; [exact Hd|]. split; [exact Hnd|]. symmetry. exact (Forall2_length _ _ _ Hall).
Defined.
Lemma same_fields name : name ≠ "scanner_finding_set" → prop name reversed_input = prop name input.
Proof.
  intros Hne. change reversed_input with (input_with reversed_findings). change input with (input_with findings). unfold input_with.
  rewrite !prop_field. cbn [field_of]. destruct (String.eqb_spec "scanner_finding_set" name) as [E0|_]; [by destruct Hne|]. reflexivity.
Qed.
Lemma same_finding_fields name : name ≠ "candidate_findings" →
  prop name (prop "scanner_finding_set" reversed_input) = prop name (prop "scanner_finding_set" input).
Proof.
  intros Hne. change (prop "scanner_finding_set" reversed_input) with reversed_findings. change (prop "scanner_finding_set" input) with findings.
  unfold reversed_findings. destruct findings as [| | | | | | |fs]; try reflexivity. unfold prop. rewrite JsMap.get_set_ne; [reflexivity|].
  intros E0%js_inj. by destruct Hne.
Qed.
Lemma draft_set_order_free_witness : buildReviewFindingDraftSet reversed_input = buildReviewFindingDraftSet input.
Proof.
  apply (draft_set_order_free input reversed_input same_fields same_finding_fields).
  - assert (candidates_of reversed_input = rev (candidates_of input)) as -> by by vm_compute. apply Permutation_rev.
  - apply (bool_decide_unpack _). by vm_compute.
  - apply (bool_decide_unpack _). by vm_compute.
Defined.
Lemma built_set_passes_check_witness : validateReviewFindingDraftSetOutputSemantics draft_set = true.
Proof.
  apply (built_set_passes_check input draft_set (proj2_sig built)); [by vm_compute|apply (bool_decide_unpack _); by vm_compute|intros E0; discriminate E0|].
  apply collision_free_dec_sound. by vm_compute.
Defined.
Lemma normalization_is_earned_witness : prop "evidence_bundle_id" receipt_of_sample = prop "evidence_bundle_id" bundle.
Proof. destruct (normalization_is_earned errors input draft_set input_normalizes) as (_ & _ & Hbundle & _). exact Hbundle. Defined.
Lemma evidence_claims_are_earned_witness : ∃ e, e ∈ array_of (prop "evidence_refs" the_draft) ∧ shipped_source input (prop "artifact_ref" e).
Proof.
  destruct (evidence_claims_are_earned errors input draft_set the_draft input_normalizes) as [_ Hb];
    [apply list_elem_of_lookup; exists 0%nat; by vm_compute|].
  destruct (Hb (jstr "finding_context_snippet")) as (e & He & _ & Hs); [apply (bool_decide_unpack _); by vm_compute|by vm_compute|]. exists e. exact (conj He Hs).
Defined.
End WorkerSamples.
