(* ===== verification/EventIdentity.v ===== *)
(** The identities a review event carries in its idempotency key
    (apps/control-plane/src/index.ts): the typed keys of each event family, their
    canonical version numbers, and the artifact reference an event must name. *)
From S2P Require Import Prelude Patterns Json JsonText Schema Registry Values ReviewEventLog Timestamps.

Local Open Scope Z_scope.

(** * Values of the control plane *)

Definition event_type_is (t : string) (e : json) : bool := prop "event_type" e === jstr t.

(* parseUtcTimestampNs(a)! < parseUtcTimestampNs(b)!; a comparison with undefined is false. *)
Definition timestamp_ns (v : json) : option Z :=
  match v with JString s => text ← latin_text s; parseUtcTimestampNs text | _ => None end.
Definition earlier (a b : json) : bool :=
  match timestamp_ns a, timestamp_ns b with Some x, Some y => x <? y | _, _ => false end.

Definition seq_of (e : json) : option Z := match prop "sequence_number" e with JNumber n => Some n | _ => None end.
(* candidate.sequence_number < event.sequence_number *)
Definition seq_before (candidate event : json) : bool :=
  match seq_of candidate, seq_of event with Some a, Some b => a <? b | _, _ => false end.

(** * Typed keys *)

(** A typed key is a sequence of tokens separated by colons. No token contains a
    colon, so the regular expression has one way to match. *)
Inductive token :=
  | Word (w : string)   (* the literal w *)
  | Slug                (* ([a-z0-9][a-z0-9_-]{2,63}) *)
  | Hex64               (* ([a-f0-9]{64}) *)
  | Positive.           (* ([1-9][0-9]* ) *)

Definition token_accepts (t : token) (s : string) : bool :=
  match t with
  | Word w => s === w
  | Slug => isSlug s
  | Hex64 => SHA256_HEX_PATTERN s
  | Positive => is_positive_decimal s
  end.
Definition captures (t : token) : bool := match t with Word _ => false | _ => true end.

Fixpoint split_colon (s : string) : list string :=
  match s with
  | EmptyString => [EmptyString]
  | String c s' =>
      if Ascii.eqb c ":" then EmptyString :: split_colon s'
      else match split_colon s' with
           | a :: l => String c a :: l
           | [] => [String c EmptyString]
           end
  end.
(* The captured groups when the fields are those of the pattern. *)
Fixpoint match_tokens (ts : list token) (fields : list string) : option (list string) :=
  match ts, fields with
  | [], [] => Some []
  | t :: ts', s :: fields' =>
      if token_accepts t s then
        caps ← match_tokens ts' fields'; Some (if captures t then s :: caps else caps)
      else None
  | _, _ => None
  end.
(* new RegExp(pattern, "u").exec(text) *)
Definition exec_key (ts : list token) (text : jsstr) : option (list string) :=
  s ← latin_text text; match_tokens ts (split_colon s).

(** [fill ts caps] is the text the pattern captures [caps] from. *)
Fixpoint fill (ts : list token) (caps : list string) : list string :=
  match ts, caps with
  | Word w :: ts', _ => w :: fill ts' caps
  | _ :: ts', c :: caps' => c :: fill ts' caps'
  | _, _ => []
  end.
Fixpoint join_colon (l : list string) : string :=
  match l with
  | [] => EmptyString
  | [a] => a
  | a :: l' => a +:+ String ":" (join_colon l')
  end.

(* Number(decimal) rounds only above the safe integers, and never back into them. *)
Definition parseCanonicalSafePositiveInteger (decimal : string) : option Z :=
  n ← number_of_digits decimal;
  if (negb (isSafeInteger n) || (n <? 1) || (string_of_number n !== decimal))%bool then None else Some n.

(** ** Verification passes, evidence and records *)

Record VerificationScopeEventIdentity := { scope_reviewId : string; verificationPassId : string; scopeVersion : Z }.
Definition scope_tokens : list token :=
  [Word "verification_scope"; Word "review"; Slug; Word "verification_pass"; Slug; Word "scope_version"; Positive].
Definition verificationScopeIdentityFromEvent (event : json) : option VerificationScopeEventIdentity :=
  match prop "idempotency_key" event with
  | JString key =>
      match exec_key scope_tokens key with
      | Some [review; pass; version] =>
          v ← parseCanonicalSafePositiveInteger version;
          Some {| scope_reviewId := "review:" +:+ review; verificationPassId := pass; scopeVersion := v |}
      | _ => None
      end
  | _ => None
  end.

Record VersionedVerificationEventIdentity := { ver_reviewId : string; recordId : string; recordVersion : Z }.
Inductive VersionedVerificationEventType := verification_evidence_recorded | verification_recorded.
Definition versioned_type_name (t : VersionedVerificationEventType) : string :=
  match t with
  | verification_evidence_recorded => "verification_evidence_recorded"
  | verification_recorded => "verification_recorded"
  end.
Definition versioned_family (t : VersionedVerificationEventType) : string :=
  match t with verification_evidence_recorded => "verification_evidence" | verification_recorded => "verification_record" end.
Definition versioned_tokens (t : VersionedVerificationEventType) : list token :=
  [Word (versioned_family t); Word "review"; Slug; Word (versioned_family t); Slug; Word "record_version"; Positive].
Definition versionedVerificationIdentityFromEvent (event : json) (t : VersionedVerificationEventType)
    : option VersionedVerificationEventIdentity :=
  match prop "idempotency_key" event with
  | JString key =>
      match exec_key (versioned_tokens t) key with
      | Some [review; record; version] =>
          v ← parseCanonicalSafePositiveInteger version;
          Some {| ver_reviewId := "review:" +:+ review; recordId := record; recordVersion := v |}
      | _ => None
      end
  | _ => None
  end.

(** ** Attestations, bundles, packages and pilot records *)

Definition EPIC5_VERSIONED_EVENT_TYPES : list string :=
  ["attestation_generated"; "static_bundle_generated"; "attestation_package_finalized"; "attestation_package_exported";
   "pilot_metric_recorded"; "pilot_feedback_recorded"].
Definition is_epic5_type (event : json) : bool := existsb (λ t, event_type_is t event) EPIC5_VERSIONED_EVENT_TYPES.
Record Epic5EventIdentity := {
  eventType : string; reviewId : string; familyId : string; artifactId : string; version : Z;
  finalization_recordId : option string; generatedManifestId : option string
}.
Definition attestation_tokens : list token :=
  [Word "attestation"; Word "review"; Slug; Word "attestation"; Hex64; Word "attestation_version"; Positive].
Definition bundle_tokens : list token :=
  [Word "static_bundle"; Word "review"; Slug; Word "static_bundle"; Slug; Word "manifest_version"; Positive;
   Word "manifest_id"; Hex64].
Definition package_tokens (prefix : string) : list token :=
  [Word prefix; Word "review"; Slug; Word "static_bundle"; Slug; Word "finalization_version"; Positive;
   Word "record_id"; Hex64; Word "generated_manifest_id"; Hex64; Word "manifest_id"; Hex64].
Definition pilot_tokens (family : string) : list token :=
  [Word family; Word "review"; Slug; Word family; Slug; Word "record_version"; Positive; Word "content_id"; Hex64].

Definition package_identity (t : string) (key : jsstr) : option Epic5EventIdentity :=
  match exec_key (package_tokens t) key with
  | Some [review; bundle; v; record; generated; manifest] =>
      n ← parseCanonicalSafePositiveInteger v;
      Some {| eventType := t; reviewId := "review:" +:+ review; familyId := "static_bundle:" +:+ bundle;
              artifactId := manifest; version := n;
              finalization_recordId := Some record; generatedManifestId := Some generated |}
  | _ => None
  end.
Definition pilot_identity (t family : string) (key : jsstr) : option Epic5EventIdentity :=
  match exec_key (pilot_tokens family) key with
  | Some [review; record; v; content] =>
      n ← parseCanonicalSafePositiveInteger v;
      Some {| eventType := t; reviewId := "review:" +:+ review; familyId := family +:+ ":" +:+ record;
              artifactId := content; version := n; finalization_recordId := None; generatedManifestId := None |}
  | _ => None
  end.
Definition epic5EventIdentity (event : json) : option Epic5EventIdentity :=
  let key := js_string (prop "idempotency_key" event) in
  if event_type_is "attestation_generated" event then
    match exec_key attestation_tokens key with
    | Some [review; artifact; v] =>
        n ← parseCanonicalSafePositiveInteger v;
        Some {| eventType := "attestation_generated"; reviewId := "review:" +:+ review; familyId := "review:" +:+ review;
                artifactId := artifact; version := n; finalization_recordId := None; generatedManifestId := None |}
    | _ => None
    end
  else if event_type_is "static_bundle_generated" event then
    match exec_key bundle_tokens key with
    | Some [review; bundle; v; manifest] =>
        n ← parseCanonicalSafePositiveInteger v;
        Some {| eventType := "static_bundle_generated"; reviewId := "review:" +:+ review;
                familyId := "static_bundle:" +:+ bundle; artifactId := manifest; version := n;
                finalization_recordId := None; generatedManifestId := None |}
    | _ => None
    end
  else if event_type_is "attestation_package_finalized" event then package_identity "attestation_package_finalized" key
  else if event_type_is "attestation_package_exported" event then package_identity "attestation_package_exported" key
  else if event_type_is "pilot_metric_recorded" event then pilot_identity "pilot_metric_recorded" "pilot_metric" key
  else if event_type_is "pilot_feedback_recorded" event then pilot_identity "pilot_feedback_recorded" "pilot_feedback" key
  else None.

(** ** The artifact reference of an event *)

(* match[1] === event.review_id && artifactRef === `artifact_ref:${match[2]}` *)
Definition keyed_ref (tokens : list token) (event artifactRef : json) : option bool :=
  match prop "idempotency_key" event with
  | JString key =>
      match exec_key tokens key with
      | Some [review; record] =>
          Some ((jstr ("review:" +:+ review) === prop "review_id" event) && (artifactRef === jstr ("artifact_ref:" +:+ record)))%bool
      | _ => None
      end
  | _ => None
  end.
Definition pair_tokens (key_word ref_word : string) : list token := [Word key_word; Word "review"; Slug; Word ref_word; Slug].
Definition typedReviewEventArtifactRefsMatch (event : json) : bool :=
  match prop "artifact_refs" event, prop "idempotency_key" event with
  | JArray [artifactRef], JString _ =>
      let keyed key_word ref_word := default false (keyed_ref (pair_tokens key_word ref_word) event artifactRef) in
      if event_type_is "classification_recorded" event then keyed "classification" "classification_record"
      else if event_type_is "remediation_guidance_recorded" event then keyed "remediation_guidance" "remediation_guidance"
      else if event_type_is "customer_remediation_recorded" event then keyed "customer_remediation" "customer_status"
      else if event_type_is "validation_recorded" event then
        match keyed_ref (pair_tokens "validation_path" "validation_path") event artifactRef with
        | Some b => b
        | None => keyed "validation_script" "validation_script"
        end
      else if event_type_is "verification_scope_recorded" event then
        match verificationScopeIdentityFromEvent event with
        | Some i => ((jstr (scope_reviewId i) === prop "review_id" event)
                     && (artifactRef === jstr ("artifact_ref:" +:+ verificationPassId i)))%bool
        | None => false
        end
      else if event_type_is "verification_evidence_recorded" event then
        match versionedVerificationIdentityFromEvent event verification_evidence_recorded with
        | Some i => ((jstr (ver_reviewId i) === prop "review_id" event)
                     && (artifactRef === jstr ("artifact_ref:" +:+ recordId i)))%bool
        | None => false
        end
      else if event_type_is "verification_recorded" event then
        match versionedVerificationIdentityFromEvent event verification_recorded with
        | Some i => ((jstr (ver_reviewId i) === prop "review_id" event)
                     && (artifactRef === jstr ("artifact_ref:" +:+ recordId i)))%bool
        | None => false
        end
      else if event_type_is "false_positive_recorded" event then keyed "false_positive" "false_positive"
      else if event_type_is "customer_accepted_risk_recorded" event then keyed "accepted_risk" "accepted_risk"
      else if negb (is_epic5_type event) then true
      else match epic5EventIdentity event with
      | None => false
      | Some i =>
          if jstr (reviewId i) !== prop "review_id" event then false
          else artifactRef === jstr ((if event_type_is "attestation_generated" event then "artifact_ref:" else "sha256:")
                                     +:+ artifactId i)
      end
  | _, _ => false
  end.

(** ** The keys the builders write *)

Definition verificationPassScopeEventIdempotencyKey (review_id verification_pass_id : string) (scope_version : Z) : string :=
  "verification_scope:" +:+ review_id +:+ ":" +:+ verification_pass_id +:+ ":scope_version:" +:+ string_of_number scope_version.
Definition verificationEvidenceEventIdempotencyKey (review_id verification_evidence_id : string) (record_version : Z) : string :=
  "verification_evidence:" +:+ review_id +:+ ":" +:+ verification_evidence_id +:+ ":record_version:" +:+ string_of_number record_version.
Definition verificationDecisionEventIdempotencyKey (review_id verification_record_id : string) (record_version : Z) : string :=
  "verification_record:" +:+ review_id +:+ ":" +:+ verification_record_id +:+ ":record_version:" +:+ string_of_number record_version.

(** * The pattern and the text it captures from *)

Lemma split_colon_nonempty s : split_colon s ≠ [].
Proof. destruct s as [|c s]; [done|]. simpl. destruct (Ascii.eqb c ":"); [done|]. by destruct (split_colon s). Qed.
Lemma join_split s : join_colon (split_colon s) = s.
Proof.
  induction s as [|c s IH]; [done|]. simpl. destruct (Ascii.eqb_spec c ":") as [->|Hc].
  - pose proof (split_colon_nonempty s). destruct (split_colon s); [done|]. by rewrite <- IH.
  - destruct (split_colon s) as [|a l]; [by rewrite <- IH|]. rewrite <- IH. by destruct l.
Qed.
Lemma split_no_colon s : no_colon s = true → split_colon s = [s].
Proof.
  unfold no_colon. induction s as [|c s IH]; [done|]. simpl. intros H; bool_simpl. rewrite H. by rewrite IH.
Qed.
Lemma split_colon_cons s r : no_colon s = true → split_colon (s +:+ String ":" r) = s :: split_colon r.
Proof.
  unfold no_colon. induction s as [|c s IH]; [done|]. simpl. intros H; bool_simpl. rewrite H. by rewrite IH.
Qed.
Lemma split_join l : l ≠ [] → Forall (λ s, no_colon s = true) l → split_colon (join_colon l) = l.
Proof.
  intros Hne Hl. induction Hl as [|a l Ha Hl IH]; [done|]. destruct l as [|b l]; [by apply split_no_colon|].
  change (join_colon (a :: b :: l)) with (a +:+ String ":" (join_colon (b :: l))). by rewrite split_colon_cons, IH.
Qed.

Lemma latin_text_Some text s : latin_text text = Some s → text = js s.
Proof.
  unfold latin_text. destruct (forallb _ _) eqn:Hf; [|done]. intros [= <-].
  induction text as [|c text IH]; [done|]. simpl in *. apply andb_prop in Hf as [Hc Hf].
  rewrite <- IH by done. f_equal. rewrite N_ascii_embedding by lia. lia.
Qed.
Lemma positive_no_colon s : is_positive_decimal s = true → no_colon s = true.
Proof.
  destruct s as [|c s]; [done|]. unfold is_positive_decimal, no_colon. intros H; bool_simpl. simpl.
  assert (∀ d, is_digit d = true → negb (Ascii.eqb d ":") = true) as Hd.
  { intros d. destruct (Ascii.eqb_spec d ":") as [->|]; [by vm_compute|done]. }
  rewrite (all_chars_impl _ _ _ Hd) by done. rewrite andb_true_r. destruct (Ascii.eqb_spec c ":") as [->|]; [|done].
  match goal with H : in_class _ _ _ = true |- _ => by vm_compute in H end.
Qed.
Definition words_ok (ts : list token) : bool :=
  forallb (λ t, match t with Word w => no_colon w | _ => true end) ts.
Lemma accepted_no_colon t s : words_ok [t] = true → token_accepts t s = true → no_colon s = true.
Proof.
  destruct t; simpl; intros Hw Ha; bool_simpl; [by subst|by apply isSlug_no_colon|by apply SHA256_HEX_no_colon|by apply positive_no_colon].
Qed.

(* The groups a pattern captures, as the tokens they come from. *)
Definition groups (ts : list token) : list token := List.filter captures ts.
Definition caps_ok (ts : list token) (caps : list string) : Prop :=
  Forall2 (λ t s, token_accepts t s = true) (groups ts) caps.
Lemma match_tokens_spec ts fields caps :
  match_tokens ts fields = Some caps ↔ fields = fill ts caps ∧ caps_ok ts caps.
Proof.
  unfold caps_ok. revert fields caps; induction ts as [|t ts IH]; intros fields caps.
  { destruct fields as [|s fields]; cbn; split.
    - intros [= <-]. by split.
    - by intros [_ ->%Forall2_nil_inv_l].
    - done.
    - by intros [? _]. }
  split.
  - destruct fields as [|s fields]; [done|]. cbn [match_tokens]. destruct (token_accepts t s) eqn:Ht; [|done].
    destruct (match_tokens ts fields) as [cs|] eqn:Hm; [|done]. cbn. intros [= <-]. apply IH in Hm as [-> Hc].
    destruct t; cbn in *; bool_simpl; subst; split; try done; by constructor.
  - intros [-> Hc]. destruct t as [w| | |].
    + cbn in *. rewrite bool_decide_true by done. by rewrite (proj2 (IH _ _) (conj eq_refl Hc)).
    + cbn in Hc. inversion Hc as [|? c ? cs Hok Hcs]; subst. cbn in *. rewrite Hok. by rewrite (proj2 (IH _ _) (conj eq_refl Hcs)).
    + cbn in Hc. inversion Hc as [|? c ? cs Hok Hcs]; subst. cbn in *. rewrite Hok. by rewrite (proj2 (IH _ _) (conj eq_refl Hcs)).
    + cbn in Hc. inversion Hc as [|? c ? cs Hok Hcs]; subst. cbn in *. rewrite Hok. by rewrite (proj2 (IH _ _) (conj eq_refl Hcs)).
Qed.
Lemma fill_no_colon ts caps : words_ok ts = true → caps_ok ts caps → Forall (λ s, no_colon s = true) (fill ts caps).
Proof.
  unfold words_ok, caps_ok. revert caps; induction ts as [|t ts IH]; intros caps; [constructor|].
  cbn [forallb]. intros [Hw Hws]%andb_prop Hc.
  assert (words_ok [t] = true) as Ht by (unfold words_ok; cbn [forallb]; by rewrite Hw).
  destruct t as [w| | |]; cbn in Hc |- *; [constructor; [done|by apply IH]|..];
    inversion Hc as [|? c ? cs Hok Hcs]; subst; (constructor; [by eapply accepted_no_colon|by apply IH]).
Qed.

(** A typed key matches its pattern exactly when it is the pattern's words and the
    captured fields joined by colons, each field in its class. *)
Lemma exec_key_spec ts text caps : ts ≠ [] → words_ok ts = true →
  exec_key ts text = Some caps ↔ text = js (join_colon (fill ts caps)) ∧ caps_ok ts caps.
Proof.
  intros Hne Hw. unfold exec_key. split.
  - destruct (latin_text text) as [s|] eqn:Hl; [|done]. cbn [mbind option_bind].
    intros [Hs Hc]%match_tokens_spec. split; [|done]. by rewrite <- Hs, join_split, <- (latin_text_Some _ _ Hl).
  - intros [-> Hc]. rewrite latin_text_js. cbn [mbind option_bind]. rewrite split_join.
    + by apply match_tokens_spec.
    + destruct ts as [|[]]; try done; inversion Hc; subst; done.
    + by apply fill_no_colon.
Qed.

Lemma canonical_version decimal v :
  parseCanonicalSafePositiveInteger decimal = Some v ↔ decimal = string_of_number v ∧ 1 ≤ v ≤ MAX_SAFE_INTEGER.
Proof.
  unfold parseCanonicalSafePositiveInteger. split.
  - destruct (number_of_digits decimal) as [n|]; [|done]. cbn [mbind option_bind].
    destruct (_ || _)%bool eqn:E0; [done|]. intros [= <-]. bool_simpl. split; [done|].
    match goal with H : isSafeInteger _ = true |- _ => unfold isSafeInteger in H; bool_simpl end. lia.
  - intros [-> Hv]. rewrite number_of_string_of_number by lia. cbn [mbind option_bind].
    assert (isSafeInteger v = true) as -> by (unfold isSafeInteger, MAX_SAFE_INTEGER in *; apply andb_true_intro; lia).
    rewrite bool_decide_true by done. by rewrite (proj2 (Z.ltb_ge _ _)) by lia.
Qed.
(* A pattern with a review, a record and a version, and nothing else to capture. *)
Lemma versioned_exec ts text review record version : ts ≠ [] → words_ok ts = true → groups ts = [Slug; Slug; Positive] →
  exec_key ts text = Some [review; record; version] ↔
  text = js (join_colon (fill ts [review; record; version])) ∧
  isSlug review = true ∧ isSlug record = true ∧ is_positive_decimal version = true.
Proof.
  intros Hne Hw Hg. rewrite exec_key_spec by done. unfold caps_ok. rewrite Hg. split; intros [-> Hc]; (split; [done|]).
  - repeat match goal with H : Forall2 _ (_ :: _) _ |- _ => inversion H; subst; clear H end. done.
  - destruct Hc as (? & ? & ?). by repeat constructor.
Qed.
Lemma versioned_exec_length ts text caps : ts ≠ [] → words_ok ts = true → groups ts = [Slug; Slug; Positive] →
  exec_key ts text = Some caps → ∃ review record version, caps = [review; record; version].
Proof.
  intros Hne Hw Hg [_ Hc]%exec_key_spec; [|done..]. unfold caps_ok in Hc. rewrite Hg in Hc.
  repeat match goal with H : Forall2 _ (_ :: _) _ |- _ => inversion H; subst; clear H end.
  match goal with H : Forall2 _ [] _ |- _ => inversion H; subst end. eauto.
Qed.

(* The shape both identity readers share. *)
Lemma keyed_identity {I} ts (mk : string → string → Z → I) event i :
  ts ≠ [] → words_ok ts = true → groups ts = [Slug; Slug; Positive] →
  match prop "idempotency_key" event with
  | JString key =>
      match exec_key ts key with
      | Some [review; record; version] => v ← parseCanonicalSafePositiveInteger version; Some (mk ("review:" +:+ review) record v)
      | _ => None
      end
  | _ => None
  end = Some i ↔
  ∃ review record v, prop "idempotency_key" event = jstr (join_colon (fill ts [review; record; string_of_number v])) ∧
    isSlug review = true ∧ isSlug record = true ∧ 1 ≤ v ≤ MAX_SAFE_INTEGER ∧ i = mk ("review:" +:+ review) record v.
Proof.
  intros Hne Hw Hg. split.
  - destruct (prop _ _) as [| |key| | | | |]; try done. destruct (exec_key ts key) as [caps|] eqn:Hx; [|done].
    destruct (versioned_exec_length _ _ _ Hne Hw Hg Hx) as (review & record & version & ->).
    apply versioned_exec in Hx as (-> & Hr & Hs & _); [|done..].
    destruct (parseCanonicalSafePositiveInteger version) as [v|] eqn:Hv; [|done]. intros [= <-].
    apply canonical_version in Hv as [-> Hv]. by exists review, record, v.
  - intros (review & record & v & -> & Hr & Hs & Hv & ->). unfold jstr.
    rewrite (proj2 (versioned_exec ts _ review record (string_of_number v) Hne Hw Hg)).
    + by rewrite (proj2 (canonical_version _ v)).
    + split; [done|]. split_and!; [done..|]. apply string_of_number_positive; lia.
Qed.

(* What a builder's identifiers and version satisfy. *)
Definition scope_identity_ok (i : VerificationScopeEventIdentity) : Prop :=
  ∃ review, scope_reviewId i = "review:" +:+ review ∧ isSlug review = true ∧ isSlug (verificationPassId i) = true ∧
    1 ≤ scopeVersion i ≤ MAX_SAFE_INTEGER.
Definition record_identity_ok (i : VersionedVerificationEventIdentity) : Prop :=
  ∃ review, ver_reviewId i = "review:" +:+ review ∧ isSlug review = true ∧ isSlug (recordId i) = true ∧
    1 ≤ recordVersion i ≤ MAX_SAFE_INTEGER.
Definition versioned_key (t : VersionedVerificationEventType) : string → string → Z → string :=
  match t with
  | verification_evidence_recorded => verificationEvidenceEventIdempotencyKey
  | verification_recorded => verificationDecisionEventIdempotencyKey
  end.

(** The idempotency key of a verification scope, evidence or decision event and the
    identity read back from it determine each other: an event has an identity exactly
    when its key is the one the builder writes for that review, record and version,
    so two events share a key only when they share the identity. *)
Theorem typed_keys_roundtrip event :
  (∀ i, verificationScopeIdentityFromEvent event = Some i ↔
     scope_identity_ok i ∧
     prop "idempotency_key" event = jstr (verificationPassScopeEventIdempotencyKey (scope_reviewId i)
       ("verification_pass:" +:+ verificationPassId i) (scopeVersion i))) ∧
  (∀ t i, versionedVerificationIdentityFromEvent event t = Some i ↔
     record_identity_ok i ∧
     prop "idempotency_key" event = jstr (versioned_key t (ver_reviewId i)
       (versioned_family t +:+ ":" +:+ recordId i) (recordVersion i))).
Proof.
  split; [intros i|intros t i].
  - unfold verificationScopeIdentityFromEvent, scope_identity_ok. rewrite (keyed_identity scope_tokens
      (λ review record v, {| scope_reviewId := review; verificationPassId := record; scopeVersion := v |})) by done.
    destruct i as [rid pass v]; cbn [scope_reviewId verificationPassId scopeVersion]. split.
    + intros (review & record & n & Hk & ? & ? & ? & [= -> -> ->]). split; [by exists review|]. by rewrite Hk.
    + intros [(review & -> & ? & ? & ?) ->]. by exists review, pass, v.
  - unfold versionedVerificationIdentityFromEvent, record_identity_ok. rewrite (keyed_identity (versioned_tokens t)
      (λ review record v, {| ver_reviewId := review; recordId := record; recordVersion := v |})) by (by destruct t).
    destruct i as [rid record v]; cbn [ver_reviewId recordId recordVersion]. split.
    + intros (review & record' & n & Hk & ? & ? & ? & [= -> -> ->]). split; [by exists review|]. rewrite Hk. by destruct t.
    + intros [(review & -> & ? & ? & ?) ->]. exists review, record, v. by destruct t.
Qed.
