(* ===== verification/ReviewSemantics.v ===== *)
(** The rules one review event must satisfy by itself
    (apps/control-plane/src/index.ts, rejectionForReviewEventSemantics): actors,
    visibility, customer backing, text, typed references, and the event's content
    identity. The text screens of packages/protocol-ts are an interface. *)
From S2P Require Import Prelude Json JsonText Regex CanonicalJson Schema Registry Values ClaimSafety Patterns Bytes ReviewEventLog EventIdentity.

Local Open Scope Z_scope.

Inductive ReviewEventAppendRejectionReason :=
  | review_event_schema_invalid
  | review_event_identity_excludes_invalid
  | review_event_identity_mismatch
  | review_event_internal_note_requires_internal_only
  | review_event_reason_raw_source_text_forbidden
  | review_event_reason_claim_unsafe_text_forbidden
  | review_event_classification_reviewer_actor_required
  | review_event_remediation_guidance_reviewer_actor_required
  | review_event_customer_remediation_actor_required
  | review_event_validation_reviewer_actor_required
  | review_event_false_positive_reviewer_actor_required
  | review_event_accepted_risk_customer_evidence_required
  | review_event_verification_scope_actor_required
  | review_event_verification_scope_customer_backing_required
  | review_event_verification_scope_reason_claim_unsafe_text_forbidden
  | review_event_verification_evidence_actor_required
  | review_event_verification_evidence_customer_backing_required
  | review_event_verification_evidence_reason_claim_unsafe_text_forbidden
  | review_event_verification_evidence_supersedes_family_mismatch
  | review_event_verification_evidence_version_invalid
  | review_event_verification_record_reviewer_actor_required
  | review_event_verification_record_reason_claim_unsafe_text_forbidden
  | review_event_verification_record_supersedes_family_mismatch
  | review_event_verification_record_version_invalid
  | review_event_epic5_authority_invalid
  | review_event_pilot_pii_forbidden
  | review_event_epic5_version_invalid
  | review_event_epic5_supersedes_family_mismatch
  | review_event_outcome_supersedes_family_mismatch
  | review_event_verification_scope_supersedes_family_mismatch
  | review_event_verification_scope_version_invalid
  | review_event_validation_script_included_cap_exceeded
  | review_event_missing_source_derived_class
  | review_event_sequence_number_invalid
  | review_event_log_protocol_version_mismatch
  | review_event_log_review_id_mismatch
  | review_event_log_duplicate_event_id
  | review_event_log_idempotency_key_conflict
  | review_event_log_sequence_not_monotonic
  | review_event_log_supersedes_unknown_event
  | customer_event_cannot_supersede_classification
  | customer_event_cannot_supersede_expert_record.
#[export] Instance ReviewEventAppendRejectionReason_eq_dec : EqDecision ReviewEventAppendRejectionReason.
Proof. solve_decision. Defined.

(** * Guards: the first condition that holds gives the reason *)

Section guards.
Context {R : Type}.
Fixpoint first_reason (guards : list (bool * R)) : option R :=
  match guards with
  | [] => None
  | (b, r) :: guards' => if b then Some r else first_reason guards'
  end.
Lemma first_reason_cons_None b r guards : first_reason ((b, r) :: guards) = None ↔ b = false ∧ first_reason guards = None.
Proof. destruct b; simpl; [|tauto]. split; [done|by intros [? _]]. Qed.
Lemma first_reason_app_None l l' : first_reason (l ++ l') = None ↔ first_reason l = None ∧ first_reason l' = None.
Proof. induction l as [|[b r] l IH]; [simpl; tauto|]. cbn [app]. rewrite !first_reason_cons_None, IH. tauto. Qed.
Lemma first_reason_None guards : first_reason guards = None ↔ ∀ b r, (b, r) ∈ guards → b = false.
Proof.
  induction guards as [|[b r] guards IH]; [set_solver|]. rewrite first_reason_cons_None, IH. split.
  - intros [-> Hg] b' r' [[= -> ->]|Hin]%elem_of_cons; [done|by eapply Hg].
  - intros Hg. split; [by apply (Hg b r), list_elem_of_here|]. intros b' r' Hin. by apply (Hg b' r'), list_elem_of_further.
Qed.
End guards.
Arguments first_reason {R} guards.

(** * Text screens *)

(** What packages/protocol-ts/src/claim-safety.ts and epic-5-semantics.ts answer about
    a value: whether it holds forbidden text. *)
Class TextScreens := {
  sourceTextForbiddenPhrase : json → bool;
  sourceCodeLikeTextReason : json → bool;
  claimSafeForbiddenPhrase : json → bool;
  customerVisibleTextForbidden : json → bool;
  claimSafePositiveClosurePhrase : json → bool;
  piiTextForbidden : json → bool;
  opaquePilotActorIdIsValid : json → json → bool
}.
#[export] Instance protocol_screens `{UnicodeText} : TextScreens :=
  let found (screen : json → option string) v := bool_decide (is_Some (screen v)) in {|
  sourceTextForbiddenPhrase := found ClaimSafety.sourceTextForbiddenPhrase;
  sourceCodeLikeTextReason := found ClaimSafety.sourceCodeLikeTextReason;
  claimSafeForbiddenPhrase := found ClaimSafety.claimSafeForbiddenPhrase;
  customerVisibleTextForbidden := found ClaimSafety.customerVisibleTextForbidden;
  claimSafePositiveClosurePhrase := found ClaimSafety.claimSafePositiveClosurePhrase;
  piiTextForbidden := found ClaimSafety.piiTextForbidden;
  opaquePilotActorIdIsValid := ClaimSafety.opaquePilotActorIdIsValid |}.
Definition line_terminator (c : Z) : bool := ((c =? 10) || (c =? 13) || (c =? 8232) || (c =? 8233))%bool.
(* (?:[_-].+|\d+)?$ *)
Definition machine_suffix (s : jsstr) : bool :=
  match s with
  | [] => true
  | c :: r =>
      ((((c =? 95) || (c =? 45)) && negb (bool_decide (r = [])) && forallb (λ d, negb (line_terminator d)) r)
       || forallb (λ d, (48 <=? d) && (d <=? 57)) s)%bool
  end.
Definition machine_word (w : string) (s : jsstr) : bool :=
  match strip_units (js w) s with Some r => machine_suffix r | None => false end.
Definition verificationScopeActorSegmentIsForbiddenMachine (segment : jsstr) : bool :=
  existsb (λ w, machine_word w segment)
    ["local_runner"; "local-runner"; "localrunner"; "runner"; "workerpool"; "worker"; "scanner";
     "static_bundle"; "static-bundle"; "staticbundle"].

Section semantics.
Context `{TextScreens, UnicodeText}.

(* String(value ?? "").toLowerCase() *)
Definition lower_text (v : json) : jsstr :=
  toLowerCase (match v with JNull | JForeign => [] | _ => js_string v end).
Definition verificationScopeActorIsForbiddenMachine (actor : json) : bool :=
  if negb (isRecord actor) then false
  else if existsb (λ t, lower_text (prop "actor_type" actor) === js t)
      ["local_runner"; "local-runner"; "runner"; "worker"; "scanner"; "static_bundle"; "static-bundle"] then true
  else existsb verificationScopeActorSegmentIsForbiddenMachine (split_units 58 (lower_text (prop "actor_id" actor))).

Definition epic5NarrativeTextForbidden (v : json) : bool := (sourceTextForbiddenPhrase v || customerVisibleTextForbidden v)%bool.
Definition customerProseForbidden (v : json) : bool :=
  (epic5NarrativeTextForbidden v || piiTextForbidden v ||
   match v with
   | JString s => Regexp.test_flags Regexp.flags_iu (Regexp.re "\b(?:pilot[_ -]?(?:metric|feedback|learning)|internal learning|unit economics|private notes|customer[_ -]?id|device[_ -]?id)\b") s
   | _ => false
   end)%bool.
Definition textHasForbiddenClassificationContent (v : json) : bool := (sourceTextForbiddenPhrase v || customerVisibleTextForbidden v)%bool.
(* verificationScopeTextHasForbiddenContent is the same function by another name. *)
Fixpoint verificationArtifactTextHasForbiddenContent (v : json) : bool :=
  match v with
  | JArray l => existsb verificationArtifactTextHasForbiddenContent l
  | _ => (textHasForbiddenClassificationContent v || claimSafePositiveClosurePhrase v)%bool
  end.
Fixpoint verificationScopeTextHasForbiddenContent (v : json) : bool :=
  match v with
  | JArray l => existsb verificationScopeTextHasForbiddenContent l
  | _ => (textHasForbiddenClassificationContent v || claimSafePositiveClosurePhrase v)%bool
  end.
Definition acceptedRiskEventReasonCarriesCustomerEvidence (reason : json) : bool :=
  match reason with
  | JString s =>
      let trimmed := js_trim s in
      if Regexp.test_flags Regexp.flags_iu (Regexp.re "Customer (rationale|sign-off):\s*(?:no|none|without|missing|not provided|absent)\b") trimmed then false
      else Regexp.test_flags Regexp.flags_iu (Regexp.re "^(Accepted risk recorded for [^.]+\. Customer (rationale|sign-off): .{12,})$") trimmed
  | _ => false
  end.
Definition verificationScopeEventCarriesCustomerBacking (event : json) : bool :=
  (isNonEmptyString (prop "customer_actor_ref" event) || isNonEmptyString (prop "customer_selection_evidence_ref" event))%bool.

(** * Event-local rules *)

Definition actor_type_is (t : string) (actor : json) : bool := (isRecord actor && (prop "actor_type" actor === jstr t))%bool.
Definition isCustomerActor (actor : json) : bool := actor_type_is "customer_user" actor.
(* ["reviewer", "vendor_service"].includes(String(actor.actor_type)) *)
Definition staff_actor (actor : json) : bool :=
  existsb (λ t, js_string (prop "actor_type" actor) === js t) ["reviewer"; "vendor_service"].
Definition present (v : json) : bool := negb (is_undefined v).

Definition reason_guards (event : json) : list (bool * ReviewEventAppendRejectionReason) :=
  let reason := prop "reason" event in
  [((present reason && (sourceTextForbiddenPhrase reason || sourceCodeLikeTextReason reason))%bool,
     review_event_reason_raw_source_text_forbidden);
   ((present reason && (claimSafeForbiddenPhrase reason ||
      ((prop "visibility" event === jstr "customer_facing") && customerProseForbidden reason)))%bool,
     review_event_reason_claim_unsafe_text_forbidden)].
Definition reviewer_guards (event : json) : list (bool * ReviewEventAppendRejectionReason) :=
  let not_reviewer t := (event_type_is t event && negb (actor_type_is "reviewer" (prop "actor" event)))%bool in
  [(not_reviewer "classification_recorded", review_event_classification_reviewer_actor_required);
   (not_reviewer "remediation_guidance_recorded", review_event_remediation_guidance_reviewer_actor_required);
   (not_reviewer "validation_recorded", review_event_validation_reviewer_actor_required);
   (not_reviewer "false_positive_recorded", review_event_false_positive_reviewer_actor_required)].
Definition any_actor_type (actor : json) (ts : list string) : bool := existsb (λ t, actor_type_is t actor) ts.
Definition accepted_risk_guards (event : json) : list (bool * ReviewEventAppendRejectionReason) :=
  let accepted := event_type_is "customer_accepted_risk_recorded" event in
  [((accepted && negb (any_actor_type (prop "actor" event) ["customer_user"; "reviewer"; "vendor_service"]))%bool,
     review_event_accepted_risk_customer_evidence_required);
   ((accepted && negb (acceptedRiskEventReasonCarriesCustomerEvidence (prop "reason" event)))%bool,
     review_event_accepted_risk_customer_evidence_required)].
Definition verification_guards (event : json) : list (bool * ReviewEventAppendRejectionReason) :=
  let actor := prop "actor" event in
  let scope := event_type_is "verification_scope_recorded" event in
  let evidence := event_type_is "verification_evidence_recorded" event in
  let record := event_type_is "verification_recorded" event in
  [((scope && (negb (any_actor_type actor ["customer_user"; "reviewer"; "vendor_service"])
               || verificationScopeActorIsForbiddenMachine actor))%bool,
     review_event_verification_scope_actor_required);
   ((scope && negb (actor_type_is "customer_user" actor) && negb (verificationScopeEventCarriesCustomerBacking event))%bool,
     review_event_verification_scope_customer_backing_required);
   ((scope && verificationScopeTextHasForbiddenContent (prop "reason" event))%bool,
     review_event_verification_scope_reason_claim_unsafe_text_forbidden);
   ((evidence && negb (any_actor_type actor ["customer_user"; "vendor_service"]))%bool,
     review_event_verification_evidence_actor_required);
   ((evidence && actor_type_is "vendor_service" actor && negb (isNonEmptyString (prop "customer_actor_ref" event)))%bool,
     review_event_verification_evidence_customer_backing_required);
   ((evidence && verificationArtifactTextHasForbiddenContent (prop "reason" event))%bool,
     review_event_verification_evidence_reason_claim_unsafe_text_forbidden);
   ((record && negb (actor_type_is "reviewer" actor))%bool, review_event_verification_record_reviewer_actor_required);
   ((record && verificationArtifactTextHasForbiddenContent (prop "reason" event))%bool,
     review_event_verification_record_reason_claim_unsafe_text_forbidden)].
Definition is_pilot (event : json) : bool :=
  (event_type_is "pilot_metric_recorded" event || event_type_is "pilot_feedback_recorded" event)%bool.
Definition epic5_guards (event : json) : list (bool * ReviewEventAppendRejectionReason) :=
  let actor := prop "actor" event in
  let customer_facing := prop "visibility" event === jstr "customer_facing" in
  [((event_type_is "attestation_generated" event
     && (negb (isRecord actor) || negb (staff_actor actor) || negb customer_facing))%bool, review_event_epic5_authority_invalid);
   ((event_type_is "static_bundle_generated" event
     && (negb (actor_type_is "vendor_service" actor) || negb customer_facing))%bool, review_event_epic5_authority_invalid);
   (((event_type_is "attestation_package_finalized" event || event_type_is "attestation_package_exported" event)
     && (negb (actor_type_is "customer_user" actor) || negb customer_facing))%bool, review_event_epic5_authority_invalid);
   ((is_pilot event && (negb (isRecord actor) || negb (staff_actor actor)
                        || (prop "visibility" event !== jstr "internal_only") || present (prop "reason" event)))%bool,
     review_event_epic5_authority_invalid);
   ((is_pilot event && isRecord actor
     && negb (opaquePilotActorIdIsValid (prop "actor_type" actor) (prop "actor_id" actor)))%bool,
     review_event_pilot_pii_forbidden)].
Definition is_outcome (event : json) : bool :=
  (event_type_is "false_positive_recorded" event || event_type_is "customer_accepted_risk_recorded" event)%bool.
Definition is_retention_state (event : json) : bool :=
  (event_type_is "evidence_deleted" event || event_type_is "retention_status_changed" event)%bool.

Definition rejectionForReviewEventSemantics (event : json) : option ReviewEventAppendRejectionReason :=
  let actor := prop "actor" event in
  first_reason (
    [((negb (isRecord actor) || negb (isNonEmptyString (prop "actor_type" actor))
       || negb (isNonEmptyString (prop "actor_id" actor)))%bool, review_event_schema_invalid);
     ((event_type_is "customer_remediation_recorded" event && negb (actor_type_is "customer_user" actor))%bool,
       review_event_customer_remediation_actor_required);
     (prop "identity_input_excludes" event !== JArray [jstr "event_id"], review_event_identity_excludes_invalid);
     ((present (prop "internal_note" event) && (prop "visibility" event !== jstr "internal_only"))%bool,
       review_event_internal_note_requires_internal_only)]
    ++ reason_guards event ++ reviewer_guards event ++ accepted_risk_guards event ++ verification_guards event
    ++ epic5_guards event ++
    [((is_outcome event && present (prop "supersedes_classification_record_ref" event))%bool,
       review_event_outcome_supersedes_family_mismatch);
     (negb (typedReviewEventArtifactRefsMatch event), review_event_schema_invalid);
     ((is_retention_state event && is_undefined (prop "source_derived_class" event))%bool,
       review_event_missing_source_derived_class)]).

(** * Content identity *)

(* The canonicalize package: RFC 8785 text, undefined for a value without one, or an exception. *)
Context `{Sha256} (canonicalizeJson : json → throws (option jsstr)).

(* { ...event } without event_id *)
Definition identity_input (event : json) : json :=
  match event with JObject fs => JObject (JsMap.delete (js "event_id") fs) | _ => JObject [] end.
Definition computeReviewEventId (event : json) : throws string :=
  canonical ← canonicalizeJson (identity_input event);
  match canonical with
  | Some text => Ret (sha256ProtocolText text)
  | None => Throw "review event content could not be canonicalized under RFC 8785"
  end.
Definition rejectionForEvent (event : json) : option ReviewEventAppendRejectionReason :=
  match rejectionForReviewEventSemantics event with
  | Some r => Some r
  | None =>
      match computeReviewEventId event with
      | Throw _ => Some review_event_identity_mismatch
      | Ret id => if jstr id !== prop "event_id" event then Some review_event_identity_mismatch else None
      end
  end.
Definition stableEquals (left right : json) : throws bool :=
  l ← canonicalizeJson left;
  r ← canonicalizeJson right;
  Ret (match l with Some text => Some text === r | None => false end).

(** * Lemmas *)

Lemma semantics_guard event : rejectionForReviewEventSemantics event = None →
  isRecord (prop "actor" event) = true ∧
  isNonEmptyString (prop "actor_type" (prop "actor" event)) = true ∧
  isNonEmptyString (prop "actor_id" (prop "actor" event)) = true ∧
  typedReviewEventArtifactRefsMatch event = true.
Proof.
  unfold rejectionForReviewEventSemantics. rewrite !first_reason_app_None, !first_reason_cons_None.
  intros ((Ha & _) & _ & _ & _ & _ & _ & _ & Ht & _). bool_simpl. done.
Qed.
End semantics.
