(* ===== verification/SubmissionEvents.v ===== *)
(** Submission outcomes in the control plane (apps/control-plane/src/index.ts): the rules an
    outcome obeys, the review event that records a failed one, the notice shown of it, and
    that the outcomes intake builds keep those rules. *)

From Stdlib Require Import String.
From S2P Require Import Prelude Patterns Bytes Json JsonText CanonicalJson Timestamps Schema Registry Values ClaimSafety SubmittedArtifacts Receipts SubmissionFixtures Intake IntakeReceipt EventIdentity ReviewSemantics.

Local Open Scope Z_scope.

Inductive SubmissionOutcomeRejectionReason :=
  | submission_outcome_schema_invalid
  | submission_outcome_receipt_required
  | submission_outcome_failure_must_not_reference_receipt
  | submission_outcome_failure_requires_reason_codes
  | submission_outcome_received_must_not_carry_reason_codes
  | submission_outcome_next_path_state_mismatch
  | submission_outcome_summary_implies_review
  | submission_outcome_summary_text_forbidden
  | submission_outcome_identity_value_text_forbidden
  | submission_outcome_duplicate_identity_type
  | submission_outcome_identity_field_mismatch.
Inductive SubmissionOutcomeEventBuildRejectionReason :=
  | outcome_rejected (reason : SubmissionOutcomeRejectionReason)
  | submission_event_state_not_a_failure
  | submission_event_type_state_mismatch
  | submission_event_missing_outcome_ref
  | submission_event_idempotency_key_not_derived
  | submission_event_schema_invalid.
Inductive SubmissionOutcomeEventBuildResult :=
  | built (event : json)
  | rejected (reason : SubmissionOutcomeEventBuildRejectionReason).

Definition SUBMISSION_OUTCOME_STATE_NEXT_PATHS : list (string * list string) :=
  [("received_with_receipt", ["verify_receipt"]); ("rejected_no_receipt", ["retry"; "contact_support"]);
   ("quarantined_no_receipt", ["quarantine_support"; "contact_support"])].
Definition SUBMISSION_FAILURE_EVENT_TYPE_BY_STATE : list (string * string) :=
  [("rejected_no_receipt", "submission_rejected"); ("quarantined_no_receipt", "submission_quarantined")].
(* map.get(v) of a map whose keys are literals *)
Definition lookup {A} (table : list (string * A)) (v : json) : option A := snd <$> List.find (λ kv, has_string kv.1 v) table.
Definition failure_states : list string := ["rejected_no_receipt"; "quarantined_no_receipt"].

(* Array.isArray(refs) && refs.length === 1 && refs[0] === expected *)
Definition exactSingletonRef (refs : json) (expected : jsstr) : bool :=
  match refs with JArray [ref] => ref === JString expected | _ => false end.
Definition submissionOutcomeArtifactRef (outcome : json) : throws jsstr :=
  s ← text (prop "submission_outcome_id" outcome); Ret (js "artifact_ref:" ++ drop (String.length "submission_outcome:") s).
Definition submissionEventIdempotencyKey (outcome : json) : jsstr :=
  js "submission_attempt:" ++ js_string (prop "bundle_instance_id" outcome) ++ 58 :: js_string (prop "submission_attempt_id" outcome).
Definition isSubmissionFailureNoticeAudience (v : json) : bool := one_of ["customer"; "vendor"; "ops"] v.

(** * Identities *)

(* submissionIdentityValueMatchesGrammar of a type read from a row *)
Definition row_matches (identityType : jsstr) (v : json) : throws bool :=
  match latin_text identityType with Some name => submissionIdentityValueMatchesGrammar name v | None => Ret false end.
(* The loop over the rows: how often each type occurs, or a row that is no identity *)
Fixpoint count_rows (rows : list json) (countByType : list (jsstr * Z)) : throws (option (list (jsstr * Z))) :=
  match rows with
  | [] => Ret (Some countByType)
  | row :: rows' =>
      match row, prop "identity_type" row with
      | JObject _, JString identityType =>
          row_matches identityType (prop "identity_value" row) ≫= λ matches : bool,
          if matches then count_rows rows' (JsMap.set identityType (default 0 (JsMap.get identityType countByType) + 1) countByType) else Ret None
      | _, _ => Ret None
      end
  end.
Definition row_of (identityType : string) (rows : list json) : option json :=
  List.find (λ row, isRecord row && has_string identityType (prop "identity_type" row))%bool rows.
Definition rejectionForSubmissionIdentities (outcome : json) : throws (option SubmissionOutcomeRejectionReason) :=
  match prop "submission_identities" outcome with
  | JArray rows =>
      counted ← count_rows rows [];
      Ret match counted with
          | None => Some submission_outcome_schema_invalid
          | Some countByType =>
              if existsb (λ kv : jsstr * Z, 1 <? kv.2) countByType then Some submission_outcome_duplicate_identity_type
              else match row_of "bundle_instance_id" rows, row_of "submission_attempt_id" rows with
              | Some bundleRow, Some attemptRow =>
                  if ((prop "identity_value" bundleRow === prop "bundle_instance_id" outcome) &&
                      (prop "identity_value" attemptRow === prop "submission_attempt_id" outcome))%bool
                  then None else Some submission_outcome_identity_field_mismatch
              | _, _ => Some submission_outcome_identity_field_mismatch
              end
          end
  | _ => Ret (Some submission_outcome_schema_invalid)
  end.

Section submission_events.
Context `{TextScreens}.
(* validateProtocolSchema(schemaId, value) *)
Variable validateProtocolSchema : string → json → list ProtocolValidationError.

(** * The rules of an outcome *)

Definition outcome_guards (outcome : json) : list (bool * SubmissionOutcomeRejectionReason) :=
  let state := prop "outcome_state" outcome in
  let isFailure := one_of failure_states state in
  let received := has_string "received_with_receipt" state in
  let reasonCodes := match prop "failure_reason_codes" outcome with JArray l => l | _ => [] end in
  let receipt := negb (is_undefined (prop "vendor_receipt_ref" outcome)) in
  let summary := prop "customer_facing_summary" outcome in
  [((received && negb receipt)%bool, submission_outcome_receipt_required);
   ((isFailure && receipt)%bool, submission_outcome_failure_must_not_reference_receipt);
   ((isFailure && is_nil reasonCodes)%bool, submission_outcome_failure_requires_reason_codes);
   ((received && negb (is_nil reasonCodes))%bool, submission_outcome_received_must_not_carry_reason_codes);
   (match lookup SUBMISSION_OUTCOME_STATE_NEXT_PATHS state with
    | Some allowedNextPaths => negb (one_of allowedNextPaths (prop "next_path" outcome)) | None => false end,
     submission_outcome_next_path_state_mismatch);
   ((isFailure && claimSafeForbiddenPhrase summary)%bool, submission_outcome_summary_implies_review);
   ((isFailure && epic5NarrativeTextForbidden summary)%bool, submission_outcome_summary_text_forbidden);
   ((isFailure && match prop "submission_identities" outcome with
                  | JArray rows => existsb (λ row, isRecord row && epic5NarrativeTextForbidden (prop "identity_value" row))%bool rows
                  | _ => false end)%bool, submission_outcome_identity_value_text_forbidden)].
Definition rejectionForSubmissionOutcome (outcome : json) : throws (option SubmissionOutcomeRejectionReason) :=
  if negb (isRecord outcome) then Ret (Some submission_outcome_schema_invalid)
  else
    identityRejection ← rejectionForSubmissionIdentities outcome;
    Ret match identityRejection with Some reason => Some reason | None => first_reason (outcome_guards outcome) end.

(** * The event and the notice *)

Definition submission_event (outcome envelope : json) (eventType : string) (artifactRefs : list json) (idempotencyKey : jsstr) : json :=
  jobj [("protocol_version", prop "protocol_version" outcome); ("event_id", prop "event_id" envelope); ("review_id", prop "review_id" outcome);
        ("sequence_number", prop "sequence_number" envelope); ("idempotency_key", JString idempotencyKey); ("event_type", jstr eventType);
        ("actor", prop "actor" envelope); ("event_timestamp", coalesce (prop "event_timestamp" envelope) (prop "occurred_at" outcome));
        ("artifact_refs", JArray artifactRefs); ("visibility", prop "visibility" envelope); ("canonicalization", jstr "rfc8785");
        ("identity_hash_algorithm", jstr "sha256"); ("identity_input_excludes", jarr [jstr "event_id"]);
        ("reason", prop "customer_facing_summary" outcome)].
Definition buildSubmissionOutcomeEvent (outcome envelope : json) : throws SubmissionOutcomeEventBuildResult :=
  if (negb (isRecord outcome) || negb (isRecord envelope))%bool then Ret (rejected (outcome_rejected submission_outcome_schema_invalid))
  else
    outcomeRejection ← rejectionForSubmissionOutcome outcome;
    match outcomeRejection with
    | Some reason => Ret (rejected (outcome_rejected reason))
    | None =>
        if nonempty (validateProtocolSchema "urn:codeattest:protocol:v0:submission-outcome" outcome)
        then Ret (rejected (outcome_rejected submission_outcome_schema_invalid))
        else match lookup SUBMISSION_FAILURE_EVENT_TYPE_BY_STATE (prop "outcome_state" outcome) with
        | None => Ret (rejected submission_event_state_not_a_failure)
        | Some expectedEventType =>
            if negb (has_string expectedEventType (coalesce (prop "event_type" envelope) (jstr expectedEventType)))
            then Ret (rejected submission_event_type_state_mismatch)
            else
              expectedArtifactRef ← submissionOutcomeArtifactRef outcome;
              let artifactRefs := coalesce (prop "artifact_refs" envelope) (JArray [JString expectedArtifactRef]) in
              if negb (exactSingletonRef artifactRefs expectedArtifactRef) then Ret (rejected submission_event_missing_outcome_ref)
              else
                let expectedIdempotencyKey := submissionEventIdempotencyKey outcome in
                if negb (coalesce (prop "idempotency_key" envelope) (JString expectedIdempotencyKey) === JString expectedIdempotencyKey)
                then Ret (rejected submission_event_idempotency_key_not_derived)
                else
                  let event := submission_event outcome envelope expectedEventType [JString expectedArtifactRef] expectedIdempotencyKey in
                  if nonempty (validateProtocolSchema "urn:codeattest:protocol:v0:review-event" event)
                  then Ret (rejected submission_event_schema_invalid)
                  else Ret (built event)
        end
    end.
Definition failure_notice (outcome audience : json) : json :=
  let nextPath := prop "next_path" outcome in
  jobj [("outcome_state", prop "outcome_state" outcome); ("review_id", prop "review_id" outcome);
        ("submission_outcome_id", prop "submission_outcome_id" outcome); ("occurred_at", prop "occurred_at" outcome);
        ("submission_identities", prop "submission_identities" outcome); ("failure_reason_codes", coalesce (prop "failure_reason_codes" outcome) (JArray []));
        ("next_paths", JArray (nextPath :: if has_string "contact_support" nextPath then [] else [jstr "contact_support"]));
        ("customer_facing_summary", prop "customer_facing_summary" outcome);
        ("audience", if isSubmissionFailureNoticeAudience audience then audience else jstr "customer")].
Definition projectSubmissionFailureNotice (outcome audience : json) : throws (option json) :=
  if negb (isRecord outcome) then Ret None
  else if negb (one_of failure_states (prop "outcome_state" outcome)) then Ret None
  else
    rejection ← rejectionForSubmissionOutcome outcome;
    Ret (if bool_decide (is_Some rejection) then None
         else if nonempty (validateProtocolSchema "urn:codeattest:protocol:v0:submission-outcome" outcome) then None
         else Some (failure_notice outcome audience)).
End submission_events.

(** * Identity rows *)

(* A row as intake writes it: of a type of the grammar, with a text the grammar accepts *)
Definition good_row (row : json) : Prop :=
  ∃ name v, row = identity_row name v ∧ submissionIdentityValueMatchesGrammar name v = Ret true.
Definition row_types (rows : list json) : list json := List.map (prop "identity_type") rows.

Lemma row_fields name v : prop "identity_type" (identity_row name v) = jstr name ∧ prop "identity_value" (identity_row name v) = v.
Proof. unfold identity_row. rewrite !prop_field. done. Qed.
Lemma row_types_elem row rows : row ∈ rows → prop "identity_type" row ∈ row_types rows.
Proof. intros Hin. by apply list_elem_of_In, in_map, list_elem_of_In. Qed.

Lemma count_good_rows rows : ∀ counts, Forall good_row rows → NoDup (row_types rows) →
  (∀ name, jstr name ∈ row_types rows → JsMap.get (js name) counts = None) → (∀ kv, kv ∈ counts → kv.2 ≤ 1) →
  ∃ counts', count_rows rows counts = Ret (Some counts') ∧ ∀ kv, kv ∈ counts' → kv.2 ≤ 1.
Proof.
  induction rows as [|row rows IH]; intros counts Hg Hnd Hfresh Hc; [by exists counts|].
  apply Forall_cons in Hg as [(name & v & -> & Hm) Hg]. cbn [row_types List.map] in Hnd. apply NoDup_cons in Hnd as [Hn Hnd].
  destruct (row_fields name v) as [Et Ev]. assert (∃ fields, identity_row name v = JObject fields) as [fields Ef] by (by eexists).
  cbn [count_rows]. rewrite Ef in *. rewrite Et, Ev. change (jstr name) with (JString (js name)). unfold row_matches. rewrite latin_text_js, Hm. cbn [mbind throws_bind].
  assert (JsMap.get (js name) counts = None) as Hnone. { apply Hfresh. cbn [row_types List.map]. rewrite Et. by left. }
  rewrite Hnone, JsMap.set_fresh by done. rewrite Et in Hn. apply IH; [done|done| |].
  - intros name' Hin. assert (jstr name' ≠ jstr name) as Hne by (intros E0; rewrite E0 in Hin; by apply Hn).
    rewrite <- (JsMap.set_fresh _ _ counts) by done. rewrite JsMap.get_set_ne; [|intros E0; apply Hne; unfold jstr; by rewrite E0].
    apply Hfresh. cbn [row_types List.map]. by right.
  - intros kv [Hin|Hin]%elem_of_app; [by apply Hc|]. apply list_elem_of_singleton in Hin as ->. done.
Qed.
Lemma row_of_found name v rows : NoDup (row_types rows) → identity_row name v ∈ rows → row_of name rows = Some (identity_row name v).
Proof.
  intros Hnd Hin. unfold row_of. destruct (row_fields name v) as [Et _]. destruct (List.find _ rows) as [row|] eqn:Ef.
  - apply find_Some_elem in Ef as [Hrow [_ Ht%has_string_true]%andb_prop]. f_equal. apply (distinct_by (prop "identity_type") rows); [done..|congruence].
  - exfalso. rewrite find_None_forall in Ef. specialize (Ef _ Hin). by rewrite Et, has_string_jstr in Ef.
Qed.

(* What the calls of addSubmissionIdentity leave when none is refused *)
Lemma add_identities_rows supplied : ∀ identities valid rows, add_identities identities valid supplied = Ret (rows, true) →
  Forall good_row identities → NoDup (row_types identities) → NoDup (List.map fst supplied) →
  (∀ name, name ∈ List.map fst supplied → jstr name ∉ row_types identities) →
  Forall good_row rows ∧ NoDup (row_types rows) ∧ (∀ row, row ∈ identities → row ∈ rows) ∧
  ∀ name v, (name, v) ∈ supplied → v ≠ JForeign → identity_row name v ∈ rows.
Proof.
  induction supplied as [|[name v] supplied IH]; intros identities valid rows Hadd Hg Hnd Hs Hfresh.
  { apply Ret_inj in Hadd. assert (identities = rows) as <- by congruence. split_and!; try done. by intros ? ? Hin%elem_of_nil. }
  cbn [add_identities] in Hadd. apply bind_Ret in Hadd as ([more ok] & Ha & Hadd). cbn [fst snd] in Hadd.
  cbn [List.map] in Hs. apply NoDup_cons in Hs as [Hname Hs].
  assert (∀ ids, add_identities ids false supplied ≠ Ret (rows, true)) as Hstay.
  { clear. induction supplied as [|[n w] supplied IH]; intros ids; cbn [add_identities]; [congruence|].
    intros ([more ok] & _ & E0)%bind_Ret. cbn [fst snd] in E0. rewrite andb_false_r in E0. by apply IH in E0. }
  unfold addSubmissionIdentity in Ha. destruct (is_undefined v) eqn:Ev.
  - apply Ret_inj in Ha. assert (more = identities) as -> by congruence. destruct (IH _ _ _ Hadd Hg Hnd Hs) as (R1 & R2 & R3 & R4).
    { intros n Hn. apply Hfresh. by right. }
    split_and!; [done..|]. intros n w [[= -> ->]|Hin]%elem_of_cons Hw; [by destruct v|by apply R4].
  - apply bind_Ret in Ha as (matches & Hm & Ha). destruct matches; cbn [negb] in Ha.
    2: { apply Ret_inj in Ha. assert (ok = false) as -> by congruence. by apply Hstay in Hadd. }
    destruct (existsb _ identities) eqn:Ex.
    { exfalso. apply existsb_elem in Ex as (i & Hi & Ht%has_string_true). apply (Hfresh name); [by left|]. rewrite <- Ht. by apply row_types_elem. }
    apply Ret_inj in Ha. assert (more = identities ++ [identity_row name v]) as -> by congruence. destruct (row_fields name v) as [Et _].
    assert (row_types (identities ++ [identity_row name v]) = row_types identities ++ [jstr name]) as Er.
    { unfold row_types. rewrite map_app. cbn [List.map]. by rewrite Et. }
    destruct (IH _ _ _ Hadd) as (R1 & R2 & R3 & R4).
    + apply Forall_app. split; [done|]. apply Forall_singleton. by exists name, v.
    + rewrite Er. apply NoDup_app. split; [done|]. split; [|apply NoDup_singleton]. intros t Ht ->%list_elem_of_singleton. by apply (Hfresh name); [left|].
    + done.
    + intros n Hn. rewrite Er. intros [Hin|E0%list_elem_of_singleton%jstr_inj]%elem_of_app; [by apply (Hfresh n); [right|]|by subst n].
    + split_and!; [done..| |].
      * intros row Hin. apply R3, elem_of_app. by left.
      * intros n w [[= -> ->]|Hin]%elem_of_cons Hw; [apply R3, elem_of_app; by right; left|by apply R4].
Qed.

(** * The outcomes of intake *)

Section handoff.
Context `{UnicodeText, Sha256, Canonicalize}.
Variable validateProtocolSchema : string → json → list ProtocolValidationError.

(* What the rules of an outcome ask of the fields that depend on its state *)
Definition state_fields (state : string) (more : list (string * json)) (next_path : string) : Prop :=
  (state = "received_with_receipt"%string ∧ next_path = "verify_receipt"%string ∧ ∃ id, more = [("vendor_receipt_ref"%string, jstr id)]) ∨
  (∃ codes, codes ≠ [] ∧ more = [("failure_reason_codes"%string, JArray codes)] ∧
    ((state = "rejected_no_receipt" ∧ next_path ∈ ["retry"; "contact_support"]) ∨
     (state = "quarantined_no_receipt" ∧ next_path ∈ ["quarantine_support"; "contact_support"]))%string).
Lemma failure_next_path result : one_of failure_states (prop "state" result) = true →
  let state := (if has_string "rejected_no_receipt" (prop "state" result) then "rejected_no_receipt" else "quarantined_no_receipt")%string in
  (state = "rejected_no_receipt" ∧ nextPathForFailure result ∈ ["retry"; "contact_support"])%string ∨
  (state = "quarantined_no_receipt" ∧ nextPathForFailure result ∈ ["quarantine_support"; "contact_support"])%string.
Proof.
  intros (name & Hname & Hstate)%one_of_true. unfold nextPathForFailure. rewrite Hstate.
  unfold failure_states in Hname. rewrite !elem_of_cons in Hname. destruct Hname as [->|[->|[]%elem_of_nil]];
    [change (has_string "rejected_no_receipt" (jstr "rejected_no_receipt")) with true; change (has_string "quarantined_no_receipt" (jstr "rejected_no_receipt")) with false; left
    |change (has_string "rejected_no_receipt" (jstr "quarantined_no_receipt")) with false; change (has_string "quarantined_no_receipt" (jstr "quarantined_no_receipt")) with true; right];
    destruct (has_string "contact_support" _); split; try done; rewrite !elem_of_cons; tauto.
Qed.
Lemma added_rows supplied rows b a : add_identities [] true (supplied ++ [("bundle_instance_id"%string, JString b); ("submission_attempt_id"%string, JString a)]) = Ret (rows, true) →
  NoDup (List.map fst (supplied ++ [("bundle_instance_id"%string, JString b); ("submission_attempt_id"%string, JString a)])) →
  Forall good_row rows ∧ NoDup (row_types rows) ∧ identity_row "bundle_instance_id" (JString b) ∈ rows ∧ identity_row "submission_attempt_id" (JString a) ∈ rows.
Proof.
  intros Hadd Hnd. destruct (add_identities_rows _ _ _ _ Hadd) as (R1 & R2 & _ & R4);
    [constructor|constructor|done|intros name _; apply not_elem_of_nil|].
  split_and!; [done|done|apply R4; [apply elem_of_app; right; left|done]|apply R4; [apply elem_of_app; right; right; left|done]].
Qed.
Lemma outcome_inv request outcome : buildSubmissionOutcome validateProtocolSchema request = Ret (inl outcome) →
  ∃ snapshot rows b a state more next_path, outcome = outcome_of snapshot rows (JString b) (JString a) state more next_path ∧
    Forall good_row rows ∧ NoDup (row_types rows) ∧
    identity_row "bundle_instance_id" (JString b) ∈ rows ∧ identity_row "submission_attempt_id" (JString a) ∈ rows ∧ state_fields state more next_path.
Proof.
  unfold buildSubmissionOutcome. destruct (cloneSubmissionOutcomeRequest request) as [snap|]; [|done]. cbv zeta. intros Hb.
  destruct (negb _ && _)%bool eqn:E1 in Hb; [done|]. destruct (_ && negb (isValidVerifiedIntakeRecord _))%bool in Hb; [done|].
  destruct (_ && negb (isRecord _))%bool in Hb; [done|]. apply bind_Ret in Hb as (blocked & Eb & Hb). destruct blocked; [done|].
  destruct (prop "bundle_instance_id" _) as [| |b| | | | |] eqn:Eb1 in Hb; try done. destruct (prop "submission_attempt_id" _) as [| |a| | | | |] eqn:Ea1 in Hb; try done.
  cbn [negb] in Hb. apply bind_Ret in Hb as ([rows ok] & Ea & Hb). cbn [fst snd] in Hb. destruct ok; [|done]. cbn [negb] in Hb.
  destruct rows as [|row rows]; [done|]. exists snap, (row :: rows), b, a.
  destruct (has_string "verified_receipt_eligible" _) eqn:Ev.
  - apply added_rows in Ea as (R1 & R2 & R3 & R4); [|by apply (bool_decide_unpack _); vm_compute].
    apply Ret_inj in Hb. destruct (validateProtocolSchema _ _) in Hb; [|done]. cbn [is_nil negb] in Hb.
    assert (∃ id, prop "vendor_receipt_id" (prop "vendor_receipt" snap) = jstr id) as [id Hid].
    { unfold receipt_blocker in Eb. cbv zeta in Eb. destruct (is_undefined _); [done|]. destruct (Receipts.state _) eqn:Es in Eb; [|done].
      apply receipt_verified_identity in Es as (id & _ & Hid). by exists id. }
    rewrite Hid in Hb. eexists _, _, _. split; [injection Hb as <-; reflexivity|]. split_and!; [done..|]. left. by eauto.
  - apply added_rows in Ea as (R1 & R2 & R3 & R4); [|by apply (bool_decide_unpack _); vm_compute].
    destruct (is_nil _) eqn:En; [done|]. apply Ret_inj in Hb. destruct (validateProtocolSchema _ _) in Hb; [|done]. cbn [is_nil negb] in Hb.
    eexists _, _, _. split; [injection Hb as <-; reflexivity|]. split_and!; [done..|]. right. eexists. split; [|split; [reflexivity|]].
    + intros E0. by rewrite E0 in En.
    + apply failure_next_path. cbn [negb andb] in E1. by apply negb_false_iff in E1.
Qed.
Lemma rows_accepted outcome rows b a : prop "submission_identities" outcome = JArray rows →
  prop "bundle_instance_id" outcome = JString b → prop "submission_attempt_id" outcome = JString a →
  Forall good_row rows → NoDup (row_types rows) → identity_row "bundle_instance_id" (JString b) ∈ rows → identity_row "submission_attempt_id" (JString a) ∈ rows →
  rejectionForSubmissionIdentities outcome = Ret None.
Proof.
  intros Hr Hb Ha Hg Hnd Hbin Hain. unfold rejectionForSubmissionIdentities. rewrite Hr.
  destruct (count_good_rows rows [] Hg Hnd) as (counts & Hc & Hone); [done|by intros kv Hin%elem_of_nil|]. rewrite Hc. cbn [mbind throws_bind]. f_equal.
  assert (existsb (λ kv : jsstr * Z, 1 <? kv.2) counts = false) as ->.
  { apply existsb_false. intros kv Hin. apply Z.ltb_ge. by apply Hone. }
  rewrite (row_of_found _ _ _ Hnd Hbin), (row_of_found _ _ _ Hnd Hain), Hb, Ha.
  destruct (row_fields "bundle_instance_id" (JString b)) as [_ ->]. destruct (row_fields "submission_attempt_id" (JString a)) as [_ ->]. by rewrite !json_eq_refl.
Qed.
(* The summaries pass the text screens: they are ASCII, so whatever the Unicode tables. *)
Lemma summaries_screened : forallb (λ state, let summary := js (SUBMISSION_OUTCOME_SUMMARIES state) in
  ClaimSafety.screenable summary
  && bool_decide (ClaimSafety.customerVisibleTextForbidden (H := ClaimSafety.ascii_tables) (JString summary) = None)
  && bool_decide (ClaimSafety.sourceTextForbiddenPhrase (H := ClaimSafety.ascii_tables) (JString summary) = None))%bool failure_states = true.
Proof. by vm_compute. Qed.
Lemma claims_within_visible `{UnicodeText} v : ClaimSafety.customerVisibleTextForbidden v = None → ClaimSafety.claimSafeForbiddenPhrase v = None.
Proof. unfold ClaimSafety.customerVisibleTextForbidden. by destruct (ClaimSafety.claimSafeForbiddenPhrase v). Qed.
Lemma summaries_allowed state : state ∈ failure_states →
  claimSafeForbiddenPhrase (jstr (SUBMISSION_OUTCOME_SUMMARIES state)) = false ∧ epic5NarrativeTextForbidden (jstr (SUBMISSION_OUTCOME_SUMMARIES state)) = false.
Proof.
  intros Hs. pose proof (proj1 (forallb_elem _ _) summaries_screened state Hs) as Hscreen. cbv beta zeta in Hscreen. unfold jstr.
  revert Hscreen. generalize (js (SUBMISSION_OUTCOME_SUMMARIES state)). intros summary [[Ha Hv%bool_decide_eq_true]%andb_prop Ht%bool_decide_eq_true]%andb_prop.
  rewrite <- (ClaimSafety.customer_visible_ascii summary Ha) in Hv. rewrite <- (ClaimSafety.source_text_ascii summary Ha) in Ht.
  unfold epic5NarrativeTextForbidden. cbn [claimSafeForbiddenPhrase sourceTextForbiddenPhrase customerVisibleTextForbidden protocol_screens].
  rewrite Hv, Ht, (claims_within_visible _ Hv). split; reflexivity.
Qed.
Definition identity_text_forbidden (outcome : json) : bool :=
  match prop "submission_identities" outcome with
  | JArray rows => existsb (λ row, isRecord row && epic5NarrativeTextForbidden (prop "identity_value" row))%bool rows
  | _ => false
  end.
Lemma outcome_guards_intake snapshot rows b a state more next_path : state_fields state more next_path →
  let outcome := outcome_of snapshot rows b a state more next_path in
  first_reason (outcome_guards outcome) =
    if (one_of failure_states (prop "outcome_state" outcome) && identity_text_forbidden outcome)%bool then Some submission_outcome_identity_value_text_forbidden else None.
Proof.
  intros Hf outcome. unfold outcome_guards, identity_text_forbidden. pose proof summaries_allowed as Hs.
  assert (prop "outcome_state" outcome = jstr state ∧ prop "customer_facing_summary" outcome = jstr (SUBMISSION_OUTCOME_SUMMARIES state) ∧
    prop "next_path" outcome = jstr next_path ∧ prop "submission_identities" outcome = JArray rows) as (-> & -> & -> & ->).
  { unfold outcome, outcome_of. destruct Hf as [(_ & _ & id & ->)|(codes & _ & -> & _)]; rewrite !prop_field; done. }
  destruct Hf as [(-> & -> & id & Hm)|(codes & Hc & Hm & Hf)].
  - assert (prop "vendor_receipt_ref" outcome = jstr id ∧ prop "failure_reason_codes" outcome = JForeign) as [-> ->].
    { unfold outcome, outcome_of. rewrite Hm, !prop_field. done. }
    reflexivity.
  - assert (prop "vendor_receipt_ref" outcome = JForeign ∧ prop "failure_reason_codes" outcome = JArray codes) as [-> ->].
    { unfold outcome, outcome_of. rewrite Hm, !prop_field. done. }
    assert (is_nil codes = false) as Hn by by destruct codes. rewrite Hn.
    assert (one_of failure_states (jstr state) = true ∧ has_string "received_with_receipt" (jstr state) = false) as [-> ->].
    { destruct Hf as [[-> _]|[-> _]]; split; reflexivity. }
    assert (match lookup SUBMISSION_OUTCOME_STATE_NEXT_PATHS (jstr state) with
            | Some allowed => negb (one_of allowed (jstr next_path)) | None => false end = false) as ->.
    { destruct Hf as [[-> Hp]|[-> Hp]]; repeat (apply elem_of_cons in Hp as [->|Hp]; [reflexivity|]); by apply elem_of_nil in Hp. }
    destruct (Hs state) as [-> ->]; [destruct Hf as [[-> _]|[-> _]]; unfold failure_states; rewrite !elem_of_cons; tauto|].
    cbn [first_reason andb negb]. reflexivity.
Qed.

(** C19. Every outcome intake builds keeps the control plane's rules, whatever it came from:
    each identity is of a type of its own in that type's grammar, those of the bundle and of
    the attempt are the outcome's, and reasons, receipt and next path are those of its
    state, and its summary is in words that pass the text screens. The control plane can
    refuse one only for the words in an identity. *)
Theorem intake_outcome_is_recordable request outcome :
  buildSubmissionOutcome validateProtocolSchema request = Ret (inl outcome) →
  rejectionForSubmissionOutcome outcome = Ret (if (one_of failure_states (prop "outcome_state" outcome) && identity_text_forbidden outcome)%bool
    then Some submission_outcome_identity_value_text_forbidden else None).
Proof.
  intros (snapshot & rows & b & a & state & more & next_path & -> & R1 & R2 & R3 & R4 & Hf)%outcome_inv.
  unfold rejectionForSubmissionOutcome. cbn [isRecord outcome_of jobj negb].
  fold (outcome_of snapshot rows (JString b) (JString a) state more next_path).
  rewrite (rows_accepted _ rows b a); try done.
  cbn [mbind throws_bind]. f_equal. by apply outcome_guards_intake.
Qed.
End handoff.

(** * The recorded event *)

Section event.
Context `{TextScreens}.
Variable validateProtocolSchema : string → json → list ProtocolValidationError.

Lemma lookup_Some {A} (table : list (string * A)) v x : lookup table v = Some x → ∃ k, (k, x) ∈ table ∧ v = jstr k.
Proof.
  unfold lookup. destruct (List.find _ table) as [[k y]|] eqn:Hf; [|done]. intros [= <-].
  apply find_Some_elem in Hf as [Hin Hk%has_string_true]. by exists k.
Qed.
Lemma failure_guards outcome state : prop "outcome_state" outcome = jstr state → state ∈ failure_states → first_reason (outcome_guards outcome) = None →
  prop "vendor_receipt_ref" outcome = JForeign ∧ (∃ e codes, prop "failure_reason_codes" outcome = JArray (e :: codes)) ∧
  (∃ next_paths next_path, (state, next_paths) ∈ SUBMISSION_OUTCOME_STATE_NEXT_PATHS ∧ next_path ∈ next_paths ∧ prop "next_path" outcome = jstr next_path) ∧
  claimSafeForbiddenPhrase (prop "customer_facing_summary" outcome) = false ∧ epic5NarrativeTextForbidden (prop "customer_facing_summary" outcome) = false.
Proof.
  intros Hstate Hin. unfold outcome_guards. rewrite Hstate. assert (one_of failure_states (jstr state) = true) as -> by (apply one_of_true; eauto).
  rewrite !first_reason_cons_None. cbn [andb]. intros (_ & Hr & Hc & _ & Hp & Hs & Ht & _).
  split_and!; try done.
  - apply negb_false_iff in Hr. by destruct (prop "vendor_receipt_ref" outcome).
  - destruct (prop "failure_reason_codes" outcome) as [| | | | | |[|e codes]|]; try done. by eauto.
  - destruct (lookup SUBMISSION_OUTCOME_STATE_NEXT_PATHS (jstr state)) as [next_paths|] eqn:Hl.
    + apply lookup_Some in Hl as (k & Hk & E0%jstr_inj). subst k. apply negb_false_iff, one_of_true in Hp as (next_path & Hn & Ep). by exists next_paths, next_path.
    + unfold failure_states in Hin. by repeat (apply elem_of_cons in Hin as [->|Hin]; [done|]); apply elem_of_nil in Hin.
Qed.

(** C20. An event is built only of a valid outcome that failed: with reasons, without a
    receipt, with a next path of its state and in words that neither claim a review nor
    show source; it has the type of that state, names the outcome and no other artifact,
    is keyed by the attempt, and repeats the outcome's summary. *)
Theorem submission_event_is_earned outcome envelope event :
  buildSubmissionOutcomeEvent validateProtocolSchema outcome envelope = Ret (built event) →
  validateProtocolSchema "urn:codeattest:protocol:v0:submission-outcome" outcome = [] ∧
  validateProtocolSchema "urn:codeattest:protocol:v0:review-event" event = [] ∧
  (∃ state eventType next_paths next_path e codes, prop "outcome_state" outcome = jstr state ∧ prop "event_type" event = jstr eventType ∧
    (state, eventType) ∈ SUBMISSION_FAILURE_EVENT_TYPE_BY_STATE ∧ prop "vendor_receipt_ref" outcome = JForeign ∧
    prop "failure_reason_codes" outcome = JArray (e :: codes) ∧
    (state, next_paths) ∈ SUBMISSION_OUTCOME_STATE_NEXT_PATHS ∧ next_path ∈ next_paths ∧ prop "next_path" outcome = jstr next_path) ∧
  (∃ id, prop "submission_outcome_id" outcome = JString id ∧
    prop "artifact_refs" event = JArray [JString (js "artifact_ref:" ++ drop (String.length "submission_outcome:") id)]) ∧
  prop "idempotency_key" event = JString (submissionEventIdempotencyKey outcome) ∧ prop "review_id" event = prop "review_id" outcome ∧
  prop "reason" event = prop "customer_facing_summary" outcome ∧
  claimSafeForbiddenPhrase (prop "reason" event) = false ∧ epic5NarrativeTextForbidden (prop "reason" event) = false.
Proof.
  unfold buildSubmissionOutcomeEvent. destruct (_ || _)%bool; [done|]. intros (rejection & Hr & Hb)%bind_Ret. destruct rejection; [done|].
  destruct (validateProtocolSchema "urn:codeattest:protocol:v0:submission-outcome" outcome) eqn:Ho; [|done]. cbn [nonempty] in Hb.
  destruct (lookup _ _) as [eventType|] eqn:Hl in Hb; [|done]. destruct (negb _) in Hb; [done|].
  apply bind_Ret in Hb as (ref & Href & Hb). cbv zeta in Hb. destruct (negb _) in Hb; [done|]. destruct (negb _) in Hb; [done|].
  destruct (validateProtocolSchema "urn:codeattest:protocol:v0:review-event" _) eqn:Hv in Hb; [|done]. cbn [nonempty] in Hb.
  assert (event = submission_event outcome envelope eventType [JString ref] (submissionEventIdempotencyKey outcome)) as -> by (apply Ret_inj in Hb; congruence).
  clear Hb. apply lookup_Some in Hl as (state & Hin & Hstate).
  assert (state ∈ failure_states) as Hfail.
  { unfold SUBMISSION_FAILURE_EVENT_TYPE_BY_STATE in Hin. unfold failure_states.
    apply elem_of_cons in Hin as [E0|[E0|[]%elem_of_nil]%elem_of_cons]; apply (f_equal fst) in E0; cbn [fst] in E0; subst state; [left|right; left].
  }
  unfold rejectionForSubmissionOutcome in Hr. destruct (negb _) in Hr; [done|]. apply bind_Ret in Hr as ([reason|] & _ & Hr); apply Ret_inj in Hr; [done|].
  destruct (failure_guards outcome state Hstate Hfail Hr) as (Hreceipt & (e & codes & Hcodes) & (next_paths & next_path & Hn & Hp & Enext) & Hs & Ht).
  unfold submissionOutcomeArtifactRef in Href. apply bind_Ret in Href as (id & Hid & <-%Ret_inj).
  unfold submission_event in Hv |- *. rewrite !prop_field. split; [done|]. split; [done|]. split; [|split; [|done]].
  - exists state, eventType, next_paths, next_path, e, codes. by split_and!.
  - exists id. split; [|done]. destruct (prop "submission_outcome_id" outcome); try done. by apply Ret_inj in Hid as ->.
Qed.
End event.

(** * A refused submission *)

Module SubmissionEventSamples.
Import SampleHash SampleText Fixture IntakeSamples ReceiptSamples.
Definition refused_result : json := jobj [("state", jstr "rejected_no_receipt"); ("reason_codes", jarr [jstr "artifact_digest_mismatch"]);
  ("next_path", jstr "retry")].
Definition refused_request (attempt : string) : json := jobj
  [("result", refused_result); ("review_id", jstr "review:synthetic-demo-001"); ("submission_outcome_id", jstr "submission_outcome:synthetic-demo-002");
   ("occurred_at", jstr "2026-07-10T00:20:00Z"); ("bundle_instance_id", prop "bundle_instance_id" bundle); ("submission_attempt_id", jstr attempt)].
Definition envelope (event_type : json) : json := jobj [("event_id", scope_identity); ("sequence_number", jnum 1); ("event_type", event_type);
  ("actor", jobj [("actor_type", jstr "vendor_service"); ("actor_id", jstr "vendor_service:intake_demo")]); ("visibility", jstr "customer_facing")].
Definition refused : { outcome | buildSubmissionOutcome errors (refused_request "submission_attempt:attempt-001") = Ret (inl outcome) }.
Proof. eexists. vm_compute. reflexivity. Defined.
Definition refused_outcome : json := Eval vm_compute in proj1_sig refused.
Definition recorded : { event | buildSubmissionOutcomeEvent errors refused_outcome (envelope JForeign) = Ret (built event) }.
Proof. eexists. vm_compute. reflexivity. Defined.
Definition recorded_event : json := Eval vm_compute in proj1_sig recorded.
(* Two rows of one type *)
Example two_bundles_refused : rejectionForSubmissionIdentities (jobj [("submission_identities",
    jarr [identity_row "bundle_instance_id" (jstr "bundle_instance:one-1"); identity_row "bundle_instance_id" (jstr "bundle_instance:two-2")])]) =
  Ret (Some submission_outcome_duplicate_identity_type).
Proof. reflexivity. Qed.

Lemma intake_outcome_is_recordable_witness : ∃ refusal, rejectionForSubmissionOutcome refused_outcome = Ret refusal ∧
  (refusal = None ∨ refusal = Some submission_outcome_identity_value_text_forbidden).
Proof.
  eexists. split; [apply (intake_outcome_is_recordable errors (refused_request "submission_attempt:attempt-001") refused_outcome (proj2_sig refused))|].
  destruct (_ && _)%bool; auto.
Defined.
Lemma submission_event_is_earned_witness : errors "urn:codeattest:protocol:v0:review-event" recorded_event = [].
Proof.
  destruct (submission_event_is_earned errors refused_outcome (envelope JForeign) recorded_event (proj2_sig recorded)) as (_ & Hv & _). exact Hv.
Defined.
End SubmissionEventSamples.
