(* ===== verification/Classification.v ===== *)
(** Reviewer classifications of findings in the control plane
    (apps/control-plane/src/index.ts): the rules of a classification record and the review
    event that records it. *)

From Stdlib Require Import String.
From S2P Require Import Prelude Patterns Bytes Json JsonText Regex Schema Registry Values ReviewEventLog EventIdentity ReviewSemantics.

Local Open Scope Z_scope.

Inductive FindingClassificationRejectionReason :=
  | finding_classification_schema_invalid
  | finding_classification_reviewer_actor_required
  | finding_classification_confirmed_criteria_required
  | finding_classification_confirmed_defensible_criteria_required
  | finding_classification_validation_path_required
  | finding_classification_evidence_basis_required
  | finding_classification_evidence_basis_not_bound_to_draft
  | finding_classification_source_reference_state_mismatch
  | finding_classification_limitations_required
  | finding_classification_forbidden_field
  | finding_classification_text_forbidden.
Inductive FindingClassificationEventBuildRejectionReason :=
  | record_rejected (reason : FindingClassificationRejectionReason)
  | classification_event_type_mismatch
  | classification_event_missing_record_ref
  | classification_event_actor_mismatch
  | classification_update_requires_prior_reference
  | classification_event_supersedes_mismatch
  | classification_event_idempotency_key_not_derived
  | classification_event_schema_invalid.
Inductive FindingClassificationEventBuildResult :=
  | classification_built (event : json)
  | classification_rejected (reason : FindingClassificationEventBuildRejectionReason).

Definition CLASSIFICATION_INSUFFICIENT_CONFIRMED_BASIS : list string :=
  ["scanner_output"; "metadata_only"; "deleted_under_policy_reference"; "not_submitted_by_policy_reference"; "never_collected_reference";
   "unresolved_reference"].
Definition CLASSIFICATION_FORBIDDEN_FIELDS : list string :=
  ["remediation_implementation"; "remediation_status"; "customer_owner"; "customer_status"; "accepted_risk_record"; "accepted_risk_rationale";
   "false_positive_rationale"; "attestation_copy"; "scanner_execution"; "scanner_stdout"; "scanner_stderr"; "final_validation_script_body";
   "validation_script_body"].

(** * Draft evidence *)

Definition is_state (state display : string) (ref : json) : bool :=
  (has_string state (prop "availability_state" ref) && has_string display (prop "display_state" ref))%bool.
Definition reviewable (ref : json) : bool := prop "available_for_review" ref === JBool true.
Definition available (ref : json) : bool := (reviewable ref && has_string "available_reference" (prop "display_state" ref))%bool.
Definition CLASSIFICATION_BASIS_DRAFT_EVIDENCE_RULES : list (string * (json → bool)) :=
  [("scanner_output", λ ref, has_string "artifact_ref:scanner_finding_set" (prop "artifact_ref" ref) && is_state "retained_review_artifact" "available_reference" ref && reviewable ref);
   ("metadata_only", λ ref, is_state "not_submitted_by_policy" "not_submitted" ref || is_state "never_collected" "not_collected" ref ||
      (is_state "retained_review_artifact" "available_reference" ref && reviewable ref));
   ("finding_context_snippet", λ ref, available ref && negb (has_string "retained_review_artifact" (prop "source_derived_class" ref)));
   ("extended_approved_source_context", λ ref, available ref && has_string "customer_opt_in_retained_source" (prop "source_derived_class" ref));
   ("retained_review_artifact", λ ref, has_string "retained_review_artifact" (prop "availability_state" ref) && reviewable ref &&
      has_string "retained_review_artifact" (prop "source_derived_class" ref));
   ("deleted_under_policy_reference", λ ref, is_state "deleted_under_policy" "deleted" ref && isNonEmptyString (prop "deletion_evidence_ref" ref));
   ("not_submitted_by_policy_reference", is_state "not_submitted_by_policy" "not_submitted");
   ("never_collected_reference", is_state "never_collected" "not_collected");
   ("unresolved_reference", is_state "unresolved_reference" "unresolved_reference")]%bool.
Definition basis_rule (basis : json) : option (json → bool) :=
  snd <$> List.find (λ rule, has_string rule.1 basis) CLASSIFICATION_BASIS_DRAFT_EVIDENCE_RULES.
Definition classificationEvidenceBasisMatchesDraft (evidenceBasis draftEvidenceRefs : list json) : bool :=
  forallb (λ basis, match basis_rule basis with Some rule => existsb rule draftEvidenceRefs | None => true end) evidenceBasis.
(* What one reference says of itself that it cannot back *)
Definition ref_contradicts (ref : json) : bool :=
  ((negb (has_string "retained_review_artifact" (prop "availability_state" ref)) &&
    (reviewable ref || has_string "available_reference" (prop "display_state" ref))) ||
   (has_string "deleted_under_policy" (prop "availability_state" ref) && negb (isNonEmptyString (prop "deletion_evidence_ref" ref))))%bool.
Fixpoint consistent_from (statesByArtifact : list (jsstr * jsstr)) (refs : list json) : bool :=
  match refs with
  | [] => true
  | ref :: refs' =>
      if ref_contradicts ref then false
      else match prop "artifact_ref" ref, prop "availability_state" ref with
      | JString artifact, JString state =>
          match JsMap.get artifact statesByArtifact with
          | Some existing => if existing === state then consistent_from (JsMap.set artifact state statesByArtifact) refs' else false
          | None => consistent_from (JsMap.set artifact state statesByArtifact) refs'
          end
      | _, _ => consistent_from statesByArtifact refs'
      end
  end.
Definition draftEvidenceRefsAreConsistent (draftEvidenceRefs : list json) : bool := consistent_from [] draftEvidenceRefs.
Definition state_priority : list string :=
  ["unresolved_reference"; "deleted_under_policy"; "not_submitted_by_policy"; "never_collected"; "retained_review_artifact"].
Definition in_state (state : string) (ref : json) : bool := has_string state (prop "availability_state" ref).
Definition classificationSourceReferenceStateMatchesDraft (sourceReferenceState : json) (draftEvidenceRefs : list json) : bool :=
  match List.find (λ state, existsb (in_state state) draftEvidenceRefs) state_priority with
  | Some state => has_string state sourceReferenceState
  | None => false
  end.

(** * The rules of a record *)

Definition array_field (name : string) (v : json) : list json := match prop name v with JArray l => l | _ => [] end.
Definition is_empty (l : list json) : bool := match l with [] => true | _ => false end.
Definition isMeaningfulClassificationText (v : json) : bool :=
  match v with
  | JString s =>
      (Regexp.test_flags Regexp.flags_iu (Regexp.re "[a-z0-9]+") s &&
       (3 <=? length (List.filter (λ word, negb (word === [])) (Regexp.split_u (Regexp.re "\s+") (js_trim s))))%nat &&
       (12 <=? length (js_trim s))%nat)%bool
  | _ => false
  end.
Definition actorsEqual (left right : json) : bool :=
  (isRecord left && isRecord right && (prop "actor_type" left === prop "actor_type" right) && (prop "actor_id" left === prop "actor_id" right))%bool.

Definition draft_refs (record : json) : list json := List.filter isRecord (array_field "review_finding_draft_evidence_refs" record).
Definition not_bound_to_draft (record : json) : bool :=
  (isNonEmptyString (prop "review_finding_draft_ref" record) &&
   (is_empty (draft_refs record) || negb (draftEvidenceRefsAreConsistent (draft_refs record)) ||
    negb (classificationEvidenceBasisMatchesDraft (array_field "evidence_basis" record) (draft_refs record))))%bool.
Definition is_classification (name : string) (record : json) : bool := has_string name (prop "classification" record).
Definition screened_texts (record : json) : list json :=
  ([prop "rationale" record; prop "defensible_confirmation_criteria" record; prop "validation_path_summary" record; prop "validation_path_ref" record] ++
   array_field "confirmation_criteria" record ++ array_field "threshold_gaps" record ++ array_field "limitations" record)%list.

Section classification.
Context `{TextScreens, UnicodeText}.
(* validateProtocolSchema(id, value).length === 0 *)
Variable accepted_by : string → json → bool.

Definition textHasForbiddenClassificationOrSourceCodeContent (v : json) : bool :=
  (textHasForbiddenClassificationContent v || sourceCodeLikeTextReason v)%bool.
Definition record_guards (record : json) : list (bool * FindingClassificationRejectionReason) :=
  let evidenceBasis := array_field "evidence_basis" record in
  let confirmed := is_classification "confirmed" record in
  [(negb (actor_type_is "reviewer" (prop "actor" record)), finding_classification_reviewer_actor_required);
   (is_empty evidenceBasis, finding_classification_evidence_basis_required);
   (not_bound_to_draft record, finding_classification_evidence_basis_not_bound_to_draft);
   ((negb (is_empty (draft_refs record)) &&
     negb (classificationSourceReferenceStateMatchesDraft (prop "source_reference_state" record) (draft_refs record)))%bool,
     finding_classification_source_reference_state_mismatch);
   (is_empty (array_field "limitations" record), finding_classification_limitations_required);
   (existsb (λ field, present (prop field record)) CLASSIFICATION_FORBIDDEN_FIELDS, finding_classification_forbidden_field);
   ((confirmed && forallb (λ criterion, negb (isMeaningfulClassificationText criterion)) (array_field "confirmation_criteria" record))%bool,
     finding_classification_confirmed_criteria_required);
   ((confirmed && existsb (one_of CLASSIFICATION_INSUFFICIENT_CONFIRMED_BASIS) evidenceBasis &&
     negb (isMeaningfulClassificationText (prop "defensible_confirmation_criteria" record)))%bool,
     finding_classification_confirmed_defensible_criteria_required);
   ((is_classification "requires_customer_side_validation" record && negb (isMeaningfulClassificationText (prop "validation_path_summary" record)) &&
     negb (isNonEmptyString (prop "validation_path_ref" record)))%bool, finding_classification_validation_path_required);
   (existsb textHasForbiddenClassificationOrSourceCodeContent (screened_texts record), finding_classification_text_forbidden)].
Definition rejectionForFindingClassificationRecord (record : json) : option FindingClassificationRejectionReason :=
  if negb (isRecord record) then Some finding_classification_schema_invalid else first_reason (record_guards record).

(** * The event *)

(* values.join(", ") *)
Fixpoint join_list (l : list jsstr) : jsstr := match l with [] => [] | [s] => s | s :: l' => s ++ 44 :: 32 :: join_list l' end.
Definition joined_text (v : json) : jsstr := match v with JNull | JForeign => [] | _ => js_string v end.
Definition classificationEventReason (record : json) : jsstr :=
  let prior := match prop "supersedes_classification_record_ref" record with
               | JForeign => js "No prior classification record is superseded."
               | ref => js "Supersedes classification record " ++ js_string ref ++ js "."
               end in
  js "Classification: " ++ js_string (prop "classification" record) ++ js ". Evidence basis: " ++
  join_list (List.map joined_text (array_field "evidence_basis" record)) ++ js ". Rationale: " ++ js_string (prop "rationale" record) ++ 32 :: prior.
Definition classificationRecordArtifactRef (record : json) : throws jsstr :=
  s ← text (prop "classification_record_id" record); Ret (js "artifact_ref:" ++ drop (String.length "classification_record:") s).
Definition classificationEventIdempotencyKey (record : json) : jsstr :=
  js "classification:" ++ js_string (prop "review_id" record) ++ 58 :: js_string (prop "classification_record_id" record).
(* ...(value === undefined ? {} : { [name]: value }) *)
Definition when_defined (name : string) (v : json) : list (string * json) := if present v then [(name, v)] else [].
Definition classification_event (record envelope actor visibility supersedesEventId : json) (artifactRef idempotencyKey : jsstr) : json :=
  jobj ([("protocol_version", prop "protocol_version" record); ("event_id", prop "event_id" envelope); ("review_id", prop "review_id" record);
         ("sequence_number", prop "sequence_number" envelope); ("idempotency_key", JString idempotencyKey); ("event_type", jstr "classification_recorded");
         ("actor", actor); ("event_timestamp", coalesce (prop "event_timestamp" envelope) (prop "classified_at" record));
         ("artifact_refs", JArray [JString artifactRef]); ("visibility", visibility); ("canonicalization", jstr "rfc8785");
         ("identity_hash_algorithm", jstr "sha256"); ("identity_input_excludes", jarr [jstr "event_id"]);
         ("reason", JString (classificationEventReason record))]
        ++ when_defined "supersedes_event_id" supersedesEventId
        ++ when_defined "supersedes_classification_record_ref" (prop "supersedes_classification_record_ref" record)
        ++ when_defined "internal_note" (prop "internal_note" envelope)).
Definition envelope_guards (record envelope actor visibility supersedesEventId artifactRefs : json) (artifactRef idempotencyKey : jsstr)
    : list (bool * FindingClassificationEventBuildRejectionReason) :=
  let superseded := prop "supersedes_event_id" record in
  let supersededRef := prop "supersedes_classification_record_ref" record in
  [(negb match artifactRefs with JArray [ref] => ref === JString artifactRef | _ => false end, classification_event_missing_record_ref);
   (negb (actorsEqual actor (prop "actor" record)), classification_event_actor_mismatch);
   (((present superseded || present supersededRef || present supersedesEventId) && negb (present supersedesEventId) && negb (present supersededRef))%bool,
     classification_update_requires_prior_reference);
   ((present (prop "supersedes_event_id" envelope) && present superseded && negb (prop "supersedes_event_id" envelope === superseded))%bool,
     classification_event_supersedes_mismatch);
   (negb (coalesce (prop "idempotency_key" envelope) (JString idempotencyKey) === JString idempotencyKey), classification_event_idempotency_key_not_derived);
   ((present (prop "reason" envelope) && negb (prop "reason" envelope === JString (classificationEventReason record)))%bool, classification_event_schema_invalid);
   ((has_string "internal_only" (prop "visibility" record) && has_string "customer_facing" visibility)%bool, classification_event_schema_invalid);
   ((present (prop "internal_note" envelope) && negb (has_string "internal_only" visibility))%bool, classification_event_schema_invalid);
   (negb (accepted_by "urn:codeattest:protocol:v0:review-event"
            (classification_event record envelope actor visibility supersedesEventId artifactRef idempotencyKey)), classification_event_schema_invalid)].
Definition buildFindingClassificationEvent (record envelope : json) : throws FindingClassificationEventBuildResult :=
  if (negb (isRecord record) || negb (isRecord envelope))%bool then Ret (classification_rejected (record_rejected finding_classification_schema_invalid))
  else match rejectionForFindingClassificationRecord record with
  | Some reason => Ret (classification_rejected (record_rejected reason))
  | None =>
      if negb (accepted_by "urn:codeattest:protocol:v0:finding-classification-record" record)
      then Ret (classification_rejected (record_rejected finding_classification_schema_invalid))
      else if (present (prop "event_type" envelope) && negb (has_string "classification_recorded" (prop "event_type" envelope)))%bool
      then Ret (classification_rejected classification_event_type_mismatch)
      else
        expectedArtifactRef ← classificationRecordArtifactRef record;
        let artifactRefs := coalesce (prop "artifact_refs" envelope) (JArray [JString expectedArtifactRef]) in
        let actor := coalesce (prop "actor" envelope) (prop "actor" record) in
        let supersedesEventId := coalesce (prop "supersedes_event_id" envelope) (prop "supersedes_event_id" record) in
        let expectedIdempotencyKey := classificationEventIdempotencyKey record in
        let visibility := coalesce (prop "visibility" envelope) (prop "visibility" record) in
        Ret match first_reason (envelope_guards record envelope actor visibility supersedesEventId artifactRefs expectedArtifactRef expectedIdempotencyKey) with
            | Some reason => classification_rejected reason
            | None => classification_built (classification_event record envelope actor visibility supersedesEventId expectedArtifactRef expectedIdempotencyKey)
            end
  end.
End classification.

(** * Draft evidence *)

Definition held (ref : json) (artifact state : jsstr) : Prop := prop "artifact_ref" ref = JString artifact ∧ prop "availability_state" ref = JString state.
(* No reference claims what its state denies, and one artifact has one state *)
Definition coherent (refs : list json) : Prop :=
  (∀ ref, ref ∈ refs → ref_contradicts ref = false) ∧
  ∀ ref ref' artifact state state', ref ∈ refs → ref' ∈ refs → held ref artifact state → held ref' artifact state' → state = state'.

Lemma consistent_step m ref refs : consistent_from m (ref :: refs) = true →
  ref_contradicts ref = false ∧
  ((∃ artifact state, held ref artifact state ∧ (∀ existing, JsMap.get artifact m = Some existing → existing = state) ∧
      consistent_from (JsMap.set artifact state m) refs = true) ∨
   ((∀ artifact state, ¬ held ref artifact state) ∧ consistent_from m refs = true)).
Proof.
  cbn [consistent_from]. destruct (ref_contradicts ref); [done|]. unfold held. intros Hc. split; [done|].
  destruct (prop "artifact_ref" ref) as [| |artifact| | | | |]; try (by right; split; [intros a s [E0 _]|]).
  destruct (prop "availability_state" ref) as [| |state| | | | |]; try (by right; split; [intros a s [_ E0]|]).
  left. exists artifact, state. split; [done|]. destruct (JsMap.get artifact m) as [existing|].
  - case_bool_decide; [|done]. split; [by intros ? [= <-]|done].
  - by split.
Qed.
Lemma consistent_from_sound refs : ∀ m, consistent_from m refs = true → coherent refs ∧
  ∀ ref artifact state existing, ref ∈ refs → held ref artifact state → JsMap.get artifact m = Some existing → existing = state.
Proof.
  induction refs as [|ref refs IH]; intros m Hc.
  { split; [split|]; intros ?; intros; by match goal with H : _ ∈ [] |- _ => apply elem_of_nil in H end. }
  destruct (consistent_step _ _ _ Hc) as (Hr & [(artifact & state & Hh & Hm & Hrest)|[Hno Hrest]]).
  - destruct (IH _ Hrest) as [[Hall Hone] Hset].
    assert (∀ a s s', held ref a s → held ref a s' → s = s') as Hself by (intros a s s' [_ E1] [_ E2]; congruence).
    assert (∀ r a s s', r ∈ refs → held r a s → held ref a s' → s' = s) as Hlater.
    { intros r a s s' Hin Hrh Hrs. destruct Hh as [Ea Es], Hrs as [Ea' Es']. assert (a = artifact ∧ s' = state) as [-> ->] by (split; congruence).
      eapply Hset; [done|done|]. apply JsMap.get_set_eq. }
    split; [split|].
    + intros r [->|Hin]%elem_of_cons; [done|by apply Hall].
    + intros r r' a s s' [->|H1]%elem_of_cons [->|H2]%elem_of_cons K1 K2; [by eapply Hself|exact (Hlater r' a s' s H2 K2 K1)|symmetry; exact (Hlater r a s s' H1 K1 K2)|exact (Hone r r' a s s' H1 H2 K1 K2)].
    + intros r a s existing [->|Hin]%elem_of_cons K1 Hg.
      * destruct Hh as [Ea Es], K1 as [Ea' Es']. assert (a = artifact ∧ s = state) as [-> ->] by (split; congruence). by apply Hm.
      * destruct (decide (a = artifact)) as [->|Hne]; [|eapply Hset; [done|done|by rewrite JsMap.get_set_ne]].
        rewrite (Hm _ Hg). eapply Hset; [done|done|]. apply JsMap.get_set_eq.
  - destruct (IH _ Hrest) as [[Hall Hone] Hset]. split; [split|].
    + intros r [->|Hin]%elem_of_cons; [done|by apply Hall].
    + intros r r' a s s' [->|H1]%elem_of_cons [->|H2]%elem_of_cons K1 K2; [by apply Hno in K1|by apply Hno in K1|by apply Hno in K2|exact (Hone r r' a s s' H1 H2 K1 K2)].
    + intros r a s existing [->|Hin]%elem_of_cons K1 Hg; [by apply Hno in K1|exact (Hset r a s existing Hin K1 Hg)].
Qed.
(* The state a record gives its sources is the worst of its references' states. *)
Definition worst_state (refs : list json) (state : string) : Prop :=
  ∃ better worse, state_priority = (worse ++ state :: better)%list ∧ (∃ ref, ref ∈ refs ∧ in_state state ref = true) ∧
    ∀ earlier ref, earlier ∈ worse → ref ∈ refs → in_state earlier ref = false.
Lemma find_split {A} (p : A → bool) l x : List.find p l = Some x → ∃ l1 l2, l = l1 ++ x :: l2 ∧ p x = true ∧ ∀ y, y ∈ l1 → p y = false.
Proof.
  induction l as [|a l IH]; [done|]. cbn [List.find]. destruct (p a) eqn:Ha.
  - intros [= ->]. exists [], l. split_and!; [done..|]. by intros y Hy%elem_of_nil.
  - intros (l1 & l2 & -> & Hx & Hl)%IH. exists (a :: l1), l2. split_and!; [done..|]. intros y [->|Hy]%elem_of_cons; [done|by apply Hl].
Qed.
Lemma source_state_worst v refs : classificationSourceReferenceStateMatchesDraft v refs = true → ∃ state, v = jstr state ∧ worst_state refs state.
Proof.
  unfold classificationSourceReferenceStateMatchesDraft. destruct (List.find _ state_priority) as [state|] eqn:Hf; [|done]. intros Hv%has_string_true.
  apply find_split in Hf as (worse & better & Hp & Hs & Hw). exists state. split; [done|]. exists better, worse. split; [done|]. split.
  - by apply existsb_elem in Hs.
  - intros earlier ref He Hin. specialize (Hw _ He). by apply (proj1 (existsb_false _ _) Hw).
Qed.

(** * What a recorded classification is *)

Section classification_theorems.
Context `{TextScreens, UnicodeText}.
Variable accepted_by : string → json → bool.

Record classification_sound (record : json) : Prop := {
  sound_basis : array_field "evidence_basis" record ≠ [];
  sound_limitations : array_field "limitations" record ≠ [];
  sound_bound : isNonEmptyString (prop "review_finding_draft_ref" record) = true →
    coherent (draft_refs record) ∧
    ∀ basis rule, basis ∈ array_field "evidence_basis" record → basis_rule basis = Some rule → ∃ ref, ref ∈ draft_refs record ∧ rule ref = true;
  sound_source_state : draft_refs record ≠ [] → ∃ state, prop "source_reference_state" record = jstr state ∧ worst_state (draft_refs record) state;
  sound_confirmed : prop "classification" record = jstr "confirmed" →
    (∃ criterion, criterion ∈ array_field "confirmation_criteria" record ∧ isMeaningfulClassificationText criterion = true) ∧
    ∀ basis, basis ∈ array_field "evidence_basis" record → one_of CLASSIFICATION_INSUFFICIENT_CONFIRMED_BASIS basis = true →
      isMeaningfulClassificationText (prop "defensible_confirmation_criteria" record) = true;
  sound_validation : prop "classification" record = jstr "requires_customer_side_validation" →
    isMeaningfulClassificationText (prop "validation_path_summary" record) = true ∨ isNonEmptyString (prop "validation_path_ref" record) = true;
  sound_no_foreign_fields : ∀ field, field ∈ CLASSIFICATION_FORBIDDEN_FIELDS → prop field record = JForeign;
  sound_words : ∀ text, text ∈ screened_texts record → textHasForbiddenClassificationOrSourceCodeContent text = false
}.
Lemma is_empty_false l : is_empty l = false ↔ l ≠ [].
Proof. by destruct l. Qed.
Lemma not_present v : present v = false → v = JForeign.
Proof. by destruct v. Qed.
Lemma record_accepted record : rejectionForFindingClassificationRecord record = None →
  actor_type_is "reviewer" (prop "actor" record) = true ∧ classification_sound record.
Proof.
  unfold rejectionForFindingClassificationRecord. destruct (isRecord record); [|done]. cbn [negb]. unfold record_guards. cbv zeta.
  rewrite !first_reason_cons_None. intros (Ha%negb_false_iff & Hb & Hd & Hs & Hl & Hf & Hc & Hi & Hv & Ht & _). split; [done|].
  rewrite is_empty_false in Hb. rewrite is_empty_false in Hl. rewrite existsb_false in Hf. rewrite existsb_false in Ht. constructor; try done.
  - intros Hdraft. unfold not_bound_to_draft in Hd. rewrite Hdraft in Hd. cbn [andb] in Hd. rewrite !orb_false_iff, !negb_false_iff in Hd.
    destruct Hd as [[_ Hcon] Hmatch]. split; [by apply consistent_from_sound in Hcon as [? _]|]. intros basis rule Hin Hrule.
    apply (proj1 (forallb_elem _ _) Hmatch) in Hin. rewrite Hrule in Hin. by apply existsb_elem in Hin.
  - intros Hne%is_empty_false. rewrite Hne in Hs. cbn [negb andb] in Hs. by apply source_state_worst, negb_false_iff.
  - intros Hconf. unfold is_classification in Hc, Hi. rewrite Hconf, has_string_jstr in Hc, Hi. cbn [andb] in Hc, Hi. split.
    + destruct (existsb isMeaningfulClassificationText (array_field "confirmation_criteria" record)) eqn:Hex; [by apply existsb_elem in Hex|].
      exfalso. apply not_true_iff_false in Hc. apply Hc, forallb_elem. intros criterion Hin. by rewrite (proj1 (existsb_false _ _) Hex criterion Hin).
    + intros basis Hin Hins. rewrite (proj2 (existsb_elem _ _)) in Hi by eauto. by apply negb_false_iff.
  - intros Hreq. unfold is_classification in Hv. rewrite Hreq, has_string_jstr in Hv. cbn [andb] in Hv. rewrite andb_false_iff, !negb_false_iff in Hv. done.
  - intros field Hin. by apply not_present, Hf.
Qed.
(* The guard asks for what its own condition has already found, so it rejects nothing. *)
Lemma update_guard_idle record envelope : let superseded := prop "supersedes_event_id" record in
  let supersedesEventId := coalesce (prop "supersedes_event_id" envelope) superseded in
  let supersededRef := prop "supersedes_classification_record_ref" record in
  ((present superseded || present supersededRef || present supersedesEventId) && negb (present supersedesEventId) && negb (present supersededRef))%bool = false.
Proof.
  cbv zeta. destruct (prop "supersedes_event_id" envelope), (prop "supersedes_event_id" record), (prop "supersedes_classification_record_ref" record); reflexivity.
Qed.
Lemma first_reason_Some {R} (guards : list (bool * R)) r : first_reason guards = Some r → (true, r) ∈ guards.
Proof. induction guards as [|[[] r'] guards IH]; [done|by intros [= ->]; left|]. intros Hf. right. by apply IH. Qed.
Lemma update_reason_unreachable record envelope :
  buildFindingClassificationEvent accepted_by record envelope ≠ Ret (classification_rejected classification_update_requires_prior_reference).
Proof.
  unfold buildFindingClassificationEvent. destruct (_ || _)%bool; [done|]. destruct (rejectionForFindingClassificationRecord record); [done|].
  destruct (negb _); [done|]. destruct (_ && _)%bool; [done|]. intros (ref & _ & Hb%Ret_inj)%bind_Ret.
  destruct (first_reason _) as [reason|] eqn:Hg; [|done]. assert (reason = classification_update_requires_prior_reference) as -> by congruence.
  apply first_reason_Some in Hg. unfold envelope_guards in Hg. cbv zeta in Hg. rewrite update_guard_idle in Hg.
  repeat (apply elem_of_cons in Hg as [E0|Hg]; [discriminate E0|]). by apply elem_of_nil in Hg.
Qed.
Lemma event_fields record envelope actor visibility supersedesEventId ref key :
  let event := classification_event record envelope actor visibility supersedesEventId ref key in
  prop "event_type" event = jstr "classification_recorded" ∧ prop "artifact_refs" event = JArray [JString ref] ∧ prop "idempotency_key" event = JString key ∧
  prop "review_id" event = prop "review_id" record ∧ prop "actor" event = actor ∧ prop "visibility" event = visibility ∧
  prop "reason" event = JString (classificationEventReason record) ∧ prop "supersedes_event_id" event = supersedesEventId ∧
  prop "internal_note" event = prop "internal_note" envelope.
Proof.
  cbv zeta. unfold classification_event, when_defined. rewrite !prop_field. split_and!; try reflexivity;
    destruct (present supersedesEventId) eqn:E1, (present (prop "supersedes_classification_record_ref" record)) eqn:E2, (present (prop "internal_note" envelope)) eqn:E3;
    try apply not_present in E1; try apply not_present in E3; cbn [app field_of String.eqb Ascii.eqb Bool.eqb]; congruence.
Qed.
Lemma classification_key r c record : prop "review_id" record = jstr ("review:" +:+ r) → prop "classification_record_id" record = jstr ("classification_record:" +:+ c) →
  classificationRecordArtifactRef record = Ret (js ("artifact_ref:" +:+ c)) ∧
  classificationEventIdempotencyKey record = js (join_colon (fill (pair_tokens "classification" "classification_record") [r; c])).
Proof.
  intros Hr Hc. unfold classificationRecordArtifactRef, classificationEventIdempotencyKey. rewrite Hr, Hc. cbn [text jstr js_string mbind throws_bind].
  split; [by rewrite !js_app|]. cbn [fill pair_tokens join_colon]. repeat progress (rewrite ?js_app; cbn [js app String.append]). reflexivity.
Qed.

(** C21. A classification event is built only of a record its reviewer signed and whose rules
    hold: the basis it claims is borne out by the draft's own references, which agree with
    one another, its sources have the worst of their states, a confirmation has meaningful
    criteria, and defensible ones where the evidence falls short, and nothing in it is
    forbidden. The event is by that reviewer, names that record and no other artifact, is
    the one the log's check of references accepts, and shows customers neither an internal
    record nor an internal note. *)
Theorem classification_event_is_earned record envelope event :
  buildFindingClassificationEvent accepted_by record envelope = Ret (classification_built event) →
  classification_sound record ∧ accepted_by "urn:codeattest:protocol:v0:finding-classification-record" record = true ∧
  accepted_by "urn:codeattest:protocol:v0:review-event" event = true ∧
  prop "actor_type" (prop "actor" event) = jstr "reviewer" ∧ prop "actor_id" (prop "actor" event) = prop "actor_id" (prop "actor" record) ∧
  prop "event_type" event = jstr "classification_recorded" ∧ prop "review_id" event = prop "review_id" record ∧
  prop "idempotency_key" event = JString (classificationEventIdempotencyKey record) ∧ prop "reason" event = JString (classificationEventReason record) ∧
  (∀ r c, isSlug r = true → isSlug c = true → prop "review_id" record = jstr ("review:" +:+ r) →
    prop "classification_record_id" record = jstr ("classification_record:" +:+ c) → typedReviewEventArtifactRefsMatch event = true) ∧
  (prop "visibility" record = jstr "internal_only" → prop "visibility" event ≠ jstr "customer_facing") ∧
  (prop "internal_note" event ≠ JForeign → prop "visibility" event = jstr "internal_only").
Proof.
  unfold buildFindingClassificationEvent. destruct (_ || _)%bool; [done|]. destruct (rejectionForFindingClassificationRecord record) eqn:Hrec; [done|].
  apply record_accepted in Hrec as [Hactor Hsound]. destruct (accepted_by _ record) eqn:Hschema; [|done]. cbn [negb].
  destruct (_ && _)%bool; [done|]. intros (ref & Href & Hb%Ret_inj)%bind_Ret. destruct (first_reason _) eqn:Hg in Hb; [done|].
  set (actor := coalesce (prop "actor" envelope) _) in *. set (visibility := coalesce (prop "visibility" envelope) _) in *.
  set (superseded := coalesce (prop "supersedes_event_id" envelope) _) in *.
  assert (event = classification_event record envelope actor visibility superseded ref (classificationEventIdempotencyKey record)) as -> by congruence. clear Hb.
  unfold envelope_guards in Hg. cbv zeta in Hg. rewrite !first_reason_cons_None in Hg.
  destruct Hg as (_ & Ha%negb_false_iff & _ & _ & _ & _ & Hvis & Hnote & Hv%negb_false_iff & _).
  destruct (event_fields record envelope actor visibility superseded ref (classificationEventIdempotencyKey record)) as (Et & Er & Ek & Ei & Eact & Evis & Erea & _ & Enote).
  unfold actorsEqual in Ha. rewrite !andb_true_iff, !bool_decide_eq_true in Ha. destruct Ha as [[_ Hat] Hai].
  unfold actor_type_is in Hactor. apply andb_prop in Hactor as [_ Hrev%bool_decide_eq_true].
  split; [done|]. split; [done|]. split; [done|]. rewrite Eact, Et, Ei, Ek, Erea, Evis, Enote, Hat, Hai. split_and!; try done.
  - intros r c Hr Hc Hrid Hcid. destruct (classification_key r c record Hrid Hcid) as [Eref Ekey]. rewrite Eref in Href. apply Ret_inj in Href as <-.
    unfold typedReviewEventArtifactRefsMatch. rewrite Er, Ek. unfold event_type_is at 1. rewrite Et, json_eq_refl.
    unfold keyed_ref. rewrite Ek, Ei, Hrid, Ekey.
    rewrite (proj2 (exec_key_spec (pair_tokens "classification" "classification_record") _ [r; c] ltac:(done) ltac:(reflexivity))); [|split; [done|by repeat constructor]].
    cbn [default]. change (JString (js ("artifact_ref:" +:+ c))) with (jstr ("artifact_ref:" +:+ c)). by rewrite !json_eq_refl.
  - intros Hint Hcust. by rewrite Hint, Hcust, !has_string_jstr in Hvis.
  - intros Hne. apply andb_false_iff in Hnote as [Hp%not_present|Hi%negb_false_iff%has_string_true]; [by destruct Hne|done].
Qed.
End classification_theorems.

(** * Samples, after protocol/fixtures/v0/valid/finding-classification-record.confirmed-submitted-evidence.json *)

Module ClassificationSamples.
Import SampleText.
Definition schema_accepts (schemaId : string) (v : json) : bool := bool_decide (validateProtocolSchema protocolV0Schemas units_cmp REGISTRY_FUEL schemaId v = Some []).
Definition kept : json := jstr "Kept for the record.".
Definition evidence_ref (artifact state class : string) : json := jobj [("artifact_ref", jstr artifact); ("availability_state", jstr state);
  ("available_for_review", JBool true); ("display_state", jstr "available_reference"); ("source_derived_class", jstr class)].
Definition record_with (basis snippet_state : string) : json := jobj
  [("protocol_version", jstr "codeattest.v0"); ("review_id", jstr "review:synthetic-demo-001");
   ("classification_record_id", jstr "classification_record:synthetic_confirmed_001"); ("review_finding_draft_ref", jstr "review_finding_draft:demo_finding_context");
   ("classification", jstr "confirmed"); ("classified_at", jstr "2026-07-22T00:01:00Z");
   ("actor", jobj [("actor_type", jstr "reviewer"); ("actor_id", jstr "reviewer:synthetic-amelia")]);
   ("evidence_basis", jarr [jstr "finding_context_snippet"; jstr basis]); ("confirmation_criteria", jarr [kept]); ("threshold_gaps", jarr []);
   ("limitations", jarr [kept]); ("rationale", kept); ("source_reference_state", jstr "retained_review_artifact");
   ("source_derived_class", jstr "retained_review_artifact"); ("visibility", jstr "customer_facing");
   ("review_finding_draft_evidence_refs", jarr
      [evidence_ref "artifact_ref:scanner_finding_set" "retained_review_artifact" "retained_review_artifact";
       evidence_ref "artifact_ref:synthetic_raw_snippet" snippet_state "transient_source_derived"])].
Definition sample_record : json := Eval vm_compute in record_with "retained_review_artifact" "retained_review_artifact".
Definition sample_envelope : json := jobj [("event_id", jstr "sha256:0000000000000000000000000000000000000000000000000000000000000000"); ("sequence_number", jnum 3)].
(* Scanner output alone confirms nothing; a deleted snippet is not there to be reviewed. *)
Example undefended_refused : rejectionForFindingClassificationRecord (record_with "scanner_output" "retained_review_artifact") =
  Some finding_classification_confirmed_defensible_criteria_required.
Proof. by vm_compute. Qed.
Example deleted_refused : rejectionForFindingClassificationRecord (record_with "retained_review_artifact" "deleted_under_policy") =
  Some finding_classification_evidence_basis_not_bound_to_draft.
Proof. by vm_compute. Qed.
Definition recorded : { event | buildFindingClassificationEvent schema_accepts sample_record sample_envelope = Ret (classification_built event) }.
Proof. eexists. vm_compute. reflexivity. Defined.
Definition recorded_event : json := Eval vm_compute in proj1_sig recorded.
Lemma classification_event_is_earned_witness : typedReviewEventArtifactRefsMatch recorded_event = true.
Proof.
  destruct (classification_event_is_earned schema_accepts sample_record sample_envelope recorded_event (proj2_sig recorded))
    as (_ & _ & _ & _ & _ & _ & _ & _ & _ & Hm & _).
  apply (Hm "synthetic-demo-001"%string "synthetic_confirmed_001"%string); by vm_compute.
Defined.
End ClassificationSamples.
