(* ===== verification/ReviewLog.v ===== *)
(** The review event log of the control plane (apps/control-plane/src/index.ts): the
    family and supersession rules, appendReviewEvent, the replay of a stored log, and
    the customer-facing history. *)
From S2P Require Import Prelude Patterns Bytes Json JsonText CanonicalJson Schema Registry Values ReviewEventLog Timestamps EventIdentity ReviewSemantics.

Local Open Scope Z_scope.

(** * Versioned families *)

Definition is_scope : json → bool := event_type_is "verification_scope_recorded".
(* (left.version - right.version) || (left.sequence_number - right.sequence_number) *)
Definition by_version {I} (v : I → Z) (identity : json → option I) (l r : json) : Z :=
  let d := from_option v 0 (identity l) - from_option v 0 (identity r) in
  if d =? 0 then seq_cmp l r else d.
Definition same_scope (i : VerificationScopeEventIdentity) (candidate : json) : bool :=
  match verificationScopeIdentityFromEvent candidate with
  | Some c => ((scope_reviewId c === scope_reviewId i) && (verificationPassId c === verificationPassId i))%bool
  | None => false
  end.
Definition latestVerificationScopeEvent (events : list json) (event : json) : option json :=
  i ← verificationScopeIdentityFromEvent event;
  last (sortBy (by_version scopeVersion verificationScopeIdentityFromEvent)
    (List.filter (same_scope i) (List.filter is_scope events))).
Definition verificationScopeCorrectionVersionIsValid (event : json) (superseded activeEvent : option json) : bool :=
  let active := match activeEvent with Some a => Some a | None => superseded end in
  match verificationScopeIdentityFromEvent event, superseded ≫= verificationScopeIdentityFromEvent,
        active ≫= verificationScopeIdentityFromEvent with
  | Some current, Some prior, Some act =>
      ((scope_reviewId current === scope_reviewId prior) && (verificationPassId current === verificationPassId prior)
       && (scope_reviewId current === scope_reviewId act) && (verificationPassId current === verificationPassId act)
       && (scopeVersion prior <? scopeVersion current) && (scopeVersion act <? scopeVersion current))%bool
  | _, _, _ => false
  end.

Definition is_versioned (t : VersionedVerificationEventType) : json → bool := event_type_is (versioned_type_name t).
Definition same_record (t : VersionedVerificationEventType) (i : VersionedVerificationEventIdentity) (candidate : json) : bool :=
  match versionedVerificationIdentityFromEvent candidate t with
  | Some c => ((ver_reviewId c === ver_reviewId i) && (recordId c === recordId i))%bool
  | None => false
  end.
Definition latestVersionedVerificationEvent (events : list json) (event : json) (t : VersionedVerificationEventType) : option json :=
  i ← versionedVerificationIdentityFromEvent event t;
  if jstr (ver_reviewId i) !== prop "review_id" event then None
  else last (sortBy (by_version recordVersion (λ e, versionedVerificationIdentityFromEvent e t))
    (List.filter (same_record t i) (List.filter (is_versioned t) events))).
Definition versionedVerificationCorrectionIsValid (event : json) (superseded activeEvent : option json)
    (t : VersionedVerificationEventType) : bool :=
  match versionedVerificationIdentityFromEvent event t,
        superseded ≫= (λ e, versionedVerificationIdentityFromEvent e t),
        activeEvent ≫= (λ e, versionedVerificationIdentityFromEvent e t) with
  | Some current, Some prior, Some act =>
      ((ver_reviewId current === ver_reviewId prior) && (recordId current === recordId prior)
       && (ver_reviewId current === ver_reviewId act) && (recordId current === recordId act)
       && (recordVersion prior <? recordVersion current) && (recordVersion act <? recordVersion current))%bool
  | _, _, _ => false
  end.

Definition same_family (i : Epic5EventIdentity) (candidate : json) : bool :=
  match epic5EventIdentity candidate with
  | Some c => ((eventType c === eventType i) && (reviewId c === reviewId i) && (familyId c === familyId i))%bool
  | None => false
  end.
Definition epic5_version (e : json) : Z := from_option version 0 (epic5EventIdentity e).
Definition latestEpic5FamilyEvent (events : list json) (i : Epic5EventIdentity) : option json :=
  head (sortBy (λ l r, epic5_version r - epic5_version l) (List.filter (same_family i) events)).

(** * Supersession *)

Definition find_event (events : list json) (id : json) : option json :=
  List.find (λ candidate, prop "event_id" candidate === id) events.
(* None when the fuel runs out; Some None for a link that is no event of the log. *)
Fixpoint chain_walk (fuel : nat) (events visited : list json) (nextId : json) : option (option (list json)) :=
  if (is_undefined nextId || bool_decide (nextId ∈ visited))%bool then Some (Some [])
  else match find_event events nextId with
  | None => Some None
  | Some superseded =>
      match fuel with
      | O => None
      | S fuel' =>
          rest ← chain_walk fuel' events (nextId :: visited) (prop "supersedes_event_id" superseded);
          Some (chain ← rest; Some (superseded :: chain))
      end
  end.
(* The walk adds an id of the log at every step, so its length bounds the steps. *)
Definition supersedesChain (events : list json) (firstSupersededId : json) : option (list json) :=
  default None (chain_walk (length events) events [] firstSupersededId).


Definition superseded_event (events : list json) (event : json) : option json :=
  let id := prop "supersedes_event_id" event in
  if is_undefined id then None else find_event events id.
Definition supersedes_is (event : json) (head : json) : bool := prop "supersedes_event_id" event === prop "event_id" head.

Definition scope_rule (events : list json) (event : json) : list (bool * ReviewEventAppendRejectionReason) :=
  [((is_scope event &&
     match verificationScopeIdentityFromEvent event, latestVerificationScopeEvent events event with
     | None, _ => true
     | Some _, Some active => negb (supersedes_is event active)
     | Some _, None => false
     end)%bool, review_event_verification_scope_version_invalid)].
Definition versioned_rule (t : VersionedVerificationEventType) (family version_ : ReviewEventAppendRejectionReason)
    (events : list json) (event : json) : list (bool * ReviewEventAppendRejectionReason) :=
  [((is_versioned t event && from_option (λ s, negb (is_versioned t s)) false (superseded_event events event))%bool, family);
   ((is_versioned t event &&
     match latestVersionedVerificationEvent events event t with
     | None => (negb (bool_decide (recordVersion <$> versionedVerificationIdentityFromEvent event t = Some 1))
                || negb (is_undefined (prop "supersedes_event_id" event)))
     | Some active => negb (supersedes_is event active)
     end)%bool, version_)].

(* The generated bundle a finalization names, and the finalization an export names. *)
Definition generated_for (i : Epic5EventIdentity) (event candidate : json) : bool :=
  (event_type_is "static_bundle_generated" candidate &&
   match epic5EventIdentity candidate with
   | Some c => ((reviewId c === reviewId i) && (familyId c === familyId i) && (Some (artifactId c) === generatedManifestId i))%bool
   | None => false
   end && seq_before candidate event)%bool.
Definition finalized_for (i : Epic5EventIdentity) (event candidate : json) : bool :=
  (event_type_is "attestation_package_finalized" candidate &&
   match epic5EventIdentity candidate with
   | Some c => ((reviewId c === reviewId i) && (familyId c === familyId i) && (version c =? version i)
                && (finalization_recordId c === finalization_recordId i) && (artifactId c === artifactId i)
                && (generatedManifestId c === generatedManifestId i))%bool
   | None => false
   end && seq_before candidate event)%bool.
Definition missing_or_later (event : json) (prerequisite : option json) : bool :=
  match prerequisite with
  | None => true
  | Some p => earlier (prop "event_timestamp" event) (prop "event_timestamp" p)
  end.
Definition epic5_rule (events : list json) (event : json) : list (bool * ReviewEventAppendRejectionReason) :=
  match epic5EventIdentity event with
  | None => [(is_epic5_type event, review_event_epic5_version_invalid)]
  | Some i =>
      [(from_option (λ s, prop "event_type" s !== prop "event_type" event) false (superseded_event events event),
         review_event_epic5_supersedes_family_mismatch);
       (match latestEpic5FamilyEvent events i with
        | None => (negb (version i =? 1) || negb (is_undefined (prop "supersedes_event_id" event)))%bool
        | Some active => ((version i <=? epic5_version active) || negb (supersedes_is event active))%bool
        end, review_event_epic5_version_invalid);
       ((event_type_is "attestation_package_finalized" event &&
         missing_or_later event (List.find (generated_for i event) events))%bool, review_event_epic5_version_invalid);
       ((event_type_is "attestation_package_exported" event &&
         missing_or_later event (List.find (finalized_for i event) events))%bool, review_event_epic5_version_invalid)]
  end.

Definition customer_event (event : json) : bool :=
  (event_type_is "customer_remediation_recorded" event || event_type_is "customer_accepted_risk_recorded" event
   || isCustomerActor (prop "actor" event))%bool.
Definition chain_has (t : string) (chain : list json) : bool := existsb (event_type_is t) chain.
Definition chain_leaves (t : string) (chain : list json) : bool := existsb (λ e, negb (event_type_is t e)) chain.
Definition expert_record (e : json) : bool :=
  (event_type_is "remediation_guidance_recorded" e || event_type_is "validation_recorded" e || event_type_is "false_positive_recorded" e)%bool.
(* An event of a family supersedes only events of it, and is superseded only by them. *)
Definition family_in (t : string) (event : json) (chain : list json) : bool := (event_type_is t event && chain_leaves t chain)%bool.
Definition family_out (t : string) (event : json) (chain : list json) : bool := (negb (event_type_is t event) && chain_has t chain)%bool.
Definition versioned_chain (t : VersionedVerificationEventType) (family version_ : ReviewEventAppendRejectionReason)
    (events : list json) (event : json) (chain : list json) : list (bool * ReviewEventAppendRejectionReason) :=
  [(family_in (versioned_type_name t) event chain, family); (family_out (versioned_type_name t) event chain, family);
   ((is_versioned t event &&
     negb (versionedVerificationCorrectionIsValid event (head chain) (latestVersionedVerificationEvent events event t) t))%bool, version_)].
Definition chain_guards (events : list json) (event : json) (chain : list json) : list (bool * ReviewEventAppendRejectionReason) :=
  [((customer_event event && chain_has "classification_recorded" chain)%bool, customer_event_cannot_supersede_classification);
   ((customer_event event && existsb expert_record chain)%bool, customer_event_cannot_supersede_expert_record);
   (family_in "verification_scope_recorded" event chain, review_event_verification_scope_supersedes_family_mismatch);
   ((is_scope event && negb (verificationScopeCorrectionVersionIsValid event (head chain) (latestVerificationScopeEvent events event)))%bool,
     review_event_verification_scope_version_invalid);
   (family_out "verification_scope_recorded" event chain, review_event_verification_scope_supersedes_family_mismatch)]
  ++ versioned_chain verification_evidence_recorded review_event_verification_evidence_supersedes_family_mismatch
       review_event_verification_evidence_version_invalid events event chain
  ++ versioned_chain verification_recorded review_event_verification_record_supersedes_family_mismatch
       review_event_verification_record_version_invalid events event chain
  ++ [(family_in "false_positive_recorded" event chain, review_event_outcome_supersedes_family_mismatch);
      (family_out "false_positive_recorded" event chain, review_event_outcome_supersedes_family_mismatch);
      (family_in "customer_accepted_risk_recorded" event chain, review_event_outcome_supersedes_family_mismatch);
      (family_out "customer_accepted_risk_recorded" event chain, review_event_outcome_supersedes_family_mismatch)].
Definition supersedes_rule (events : list json) (event : json) : option ReviewEventAppendRejectionReason :=
  let id := prop "supersedes_event_id" event in
  if is_undefined id then None
  else match supersedesChain events id with
  | None => Some review_event_log_supersedes_unknown_event
  | Some chain => first_reason (chain_guards events event chain)
  end.

(* `artifact_ref:${recordRef.slice("classification_record:".length)}`; only strings and
   arrays have slice. *)
Definition classificationArtifactRefFromRecordRef (recordRef : json) : throws json :=
  match recordRef with
  | JString s => Ret (JString (js "artifact_ref:" ++ drop 22 s))
  | JArray l => Ret (JString (js "artifact_ref:" ++ js_string (JArray (drop 22 l))))
  | _ => Throw "recordRef.slice is not a function"
  end.
Definition refs_include (ref : json) (e : json) : bool :=
  match prop "artifact_refs" e with JArray l => existsb (λ r, r === ref) l | _ => false end.
Definition classification_ref_rule (events : list json) (event : json) : throws (option ReviewEventAppendRejectionReason) :=
  let ref := prop "supersedes_classification_record_ref" event in
  if is_undefined ref then Ret None
  else if is_outcome event then Ret (Some review_event_outcome_supersedes_family_mismatch)
  else if customer_event event then Ret (Some customer_event_cannot_supersede_classification)
  else
    expected ← classificationArtifactRefFromRecordRef ref;
    Ret (if existsb (λ e, event_type_is "classification_recorded" e && refs_include expected e)%bool events then None
         else Some review_event_log_supersedes_unknown_event).

Definition order_guards (events : list json) (event : json) : list (bool * ReviewEventAppendRejectionReason) :=
  [(existsb (λ existing, prop "event_id" existing === prop "event_id" event) events, review_event_log_duplicate_event_id);
   (existsb (λ existing, match seq_of existing, seq_of event with Some a, Some b => b <=? a | _, _ => false end) events,
     review_event_log_sequence_not_monotonic)].
Definition version_guards (events : list json) (event : json) : list (bool * ReviewEventAppendRejectionReason) :=
  order_guards events event ++ scope_rule events event
  ++ versioned_rule verification_evidence_recorded review_event_verification_evidence_supersedes_family_mismatch
       review_event_verification_evidence_version_invalid events event
  ++ versioned_rule verification_recorded review_event_verification_record_supersedes_family_mismatch
       review_event_verification_record_version_invalid events event
  ++ epic5_rule events event.
Definition rejectionForEventVersionAndSupersedesChain (events : list json) (event : json)
    : throws (option ReviewEventAppendRejectionReason) :=
  match first_reason (version_guards events event) with
  | Some r => Ret (Some r)
  | None =>
      match supersedes_rule events event with
      | Some r => Ret (Some r)
      | None => classification_ref_rule events event
      end
  end.

(** ** The walk over a chain of supersessions *)

(** [supersedes_reach events id e]: following [id] and then the supersedes links of the
    events found leads to [e]. *)
Inductive supersedes_reach (events : list json) : json → json → Prop :=
  | reach_here id e : is_undefined id = false → find_event events id = Some e → supersedes_reach events id e
  | reach_next id e e' :
      is_undefined id = false → find_event events id = Some e →
      supersedes_reach events (prop "supersedes_event_id" e) e' → supersedes_reach events id e'.

Lemma find_event_Some events id e : find_event events id = Some e → e ∈ events ∧ prop "event_id" e = id.
Proof. intros [Hin Hp]%find_Some_elem. by bool_simpl. Qed.
Lemma chain_walk_total events fuel : ∀ visited id,
  NoDup visited → (∀ v, v ∈ visited → is_Some (find_event events v)) → (length events ≤ fuel + length visited)%nat →
  is_Some (chain_walk fuel events visited id).
Proof.
  induction fuel as [|fuel IH]; intros visited id Hnd Hv Hle; cbn [chain_walk];
    (destruct (is_undefined id); [by eexists|]); cbn [orb]; (case_bool_decide as Hid; [by eexists|]);
    (destruct (find_event events id) as [s|] eqn:Hs; [|by eexists]).
  - exfalso. assert (id :: visited ⊆+ prop "event_id" <$> events) as Hsub.
    { apply NoDup_submseteq; [by constructor|]. intros v Hin.
      assert (is_Some (find_event events v)) as [x [Hx <-]%find_event_Some].
      { apply elem_of_cons in Hin as [->|Hin]; [by eexists|by apply Hv]. }
      by apply list_elem_of_fmap_2. }
    apply submseteq_length in Hsub. rewrite length_fmap in Hsub. cbn [length] in Hsub. lia.
  - destruct (IH (id :: visited) (prop "supersedes_event_id" s)) as [r ->]; [by constructor| |cbn [length]; lia|by eexists].
    intros v [->|Hin]%elem_of_cons; [by eexists|by apply Hv].
Qed.

(* [next_in l id]: the walk from [id] stops, or goes on inside [l]. *)
Definition next_in (events l : list json) (id : json) : Prop :=
  is_undefined id = true ∨ ∃ e, find_event events id = Some e ∧ e ∈ l.
Lemma chain_walk_closed events fuel : ∀ visited id c acc,
  chain_walk fuel events visited id = Some (Some c) →
  (∀ v, v ∈ visited → ∃ e, find_event events v = Some e ∧ e ∈ acc) →
  (∀ e, e ∈ acc → let nx := prop "supersedes_event_id" e in is_undefined nx = true ∨ nx ∈ visited ∨ nx = id) →
  next_in events (acc ++ c) id ∧ ∀ e, e ∈ acc ++ c → next_in events (acc ++ c) (prop "supersedes_event_id" e).
Proof.
  induction fuel as [|fuel IH]; intros visited id c acc Hw Hv Ha; cbn [chain_walk] in Hw.
  all: destruct (is_undefined id || bool_decide (id ∈ visited))%bool eqn:Hstop.
  1,3: injection Hw as <-; rewrite app_nil_r;
    assert (next_in events acc id) as Hid by
      (apply orb_prop in Hstop as [Hu|Hin%bool_decide_eq_true]; [by left|right; by apply Hv]);
    split; [done|]; intros e He; destruct (Ha e He) as [Hu|[Hin| ->]]; [by left|right; by apply Hv|done].
  { by destruct (find_event events id). }
  destruct (find_event events id) as [s|] eqn:Hs; [|done].
  destruct (chain_walk fuel events (id :: visited) _) as [[c'|]|] eqn:Hw'; [|done..]. injection Hw as <-.
  destruct (IH (id :: visited) _ c' (acc ++ [s]) Hw') as [Hn Hcl].
  { intros v [->|Hin]%elem_of_cons; [exists s; set_solver|]. destruct (Hv v Hin) as (e & He & Hea). exists e. set_solver. }
  { intros e [He| ->%list_elem_of_singleton]%elem_of_app; [|by right; right].
    destruct (Ha e He) as [Hu|[Hin|Heq]]; [by left|right; left; by apply list_elem_of_further|right; left; rewrite Heq; apply list_elem_of_here]. }
  rewrite <- app_assoc in Hn, Hcl. cbn [app] in Hn, Hcl. split; [right; exists s; set_solver|done].
Qed.
Lemma chain_walk_reached events fuel : ∀ visited id c e,
  chain_walk fuel events visited id = Some (Some c) → e ∈ c → supersedes_reach events id e.
Proof.
  induction fuel as [|fuel IH]; intros visited id c e Hw He; cbn [chain_walk] in Hw.
  all: destruct (is_undefined id) eqn:Hu; cbn [orb] in Hw; [injection Hw as <-; set_solver|].
  all: destruct (bool_decide _); [injection Hw as <-; set_solver|].
  { by destruct (find_event events id). }
  destruct (find_event events id) as [s|] eqn:Hs; [|done].
  destruct (chain_walk fuel events (id :: visited) _) as [[c'|]|] eqn:Hw'; [|done..]. injection Hw as <-.
  apply elem_of_cons in He as [->|He]; [by apply reach_here|]. eapply reach_next; [done..|]. by eapply IH.
Qed.

Lemma supersedes_chain_closed events id chain : supersedesChain events id = Some chain →
  ∀ e, e ∈ chain ↔ supersedes_reach events id e.
Proof.
  unfold supersedesChain. destruct (chain_walk (length events) events [] id) as [r|] eqn:Hr; [|done]. simpl. intros ->. intros e. split.
  - by eapply chain_walk_reached.
  - destruct (chain_walk_closed _ _ _ _ _ [] Hr) as [Hid Hcl]; [set_solver..|]. clear Hr. cbn [app] in Hid, Hcl.
    intros Hreach. revert Hid. induction Hreach as [id' x Hu Hf|id' x y Hu Hf _ IH]; intros [Hn|(z & Hz & Hin)]; try congruence.
    apply IH, Hcl. congruence.
Qed.

(** The walk over a chain of supersessions ends within as many steps as the log has
    events, whatever the links, and a chain it returns holds exactly the events the
    links lead to. *)
Theorem supersedes_chain_exact events id :
  is_Some (chain_walk (length events) events [] id) ∧
  ∀ chain, supersedesChain events id = Some chain → ∀ e, e ∈ chain ↔ supersedes_reach events id e.
Proof.
  split; [|apply supersedes_chain_closed].
  destruct (chain_walk_total events (length events) [] id) as [r Hr]; [constructor|set_solver|simpl; lia|]. by eexists.
Qed.

(** * The cap on included validation scripts *)

Inductive ValidationScriptPackage :=
  | included_base_package (includedScriptSlot : Z)
  | additional_script_candidate_pricing_tbd.
Definition isValidationScriptEvent (event : json) : bool :=
  (event_type_is "validation_recorded" event &&
   match prop "idempotency_key" event with JString key => bool_decide (is_Some (strip_units (js "validation_script:") key)) | _ => false end)%bool.
Definition included_reason (slot : Z) : string :=
  "Validation script package status: included_base_package; included script slot: " +:+ string_of_number slot +:+ ".".
Definition validationScriptPackageFromReason (reason : json) : option ValidationScriptPackage :=
  match List.find (λ slot, reason === jstr (included_reason slot)) [1; 2; 3] with
  | Some slot => Some (included_base_package slot)
  | None =>
      if reason === jstr "Validation script package status: additional_script_candidate_pricing_tbd; pricing TBD."
      then Some additional_script_candidate_pricing_tbd else None
  end.
(* The slots of the included packages already in the log; None for a reason of neither form. *)
Fixpoint included_slots (events : list json) : option (list Z) :=
  match events with
  | [] => Some []
  | existing :: events' =>
      if negb (isValidationScriptEvent existing) then included_slots events'
      else match validationScriptPackageFromReason (prop "reason" existing) with
      | None => None
      | Some (included_base_package slot) => slots ← included_slots events'; Some (slot :: slots)
      | Some additional_script_candidate_pricing_tbd => included_slots events'
      end
  end.
Definition rejectionForValidationEventPackageAppend (events : list json) (event : json) : option ReviewEventAppendRejectionReason :=
  if negb (isValidationScriptEvent event) then None
  else match validationScriptPackageFromReason (prop "reason" event) with
  | None => Some review_event_schema_invalid
  | Some additional_script_candidate_pricing_tbd => None
  | Some (included_base_package slot) =>
      match included_slots events with
      | None => Some review_event_schema_invalid
      | Some slots =>
          if ((3 <=? length slots)%nat || bool_decide (slot ∈ slots))%bool
          then Some review_event_validation_script_included_cap_exceeded else None
      end
  end.

(* Every script kept to the cap when it was appended. *)
Definition scripts_within_cap (events : list json) : Prop :=
  ∀ i e, events !! i = Some e → rejectionForValidationEventPackageAppend (take i events) e = None.
Lemma included_slots_app l e : included_slots (l ++ [e]) =
  match included_slots l, included_slots [e] with Some a, Some b => Some (a ++ b) | _, _ => None end.
Proof.
  induction l as [|x l IH]; [cbn [app]; simpl included_slots at 2; by destruct (included_slots [e])|].
  cbn [app included_slots] in *. destruct (isValidationScriptEvent x); cbn [negb]; [|exact IH].
  destruct (validationScriptPackageFromReason (prop "reason" x)) as [[slot|]|]; [|exact IH|done].
  rewrite IH. by destruct (included_slots l), (if negb _ then _ else _).
Qed.
Lemma package_slot reason slot : validationScriptPackageFromReason reason = Some (included_base_package slot) → slot ∈ [1; 2; 3].
Proof.
  unfold validationScriptPackageFromReason. destruct (List.find _ _) as [s|] eqn:Hf; [|by case_bool_decide].
  intros [= <-]. by apply find_Some_elem in Hf as [? _].
Qed.
(** A log within the cap includes at most three validation scripts in the base
    package, in different slots of 1 to 3. *)
Theorem included_scripts_bounded events slots :
  scripts_within_cap events → included_slots events = Some slots →
  NoDup slots ∧ (length slots ≤ 3)%nat ∧ ∀ n, n ∈ slots → 1 ≤ n ≤ 3.
Proof.
  intros Hcap Hslots. assert (NoDup slots ∧ ∀ n, n ∈ slots → n ∈ [1; 2; 3]) as [Hnd Hin].
  { revert slots Hcap Hslots. induction events as [|e events IH] using rev_ind; intros slots Hcap; [intros [= <-]; set_solver by constructor|].
    assert (scripts_within_cap events) as Hcap'.
    { intros i x Hi. specialize (Hcap i x). rewrite lookup_app_l, take_app_le in Hcap by (apply lookup_lt_Some in Hi; lia). by apply Hcap. }
    specialize (Hcap (length events) e). rewrite take_app_length, lookup_app_r, Nat.sub_diag in Hcap by done. specialize (Hcap eq_refl).
    rewrite included_slots_app. destruct (included_slots events) as [before|] eqn:Hb; [|done].
    destruct (IH before Hcap' eq_refl) as [Hnd Hin]. unfold rejectionForValidationEventPackageAppend in Hcap. cbn [included_slots].
    destruct (isValidationScriptEvent e); cbn [negb] in *; [|by rewrite app_nil_r; intros [= <-]].
    destruct (validationScriptPackageFromReason (prop "reason" e)) as [[slot|]|] eqn:Hp; [|by rewrite app_nil_r; intros [= <-]|done].
    rewrite Hb in Hcap. destruct (_ || _)%bool eqn:Hc; [done|]. bool_simpl. cbn [mbind option_bind]. intros [= <-].
    apply package_slot in Hp. split; [|set_solver]. apply NoDup_app. split_and!; [done|set_solver|apply NoDup_singleton]. }
  split_and!; [done| |intros n Hn; specialize (Hin n Hn); set_solver by lia].
  change 3%nat with (length [1; 2; 3]). apply submseteq_length, NoDup_submseteq; [done|exact Hin].
Qed.
(** * The log *)

Inductive append_outcome := appended | idempotent_noop | rejected (reason : ReviewEventAppendRejectionReason).
#[export] Instance append_outcome_eq_dec : EqDecision append_outcome.
Proof. solve_decision. Defined.

Definition log_object (protocol_version review_id : json) (events : list json) : json :=
  JObject [(js "protocol_version", protocol_version); (js "review_id", review_id); (js "events", JArray events)].

Section review_log.
Context `{TextScreens, UnicodeText, Sha256} (canonicalizeJson : json → throws (option jsstr)).
(* validateProtocolSchema(id, value).length === 0 *)
Variable valid : string → json → bool.

(* What both checks of a stored event ask of the event alone. *)
Definition stored_identity_ok (event : json) : bool :=
  match canonicalizeJson (identity_input event) with
  | Ret (Some text) => jstr (sha256ProtocolText text) === prop "event_id" event
  | _ => false
  end.
Definition actor_ok (event : json) : bool :=
  (isRecord (prop "actor" event) && isNonEmptyString (prop "actor_type" (prop "actor" event))
   && isNonEmptyString (prop "actor_id" (prop "actor" event)))%bool.
Record scan := { scan_ids : list json; scan_keys : list json; scan_sequence : Z }.
Fixpoint scan_events (protocolVersion reviewId : json) (st : scan) (events : list json) : bool :=
  match events with
  | [] => true
  | event :: events' =>
      (valid REVIEW_EVENT event && (prop "protocol_version" event === protocolVersion) && (prop "review_id" event === reviewId)
       && is_safe_integer (prop "sequence_number" event)
       && match seq_of event with Some n => scan_sequence st <? n | None => false end
       && negb (bool_decide (prop "event_id" event ∈ scan_ids st))
       && negb (bool_decide (prop "idempotency_key" event ∈ scan_keys st))
       && actor_ok event && typedReviewEventArtifactRefsMatch event
       && bool_decide (rejectionForReviewEventSemantics event = None)
       && stored_identity_ok event
       && (is_undefined (prop "supersedes_event_id" event) || bool_decide (prop "supersedes_event_id" event ∈ scan_ids st))
       && scan_events protocolVersion reviewId
            {| scan_ids := prop "event_id" event :: scan_ids st; scan_keys := prop "idempotency_key" event :: scan_keys st;
               scan_sequence := default 0 (seq_of event) |} events')%bool
  end.
Definition reviewEventLogIsValid (log : json) : option (list json) :=
  match prop "events" log with
  | JArray events =>
      if (isRecord log && (prop "protocol_version" log === jstr "codeattest.v0") && isNonEmptyString (prop "review_id" log)
          && forallb isRecord events
          && scan_events (prop "protocol_version" log) (prop "review_id" log) {| scan_ids := []; scan_keys := []; scan_sequence := -1 |} events)%bool
      then Some events else None
  | _ => None
  end.

Definition appendReviewEvent (logInput eventInput : json) : throws (append_outcome * json) :=
  match cloneJson logInput, cloneJson eventInput with
  | Some log, Some event =>
      match reviewEventLogIsValid log with
      | None => Ret (rejected review_event_schema_invalid, log)
      | Some events =>
          if negb (isRecord event) then Ret (rejected review_event_schema_invalid, log)
          else if prop "protocol_version" event !== prop "protocol_version" log then
            Ret (rejected review_event_log_protocol_version_mismatch, log)
          else if prop "review_id" event !== prop "review_id" log then Ret (rejected review_event_log_review_id_mismatch, log)
          else if (negb (is_safe_integer (prop "sequence_number" event)) || negative (prop "sequence_number" event))%bool then
            Ret (rejected review_event_sequence_number_invalid, log)
          else match List.find (λ existing, prop "idempotency_key" existing === prop "idempotency_key" event) events with
          | Some sameKey =>
              if prop "event_id" sameKey === prop "event_id" event then
                equal ← stableEquals canonicalizeJson sameKey event;
                Ret (if negb equal then (rejected review_event_log_idempotency_key_conflict, log) else (idempotent_noop, log))
              else Ret (rejected review_event_log_idempotency_key_conflict, log)
          | None =>
              structuralRejection ← rejectionForEventVersionAndSupersedesChain events event;
              Ret match structuralRejection with
              | Some r => (rejected r, log)
              | None =>
                  match rejectionForEvent canonicalizeJson event with
                  | Some r => (rejected r, log)
                  | None =>
                      match rejectionForValidationEventPackageAppend events event with
                      | Some r => (rejected r, log)
                      | None =>
                          if negb (valid REVIEW_EVENT event) then (rejected review_event_schema_invalid, log)
                          else (appended, log_object (prop "protocol_version" log) (prop "review_id" log) (events ++ [event]))
                      end
                  end
              end
          end
      end
  | _, _ => Ret (rejected review_event_schema_invalid, logInput)
  end.

(** ** The replay of a stored log *)

(* One turn of the loop: may the candidate extend the events replayed so far? *)
Definition replay_step (protocolVersion reviewId : json) (events : list json) (event : json) : throws bool :=
  if (negb (isRecord event) || negb (valid REVIEW_EVENT event))%bool then Ret false
  else if ((prop "protocol_version" event !== protocolVersion) || (prop "review_id" event !== reviewId)
           || negb (is_safe_integer (prop "sequence_number" event)) || negative (prop "sequence_number" event)
           || existsb (λ existing, prop "idempotency_key" existing === prop "idempotency_key" event) events
           || negb (actor_ok event) || negb (typedReviewEventArtifactRefsMatch event)
           || negb (bool_decide (rejectionForReviewEventSemantics event = None)))%bool then Ret false
  else if negb (stored_identity_ok event) then Ret false
  else
    rejection ← rejectionForEventVersionAndSupersedesChain events event;
    Ret (bool_decide (rejection = None)).
Fixpoint replay (protocolVersion reviewId : json) (replayed events : list json) : throws (option (list json)) :=
  match events with
  | [] => Ret (Some replayed)
  | candidate :: events' =>
      ok ← replay_step protocolVersion reviewId replayed candidate;
      if ok : bool then replay protocolVersion reviewId (replayed ++ [candidate]) events' else Ret None
  end.
Definition storedReviewEventLogIsAppendValid (events : list json) (protocolVersion reviewId : json) : throws (option json) :=
  log ← replay protocolVersion reviewId [] events;
  Ret (option_map (log_object protocolVersion reviewId) log).

(** ** The customer-facing history *)

Definition customer_visible (event : json) : bool :=
  ((prop "visibility" event === jstr "customer_facing") && negb (event_type_is "pilot_metric_recorded" event)
   && negb (event_type_is "pilot_feedback_recorded" event))%bool.
Definition projection_entry (event : json) : json :=
  JObject ([(js "event_id", prop "event_id" event); (js "event_type", prop "event_type" event);
            (js "event_timestamp", prop "event_timestamp" event); (js "actor_category", prop "actor_type" (prop "actor" event));
            (js "artifact_refs", prop "artifact_refs" event); (js "visibility", jstr "customer_facing")]
           ++ (if is_undefined (prop "reason" event) then [] else [(js "reason", prop "reason" event)])).
Definition projection (protocol_version review_id : json) (entries : list json) : json :=
  JObject [(js "protocol_version", protocol_version); (js "review_id", review_id); (js "entries", JArray entries)].
Definition projectCustomerFacingHistory (log : json) : json :=
  match reviewEventLogIsValid log with
  | None => projection (jstr "codeattest.v0") (jstr "review:invalid") []
  | Some events =>
      projection (prop "protocol_version" log) (prop "review_id" log)
        (List.map projection_entry (List.filter customer_visible (sortBy seq_cmp events)))
  end.

(** * Appending is what the replay accepts *)

Lemma rejectionForEvent_None event :
  rejectionForEvent canonicalizeJson event = None ↔ rejectionForReviewEventSemantics event = None ∧ stored_identity_ok event = true.
Proof.
  unfold rejectionForEvent, stored_identity_ok, computeReviewEventId.
  destruct (rejectionForReviewEventSemantics event) as [r|]; [split; [done|by intros [? _]]|].
  destruct (canonicalizeJson (identity_input event)) as [[text|]|e]; cbn [mbind throws_bind]; [|split; [done|by intros [_ ?]]..].
  case_bool_decide; cbn; split; try done; by intros [_ ?].
Qed.
Lemma semantics_stored event : rejectionForReviewEventSemantics event = None →
  actor_ok event = true ∧ typedReviewEventArtifactRefsMatch event = true.
Proof. intros (K1 & K2 & K3 & K4)%semantics_guard. unfold actor_ok. by rewrite K1, K2, K3. Qed.

Lemma find_key_None (f : json → json) k events :
  List.find (λ existing, f existing === k) events = None ↔ existsb (λ existing, f existing === k) events = false.
Proof. by rewrite find_None_forall, existsb_false. Qed.

(* What a turn of the replay that succeeds has checked. *)
Record step_ok (pv rid : json) (events : list json) (event : json) : Prop := {
  step_record : isRecord event = true;
  step_schema : valid REVIEW_EVENT event = true;
  step_protocol : prop "protocol_version" event = pv;
  step_review : prop "review_id" event = rid;
  step_number : is_safe_integer (prop "sequence_number" event) = true;
  step_nonnegative : negative (prop "sequence_number" event) = false;
  step_fresh_key : existsb (λ existing, prop "idempotency_key" existing === prop "idempotency_key" event) events = false;
  step_semantics : rejectionForReviewEventSemantics event = None;
  step_identity : stored_identity_ok event = true;
  step_chain : rejectionForEventVersionAndSupersedesChain events event = Ret None
}.
Lemma replay_step_ok pv rid events event :
  replay_step pv rid events event = Ret true ↔ step_ok pv rid events event.
Proof.
  unfold replay_step. split.
  - destruct (_ || _)%bool eqn:E1; [done|]. destruct (_ || _)%bool eqn:E2 in |- *; [done|].
    destruct (stored_identity_ok event) eqn:E3; [|done]. cbn [negb].
    destruct (rejectionForEventVersionAndSupersedesChain events event) as [r|] eqn:E4; [|done].
    cbn [mbind throws_bind]. intros [= E5%bool_decide_eq_true]. subst r. bool_simpl. by constructor.
  - intros [K1 K2 K3 K4 K5 K6 K7 K8 K9 K10]. rewrite K1, K2. cbn [negb orb].
    destruct (semantics_stored _ K8) as [Ha Ht]. rewrite K3, K4, K5, K6, K7, Ha, Ht, K9, K10.
    by rewrite !bool_decide_true by done.
Qed.
Lemma append_step log events event l : reviewEventLogIsValid log = Some events →
  appendReviewEvent log event = Ret (appended, l) ↔
  step_ok (prop "protocol_version" log) (prop "review_id" log) events event ∧
  rejectionForValidationEventPackageAppend events event = None ∧
  l = log_object (prop "protocol_version" log) (prop "review_id" log) (events ++ [event]).
Proof.
  intros Hlog. unfold appendReviewEvent. cbn [cloneJson]. rewrite Hlog.
  generalize (prop "protocol_version" log) (prop "review_id" log). intros pv rid. split.
  - destruct (isRecord event) eqn:K1; [|done]. cbn [negb].
    destruct (decide (prop "protocol_version" event = pv)) as [K2|]; [|by rewrite bool_decide_false by done].
    destruct (decide (prop "review_id" event = rid)) as [K3|]; [|by rewrite bool_decide_true, bool_decide_false by done].
    rewrite !bool_decide_true by done. cbn [negb].
    destruct (_ || _)%bool eqn:K4; [done|]. bool_simpl.
    destruct (List.find _ events) as [s|] eqn:K5.
    { case_bool_decide; [|done]. destruct (stableEquals _ s event) as [b|]; [|done]. cbn [mbind throws_bind]. by destruct b. }
    destruct (rejectionForEventVersionAndSupersedesChain events event) as [[r|]|] eqn:K6; [done| |done]. cbn [mbind throws_bind].
    destruct (rejectionForEvent canonicalizeJson event) as [r|] eqn:K7; [done|].
    destruct (rejectionForValidationEventPackageAppend events event) as [r|] eqn:K8; [done|].
    destruct (valid REVIEW_EVENT event) eqn:K9; [|done]. intros [= <-]. apply rejectionForEvent_None in K7 as [K7 K10].
    apply find_key_None in K5. split_and!; [by constructor|done..].
  - intros [[K1 K2 K3 K4 K5 K6 K7 K8 K9 K10] [K11 ->]]. rewrite K1, K3, K4, K5, K6.
    rewrite !bool_decide_true by done. cbn [negb orb]. rewrite (proj2 (find_key_None _ _ _) K7), K10. cbn [mbind throws_bind].
    by rewrite (proj2 (rejectionForEvent_None event)), K11, K2.
Qed.

(* Every event could follow the events before it. *)
Definition replayable (pv rid : json) (events : list json) : Prop :=
  ∀ i e, events !! i = Some e → step_ok pv rid (take i events) e.
Lemma replayable_snoc pv rid events e :
  replayable pv rid (events ++ [e]) ↔ replayable pv rid events ∧ step_ok pv rid events e.
Proof.
  split.
  - intros Hr. split.
    + intros i x Hi. specialize (Hr i x). rewrite lookup_app_l in Hr by (by eapply lookup_lt_Some).
      rewrite take_app_le in Hr by (apply lookup_lt_Some in Hi; lia). by apply Hr.
    + specialize (Hr (length events) e). rewrite take_app_length in Hr. apply Hr. by rewrite lookup_app_r, Nat.sub_diag.
  - intros [Hr He] i x [Hi|[Hi Hx]]%lookup_app_Some.
    + rewrite take_app_le by (apply lookup_lt_Some in Hi; lia). by apply Hr.
    + destruct (i - length events)%nat as [|k] eqn:Hk; [|by destruct k]. injection Hx as <-.
      replace i with (length events) by lia. by rewrite take_app_length.
Qed.
Lemma replay_spec pv rid events : ∀ replayed l, replayable pv rid replayed →
  replay pv rid replayed events = Ret (Some l) ↔ l = replayed ++ events ∧ replayable pv rid l.
Proof.
  induction events as [|e events IH]; intros replayed l Hr; cbn [replay].
  { rewrite app_nil_r. split; [by intros [= <-]|by intros [-> _]]. }
  assert (replayed ++ e :: events = (replayed ++ [e]) ++ events) as Happ by (by rewrite <- app_assoc).
  destruct (replay_step pv rid replayed e) as [[]|err] eqn:Hs; cbn [mbind throws_bind].
  - apply replay_step_ok in Hs. rewrite IH by (by apply replayable_snoc). by rewrite Happ.
  - split; [done|]. intros [-> Hl]. specialize (Hl (length replayed) e).
    rewrite lookup_app_r, Nat.sub_diag, take_app_length in Hl by done. apply replay_step_ok in Hl; [|done]. congruence.
  - split; [done|]. intros [-> Hl]. specialize (Hl (length replayed) e).
    rewrite lookup_app_r, Nat.sub_diag, take_app_length in Hl by done. apply replay_step_ok in Hl; [|done]. congruence.
Qed.

(** ** A replayed log passes the check of appendReviewEvent *)

(* A versioned event that names its artifact is bound to its own review. *)
Lemma event_type_unique t t' e : event_type_is t e = true → t ≠ t' → event_type_is t' e = false.
Proof.
  unfold event_type_is. intros Ht%bool_decide_eq_true Hne. apply bool_decide_eq_false. rewrite Ht.
  intros [= Hjs%js_inj]. by apply Hne.
Qed.
Lemma versioned_ref_review e t i : typedReviewEventArtifactRefsMatch e = true → is_versioned t e = true →
  versionedVerificationIdentityFromEvent e t = Some i → jstr (ver_reviewId i) = prop "review_id" e.
Proof.
  intros Hm Ht Hi. unfold is_versioned in Ht.
  assert (∀ t', versioned_type_name t ≠ t' → event_type_is t' e = false) as Hother by (intros t' Hne; by eapply event_type_unique).
  unfold typedReviewEventArtifactRefsMatch in Hm.
  destruct (prop "artifact_refs" e) as [| | | | | |[|r [|]]|]; try done. destruct (prop "idempotency_key" e) as [| |key| | | | |]; try done.
  destruct t; cbn [versioned_type_name] in *; rewrite ?Ht, Hi in Hm; repeat rewrite Hother in Hm by done; by bool_simpl.
Qed.

Lemma chain_order events event : rejectionForEventVersionAndSupersedesChain events event = Ret None →
  first_reason (version_guards events event) = None ∧ supersedes_rule events event = None ∧
  classification_ref_rule events event = Ret None.
Proof.
  unfold rejectionForEventVersionAndSupersedesChain.
  destruct (first_reason _); [done|]. by destruct (supersedes_rule events event).
Qed.
Lemma step_sequence pv rid events event : step_ok pv rid events event →
  ∃ n, seq_of event = Some n ∧ 0 ≤ n ∧ ∀ x m, x ∈ events → seq_of x = Some m → m < n.
Proof.
  intros Hs. pose proof (step_number _ _ _ _ Hs) as Hn. pose proof (step_nonnegative _ _ _ _ Hs) as Hp. unfold seq_of in *.
  destruct (prop "sequence_number" event) as [| | |n| | | |] eqn:En; try done. exists n.
  unfold negative in Hp. apply Z.ltb_ge in Hp. split_and!; [done..|]. intros x m Hx Hm.
  destruct (chain_order _ _ (step_chain _ _ _ _ Hs)) as (Hg & _ & _). unfold version_guards in Hg.
  rewrite !first_reason_app_None in Hg. destruct Hg as (Hg & _). unfold order_guards in Hg.
  rewrite !first_reason_cons_None in Hg. destruct Hg as (_ & Hg & _). apply existsb_false with (x := x) in Hg; [|done].
  unfold seq_of in Hg. rewrite Hm, En in Hg. lia.
Qed.
Lemma step_fresh_id pv rid events event x : step_ok pv rid events event → x ∈ events → prop "event_id" x ≠ prop "event_id" event.
Proof.
  intros Hs Hx. destruct (chain_order _ _ (step_chain _ _ _ _ Hs)) as (Hg & _ & _). unfold version_guards in Hg.
  rewrite !first_reason_app_None in Hg. destruct Hg as (Hg & _). unfold order_guards in Hg.
  rewrite !first_reason_cons_None in Hg. destruct Hg as (Hg & _). apply existsb_false with (x := x) in Hg; [|done]. by bool_simpl.
Qed.
Lemma supersedesChain_found events id chain : is_undefined id = false → supersedesChain events id = Some chain →
  ∃ e rest, find_event events id = Some e ∧ chain = e :: rest.
Proof.
  intros Hu. unfold supersedesChain. destruct (length events) as [|n]; cbn [chain_walk]; rewrite Hu; cbn [orb];
    rewrite bool_decide_false by set_solver; destruct (find_event events id) as [e|]; try done.
  destruct (chain_walk n events _ _) as [[c|]|]; try done. cbn. intros [= <-]. eauto.
Qed.
Lemma step_supersedes pv rid events event : step_ok pv rid events event →
  is_undefined (prop "supersedes_event_id" event) = true ∨
  ∃ chain, supersedesChain events (prop "supersedes_event_id" event) = Some chain ∧
    first_reason (chain_guards events event chain) = None.
Proof.
  intros Hs. destruct (chain_order _ _ (step_chain _ _ _ _ Hs)) as (_ & Hr & _). unfold supersedes_rule in Hr.
  destruct (is_undefined _); [by left|right]. destruct (supersedesChain _ _) as [chain|]; [|done]. by exists chain.
Qed.

Definition scan_covers (st : scan) (events : list json) : Prop :=
  (∀ x, x ∈ scan_ids st ↔ x ∈ prop "event_id" <$> events) ∧
  (∀ x, x ∈ scan_keys st ↔ x ∈ prop "idempotency_key" <$> events) ∧
  (scan_sequence st = -1 ∨ ∃ e, e ∈ events ∧ seq_of e = Some (scan_sequence st)).
Lemma scan_replayable pv rid suffix : ∀ st events, scan_covers st events → replayable pv rid (events ++ suffix) →
  scan_events pv rid st suffix = true.
Proof.
  induction suffix as [|e suffix IH]; intros st events Hc Hr; [done|]. cbn [scan_events].
  assert (step_ok pv rid events e) as Hs.
  { specialize (Hr (length events) e). rewrite lookup_app_r, Nat.sub_diag, take_app_length in Hr by done. by apply Hr. }
  destruct Hc as (Hids & Hkeys & Hseq). destruct (step_sequence _ _ _ _ Hs) as (n & Hn & Hn0 & Hlt).
  destruct (semantics_stored _ (step_semantics _ _ _ _ Hs)) as [Ha Ht].
  assert (scan_sequence st < n) as Hless by (destruct Hseq as [->|(x & Hx & Hsx)]; [lia|by eapply Hlt]).
  assert (prop "event_id" e ∉ scan_ids st) as Hid.
  { rewrite Hids. intros (x & Hex & Hx)%list_elem_of_fmap. by eapply step_fresh_id. }
  assert (prop "idempotency_key" e ∉ scan_keys st) as Hkey.
  { rewrite Hkeys. intros (x & Hex & Hx)%list_elem_of_fmap. pose proof (step_fresh_key _ _ _ _ Hs) as Hf.
    apply existsb_false with (x := x) in Hf; [|done]. by bool_simpl. }
  assert ((is_undefined (prop "supersedes_event_id" e) || bool_decide (prop "supersedes_event_id" e ∈ scan_ids st))%bool = true) as Hsup.
  { destruct (is_undefined (prop "supersedes_event_id" e)) eqn:Hu; [done|]. cbn [orb]. apply bool_decide_eq_true.
    destruct (step_supersedes _ _ _ _ Hs) as [?|(chain & Hch & _)]; [congruence|].
    destruct (supersedesChain_found _ _ _ Hu Hch) as (x & rest & [Hx Hxi]%find_event_Some & _).
    rewrite Hids, <- Hxi. by apply list_elem_of_fmap_2. }
  destruct Hs as [K1 K2 K3 K4 K5 K6 K7 K8 K9 K10]. rewrite K2, K3, K4, K5, Hn, Ha, Ht, K8, K9, Hsup.
  rewrite !bool_decide_true, !bool_decide_false by done. rewrite (proj2 (Z.ltb_lt _ _) Hless). cbn [andb negb].
  apply (IH _ (events ++ [e])); [|by rewrite <- app_assoc]. unfold scan_covers. cbn [scan_ids scan_keys scan_sequence].
  split_and!.
  - intros x. rewrite elem_of_cons, fmap_app, elem_of_app, Hids. cbn. rewrite list_elem_of_singleton. tauto.
  - intros x. rewrite elem_of_cons, fmap_app, elem_of_app, Hkeys. cbn. rewrite list_elem_of_singleton. tauto.
  - right. exists e. split; [set_solver|]. by rewrite Hn.
Qed.
Lemma replayable_valid rid events : isNonEmptyString rid = true → replayable (jstr "codeattest.v0") rid events →
  reviewEventLogIsValid (log_object (jstr "codeattest.v0") rid events) = Some events.
Proof.
  intros Hrid Hr. unfold reviewEventLogIsValid. change (prop "events" _) with (JArray events).
  change (prop "protocol_version" (log_object ?pv rid events)) with pv.
  change (prop "review_id" (log_object _ rid events)) with rid. rewrite Hrid.
  rewrite (scan_replayable _ _ events _ []); [|split_and!; [done..|by left]|done].
  assert (forallb isRecord events = true) as ->.
  { apply forallb_elem. intros x [i Hi]%list_elem_of_lookup. by apply Hr in Hi as []. }
  done.
Qed.

(** ** The two ways to a log *)

(* The events appended one after the other, each of them accepted. *)
Fixpoint append_all (log : json) (events : list json) : throws (option json) :=
  match events with
  | [] => Ret (Some log)
  | event :: events' =>
      r ← appendReviewEvent log event;
      match r.1 with appended => append_all r.2 events' | _ => Ret None end
  end.
Lemma append_all_spec rid suffix : isNonEmptyString rid = true → ∀ events,
  replayable (jstr "codeattest.v0") rid events → scripts_within_cap events →
  append_all (log_object (jstr "codeattest.v0") rid events) suffix =
    Ret (Some (log_object (jstr "codeattest.v0") rid (events ++ suffix))) ↔
  replayable (jstr "codeattest.v0") rid (events ++ suffix) ∧ scripts_within_cap (events ++ suffix).
Proof.
  intros Hrid. induction suffix as [|e suffix IH]; intros events Hr Hc; cbn [append_all].
  { by rewrite app_nil_r. }
  assert (events ++ e :: suffix = (events ++ [e]) ++ suffix) as Happ by (by rewrite <- app_assoc).
  pose proof (replayable_valid rid events Hrid Hr) as Hlog. 
  assert (scripts_within_cap (events ++ [e]) ↔ rejectionForValidationEventPackageAppend events e = None) as Hcap.
  { split.
    - intros Hc'. specialize (Hc' (length events) e). rewrite take_app_length in Hc'. apply Hc'. by rewrite lookup_app_r, Nat.sub_diag.
    - intros He i x [Hi|[Hi Hx]]%lookup_app_Some.
      + rewrite take_app_le by (apply lookup_lt_Some in Hi; lia). by apply Hc.
      + destruct (i - length events)%nat as [|k] eqn:Hk; [|by destruct k]. injection Hx as <-.
        replace i with (length events) by lia. by rewrite take_app_length. }
  assert (replayable (jstr "codeattest.v0") rid (events ++ e :: suffix) ∧ scripts_within_cap (events ++ e :: suffix) →
    appendReviewEvent (log_object (jstr "codeattest.v0") rid events) e =
      Ret (appended, log_object (jstr "codeattest.v0") rid (events ++ [e]))) as Hback.
  { intros [Hra Hca]. apply (append_step _ _ e _ Hlog). specialize (Hra (length events) e). specialize (Hca (length events) e).
    rewrite lookup_app_r, Nat.sub_diag, take_app_length in Hra by done.
    rewrite lookup_app_r, Nat.sub_diag, take_app_length in Hca by done. split_and!; [by apply Hra|by apply Hca|done]. }
  destruct (appendReviewEvent _ e) as [[o l]|err] eqn:Ha; cbn [mbind throws_bind]; [|split; [done|intros Hx; by apply Hback in Hx]].
  destruct o; cbn [fst snd]; [|split; [done|intros Hx; by apply Hback in Hx]..].
  apply (append_step _ _ _ _ Hlog) in Ha as (Hs & Hpkg & ->).
  rewrite Happ. apply IH; [by apply replayable_snoc|by apply Hcap].
Qed.

(** C8. A stored event array passes the replay check exactly when it is the history of
    genuine appends into an empty log, for arrays whose validation scripts keep within
    the included-script cap: the two checks enforce the same family, supersession,
    identity, schema and authority rules. *)
Theorem replay_is_append_history rid events :
  isNonEmptyString rid = true → scripts_within_cap events →
  storedReviewEventLogIsAppendValid events (jstr "codeattest.v0") rid =
    Ret (Some (log_object (jstr "codeattest.v0") rid events)) ↔
  append_all (log_object (jstr "codeattest.v0") rid []) events =
    Ret (Some (log_object (jstr "codeattest.v0") rid events)).
Proof.
  intros Hrid Hcap. assert (replayable (jstr "codeattest.v0") rid []) as Hnil by (by intros i e).
  rewrite (append_all_spec rid events Hrid [] Hnil) by (by intros i e). cbn [app].
  unfold storedReviewEventLogIsAppendValid. pose proof (replay_spec (jstr "codeattest.v0") rid events [] events Hnil) as Hspec.
  split.
  - destruct (replay _ _ [] events) as [[l|]|] eqn:Hl; cbn [mbind throws_bind option_map]; [|done..].
    intros [= <-]. split; [|done]. by apply Hspec.
  - intros [Hr _]. rewrite (proj2 Hspec (conj eq_refl Hr)). done.
Qed.

(** * Authority over expert records *)

Lemma find_event_reach events id e : supersedes_reach events id e → is_undefined id = false.
Proof. by destruct 1. Qed.

(** C7. No accepted event of a customer, and no customer correction, supersedes a
    classification or another expert record: not directly, not through any chain of
    earlier supersessions, and not by a classification record reference. *)
Theorem customer_never_supersedes_expert log event l events :
  reviewEventLogIsValid log = Some events → appendReviewEvent log event = Ret (appended, l) → customer_event event = true →
  prop "supersedes_classification_record_ref" event = JForeign ∧
  ∀ e, supersedes_reach events (prop "supersedes_event_id" event) e →
    event_type_is "classification_recorded" e = false ∧ expert_record e = false.
Proof.
  intros Hlog [Hs _]%(append_step _ _ _ _ Hlog) Hcust. split.
  - destruct (chain_order _ _ (step_chain _ _ _ _ Hs)) as (_ & _ & Href). unfold classification_ref_rule in Href.
    destruct (is_undefined _) eqn:Hu; [by destruct (prop "supersedes_classification_record_ref" event)|].
    destruct (is_outcome event); [done|]. by rewrite Hcust in Href.
  - intros e He. destruct (step_supersedes _ _ _ _ Hs) as [Hu|(chain & Hch & Hg)].
    { pose proof (find_event_reach _ _ _ He). congruence. }
    apply (supersedes_chain_closed _ _ _ Hch) in He. unfold chain_guards in Hg. rewrite !first_reason_app_None, !first_reason_cons_None in Hg.
    destruct Hg as ((Hc & Hx & _) & _). rewrite Hcust in Hc, Hx. cbn [andb] in Hc, Hx.
    split; [by eapply existsb_false in Hc|by eapply existsb_false in Hx].
Qed.

(** * Replaying an append *)

Lemma replayable_find pv rid events event e : replayable pv rid (events ++ [event]) → e = event →
  List.find (λ existing, prop "idempotency_key" existing === prop "idempotency_key" e) (events ++ [event]) = Some event.
Proof.
  intros [_ Hs]%replayable_snoc ->. rewrite find_app, (proj2 (find_key_None _ _ _) (step_fresh_key _ _ _ _ Hs)).
  simpl. by rewrite bool_decide_true.
Qed.
(** C6. For a log that the replay accepts (each of its events could have been appended
    in its turn) and an event for which canonicalizeJson gives a text: appending
    keeps every earlier event in place, and appending the same event again changes
    nothing; the second call is an idempotent no-op on the log the first one
    returned. *)
Theorem append_once rid events event l text :
  isNonEmptyString rid = true → replayable (jstr "codeattest.v0") rid events →
  appendReviewEvent (log_object (jstr "codeattest.v0") rid events) event = Ret (appended, l) →
  canonicalizeJson event = Ret (Some text) →
  l = log_object (jstr "codeattest.v0") rid (events ++ [event]) ∧
  appendReviewEvent l event = Ret (idempotent_noop, l).
Proof.
  intros Hrid Hr Ha Htext. apply (append_step _ _ _ _ (replayable_valid _ _ Hrid Hr)) in Ha as (Hs & _ & ->). split; [done|].
  change (prop "protocol_version" (log_object ?pv rid events)) with pv.
  change (prop "review_id" (log_object _ rid events)) with rid.
  assert (replayable (jstr "codeattest.v0") rid (events ++ [event])) as Hr' by (by apply replayable_snoc).
  unfold appendReviewEvent. cbn [cloneJson]. rewrite (replayable_valid _ _ Hrid Hr').
  change (prop "protocol_version" (log_object ?pv rid (events ++ [event]))) with pv.
  change (prop "review_id" (log_object _ rid (events ++ [event]))) with rid.
  rewrite (replayable_find _ _ _ _ event Hr' eq_refl).
  pose proof (step_protocol _ _ _ _ Hs) as Hpv. pose proof (step_review _ _ _ _ Hs) as Hri.
  change (prop "protocol_version" (log_object ?pv rid events)) with pv in Hpv.
  change (prop "review_id" (log_object _ rid events)) with rid in Hri.
  rewrite (step_record _ _ _ _ Hs), Hpv, Hri, (step_number _ _ _ _ Hs), (step_nonnegative _ _ _ _ Hs).
  rewrite !bool_decide_true by done. cbn [negb orb]. unfold stableEquals. rewrite Htext. cbn [mbind throws_bind].
  by rewrite bool_decide_true.
Qed.

(** * Families of versions *)

Lemma last_max {A} (c : A → A → Z) (l : list A) x m :
  (∀ x y, c x y ≤ 0 ∨ c y x ≤ 0) → (∀ x y z, c x y ≤ 0 → c y z ≤ 0 → c x z ≤ 0) →
  last (sortBy c l) = Some m → x ∈ l → c x m ≤ 0.
Proof.
  intros Htot Htrans Hm Hx. pose proof (sortBy_sorted c Htot Htrans l) as Hs. rewrite <- (elem_of_sortBy c) in Hx.
  revert Hm Hx. induction Hs as [|y l' Hl IH Hy]; [done|]. rewrite last_cons. intros Hm [->|Hx]%elem_of_cons.
  - destruct (last l') as [z|] eqn:Hz; injection Hm as <-.
    + rewrite Forall_forall in Hy. apply Hy. apply last_Some in Hz as [l'' ->]. set_solver.
    + destruct (Htot y y); done.
  - destruct (last l') as [z|] eqn:Hz; injection Hm as <-; [by apply IH|]. apply last_None in Hz. set_solver.
Qed.
Lemma head_max {A} (c : A → A → Z) (l : list A) x m :
  (∀ x y, (c x y ≤ 0) ∨ (c y x ≤ 0)) → (∀ x y z, c x y ≤ 0 → c y z ≤ 0 → c x z ≤ 0) →
  head (sortBy c l) = Some m → x ∈ l → c m x ≤ 0.
Proof.
  intros Htot Htrans Hm Hx. pose proof (sortBy_sorted c Htot Htrans l) as Hs. rewrite <- (elem_of_sortBy c) in Hx.
  destruct Hs as [|y l' Hl Hy]; [done|]. injection Hm as <-. apply elem_of_cons in Hx as [->|Hx].
  - destruct (Htot y y); done.
  - rewrite Forall_forall in Hy. by apply Hy.
Qed.
Lemma sortBy_None {A} (c : A → A → Z) (l : list A) : (head (sortBy c l) = None ∨ last (sortBy c l) = None) → l = [].
Proof.
  intros Hn. assert (sortBy c l = []) as Hs by (destruct Hn as [Hn|Hn]; [by destruct (sortBy c l)|by apply last_None]).
  apply (f_equal length) in Hs. rewrite length_sortBy in Hs. by destruct l.
Qed.

(** C9. In a replayed log, each event of an attestation, bundle, package or pilot family
    has a version above every earlier event of its family; the first has version 1 and
    supersedes nothing, and each later one supersedes an earlier event of the family
    that has the highest version so far. *)
Theorem family_versions_increase pv rid events j e i :
  replayable pv rid events → events !! j = Some e → epic5EventIdentity e = Some i →
  (∀ x, x ∈ take j events → same_family i x = true → (epic5_version x < version i)) ∧
  ((version i = 1 ∧ prop "supersedes_event_id" e = JForeign ∧ (∀ x, x ∈ take j events → same_family i x = false)) ∨
   ∃ h, h ∈ take j events ∧ same_family i h = true ∧ prop "supersedes_event_id" e = prop "event_id" h ∧
     ∀ x, x ∈ take j events → same_family i x = true → epic5_version x ≤ epic5_version h).
Proof.
  intros Hr Hj Hi. pose proof (Hr _ _ Hj) as Hs. destruct (chain_order _ _ (step_chain _ _ _ _ Hs)) as (Hg & _ & _).
  unfold version_guards in Hg. rewrite !first_reason_app_None in Hg. destruct Hg as (_ & _ & _ & _ & Hg).
  unfold epic5_rule in Hg. rewrite Hi, !first_reason_cons_None in Hg. destruct Hg as (_ & Hg & _).
  assert (∀ x, x ∈ take j events ∧ same_family i x = true ↔ x ∈ List.filter (same_family i) (take j events)) as Hin.
  { intros x. rewrite !list_elem_of_In, filter_In. done. }
  destruct (latestEpic5FamilyEvent (take j events) i) as [h|] eqn:Hh.
  - unfold supersedes_is in Hg. bool_simpl. rename select ((_ <=? _) = false) into Hv. apply Z.leb_gt in Hv.
    assert (∀ x, x ∈ take j events → same_family i x = true → epic5_version x ≤ epic5_version h) as Hmax.
    { intros x Hx Hf. pose proof (proj1 (Hin x) (conj Hx Hf)) as Hxf.
      pose proof (head_max (λ l r, epic5_version r - epic5_version l) _ _ _ ltac:(intros; lia) ltac:(intros; lia) Hh Hxf) as Hle.
      cbv beta in Hle. lia. }
    assert (h ∈ List.filter (same_family i) (take j events)) as Hhin.
    { apply (elem_of_sortBy (λ l r, epic5_version r - epic5_version l)). apply list_elem_of_lookup. exists 0%nat.
      by rewrite <- head_lookup. }
    apply Hin in Hhin as [Hh1 Hh2]. split.
    + intros x Hx Hf. specialize (Hmax x Hx Hf). lia.
    + right. by exists h.
  - assert (List.filter (same_family i) (take j events) = []) as Hnil by (eapply sortBy_None; by left).
    bool_simpl. rename select ((_ =? _) = true) into Hv. apply Z.eqb_eq in Hv.
    assert (∀ x, x ∈ take j events → same_family i x = false) as Hnone.
    { intros x Hx. destruct (same_family i x) eqn:Hf; [|done]. pose proof (proj1 (Hin x) (conj Hx Hf)) as Hxf. rewrite Hnil in Hxf. set_solver. }
    split.
    + intros x Hx Hf. rewrite Hnone in Hf by done. done.
    + left. split_and!; [done| |done]. by destruct (prop "supersedes_event_id" e).
Qed.

(** ** Verification evidence and decisions *)

Lemma step_numbered pv rid events event : step_ok pv rid events event → numbered event.
Proof.
  intros Hs. pose proof (step_number _ _ _ _ Hs) as Hn. unfold numbered, seq_number. by destruct (prop "sequence_number" event).
Qed.
Lemma replayable_in pv rid events x : replayable pv rid events → x ∈ events → ∃ before, step_ok pv rid before x.
Proof. intros Hr [k Hk]%list_elem_of_lookup. eauto. Qed.
Lemma replayable_take pv rid events j : replayable pv rid events → replayable pv rid (take j events).
Proof.
  intros Hr i e [Hi Hlt]%lookup_take_Some. rewrite take_take, Nat.min_l by lia. by apply Hr.
Qed.
(* On numbered events the comparator is a total preorder whose first key is the version. *)
Definition version_key {I} (v : I → Z) (identity : json → option I) (e : json) : Z := from_option v 0 (identity e).
Definition version_order {I} (v : I → Z) (identity : json → option I) (l r : json) : Z :=
  let d := version_key v identity l - version_key v identity r in if d =? 0 then seq_number l - seq_number r else d.
Lemma latest_max {I} (v : I → Z) (identity : json → option I) (l : list json) x m : Forall numbered l →
  last (sortBy (by_version v identity) l) = Some m → x ∈ l → version_key v identity x ≤ version_key v identity m.
Proof.
  intros Hn Hm Hx. rewrite Forall_forall in Hn. rewrite (sortBy_ext _ (version_order v identity)) in Hm.
  - assert (∀ a b, (version_order v identity a b ≤ 0) ∨ (version_order v identity b a ≤ 0)) as Htot.
    { intros a b. unfold version_order. destruct (Z.eqb_spec (version_key v identity a - version_key v identity b) 0),
        (Z.eqb_spec (version_key v identity b - version_key v identity a) 0); lia. }
    assert (∀ a b c, version_order v identity a b ≤ 0 → version_order v identity b c ≤ 0 → version_order v identity a c ≤ 0) as Htr.
    { intros a b c. unfold version_order. repeat match goal with |- context [Z.eqb ?p 0] => destruct (Z.eqb_spec p 0) end; lia. }
    pose proof (last_max _ _ _ _ Htot Htr Hm Hx) as Hle. unfold version_order in Hle.
    destruct (Z.eqb_spec (version_key v identity x - version_key v identity m) 0); lia.
  - intros a b Ha%Hn Hb%Hn. unfold by_version, version_order, version_key, seq_cmp. by rewrite Ha, Hb.
Qed.
Lemma latest_versioned events event t i act :
  versionedVerificationIdentityFromEvent event t = Some i → latestVersionedVerificationEvent events event t = Some act →
  last (sortBy (by_version recordVersion (λ e, versionedVerificationIdentityFromEvent e t))
    (List.filter (same_record t i) (List.filter (is_versioned t) events))) = Some act ∧ act ∈ events.
Proof.
  intros Hi Hact. unfold latestVersionedVerificationEvent in Hact. rewrite Hi in Hact. cbn [mbind option_bind] in Hact.
  destruct (_ !== _); [done|]. split; [done|]. apply last_Some in Hact as [l' Hl].
  assert (act ∈ l' ++ [act]) as Hin by set_solver. rewrite <- Hl, elem_of_sortBy in Hin.
  by rewrite list_elem_of_In, !filter_In, <- list_elem_of_In in Hin; destruct Hin as [[? _] _].
Qed.
Lemma event_id_text pv rid events x : step_ok pv rid events x → is_undefined (prop "event_id" x) = false.
Proof.
  intros Hs. pose proof (step_identity _ _ _ _ Hs) as Hid. unfold stored_identity_ok in Hid.
  destruct (canonicalizeJson _) as [[text|]|]; [|done..]. apply bool_decide_eq_true in Hid. by rewrite <- Hid.
Qed.
(* The rules of one versioned family, from the two lists that hold them. *)
Lemma versioned_step pv rid events e t : step_ok pv rid events e → is_versioned t e = true →
  match latestVersionedVerificationEvent events e t with
  | None => recordVersion <$> versionedVerificationIdentityFromEvent e t = Some 1
  | Some act => prop "supersedes_event_id" e = prop "event_id" act ∧
      ∀ chain, first_reason (chain_guards events e chain) = None →
        versionedVerificationCorrectionIsValid e (head chain) (Some act) t = true
  end.
Proof.
  intros Hs Ht. destruct (chain_order _ _ (step_chain _ _ _ _ Hs)) as (Hg & _ & _). unfold version_guards in Hg.
  rewrite !first_reason_app_None in Hg. destruct Hg as (_ & _ & Hev & Hrec & _).
  assert (∃ f v, first_reason (versioned_rule t f v events e) = None) as (f & v & Hg) by (destruct t; eauto).
  unfold versioned_rule in Hg. rewrite !first_reason_cons_None, Ht in Hg. destruct Hg as (_ & Hg & _). cbn [andb] in Hg.
  destruct (latestVersionedVerificationEvent events e t) as [act|] eqn:Hact; [|by bool_simpl].
  unfold supersedes_is in Hg. bool_simpl. split; [done|]. intros chain Hcg. unfold chain_guards in Hcg.
  rewrite !first_reason_app_None in Hcg. destruct Hcg as (_ & Hcev & Hcrec & _).
  assert (∃ f v, first_reason (versioned_chain t f v events e chain) = None) as (f' & v' & Hc) by (destruct t; eauto).
  unfold versioned_chain in Hc. rewrite !first_reason_cons_None, Ht, Hact in Hc. destruct Hc as (_ & _ & Hc & _). cbn [andb] in Hc. by bool_simpl.
Qed.

(** In a replayed log, each verification evidence or decision event has a record
    version above every earlier one of the same record, and the first has version 1. *)
Theorem record_versions_increase pv rid events j e t i :
  replayable pv rid events → events !! j = Some e → is_versioned t e = true →
  versionedVerificationIdentityFromEvent e t = Some i →
  (∀ x c, x ∈ take j events → is_versioned t x = true → versionedVerificationIdentityFromEvent x t = Some c →
    ver_reviewId c = ver_reviewId i → recordId c = recordId i → recordVersion c < recordVersion i) ∧
  (recordVersion i = 1 ∨ ∃ h, h ∈ take j events ∧ prop "supersedes_event_id" e = prop "event_id" h).
Proof.
  intros Hr Hj Ht Hi. pose proof (Hr _ _ Hj) as Hs. pose proof (versioned_step _ _ _ _ _ Hs Ht) as Hg.
  assert (∀ x c, x ∈ take j events → is_versioned t x = true → versionedVerificationIdentityFromEvent x t = Some c →
    ver_reviewId c = ver_reviewId i → recordId c = recordId i →
    x ∈ List.filter (same_record t i) (List.filter (is_versioned t) (take j events))) as Hfil.
  { intros x c Hx Hxt Hc Erid Erec. rewrite list_elem_of_In, !filter_In, <- list_elem_of_In. split_and!; [done..|].
    unfold same_record. by rewrite Hc, !bool_decide_true. }
  assert (Forall numbered (List.filter (same_record t i) (List.filter (is_versioned t) (take j events)))) as Hnum.
  { apply Forall_forall. intros x. rewrite list_elem_of_In, !filter_In, <- list_elem_of_In. intros [[Hx _] _].
    destruct (replayable_in _ _ _ x (replayable_take _ _ _ j Hr) Hx) as [b Hb]. by eapply step_numbered. }
  destruct (latestVersionedVerificationEvent (take j events) e t) as [act|] eqn:Hact.
  - destruct Hg as [Hsup Hg]. destruct (latest_versioned _ _ _ _ _ Hi Hact) as [Hlast Hin]. split; [|right; by exists act].
    destruct (replayable_in _ _ _ act (replayable_take _ _ _ j Hr) Hin) as [b Hb].
    destruct (step_supersedes _ _ _ _ Hs) as [Hu|(chain & _ & Hcg)].
    { pose proof (event_id_text _ _ _ _ Hb). congruence. }
    specialize (Hg chain Hcg). unfold versionedVerificationCorrectionIsValid in Hg. rewrite Hi in Hg. cbn [mbind option_bind] in Hg.
    destruct (head chain ≫= _) as [prior|]; [|done].
    destruct (versionedVerificationIdentityFromEvent act t) as [ai|] eqn:Hai; [|done]. bool_simpl.
    rename select ((recordVersion ai <? _) = true) into Hlt. apply Z.ltb_lt in Hlt.
    intros x c Hx Hxt Hc Erid Erec. pose proof (latest_max _ _ _ _ _ Hnum Hlast (Hfil x c Hx Hxt Hc Erid Erec)) as Hle.
    unfold version_key in Hle. rewrite Hc, Hai in Hle. simpl in Hle. lia.
  - rewrite Hi in Hg. injection Hg as Hv. split; [|by left]. intros x c Hx Hxt Hc Erid Erec. exfalso.
    destruct (semantics_stored _ (step_semantics _ _ _ _ Hs)) as [_ Href].
    pose proof (Hfil x c Hx Hxt Hc Erid Erec) as Hin. unfold latestVersionedVerificationEvent in Hact. rewrite Hi in Hact.
    cbn [mbind option_bind] in Hact. case_bool_decide as Hrid; cbn [negb] in Hact.
    + rewrite (sortBy_None _ _ (or_intror Hact)) in Hin. set_solver.
    + apply Hrid. by eapply versioned_ref_review.
Qed.

(** * What a log holds *)

Lemma scan_in pv rid events : ∀ st e, scan_events pv rid st events = true → e ∈ events →
  valid REVIEW_EVENT e = true ∧ rejectionForReviewEventSemantics e = None.
Proof.
  induction events as [|x events IH]; intros st e Hs He; [set_solver|]. cbn [scan_events] in Hs. bool_simpl.
  apply elem_of_cons in He as [->|He]; [done|by eapply IH].
Qed.
(** An entry of the customer-facing history comes from a customer-facing event of a
    valid log that is no pilot record; it holds no internal note, and its reason, when
    the event gives one, passes the source-text, claim and customer-prose screens. *)
Theorem customer_history_screened log entries entry :
  prop "entries" (projectCustomerFacingHistory log) = JArray entries → entry ∈ entries →
  ∃ e events, reviewEventLogIsValid log = Some events ∧ e ∈ events ∧ entry = projection_entry e ∧
    prop "visibility" e = jstr "customer_facing" ∧ is_pilot e = false ∧ prop "internal_note" entry = JForeign ∧
    (prop "reason" entry = JForeign ∨
     sourceTextForbiddenPhrase (prop "reason" entry) = false ∧ sourceCodeLikeTextReason (prop "reason" entry) = false ∧
     claimSafeForbiddenPhrase (prop "reason" entry) = false ∧ customerProseForbidden (prop "reason" entry) = false).
Proof.
  unfold projectCustomerFacingHistory. destruct (reviewEventLogIsValid log) as [events|] eqn:Hlog; intros [= <-]; [|set_solver].
  intros Hin. apply list_elem_of_In, in_map_iff in Hin as (e & <- & Hin). rewrite filter_In, <- list_elem_of_In, elem_of_sortBy in Hin.
  destruct Hin as [Hin Hvis]. exists e, events. unfold customer_visible in Hvis. bool_simpl.
  assert (rejectionForReviewEventSemantics e = None) as Hsem.
  { unfold reviewEventLogIsValid in Hlog. destruct (prop "events" log); try done.
    destruct (_ && _)%bool eqn:Hb in Hlog; [|done]. injection Hlog as ->. bool_simpl. by eapply scan_in. }
  split_and!; try done.
  - unfold is_pilot. rename select (event_type_is "pilot_metric_recorded" e = false) into Hm.
    rename select (event_type_is "pilot_feedback_recorded" e = false) into Hf. by rewrite Hm, Hf.
  - unfold projection_entry. by destruct (is_undefined (prop "reason" e)).
  - assert (prop "reason" (projection_entry e) = prop "reason" e) as ->.
    { unfold projection_entry. destruct (is_undefined (prop "reason" e)) eqn:Hu; [|done]. by destruct (prop "reason" e). }
    destruct (is_undefined (prop "reason" e)) eqn:Hu; [left; by destruct (prop "reason" e)|right].
    unfold rejectionForReviewEventSemantics in Hsem. rewrite !first_reason_app_None in Hsem. destruct Hsem as (_ & Hsem & _).
    unfold reason_guards, present in Hsem. rewrite !first_reason_cons_None, Hu in Hsem. destruct Hsem as (Hsrc & Hclaim & _).
    cbn [negb andb] in *. rename select (prop "visibility" e = _) into Hv. rewrite (bool_decide_true _ Hv) in Hclaim.
    bool_simpl. done.
Qed.
End review_log.

(** * Concrete logs *)

Module ReviewLogSamples.
Import SampleHash SchemaSamples EventLogSamples SampleText.

Definition canonicalize (v : json) : throws (option jsstr) := s ← canonicalizeProtocolJson v; Ret (Some s).
Definition codeattest : json := jstr "codeattest.v0".
Definition append := appendReviewEvent canonicalize valid.
Definition empty_log : json := Eval vm_compute in log_object codeattest review_id [].

(* An event with its content identity. *)
Definition sealed_event (fs : list (string * json)) : json :=
  match recomputeExcludedFieldsIdentity (jobj (("event_id", JNull) :: fs)) [js "event_id"] None with
  | Ret (Some id) => jobj (("event_id", jstr id) :: fs)
  | _ => JNull
  end.
Definition typed_event (sequence : Z) (type key ref : string) (actor : string) (more : list (string * json)) : json :=
  sealed_event ([("protocol_version", codeattest); ("review_id", review_id); ("sequence_number", jnum sequence);
    ("idempotency_key", jstr key); ("event_type", jstr type);
    ("actor", jobj [("actor_type", jstr actor); ("actor_id", jstr "someone")]);
    ("event_timestamp", jstr "2026-01-01T00:00:00Z"); ("artifact_refs", jarr [jstr ref]);
    ("visibility", jstr "customer_facing"); ("canonicalization", jstr "rfc8785"); ("identity_hash_algorithm", jstr "sha256");
    ("identity_input_excludes", jarr [jstr "event_id"])] ++ more).
Definition script (sequence : Z) (name : string) : json :=
  typed_event sequence "validation_recorded" ("validation_script:review:aaa:validation_script:" +:+ name) ("artifact_ref:" +:+ name)
    "reviewer" [("reason", jstr (included_reason 1))].
Definition event_id (e : json) : json := prop "event_id" e.
Definition customer_one : json := Eval vm_compute in
  typed_event 1 "customer_remediation_recorded" "customer_remediation:review:aaa:customer_status:one" "artifact_ref:one" "customer_user" [].
Definition customer_two : json := Eval vm_compute in
  typed_event 2 "customer_remediation_recorded" "customer_remediation:review:aaa:customer_status:two" "artifact_ref:two" "customer_user"
    [("supersedes_event_id", event_id customer_one)].
(* 64 hexadecimal digits *)
Definition hex_a : string := Eval vm_compute in String.concat "" (replicate 64 "a").
Definition attestation (sequence v : Z) (more : list (string * json)) : json :=
  typed_event sequence "attestation_generated"
    ("attestation:review:aaa:attestation:" +:+ hex_a +:+ ":attestation_version:" +:+ string_of_number v) ("artifact_ref:" +:+ hex_a)
    "vendor_service" more.
Definition attestation_one : json := Eval vm_compute in attestation 3 1 [].
Definition attestation_two : json := Eval vm_compute in attestation 4 2 [("supersedes_event_id", event_id attestation_one)].
Definition evidence (sequence v : Z) (more : list (string * json)) : json :=
  typed_event sequence "verification_evidence_recorded"
    ("verification_evidence:review:aaa:verification_evidence:rec:record_version:" +:+ string_of_number v) "artifact_ref:rec"
    "customer_user" more.
Definition evidence_one : json := Eval vm_compute in evidence 5 1 [].
Definition evidence_two : json := Eval vm_compute in evidence 6 2 [("supersedes_event_id", event_id evidence_one)].
Definition history : list json := Eval vm_compute in
  [customer_one; customer_two; attestation_one; attestation_two; evidence_one; evidence_two].
Definition log_of : list json → json := log_object codeattest review_id.
Definition bundle_generated : json := Eval vm_compute in
  typed_event 1 "static_bundle_generated" ("static_bundle:review:aaa:static_bundle:one:manifest_version:1:manifest_id:" +:+ hex_a) ("sha256:" +:+ hex_a)
   "vendor_service" [].
Definition timed_event (sequence : Z) (type key ref actor time : string) : json :=
  sealed_event [("protocol_version", codeattest); ("review_id", review_id); ("sequence_number", jnum sequence);
    ("idempotency_key", jstr key); ("event_type", jstr type);
    ("actor", jobj [("actor_type", jstr actor); ("actor_id", jstr "someone")]);
    ("event_timestamp", jstr time); ("artifact_refs", jarr [jstr ref]);
    ("visibility", jstr "customer_facing"); ("canonicalization", jstr "rfc8785"); ("identity_hash_algorithm", jstr "sha256");
    ("identity_input_excludes", jarr [jstr "event_id"])].
Definition finalized (time : string) : json :=
  timed_event 2 "attestation_package_finalized" ("attestation_package_finalized:review:aaa:static_bundle:one:finalization_version:1:record_id:" +:+ hex_a
    +:+ ":generated_manifest_id:" +:+ hex_a +:+ ":manifest_id:" +:+ hex_a) ("sha256:" +:+ hex_a) "customer_user" time.
Definition outcome_of (r : throws (append_outcome * json)) : option append_outcome := match r with Ret (o, _) => Some o | Throw _ => None end.

Definition one_script : json := Eval vm_compute in script 1 "one".
Definition second_script : json := Eval vm_compute in script 2 "two".
Definition one_script_log : json := Eval vm_compute in log_of [one_script].
Definition two_scripts_log : json := Eval vm_compute in log_of [one_script; second_script].
(** A stored array of two scripts in the same included slot passes the replay, which
    promises a history of genuine appends, although appendReviewEvent refuses the
    second script: the replay never checks the cap. *)
Theorem replay_ignores_script_cap :
  storedReviewEventLogIsAppendValid canonicalize valid [one_script; second_script] codeattest review_id =
    Ret (Some two_scripts_log) ∧
  append one_script_log second_script =
    Ret (rejected review_event_validation_script_included_cap_exceeded, one_script_log).
Proof. by vm_compute. Qed.
(** A candidate whose supersedes_classification_record_ref is a number makes the append
    throw instead of rejecting it. *)
Theorem numeric_record_ref_throws :
  append empty_log (typed_event 1 "receipt_issued" "key" "artifact_ref:abc" "vendor_service"
    [("supersedes_classification_record_ref", jnum 5)]) = Throw "recordRef.slice is not a function".
Proof. by vm_compute. Qed.
(** A finalization may not precede the bundle it finalizes, but a timestamp in a leap
    second has no instant, and the comparison lets it through. *)
Theorem leap_second_skips_chronology :
  outcome_of (append (log_of [bundle_generated]) (finalized "2016-12-31T23:59:59Z")) = Some (rejected review_event_epic5_version_invalid) ∧
  outcome_of (append (log_of [bundle_generated]) (finalized "2016-12-31T23:59:60Z")) = Some appended.
Proof. by vm_compute. Qed.

Lemma history_replayed : replay canonicalize valid codeattest review_id [] history = Ret (Some history).
Proof. by vm_compute. Qed.
Lemma history_replayable : replayable canonicalize valid codeattest review_id history.
Proof. by apply (replay_spec canonicalize valid codeattest review_id history []); [intros i e|apply history_replayed]. Qed.
Lemma history_within_cap : scripts_within_cap history.
Proof. intros i e. do 6 (destruct i as [|i]; [intros [= <-]; by vm_compute|]). done. Qed.

Lemma replay_is_append_history_witness :
  append_all canonicalize valid empty_log history = Ret (Some (log_of history)).
Proof.
  refine (proj1 (replay_is_append_history canonicalize valid review_id history _ history_within_cap) _); [by vm_compute|].
  unfold storedReviewEventLogIsAppendValid. change (jstr "codeattest.v0") with codeattest. rewrite history_replayed. reflexivity.
Defined.
Lemma customer_never_supersedes_expert_witness : expert_record customer_one = false.
Proof.
  refine (proj2 (proj2 (customer_never_supersedes_expert canonicalize valid (log_of [customer_one]) customer_two
    (log_of [customer_one; customer_two]) [customer_one] _ _ _) customer_one _)); [by vm_compute..|].
  apply reach_here; by vm_compute.
Defined.
Lemma append_once_witness :
  append (log_of [customer_one; customer_two]) customer_two = Ret (idempotent_noop, log_of [customer_one; customer_two]).
Proof.
  refine (proj2 (append_once canonicalize valid review_id [customer_one] customer_two (log_of [customer_one; customer_two])
    (match canonicalizeProtocolJson customer_two with Ret t => t | Throw _ => [] end) _ _ _ _)); [by vm_compute| |by vm_compute..].
  apply (replay_spec canonicalize valid codeattest review_id [customer_one] []); [by intros i e|by vm_compute].
Defined.
Lemma family_versions_increase_witness : epic5_version attestation_one < 2.
Proof.
  destruct (epic5EventIdentity attestation_two) as [i|] eqn:Hi; [|by vm_compute in Hi].
  assert (version i = 2) as <- by (vm_compute in Hi; by injection Hi as <-).
  refine (proj1 (family_versions_increase canonicalize valid codeattest review_id history 3 attestation_two i history_replayable _ Hi)
    attestation_one _ _); [by vm_compute| |vm_compute in Hi; injection Hi as <-; by vm_compute].
  apply list_elem_of_lookup. exists 2%nat. by vm_compute.
Defined.
Lemma record_versions_increase_witness : 1 < 2.
Proof.
  destruct (record_versions_increase canonicalize valid codeattest review_id history 5 evidence_two verification_evidence_recorded
    {| ver_reviewId := "review:aaa"; recordId := "rec"; recordVersion := 2 |} history_replayable) as [Hv _]; [by vm_compute..|].
  apply (Hv evidence_one {| ver_reviewId := "review:aaa"; recordId := "rec"; recordVersion := 1 |}); [|by vm_compute..].
  apply list_elem_of_lookup. exists 4%nat. by vm_compute.
Defined.
Lemma included_scripts_bounded_witness : NoDup [1] ∧ (length [1] ≤ 3)%nat ∧ ∀ n, n ∈ [1] → 1 ≤ n ≤ 3.
Proof.
  apply (included_scripts_bounded [one_script]); [|by vm_compute].
  intros i e. destruct i as [|i]; [intros [= <-]; by vm_compute|done].
Defined.
Lemma customer_history_screened_witness : ∃ e events,
  reviewEventLogIsValid canonicalize valid (log_of [one_script]) = Some events ∧ e ∈ events ∧
  projection_entry one_script = projection_entry e.
Proof.
  destruct (customer_history_screened canonicalize valid (log_of [one_script]) [projection_entry one_script]
    (projection_entry one_script)) as (e & events & Hl & He & Heq & _); [by vm_compute|apply list_elem_of_here|].
  exists e, events. split; [exact Hl|]. split; [exact He|exact Heq].
Defined.
End ReviewLogSamples.
