(* ===== verification/Lifecycle.v ===== *)
(** Evidence custody in the control plane (apps/control-plane/src/index.ts): the
    classification of stored objects, the evidence lifecycle log, opt-in retention,
    scoped access, and the minimization projection. *)
From S2P Require Import Prelude Patterns Json Schema Registry Values ReviewEventLog Timestamps EventIdentity Bytes CanonicalJson ReviewSemantics.

Local Open Scope Z_scope.

Definition REAL_SNIPPET_READY_PROFILE : string := "partner_pilot_real_snippet_ready".
Definition NON_SOURCE_OBJECT_KINDS : list string := ["log_or_trace"; "analytics_record"; "crash_report"; "support_attachment"].
Definition NON_SOURCE_ALLOWED_CLASSES : list string := ["never_collected"; "retained_review_artifact"].
Definition SENSITIVE_SOURCE_CLASSES : list string := ["transient_source_derived"; "customer_opt_in_retained_source"].
Definition LIFECYCLE_CLASS_BEARING_EVENT_TYPES : list string := ["evidence_deleted"; "retention_status_changed"].
Definition EVIDENCE_ACCESS_ROLES : list string :=
  ["customer_admin"; "customer_viewer"; "codeattest_reviewer"; "codeattest_ops"; "evidence_consumer_static"].
Definition MINIMIZATION_CATEGORY_SOURCE_CLASS : list (string * string) :=
  [("retained_finding", "retained_review_artifact"); ("retained_metadata", "retained_review_artifact");
   ("retained_attestation", "retained_review_artifact"); ("retained_customer_opt_in_snippet", "customer_opt_in_retained_source");
   ("deleted_transient", "transient_source_derived"); ("never_collected", "never_collected")].

Inductive StoredObjectRejectionReason :=
  | stored_object_schema_invalid
  | stored_object_forbidden_source_class
  | stored_object_opt_in_not_allowed.
Inductive EvidenceLifecycleAppendRejectionReason :=
  | evidence_event_schema_invalid
  | evidence_event_not_append_only
  | deletion_event_missing_deletion_evidence
  | deletion_event_deletion_evidence_unresolved
  | access_event_missing_scope
  | access_event_scope_mismatch
  | evidence_event_missing_source_derived_class
  | evidence_event_review_id_mismatch
  | retention_event_missing_retention_record
  | retention_event_record_unresolved.
Inductive RetentionOptInRejectionReason := retention_opt_in_schema_invalid | retention_opt_in_not_allowed | retention_period_invalid.
Inductive EvidenceAccessDenialReason :=
  | access_request_invalid
  | access_denied_out_of_scope
  | access_denied_role_not_permitted
  | access_event_not_appendable.
Inductive MinimizationProjectionRejectionReason :=
  | minimization_projection_schema_invalid
  | minimization_category_class_mismatch
  | minimization_deleted_without_evidence
  | minimization_deletion_evidence_unresolved
  | minimization_artifact_category_conflict.
#[export] Instance EvidenceLifecycleAppendRejectionReason_eq_dec : EqDecision EvidenceLifecycleAppendRejectionReason.
Proof. solve_decision. Defined.

Inductive checked (R : Type) := passed (artifact : json) | refused (reason : R).
Arguments passed {R} artifact.
Arguments refused {R} reason.

Section lifecycle.
Context `{Sha256} (canonicalizeJson : json → throws (option jsstr)).
(* validateProtocolSchema(id, value).length === 0 *)
Variable valid : string → json → bool.
Definition STORED_OBJECT : string := "urn:codeattest:protocol:v0:stored-object-classification".
Definition LIFECYCLE_EVENT : string := "urn:codeattest:protocol:v0:evidence-lifecycle-event".
Definition OPT_IN_RECORD : string := "urn:codeattest:protocol:v0:retention-opt-in-record".
Definition DELETION_EVIDENCE : string := "urn:codeattest:protocol:v0:deletion-evidence".
Definition MINIMIZATION : string := "urn:codeattest:protocol:v0:evidence-minimization-projection".

(** * Stored objects *)

Definition classifyStoredObject (candidate : json) : checked StoredObjectRejectionReason :=
  if negb (isRecord candidate) then refused stored_object_schema_invalid
  else if (one_of NON_SOURCE_OBJECT_KINDS (prop "object_kind" candidate)
           && negb (one_of NON_SOURCE_ALLOWED_CLASSES (prop "source_derived_class" candidate)))%bool then
    refused stored_object_forbidden_source_class
  else if (has_string "customer_opt_in_retained_source" (prop "source_derived_class" candidate)
           && negb (has_string REAL_SNIPPET_READY_PROFILE (prop "environment_profile" candidate)))%bool then
    refused stored_object_opt_in_not_allowed
  else if negb (valid STORED_OBJECT candidate) then refused stored_object_schema_invalid
  else match cloneJson candidate with
  | None => refused stored_object_schema_invalid
  | Some classification => passed classification
  end.

(** * The lifecycle log *)

Definition rejectionForLifecycleEvent (event : json) : throws (option EvidenceLifecycleAppendRejectionReason) :=
  let accessed := event_type_is "evidence_accessed" event in
  let scope := prop "access_scope" event in
  if (event_type_is "evidence_deleted" event && is_undefined (prop "deletion_evidence_ref" event))%bool then
    Ret (Some deletion_event_missing_deletion_evidence)
  else if (accessed && is_undefined scope)%bool then Ret (Some access_event_missing_scope)
  else
    mismatch ← (if accessed then review_scope ← member "review_scope" scope; Ret (review_scope !== prop "review_id" event)
                else Ret false);
    Ret (if mismatch : bool then Some access_event_scope_mismatch
         else if (one_of LIFECYCLE_CLASS_BEARING_EVENT_TYPES (prop "event_type" event)
                  && is_undefined (prop "source_derived_class" event))%bool
         then Some evidence_event_missing_source_derived_class else None).

Definition context_items (name : string) (context : json) : list json :=
  match prop name context with JArray l => l | _ => [] end.
(* The one schema-valid item of the context with the given id. *)
Definition resolve_one (schema id_field : string) (items : list json) (ref : json) : option json :=
  match List.filter (λ item, isRecord item && valid schema item && (prop id_field item === ref))%bool items with
  | [item] => Some item
  | _ => None
  end.
Definition rejectionForRetentionCompanion (event context : json) : throws (option EvidenceLifecycleAppendRejectionReason) :=
  if is_undefined (prop "retention_record_ref" event) then Ret (Some retention_event_missing_retention_record)
  else match resolve_one OPT_IN_RECORD "retention_record_id" (context_items "retention_opt_in_records" context) (prop "retention_record_ref" event) with
  | None => Ret (Some retention_event_record_unresolved)
  | Some record =>
      if negb (has_string "customer_opt_in_retained_source" (prop "source_derived_class" record)) then
        Ret (Some retention_event_record_unresolved)
      else
        refs ← js_elements (prop "artifact_refs" event);
        retained ← (match refs with [] => Ret [] | _ => js_elements (prop "retained_artifact_refs" record) end);
        if negb (forallb (λ ref, existsb (λ r, r === ref) retained) refs) then Ret (Some retention_event_record_unresolved)
        else
          start ← member "start_timestamp" (prop "retention_period" record);
          stop ← member "end_timestamp" (prop "retention_period" record);
          Ret match timestamp_ns start, timestamp_ns stop, timestamp_ns (prop "event_timestamp" event) with
          | Some s, Some e, Some at_ => if ((at_ <? s) || (e <? at_))%bool then Some retention_event_record_unresolved else None
          | _, _, _ => Some retention_event_record_unresolved
          end
  end.
Definition rejectionForDeletionCompanion (event context : json) : throws (option EvidenceLifecycleAppendRejectionReason) :=
  match resolve_one DELETION_EVIDENCE "deletion_evidence_id" (context_items "deletion_evidence" context) (prop "deletion_evidence_ref" event) with
  | None => Ret (Some deletion_event_deletion_evidence_unresolved)
  | Some deletion =>
      if negb (has_string "verified" (prop "verification_status" deletion)) then Ret (Some deletion_event_deletion_evidence_unresolved)
      else
        same_actor ← stableEquals canonicalizeJson (prop "actor" deletion) (prop "actor" event);
        Ret (if negb same_actor then Some deletion_event_deletion_evidence_unresolved
             else match timestamp_ns (prop "deletion_timestamp" deletion), timestamp_ns (prop "event_timestamp" event) with
             | Some d, Some e => if d =? e then None else Some deletion_event_deletion_evidence_unresolved
             | _, _ => Some deletion_event_deletion_evidence_unresolved
             end)
  end.
Definition rejectionForLifecycleEventCompanions (event context : json) : throws (option EvidenceLifecycleAppendRejectionReason) :=
  retention ← (if (event_type_is "retention_status_changed" event
                   && has_string "customer_opt_in_retained_source" (prop "source_derived_class" event))%bool
               then rejectionForRetentionCompanion event context else Ret None);
  match retention with
  | Some r => Ret (Some r)
  | None =>
      if (event_type_is "evidence_deleted" event && negb (is_undefined (prop "deletion_evidence_ref" event)))%bool
      then rejectionForDeletionCompanion event context else Ret None
  end.

Record history := { history_ids : list json; history_keys : list json; history_sequence : Z; history_review : json }.
Definition no_history : history := {| history_ids := []; history_keys := []; history_sequence := -1; history_review := JForeign |}.
Definition after_entry (st : history) (event : json) : history := {|
  history_ids := prop "event_id" event :: history_ids st;
  history_keys := prop "idempotency_key" event :: history_keys st;
  history_sequence := default 0 (seq_of event);
  history_review := if is_undefined (history_review st) then prop "review_id" event else history_review st |}.
Definition supersedes_nothing_known (ids : list json) (event : json) : bool :=
  let id := prop "supersedes_event_id" event in
  (negb (is_undefined id) && ((id === prop "event_id" event) || negb (bool_decide (id ∈ ids))))%bool.
Definition history_entry (st : history) (event : json) : throws (option EvidenceLifecycleAppendRejectionReason) :=
  if (negb (isRecord event) || negb (valid LIFECYCLE_EVENT event))%bool then Ret (Some evidence_event_schema_invalid)
  else
    semantic ← rejectionForLifecycleEvent event;
    Ret match semantic with
    | Some r => Some r
    | None => first_reason
        [((negb (is_safe_integer (prop "sequence_number" event)) || negative (prop "sequence_number" event)
           || match seq_of event with Some n => n <=? history_sequence st | None => false end)%bool, evidence_event_not_append_only);
         ((bool_decide (prop "event_id" event ∈ history_ids st) || bool_decide (prop "idempotency_key" event ∈ history_keys st))%bool,
           evidence_event_not_append_only);
         (supersedes_nothing_known (history_ids st) event, evidence_event_not_append_only);
         ((negb (is_undefined (history_review st)) && (prop "review_id" event !== history_review st))%bool,
           evidence_event_review_id_mismatch)]
    end.
Fixpoint history_rejection (st : history) (events : list json) : throws (option EvidenceLifecycleAppendRejectionReason) :=
  match events with
  | [] => Ret None
  | event :: events' =>
      rejection ← history_entry st event;
      match rejection with
      | Some r => Ret (Some r)
      | None => history_rejection (after_entry st event) events'
      end
  end.
Definition evidenceLifecycleHistoryRejection (events : list json) : throws (option EvidenceLifecycleAppendRejectionReason) :=
  history_rejection no_history events.

Inductive lifecycle_outcome := appended | idempotent_noop | rejected (reason : EvidenceLifecycleAppendRejectionReason).

(* The guards on a new event, after the history is known to be valid and the key to be new. *)
Definition new_event_rejection (events : list json) (event : json) : throws (option EvidenceLifecycleAppendRejectionReason) :=
  if existsb (λ existing, prop "event_id" existing === prop "event_id" event) events then Ret (Some evidence_event_not_append_only)
  else if (negb (is_safe_integer (prop "sequence_number" event)) || negative (prop "sequence_number" event))%bool then
    Ret (Some evidence_event_schema_invalid)
  else if existsb (λ existing, match seq_of existing, seq_of event with Some a, Some b => b <=? a | _, _ => false end) events then
    Ret (Some evidence_event_not_append_only)
  else if supersedes_nothing_known (List.map (prop "event_id") events) event then Ret (Some evidence_event_not_append_only)
  else
    guard ← rejectionForLifecycleEvent event;
    match guard with
    | Some r => Ret (Some r)
    | None => Ret (if negb (valid LIFECYCLE_EVENT event) then Some evidence_event_schema_invalid else None)
    end.
Definition appendEvidenceLifecycleEvent (eventsInput event context : json) : throws (lifecycle_outcome * list json) :=
  match eventsInput with
  | JArray events =>
      historyRejection ← evidenceLifecycleHistoryRejection events;
      match historyRejection with
      | Some r => Ret (rejected r, events)
      | None =>
          if negb (isRecord event) then Ret (rejected evidence_event_schema_invalid, events)
          else
            let historyReviewId := match events with e :: _ => prop "review_id" e | [] => JForeign end in
            if (negb (is_undefined historyReviewId) && (prop "review_id" event !== historyReviewId))%bool then
              Ret (rejected evidence_event_review_id_mismatch, events)
            else match List.find (λ existing, prop "idempotency_key" existing === prop "idempotency_key" event) events with
            | Some sameKey =>
                same ← stableEquals canonicalizeJson sameKey event;
                if negb same then Ret (rejected evidence_event_not_append_only, events)
                else
                  companion ← rejectionForLifecycleEventCompanions event context;
                  Ret match companion with Some r => (rejected r, events) | None => (idempotent_noop, events) end
            | None =>
                rejection ← new_event_rejection events event;
                match rejection with
                | Some r => Ret (rejected r, events)
                | None =>
                    companion ← rejectionForLifecycleEventCompanions event context;
                    Ret match companion with
                    | Some r => (rejected r, events)
                    | None =>
                        match cloneJson event with
                        | None => (rejected evidence_event_schema_invalid, events)
                        | Some appendedEvent => (appended, events ++ [appendedEvent])
                        end
                    end
                end
            end
      end
  | _ => Ret (rejected evidence_event_schema_invalid, [])
  end.

(** * Opt-in retention *)

Definition recordOptInRetention (record environmentProfile : json) : checked RetentionOptInRejectionReason :=
  let period := prop "retention_period" record in
  if negb (isRecord record) then refused retention_opt_in_schema_invalid
  else if negb (has_string REAL_SNIPPET_READY_PROFILE environmentProfile) then refused retention_opt_in_not_allowed
  else match prop "start_timestamp" period, prop "end_timestamp" period with
  | JString _, JString _ =>
      match timestamp_ns (prop "start_timestamp" period), timestamp_ns (prop "end_timestamp" period) with
      | Some start, Some stop =>
          if stop <=? start then refused retention_period_invalid
          else if negb (valid OPT_IN_RECORD record) then refused retention_opt_in_schema_invalid
          else match cloneJson record with
          | None => refused retention_opt_in_schema_invalid
          | Some recorded => passed recorded
          end
      | _, _ => refused retention_period_invalid
      end
  | _, _ => refused retention_opt_in_schema_invalid
  end.

(** * Scoped access *)

Inductive access_decision := allowed (event : json) | denied (reason : EvidenceAccessDenialReason).

Fixpoint next_sequence (highest : Z) (events : list json) : throws Z :=
  match events with
  | [] =>
      if highest =? MAX_SAFE_INTEGER then Throw "evidence lifecycle log cannot advance past the maximum safe sequence number"
      else Ret (highest + 1)
  | event :: events' =>
      if (negb (is_safe_integer (prop "sequence_number" event)) || negative (prop "sequence_number" event))%bool
      then Throw "evidence lifecycle log contains an invalid sequence number"
      else next_sequence (Z.max highest (default 0 (seq_of event))) events'
  end.
Definition nextSequenceNumber (events : list json) : throws Z := next_sequence (-1) events.

Definition access_event (request sequenceNumber : json) : json :=
  JObject ([(js "protocol_version", jstr "codeattest.v0"); (js "event_id", prop "event_id" request);
    (js "review_id", prop "review_scope" request); (js "sequence_number", sequenceNumber);
    (js "idempotency_key", prop "idempotency_key" request); (js "event_type", jstr "evidence_accessed");
    (js "actor", prop "actor" request); (js "event_timestamp", prop "event_timestamp" request);
    (js "artifact_refs", JArray [prop "artifact_ref" (prop "artifact" request)]);
    (js "source_derived_class", prop "source_derived_class" (prop "artifact" request));
    (js "access_scope", JObject [(js "tenant_id", prop "tenant_id" request); (js "review_scope", prop "review_scope" request)])]
    ++ (if is_undefined (prop "purpose" request) then [] else [(js "purpose", prop "purpose" request)])).
Definition request_denial (request : json) : option EvidenceAccessDenialReason :=
  let artifact := prop "artifact" request in
  if (negb (isRecord request) || negb (isRecord artifact) || negb (isRecord (prop "actor" request)))%bool then Some access_request_invalid
  else if negb (one_of EVIDENCE_ACCESS_ROLES (prop "role" request)) then Some access_denied_role_not_permitted
  else if (negb (isNonEmptyString (prop "tenant_id" request)) || negb (isNonEmptyString (prop "review_scope" request)))%bool then
    Some access_request_invalid
  else if ((prop "tenant_id" artifact !== prop "tenant_id" request) || (prop "review_scope" artifact !== prop "review_scope" request))%bool then
    Some access_denied_out_of_scope
  else if (has_string "evidence_consumer_static" (prop "role" request)
           && one_of SENSITIVE_SOURCE_CLASSES (prop "source_derived_class" artifact))%bool then
    Some access_denied_role_not_permitted
  else None.
Definition enforceScopedAccess (eventsInput request : json) : throws (access_decision * list json) :=
  match eventsInput with
  | JArray events =>
      if negb (forallb isRecord events) then Ret (denied access_request_invalid, [])
      else match request_denial request with
      | Some r => Ret (denied r, events)
      | None =>
          match (match List.find (λ existing, prop "idempotency_key" existing === prop "idempotency_key" request) events with
                 | None => n ← nextSequenceNumber events; Ret (JNumber n)
                 | Some recorded => Ret (prop "sequence_number" recorded)
                 end) with
          | Throw _ => Ret (denied access_event_not_appendable, events)
          | Ret sequenceNumber =>
              let event := access_event request sequenceNumber in
              result ← appendEvidenceLifecycleEvent (JArray events) event (JObject []);
              Ret match result.1 with
              | rejected _ => (denied access_event_not_appendable, events)
              | appended | idempotent_noop =>
                  match cloneJson event with
                  | None => (denied access_request_invalid, events)
                  | Some emitted => (allowed emitted, result.2)
                  end
              end
          end
      end
  | _ => Ret (denied access_request_invalid, [])
  end.

(** * Minimization *)

Definition everyDeletionEvidenceItemIsSchemaValid (items : list json) : bool :=
  forallb (λ item, isRecord item && valid DELETION_EVIDENCE item)%bool items.
Definition category_class (category : json) : option string :=
  match category with JString s => text ← latin_text s; JsMap.get text MINIMIZATION_CATEGORY_SOURCE_CLASS | _ => None end.
(* { ...entry } of an object or array *)
Definition spread (entry : json) : json :=
  match entry with
  | JArray l => JObject (imap (λ i v, (number_text (Z.of_nat i), v)) l)
  | _ => entry
  end.
Definition is_object (v : json) : bool := match v with JObject _ | JArray _ => true | _ => false end.
Fixpoint minimize (known : list json) (categories : list (json * json)) (entries : list json) : option MinimizationProjectionRejectionReason :=
  match entries with
  | [] => None
  | entry :: entries' =>
      let category := prop "minimization_category" entry in
      if negb (is_object entry) then Some minimization_projection_schema_invalid
      else match category_class category with
      | None => Some minimization_category_class_mismatch
      | Some expectedClass =>
          if negb (has_string expectedClass (prop "source_derived_class" entry)) then Some minimization_category_class_mismatch
          else if match JsMap.get (prop "artifact_ref" entry) categories with Some prior => prior !== category | None => false end then
            Some minimization_artifact_category_conflict
          else if (has_string "deleted_transient" category && is_undefined (prop "deletion_evidence_ref" entry))%bool then
            Some minimization_deleted_without_evidence
          else if (has_string "deleted_transient" category && negb (bool_decide (prop "deletion_evidence_ref" entry ∈ known)))%bool then
            Some minimization_deletion_evidence_unresolved
          else minimize known (JsMap.set (prop "artifact_ref" entry) category categories) entries'
      end
  end.
Definition minimization_projection (input : json) (entries : list json) : json :=
  JObject [(js "protocol_version", prop "protocol_version" input); (js "review_id", prop "review_id" input);
           (js "entries", JArray (List.map spread entries))].
Definition buildEvidenceMinimizationProjection (input deletionEvidence : json) : checked MinimizationProjectionRejectionReason :=
  match prop "entries" input, deletionEvidence with
  | JArray entries, JArray evidence =>
      if negb (everyDeletionEvidenceItemIsSchemaValid evidence) then refused minimization_projection_schema_invalid
      else match minimize (List.map (prop "deletion_evidence_id") evidence) [] entries with
      | Some r => refused r
      | None =>
          match cloneJson (minimization_projection input entries) with
          | None => refused minimization_projection_schema_invalid
          | Some cloned =>
              if negb (valid MINIMIZATION (minimization_projection input entries)) then refused minimization_projection_schema_invalid
              else passed cloned
          end
      end
  | _, _ => refused minimization_projection_schema_invalid
  end.

(** * The history is an append-only log of one review *)

Definition state_after (st : history) (events : list json) : history := fold_left after_entry events st.
Lemma history_rejection_app st l l' : history_rejection st (l ++ l') = Ret None ↔
  history_rejection st l = Ret None ∧ history_rejection (state_after st l) l' = Ret None.
Proof.
  revert st; induction l as [|e l IH]; intros st; [simpl; tauto|]. cbn [app history_rejection state_after fold_left].
  destruct (history_entry st e) as [[r|]|]; cbn [mbind throws_bind]; [split; [done|by intros [? _]]|apply IH|split; [done|by intros [? _]]].
Qed.
Lemma history_singleton st e : history_rejection st [e] = Ret None ↔ history_entry st e = Ret None.
Proof.
  cbn [history_rejection]. destruct (history_entry st e) as [[r|]|]; cbn [mbind throws_bind]; split; (done || congruence).
Qed.
Lemma history_at events st i e : history_rejection st events = Ret None → events !! i = Some e →
  history_entry (state_after st (take i events)) e = Ret None.
Proof.
  intros Hh Hi. rewrite <- (take_drop_middle _ _ _ Hi) in Hh. apply history_rejection_app in Hh as [_ Hh].
  change (e :: drop (S i) events) with ([e] ++ drop (S i) events) in Hh. by apply history_rejection_app in Hh as [Hh%history_singleton _].
Qed.

(* What the checker's state holds after some events. *)
Record tracks (st : history) (events : list json) : Prop := {
  tracks_ids : ∀ x, x ∈ history_ids st ↔ x ∈ List.map (prop "event_id") events;
  tracks_keys : ∀ x, x ∈ history_keys st ↔ x ∈ List.map (prop "idempotency_key") events;
  tracks_sequence : history_sequence st = match last events with Some e => default 0 (seq_of e) | None => -1 end;
  tracks_review : ∀ e, head events = Some e → is_undefined (prop "review_id" e) = false → history_review st = prop "review_id" e
}.
Lemma tracks_after events : tracks (state_after no_history events) events.
Proof.
  induction events as [|e events [IH1 IH2 IH3 IH4]] using rev_ind; [constructor; set_solver|].
  unfold state_after in *. rewrite fold_left_app. cbn [fold_left]. constructor.
  - intros x. cbn [after_entry history_ids]. rewrite List.map_app, elem_of_app, elem_of_cons, IH1. cbn. rewrite list_elem_of_singleton. tauto.
  - intros x. cbn [after_entry history_keys]. rewrite List.map_app, elem_of_app, elem_of_cons, IH2. cbn. rewrite list_elem_of_singleton. tauto.
  - rewrite last_snoc. done.
  - intros x. cbn [after_entry history_review]. destruct events as [|y events]; [by intros [= <-]|].
    cbn [app head]. intros [= <-] Hu. rewrite (IH4 y eq_refl Hu). by rewrite Hu.
Qed.

(* What an accepted entry satisfies, given the events before it. *)
Record entry_ok (before : list json) (e : json) : Prop := {
  entry_schema : isRecord e = true ∧ valid LIFECYCLE_EVENT e = true;
  entry_semantics : rejectionForLifecycleEvent e = Ret None;
  entry_sequence : ∃ n, seq_of e = Some n ∧ (0 ≤ n) ∧ is_safe_integer (prop "sequence_number" e) = true ∧
    n > match last before with Some p => default 0 (seq_of p) | None => -1 end;
  entry_id : prop "event_id" e ∉ List.map (prop "event_id") before;
  entry_key : prop "idempotency_key" e ∉ List.map (prop "idempotency_key") before;
  entry_supersedes : is_undefined (prop "supersedes_event_id" e) = true ∨
    prop "supersedes_event_id" e ∈ List.map (prop "event_id") before
}.
Lemma supersedes_known ids e : supersedes_nothing_known ids e = false ↔
  is_undefined (prop "supersedes_event_id" e) = true ∨
  (prop "supersedes_event_id" e ≠ prop "event_id" e ∧ prop "supersedes_event_id" e ∈ ids).
Proof.
  unfold supersedes_nothing_known. destruct (is_undefined _); cbn [negb andb]; [tauto|].
  rewrite orb_false_iff, negb_false_iff, bool_decide_eq_false, bool_decide_eq_true. split; [by right|by intros [?|?]].
Qed.
Lemma number_ok v : is_safe_integer v = true → negative v = false → ∃ n, v = JNumber n ∧ 0 ≤ n.
Proof. destruct v as [| | |n| | | |]; try done. cbn. intros _ Hn%Z.ltb_ge. by exists n. Qed.
Lemma history_entry_None st e : history_entry st e = Ret None ↔
  isRecord e = true ∧ valid LIFECYCLE_EVENT e = true ∧ rejectionForLifecycleEvent e = Ret None ∧
  (∃ n, prop "sequence_number" e = JNumber n ∧ (0 ≤ n) ∧ isSafeInteger n = true ∧ (history_sequence st < n)) ∧
  (prop "event_id" e ∉ history_ids st) ∧ (prop "idempotency_key" e ∉ history_keys st) ∧
  supersedes_nothing_known (history_ids st) e = false ∧
  (is_undefined (history_review st) = true ∨ prop "review_id" e = history_review st).
Proof.
  unfold history_entry, seq_of. destruct (isRecord e), (valid LIFECYCLE_EVENT e); cbn [negb orb]; try (split; [done|by intros (? & ? & _)]).
  destruct (rejectionForLifecycleEvent e) as [[r|]|err]; cbn [mbind throws_bind]; try (split; [done|by intros (_ & _ & ? & _)]).
  split.
  - intros Hg%Ret_inj. rewrite !first_reason_cons_None in Hg. destruct Hg as (Hn & Hd & Hs & Hr & _). bool_simpl.
    destruct (number_ok _ ltac:(done) ltac:(done)) as (n & En & Hn0). rewrite En in *. split_and!; try done.
    + exists n. split_and!; [done..|]. lia.
    + apply andb_false_iff in Hr as [Hr|Hr]; bool_simpl; [by left|by right].
  - intros (_ & _ & _ & (n & -> & Hn0 & Hsafe & Hlt) & Hid & Hkey & Hsup & Hr). do 1 f_equal.
    rewrite !first_reason_cons_None, Hsup, !bool_decide_false by done. cbn [is_safe_integer negative]. rewrite Hsafe.
    rewrite (proj2 (Z.ltb_ge _ _) Hn0), (proj2 (Z.leb_gt _ _) Hlt). split_and!; [done..| |done].
    destruct Hr as [->| ->]; [done|]. by rewrite bool_decide_true, andb_false_r.
Qed.
Lemma history_entry_ok before e : history_entry (state_after no_history before) e = Ret None → entry_ok before e.
Proof.
  destruct (tracks_after before) as [Hids Hkeys Hseq _].
  intros (? & ? & ? & (n & En & Hn0 & Hsafe & Hlt) & Hid & Hkey & Hs & _)%history_entry_None. unfold seq_of in *.
  constructor; [done|done| |by rewrite <- Hids|by rewrite <- Hkeys|].
  - exists n. unfold seq_of. rewrite En. split_and!; [done..|]. rewrite <- Hseq. lia.
  - apply supersedes_known in Hs as [?|[_ ?]]; [by left|right; by rewrite <- Hids].
Qed.

Definition sequence_of (e : json) : Z := default 0 (seq_of e).
Lemma sorted_snoc {A} (R : A → A → Prop) l x : StronglySorted R l → (∀ y, y ∈ l → R y x) → StronglySorted R (l ++ [x]).
Proof.
  intros Hs. induction Hs as [|y l Hl IH Hy]; intros Hx; [by repeat constructor|]. cbn [app]. constructor.
  - apply IH. intros z Hz. by apply Hx, list_elem_of_further.
  - apply Forall_app. split; [done|]. repeat constructor. apply Hx, list_elem_of_here.
Qed.
Lemma sorted_last {A} (f : A → Z) l x y : StronglySorted (λ a b, f a < f b) l → last l = Some x → y ∈ l → f y ≤ f x.
Proof.
  intros Hs. induction Hs as [|z l Hl IH Hz]; [done|]. rewrite last_cons. destruct (last l) as [w|] eqn:Hw.
  - intros [= ->] [->|Hy]%elem_of_cons; [|by apply IH]. rewrite Forall_forall in Hz. apply Z.lt_le_incl, Hz.
    apply last_Some in Hw as [l' ->]. set_solver.
  - intros [= ->] [->|Hy]%elem_of_cons; [done|]. apply last_None in Hw. subst. set_solver.
Qed.
Lemma history_consistent events : evidenceLifecycleHistoryRejection events = Ret None →
  StronglySorted (λ a b, sequence_of a < sequence_of b) events ∧
  NoDup (List.map (prop "event_id") events) ∧ NoDup (List.map (prop "idempotency_key") events) ∧
  ∀ i e, events !! i = Some e → entry_ok (take i events) e.
Proof.
  intros Hh. assert (∀ i e, events !! i = Some e → entry_ok (take i events) e) as Hat.
  { intros i e Hi. by apply history_entry_ok, history_at. }
  split_and!; [| | |done]; clear Hh; induction events as [|e events IH] using rev_ind; try by constructor.
  all: pose proof (Hat (length events) e) as He; rewrite take_app_length, lookup_app_r, Nat.sub_diag in He by done;
    specialize (He eq_refl); destruct He as [_ _ (n & Hn & Hn0 & _ & Hlast) Hid Hkey _].
  all: assert (∀ i x, events !! i = Some x → entry_ok (take i events) x) as Hat' by
    (intros i x Hi; specialize (Hat i x); rewrite lookup_app_l, take_app_le in Hat by (apply lookup_lt_Some in Hi; lia); by apply Hat).
  - apply sorted_snoc; [by apply IH|]. intros y Hy. unfold sequence_of at 2. rewrite Hn. cbn [default from_option id].
    destruct (last events) as [p|] eqn:Hp; [|apply last_None in Hp; subst; set_solver].
    pose proof (sorted_last sequence_of _ _ _ (IH Hat') Hp Hy) as Hle. unfold sequence_of in *. lia.
  - rewrite List.map_app. apply NoDup_app. split_and!; [by apply IH| |by apply NoDup_singleton].
    intros x Hx ->%list_elem_of_singleton. done.
  - rewrite List.map_app. apply NoDup_app. split_and!; [by apply IH| |by apply NoDup_singleton].
    intros x Hx ->%list_elem_of_singleton. done.
Qed.

(* What the guards on a new event establish. *)
Lemma new_event_None events event : new_event_rejection events event = Ret None →
  (prop "event_id" event ∉ List.map (prop "event_id") events) ∧ valid LIFECYCLE_EVENT event = true ∧
  rejectionForLifecycleEvent event = Ret None ∧
  (∃ n, prop "sequence_number" event = JNumber n ∧ (0 ≤ n) ∧ isSafeInteger n = true ∧
     ∀ x m, x ∈ events → seq_of x = Some m → m < n) ∧
  supersedes_nothing_known (List.map (prop "event_id") events) event = false.
Proof.
  unfold new_event_rejection. destruct (existsb _ events) eqn:Hid; [done|].
  destruct (negb _ || _)%bool eqn:Hn; [done|]. destruct (existsb _ events) eqn:Hseq in |- *; [done|].
  destruct (supersedes_nothing_known _ _) eqn:Hs; [done|].
  destruct (rejectionForLifecycleEvent event) as [[r|]|]; cbn [mbind throws_bind]; [done| |done].
  destruct (valid LIFECYCLE_EVENT event); [|done]. intros _. bool_simpl.
  destruct (number_ok _ ltac:(done) ltac:(done)) as (n & En & Hn0). split_and!; try done.
  - intros (x & Hx & Hin)%list_elem_of_In%in_map_iff. apply list_elem_of_In in Hin.
    apply existsb_false with (x := x) in Hid; [|done]. bool_simpl. by apply Hid.
  - exists n. rewrite En in *. split_and!; [done..|]. intros x m Hx Hm. apply existsb_false with (x := x) in Hseq; [|done].
    unfold seq_of in Hseq at 2. rewrite Hm, En in Hseq. lia.
Qed.
Definition same_review (events : list json) (event : json) : Prop :=
  ∀ e, head events = Some e → is_undefined (prop "review_id" e) = false → prop "review_id" event = prop "review_id" e.
Lemma append_lifecycle_inv events event context l :
  appendEvidenceLifecycleEvent (JArray events) event context = Ret (appended, l) →
  evidenceLifecycleHistoryRejection events = Ret None ∧ isRecord event = true ∧ same_review events event ∧
  (prop "idempotency_key" event ∉ List.map (prop "idempotency_key") events) ∧
  new_event_rejection events event = Ret None ∧ rejectionForLifecycleEventCompanions event context = Ret None ∧
  l = events ++ [event].
Proof.
  unfold appendEvidenceLifecycleEvent. destruct (evidenceLifecycleHistoryRejection events) as [[r|]|]; cbn [mbind throws_bind]; [done| |done].
  destruct (isRecord event); cbn [negb]; [|done]. destruct (_ && _)%bool eqn:Hrev; [done|].
  destruct (List.find _ events) as [x|] eqn:Hf.
  { destruct (stableEquals _ x event) as [[]|]; cbn [mbind throws_bind negb]; [|done..].
    by destruct (rejectionForLifecycleEventCompanions event context) as [[]|]. }
  destruct (new_event_rejection events event) as [[r|]|]; cbn [mbind throws_bind]; [done| |done].
  destruct (rejectionForLifecycleEventCompanions event context) as [[r|]|]; cbn [mbind throws_bind cloneJson]; [done| |done].
  intros [= <-]. split_and!; try done.
  - intros e He Hu. destruct events as [|y events]; [done|]. injection He as ->. rewrite Hu in Hrev. cbn [negb andb] in Hrev. by bool_simpl.
  - intros (x & Hx & Hin)%list_elem_of_In%in_map_iff. apply list_elem_of_In in Hin.
    apply (proj1 (find_None_forall _ _) Hf) in Hin. bool_simpl. by apply Hin.
Qed.

(** C10. An accepted lifecycle event is added at the end of a valid log, and the log
    stays valid: sequence numbers strictly increase, event ids and idempotency keys do
    not repeat, a superseded event comes earlier, every entry passes the schema and
    its own rules, and the event belongs to the log's review. *)
Theorem lifecycle_append_keeps_history events event context l :
  (∀ e, head events = Some e → is_undefined (prop "review_id" e) = false) →
  appendEvidenceLifecycleEvent (JArray events) event context = Ret (appended, l) →
  l = events ++ [event] ∧ evidenceLifecycleHistoryRejection l = Ret None ∧ same_review events event ∧
  StronglySorted (λ a b, sequence_of a < sequence_of b) l ∧ NoDup (List.map (prop "event_id") l) ∧
  NoDup (List.map (prop "idempotency_key") l) ∧ ∀ i e, l !! i = Some e → entry_ok (take i l) e.
Proof.
  intros Hhead (Hh & Hrec & Hrev & Hkey & Hnew & _ & ->)%append_lifecycle_inv. split; [done|].
  assert (evidenceLifecycleHistoryRejection (events ++ [event]) = Ret None) as Hh'.
  { apply history_rejection_app. split; [done|]. apply history_singleton, history_entry_None.
    destruct (tracks_after events) as [Hids Hkeys Hseq Hreview].
    apply new_event_None in Hnew as (Hid & Hv & Hsem & (n & En & Hn0 & Hsafe & Hlt) & Hs). split_and!; try done.
    - exists n. split_and!; [done..|]. change (fold_left after_entry events no_history) with (state_after no_history events).
      rewrite Hseq. destruct (last events) as [p|] eqn:Hp; [|lia]. apply history_consistent in Hh as (_ & _ & _ & Hat).
      apply last_Some in Hp as [before ->]. destruct (Hat (length before) p) as [_ _ (m & Hm & _) _ _ _].
      { by rewrite lookup_app_r, Nat.sub_diag. }
      rewrite Hm. simpl. apply (Hlt p m); [set_solver|done].
    - by rewrite Hids.
    - by rewrite Hkeys.
    - apply supersedes_known. apply supersedes_known in Hs as [?|[? ?]]; [by left|right]. by rewrite Hids.
    - destruct events as [|e events]; [by left|right]. rewrite (Hreview e eq_refl (Hhead e eq_refl)). by apply Hrev, Hhead. }
  split; [done|]. split; [done|]. by apply history_consistent.
Qed.

(** * Access *)

Lemma append_unchanged events event context o l : o ≠ appended →
  appendEvidenceLifecycleEvent (JArray events) event context = Ret (o, l) → l = events.
Proof.
  intros Ho. unfold appendEvidenceLifecycleEvent. destruct (evidenceLifecycleHistoryRejection events) as [[r|]|]; [by intros [= _ <-]| |done].
  cbn [mbind throws_bind]. destruct (negb (isRecord event)); [by intros [= _ <-]|]. destruct (_ && _)%bool; [by intros [= _ <-]|].
  destruct (List.find _ events) as [x|].
  - destruct (stableEquals _ x event) as [[]|]; cbn [mbind throws_bind negb]; [|by intros [= _ <-]|done].
    destruct (rejectionForLifecycleEventCompanions event context) as [[]|]; [by intros [= _ <-]..|done].
  - destruct (new_event_rejection events event) as [[r|]|]; cbn [mbind throws_bind]; [by intros [= _ <-]| |done].
    destruct (rejectionForLifecycleEventCompanions event context) as [[r|]|]; cbn [mbind throws_bind cloneJson]; [by intros [= _ <-]| |done].
    by intros [= <- _].
Qed.
Lemma append_noop events event context l : appendEvidenceLifecycleEvent (JArray events) event context = Ret (idempotent_noop, l) →
  ∃ e, e ∈ events ∧ stableEquals canonicalizeJson e event = Ret true.
Proof.
  unfold appendEvidenceLifecycleEvent. destruct (evidenceLifecycleHistoryRejection events) as [[r|]|]; [done| |done].
  cbn [mbind throws_bind]. destruct (negb (isRecord event)); [done|]. destruct (_ && _)%bool; [done|].
  destruct (List.find _ events) as [x|] eqn:Hf.
  - apply find_Some_elem in Hf as [Hx _]. destruct (stableEquals _ x event) as [[]|] eqn:Heq; [|done..]. by exists x.
  - destruct (new_event_rejection events event) as [[r|]|]; cbn [mbind throws_bind]; [done| |done].
    by destruct (rejectionForLifecycleEventCompanions event context) as [[r|]|].
Qed.

(** C11. An inspection is allowed only to one of the five roles, inside the artifact's
    tenant and review, and never of source-derived evidence to the static evidence
    consumer; and an allowed inspection is in the returned log as an access event that
    names the actor, the artifact and the tenant and review it is scoped to. A denial
    returns the log as it was, except for a log with an entry that is not an object,
    for which it returns an empty one. *)
Theorem access_is_scoped_and_logged events request decision l :
  enforceScopedAccess (JArray events) request = Ret (decision, l) →
  match decision with
  | denied r => l = events ∨ (l = [] ∧ r = access_request_invalid ∧ ∃ e, e ∈ events ∧ isRecord e = false)
  | allowed event =>
      one_of EVIDENCE_ACCESS_ROLES (prop "role" request) = true ∧
      prop "tenant_id" (prop "artifact" request) = prop "tenant_id" request ∧
      prop "review_scope" (prop "artifact" request) = prop "review_scope" request ∧
      (has_string "evidence_consumer_static" (prop "role" request) = true →
       one_of SENSITIVE_SOURCE_CLASSES (prop "source_derived_class" (prop "artifact" request)) = false) ∧
      prop "event_type" event = jstr "evidence_accessed" ∧ prop "actor" event = prop "actor" request ∧
      prop "artifact_refs" event = JArray [prop "artifact_ref" (prop "artifact" request)] ∧
      prop "tenant_id" (prop "access_scope" event) = prop "tenant_id" request ∧
      prop "review_scope" (prop "access_scope" event) = prop "review_scope" request ∧
      (∃ e, e ∈ l ∧ (e = event ∨ stableEquals canonicalizeJson e event = Ret true)) ∧
      events `prefix_of` l
  end.
Proof.
  unfold enforceScopedAccess. destruct (forallb isRecord events) eqn:Hrec; cbn [negb].
  2:{ intros [= <- <-]. right. split_and!; [done..|]. by apply forallb_false in Hrec. }
  destruct (request_denial request) as [r|] eqn:Hden; [intros [= <- <-]; by left|].
  destruct (match List.find _ events with Some _ => _ | None => _ end) as [seq|]; [|intros [= <- <-]; by left].
  destruct (appendEvidenceLifecycleEvent _ _ _) as [[o l']|] eqn:Ha; cbn [mbind throws_bind fst snd]; [|done].
  unfold request_denial in Hden. destruct (_ || _)%bool in Hden; [done|].
  destruct (one_of EVIDENCE_ACCESS_ROLES _) eqn:Hrole; cbn [negb] in Hden; [|done].
  destruct (negb (isNonEmptyString _) || _)%bool in Hden; [done|].
  destruct (_ || _)%bool eqn:Hscope in Hden; [done|]. destruct (_ && _)%bool eqn:Hstatic in Hden; [done|]. clear Hden. bool_simpl.
  destruct o as [| |r]; cbn [cloneJson]; intros [= <- <-]; [| |by left].
  all: split_and!; try done; try (intros Hc; rewrite Hc in Hstatic; exact Hstatic).
  - apply append_lifecycle_inv in Ha as (_ & _ & _ & _ & _ & _ & ->). exists (access_event request seq). split; [set_solver|by left].
  - apply append_lifecycle_inv in Ha as (_ & _ & _ & _ & _ & _ & ->). by apply prefix_app_r.
  - rewrite (append_unchanged _ _ _ idempotent_noop _ ltac:(done) Ha). apply append_noop in Ha as (e & He & Heq). exists e. split; [done|by right].
  - by rewrite (append_unchanged _ _ _ idempotent_noop _ ltac:(done) Ha).
Qed.

(** * Minimization *)

(* What the loop has established of each entry it passed. *)
Record minimized (known : list json) (entry : json) : Prop := {
  minimized_class : ∃ c, category_class (prop "minimization_category" entry) = Some c ∧ prop "source_derived_class" entry = jstr c;
  minimized_deletion : prop "minimization_category" entry = jstr "deleted_transient" →
    is_undefined (prop "deletion_evidence_ref" entry) = false ∧ prop "deletion_evidence_ref" entry ∈ known
}.
Lemma minimize_spec known entries : ∀ categories, minimize known categories entries = None →
  Forall (minimized known) entries ∧
  (∀ e k, e ∈ entries → JsMap.get (prop "artifact_ref" e) categories = Some k → prop "minimization_category" e = k) ∧
  (∀ e e', e ∈ entries → e' ∈ entries → prop "artifact_ref" e = prop "artifact_ref" e' →
     prop "minimization_category" e = prop "minimization_category" e').
Proof.
  induction entries as [|x entries IH]; intros categories; [intros _; by split_and!; [constructor|intros ?? []%elem_of_nil|intros ?? []%elem_of_nil]|].
  cbn [minimize]. destruct (negb (is_object x)); [done|].
  destruct (category_class _) as [c|] eqn:Hc; [|done]. destruct (negb (has_string c _)) eqn:Hcls; [done|].
  destruct (match JsMap.get _ categories with Some prior => _ | None => false end) eqn:Hconf; [done|].
  destruct (has_string "deleted_transient" _ && is_undefined _)%bool eqn:Hdel; [done|].
  destruct (has_string "deleted_transient" _ && negb _)%bool eqn:Hres; [done|].
  intros (Hall & Hget & Hpair)%IH. unfold has_string in *. bool_simpl.
  assert (∀ k, JsMap.get (prop "artifact_ref" x) categories = Some k → prop "minimization_category" x = k) as Hx.
  { intros k Hk. rewrite Hk in Hconf. by bool_simpl. }
  assert (∀ e, e ∈ entries → prop "artifact_ref" x = prop "artifact_ref" e → prop "minimization_category" e = prop "minimization_category" x) as Hxe.
  { intros e He Hr. apply (Hget e); [done|]. by rewrite <- Hr, JsMap.get_set_eq. }
  split_and!.
  - constructor; [|done]. constructor; [by exists c|]. intros Hcat. rewrite (bool_decide_true _ Hcat) in Hdel, Hres. cbn [andb] in *. by bool_simpl.
  - intros e k [->|He]%elem_of_cons Hk; [by apply Hx|]. destruct (decide (prop "artifact_ref" x = prop "artifact_ref" e)) as [Hr|Hr].
    + rewrite <- Hr in Hk. rewrite (Hxe e He Hr). by apply Hx.
    + apply (Hget e k He). by rewrite JsMap.get_set_ne.
  - intros e e' [->|He]%elem_of_cons [->|He']%elem_of_cons Hr; [done|by rewrite (Hxe e' He' Hr)|by apply Hxe|by apply Hpair].
Qed.

(** C12. A minimization projection claims for each entry exactly the source class of its
    category, claims a deletion only with the id of a supplied, schema-valid deletion
    evidence, and never puts one artifact in two categories. *)
Theorem minimization_is_backed input evidence projection entries :
  buildEvidenceMinimizationProjection input (JArray evidence) = passed projection → prop "entries" input = JArray entries →
  projection = minimization_projection input entries ∧
  (∀ e, e ∈ entries → ∃ c, category_class (prop "minimization_category" e) = Some c ∧ prop "source_derived_class" e = jstr c) ∧
  (∀ e, e ∈ entries → prop "minimization_category" e = jstr "deleted_transient" →
    ∃ d, d ∈ evidence ∧ valid DELETION_EVIDENCE d = true ∧ prop "deletion_evidence_id" d = prop "deletion_evidence_ref" e) ∧
  (∀ e e', e ∈ entries → e' ∈ entries → prop "artifact_ref" e = prop "artifact_ref" e' →
     prop "minimization_category" e = prop "minimization_category" e').
Proof.
  unfold buildEvidenceMinimizationProjection. intros Hb Hentries. rewrite Hentries in Hb.
  destruct (everyDeletionEvidenceItemIsSchemaValid evidence) eqn:Hev; cbn [negb] in Hb; [|done].
  destruct (minimize _ [] entries) as [r|] eqn:Hm; [done|]. cbn [cloneJson] in Hb.
  destruct (negb (valid MINIMIZATION _)); [done|]. injection Hb as <-. apply minimize_spec in Hm as (Hall & _ & Hpair).
  rewrite Forall_forall in Hall. split_and!; [done|intros e He; by apply Hall| |done].
  intros e He Hcat. destruct (minimized_deletion _ _ (Hall e He) Hcat) as [_ Hin].
  apply list_elem_of_In, in_map_iff in Hin as (d & Hd & Hin). apply list_elem_of_In in Hin. exists d.
  unfold everyDeletionEvidenceItemIsSchemaValid in Hev. apply (proj1 (forallb_elem _ _)) with (x := d) in Hev; [|done]. by bool_simpl.
Qed.
End lifecycle.

(** * Concrete runs *)

Module LifecycleSamples.
Import SampleHash SchemaSamples EventLogSamples.
Definition canonicalize (v : json) : throws (option jsstr) := s ← canonicalizeProtocolJson v; Ret (Some s).
Definition request (role tenant key : string) : json :=
  jobj [("actor", jobj [("actor_type", jstr "reviewer"); ("actor_id", jstr "reviewer-1")]); ("role", jstr role);
    ("tenant_id", jstr tenant); ("review_scope", jstr "review:aaa");
    ("artifact", jobj [("artifact_ref", jstr "artifact_ref:raw"); ("tenant_id", jstr "tenant-1"); ("review_scope", jstr "review:aaa");
      ("source_derived_class", jstr "transient_source_derived")]);
    ("event_id", jstr ("evidence_event:" +:+ key)); ("idempotency_key", jstr key); ("event_timestamp", jstr "2026-07-19T00:00:00Z")].
Definition first_access : json := Eval vm_compute in access_event (request "codeattest_reviewer" "tenant-1" "acc-1") (JNumber 0).
Definition second_access : json := Eval vm_compute in access_event (request "codeattest_ops" "tenant-1" "acc-2") (JNumber 1).
Definition access := enforceScopedAccess canonicalize valid.
Example inspection_recorded :
  access (JArray [first_access]) (request "codeattest_ops" "tenant-1" "acc-2") = Ret (allowed second_access, [first_access; second_access]) ∧
  access (JArray [first_access]) (request "codeattest_reviewer" "tenant-1" "acc-1") = Ret (allowed first_access, [first_access]) ∧
  access (JArray [first_access]) (request "evidence_consumer_static" "tenant-1" "acc-3") = Ret (denied access_denied_role_not_permitted, [first_access]) ∧
  access (JArray [first_access]) (request "codeattest_ops" "tenant-2" "acc-3") = Ret (denied access_denied_out_of_scope, [first_access]).
Proof. by vm_compute. Qed.

Lemma access_is_scoped_and_logged_witness : [first_access] `prefix_of` [first_access; second_access].
Proof.
  apply (access_is_scoped_and_logged canonicalize valid [first_access] (request "codeattest_ops" "tenant-1" "acc-2") (allowed second_access)).
  by vm_compute.
Defined.
Lemma lifecycle_append_keeps_history_witness : sequence_of first_access < sequence_of second_access.
Proof.
  destruct (lifecycle_append_keeps_history canonicalize valid [first_access] second_access (JObject []) [first_access; second_access])
    as (_ & _ & _ & Hs & _); [by intros e [= <-]|by vm_compute|].
  apply StronglySorted_inv in Hs as [_ Hs]. by inversion Hs.
Defined.
Definition entry (ref category class : string) (more : list (string * json)) : json :=
  jobj ([("artifact_ref", jstr ref); ("minimization_category", jstr category); ("source_derived_class", jstr class)] ++ more).
Definition minimized_entries : list json := Eval vm_compute in
  [entry "artifact_ref:finding" "retained_finding" "retained_review_artifact" [];
   entry "artifact_ref:raw" "deleted_transient" "transient_source_derived" [("deletion_evidence_ref", jstr "deletion_evidence:abc")]].
Definition minimization_input : json :=
  jobj [("protocol_version", jstr "codeattest.v0"); ("review_id", jstr "review:aaa"); ("entries", JArray minimized_entries)].
Lemma minimization_is_backed_witness : ∃ d, d ∈ [JObject evidence_fields] ∧ prop "deletion_evidence_id" d = jstr "deletion_evidence:abc".
Proof.
  destruct (minimization_is_backed valid minimization_input [JObject evidence_fields]
    (minimization_projection minimization_input minimized_entries) minimized_entries) as (_ & _ & Hdel & _); [by vm_compute..|].
  destruct (Hdel (entry "artifact_ref:raw" "deleted_transient" "transient_source_derived" [("deletion_evidence_ref", jstr "deletion_evidence:abc")]))
    as (d & Hd & _ & Hid); [apply list_elem_of_lookup; exists 1%nat; by vm_compute|done|]. exists d. split; [exact Hd|]. rewrite Hid. reflexivity.
Defined.

(** An access event whose access_scope is null makes the append throw, because the scope
    is read before the schema is checked. *)
Theorem null_scope_throws :
  appendEvidenceLifecycleEvent canonicalize valid (JArray [])
    (JObject (JsMap.set (js "access_scope") JNull (match first_access with JObject fs => fs | _ => [] end))) (JObject []) =
  Throw "Cannot read properties of undefined".
Proof. by vm_compute. Qed.
End LifecycleSamples.
