(* ===== verification/Totp.v ===== *)
(** Secrets of the identity store (packages/identity-store/src: totp.ts,
    secret-hash.ts, session-token.ts): one-time codes, the base32 text of a secret,
    sealed secrets, password hashes and session handles. *)

From Stdlib Require Import String DecimalString DecimalPos DecimalN.
From S2P Require Import Prelude Patterns Bytes Json JsonText CanonicalJson Timestamps Schema Values Base64Url Envelope.

Local Open Scope Z_scope.

Definition TOTP_STEP_SECONDS : Z := 30.
Definition TOTP_DIGITS : nat := 6.
Definition TOTP_MOD : Z := 10 ^ 6.
Definition GCM_IV_LENGTH : nat := 12.
Definition GCM_TAG_LENGTH : nat := 16.
Definition BASE32_ALPHABET : jsstr := js "ABCDEFGHIJKLMNOPQRSTUVWXYZ234567".

(** node:crypto's createHmac("sha1") and scryptSync, as parameters; None is a call
    that throws. *)
Class NodeDigests := {
  hmac_sha1 : bytes → bytes → bytes;
  hmac_sha1_length key message : length (hmac_sha1 key message) = 20%nat;
  hmac_sha1_bytes key message : bytes_ok (hmac_sha1 key message) = true;
  (* plaintext, salt, length, N, r, p, maxmem *)
  scrypt : jsstr → bytes → nat → Z → Z → Z → Z → option bytes;
  scrypt_ok plaintext salt keyLength N r p maxmem key :
    scrypt plaintext salt keyLength N r p maxmem = Some key → length key = keyLength ∧ bytes_ok key = true
}.
(** AES-GCM on bytes keeps their length. *)
Class GcmBytes `{Aes256Gcm} := gcm_bytes key nonce plaintext :
  bytes_ok key = true → bytes_ok nonce = true → bytes_ok plaintext = true →
  bytes_ok (gcm_seal key nonce plaintext).1 = true ∧ bytes_ok (gcm_seal key nonce plaintext).2 = true ∧
  length (gcm_seal key nonce plaintext).1 = length plaintext.

(* crypto.timingSafeEqual throws on buffers of different length *)
Definition timingSafeEqual (a b : bytes) : throws bool :=
  if Nat.eqb (length a) (length b) then Ret (a === b) else Throw "Input buffers must have the same byte length".
(* text.padStart(n, "0") *)
Definition padStart0 (n : nat) (s : jsstr) : jsstr := replicate (n - length s) 48 ++ s.

(** * One-time codes *)

Section totp.
Context `{NodeDigests}.

Definition byte_at (b : bytes) (i : Z) : Z := default 0 (b !! Z.to_nat i).
(* The dynamic truncation of RFC 4226: four bytes from the offset in the last one. *)
Definition truncated (hmac : bytes) : Z :=
  let offset := Z.land (byte_at hmac 19) 15 in
  Z.lor (Z.lor (Z.lor (Z.shiftl (Z.land (byte_at hmac offset) 127) 24) (Z.shiftl (Z.land (byte_at hmac (offset + 1)) 255) 16))
               (Z.shiftl (Z.land (byte_at hmac (offset + 2)) 255) 8)) (Z.land (byte_at hmac (offset + 3)) 255).
Definition totpCodeAt (secret : bytes) (unixSeconds : Z) : jsstr :=
  let counter := unixSeconds / TOTP_STEP_SECONDS in
  let hmac := hmac_sha1 secret (be64 (counter mod 2 ^ 64)) in
  padStart0 TOTP_DIGITS (number_text (truncated hmac mod TOTP_MOD)).

(* /^\d{6}$/ *)
Definition six_digits (s : jsstr) : bool := (Nat.eqb (length s) 6 && forallb is_digit_unit s)%bool.
Fixpoint match_offsets (secret presented : bytes) (unixSeconds currentStep : Z) (matched : option Z) (offsets : list Z) : throws (option Z) :=
  match offsets with
  | [] => Ret matched
  | offset :: offsets' =>
      equal ← timingSafeEqual (utf8 (totpCodeAt secret (unixSeconds + offset * TOTP_STEP_SECONDS))) presented;
      match_offsets secret presented unixSeconds currentStep (if equal : bool then Some (currentStep + offset) else matched) offsets'
  end.
Definition matchTotpStep (secret : bytes) (presented : jsstr) (unixSeconds : Z) : throws (option Z) :=
  if negb (six_digits presented) then Ret None
  else match_offsets secret (utf8 presented) unixSeconds (unixSeconds / TOTP_STEP_SECONDS) None [-1; 0; 1].
Definition verifyTotpCode (secret : bytes) (presented : jsstr) (unixSeconds : Z) : throws bool :=
  step ← matchTotpStep secret presented unixSeconds; Ret (bool_decide (is_Some step)).
End totp.

(** * Base32 *)

(* The conversion to a 32-bit integer that << and | apply to their result. *)
Definition to_int32 (n : Z) : Z := (n + 2 ^ 31) mod 2 ^ 32 - 2 ^ 31.
(* value >>> k *)
Definition shift_right_unsigned (value k : Z) : Z := Z.shiftr (value mod 2 ^ 32) k.
Definition base32_char (n : Z) : Z := default 0 (BASE32_ALPHABET !! Z.to_nat n).

(* while (bits >= 5) *)
Fixpoint emit (fuel : nat) (bits value : Z) (out : jsstr) : Z * jsstr :=
  match fuel with
  | O => (bits, out)
  | S fuel' =>
      if 5 <=? bits then emit fuel' (bits - 5) value (out ++ [base32_char (Z.land (shift_right_unsigned value (bits - 5)) 31)])
      else (bits, out)
  end.
Fixpoint encode_bytes (bits value : Z) (out : jsstr) (b : bytes) : Z * Z * jsstr :=
  match b with
  | [] => (bits, value, out)
  | byte :: b' =>
      let value' := to_int32 (Z.lor (to_int32 (Z.shiftl value 8)) byte) in
      let '(bits', out') := emit 3 (bits + 8) value' out in
      encode_bytes bits' value' out' b'
  end.
Definition encodeBase32 (b : bytes) : jsstr :=
  let '(bits, value, out) := encode_bytes 0 0 [] b in
  if 0 <? bits then out ++ [base32_char (Z.land (to_int32 (Z.shiftl value (5 - bits))) 31)] else out.

(** The encoding as RFC 4648 has it: the bits of the bytes, most significant first,
    in groups of five, the last group filled with zeros; no padding characters. *)
Definition byte_bits (x : Z) : list bool := List.map (Z.testbit x) [7; 6; 5; 4; 3; 2; 1; 0].
Definition bit_value (bs : list bool) : Z := fold_left (λ n b, 2 * n + Z.b2z b) bs 0.
Fixpoint base32_groups (bs : list bool) : jsstr :=
  match bs with
  | [] => []
  | a :: b :: c :: d :: e :: bs' => base32_char (bit_value [a; b; c; d; e]) :: base32_groups bs'
  | _ => [base32_char (bit_value (take 5 (bs ++ replicate 5 false)))]
  end.
Definition base32_reference (b : bytes) : jsstr := base32_groups (List.flat_map byte_bits b).

(** * Sealed secrets *)

Section sealed.
Context `{Aes256Gcm}.

Definition hex_text (b : bytes) : jsstr := js (hex_string b).
(* iv is the value of randomBytes(GCM_IV_LENGTH); createCipheriv throws on a key of another length *)
Definition sealTotpSecret (iv secret key : bytes) : throws jsstr :=
  if negb (Nat.eqb (length key) 32) then Throw "Invalid key length"
  else
    let '(ciphertext, tag) := gcm_seal key iv secret in
    Ret (js "v1$" ++ hex_text iv ++ 36 :: hex_text tag ++ 36 :: hex_text ciphertext).
(* /^[a-f0-9]+$/i, and Buffer.from(text, "hex") of such a text *)
Definition is_hex_unit (c : Z) : bool := bool_decide (is_Some (hex_value c)).
Definition hex_digits (s : jsstr) : bool := (negb (s === []) && forallb is_hex_unit s)%bool.
Definition buffer_from_hex (s : jsstr) : bytes := from_hex (ascii_text s).
Definition openTotpSecret (box : jsstr) (key : bytes) : option bytes :=
  match split_units 36 box with
  | [version; ivHex; tagHex; cipherHex] =>
      if negb (version === js "v1") then None
      else if (negb (hex_digits ivHex) || negb (hex_digits tagHex) || negb (hex_digits cipherHex))%bool then None
      else
        let iv := buffer_from_hex ivHex in
        let tag := buffer_from_hex tagHex in
        let ciphertext := buffer_from_hex cipherHex in
        if (negb (Nat.eqb (length iv) GCM_IV_LENGTH) || negb (Nat.eqb (length tag) GCM_TAG_LENGTH)
            || Nat.eqb (length ciphertext) 0)%bool then None
        else if negb (Nat.eqb (length key) 32) then None
        else gcm_open key iv ciphertext tag
  | _ => None
  end.
End sealed.

(** * Password hashes *)

Definition SCRYPT_N : Z := 32768.
Definition SCRYPT_r : Z := 8.
Definition SCRYPT_p : Z := 1.
Definition SCRYPT_keyLength : nat := 32.
Definition MAXMEM : Z := 128 * SCRYPT_N * SCRYPT_r * 2.

Section hashes.
Context `{NodeDigests}.
(* Number(text) when it is an integer, None otherwise. *)
Variable integer_of : jsstr → option Z.
Hypothesis integer_of_number : ∀ n, 0 ≤ n → integer_of (number_text n) = Some n.

Definition hashSecret (salt : bytes) (plaintext : jsstr) : throws jsstr :=
  match scrypt plaintext salt SCRYPT_keyLength SCRYPT_N SCRYPT_r SCRYPT_p MAXMEM with
  | None => Throw "scrypt"
  | Some derived =>
      Ret (js "scrypt$" ++ number_text SCRYPT_N ++ 36 :: number_text SCRYPT_r ++ 36 :: number_text SCRYPT_p ++ 36 :: hex_text salt
           ++ 36 :: hex_text derived)
  end.
(* /^[a-f0-9]+$/ *)
Definition lower_hex_digits (s : jsstr) : bool :=
  (negb (s === []) && forallb (λ c, is_hex_unit c && negb ((65 <=? c) && (c <=? 70))) s)%bool.
Definition verifySecret (stored presented : jsstr) : bool :=
  match split_units 36 stored with
  | [scheme; N_text; r_text; p_text; salt_hex; expected_hex] =>
      if negb (scheme === js "scrypt") then false
      else match integer_of N_text, integer_of r_text, integer_of p_text with
      | Some N, Some r, Some p =>
          if ((N <=? 1) || (r <? 1) || (p <? 1))%bool then false
          else if (negb (lower_hex_digits salt_hex) || negb (lower_hex_digits expected_hex))%bool then false
          else
            let salt := buffer_from_hex salt_hex in
            let expected := buffer_from_hex expected_hex in
            if (Nat.eqb (length salt) 0 || Nat.eqb (length expected) 0)%bool then false
            else match scrypt presented salt (length expected) N r p (128 * N * r * 2) with
            | None => false
            | Some derived => (Nat.eqb (length derived) (length expected) && (derived === expected))%bool
            end
      | _, _, _ => false
      end
  | _ => false
  end.
End hashes.

(** * Session handles *)

Section session_tokens.
Context `{Sha256}.
Definition sessionHandleFor (token : jsstr) : string := sha256_hex (utf8 token).
(* random is the value of randomBytes(32) *)
Definition mintSessionToken (random : bytes) : jsstr * string :=
  let token := encodeBase64Url random in (token, sessionHandleFor token).
End session_tokens.

(** * Codes have six digits *)

Lemma of_uint_acc_value u : ∀ acc, Z.pos (Pos.of_uint_acc u acc) = digits_value (Z.pos acc) (NilEmpty.string_of_uint u).
Proof.
  induction u; intros acc; [done|..];
    cbn [Pos.of_uint_acc NilEmpty.string_of_uint digits_value]; rewrite IHu; f_equal; unfold digit_value; cbn; lia.
Qed.
Lemma of_uint_value u : Z.of_N (Pos.of_uint u) = digits_value 0 (NilEmpty.string_of_uint u).
Proof.
  induction u; [done|exact IHu|..]; cbn [Pos.of_uint NilEmpty.string_of_uint digits_value Z.of_N]; by rewrite of_uint_acc_value.
Qed.
Lemma string_of_number_value n : 0 ≤ n → digits_value 0 (string_of_number n) = n.
Proof.
  intros Hn. unfold string_of_number. rewrite <- of_uint_value. change (Z.of_N (N.of_uint (N.to_uint (Z.to_N n))) = n).
  rewrite DecimalN.Unsigned.of_to. lia.
Qed.
Lemma string_of_number_length n (k : nat) : 0 ≤ n < 10 ^ Z.of_nat k → (1 ≤ k)%nat → (String.length (string_of_number n) ≤ k)%nat.
Proof.
  intros Hn Hk. destruct (decide (n = 0)) as [->|Hne]; [by transitivity 1%nat|].
  pose proof (string_of_number_positive n ltac:(lia)) as Hp. pose proof (string_of_number_value n ltac:(lia)) as Hv.
  destruct (string_of_number n) as [|c s]; [done|]. cbn [is_positive_decimal] in Hp. apply andb_prop in Hp as [Hc%in_class_spec Hs].
  cbn [digits_value String.length] in *.
  assert (1 ≤ digit_value c) by (unfold digit_value; change (N_of_ascii "1") with 49%N in Hc; lia).
  pose proof (digits_value_bounds (0 * 10 + digit_value c) s ltac:(lia) Hs) as [Hlow _].
  destruct (le_lt_dec (S (String.length s)) k) as [|Hlt]; [done|exfalso].
  assert (10 ^ Z.of_nat k ≤ 10 ^ Z.of_nat (String.length s)) by (apply Z.pow_le_mono_r; lia). nia.
Qed.
Lemma digits_units s : all_chars is_digit s = true → forallb is_digit_unit (js s) = true.
Proof. induction s as [|c s IH]; [done|]. simpl. intros [Hc Hs]%andb_prop. by rewrite (digit_unit c Hc), IH. Qed.
Lemma length_js s : length (js s) = String.length s.
Proof. induction s as [|c s IH]; [done|]. simpl. by rewrite IH. Qed.
Lemma padded_digits n (k : nat) :
  0 ≤ n < 10 ^ Z.of_nat k → (1 ≤ k)%nat →
  length (padStart0 k (number_text n)) = k ∧ forallb is_digit_unit (padStart0 k (number_text n)) = true.
Proof.
  intros Hn Hk. unfold padStart0, number_text. rewrite (proj2 (Z.ltb_ge _ _)) by lia.
  pose proof (string_of_number_length n k Hn Hk) as Hl. rewrite length_js, length_app, length_replicate, length_js. split; [lia|].
  rewrite forallb_app, digits_units by apply uint_string_digits. rewrite andb_true_r. apply forallb_forall. by intros x [-> _]%list_elem_of_In%elem_of_replicate.
Qed.

Lemma utf8_digits s : forallb is_digit_unit s = true → utf8 s = s.
Proof.
  induction s as [|c s IH]; [done|]. cbn [forallb]. intros [Hc Hs]%andb_prop. unfold is_digit_unit in Hc. cbn [utf8].
  assert (48 ≤ c ≤ 57) as Hr by lia. unfold is_high_surrogate, is_low_surrogate, unit_bytes.
  rewrite !(proj2 (Z.leb_gt _ c)) by lia. cbn [andb]. rewrite (proj2 (Z.ltb_lt c 128)) by lia. by rewrite IH.
Qed.

Section totp_theorems.
Context `{NodeDigests}.

Lemma truncated_nonneg hmac : 0 ≤ truncated hmac.
Proof.
  unfold truncated. rewrite !Z.lor_nonneg, !Z.shiftl_nonneg.
  assert (∀ x m, 0 ≤ m → 0 ≤ Z.land x m) as Hland by (intros x m Hm; apply Z.land_nonneg; by right).
  split_and!; apply Hland; lia.
Qed.
Lemma code_digits secret t : six_digits (totpCodeAt secret t) = true.
Proof.
  unfold totpCodeAt. destruct (padded_digits (truncated (hmac_sha1 secret (be64 (t / TOTP_STEP_SECONDS mod 2 ^ 64))) mod TOTP_MOD) TOTP_DIGITS)
    as [Hl Hd]; [apply Z.mod_pos_bound; done|unfold TOTP_DIGITS; lia|].
  unfold six_digits. by rewrite Hl, Hd.
Qed.
(* The code of a time step. *)
Definition step_code (secret : bytes) (step : Z) : jsstr := totpCodeAt secret (step * TOTP_STEP_SECONDS).
Lemma code_of_step secret t offset : totpCodeAt secret (t + offset * TOTP_STEP_SECONDS) = step_code secret (t / TOTP_STEP_SECONDS + offset).
Proof. unfold step_code, totpCodeAt, TOTP_STEP_SECONDS. by rewrite Z.div_add, Z.div_mul by done. Qed.
Lemma compare_code secret t presented :
  six_digits presented = true → timingSafeEqual (utf8 (totpCodeAt secret t)) (utf8 presented) = Ret (totpCodeAt secret t === presented).
Proof.
  intros [Hl Hp]%andb_prop. pose proof (code_digits secret t) as [Hl' Hc]%andb_prop. unfold timingSafeEqual.
  rewrite !utf8_digits by done. apply Nat.eqb_eq in Hl, Hl'. by rewrite Hl, Hl', Nat.eqb_refl.
Qed.

(** Matching a code never throws, whatever is presented, and answers the latest
    of the current time step and its two neighbours whose code was presented; it
    answers none exactly when no one of the three codes was presented. *)
Theorem totp_match_exact secret presented t :
  let step := t / TOTP_STEP_SECONDS in
  ∃ r, matchTotpStep secret presented t = Ret r ∧
    match r with
    | Some s => step - 1 ≤ s ≤ step + 1 ∧ step_code secret s = presented ∧
        ∀ later, s < later ≤ step + 1 → step_code secret later ≠ presented
    | None => ∀ s, step - 1 ≤ s ≤ step + 1 → step_code secret s ≠ presented
    end.
Proof.
  intros step. unfold matchTotpStep. destruct (six_digits presented) eqn:Hp; cbn [negb].
  - fold step. cbn [match_offsets]. rewrite !compare_code by done. cbn [mbind throws_bind]. rewrite !code_of_step. fold step.
    eexists. split; [done|].
    assert (∀ s, step - 1 ≤ s ≤ step + 1 → s = step + -1 ∨ s = step + 0 ∨ s = step + 1) as Hcases by lia.
    repeat case_bool_decide;
      lazymatch goal with
      | |- _ ∧ _ => split_and!; [lia|lia|done|intros s Hs; destruct (Hcases s ltac:(lia)) as [-> | [-> | ->]]; (done || lia)]
      | |- _ => intros s Hs; by destruct (Hcases s ltac:(lia)) as [-> | [-> | ->]]
      end.
  - exists None. split; [done|]. intros s _ <-. unfold step_code in Hp. by rewrite code_digits in Hp.
Qed.
End totp_theorems.

(** * Base32 in 32-bit integers *)

Lemma to_int32_bit n i : 0 ≤ i < 32 → Z.testbit (to_int32 n) i = Z.testbit n i.
Proof.
  intros Hi. assert (to_int32 n mod 2 ^ 32 = n mod 2 ^ 32) as E0.
  { unfold to_int32. rewrite Zminus_mod, Z.mod_mod, <- Zminus_mod by done. f_equal. lia. }
  rewrite <- (Z.mod_pow2_bits_low (to_int32 n) 32) by lia. rewrite E0. apply Z.mod_pow2_bits_low. lia.
Qed.
(* The bits from the one with weight 2^(n-1) down to the lowest. *)
Fixpoint low_bits (n : nat) (value : Z) : list bool :=
  match n with O => [] | S n' => Z.testbit value (Z.of_nat n') :: low_bits n' value end.
Lemma low_bits_ext n v w : (∀ i, 0 ≤ i < Z.of_nat n → Z.testbit v i = Z.testbit w i) → low_bits n v = low_bits n w.
Proof.
  induction n as [|n IH]; intros Hb; [done|]. cbn [low_bits]. rewrite (Hb (Z.of_nat n)) by lia. rewrite IH; [done|].
  intros i Hi. apply Hb. lia.
Qed.
Lemma five_bits w : 0 ≤ w < 32 → bit_value (low_bits 5 w) = w.
Proof.
  intros Hw. pose proof (forall_range (λ w, bit_value (low_bits 5 w) =? w) 0 32 w eq_refl Hw) as Hd. by apply Z.eqb_eq in Hd.
Qed.
(* The character of five bits read with >>> and &. *)
Lemma group_char value k : 0 ≤ k → k + 5 ≤ 32 →
  base32_char (Z.land (shift_right_unsigned value k) 31) =
  base32_char (bit_value [Z.testbit value (k + 4); Z.testbit value (k + 3); Z.testbit value (k + 2); Z.testbit value (k + 1); Z.testbit value k]).
Proof.
  intros Hk Hk'. set (w := Z.land _ 31). assert (0 ≤ w < 32) as Hw.
  { unfold w. change 31 with (Z.ones 5). rewrite Z.land_ones by done. by apply Z.mod_pos_bound. }
  assert (∀ i, 0 ≤ i < 5 → Z.testbit w i = Z.testbit value (k + i)) as Hbit.
  { intros i Hi. unfold w, shift_right_unsigned. change 31 with (Z.ones 5). rewrite Z.land_spec, Z.ones_spec_low, andb_true_r by lia.
    rewrite Z.shiftr_spec, Z.mod_pow2_bits_low by lia. f_equal. lia. }
  f_equal. rewrite <- (five_bits w Hw) at 1. cbn [low_bits Z.of_nat Pos.of_succ_nat Pos.succ].
  rewrite !Hbit by lia. by rewrite Z.add_0_r.
Qed.

Lemma next_value_bit value byte i : 0 ≤ i < 32 →
  Z.testbit (to_int32 (Z.lor (to_int32 (Z.shiftl value 8)) byte)) i = (Z.testbit (Z.shiftl value 8) i || Z.testbit byte i)%bool.
Proof. intros Hi. by rewrite to_int32_bit, Z.lor_spec, to_int32_bit. Qed.
Lemma byte_high byte i : 0 ≤ byte < 256 → 8 ≤ i → Z.testbit byte i = false.
Proof. intros Hb Hi. rewrite <- (Z.mod_small byte (2 ^ 8)) by (simpl; lia). apply Z.mod_pow2_bits_high. lia. Qed.
(* The new byte's bits come after the ones that wait. *)
Lemma next_value_bits (n : nat) value byte : (n ≤ 4)%nat → 0 ≤ byte < 256 →
  low_bits (n + 8) (to_int32 (Z.lor (to_int32 (Z.shiftl value 8)) byte)) = low_bits n value ++ byte_bits byte.
Proof.
  intros Hn Hb. induction n as [|n IH].
  - change (byte_bits byte) with (low_bits 8 byte). apply low_bits_ext. intros i Hi. rewrite next_value_bit by lia.
    by rewrite Z.shiftl_spec_low by lia.
  - cbn [Nat.add low_bits app]. rewrite IH by lia. f_equal. rewrite next_value_bit by lia.
    rewrite Z.shiftl_spec, (byte_high byte) by lia. rewrite orb_false_r. f_equal. lia.
Qed.

Lemma base32_groups_step a b c d e bs : base32_groups (a :: b :: c :: d :: e :: bs) = base32_char (bit_value [a; b; c; d; e]) :: base32_groups bs.
Proof. done. Qed.
(* The inner loop writes the groups that are complete. *)
Lemma emit_spec (fuel : nat) : ∀ (n : nat) value out, (n ≤ 32)%nat → (n < 5 * fuel + 5)%nat →
  ∃ m : nat, (m < 5)%nat ∧ (emit fuel (Z.of_nat n) value out).1 = Z.of_nat m ∧
    ∀ rest, out ++ base32_groups (low_bits n value ++ rest) =
            (emit fuel (Z.of_nat n) value out).2 ++ base32_groups (low_bits m value ++ rest).
Proof.
  induction fuel as [|fuel IH]; intros n value out Hn Hf; [exists n; split_and!; [lia|done|done]|]. cbn [emit].
  destruct (Z.leb_spec 5 (Z.of_nat n)); [|exists n; split_and!; [lia|done|done]].
  replace (Z.of_nat n - 5) with (Z.of_nat (n - 5)) by lia.
  destruct (IH (n - 5)%nat value (out ++ [base32_char (Z.land (shift_right_unsigned value (Z.of_nat (n - 5))) 31)])) as (m & Hm & Hb & Hout); [lia..|].
  exists m. split_and!; [done|done|]. intros rest. rewrite <- Hout, <- app_assoc. f_equal.
  rewrite group_char by lia. set (k := (n - 5)%nat). replace n with (S (S (S (S (S k))))) by lia.
  cbn [low_bits app]. rewrite base32_groups_step. cbn [app].
  by replace (Z.of_nat (S (S (S (S k))))) with (Z.of_nat k + 4) by lia; replace (Z.of_nat (S (S (S k)))) with (Z.of_nat k + 3) by lia;
    replace (Z.of_nat (S (S k))) with (Z.of_nat k + 2) by lia; replace (Z.of_nat (S k)) with (Z.of_nat k + 1) by lia.
Qed.
Lemma encode_bytes_spec b : ∀ (n : nat) value out, (n < 5)%nat → bytes_ok b = true →
  ∃ (m : nat) value' out', encode_bytes (Z.of_nat n) value out b = (Z.of_nat m, value', out') ∧ (m < 5)%nat ∧
    out ++ base32_groups (low_bits n value ++ List.flat_map byte_bits b) = out' ++ base32_groups (low_bits m value').
Proof.
  induction b as [|x b IH]; intros n value out Hn Hb.
  { exists n, value, out. cbn [List.flat_map]. by rewrite app_nil_r. }
  cbn [bytes_ok forallb] in Hb. apply andb_prop in Hb as [Hx%is_byte_true Hb]. cbn [encode_bytes].
  set (value' := to_int32 _). replace (Z.of_nat n + 8) with (Z.of_nat (n + 8)) by lia.
  destruct (emit_spec 3 (n + 8) value' out) as (m & Hm & Hbits & Hout); [lia..|].
  destruct (emit 3 (Z.of_nat (n + 8)) value' out) as [bits' out']. cbn [fst snd] in *. subst bits'.
  destruct (IH m value' out' Hm Hb) as (m' & value'' & out'' & He & Hm' & Hrest). exists m', value'', out''. split; [done|]. split; [done|].
  rewrite <- Hrest, <- Hout. unfold value'. rewrite next_value_bits by lia. cbn [List.flat_map]. by rewrite <- app_assoc.
Qed.
Lemma last_group (m : nat) value : (0 < m < 5)%nat →
  base32_groups (low_bits m value) = [base32_char (Z.land (to_int32 (Z.shiftl value (5 - Z.of_nat m))) 31)].
Proof.
  intros Hm. set (w := Z.land _ 31).
  assert (0 ≤ w < 32) as Hw by (unfold w; change 31 with (Z.ones 5); rewrite Z.land_ones by done; by apply Z.mod_pos_bound).
  assert (∀ i, 0 ≤ i < 5 → Z.testbit w i = if i <? 5 - Z.of_nat m then false else Z.testbit value (i - (5 - Z.of_nat m))) as Hbit.
  { intros i Hi. unfold w. change 31 with (Z.ones 5). rewrite Z.land_spec, Z.ones_spec_low, andb_true_r, to_int32_bit by lia.
    destruct (Z.ltb_spec i (5 - Z.of_nat m)); [by rewrite Z.shiftl_spec_low|by rewrite Z.shiftl_spec by lia]. }
  rewrite <- (five_bits w Hw). cbn [low_bits Z.of_nat Pos.of_succ_nat Pos.succ]. rewrite !Hbit by lia. clear Hbit Hw w.
  assert (m = 1 ∨ m = 2 ∨ m = 3 ∨ m = 4)%nat as [-> | [-> | [-> | ->]]] by lia; reflexivity.
Qed.
(** The base32 text computed in 32-bit integers, where earlier bytes are shifted
    out of the top and the sign bit is set on the way, is the encoding of RFC 4648
    without padding. *)
Theorem base32_matches_rfc b : bytes_ok b = true → encodeBase32 b = base32_reference b.
Proof.
  intros Hb. unfold encodeBase32, base32_reference.
  destruct (encode_bytes_spec b 0 0 [] ltac:(lia) Hb) as (m & value & out & He & Hm & Hout).
  change (Z.of_nat 0) with 0 in He. rewrite He. cbn [low_bits app] in Hout. rewrite Hout.
  destruct (Z.ltb_spec 0 (Z.of_nat m)).
  - by rewrite last_group by lia.
  - assert (m = 0)%nat as -> by lia. cbn [low_bits base32_groups]. by rewrite app_nil_r.
Qed.

(** * Sealed secrets and password hashes *)

Lemma split_units_sep c s r : c ∉ s → split_units c (s ++ c :: r) = s :: split_units c r.
Proof.
  induction s as [|x s IH]; intros Hc; cbn [app split_units]; [by rewrite Z.eqb_refl|].
  apply not_elem_of_cons in Hc as [Hx Hs]. rewrite (proj2 (Z.eqb_neq x c)) by congruence. by rewrite IH.
Qed.
Lemma split_units_last c s : c ∉ s → split_units c s = [s].
Proof.
  induction s as [|x s IH]; intros Hc; [done|]. apply not_elem_of_cons in Hc as [Hx Hs]. cbn [split_units].
  rewrite (proj2 (Z.eqb_neq x c)) by congruence. by rewrite IH.
Qed.
Lemma digits_no_dollar s : forallb is_digit_unit s = true → 36 ∉ s.
Proof. intros Hs Hin. apply (proj1 (forallb_elem _ _)) with (x := 36) in Hs; done. Qed.
Lemma hex_units b : bytes_ok b = true → ∀ c, c ∈ hex_text b → is_hex_unit c = true ∧ ((65 <=? c) && (c <=? 70))%bool = false ∧ c ≠ 36.
Proof.
  intros Hb. pose proof (hex_string_chars b Hb) as Hc. unfold hex_text. induction (hex_string b) as [|a s IH]; [intros c []%elem_of_nil|].
  cbn [all_chars] in Hc. apply andb_prop in Hc as [Ha Hs]. cbn [js]. intros c [->|Hin]%elem_of_cons; [|by apply IH].
  apply hex_char_range in Ha. unfold is_hex_unit, hex_value.
  destruct Ha as [Ha|Ha]; split_and!; try lia.
  - rewrite (proj2 (Z.leb_gt _ 57)), andb_false_r by lia. rewrite (proj2 (Z.leb_le 97 _)), (proj2 (Z.leb_le _ 102)) by lia. done.
  - rewrite (proj2 (Z.leb_le 48 _)), (proj2 (Z.leb_le _ 57)) by lia. done.
Qed.
Lemma hex_text_digits b : bytes_ok b = true → b ≠ [] → hex_digits (hex_text b) = true ∧ lower_hex_digits (hex_text b) = true ∧ 36 ∉ hex_text b.
Proof.
  intros Hb Hne. pose proof (hex_units b Hb) as Hu.
  assert (hex_text b ≠ []) as Hn.
  { unfold hex_text. intros E0%(f_equal length). rewrite length_js, length_hex_string in E0. destruct b; [done|simpl in E0; lia]. }
  unfold hex_digits, lower_hex_digits. rewrite bool_decide_false by done. cbn [negb andb]. split_and!.
  - apply forallb_elem. intros c Hc. by apply Hu.
  - apply forallb_elem. intros c Hc. destruct (Hu c Hc) as (-> & -> & _). done.
  - intros Hc. by apply Hu in Hc as (_ & _ & ?).
Qed.
Lemma hex_text_read b : bytes_ok b = true → buffer_from_hex (hex_text b) = b.
Proof. intros Hb. unfold buffer_from_hex, hex_text. rewrite ascii_text_js. by apply from_hex_string. Qed.

(** A sealed one-time-password secret is opened with the key it was sealed with:
    the stored text carries the nonce, the tag and the ciphertext, and opening it
    gives the secret back. *)
Theorem open_sealed `{GcmBytes} iv secret key :
  length key = 32%nat → length iv = GCM_IV_LENGTH → bytes_ok key = true → bytes_ok iv = true → bytes_ok secret = true → secret ≠ [] →
  ∃ box, sealTotpSecret iv secret key = Ret box ∧ openTotpSecret box key = Some secret.
Proof.
  intros Hk Hiv Bk Biv Bs Hne. unfold sealTotpSecret. rewrite Hk, Nat.eqb_refl. cbn [negb].
  pose proof (gcm_open_seal key iv secret) as Hopen. pose proof (gcm_tag_length key iv secret) as Htag.
  destruct (gcm_bytes key iv secret Bk Biv Bs) as (Bc & Bt & Hlen). destruct (gcm_seal key iv secret) as [ct tag]. cbn [fst snd] in *.
  eexists. split; [done|]. unfold openTotpSecret.
  assert (iv ≠ [] ∧ tag ≠ [] ∧ ct ≠ []) as (N1 & N2 & N3) by (split_and!; intros ->; [done|done|by destruct secret]).
  destruct (hex_text_digits iv Biv N1) as (D1 & _ & S1), (hex_text_digits tag Bt N2) as (D2 & _ & S2), (hex_text_digits ct Bc N3) as (D3 & _ & S3).
  change (js "v1$" ++ hex_text iv ++ 36 :: hex_text tag ++ 36 :: hex_text ct) with (js "v1" ++ 36 :: hex_text iv ++ 36 :: hex_text tag ++ 36 :: hex_text ct).
  rewrite (split_units_sep 36 (js "v1")) by (apply (bool_decide_unpack _); by vm_compute). rewrite !split_units_sep, split_units_last by done.
  rewrite bool_decide_true by done. rewrite D1, D2, D3, !hex_text_read by done. cbn [negb orb]. rewrite Hiv, Htag. cbn [negb orb Nat.eqb GCM_IV_LENGTH GCM_TAG_LENGTH].
  rewrite Hk, Nat.eqb_refl. destruct ct; [done|]. exact Hopen.
Qed.

Section hash_theorems.
Context `{NodeDigests}.
Variable integer_of : jsstr → option Z.
Hypothesis integer_of_number : ∀ n, 0 ≤ n → integer_of (number_text n) = Some n.

Lemma number_text_digits n : 0 ≤ n → forallb is_digit_unit (number_text n) = true.
Proof. intros Hn. unfold number_text. rewrite (proj2 (Z.ltb_ge _ _)) by lia. apply digits_units, uint_string_digits. Qed.
(** A stored password hash accepts a password exactly when scrypt derives from it,
    under the stored salt and cost, the key it derived from the original. *)
Theorem secret_hash_exact salt plaintext presented stored :
  bytes_ok salt = true → salt ≠ [] → hashSecret salt plaintext = Ret stored →
  verifySecret integer_of stored presented = true ↔
  scrypt presented salt SCRYPT_keyLength SCRYPT_N SCRYPT_r SCRYPT_p MAXMEM = scrypt plaintext salt SCRYPT_keyLength SCRYPT_N SCRYPT_r SCRYPT_p MAXMEM.
Proof.
  intros Bs Ns. unfold hashSecret. destruct (scrypt plaintext _ _ _ _ _ _) as [derived|] eqn:Hd; [|done]. intros <-%Ret_inj.
  pose proof (scrypt_ok _ _ _ _ _ _ _ _ Hd) as [Hl Bd].
  assert (derived ≠ []) as Nd by (by intros ->).
  destruct (hex_text_digits salt Bs Ns) as (_ & D1 & S1), (hex_text_digits derived Bd Nd) as (_ & D2 & S2).
  unfold verifySecret.
  change (js "scrypt$" ++ ?r) with (js "scrypt" ++ 36 :: r).
  rewrite (split_units_sep 36 (js "scrypt")) by (apply (bool_decide_unpack _); by vm_compute).
  rewrite !(split_units_sep 36 (number_text _)) by (apply digits_no_dollar, number_text_digits; done).
  rewrite split_units_sep, split_units_last by done. rewrite bool_decide_true by done. cbn [negb].
  rewrite !integer_of_number by done. cbn [Z.leb Z.ltb Z.compare orb SCRYPT_N SCRYPT_r SCRYPT_p Pos.compare Pos.compare_cont].
  rewrite D1, D2, !hex_text_read by done. cbn [negb orb]. rewrite Hl.
  destruct salt as [|x salt]; [done|]. cbn [length Nat.eqb orb SCRYPT_keyLength].
  change (128 * SCRYPT_N * SCRYPT_r * 2) with MAXMEM.
  destruct (scrypt presented _ _ _ _ _ _) as [derived'|] eqn:Hp; [|split; [done|]].
  - apply scrypt_ok in Hp as [Hl' _]. rewrite Hl', Nat.eqb_refl. cbn [andb]. rewrite bool_decide_eq_true. split; congruence.
  - done.
Qed.
End hash_theorems.

(** * Stand-ins for running the definitions *)

Module SecretSamples.
Definition sum_byte (b : list Z) : Z := fold_left Z.add b 0 mod 256.
Lemma sum_byte_ok b : is_byte (sum_byte b) = true.
Proof. apply is_byte_true. by apply Z.mod_pos_bound. Qed.
Lemma repeated_bytes n x : is_byte x = true → bytes_ok (replicate n x) = true.
Proof. intros Hx. apply forallb_forall. by intros y [-> _]%list_elem_of_In%elem_of_replicate. Qed.
#[export] Instance digests : NodeDigests.
Proof.
  refine {| hmac_sha1 key message := replicate 20 (sum_byte (key ++ message));
            scrypt plaintext salt n N r p maxmem := Some (replicate n (sum_byte (plaintext ++ salt))) |}.
  - done.
  - intros. apply repeated_bytes, sum_byte_ok.
  - intros plaintext salt n N r p maxmem key [= <-]. split; [apply length_replicate|apply repeated_bytes, sum_byte_ok].
Defined.
(* A cipher that leaves the text as it is and tags it with a byte of the key. *)
#[local] Instance plain_cipher : Aes256Gcm.
Proof.
  refine {| gcm_seal key nonce plaintext := (plaintext, replicate 16 (sum_byte key));
            gcm_open key nonce ciphertext tag := if tag === replicate 16 (sum_byte key) then Some ciphertext else None |}.
  - intros. simpl. by rewrite bool_decide_true.
  - done.
Defined.
#[local] Instance plain_cipher_bytes : GcmBytes.
Proof. intros key nonce plaintext Hk Hn Hp. split_and!; [done|apply repeated_bytes, sum_byte_ok|done]. Defined.
Definition read_decimal (s : jsstr) : option Z := number_of_digits (ascii_text s).
Lemma read_decimal_number n : 0 ≤ n → read_decimal (number_text n) = Some n.
Proof.
  intros Hn. unfold read_decimal, number_text. rewrite (proj2 (Z.ltb_ge _ _)) by lia. rewrite ascii_text_js. by apply number_of_string_of_number.
Qed.
Definition key1 : bytes := replicate 32 1.
Definition iv0 : bytes := replicate 12 0.
Definition secret0 : bytes := [102; 111; 111; 98; 97; 114].
Definition salt0 : bytes := replicate 16 5.
Definition stored : jsstr := match hashSecret salt0 (js "hunter2") with Ret s => s | Throw _ => [] end.

Example base32_foobar : encodeBase32 secret0 = js "MZXW6YTBOI".
Proof. by vm_compute. Qed.
Lemma base32_matches_rfc_witness : base32_reference secret0 = js "MZXW6YTBOI".
Proof. rewrite <- (base32_matches_rfc secret0); by vm_compute. Defined.
Lemma open_sealed_witness : ∃ box, sealTotpSecret iv0 secret0 key1 = Ret box ∧ openTotpSecret box key1 = Some secret0.
Proof. by apply (open_sealed iv0 secret0 key1). Defined.
Lemma secret_hash_exact_witness : verifySecret read_decimal stored (js "hunter2") = true ∧ verifySecret read_decimal stored (js "hunter3") ≠ true.
Proof.
  split.
  - by apply (secret_hash_exact read_decimal read_decimal_number salt0 (js "hunter2") (js "hunter2")); [by vm_compute..|].
  - intros Hv. by apply (secret_hash_exact read_decimal read_decimal_number salt0 (js "hunter2") (js "hunter3")) in Hv; [|by vm_compute..].
Defined.
End SecretSamples.
