(* ===== verification/Recognisers.v ===== *)
(** The recognisers written by hand in the other files accept exactly the texts that the
    regular expressions of the sources match. *)

From Stdlib Require Import String.
From S2P Require Import Prelude Json JsonText Regex CanonicalJson Schema Values ClaimSafety Patterns Bytes Timestamps Base64Url Envelope Totp Registry SubmittedArtifacts Receipts.

Import Regexp.
Local Open Scope Z_scope.

(** * Anchored patterns *)

Definition plain_flags (f : flags) : Prop := ignoreCase f = false ∧ multiline f = false.
Lemma accepts_anchored f p r s : plain_flags f →
  test f (Seq LineStart (literal p r)) s = true ↔ ∃ t, s = p ++ t ∧ accepts f r (rev p, t).
Proof.
  intros [Hi Hm]. rewrite test_anchored, accepts_literal by done. setoid_rewrite app_nil_r. done.
Qed.
Lemma in_set_case f set c : ignoreCase f = false → in_set f set c = xorb (negated set) (in_ranges (ranges set) c).
Proof. intros Hi. unfold in_set, variants. rewrite Hi. cbn [negb existsb]. by rewrite orb_false_r. Qed.
Lemma forallb_ext {A} (p q : A → bool) l : (∀ x, p x = q x) → forallb p l = forallb q l.
Proof. intros E. induction l as [|x l IH]; [done|]. cbn. by rewrite E, IH. Qed.
(* An anchored run of one set of characters after a literal. *)
Lemma test_run f p set least more g s : plain_flags f →
  test f (Seq LineStart (literal p (seq (Repeat least more g (Char set)) LineEnd))) s = true ↔
  ∃ t, s = p ++ t ∧ forallb (in_set f set) t = true ∧ (least ≤ length t)%nat ∧ allows more (length t - least).
Proof.
  intros Hf. rewrite accepts_anchored by done. destruct Hf as [_ Hm]. by setoid_rewrite (accepts_run_to_end f set least more g _ _ Hm).
Qed.
(* The slug after a literal. *)
Lemma test_slug f p s : plain_flags f →
  test f (Seq LineStart (literal p slug_tail)) s = true ↔ ∃ t, s = p ++ t ∧ is_slug t = true.
Proof.
  intros Hf. rewrite accepts_anchored by done. destruct Hf as [Hi Hm].
  assert (∀ pre t, accepts f slug_tail (pre, t) ↔ is_slug t = true) as Hs; [|by setoid_rewrite Hs].
  assert (∀ c, in_set f slug_range c = slug_character c) as Hc.
  { intros c. rewrite <- in_slug, !in_set_case by done. done. }
  intros pre t. unfold slug_tail, class. rewrite accepts_char. destruct t as [|c r]; [done|].
  rewrite accepts_run_to_end, in_set_case by done. cbn [negated ranges is_slug allows]. rewrite xorb_false_l.
  fold (is_alphanumeric c). rewrite (forallb_ext _ _ r Hc), !andb_true_iff, !Nat.leb_le. intuition lia.
Qed.

(** * Latin texts *)

Definition unit (a : ascii) : Z := Z.of_N (N_of_ascii a).
Lemma unit_inj a b : unit a = unit b → a = b.
Proof. intros E%N2Z.inj. by rewrite <- (ascii_N_embedding a), E, ascii_N_embedding. Qed.
Lemma js_String a s : js (String a s) = unit a :: js s.
Proof. reflexivity. Qed.
Lemma forallb_js (q : Z → bool) p s : (∀ a, q (unit a) = p a) → forallb q (js s) = all_chars p s.
Proof. intros E. induction s as [|a s IH]; [done|]. rewrite js_String. cbn. by rewrite E, IH. Qed.
Lemma js_app_inv p s t : js s = js p ++ t → ∃ r, strip p s = Some r ∧ t = js r.
Proof.
  revert s. induction p as [|a p IH]; intros s; [intros E; exists s; by rewrite E|].
  destruct s as [|b s]; [done|]. rewrite !js_String. cbn [app]. intros E. injection E as Eu Es. apply unit_inj in Eu as ->.
  cbn. rewrite Ascii.eqb_refl. by apply IH.
Qed.
Lemma js_strip p s r : strip p s = Some r → js s = js p ++ js r.
Proof.
  revert s. induction p as [|a p IH]; intros s; [by intros [= ->]|]. destruct s as [|b s]; [done|]. cbn [strip].
  destruct (Ascii.eqb_spec a b) as [->|]; [|done]. intros H. rewrite !js_String, (IH s H). done.
Qed.
Ltac all_ascii := intros [[] [] [] [] [] [] [] []]; reflexivity.
Lemma alphanumeric_ascii a : is_alphanumeric (unit a) = (is_lower a || is_digit a)%bool.
Proof. revert a. all_ascii. Qed.
Lemma slug_ascii a : slug_character (unit a) = is_slug_char a.
Proof. revert a. all_ascii. Qed.
Definition hex_set : charset := {| negated := false; ranges := [(97, 102); (48, 57)] |}.
Lemma hex_ascii a : in_set flags_none hex_set (unit a) = is_hex_char a.
Proof. revert a. all_ascii. Qed.
Lemma is_slug_js s : is_slug (js s) = isSlug s.
Proof.
  destruct s as [|a s]; [done|]. rewrite js_String. cbn [is_slug isSlug].
  by rewrite alphanumeric_ascii, (forallb_js _ _ s slug_ascii), length_js.
Qed.

Lemma plain_none : plain_flags flags_none.
Proof. done. Qed.
Lemma slug_recogniser prefix s :
  test flags_none (Seq LineStart (literal (js prefix) slug_tail)) (js s) = match strip prefix s with Some slug => isSlug slug | None => false end.
Proof.
  apply eq_true_iff_eq. rewrite (test_slug _ _ _ plain_none). split.
  - intros (t & E & Ht). destruct (js_app_inv _ _ _ E) as (r & -> & ->). by rewrite <- is_slug_js.
  - destruct (strip prefix s) as [r|] eqn:E; [|done]. intros Hr. exists (js r). by rewrite is_slug_js, <- (js_strip _ _ _ E).
Qed.
Lemma hex_recogniser prefix s :
  test flags_none (Seq LineStart (literal (js prefix) (seq (Repeat 64 (Some 0%nat) true (Char hex_set)) LineEnd))) (js s) =
  match strip prefix s with Some hex => SHA256_HEX_PATTERN hex | None => false end.
Proof.
  apply eq_true_iff_eq. rewrite (test_run _ _ _ _ _ _ _ plain_none). unfold SHA256_HEX_PATTERN. cbn [allows]. split.
  - intros (t & E & Ht & Hl & Hm). destruct (js_app_inv _ _ _ E) as (r & -> & ->).
    rewrite (forallb_js _ _ r hex_ascii) in Ht. rewrite length_js in Hl, Hm. rewrite Ht. apply Nat.eqb_eq. lia.
  - destruct (strip prefix s) as [r|] eqn:E; [|done]. intros [Ht Hl%Nat.eqb_eq]%andb_prop. exists (js r).
    rewrite (forallb_js _ _ r hex_ascii), length_js, <- (js_strip _ _ _ E). split_and!; (done || lia).
Qed.

(** * The patterns of the sources *)

Lemma base64_ascii c : in_ranges [(65, 90); (97, 122); (48, 57); (95, 95); (45, 45)] c = bool_decide (is_Some (base64_value c)).
Proof.
  apply eq_true_iff_eq. rewrite bool_decide_eq_true. unfold base64_value, in_ranges. cbn [existsb fst snd].
  repeat match goal with |- context [if ?b then Some _ else _] => destruct b eqn:? end;
    (split; [intros _; eexists; reflexivity|intros _; lia]) || (split; [lia|by intros []]).
Qed.
Lemma base64_plain s : BASE64URL_PATTERN s = true → plain s = true.
Proof.
  apply forallb_weaken. intros c. rewrite <- base64_ascii. unfold in_ranges, is_high_surrogate. cbn [existsb fst snd]. lia.
Qed.
Lemma base64url_recogniser s : test_u (re "^[A-Za-z0-9_-]*$") s = BASE64URL_PATTERN s.
Proof.
  unfold test_u, test_flags. apply eq_true_iff_eq.
  set (set := {| negated := false; ranges := [(65, 90); (97, 122); (48, 57); (95, 95); (45, 45)] |}).
  change (re "^[A-Za-z0-9_-]*$") with (Seq LineStart (literal [] (seq (Repeat 0 None true (Char set)) LineEnd))).
  rewrite test_run by done. cbn [app allows]. unfold BASE64URL_PATTERN at 1.
  assert (∀ t, forallb (in_set flags_u set) t = BASE64URL_PATTERN t) as E.
  { intros t. apply forallb_ext. intros c. rewrite <- base64_ascii, in_set_case by done. apply xorb_false_l. }
  setoid_rewrite E. fold (BASE64URL_PATTERN s). split.
  - intros (t & Et & Ht & _). rewrite (code_points_plain_eq s); rewrite Et; [done|by apply base64_plain].
  - intros Ht. exists s. split_and!; try done; [|lia]. by apply plain_points, base64_plain.
Qed.

(* Digits between two anchors, without and with the flag i. *)
Lemma anchored_run f set least more g s : plain_flags f →
  test f (Seq LineStart (seq (Repeat least more g (Char set)) LineEnd)) s = true ↔
  forallb (in_set f set) s = true ∧ (least ≤ length s)%nat ∧ allows more (length s - least).
Proof. intros [_ Hm]. rewrite test_anchored by done. by apply accepts_run_to_end. Qed.
Lemma nonempty_exact (s : jsstr) : negb (s === []) = true ↔ (1 ≤ length s)%nat.
Proof. rewrite negb_true_iff, bool_decide_eq_false. destruct s; cbn; split; (done || lia). Qed.
Lemma six_digits_recogniser s : test flags_none (re "^\d{6}$") s = six_digits s.
Proof.
  set (set := {| negated := false; ranges := digit_ranges |}).
  change (re "^\d{6}$") with (Seq LineStart (seq (Repeat 6 (Some 0%nat) true (Char set)) LineEnd)).
  apply eq_true_iff_eq. rewrite anchored_run by done. cbn [allows]. unfold six_digits. rewrite andb_true_iff, Nat.eqb_eq.
  rewrite (forallb_ext (in_set flags_none set) is_digit_unit).
  - intuition lia.
  - intros c. rewrite in_set_case by done. cbn [negated ranges set]. rewrite xorb_false_l. cbn. by rewrite orb_false_r.
Qed.
Lemma lower_hex_recogniser s : test flags_none (re "^[a-f0-9]+$") s = lower_hex_digits s.
Proof.
  change (re "^[a-f0-9]+$") with (Seq LineStart (seq (Repeat 1 None true (Char hex_set)) LineEnd)).
  apply eq_true_iff_eq. rewrite anchored_run by done. cbn [allows]. unfold lower_hex_digits. rewrite andb_true_iff, nonempty_exact.
  rewrite (forallb_ext (in_set flags_none hex_set) (λ c, is_hex_unit c && negb ((65 <=? c) && (c <=? 70)))%bool); [intuition|].
  intros c. rewrite in_set_case by done. cbn [negated ranges hex_set]. rewrite xorb_false_l.
  apply eq_true_iff_eq. unfold is_hex_unit, hex_value, in_ranges. cbn [existsb fst snd].
  repeat match goal with |- context [if ?b then Some _ else _] => destruct b eqn:? end; cbn [bool_decide];
    rewrite ?bool_decide_true by done; rewrite ?bool_decide_false by (by intros []); lia.
Qed.
Lemma hex_fold_recogniser s : test {| ignoreCase := true; multiline := false; unicode := false |} (re "^[a-f0-9]+$") s = hex_digits s.
Proof.
  set (f := {| ignoreCase := true; multiline := false; unicode := false |}).
  change (re "^[a-f0-9]+$") with (Seq LineStart (seq (Repeat 1 None true (Char hex_set)) LineEnd)).
  apply eq_true_iff_eq. rewrite test_anchored by done. rewrite accepts_run_to_end by done. cbn [allows].
  unfold hex_digits. rewrite andb_true_iff, nonempty_exact. rewrite (forallb_ext (in_set f hex_set) is_hex_unit); [intuition|].
  intros c. unfold in_set, variants. cbn [negated ranges hex_set ignoreCase unicode f negb andb]. rewrite xorb_false_l.
  unfold is_hex_unit, hex_value. apply eq_true_iff_eq. unfold in_ranges.
  repeat match goal with |- context [if ?b then Some _ else _] => destruct b eqn:? end;
  repeat match goal with |- context [if ?b then _ :: _ else _] => destruct b eqn:? end; cbn [existsb fst snd];
    rewrite ?bool_decide_true by done; rewrite ?bool_decide_false by (by intros []); lia.
Qed.

(** The identifiers that the program tests with regular expressions are recognised in
    this development by functions written for each; on every text each function answers
    what the expression of the source answers when the engine runs it. *)
Theorem recognisers_are_the_patterns :
  (∀ s, test flags_none (re "^review:[a-z0-9][a-z0-9_-]{2,63}$") (js s) = REVIEW_ID_PATTERN s) ∧
  (∀ s, test flags_none (re "^sha256:[a-f0-9]{64}$") (js s) = SHA256_ID_PATTERN s) ∧
  (∀ s, test flags_none (re "^[a-f0-9]{64}$") (js s) = SHA256_HEX_PATTERN s) ∧
  Forall2 (λ (source : string * string) (pattern : string * (string → bool)),
      source.1 = pattern.1 ∧ ∀ s, test flags_none (re source.2) (js s) = pattern.2 s)
    [("manifest_id", "^sha256:[a-f0-9]{64}$"); ("evidence_bundle_id", "^sha256:[a-f0-9]{64}$");
     ("review_request_id", "^review_request:[a-z0-9][a-z0-9_-]{2,63}$");
     ("bundle_instance_id", "^bundle_instance:[a-z0-9][a-z0-9_-]{2,63}$");
     ("submission_attempt_id", "^submission_attempt:[a-z0-9][a-z0-9_-]{2,63}$")]%string
    SUBMISSION_IDENTITY_PATTERNS ∧
  (∀ s, test_u (re "^[A-Za-z0-9_-]*$") s = BASE64URL_PATTERN s) ∧
  (∀ s, test flags_none (re "^\d{6}$") s = six_digits s) ∧
  (∀ s, test flags_none (re "^[a-f0-9]+$") s = lower_hex_digits s) ∧
  (∀ s, test {| ignoreCase := true; multiline := false; unicode := false |} (re "^[a-f0-9]+$") s = hex_digits s).
Proof.
  assert (∀ s, test flags_none (re "^sha256:[a-f0-9]{64}$") (js s) = SHA256_ID_PATTERN s) as Hid.
  { exact (hex_recogniser "sha256:"). }
  split_and!; [exact (slug_recogniser "review:")|exact Hid|exact (hex_recogniser "")| |exact base64url_recogniser
    |exact six_digits_recogniser|exact lower_hex_recogniser|exact hex_fold_recogniser].
  unfold SUBMISSION_IDENTITY_PATTERNS. repeat constructor; cbn [fst snd]; try exact Hid.
  - exact (slug_recogniser "review_request:").
  - exact (slug_recogniser "bundle_instance:").
  - exact (slug_recogniser "submission_attempt:").
Qed.

(** * The patterns of the registry *)

Fixpoint patterns_of (schema : json) : list jsstr :=
  match schema with
  | JArray items => List.flat_map patterns_of items
  | JObject fields =>
      List.flat_map (λ kv, match kv.2 with JString pattern => if kv.1 === js "pattern" then [pattern] else [] | _ => [] end
                           ++ patterns_of kv.2) fields
  | _ => []
  end.
Definition registry_patterns : list jsstr := List.flat_map (λ kv, patterns_of kv.2) protocolV0Schemas.
Lemma registry_patterns_parse : forallb (λ p, bool_decide (is_Some (parse p))) registry_patterns = true.
Proof. by vm_compute. Qed.

(** Every pattern that a schema of the registry states is an expression the engine
    reads, and a text satisfies the pattern exactly when the expression matches some
    part of it: no pattern of the registry is ignored or answered by default. *)
Theorem registry_patterns_exact : ∀ pattern, pattern ∈ registry_patterns →
  ∃ r, parse pattern = Some r ∧ ∀ value, regexp_test pattern value = true ↔ occurs flags_none r value.
Proof.
  intros p Hp. pose proof registry_patterns_parse as Hall. rewrite forallb_forall in Hall.
  specialize (Hall p (proj1 (list_elem_of_In _ _) Hp)). apply bool_decide_eq_true in Hall as [r Hr]. exists r. split; [done|].
  intros value. unfold regexp_test. rewrite Hr. apply test_exact.
Qed.
Lemma registry_patterns_exact_witness :
  ∃ r, parse (js "^review:[a-z0-9][a-z0-9_-]{2,63}$") = Some r ∧
       ∀ value, regexp_test (js "^review:[a-z0-9][a-z0-9_-]{2,63}$") value = true ↔ occurs flags_none r value.
Proof. apply registry_patterns_exact. apply (bool_decide_unpack (_ ∈ registry_patterns)). by vm_compute. Defined.
