(* ===== verification/Sessions.v ===== *)
(** Web sessions (packages/identity-store/src/memory/session-store.ts and
    postgres/session-store.ts) and the choice of a grant (actor.ts). Dates are
    milliseconds since the epoch. *)
From S2P Require Import Prelude Patterns.

Local Open Scope Z_scope.

Definition SESSION_IDLE_TIMEOUT_MS : Z := 30 * 60 * 1000.
Definition SESSION_ABSOLUTE_LIFETIME_MS : Z := 12 * 60 * 60 * 1000.
Definition ACTIVITY_DEBOUNCE_MS : Z := 60 * 1000.

Inductive SecondFactorState := not_required | pending | satisfied.
Record ResolvedSession := {
  session_handle : string; session_account_id : string; second_factor_state : SecondFactorState
}.
Record IssueSessionInput := {
  issue_handle : string; issue_account_id : string; issued_at : Z; absolute_expires_at : Z;
  issue_second_factor : SecondFactorState
}.
Inductive RevocationReason := logout | operator_revoked | rotated.
#[export] Instance SecondFactorState_eq_dec : EqDecision SecondFactorState.
Proof. solve_decision. Defined.
#[export] Instance ResolvedSession_eq_dec : EqDecision ResolvedSession.
Proof. solve_decision. Defined.
#[export] Instance IssueSessionInput_eq_dec : EqDecision IssueSessionInput.
Proof. solve_decision. Defined.
#[export] Instance RevocationReason_eq_dec : EqDecision RevocationReason.
Proof. solve_decision. Defined.

Definition resolved (row : IssueSessionInput) : ResolvedSession :=
  {| session_handle := issue_handle row; session_account_id := issue_account_id row;
     second_factor_state := issue_second_factor row |}.

(** * The memory store *)

Module MemorySessions.
Record store := {
  sessions : list (string * IssueSessionInput);
  revocations : list (string * RevocationReason);
  lastActivity : list (string * Z)
}.
Definition empty : store := {| sessions := []; revocations := []; lastActivity := [] |}.

Definition issue (st : store) (input : IssueSessionInput) : store :=
  {| sessions := JsMap.set (issue_handle input) input (sessions st);
     revocations := revocations st; lastActivity := lastActivity st |}.
Definition resolve (st : store) (handle : string) (now : Z) : option ResolvedSession :=
  row ← JsMap.get handle (sessions st);
  if negb (now <? absolute_expires_at row) then None
  else if JsMap.has handle (revocations st) then None
  else
    let last := match JsMap.get handle (lastActivity st) with
                | Some activity => if issued_at row <? activity then activity else issued_at row
                | None => issued_at row
                end in
    if negb (now - last <? SESSION_IDLE_TIMEOUT_MS) then None else Some (resolved row).
Definition touch (st : store) (handle : string) (now : Z) : store :=
  if match JsMap.get handle (lastActivity st) with Some newest => now - ACTIVITY_DEBOUNCE_MS <? newest | None => false end
  then st
  else {| sessions := sessions st; revocations := revocations st; lastActivity := JsMap.set handle now (lastActivity st) |}.
Definition revoke_handle (reason : RevocationReason) (revs : list (string * RevocationReason)) (handle : string) :=
  if JsMap.has handle revs then revs else JsMap.set handle reason revs.
Definition revoke (st : store) (handle : string) (reason : RevocationReason) : store :=
  {| sessions := sessions st; revocations := revoke_handle reason (revocations st) handle; lastActivity := lastActivity st |}.
Definition revokeAllForAccount (st : store) (accountId : string) (reason : RevocationReason) : store :=
  {| sessions := sessions st;
     revocations := fold_left (revoke_handle reason)
       (List.map issue_handle (List.filter (λ row, issue_account_id row === accountId) (JsMap.values (sessions st))))
       (revocations st);
     lastActivity := lastActivity st |}.
End MemorySessions.

(** * The Postgres store *)

Module PostgresSessions.
(* [account] holds the account ids that web_session refers to. *)
Record tables := {
  account : list string;
  web_session : list IssueSessionInput;
  web_session_revocation : list (string * RevocationReason);
  web_session_activity : list (string * Z)
}.
Definition empty (accounts : list string) : tables :=
  {| account := accounts; web_session := []; web_session_revocation := []; web_session_activity := [] |}.
Definition known (t : tables) (handle : string) : bool := existsb (λ s, issue_handle s === handle) (web_session t).
Definition revoked (t : tables) (handle : string) : bool := existsb (λ r : string * RevocationReason, r.1 === handle) (web_session_revocation t).
(* max(occurred_at) of one session *)
Fixpoint max_of (l : list Z) : option Z :=
  match l with
  | [] => None
  | x :: l' => Some (match max_of l' with Some y => Z.max x y | None => x end)
  end.
Definition activity_of (handle : string) (rows : list (string * Z)) : list Z :=
  List.map snd (List.filter (λ a : string * Z, a.1 === handle) rows).

(* What web_session asks of a row: CHECK (session_handle ~ '^[a-f0-9]{64}$') and
   REFERENCES account (account_id). *)
Definition admits (accounts : list string) (input : IssueSessionInput) : bool :=
  (SHA256_HEX_PATTERN (issue_handle input) && bool_decide (issue_account_id input ∈ accounts))%bool.
(* The primary key refuses a second row of one handle. *)
Definition issue (t : tables) (input : IssueSessionInput) : throws () * tables :=
  if negb (admits (account t) input) then (Throw "new row violates a constraint of web_session", t)
  else if known t (issue_handle input) then (Throw "duplicate key value violates unique constraint", t)
  else (Ret (), {| account := account t; web_session := web_session t ++ [input];
                   web_session_revocation := web_session_revocation t; web_session_activity := web_session_activity t |}).
Definition live (t : tables) (handle : string) (now idleCutoff : Z) (s : IssueSessionInput) : bool :=
  ((issue_handle s === handle) && negb (revoked t (issue_handle s)) && (now <? absolute_expires_at s)
   && (idleCutoff <? Z.max (issued_at s) (default (issued_at s) (max_of (activity_of (issue_handle s) (web_session_activity t))))))%bool.
Definition resolve (t : tables) (handle : string) (now : Z) : option ResolvedSession :=
  let idleCutoff := now - SESSION_IDLE_TIMEOUT_MS in
  resolved <$> head (List.filter (live t handle now idleCutoff) (web_session t)).
(* The foreign key refuses the activity of an unknown session. *)
Definition touch (t : tables) (handle : string) (now : Z) : throws () * tables :=
  if existsb (λ at_, now - 60000 <? at_) (activity_of handle (web_session_activity t)) then (Ret (), t)
  else if negb (known t handle) then (Throw "insert violates foreign key constraint", t)
  else (Ret (), {| account := account t; web_session := web_session t; web_session_revocation := web_session_revocation t;
                   web_session_activity := web_session_activity t ++ [(handle, now)] |}).
(* INSERT ... SELECT ... ON CONFLICT DO NOTHING over the sessions that match. *)
Definition insert_revocations (reason : RevocationReason) (rows : list IssueSessionInput) (revs : list (string * RevocationReason)) :=
  fold_left (λ acc s, if existsb (λ r : string * RevocationReason, r.1 === issue_handle s) acc then acc
                      else acc ++ [(issue_handle s, reason)]) rows revs.
Definition revoke (t : tables) (handle : string) (reason : RevocationReason) : tables :=
  {| account := account t; web_session := web_session t;
     web_session_revocation := insert_revocations reason (List.filter (λ s, issue_handle s === handle) (web_session t)) (web_session_revocation t);
     web_session_activity := web_session_activity t |}.
Definition revokeAllForAccount (t : tables) (accountId : string) (reason : RevocationReason) : tables :=
  {| account := account t; web_session := web_session t;
     web_session_revocation := insert_revocations reason (List.filter (λ s, issue_account_id s === accountId) (web_session t)) (web_session_revocation t);
     web_session_activity := web_session_activity t |}.
End PostgresSessions.

(** * Runs of a store *)

Inductive session_op :=
  | Issue (input : IssueSessionInput)
  | Touch (handle : string) (now : Z)
  | Revoke (handle : string) (reason : RevocationReason)
  | RevokeAll (accountId : string) (reason : RevocationReason).
Definition memory_op (st : MemorySessions.store) (op : session_op) : MemorySessions.store :=
  match op with
  | Issue input => MemorySessions.issue st input
  | Touch handle now => MemorySessions.touch st handle now
  | Revoke handle reason => MemorySessions.revoke st handle reason
  | RevokeAll accountId reason => MemorySessions.revokeAllForAccount st accountId reason
  end.
Definition postgres_op (t : PostgresSessions.tables) (op : session_op) : throws () * PostgresSessions.tables :=
  match op with
  | Issue input => PostgresSessions.issue t input
  | Touch handle now => PostgresSessions.touch t handle now
  | Revoke handle reason => (Ret (), PostgresSessions.revoke t handle reason)
  | RevokeAll accountId reason => (Ret (), PostgresSessions.revokeAllForAccount t accountId reason)
  end.
Definition run_memory (ops : list session_op) (st : MemorySessions.store) := fold_left memory_op ops st.
Definition run_postgres (ops : list session_op) (t : PostgresSessions.tables) := fold_left (λ t op, (postgres_op t op).2) ops t.
(* A handle that the table admits is issued once, for an existing account; only issued
   sessions are touched and revoked. *)
Fixpoint orderly (accounts issued : list string) (ops : list session_op) : bool :=
  match ops with
  | [] => true
  | Issue input :: ops' =>
      (PostgresSessions.admits accounts input && negb (bool_decide (issue_handle input ∈ issued)) &&
       orderly accounts (issue_handle input :: issued) ops')%bool
  | Touch handle _ :: ops' => (bool_decide (handle ∈ issued) && orderly accounts issued ops')%bool
  | Revoke handle _ :: ops' => (bool_decide (handle ∈ issued) && orderly accounts issued ops')%bool
  | RevokeAll _ _ :: ops' => orderly accounts issued ops'
  end.

(** * A revoked session stays revoked *)

Lemma bool_elem_cons {A} `{EqDecision A} (h x : A) l : bool_decide (h ∈ x :: l) = ((h === x) || bool_decide (h ∈ l))%bool.
Proof. rewrite (bool_decide_ext _ _ (elem_of_cons l h x)). apply bool_decide_or. Qed.
Lemma has_revoke_handle reason revs h h' :
  JsMap.has h (MemorySessions.revoke_handle reason revs h') = ((h === h') || JsMap.has h revs)%bool.
Proof.
  unfold MemorySessions.revoke_handle. destruct (JsMap.has h' revs) eqn:E0.
  - case_bool_decide; [by subst; rewrite E0|done].
  - destruct (JsMap.has h (JsMap.set h' reason revs)) eqn:E1; symmetry.
    + apply JsMap.has_true in E1. rewrite JsMap.get_set in E1. case_decide; [subst; by rewrite bool_decide_true|].
      rewrite bool_decide_false by congruence. by apply JsMap.has_true.
    + apply JsMap.has_false in E1. rewrite JsMap.get_set in E1. case_decide; [done|].
      rewrite bool_decide_false by congruence. by apply JsMap.has_false.
Qed.
Lemma has_revoke_handles reason hs : ∀ revs h,
  JsMap.has h (fold_left (MemorySessions.revoke_handle reason) hs revs) = (bool_decide (h ∈ hs) || JsMap.has h revs)%bool.
Proof.
  induction hs as [|x hs IH]; intros revs h; [done|]. cbn [fold_left]. rewrite IH, has_revoke_handle, bool_elem_cons.
  by destruct (h === x), (bool_decide (h ∈ hs)).
Qed.
Lemma memory_op_revoked st op h :
  JsMap.has h (MemorySessions.revocations st) = true → JsMap.has h (MemorySessions.revocations (memory_op st op)) = true.
Proof.
  intros Hh. destruct op; cbn [memory_op]; [done| | |].
  - unfold MemorySessions.touch. by destruct (match _ with Some _ => _ | None => _ end).
  - simpl. by rewrite has_revoke_handle, Hh, orb_true_r.
  - simpl. by rewrite has_revoke_handles, Hh, orb_true_r.
Qed.
Lemma revoked_insert reason rows : ∀ revs h,
  existsb (λ r : string * RevocationReason, r.1 === h) (PostgresSessions.insert_revocations reason rows revs) =
    (bool_decide (h ∈ List.map issue_handle rows) || existsb (λ r : string * RevocationReason, r.1 === h) revs)%bool.
Proof.
  unfold PostgresSessions.insert_revocations. induction rows as [|x rows IH]; intros revs h; [done|]. cbn [fold_left List.map].
  rewrite IH, bool_elem_cons. assert (bool_decide (h = issue_handle x) = bool_decide (issue_handle x = h)) as -> by (apply bool_decide_ext; naive_solver).
  destruct (existsb (λ r : string * RevocationReason, r.1 === issue_handle x) revs) eqn:E0.
  - destruct (issue_handle x === h) eqn:E1; [|done]. apply bool_decide_eq_true in E1. subst h. by rewrite E0, !orb_true_r.
  - rewrite existsb_app. cbn [existsb fst]. rewrite orb_false_r.
    generalize (existsb (λ r : string * RevocationReason, r.1 === h) revs). intros b. by destruct (issue_handle x === h), (bool_decide (h ∈ _)), b.
Qed.
Lemma postgres_op_revoked t op h :
  PostgresSessions.revoked t h = true → PostgresSessions.revoked (postgres_op t op).2 h = true.
Proof.
  unfold PostgresSessions.revoked. intros Hh. destruct op; cbn [postgres_op snd].
  - unfold PostgresSessions.issue. destruct (PostgresSessions.admits _ _); [|done]. by destruct (PostgresSessions.known _ _).
  - unfold PostgresSessions.touch. destruct (existsb _ (PostgresSessions.activity_of _ _)); [done|]. by destruct (negb _).
  - simpl. by rewrite revoked_insert, Hh, orb_true_r.
  - simpl. by rewrite revoked_insert, Hh, orb_true_r.
Qed.
Lemma run_memory_revoked ops : ∀ st h,
  JsMap.has h (MemorySessions.revocations st) = true → JsMap.has h (MemorySessions.revocations (run_memory ops st)) = true.
Proof. induction ops as [|op ops IH]; intros st h Hh; [done|]. by apply IH, memory_op_revoked. Qed.
Lemma run_postgres_revoked ops : ∀ t h, PostgresSessions.revoked t h = true → PostgresSessions.revoked (run_postgres ops t) h = true.
Proof. induction ops as [|op ops IH]; intros t h Hh; [done|]. by apply IH, postgres_op_revoked. Qed.

(** After a revocation no sequence of operations makes the session resolve again,
    in either store. *)
Theorem revoked_session_never_resolves st t handle reason ops now :
  PostgresSessions.known t handle = true →
  MemorySessions.resolve (run_memory ops (MemorySessions.revoke st handle reason)) handle now = None ∧
  PostgresSessions.resolve (run_postgres ops (PostgresSessions.revoke t handle reason)) handle now = None.
Proof.
  intros Hknown. split.
  - unfold MemorySessions.resolve. destruct (JsMap.get handle (MemorySessions.sessions _)) as [row|]; [|done]. cbn [mbind option_bind].
    destruct (negb (now <? _)); [done|]. rewrite run_memory_revoked; [done|]. simpl. by rewrite has_revoke_handle, bool_decide_true.
  - unfold PostgresSessions.resolve.
    assert (PostgresSessions.revoked (run_postgres ops (PostgresSessions.revoke t handle reason)) handle = true) as Hr.
    { apply run_postgres_revoked. unfold PostgresSessions.revoked. simpl. rewrite revoked_insert.
      unfold PostgresSessions.known in Hknown. apply existsb_exists in Hknown as (s & Hs & He%bool_decide_eq_true).
      rewrite bool_decide_true; [done|]. apply list_elem_of_In, in_map_iff. exists s. split; [done|].
      apply filter_In. split; [done|]. by apply bool_decide_eq_true. }
    destruct (List.filter _ _) as [|s l] eqn:Hf; [done|]. exfalso.
    assert (In s (List.filter (PostgresSessions.live (run_postgres ops (PostgresSessions.revoke t handle reason)) handle now (now - SESSION_IDLE_TIMEOUT_MS))
      (PostgresSessions.web_session (run_postgres ops (PostgresSessions.revoke t handle reason))))) as Hin by (rewrite Hf; by left).
    apply filter_In in Hin as [_ Hl]. unfold PostgresSessions.live in Hl. bool_simpl. subst handle. congruence.
Qed.

(** * The two stores agree *)

Import PostgresSessions.
Definition issued_handles (t : tables) : list string := List.map issue_handle (web_session t).
Record agree (st : MemorySessions.store) (t : tables) : Prop := {
  agree_keys : NoDup (issued_handles t);
  agree_sessions : MemorySessions.sessions st = List.map (λ s, (issue_handle s, s)) (web_session t);
  agree_revoked : ∀ h, JsMap.has h (MemorySessions.revocations st) = revoked t h;
  agree_activity : ∀ h, JsMap.get h (MemorySessions.lastActivity st) = max_of (activity_of h (web_session_activity t))
}.

Lemma max_of_app l x : max_of (l ++ [x]) = Some (match max_of l with Some m => Z.max m x | None => x end).
Proof. induction l as [|y l IH]; [done|]. cbn [app max_of]. rewrite IH. destruct (max_of l); f_equal; lia. Qed.
Lemma exists_above_max l c : existsb (λ x, c <? x) l = match max_of l with Some m => c <? m | None => false end.
Proof. induction l as [|y l IH]; [done|]. cbn [existsb max_of]. rewrite IH. destruct (max_of l); [|by rewrite orb_false_r]. lia. Qed.
Lemma known_in t h : known t h = bool_decide (h ∈ issued_handles t).
Proof.
  unfold known, issued_handles. destruct (existsb _ _) eqn:E0; symmetry.
  - apply existsb_exists in E0 as (s & Hs & <-%bool_decide_eq_true). apply bool_decide_true, list_elem_of_In. by apply in_map.
  - apply bool_decide_false. intros (s & <- & Hs)%list_elem_of_In%in_map_iff.
    assert (existsb (λ s0, issue_handle s0 === issue_handle s) (web_session t) = true) as E1; [|congruence].
    apply existsb_exists. exists s. split; [done|]. by apply bool_decide_true.
Qed.

(* Agreeing stores resolve every handle alike, at every time. *)
Lemma agree_resolve st t h now : agree st t → MemorySessions.resolve st h now = resolve t h now.
Proof.
  intros [Hnd Hs Hr Ha]. unfold MemorySessions.resolve, resolve. rewrite Hs, (get_keyed issue_handle).
  rewrite (List.filter_ext_in (live t h now (now - SESSION_IDLE_TIMEOUT_MS)) (λ s, (issue_handle s === h) &&
    (negb (revoked t h) && (now <? absolute_expires_at s) &&
     (now - SESSION_IDLE_TIMEOUT_MS <? Z.max (issued_at s) (default (issued_at s) (max_of (activity_of h (web_session_activity t)))))))%bool).
  2:{ intros s _. unfold live. case_bool_decide as E0; [|done]. by rewrite E0. }
  rewrite (head_filter_keyed issue_handle) by done. destruct (List.find _ _) as [s|]; [|done]. cbn [mbind option_bind].
  rewrite Hr, Ha. destruct (revoked t h); [by destruct (negb (now <? _))|]. cbn [negb andb].
  destruct (now <? absolute_expires_at s); [|done]. cbn [negb andb].
  assert ((match max_of (activity_of h (web_session_activity t)) with
           | Some activity => if issued_at s <? activity then activity else issued_at s
           | None => issued_at s end) =
          Z.max (issued_at s) (default (issued_at s) (max_of (activity_of h (web_session_activity t))))) as ->.
  { destruct (max_of _) as [m|]; simpl; [|lia]. destruct (Z.ltb_spec (issued_at s) m); lia. }
  set (last := Z.max _ _). replace (now - last <? SESSION_IDLE_TIMEOUT_MS) with (now - SESSION_IDLE_TIMEOUT_MS <? last) by lia.
  by destruct (_ <? last).
Qed.
Lemma activity_of_app h rows h' x :
  activity_of h (rows ++ [(h', x)]) = if decide (h' = h) then activity_of h rows ++ [x] else activity_of h rows.
Proof.
  unfold activity_of. rewrite List.filter_app, List.map_app. cbn [List.filter fst]. case_decide; subst.
  - by rewrite bool_decide_true.
  - rewrite bool_decide_false by done. apply app_nil_r.
Qed.

Lemma agree_step st t op : agree st t → orderly (account t) (issued_handles t) [op] = true →
  (postgres_op t op).1 = Ret () ∧ agree (memory_op st op) (postgres_op t op).2.
Proof.
  intros [Hnd Hs Hr Ha] Hop. destruct op as [input|h now|h reason|acc reason]; cbn [orderly postgres_op memory_op] in *.
  - rewrite andb_true_r in Hop. apply andb_prop in Hop as [Hadm Hop%negb_true_iff]. unfold PostgresSessions.issue.
    rewrite Hadm, known_in, Hop. cbn [negb]. split; [done|].
    apply bool_decide_eq_false in Hop. constructor; cbn [snd MemorySessions.issue MemorySessions.sessions MemorySessions.revocations MemorySessions.lastActivity].
    + unfold issued_handles. cbn [web_session]. rewrite List.map_app. apply NoDup_app. split_and!; [done| |apply NoDup_singleton].
      by intros x Hx ->%list_elem_of_singleton.
    + cbn [web_session]. rewrite List.map_app, Hs. apply JsMap.set_fresh. rewrite (get_keyed issue_handle).
      destruct (List.find _ _) as [s|] eqn:Hf; [|done]. exfalso. apply find_some in Hf as [Hin E1%bool_decide_eq_true].
      apply Hop. rewrite <- E1. apply list_elem_of_In. by apply in_map.
    + done.
    + done.
  - rewrite andb_true_r in Hop. unfold PostgresSessions.touch, MemorySessions.touch. rewrite known_in, Hop, Ha, exists_above_max.
    destruct (max_of (activity_of h (web_session_activity t))) as [m|] eqn:Hm.
    + change (now - ACTIVITY_DEBOUNCE_MS) with (now - 60000). destruct (Z.ltb_spec (now - 60000) m) as [Hlt|Hge]; [split; [done|by constructor]|].
      split; [done|]. constructor; [done..|]. intros h'. cbn [negb snd web_session_activity MemorySessions.lastActivity].
      rewrite JsMap.get_set, activity_of_app. destruct (decide (h = h')) as [<-|]; [|by apply Ha]. rewrite max_of_app, Hm. f_equal. lia.
    + split; [done|]. constructor; [done..|]. intros h'. cbn [negb snd web_session_activity MemorySessions.lastActivity].
      rewrite JsMap.get_set, activity_of_app. destruct (decide (h = h')) as [<-|]; [|by apply Ha]. by rewrite max_of_app, Hm.
  - rewrite andb_true_r in Hop. split; [done|]. constructor; [done..| |done]. intros h'.
    unfold revoked. cbn [snd PostgresSessions.revoke web_session_revocation MemorySessions.revoke MemorySessions.revocations].
    rewrite has_revoke_handle, revoked_insert, Hr. f_equal. apply bool_decide_eq_true in Hop. apply bool_decide_ext.
    rewrite list_elem_of_In, in_map_iff. unfold issued_handles in Hop. apply list_elem_of_In, in_map_iff in Hop as (s & Es & Hin). split.
    + intros ->. exists s. split; [done|]. apply filter_In. split; [done|by apply bool_decide_true].
    + intros (s' & <- & [_ E1%bool_decide_eq_true]%filter_In). done.
  - split; [done|]. constructor; [done..| |done]. intros h'.
    unfold revoked. cbn [snd PostgresSessions.revokeAllForAccount web_session_revocation MemorySessions.revokeAllForAccount MemorySessions.revocations].
    rewrite has_revoke_handles, revoked_insert, Hr, Hs. f_equal. unfold JsMap.values.
    assert ((List.map (λ s, (issue_handle s, s)) (web_session t)).*2 = web_session t) as ->; [|done].
    clear. induction (web_session t) as [|s l IH]; [done|]. cbn [List.map]. rewrite fmap_cons. by f_equal.
Qed.
Lemma agree_empty accounts : agree MemorySessions.empty (empty accounts).
Proof. constructor; [constructor|done..]. Qed.
Lemma issued_step t op : orderly (account t) (issued_handles t) [op] = true →
  issued_handles (postgres_op t op).2 = match op with Issue input => issued_handles t ++ [issue_handle input] | _ => issued_handles t end.
Proof.
  destruct op; cbn [orderly postgres_op]; intros Hop.
  - apply andb_prop in Hop as [[Hadm Hop]%andb_prop _]. unfold PostgresSessions.issue. rewrite Hadm, known_in. cbn [negb].
    apply negb_true_iff in Hop. rewrite Hop. unfold issued_handles. cbn [snd web_session]. by rewrite List.map_app.
  - unfold PostgresSessions.touch. destruct (existsb _ (activity_of _ _)); [done|]. by destruct (negb _).
  - done.
  - done.
Qed.
Lemma account_step t op : account (postgres_op t op).2 = account t.
Proof.
  destruct op; cbn [postgres_op]; [| |done..].
  - unfold PostgresSessions.issue. destruct (negb _); [done|]. by destruct (known _ _).
  - unfold PostgresSessions.touch. destruct (existsb _ _); [done|]. by destruct (negb _).
Qed.
Lemma orderly_cons accounts issued op ops : orderly accounts issued (op :: ops) = true →
  orderly accounts issued [op] = true ∧
  orderly accounts (match op with Issue input => issue_handle input :: issued | _ => issued end) ops = true.
Proof. destruct op; cbn [orderly]; rewrite ?andb_true_r; [by intros [? ?]%andb_prop..|done]. Qed.
Lemma orderly_perm accounts ops : ∀ issued issued', (∀ h, h ∈ issued ↔ h ∈ issued') →
  orderly accounts issued ops = orderly accounts issued' ops.
Proof.
  induction ops as [|op ops IH]; intros issued issued' Hi; [done|].
  destruct op as [input|h now|h reason|acc reason]; cbn [orderly]; rewrite ?(bool_decide_ext _ _ (Hi _));
    [f_equal; apply IH; intros h; by rewrite !elem_of_cons, Hi|by rewrite (IH issued issued')..].
Qed.
Lemma agree_run ops : ∀ st t, agree st t → orderly (account t) (issued_handles t) ops = true →
  agree (run_memory ops st) (run_postgres ops t).
Proof.
  induction ops as [|op ops IH]; intros st t Hag Hord; [done|]. apply orderly_cons in Hord as [Hop Hord].
  apply IH; [by apply agree_step|]. rewrite account_step, <- Hord. apply orderly_perm. rewrite issued_step by done.
  destruct op; intros h; try reflexivity. rewrite elem_of_app, !elem_of_cons, elem_of_nil. tauto.
Qed.

(** C37. Over every run from empty that issues each handle once, a handle of 64 lower
    case hexadecimal digits and for an account that exists, and touches and revokes
    only issued handles, the memory store and the Postgres store resolve every handle
    to the same session at every time. *)
Theorem session_adapters_agree accounts ops handle now : orderly accounts [] ops = true →
  MemorySessions.resolve (run_memory ops MemorySessions.empty) handle now =
  resolve (run_postgres ops (empty accounts)) handle now.
Proof. intros Hord. apply agree_resolve, agree_run; [apply agree_empty|exact Hord]. Qed.

(** A session resolves exactly while it is issued, not revoked, before its absolute
    expiry, and within the idle timeout of its issue or its latest recorded
    activity. *)
Theorem session_resolves_iff st handle now s :
  MemorySessions.resolve st handle now = Some s ↔
  ∃ row, JsMap.get handle (MemorySessions.sessions st) = Some row ∧ s = resolved row ∧
    JsMap.get handle (MemorySessions.revocations st) = None ∧ now < absolute_expires_at row ∧
    (now < issued_at row + SESSION_IDLE_TIMEOUT_MS ∨
     ∃ activity, JsMap.get handle (MemorySessions.lastActivity st) = Some activity ∧ now < activity + SESSION_IDLE_TIMEOUT_MS).
Proof.
  unfold MemorySessions.resolve. destruct (JsMap.get handle (MemorySessions.sessions st)) as [row|];
    [|split; [done|by intros (row & ? & _)]]. cbn [mbind option_bind].
  destruct (Z.ltb_spec now (absolute_expires_at row)) as [Habs|Habs]; cbn [negb];
    [|split; [done|intros (row' & [= <-] & _ & _ & ? & _); lia]].
  destruct (JsMap.has handle (MemorySessions.revocations st)) eqn:Hrev.
  { split; [done|]. intros (row' & _ & _ & Hnone & _). apply JsMap.has_false in Hnone. congruence. }
  apply JsMap.has_false in Hrev.
  destruct (JsMap.get handle (MemorySessions.lastActivity st)) as [activity|].
  - destruct (Z.ltb_spec (issued_at row) activity); match goal with |- context [?a <? ?b] => destruct (Z.ltb_spec a b) end; cbn [negb];
      (split; [try done; intros [= <-]; exists row; split_and!; try done|intros (row' & [= <-] & -> & _ & _ & [?|(a & [= <-] & ?)]); first [done|lia]]).
    + right. exists activity. split; [done|lia].
    + left. lia.
  - destruct (Z.ltb_spec (now - issued_at row) SESSION_IDLE_TIMEOUT_MS); cbn [negb];
      (split; [try done; intros [= <-]; exists row; split_and!; try done; left; lia
              |intros (row' & [= <-] & -> & _ & _ & [?|(a & ? & ?)]); first [done|lia]]).
Qed.

Module SessionSamples.
Definition handle1 : string := "0123456789abcdef0123456789abcdef0123456789abcdef0123456789abcdef".
Definition accounts1 : list string := ["account:abc"; "account:xyz"]%string.
Definition login : IssueSessionInput :=
  {| issue_handle := handle1; issue_account_id := "account:abc"; issued_at := 0; absolute_expires_at := SESSION_ABSOLUTE_LIFETIME_MS;
     issue_second_factor := satisfied |}.
Definition ops1 : list session_op := [Issue login; Touch handle1 1000000; RevokeAll "account:xyz" operator_revoked].
Lemma session_adapters_agree_witness :
  MemorySessions.resolve (run_memory ops1 MemorySessions.empty) handle1 2000000 = Some (resolved login) ∧
  resolve (run_postgres ops1 (empty accounts1)) handle1 2000000 = Some (resolved login).
Proof. split; [|rewrite <- (session_adapters_agree accounts1 ops1 handle1 2000000)]; by vm_compute. Defined.
Lemma revoked_session_never_resolves_witness :
  MemorySessions.resolve (run_memory ops1 (MemorySessions.revoke MemorySessions.empty handle1 logout)) handle1 5 = None.
Proof.
  apply (revoked_session_never_resolves MemorySessions.empty (run_postgres ops1 (empty accounts1)) handle1 logout ops1 5).
  by vm_compute.
Defined.

(* The table refuses a handle of another shape, and an unknown account, which the
   memory store takes. *)
Example constraints_only_on_postgres :
  (PostgresSessions.issue (empty accounts1) {| issue_handle := "h"; issue_account_id := "account:abc"; issued_at := 0;
     absolute_expires_at := 1; issue_second_factor := satisfied |}).1 = Throw "new row violates a constraint of web_session" ∧
  (PostgresSessions.issue (empty []) login).1 = Throw "new row violates a constraint of web_session".
Proof. by vm_compute. Qed.
End SessionSamples.
