(* ===== verification/Identity.v ===== *)
(** The rest of the identity store (packages/identity-store/src): submission
    credentials, the login throttle, TOTP step claims, and the grant of an actor. *)
From S2P Require Import Prelude Patterns Sessions.

Local Open Scope Z_scope.

(** * Submission credentials *)

Record SubmissionCredential := {
  token_key_id : string; credential_review_id : string; credential_tenant_id : string; customer_id : string;
  selected_application_id : string; selected_commit : string; repository_identity_hash : string;
  expected_manifest_id : string; expected_evidence_bundle_id : option string; credential_secret_hash : string
}.
Record IssueSubmissionCredentialInput := {
  issue_credential : SubmissionCredential; credential_issued_at : Z; expires_at : Z
}.
Inductive CredentialRevocationReason := credential_rotated | credential_operator_revoked | review_closed.
#[export] Instance SubmissionCredential_eq_dec : EqDecision SubmissionCredential.
Proof. solve_decision. Defined.
#[export] Instance IssueSubmissionCredentialInput_eq_dec : EqDecision IssueSubmissionCredentialInput.
Proof. solve_decision. Defined.

Definition already_exists (key : string) : string := ("submission credential already exists: " +:+ key)%string.
Definition key_of (input : IssueSubmissionCredentialInput) : string := token_key_id (issue_credential input).
(* The fields resolve returns: everything but the two dates. *)
Definition asResolved (input : IssueSubmissionCredentialInput) : SubmissionCredential := issue_credential input.

Module MemoryCredentials.
Record store := {
  issued : list (string * IssueSubmissionCredentialInput);
  revocations : list (string * CredentialRevocationReason)
}.
Definition issue (st : store) (input : IssueSubmissionCredentialInput) : throws () * store :=
  if JsMap.has (key_of input) (issued st) then (Throw (already_exists (key_of input)), st)
  else (Ret (), {| issued := JsMap.set (key_of input) input (issued st); revocations := revocations st |}).
Definition resolve (st : store) (tokenKeyId : string) (now : Z) : option SubmissionCredential :=
  row ← JsMap.get tokenKeyId (issued st);
  if JsMap.has tokenKeyId (revocations st) then None
  else if negb (now <? expires_at row) then None
  else Some (asResolved row).
Definition revoke (st : store) (tokenKeyId : string) (reason : CredentialRevocationReason) : store :=
  if (negb (JsMap.has tokenKeyId (issued st)) || JsMap.has tokenKeyId (revocations st))%bool then st
  else {| issued := issued st; revocations := JsMap.set tokenKeyId reason (revocations st) |}.
End MemoryCredentials.

(* ^[a-f0-9]{40}$ *)
Definition COMMIT_PATTERN (s : string) : bool := (all_chars is_hex_char s && (String.length s =? 40)%nat)%bool.
(* submission_credential of infra/migrations/0004_identity_schema.sql *)
Definition credential_constraints (tenants : list string) (c : SubmissionCredential) : bool :=
  (negb (token_key_id c === "") && REVIEW_ID_PATTERN (credential_review_id c)
   && bool_decide (credential_tenant_id c ∈ tenants)
   && negb (customer_id c === "") && negb (selected_application_id c === "")
   && COMMIT_PATTERN (selected_commit c) && SHA256_ID_PATTERN (repository_identity_hash c)
   && SHA256_ID_PATTERN (expected_manifest_id c)
   && match expected_evidence_bundle_id c with Some e => SHA256_ID_PATTERN e | None => true end
   && startsWith "scrypt$" (credential_secret_hash c))%bool.

Module PostgresCredentials.
Record tables := {
  tenants : list string;
  submission_credential : list IssueSubmissionCredentialInput;
  submission_credential_revocation : list (string * CredentialRevocationReason)
}.
Definition known (t : tables) (key : string) : bool := existsb (λ r, key_of r === key) (submission_credential t).
Definition revoked (t : tables) (key : string) : bool :=
  existsb (λ r : string * CredentialRevocationReason, r.1 === key) (submission_credential_revocation t).
(* CHECK constraints are tried before the primary key, the foreign key after it. *)
Definition issue (t : tables) (input : IssueSubmissionCredentialInput) : throws () * tables :=
  if negb (credential_constraints (credential_tenant_id (issue_credential input) :: tenants t) (issue_credential input)) then
    (Throw "violates check constraint", t)
  else if known t (key_of input) then (Throw (already_exists (key_of input)), t)
  else if negb (bool_decide (credential_tenant_id (issue_credential input) ∈ tenants t)) then
    (Throw "insert violates foreign key constraint", t)
  else (Ret (), {| tenants := tenants t; submission_credential := submission_credential t ++ [input];
                   submission_credential_revocation := submission_credential_revocation t |}).
Definition resolve (t : tables) (tokenKeyId : string) (now : Z) : option SubmissionCredential :=
  asResolved <$> head (List.filter (λ c, (key_of c === tokenKeyId) && negb (revoked t (key_of c)) && (now <? expires_at c))%bool
    (submission_credential t)).
Definition revoke (t : tables) (tokenKeyId : string) (reason : CredentialRevocationReason) : tables :=
  {| tenants := tenants t; submission_credential := submission_credential t;
     submission_credential_revocation :=
       if (known t tokenKeyId && negb (revoked t tokenKeyId))%bool
       then submission_credential_revocation t ++ [(tokenKeyId, reason)] else submission_credential_revocation t |}.
End PostgresCredentials.

Inductive credential_op :=
  | IssueCredential (input : IssueSubmissionCredentialInput)
  | RevokeCredential (key : string) (reason : CredentialRevocationReason)
  | ResolveCredential (key : string) (now : Z).
Inductive credential_out := out_issue (r : throws ()) | out_done | out_resolved (c : option SubmissionCredential).
Definition memory_credential_op (st : MemoryCredentials.store) (op : credential_op) : credential_out * MemoryCredentials.store :=
  match op with
  | IssueCredential input => let '(r, st') := MemoryCredentials.issue st input in (out_issue r, st')
  | RevokeCredential key reason => (out_done, MemoryCredentials.revoke st key reason)
  | ResolveCredential key now => (out_resolved (MemoryCredentials.resolve st key now), st)
  end.
Definition postgres_credential_op (t : PostgresCredentials.tables) (op : credential_op) : credential_out * PostgresCredentials.tables :=
  match op with
  | IssueCredential input => let '(r, t') := PostgresCredentials.issue t input in (out_issue r, t')
  | RevokeCredential key reason => (out_done, PostgresCredentials.revoke t key reason)
  | ResolveCredential key now => (out_resolved (PostgresCredentials.resolve t key now), t)
  end.
(* Runs any operation type over any state, collecting the outputs. *)
Fixpoint run_ops {S O R} (step : S → O → R * S) (ops : list O) (s : S) : list R * S :=
  match ops with
  | [] => ([], s)
  | op :: ops' => let '(r, s') := step s op in let '(rs, s'') := run_ops step ops' s' in (r :: rs, s'')
  end.
(* Two systems whose steps agree on a relation agree on every run. *)
Lemma run_ops_agree {S T O R} (step : S → O → R * S) (step' : T → O → R * T) (rel : S → T → Prop) (ok : O → Prop) :
  (∀ s t op, rel s t → ok op → (step s op).1 = (step' t op).1 ∧ rel (step s op).2 (step' t op).2) →
  ∀ ops s t, rel s t → Forall ok ops → (run_ops step ops s).1 = (run_ops step' ops t).1.
Proof.
  intros Hstep ops. induction ops as [|op ops IH]; intros s t Hrel Hok; [done|]. apply Forall_cons in Hok as [Hop Hok].
  destruct (Hstep s t op Hrel Hop) as [E1 Hrel']. cbn [run_ops]. specialize (IH _ _ Hrel' Hok).
  destruct (step s op) as [r s'], (step' t op) as [r' t']. simpl in *. subst r'.
  destruct (run_ops step ops s') as [rs s''], (run_ops step' ops t') as [rs' t'']. simpl in *. by subst rs'.
Qed.

Record credentials_agree (st : MemoryCredentials.store) (t : PostgresCredentials.tables) : Prop := {
  credentials_keys : NoDup (List.map key_of (PostgresCredentials.submission_credential t));
  credentials_issued : MemoryCredentials.issued st = List.map (λ c, (key_of c, c)) (PostgresCredentials.submission_credential t);
  credentials_revoked : ∀ k, JsMap.has k (MemoryCredentials.revocations st) = PostgresCredentials.revoked t k
}.
Definition storable_op (tenants : list string) (op : credential_op) : Prop :=
  match op with IssueCredential input => credential_constraints tenants (issue_credential input) = true | _ => True end.

Lemma known_find t k : PostgresCredentials.known t k =
  match List.find (λ c, key_of c === k) (PostgresCredentials.submission_credential t) with Some _ => true | None => false end.
Proof.
  unfold PostgresCredentials.known. induction (PostgresCredentials.submission_credential t) as [|c l IH]; [done|].
  cbn [existsb List.find]. by destruct (key_of c === k).
Qed.
Lemma has_credential st t k : credentials_agree st t → JsMap.has k (MemoryCredentials.issued st) = PostgresCredentials.known t k.
Proof.
  intros [_ Hi _]. rewrite Hi, known_find. destruct (JsMap.has k _) eqn:E0.
  - apply JsMap.has_true in E0 as [c E0]. rewrite (get_keyed key_of) in E0. by rewrite E0.
  - apply JsMap.has_false in E0. rewrite (get_keyed key_of) in E0. by rewrite E0.
Qed.
Lemma constraints_known_tenant ts c : credential_constraints ts c = true →
  credential_tenant_id c ∈ ts ∧ credential_constraints (credential_tenant_id c :: ts) c = true.
Proof.
  intros Hc. assert (credential_tenant_id c ∈ ts) as Hin by (unfold credential_constraints in Hc; bool_simpl; done).
  split; [done|]. revert Hc. unfold credential_constraints. rewrite (bool_decide_true (_ ∈ ts)) by done.
  by rewrite (bool_decide_true (_ ∈ _ :: ts)) by apply list_elem_of_here.
Qed.

Lemma credential_step st t op : credentials_agree st t → storable_op (PostgresCredentials.tenants t) op →
  (memory_credential_op st op).1 = (postgres_credential_op t op).1 ∧
  credentials_agree (memory_credential_op st op).2 (postgres_credential_op t op).2 ∧
  PostgresCredentials.tenants (postgres_credential_op t op).2 = PostgresCredentials.tenants t.
Proof.
  intros Hag Hok. pose proof Hag as [Hnd Hi Hr]. destruct op as [input|key reason|key now]; cbn [memory_credential_op postgres_credential_op].
  - unfold MemoryCredentials.issue, PostgresCredentials.issue. rewrite (has_credential st t) by done. simpl in Hok.
    apply constraints_known_tenant in Hok as [Hin ->]. cbn [negb]. rewrite (bool_decide_true (_ ∈ _)) by done. cbn [negb].
    destruct (PostgresCredentials.known t (key_of input)) eqn:Hk; [done|]. split; [done|]. split; [|done].
    rewrite known_find in Hk. destruct (List.find _ _) as [c|] eqn:Hf; [done|]. constructor; cbn [snd MemoryCredentials.issued
      MemoryCredentials.revocations PostgresCredentials.submission_credential].
    + rewrite List.map_app. apply NoDup_app. split_and!; [done| |apply NoDup_singleton].
      intros x Hx ->%list_elem_of_singleton. by apply (find_keyed_None key_of) in Hf.
    + rewrite List.map_app, Hi. apply JsMap.set_fresh. by rewrite (get_keyed key_of).
    + exact Hr.
  - split; [done|]. split; [|done]. unfold MemoryCredentials.revoke. rewrite (has_credential st t), Hr by done.
    constructor; cbn [snd PostgresCredentials.revoke PostgresCredentials.submission_credential].
    + done.
    + by destruct (_ || _)%bool.
    + intros k. change (PostgresCredentials.revoked (PostgresCredentials.revoke t key reason) k) with
        (existsb (λ r : string * CredentialRevocationReason, r.1 === k)
          (if (PostgresCredentials.known t key && negb (PostgresCredentials.revoked t key))%bool
           then PostgresCredentials.submission_credential_revocation t ++ [(key, reason)]
           else PostgresCredentials.submission_credential_revocation t)).
      destruct (PostgresCredentials.known t key); [|exact (Hr k)].
      destruct (PostgresCredentials.revoked t key) eqn:Erev; [exact (Hr k)|]. cbn [negb orb andb MemoryCredentials.revocations].
      rewrite existsb_app. cbn [existsb fst]. rewrite orb_false_r. specialize (Hr k). unfold PostgresCredentials.revoked in Hr.
      rewrite <- Hr. unfold JsMap.has. rewrite <- bool_decide_or. apply bool_decide_ext. rewrite JsMap.get_set.
      case_decide as Ek; [subst|]; split; try (intros _; eauto; done); try tauto.
  - split; [|done]. cbn [fst]. f_equal. unfold MemoryCredentials.resolve, PostgresCredentials.resolve. rewrite Hi, (get_keyed key_of).
    rewrite (List.filter_ext_in _ (λ c, (key_of c === key) && (negb (PostgresCredentials.revoked t key) && (now <? expires_at c)))%bool).
    2:{ intros c _. case_bool_decide as E0; [by rewrite E0|done]. }
    rewrite (head_filter_keyed key_of) by done. destruct (List.find _ _) as [c|]; [|done]. cbn [mbind option_bind]. rewrite Hr.
    destruct (PostgresCredentials.revoked t key); [done|]. by destruct (now <? expires_at c).
Qed.

(** Over every sequence of issues, revocations and resolutions whose credentials
    satisfy the table constraints, the memory and the Postgres credential stores give
    the same answers, the error of a duplicate key included. *)
Theorem credential_adapters_agree ts ops : Forall (storable_op ts) ops →
  (run_ops memory_credential_op ops {| MemoryCredentials.issued := []; MemoryCredentials.revocations := [] |}).1 =
  (run_ops postgres_credential_op ops {| PostgresCredentials.tenants := ts; PostgresCredentials.submission_credential := [];
     PostgresCredentials.submission_credential_revocation := [] |}).1.
Proof.
  intros Hok. apply (run_ops_agree _ _ (λ st t, credentials_agree st t ∧ PostgresCredentials.tenants t = ts) (storable_op ts)); [| |done].
  - intros st t op [Hag Ht] Hop. rewrite <- Ht in Hop. destruct (credential_step st t op Hag Hop) as (? & ? & E0). split; [done|].
    split; [done|congruence].
  - split; [|done]. constructor; [constructor|done..].
Qed.

(** * The login throttle (memory/login-throttle.ts, postgres/login-throttle.ts) *)

Definition LOGIN_LOCKOUT_THRESHOLD : Z := 5.
Definition LOGIN_LOCKOUT_WINDOW_MS : Z := 15 * 60 * 1000.
Inductive login_outcome := succeeded | failed.
Inductive throttle_state := open | locked.
Record Attempt := { outcome : login_outcome; occurred_at : Z }.
#[export] Instance login_outcome_eq_dec : EqDecision login_outcome.
Proof. solve_decision. Defined.

Module MemoryThrottle.
Abbreviation store := (list (string * list Attempt)).
Definition list_of (attempts : store) (key : string) : list Attempt := default [] (JsMap.get key attempts).
(* clock() is the time of the call. *)
Definition record (attempts : store) (key : string) (o : login_outcome) (clock : Z) : store :=
  JsMap.set key (list_of attempts key ++ [{| outcome := o; occurred_at := clock |}]) attempts.
Fixpoint last_success (lastSuccessMs : option Z) (l : list Attempt) : option Z :=
  match l with
  | [] => lastSuccessMs
  | attempt :: l' =>
      last_success
        (if outcome attempt === succeeded then
           match lastSuccessMs with
           | Some m => if m <? occurred_at attempt then Some (occurred_at attempt) else lastSuccessMs
           | None => Some (occurred_at attempt)
           end
         else lastSuccessMs) l'
  end.
Definition failures_after (cutoff : Z) (l : list Attempt) : Z :=
  Z.of_nat (length (List.filter (λ a, (outcome a === failed) && (cutoff <? occurred_at a))%bool l)).
Definition state (attempts : store) (key : string) (now : Z) : throttle_state :=
  let windowStart := now - LOGIN_LOCKOUT_WINDOW_MS in
  let cutoff := match last_success None (list_of attempts key) with Some m => Z.max windowStart m | None => windowStart end in
  if LOGIN_LOCKOUT_THRESHOLD <=? failures_after cutoff (list_of attempts key) then locked else open.
End MemoryThrottle.

Module PostgresThrottle.
(* login_attempt: identifier_hash, outcome, occurred_at *)
Abbreviation table := (list (string * Attempt)).
Definition of_key (key : string) (t : table) : list Attempt :=
  List.map snd (List.filter (λ r : string * Attempt, r.1 === key) t).
Definition record (t : table) (key : string) (o : login_outcome) (clock : Z) : throws () * table :=
  if negb (SHA256_HEX_PATTERN key) then (Throw "violates check constraint", t)
  else (Ret (), t ++ [(key, {| outcome := o; occurred_at := clock |})]).
Definition max_success (key : string) (t : table) : option Z :=
  PostgresSessions.max_of (List.map occurred_at (List.filter (λ a, outcome a === succeeded) (of_key key t))).
Definition state (t : table) (key : string) (now : Z) : throttle_state :=
  let cutoff := match max_success key t with Some m => Z.max (now - 15 * 60 * 1000) m | None => now - 15 * 60 * 1000 end in
  let failures := Z.of_nat (length (List.filter (λ a, (outcome a === failed) && (cutoff <? occurred_at a))%bool (of_key key t))) in
  if LOGIN_LOCKOUT_THRESHOLD <=? failures then locked else open.
End PostgresThrottle.

Inductive throttle_op := RecordLogin (key : string) (o : login_outcome) (clock : Z) | LoginState (key : string) (now : Z).
Definition memory_throttle_op (st : MemoryThrottle.store) (op : throttle_op) : option throttle_state * MemoryThrottle.store :=
  match op with
  | RecordLogin key o clock => (None, MemoryThrottle.record st key o clock)
  | LoginState key now => (Some (MemoryThrottle.state st key now), st)
  end.
Definition postgres_throttle_op (t : PostgresThrottle.table) (op : throttle_op) : option throttle_state * PostgresThrottle.table :=
  match op with
  | RecordLogin key o clock => (None, (PostgresThrottle.record t key o clock).2)
  | LoginState key now => (Some (PostgresThrottle.state t key now), t)
  end.
Definition hashed_key (op : throttle_op) : Prop :=
  match op with RecordLogin key _ _ => SHA256_HEX_PATTERN key = true | LoginState _ _ => True end.

Definition max_option (a b : option Z) : option Z :=
  match a, b with Some x, Some y => Some (Z.max x y) | Some x, None => Some x | None, b => b end.
Lemma last_success_max l : ∀ m, MemoryThrottle.last_success m l =
  max_option m (PostgresSessions.max_of (List.map occurred_at (List.filter (λ a, outcome a === succeeded) l))).
Proof.
  induction l as [|a l IH]; intros m; [by destruct m|]. cbn [MemoryThrottle.last_success List.filter]. rewrite IH.
  case_bool_decide; [|done]. cbn [List.map PostgresSessions.max_of].
  destruct m as [x|], (PostgresSessions.max_of _) as [y|]; cbn [max_option].
  - destruct (Z.ltb_spec x (occurred_at a)); cbn [max_option]; f_equal; lia.
  - destruct (Z.ltb_spec x (occurred_at a)); cbn [max_option]; f_equal; lia.
  - done.
  - done.
Qed.
Definition throttles_agree (st : MemoryThrottle.store) (t : PostgresThrottle.table) : Prop :=
  ∀ key, MemoryThrottle.list_of st key = PostgresThrottle.of_key key t.
Lemma throttle_state_agree st t key now :
  MemoryThrottle.list_of st key = PostgresThrottle.of_key key t → MemoryThrottle.state st key now = PostgresThrottle.state t key now.
Proof.
  intros E0. unfold MemoryThrottle.state, PostgresThrottle.state, MemoryThrottle.failures_after, PostgresThrottle.max_success.
  rewrite E0, last_success_max. done.
Qed.

(** Over every sequence of recorded logins under hashed keys and state queries, in
    any order of clocks, the two throttles give the same answers. *)
Theorem throttle_adapters_agree ops : Forall hashed_key ops →
  (run_ops memory_throttle_op ops []).1 = (run_ops postgres_throttle_op ops []).1.
Proof.
  intros Hok. apply (run_ops_agree _ _ throttles_agree hashed_key); [|by intros key|done].
  intros st t op Hag Hop. destruct op as [key o clock|key now]; cbn [memory_throttle_op postgres_throttle_op fst snd].
  - split; [done|]. unfold PostgresThrottle.record. simpl in Hop. rewrite Hop. cbn [negb snd]. intros k.
    unfold MemoryThrottle.record, MemoryThrottle.list_of at 1. rewrite JsMap.get_set.
    unfold PostgresThrottle.of_key. rewrite List.filter_app, List.map_app. cbn [List.filter fst]. case_decide as Ek.
    + subst k. rewrite bool_decide_true by done. cbn [from_option List.map snd]. unfold id. f_equal. apply (Hag key).
    + rewrite bool_decide_false by done. cbn [List.map]. rewrite app_nil_r. apply (Hag k).
  - split; [|done]. f_equal. apply throttle_state_agree, Hag.
Qed.

(** A key is locked exactly when at least five of its failures are later than both
    the start of the fifteen-minute window and its last success. *)
Theorem throttle_locked_iff st key now :
  MemoryThrottle.state st key now = locked ↔
  5 ≤ Z.of_nat (length (List.filter (λ a, (outcome a === failed) && (now - 900000 <? occurred_at a) &&
        forallb (λ s, negb (outcome s === succeeded) || (occurred_at s <? occurred_at a)) (MemoryThrottle.list_of st key))%bool
      (MemoryThrottle.list_of st key))).
Proof.
  unfold MemoryThrottle.state, MemoryThrottle.failures_after, LOGIN_LOCKOUT_WINDOW_MS, LOGIN_LOCKOUT_THRESHOLD.
  rewrite last_success_max. cbn [max_option].
  set (l := MemoryThrottle.list_of st key). change (15 * 60 * 1000) with 900000.
  assert (∀ x, (match PostgresSessions.max_of (List.map occurred_at (List.filter (λ a, outcome a === succeeded) l)) with
      | Some m => Z.max (now - 900000) m | None => now - 900000 end <? x)
    = ((now - 900000 <? x) && forallb (λ s, negb (outcome s === succeeded) || (occurred_at s <? x)) l)%bool) as Hcut.
  { intros x. induction l as [|s l' IH]; [by rewrite andb_true_r|]. cbn [List.filter forallb].
    destruct (outcome s === succeeded); cbn [negb orb List.map PostgresSessions.max_of]; [|exact IH].
    destruct (PostgresSessions.max_of _) as [m|]; [|].
    - rewrite <- (andb_comm _ (occurred_at s <? x)), (andb_assoc (now - 900000 <? x)). rewrite andb_comm. revert IH.
      destruct (forallb _ l'); intros IH; rewrite ?andb_true_r, ?andb_false_r in *; lia.
    - revert IH. destruct (forallb _ l'); intros IH; rewrite ?andb_true_r, ?andb_false_r in *; lia. }
  rewrite (List.filter_ext _ (λ a, (outcome a === failed) && (now - 900000 <? occurred_at a) &&
    forallb (λ s, negb (outcome s === succeeded) || (occurred_at s <? occurred_at a)) l)%bool).
  2:{ intros a. by rewrite Hcut, andb_assoc. }
  destruct (Z.leb_spec 5 (Z.of_nat (length (List.filter (λ a, (outcome a === failed) && (now - 900000 <? occurred_at a) &&
    forallb (λ s, negb (outcome s === succeeded) || (occurred_at s <? occurred_at a)) l)%bool l)))); split; try done; lia.
Qed.

(** * Accounts and TOTP steps (memory/account-store.ts, postgres/account-store.ts) *)

Inductive Role := customer_admin | customer_viewer | codeattest_reviewer | codeattest_ops | evidence_consumer_static.
#[export] Instance Role_eq_dec : EqDecision Role.
Proof. solve_decision. Defined.
Record RoleGrant := { grant_account_id : string; grant_role : Role; review_scope : option string }.
Record AccountRecord := {
  account_id : string; account_tenant_id : string; identifier : string; account_secret_hash : string;
  totp_secret_box : option string
}.
Inductive claim := claimed | replayed.
#[export] Instance claim_eq_dec : EqDecision claim.
Proof. solve_decision. Defined.

Module MemoryAccounts.
Record store := {
  byId : list (string * AccountRecord);
  byIdentifier : list (string * AccountRecord);
  grantsByAccount : list (string * list RoleGrant);
  lastTotpStep : list (string * Z)
}.
Definition findByIdentifier (st : store) (i : string) : option AccountRecord := JsMap.get i (byIdentifier st).
Definition findById (st : store) (id : string) : option AccountRecord := JsMap.get id (byId st).
Definition grantsFor (st : store) (id : string) : list RoleGrant := default [] (JsMap.get id (grantsByAccount st)).
Definition claimTotpStep (st : store) (id : string) (step : Z) : claim * store :=
  if match JsMap.get id (lastTotpStep st) with Some last => step <=? last | None => false end then (replayed, st)
  else (claimed, {| byId := byId st; byIdentifier := byIdentifier st; grantsByAccount := grantsByAccount st;
                    lastTotpStep := JsMap.set id step (lastTotpStep st) |}).
Definition seed (st : store) (account : AccountRecord) (grants : list RoleGrant) : store :=
  {| byId := JsMap.set (account_id account) account (byId st);
     byIdentifier := JsMap.set (identifier account) account (byIdentifier st);
     grantsByAccount := JsMap.set (account_id account) grants (grantsByAccount st);
     lastTotpStep := lastTotpStep st |}.
End MemoryAccounts.

Module PostgresAccounts.
Record tables := {
  account : list AccountRecord; account_role_grant : list RoleGrant; totp_step_use : list (string * Z)
}.
Definition findByIdentifier (t : tables) (i : string) : option AccountRecord :=
  head (List.filter (λ a, identifier a === i) (account t)).
Definition findById (t : tables) (id : string) : option AccountRecord := head (List.filter (λ a, account_id a === id) (account t)).
Definition grantsFor (t : tables) (id : string) : list RoleGrant := List.filter (λ g, grant_account_id g === id) (account_role_grant t).
(* The step column holds non-negative steps of known accounts. *)
Definition claimTotpStep (t : tables) (id : string) (step : Z) : throws claim * tables :=
  if existsb (λ u : string * Z, (u.1 === id) && (step <=? u.2))%bool (totp_step_use t) then (Ret replayed, t)
  else if step <? 0 then (Throw "violates check constraint", t)
  else if negb (existsb (λ a, account_id a === id) (account t)) then (Throw "insert violates foreign key constraint", t)
  else (Ret claimed, {| account := account t; account_role_grant := account_role_grant t;
                        totp_step_use := totp_step_use t ++ [(id, step)] |}).
End PostgresAccounts.

(* Claims of one account, in order, with their steps. *)
Fixpoint claimed_steps (st : MemoryAccounts.store) (id : string) (steps : list (string * Z)) : list Z :=
  match steps with
  | [] => []
  | (a, step) :: steps' =>
      let '(c, st') := MemoryAccounts.claimTotpStep st a step in
      if ((a === id) && (c === claimed))%bool then step :: claimed_steps st' id steps' else claimed_steps st' id steps'
  end.

(** Whatever codes are presented for whatever accounts, the time steps that sign one
    account in strictly increase: no code signs in twice. *)
Theorem totp_steps_strictly_increase st id steps : StronglySorted Z.lt (claimed_steps st id steps).
Proof.
  assert (StronglySorted Z.lt (claimed_steps st id steps) ∧
    ∀ last, JsMap.get id (MemoryAccounts.lastTotpStep st) = Some last → Forall (λ s, last < s) (claimed_steps st id steps)) as [H _]; [|done].
  revert st. induction steps as [|[a step] steps IH]; intros st; [repeat constructor|]. cbn [claimed_steps].
  unfold MemoryAccounts.claimTotpStep. destruct (match JsMap.get a (MemoryAccounts.lastTotpStep st) with Some _ => _ | None => _ end) eqn:Hr.
  { rewrite (bool_decide_false (replayed = claimed)) by done. rewrite andb_false_r. apply IH. }
  rewrite (bool_decide_true (claimed = claimed)) by done. rewrite andb_true_r.
  destruct (IH {| MemoryAccounts.byId := MemoryAccounts.byId st; MemoryAccounts.byIdentifier := MemoryAccounts.byIdentifier st;
    MemoryAccounts.grantsByAccount := MemoryAccounts.grantsByAccount st;
    MemoryAccounts.lastTotpStep := JsMap.set a step (MemoryAccounts.lastTotpStep st) |}) as [Hs Hlast].
  cbn [MemoryAccounts.lastTotpStep] in Hlast. case_bool_decide as Ea.
  - subst a. specialize (Hlast step). rewrite JsMap.get_set_eq in Hlast. specialize (Hlast eq_refl). split; [by constructor|].
    intros last El. rewrite El in Hr. constructor; [lia|]. eapply Forall_impl; [exact Hlast|]. simpl. lia.
  - split; [done|]. intros last El. apply Hlast. by rewrite JsMap.get_set_ne.
Qed.

(* The steps used by an account, in either store. *)
Record accounts_agree (st : MemoryAccounts.store) (t : PostgresAccounts.tables) : Prop := {
  steps_agree : ∀ id, JsMap.get id (MemoryAccounts.lastTotpStep st) =
    PostgresSessions.max_of (PostgresSessions.activity_of id (PostgresAccounts.totp_step_use t))
}.
(** One claim of a non-negative step of a known account has the same result in the
    memory and the Postgres account store, and leaves them in agreement. *)
Theorem totp_claims_agree st t id step :
  accounts_agree st t → 0 ≤ step → existsb (λ a, account_id a === id) (PostgresAccounts.account t) = true →
  (PostgresAccounts.claimTotpStep t id step).1 = Ret (MemoryAccounts.claimTotpStep st id step).1 ∧
  accounts_agree (MemoryAccounts.claimTotpStep st id step).2 (PostgresAccounts.claimTotpStep t id step).2.
Proof.
  intros [Hag] Hstep Hknown. unfold PostgresAccounts.claimTotpStep, MemoryAccounts.claimTotpStep.
  assert (existsb (λ u : string * Z, (u.1 === id) && (step <=? u.2))%bool (PostgresAccounts.totp_step_use t) =
    match JsMap.get id (MemoryAccounts.lastTotpStep st) with Some last => step <=? last | None => false end) as ->.
  { rewrite Hag. clear. induction (PostgresAccounts.totp_step_use t) as [|[a x] l IH]; [done|]. cbn [existsb fst snd]. rewrite IH.
    unfold PostgresSessions.activity_of. cbn [List.filter fst]. case_bool_decide; cbn [andb orb List.map PostgresSessions.max_of snd]; [|done].
    destruct (PostgresSessions.max_of _); [|by rewrite orb_false_r]. lia. }
  destruct (match JsMap.get id (MemoryAccounts.lastTotpStep st) with Some _ => _ | None => _ end) eqn:Hr; [done|].
  destruct (Z.ltb_spec step 0); [lia|]. rewrite Hknown. cbn [negb fst snd]. split; [done|]. constructor. intros k.
  cbn [MemoryAccounts.lastTotpStep PostgresAccounts.totp_step_use]. rewrite JsMap.get_set, activity_of_app.
  destruct (decide (id = k)) as [<-|]; [|apply Hag]. rewrite max_of_app. rewrite Hag in Hr.
  destruct (PostgresSessions.max_of _) as [m|]; f_equal. lia.
Qed.

(** * Actors and grants (actor.ts) *)

Inductive ActorKind := actor_customer_user | actor_reviewer | actor_vendor_service | actor_local_runner.
Definition actorTypeForRole (role : Role) : ActorKind :=
  match role with
  | customer_admin | customer_viewer => actor_customer_user
  | codeattest_reviewer => actor_reviewer
  | codeattest_ops | evidence_consumer_static => actor_vendor_service
  end.
Fixpoint select_loop (tenantWide : option RoleGrant) (grants : list RoleGrant) (reviewScope : string) : option RoleGrant :=
  match grants with
  | [] => tenantWide
  | grant :: grants' =>
      if review_scope grant === Some reviewScope then Some grant
      else select_loop (match review_scope grant, tenantWide with None, None => Some grant | _, _ => tenantWide end) grants' reviewScope
  end.
Definition selectGrant (grants : list RoleGrant) (reviewScope : string) : option RoleGrant := select_loop None grants reviewScope.

(** The selected grant belongs to the actor and covers the review; a grant scoped to
    the review wins over every tenant-wide one, the first tenant-wide grant wins
    otherwise, and nothing is selected exactly when no grant covers the review. *)
Theorem selectGrant_prefers_scope grants scope :
  selectGrant grants scope =
    match List.find (λ g, review_scope g === Some scope) grants with
    | Some g => Some g
    | None => List.find (λ g, review_scope g === None) grants
    end.
Proof.
  unfold selectGrant. assert (∀ wide, select_loop wide grants scope =
    match List.find (λ g, review_scope g === Some scope) grants with
    | Some g => Some g
    | None => match wide with Some w => Some w | None => List.find (λ g, review_scope g === None) grants end
    end) as Hgen; [|apply Hgen].
  induction grants as [|g grants IH]; intros wide; [by destruct wide|]. cbn [select_loop List.find].
  destruct (review_scope g === Some scope) eqn:E0; [done|]. rewrite IH. destruct (List.find _ grants); [done|].
  destruct wide as [w|]; [by destruct (review_scope g)|]. by destruct (review_scope g).
Qed.

(** * Sample accounts and credentials *)

Module IdentitySamples.
Definition hex40 : string := "0123456789abcdef0123456789abcdef01234567".
Definition id64 : string := "sha256:0123456789abcdef0123456789abcdef0123456789abcdef0123456789abcdef".
Definition credential1 : SubmissionCredential :=
  {| token_key_id := "key"; credential_review_id := "review:aaa"; credential_tenant_id := "tenant"; customer_id := "customer";
     selected_application_id := "app"; selected_commit := hex40; repository_identity_hash := id64; expected_manifest_id := id64;
     expected_evidence_bundle_id := None; credential_secret_hash := "scrypt$1" |}.
Definition issue1 : IssueSubmissionCredentialInput :=
  {| issue_credential := credential1; credential_issued_at := 0; expires_at := 100 |}.
Definition credential_ops : list credential_op :=
  [IssueCredential issue1; IssueCredential issue1; ResolveCredential "key" 99; RevokeCredential "key" review_closed;
   ResolveCredential "key" 99].
Definition no_credentials (ts : list string) : PostgresCredentials.tables :=
  {| PostgresCredentials.tenants := ts; PostgresCredentials.submission_credential := [];
     PostgresCredentials.submission_credential_revocation := [] |}.
Lemma credential_adapters_agree_witness :
  (run_ops postgres_credential_op credential_ops (no_credentials ["tenant"])).1 =
  [out_issue (Ret ()); out_issue (Throw (already_exists "key")); out_resolved (Some credential1); out_done; out_resolved None].
Proof.
  unfold no_credentials. rewrite <- (credential_adapters_agree ["tenant"] credential_ops); [by vm_compute|].
  repeat constructor; by vm_compute.
Defined.

Definition client : string := "0123456789abcdef0123456789abcdef0123456789abcdef0123456789abcdef".
Definition throttle_ops : list throttle_op :=
  [RecordLogin client failed 1; RecordLogin client failed 2; RecordLogin client failed 3; RecordLogin client failed 4;
   RecordLogin client failed 5; LoginState client 6; LoginState client 900001].
Lemma throttle_adapters_agree_witness :
  (run_ops postgres_throttle_op throttle_ops []).1 = [None; None; None; None; None; Some locked; Some open].
Proof.
  rewrite <- (throttle_adapters_agree throttle_ops); [by vm_compute|]. repeat constructor; by vm_compute.
Defined.

Definition no_steps : MemoryAccounts.store :=
  {| MemoryAccounts.byId := []; MemoryAccounts.byIdentifier := []; MemoryAccounts.grantsByAccount := []; MemoryAccounts.lastTotpStep := [] |}.
Definition account1 : AccountRecord :=
  {| account_id := "account:abc"; account_tenant_id := "tenant"; identifier := "a"; account_secret_hash := "scrypt$1"; totp_secret_box := None |}.
Definition one_account : PostgresAccounts.tables :=
  {| PostgresAccounts.account := [account1]; PostgresAccounts.account_role_grant := []; PostgresAccounts.totp_step_use := [] |}.
Lemma totp_claims_agree_witness :
  (PostgresAccounts.claimTotpStep one_account "account:abc" 7).1 = Ret (MemoryAccounts.claimTotpStep no_steps "account:abc" 7).1.
Proof. apply (totp_claims_agree no_steps one_account "account:abc" 7); [by constructor|lia|by vm_compute]. Defined.
End IdentitySamples.
